(* ===== verification/_CoqProject ===== *)
-Q . S2P
Prelude.v
SpdmDefs.v
CommonSupport.v
CryptLib.v
SecuredContext.v
SecuredSession.v
SecuredMessage.v
SpdmContext.v
SessionTable.v
Version.v
OpaqueData.v
Messages.v
KeyUpdate.v
Connection.v
Algorithms.v
Maintenance.v
Transport.v
InPlace.v
Bindings.v
Storage.v
SendReceive.v
Handlers.v
Responder.v
Transcript.v
PskSession.v
TransportProps.v
StorageProps.v
KeyUpdateProps.v
ChunkProps.v
ConnectionProps.v
AlgorithmsProps.v
PskFacts.v
PskProps.v
SessionIdProps.v
