(* ===== verification/Prelude.v ===== *)
(** * A verification of libspdm

    libspdm implements the SPDM protocol (DMTF DSP0274), with secured messages
    (DSP0277), for two endpoints: a requester and a responder exchange messages
    over a transport, set up a connection (GET_VERSION, GET_CAPABILITIES,
    NEGOTIATE_ALGORITHMS), authenticate, open sessions and use them.  This
    library models the parts below as executable functions on explicit states
    and proves what makes them correct.

    ** Conventions

    A C function becomes a function of its name that takes the state it reads
    and returns the state it leaves, its status and its results.  [exec] (this
    file) is the monad of C code: [Ret], or [Fault OutOfBounds] for an access
    outside of a buffer, or [Fault AssertFailed] for a LIBSPDM_ASSERT that does
    not hold in a build with assertions ([BuildConfig]).  A buffer is the list of
    its bytes, read and written by [load] and [store] with their bounds; machine
    integers are [Z] with [u8], [u16], [u32] and [u64] written where C wraps.
    Early returns are [RETURN .. IF] and [TAIL .. IF].  Hosts are little-endian
    with 64-bit size_t, the configuration is the default one of
    include/library/spdm_lib_config.h (every algorithm and capability built in,
    LIBSPDM_RECORD_TRANSCRIPT_DATA_SUPPORT off, no message log), and callbacks of
    the integrator are [notification]s in the order they are made.

    ** Parts, files and sources (under src/library unless said otherwise)

    - SpdmDefs: constants of include/industry_standard/spdm.h, status values.
    - CommonSupport (spdm_common_lib/libspdm_com_support.c): integer access,
      managed buffers, masks, registry checks.
    - CryptLib (spdm_crypt_lib): algorithm sizes, AEAD, HKDF and random number
      dispatch over the class [CryptoHal], the key schedule.
    - SecuredContext, SecuredSession, SecuredMessage
      (spdm_secured_message_lib/libspdm_secmes_context_data.c, .._session.c,
      .._encode_decode.c): the state of a session, its keys and key updates, and
      the encoding and decoding of secured messages.
    - SpdmContext, SessionTable, Version, OpaqueData (spdm_common_lib/
      libspdm_com_context_data.c, .._context_data_session.c, .._opaque_data.c):
      the connection context, the table of sessions, version negotiation and the
      opaque data of the session-opening messages.
    - Messages, KeyUpdate, Maintenance, Handlers: ERROR responses and response
      states, KEY_UPDATE of both endpoints, HEARTBEAT and END_SESSION,
      CHUNK_SEND, CHUNK_GET and RESPOND_IF_READY (spdm_requester_lib,
      spdm_responder_lib).
    - Connection, Algorithms: the messages of the set-up of a connection for both
      endpoints, the reset of a context, and libspdm_init_connection
      (libspdm_req_get_version.c, libspdm_req_get_capabilities.c,
      libspdm_req_negotiate_algorithms.c, libspdm_req_communication.c,
      libspdm_rsp_version.c, libspdm_rsp_capabilities.c,
      libspdm_rsp_algorithms.c).
    - Transport, Bindings (spdm_transport_*_lib): the layer over a binding
      ([TransportBinding], laws [TransportBindingOk]) and its MCTP, TCP and PCI
      DOE instances.
    - InPlace, Storage (os_stub/memlib/copy_mem.c, spdm_transport_storage_lib):
      the encoding of a record inside of one memory, with the overlap rules of
      libspdm_copy_mem, and the storage binding with its own layer, descriptors
      and management commands.
    - SendReceive (libspdm_req_send_receive.c): the requester's input and output;
      an instance of [RequesterChannel], over which the requester's messages are
      written.  Responder (libspdm_rsp_receive_send.c,
      libspdm_rsp_communication.c): receiving a request, dispatching it to its
      handler and sending the response.
    - Transcript (libspdm_crypt_hash.c, libspdm_crypt_hmac.c, the messages K and F
      of libspdm_com_context_data.c, libspdm_com_crypto_service_session.c): hash
      and HMAC dispatch over the class [HashHal], the TH transcript of a session
      as a running digest, and the hashes and HMACs over it.
    - PskSession (libspdm_req_psk_exchange.c, libspdm_req_psk_finish.c,
      libspdm_rsp_psk_exchange_rsp.c, libspdm_rsp_psk_finish_rsp.c): PSK_EXCHANGE
      and PSK_FINISH of both endpoints, which open a session with a pre-shared key:
      they assign a slot of SessionTable, exchange the data of OpaqueData, and
      derive the keys of SecuredSession from the hashes of Transcript.

    The context [libspdm_context_t] joins what a connection keeps; its field
    [exchange] groups the state of the message layer.  Fields keep their C names,
    with a prefix where two structures share one (SpdmContext).

    ** Theorems

    The properties proper end a file or stand in a file of their own
    (TransportProps, StorageProps, KeyUpdateProps, ChunkProps, ConnectionProps,
    AlgorithmsProps, PskProps, SessionIdProps); modules in Facts hold what their proofs share.
    - Sessions: nonces never repeat; encoding and decoding are inverse, memory
      safe and authentic; key derivation and key update follow DSP0277; secrets
      are erased; exported keys import again.
    - Tables and data: the session table keeps its invariant and its operations
      their specification; opaque data is parsed safely and round trips; version
      sorting and negotiation are right; managed buffers concatenate.
    - Transports: messages round trip through every binding and every received
      frame is handled safely; the DOE parser accepts exactly the well-formed
      objects; over storage, encoding in place is the encoding of separate
      buffers, and a MAC-only session cannot send without an assertion failing.
    - Messages: the KEY_UPDATE handler refines an abstract machine; large
      messages arrive whole and their collection ends whatever the peer sends;
      RESPONSE_NOT_READY of this responder is never accepted by this requester.
    - Connections: after a successful libspdm_init_connection the endpoints agree
      (ConnectionProps follows GET_VERSION and GET_CAPABILITIES over
      [setup_link], AlgorithmsProps NEGOTIATE_ALGORITHMS); the responder selects
      the first common algorithm of its priorities; a GET_CAPABILITIES with
      ENCRYPT_CAP alone makes the next reset assert.
    - Session opening: after PSK_EXCHANGE, and again after PSK_FINISH, both
      endpoints hold the same session, transcript and keys; each accepts the other
      only with the HMAC of the transcript under a finished key of the schedule; a
      second attempt at PSK_FINISH authenticates the wrong transcript; opaque data
      longer than the specification allows makes the responder assert.
      PskFacts has the inversion of every step of the four messages.
      Ids made of the half an endpoint allocates never collide, and a session can
      be opened whenever a slot is free and no limit is reached (SessionIdProps).

    ** Bounds and fuel

    Loops that C bounds by data are structural on that bound: elements and tables
    by their counts (at most 255), versions by at most five entries, retries by
    [retry_times], sessions by LIBSPDM_MAX_SESSION_COUNT.  [log2_loop] has fuel 64
    for a 64-bit value; the loops that send and collect chunks have the size of
    the message and the capacity as fuel, which every accepted chunk decreases
    (proved in ChunkProps); a response that is itself large is received at most
    twice; [get_response] nests handlers at most four deep, as its comment
    explains.

    ** Parameters

    [CryptoHal] stands for the cryptographic backends and the random generator
    with the laws [CryptoHalOk] of its documentation; [Device], [TransportLayer],
    [RequesterChannel] and [ResponderServices] for the integrator's buffers and
    input and output, a transport, and the handlers of messages that the
    dispatcher does not call by name here (the ones of PSK_EXCHANGE and PSK_FINISH
    are in PskSession); [HashHal] for the hash functions, where a hash context is
    the bytes hashed so far, with the sizes [HashHalOk] promises;
    [SessionServices] for the opaque data, measurements and watchdog of the
    integrator.  Concrete instances ([ToyHal], the links of ChunkProps and
    ConnectionProps) witness the theorems.

    ** Not modelled

    Certificates, measurements, challenges and their signatures, the opening of
    sessions with them (KEY_EXCHANGE, FINISH), encapsulated requests,
    provisioning, events and vendor messages: their content is what the backends
    and the device callbacks compute; X.509 checks, FIPS self tests, key
    agreement and signatures of the backends; the getters and setters libspdm_get_data and
    libspdm_set_data, initialisation of a context, debug output and the message
    log. *)

From Stdlib Require Export ZArith Lia Bool.
From stdpp Require Export base list numbers option tactics.

#[global] Open Scope Z_scope.

Declare Scope spdm_scope.
Delimit Scope spdm_scope with spdm.
#[global] Open Scope spdm_scope.

(** ** Faults

A C function is modelled by an [exec] computation: it either returns a
value, or reaches a point where the C program has no defined behaviour (an
access outside a buffer) or is stopped by an assertion. *)

Inductive fault : Set :=
| OutOfBounds
| AssertFailed.

Inductive exec (A : Type) : Type :=
| Ret (a : A)
| Fault (f : fault).
Arguments Ret {A} a.
Arguments Fault {A} f.

#[export] Instance exec_ret : MRet exec := λ A a, Ret a.
#[export] Instance exec_bind : MBind exec := λ A B f m,
  match m with Ret a => f a | Fault e => Fault e end.

#[export] Instance fault_eq_dec : EqDecision fault.
Proof. solve_decision. Defined.

(** [x <- e]-style sequencing is stdpp's [x ← e; k]; an early [return] of the
    C code is written with the next notation. *)
Notation "'RETURN' v 'IF' c ;; k" := (if c then Ret v else k)
  (at level 10, v at level 99, c at level 99, k at level 200,
   format "'RETURN'  v  'IF'  c ;;  '//' k") : spdm_scope.

Section exec_laws.
  Context {A B C : Type}.

Lemma exec_bind_ret (a : A) (f : A → exec B) : (Ret a ≫= f) = f a.
Proof. reflexivity. Qed.

Lemma exec_bind_Ret_inv (m : exec A) (f : A → exec B) (b : B) :
  (m ≫= f) = Ret b → ∃ a, m = Ret a ∧ f a = Ret b.
Proof. destruct m as [a|e]; [eauto|discriminate]. Qed.

Lemma exec_bind_assoc (m : exec A) (f : A → exec B) (g : B → exec C) :
  ((m ≫= f) ≫= g) = (m ≫= λ a, f a ≫= g).
Proof. by destruct m. Qed.
End exec_laws.

(** [wp m Q]: [m] does not fault and its value satisfies [Q]. *)
Definition wp {A} (m : exec A) (Q : A → Prop) : Prop :=
  match m with Ret a => Q a | Fault _ => False end.

Definition no_fault {A} (m : exec A) : Prop := wp m (λ _, True).

Section wp_rules.
  Context {A B : Type}.

Lemma wp_ret (a : A) (Q : A → Prop) : Q a → wp (Ret a) Q.
Proof. done. Qed.

Lemma wp_bind (m : exec A) (f : A → exec B) (Q : B → Prop) :
  wp m (λ a, wp (f a) Q) → wp (m ≫= f) Q.
Proof. by destruct m. Qed.

Lemma wp_mono (m : exec A) (P Q : A → Prop) :
  wp m P → (∀ a, P a → Q a) → wp m Q.
Proof. destruct m; simpl; eauto. Qed.

Lemma wp_if (b : bool) (m1 m2 : exec A) (Q : A → Prop) :
  (b = true → wp m1 Q) → (b = false → wp m2 Q) → wp (if b then m1 else m2) Q.
Proof. destruct b; auto. Qed.

Lemma wp_Ret_inv (m : exec A) (Q : A → Prop) : wp m Q ↔ ∃ a, m = Ret a ∧ Q a.
Proof.
  split; [destruct m as [a|]; [eauto|done] | by intros (a & -> & H)].
Qed.
End wp_rules.

Create HintDb wpdb discriminated.
#[export] Hint Resolve wp_ret : wpdb.

(** ** Build configuration

The macros of the build that change behaviour.  [LIBSPDM_ASSERT] stops the
program only in a build with LIBSPDM_DEBUG_ASSERT_ENABLE; the theorems hold
for both builds unless they say otherwise. *)
Class BuildConfig := {
LIBSPDM_DEBUG_ASSERT_ENABLE : bool;
LIBSPDM_MAX_SESSION_COUNT : nat;
}.

Definition LIBSPDM_ASSERT `{BuildConfig} (b : bool) : exec unit :=
  if LIBSPDM_DEBUG_ASSERT_ENABLE && negb b then Fault AssertFailed else Ret tt.

(** The default build of include/library/spdm_lib_config.h. *)
Definition default_build : BuildConfig :=
  {| LIBSPDM_DEBUG_ASSERT_ENABLE := true; LIBSPDM_MAX_SESSION_COUNT := 4 |}.

(** A build with the assertions compiled out. *)
Definition release_build : BuildConfig :=
  {| LIBSPDM_DEBUG_ASSERT_ENABLE := false; LIBSPDM_MAX_SESSION_COUNT := 4 |}.

Lemma wp_assert `{BuildConfig} (b : bool) (Q : unit → Prop) :
  b = true → Q tt → wp (LIBSPDM_ASSERT b) Q.
Proof. intros -> HQ. unfold LIBSPDM_ASSERT. by rewrite andb_false_r. Qed.

Lemma assert_true `{BuildConfig} : LIBSPDM_ASSERT true = Ret tt.
Proof. unfold LIBSPDM_ASSERT. by rewrite andb_false_r. Qed.

(** An assertion either passes silently or stops the program. *)
Lemma assert_Ret_inv `{BuildConfig} (b : bool) u :
  LIBSPDM_ASSERT b = Ret u → LIBSPDM_DEBUG_ASSERT_ENABLE = false ∨ b = true.
Proof.
  unfold LIBSPDM_ASSERT. destruct LIBSPDM_DEBUG_ASSERT_ENABLE, b; simpl; auto; discriminate.
Qed.

(** ** Machine words *)

Definition u8 (z : Z) : Z := z mod 2 ^ 8.
Definition u16 (z : Z) : Z := z mod 2 ^ 16.
Definition u32 (z : Z) : Z := z mod 2 ^ 32.
Definition u64 (z : Z) : Z := z mod 2 ^ 64.
(** size_t of a 64-bit platform. *)
Definition size_t (z : Z) : Z := z mod 2 ^ 64.

Definition is_u8 (z : Z) : Prop := 0 ≤ z < 2 ^ 8.
Definition is_u16 (z : Z) : Prop := 0 ≤ z < 2 ^ 16.
Definition is_u32 (z : Z) : Prop := 0 ≤ z < 2 ^ 32.
Definition is_u64 (z : Z) : Prop := 0 ≤ z < 2 ^ 64.

Lemma u8_small z : is_u8 z → u8 z = z.
Proof. apply Z.mod_small. Qed.
Lemma u16_small z : is_u16 z → u16 z = z.
Proof. apply Z.mod_small. Qed.
Lemma u32_small z : is_u32 z → u32 z = z.
Proof. apply Z.mod_small. Qed.
Lemma u64_small z : is_u64 z → u64 z = z.
Proof. apply Z.mod_small. Qed.
Lemma size_t_small z : 0 ≤ z < 2 ^ 64 → size_t z = z.
Proof. apply Z.mod_small. Qed.

Lemma u8_range z : is_u8 (u8 z).
Proof. apply Z.mod_pos_bound; lia. Qed.
Lemma u16_range z : is_u16 (u16 z).
Proof. apply Z.mod_pos_bound; lia. Qed.
Lemma u32_range z : is_u32 (u32 z).
Proof. apply Z.mod_pos_bound; lia. Qed.
Lemma u64_range z : is_u64 (u64 z).
Proof. apply Z.mod_pos_bound; lia. Qed.
Lemma size_t_range z : 0 ≤ size_t z < 2 ^ 64.
Proof. apply Z.mod_pos_bound; lia. Qed.

Create HintDb word discriminated.
#[export] Hint Resolve u8_range u16_range u32_range u64_range size_t_range : word.

(** Rounding up to a power-of-two alignment, [(x + (a - 1)) & ~(a - 1)] on
    size_t. *)
Definition align_up (a x : Z) : Z :=
  Z.land (size_t (x + (a - 1))) (size_t (Z.lnot (a - 1))).

(** ** Little-endian bytes *)

Fixpoint le_val (l : list Z) : Z :=
  match l with
  | [] => 0
  | b :: l' => b + 256 * le_val l'
  end.

Fixpoint le_bytes (n : nat) (z : Z) : list Z :=
  match n with
  | O => []
  | S n' => z mod 256 :: le_bytes n' (z / 256)
  end.

Definition bytes_ok (l : list Z) : Prop := Forall is_u8 l.

Lemma length_le_bytes n z : length (le_bytes n z) = n.
Proof. revert z; induction n; intros; simpl; auto. Qed.

Lemma le_bytes_ok n z : bytes_ok (le_bytes n z).
Proof.
  revert z; induction n; intros; simpl; constructor; [|apply IHn].
  unfold is_u8. pose proof (Z.mod_pos_bound z 256). lia.
Qed.

Create Rewrite HintDb len.

Lemma le_val_bound l : bytes_ok l → 0 ≤ le_val l < 2 ^ (8 * Z.of_nat (length l)).
Proof.
  induction 1 as [|b l Hb Hl IH]; [cbn; lia|].
  unfold is_u8 in Hb. cbn [length le_val].
  replace (8 * Z.of_nat (S (length l))) with (8 + 8 * Z.of_nat (length l)) by lia.
  rewrite Z.pow_add_r by lia. change (2 ^ 8) with 256. nia.
Qed.

Lemma le_val_bytes n z : le_val (le_bytes n z) = z mod 2 ^ (8 * Z.of_nat n).
Proof.
  revert z; induction n as [|n IH]; intros z; [by rewrite Z.mod_1_r|].
  cbn [le_bytes le_val]. rewrite IH.
  replace (8 * Z.of_nat (S n)) with (8 + 8 * Z.of_nat n) by lia.
  rewrite Z.pow_add_r by lia. change (2 ^ 8) with 256.
  by rewrite Z.rem_mul_r by lia.
Qed.

Lemma le_bytes_val l : bytes_ok l → le_bytes (length l) (le_val l) = l.
Proof.
  induction 1 as [|b l Hb Hl IH]; [done|]. unfold is_u8 in Hb. cbn [length le_val le_bytes].
  f_equal; [rewrite Z.mul_comm, Z.mod_add, Z.mod_small; lia|].
  rewrite Z.mul_comm, Z.div_add, Z.div_small by lia. by rewrite Z.add_0_l.
Qed.

Lemma le_bytes_inj n x y :
  0 ≤ x < 2 ^ (8 * Z.of_nat n) → 0 ≤ y < 2 ^ (8 * Z.of_nat n) →
  le_bytes n x = le_bytes n y → x = y.
Proof.
  intros Hx Hy H%(f_equal le_val). rewrite !le_val_bytes, !Z.mod_small in H; lia.
Qed.

#[export] Hint Resolve le_bytes_ok : word.
#[export] Hint Rewrite length_le_bytes : len.

(** Disjoint bit fields: [|] is [+]. *)
Lemma lor_shiftl_add a b k :
  0 ≤ k → 0 ≤ a < 2 ^ k → 0 ≤ b → Z.lor a (Z.shiftl b k) = a + b * 2 ^ k.
Proof.
  intros Hk Ha Hb. rewrite <- Z.shiftl_mul_pow2 by lia.
  symmetry. apply Z.add_nocarry_lor.
  apply Z.bits_inj'; intros i Hi. rewrite Z.land_spec, Z.bits_0.
  destruct (decide (i < k)).
  - rewrite Z.shiftl_spec_low by lia. apply andb_false_r.
  - destruct (decide (a = 0)) as [->|]; [by rewrite Z.bits_0|].
    rewrite (Z.bits_above_log2 a i); [done|lia|].
    apply Z.lt_le_trans with k; [apply Z.log2_lt_pow2; lia|lia].
Qed.

Lemma align_up4 x : 0 ≤ x < 2 ^ 63 → x ≤ align_up 4 x < x + 4 ∧ align_up 4 x mod 4 = 0.
Proof.
  intros Hx. unfold align_up. rewrite size_t_small by lia.
  change (size_t (Z.lnot (4 - 1))) with (Z.ldiff (Z.ones 64) (Z.ones 2)).
  assert (E : Z.land (x + (4 - 1)) (Z.ldiff (Z.ones 64) (Z.ones 2)) =
              Z.shiftl (Z.shiftr (x + (4 - 1)) 2) 2).
  { apply Z.bits_inj'; intros i Hi. rewrite Z.land_spec, Z.ldiff_spec, Z.shiftl_spec by done.
    destruct (decide (i < 2)).
    - rewrite (Z.ones_spec_low 2 i) by lia. rewrite (Z.testbit_neg_r _ (i - 2)) by lia.
      by rewrite !andb_false_r.
    - rewrite Z.shiftr_spec by lia. rewrite (Z.ones_spec_high 2 i) by lia.
      replace (i - 2 + 2) with i by lia. destruct (decide (i < 64)).
      + rewrite Z.ones_spec_low by lia. by rewrite andb_true_r.
      + rewrite (Z.bits_above_log2 (x + (4 - 1)) i); [done|lia|].
        apply Z.lt_le_trans with 64; [|lia]. apply Z.log2_lt_pow2; lia. }
  rewrite E, Z.shiftr_div_pow2, Z.shiftl_mul_pow2 by lia. change (2 ^ 2) with 4.
  pose proof (Z.div_mod (x + (4 - 1)) 4). pose proof (Z.mod_pos_bound (x + (4 - 1)) 4).
  split; [lia|]. apply Z.mod_mul. lia.
Qed.

Lemma align_up1 x : 0 ≤ x < 2 ^ 64 → align_up 1 x = x.
Proof.
  intros Hx. unfold align_up. rewrite size_t_small by lia. rewrite Z.add_0_r.
  change (size_t (Z.lnot (1 - 1))) with (Z.ones 64). rewrite Z.land_ones by lia.
  by apply Z.mod_small.
Qed.

Lemma bytes_ok_app l1 l2 : bytes_ok (l1 ++ l2) ↔ bytes_ok l1 ∧ bytes_ok l2.
Proof. apply Forall_app. Qed.
Lemma bytes_ok_take n l : bytes_ok l → bytes_ok (take n l).
Proof. apply Forall_take. Qed.
Lemma bytes_ok_drop n l : bytes_ok l → bytes_ok (drop n l).
Proof. apply Forall_drop. Qed.
Lemma bytes_ok_replicate0 n : bytes_ok (replicate n 0).
Proof. apply Forall_replicate. unfold is_u8; lia. Qed.
#[export] Hint Resolve bytes_ok_take bytes_ok_drop bytes_ok_replicate0 : word.

(** ** Buffers

A buffer is the list of its bytes; a pointer into it is an offset. *)

Abbreviation blen l := (Z.of_nat (length l)) (only parsing).

Definition in_range (m : list Z) (off n : Z) : bool :=
  (0 <=? off) && (0 <=? n) && (off + n <=? blen m).

Definition sub (m : list Z) (off n : Z) : list Z := take (Z.to_nat n) (drop (Z.to_nat off) m).

Definition load (m : list Z) (off n : Z) : exec (list Z) :=
  if in_range m off n then Ret (sub m off n) else Fault OutOfBounds.

Definition upd (m : list Z) (off : Z) (bs : list Z) : list Z :=
  take (Z.to_nat off) m ++ bs ++ drop (Z.to_nat off + length bs) m.

Definition store (m : list Z) (off : Z) (bs : list Z) : exec (list Z) :=
  if in_range m off (blen bs) then Ret (upd m off bs) else Fault OutOfBounds.

(** A little-endian integer field of [n] bytes. *)
Definition load_le (n : nat) (m : list Z) (off : Z) : exec Z :=
  bs ← load m off (Z.of_nat n); Ret (le_val bs).

Definition zeros (n : Z) : list Z := replicate (Z.to_nat n) 0.

Lemma length_zeros n : length (zeros n) = Z.to_nat n.
Proof. apply length_replicate. Qed.
#[export] Hint Rewrite length_zeros : len.

Lemma in_range_iff m off n :
  in_range m off n = true ↔ 0 ≤ off ∧ 0 ≤ n ∧ off + n ≤ blen m.
Proof. unfold in_range. lia. Qed.

Lemma length_sub m off n :
  in_range m off n = true → length (sub m off n) = Z.to_nat n.
Proof.
  rewrite in_range_iff. intros. unfold sub. rewrite length_take, length_drop. lia.
Qed.

Lemma length_upd m off bs :
  in_range m off (blen bs) = true → length (upd m off bs) = length m.
Proof.
  rewrite in_range_iff. intros. unfold upd.
  rewrite !length_app, length_take, length_drop. lia.
Qed.

Lemma wp_load m off n (Q : list Z → Prop) :
  in_range m off n = true → Q (sub m off n) → wp (load m off n) Q.
Proof. unfold load. by intros ->. Qed.

Lemma wp_store m off bs (Q : list Z → Prop) :
  in_range m off (blen bs) = true → Q (upd m off bs) → wp (store m off bs) Q.
Proof. unfold store. by intros ->. Qed.

Lemma load_Ret_inv m off n bs :
  load m off n = Ret bs → in_range m off n = true ∧ bs = sub m off n.
Proof. unfold load. destruct (in_range m off n); naive_solver. Qed.

Lemma store_Ret_inv m off bs m' :
  store m off bs = Ret m' → in_range m off (blen bs) = true ∧ m' = upd m off bs.
Proof. unfold store. destruct (in_range _ _ _); naive_solver. Qed.

Lemma load_in m off n : in_range m off n = true → load m off n = Ret (sub m off n).
Proof. unfold load. by intros ->. Qed.
Lemma store_in m off bs : in_range m off (blen bs) = true → store m off bs = Ret (upd m off bs).
Proof. unfold store. by intros ->. Qed.

(** The byte of a buffer at an offset, as a lookup; the algebra of [sub] and
    [upd] is proved pointwise. *)
Lemma lookup_sub m off n (i : nat) :
  0 ≤ off → sub m off n !! i =
    if decide (Z.of_nat i < n) then m !! (Z.to_nat off + i)%nat else None.
Proof.
  intros Ho. unfold sub. case_decide.
  - rewrite lookup_take_lt by lia. by rewrite lookup_drop.
  - apply lookup_take_ge. lia.
Qed.

Lemma lookup_upd m off bs (i : nat) :
  in_range m off (blen bs) = true →
  upd m off bs !! i =
    if decide (off ≤ Z.of_nat i < off + blen bs) then bs !! (i - Z.to_nat off)%nat else m !! i.
Proof.
  rewrite in_range_iff. intros H. unfold upd. case_decide as Hd.
  - rewrite lookup_app_r; rewrite length_take; [|lia].
    rewrite Nat.min_l by lia. apply lookup_app_l. lia.
  - destruct (decide (Z.of_nat i < off)).
    + rewrite lookup_app_l; [by rewrite lookup_take_lt by lia|rewrite length_take; lia].
    + rewrite lookup_app_r; rewrite length_take; [|lia].
      rewrite lookup_app_r by lia. rewrite lookup_drop. f_equal. lia.
Qed.

Lemma sub_upd_same m off bs :
  in_range m off (blen bs) = true → sub (upd m off bs) off (blen bs) = bs.
Proof.
  intros H. pose proof H as H'. rewrite in_range_iff in H'. apply list_eq; intros i.
  rewrite lookup_sub by lia. case_decide.
  - rewrite lookup_upd by done. rewrite decide_True by lia. f_equal. lia.
  - symmetry. apply lookup_ge_None. lia.
Qed.

Lemma sub_upd_disjoint m off bs o n :
  in_range m off (blen bs) = true → 0 ≤ o →
  (o + n ≤ off ∨ off + blen bs ≤ o) → sub (upd m off bs) o n = sub m o n.
Proof.
  intros H Ho Hd. apply list_eq; intros i. rewrite !lookup_sub by lia.
  case_decide; [|done]. rewrite lookup_upd by done. rewrite decide_False by lia. done.
Qed.

Lemma sub_app m o n1 n2 :
  0 ≤ o → 0 ≤ n1 → 0 ≤ n2 → o + n1 + n2 ≤ blen m →
  sub m o (n1 + n2) = sub m o n1 ++ sub m (o + n1) n2.
Proof.
  intros. unfold sub.
  rewrite Z2Nat.inj_add, <- take_take_drop, drop_drop by lia.
  by rewrite Z2Nat.inj_add by lia.
Qed.

Lemma sub_sub m o n o' n' :
  0 ≤ o → 0 ≤ o' → 0 ≤ n' → o' + n' ≤ n → sub (sub m o n) o' n' = sub m (o + o') n'.
Proof.
  intros. apply list_eq; intros i. rewrite !lookup_sub by lia.
  case_decide; [|done]. rewrite decide_True by lia. f_equal. lia.
Qed.

(** A store inside a slice is a store of the slice. *)
Lemma sub_upd_inside m off bs o n :
  in_range m off (blen bs) = true → 0 ≤ o → o ≤ off → off + blen bs ≤ o + n → o + n ≤ blen m →
  sub (upd m off bs) o n = upd (sub m o n) (off - o) bs.
Proof.
  intros H Ho H1 H2 H3. pose proof H as H'. rewrite in_range_iff in H'.
  assert (Hs : in_range (sub m o n) (off - o) (blen bs) = true)
    by (rewrite in_range_iff, length_sub by (rewrite in_range_iff; lia); lia).
  apply list_eq; intros i. rewrite lookup_sub by lia. rewrite !lookup_upd by done.
  rewrite lookup_sub by lia. case_decide as Hi.
  - destruct (decide (off - o ≤ Z.of_nat i < off - o + blen bs)).
    + rewrite decide_True by lia. f_equal. lia.
    + rewrite decide_False by lia. done.
  - rewrite decide_False by lia. done.
Qed.

(** Appending to the used prefix of a buffer. *)
Lemma sub_upd_append m off bs :
  in_range m off (blen bs) = true →
  sub (upd m off bs) 0 (off + blen bs) = sub m 0 off ++ bs.
Proof.
  intros H. pose proof H as H'. rewrite in_range_iff in H'.
  rewrite sub_app by (rewrite ?length_upd by done; lia). rewrite Z.add_0_l.
  rewrite sub_upd_same by done. f_equal. apply sub_upd_disjoint; [done|lia|lia].
Qed.

Lemma sub_all m : sub m 0 (blen m) = m.
Proof. unfold sub. rewrite Nat2Z.id, drop_0. by apply take_ge. Qed.

Lemma bytes_ok_sub m o n : bytes_ok m → bytes_ok (sub m o n).
Proof. intros. unfold sub. eauto with word. Qed.
Lemma bytes_ok_upd m o bs : bytes_ok m → bytes_ok bs → bytes_ok (upd m o bs).
Proof. intros. unfold upd. rewrite !bytes_ok_app. eauto with word. Qed.
#[export] Hint Resolve bytes_ok_sub bytes_ok_upd : word.

(** Filling a buffer field after field: each store extends the used prefix [c]. *)
Lemma store_prefix m off c d :
  sub m 0 off = c → off = blen c → off + blen d ≤ blen m →
  ∃ m', store m off d = Ret m' ∧ length m' = length m ∧ sub m' 0 (off + blen d) = c ++ d.
Proof.
  intros Hc Ho Hl. assert (Hr : in_range m off (blen d) = true) by (rewrite in_range_iff; lia).
  exists (upd m off d). rewrite store_in, length_upd, sub_upd_append by done.
  by rewrite Hc.
Qed.

(** Consecutive stores are the store of the concatenation. *)
Lemma upd_upd_app m p a b :
  in_range m p (blen (a ++ b)) = true → upd (upd m p a) (p + blen a) b = upd m p (a ++ b).
Proof.
  intros H. pose proof H as H'. rewrite in_range_iff, length_app in H'.
  assert (Ha : in_range m p (blen a) = true) by (rewrite in_range_iff; lia).
  assert (Hb : in_range (upd m p a) (p + blen a) (blen b) = true)
    by (rewrite in_range_iff, length_upd by done; lia).
  apply list_eq; intros i. rewrite !lookup_upd by done. rewrite length_app.
  repeat case_decide; try lia; try done.
  - rewrite lookup_app_r by lia. f_equal. lia.
  - by rewrite lookup_app_l by lia.
Qed.

(** A header in front of a slice and a tail behind it. *)
Lemma sub_framed m off size hd tl :
  0 ≤ size → in_range m (off - blen hd) (blen hd) = true →
  in_range m (off + size) (blen tl) = true →
  sub (upd (upd m (off - blen hd) hd) (off + size) tl) (off - blen hd)
    (blen hd + size + blen tl) = hd ++ sub m off size ++ tl.
Proof.
  intros Hs H1 H2. pose proof H1 as H1'. pose proof H2 as H2'. rewrite in_range_iff in H1', H2'.
  assert (H3 : in_range (upd m (off - blen hd) hd) (off + size) (blen tl) = true)
    by (rewrite in_range_iff, length_upd by done; lia).
  rewrite !sub_app by (rewrite ?length_upd by done; lia). rewrite <- app_assoc.
  rewrite (sub_upd_disjoint _ _ _ (off - blen hd)) by (done || lia).
  rewrite sub_upd_same by done. f_equal.
  replace (off - blen hd + blen hd) with off by lia.
  rewrite (sub_upd_disjoint _ _ _ off), (sub_upd_disjoint _ _ _ off) by (done || lia). f_equal.
  replace (off - blen hd + (blen hd + size)) with (off + size) by lia.
  by apply sub_upd_same.
Qed.

(** Consuming a buffer whose remaining contents are known, field by field. *)
Lemma sub_split m off n d r :
  sub m off n = d ++ r → 0 ≤ off → 0 ≤ n → off + n ≤ blen m →
  n = blen d + blen r ∧ sub m off (blen d) = d ∧ sub m (off + blen d) (n - blen d) = r.
Proof.
  intros Hs Ho Hn Hm. assert (Hr : in_range m off n = true) by (rewrite in_range_iff; lia).
  pose proof (length_sub m off n Hr) as Hl. rewrite Hs, length_app in Hl.
  assert (He : n = blen d + blen r) by lia. split; [done|].
  rewrite He, sub_app in Hs by lia. apply app_inj_1 in Hs as [H1 H2].
  - split; [done|]. by replace (n - blen d) with (blen r) by lia.
  - rewrite length_sub by (rewrite in_range_iff; lia). lia.
Qed.

Lemma load_head m off n d r k :
  sub m off n = d ++ r → 0 ≤ off → 0 ≤ n → off + n ≤ blen m → k = blen d →
  load m off k = Ret d ∧ sub m (off + k) (n - k) = r ∧ 0 ≤ n - k.
Proof.
  intros Hs Ho Hn Hm ->. destruct (sub_split m off n d r Hs Ho Hn Hm) as (H1 & H2 & H3).
  split; [|split; [done|lia]].
  rewrite load_in by (rewrite in_range_iff; lia). by rewrite H2.
Qed.

Lemma load_le_head m off n k z r :
  sub m off n = le_bytes k z ++ r → 0 ≤ off → 0 ≤ n → off + n ≤ blen m →
  load_le k m off = Ret (z mod 2 ^ (8 * Z.of_nat k)) ∧
  sub m (off + Z.of_nat k) (n - Z.of_nat k) = r ∧ 0 ≤ n - Z.of_nat k.
Proof.
  intros Hs Ho Hn Hm.
  destruct (load_head m off n (le_bytes k z) r (Z.of_nat k)) as (H1 & H2); try done.
  { by rewrite length_le_bytes. }
  split; [|done]. unfold load_le. rewrite H1. cbn [mbind exec_bind]. by rewrite le_val_bytes.
Qed.

(** ** Record update: [r <| f := v |>]

A record that declares its [Eta] expansion gets a setter for each of its
projections, built by abstracting that projection in the expansion. *)
Class Eta (R : Type) := eta : R → R.
Class SetField {R T : Type} (f : R → T) := set_field : (T → T) → R → R.
Arguments set_field {R T} f {_} _ _ /.

Ltac derive_setter :=
  match goal with
  | |- @SetField ?R ?T ?f =>
      let inst := constr:(_ : Eta R) in
      let e := eval hnf in inst in
      match eval pattern f in e with
      | ?abs _ => let r := eval cbv beta in (λ (g : T → T), abs (λ x : R, g (f x))) in exact r
      end
  end.
#[export] Hint Extern 0 (SetField _) => derive_setter : typeclass_instances.

Notation "r <| f := v |>" := (set_field f (λ _, v) r)
  (at level 1, f at level 0, left associativity, format "r  <| f  :=  v |>") : spdm_scope.

(** ** Automation *)

(** Turn a hypothesis [m ≫= f = Ret x] into its parts, and clean up tests. *)
Ltac exec_inv H :=
  let x := fresh "x" in let Hx := fresh "Hx" in
  apply exec_bind_Ret_inv in H; destruct H as (x & Hx & H).

Ltac case_if :=
  match goal with
  | |- context [if ?b then _ else _] =>
      match type of b with bool => let E := fresh "E" in destruct b eqn:E end
  | H : context [if ?b then _ else _] |- _ =>
      match type of b with bool => let E := fresh "E" in destruct b eqn:E end
  end.

(** Discharge the arithmetic side conditions of the buffer lemmas. *)
Ltac len_simpl :=
  repeat (rewrite ?length_app, ?length_le_bytes, ?length_zeros, ?length_replicate in *; cbn [length] in *).

Ltac range :=
  first [rewrite ?in_range_iff; lia | rewrite ?in_range_iff in *; len_simpl; lia].

(** One step of a [wp] proof. *)
Ltac wp_step :=
  match goal with
  | |- wp (Ret _) _ => apply wp_ret
  | |- wp (_ ≫= _) _ => apply wp_bind
  | |- wp (LIBSPDM_ASSERT _) _ => apply wp_assert; [try lia|]
  | |- wp (load _ _ _) _ => apply wp_load; [try solve [range]|]
  | |- wp (load_le _ _ _) _ => unfold load_le
  | |- wp (store _ _ _) _ => apply wp_store; [try solve [range]|]
  | |- wp (if _ then _ else _) _ => apply wp_if; intros ?
  end.
Ltac wp_go := repeat wp_step.
