(* ===== verification/SpdmDefs.v ===== *)
(** * SpdmDefs: the numbers of the SPDM and secured-message standards and the
    library's return status

Constants of include/industry_standard/spdm.h and
include/industry_standard/spdm_secured_message.h, the status values of
include/library/spdm_return_status.h with the macros that take them apart,
and the enumerations the components share. *)

From S2P Require Import Prelude.

(** Versions *)
Definition SPDM_MAX_VERSION_COUNT : Z := 5.
Definition SPDM_MESSAGE_VERSION_10 : Z := 0x10.
Definition SPDM_MESSAGE_VERSION_11 : Z := 0x11.
Definition SPDM_MESSAGE_VERSION_12 : Z := 0x12.
Definition SPDM_MESSAGE_VERSION_13 : Z := 0x13.
Definition SPDM_MESSAGE_VERSION_14 : Z := 0x14.
Definition SPDM_VERSION_NUMBER_SHIFT_BIT : Z := 8.

(** GET_CAPABILITIES request flags *)
Definition SPDM_GET_CAPABILITIES_REQUEST_FLAGS_CERT_CAP : Z := 0x00000002.
Definition SPDM_GET_CAPABILITIES_REQUEST_FLAGS_CHAL_CAP : Z := 0x00000004.
Definition SPDM_GET_CAPABILITIES_REQUEST_FLAGS_ENCRYPT_CAP : Z := 0x00000040.
Definition SPDM_GET_CAPABILITIES_REQUEST_FLAGS_MAC_CAP : Z := 0x00000080.
Definition SPDM_GET_CAPABILITIES_REQUEST_FLAGS_MUT_AUTH_CAP : Z := 0x00000100.
Definition SPDM_GET_CAPABILITIES_REQUEST_FLAGS_KEY_EX_CAP : Z := 0x00000200.
Definition SPDM_GET_CAPABILITIES_REQUEST_FLAGS_PSK_CAP : Z := Z.lor 0x00000400 0x00000800.
Definition SPDM_GET_CAPABILITIES_REQUEST_FLAGS_PSK_CAP_REQUESTER : Z := 0x00000400.
Definition SPDM_GET_CAPABILITIES_REQUEST_FLAGS_ENCAP_CAP : Z := 0x00001000.
Definition SPDM_GET_CAPABILITIES_REQUEST_FLAGS_HBEAT_CAP : Z := 0x00002000.
Definition SPDM_GET_CAPABILITIES_REQUEST_FLAGS_KEY_UPD_CAP : Z := 0x00004000.
Definition SPDM_GET_CAPABILITIES_REQUEST_FLAGS_HANDSHAKE_IN_THE_CLEAR_CAP : Z := 0x00008000.
Definition SPDM_GET_CAPABILITIES_REQUEST_FLAGS_PUB_KEY_ID_CAP : Z := 0x00010000.
Definition SPDM_GET_CAPABILITIES_REQUEST_FLAGS_11_MASK : Z := Z.lor (Z.lor (Z.lor (Z.lor (Z.lor (Z.lor (Z.lor (Z.lor (Z.lor (Z.lor (Z.lor SPDM_GET_CAPABILITIES_REQUEST_FLAGS_CERT_CAP SPDM_GET_CAPABILITIES_REQUEST_FLAGS_CHAL_CAP) SPDM_GET_CAPABILITIES_REQUEST_FLAGS_ENCRYPT_CAP) SPDM_GET_CAPABILITIES_REQUEST_FLAGS_MAC_CAP) SPDM_GET_CAPABILITIES_REQUEST_FLAGS_MUT_AUTH_CAP) SPDM_GET_CAPABILITIES_REQUEST_FLAGS_KEY_EX_CAP) SPDM_GET_CAPABILITIES_REQUEST_FLAGS_PSK_CAP) SPDM_GET_CAPABILITIES_REQUEST_FLAGS_ENCAP_CAP) SPDM_GET_CAPABILITIES_REQUEST_FLAGS_HBEAT_CAP) SPDM_GET_CAPABILITIES_REQUEST_FLAGS_KEY_UPD_CAP) SPDM_GET_CAPABILITIES_REQUEST_FLAGS_HANDSHAKE_IN_THE_CLEAR_CAP) SPDM_GET_CAPABILITIES_REQUEST_FLAGS_PUB_KEY_ID_CAP.
Definition SPDM_GET_CAPABILITIES_REQUEST_FLAGS_CHUNK_CAP : Z := 0x00020000.
Definition SPDM_GET_CAPABILITIES_REQUEST_FLAGS_12_MASK : Z := Z.lor SPDM_GET_CAPABILITIES_REQUEST_FLAGS_11_MASK SPDM_GET_CAPABILITIES_REQUEST_FLAGS_CHUNK_CAP.
Definition SPDM_GET_CAPABILITIES_REQUEST_FLAGS_EP_INFO_CAP : Z := Z.lor 0x00400000 0x00800000.
Definition SPDM_GET_CAPABILITIES_REQUEST_FLAGS_EP_INFO_CAP_NO_SIG : Z := 0x00400000.
Definition SPDM_GET_CAPABILITIES_REQUEST_FLAGS_EP_INFO_CAP_SIG : Z := 0x00800000.
Definition SPDM_GET_CAPABILITIES_REQUEST_FLAGS_EVENT_CAP : Z := 0x02000000.
Definition SPDM_GET_CAPABILITIES_REQUEST_FLAGS_MULTI_KEY_CAP : Z := Z.lor 0x04000000 0x08000000.
Definition SPDM_GET_CAPABILITIES_REQUEST_FLAGS_MULTI_KEY_CAP_ONLY : Z := 0x04000000.
Definition SPDM_GET_CAPABILITIES_REQUEST_FLAGS_MULTI_KEY_CAP_NEG : Z := 0x08000000.
Definition SPDM_GET_CAPABILITIES_REQUEST_FLAGS_13_MASK : Z := Z.lor (Z.lor (Z.lor SPDM_GET_CAPABILITIES_REQUEST_FLAGS_12_MASK SPDM_GET_CAPABILITIES_REQUEST_FLAGS_EP_INFO_CAP) SPDM_GET_CAPABILITIES_REQUEST_FLAGS_EVENT_CAP) SPDM_GET_CAPABILITIES_REQUEST_FLAGS_MULTI_KEY_CAP.
Definition SPDM_GET_CAPABILITIES_REQUEST_FLAGS_LARGE_RESP_CAP : Z := 0x80000000.
Definition SPDM_GET_CAPABILITIES_REQUEST_FLAGS_14_MASK : Z := Z.lor SPDM_GET_CAPABILITIES_REQUEST_FLAGS_13_MASK SPDM_GET_CAPABILITIES_REQUEST_FLAGS_LARGE_RESP_CAP.

(** CAPABILITIES response flags *)
Definition SPDM_GET_CAPABILITIES_RESPONSE_FLAGS_CACHE_CAP : Z := 0x00000001.
Definition SPDM_GET_CAPABILITIES_RESPONSE_FLAGS_CERT_CAP : Z := 0x00000002.
Definition SPDM_GET_CAPABILITIES_RESPONSE_FLAGS_CHAL_CAP : Z := 0x00000004.
Definition SPDM_GET_CAPABILITIES_RESPONSE_FLAGS_MEAS_CAP : Z := Z.lor 0x00000008 0x00000010.
Definition SPDM_GET_CAPABILITIES_RESPONSE_FLAGS_MEAS_CAP_NO_SIG : Z := 0x00000008.
Definition SPDM_GET_CAPABILITIES_RESPONSE_FLAGS_MEAS_CAP_SIG : Z := 0x00000010.
Definition SPDM_GET_CAPABILITIES_RESPONSE_FLAGS_MEAS_FRESH_CAP : Z := 0x00000020.
Definition SPDM_GET_CAPABILITIES_RESPONSE_FLAGS_10_MASK : Z := Z.lor (Z.lor (Z.lor (Z.lor SPDM_GET_CAPABILITIES_RESPONSE_FLAGS_CACHE_CAP SPDM_GET_CAPABILITIES_RESPONSE_FLAGS_CERT_CAP) SPDM_GET_CAPABILITIES_RESPONSE_FLAGS_CHAL_CAP) SPDM_GET_CAPABILITIES_RESPONSE_FLAGS_MEAS_CAP) SPDM_GET_CAPABILITIES_RESPONSE_FLAGS_MEAS_FRESH_CAP.
Definition SPDM_GET_CAPABILITIES_RESPONSE_FLAGS_ENCRYPT_CAP : Z := 0x00000040.
Definition SPDM_GET_CAPABILITIES_RESPONSE_FLAGS_MAC_CAP : Z := 0x00000080.
Definition SPDM_GET_CAPABILITIES_RESPONSE_FLAGS_MUT_AUTH_CAP : Z := 0x00000100.
Definition SPDM_GET_CAPABILITIES_RESPONSE_FLAGS_KEY_EX_CAP : Z := 0x00000200.
Definition SPDM_GET_CAPABILITIES_RESPONSE_FLAGS_PSK_CAP : Z := Z.lor 0x00000400 0x00000800.
Definition SPDM_GET_CAPABILITIES_RESPONSE_FLAGS_PSK_CAP_RESPONDER : Z := 0x00000400.
Definition SPDM_GET_CAPABILITIES_RESPONSE_FLAGS_PSK_CAP_RESPONDER_WITH_CONTEXT : Z := 0x00000800.
Definition SPDM_GET_CAPABILITIES_RESPONSE_FLAGS_ENCAP_CAP : Z := 0x00001000.
Definition SPDM_GET_CAPABILITIES_RESPONSE_FLAGS_HBEAT_CAP : Z := 0x00002000.
Definition SPDM_GET_CAPABILITIES_RESPONSE_FLAGS_KEY_UPD_CAP : Z := 0x00004000.
Definition SPDM_GET_CAPABILITIES_RESPONSE_FLAGS_HANDSHAKE_IN_THE_CLEAR_CAP : Z := 0x00008000.
Definition SPDM_GET_CAPABILITIES_RESPONSE_FLAGS_PUB_KEY_ID_CAP : Z := 0x00010000.
Definition SPDM_GET_CAPABILITIES_RESPONSE_FLAGS_11_MASK : Z := Z.lor (Z.lor (Z.lor (Z.lor (Z.lor (Z.lor (Z.lor (Z.lor (Z.lor (Z.lor SPDM_GET_CAPABILITIES_RESPONSE_FLAGS_10_MASK SPDM_GET_CAPABILITIES_RESPONSE_FLAGS_ENCRYPT_CAP) SPDM_GET_CAPABILITIES_RESPONSE_FLAGS_MAC_CAP) SPDM_GET_CAPABILITIES_RESPONSE_FLAGS_MUT_AUTH_CAP) SPDM_GET_CAPABILITIES_RESPONSE_FLAGS_KEY_EX_CAP) SPDM_GET_CAPABILITIES_RESPONSE_FLAGS_PSK_CAP) SPDM_GET_CAPABILITIES_RESPONSE_FLAGS_ENCAP_CAP) SPDM_GET_CAPABILITIES_RESPONSE_FLAGS_HBEAT_CAP) SPDM_GET_CAPABILITIES_RESPONSE_FLAGS_KEY_UPD_CAP) SPDM_GET_CAPABILITIES_RESPONSE_FLAGS_HANDSHAKE_IN_THE_CLEAR_CAP) SPDM_GET_CAPABILITIES_RESPONSE_FLAGS_PUB_KEY_ID_CAP.
Definition SPDM_GET_CAPABILITIES_RESPONSE_FLAGS_CHUNK_CAP : Z := 0x00020000.
Definition SPDM_GET_CAPABILITIES_RESPONSE_FLAGS_ALIAS_CERT_CAP : Z := 0x00040000.
Definition SPDM_GET_CAPABILITIES_RESPONSE_FLAGS_SET_CERT_CAP : Z := 0x00080000.
Definition SPDM_GET_CAPABILITIES_RESPONSE_FLAGS_CSR_CAP : Z := 0x00100000.
Definition SPDM_GET_CAPABILITIES_RESPONSE_FLAGS_CERT_INSTALL_RESET_CAP : Z := 0x00200000.
Definition SPDM_GET_CAPABILITIES_RESPONSE_FLAGS_12_MASK : Z := Z.lor (Z.lor (Z.lor (Z.lor (Z.lor SPDM_GET_CAPABILITIES_RESPONSE_FLAGS_11_MASK SPDM_GET_CAPABILITIES_RESPONSE_FLAGS_CHUNK_CAP) SPDM_GET_CAPABILITIES_RESPONSE_FLAGS_ALIAS_CERT_CAP) SPDM_GET_CAPABILITIES_RESPONSE_FLAGS_SET_CERT_CAP) SPDM_GET_CAPABILITIES_RESPONSE_FLAGS_CSR_CAP) SPDM_GET_CAPABILITIES_RESPONSE_FLAGS_CERT_INSTALL_RESET_CAP.
Definition SPDM_GET_CAPABILITIES_RESPONSE_FLAGS_EP_INFO_CAP : Z := Z.lor 0x00400000 0x00800000.
Definition SPDM_GET_CAPABILITIES_RESPONSE_FLAGS_EP_INFO_CAP_NO_SIG : Z := 0x00400000.
Definition SPDM_GET_CAPABILITIES_RESPONSE_FLAGS_EP_INFO_CAP_SIG : Z := 0x00800000.
Definition SPDM_GET_CAPABILITIES_RESPONSE_FLAGS_MEL_CAP : Z := 0x01000000.
Definition SPDM_GET_CAPABILITIES_RESPONSE_FLAGS_EVENT_CAP : Z := 0x02000000.
Definition SPDM_GET_CAPABILITIES_RESPONSE_FLAGS_MULTI_KEY_CAP : Z := Z.lor 0x04000000 0x08000000.
Definition SPDM_GET_CAPABILITIES_RESPONSE_FLAGS_MULTI_KEY_CAP_ONLY : Z := 0x04000000.
Definition SPDM_GET_CAPABILITIES_RESPONSE_FLAGS_MULTI_KEY_CAP_NEG : Z := 0x08000000.
Definition SPDM_GET_CAPABILITIES_RESPONSE_FLAGS_GET_KEY_PAIR_INFO_CAP : Z := 0x10000000.
Definition SPDM_GET_CAPABILITIES_RESPONSE_FLAGS_SET_KEY_PAIR_INFO_CAP : Z := 0x20000000.
Definition SPDM_GET_CAPABILITIES_RESPONSE_FLAGS_13_MASK : Z := Z.lor (Z.lor (Z.lor (Z.lor (Z.lor (Z.lor SPDM_GET_CAPABILITIES_RESPONSE_FLAGS_12_MASK SPDM_GET_CAPABILITIES_RESPONSE_FLAGS_EP_INFO_CAP) SPDM_GET_CAPABILITIES_RESPONSE_FLAGS_MEL_CAP) SPDM_GET_CAPABILITIES_RESPONSE_FLAGS_EVENT_CAP) SPDM_GET_CAPABILITIES_RESPONSE_FLAGS_MULTI_KEY_CAP) SPDM_GET_CAPABILITIES_RESPONSE_FLAGS_GET_KEY_PAIR_INFO_CAP) SPDM_GET_CAPABILITIES_RESPONSE_FLAGS_SET_KEY_PAIR_INFO_CAP.
Definition SPDM_GET_CAPABILITIES_RESPONSE_FLAGS_SET_KEY_PAIR_RESET_CAP : Z := 0x40000000.
Definition SPDM_GET_CAPABILITIES_RESPONSE_FLAGS_LARGE_RESP_CAP : Z := 0x80000000.
Definition SPDM_GET_CAPABILITIES_RESPONSE_FLAGS_14_MASK : Z := Z.lor (Z.lor SPDM_GET_CAPABILITIES_RESPONSE_FLAGS_13_MASK SPDM_GET_CAPABILITIES_RESPONSE_FLAGS_SET_KEY_PAIR_RESET_CAP) SPDM_GET_CAPABILITIES_RESPONSE_FLAGS_LARGE_RESP_CAP.
Definition SPDM_GET_CAPABILITIES_EXTENDED_RESPONSE_FLAGS_SLOT_MGMT_CAP : Z := 0x0001.
Definition SPDM_GET_CAPABILITIES_EXTENDED_RESPONSE_FLAGS_14_MASK : Z := SPDM_GET_CAPABILITIES_EXTENDED_RESPONSE_FLAGS_SLOT_MGMT_CAP.

(** Algorithm masks and identifiers *)
Definition SPDM_NEGOTIATE_ALGORITHMS_ALG_SUPPORTED_DHE_11_MASK : Z := 0x003f.
Definition SPDM_NEGOTIATE_ALGORITHMS_ALG_SUPPORTED_AEAD_11_MASK : Z := 0x0007.
Definition SPDM_NEGOTIATE_ALGORITHMS_ALG_SUPPORTED_REQ_BASE_ASYM_ALG_11_MASK : Z := 0x01ff.
Definition SPDM_NEGOTIATE_ALGORITHMS_ALG_SUPPORTED_KEY_SCHEDULE_11_MASK : Z := 0x0001.
Definition SPDM_NEGOTIATE_ALGORITHMS_ALG_SUPPORTED_DHE_12_MASK : Z := 0x007f.
Definition SPDM_NEGOTIATE_ALGORITHMS_ALG_SUPPORTED_AEAD_12_MASK : Z := 0x000f.
Definition SPDM_NEGOTIATE_ALGORITHMS_ALG_SUPPORTED_REQ_BASE_ASYM_ALG_12_MASK : Z := 0x0fff.
Definition SPDM_NEGOTIATE_ALGORITHMS_STRUCT_TABLE_ALG_TYPE_DHE : Z := 2.
Definition SPDM_NEGOTIATE_ALGORITHMS_STRUCT_TABLE_ALG_TYPE_AEAD : Z := 3.
Definition SPDM_NEGOTIATE_ALGORITHMS_STRUCT_TABLE_ALG_TYPE_REQ_BASE_ASYM_ALG : Z := 4.
Definition SPDM_NEGOTIATE_ALGORITHMS_STRUCT_TABLE_ALG_TYPE_KEY_SCHEDULE : Z := 5.
Definition SPDM_NEGOTIATE_ALGORITHMS_STRUCT_TABLE_ALG_TYPE_REQ_PQC_ASYM_ALG : Z := 6.
Definition SPDM_NEGOTIATE_ALGORITHMS_STRUCT_TABLE_ALG_TYPE_KEM_ALG : Z := 7.
Definition SPDM_ALGORITHMS_BASE_ASYM_ALGO_TPM_ALG_RSASSA_2048 : Z := 0x00000001.
Definition SPDM_ALGORITHMS_BASE_ASYM_ALGO_TPM_ALG_RSAPSS_2048 : Z := 0x00000002.
Definition SPDM_ALGORITHMS_BASE_ASYM_ALGO_TPM_ALG_RSASSA_3072 : Z := 0x00000004.
Definition SPDM_ALGORITHMS_BASE_ASYM_ALGO_TPM_ALG_RSAPSS_3072 : Z := 0x00000008.
Definition SPDM_ALGORITHMS_BASE_ASYM_ALGO_TPM_ALG_ECDSA_ECC_NIST_P256 : Z := 0x00000010.
Definition SPDM_ALGORITHMS_BASE_ASYM_ALGO_TPM_ALG_RSASSA_4096 : Z := 0x00000020.
Definition SPDM_ALGORITHMS_BASE_ASYM_ALGO_TPM_ALG_RSAPSS_4096 : Z := 0x00000040.
Definition SPDM_ALGORITHMS_BASE_ASYM_ALGO_TPM_ALG_ECDSA_ECC_NIST_P384 : Z := 0x00000080.
Definition SPDM_ALGORITHMS_BASE_ASYM_ALGO_TPM_ALG_ECDSA_ECC_NIST_P521 : Z := 0x00000100.
Definition SPDM_ALGORITHMS_BASE_ASYM_ALGO_10_MASK : Z := 0x000001ff.
Definition SPDM_ALGORITHMS_BASE_ASYM_ALGO_TPM_ALG_SM2_ECC_SM2_P256 : Z := 0x00000200.
Definition SPDM_ALGORITHMS_BASE_ASYM_ALGO_EDDSA_ED25519 : Z := 0x00000400.
Definition SPDM_ALGORITHMS_BASE_ASYM_ALGO_EDDSA_ED448 : Z := 0x00000800.
Definition SPDM_ALGORITHMS_BASE_ASYM_ALGO_12_MASK : Z := 0x00000fff.
Definition SPDM_ALGORITHMS_BASE_HASH_ALGO_TPM_ALG_SHA_256 : Z := 0x00000001.
Definition SPDM_ALGORITHMS_BASE_HASH_ALGO_TPM_ALG_SHA_384 : Z := 0x00000002.
Definition SPDM_ALGORITHMS_BASE_HASH_ALGO_TPM_ALG_SHA_512 : Z := 0x00000004.
Definition SPDM_ALGORITHMS_BASE_HASH_ALGO_TPM_ALG_SHA3_256 : Z := 0x00000008.
Definition SPDM_ALGORITHMS_BASE_HASH_ALGO_TPM_ALG_SHA3_384 : Z := 0x00000010.
Definition SPDM_ALGORITHMS_BASE_HASH_ALGO_TPM_ALG_SHA3_512 : Z := 0x00000020.
Definition SPDM_ALGORITHMS_BASE_HASH_ALGO_10_MASK : Z := 0x0000003f.
Definition SPDM_ALGORITHMS_BASE_HASH_ALGO_TPM_ALG_SM3_256 : Z := 0x00000040.
Definition SPDM_ALGORITHMS_BASE_HASH_ALGO_12_MASK : Z := 0x0000007f.
Definition SPDM_ALGORITHMS_MEASUREMENT_HASH_ALGO_10_MASK : Z := 0x0000007f.
Definition SPDM_ALGORITHMS_MEASUREMENT_HASH_ALGO_12_MASK : Z := 0x000000ff.
Definition SPDM_ALGORITHMS_AEAD_CIPHER_SUITE_AES_128_GCM : Z := 0x00000001.
Definition SPDM_ALGORITHMS_AEAD_CIPHER_SUITE_AES_256_GCM : Z := 0x00000002.
Definition SPDM_ALGORITHMS_AEAD_CIPHER_SUITE_CHACHA20_POLY1305 : Z := 0x00000004.
Definition SPDM_ALGORITHMS_AEAD_CIPHER_SUITE_AEAD_SM4_GCM : Z := 0x00000008.
Definition SPDM_ALGORITHMS_DHE_NAMED_GROUP_FFDHE_2048 : Z := 0x00000001.
Definition SPDM_ALGORITHMS_DHE_NAMED_GROUP_FFDHE_3072 : Z := 0x00000002.
Definition SPDM_ALGORITHMS_DHE_NAMED_GROUP_FFDHE_4096 : Z := 0x00000004.
Definition SPDM_ALGORITHMS_DHE_NAMED_GROUP_SECP_256_R1 : Z := 0x00000008.
Definition SPDM_ALGORITHMS_DHE_NAMED_GROUP_SECP_384_R1 : Z := 0x00000010.
Definition SPDM_ALGORITHMS_DHE_NAMED_GROUP_SECP_521_R1 : Z := 0x00000020.
Definition SPDM_ALGORITHMS_DHE_NAMED_GROUP_SM2_P256 : Z := 0x00000040.
Definition SPDM_ALGORITHMS_KEM_ALG_ML_KEM_512 : Z := 0x00000001.
Definition SPDM_ALGORITHMS_KEM_ALG_ML_KEM_768 : Z := 0x00000002.
Definition SPDM_ALGORITHMS_KEM_ALG_ML_KEM_1024 : Z := 0x00000004.
Definition SPDM_ALGORITHMS_OPAQUE_DATA_FORMAT_NONE : Z := 0x0.
Definition SPDM_ALGORITHMS_OPAQUE_DATA_FORMAT_0 : Z := 0x1.
Definition SPDM_ALGORITHMS_OPAQUE_DATA_FORMAT_1 : Z := 0x2.
Definition SPDM_ALGORITHMS_OPAQUE_DATA_FORMAT_MASK : Z := 0x3.
Definition SPDM_MEASUREMENT_SPECIFICATION_10_MASK : Z := 0x01.
Definition SPDM_MEL_SPECIFICATION_13_MASK : Z := 0x01.
Definition SPDM_ALGORITHMS_PQC_ASYM_ALGO_ML_DSA_44 : Z := 0x00000001.
Definition SPDM_ALGORITHMS_PQC_ASYM_ALGO_ML_DSA_65 : Z := 0x00000002.
Definition SPDM_ALGORITHMS_PQC_ASYM_ALGO_ML_DSA_87 : Z := 0x00000004.
Definition SPDM_ALGORITHMS_PQC_ASYM_ALGO_SLH_DSA_SHA2_128S : Z := 0x00000008.
Definition SPDM_ALGORITHMS_PQC_ASYM_ALGO_SLH_DSA_SHAKE_128S : Z := 0x00000010.
Definition SPDM_ALGORITHMS_PQC_ASYM_ALGO_SLH_DSA_SHA2_128F : Z := 0x00000020.
Definition SPDM_ALGORITHMS_PQC_ASYM_ALGO_SLH_DSA_SHAKE_128F : Z := 0x00000040.
Definition SPDM_ALGORITHMS_PQC_ASYM_ALGO_SLH_DSA_SHA2_192S : Z := 0x00000080.
Definition SPDM_ALGORITHMS_PQC_ASYM_ALGO_SLH_DSA_SHAKE_192S : Z := 0x00000100.
Definition SPDM_ALGORITHMS_PQC_ASYM_ALGO_SLH_DSA_SHA2_192F : Z := 0x00000200.
Definition SPDM_ALGORITHMS_PQC_ASYM_ALGO_SLH_DSA_SHAKE_192F : Z := 0x00000400.
Definition SPDM_ALGORITHMS_PQC_ASYM_ALGO_SLH_DSA_SHA2_256S : Z := 0x00000800.
Definition SPDM_ALGORITHMS_PQC_ASYM_ALGO_SLH_DSA_SHAKE_256S : Z := 0x00001000.
Definition SPDM_ALGORITHMS_PQC_ASYM_ALGO_SLH_DSA_SHA2_256F : Z := 0x00002000.
Definition SPDM_ALGORITHMS_PQC_ASYM_ALGO_SLH_DSA_SHAKE_256F : Z := 0x00004000.
Definition SPDM_ALGORITHMS_MEASUREMENT_HASH_ALGO_RAW_BIT_STREAM_ONLY : Z := 0x00000001.
Definition SPDM_ALGORITHMS_MEASUREMENT_HASH_ALGO_TPM_ALG_SHA_256 : Z := 0x00000002.
Definition SPDM_ALGORITHMS_MEASUREMENT_HASH_ALGO_TPM_ALG_SHA_384 : Z := 0x00000004.
Definition SPDM_ALGORITHMS_MEASUREMENT_HASH_ALGO_TPM_ALG_SHA_512 : Z := 0x00000008.
Definition SPDM_ALGORITHMS_MEASUREMENT_HASH_ALGO_TPM_ALG_SHA3_256 : Z := 0x00000010.
Definition SPDM_ALGORITHMS_MEASUREMENT_HASH_ALGO_TPM_ALG_SHA3_384 : Z := 0x00000020.
Definition SPDM_ALGORITHMS_MEASUREMENT_HASH_ALGO_TPM_ALG_SHA3_512 : Z := 0x00000040.
Definition SPDM_ALGORITHMS_MEASUREMENT_HASH_ALGO_TPM_ALG_SM3_256 : Z := 0x00000080.
Definition SPDM_ALGORITHMS_KEY_SCHEDULE_SPDM : Z := 0x00000001.
Definition SPDM_ALGORITHMS_MULTI_KEY_CONN : Z := 0x10.
Definition SPDM_MEASUREMENT_SPECIFICATION_DMTF : Z := 0x01.
Definition SPDM_MEL_SPECIFICATION_DMTF : Z := 0x01.
Definition SPDM_NEGOTIATE_ALGORITHMS_REQUEST_MAX_LENGTH_VERSION_10 : Z := 0x40.
Definition SPDM_NEGOTIATE_ALGORITHMS_REQUEST_MAX_LENGTH_VERSION_11 : Z := 0x80.
Definition SPDM_NEGOTIATE_ALGORITHMS_REQUEST_MAX_EXT_ALG_COUNT_VERSION_10 : Z := 0x08.
Definition SPDM_NEGOTIATE_ALGORITHMS_REQUEST_MAX_EXT_ALG_COUNT_VERSION_11 : Z := 0x14.
Definition SPDM_NEGOTIATE_ALGORITHMS_MAX_NUM_STRUCT_TABLE_ALG : Z := 4.
Definition SPDM_NEGOTIATE_ALGORITHMS_MAX_NUM_STRUCT_TABLE_ALG_14 : Z := 6.
Definition SPDM_GET_CAPABILITIES_REQUEST_PARAM1_SUPPORTED_ALGORITHMS : Z := 0x01.
Definition SPDM_CAPABILITIES_RESPONSE_PARAM1_SUPPORTED_ALGORITHMS : Z := 0x01.
Definition SPDM_MIN_DATA_TRANSFER_SIZE_VERSION_12 : Z := 42.

(** Registry identifiers *)
Definition SPDM_REGISTRY_ID_DMTF : Z := 0x0.
Definition SPDM_REGISTRY_ID_TCG : Z := 0x1.
Definition SPDM_REGISTRY_ID_USB : Z := 0x2.
Definition SPDM_REGISTRY_ID_PCISIG : Z := 0x3.
Definition SPDM_REGISTRY_ID_IANA : Z := 0x4.
Definition SPDM_REGISTRY_ID_HDBASET : Z := 0x5.
Definition SPDM_REGISTRY_ID_MIPI : Z := 0x6.
Definition SPDM_REGISTRY_ID_CXL : Z := 0x7.
Definition SPDM_REGISTRY_ID_JEDEC : Z := 0x8.
Definition SPDM_REGISTRY_ID_VESA : Z := 0x9.
Definition SPDM_REGISTRY_ID_IANA_CBOR : Z := 0xa.
Definition SPDM_REGISTRY_ID_DMTF_DSP : Z := 0xb.
Definition SPDM_REGISTRY_ID_MAX : Z := 0xb.

(** Error codes *)
Definition SPDM_ERROR_CODE_INVALID_REQUEST : Z := 0x01.
Definition SPDM_ERROR_CODE_BUSY : Z := 0x03.
Definition SPDM_ERROR_CODE_UNEXPECTED_REQUEST : Z := 0x04.
Definition SPDM_ERROR_CODE_UNSPECIFIED : Z := 0x05.
Definition SPDM_ERROR_CODE_UNSUPPORTED_REQUEST : Z := 0x07.
Definition SPDM_ERROR_CODE_VERSION_MISMATCH : Z := 0x41.
Definition SPDM_ERROR_CODE_RESPONSE_NOT_READY : Z := 0x42.
Definition SPDM_ERROR_CODE_REQUEST_RESYNCH : Z := 0x43.
Definition SPDM_ERROR_CODE_VENDOR_DEFINED : Z := 0xff.
Definition SPDM_ERROR_CODE_DECRYPT_ERROR : Z := 0x06.
Definition SPDM_ERROR_CODE_REQUEST_IN_FLIGHT : Z := 0x08.
Definition SPDM_ERROR_CODE_INVALID_RESPONSE_CODE : Z := 0x09.
Definition SPDM_ERROR_CODE_SESSION_LIMIT_EXCEEDED : Z := 0x0a.
Definition SPDM_ERROR_CODE_SESSION_REQUIRED : Z := 0x0b.
Definition SPDM_ERROR_CODE_RESET_REQUIRED : Z := 0x0c.
Definition SPDM_ERROR_CODE_RESPONSE_TOO_LARGE : Z := 0x0d.
Definition SPDM_ERROR_CODE_REQUEST_TOO_LARGE : Z := 0x0e.
Definition SPDM_ERROR_CODE_LARGE_RESPONSE : Z := 0x0f.
Definition SPDM_ERROR_CODE_MESSAGE_LOST : Z := 0x10.
Definition SPDM_ERROR_CODE_INVALID_POLICY : Z := 0x11.
Definition SPDM_ERROR_CODE_OPERATION_FAILED : Z := 0x44.
Definition SPDM_ERROR_CODE_NO_PENDING_REQUESTS : Z := 0x45.
Definition SPDM_ERROR_CODE_DATA_TOO_LARGE : Z := 0x12.
Definition SPDM_ERROR_CODE_REQUEST_SESSION_TERMINATED : Z := 0x46.
Definition SPDM_ERROR_CODE_INVALID_STATE : Z := 0x47.

(** Request and response codes *)
Definition SPDM_DIGESTS : Z := 0x01.
Definition SPDM_CERTIFICATE : Z := 0x02.
Definition SPDM_CHALLENGE_AUTH : Z := 0x03.
Definition SPDM_VERSION : Z := 0x04.
Definition SPDM_MEASUREMENTS : Z := 0x60.
Definition SPDM_CAPABILITIES : Z := 0x61.
Definition SPDM_ALGORITHMS : Z := 0x63.
Definition SPDM_VENDOR_DEFINED_RESPONSE : Z := 0x7e.
Definition SPDM_ERROR : Z := 0x7f.
Definition SPDM_KEY_EXCHANGE_RSP : Z := 0x64.
Definition SPDM_FINISH_RSP : Z := 0x65.
Definition SPDM_PSK_EXCHANGE_RSP : Z := 0x66.
Definition SPDM_PSK_FINISH_RSP : Z := 0x67.
Definition SPDM_HEARTBEAT_ACK : Z := 0x68.
Definition SPDM_KEY_UPDATE_ACK : Z := 0x69.
Definition SPDM_ENCAPSULATED_REQUEST : Z := 0x6a.
Definition SPDM_ENCAPSULATED_RESPONSE_ACK : Z := 0x6b.
Definition SPDM_END_SESSION_ACK : Z := 0x6c.
Definition SPDM_CSR : Z := 0x6d.
Definition SPDM_SET_CERTIFICATE_RSP : Z := 0x6e.
Definition SPDM_CHUNK_SEND_ACK : Z := 0x05.
Definition SPDM_CHUNK_RESPONSE : Z := 0x06.
Definition SPDM_ENDPOINT_INFO : Z := 0x07.
Definition SPDM_SUPPORTED_EVENT_TYPES : Z := 0x62.
Definition SPDM_SUBSCRIBE_EVENT_TYPES_ACK : Z := 0x70.
Definition SPDM_EVENT_ACK : Z := 0x71.
Definition SPDM_MEASUREMENT_EXTENSION_LOG : Z := 0x6f.
Definition SPDM_KEY_PAIR_INFO : Z := 0x7c.
Definition SPDM_SET_KEY_PAIR_INFO_ACK : Z := 0x7d.
Definition SPDM_GET_DIGESTS : Z := 0x81.
Definition SPDM_GET_CERTIFICATE : Z := 0x82.
Definition SPDM_CHALLENGE : Z := 0x83.
Definition SPDM_GET_VERSION : Z := 0x84.
Definition SPDM_GET_MEASUREMENTS : Z := 0xe0.
Definition SPDM_GET_CAPABILITIES : Z := 0xe1.
Definition SPDM_NEGOTIATE_ALGORITHMS : Z := 0xe3.
Definition SPDM_VENDOR_DEFINED_REQUEST : Z := 0xfe.
Definition SPDM_RESPOND_IF_READY : Z := 0xff.
Definition SPDM_KEY_EXCHANGE : Z := 0xe4.
Definition SPDM_FINISH : Z := 0xe5.
Definition SPDM_PSK_EXCHANGE : Z := 0xe6.
Definition SPDM_PSK_FINISH : Z := 0xe7.
Definition SPDM_HEARTBEAT : Z := 0xe8.
Definition SPDM_KEY_UPDATE : Z := 0xe9.
Definition SPDM_GET_ENCAPSULATED_REQUEST : Z := 0xea.
Definition SPDM_DELIVER_ENCAPSULATED_RESPONSE : Z := 0xeb.
Definition SPDM_END_SESSION : Z := 0xec.
Definition SPDM_GET_CSR : Z := 0xed.
Definition SPDM_SET_CERTIFICATE : Z := 0xee.
Definition SPDM_CHUNK_SEND : Z := 0x85.
Definition SPDM_CHUNK_GET : Z := 0x86.
Definition SPDM_GET_ENDPOINT_INFO : Z := 0x87.
Definition SPDM_GET_SUPPORTED_EVENT_TYPES : Z := 0xe2.
Definition SPDM_SUBSCRIBE_EVENT_TYPES : Z := 0xf0.
Definition SPDM_SEND_EVENT : Z := 0xf1.
Definition SPDM_GET_MEASUREMENT_EXTENSION_LOG : Z := 0xef.
Definition SPDM_GET_KEY_PAIR_INFO : Z := 0xfc.
Definition SPDM_SET_KEY_PAIR_INFO : Z := 0xfd.

(** DSP0277 secured messages *)
Definition SECURED_SPDM_MAX_VERSION_COUNT : Z := 4.
Definition SECURED_SPDM_VERSION_10 : Z := 0x10.
Definition SECURED_SPDM_VERSION_11 : Z := 0x11.
Definition SECURED_SPDM_VERSION_12 : Z := 0x12.
Definition SECURED_SPDM_VERSION_13 : Z := 0x13.
Definition SECURED_MESSAGE_OPAQUE_DATA_SPEC_ID : Z := 0x444d5446.
Definition SECURED_MESSAGE_OPAQUE_VERSION : Z := 0x1.
Definition SECURED_MESSAGE_OPAQUE_ELEMENT_SMDATA_DATA_VERSION : Z := 0x1.
Definition SECURED_MESSAGE_OPAQUE_ELEMENT_SMDATA_ID_VERSION_SELECTION : Z := 0x0.
Definition SECURED_MESSAGE_OPAQUE_ELEMENT_SMDATA_ID_SUPPORTED_VERSION : Z := 0x1.
Definition SECURED_MESSAGE_OPAQUE_ELEMENT_SMDATA_ID_AEAD_LIMIT : Z := 0x2.
Definition SECURED_MESSAGE_AEAD_LIMIT_EXPONENT_MAX : Z := 64.
Definition SECURED_MESSAGE_AEAD_LIMIT_EXPONENT_DEFAULT : Z := 64.

(** ** Return status *)

Definition LIBSPDM_SEVERITY_SUCCESS : Z := 0x0.
Definition LIBSPDM_SEVERITY_WARNING : Z := 0x4.
Definition LIBSPDM_SEVERITY_ERROR : Z := 0x8.
Definition LIBSPDM_SOURCE_SUCCESS : Z := 0x00.
Definition LIBSPDM_SOURCE_CORE : Z := 0x01.
Definition LIBSPDM_SOURCE_CRYPTO : Z := 0x02.
Definition LIBSPDM_SOURCE_CERT_PARSE : Z := 0x03.
Definition LIBSPDM_SOURCE_TRANSPORT : Z := 0x04.
Definition LIBSPDM_SOURCE_MEAS_COLLECT : Z := 0x05.
Definition LIBSPDM_SOURCE_RNG : Z := 0x06.

Inductive libspdm_return_t : Set :=
| LIBSPDM_STATUS_SUCCESS
| LIBSPDM_STATUS_INVALID_PARAMETER
| LIBSPDM_STATUS_UNSUPPORTED_CAP
| LIBSPDM_STATUS_INVALID_STATE_LOCAL
| LIBSPDM_STATUS_INVALID_STATE_PEER
| LIBSPDM_STATUS_INVALID_MSG_FIELD
| LIBSPDM_STATUS_INVALID_MSG_SIZE
| LIBSPDM_STATUS_NEGOTIATION_FAIL
| LIBSPDM_STATUS_BUSY_PEER
| LIBSPDM_STATUS_NOT_READY_PEER
| LIBSPDM_STATUS_ERROR_PEER
| LIBSPDM_STATUS_RESYNCH_PEER
| LIBSPDM_STATUS_BUFFER_FULL
| LIBSPDM_STATUS_BUFFER_TOO_SMALL
| LIBSPDM_STATUS_SESSION_NUMBER_EXCEED
| LIBSPDM_STATUS_SESSION_MSG_ERROR
| LIBSPDM_STATUS_ACQUIRE_FAIL
| LIBSPDM_STATUS_SESSION_TRY_DISCARD_KEY_UPDATE
| LIBSPDM_STATUS_RESET_REQUIRED_PEER
| LIBSPDM_STATUS_PEER_BUFFER_TOO_SMALL
| LIBSPDM_STATUS_OVERRIDDEN_PARAMETER
| LIBSPDM_STATUS_CRYPTO_ERROR
| LIBSPDM_STATUS_VERIF_FAIL
| LIBSPDM_STATUS_SEQUENCE_NUMBER_OVERFLOW
| LIBSPDM_STATUS_VERIF_NO_AUTHORITY
| LIBSPDM_STATUS_FIPS_FAIL
| LIBSPDM_STATUS_INVALID_CERT
| LIBSPDM_STATUS_SEND_FAIL
| LIBSPDM_STATUS_RECEIVE_FAIL
| LIBSPDM_STATUS_MEAS_INVALID_INDEX
| LIBSPDM_STATUS_MEAS_INTERNAL_ERROR
| LIBSPDM_STATUS_LOW_ENTROPY.

#[export] Instance libspdm_return_t_eq_dec : EqDecision libspdm_return_t.
Proof. solve_decision. Defined.

Definition LIBSPDM_STATUS_CONSTRUCT (severity source code : Z) : Z :=
  Z.lor (Z.lor (Z.shiftl severity 28) (Z.shiftl source 16)) code.

(** The number each status stands for. *)
Definition status_code (status : libspdm_return_t) : Z :=
  match status with
  | LIBSPDM_STATUS_SUCCESS =>
      LIBSPDM_STATUS_CONSTRUCT LIBSPDM_SEVERITY_SUCCESS LIBSPDM_SOURCE_SUCCESS 0x0000
  | LIBSPDM_STATUS_INVALID_PARAMETER =>
      LIBSPDM_STATUS_CONSTRUCT LIBSPDM_SEVERITY_ERROR LIBSPDM_SOURCE_CORE 0x0001
  | LIBSPDM_STATUS_UNSUPPORTED_CAP =>
      LIBSPDM_STATUS_CONSTRUCT LIBSPDM_SEVERITY_ERROR LIBSPDM_SOURCE_CORE 0x0002
  | LIBSPDM_STATUS_INVALID_STATE_LOCAL =>
      LIBSPDM_STATUS_CONSTRUCT LIBSPDM_SEVERITY_ERROR LIBSPDM_SOURCE_CORE 0x0003
  | LIBSPDM_STATUS_INVALID_STATE_PEER =>
      LIBSPDM_STATUS_CONSTRUCT LIBSPDM_SEVERITY_ERROR LIBSPDM_SOURCE_CORE 0x0004
  | LIBSPDM_STATUS_INVALID_MSG_FIELD =>
      LIBSPDM_STATUS_CONSTRUCT LIBSPDM_SEVERITY_ERROR LIBSPDM_SOURCE_CORE 0x0005
  | LIBSPDM_STATUS_INVALID_MSG_SIZE =>
      LIBSPDM_STATUS_CONSTRUCT LIBSPDM_SEVERITY_ERROR LIBSPDM_SOURCE_CORE 0x0006
  | LIBSPDM_STATUS_NEGOTIATION_FAIL =>
      LIBSPDM_STATUS_CONSTRUCT LIBSPDM_SEVERITY_ERROR LIBSPDM_SOURCE_CORE 0x0007
  | LIBSPDM_STATUS_BUSY_PEER =>
      LIBSPDM_STATUS_CONSTRUCT LIBSPDM_SEVERITY_ERROR LIBSPDM_SOURCE_CORE 0x0008
  | LIBSPDM_STATUS_NOT_READY_PEER =>
      LIBSPDM_STATUS_CONSTRUCT LIBSPDM_SEVERITY_ERROR LIBSPDM_SOURCE_CORE 0x0009
  | LIBSPDM_STATUS_ERROR_PEER =>
      LIBSPDM_STATUS_CONSTRUCT LIBSPDM_SEVERITY_ERROR LIBSPDM_SOURCE_CORE 0x000a
  | LIBSPDM_STATUS_RESYNCH_PEER =>
      LIBSPDM_STATUS_CONSTRUCT LIBSPDM_SEVERITY_ERROR LIBSPDM_SOURCE_CORE 0x000b
  | LIBSPDM_STATUS_BUFFER_FULL =>
      LIBSPDM_STATUS_CONSTRUCT LIBSPDM_SEVERITY_ERROR LIBSPDM_SOURCE_CORE 0x000c
  | LIBSPDM_STATUS_BUFFER_TOO_SMALL =>
      LIBSPDM_STATUS_CONSTRUCT LIBSPDM_SEVERITY_ERROR LIBSPDM_SOURCE_CORE 0x000d
  | LIBSPDM_STATUS_SESSION_NUMBER_EXCEED =>
      LIBSPDM_STATUS_CONSTRUCT LIBSPDM_SEVERITY_ERROR LIBSPDM_SOURCE_CORE 0x000e
  | LIBSPDM_STATUS_SESSION_MSG_ERROR =>
      LIBSPDM_STATUS_CONSTRUCT LIBSPDM_SEVERITY_ERROR LIBSPDM_SOURCE_CORE 0x000f
  | LIBSPDM_STATUS_ACQUIRE_FAIL =>
      LIBSPDM_STATUS_CONSTRUCT LIBSPDM_SEVERITY_ERROR LIBSPDM_SOURCE_CORE 0x0010
  | LIBSPDM_STATUS_SESSION_TRY_DISCARD_KEY_UPDATE =>
      LIBSPDM_STATUS_CONSTRUCT LIBSPDM_SEVERITY_ERROR LIBSPDM_SOURCE_CORE 0x0011
  | LIBSPDM_STATUS_RESET_REQUIRED_PEER =>
      LIBSPDM_STATUS_CONSTRUCT LIBSPDM_SEVERITY_ERROR LIBSPDM_SOURCE_CORE 0x0012
  | LIBSPDM_STATUS_PEER_BUFFER_TOO_SMALL =>
      LIBSPDM_STATUS_CONSTRUCT LIBSPDM_SEVERITY_ERROR LIBSPDM_SOURCE_CORE 0x0013
  | LIBSPDM_STATUS_OVERRIDDEN_PARAMETER =>
      LIBSPDM_STATUS_CONSTRUCT LIBSPDM_SEVERITY_WARNING LIBSPDM_SOURCE_CORE 0x0014
  | LIBSPDM_STATUS_CRYPTO_ERROR =>
      LIBSPDM_STATUS_CONSTRUCT LIBSPDM_SEVERITY_ERROR LIBSPDM_SOURCE_CRYPTO 0x0000
  | LIBSPDM_STATUS_VERIF_FAIL =>
      LIBSPDM_STATUS_CONSTRUCT LIBSPDM_SEVERITY_ERROR LIBSPDM_SOURCE_CRYPTO 0x0001
  | LIBSPDM_STATUS_SEQUENCE_NUMBER_OVERFLOW =>
      LIBSPDM_STATUS_CONSTRUCT LIBSPDM_SEVERITY_ERROR LIBSPDM_SOURCE_CRYPTO 0x0002
  | LIBSPDM_STATUS_VERIF_NO_AUTHORITY =>
      LIBSPDM_STATUS_CONSTRUCT LIBSPDM_SEVERITY_WARNING LIBSPDM_SOURCE_CRYPTO 0x0003
  | LIBSPDM_STATUS_FIPS_FAIL =>
      LIBSPDM_STATUS_CONSTRUCT LIBSPDM_SEVERITY_ERROR LIBSPDM_SOURCE_CRYPTO 0x0004
  | LIBSPDM_STATUS_INVALID_CERT =>
      LIBSPDM_STATUS_CONSTRUCT LIBSPDM_SEVERITY_ERROR LIBSPDM_SOURCE_CERT_PARSE 0x0000
  | LIBSPDM_STATUS_SEND_FAIL =>
      LIBSPDM_STATUS_CONSTRUCT LIBSPDM_SEVERITY_ERROR LIBSPDM_SOURCE_TRANSPORT 0x0000
  | LIBSPDM_STATUS_RECEIVE_FAIL =>
      LIBSPDM_STATUS_CONSTRUCT LIBSPDM_SEVERITY_ERROR LIBSPDM_SOURCE_TRANSPORT 0x0001
  | LIBSPDM_STATUS_MEAS_INVALID_INDEX =>
      LIBSPDM_STATUS_CONSTRUCT LIBSPDM_SEVERITY_ERROR LIBSPDM_SOURCE_MEAS_COLLECT 0x0000
  | LIBSPDM_STATUS_MEAS_INTERNAL_ERROR =>
      LIBSPDM_STATUS_CONSTRUCT LIBSPDM_SEVERITY_ERROR LIBSPDM_SOURCE_MEAS_COLLECT 0x0001
  | LIBSPDM_STATUS_LOW_ENTROPY =>
      LIBSPDM_STATUS_CONSTRUCT LIBSPDM_SEVERITY_ERROR LIBSPDM_SOURCE_RNG 0x0000
  end.

Definition LIBSPDM_STATUS_SEVERITY (status : libspdm_return_t) : Z :=
  Z.land (Z.shiftr (status_code status) 28) 0xf.

Definition LIBSPDM_STATUS_SOURCE (status : libspdm_return_t) : Z :=
  Z.land (Z.shiftr (status_code status) 16) 0xff.

Definition LIBSPDM_STATUS_IS_SUCCESS (status : libspdm_return_t) : bool :=
  LIBSPDM_STATUS_SEVERITY status =? LIBSPDM_SEVERITY_SUCCESS.

Definition LIBSPDM_STATUS_IS_ERROR (status : libspdm_return_t) : bool :=
  LIBSPDM_STATUS_SEVERITY status =? LIBSPDM_SEVERITY_ERROR.

Definition LIBSPDM_STATUS_IS_WARNING (status : libspdm_return_t) : bool :=
  LIBSPDM_STATUS_SEVERITY status =? LIBSPDM_SEVERITY_WARNING.

(** ** Enumerations and limits shared by the components *)

Definition LIBSPDM_MAX_HASH_SIZE : Z := 64.
Definition LIBSPDM_MAX_AEAD_KEY_SIZE : Z := 32.
Definition LIBSPDM_MAX_AEAD_IV_SIZE : Z := 12.
Definition LIBSPDM_MAX_DHE_SS_SIZE : Z := 512.
Definition LIBSPDM_MAX_KEM_SS_SIZE : Z := 32.
Definition LIBSPDM_MAX_SHARED_KEY_SIZE : Z :=
  if LIBSPDM_MAX_KEM_SS_SIZE <=? LIBSPDM_MAX_DHE_SS_SIZE
  then LIBSPDM_MAX_DHE_SS_SIZE else LIBSPDM_MAX_KEM_SS_SIZE.
Definition LIBSPDM_PSK_MAX_HINT_LENGTH : Z := 32.
Definition LIBSPDM_MAX_SPDM_SESSION_SEQUENCE_NUMBER : Z := 0xffffffffffffffff.

Definition SPDM_MAX_OPAQUE_DATA_SIZE : Z := 1024.
Definition LIBSPDM_INVALID_SESSION_ID : Z := 0.
Definition INVALID_SESSION_ID : Z := LIBSPDM_INVALID_SESSION_ID.

Inductive libspdm_session_type_t : Set :=
| LIBSPDM_SESSION_TYPE_NONE
| LIBSPDM_SESSION_TYPE_MAC_ONLY
| LIBSPDM_SESSION_TYPE_ENC_MAC
| LIBSPDM_SESSION_TYPE_MAX.

Inductive libspdm_session_state_t : Set :=
| LIBSPDM_SESSION_STATE_NOT_STARTED
| LIBSPDM_SESSION_STATE_HANDSHAKING
| LIBSPDM_SESSION_STATE_ESTABLISHED
| LIBSPDM_SESSION_STATE_MAX.

Inductive libspdm_key_update_action_t : Set :=
| LIBSPDM_KEY_UPDATE_ACTION_REQUESTER
| LIBSPDM_KEY_UPDATE_ACTION_RESPONDER
| LIBSPDM_KEY_UPDATE_ACTION_MAX.

#[export] Instance session_type_eq_dec : EqDecision libspdm_session_type_t.
Proof. solve_decision. Defined.
#[export] Instance session_state_eq_dec : EqDecision libspdm_session_state_t.
Proof. solve_decision. Defined.
#[export] Instance key_update_action_eq_dec : EqDecision libspdm_key_update_action_t.
Proof. solve_decision. Defined.

Definition LIBSPDM_DATA_SESSION_SEQ_NUM_ENC_LITTLE_DEC_LITTLE : Z := 0.
Definition LIBSPDM_DATA_SESSION_SEQ_NUM_ENC_LITTLE_DEC_BOTH : Z := 1.
Definition LIBSPDM_DATA_SESSION_SEQ_NUM_ENC_BIG_DEC_BIG : Z := 2.
Definition LIBSPDM_DATA_SESSION_SEQ_NUM_ENC_BIG_DEC_BOTH : Z := 3.

Record libspdm_error_struct_t : Set := Build_error_struct {
  error_code : Z;
  error_session_id : Z;
}.

Definition libspdm_get_version_from_version_number (ver : Z) : Z :=
  u8 (Z.shiftr ver SPDM_VERSION_NUMBER_SHIFT_BIT).

(** ** Facts about statuses *)

Lemma status_code_inj s1 s2 : status_code s1 = status_code s2 → s1 = s2.
Proof.
  destruct s1, s2; intros H; first [reflexivity | vm_compute in H; discriminate].
Qed.

Lemma success_not_error : LIBSPDM_STATUS_IS_ERROR LIBSPDM_STATUS_SUCCESS = false.
Proof. reflexivity. Qed.

(** Every status is of exactly one severity; OVERRIDDEN_PARAMETER and
    VERIF_NO_AUTHORITY are the warnings. *)
Lemma status_severity_cases s :
  s = LIBSPDM_STATUS_SUCCESS ∨
  s = LIBSPDM_STATUS_OVERRIDDEN_PARAMETER ∨ s = LIBSPDM_STATUS_VERIF_NO_AUTHORITY ∨
  LIBSPDM_STATUS_IS_ERROR s = true.
Proof.
  destruct s;
    first [right; right; right; reflexivity | left; reflexivity
          | right; left; reflexivity | right; right; left; reflexivity].
Qed.

