(* ===== verification/CommonSupport.v ===== *)
(** * CommonSupport: library/spdm_common_lib/libspdm_com_support.c

Unaligned integer access, the managed buffer that accumulates transcripts,
the masks that keep only the capability and algorithm bits a negotiated
version defines, and the registry checks on vendor identifiers. *)

From S2P Require Import Prelude SpdmDefs.

(** ** Integer access *)
Module ReadWrite.

(** [buffer[i]] of the C code. *)
Definition at_ (buffer : list Z) (i : Z) : exec Z :=
  match load buffer i 1 with
  | Ret bs => Ret (le_val bs)
  | Fault e => Fault e
  end.

Definition libspdm_read_uint16 (buffer : list Z) : exec Z :=
  b0 ← at_ buffer 0; b1 ← at_ buffer 1;
  Ret (u16 (Z.lor b0 (Z.shiftl b1 8))).

Definition libspdm_write_uint16 (buffer : list Z) (value : Z) : exec (list Z) :=
  m ← store buffer 0 [u8 (Z.land value 0xff)];
  store m 1 [u8 (Z.land (Z.shiftr value 8) 0xff)].

Definition libspdm_read_uint24 (buffer : list Z) : exec Z :=
  b0 ← at_ buffer 0; b1 ← at_ buffer 1; b2 ← at_ buffer 2;
  Ret (u32 (Z.lor (Z.lor b0 (Z.shiftl b1 8)) (Z.shiftl b2 16))).

Definition libspdm_write_uint24 (buffer : list Z) (value : Z) : exec (list Z) :=
  m ← store buffer 0 [u8 (Z.land value 0xff)];
  m ← store m 1 [u8 (Z.land (Z.shiftr value 8) 0xff)];
  store m 2 [u8 (Z.land (Z.shiftr value 16) 0xff)].

Definition libspdm_read_uint32 (buffer : list Z) : exec Z :=
  b0 ← at_ buffer 0; b1 ← at_ buffer 1; b2 ← at_ buffer 2; b3 ← at_ buffer 3;
  Ret (u32 (Z.lor (Z.lor (Z.lor b0 (Z.shiftl b1 8)) (Z.shiftl b2 16)) (Z.shiftl b3 24))).

Definition libspdm_write_uint32 (buffer : list Z) (value : Z) : exec (list Z) :=
  m ← store buffer 0 [u8 (Z.land value 0xff)];
  m ← store m 1 [u8 (Z.land (Z.shiftr value 8) 0xff)];
  m ← store m 2 [u8 (Z.land (Z.shiftr value 16) 0xff)];
  store m 3 [u8 (Z.land (Z.shiftr value 24) 0xff)].

Definition libspdm_read_uint64 (buffer : list Z) : exec Z :=
  b0 ← at_ buffer 0; b1 ← at_ buffer 1; b2 ← at_ buffer 2; b3 ← at_ buffer 3;
  b4 ← at_ buffer 4; b5 ← at_ buffer 5; b6 ← at_ buffer 6; b7 ← at_ buffer 7;
  Ret (u64 (Z.lor (Z.lor (Z.lor (Z.lor (Z.lor (Z.lor (Z.lor b0
        (Z.shiftl b1 8)) (Z.shiftl b2 16)) (Z.shiftl b3 24)) (Z.shiftl b4 32))
        (Z.shiftl b5 40)) (Z.shiftl b6 48)) (Z.shiftl b7 56))).

Definition libspdm_write_uint64 (buffer : list Z) (value : Z) : exec (list Z) :=
  m ← store buffer 0 [u8 (Z.land value 0xff)];
  m ← store m 1 [u8 (Z.land (Z.shiftr value 8) 0xff)];
  m ← store m 2 [u8 (Z.land (Z.shiftr value 16) 0xff)];
  m ← store m 3 [u8 (Z.land (Z.shiftr value 24) 0xff)];
  m ← store m 4 [u8 (Z.land (Z.shiftr value 32) 0xff)];
  m ← store m 5 [u8 (Z.land (Z.shiftr value 40) 0xff)];
  m ← store m 6 [u8 (Z.land (Z.shiftr value 48) 0xff)];
  store m 7 [u8 (Z.land (Z.shiftr value 56) 0xff)].

End ReadWrite.

(** ** Managed buffers *)
Module ManagedBuffer.

(** libspdm_managed_buffer_t and the storage that follows it: [buffer] is
    the max_buffer_size bytes after the header. *)
Record libspdm_managed_buffer_t : Type := Build_managed_buffer {
  max_buffer_size : Z;
  buffer_size : Z;
  buffer : list Z;
}.
#[export] Instance eta_managed_buffer : Eta libspdm_managed_buffer_t :=
  λ r, Build_managed_buffer (max_buffer_size r) (buffer_size r) (buffer r).

Definition libspdm_append_managed_buffer `{BuildConfig}
    (m_buffer : libspdm_managed_buffer_t) (data : list Z) :
    exec (libspdm_return_t * libspdm_managed_buffer_t) :=
  RETURN (LIBSPDM_STATUS_SUCCESS, m_buffer) IF blen data =? 0;;
  LIBSPDM_ASSERT (buffer_size m_buffer <=? max_buffer_size m_buffer);;
  RETURN (LIBSPDM_STATUS_BUFFER_FULL, m_buffer)
    IF size_t (max_buffer_size m_buffer - buffer_size m_buffer) <? blen data;;
  b ← store (buffer m_buffer) (buffer_size m_buffer) data;
  Ret (LIBSPDM_STATUS_SUCCESS,
       m_buffer <| buffer := b |>
                <| buffer_size := size_t (buffer_size m_buffer + blen data) |>).

Definition libspdm_reset_managed_buffer (m_buffer : libspdm_managed_buffer_t) :
    exec libspdm_managed_buffer_t :=
  b ← store (buffer m_buffer) 0 (zeros (max_buffer_size m_buffer));
  Ret (m_buffer <| buffer_size := 0 |> <| buffer := b |>).

Definition libspdm_get_managed_buffer_size (m_buffer : libspdm_managed_buffer_t) : Z :=
  buffer_size m_buffer.

Definition libspdm_get_managed_buffer (m_buffer : libspdm_managed_buffer_t) : list Z :=
  buffer m_buffer.

Definition libspdm_init_managed_buffer (m_buffer : libspdm_managed_buffer_t)
    (max_size : Z) : exec libspdm_managed_buffer_t :=
  libspdm_reset_managed_buffer (m_buffer <| max_buffer_size := max_size |>).

(** The bytes appended so far: what a transcript hash reads. *)
Definition contents (m : libspdm_managed_buffer_t) : list Z :=
  sub (buffer m) 0 (buffer_size m).

(** The invariant of a managed buffer: its storage is max_buffer_size bytes
    and the used part lies inside it. *)
Definition wf (m : libspdm_managed_buffer_t) : Prop :=
  0 ≤ buffer_size m ≤ max_buffer_size m ∧
  max_buffer_size m = blen (buffer m) ∧ max_buffer_size m < 2 ^ 64.

End ManagedBuffer.

(** ** Masks by negotiated version *)
Module Masks.
Section masks.
  Context `{BuildConfig}.

(** The functions read only the connection's version, the result of
    libspdm_get_connection_version. *)
Definition libspdm_mask_capability_flags (connection_version : Z)
    (is_request_flags : bool) (flags : Z) : exec Z :=
  if connection_version =? SPDM_MESSAGE_VERSION_10 then
    if is_request_flags then Ret 0
    else Ret (Z.land flags SPDM_GET_CAPABILITIES_RESPONSE_FLAGS_10_MASK)
  else if connection_version =? SPDM_MESSAGE_VERSION_11 then
    if is_request_flags then Ret (Z.land flags SPDM_GET_CAPABILITIES_REQUEST_FLAGS_11_MASK)
    else Ret (Z.land flags SPDM_GET_CAPABILITIES_RESPONSE_FLAGS_11_MASK)
  else if connection_version =? SPDM_MESSAGE_VERSION_12 then
    if is_request_flags then Ret (Z.land flags SPDM_GET_CAPABILITIES_REQUEST_FLAGS_12_MASK)
    else Ret (Z.land flags SPDM_GET_CAPABILITIES_RESPONSE_FLAGS_12_MASK)
  else if connection_version =? SPDM_MESSAGE_VERSION_13 then
    if is_request_flags then Ret (Z.land flags SPDM_GET_CAPABILITIES_REQUEST_FLAGS_13_MASK)
    else Ret (Z.land flags SPDM_GET_CAPABILITIES_RESPONSE_FLAGS_13_MASK)
  else if connection_version =? SPDM_MESSAGE_VERSION_14 then
    if is_request_flags then Ret (Z.land flags SPDM_GET_CAPABILITIES_REQUEST_FLAGS_14_MASK)
    else Ret (Z.land flags SPDM_GET_CAPABILITIES_RESPONSE_FLAGS_14_MASK)
  else (LIBSPDM_ASSERT false;; Ret 0).

Definition libspdm_mask_capability_ext_flags (connection_version : Z)
    (is_request_flags : bool) (ext_flags : Z) : exec Z :=
  if (connection_version =? SPDM_MESSAGE_VERSION_10)
     || (connection_version =? SPDM_MESSAGE_VERSION_11)
     || (connection_version =? SPDM_MESSAGE_VERSION_12)
     || (connection_version =? SPDM_MESSAGE_VERSION_13)
  then Ret 0
  else if connection_version =? SPDM_MESSAGE_VERSION_14 then
    if is_request_flags then Ret 0
    else Ret (Z.land ext_flags SPDM_GET_CAPABILITIES_EXTENDED_RESPONSE_FLAGS_14_MASK)
  else (LIBSPDM_ASSERT false;; Ret 0).

Definition libspdm_mask_base_hash_algo (spdm_version base_hash_algo : Z) : Z :=
  if SPDM_MESSAGE_VERSION_12 <=? spdm_version
  then Z.land base_hash_algo SPDM_ALGORITHMS_BASE_HASH_ALGO_12_MASK
  else Z.land base_hash_algo SPDM_ALGORITHMS_BASE_HASH_ALGO_10_MASK.

Definition libspdm_mask_measurement_hash_algo (spdm_version measurement_hash_algo : Z) : Z :=
  if SPDM_MESSAGE_VERSION_12 <=? spdm_version
  then Z.land measurement_hash_algo SPDM_ALGORITHMS_MEASUREMENT_HASH_ALGO_12_MASK
  else Z.land measurement_hash_algo SPDM_ALGORITHMS_MEASUREMENT_HASH_ALGO_10_MASK.

Definition libspdm_mask_measurement_specification (measurement_specification : Z) : Z :=
  Z.land measurement_specification SPDM_MEASUREMENT_SPECIFICATION_10_MASK.

Definition libspdm_mask_mel_specification (spdm_version mel_specification : Z) : exec Z :=
  LIBSPDM_ASSERT (SPDM_MESSAGE_VERSION_13 <=? spdm_version);;
  Ret (Z.land mel_specification SPDM_MEL_SPECIFICATION_13_MASK).

Definition libspdm_mask_base_asym_algo (spdm_version base_asym_algo : Z) : Z :=
  if SPDM_MESSAGE_VERSION_12 <=? spdm_version
  then Z.land base_asym_algo SPDM_ALGORITHMS_BASE_ASYM_ALGO_12_MASK
  else Z.land base_asym_algo SPDM_ALGORITHMS_BASE_ASYM_ALGO_10_MASK.

Definition libspdm_mask_alg_supported (spdm_version alg_type alg_supported : Z) : exec Z :=
  LIBSPDM_ASSERT (SPDM_MESSAGE_VERSION_11 <=? spdm_version);;
  if alg_type =? SPDM_NEGOTIATE_ALGORITHMS_STRUCT_TABLE_ALG_TYPE_DHE then
    Ret (Z.land alg_supported
      (if SPDM_MESSAGE_VERSION_12 <=? spdm_version
       then SPDM_NEGOTIATE_ALGORITHMS_ALG_SUPPORTED_DHE_12_MASK
       else SPDM_NEGOTIATE_ALGORITHMS_ALG_SUPPORTED_DHE_11_MASK))
  else if alg_type =? SPDM_NEGOTIATE_ALGORITHMS_STRUCT_TABLE_ALG_TYPE_AEAD then
    Ret (Z.land alg_supported
      (if SPDM_MESSAGE_VERSION_12 <=? spdm_version
       then SPDM_NEGOTIATE_ALGORITHMS_ALG_SUPPORTED_AEAD_12_MASK
       else SPDM_NEGOTIATE_ALGORITHMS_ALG_SUPPORTED_AEAD_11_MASK))
  else if alg_type =? SPDM_NEGOTIATE_ALGORITHMS_STRUCT_TABLE_ALG_TYPE_REQ_BASE_ASYM_ALG then
    Ret (Z.land alg_supported
      (if SPDM_MESSAGE_VERSION_12 <=? spdm_version
       then SPDM_NEGOTIATE_ALGORITHMS_ALG_SUPPORTED_REQ_BASE_ASYM_ALG_12_MASK
       else SPDM_NEGOTIATE_ALGORITHMS_ALG_SUPPORTED_REQ_BASE_ASYM_ALG_11_MASK))
  else if alg_type =? SPDM_NEGOTIATE_ALGORITHMS_STRUCT_TABLE_ALG_TYPE_KEY_SCHEDULE then
    Ret (Z.land alg_supported SPDM_NEGOTIATE_ALGORITHMS_ALG_SUPPORTED_KEY_SCHEDULE_11_MASK)
  else (LIBSPDM_ASSERT false;; Ret 0).

End masks.
End Masks.

(** ** Registry checks *)
Module Registry.

Definition libspdm_validate_svh_vendor_id_len (id vendor_id_len : Z) : bool :=
  let id_is x := id =? x in
  if id_is SPDM_REGISTRY_ID_DMTF || id_is SPDM_REGISTRY_ID_VESA then vendor_id_len =? 0
  else if id_is SPDM_REGISTRY_ID_TCG || id_is SPDM_REGISTRY_ID_USB || id_is SPDM_REGISTRY_ID_PCISIG
          || id_is SPDM_REGISTRY_ID_MIPI || id_is SPDM_REGISTRY_ID_CXL || id_is SPDM_REGISTRY_ID_JEDEC
  then (vendor_id_len =? 0) || (vendor_id_len =? 2)
  else if id_is SPDM_REGISTRY_ID_IANA || id_is SPDM_REGISTRY_ID_HDBASET
  then (vendor_id_len =? 0) || (vendor_id_len =? 4)
  else if id_is SPDM_REGISTRY_ID_IANA_CBOR then
    (vendor_id_len =? 1) || (vendor_id_len =? 2) || (vendor_id_len =? 3)
    || (vendor_id_len =? 5) || (vendor_id_len =? 9)
  else if id_is SPDM_REGISTRY_ID_DMTF_DSP then vendor_id_len =? 2
  else false.

(** Pointers are offsets of one buffer. *)
Definition libspdm_check_for_space `{BuildConfig} (ptr end_ptr increment : Z) : exec bool :=
  LIBSPDM_ASSERT (ptr <=? end_ptr);;
  Ret (increment <=? u64 (end_ptr - ptr)).

End Registry.

(** ** Properties of the integer access functions *)
Module ReadWriteFacts.
  Import ReadWrite.

(** The fields a C integer access touches, as a little-endian value. *)
Lemma at_in (m : list Z) (i : Z) : 0 ≤ i < blen m → at_ m i = Ret (le_val (sub m i 1)).
Proof. intros H. unfold at_. by rewrite load_in by range. Qed.

Lemma byte_of_sub (m : list Z) (i : Z) :
  bytes_ok m → 0 ≤ i < blen m → ∃ b, sub m i 1 = [b] ∧ is_u8 b.
Proof.
  intros Hm Hi. assert (Hl : length (sub m i 1) = 1%nat) by (rewrite length_sub by range; lia).
  pose proof (bytes_ok_sub m i 1 Hm) as Hb.
  destruct (sub m i 1) as [|b [|]]; simplify_eq/=. exists b. split; [done|].
  by inversion Hb.
Qed.

Lemma at_byte (m : list Z) (i : Z) :
  bytes_ok m → 0 ≤ i < blen m → ∃ b, at_ m i = Ret b ∧ sub m i 1 = [b] ∧ is_u8 b.
Proof.
  intros Hm Hi. destruct (byte_of_sub m i Hm Hi) as (b & Hs & Hb).
  exists b. rewrite at_in by done. rewrite Hs. cbn [le_val].
  rewrite Z.mul_0_r, Z.add_0_r. done.
Qed.

Lemma sub_succ (m : list Z) (o n : Z) :
  0 ≤ o → 0 ≤ n → o + (n + 1) ≤ blen m → sub m o (n + 1) = sub m o n ++ sub m (o + n) 1.
Proof. intros. apply sub_app; lia. Qed.

(** The bytes of a buffer prefix, one by one. *)
Ltac split_bytes m n :=
  match n with
  | 0 => idtac
  | _ =>
      let n' := eval vm_compute in (n - 1) in
      split_bytes m n';
      let b := fresh "b" in let Ha := fresh "Ha" in let Hs := fresh "Hs" in
      let Hb := fresh "Hb" in
      destruct (at_byte m n') as (b & Ha & Hs & Hb); [done|lia|]
  end.

Ltac unroll m n :=
  match n with
  | 1 => idtac
  | _ =>
      let p := eval vm_compute in (n - 1) in
      change (sub m 0 n) with (sub m 0 (p + 1));
      rewrite (sub_succ m 0 p) by lia; change (0 + p) with p; unroll m p
  end.

Ltac read_proof :=
  repeat match goal with H : at_ _ _ = Ret _ |- _ => rewrite H; clear H; cbn [mbind exec_bind] end.

Ltac join_bytes :=
  unfold is_u8 in *;
  repeat match goal with
  | |- context [Z.lor ?a (Z.shiftl ?b ?k)] =>
      lazymatch a with context [Z.lor _ _] => fail | _ => idtac end;
      rewrite (lor_shiftl_add a b k) by lia
  end.

(** Each reader returns the little-endian value of its bytes, and faults only
    past the end of the buffer. *)
Lemma read_uint16_le m :
  bytes_ok m → 2 ≤ blen m → libspdm_read_uint16 m = Ret (le_val (sub m 0 2)).
Proof.
  intros Hm Hl. split_bytes m 2. unfold libspdm_read_uint16. read_proof.
  unroll m 2. rewrite Hs, Hs0.
  join_bytes. rewrite u16_small by (unfold is_u8, is_u16 in *; lia).
  f_equal. cbn [app le_val]. lia.
Qed.

Lemma read_uint24_le m :
  bytes_ok m → 3 ≤ blen m → libspdm_read_uint24 m = Ret (le_val (sub m 0 3)).
Proof.
  intros Hm Hl. split_bytes m 3. unfold libspdm_read_uint24. read_proof.
  unroll m 3. rewrite Hs, Hs0, Hs1.
  join_bytes. rewrite u32_small by (unfold is_u8, is_u32 in *; lia).
  f_equal. cbn [app le_val]. lia.
Qed.

Lemma read_uint32_le m :
  bytes_ok m → 4 ≤ blen m → libspdm_read_uint32 m = Ret (le_val (sub m 0 4)).
Proof.
  intros Hm Hl. split_bytes m 4. unfold libspdm_read_uint32. read_proof.
  unroll m 4.
  rewrite Hs, Hs0, Hs1, Hs2.
  join_bytes. rewrite u32_small by (unfold is_u8, is_u32 in *; lia).
  f_equal. cbn [app le_val]. lia.
Qed.

Lemma read_uint64_le m :
  bytes_ok m → 8 ≤ blen m → libspdm_read_uint64 m = Ret (le_val (sub m 0 8)).
Proof.
  intros Hm Hl. split_bytes m 8. unfold libspdm_read_uint64. read_proof.
  unroll m 8.
  rewrite Hs, Hs0, Hs1, Hs2, Hs3, Hs4, Hs5, Hs6.
  join_bytes. rewrite u64_small by (unfold is_u8, is_u64 in *; lia).
  f_equal. cbn [app le_val]. lia.
Qed.

(** Writing byte by byte is one store of the little-endian bytes. *)
Lemma upd_snoc m off bs b :
  in_range m off (blen bs + 1) = true →
  upd (upd m off bs) (off + blen bs) [b] = upd m off (bs ++ [b]).
Proof.
  intros Hr. rewrite in_range_iff in Hr. apply list_eq; intros i.
  rewrite lookup_upd by (rewrite in_range_iff, length_upd; range).
  rewrite !lookup_upd by range. cbn [length]. len_simpl.
  destruct (decide (off + blen bs ≤ Z.of_nat i < off + blen bs + Z.of_nat 1)).
  - rewrite decide_True by lia. rewrite lookup_app_r by lia. f_equal. lia.
  - destruct (decide (off ≤ Z.of_nat i < off + blen bs)).
    + rewrite decide_True by lia. by rewrite lookup_app_l by lia.
    + by rewrite decide_False by lia.
Qed.

Lemma store_snoc m off bs b m' :
  store m off bs = Ret m' → off + blen bs + 1 ≤ blen m →
  store m' (off + blen bs) [b] = store m off (bs ++ [b]).
Proof.
  intros [Hr ->]%store_Ret_inv Hl.
  rewrite !store_in; [by rewrite upd_snoc by range|range|].
  rewrite in_range_iff, length_upd by done. range.
Qed.

Lemma byte_field v k : 0 ≤ k → u8 (Z.land (Z.shiftr v k) 0xff) = (v / 2 ^ k) mod 256.
Proof.
  intros. change 0xff with (Z.ones 8). rewrite Z.land_ones, Z.shiftr_div_pow2 by lia.
  apply u8_small. unfold is_u8. apply Z.mod_pos_bound. lia.
Qed.
Lemma byte_field0 v : u8 (Z.land v 0xff) = v mod 256.
Proof.
  pose proof (byte_field v 0) as H. rewrite Z.shiftr_0_r, Z.pow_0_r, Z.div_1_r in H.
  apply H. lia.
Qed.

Ltac write_proof :=
  rewrite ?byte_field by lia; rewrite ?byte_field0;
  rewrite store_in by range; cbn [mbind exec_bind];
  repeat
    (match goal with
     | |- context [store (upd ?m 0 ?bs) ?o [?b]] =>
         change (store (upd m 0 bs) o [b]) with (store (upd m 0 bs) (0 + blen bs) [b]);
         rewrite (store_snoc m 0 bs b (upd m 0 bs))
           by (first [apply store_in; range | cbn [length]; lia]);
         cbn [app]
     end;
     try (rewrite store_in by range; cbn [mbind exec_bind]));
  cbn [le_bytes]; rewrite ?Z.div_div by lia; reflexivity.

Lemma write_uint16_le m v :
  2 ≤ blen m → libspdm_write_uint16 m v = Ret (upd m 0 (le_bytes 2 v)).
Proof. intros H. unfold libspdm_write_uint16. write_proof. Qed.
Lemma write_uint24_le m v :
  3 ≤ blen m → libspdm_write_uint24 m v = Ret (upd m 0 (le_bytes 3 v)).
Proof. intros H. unfold libspdm_write_uint24. write_proof. Qed.
Lemma write_uint32_le m v :
  4 ≤ blen m → libspdm_write_uint32 m v = Ret (upd m 0 (le_bytes 4 v)).
Proof. intros H. unfold libspdm_write_uint32. write_proof. Qed.
Lemma write_uint64_le m v :
  8 ≤ blen m → libspdm_write_uint64 m v = Ret (upd m 0 (le_bytes 8 v)).
Proof. intros H. unfold libspdm_write_uint64. write_proof. Qed.
End ReadWriteFacts.

(** ** Properties of the managed buffer *)
Module ManagedBufferFacts.
  Import ManagedBuffer.
Section facts.
  Context `{BuildConfig}.

Lemma append_empty m : libspdm_append_managed_buffer m [] = Ret (LIBSPDM_STATUS_SUCCESS, m).
Proof. reflexivity. Qed.

Lemma append_full m d :
  wf m → max_buffer_size m < buffer_size m + blen d →
  libspdm_append_managed_buffer m d = Ret (LIBSPDM_STATUS_BUFFER_FULL, m).
Proof.
  intros (Hs & Hl & Hw) Hd. unfold libspdm_append_managed_buffer.
  replace (blen d =? 0) with false by lia.
  replace (buffer_size m <=? max_buffer_size m) with true by lia.
  rewrite assert_true. cbn [mbind exec_bind]. rewrite size_t_small by lia.
  by replace (_ <? blen d) with true by lia.
Qed.

Lemma append_fits m d :
  wf m → buffer_size m + blen d ≤ max_buffer_size m →
  ∃ m', libspdm_append_managed_buffer m d = Ret (LIBSPDM_STATUS_SUCCESS, m') ∧
    wf m' ∧ max_buffer_size m' = max_buffer_size m ∧
    buffer_size m' = buffer_size m + blen d ∧ contents m' = contents m ++ d.
Proof.
  intros (Hs & Hl & Hw) Hd. unfold libspdm_append_managed_buffer.
  destruct (blen d =? 0) eqn:E.
  { destruct d; [|discriminate]. exists m. rewrite app_nil_r.
    repeat split; try done; cbn [length]; lia. }
  replace (buffer_size m <=? max_buffer_size m) with true by lia.
  rewrite assert_true. cbn [mbind exec_bind]. rewrite size_t_small by lia.
  replace (_ <? blen d) with false by lia.
  rewrite store_in by range. cbn [mbind exec_bind].
  eexists; split; [reflexivity|]. unfold wf, contents; cbn.
  rewrite size_t_small by lia. rewrite length_upd by range.
  repeat split; try lia.
  rewrite sub_app by (rewrite ?length_upd by range; lia). rewrite Z.add_0_l.
  rewrite sub_upd_same by range. f_equal. apply sub_upd_disjoint; [range|lia|lia].
Qed.

Lemma reset_wf m :
  wf m → ∃ m', libspdm_reset_managed_buffer m = Ret m' ∧ wf m' ∧ contents m' = [] ∧
    max_buffer_size m' = max_buffer_size m ∧ buffer m' = zeros (max_buffer_size m).
Proof.
  intros (Hs & Hl & Hw). unfold libspdm_reset_managed_buffer.
  rewrite store_in by range. cbn [mbind exec_bind]. eexists; split; [reflexivity|].
  unfold wf, contents. cbn. rewrite length_upd by range.
  repeat split; try lia.
  unfold upd. rewrite take_0, length_zeros. cbn.
  rewrite drop_ge by lia. by rewrite app_nil_r.
Qed.

(** Appending a sequence of messages, stopping at the first error. *)
Fixpoint append_all (m : libspdm_managed_buffer_t) (ds : list (list Z)) :
    exec (libspdm_return_t * libspdm_managed_buffer_t) :=
  match ds with
  | [] => Ret (LIBSPDM_STATUS_SUCCESS, m)
  | d :: ds' =>
      '(status, m') ← libspdm_append_managed_buffer m d;
      if LIBSPDM_STATUS_IS_ERROR status then Ret (status, m') else append_all m' ds'
  end.

Lemma append_cases m d :
  wf m →
  (∃ m', libspdm_append_managed_buffer m d = Ret (LIBSPDM_STATUS_SUCCESS, m') ∧ wf m' ∧
     max_buffer_size m' = max_buffer_size m ∧ buffer_size m' = buffer_size m + blen d ∧
     contents m' = contents m ++ d ∧ buffer_size m + blen d ≤ max_buffer_size m) ∨
  (libspdm_append_managed_buffer m d = Ret (LIBSPDM_STATUS_BUFFER_FULL, m) ∧
     max_buffer_size m < buffer_size m + blen d).
Proof.
  intros Hw. destruct (decide (buffer_size m + blen d ≤ max_buffer_size m)) as [Hd|Hd].
  - left. destruct (append_fits m d Hw Hd) as (m' & ? & ? & ? & ? & ?). eauto 10.
  - right. split; [apply append_full; [done|lia]|lia].
Qed.

Lemma append_all_spec m ds :
  wf m → ∃ st m', append_all m ds = Ret (st, m') ∧ wf m' ∧
    ((st = LIBSPDM_STATUS_SUCCESS ∧ contents m' = contents m ++ concat ds) ∨
     (st = LIBSPDM_STATUS_BUFFER_FULL ∧
      ∃ k, (k < length ds)%nat ∧ contents m' = contents m ++ concat (take k ds) ∧
        max_buffer_size m < buffer_size m + blen (concat (take (S k) ds)))).
Proof.
  revert m. induction ds as [|d ds IH]; intros m Hw.
  { exists LIBSPDM_STATUS_SUCCESS, m. cbn. rewrite app_nil_r. auto. }
  cbn [append_all].
  destruct (append_cases m d Hw) as [(m' & -> & Hw' & Hm & Hb & Hc & Hd)|(-> & Hd)]; cbn.
  - destruct (IH m' Hw') as (st & m2 & -> & Hw2 & Hcase). exists st, m2.
    split; [done|]. split; [done|].
    destruct Hcase as [(-> & ->)|(-> & k & Hk & -> & Hf)]; [left|right].
    + by rewrite Hc, <- app_assoc.
    + split; [done|]. exists (S k). split; [lia|]. cbn [take concat].
      rewrite Hc, <- app_assoc. split; [done|].
      rewrite Hm, Hb in Hf. cbn [take concat] in *. len_simpl. lia.
  - exists LIBSPDM_STATUS_BUFFER_FULL, m. split; [done|]. split; [done|]. right.
    split; [done|]. exists 0%nat. rewrite take_0. cbn. rewrite !app_nil_r. split; [lia|].
    split; [done|]. len_simpl. lia.
Qed.
End facts.
End ManagedBufferFacts.

(** ** The component's properties *)
Module CommonSupportProps.
  Import ReadWrite ReadWriteFacts ManagedBuffer ManagedBufferFacts Masks Registry.

Lemma le_field (m : list Z) (n : nat) v :
  Z.of_nat n ≤ blen m →
  le_val (sub (upd m 0 (le_bytes n v)) 0 (Z.of_nat n)) = v mod 2 ^ (8 * Z.of_nat n).
Proof.
  intros Hl. pose proof (sub_upd_same m 0 (le_bytes n v)) as Hs.
  rewrite length_le_bytes in Hs. rewrite Hs by range. apply le_val_bytes.
Qed.

(** What a write at offset 0 followed by a read does, for one width. *)
Definition rw_ok (n : nat) (read : list Z → exec Z) (write : list Z → Z → exec (list Z))
    (m : list Z) (v : Z) : Prop :=
  ∃ m', write m v = Ret m' ∧ read m' = Ret (v mod 2 ^ (8 * Z.of_nat n)) ∧
    length m' = length m ∧ ∀ o k, Z.of_nat n ≤ o → sub m' o k = sub m o k.

Lemma rw_intro n read write m v :
  bytes_ok m → Z.of_nat n ≤ blen m →
  write m v = Ret (upd m 0 (le_bytes n v)) →
  (∀ m', bytes_ok m' → Z.of_nat n ≤ blen m' → read m' = Ret (le_val (sub m' 0 (Z.of_nat n)))) →
  rw_ok n read write m v.
Proof.
  intros Hm Hl Hw Hr. exists (upd m 0 (le_bytes n v)).
  assert (Hlen : length (upd m 0 (le_bytes n v)) = length m) by (apply length_upd; range).
  split; [done|]. split.
  - rewrite Hr by (eauto with word || lia). by rewrite le_field.
  - split; [done|]. intros o k Ho. apply sub_upd_disjoint; [range|lia|].
    right. rewrite length_le_bytes. lia.
Qed.

(** The unaligned integer accessors of all four widths round-trip: reading
    what was written gives the value modulo the width, and the bytes after
    the field are unchanged. *)
Theorem integer_access_roundtrip (m : list Z) (v : Z)
    (Hm : bytes_ok m) (Hl : 8 ≤ blen m) :
  rw_ok 2 libspdm_read_uint16 libspdm_write_uint16 m v ∧
  rw_ok 3 libspdm_read_uint24 libspdm_write_uint24 m v ∧
  rw_ok 4 libspdm_read_uint32 libspdm_write_uint32 m v ∧
  rw_ok 8 libspdm_read_uint64 libspdm_write_uint64 m v.
Proof.
  split_and!; apply rw_intro; try done; try lia.
  - apply write_uint16_le; lia.
  - intros; by apply read_uint16_le.
  - apply write_uint24_le; lia.
  - intros; by apply read_uint24_le.
  - apply write_uint32_le; lia.
  - intros; by apply read_uint32_le.
  - apply write_uint64_le; lia.
  - intros; by apply read_uint64_le.
Qed.

Lemma integer_access_roundtrip_witness :
  rw_ok 4 libspdm_read_uint32 libspdm_write_uint32 (zeros 10) 0x12345678.
Proof.
  apply (integer_access_roundtrip (zeros 10) 0x12345678).
  - apply bytes_ok_replicate0.
  - rewrite length_zeros. lia.
Defined.

(** A managed buffer is its transcript: from a well-formed buffer, any
    sequence of appends keeps it well-formed and never reads or writes out
    of range; either all succeed and the contents are the old contents
    followed by the messages in order, or the first message that does not
    fit is refused with BUFFER_FULL and the contents are those of the
    messages before it. *)
Theorem managed_buffer_transcript `{BuildConfig} (m : libspdm_managed_buffer_t)
    (ds : list (list Z)) (Hwf : wf m) :
  ∃ st m', append_all m ds = Ret (st, m') ∧ wf m' ∧
    ((st = LIBSPDM_STATUS_SUCCESS ∧ contents m' = contents m ++ concat ds) ∨
     (st = LIBSPDM_STATUS_BUFFER_FULL ∧
      ∃ k, (k < length ds)%nat ∧ contents m' = contents m ++ concat (take k ds) ∧
        max_buffer_size m < buffer_size m + blen (concat (take (S k) ds)))).
Proof. by apply append_all_spec. Qed.

Lemma managed_buffer_transcript_witness :
  let m := Build_managed_buffer 4 0 (zeros 4) in
  wf m ∧ ∃ st m', @append_all default_build m [[1; 2]; [3]] = Ret (st, m') ∧ wf m'.
Proof.
  split; [split_and!; reflexivity || (cbn; lia)|].
  destruct (@managed_buffer_transcript default_build
    (Build_managed_buffer 4 0 (zeros 4)) [[1; 2]; [3]]) as (st & m' & H1 & H2 & _);
    [split_and!; reflexivity || (cbn; lia)|].
  exists st, m'. split; assumption.
Defined.

Definition valid_version (v : Z) : Prop :=
  v = SPDM_MESSAGE_VERSION_10 ∨ v = SPDM_MESSAGE_VERSION_11 ∨ v = SPDM_MESSAGE_VERSION_12 ∨
  v = SPDM_MESSAGE_VERSION_13 ∨ v = SPDM_MESSAGE_VERSION_14.

(** The set of flag bits a version defines. *)
Definition flags_defined (v : Z) (is_request : bool) : Z :=
  match libspdm_mask_capability_flags (H := default_build) v is_request 0xffffffff with
  | Ret m => m
  | Fault _ => 0
  end.

Lemma mask_capability_flags_land `{BuildConfig} v rq f :
  valid_version v → libspdm_mask_capability_flags v rq f = Ret (Z.land f (flags_defined v rq)).
Proof.
  intros [->|[->|[->|[->| ->]]]]; destruct rq; try reflexivity.
  cbn. by rewrite Z.land_0_r.
Qed.

Lemma flags_defined_mono v1 v2 rq :
  valid_version v1 → valid_version v2 → v1 ≤ v2 →
  Z.land (flags_defined v1 rq) (flags_defined v2 rq) = flags_defined v1 rq.
Proof.
  intros [->|[->|[->|[->| ->]]]] [->|[->|[->|[->| ->]]]] Hle; destruct rq;
    first [reflexivity | exfalso; vm_compute in Hle; by apply Hle].
Qed.

(** Masking capability flags by the negotiated version never stops the
    program for a version of SPDM 1.0 to 1.4, only clears bits, is
    idempotent, and is monotone in the version: a flag that survives an
    older version's mask survives a newer one's. *)
Theorem capability_mask_sound `{BuildConfig} (v1 v2 f : Z) (is_request : bool)
    (H1 : valid_version v1) (H2 : valid_version v2) (Hle : v1 ≤ v2) :
  ∃ r1 r2, libspdm_mask_capability_flags v1 is_request f = Ret r1 ∧
    libspdm_mask_capability_flags v2 is_request f = Ret r2 ∧
    Z.land r1 f = r1 ∧ Z.land r1 r2 = r1 ∧
    libspdm_mask_capability_flags v1 is_request r1 = Ret r1.
Proof.
  rewrite !mask_capability_flags_land by done. do 2 eexists.
  split; [reflexivity|]. split; [reflexivity|].
  pose proof (flags_defined_mono v1 v2 is_request H1 H2 Hle) as Hm.
  set (a := flags_defined v1 is_request) in *. set (b := flags_defined v2 is_request) in *.
  rewrite mask_capability_flags_land by done. fold a.
  split_and!; [| |f_equal]; apply Z.bits_inj'; intros i Hi;
    apply (f_equal (λ x, Z.testbit x i)) in Hm; rewrite ?Z.land_spec in *;
    destruct (Z.testbit f i), (Z.testbit a i), (Z.testbit b i); done.
Qed.

Lemma capability_mask_sound_witness :
  ∃ r1 r2,
    @libspdm_mask_capability_flags default_build 0x10 false 0xffffffff = Ret r1 ∧
    @libspdm_mask_capability_flags default_build 0x14 false 0xffffffff = Ret r2 ∧
    Z.land r1 r2 = r1.
Proof.
  destruct (@capability_mask_sound default_build 0x10 0x14 0xffffffff false)
    as (r1 & r2 & A & B & _ & C & _).
  - left; reflexivity.
  - right; right; right; right; reflexivity.
  - lia.
  - exists r1, r2. split_and!; assumption.
Defined.
End CommonSupportProps.
