(* ===== verification/CryptLib.v ===== *)
(** * CryptLib: library/spdm_crypt_lib

The sizes of the negotiated algorithms, the dispatch to the cryptographic
HAL, and the key schedule.  The HAL (include/hal/library/cryptlib,
psklib.h) is outside the library: it is the class [CryptoHal], and what the
library relies on is the class [CryptoHalOk].  The build is the default
one, with every algorithm compiled in. *)

From Stdlib Require Import Ascii String.
From S2P Require Import Prelude SpdmDefs.

(** ** The hardware abstraction layer *)

Inductive hash_alg : Set := SHA256 | SHA384 | SHA512 | SHA3_256 | SHA3_384 | SHA3_512 | SM3_256.
Inductive aead_alg : Set := AES_GCM | CHACHA20_POLY1305 | SM4_GCM.

Class CryptoHal := {
  rng_state : Type;
  (** success, the bytes written to the buffer, the new generator state *)
  libspdm_random_bytes : Z → rng_state → bool * list Z * rng_state;
  (** [key iv a_data data_in tag_size]: success, data_out, tag_out *)
  hal_aead_encrypt : aead_alg → list Z → list Z → list Z → list Z → Z → bool * list Z * list Z;
  (** [key iv a_data data_in tag]: success, data_out *)
  hal_aead_decrypt : aead_alg → list Z → list Z → list Z → list Z → list Z → bool * list Z;
  (** [ikm salt prk_out_size]: success, prk_out *)
  hal_hkdf_extract : hash_alg → list Z → list Z → Z → bool * list Z;
  (** [prk info out_size]: success, out *)
  hal_hkdf_expand : hash_alg → list Z → list Z → Z → bool * list Z;
  (** [spdm_version base_hash_algo psk_hint info out_size]: success, out *)
  libspdm_psk_handshake_secret_hkdf_expand : Z → Z → list Z → list Z → Z → bool * list Z;
  libspdm_psk_master_secret_hkdf_expand : Z → Z → list Z → list Z → Z → bool * list Z;
}.

(** What the HAL documents: every output buffer is filled to the size asked
    for with bytes, an AEAD decrypts what it encrypted, and it accepts nothing
    else. *)
Class CryptoHalOk `{!CryptoHal} : Prop := {
  random_ok n s : 0 ≤ n → blen (libspdm_random_bytes n s).1.2 = n ∧
    bytes_ok (libspdm_random_bytes n s).1.2;
  encrypt_out alg k iv a p t : 0 ≤ t →
    length (hal_aead_encrypt alg k iv a p t).1.2 = length p ∧
    blen (hal_aead_encrypt alg k iv a p t).2 = t;
  encrypt_bytes alg k iv a p t : bytes_ok p →
    bytes_ok (hal_aead_encrypt alg k iv a p t).1.2 ∧ bytes_ok (hal_aead_encrypt alg k iv a p t).2;
  decrypt_out alg k iv a c t :
    length (hal_aead_decrypt alg k iv a c t).2 = length c;
  decrypt_bytes alg k iv a c t : bytes_ok c → bytes_ok (hal_aead_decrypt alg k iv a c t).2;
  decrypt_encrypt alg k iv a p ts c t :
    hal_aead_encrypt alg k iv a p ts = (true, c, t) →
    hal_aead_decrypt alg k iv a c t = (true, p);
  encrypt_decrypt alg k iv a c t p :
    hal_aead_decrypt alg k iv a c t = (true, p) →
    hal_aead_encrypt alg k iv a p (blen t) = (true, c, t);
  hkdf_extract_out h ikm salt n : 0 ≤ n →
    blen (hal_hkdf_extract h ikm salt n).2 = n ∧ bytes_ok (hal_hkdf_extract h ikm salt n).2;
  hkdf_expand_out h prk info n : 0 ≤ n →
    blen (hal_hkdf_expand h prk info n).2 = n ∧ bytes_ok (hal_hkdf_expand h prk info n).2;
  psk_handshake_out v h hint info n : 0 ≤ n →
    blen (libspdm_psk_handshake_secret_hkdf_expand v h hint info n).2 = n ∧
    bytes_ok (libspdm_psk_handshake_secret_hkdf_expand v h hint info n).2;
  psk_master_out v h hint info n : 0 ≤ n →
    blen (libspdm_psk_master_secret_hkdf_expand v h hint info n).2 = n ∧
    bytes_ok (libspdm_psk_master_secret_hkdf_expand v h hint info n).2;
}.

(** ** Algorithm sizes *)
Module Sizes.

Definition libspdm_get_hash_size (base_hash_algo : Z) : Z :=
  if base_hash_algo =? SPDM_ALGORITHMS_BASE_HASH_ALGO_TPM_ALG_SHA_256 then 32
  else if base_hash_algo =? SPDM_ALGORITHMS_BASE_HASH_ALGO_TPM_ALG_SHA3_256 then 32
  else if base_hash_algo =? SPDM_ALGORITHMS_BASE_HASH_ALGO_TPM_ALG_SHA_384 then 48
  else if base_hash_algo =? SPDM_ALGORITHMS_BASE_HASH_ALGO_TPM_ALG_SHA3_384 then 48
  else if base_hash_algo =? SPDM_ALGORITHMS_BASE_HASH_ALGO_TPM_ALG_SHA_512 then 64
  else if base_hash_algo =? SPDM_ALGORITHMS_BASE_HASH_ALGO_TPM_ALG_SHA3_512 then 64
  else if base_hash_algo =? SPDM_ALGORITHMS_BASE_HASH_ALGO_TPM_ALG_SM3_256 then 32
  else 0.

Definition libspdm_get_dhe_shared_secret_size (dhe_named_group : Z) : Z :=
  if dhe_named_group =? SPDM_ALGORITHMS_DHE_NAMED_GROUP_FFDHE_2048 then 256
  else if dhe_named_group =? SPDM_ALGORITHMS_DHE_NAMED_GROUP_FFDHE_3072 then 384
  else if dhe_named_group =? SPDM_ALGORITHMS_DHE_NAMED_GROUP_FFDHE_4096 then 512
  else if dhe_named_group =? SPDM_ALGORITHMS_DHE_NAMED_GROUP_SECP_256_R1 then 32
  else if dhe_named_group =? SPDM_ALGORITHMS_DHE_NAMED_GROUP_SECP_384_R1 then 48
  else if dhe_named_group =? SPDM_ALGORITHMS_DHE_NAMED_GROUP_SECP_521_R1 then 66
  else if dhe_named_group =? SPDM_ALGORITHMS_DHE_NAMED_GROUP_SM2_P256 then 32
  else 0.

Definition libspdm_get_kem_shared_secret_size (kem_alg : Z) : Z :=
  if kem_alg =? SPDM_ALGORITHMS_KEM_ALG_ML_KEM_512 then 32
  else if kem_alg =? SPDM_ALGORITHMS_KEM_ALG_ML_KEM_768 then 32
  else if kem_alg =? SPDM_ALGORITHMS_KEM_ALG_ML_KEM_1024 then 32
  else 0.

Definition libspdm_get_aead_key_size (aead_cipher_suite : Z) : Z :=
  if aead_cipher_suite =? SPDM_ALGORITHMS_AEAD_CIPHER_SUITE_AES_128_GCM then 16
  else if aead_cipher_suite =? SPDM_ALGORITHMS_AEAD_CIPHER_SUITE_AES_256_GCM then 32
  else if aead_cipher_suite =? SPDM_ALGORITHMS_AEAD_CIPHER_SUITE_CHACHA20_POLY1305 then 32
  else if aead_cipher_suite =? SPDM_ALGORITHMS_AEAD_CIPHER_SUITE_AEAD_SM4_GCM then 16
  else 0.

Definition libspdm_get_aead_iv_size (aead_cipher_suite : Z) : Z :=
  if aead_cipher_suite =? SPDM_ALGORITHMS_AEAD_CIPHER_SUITE_AES_128_GCM then 12
  else if aead_cipher_suite =? SPDM_ALGORITHMS_AEAD_CIPHER_SUITE_AES_256_GCM then 12
  else if aead_cipher_suite =? SPDM_ALGORITHMS_AEAD_CIPHER_SUITE_CHACHA20_POLY1305 then 12
  else if aead_cipher_suite =? SPDM_ALGORITHMS_AEAD_CIPHER_SUITE_AEAD_SM4_GCM then 12
  else 0.

Definition libspdm_get_aead_tag_size (aead_cipher_suite : Z) : Z :=
  if aead_cipher_suite =? SPDM_ALGORITHMS_AEAD_CIPHER_SUITE_AES_128_GCM then 16
  else if aead_cipher_suite =? SPDM_ALGORITHMS_AEAD_CIPHER_SUITE_AES_256_GCM then 16
  else if aead_cipher_suite =? SPDM_ALGORITHMS_AEAD_CIPHER_SUITE_CHACHA20_POLY1305 then 16
  else if aead_cipher_suite =? SPDM_ALGORITHMS_AEAD_CIPHER_SUITE_AEAD_SM4_GCM then 16
  else 0.

(** Raw bit streams have no bound on their size. *)
Definition libspdm_get_measurement_hash_size (measurement_hash_algo : Z) : Z :=
  if measurement_hash_algo =? SPDM_ALGORITHMS_MEASUREMENT_HASH_ALGO_TPM_ALG_SHA_256 then 32
  else if measurement_hash_algo =? SPDM_ALGORITHMS_MEASUREMENT_HASH_ALGO_TPM_ALG_SHA3_256 then 32
  else if measurement_hash_algo =? SPDM_ALGORITHMS_MEASUREMENT_HASH_ALGO_TPM_ALG_SHA_384 then 48
  else if measurement_hash_algo =? SPDM_ALGORITHMS_MEASUREMENT_HASH_ALGO_TPM_ALG_SHA3_384 then 48
  else if measurement_hash_algo =? SPDM_ALGORITHMS_MEASUREMENT_HASH_ALGO_TPM_ALG_SHA_512 then 64
  else if measurement_hash_algo =? SPDM_ALGORITHMS_MEASUREMENT_HASH_ALGO_TPM_ALG_SHA3_512 then 64
  else if measurement_hash_algo =? SPDM_ALGORITHMS_MEASUREMENT_HASH_ALGO_TPM_ALG_SM3_256 then 32
  else if measurement_hash_algo =? SPDM_ALGORITHMS_MEASUREMENT_HASH_ALGO_RAW_BIT_STREAM_ONLY
       then 0xFFFFFFFF
  else 0.

Definition libspdm_get_asym_signature_size (base_asym_algo : Z) : Z :=
  if base_asym_algo =? SPDM_ALGORITHMS_BASE_ASYM_ALGO_TPM_ALG_RSASSA_2048 then 256
  else if base_asym_algo =? SPDM_ALGORITHMS_BASE_ASYM_ALGO_TPM_ALG_RSAPSS_2048 then 256
  else if base_asym_algo =? SPDM_ALGORITHMS_BASE_ASYM_ALGO_TPM_ALG_RSASSA_3072 then 384
  else if base_asym_algo =? SPDM_ALGORITHMS_BASE_ASYM_ALGO_TPM_ALG_RSAPSS_3072 then 384
  else if base_asym_algo =? SPDM_ALGORITHMS_BASE_ASYM_ALGO_TPM_ALG_RSASSA_4096 then 512
  else if base_asym_algo =? SPDM_ALGORITHMS_BASE_ASYM_ALGO_TPM_ALG_RSAPSS_4096 then 512
  else if base_asym_algo =? SPDM_ALGORITHMS_BASE_ASYM_ALGO_TPM_ALG_ECDSA_ECC_NIST_P256 then 32 * 2
  else if base_asym_algo =? SPDM_ALGORITHMS_BASE_ASYM_ALGO_TPM_ALG_ECDSA_ECC_NIST_P384 then 48 * 2
  else if base_asym_algo =? SPDM_ALGORITHMS_BASE_ASYM_ALGO_TPM_ALG_ECDSA_ECC_NIST_P521 then 66 * 2
  else if base_asym_algo =? SPDM_ALGORITHMS_BASE_ASYM_ALGO_TPM_ALG_SM2_ECC_SM2_P256 then 32 * 2
  else if base_asym_algo =? SPDM_ALGORITHMS_BASE_ASYM_ALGO_EDDSA_ED25519 then 32 * 2
  else if base_asym_algo =? SPDM_ALGORITHMS_BASE_ASYM_ALGO_EDDSA_ED448 then 57 * 2
  else 0.

Definition libspdm_get_req_asym_signature_size (req_base_asym_alg : Z) : Z :=
  libspdm_get_asym_signature_size req_base_asym_alg.

Definition libspdm_get_pqc_asym_signature_size (pqc_asym_algo : Z) : Z :=
  if pqc_asym_algo =? SPDM_ALGORITHMS_PQC_ASYM_ALGO_ML_DSA_44 then 2420
  else if pqc_asym_algo =? SPDM_ALGORITHMS_PQC_ASYM_ALGO_ML_DSA_65 then 3309
  else if pqc_asym_algo =? SPDM_ALGORITHMS_PQC_ASYM_ALGO_ML_DSA_87 then 4627
  else if pqc_asym_algo =? SPDM_ALGORITHMS_PQC_ASYM_ALGO_SLH_DSA_SHA2_128S then 7856
  else if pqc_asym_algo =? SPDM_ALGORITHMS_PQC_ASYM_ALGO_SLH_DSA_SHAKE_128S then 7856
  else if pqc_asym_algo =? SPDM_ALGORITHMS_PQC_ASYM_ALGO_SLH_DSA_SHA2_128F then 17088
  else if pqc_asym_algo =? SPDM_ALGORITHMS_PQC_ASYM_ALGO_SLH_DSA_SHAKE_128F then 17088
  else if pqc_asym_algo =? SPDM_ALGORITHMS_PQC_ASYM_ALGO_SLH_DSA_SHA2_192S then 16224
  else if pqc_asym_algo =? SPDM_ALGORITHMS_PQC_ASYM_ALGO_SLH_DSA_SHAKE_192S then 16224
  else if pqc_asym_algo =? SPDM_ALGORITHMS_PQC_ASYM_ALGO_SLH_DSA_SHA2_192F then 35664
  else if pqc_asym_algo =? SPDM_ALGORITHMS_PQC_ASYM_ALGO_SLH_DSA_SHAKE_192F then 35664
  else if pqc_asym_algo =? SPDM_ALGORITHMS_PQC_ASYM_ALGO_SLH_DSA_SHA2_256S then 29792
  else if pqc_asym_algo =? SPDM_ALGORITHMS_PQC_ASYM_ALGO_SLH_DSA_SHAKE_256S then 29792
  else if pqc_asym_algo =? SPDM_ALGORITHMS_PQC_ASYM_ALGO_SLH_DSA_SHA2_256F then 49856
  else if pqc_asym_algo =? SPDM_ALGORITHMS_PQC_ASYM_ALGO_SLH_DSA_SHAKE_256F then 49856
  else 0.

Definition libspdm_get_req_pqc_asym_signature_size (req_pqc_asym_alg : Z) : Z :=
  libspdm_get_pqc_asym_signature_size req_pqc_asym_alg.

Definition libspdm_get_dhe_pub_key_size (dhe_named_group : Z) : Z :=
  if dhe_named_group =? SPDM_ALGORITHMS_DHE_NAMED_GROUP_FFDHE_2048 then 256
  else if dhe_named_group =? SPDM_ALGORITHMS_DHE_NAMED_GROUP_FFDHE_3072 then 384
  else if dhe_named_group =? SPDM_ALGORITHMS_DHE_NAMED_GROUP_FFDHE_4096 then 512
  else if dhe_named_group =? SPDM_ALGORITHMS_DHE_NAMED_GROUP_SECP_256_R1 then 32 * 2
  else if dhe_named_group =? SPDM_ALGORITHMS_DHE_NAMED_GROUP_SECP_384_R1 then 48 * 2
  else if dhe_named_group =? SPDM_ALGORITHMS_DHE_NAMED_GROUP_SECP_521_R1 then 66 * 2
  else if dhe_named_group =? SPDM_ALGORITHMS_DHE_NAMED_GROUP_SM2_P256 then 32 * 2
  else 0.

Definition libspdm_get_kem_encap_key_size (kem_alg : Z) : Z :=
  if kem_alg =? SPDM_ALGORITHMS_KEM_ALG_ML_KEM_512 then 800
  else if kem_alg =? SPDM_ALGORITHMS_KEM_ALG_ML_KEM_768 then 1184
  else if kem_alg =? SPDM_ALGORITHMS_KEM_ALG_ML_KEM_1024 then 1568
  else 0.

End Sizes.
Export Sizes.

(** ** Dispatch to the HAL *)
Module Dispatch.
Section dispatch.
  Context `{BuildConfig, CryptoHal}.

Definition libspdm_get_random_number (size : Z) (s : rng_state) : bool * list Z * rng_state :=
  if size =? 0 then (true, [], s) else libspdm_random_bytes size s.

Definition libspdm_aead_encryption (aead_cipher_suite : Z)
    (key iv a_data data_in : list Z) (tag_size : Z) : exec (bool * list Z * list Z) :=
  if (aead_cipher_suite =? SPDM_ALGORITHMS_AEAD_CIPHER_SUITE_AES_128_GCM)
     || (aead_cipher_suite =? SPDM_ALGORITHMS_AEAD_CIPHER_SUITE_AES_256_GCM)
  then Ret (hal_aead_encrypt AES_GCM key iv a_data data_in tag_size)
  else if aead_cipher_suite =? SPDM_ALGORITHMS_AEAD_CIPHER_SUITE_CHACHA20_POLY1305
  then Ret (hal_aead_encrypt CHACHA20_POLY1305 key iv a_data data_in tag_size)
  else if aead_cipher_suite =? SPDM_ALGORITHMS_AEAD_CIPHER_SUITE_AEAD_SM4_GCM
  then Ret (hal_aead_encrypt SM4_GCM key iv a_data data_in tag_size)
  else (LIBSPDM_ASSERT false;; Ret (false, [], [])).

Definition libspdm_aead_decryption (aead_cipher_suite : Z)
    (key iv a_data data_in tag : list Z) : exec (bool * list Z) :=
  if (aead_cipher_suite =? SPDM_ALGORITHMS_AEAD_CIPHER_SUITE_AES_128_GCM)
     || (aead_cipher_suite =? SPDM_ALGORITHMS_AEAD_CIPHER_SUITE_AES_256_GCM)
  then Ret (hal_aead_decrypt AES_GCM key iv a_data data_in tag)
  else if aead_cipher_suite =? SPDM_ALGORITHMS_AEAD_CIPHER_SUITE_CHACHA20_POLY1305
  then Ret (hal_aead_decrypt CHACHA20_POLY1305 key iv a_data data_in tag)
  else if aead_cipher_suite =? SPDM_ALGORITHMS_AEAD_CIPHER_SUITE_AEAD_SM4_GCM
  then Ret (hal_aead_decrypt SM4_GCM key iv a_data data_in tag)
  else (LIBSPDM_ASSERT false;; Ret (false, [])).

Definition libspdm_hkdf_extract (base_hash_algo : Z) (ikm salt : list Z)
    (prk_out_size : Z) : exec (bool * list Z) :=
  if base_hash_algo =? SPDM_ALGORITHMS_BASE_HASH_ALGO_TPM_ALG_SHA_256
  then Ret (hal_hkdf_extract SHA256 ikm salt prk_out_size)
  else if base_hash_algo =? SPDM_ALGORITHMS_BASE_HASH_ALGO_TPM_ALG_SHA_384
  then Ret (hal_hkdf_extract SHA384 ikm salt prk_out_size)
  else if base_hash_algo =? SPDM_ALGORITHMS_BASE_HASH_ALGO_TPM_ALG_SHA_512
  then Ret (hal_hkdf_extract SHA512 ikm salt prk_out_size)
  else if base_hash_algo =? SPDM_ALGORITHMS_BASE_HASH_ALGO_TPM_ALG_SHA3_256
  then Ret (hal_hkdf_extract SHA3_256 ikm salt prk_out_size)
  else if base_hash_algo =? SPDM_ALGORITHMS_BASE_HASH_ALGO_TPM_ALG_SHA3_384
  then Ret (hal_hkdf_extract SHA3_384 ikm salt prk_out_size)
  else if base_hash_algo =? SPDM_ALGORITHMS_BASE_HASH_ALGO_TPM_ALG_SHA3_512
  then Ret (hal_hkdf_extract SHA3_512 ikm salt prk_out_size)
  else if base_hash_algo =? SPDM_ALGORITHMS_BASE_HASH_ALGO_TPM_ALG_SM3_256
  then Ret (hal_hkdf_extract SM3_256 ikm salt prk_out_size)
  else (LIBSPDM_ASSERT false;; Ret (false, [])).

Definition libspdm_hkdf_expand (base_hash_algo : Z) (prk info : list Z)
    (out_size : Z) : exec (bool * list Z) :=
  if base_hash_algo =? SPDM_ALGORITHMS_BASE_HASH_ALGO_TPM_ALG_SHA_256
  then Ret (hal_hkdf_expand SHA256 prk info out_size)
  else if base_hash_algo =? SPDM_ALGORITHMS_BASE_HASH_ALGO_TPM_ALG_SHA_384
  then Ret (hal_hkdf_expand SHA384 prk info out_size)
  else if base_hash_algo =? SPDM_ALGORITHMS_BASE_HASH_ALGO_TPM_ALG_SHA_512
  then Ret (hal_hkdf_expand SHA512 prk info out_size)
  else if base_hash_algo =? SPDM_ALGORITHMS_BASE_HASH_ALGO_TPM_ALG_SHA3_256
  then Ret (hal_hkdf_expand SHA3_256 prk info out_size)
  else if base_hash_algo =? SPDM_ALGORITHMS_BASE_HASH_ALGO_TPM_ALG_SHA3_384
  then Ret (hal_hkdf_expand SHA3_384 prk info out_size)
  else if base_hash_algo =? SPDM_ALGORITHMS_BASE_HASH_ALGO_TPM_ALG_SHA3_512
  then Ret (hal_hkdf_expand SHA3_512 prk info out_size)
  else if base_hash_algo =? SPDM_ALGORITHMS_BASE_HASH_ALGO_TPM_ALG_SM3_256
  then Ret (hal_hkdf_expand SM3_256 prk info out_size)
  else (LIBSPDM_ASSERT false;; Ret (false, [])).

End dispatch.
End Dispatch.
Export Dispatch.

(** ** The key schedule: libspdm_crypt_key_schedule.c *)
Module KeySchedule.

(** The bytes of a C string literal, without its terminator. *)
Definition c_str (s : string) : list Z :=
  map (λ a, Z.of_N (N_of_ascii a)) (list_ascii_of_string s).

Definition SPDM_BIN_STR_0_LABEL : list Z := Eval vm_compute in c_str "derived"%string.
Definition SPDM_BIN_STR_1_LABEL : list Z := Eval vm_compute in c_str "req hs data"%string.
Definition SPDM_BIN_STR_2_LABEL : list Z := Eval vm_compute in c_str "rsp hs data"%string.
Definition SPDM_BIN_STR_3_LABEL : list Z := Eval vm_compute in c_str "req app data"%string.
Definition SPDM_BIN_STR_4_LABEL : list Z := Eval vm_compute in c_str "rsp app data"%string.
Definition SPDM_BIN_STR_5_LABEL : list Z := Eval vm_compute in c_str "key"%string.
Definition SPDM_BIN_STR_6_LABEL : list Z := Eval vm_compute in c_str "iv"%string.
Definition SPDM_BIN_STR_7_LABEL : list Z := Eval vm_compute in c_str "finished"%string.
Definition SPDM_BIN_STR_8_LABEL : list Z := Eval vm_compute in c_str "exp master"%string.
Definition SPDM_BIN_STR_9_LABEL : list Z := Eval vm_compute in c_str "traffic upd"%string.
Definition LIBSPDM_BIN_CONCAT_LABEL : list Z := Eval vm_compute in c_str "spdmx.x "%string.

(** An output buffer and the size passed with it. *)
Record outbuf : Type := Outbuf { ob_buf : list Z; ob_size : Z }.

Section key_schedule.
  Context `{BuildConfig, CryptoHal}.

(** [out_bin] has at least [out_bin_size] bytes; the result is the buffer and
    the final size. *)
Definition libspdm_bin_concat (spdm_version : Z) (label : list Z)
    (context : option (list Z)) (length_ hash_size : Z) (out_bin : list Z)
    (out_bin_size : Z) : exec (list Z * Z) :=
  let base := 2 + blen LIBSPDM_BIN_CONCAT_LABEL + blen label in
  let final_size := match context with Some _ => base + hash_size | None => base end in
  LIBSPDM_ASSERT (final_size <=? out_bin_size);;
  b ← store out_bin 0 (le_bytes 2 length_);
  b ← store b 2 LIBSPDM_BIN_CONCAT_LABEL;
  b ← store b 6 [u8 (48 + Z.land (Z.shiftr spdm_version 12) 0xf)];
  b ← store b 8 [u8 (48 + Z.land (Z.shiftr spdm_version 8) 0xf)];
  b ← store b (2 + blen LIBSPDM_BIN_CONCAT_LABEL) label;
  match context with
  | Some c =>
      cb ← load c 0 hash_size;
      b ← store b (2 + blen LIBSPDM_BIN_CONCAT_LABEL + blen label) cb;
      Ret (b, final_size)
  | None => Ret (b, final_size)
  end.

(** A local [uint8_t bin_str[128]] filled by libspdm_bin_concat, as the
    caller then passes it: its first bin_str_size bytes. *)
Definition bin_str (spdm_version : Z) (label : list Z) (context : option (list Z))
    (length_ hash_size : Z) : exec (list Z) :=
  '(b, n) ← libspdm_bin_concat spdm_version label context length_ hash_size (zeros 128) 128;
  load b 0 n.

(** A HAL call that writes [n] bytes to the start of a buffer: its status and
    the buffer. *)
Definition into (buf : list Z) (r : bool * list Z) : exec (bool * list Z) :=
  b ← store buf 0 r.2; Ret (r.1, b).

Definition expand_into (base_hash_algo : Z) (prk info buf : list Z) (n : Z) :
    exec (bool * list Z) :=
  r ← libspdm_hkdf_expand base_hash_algo prk info n; into buf r.

Definition extract_into (base_hash_algo : Z) (ikm salt buf : list Z) (n : Z) :
    exec (bool * list Z) :=
  r ← libspdm_hkdf_extract base_hash_algo ikm salt n; into buf r.

Definition libspdm_generate_handshake_key (spdm_version : Z)
    (shared_secret : option (list Z)) (shared_secret_size : Z)
    (shared_secret_use_psk : bool) (psk_hint : list Z) (psk_hint_size : Z)
    (use_psk_hint : bool) (base_hash_algo : Z) (th1_hash_data : list Z)
    (handshake_secret request_handshake_secret response_handshake_secret : outbuf) :
    exec (bool * (outbuf * outbuf * outbuf)) :=
  let hs := handshake_secret in
  let rq := request_handshake_secret in
  let rs := response_handshake_secret in
  RETURN (false, (hs, rq, rs))
    IF negb use_psk_hint &&
       (match shared_secret with None => true | Some _ => shared_secret_size =? 0 end);;
  let hash_size := libspdm_get_hash_size base_hash_algo in
  RETURN (false, (hs, rq, rs))
    IF (ob_size hs <? hash_size) || (ob_size rq <? hash_size) || (ob_size rs <? hash_size);;
  let hs := Outbuf (ob_buf hs) hash_size in
  let rq := Outbuf (ob_buf rq) hash_size in
  let rs := Outbuf (ob_buf rs) hash_size in
  bin_str1 ← bin_str spdm_version SPDM_BIN_STR_1_LABEL (Some th1_hash_data)
               (u16 hash_size) hash_size;
  bin_str2 ← bin_str spdm_version SPDM_BIN_STR_2_LABEL (Some th1_hash_data)
               (u16 hash_size) hash_size;
  if use_psk_hint then
    hint ← load psk_hint 0 psk_hint_size;
    '(status, b) ← into (ob_buf rq) (libspdm_psk_handshake_secret_hkdf_expand
                      spdm_version base_hash_algo hint bin_str1 hash_size);
    let rq := Outbuf b (ob_size rq) in
    RETURN (false, (hs, rq, rs)) IF negb status;;
    '(status, b) ← into (ob_buf rs) (libspdm_psk_handshake_secret_hkdf_expand
                      spdm_version base_hash_algo hint bin_str2 hash_size);
    let rs := Outbuf b (ob_size rs) in
    RETURN (false, (hs, rq, rs)) IF negb status;;
    Ret (status, (hs, rq, rs))
  else
    let salt0 :=
      if shared_secret_use_psk &&
         (SPDM_MESSAGE_VERSION_13 <=? Z.shiftr spdm_version SPDM_VERSION_NUMBER_SHIFT_BIT)
      then replicate (Z.to_nat hash_size) 0xff else zeros hash_size in
    secret ← load (default [] shared_secret) 0 shared_secret_size;
    '(status, b) ← extract_into base_hash_algo secret salt0 (ob_buf hs) hash_size;
    let hs := Outbuf b (ob_size hs) in
    RETURN (false, (hs, rq, rs)) IF negb status;;
    prk ← load (ob_buf hs) 0 hash_size;
    '(status, b) ← expand_into base_hash_algo prk bin_str1 (ob_buf rq) hash_size;
    let rq := Outbuf b (ob_size rq) in
    RETURN (false, (hs, rq, rs)) IF negb status;;
    '(status, b) ← expand_into base_hash_algo prk bin_str2 (ob_buf rs) hash_size;
    let rs := Outbuf b (ob_size rs) in
    RETURN (false, (hs, rq, rs)) IF negb status;;
    Ret (status, (hs, rq, rs)).

Definition libspdm_generate_data_key (spdm_version : Z)
    (handshake_secret : option (list Z)) (handshake_secret_size : Z)
    (psk_hint : list Z) (psk_hint_size : Z) (use_psk_hint : bool)
    (base_hash_algo : Z) (th2_hash_data : list Z)
    (master_secret request_data_secret response_data_secret export_master_secret : outbuf) :
    exec (bool * (outbuf * outbuf * outbuf * outbuf)) :=
  let ms := master_secret in
  let rq := request_data_secret in
  let rs := response_data_secret in
  let ex := export_master_secret in
  RETURN (false, (ms, rq, rs, ex))
    IF negb use_psk_hint &&
       (match handshake_secret with None => true | Some _ => handshake_secret_size =? 0 end);;
  let hash_size := libspdm_get_hash_size base_hash_algo in
  RETURN (false, (ms, rq, rs, ex))
    IF (ob_size ms <? hash_size) || (ob_size rq <? hash_size)
       || (ob_size rs <? hash_size) || (ob_size ex <? hash_size);;
  let ms := Outbuf (ob_buf ms) hash_size in
  let rq := Outbuf (ob_buf rq) hash_size in
  let rs := Outbuf (ob_buf rs) hash_size in
  let ex := Outbuf (ob_buf ex) hash_size in
  bin_str3 ← bin_str spdm_version SPDM_BIN_STR_3_LABEL (Some th2_hash_data)
               (u16 hash_size) hash_size;
  bin_str4 ← bin_str spdm_version SPDM_BIN_STR_4_LABEL (Some th2_hash_data)
               (u16 hash_size) hash_size;
  bin_str8 ← bin_str spdm_version SPDM_BIN_STR_8_LABEL (Some th2_hash_data)
               (u16 hash_size) hash_size;
  if use_psk_hint then
    hint ← load psk_hint 0 psk_hint_size;
    '(status, b) ← into (ob_buf rq) (libspdm_psk_master_secret_hkdf_expand
                      spdm_version base_hash_algo hint bin_str3 hash_size);
    let rq := Outbuf b (ob_size rq) in
    RETURN (status, (ms, rq, rs, ex)) IF negb status;;
    '(status, b) ← into (ob_buf rs) (libspdm_psk_master_secret_hkdf_expand
                      spdm_version base_hash_algo hint bin_str4 hash_size);
    let rs := Outbuf b (ob_size rs) in
    RETURN (status, (ms, rq, rs, ex)) IF negb status;;
    '(status, b) ← into (ob_buf ex) (libspdm_psk_master_secret_hkdf_expand
                      spdm_version base_hash_algo hint bin_str8 hash_size);
    Ret (status, (ms, rq, rs, Outbuf b (ob_size ex)))
  else
    bin_str0 ← bin_str spdm_version SPDM_BIN_STR_0_LABEL None (u16 hash_size) hash_size;
    hs ← load (default [] handshake_secret) 0 hash_size;
    '(status, salt1) ← expand_into base_hash_algo hs bin_str0
                         (zeros LIBSPDM_MAX_HASH_SIZE) hash_size;
    RETURN (status, (ms, rq, rs, ex)) IF negb status;;
    salt ← load salt1 0 hash_size;
    '(status, b) ← extract_into base_hash_algo (zeros hash_size) salt (ob_buf ms) hash_size;
    let ms := Outbuf b (ob_size ms) in
    RETURN (status, (ms, rq, rs, ex)) IF negb status;;
    prk ← load (ob_buf ms) 0 hash_size;
    '(status, b) ← expand_into base_hash_algo prk bin_str3 (ob_buf rq) hash_size;
    let rq := Outbuf b (ob_size rq) in
    RETURN (status, (ms, rq, rs, ex)) IF negb status;;
    '(status, b) ← expand_into base_hash_algo prk bin_str4 (ob_buf rs) hash_size;
    let rs := Outbuf b (ob_size rs) in
    RETURN (status, (ms, rq, rs, ex)) IF negb status;;
    '(status, b) ← expand_into base_hash_algo prk bin_str8 (ob_buf ex) hash_size;
    Ret (status, (ms, rq, rs, Outbuf b (ob_size ex))).

End key_schedule.
End KeySchedule.

Export KeySchedule.

(** ** A test double of the HAL

    A concrete HAL that satisfies the laws: the cipher is the identity with a
    checksum of all its inputs as the tag, the key derivation functions are
    checksums.  It is what the examples of the development run on. *)
Module ToyHal.

Fixpoint checksum (l : list Z) : Z :=
  match l with [] => 1 | b :: l' => (b + 3 * checksum l') mod 256 end.

Definition spread (l : list Z) (n : Z) : list Z :=
  replicate (Z.to_nat n) (u8 (checksum l)).

Definition toy_hal : CryptoHal := {|
  rng_state := Z;
  libspdm_random_bytes n s := (true, spread [s] n, s + 1);
  hal_aead_encrypt _ key iv a p n := (true, p, spread (key ++ iv ++ a ++ p) n);
  hal_aead_decrypt _ key iv a c t :=
    if decide (t = spread (key ++ iv ++ a ++ c) (blen t))
    then (true, c) else (false, replicate (length c) 0);
  hal_hkdf_extract _ ikm salt n := (true, spread (ikm ++ salt) n);
  hal_hkdf_expand _ prk info n := (true, spread (prk ++ info) n);
  libspdm_psk_handshake_secret_hkdf_expand _ _ hint info n := (true, spread (hint ++ info) n);
  libspdm_psk_master_secret_hkdf_expand _ _ hint info n := (true, spread (hint ++ info) n);
|}.

Lemma spread_ok l n : 0 ≤ n → blen (spread l n) = n ∧ bytes_ok (spread l n).
Proof.
  intros Hn. unfold spread. split; [rewrite length_replicate; lia|].
  apply Forall_replicate, u8_range.
Qed.

Lemma spread_bytes l n : bytes_ok (spread l n).
Proof. apply Forall_replicate, u8_range. Qed.

#[export] Instance toy_hal_ok : @CryptoHalOk toy_hal.
Proof.
  split; cbn; intros; try by apply spread_ok.
  - split; [done|]. by apply spread_ok.
  - split; [done|]. apply spread_bytes.
  - case_decide; cbn; [done|]. apply length_replicate.
  - case_decide; cbn; [done|]. apply bytes_ok_replicate0.
  - simplify_eq. rewrite decide_True; [done|].
    unfold spread. by rewrite length_replicate, Nat2Z.id.
  - case_decide; simplify_eq. congruence.
Qed.

End ToyHal.

(** ** Facts about the key schedule *)
Module KeyScheduleFacts.

(** One HAL step of the schedule: case on the reference's answer. *)
Ltac hal_step L x Hx :=
  let b := fresh "b" in let Hb := fresh "Hb" in let Hl := fresh "Hl" in let Hy := fresh "Hby" in
  pose proof L as (b & Hb & [Hl Hy] & Hx); rewrite Hb; cbn [mbind exec_bind];
  match type of Hx with
  | ∀ y, ?r = Some y → _ => destruct r as [x|] eqn:?; cbn [negb mbind option_bind];
      [specialize (Hx x eq_refl)|clear Hx]
  end.

Section facts.
Context `{BuildConfig, CryptoHal}.

(** The info string the specification defines (DSP0274, key schedule):
    length, "spdm" with the version's digits, the label, and the context. *)
Definition info (v : Z) (label : list Z) (ctx : option (list Z)) (len : Z) : list Z :=
  le_bytes 2 len ++
  c_str "spdm"%string ++ [48 + Z.land (Z.shiftr v 12) 0xf; 46; 48 + Z.land (Z.shiftr v 8) 0xf; 32] ++
  label ++ default [] ctx.

Lemma nibble_range x : 0 ≤ Z.land x 0xf < 16.
Proof. change 0xf with (Z.ones 4). rewrite Z.land_ones by lia. apply Z.mod_pos_bound. lia. Qed.

Lemma u8_digit x : u8 (48 + Z.land x 0xf) = 48 + Z.land x 0xf.
Proof. apply u8_small. pose proof (nibble_range x). unfold is_u8. lia. Qed.

Definition ctx_size (ctx : option (list Z)) (hash_size : Z) : Z :=
  match ctx with Some _ => hash_size | None => 0 end.

Definition ctx_ok (ctx : option (list Z)) (hash_size : Z) : Prop :=
  match ctx with Some c => blen c = hash_size | None => True end.

Lemma length_info v label ctx len :
  blen (info v label ctx len) = 10 + blen label + blen (default [] ctx).
Proof. unfold info. len_simpl. cbn. lia. Qed.

Lemma bin_concat_spec v label ctx len hs out n :
  0 ≤ hs → ctx_ok ctx hs → 10 + blen label + ctx_size ctx hs ≤ n → n ≤ blen out →
  ∃ b, libspdm_bin_concat v label ctx len hs out n =
         Ret (b, 10 + blen label + ctx_size ctx hs) ∧
       length b = length out ∧
       sub b 0 (10 + blen label + ctx_size ctx hs) = info v label ctx len.
Proof.
  intros Hhs Hctx Hn Hout. unfold libspdm_bin_concat.
  change (blen LIBSPDM_BIN_CONCAT_LABEL) with 8.
  replace (match ctx with Some _ => _ | None => _ end)
    with (10 + blen label + ctx_size ctx hs) by (destruct ctx; cbn; lia).
  assert (0 ≤ ctx_size ctx hs) by (destruct ctx; cbn; lia).
  replace (_ <=? n) with true by lia. rewrite assert_true. cbn [mbind exec_bind].
  rewrite !u8_digit.
  set (d1 := 48 + Z.land (Z.shiftr v 12) 0xf). set (d2 := 48 + Z.land (Z.shiftr v 8) 0xf).
  change (2 + 8) with 10.
  rewrite store_in by range. cbn [mbind exec_bind].
  set (m1 := upd out 0 _). assert (L1 : length m1 = length out) by (apply length_upd; range).
  rewrite store_in by (rewrite in_range_iff, L1; cbn; lia). cbn [mbind exec_bind].
  set (m2 := upd m1 2 _).
  assert (L2 : length m2 = length out)
    by (unfold m2; rewrite length_upd; [done|rewrite in_range_iff, L1; cbn; lia]).
  rewrite store_in by (rewrite in_range_iff, L2; cbn; lia). cbn [mbind exec_bind].
  set (m3 := upd m2 6 _).
  assert (L3 : length m3 = length out)
    by (unfold m3; rewrite length_upd; [done|rewrite in_range_iff, L2; cbn; lia]).
  rewrite store_in by (rewrite in_range_iff, L3; cbn; lia). cbn [mbind exec_bind].
  set (m4 := upd m3 8 _).
  assert (L4 : length m4 = length out)
    by (unfold m4; rewrite length_upd; [done|rewrite in_range_iff, L3; cbn; lia]).
  rewrite store_in by (rewrite in_range_iff, L4; lia). cbn [mbind exec_bind].
  set (m5 := upd m4 10 _).
  assert (L5 : length m5 = length out)
    by (unfold m5; rewrite length_upd; [done|rewrite in_range_iff, L4; lia]).
  assert (S4 : sub m4 0 10 = le_bytes 2 len ++ c_str "spdm"%string ++ [d1; 46; d2; 32]).
  { assert (S2 : sub m2 0 10 = le_bytes 2 len ++ LIBSPDM_BIN_CONCAT_LABEL).
    { unfold m2. change 10 with (2 + blen LIBSPDM_BIN_CONCAT_LABEL).
      rewrite sub_upd_append by (rewrite in_range_iff, L1; cbn; lia).
      reflexivity. }
    unfold m4. rewrite sub_upd_inside by (rewrite ?in_range_iff, ?L3; cbn; lia).
    unfold m3. rewrite sub_upd_inside by (rewrite ?in_range_iff, ?L2; cbn; lia).
    rewrite S2. reflexivity. }
  assert (S5 : sub m5 0 (10 + blen label) =
               le_bytes 2 len ++ c_str "spdm"%string ++ [d1; 46; d2; 32] ++ label).
  { unfold m5. rewrite sub_upd_append by (rewrite in_range_iff, L4; lia).
    rewrite S4, <- !app_assoc. reflexivity. }
  destruct ctx as [c|]; cbn [ctx_size ctx_ok] in *.
  - rewrite load_in by range. cbn [mbind exec_bind].
    assert (Hc : sub c 0 hs = c) by (rewrite <- Hctx; apply sub_all). rewrite Hc.
    rewrite store_in by (rewrite in_range_iff, L5; lia). cbn [mbind exec_bind].
    eexists. split; [reflexivity|]. split.
    { rewrite length_upd; [done|]. rewrite in_range_iff, L5. lia. }
    rewrite <- Hctx. rewrite sub_upd_append by (rewrite in_range_iff, L5; lia).
    rewrite S5. unfold info. cbn [default]. by rewrite <- !app_assoc.
  - exists m5. split; [reflexivity|]. split; [done|].
    rewrite Z.add_0_r, S5. unfold info. cbn [default from_option]. by rewrite app_nil_r.
Qed.

Lemma bin_str_spec v label ctx len hs :
  0 ≤ hs → ctx_ok ctx hs → 10 + blen label + ctx_size ctx hs ≤ 128 →
  bin_str v label ctx len hs = Ret (info v label ctx len).
Proof.
  intros Hhs Hctx Hn. unfold bin_str.
  destruct (bin_concat_spec v label ctx len hs (zeros 128) 128) as (b & Hb & Hl & Hs);
    [done|done|done|reflexivity|].
  rewrite Hb. cbn [mbind exec_bind].
  assert (0 ≤ ctx_size ctx hs) by (destruct ctx; cbn; lia).
  rewrite load_in; [by rewrite Hs|]. rewrite in_range_iff, Hl, length_zeros. lia.
Qed.

(** The labels of the SPDM key schedule, SPDM_BIN_STR_0 to SPDM_BIN_STR_9. *)
Definition spdm_labels : list (list Z) :=
  [SPDM_BIN_STR_0_LABEL; SPDM_BIN_STR_1_LABEL; SPDM_BIN_STR_2_LABEL; SPDM_BIN_STR_3_LABEL;
   SPDM_BIN_STR_4_LABEL; SPDM_BIN_STR_5_LABEL; SPDM_BIN_STR_6_LABEL; SPDM_BIN_STR_7_LABEL;
   SPDM_BIN_STR_8_LABEL; SPDM_BIN_STR_9_LABEL].

Lemma label_length l : l ∈ spdm_labels → 2 ≤ blen l ≤ 12.
Proof.
  intros Hl. apply (proj1 (list.Forall_forall (λ l, 2 ≤ blen l ≤ 12) spdm_labels)); [|done].
  repeat constructor; cbn; lia.
Qed.

(** Different labels of the same length differ. *)
Lemma info_inj v1 v2 l1 l2 c1 c2 n1 n2 hs :
  l1 ∈ spdm_labels → l2 ∈ spdm_labels → 12 < hs → ctx_ok c1 hs → ctx_ok c2 hs →
  info v1 l1 c1 n1 = info v2 l2 c2 n2 →
  l1 = l2 ∧ c1 = c2 ∧
  Z.land (Z.shiftr v1 8) 0xff = Z.land (Z.shiftr v2 8) 0xff ∧
  n1 mod 2 ^ 16 = n2 mod 2 ^ 16.
Proof.
  intros Hl1 Hl2 Hhs Hc1 Hc2 Heq.
  pose proof (label_length _ Hl1). pose proof (label_length _ Hl2).
  assert (Hlen := f_equal (λ l, blen l) Heq). cbn beta in Hlen. rewrite !length_info in Hlen.
  assert (Hll : length l1 = length l2)
    by (destruct c1, c2; cbn [ctx_ok default from_option id length] in *; lia).
  unfold info in Heq.
  apply app_inj_1 in Heq as [Hn Heq]; [|by rewrite !length_le_bytes].
  apply app_inj_1 in Heq as [_ Heq]; [|done].
  apply app_inj_1 in Heq as [Hv Heq]; [|done].
  apply app_inj_1 in Heq as [Hlab Hctx]; [|done].
  split; [done|]. split.
  { destruct c1, c2; cbn in *; subst; try done; cbn in Hlen; lia. }
  split.
  - injection Hv as Ha Hb. apply Z.bits_inj'; intros i Hi.
    rewrite !Z.land_spec, !Z.shiftr_spec by lia.
    assert (Ha' : Z.land (Z.shiftr v1 12) 15 = Z.land (Z.shiftr v2 12) 15) by lia.
    assert (Hb' : Z.land (Z.shiftr v1 8) 15 = Z.land (Z.shiftr v2 8) 15) by lia.
    change 15 with (Z.ones 4) in *. change 255 with (Z.ones 8).
    rewrite !Z.testbit_ones_nonneg by lia.
    destruct (Z.ltb_spec i 8); [|by rewrite !andb_false_r]. rewrite !andb_true_r.
    destruct (decide (i < 4)).
    + apply (f_equal (λ x, Z.testbit x i)) in Hb'.
      rewrite !Z.land_spec, !Z.shiftr_spec, !Z.testbit_ones_nonneg in Hb' by lia.
      replace (i <? 4) with true in Hb' by lia. by rewrite !andb_true_r in Hb'.
    + apply (f_equal (λ x, Z.testbit x (i - 4))) in Ha'.
      rewrite !Z.land_spec, !Z.shiftr_spec, !Z.testbit_ones_nonneg in Ha' by lia.
      replace (i - 4 <? 4) with true in Ha' by lia. rewrite !andb_true_r in Ha'.
      by replace (i - 4 + 12) with (i + 8) in Ha' by lia.
  - apply (f_equal le_val) in Hn. rewrite !le_val_bytes in Hn. apply Hn.
Qed.

(** ** The reference key schedule *)

Definition hash_of_algo (a : Z) : option hash_alg :=
  if a =? SPDM_ALGORITHMS_BASE_HASH_ALGO_TPM_ALG_SHA_256 then Some SHA256
  else if a =? SPDM_ALGORITHMS_BASE_HASH_ALGO_TPM_ALG_SHA_384 then Some SHA384
  else if a =? SPDM_ALGORITHMS_BASE_HASH_ALGO_TPM_ALG_SHA_512 then Some SHA512
  else if a =? SPDM_ALGORITHMS_BASE_HASH_ALGO_TPM_ALG_SHA3_256 then Some SHA3_256
  else if a =? SPDM_ALGORITHMS_BASE_HASH_ALGO_TPM_ALG_SHA3_384 then Some SHA3_384
  else if a =? SPDM_ALGORITHMS_BASE_HASH_ALGO_TPM_ALG_SHA3_512 then Some SHA3_512
  else if a =? SPDM_ALGORITHMS_BASE_HASH_ALGO_TPM_ALG_SM3_256 then Some SM3_256
  else None.

Definition hash_size_of (h : hash_alg) : Z :=
  match h with
  | SHA256 | SHA3_256 | SM3_256 => 32
  | SHA384 | SHA3_384 => 48
  | SHA512 | SHA3_512 => 64
  end.

Lemma hash_of_algo_cases a h :
  hash_of_algo a = Some h →
  libspdm_get_hash_size a = hash_size_of h ∧
  (∀ ikm salt n, libspdm_hkdf_extract a ikm salt n = Ret (hal_hkdf_extract h ikm salt n)) ∧
  (∀ prk i n, libspdm_hkdf_expand a prk i n = Ret (hal_hkdf_expand h prk i n)).
Proof.
  unfold hash_of_algo, libspdm_hkdf_extract, libspdm_hkdf_expand. intros Hh.
  repeat case_if; simplify_eq; split_and!; intros; try reflexivity;
    match goal with E : (a =? _) = true |- _ => apply Z.eqb_eq in E; subst a end; reflexivity.
Qed.

Lemma hash_size_range h : 32 ≤ hash_size_of h ≤ 64.
Proof. destruct h; cbn; lia. Qed.

Definition answer (r : bool * list Z) : option (list Z) := if r.1 then Some r.2 else None.

Definition Extract h ikm salt n := answer (hal_hkdf_extract h ikm salt n).
Definition Expand h prk inf n := answer (hal_hkdf_expand h prk inf n).

(** Handshake secret, request and response handshake secrets. *)
Definition handshake_secrets (v : Z) (h : hash_alg) (secret : list Z) (use_psk : bool)
    (th1 : list Z) : option (list Z * list Z * list Z) :=
  let n := hash_size_of h in
  let salt := if use_psk && (0x13 <=? Z.shiftr v 8) then replicate (Z.to_nat n) 0xff
              else zeros n in
  hs ← Extract h secret salt n;
  rq ← Expand h hs (info v (c_str "req hs data"%string) (Some th1) n) n;
  rs ← Expand h hs (info v (c_str "rsp hs data"%string) (Some th1) n) n;
  Some (hs, rq, rs).

(** Master secret, request and response data secrets, export master secret. *)
Definition data_secrets (v : Z) (h : hash_alg) (hs th2 : list Z) :
    option (list Z * list Z * list Z * list Z) :=
  let n := hash_size_of h in
  salt ← Expand h hs (info v (c_str "derived"%string) None n) n;
  ms ← Extract h (zeros n) salt n;
  rq ← Expand h ms (info v (c_str "req app data"%string) (Some th2) n) n;
  rs ← Expand h ms (info v (c_str "rsp app data"%string) (Some th2) n) n;
  ex ← Expand h ms (info v (c_str "exp master"%string) (Some th2) n) n;
  Some (ms, rq, rs, ex).

Definition ob_ok (h : hash_alg) (o : outbuf) : Prop :=
  hash_size_of h ≤ ob_size o ∧ hash_size_of h ≤ blen (ob_buf o).

(** An output buffer keeps its length, and holds bytes if it did. *)
Definition same_shape (o o' : outbuf) : Prop :=
  length (ob_buf o') = length (ob_buf o) ∧ (bytes_ok (ob_buf o) → bytes_ok (ob_buf o')).

Definition holds_secret (h : hash_alg) (o : outbuf) (secret : list Z) : Prop :=
  ob_size o = hash_size_of h ∧ sub (ob_buf o) 0 (hash_size_of h) = secret.

(** What a HAL call into a buffer does, against the reference's answer. *)
Definition step_ok (r : option (list Z)) (buf : list Z) (n : Z) (m : exec (bool * list Z)) : Prop :=
  ∃ b, m = Ret (match r with Some _ => true | None => false end, b) ∧
    (length b = length buf ∧ (bytes_ok buf → bytes_ok b)) ∧ ∀ x, r = Some x → sub b 0 n = x.

Context `{!CryptoHalOk}.

Lemma into_ok buf r n :
  blen r.2 = n ∧ bytes_ok r.2 → n ≤ blen buf → step_ok (answer r) buf n (into buf r).
Proof.
  intros [Hr Hrb] Hb. unfold into. rewrite store_in by range. cbn [mbind exec_bind].
  exists (upd buf 0 r.2). destruct r as [ok l]; cbn in *. unfold answer; cbn.
  split; [by destruct ok|]. split; [split; [apply length_upd; range|auto with word]|].
  intros x. destruct ok; [|done]. intros [= <-]. subst n. apply sub_upd_same. range.
Qed.

Lemma expand_into_ok a h prk i buf n :
  hash_of_algo a = Some h → 0 ≤ n ≤ blen buf →
  step_ok (Expand h prk i n) buf n (expand_into a prk i buf n).
Proof.
  intros Ha Hn. destruct (hash_of_algo_cases a h Ha) as (_ & _ & He).
  unfold expand_into. rewrite He. cbn [mbind exec_bind].
  apply into_ok; [apply hkdf_expand_out; lia|lia].
Qed.

Lemma extract_into_ok a h ikm salt buf n :
  hash_of_algo a = Some h → 0 ≤ n ≤ blen buf →
  step_ok (Extract h ikm salt n) buf n (extract_into a ikm salt buf n).
Proof.
  intros Ha Hn. destruct (hash_of_algo_cases a h Ha) as (_ & He & _).
  unfold extract_into. rewrite He. cbn [mbind exec_bind].
  apply into_ok; [apply hkdf_extract_out; lia|lia].
Qed.

Ltac fold_labels :=
  change (c_str "derived"%string) with SPDM_BIN_STR_0_LABEL in *;
  change (c_str "req hs data"%string) with SPDM_BIN_STR_1_LABEL in *;
  change (c_str "rsp hs data"%string) with SPDM_BIN_STR_2_LABEL in *;
  change (c_str "req app data"%string) with SPDM_BIN_STR_3_LABEL in *;
  change (c_str "rsp app data"%string) with SPDM_BIN_STR_4_LABEL in *;
  change (c_str "exp master"%string) with SPDM_BIN_STR_8_LABEL in *.

Ltac hal_done :=
  split; [reflexivity | split; [by split_and! | intros; simplify_eq; auto 10]].

Ltac read_back Hx := rewrite load_in by range; cbn [mbind exec_bind]; rewrite Hx.

Lemma generate_handshake_key_spec v s n0 psk a h th1 hs rq rs :
  hash_of_algo a = Some h → 0 < n0 ≤ blen s → blen th1 = hash_size_of h →
  ob_ok h hs → ob_ok h rq → ob_ok h rs →
  let secret := sub s 0 n0 in
  ∃ hs' rq' rs',
    libspdm_generate_handshake_key v (Some s) n0 psk [] 0 false a th1 hs rq rs =
      Ret (match handshake_secrets v h secret psk th1 with Some _ => true | None => false end,
           (hs', rq', rs')) ∧
    (same_shape hs hs' ∧ same_shape rq rq' ∧ same_shape rs rs') ∧
    ∀ x y z, handshake_secrets v h secret psk th1 = Some (x, y, z) →
      holds_secret h hs' x ∧ holds_secret h rq' y ∧ holds_secret h rs' z.
Proof.
  intros Ha Hs Hth [Hh1 Hh2] [Hr1 Hr2] [Hp1 Hp2] secret.
  pose proof (hash_of_algo_cases a h Ha) as (Hsz & _). pose proof (hash_size_range h) as Hn.
  unfold libspdm_generate_handshake_key, handshake_secrets, SPDM_MESSAGE_VERSION_13,
    SPDM_VERSION_NUMBER_SHIFT_BIT. fold_labels. rewrite Hsz.
  replace (n0 =? 0) with false by lia. cbn [negb andb].
  replace (_ || _ || _) with false by lia. cbn [ob_buf ob_size].
  unfold holds_secret. set (n := hash_size_of h) in *.
  assert (Bhs : 0 ≤ n ≤ blen (ob_buf hs)) by lia.
  assert (Brq : 0 ≤ n ≤ blen (ob_buf rq)) by lia.
  assert (Brs : 0 ≤ n ≤ blen (ob_buf rs)) by lia.
  assert (Hu : u16 n = n) by (apply u16_small; unfold is_u16; lia). rewrite Hu.
  rewrite !bin_str_spec by (cbn; lia). cbn [mbind exec_bind default from_option id].
  rewrite load_in by range. fold secret. cbn [mbind exec_bind].
  hal_step (extract_into_ok a h secret
    (if psk && (0x13 <=? Z.shiftr v 8) then replicate (Z.to_nat n) 0xff else zeros n)
    (ob_buf hs) n Ha Bhs) prk Hx; [|do 3 eexists; hal_done].
  read_back Hx.
  hal_step (expand_into_ok a h prk (info v SPDM_BIN_STR_1_LABEL (Some th1) n) (ob_buf rq) n Ha Brq) y Hy; [|do 3 eexists; hal_done].
  hal_step (expand_into_ok a h prk (info v SPDM_BIN_STR_2_LABEL (Some th1) n) (ob_buf rs) n Ha Brs) z Hz; do 3 eexists; hal_done.
Qed.

Lemma generate_data_key_spec v secret n0 a h th2 ms rq rs ex :
  hash_of_algo a = Some h → n0 ≠ 0 → blen th2 = hash_size_of h →
  hash_size_of h ≤ blen secret →
  ob_ok h ms → ob_ok h rq → ob_ok h rs → ob_ok h ex →
  let r := data_secrets v h (sub secret 0 (hash_size_of h)) th2 in
  ∃ ms' rq' rs' ex',
    libspdm_generate_data_key v (Some secret) n0 [] 0 false a th2 ms rq rs ex =
      Ret (match r with Some _ => true | None => false end, (ms', rq', rs', ex')) ∧
    (same_shape ms ms' ∧ same_shape rq rq' ∧ same_shape rs rs' ∧ same_shape ex ex') ∧
    ∀ x y z w, r = Some (x, y, z, w) →
      holds_secret h ms' x ∧ holds_secret h rq' y ∧ holds_secret h rs' z ∧ holds_secret h ex' w.
Proof.
  intros Ha Hs Hth Hsl [Hh1 Hh2] [Hr1 Hr2] [Hp1 Hp2] [He1 He2] r. subst r.
  pose proof (hash_of_algo_cases a h Ha) as (Hsz & _). pose proof (hash_size_range h) as Hn.
  unfold libspdm_generate_data_key, data_secrets. fold_labels. rewrite Hsz.
  replace (n0 =? 0) with false by lia. cbn [negb andb].
  replace (_ || _ || _ || _) with false by lia. cbn [ob_buf ob_size].
  unfold holds_secret. set (n := hash_size_of h) in *.
  assert (Bms : 0 ≤ n ≤ blen (ob_buf ms)) by lia.
  assert (Brq : 0 ≤ n ≤ blen (ob_buf rq)) by lia.
  assert (Brs : 0 ≤ n ≤ blen (ob_buf rs)) by lia.
  assert (Bex : 0 ≤ n ≤ blen (ob_buf ex)) by lia.
  assert (Bz : 0 ≤ n ≤ blen (zeros LIBSPDM_MAX_HASH_SIZE))
    by (rewrite length_zeros; unfold LIBSPDM_MAX_HASH_SIZE; lia).
  assert (Hu : u16 n = n) by (apply u16_small; unfold is_u16; lia). rewrite Hu.
  rewrite !bin_str_spec by (cbn; lia). cbn [mbind exec_bind default from_option id].
  rewrite (load_in secret) by range. cbn [mbind exec_bind].
  hal_step (expand_into_ok a h (sub secret 0 n) (info v SPDM_BIN_STR_0_LABEL None n)
    (zeros LIBSPDM_MAX_HASH_SIZE) n Ha Bz) salt Hsalt;
    [|do 4 eexists; hal_done].
  rewrite length_zeros in Hl. unfold LIBSPDM_MAX_HASH_SIZE in Hl. read_back Hsalt.
  hal_step (extract_into_ok a h (zeros n) salt (ob_buf ms) n Ha Bms) prk Hx;
    [|do 4 eexists; hal_done].
  read_back Hx.
  hal_step (expand_into_ok a h prk (info v SPDM_BIN_STR_3_LABEL (Some th2) n) (ob_buf rq) n Ha Brq) y Hy; [|do 4 eexists; hal_done].
  hal_step (expand_into_ok a h prk (info v SPDM_BIN_STR_4_LABEL (Some th2) n) (ob_buf rs) n Ha Brs) z Hz; [|do 4 eexists; hal_done].
  hal_step (expand_into_ok a h prk (info v SPDM_BIN_STR_8_LABEL (Some th2) n) (ob_buf ex) n Ha Bex) w Hw; do 4 eexists; hal_done.
Qed.

(** ** The PSK branch: the secrets come from the PSK HAL *)

Definition psk_handshake_secrets (v a : Z) (n : Z) (hint th1 : list Z) :
    option (list Z * list Z) :=
  let expand i := answer (libspdm_psk_handshake_secret_hkdf_expand v a hint i n) in
  rq ← expand (info v (c_str "req hs data"%string) (Some th1) n);
  rs ← expand (info v (c_str "rsp hs data"%string) (Some th1) n);
  Some (rq, rs).

Definition psk_data_secrets (v a : Z) (n : Z) (hint th2 : list Z) :
    option (list Z * list Z * list Z) :=
  let expand i := answer (libspdm_psk_master_secret_hkdf_expand v a hint i n) in
  rq ← expand (info v (c_str "req app data"%string) (Some th2) n);
  rs ← expand (info v (c_str "rsp app data"%string) (Some th2) n);
  ex ← expand (info v (c_str "exp master"%string) (Some th2) n);
  Some (rq, rs, ex).

Lemma generate_handshake_key_psk_spec v a h hint m th1 hs rq rs :
  hash_of_algo a = Some h → blen th1 = hash_size_of h → 0 ≤ m ≤ blen hint →
  ob_ok h hs → ob_ok h rq → ob_ok h rs →
  let r := psk_handshake_secrets v a (hash_size_of h) (sub hint 0 m) th1 in
  ∃ hs' rq' rs',
    libspdm_generate_handshake_key v None 0 false hint m true a th1 hs rq rs =
      Ret (match r with Some _ => true | None => false end, (hs', rq', rs')) ∧
    (same_shape hs hs' ∧ same_shape rq rq' ∧ same_shape rs rs') ∧
    ∀ y z, r = Some (y, z) → holds_secret h rq' y ∧ holds_secret h rs' z.
Proof.
  intros Ha Hth Hm [Hh1 Hh2] [Hr1 Hr2] [Hp1 Hp2] r. subst r.
  pose proof (hash_of_algo_cases a h Ha) as (Hsz & _). pose proof (hash_size_range h) as Hn.
  unfold libspdm_generate_handshake_key, psk_handshake_secrets. fold_labels. rewrite Hsz.
  cbn [negb andb]. replace (_ || _ || _) with false by lia. cbn [ob_buf ob_size].
  unfold holds_secret. set (n := hash_size_of h) in *.
  assert (Hu : u16 n = n) by (apply u16_small; unfold is_u16; lia). rewrite Hu.
  rewrite !bin_str_spec by (cbn; lia). cbn [mbind exec_bind].
  rewrite load_in by range. cbn [mbind exec_bind].
  assert (Hexp : ∀ i buf, n ≤ blen buf →
    step_ok (answer (libspdm_psk_handshake_secret_hkdf_expand v a (sub hint 0 m) i n)) buf n
      (into buf (libspdm_psk_handshake_secret_hkdf_expand v a (sub hint 0 m) i n)))
    by (intros i buf Hb; apply into_ok; [apply psk_handshake_out; lia|done]).
  hal_step (Hexp (info v SPDM_BIN_STR_1_LABEL (Some th1) n) (ob_buf rq) Hr2) y Hy;
    [|do 3 eexists; hal_done].
  hal_step (Hexp (info v SPDM_BIN_STR_2_LABEL (Some th1) n) (ob_buf rs) Hp2) z Hz;
    do 3 eexists; hal_done.
Qed.

Lemma generate_data_key_psk_spec v a h hint m th2 ms rq rs ex :
  hash_of_algo a = Some h → blen th2 = hash_size_of h → 0 ≤ m ≤ blen hint →
  ob_ok h ms → ob_ok h rq → ob_ok h rs → ob_ok h ex →
  let r := psk_data_secrets v a (hash_size_of h) (sub hint 0 m) th2 in
  ∃ ms' rq' rs' ex',
    libspdm_generate_data_key v None 0 hint m true a th2 ms rq rs ex =
      Ret (match r with Some _ => true | None => false end, (ms', rq', rs', ex')) ∧
    (same_shape ms ms' ∧ same_shape rq rq' ∧ same_shape rs rs' ∧ same_shape ex ex') ∧
    ∀ y z w, r = Some (y, z, w) → holds_secret h rq' y ∧ holds_secret h rs' z ∧ holds_secret h ex' w.
Proof.
  intros Ha Hth Hm [Hh1 Hh2] [Hr1 Hr2] [Hp1 Hp2] [He1 He2] r. subst r.
  pose proof (hash_of_algo_cases a h Ha) as (Hsz & _). pose proof (hash_size_range h) as Hn.
  unfold libspdm_generate_data_key, psk_data_secrets. fold_labels. rewrite Hsz.
  cbn [negb andb]. replace (_ || _ || _ || _) with false by lia. cbn [ob_buf ob_size].
  unfold holds_secret. set (n := hash_size_of h) in *.
  assert (Hu : u16 n = n) by (apply u16_small; unfold is_u16; lia). rewrite Hu.
  rewrite !bin_str_spec by (cbn; lia). cbn [mbind exec_bind].
  rewrite load_in by range. cbn [mbind exec_bind].
  assert (Hexp : ∀ i buf, n ≤ blen buf →
    step_ok (answer (libspdm_psk_master_secret_hkdf_expand v a (sub hint 0 m) i n)) buf n
      (into buf (libspdm_psk_master_secret_hkdf_expand v a (sub hint 0 m) i n)))
    by (intros i buf Hb; apply into_ok; [apply psk_master_out; lia|done]).
  hal_step (Hexp (info v SPDM_BIN_STR_3_LABEL (Some th2) n) (ob_buf rq) Hr2) y Hy;
    [|do 4 eexists; hal_done].
  hal_step (Hexp (info v SPDM_BIN_STR_4_LABEL (Some th2) n) (ob_buf rs) Hp2) z Hz;
    [|do 4 eexists; hal_done].
  hal_step (Hexp (info v SPDM_BIN_STR_8_LABEL (Some th2) n) (ob_buf ex) He2) w Hw;
    do 4 eexists; hal_done.
Qed.

End facts.
End KeyScheduleFacts.

(** ** The component's properties *)
Module CryptLibProps.
Import KeyScheduleFacts ToyHal.

(** [libspdm_bin_concat] builds the info string of the specification: for an
    output buffer with room for it, it faults nowhere, reports the exact size,
    and the first bytes of the buffer are the length, "spdm" with the version's
    digits, the label and the context (when there is one), whatever the buffer
    held. *)
Theorem bin_concat_format `{BuildConfig} (v len hash_size out_size : Z) (label out : list Z)
    (ctx : option (list Z))
    (Hh : 0 ≤ hash_size) (Hc : ctx_ok ctx hash_size)
    (Hs : 10 + blen label + ctx_size ctx hash_size ≤ out_size) (Ho : out_size ≤ blen out) :
  ∃ b, libspdm_bin_concat v label ctx len hash_size out out_size =
         Ret (b, blen (info v label ctx len)) ∧
       length b = length out ∧
       sub b 0 (blen (info v label ctx len)) = info v label ctx len.
Proof.
  destruct (bin_concat_spec v label ctx len hash_size out out_size) as (b & E & Hl & Hb);
    try done.
  assert (Hi : blen (info v label ctx len) = 10 + blen label + ctx_size ctx hash_size).
  { rewrite length_info. destruct ctx; cbn in *; lia. }
  exists b. rewrite Hi. auto.
Qed.

Lemma bin_concat_format_witness :
  ∃ b, @libspdm_bin_concat default_build 0x1200 (c_str "key"%string) None 32 32
         (zeros 20) 20 = Ret (b, 13) ∧
       sub b 0 13 = [32; 0] ++ c_str "spdm1.2 key"%string.
Proof.
  destruct (@bin_concat_format default_build 0x1200 32 32 20 (c_str "key"%string) (zeros 20)
    None) as (b & E & _ & Hb); [lia|exact I|vm_compute; discriminate|vm_compute; discriminate|].
  exists b. split; [exact E|exact Hb].
Defined.



(** C19: libspdm_generate_handshake_key implements the handshake part of the
    SPDM key schedule.  For a supported hash, a non-empty shared secret and
    buffers of at least the hash size it faults nowhere; it returns true
    exactly when every HKDF step succeeds, and then the three buffers hold
    HKDF-Extract(salt, secret), with a salt of 0xff bytes for a PSK from
    SPDM 1.3 on and of zeros otherwise, and its two expansions. *)
Theorem handshake_key_refines `{BuildConfig, CryptoHal, !CryptoHalOk} (v a : Z)
    (secret th1 : list Z) (psk : bool) (h : hash_alg) (hs rq rs : outbuf)
    (Ha : hash_of_algo a = Some h) (Hs : secret ≠ []) (Ht : blen th1 = hash_size_of h)
    (O1 : ob_ok h hs) (O2 : ob_ok h rq) (O3 : ob_ok h rs) :
  ∃ hs' rq' rs',
    libspdm_generate_handshake_key v (Some secret) (blen secret) psk [] 0 false a th1 hs rq rs =
      Ret (match handshake_secrets v h secret psk th1 with Some _ => true | None => false end,
           (hs', rq', rs')) ∧
    ∀ x y z, handshake_secrets v h secret psk th1 = Some (x, y, z) →
      holds_secret h hs' x ∧ holds_secret h rq' y ∧ holds_secret h rs' z.
Proof.
  assert (0 < blen secret) by (destruct secret; cbn; [done|lia]).
  destruct (generate_handshake_key_spec v secret (blen secret) psk a h th1 hs rq rs)
    as (x & y & z & E & _ & Hr); try done; try lia. rewrite sub_all in *. eauto.
Qed.

Lemma handshake_key_refines_witness :
  let o := Outbuf (zeros 64) 64 in
  ∃ hs' rq' rs',
    @libspdm_generate_handshake_key default_build toy_hal 0x1300 (Some [1; 2; 3]) 3 true [] 0
      false SPDM_ALGORITHMS_BASE_HASH_ALGO_TPM_ALG_SHA_384 (zeros 48) o o o =
      Ret (true, (hs', rq', rs')).
Proof.
  destruct (@handshake_key_refines default_build toy_hal toy_hal_ok 0x1300
    SPDM_ALGORITHMS_BASE_HASH_ALGO_TPM_ALG_SHA_384 [1; 2; 3] (zeros 48) true SHA384
    (Outbuf (zeros 64) 64) (Outbuf (zeros 64) 64) (Outbuf (zeros 64) 64))
    as (x & y & z & E & _);
    try (split; vm_compute; discriminate); try reflexivity; try discriminate.
  exists x, y, z. exact E.
Defined.

(** C20: libspdm_generate_data_key implements the master-secret part of the key
    schedule: salt1 = Expand(handshake secret, "derived"), master secret =
    Extract(zeros, salt1), and the request, response and exporter secrets are
    its expansions under TH2; it returns true exactly when every step
    succeeds, and faults nowhere on buffers of at least the hash size. *)
Theorem data_key_refines `{BuildConfig, CryptoHal, !CryptoHalOk} (v a n0 : Z)
    (secret th2 : list Z) (h : hash_alg) (ms rq rs ex : outbuf)
    (Ha : hash_of_algo a = Some h) (Hn : n0 ≠ 0) (Ht : blen th2 = hash_size_of h)
    (Hs : hash_size_of h ≤ blen secret)
    (O1 : ob_ok h ms) (O2 : ob_ok h rq) (O3 : ob_ok h rs) (O4 : ob_ok h ex) :
  ∃ ms' rq' rs' ex',
    libspdm_generate_data_key v (Some secret) n0 [] 0 false a th2 ms rq rs ex =
      Ret (match data_secrets v h (sub secret 0 (hash_size_of h)) th2 with
           | Some _ => true | None => false end, (ms', rq', rs', ex')) ∧
    ∀ x y z w, data_secrets v h (sub secret 0 (hash_size_of h)) th2 = Some (x, y, z, w) →
      holds_secret h ms' x ∧ holds_secret h rq' y ∧ holds_secret h rs' z ∧ holds_secret h ex' w.
Proof.
  destruct (generate_data_key_spec v secret n0 a h th2 ms rq rs ex)
    as (x & y & z & w & E & _ & Hr); eauto 10.
Qed.

Lemma data_key_refines_witness :
  let o := Outbuf (zeros 64) 64 in
  ∃ ms' rq' rs' ex',
    @libspdm_generate_data_key default_build toy_hal 0x1200 (Some (zeros 32)) 32 [] 0 false
      SPDM_ALGORITHMS_BASE_HASH_ALGO_TPM_ALG_SHA3_256 (zeros 32) o o o o =
      Ret (true, (ms', rq', rs', ex')).
Proof.
  destruct (@data_key_refines default_build toy_hal toy_hal_ok 0x1200
    SPDM_ALGORITHMS_BASE_HASH_ALGO_TPM_ALG_SHA3_256 32 (zeros 32) (zeros 32) SHA3_256
    (Outbuf (zeros 64) 64) (Outbuf (zeros 64) 64) (Outbuf (zeros 64) 64) (Outbuf (zeros 64) 64))
    as (x & y & z & w & E & _);
    try (split; vm_compute; discriminate); try reflexivity; try discriminate.
  exists x, y, z, w. exact E.
Defined.

End CryptLibProps.
