(* ===== verification/SecuredContext.v ===== *)
(** * SecuredContext: libspdm_secmes_context_data.c

    The state of a secured session, its setters, and the export and import of
    the session keys.  The records follow
    include/internal/libspdm_secured_message_lib.h; a fixed-size array is the
    list of its bytes.  Two fields share a name with a nested struct's field
    in C; the nested one carries a trailing underscore here. *)

From S2P Require Import Prelude SpdmDefs CryptLib.

(** ** The state *)

Record libspdm_session_info_struct_master_secret_t : Type := Build_master_secret {
  shared_secret : list Z;
  handshake_secret_ : list Z;
  master_secret_ : list Z;
}.
#[export] Instance eta_master_secret : Eta libspdm_session_info_struct_master_secret_t := λ r,
  Build_master_secret (shared_secret r) (handshake_secret_ r) (master_secret_ r).

Record libspdm_session_info_struct_handshake_secret_t : Type := Build_handshake_secret {
  request_handshake_secret : list Z;
  response_handshake_secret : list Z;
  request_finished_key : list Z;
  response_finished_key : list Z;
  request_handshake_encryption_key : list Z;
  request_handshake_salt : list Z;
  request_handshake_sequence_number : Z;
  response_handshake_encryption_key : list Z;
  response_handshake_salt : list Z;
  response_handshake_sequence_number : Z;
}.
#[export] Instance eta_handshake_secret : Eta libspdm_session_info_struct_handshake_secret_t :=
  λ r, Build_handshake_secret (request_handshake_secret r) (response_handshake_secret r)
    (request_finished_key r) (response_finished_key r)
    (request_handshake_encryption_key r) (request_handshake_salt r)
    (request_handshake_sequence_number r)
    (response_handshake_encryption_key r) (response_handshake_salt r)
    (response_handshake_sequence_number r).

Record libspdm_session_info_struct_application_secret_t : Type := Build_application_secret {
  request_data_secret : list Z;
  response_data_secret : list Z;
  request_data_encryption_key : list Z;
  request_data_salt : list Z;
  request_data_sequence_number : Z;
  response_data_encryption_key : list Z;
  response_data_salt : list Z;
  response_data_sequence_number : Z;
}.
#[export] Instance eta_application_secret :
    Eta libspdm_session_info_struct_application_secret_t :=
  λ r, Build_application_secret (request_data_secret r) (response_data_secret r)
    (request_data_encryption_key r) (request_data_salt r) (request_data_sequence_number r)
    (response_data_encryption_key r) (response_data_salt r) (response_data_sequence_number r).

Record libspdm_secured_message_context_t : Type := Build_secured_message_context {
  session_type : libspdm_session_type_t;
  version : Z;
  secured_message_version : Z;
  base_hash_algo : Z;
  dhe_named_group : Z;
  kem_alg : Z;
  aead_cipher_suite : Z;
  key_schedule : Z;
  hash_size : Z;
  shared_key_size : Z;
  aead_key_size : Z;
  aead_iv_size : Z;
  aead_tag_size : Z;
  max_spdm_session_sequence_number : Z;
  use_psk : bool;
  session_state : libspdm_session_state_t;
  master_secret : libspdm_session_info_struct_master_secret_t;
  handshake_secret : libspdm_session_info_struct_handshake_secret_t;
  application_secret : libspdm_session_info_struct_application_secret_t;
  application_secret_backup : libspdm_session_info_struct_application_secret_t;
  requester_backup_valid : bool;
  responder_backup_valid : bool;
  psk_hint_size : Z;
  psk_hint : list Z;
  export_master_secret : list Z;
  sequence_number_endian : Z;
  last_spdm_error : libspdm_error_struct_t;
}.
#[export] Instance eta_secured_message_context : Eta libspdm_secured_message_context_t :=
  λ r, Build_secured_message_context (session_type r) (version r) (secured_message_version r)
    (base_hash_algo r) (dhe_named_group r) (kem_alg r) (aead_cipher_suite r) (key_schedule r)
    (hash_size r) (shared_key_size r) (aead_key_size r) (aead_iv_size r) (aead_tag_size r)
    (max_spdm_session_sequence_number r) (use_psk r) (session_state r)
    (master_secret r) (handshake_secret r) (application_secret r) (application_secret_backup r)
    (requester_backup_valid r) (responder_backup_valid r) (psk_hint_size r) (psk_hint r)
    (export_master_secret r) (sequence_number_endian r) (last_spdm_error r).

(** ** The operations *)
Module ContextData.

Definition zero_master_secret : libspdm_session_info_struct_master_secret_t :=
  Build_master_secret (zeros LIBSPDM_MAX_SHARED_KEY_SIZE) (zeros LIBSPDM_MAX_HASH_SIZE)
    (zeros LIBSPDM_MAX_HASH_SIZE).

Definition zero_handshake_secret : libspdm_session_info_struct_handshake_secret_t :=
  Build_handshake_secret (zeros LIBSPDM_MAX_HASH_SIZE) (zeros LIBSPDM_MAX_HASH_SIZE)
    (zeros LIBSPDM_MAX_HASH_SIZE) (zeros LIBSPDM_MAX_HASH_SIZE)
    (zeros LIBSPDM_MAX_AEAD_KEY_SIZE) (zeros LIBSPDM_MAX_AEAD_IV_SIZE) 0
    (zeros LIBSPDM_MAX_AEAD_KEY_SIZE) (zeros LIBSPDM_MAX_AEAD_IV_SIZE) 0.

Definition zero_application_secret : libspdm_session_info_struct_application_secret_t :=
  Build_application_secret (zeros LIBSPDM_MAX_HASH_SIZE) (zeros LIBSPDM_MAX_HASH_SIZE)
    (zeros LIBSPDM_MAX_AEAD_KEY_SIZE) (zeros LIBSPDM_MAX_AEAD_IV_SIZE) 0
    (zeros LIBSPDM_MAX_AEAD_KEY_SIZE) (zeros LIBSPDM_MAX_AEAD_IV_SIZE) 0.

(** libspdm_zero_mem of the whole context: enumerations are zero, that is
    their first constructor. *)
Definition libspdm_secured_message_init_context : libspdm_secured_message_context_t :=
  {| session_type := LIBSPDM_SESSION_TYPE_NONE;
     version := 0; secured_message_version := 0; base_hash_algo := 0; dhe_named_group := 0;
     kem_alg := 0; aead_cipher_suite := 0; key_schedule := 0; hash_size := 0;
     shared_key_size := 0; aead_key_size := 0; aead_iv_size := 0; aead_tag_size := 0;
     max_spdm_session_sequence_number := 0; use_psk := false;
     session_state := LIBSPDM_SESSION_STATE_NOT_STARTED;
     master_secret := zero_master_secret; handshake_secret := zero_handshake_secret;
     application_secret := zero_application_secret;
     application_secret_backup := zero_application_secret;
     requester_backup_valid := false; responder_backup_valid := false;
     psk_hint_size := 0; psk_hint := zeros LIBSPDM_PSK_MAX_HINT_LENGTH;
     export_master_secret := zeros LIBSPDM_MAX_HASH_SIZE;
     sequence_number_endian := 0; last_spdm_error := Build_error_struct 0 0 |}.

Section context_data.
Context `{BuildConfig}.
Implicit Types ctx : libspdm_secured_message_context_t.

Definition libspdm_secured_message_set_use_psk ctx (b : bool) :=
  ctx <| use_psk := b |>.

(** In libspdm_secmes_session.c. *)
Definition libspdm_clear_handshake_secret ctx : libspdm_secured_message_context_t :=
  ctx <| master_secret := (master_secret ctx) <| handshake_secret_ := zeros LIBSPDM_MAX_HASH_SIZE |> |>
      <| handshake_secret := zero_handshake_secret |>
      <| requester_backup_valid := false |>
      <| responder_backup_valid := false |>.

Definition libspdm_clear_master_secret ctx : libspdm_secured_message_context_t :=
  ctx <| master_secret := (master_secret ctx) <| master_secret_ := zeros LIBSPDM_MAX_HASH_SIZE |> |>.

Definition libspdm_secured_message_set_session_state ctx (st : libspdm_session_state_t) :
    libspdm_secured_message_context_t :=
  let ctx := ctx <| session_state := st |> in
  if decide (st = LIBSPDM_SESSION_STATE_ESTABLISHED) then
    libspdm_clear_master_secret (libspdm_clear_handshake_secret ctx)
  else ctx.

Definition libspdm_secured_message_get_session_state ctx : libspdm_session_state_t :=
  session_state ctx.

Definition libspdm_secured_message_set_session_type ctx (ty : libspdm_session_type_t) :=
  ctx <| session_type := ty |>.

Definition libspdm_secured_message_set_algorithms ctx
    (version_ secured_message_version_ base_hash_algo_ dhe_named_group_ kem_alg_
     aead_cipher_suite_ key_schedule_ : Z) : libspdm_secured_message_context_t :=
  let ctx := ctx
    <| version := version_ |>
    <| secured_message_version := secured_message_version_ |>
    <| base_hash_algo := base_hash_algo_ |>
    <| dhe_named_group := dhe_named_group_ |>
    <| kem_alg := kem_alg_ |>
    <| aead_cipher_suite := aead_cipher_suite_ |>
    <| key_schedule := key_schedule_ |>
    <| hash_size := libspdm_get_hash_size base_hash_algo_ |> in
  let ctx := ctx <| shared_key_size :=
    if negb (kem_alg_ =? 0) then libspdm_get_kem_shared_secret_size kem_alg_
    else libspdm_get_dhe_shared_secret_size dhe_named_group_ |> in
  ctx <| aead_key_size := libspdm_get_aead_key_size aead_cipher_suite_ |>
      <| aead_iv_size := libspdm_get_aead_iv_size aead_cipher_suite_ |>
      <| aead_tag_size := libspdm_get_aead_tag_size aead_cipher_suite_ |>.

Definition libspdm_secured_message_set_psk_hint ctx (hint : option (list Z)) (size : Z) :
    exec libspdm_secured_message_context_t :=
  match hint with
  | Some p =>
      if 0 <? size then
        let ctx := ctx <| psk_hint_size := size |> in
        d ← load p 0 size;
        h ← store (psk_hint ctx) 0 d;
        Ret (ctx <| psk_hint := h |>)
      else Ret ctx
  | None => Ret ctx
  end.

Definition libspdm_secured_message_set_max_spdm_session_sequence_number ctx (n : Z) :=
  ctx <| max_spdm_session_sequence_number := n |>.

Definition libspdm_secured_message_set_sequence_number_endian ctx (endian_value : Z) :=
  ctx <| sequence_number_endian := endian_value |>.

Definition libspdm_secured_message_import_shared_secret ctx (secret : list Z) (size : Z) :
    exec (bool * libspdm_secured_message_context_t) :=
  RETURN (false, ctx) IF shared_key_size ctx <? size;;
  let ctx := ctx <| shared_key_size := size |> in
  d ← load secret 0 size;
  s ← store (shared_secret (master_secret ctx)) 0 d;
  Ret (true, ctx <| master_secret := (master_secret ctx) <| shared_secret := s |> |>).

(** The caller's buffer and its size. *)
Definition libspdm_secured_message_export_master_secret ctx (out : list Z) (out_size : Z) :
    exec (bool * list Z * Z) :=
  let out_size := if hash_size ctx <? out_size then hash_size ctx else out_size in
  d ← load (export_master_secret ctx) 0 out_size;
  out ← store out 0 d;
  Ret (true, out, out_size).

Definition libspdm_secured_message_clear_export_master_secret ctx :
    libspdm_secured_message_context_t :=
  ctx <| export_master_secret := zeros LIBSPDM_MAX_HASH_SIZE |>.

(** sizeof(libspdm_secure_session_keys_struct_t): version, aead_key_size and
    aead_iv_size. *)
Definition LIBSPDM_SECURE_SESSION_KEYS_STRUCT_VERSION : Z := 1.
Definition sizeof_secure_session_keys_struct : Z := 12.

Definition session_keys_struct_size ctx : Z :=
  sizeof_secure_session_keys_struct + (aead_key_size ctx + aead_iv_size ctx + 8) * 2.

Definition libspdm_secured_message_export_session_keys ctx (session_keys : list Z)
    (session_keys_size : Z) : exec (bool * list Z * Z) :=
  let struct_size := session_keys_struct_size ctx in
  RETURN (false, session_keys, struct_size) IF session_keys_size <? struct_size;;
  let k := aead_key_size ctx in
  let i := aead_iv_size ctx in
  let app := application_secret ctx in
  b ← store session_keys 0 (le_bytes 4 LIBSPDM_SECURE_SESSION_KEYS_STRUCT_VERSION);
  b ← store b 4 (le_bytes 4 k);
  b ← store b 8 (le_bytes 4 i);
  let ptr := sizeof_secure_session_keys_struct in
  d ← load (request_data_encryption_key app) 0 k; b ← store b ptr d; let ptr := ptr + k in
  d ← load (request_data_salt app) 0 i; b ← store b ptr d; let ptr := ptr + i in
  b ← store b ptr (le_bytes 8 (request_data_sequence_number app)); let ptr := ptr + 8 in
  d ← load (response_data_encryption_key app) 0 k; b ← store b ptr d; let ptr := ptr + k in
  d ← load (response_data_salt app) 0 i; b ← store b ptr d; let ptr := ptr + i in
  b ← store b ptr (le_bytes 8 (response_data_sequence_number app));
  Ret (true, b, session_keys_size).

Definition libspdm_secured_message_import_session_keys ctx (session_keys : list Z)
    (session_keys_size : Z) : exec (bool * libspdm_secured_message_context_t) :=
  let struct_size := session_keys_struct_size ctx in
  RETURN (false, ctx) IF negb (session_keys_size =? struct_size);;
  let k := aead_key_size ctx in
  let i := aead_iv_size ctx in
  v ← load_le 4 session_keys 0;
  k' ← load_le 4 session_keys 4;
  i' ← load_le 4 session_keys 8;
  RETURN (false, ctx) IF negb (v =? LIBSPDM_SECURE_SESSION_KEYS_STRUCT_VERSION)
                         || negb (k' =? k) || negb (i' =? i);;
  let app := application_secret ctx in
  let ptr := sizeof_secure_session_keys_struct in
  d ← load session_keys ptr k; rk ← store (request_data_encryption_key app) 0 d;
  let ptr := ptr + k in
  d ← load session_keys ptr i; rs ← store (request_data_salt app) 0 d;
  let ptr := ptr + i in
  rn ← load_le 8 session_keys ptr;
  let ptr := ptr + 8 in
  d ← load session_keys ptr k; pk ← store (response_data_encryption_key app) 0 d;
  let ptr := ptr + k in
  d ← load session_keys ptr i; ps ← store (response_data_salt app) 0 d;
  let ptr := ptr + i in
  pn ← load_le 8 session_keys ptr;
  Ret (true, ctx <| application_secret := app
    <| request_data_encryption_key := rk |> <| request_data_salt := rs |>
    <| request_data_sequence_number := rn |>
    <| response_data_encryption_key := pk |> <| response_data_salt := ps |>
    <| response_data_sequence_number := pn |> |>).

Definition libspdm_secured_message_get_last_spdm_error_struct ctx : libspdm_error_struct_t :=
  last_spdm_error ctx.

Definition libspdm_secured_message_set_last_spdm_error_struct ctx (e : libspdm_error_struct_t) :
    libspdm_secured_message_context_t :=
  ctx <| last_spdm_error := e |>.

End context_data.
End ContextData.
Export ContextData.

(** ** The invariant of a context *)
Module ContextFacts.

(** A fixed-size array of bytes. *)
Definition arr (n : Z) (l : list Z) : Prop := blen l = n ∧ bytes_ok l.

Lemma arr_zeros n : 0 ≤ n → arr n (zeros n).
Proof. intros. split; [rewrite length_zeros; lia|apply bytes_ok_replicate0]. Qed.

Lemma arr_upd n l o d :
  arr n l → 0 ≤ o → o + blen d ≤ n → bytes_ok d → arr n (upd l o d).
Proof.
  intros [Hl Hb] Ho Hd Hdb. split; [rewrite length_upd by range; done|auto with word].
Qed.

Definition master_wf (m : libspdm_session_info_struct_master_secret_t) : Prop :=
  arr 512 (shared_secret m) ∧ arr 64 (handshake_secret_ m) ∧ arr 64 (master_secret_ m).

Definition handshake_wf (h : libspdm_session_info_struct_handshake_secret_t) : Prop :=
  arr 64 (request_handshake_secret h) ∧ arr 64 (response_handshake_secret h) ∧
  arr 64 (request_finished_key h) ∧ arr 64 (response_finished_key h) ∧
  arr 32 (request_handshake_encryption_key h) ∧ arr 12 (request_handshake_salt h) ∧
  is_u64 (request_handshake_sequence_number h) ∧
  arr 32 (response_handshake_encryption_key h) ∧ arr 12 (response_handshake_salt h) ∧
  is_u64 (response_handshake_sequence_number h).

Definition application_wf (a : libspdm_session_info_struct_application_secret_t) : Prop :=
  arr 64 (request_data_secret a) ∧ arr 64 (response_data_secret a) ∧
  arr 32 (request_data_encryption_key a) ∧ arr 12 (request_data_salt a) ∧
  is_u64 (request_data_sequence_number a) ∧
  arr 32 (response_data_encryption_key a) ∧ arr 12 (response_data_salt a) ∧
  is_u64 (response_data_sequence_number a).

Definition sizes_wf (ctx : libspdm_secured_message_context_t) : Prop :=
  0 ≤ hash_size ctx ≤ 64 ∧ 0 ≤ shared_key_size ctx ≤ 512 ∧ 0 ≤ aead_key_size ctx ≤ 32 ∧
  0 ≤ aead_iv_size ctx ≤ 12 ∧ 0 ≤ aead_tag_size ctx ≤ 16 ∧ 0 ≤ psk_hint_size ctx ≤ 32.

Definition ctx_wf (ctx : libspdm_secured_message_context_t) : Prop :=
  sizes_wf ctx ∧ master_wf (master_secret ctx) ∧ handshake_wf (handshake_secret ctx) ∧
  application_wf (application_secret ctx) ∧ application_wf (application_secret_backup ctx) ∧
  arr 32 (psk_hint ctx) ∧ arr 64 (export_master_secret ctx).

Lemma zero_master_wf : master_wf zero_master_secret.
Proof. split_and!; by apply arr_zeros. Qed.
Lemma zero_handshake_wf : handshake_wf zero_handshake_secret.
Proof. split_and!; solve [by apply arr_zeros | cbn; unfold is_u64; lia]. Qed.
Lemma zero_application_wf : application_wf zero_application_secret.
Proof. split_and!; solve [by apply arr_zeros | cbn; unfold is_u64; lia]. Qed.

(** The seven parts of the invariant, each closed by [done] where unchanged. *)
Ltac ctx_wf_split :=
  refine (conj _ (conj _ (conj _ (conj _ (conj _ (conj _ _)))))); try done.

Lemma init_wf : ctx_wf libspdm_secured_message_init_context.
Proof.
  ctx_wf_split.
  - apply zero_master_wf.
  - apply zero_handshake_wf.
  - apply zero_application_wf.
  - apply zero_application_wf.
  - by apply arr_zeros.
  - by apply arr_zeros.
Qed.

Lemma clear_handshake_wf ctx : ctx_wf ctx → ctx_wf (libspdm_clear_handshake_secret ctx).
Proof.
  intros (Hs & (H1 & H2 & H3) & Hh & Ha & Hb & Hp & He).
  ctx_wf_split; [|apply zero_handshake_wf].
  split; [done|]. split; [by apply arr_zeros|done].
Qed.

Lemma clear_master_wf ctx : ctx_wf ctx → ctx_wf (libspdm_clear_master_secret ctx).
Proof.
  intros (Hs & (H1 & H2 & H3) & Hh & Ha & Hb & Hp & He).
  ctx_wf_split. split; [done|]. split; [done|by apply arr_zeros].
Qed.

Lemma set_session_state_wf ctx st :
  ctx_wf ctx → ctx_wf (libspdm_secured_message_set_session_state ctx st).
Proof.
  intros H. unfold libspdm_secured_message_set_session_state.
  case_decide; [|exact H]. apply clear_master_wf, clear_handshake_wf. exact H.
Qed.

Lemma hash_size_bound a : 0 ≤ libspdm_get_hash_size a ≤ 64.
Proof. unfold libspdm_get_hash_size. repeat case_if; lia. Qed.
Lemma dhe_size_bound a : 0 ≤ libspdm_get_dhe_shared_secret_size a ≤ 512.
Proof. unfold libspdm_get_dhe_shared_secret_size. repeat case_if; lia. Qed.
Lemma kem_size_bound a : 0 ≤ libspdm_get_kem_shared_secret_size a ≤ 512.
Proof. unfold libspdm_get_kem_shared_secret_size. repeat case_if; lia. Qed.
Lemma aead_size_bound a :
  0 ≤ libspdm_get_aead_key_size a ≤ 32 ∧ 0 ≤ libspdm_get_aead_iv_size a ≤ 12 ∧
  0 ≤ libspdm_get_aead_tag_size a ≤ 16.
Proof.
  unfold libspdm_get_aead_key_size, libspdm_get_aead_iv_size, libspdm_get_aead_tag_size.
  split_and!; repeat case_if; lia.
Qed.

Lemma set_algorithms_wf ctx v sv h d k a ks :
  ctx_wf ctx → ctx_wf (libspdm_secured_message_set_algorithms ctx v sv h d k a ks).
Proof.
  intros ((_ & _ & _ & _ & _ & Hp) & Hw).
  pose proof (hash_size_bound h). pose proof (dhe_size_bound d).
  pose proof (kem_size_bound k). pose proof (aead_size_bound a) as (? & ? & ?).
  split; [|exact Hw]. unfold sizes_wf. cbn. split_and!; try lia; case_if; lia.
Qed.

Lemma set_psk_hint_wf ctx hint size :
  ctx_wf ctx → 0 ≤ size ≤ 32 → (∀ p, hint = Some p → bytes_ok p ∧ size ≤ blen p) →
  wp (libspdm_secured_message_set_psk_hint ctx hint size) ctx_wf.
Proof.
  intros Hw Hs Hp. unfold libspdm_secured_message_set_psk_hint.
  destruct hint as [p|]; [|exact Hw]. destruct (Hp p eq_refl) as [Hb Hl].
  apply wp_if; [|intros _; exact Hw]. intros _.
  destruct Hw as (Hsz & Hm & Hh & Ha & Hbk & Hpsk & He).
  wp_step. wp_step. wp_step.
  assert (Hd : blen (sub p 0 size) = size) by (rewrite length_sub by range; lia).
  destruct Hpsk as [Hpl Hpb].
  wp_step; [rewrite in_range_iff, Hd; cbn; lia|]. wp_step.
  ctx_wf_split.
  - destruct Hsz as (? & ? & ? & ? & ? & ?). unfold sizes_wf; cbn. split_and!; lia.
  - cbn. apply arr_upd; [done|lia|lia|auto with word].
Qed.

Lemma import_shared_secret_wf ctx secret size :
  ctx_wf ctx → 0 ≤ size ≤ blen secret → bytes_ok secret →
  wp (libspdm_secured_message_import_shared_secret ctx secret size) (λ r,
    ctx_wf r.2 ∧ (r.1 = true ↔ size ≤ shared_key_size ctx) ∧
    (r.1 = true → shared_key_size r.2 = size ∧
       sub (shared_secret (master_secret r.2)) 0 size = sub secret 0 size)).
Proof.
  intros Hw Hs Hb. unfold libspdm_secured_message_import_shared_secret.
  apply wp_if; intros Hc.
  { apply wp_ret. split; [done|]. cbn. split; [|done]. split; [done|lia]. }
  destruct Hw as (Hsz & (Hm & Hm') & Hh & Ha & Hbk & Hpsk & He).
  pose proof Hsz as (S1 & S2 & S3 & S4 & S5 & S6).
  wp_step. wp_step.
  assert (Hd : blen (sub secret 0 size) = size) by (rewrite length_sub by range; lia).
  destruct Hm as [Hml Hmb].
  wp_step. wp_step; [rewrite in_range_iff, Hd; cbn; lia|]. wp_step.
  split; [|split; [split; [lia|done]|intros _; cbn; split; [done|]]].
  - ctx_wf_split.
    + unfold sizes_wf; cbn. split_and!; lia.
    + split; [|done]. cbn. apply arr_upd; [done|lia|lia|auto with word].
  - rewrite <- Hd at 2. apply sub_upd_same. rewrite in_range_iff, Hd. lia.
Qed.

(** ** Export and import of the session keys *)

(** The blob libspdm_secured_message_export_session_keys writes. *)
Definition session_keys_blob (ctx : libspdm_secured_message_context_t) : list Z :=
  let k := aead_key_size ctx in
  let i := aead_iv_size ctx in
  let app := application_secret ctx in
  le_bytes 4 1 ++ le_bytes 4 k ++ le_bytes 4 i ++
  sub (request_data_encryption_key app) 0 k ++ sub (request_data_salt app) 0 i ++
  le_bytes 8 (request_data_sequence_number app) ++
  sub (response_data_encryption_key app) 0 k ++ sub (response_data_salt app) 0 i ++
  le_bytes 8 (response_data_sequence_number app).

Lemma arr_sub n l k : arr n l → 0 ≤ k ≤ n → blen (sub l 0 k) = k.
Proof. intros [Hl _] Hk. rewrite length_sub by range. lia. Qed.

(** Append one field to the exported blob. *)
Ltac put_field :=
  match goal with
  | Hs : sub ?m 0 ?o = ?c, Hl : length ?m = _ |- context [store ?m ?o ?d] =>
      let m' := fresh "m" in let E := fresh "E" in let Hl' := fresh "Hl" in let Hs' := fresh "Hs" in
      destruct (store_prefix m o c d Hs) as (m' & E & Hl' & Hs');
      [len_simpl; lia | len_simpl; lia |];
      rewrite E; clear E; cbn [mbind exec_bind]; rewrite Hl in Hl'; rewrite <- ?app_assoc in Hs'
  end.

Lemma export_session_keys_spec ctx keys n :
  ctx_wf ctx → session_keys_struct_size ctx ≤ n → n ≤ blen keys →
  ∃ b, libspdm_secured_message_export_session_keys ctx keys n = Ret (true, b, n) ∧
    length b = length keys ∧
    sub b 0 (session_keys_struct_size ctx) = session_keys_blob ctx.
Proof.
  intros ((_ & _ & Hk & Hi & _) & _ & _ & Ha & _) Hn Hl.
  destruct Ha as (_ & _ & A1 & A2 & _ & A3 & A4 & _).
  unfold libspdm_secured_message_export_session_keys.
  assert (session_keys_struct_size ctx = 12 + (aead_key_size ctx + aead_iv_size ctx + 8) * 2)
    by reflexivity.
  unfold LIBSPDM_SECURE_SESSION_KEYS_STRUCT_VERSION, sizeof_secure_session_keys_struct.
  set (sz := session_keys_struct_size ctx) in *.
  replace (n <? sz) with false by lia.
  assert (A1' := A1). assert (A2' := A2). assert (A3' := A3). assert (A4' := A4).
  destruct A1' as [? _], A2' as [? _], A3' as [? _], A4' as [? _].
  set (k := aead_key_size ctx) in *. set (i := aead_iv_size ctx) in *.
  pose proof (arr_sub _ _ k A1 Hk) as L1. pose proof (arr_sub _ _ i A2 Hi) as L2.
  pose proof (arr_sub _ _ k A3 Hk) as L3. pose proof (arr_sub _ _ i A4 Hi) as L4.
  assert (Hs : sub keys 0 0 = []) by reflexivity.
  remember (length keys) as N eqn:Hll. symmetry in Hll.
  put_field. change (0 + blen (le_bytes 4 1)) with 4 in *.
  put_field. change (4 + blen (le_bytes 4 k)) with 8 in *.
  put_field. change (8 + blen (le_bytes 4 i)) with 12 in *.
  rewrite !(load_in _ 0) by range. cbn [mbind exec_bind].
  put_field. rewrite L1 in *. put_field. rewrite L2 in *.
  put_field. change (12 + k + i + blen (le_bytes 8 _)) with (12 + k + i + 8) in *.
  put_field. rewrite L3 in *. put_field. rewrite L4 in *.
  put_field. eexists. split; [reflexivity|]. split; [done|].
  replace sz with (12 + k + i + 8 + k + i +
    blen (le_bytes 8 (response_data_sequence_number (application_secret ctx)))) by (len_simpl; lia).
  etrans; [eassumption|]. reflexivity.
Qed.

(** The application secrets after importing the keys of [src] into [dst]. *)
Definition imported (src dst : libspdm_secured_message_context_t) :
    libspdm_session_info_struct_application_secret_t :=
  let k := aead_key_size src in
  let i := aead_iv_size src in
  let a := application_secret src in
  let app := application_secret dst in
  app <| request_data_encryption_key :=
        upd (request_data_encryption_key app) 0 (sub (request_data_encryption_key a) 0 k) |>
      <| request_data_salt := upd (request_data_salt app) 0 (sub (request_data_salt a) 0 i) |>
      <| request_data_sequence_number := request_data_sequence_number a |>
      <| response_data_encryption_key :=
        upd (response_data_encryption_key app) 0 (sub (response_data_encryption_key a) 0 k) |>
      <| response_data_salt := upd (response_data_salt app) 0 (sub (response_data_salt a) 0 i) |>
      <| response_data_sequence_number := response_data_sequence_number a |>.

(** Read the next field of a buffer whose rest is [H : sub m off n = d ++ r]. *)
Ltac get_field :=
  match goal with
  | H : sub ?m ?o ?n = le_bytes _ _ ++ _ |- context [load_le ?k ?m ?o] =>
      let E := fresh "E" in let H' := fresh "Hrest" in
      destruct (load_le_head m o n k _ _ H) as (E & H' & ?); [lia|lia|lia|];
      rewrite E; clear E H; cbn [mbind exec_bind]
  | H : sub ?m ?o ?n = ?d ++ _ |- context [load ?m ?o ?k] =>
      let E := fresh "E" in let H' := fresh "Hrest" in
      destruct (load_head m o n d _ k H) as (E & H' & ?); [lia|lia|lia|lia|];
      rewrite E; clear E H; cbn [mbind exec_bind]
  end.

Lemma import_session_keys_spec src dst keys :
  ctx_wf src → ctx_wf dst → blen keys = session_keys_struct_size src →
  aead_key_size dst = aead_key_size src → aead_iv_size dst = aead_iv_size src →
  keys = session_keys_blob src →
  libspdm_secured_message_import_session_keys dst keys (blen keys) =
    Ret (true, dst <| application_secret := imported src dst |>).
Proof.
  intros ((_ & _ & Hk & Hi & _) & _ & _ & Ha & _) (_ & _ & _ & Hd & _) Hn Ek Ei Hs.
  destruct Ha as (_ & _ & A1 & A2 & N1 & A3 & A4 & N2).
  destruct Hd as (_ & _ & [D1 _] & [D2 _] & _ & [D3 _] & [D4 _] & _).
  assert (Hz : session_keys_struct_size src = 12 + (aead_key_size src + aead_iv_size src + 8) * 2)
    by reflexivity.
  assert (Hz' : session_keys_struct_size dst = session_keys_struct_size src)
    by (unfold session_keys_struct_size; by rewrite Ek, Ei).
  rewrite <- (sub_all keys) in Hs. unfold session_keys_blob in Hs.
  unfold libspdm_secured_message_import_session_keys, imported.
  rewrite Hz', Hn, Z.eqb_refl, Ek, Ei. cbn [negb].
  unfold LIBSPDM_SECURE_SESSION_KEYS_STRUCT_VERSION, sizeof_secure_session_keys_struct.
  pose proof (arr_sub _ _ _ A1 Hk) as L1. pose proof (arr_sub _ _ _ A2 Hi) as L2.
  pose proof (arr_sub _ _ _ A3 Hk) as L3. pose proof (arr_sub _ _ _ A4 Hi) as L4.
  destruct A1 as [A1 _], A2 as [A2 _], A3 as [A3 _], A4 as [A4 _].
  set (k := aead_key_size src) in *. set (i := aead_iv_size src) in *.
  set (d1 := sub _ 0 k) in *. set (d2 := sub _ 0 i) in *.
  set (n1 := request_data_sequence_number _) in *.
  set (d3 := sub (response_data_encryption_key _) 0 k) in *.
  set (d4 := sub (response_data_salt _) 0 i) in *.
  set (n2 := response_data_sequence_number _) in *.
  rewrite <- (app_nil_r (le_bytes 8 n2)) in Hs.
  get_field. change (0 + Z.of_nat 4) with 4 in *.
  get_field. change (4 + Z.of_nat 4) with 8 in *.
  get_field. change (8 + Z.of_nat 4) with 12 in *.
  rewrite !(Z.mod_small _ (2 ^ _)) by (cbn; lia). rewrite !Z.eqb_refl. cbn [negb orb].
  clearbody d1 d2 d3 d4.
  get_field. rewrite store_in by range. cbn [mbind exec_bind].
  get_field. rewrite store_in by range. cbn [mbind exec_bind].
  get_field. change (Z.of_nat 8) with 8 in *.
  get_field. rewrite store_in by range. cbn [mbind exec_bind].
  get_field. rewrite store_in by range. cbn [mbind exec_bind].
  get_field. unfold is_u64 in *.
  rewrite !(Z.mod_small _ (2 ^ (8 * Z.of_nat 8))) by (cbn; lia). reflexivity.
Qed.

Lemma session_keys_blob_length ctx : ctx_wf ctx →
  blen (session_keys_blob ctx) = session_keys_struct_size ctx.
Proof.
  intros ((_ & _ & Hk & Hi & _) & _ & _ & (_ & _ & A1 & A2 & N1 & A3 & A4 & N2) & _).
  pose proof (arr_sub _ _ _ A1 Hk). pose proof (arr_sub _ _ _ A2 Hi).
  pose proof (arr_sub _ _ _ A3 Hk). pose proof (arr_sub _ _ _ A4 Hi).
  unfold session_keys_blob, session_keys_struct_size, sizeof_secure_session_keys_struct.
  len_simpl. lia.
Qed.

Lemma imported_keys src dst : ctx_wf src → ctx_wf dst →
  let k := aead_key_size src in
  let i := aead_iv_size src in
  let a := application_secret src in
  let b := imported src dst in
  sub (request_data_encryption_key b) 0 k = sub (request_data_encryption_key a) 0 k ∧
  sub (request_data_salt b) 0 i = sub (request_data_salt a) 0 i ∧
  sub (response_data_encryption_key b) 0 k = sub (response_data_encryption_key a) 0 k ∧
  sub (response_data_salt b) 0 i = sub (response_data_salt a) 0 i.
Proof.
  intros ((_ & _ & Hk & Hi & _) & _ & _ & Ha & _) (_ & _ & _ & Hd & _) k i a b.
  destruct Ha as (_ & _ & A1 & A2 & N1 & A3 & A4 & N2).
  destruct Hd as (_ & _ & [D1 _] & [D2 _] & _ & [D3 _] & [D4 _] & _).
  pose proof (arr_sub _ _ _ A1 Hk) as L1. pose proof (arr_sub _ _ _ A2 Hi) as L2.
  pose proof (arr_sub _ _ _ A3 Hk) as L3. pose proof (arr_sub _ _ _ A4 Hi) as L4.
  assert (Hu : ∀ l d n, blen d = n → n ≤ blen l → sub (upd l 0 d) 0 n = d).
  { intros l d n <- Hn. apply sub_upd_same. rewrite in_range_iff. lia. }
  subst b. unfold imported. cbn. split_and!; apply Hu; (done || lia).
Qed.

End ContextFacts.

(** ** The component's properties *)
Module SecuredContextProps.
Import ContextFacts.

(** The traffic keys of a context, as its sizes delimit them. *)
Definition traffic_keys (ctx : libspdm_secured_message_context_t) :
    (list Z * list Z * Z) * (list Z * list Z * Z) :=
  let a := application_secret ctx in
  ((sub (request_data_encryption_key a) 0 (aead_key_size ctx),
    sub (request_data_salt a) 0 (aead_iv_size ctx), request_data_sequence_number a),
   (sub (response_data_encryption_key a) 0 (aead_key_size ctx),
    sub (response_data_salt a) 0 (aead_iv_size ctx), response_data_sequence_number a)).

(** Session keys survive an export and an import: from any well-formed
    context, exporting into a buffer of exactly the required size succeeds,
    and importing that buffer into a context of the same cipher suite succeeds
    and gives it the same keys, salts and sequence numbers for both
    directions, while nothing else of it changes.  A smaller buffer is refused
    with the size required. *)
Theorem session_keys_roundtrip (src dst : libspdm_secured_message_context_t) (keys : list Z)
    (Hs : ctx_wf src) (Hd : ctx_wf dst)
    (Hk : aead_key_size dst = aead_key_size src) (Hi : aead_iv_size dst = aead_iv_size src) :
  (blen keys < session_keys_struct_size src →
   libspdm_secured_message_export_session_keys src keys (blen keys) =
     Ret (false, keys, session_keys_struct_size src)) ∧
  (blen keys = session_keys_struct_size src →
   ∃ b dst', libspdm_secured_message_export_session_keys src keys (blen keys) =
       Ret (true, b, blen b) ∧
     libspdm_secured_message_import_session_keys dst b (blen b) = Ret (true, dst') ∧
     traffic_keys dst' = traffic_keys src ∧
     dst' = dst <| application_secret := application_secret dst' |> ∧
     request_data_secret (application_secret dst') = request_data_secret (application_secret dst) ∧
     response_data_secret (application_secret dst') =
       response_data_secret (application_secret dst)).
Proof.
  split; intros Hn.
  - unfold libspdm_secured_message_export_session_keys.
    by replace (blen keys <? session_keys_struct_size src) with true by lia.
  - destruct (export_session_keys_spec src keys (blen keys) Hs) as (b & E & Hl & Hb); [lia|lia|].
    assert (Hlb : blen b = session_keys_struct_size src) by lia.
    rewrite <- Hlb, sub_all in Hb.
    exists b, (dst <| application_secret := imported src dst |>).
    rewrite E, Hl. split; [done|]. rewrite <- Hl. split; [by apply import_session_keys_spec|].
    destruct (imported_keys src dst Hs Hd) as (K1 & K2 & K3 & K4).
    split; [|done]. unfold traffic_keys. cbv zeta in *. rewrite <- K1, <- K2, <- K3, <- K4.
    cbn. by rewrite Hk, Hi.
Qed.

Lemma session_keys_roundtrip_witness :
  let c := libspdm_secured_message_set_algorithms libspdm_secured_message_init_context
             0x1200 0x1200 SPDM_ALGORITHMS_BASE_HASH_ALGO_TPM_ALG_SHA_256
             SPDM_ALGORITHMS_DHE_NAMED_GROUP_SECP_256_R1 0
             SPDM_ALGORITHMS_AEAD_CIPHER_SUITE_AES_256_GCM 0 in
  ∃ b c', libspdm_secured_message_export_session_keys c (zeros 116) 116 = Ret (true, b, blen b) ∧
    libspdm_secured_message_import_session_keys c b (blen b) = Ret (true, c').
Proof.
  pose (c := libspdm_secured_message_set_algorithms libspdm_secured_message_init_context
             0x1200 0x1200 SPDM_ALGORITHMS_BASE_HASH_ALGO_TPM_ALG_SHA_256
             SPDM_ALGORITHMS_DHE_NAMED_GROUP_SECP_256_R1 0
             SPDM_ALGORITHMS_AEAD_CIPHER_SUITE_AES_256_GCM 0).
  destruct (proj2 (session_keys_roundtrip c c (zeros 116)
    (set_algorithms_wf _ _ _ _ _ _ _ _ init_wf) (set_algorithms_wf _ _ _ _ _ _ _ _ init_wf)
    eq_refl eq_refl) eq_refl) as (b & c' & E1 & E2 & _).
  exists b, c'. split; [exact E1|exact E2].
Defined.

(** Moving a session to the established state erases the handshake
    secrets: the handshake traffic and finished keys, the handshake secret and
    the master secret are all zero afterwards and no key-update backup is
    valid, while the application keys, the exporter secret and the negotiated
    sizes stay; moving to any other state changes only the state. *)
Theorem established_clears_secrets (ctx : libspdm_secured_message_context_t)
    (st : libspdm_session_state_t) :
  let ctx' := libspdm_secured_message_set_session_state ctx st in
  libspdm_secured_message_get_session_state ctx' = st ∧
  application_secret ctx' = application_secret ctx ∧
  export_master_secret ctx' = export_master_secret ctx ∧
  aead_key_size ctx' = aead_key_size ctx ∧ aead_iv_size ctx' = aead_iv_size ctx ∧
  (st = LIBSPDM_SESSION_STATE_ESTABLISHED →
     handshake_secret ctx' = zero_handshake_secret ∧
     handshake_secret_ (master_secret ctx') = zeros 64 ∧
     master_secret_ (master_secret ctx') = zeros 64 ∧
     requester_backup_valid ctx' = false ∧ responder_backup_valid ctx' = false) ∧
  (st ≠ LIBSPDM_SESSION_STATE_ESTABLISHED → ctx' = ctx <| session_state := st |>).
Proof.
  intros ctx'. subst ctx'. unfold libspdm_secured_message_set_session_state.
  case_decide; split_and!; intros; try done; by subst.
Qed.

Lemma established_clears_secrets_witness :
  let c := libspdm_secured_message_init_context <| requester_backup_valid := true |> in
  requester_backup_valid (libspdm_secured_message_set_session_state c
    LIBSPDM_SESSION_STATE_ESTABLISHED) = false.
Proof.
  apply (established_clears_secrets
    (libspdm_secured_message_init_context <| requester_backup_valid := true |>)
    LIBSPDM_SESSION_STATE_ESTABLISHED). reflexivity.
Defined.

End SecuredContextProps.
