(* ===== verification/SecuredSession.v ===== *)
(** * SecuredSession: libspdm_secmes_session.c

    Derivation of the handshake and data keys of a session, and the key
    update: create the new keys with a backup of the old ones, then activate
    either of them. *)

From Stdlib Require Import Ascii String.
From S2P Require Import Prelude SpdmDefs CryptLib SecuredContext.

Module Session.
Section session.
Context `{BuildConfig, CryptoHal}.
Implicit Types ctx : libspdm_secured_message_context_t.

(** Status, key and iv buffers. *)
Definition libspdm_generate_aead_key_and_iv ctx (major_secret key iv : list Z) :
    exec (bool * list Z * list Z) :=
  let key_length := aead_key_size ctx in
  let iv_length := aead_iv_size ctx in
  bin_str5 ← bin_str (version ctx) SPDM_BIN_STR_5_LABEL None (u16 key_length) (hash_size ctx);
  prk ← load major_secret 0 (hash_size ctx);
  '(status, key) ← expand_into (base_hash_algo ctx) prk bin_str5 key key_length;
  RETURN (false, key, iv) IF negb status;;
  bin_str6 ← bin_str (version ctx) SPDM_BIN_STR_6_LABEL None (u16 iv_length) (hash_size ctx);
  '(status, iv) ← expand_into (base_hash_algo ctx) prk bin_str6 iv iv_length;
  RETURN (false, key, iv) IF negb status;;
  Ret (true, key, iv).

Definition libspdm_generate_finished_key ctx (secret finished_key : list Z) :
    exec (bool * list Z) :=
  bin_str7 ← bin_str (version ctx) SPDM_BIN_STR_7_LABEL None (u16 (hash_size ctx)) (hash_size ctx);
  prk ← load secret 0 (hash_size ctx);
  '(status, fk) ← expand_into (base_hash_algo ctx) prk bin_str7 finished_key (hash_size ctx);
  RETURN (false, fk) IF negb status;;
  Ret (true, fk).

Definition libspdm_generate_session_handshake_key ctx (th1_hash_data : list Z) :
    exec (bool * libspdm_secured_message_context_t) :=
  let n := hash_size ctx in
  let hs := Outbuf (handshake_secret_ (master_secret ctx)) n in
  let rq := Outbuf (request_handshake_secret (handshake_secret ctx)) n in
  let rs := Outbuf (response_handshake_secret (handshake_secret ctx)) n in
  '(status, (hs, rq, rs)) ←
    (if use_psk ctx then
       libspdm_generate_handshake_key (version ctx) None 0 false
         (psk_hint ctx) (psk_hint_size ctx) (use_psk ctx) (base_hash_algo ctx) th1_hash_data
         hs rq rs
     else
       libspdm_generate_handshake_key (version ctx) (Some (shared_secret (master_secret ctx)))
         (shared_key_size ctx) false [] 0 (use_psk ctx) (base_hash_algo ctx) th1_hash_data
         hs rq rs);
  let ctx := ctx
    <| master_secret := (master_secret ctx) <| handshake_secret_ := ob_buf hs |> |>
    <| handshake_secret := (handshake_secret ctx)
         <| request_handshake_secret := ob_buf rq |>
         <| response_handshake_secret := ob_buf rs |> |> in
  RETURN (status, ctx) IF negb status;;
  let h := handshake_secret ctx in
  '(status, fk) ← libspdm_generate_finished_key ctx (request_handshake_secret h)
                    (request_finished_key h);
  let ctx := ctx <| handshake_secret := (handshake_secret ctx) <| request_finished_key := fk |> |> in
  RETURN (status, ctx) IF negb status;;
  '(status, fk) ← libspdm_generate_finished_key ctx (response_handshake_secret h)
                    (response_finished_key h);
  let ctx := ctx <| handshake_secret := (handshake_secret ctx) <| response_finished_key := fk |> |> in
  RETURN (status, ctx) IF negb status;;
  '(status, k, i) ← libspdm_generate_aead_key_and_iv ctx (request_handshake_secret h)
                      (request_handshake_encryption_key h) (request_handshake_salt h);
  let ctx := ctx <| handshake_secret := (handshake_secret ctx)
    <| request_handshake_encryption_key := k |> <| request_handshake_salt := i |> |> in
  RETURN (status, ctx) IF negb status;;
  let ctx := ctx <| handshake_secret := (handshake_secret ctx)
    <| request_handshake_sequence_number := 0 |> |> in
  '(status, k, i) ← libspdm_generate_aead_key_and_iv ctx (response_handshake_secret h)
                      (response_handshake_encryption_key h) (response_handshake_salt h);
  let ctx := ctx <| handshake_secret := (handshake_secret ctx)
    <| response_handshake_encryption_key := k |> <| response_handshake_salt := i |> |> in
  RETURN (status, ctx) IF negb status;;
  let ctx := ctx <| handshake_secret := (handshake_secret ctx)
    <| response_handshake_sequence_number := 0 |> |> in
  let ctx := ctx <| master_secret := (master_secret ctx)
    <| shared_secret := zeros LIBSPDM_MAX_SHARED_KEY_SIZE |> |> in
  Ret (true, ctx).

Definition libspdm_generate_session_data_key ctx (th2_hash_data : list Z) :
    exec (bool * libspdm_secured_message_context_t) :=
  let n := hash_size ctx in
  let ms := Outbuf (master_secret_ (master_secret ctx)) n in
  let rq := Outbuf (request_data_secret (application_secret ctx)) n in
  let rs := Outbuf (response_data_secret (application_secret ctx)) n in
  let ex := Outbuf (export_master_secret ctx) n in
  '(status, (ms, rq, rs, ex)) ←
    (if use_psk ctx then
       libspdm_generate_data_key (version ctx) None 0
         (psk_hint ctx) (psk_hint_size ctx) (use_psk ctx) (base_hash_algo ctx) th2_hash_data
         ms rq rs ex
     else
       libspdm_generate_data_key (version ctx)
         (Some (handshake_secret_ (master_secret ctx))) n
         [] 0 (use_psk ctx) (base_hash_algo ctx) th2_hash_data
         ms rq rs ex);
  let ctx := ctx
    <| master_secret := (master_secret ctx) <| master_secret_ := ob_buf ms |> |>
    <| application_secret := (application_secret ctx)
         <| request_data_secret := ob_buf rq |> <| response_data_secret := ob_buf rs |> |>
    <| export_master_secret := ob_buf ex |> in
  RETURN (status, ctx) IF negb status;;
  let a := application_secret ctx in
  '(status, k, i) ← libspdm_generate_aead_key_and_iv ctx (request_data_secret a)
                      (request_data_encryption_key a) (request_data_salt a);
  let ctx := ctx <| application_secret := (application_secret ctx)
    <| request_data_encryption_key := k |> <| request_data_salt := i |> |> in
  RETURN (status, ctx) IF negb status;;
  let ctx := ctx <| application_secret := (application_secret ctx)
    <| request_data_sequence_number := 0 |> |> in
  '(status, k, i) ← libspdm_generate_aead_key_and_iv ctx (response_data_secret a)
                      (response_data_encryption_key a) (response_data_salt a);
  let ctx := ctx <| application_secret := (application_secret ctx)
    <| response_data_encryption_key := k |> <| response_data_salt := i |> |> in
  RETURN (status, ctx) IF negb status;;
  let ctx := ctx <| application_secret := (application_secret ctx)
    <| response_data_sequence_number := 0 |> |> in
  Ret (true, ctx).

(** ** Key update *)

Definition libspdm_create_update_session_data_key ctx (action : libspdm_key_update_action_t) :
    exec (bool * libspdm_secured_message_context_t) :=
  let n := hash_size ctx in
  bin_str9 ← bin_str (version ctx) SPDM_BIN_STR_9_LABEL None (u16 n) n;
  let a := application_secret ctx in
  if decide (action = LIBSPDM_KEY_UPDATE_ACTION_REQUESTER) then
    let ctx := ctx <| application_secret_backup := (application_secret_backup ctx)
      <| request_data_secret := request_data_secret a |>
      <| request_data_encryption_key := request_data_encryption_key a |>
      <| request_data_salt := request_data_salt a |>
      <| request_data_sequence_number := request_data_sequence_number a |> |> in
    prk ← load (request_data_secret a) 0 n;
    '(status, s) ← expand_into (base_hash_algo ctx) prk bin_str9 (request_data_secret a) n;
    let ctx := ctx <| application_secret := (application_secret ctx)
      <| request_data_secret := s |> |> in
    RETURN (false, ctx) IF negb status;;
    '(status, k, i) ← libspdm_generate_aead_key_and_iv ctx s
                        (request_data_encryption_key a) (request_data_salt a);
    let ctx := ctx <| application_secret := (application_secret ctx)
      <| request_data_encryption_key := k |> <| request_data_salt := i |> |> in
    RETURN (status, ctx) IF negb status;;
    let ctx := ctx <| application_secret := (application_secret ctx)
      <| request_data_sequence_number := 0 |> |> in
    Ret (true, ctx <| requester_backup_valid := true |>)
  else if decide (action = LIBSPDM_KEY_UPDATE_ACTION_RESPONDER) then
    let ctx := ctx <| application_secret_backup := (application_secret_backup ctx)
      <| response_data_secret := response_data_secret a |>
      <| response_data_encryption_key := response_data_encryption_key a |>
      <| response_data_salt := response_data_salt a |>
      <| response_data_sequence_number := response_data_sequence_number a |> |> in
    prk ← load (response_data_secret a) 0 n;
    '(status, s) ← expand_into (base_hash_algo ctx) prk bin_str9 (response_data_secret a) n;
    let ctx := ctx <| application_secret := (application_secret ctx)
      <| response_data_secret := s |> |> in
    RETURN (false, ctx) IF negb status;;
    '(status, k, i) ← libspdm_generate_aead_key_and_iv ctx s
                        (response_data_encryption_key a) (response_data_salt a);
    let ctx := ctx <| application_secret := (application_secret ctx)
      <| response_data_encryption_key := k |> <| response_data_salt := i |> |> in
    RETURN (status, ctx) IF negb status;;
    let ctx := ctx <| application_secret := (application_secret ctx)
      <| response_data_sequence_number := 0 |> |> in
    Ret (true, ctx <| responder_backup_valid := true |>)
  else Ret (false, ctx).

Definition libspdm_activate_update_session_data_key ctx (action : libspdm_key_update_action_t)
    (use_new_key : bool) : bool * libspdm_secured_message_context_t :=
  let b := application_secret_backup ctx in
  let ctx :=
    if negb use_new_key then
      if bool_decide (action = LIBSPDM_KEY_UPDATE_ACTION_REQUESTER) && requester_backup_valid ctx
      then ctx <| application_secret := (application_secret ctx)
             <| request_data_secret := request_data_secret b |>
             <| request_data_encryption_key := request_data_encryption_key b |>
             <| request_data_salt := request_data_salt b |>
             <| request_data_sequence_number := request_data_sequence_number b |> |>
      else if bool_decide (action = LIBSPDM_KEY_UPDATE_ACTION_RESPONDER)
              && responder_backup_valid ctx
      then ctx <| application_secret := (application_secret ctx)
             <| response_data_secret := response_data_secret b |>
             <| response_data_encryption_key := response_data_encryption_key b |>
             <| response_data_salt := response_data_salt b |>
             <| response_data_sequence_number := response_data_sequence_number b |> |>
      else ctx
    else ctx in
  let ctx :=
    if decide (action = LIBSPDM_KEY_UPDATE_ACTION_REQUESTER) then
      ctx <| application_secret_backup := (application_secret_backup ctx)
             <| request_data_secret := zeros LIBSPDM_MAX_HASH_SIZE |>
             <| request_data_encryption_key := zeros LIBSPDM_MAX_AEAD_KEY_SIZE |>
             <| request_data_salt := zeros LIBSPDM_MAX_AEAD_IV_SIZE |>
             <| request_data_sequence_number := 0 |> |>
          <| requester_backup_valid := false |>
    else if decide (action = LIBSPDM_KEY_UPDATE_ACTION_RESPONDER) then
      ctx <| application_secret_backup := (application_secret_backup ctx)
             <| response_data_secret := zeros LIBSPDM_MAX_HASH_SIZE |>
             <| response_data_encryption_key := zeros LIBSPDM_MAX_AEAD_KEY_SIZE |>
             <| response_data_salt := zeros LIBSPDM_MAX_AEAD_IV_SIZE |>
             <| response_data_sequence_number := 0 |> |>
          <| responder_backup_valid := false |>
    else ctx in
  (true, ctx).

End session.
End Session.
Export Session.

(** ** Facts *)
Module SessionFacts.
Import KeyScheduleFacts ContextFacts.
Section facts.
Context `{BuildConfig, CryptoHal, !CryptoHalOk}.
Implicit Types ctx : libspdm_secured_message_context_t.

(** The context has a negotiated hash algorithm. *)
Definition keyed ctx (h : hash_alg) : Prop :=
  hash_of_algo (base_hash_algo ctx) = Some h ∧ hash_size ctx = hash_size_of h.

(** The reference derivations of a traffic key and salt, and a finished key,
    from a secret. *)
Definition aead_key_iv ctx (h : hash_alg) (prk : list Z) : option (list Z * list Z) :=
  let k := aead_key_size ctx in
  let i := aead_iv_size ctx in
  key ← Expand h prk (info (version ctx) (c_str "key"%string) None k) k;
  iv ← Expand h prk (info (version ctx) (c_str "iv"%string) None i) i;
  Some (key, iv).

Definition finished_key ctx (h : hash_alg) (prk : list Z) : option (list Z) :=
  let n := hash_size_of h in
  Expand h prk (info (version ctx) (c_str "finished"%string) None n) n.

Definition updated_secret ctx (h : hash_alg) (prk : list Z) : option (list Z) :=
  let n := hash_size_of h in
  Expand h prk (info (version ctx) (c_str "traffic upd"%string) None n) n.

Definition is_some {A} (o : option A) : bool := match o with Some _ => true | None => false end.

Lemma arr_step n l b : arr n l → length b = length l ∧ (bytes_ok l → bytes_ok b) → arr n b.
Proof. intros [Hl Hb] [Hl' Hb']. split; [by rewrite Hl'|auto]. Qed.

Lemma generate_aead_ok ctx h major key iv :
  sizes_wf ctx → keyed ctx h → arr 64 major → arr 32 key → arr 12 iv →
  let r := aead_key_iv ctx h (sub major 0 (hash_size_of h)) in
  ∃ k i, libspdm_generate_aead_key_and_iv ctx major key iv = Ret (is_some r, k, i) ∧
    arr 32 k ∧ arr 12 i ∧
    ∀ x y, r = Some (x, y) → sub k 0 (aead_key_size ctx) = x ∧ sub i 0 (aead_iv_size ctx) = y.
Proof.
  intros (_ & _ & Hks & His & _) [Ha Hn] Hm Hk Hi r. subst r.
  pose proof (hash_size_range h) as Hr.
  unfold libspdm_generate_aead_key_and_iv, aead_key_iv, is_some. rewrite Hn.
  assert (B1 : 0 ≤ aead_key_size ctx ≤ blen key) by (destruct Hk; lia).
  assert (B2 : 0 ≤ aead_iv_size ctx ≤ blen iv) by (destruct Hi; lia).
  destruct Hm as [Hml Hmb].
  rewrite !u16_small by (unfold is_u16; lia).
  rewrite !bin_str_spec by (cbn; lia). rewrite (load_in major) by range. cbn [mbind exec_bind].
  change (c_str "key"%string) with SPDM_BIN_STR_5_LABEL.
  change (c_str "iv"%string) with SPDM_BIN_STR_6_LABEL.
  set (prk := sub major 0 _).
  hal_step (expand_into_ok (base_hash_algo ctx) h prk
    (info (version ctx) SPDM_BIN_STR_5_LABEL None (aead_key_size ctx)) key _ Ha B1) x Hx.
  2: { do 2 eexists. split; [reflexivity|]. split; [by eapply arr_step|]. by split. }
  hal_step (expand_into_ok (base_hash_algo ctx) h prk
    (info (version ctx) SPDM_BIN_STR_6_LABEL None (aead_iv_size ctx)) iv _ Ha B2) y Hy;
    do 2 eexists; (split; [reflexivity|]); (split; [by eapply arr_step|]);
    (split; [by eapply arr_step|]); intros; by simplify_eq.
Qed.

Lemma generate_finished_ok ctx h secret fk :
  keyed ctx h → arr 64 secret → arr 64 fk →
  let r := finished_key ctx h (sub secret 0 (hash_size_of h)) in
  ∃ k, libspdm_generate_finished_key ctx secret fk = Ret (is_some r, k) ∧ arr 64 k ∧
    ∀ x, r = Some x → sub k 0 (hash_size_of h) = x.
Proof.
  intros [Ha Hn] [Hml Hmb] Hk r. subst r. pose proof (hash_size_range h) as Hr.
  unfold libspdm_generate_finished_key, finished_key, is_some. rewrite Hn.
  assert (B1 : 0 ≤ hash_size_of h ≤ blen fk) by (destruct Hk; lia).
  rewrite !u16_small by (unfold is_u16; lia).
  rewrite !bin_str_spec by (cbn; lia). rewrite (load_in secret) by range. cbn [mbind exec_bind].
  change (c_str "finished"%string) with SPDM_BIN_STR_7_LABEL.
  hal_step (expand_into_ok (base_hash_algo ctx) h (sub secret 0 (hash_size_of h))
    (info (version ctx) SPDM_BIN_STR_7_LABEL None (hash_size_of h)) fk _ Ha B1) x Hx;
    eexists; (split; [reflexivity|]); (split; [by eapply arr_step|]); intros; by simplify_eq.
Qed.

(** ** The handshake keys of a session *)

(** The handshake keys a context holds, as its sizes delimit them. *)
Definition handshake_keys_of ctx :=
  let s := handshake_secret ctx in
  let n := hash_size ctx in
  let k := aead_key_size ctx in
  let i := aead_iv_size ctx in
  ((sub (request_handshake_secret s) 0 n, sub (request_finished_key s) 0 n,
    sub (request_handshake_encryption_key s) 0 k, sub (request_handshake_salt s) 0 i),
   (sub (response_handshake_secret s) 0 n, sub (response_finished_key s) 0 n,
    sub (response_handshake_encryption_key s) 0 k, sub (response_handshake_salt s) 0 i)).

Lemma arr_ob_ok h l n : arr n l → hash_size_of h ≤ n → ob_ok h (Outbuf l (hash_size_of h)).
Proof. intros [Hl _] Hn. split; cbn; lia. Qed.

Lemma arr_shape n l o m : arr n l → same_shape (Outbuf l m) o → arr n (ob_buf o).
Proof. intros Ha [Hl Hb]. eapply arr_step; [done|]. by split. Qed.

(** The secrets of the handshake phase. *)
Definition handshake_stage ctx (h : hash_alg) (th1 : list Z) : option (list Z * list Z) :=
  if use_psk ctx then
    psk_handshake_secrets (version ctx) (base_hash_algo ctx) (hash_size_of h)
      (sub (psk_hint ctx) 0 (psk_hint_size ctx)) th1
  else
    '(_, rq, rs) ← handshake_secrets (version ctx) h
       (sub (shared_secret (master_secret ctx)) 0 (shared_key_size ctx)) false th1;
    Some (rq, rs).

Lemma handshake_stage_ok ctx h th1 :
  ctx_wf ctx → keyed ctx h → blen th1 = hash_size_of h →
  (use_psk ctx = false → 0 < shared_key_size ctx) →
  let n := hash_size ctx in
  let hs := Outbuf (handshake_secret_ (master_secret ctx)) n in
  let rq := Outbuf (request_handshake_secret (handshake_secret ctx)) n in
  let rs := Outbuf (response_handshake_secret (handshake_secret ctx)) n in
  ∃ hs' rq' rs',
    (if use_psk ctx then
       libspdm_generate_handshake_key (version ctx) None 0 false
         (psk_hint ctx) (psk_hint_size ctx) (use_psk ctx) (base_hash_algo ctx) th1 hs rq rs
     else
       libspdm_generate_handshake_key (version ctx) (Some (shared_secret (master_secret ctx)))
         (shared_key_size ctx) false [] 0 (use_psk ctx) (base_hash_algo ctx) th1 hs rq rs) =
    Ret (is_some (handshake_stage ctx h th1), (hs', rq', rs')) ∧
    arr 64 (ob_buf hs') ∧ arr 64 (ob_buf rq') ∧ arr 64 (ob_buf rs') ∧
    ∀ y z, handshake_stage ctx h th1 = Some (y, z) →
      sub (ob_buf rq') 0 (hash_size_of h) = y ∧ sub (ob_buf rs') 0 (hash_size_of h) = z.
Proof.
  intros (Hsz & (M1 & M2 & _) & (H1' & H2' & _) & _ & _ & Hp & _) [Ha Hn] Hth Hs n hs rq rs.
  pose proof (hash_size_range h). destruct Hsz as (_ & S2 & _ & _ & _ & S6).
  assert (O1 : ob_ok h hs) by (unfold hs, n; rewrite Hn; eapply arr_ob_ok; [done|lia]).
  assert (O2 : ob_ok h rq) by (unfold rq, n; rewrite Hn; eapply arr_ob_ok; [done|lia]).
  assert (O3 : ob_ok h rs) by (unfold rs, n; rewrite Hn; eapply arr_ob_ok; [done|lia]).
  unfold handshake_stage, is_some. destruct (use_psk ctx).
  - destruct (generate_handshake_key_psk_spec (version ctx) (base_hash_algo ctx) h (psk_hint ctx)
      (psk_hint_size ctx) th1 hs rq rs) as (a & b & c & E & (X1 & X2 & X3) & Hr);
      try done; [destruct Hp; lia|].
    exists a, b, c. rewrite E. split; [done|]. split; [by eapply arr_shape, X1|]. split; [by eapply arr_shape, X2|].
    split; [by eapply arr_shape, X3|].
    intros y z Hyz. destruct (Hr y z Hyz) as [[_ ?] [_ ?]]. done.
  - destruct (generate_handshake_key_spec (version ctx) (shared_secret (master_secret ctx))
      (shared_key_size ctx) false (base_hash_algo ctx) h th1 hs rq rs)
      as (a & b & c & E & (X1 & X2 & X3) & Hr); try done; [destruct M1; specialize (Hs eq_refl); lia|].
    exists a, b, c. rewrite E. destruct (handshake_secrets _ _ _ _ _) as [[[x y] z]|] eqn:Es; cbn.
    + split; [done|]. split; [by eapply arr_shape, X1|]. split; [by eapply arr_shape, X2|].
    split; [by eapply arr_shape, X3|].
      intros y' z' [= <- <-]. destruct (Hr x y z eq_refl) as ([_ ?] & [_ ?] & [_ ?]). done.
    + split; [done|]. split; [by eapply arr_shape, X1|]. split; [by eapply arr_shape, X2|].
    split; [by eapply arr_shape, X3|]. done.
Qed.

(** The reference for libspdm_generate_session_handshake_key: secret, finished
    key, encryption key and salt of each direction. *)
Definition session_handshake_reference ctx (h : hash_alg) (th1 : list Z) :=
  '(rq, rs) ← handshake_stage ctx h th1;
  fq ← finished_key ctx h rq;
  fs ← finished_key ctx h rs;
  '(kq, iq) ← aead_key_iv ctx h rq;
  '(kr, ir) ← aead_key_iv ctx h rs;
  Some ((rq, fq, kq, iq), (rs, fs, kr, ir)).

Lemma is_u64_0 : is_u64 0.
Proof. unfold is_u64. lia. Qed.

Ltac wf_solve := repeat first [assumption | apply arr_zeros; done | apply is_u64_0 | split].

(** Run the next derivation of a session function whose context [c] differs
    from [ctx] only in secrets, and case on the reference's answer. *)
Ltac run_derivation ctx h Hk Hsz x :=
  let E := fresh "E" in let Hv := fresh "Hv" in
  match goal with
  | |- context [libspdm_generate_finished_key ?c ?s ?k] =>
      let A := fresh "A" in let fk := fresh "fk" in
      destruct (generate_finished_ok c h s k Hk ltac:(assumption) ltac:(assumption))
        as (fk & E & A & Hv);
      change (finished_key c h) with (finished_key ctx h) in *;
      rewrite E; clear E; cbn [mbind exec_bind];
      destruct (finished_key ctx h (sub s 0 (hash_size_of h))) as [x|];
      cbn [is_some negb option_bind]; [specialize (Hv x eq_refl)|clear Hv]
  | |- context [libspdm_generate_aead_key_and_iv ?c ?s ?k ?i] =>
      let A := fresh "A" in let B := fresh "B" in let key := fresh "key" in let iv := fresh "iv" in
      let a := fresh "x" in let b := fresh "y" in
      destruct (generate_aead_ok c h s k i Hsz Hk ltac:(assumption) ltac:(assumption)
        ltac:(assumption)) as (key & iv & E & A & B & Hv);
      change (aead_key_iv c h) with (aead_key_iv ctx h) in *;
      rewrite E; clear E; cbn [mbind exec_bind];
      destruct (aead_key_iv ctx h (sub s 0 (hash_size_of h))) as [[a b]|];
      cbn [is_some negb option_bind]; [specialize (Hv a b eq_refl) as [? ?]|clear Hv]
  end.

Lemma generate_session_handshake_key_spec ctx h th1 :
  ctx_wf ctx → keyed ctx h → blen th1 = hash_size_of h →
  (use_psk ctx = false → 0 < shared_key_size ctx) →
  let r := session_handshake_reference ctx h th1 in
  ∃ ctx', libspdm_generate_session_handshake_key ctx th1 = Ret (is_some r, ctx') ∧
    ctx_wf ctx' ∧ application_secret ctx' = application_secret ctx ∧
    (∀ x, r = Some x → handshake_keys_of ctx' = x ∧
       request_handshake_sequence_number (handshake_secret ctx') = 0 ∧
       response_handshake_sequence_number (handshake_secret ctx') = 0 ∧
       shared_secret (master_secret ctx') = zeros LIBSPDM_MAX_SHARED_KEY_SIZE).
Proof.
  intros Hw Hk Hth Hs r. subst r.
  pose proof Hw as (Hsz & (M1 & M2 & M3) & Hh & Happ & Hbk & Hp & He).
  pose proof Hh as (R1 & R2 & F1 & F2 & K1 & I1 & N1 & K2 & I2 & N2).
  destruct (handshake_stage_ok ctx h th1 Hw Hk Hth Hs) as (hs & rq & rs & E & A1 & A2 & A3 & Hv).
  unfold libspdm_generate_session_handshake_key, session_handshake_reference. cbv zeta.
  cbv zeta in E. rewrite E. clear E. cbn [mbind exec_bind].
  destruct (handshake_stage ctx h th1) as [[y z]|]; cbn [is_some negb].
  2: { eexists. split; [reflexivity|]. split; [wf_solve|]. split; [done|discriminate]. }
  destruct (Hv y z eq_refl) as [<- <-]. clear Hv.
  cbn.
  run_derivation ctx h Hk Hsz fq.
  2: { eexists. split; [reflexivity|]. split; [wf_solve|]. split; [done|discriminate]. }
  run_derivation ctx h Hk Hsz fs.
  2: { eexists. split; [reflexivity|]. split; [wf_solve|]. split; [done|discriminate]. }
  run_derivation ctx h Hk Hsz kq.
  2: { eexists. split; [reflexivity|]. split; [wf_solve|]. split; [done|discriminate]. }
  run_derivation ctx h Hk Hsz kr.
  2: { eexists. split; [reflexivity|]. split; [wf_solve|]. split; [done|discriminate]. }
  eexists. split; [reflexivity|]. split; [wf_solve|]. split; [done|].
  intros res [= <-]. unfold handshake_keys_of. cbn. destruct Hk as [_ ->].
  cbn in *. subst. done.
Qed.

(** ** The data keys of a session *)

(** The secrets of the application phase: request, response, exporter. *)
Definition data_stage ctx (h : hash_alg) (th2 : list Z) : option (list Z * list Z * list Z) :=
  if use_psk ctx then
    psk_data_secrets (version ctx) (base_hash_algo ctx) (hash_size_of h)
      (sub (psk_hint ctx) 0 (psk_hint_size ctx)) th2
  else
    '(_, rq, rs, ex) ← data_secrets (version ctx) h
       (sub (handshake_secret_ (master_secret ctx)) 0 (hash_size_of h)) th2;
    Some (rq, rs, ex).

Definition session_data_reference ctx (h : hash_alg) (th2 : list Z) :=
  '(rq, rs, ex) ← data_stage ctx h th2;
  '(kq, iq) ← aead_key_iv ctx h rq;
  '(kr, ir) ← aead_key_iv ctx h rs;
  Some ((rq, kq, iq), (rs, kr, ir), ex).

Definition data_keys_of ctx :=
  let a := application_secret ctx in
  let n := hash_size ctx in
  let k := aead_key_size ctx in
  let i := aead_iv_size ctx in
  ((sub (request_data_secret a) 0 n, sub (request_data_encryption_key a) 0 k,
    sub (request_data_salt a) 0 i),
   (sub (response_data_secret a) 0 n, sub (response_data_encryption_key a) 0 k,
    sub (response_data_salt a) 0 i),
   sub (export_master_secret ctx) 0 n).

Lemma data_stage_ok ctx h th2 :
  ctx_wf ctx → keyed ctx h → blen th2 = hash_size_of h →
  let n := hash_size ctx in
  let ms := Outbuf (master_secret_ (master_secret ctx)) n in
  let rq := Outbuf (request_data_secret (application_secret ctx)) n in
  let rs := Outbuf (response_data_secret (application_secret ctx)) n in
  let ex := Outbuf (export_master_secret ctx) n in
  ∃ ms' rq' rs' ex',
    (if use_psk ctx then
       libspdm_generate_data_key (version ctx) None 0
         (psk_hint ctx) (psk_hint_size ctx) (use_psk ctx) (base_hash_algo ctx) th2 ms rq rs ex
     else
       libspdm_generate_data_key (version ctx) (Some (handshake_secret_ (master_secret ctx))) n
         [] 0 (use_psk ctx) (base_hash_algo ctx) th2 ms rq rs ex) =
    Ret (is_some (data_stage ctx h th2), (ms', rq', rs', ex')) ∧
    arr 64 (ob_buf ms') ∧ arr 64 (ob_buf rq') ∧ arr 64 (ob_buf rs') ∧ arr 64 (ob_buf ex') ∧
    ∀ y z w, data_stage ctx h th2 = Some (y, z, w) →
      sub (ob_buf rq') 0 (hash_size_of h) = y ∧ sub (ob_buf rs') 0 (hash_size_of h) = z ∧
      sub (ob_buf ex') 0 (hash_size_of h) = w.
Proof.
  intros (Hsz & (M1 & M2 & M3) & _ & (D1 & D2 & _) & _ & Hp & He) [Ha Hn] Hth n ms rq rs ex.
  pose proof (hash_size_range h). destruct Hsz as (_ & S2 & _ & _ & _ & S6).
  assert (O1 : ob_ok h ms) by (unfold ms, n; rewrite Hn; eapply arr_ob_ok; [done|lia]).
  assert (O2 : ob_ok h rq) by (unfold rq, n; rewrite Hn; eapply arr_ob_ok; [done|lia]).
  assert (O3 : ob_ok h rs) by (unfold rs, n; rewrite Hn; eapply arr_ob_ok; [done|lia]).
  assert (O4 : ob_ok h ex) by (unfold ex, n; rewrite Hn; eapply arr_ob_ok; [done|lia]).
  unfold data_stage, is_some. destruct (use_psk ctx).
  - destruct (generate_data_key_psk_spec (version ctx) (base_hash_algo ctx) h (psk_hint ctx)
      (psk_hint_size ctx) th2 ms rq rs ex) as (a & b & c & d & E & (X1 & X2 & X3 & X4) & Hr);
      try done; [destruct Hp; lia|].
    exists a, b, c, d. rewrite E. split; [done|].
    split; [by eapply arr_shape, X1|]. split; [by eapply arr_shape, X2|].
    split; [by eapply arr_shape, X3|]. split; [by eapply arr_shape, X4|].
    intros y z w Hyz. destruct (Hr y z w Hyz) as ([_ ?] & [_ ?] & [_ ?]). done.
  - destruct (generate_data_key_spec (version ctx) (handshake_secret_ (master_secret ctx)) n
      (base_hash_algo ctx) h th2 ms rq rs ex)
      as (a & b & c & d & E & (X1 & X2 & X3 & X4) & Hr);
      try done; [unfold n; lia|destruct M2; lia|].
    exists a, b, c, d. rewrite E. destruct (data_secrets _ _ _ _) as [[[[x y] z] w]|] eqn:Es; cbn;
      (split; [done|]);
      (split; [by eapply arr_shape, X1|]); (split; [by eapply arr_shape, X2|]);
      (split; [by eapply arr_shape, X3|]); (split; [by eapply arr_shape, X4|]); [|done].
    intros y' z' w' [= <- <- <-].
    destruct (Hr x y z w eq_refl) as ([_ ?] & [_ ?] & [_ ?] & [_ ?]). done.
Qed.

Lemma generate_session_data_key_spec ctx h th2 :
  ctx_wf ctx → keyed ctx h → blen th2 = hash_size_of h →
  let r := session_data_reference ctx h th2 in
  ∃ ctx', libspdm_generate_session_data_key ctx th2 = Ret (is_some r, ctx') ∧
    ctx_wf ctx' ∧ handshake_secret ctx' = handshake_secret ctx ∧
    (∀ x, r = Some x → data_keys_of ctx' = x ∧
       request_data_sequence_number (application_secret ctx') = 0 ∧
       response_data_sequence_number (application_secret ctx') = 0).
Proof.
  intros Hw Hk Hth r. subst r.
  pose proof Hw as (Hsz & (M1 & M2 & M3) & Hh & Happ & Hbk & Hp & He).
  pose proof Happ as (R1 & R2 & K1 & I1 & N1 & K2 & I2 & N2).
  destruct (data_stage_ok ctx h th2 Hw Hk Hth) as (ms & rq & rs & ex & E & A1 & A2 & A3 & A4 & Hv).
  unfold libspdm_generate_session_data_key, session_data_reference. cbv zeta.
  cbv zeta in E. rewrite E. clear E. cbn [mbind exec_bind].
  destruct (data_stage ctx h th2) as [[[y z] w]|]; cbn [is_some negb].
  2: { eexists. split; [reflexivity|]. split; [wf_solve|]. by split. }
  destruct (Hv y z w eq_refl) as (<- & <- & <-). clear Hv. cbn.
  run_derivation ctx h Hk Hsz kq.
  2: { eexists. split; [reflexivity|]. split; [wf_solve|]. split; [done|discriminate]. }
  run_derivation ctx h Hk Hsz kr.
  2: { eexists. split; [reflexivity|]. split; [wf_solve|]. split; [done|discriminate]. }
  eexists. split; [reflexivity|]. split; [wf_solve|]. split; [done|].
  intros res [= <-]. unfold data_keys_of. cbn. destruct Hk as [_ ->].
  cbn in *. subst. done.
Qed.

(** ** Key update *)

(** One direction of the application secrets: secret, key, salt, sequence
    number. *)
Definition dir_of (action : libspdm_key_update_action_t)
    (a : libspdm_session_info_struct_application_secret_t) : list Z * list Z * list Z * Z :=
  match action with
  | LIBSPDM_KEY_UPDATE_ACTION_REQUESTER =>
      (request_data_secret a, request_data_encryption_key a, request_data_salt a,
       request_data_sequence_number a)
  | _ =>
      (response_data_secret a, response_data_encryption_key a, response_data_salt a,
       response_data_sequence_number a)
  end.

Definition other (action : libspdm_key_update_action_t) : libspdm_key_update_action_t :=
  match action with
  | LIBSPDM_KEY_UPDATE_ACTION_REQUESTER => LIBSPDM_KEY_UPDATE_ACTION_RESPONDER
  | _ => LIBSPDM_KEY_UPDATE_ACTION_REQUESTER
  end.

Definition backup_valid (action : libspdm_key_update_action_t) ctx : bool :=
  match action with
  | LIBSPDM_KEY_UPDATE_ACTION_REQUESTER => requester_backup_valid ctx
  | _ => responder_backup_valid ctx
  end.

Definition zero_dir : list Z * list Z * list Z * Z := (zeros 64, zeros 32, zeros 12, 0).

Definition is_direction (action : libspdm_key_update_action_t) : Prop :=
  action = LIBSPDM_KEY_UPDATE_ACTION_REQUESTER ∨ action = LIBSPDM_KEY_UPDATE_ACTION_RESPONDER.

(** The next secret, key and salt of a direction. *)
Definition key_update_reference ctx (h : hash_alg) (action : libspdm_key_update_action_t) :=
  let '(secret, _, _, _) := dir_of action (application_secret ctx) in
  s ← updated_secret ctx h (sub secret 0 (hash_size_of h));
  '(k, i) ← aead_key_iv ctx h s;
  Some (s, k, i).

Definition dir_keys_of ctx (d : list Z * list Z * list Z * Z) : list Z * list Z * list Z * Z :=
  let '(s, k, i, n) := d in
  (sub s 0 (hash_size ctx), sub k 0 (aead_key_size ctx), sub i 0 (aead_iv_size ctx), n).

Lemma create_update_spec ctx h action :
  ctx_wf ctx → keyed ctx h → is_direction action →
  let r := key_update_reference ctx h action in
  ∃ ctx', libspdm_create_update_session_data_key ctx action = Ret (is_some r, ctx') ∧
    ctx_wf ctx' ∧
    dir_of action (application_secret_backup ctx') = dir_of action (application_secret ctx) ∧
    dir_of (other action) (application_secret ctx') =
      dir_of (other action) (application_secret ctx) ∧
    dir_of (other action) (application_secret_backup ctx') =
      dir_of (other action) (application_secret_backup ctx) ∧
    backup_valid (other action) ctx' = backup_valid (other action) ctx ∧
    handshake_secret ctx' = handshake_secret ctx ∧ keyed ctx' h ∧
    ∀ s k i, r = Some (s, k, i) → backup_valid action ctx' = true ∧
      dir_keys_of ctx' (dir_of action (application_secret ctx')) = (s, k, i, 0).
Proof.
  intros Hw Hk Hd r. subst r. pose proof (hash_size_range h) as Hn.
  pose proof Hw as (Hsz & (M1 & M2 & M3) & Hh & Happ & Hbk & Hp & He).
  pose proof Happ as (R1 & R2 & K1 & I1 & N1 & K2 & I2 & N2).
  pose proof Hbk as (BR1 & BR2 & BK1 & BI1 & BN1 & BK2 & BI2 & BN2).
  pose proof Hk as [Ha Hhs].
  assert (Hb : ∀ s, arr 64 s → 0 ≤ hash_size_of h ≤ blen s) by (intros s [? _]; lia).
  unfold libspdm_create_update_session_data_key, key_update_reference. rewrite Hhs.
  rewrite u16_small by (unfold is_u16; lia). rewrite bin_str_spec by (cbn; lia).
  cbn [mbind exec_bind].
  destruct Hd as [-> | ->]; cbn [dir_of other backup_valid].
  - rewrite decide_True by done. rewrite load_in by (specialize (Hb _ R1); range).
    unfold updated_secret. change (c_str "traffic upd"%string) with SPDM_BIN_STR_9_LABEL.
    cbn -[info]. hal_step (expand_into_ok (base_hash_algo ctx) h
      (sub (request_data_secret (application_secret ctx)) 0 (hash_size_of h))
      (info (version ctx) SPDM_BIN_STR_9_LABEL None (hash_size_of h))
      (request_data_secret (application_secret ctx)) _ Ha (Hb _ R1)) s Hs.
    2: { eexists. split; [reflexivity|]. assert (arr 64 b) by exact (arr_step _ _ _ R1 (conj Hl Hby)).
         split; [wf_solve|]. do 6 (split; [done|]). discriminate. }
    assert (A : arr 64 b) by exact (arr_step _ _ _ R1 (conj Hl Hby)). rewrite <- Hs.
    run_derivation ctx h Hk Hsz k.
    2: { eexists. split; [reflexivity|]. split; [wf_solve|]. do 6 (split; [done|]). discriminate. }
    eexists. split; [reflexivity|]. split; [wf_solve|]. do 6 (split; [done|]).
    intros s' k' i' [= <- <- <-]. split; [done|]. cbn [aead_key_size aead_iv_size] in *.
    cbn. rewrite Hhs. congruence.
  - rewrite decide_False, decide_True by done. rewrite load_in by (specialize (Hb _ R2); range).
    unfold updated_secret. change (c_str "traffic upd"%string) with SPDM_BIN_STR_9_LABEL.
    cbn -[info]. hal_step (expand_into_ok (base_hash_algo ctx) h
      (sub (response_data_secret (application_secret ctx)) 0 (hash_size_of h))
      (info (version ctx) SPDM_BIN_STR_9_LABEL None (hash_size_of h))
      (response_data_secret (application_secret ctx)) _ Ha (Hb _ R2)) s Hs.
    2: { eexists. split; [reflexivity|]. assert (arr 64 b) by exact (arr_step _ _ _ R2 (conj Hl Hby)).
         split; [wf_solve|]. do 6 (split; [done|]). discriminate. }
    assert (A : arr 64 b) by exact (arr_step _ _ _ R2 (conj Hl Hby)). rewrite <- Hs.
    run_derivation ctx h Hk Hsz k.
    2: { eexists. split; [reflexivity|]. split; [wf_solve|]. do 6 (split; [done|]). discriminate. }
    eexists. split; [reflexivity|]. split; [wf_solve|]. do 6 (split; [done|]).
    intros s' k' i' [= <- <- <-]. split; [done|]. cbn [aead_key_size aead_iv_size] in *.
    cbn. rewrite Hhs. congruence.
Qed.

Lemma activate_spec ctx action use_new :
  is_direction action →
  let ctx' := (libspdm_activate_update_session_data_key ctx action use_new).2 in
  (libspdm_activate_update_session_data_key ctx action use_new).1 = true ∧
  dir_of action (application_secret ctx') =
    dir_of action (if negb use_new && backup_valid action ctx
                   then application_secret_backup ctx else application_secret ctx) ∧
  dir_of action (application_secret_backup ctx') = zero_dir ∧
  backup_valid action ctx' = false ∧
  dir_of (other action) (application_secret ctx') =
    dir_of (other action) (application_secret ctx) ∧
  dir_of (other action) (application_secret_backup ctx') =
    dir_of (other action) (application_secret_backup ctx) ∧
  backup_valid (other action) ctx' = backup_valid (other action) ctx.
Proof.
  destruct ctx. intros [-> | ->]; destruct use_new, requester_backup_valid, responder_backup_valid;
    repeat split.
Qed.

Lemma activate_wf ctx action use_new :
  ctx_wf ctx → ctx_wf (libspdm_activate_update_session_data_key ctx action use_new).2.
Proof.
  intros (Hsz & (M1 & M2 & M3) & Hh & Happ & Hbk & Hp & He).
  pose proof Happ as (R1 & R2 & K1 & I1 & N1 & K2 & I2 & N2).
  pose proof Hbk as (BR1 & BR2 & BK1 & BI1 & BN1 & BK2 & BI2 & BN2).
  unfold libspdm_activate_update_session_data_key.
  destruct use_new, action, (requester_backup_valid ctx), (responder_backup_valid ctx);
    cbn [negb andb bool_decide]; wf_solve.
Qed.

(** The two directions are all of the application secrets. *)
Lemma dirs_eq action a b :
  dir_of action a = dir_of action b → dir_of (other action) a = dir_of (other action) b → a = b.
Proof. destruct action, a, b; cbn; intros; by simplify_eq. Qed.

End facts.
End SessionFacts.

(** ** The component's properties *)
Module SecuredSessionProps.
Import KeyScheduleFacts ContextFacts SessionFacts ToyHal.


Definition toy_context : libspdm_secured_message_context_t :=
  libspdm_secured_message_set_algorithms libspdm_secured_message_init_context
    0x1200 0x1200 SPDM_ALGORITHMS_BASE_HASH_ALGO_TPM_ALG_SHA_256
    SPDM_ALGORITHMS_DHE_NAMED_GROUP_SECP_256_R1 0
    SPDM_ALGORITHMS_AEAD_CIPHER_SUITE_AES_256_GCM 0.

Lemma toy_context_ok : ctx_wf toy_context ∧ keyed toy_context SHA256.
Proof. split; [apply set_algorithms_wf, init_wf|by split]. Qed.


(** C12: key update commits: creating and activating new keys for a direction
    replaces its secret by the "traffic upd" expansion of the old one, its key
    and salt by the expansions of the new secret, restarts its sequence number
    at zero, erases the backup, and touches nothing of the other direction. *)
Theorem key_update_commit `{BuildConfig, CryptoHal, !CryptoHalOk}
    (ctx : libspdm_secured_message_context_t) (h : hash_alg) (action : libspdm_key_update_action_t)
    (s k i : list Z)
    (Hw : ctx_wf ctx) (Hk : keyed ctx h) (Ha : is_direction action)
    (Hr : key_update_reference ctx h action = Some (s, k, i)) :
  ∃ ctx1, libspdm_create_update_session_data_key ctx action = Ret (true, ctx1) ∧
    let '(ok, ctx2) := libspdm_activate_update_session_data_key ctx1 action true in
    ok = true ∧
    dir_keys_of ctx1 (dir_of action (application_secret ctx2)) = (s, k, i, 0) ∧
    dir_of action (application_secret_backup ctx2) = zero_dir ∧
    backup_valid action ctx2 = false ∧
    dir_of (other action) (application_secret ctx2) =
      dir_of (other action) (application_secret ctx) ∧
    dir_of (other action) (application_secret_backup ctx2) =
      dir_of (other action) (application_secret_backup ctx) ∧
    backup_valid (other action) ctx2 = backup_valid (other action) ctx.
Proof.
  destruct (create_update_spec ctx h action Hw Hk Ha)
    as (ctx1 & E & _ & B & O & OB & OV & _ & _ & Hv).
  rewrite Hr in E. exists ctx1. split; [done|]. destruct (Hv s k i Hr) as [V D].
  pose proof (activate_spec ctx1 action true Ha) as (A1 & A2 & A3 & A4 & A5 & A6 & A7).
  destruct (libspdm_activate_update_session_data_key ctx1 action true) as [ok ctx2].
  cbn [fst snd negb andb] in *. rewrite A2. split_and!; congruence.
Qed.

Lemma key_update_commit_witness :
  ∃ ctx1, @libspdm_create_update_session_data_key default_build toy_hal toy_context
            LIBSPDM_KEY_UPDATE_ACTION_RESPONDER = Ret (true, ctx1).
Proof.
  destruct (@key_update_reference toy_hal toy_context SHA256
    LIBSPDM_KEY_UPDATE_ACTION_RESPONDER) as [[[s k] i]|] eqn:E;
    [|vm_compute in E; discriminate].
  destruct (@key_update_commit default_build toy_hal toy_hal_ok toy_context SHA256
    LIBSPDM_KEY_UPDATE_ACTION_RESPONDER s k i (proj1 toy_context_ok) (proj2 toy_context_ok)
    (or_intror eq_refl) E) as (c & E' & _).
  exists c. exact E'.
Defined.

(** C13: libspdm_generate_session_handshake_key derives the whole handshake
    phase: for a well-formed context with a negotiated hash it faults nowhere
    and returns true exactly when every derivation succeeds; then the request
    and response secrets, finished keys, encryption keys and salts are those of
    the reference schedule (the PSK one for a PSK session), both sequence
    numbers are zero, and the shared secret is erased.  The context stays
    well-formed either way. *)
Theorem session_handshake_keys `{BuildConfig, CryptoHal, !CryptoHalOk}
    (ctx : libspdm_secured_message_context_t) (h : hash_alg) (th1 : list Z)
    (Hw : ctx_wf ctx) (Hk : keyed ctx h) (Ht : blen th1 = hash_size_of h)
    (Hs : use_psk ctx = false → 0 < shared_key_size ctx) :
  ∃ ctx', libspdm_generate_session_handshake_key ctx th1 =
            Ret (is_some (session_handshake_reference ctx h th1), ctx') ∧
    ctx_wf ctx' ∧ application_secret ctx' = application_secret ctx ∧
    (∀ x, session_handshake_reference ctx h th1 = Some x → handshake_keys_of ctx' = x ∧
       request_handshake_sequence_number (handshake_secret ctx') = 0 ∧
       response_handshake_sequence_number (handshake_secret ctx') = 0 ∧
       shared_secret (master_secret ctx') = zeros LIBSPDM_MAX_SHARED_KEY_SIZE).
Proof. by apply generate_session_handshake_key_spec. Qed.

Lemma session_handshake_keys_witness :
  ∃ ctx', @libspdm_generate_session_handshake_key default_build toy_hal toy_context (zeros 32) =
            Ret (true, ctx') ∧ ctx_wf ctx'.
Proof.
  destruct (@session_handshake_keys default_build toy_hal toy_hal_ok toy_context SHA256 (zeros 32)
    (proj1 toy_context_ok) (proj2 toy_context_ok)) as (c & E & W & _);
    [reflexivity|intros _; reflexivity|].
  exists c. split; [|exact W].
  rewrite E. f_equal.
Defined.

(** C14: libspdm_generate_session_data_key derives the application phase: under
    the same conditions, it returns true exactly when every derivation
    succeeds, and then both directions hold the reference secret, key and salt
    with sequence numbers zero, and the exporter secret is the reference's;
    the handshake secrets are untouched. *)
Theorem session_data_keys `{BuildConfig, CryptoHal, !CryptoHalOk}
    (ctx : libspdm_secured_message_context_t) (h : hash_alg) (th2 : list Z)
    (Hw : ctx_wf ctx) (Hk : keyed ctx h) (Ht : blen th2 = hash_size_of h) :
  ∃ ctx', libspdm_generate_session_data_key ctx th2 =
            Ret (is_some (session_data_reference ctx h th2), ctx') ∧
    ctx_wf ctx' ∧ handshake_secret ctx' = handshake_secret ctx ∧
    (∀ x, session_data_reference ctx h th2 = Some x → data_keys_of ctx' = x ∧
       request_data_sequence_number (application_secret ctx') = 0 ∧
       response_data_sequence_number (application_secret ctx') = 0).
Proof. by apply generate_session_data_key_spec. Qed.

Lemma session_data_keys_witness :
  ∃ ctx', @libspdm_generate_session_data_key default_build toy_hal toy_context (zeros 32) =
            Ret (true, ctx') ∧ ctx_wf ctx'.
Proof.
  destruct (@session_data_keys default_build toy_hal toy_hal_ok toy_context SHA256 (zeros 32)
    (proj1 toy_context_ok) (proj2 toy_context_ok)) as (c & E & W & _); [reflexivity|].
  exists c. split; [|exact W].
  rewrite E. f_equal.
Defined.

End SecuredSessionProps.
