(* ===== verification/SecuredMessage.v ===== *)
(** * SecuredMessage: libspdm_secmes_encode_decode.c

    Encoding and decoding of secured messages (DSP0277): key, salt and
    sequence number selection, the AEAD nonce, the record headers, the AEAD
    call, and the detection of the peer's sequence-number endianness.

    The two buffers of a call are separate memories: the secured message, and
    the buffer that holds the application message at an offset (encoding writes
    the cipher header in front of it and the random padding behind it). *)

From S2P Require Import Prelude SpdmDefs CryptLib SecuredContext.

(** ** Callbacks of the transport *)

Record libspdm_secured_message_callbacks_t : Type := Build_secured_message_callbacks {
  (** the bytes written to the 8-byte buffer; their number is the result *)
  get_sequence_number : Z → list Z;
  get_max_random_number_count : Z;
  get_secured_spdm_version : Z → Z;
}.

Module Message.
Section message.
Context `{BuildConfig, CryptoHal}.
Implicit Types ctx : libspdm_secured_message_context_t.

Definition libspdm_byte_swap_64 (value : Z) : Z := le_val (rev (le_bytes 8 value)).

(** [for (index = off; ...) iv[index] = iv[index] ^ iv_temp[index]] over the
    bytes [t] of iv_temp at [off]. *)
Definition xor_into (iv : list Z) (off : Z) (t : list Z) : exec (list Z) :=
  d ← load iv off (blen t);
  store iv off (zip_with Z.lxor d t).

(** The local iv array is indeterminate before the copy of the salt; it is
    zeros here, and only its first aead_iv_size bytes are read later. *)
Definition generate_iv (sequence_number : Z) (salt : list Z) (aead_iv_size endian : Z) :
    exec (list Z) :=
  d ← load salt 0 aead_iv_size;
  iv ← store (zeros LIBSPDM_MAX_AEAD_IV_SIZE) 0 d;
  if (endian =? LIBSPDM_DATA_SESSION_SEQ_NUM_ENC_LITTLE_DEC_LITTLE)
     || (endian =? LIBSPDM_DATA_SESSION_SEQ_NUM_ENC_LITTLE_DEC_BOTH) then
    xor_into iv 0 (le_bytes 8 sequence_number)
  else if (endian =? LIBSPDM_DATA_SESSION_SEQ_NUM_ENC_BIG_DEC_BIG)
          || (endian =? LIBSPDM_DATA_SESSION_SEQ_NUM_ENC_BIG_DEC_BOTH) then
    let sequence_number := libspdm_byte_swap_64 sequence_number in
    xor_into iv (aead_iv_size - 8) (le_bytes 8 sequence_number)
  else Ret iv.

Definition swap_endian (endian : Z) : exec Z :=
  if endian =? LIBSPDM_DATA_SESSION_SEQ_NUM_ENC_LITTLE_DEC_BOTH
  then Ret LIBSPDM_DATA_SESSION_SEQ_NUM_ENC_BIG_DEC_BIG
  else if endian =? LIBSPDM_DATA_SESSION_SEQ_NUM_ENC_BIG_DEC_BOTH
  then Ret LIBSPDM_DATA_SESSION_SEQ_NUM_ENC_LITTLE_DEC_LITTLE
  else (LIBSPDM_ASSERT false;; Ret 0).

Definition is_sequence_number_endian_determined (endian : Z) : bool :=
  (endian =? LIBSPDM_DATA_SESSION_SEQ_NUM_ENC_BIG_DEC_BIG)
  || (endian =? LIBSPDM_DATA_SESSION_SEQ_NUM_ENC_LITTLE_DEC_LITTLE).

(** The switches on session_state that both functions share: the key, salt and
    sequence number of a direction, and the increment of that number. *)
Definition select_keys ctx (is_request_message : bool) : option (list Z * list Z * Z) :=
  let h := handshake_secret ctx in
  let a := application_secret ctx in
  match session_state ctx with
  | LIBSPDM_SESSION_STATE_HANDSHAKING =>
      if is_request_message
      then Some (request_handshake_encryption_key h, request_handshake_salt h,
                 request_handshake_sequence_number h)
      else Some (response_handshake_encryption_key h, response_handshake_salt h,
                 response_handshake_sequence_number h)
  | LIBSPDM_SESSION_STATE_ESTABLISHED =>
      if is_request_message
      then Some (request_data_encryption_key a, request_data_salt a,
                 request_data_sequence_number a)
      else Some (response_data_encryption_key a, response_data_salt a,
                 response_data_sequence_number a)
  | _ => None
  end.

Definition increment_sequence_number ctx (is_request_message : bool) :
    libspdm_secured_message_context_t :=
  let h := handshake_secret ctx in
  let a := application_secret ctx in
  if decide (session_state ctx = LIBSPDM_SESSION_STATE_HANDSHAKING) then
    if is_request_message
    then ctx <| handshake_secret := h
           <| request_handshake_sequence_number := u64 (request_handshake_sequence_number h + 1) |> |>
    else ctx <| handshake_secret := h
           <| response_handshake_sequence_number := u64 (response_handshake_sequence_number h + 1) |> |>
  else
    if is_request_message
    then ctx <| application_secret := a
           <| request_data_sequence_number := u64 (request_data_sequence_number a + 1) |> |>
    else ctx <| application_secret := a
           <| response_data_sequence_number := u64 (response_data_sequence_number a + 1) |> |>.

(** sizeof of the packed header structures. *)
Definition spdm_secured_message_a_data_header1_t : Z := 4.
Definition spdm_secured_message_a_data_header2_t : Z := 2.
Definition spdm_secured_message_cipher_header_t : Z := 2.

Definition major_version_ok ctx (cb : libspdm_secured_message_callbacks_t) : bool :=
  let v := u8 (Z.shiftr (get_secured_spdm_version cb (secured_message_version ctx))
                 SPDM_VERSION_NUMBER_SHIFT_BIT) in
  Z.shiftr v 4 =? Z.shiftr SECURED_SPDM_VERSION_10 4.

Definition session_type_ok ctx : bool :=
  bool_decide (session_type ctx = LIBSPDM_SESSION_TYPE_MAC_ONLY)
  || bool_decide (session_type ctx = LIBSPDM_SESSION_TYPE_ENC_MAC).

Definition session_state_ok ctx : bool :=
  bool_decide (session_state ctx = LIBSPDM_SESSION_STATE_HANDSHAKING)
  || bool_decide (session_state ctx = LIBSPDM_SESSION_STATE_ESTABLISHED).

(** ** Encoding *)

(** What libspdm_encode_secured_message leaves behind. *)
Record encoded : Type := Encoded {
  e_status : libspdm_return_t;
  e_ctx : libspdm_secured_message_context_t;
  e_msg : list Z;        (* the secured message buffer *)
  e_size : Z;            (* *secured_message_size *)
  e_app : list Z;        (* the memory around app_message *)
  e_rng : rng_state;
}.

(** The record headers: session id, sequence number, length. *)
Definition write_record_header (msg : list Z) (session_id : Z) (seq_hdr : list Z) (n length_ : Z) :
    exec (list Z) :=
  msg ← store msg 0 (le_bytes 4 session_id);
  d ← load seq_hdr 0 n;
  msg ← store msg spdm_secured_message_a_data_header1_t d;
  store msg (spdm_secured_message_a_data_header1_t + n) (le_bytes 2 length_).

Definition encode_enc_mac ctx (cb : libspdm_secured_message_callbacks_t)
    (session_id : Z) (key iv seq_hdr : list Z) (n : Z)
    (app : list Z) (app_off app_size : Z) (msg : list Z) (msg_size : Z) (rng : rng_state) :
    exec encoded :=
  let record_header_size :=
    spdm_secured_message_a_data_header1_t + n + spdm_secured_message_a_data_header2_t in
  let max_rand_count := get_max_random_number_count cb in
  let '(result, rand_count, rng) :=
    if negb (max_rand_count =? 0) then
      let '(ok, b, rng) := libspdm_get_random_number 4 rng in
      (ok, u8 (u32 (le_val b mod max_rand_count + 1)), rng)
    else (true, 0, rng) in
  RETURN Encoded LIBSPDM_STATUS_LOW_ENTROPY ctx msg msg_size app rng IF negb result;;
  let cipher_text_size :=
    size_t (spdm_secured_message_cipher_header_t + app_size + rand_count) in
  let total_secured_message_size :=
    size_t (record_header_size + cipher_text_size + aead_tag_size ctx) in
  LIBSPDM_ASSERT (total_secured_message_size <=? msg_size);;
  RETURN Encoded LIBSPDM_STATUS_BUFFER_TOO_SMALL ctx msg total_secured_message_size app rng
    IF msg_size <? total_secured_message_size;;
  let msg_size := total_secured_message_size in
  msg ← write_record_header msg session_id seq_hdr n
          (u16 (cipher_text_size + aead_tag_size ctx));
  let enc_msg_header := app_off - spdm_secured_message_cipher_header_t in
  app ← store app enc_msg_header (le_bytes 2 (u16 app_size));
  let '(result, padding, rng) := libspdm_get_random_number rand_count rng in
  app ← store app (app_off + app_size) padding;
  RETURN Encoded LIBSPDM_STATUS_LOW_ENTROPY ctx msg msg_size app rng IF negb result;;
  a_data ← load msg 0 record_header_size;
  dec_msg ← load app enc_msg_header cipher_text_size;
  '(result, enc_msg, tag) ←
    libspdm_aead_encryption (aead_cipher_suite ctx) key iv a_data dec_msg (aead_tag_size ctx);
  msg ← store msg record_header_size enc_msg;
  msg ← store msg (record_header_size + cipher_text_size) tag;
  RETURN Encoded LIBSPDM_STATUS_CRYPTO_ERROR ctx msg msg_size app rng IF negb result;;
  Ret (Encoded LIBSPDM_STATUS_SUCCESS ctx msg msg_size app rng).

Definition encode_mac_only ctx
    (session_id : Z) (key iv seq_hdr : list Z) (n : Z)
    (app : list Z) (app_off app_size : Z) (msg : list Z) (msg_size : Z) (rng : rng_state) :
    exec encoded :=
  let record_header_size :=
    spdm_secured_message_a_data_header1_t + n + spdm_secured_message_a_data_header2_t in
  let total_secured_message_size :=
    size_t (record_header_size + app_size + aead_tag_size ctx) in
  LIBSPDM_ASSERT (total_secured_message_size <=? msg_size);;
  RETURN Encoded LIBSPDM_STATUS_BUFFER_TOO_SMALL ctx msg total_secured_message_size app rng
    IF msg_size <? total_secured_message_size;;
  let msg_size := total_secured_message_size in
  msg ← write_record_header msg session_id seq_hdr n (u16 (app_size + aead_tag_size ctx));
  d ← load app app_off app_size;
  msg ← store msg record_header_size d;
  a_data ← load msg 0 (record_header_size + app_size);
  '(result, _, tag) ←
    libspdm_aead_encryption (aead_cipher_suite ctx) key iv a_data [] (aead_tag_size ctx);
  msg ← store msg (record_header_size + app_size) tag;
  RETURN Encoded LIBSPDM_STATUS_CRYPTO_ERROR ctx msg msg_size app rng IF negb result;;
  Ret (Encoded LIBSPDM_STATUS_SUCCESS ctx msg msg_size app rng).

Definition libspdm_encode_secured_message ctx (session_id : Z) (is_request_message : bool)
    (app_message_size : Z) (app : list Z) (app_off : Z)
    (secured_message_size : Z) (secured_message : list Z)
    (cb : libspdm_secured_message_callbacks_t) (rng : rng_state) : exec encoded :=
  let fail st := Encoded st ctx secured_message secured_message_size app rng in
  RETURN fail LIBSPDM_STATUS_UNSUPPORTED_CAP IF negb (major_version_ok ctx cb);;
  LIBSPDM_ASSERT (session_type_ok ctx);;
  LIBSPDM_ASSERT (session_state_ok ctx);;
  match select_keys ctx is_request_message with
  | None => LIBSPDM_ASSERT false;; Ret (fail LIBSPDM_STATUS_INVALID_STATE_LOCAL)
  | Some (key, salt, sequence_number) =>
      RETURN fail LIBSPDM_STATUS_SEQUENCE_NUMBER_OVERFLOW
        IF (max_spdm_session_sequence_number ctx <? sequence_number)
           || (sequence_number =? LIBSPDM_MAX_SPDM_SESSION_SEQUENCE_NUMBER);;
      iv ← generate_iv sequence_number salt (aead_iv_size ctx) (sequence_number_endian ctx);
      let seq := get_sequence_number cb sequence_number in
      seq_hdr ← store (zeros 8) 0 seq;
      let n := blen seq in
      LIBSPDM_ASSERT (n <=? 8);;
      let ctx := increment_sequence_number ctx is_request_message in
      key ← load key 0 (aead_key_size ctx);
      iv ← load iv 0 (aead_iv_size ctx);
      match session_type ctx with
      | LIBSPDM_SESSION_TYPE_ENC_MAC =>
          encode_enc_mac ctx cb session_id key iv seq_hdr n app app_off app_message_size
            secured_message secured_message_size rng
      | LIBSPDM_SESSION_TYPE_MAC_ONLY =>
          encode_mac_only ctx session_id key iv seq_hdr n app app_off app_message_size
            secured_message secured_message_size rng
      | _ =>
          LIBSPDM_ASSERT false;;
          Ret (Encoded LIBSPDM_STATUS_UNSUPPORTED_CAP ctx secured_message secured_message_size
                 app rng)
      end
  end.

(** ** Decoding *)

(** Where *app_message points on return: into the caller's buffer or into the
    secured message. *)
Inductive msg_ptr : Set :=
| InApp (off : Z)
| InSecured (off : Z).

Record decoded : Type := Decoded {
  d_status : libspdm_return_t;
  d_ctx : libspdm_secured_message_context_t;
  d_app : list Z;        (* the caller's application buffer *)
  d_size : Z;            (* *app_message_size *)
  d_ptr : msg_ptr;       (* *app_message *)
}.

(** The checks on the record headers both session types make: an error status,
    or the length field. *)
Definition read_record_header (msg : list Z) (msg_size session_id : Z) (seq_hdr : list Z)
    (n tag_size : Z) : exec (libspdm_return_t + Z) :=
  let record_header_size :=
    spdm_secured_message_a_data_header1_t + n + spdm_secured_message_a_data_header2_t in
  RETURN inl LIBSPDM_STATUS_INVALID_MSG_SIZE IF msg_size <? record_header_size + tag_size;;
  sid ← load_le 4 msg 0;
  RETURN inl LIBSPDM_STATUS_INVALID_MSG_FIELD IF negb (sid =? session_id);;
  s ← load msg spdm_secured_message_a_data_header1_t n;
  d ← load seq_hdr 0 n;
  RETURN inl LIBSPDM_STATUS_INVALID_MSG_FIELD IF negb (bool_decide (s = d));;
  length_ ← load_le 2 msg (spdm_secured_message_a_data_header1_t + n);
  RETURN inl LIBSPDM_STATUS_INVALID_MSG_SIZE IF size_t (msg_size - record_header_size) <? length_;;
  RETURN inl LIBSPDM_STATUS_INVALID_MSG_SIZE IF length_ <? tag_size;;
  Ret (inr length_).

(** The decryption both session types do, with a second attempt in the other
    endianness while it is undetermined and the sequence number is one. *)
Definition decrypt_detecting_endian ctx (sequence_number : Z) (salt iv key a_data enc_msg tag : list Z)
    : exec (bool * list Z * libspdm_secured_message_context_t) :=
  '(result, dec_msg) ←
    libspdm_aead_decryption (aead_cipher_suite ctx) key iv a_data enc_msg tag;
  if negb (is_sequence_number_endian_determined (sequence_number_endian ctx))
     && (sequence_number =? 1) then
    if (result : bool) then
      Ret (result, dec_msg,
        ctx <| sequence_number_endian :=
          if sequence_number_endian ctx =? LIBSPDM_DATA_SESSION_SEQ_NUM_ENC_LITTLE_DEC_BOTH
          then LIBSPDM_DATA_SESSION_SEQ_NUM_ENC_LITTLE_DEC_LITTLE
          else LIBSPDM_DATA_SESSION_SEQ_NUM_ENC_BIG_DEC_BIG |>)
    else
      swapped ← swap_endian (sequence_number_endian ctx);
      iv ← generate_iv sequence_number salt (aead_iv_size ctx) swapped;
      iv ← load iv 0 (aead_iv_size ctx);
      '(result, dec_msg) ←
        libspdm_aead_decryption (aead_cipher_suite ctx) key iv a_data enc_msg tag;
      if (result : bool) then
        swapped ← swap_endian (sequence_number_endian ctx);
        Ret (result, dec_msg, ctx <| sequence_number_endian := swapped |>)
      else Ret (result, dec_msg, ctx)
  else Ret (result, dec_msg, ctx).

Definition backup_valid ctx (is_request_message : bool) : bool :=
  (is_request_message && requester_backup_valid ctx)
  || (negb is_request_message && responder_backup_valid ctx).

(** A return that leaves the caller's size and pointer alone, without and with
    the error structure recorded. *)
Definition ret_decode (app_message_size : Z) (st : libspdm_return_t) ctx (app : list Z) : decoded :=
  Decoded st ctx app app_message_size (InApp 0).

Definition ret_decode_error (app_message_size session_id : Z) (st : libspdm_return_t) ctx
    (app : list Z) : decoded :=
  let spdm_error := Build_error_struct SPDM_ERROR_CODE_DECRYPT_ERROR session_id in
  ret_decode app_message_size st
    (libspdm_secured_message_set_last_spdm_error_struct ctx spdm_error) app.

Definition decode_enc_mac ctx (session_id : Z) (is_request_message : bool) (sequence_number : Z)
    (salt key iv seq_hdr : list Z) (n secured_message_size : Z) (secured_message : list Z)
    (app_message_size : Z) (app : list Z) : exec decoded :=
  let ret := ret_decode app_message_size in
  let ret_error := ret_decode_error app_message_size session_id in
  let record_header_size :=
    spdm_secured_message_a_data_header1_t + n + spdm_secured_message_a_data_header2_t in
  let tag_size := aead_tag_size ctx in
  r ← read_record_header secured_message secured_message_size session_id seq_hdr n tag_size;
  match r with
  | inl st => Ret (ret_error st ctx app)
  | inr length_ =>
      let cipher_text_size := length_ - tag_size in
      RETURN ret LIBSPDM_STATUS_BUFFER_TOO_SMALL ctx app
        IF app_message_size <? cipher_text_size;;
      app ← store app 0 (zeros app_message_size);
      a_data ← load secured_message 0 record_header_size;
      enc_msg ← load secured_message record_header_size cipher_text_size;
      tag ← load secured_message (record_header_size + cipher_text_size) tag_size;
      '(result, dec_msg, ctx) ←
        decrypt_detecting_endian ctx sequence_number salt iv key a_data enc_msg tag;
      app ← store app 0 dec_msg;
      if negb result then
        RETURN ret LIBSPDM_STATUS_SESSION_TRY_DISCARD_KEY_UPDATE ctx app
          IF backup_valid ctx is_request_message;;
        Ret (ret_error LIBSPDM_STATUS_CRYPTO_ERROR ctx app)
      else
        plain_text_size ← load_le 2 app 0;
        RETURN ret_error LIBSPDM_STATUS_INVALID_MSG_SIZE ctx app
          IF cipher_text_size <? plain_text_size + spdm_secured_message_cipher_header_t;;
        LIBSPDM_ASSERT (plain_text_size <=? app_message_size);;
        Ret (Decoded LIBSPDM_STATUS_SUCCESS ctx app plain_text_size
               (InApp spdm_secured_message_cipher_header_t))
  end.

Definition decode_mac_only ctx (session_id : Z) (is_request_message : bool) (sequence_number : Z)
    (salt key iv seq_hdr : list Z) (n secured_message_size : Z) (secured_message : list Z)
    (app_message_size : Z) (app : list Z) : exec decoded :=
  let ret := ret_decode app_message_size in
  let ret_error := ret_decode_error app_message_size session_id in
  let record_header_size :=
    spdm_secured_message_a_data_header1_t + n + spdm_secured_message_a_data_header2_t in
  let tag_size := aead_tag_size ctx in
  r ← read_record_header secured_message secured_message_size session_id seq_hdr n tag_size;
  match r with
  | inl st => Ret (ret_error st ctx app)
  | inr length_ =>
      let plain_text_size := length_ - tag_size in
      a_data ← load secured_message 0 (record_header_size + plain_text_size);
      tag ← load secured_message (record_header_size + plain_text_size) tag_size;
      '(result, _, ctx) ←
        decrypt_detecting_endian ctx sequence_number salt iv key a_data [] tag;
      if negb result then
        RETURN ret LIBSPDM_STATUS_SESSION_TRY_DISCARD_KEY_UPDATE ctx app
          IF backup_valid ctx is_request_message;;
        Ret (ret_error LIBSPDM_STATUS_CRYPTO_ERROR ctx app)
      else
        LIBSPDM_ASSERT (plain_text_size <=? app_message_size);;
        Ret (Decoded LIBSPDM_STATUS_SUCCESS ctx app plain_text_size
               (InSecured record_header_size))
  end.

Definition libspdm_decode_secured_message ctx (session_id : Z) (is_request_message : bool)
    (secured_message_size : Z) (secured_message : list Z)
    (app_message_size : Z) (app : list Z)
    (cb : libspdm_secured_message_callbacks_t) : exec decoded :=
  let ctx := libspdm_secured_message_set_last_spdm_error_struct ctx (Build_error_struct 0 0) in
  let ret := ret_decode app_message_size in
  let ret_error := ret_decode_error app_message_size session_id in
  RETURN ret LIBSPDM_STATUS_UNSUPPORTED_CAP ctx app IF negb (major_version_ok ctx cb);;
  LIBSPDM_ASSERT (session_type_ok ctx);;
  LIBSPDM_ASSERT (session_state_ok ctx);;
  match select_keys ctx is_request_message with
  | None => LIBSPDM_ASSERT false;; Ret (ret LIBSPDM_STATUS_INVALID_STATE_LOCAL ctx app)
  | Some (key, salt, sequence_number) =>
      RETURN ret_error LIBSPDM_STATUS_SEQUENCE_NUMBER_OVERFLOW ctx app
        IF (max_spdm_session_sequence_number ctx <? sequence_number)
           || (sequence_number =? LIBSPDM_MAX_SPDM_SESSION_SEQUENCE_NUMBER);;
      iv ← generate_iv sequence_number salt (aead_iv_size ctx) (sequence_number_endian ctx);
      let seq := get_sequence_number cb sequence_number in
      seq_hdr ← store (zeros 8) 0 seq;
      let n := blen seq in
      LIBSPDM_ASSERT (n <=? 8);;
      let ctx := increment_sequence_number ctx is_request_message in
      key ← load key 0 (aead_key_size ctx);
      iv ← load iv 0 (aead_iv_size ctx);
      match session_type ctx with
      | LIBSPDM_SESSION_TYPE_ENC_MAC =>
          decode_enc_mac ctx session_id is_request_message sequence_number salt key iv seq_hdr n
            secured_message_size secured_message app_message_size app
      | LIBSPDM_SESSION_TYPE_MAC_ONLY =>
          decode_mac_only ctx session_id is_request_message sequence_number salt key iv seq_hdr n
            secured_message_size secured_message app_message_size app
      | _ =>
          LIBSPDM_ASSERT false;; Ret (ret LIBSPDM_STATUS_UNSUPPORTED_CAP ctx app)
      end
  end.

End message.
End Message.
Export Message.

(** ** The nonce *)
Module NonceFacts.
Import ContextFacts.
Section facts.
Context `{BuildConfig, CryptoHal}.

Definition little (endian : Z) : bool := endian <? 2.
Definition endian_ok (endian : Z) : Prop := 0 ≤ endian < 4.

(** The nonce of DSP0277: the salt XORed with the sequence number, extended
    with zeros at the high (little endian) or low (big endian) indices. *)
Definition nonce (seq : Z) (salt : list Z) (endian : Z) : list Z :=
  zip_with Z.lxor salt
    (if little endian then le_bytes 8 seq ++ zeros 4 else zeros 4 ++ rev (le_bytes 8 seq)).

Lemma bytes_ok_rev l : bytes_ok l → bytes_ok (rev l).
Proof. apply Forall_rev. Qed.

Lemma byte_swap_bytes x : le_bytes 8 (libspdm_byte_swap_64 x) = rev (le_bytes 8 x).
Proof.
  unfold libspdm_byte_swap_64.
  rewrite <- (le_bytes_val (rev (le_bytes 8 x))) at 2 by (apply bytes_ok_rev, le_bytes_ok).
  by rewrite length_rev, length_le_bytes.
Qed.

Lemma lxor_zeros l n : length l = n → zip_with Z.lxor l (replicate n 0) = l.
Proof.
  revert n. induction l as [|b l IH]; intros [|n] Hn; simplify_eq/=; [done|].
  by rewrite Z.lxor_0_r, IH.
Qed.

(** A list of twelve bytes, exploded. *)
Lemma twelve (l : list Z) : blen l = 12 →
  ∃ a b c d e f g h i j k m, l = [a; b; c; d; e; f; g; h; i; j; k; m].
Proof.
  intros Hl. assert (Hn : length l = 12%nat) by lia. clear Hl.
  do 12 (destruct l as [|? l]; [discriminate|]). destruct l; [|discriminate]. by do 12 eexists.
Qed.

Lemma generate_iv_spec seq salt e :
  blen salt = 12 → endian_ok e → generate_iv seq salt 12 e = Ret (nonce seq salt e).
Proof.
  intros Hs He. destruct (twelve salt Hs) as (a & b & c & d & e' & f & g & h & i & j & k & m & ->).
  unfold endian_ok in He. unfold generate_iv, nonce, little.
  assert (Hc : e = 0 ∨ e = 1 ∨ e = 2 ∨ e = 3) by lia.
  assert (Hb : ∃ x1 x2 x3 x4 x5 x6 x7 x8, le_bytes 8 seq = [x1; x2; x3; x4; x5; x6; x7; x8])
    by (by do 8 eexists).
  destruct Hb as (x1 & x2 & x3 & x4 & x5 & x6 & x7 & x8 & Hb).
  destruct Hc as [-> | [-> | [-> | ->]]]; cbn -[le_bytes libspdm_byte_swap_64 Z.lxor];
    rewrite ?byte_swap_bytes, Hb; cbv -[Z.lxor]; by rewrite ?Z.lxor_0_r.
Qed.

Lemma length_nonce seq salt e : blen salt = 12 → blen (nonce seq salt e) = 12.
Proof.
  intros Hs. unfold nonce. rewrite length_zip_with_l_eq; [done|].
  case_if; rewrite length_app, ?length_rev, length_le_bytes, length_zeros; lia.
Qed.

Lemma zip_lxor_inj (s a b : list Z) :
  length a = length s → length b = length s →
  zip_with Z.lxor s a = zip_with Z.lxor s b → a = b.
Proof.
  revert a b. induction s as [|x s IH]; intros [|y a] [|z b] Ha Hb Heq; try done.
  injection Heq as Hx Ht. f_equal; [|apply IH; [by injection Ha|by injection Hb|done]].
  apply (f_equal (Z.lxor x)) in Hx.
  by rewrite <- !Z.lxor_assoc, !Z.lxor_nilpotent, !Z.lxor_0_l in Hx.
Qed.

(** Different sequence numbers give different nonces under one salt. *)
Lemma nonce_inj s1 s2 salt e :
  blen salt = 12 → is_u64 s1 → is_u64 s2 → nonce s1 salt e = nonce s2 salt e → s1 = s2.
Proof.
  intros Hs H1 H2 Heq. unfold nonce in Heq. apply zip_lxor_inj in Heq.
  - assert (Hb : le_bytes 8 s1 = le_bytes 8 s2).
    { destruct (little e).
      - by apply app_inj_1 in Heq as [? _].
      - apply app_inj_1 in Heq as [_ Hr]; [|done].
        apply (f_equal (@rev Z)) in Hr. by rewrite !rev_involutive in Hr. }
    apply (le_bytes_inj 8); done.
  - case_if; rewrite length_app, ?length_rev, length_le_bytes, length_zeros; lia.
  - case_if; rewrite length_app, ?length_rev, length_le_bytes, length_zeros; lia.
Qed.

End facts.
End NonceFacts.

(** ** Packets *)
Module PacketFacts.
Import ContextFacts NonceFacts.

Definition aead_of_suite (suite : Z) : option aead_alg :=
  if suite =? SPDM_ALGORITHMS_AEAD_CIPHER_SUITE_AES_128_GCM then Some AES_GCM
  else if suite =? SPDM_ALGORITHMS_AEAD_CIPHER_SUITE_AES_256_GCM then Some AES_GCM
  else if suite =? SPDM_ALGORITHMS_AEAD_CIPHER_SUITE_CHACHA20_POLY1305 then Some CHACHA20_POLY1305
  else if suite =? SPDM_ALGORITHMS_AEAD_CIPHER_SUITE_AEAD_SM4_GCM then Some SM4_GCM
  else None.

Section facts.
Context `{BuildConfig, CryptoHal, !CryptoHalOk}.
Implicit Types ctx : libspdm_secured_message_context_t.

Lemma suite_cases s alg :
  aead_of_suite s = Some alg →
  (∀ k i a p t, libspdm_aead_encryption s k i a p t = Ret (hal_aead_encrypt alg k i a p t)) ∧
  (∀ k i a c t, libspdm_aead_decryption s k i a c t = Ret (hal_aead_decrypt alg k i a c t)) ∧
  libspdm_get_aead_iv_size s = 12 ∧ libspdm_get_aead_tag_size s = 16.
Proof.
  unfold aead_of_suite, libspdm_aead_encryption, libspdm_aead_decryption. intros Hs.
  repeat case_if; simplify_eq; split_and!; intros; try reflexivity;
    match goal with E : (s =? _) = true |- _ => apply Z.eqb_eq in E; subst s end; reflexivity.
Qed.

(** A context that can carry traffic: well-formed, with an AEAD suite and its
    sizes, a session type and a session state. *)
Record ready ctx (alg : aead_alg) : Prop := Ready {
  r_wf : ctx_wf ctx;
  r_suite : aead_of_suite (aead_cipher_suite ctx) = Some alg;
  r_iv : aead_iv_size ctx = 12;
  r_tag : aead_tag_size ctx = 16;
  r_endian : endian_ok (sequence_number_endian ctx);
  r_type : session_type_ok ctx = true;
  r_state : session_state_ok ctx = true;
}.

Lemma ready_keys ctx alg rq :
  ready ctx alg → ∃ key salt seq, select_keys ctx rq = Some (key, salt, seq) ∧
    arr 32 key ∧ arr 12 salt ∧ is_u64 seq.
Proof.
  intros [(Hsz & _ & Hh & Ha & _) _ _ _ _ _ Hst].
  destruct Hh as (R1 & R2 & F1 & F2 & K1 & I1 & N1 & K2 & I2 & N2).
  destruct Ha as (DR1 & DR2 & DK1 & DI1 & DN1 & DK2 & DI2 & DN2).
  unfold session_state_ok in Hst. unfold select_keys.
  destruct (session_state ctx); try discriminate; destruct rq; do 3 eexists;
    (split; [reflexivity|]); (split; [eassumption|]); (split; [eassumption|]); eassumption.
Qed.

Definition header (sid : Z) (seq : list Z) (len : Z) : list Z :=
  le_bytes 4 sid ++ seq ++ le_bytes 2 len.

Lemma length_header sid seq len : blen (header sid seq len) = 6 + blen seq.
Proof. unfold header. len_simpl. lia. Qed.

Lemma seq_hdr_spec seq : blen seq ≤ 8 →
  ∃ h, store (zeros 8) 0 seq = Ret h ∧ load h 0 (blen seq) = Ret seq.
Proof.
  intros Hl. assert (Hr : in_range (zeros 8) 0 (blen seq) = true)
    by (rewrite in_range_iff, length_zeros; lia).
  exists (upd (zeros 8) 0 seq). split; [by apply store_in|].
  rewrite load_in; [by rewrite sub_upd_same|].
  rewrite in_range_iff, length_upd by done. by rewrite <- in_range_iff.
Qed.

Lemma write_record_header_spec msg sid h seq len :
  load h 0 (blen seq) = Ret seq → 6 + blen seq ≤ blen msg →
  ∃ m, write_record_header msg sid h (blen seq) len = Ret m ∧ length m = length msg ∧
    sub m 0 (6 + blen seq) = header sid seq len.
Proof.
  intros Hh Hl. unfold write_record_header, spdm_secured_message_a_data_header1_t. rewrite Hh.
  destruct (store_prefix msg 0 [] (le_bytes 4 sid)) as (m1 & E1 & L1 & S1);
    [done|done|len_simpl; lia|]. rewrite E1. cbn [mbind exec_bind].
  change (0 + blen (le_bytes 4 sid)) with 4 in *.
  destruct (store_prefix m1 4 _ seq S1) as (m2 & E2 & L2 & S2);
    [len_simpl; lia|lia|]. rewrite E2. cbn [mbind exec_bind].
  destruct (store_prefix m2 (4 + blen seq) _ (le_bytes 2 len) S2) as (m3 & E3 & L3 & S3);
    [len_simpl; lia|len_simpl; lia|]. rewrite E3.
  exists m3. split; [done|]. split; [congruence|].
  unfold header. replace (6 + blen seq) with (4 + blen seq + blen (le_bytes 2 len))
    by (len_simpl; lia). rewrite S3. cbn [app]. by rewrite <- app_assoc.
Qed.

Definition max_padding (cb : libspdm_secured_message_callbacks_t) : Z :=
  Z.min 255 (get_max_random_number_count cb).

Lemma rand_count_bound v max : 0 ≤ v → 0 < max < 2 ^ 32 →
  0 ≤ u8 (u32 (v mod max + 1)) ≤ Z.min 255 max.
Proof.
  intros Hv Hm. pose proof (Z.mod_pos_bound v max). unfold u32.
  rewrite Z.mod_small by lia. pose proof (u8_range (v mod max + 1)) as Hu. unfold is_u8 in Hu.
  assert (u8 (v mod max + 1) ≤ v mod max + 1) by (apply Z.mod_le; lia). lia.
Qed.

Lemma get_random_spec n s : 0 ≤ n →
  ∃ ok b s', libspdm_get_random_number n s = (ok, b, s') ∧ blen b = n ∧ bytes_ok b.
Proof.
  intros Hn. unfold libspdm_get_random_number. destruct (n =? 0) eqn:E.
  - exists true, [], s. split; [done|]. split; [cbn; lia|constructor].
  - pose proof (random_ok n s Hn) as [Hl Hb]. destruct (libspdm_random_bytes n s) as [[ok b] s'].
    by exists ok, b, s'.
Qed.

(** The plaintext the encoder builds around the application message. *)
Lemma plaintext_spec app off size pad :
  2 ≤ off → 0 ≤ size → off + size + blen pad ≤ blen app →
  ∃ a1 a2, store app (off - 2) (le_bytes 2 (u16 size)) = Ret a1 ∧
    store a1 (off + size) pad = Ret a2 ∧ length a2 = length app ∧
    load a2 (off - 2) (2 + size + blen pad) =
      Ret (le_bytes 2 (u16 size) ++ sub app off size ++ pad).
Proof.
  intros Ho Hs Hl. set (h := le_bytes 2 (u16 size)).
  assert (Hh : blen h = 2) by reflexivity.
  assert (R1 : in_range app (off - 2) (blen h) = true) by (rewrite in_range_iff; lia).
  assert (L1 : length (upd app (off - 2) h) = length app) by (by apply length_upd).
  assert (R2 : in_range (upd app (off - 2) h) (off + size) (blen pad) = true)
    by (rewrite in_range_iff, L1; lia).
  exists (upd app (off - 2) h), (upd (upd app (off - 2) h) (off + size) pad).
  assert (L2 : length (upd (upd app (off - 2) h) (off + size) pad) = length app)
    by (rewrite length_upd; done).
  split; [by apply store_in|]. split; [by apply store_in|]. split; [done|].
  rewrite load_in by (rewrite in_range_iff, L2; lia). f_equal.
  replace (2 + size + blen pad) with (2 + (size + blen pad)) by lia.
  rewrite !sub_app by (rewrite ?L2; lia).
  replace (off - 2 + 2) with off by lia.
  rewrite sub_upd_same by done.
  rewrite !(sub_upd_disjoint _ (off + size)) by (done || lia).
  rewrite (sub_upd_disjoint app (off - 2) h off) by (done || lia).
  f_equal. change 2 with (blen h). by rewrite sub_upd_same.
Qed.

(** A packet: the headers, the ciphertext, the tag, at the start of a buffer. *)
Definition packet_at (msg : list Z) (size : Z) (hd c tag : list Z) : Prop :=
  size = blen hd + blen c + blen tag ∧ size ≤ blen msg ∧ sub msg 0 size = hd ++ c ++ tag.

(** The payload that is encrypted, and the additional data. *)
Definition enc_plaintext (m pad : list Z) : list Z := le_bytes 2 (u16 (blen m)) ++ m ++ pad.

(** Why an encoding may fail: the random source, or the AEAD. *)
Definition rng_failed : Prop := ∃ n s, (libspdm_get_random_number n s).1.1 = false.
Definition seal_failed : Prop := ∃ a k v d p t, (hal_aead_encrypt a k v d p t).1.1 = false.

Lemma seal_failed_intro a k v d p t c tag :
  hal_aead_encrypt a k v d p t = (false, c, tag) → seal_failed.
Proof. intros E. exists a, k, v, d, p, t. by rewrite E. Qed.

Lemma rng_failed_intro n s b s' : libspdm_get_random_number n s = (false, b, s') → rng_failed.
Proof. intros E. exists n, s. by rewrite E. Qed.

(** The two statuses an encoding can fail with, and their causes. *)
Definition no_seal (st : libspdm_return_t) : Prop :=
  st = LIBSPDM_STATUS_LOW_ENTROPY ∧ rng_failed ∨ st = LIBSPDM_STATUS_CRYPTO_ERROR ∧ seal_failed.

Lemma no_seal_error st : no_seal st → LIBSPDM_STATUS_IS_ERROR st = true.
Proof. by intros [[-> _]|[-> _]]. Qed.


Lemma encode_enc_mac_spec ctx cb sid key iv h seq app off size msg msize rng alg :
  aead_of_suite (aead_cipher_suite ctx) = Some alg → aead_tag_size ctx = 16 →
  load h 0 (blen seq) = Ret seq → blen seq ≤ 8 →
  0 ≤ get_max_random_number_count cb < 2 ^ 32 →
  2 ≤ off → 0 ≤ size → off + size + max_padding cb ≤ blen app →
  24 + blen seq + size + max_padding cb ≤ msize → msize ≤ blen msg →
  18 + size + max_padding cb < 2 ^ 16 →
  ∃ e, encode_enc_mac ctx cb sid key iv h (blen seq) app off size msg msize rng = Ret e ∧
    e_ctx e = ctx ∧ length (e_msg e) = length msg ∧
    (no_seal (e_status e) ∨
     e_status e = LIBSPDM_STATUS_SUCCESS ∧ ∃ pad c tag,
       blen pad ≤ max_padding cb ∧ bytes_ok pad ∧
       let hd := header sid seq (18 + size + blen pad) in
       hal_aead_encrypt alg key iv hd (enc_plaintext (sub app off size) pad) 16 =
         (true, c, tag) ∧
       blen c = 2 + size + blen pad ∧ blen tag = 16 ∧ packet_at (e_msg e) (e_size e) hd c tag).
Proof.
  intros Hs Ht Hh Hn Hcb Ho Hsz Happ Hms Hmsg H16.
  destruct (suite_cases _ _ Hs) as (He & _ & _ & _).
  assert (Hmp : 0 ≤ max_padding cb ≤ 255) by (unfold max_padding; lia).
  unfold encode_enc_mac, spdm_secured_message_a_data_header1_t,
    spdm_secured_message_a_data_header2_t, spdm_secured_message_cipher_header_t.
  rewrite Ht. cbv zeta.
  set (rnd := if negb (get_max_random_number_count cb =? 0) then _ else _).
  assert (Hrnd : ∃ ok rc rng1, rnd = (ok, rc, rng1) ∧ 0 ≤ rc ≤ max_padding cb ∧
    (ok = false → rng_failed)).
  { subst rnd. destruct (Z.eqb_spec (get_max_random_number_count cb) 0) as [E|E]; cbn [negb].
    - exists true, 0, rng. split; [done|]. split; [lia|done].
    - destruct (get_random_spec 4 rng) as (ok & b & s' & Er & Hb & Hbo); [lia|]. rewrite Er.
      do 3 eexists. split; [reflexivity|]. split.
      + apply rand_count_bound; [|lia]. apply le_val_bound in Hbo. lia.
      + intros ->. by eapply rng_failed_intro. }
  destruct Hrnd as (ok & rc & rng1 & -> & Hrc & Hrf).
  destruct ok; cbn [negb].
  2: { eexists. split; [reflexivity|]. split; [done|]. split; [done|]. left. left. by auto. }
  rewrite !(size_t_small (2 + size + rc)) by lia.
  rewrite !size_t_small by lia.
  replace (_ <=? msize) with true by lia. rewrite assert_true. cbn [mbind exec_bind].
  replace (msize <? _) with false by lia.
  rewrite (u16_small (2 + size + rc + 16)) by (unfold is_u16; lia).
  destruct (write_record_header_spec msg sid h seq (2 + size + rc + 16) Hh)
    as (m1 & E1 & L1 & S1); [lia|]. rewrite E1. cbn [mbind exec_bind].
  destruct (get_random_spec rc rng1) as (ok & pad & rng2 & Er & Hpad & Hpadb); [lia|].
  destruct (plaintext_spec app off size pad Ho Hsz) as (a1 & a2 & F1 & F2 & F3 & F4); [lia|].
  rewrite F1. cbn [mbind exec_bind]. rewrite Er. rewrite F2. cbn [mbind exec_bind].
  destruct ok; cbn [negb].
  2: { eexists. split; [reflexivity|]. cbn. split; [done|]. split; [done|]. left. left.
       split; [done|]. by eapply rng_failed_intro. }
  replace (4 + blen seq + 2) with (6 + blen seq) by lia.
  rewrite (load_in m1 0 (6 + blen seq)) by (rewrite in_range_iff; lia).
  rewrite S1. cbn [mbind exec_bind].
  rewrite Hpad in F4. rewrite F4. cbn [mbind exec_bind]. rewrite He. cbn [mbind exec_bind].
  assert (Hsub : blen (sub app off size) = size) by (rewrite length_sub by range; lia).
  assert (Hpl : le_bytes 2 (u16 size) ++ sub app off size ++ pad =
    enc_plaintext (sub app off size) pad) by (unfold enc_plaintext; by rewrite Hsub).
  rewrite Hpl. replace (2 + size + rc + 16) with (18 + size + rc) in * by lia.
  set (hd := header sid seq (18 + size + rc)) in *.
  assert (Hpll : blen (enc_plaintext (sub app off size) pad) = 2 + size + rc)
    by (unfold enc_plaintext; len_simpl; lia).
  pose proof (encrypt_out alg key iv hd (enc_plaintext (sub app off size) pad) 16) as [Hc Htag];
    [lia|].
  destruct (hal_aead_encrypt alg key iv hd (enc_plaintext _ _) 16) as [[ok c] tag] eqn:Eh.
  cbn [fst snd] in Hc, Htag. assert (Hcl : blen c = 2 + size + rc) by lia.
  assert (Hhd : blen hd = 6 + blen seq) by apply length_header.
  destruct (store_prefix m1 (6 + blen seq) hd c S1) as (m2 & E2 & L2 & S2); [lia|lia|].
  rewrite E2. cbn [mbind exec_bind]. rewrite <- Hcl.
  destruct (store_prefix m2 (6 + blen seq + blen c) _ tag S2) as (m3 & E3 & L3 & S3);
    [len_simpl; lia|lia|].
  rewrite E3. cbn [mbind exec_bind]. destruct ok; cbn [negb].
  2: { eexists. split; [reflexivity|]. cbn. split; [done|]. split; [congruence|]. left. right.
       split; [done|]. by eapply seal_failed_intro. }
  eexists. split; [reflexivity|]. cbn [e_ctx e_msg e_status e_size].
  split; [done|]. split; [congruence|]. right. split; [done|].
  exists pad, c, tag. split; [lia|]. split; [done|]. cbv zeta. rewrite Hpad. fold hd. rewrite Eh.
  split; [done|]. split; [lia|]. split; [done|].
  split; [lia|]. split; [lia|]. rewrite <- app_assoc in S3. rewrite <- S3. f_equal. lia.
Qed.

Lemma encode_mac_only_spec ctx sid key iv h seq app off size msg msize rng alg :
  aead_of_suite (aead_cipher_suite ctx) = Some alg → aead_tag_size ctx = 16 →
  load h 0 (blen seq) = Ret seq → blen seq ≤ 8 →
  0 ≤ off → 0 ≤ size → off + size ≤ blen app →
  22 + blen seq + size ≤ msize → msize ≤ blen msg → 16 + size < 2 ^ 16 →
  ∃ e, encode_mac_only ctx sid key iv h (blen seq) app off size msg msize rng = Ret e ∧
    e_ctx e = ctx ∧ length (e_msg e) = length msg ∧
    (no_seal (e_status e) ∨
     e_status e = LIBSPDM_STATUS_SUCCESS ∧ ∃ c tag,
       let hd := header sid seq (16 + size) in
       let m := sub app off size in
       hal_aead_encrypt alg key iv (hd ++ m) [] 16 = (true, c, tag) ∧
       blen tag = 16 ∧ packet_at (e_msg e) (e_size e) hd m tag).
Proof.
  intros Hs Ht Hh Hn Ho Hsz Happ Hms Hmsg H16.
  destruct (suite_cases _ _ Hs) as (He & _ & _ & _).
  unfold encode_mac_only, spdm_secured_message_a_data_header1_t,
    spdm_secured_message_a_data_header2_t.
  rewrite Ht. cbv zeta. rewrite !size_t_small by lia.
  replace (_ <=? msize) with true by lia. rewrite assert_true. cbn [mbind exec_bind].
  replace (msize <? _) with false by lia.
  rewrite (u16_small (size + 16)) by (unfold is_u16; lia).
  destruct (write_record_header_spec msg sid h seq (size + 16) Hh)
    as (m1 & E1 & L1 & S1); [lia|]. rewrite E1. cbn [mbind exec_bind].
  rewrite (load_in app) by range. cbn [mbind exec_bind].
  assert (Hsub : blen (sub app off size) = size) by (rewrite length_sub by range; lia).
  replace (size + 16) with (16 + size) in * by lia.
  set (hd := header sid seq (16 + size)) in *. set (m := sub app off size) in *.
  assert (Hhd : blen hd = 6 + blen seq) by apply length_header.
  replace (4 + blen seq + 2) with (6 + blen seq) by lia.
  destruct (store_prefix m1 (6 + blen seq) hd m S1) as (m2 & E2 & L2 & S2); [lia|lia|].
  rewrite E2. cbn [mbind exec_bind]. rewrite Hsub in S2.
  rewrite (load_in m2) by (rewrite in_range_iff; lia). rewrite S2. cbn [mbind exec_bind].
  rewrite He. cbn [mbind exec_bind].
  pose proof (encrypt_out alg key iv (hd ++ m) [] 16) as [Hc Htag]; [lia|].
  destruct (hal_aead_encrypt alg key iv (hd ++ m) [] 16) as [[ok c] tag] eqn:Eh.
  cbn [fst snd] in Hc, Htag.
  destruct (store_prefix m2 (6 + blen seq + size) _ tag S2) as (m3 & E3 & L3 & S3);
    [len_simpl; lia|lia|].
  rewrite E3. cbn [mbind exec_bind]. destruct ok; cbn [negb].
  2: { eexists. split; [reflexivity|]. cbn. split; [done|]. split; [congruence|]. left. right.
       split; [done|]. by eapply seal_failed_intro. }
  eexists. split; [reflexivity|]. cbn [e_ctx e_msg e_status e_size].
  split; [done|]. split; [congruence|]. right. split; [done|].
  exists c, tag. split; [done|]. split; [done|].
  split; [lia|]. split; [lia|]. rewrite <- app_assoc in S3. rewrite <- S3. f_equal. lia.
Qed.

(** What the wire carries when message [m] was sealed with a key, a nonce and
    the header's sequence number: authenticated only, or encrypted. *)
Definition sealed_mac (alg : aead_alg) (k iv seq : list Z) (sid : Z) (wire m : list Z) : Prop :=
  ∃ c tag, let hd := header sid seq (16 + blen m) in
    16 + blen m < 2 ^ 16 ∧ blen tag = 16 ∧
    hal_aead_encrypt alg k iv (hd ++ m) [] 16 = (true, c, tag) ∧ wire = hd ++ m ++ tag.

Definition sealed_enc (alg : aead_alg) (k iv seq : list Z) (sid : Z) (wire m : list Z) : Prop :=
  ∃ pad c tag, let hd := header sid seq (18 + blen m + blen pad) in
    18 + blen m + blen pad < 2 ^ 16 ∧ blen tag = 16 ∧
    hal_aead_encrypt alg k iv hd (enc_plaintext m pad) 16 = (true, c, tag) ∧
    wire = hd ++ c ++ tag ∧ bytes_ok pad.

(** A wire message at the start of the received bytes. *)
Definition received (msg : list Z) (msize : Z) (wire : list Z) : Prop :=
  blen wire ≤ msize ∧ sub msg 0 (blen wire) = wire.

(** The same under a context's keys for a direction, in the endianness [e]. *)
Definition sealed ctx (alg : aead_alg) (cb : libspdm_secured_message_callbacks_t) (rq : bool)
    (sid e : Z) (wire m : list Z) : Prop :=
  ∃ key salt seqn, select_keys ctx rq = Some (key, salt, seqn) ∧
    let k := sub key 0 (aead_key_size ctx) in
    let seq := get_sequence_number cb seqn in
    match session_type ctx with
    | LIBSPDM_SESSION_TYPE_ENC_MAC => sealed_enc alg k (nonce seqn salt e) seq sid wire m
    | LIBSPDM_SESSION_TYPE_MAC_ONLY => sealed_mac alg k (nonce seqn salt e) seq sid wire m
    | _ => False
    end.

(** The sequence number is exhausted: the functions refuse to use it. *)
Definition exhausted ctx (seqn : Z) : bool :=
  (max_spdm_session_sequence_number ctx <? seqn)
  || (seqn =? LIBSPDM_MAX_SPDM_SESSION_SEQUENCE_NUMBER).

(** What the library asks of a transport's callbacks. *)
Definition cb_ok (cb : libspdm_secured_message_callbacks_t) : Prop :=
  (∀ s, blen (get_sequence_number cb s) ≤ 8 ∧ bytes_ok (get_sequence_number cb s)) ∧
  0 ≤ get_max_random_number_count cb < 2 ^ 32.

Lemma increment_keys ctx rq key salt seqn :
  select_keys ctx rq = Some (key, salt, seqn) →
  select_keys (increment_sequence_number ctx rq) rq = Some (key, salt, u64 (seqn + 1)) ∧
  select_keys (increment_sequence_number ctx rq) (negb rq) = select_keys ctx (negb rq).
Proof.
  unfold select_keys, increment_sequence_number. intros Hk.
  destruct (session_state ctx) eqn:Est; try discriminate; destruct rq; simplify_eq;
    cbn; rewrite ?Est; cbn; by split.
Qed.

Lemma increment_other ctx rq :
  let c := increment_sequence_number ctx rq in
  session_type c = session_type ctx ∧ session_state c = session_state ctx ∧
  aead_key_size c = aead_key_size ctx ∧ aead_iv_size c = aead_iv_size ctx ∧
  aead_tag_size c = aead_tag_size ctx ∧ aead_cipher_suite c = aead_cipher_suite ctx ∧
  sequence_number_endian c = sequence_number_endian ctx ∧
  secured_message_version c = secured_message_version ctx ∧
  max_spdm_session_sequence_number c = max_spdm_session_sequence_number ctx ∧
  requester_backup_valid c = requester_backup_valid ctx ∧
  responder_backup_valid c = responder_backup_valid ctx ∧
  last_spdm_error c = last_spdm_error ctx.
Proof.
  intros c. subst c. unfold increment_sequence_number.
  case_decide; destruct rq; repeat split.
Qed.

Lemma increment_wf ctx rq : ctx_wf ctx → ctx_wf (increment_sequence_number ctx rq).
Proof.
  intros (Hsz & Hm & (R1 & R2 & F1 & F2 & K1 & I1 & N1 & K2 & I2 & N2)
    & (DR1 & DR2 & DK1 & DI1 & DN1 & DK2 & DI2 & DN2) & Hb & Hp & He).
  unfold increment_sequence_number.
  case_decide; destruct rq; refine (conj _ (conj _ (conj _ (conj _ (conj _ (conj _ _))))));
    try assumption; unfold handshake_wf, application_wf; cbn;
    split_and!; try assumption; apply u64_range.
Qed.

Lemma increment_ready ctx rq alg : ready ctx alg → ready (increment_sequence_number ctx rq) alg.
Proof.
  intros [W S I T E Ty St].
  destruct (increment_other ctx rq) as (H2 & H3 & H4 & H5 & H6 & H7 & H8 & _).
  split; [by apply increment_wf|congruence|congruence|congruence|congruence| |].
  - unfold session_type_ok in *. by rewrite H2.
  - unfold session_state_ok in *. by rewrite H3.
Qed.

Lemma encode_spec ctx cb sid rq app off size msg msize rng alg key salt seqn :
  ready ctx alg → cb_ok cb → major_version_ok ctx cb = true →
  select_keys ctx rq = Some (key, salt, seqn) → exhausted ctx seqn = false →
  2 ≤ off → 0 ≤ size → off + size + max_padding cb ≤ blen app →
  32 + size + max_padding cb ≤ msize → msize ≤ blen msg →
  18 + size + max_padding cb < 2 ^ 16 →
  ∃ e, libspdm_encode_secured_message ctx sid rq size app off msize msg cb rng = Ret e ∧
    e_ctx e = increment_sequence_number ctx rq ∧ length (e_msg e) = length msg ∧
    (no_seal (e_status e) ∨
     e_status e = LIBSPDM_STATUS_SUCCESS ∧ e_size e ≤ msize ∧
     0 ≤ e_size e ∧
     sealed ctx alg cb rq sid (sequence_number_endian ctx) (sub (e_msg e) 0 (e_size e))
       (sub app off size)).
Proof.
  intros Hr [Hcb Hmax] Hv Hk Hex Ho Hsz Happ Hms Hmsg H16.
  destruct (ready_keys ctx alg rq Hr) as (key' & salt' & seqn' & Hk' & Ak & As & _).
  rewrite Hk in Hk'. injection Hk' as <- <- <-.
  destruct Hr as [W Hs Hi Ht He Hty Hst]. pose proof W as ((_ & _ & Hks & _) & _).
  assert (Hmp : 0 ≤ max_padding cb ≤ 255) by (unfold max_padding; lia).
  unfold libspdm_encode_secured_message. rewrite Hv, Hty, Hst, assert_true.
  cbn [negb mbind exec_bind]. rewrite Hk. unfold exhausted in Hex. rewrite Hex, Hi.
  assert (Als : blen salt = 12) by apply As.
  rewrite generate_iv_spec by done. cbn [mbind exec_bind].
  destruct (Hcb seqn) as [Hcbl _]. set (seq := get_sequence_number cb seqn) in *.
  destruct (seq_hdr_spec seq Hcbl) as (h & Eh & Lh). rewrite Eh. cbn [mbind exec_bind].
  replace (blen seq <=? 8) with true by lia. rewrite assert_true. cbn [mbind exec_bind].
  destruct (increment_other ctx rq) as (H2 & H3 & H4 & H5 & H6 & H7 & _).
  set (c1 := increment_sequence_number ctx rq) in *. rewrite H4, H5, H2.
  rewrite (load_in key) by (destruct Ak; range). cbn [mbind exec_bind].
  pose proof (length_nonce seqn salt (sequence_number_endian ctx) Als) as Hln.
  rewrite Hi, load_in by range. cbn [mbind exec_bind].
  assert (Hiv : sub (nonce seqn salt (sequence_number_endian ctx)) 0 12 =
    nonce seqn salt (sequence_number_endian ctx)) by (rewrite <- Hln; apply sub_all).
  rewrite Hiv. assert (Hsub : blen (sub app off size) = size) by (rewrite length_sub by range; lia).
  assert (Hpk : ∀ m z hd x t, packet_at m z hd x t → sub m 0 z = hd ++ x ++ t)
    by (intros m z hd x t (_ & _ & ?); done).
  unfold session_type_ok in Hty. unfold sealed. destruct (session_type ctx); try discriminate.
  - destruct (encode_mac_only_spec c1 sid (sub key 0 (aead_key_size ctx))
      (nonce seqn salt (sequence_number_endian ctx)) h seq app off size msg msize rng alg)
      as (e & -> & E2 & E3 & E4); try done; try congruence; try lia.
    exists e. split; [done|]. split; [done|]. split; [done|].
    destruct E4 as [E4 | (E4 & x & tag & E5 & E6 & E7)]; [auto|]. right.
    pose proof (length_header sid seq (16 + size)) as Hlh.
    split; [done|]. destruct E7 as (E7 & E8 & E9). cbv zeta in *.
    split; [rewrite E7, Hlh, Hsub, E6; lia|]. split; [rewrite E7; lia|].
    exists key, salt, seqn. split; [done|]. exists x, tag. fold seq. rewrite Hsub.
    split; [lia|]. split; [done|]. split; [done|]. by rewrite E9.
  - destruct (encode_enc_mac_spec c1 cb sid (sub key 0 (aead_key_size ctx))
      (nonce seqn salt (sequence_number_endian ctx)) h seq app off size msg msize rng alg)
      as (e & -> & E2 & E3 & E4); try done; try congruence; try lia.
    exists e. split; [done|]. split; [done|]. split; [done|].
    destruct E4 as [E4 | (E4 & pad & x & tag & E5 & Epb & E6 & E7 & E8 & E9)]; [auto|].
    right. pose proof (length_header sid seq (18 + size + blen pad)) as Hlh.
    split; [done|]. destruct E9 as (E9 & E10 & E11). cbv zeta in *.
    split; [rewrite E9, Hlh; lia|]. split; [rewrite E9; lia|].
    exists key, salt, seqn. split; [done|]. exists pad, x, tag. fold seq. rewrite Hsub.
    split; [lia|]. split; [done|]. split; [done|]. by rewrite E11.
Qed.

(** ** Decoding *)

(** The header checks are total on any bytes, and accept exactly a header with
    the session id, the expected sequence number and a length in range. *)
Lemma read_record_header_spec msg msize sid h seq tag :
  load h 0 (blen seq) = Ret seq → 0 ≤ msize ≤ blen msg → msize < 2 ^ 64 → bytes_ok msg →
  is_u32 sid → 0 ≤ tag →
  ∃ r, read_record_header msg msize sid h (blen seq) tag = Ret r ∧
    match r with
    | inl st => (st = LIBSPDM_STATUS_INVALID_MSG_SIZE ∨ st = LIBSPDM_STATUS_INVALID_MSG_FIELD) ∧
        ∀ len, is_u16 len → 6 + blen seq + len ≤ msize → tag ≤ len →
          sub msg 0 (6 + blen seq) ≠ header sid seq len
    | inr len => tag ≤ len ∧ is_u16 len ∧ 6 + blen seq + len ≤ msize ∧
        sub msg 0 (6 + blen seq) = header sid seq len
    end.
Proof.
  intros Hh Hm H64 Hb Hsid Ht. unfold read_record_header, spdm_secured_message_a_data_header1_t,
    spdm_secured_message_a_data_header2_t.
  replace (4 + blen seq + 2) with (6 + blen seq) by lia.
  destruct (Z.ltb_spec msize (6 + blen seq + tag)) as [E1|E1].
  { eexists. split; [reflexivity|]. split; [auto|]. intros. lia. }
  assert (Hsplit : sub msg 0 (6 + blen seq) =
    sub msg 0 4 ++ sub msg 4 (blen seq) ++ sub msg (4 + blen seq) 2).
  { replace (6 + blen seq) with (4 + (blen seq + 2)) by lia. rewrite !sub_app by lia. done. }
  assert (Hsid4 : blen (sub msg 0 4) = 4) by (rewrite length_sub by range; lia).
  assert (Hs2 : blen (sub msg 4 (blen seq)) = blen seq) by (rewrite length_sub by range; lia).
  assert (Hlen2 : blen (sub msg (4 + blen seq) 2) = 2) by (rewrite length_sub by range; lia).
  assert (Hinv : ∀ len, sub msg 0 (6 + blen seq) = header sid seq len →
    sub msg 0 4 = le_bytes 4 sid ∧ sub msg 4 (blen seq) = seq ∧
    sub msg (4 + blen seq) 2 = le_bytes 2 len).
  { intros len Heq. rewrite Hsplit in Heq. unfold header in Heq.
    apply app_inj_1 in Heq as [? Heq]; [|len_simpl; lia].
    apply app_inj_1 in Heq as [? ?]; [done|lia]. }
  unfold load_le. change (Z.of_nat 4) with 4. change (Z.of_nat 2) with 2.
  rewrite (load_in msg 0 4) by range. cbn [mbind exec_bind].
  destruct (Z.eqb_spec (le_val (sub msg 0 4)) sid) as [Es|Es]; cbn [negb].
  2: { eexists. split; [reflexivity|]. split; [auto|]. intros len _ _ _ Heq.
       destruct (Hinv len Heq) as (H4 & _). rewrite H4, le_val_bytes in Es.
       apply Es. apply Z.mod_small, Hsid. }
  rewrite (load_in msg 4) by range. cbn [mbind exec_bind]. rewrite Hh. cbn [mbind exec_bind].
  case_bool_decide as Eseq; cbn [negb].
  2: { eexists. split; [reflexivity|]. split; [auto|]. intros len _ _ _ Heq.
       by destruct (Hinv len Heq) as (_ & H5 & _). }
  rewrite (load_in msg (4 + blen seq)) by range. cbn [mbind exec_bind]. rewrite size_t_small by lia.
  assert (Hlv : is_u16 (le_val (sub msg (4 + blen seq) 2))).
  { pose proof (le_val_bound (sub msg (4 + blen seq) 2)) as Hlb. rewrite Hlen2 in Hlb.
    apply Hlb. auto with word. }
  assert (Hbs : ∀ len, is_u16 len → sub msg (4 + blen seq) 2 = le_bytes 2 len →
    le_val (sub msg (4 + blen seq) 2) = len).
  { intros len Hlen ->. rewrite le_val_bytes. by apply Z.mod_small. }
  set (len := le_val (sub msg (4 + blen seq) 2)) in *.
  destruct (Z.ltb_spec (msize - (6 + blen seq)) len) as [E2|E2].
  { eexists. split; [reflexivity|]. split; [auto|]. intros l Hl H6 H7 Heq.
    destruct (Hinv l Heq) as (_ & _ & H8). pose proof (Hbs l Hl H8). lia. }
  destruct (Z.ltb_spec len tag) as [E3|E3].
  { eexists. split; [reflexivity|]. split; [auto|]. intros l Hl H6 H7 Heq.
    destruct (Hinv l Heq) as (_ & _ & H8). pose proof (Hbs l Hl H8). lia. }
  eexists. split; [reflexivity|]. cbn beta iota. split; [lia|]. split; [done|]. split; [lia|].
  rewrite Hsplit, Eseq. unfold header. f_equal; [|f_equal].
  - rewrite <- Es. rewrite <- (le_bytes_val (sub msg 0 4)) at 1 by auto with word.
    f_equal. lia.
  - unfold len. rewrite <- (le_bytes_val (sub msg (4 + blen seq) 2)) at 1 by auto with word.
    f_equal. lia.
Qed.

(** The endianness decryption may settle on: the context's own, or the opposite
    one while it is undetermined and the sequence number is one. *)
Definition undetermined ctx (seqn : Z) : bool :=
  negb (is_sequence_number_endian_determined (sequence_number_endian ctx)) && (seqn =? 1).

Definition may_use ctx (seqn e : Z) : Prop :=
  endian_ok e ∧
  (little e = little (sequence_number_endian ctx) ∨ undetermined ctx seqn = true).

Lemma nonce_little seq salt e e' : little e = little e' → nonce seq salt e = nonce seq salt e'.
Proof. unfold nonce. by intros ->. Qed.

Lemma decrypt_spec ctx alg seqn salt key a enc tag :
  aead_of_suite (aead_cipher_suite ctx) = Some alg → aead_iv_size ctx = 12 → blen salt = 12 →
  endian_ok (sequence_number_endian ctx) →
  let e := sequence_number_endian ctx in
  ∃ ok dec e', decrypt_detecting_endian ctx seqn salt (nonce seqn salt e) key a enc tag =
      Ret (ok, dec, ctx <| sequence_number_endian := e' |>) ∧
    length dec = length enc ∧ (bytes_ok enc → bytes_ok dec) ∧ endian_ok e' ∧
    (undetermined ctx seqn = false → e' = e) ∧
    (ok = true → may_use ctx seqn e' ∧
       hal_aead_decrypt alg key (nonce seqn salt e') a enc tag = (true, dec)) ∧
    (ok = false → e' = e ∧ (hal_aead_decrypt alg key (nonce seqn salt e) a enc tag).1 = false ∧
       (undetermined ctx seqn = true → ∀ e2, endian_ok e2 →
          (hal_aead_decrypt alg key (nonce seqn salt e2) a enc tag).1 = false)) ∧
    (∀ p, hal_aead_decrypt alg key (nonce seqn salt e) a enc tag = (true, p) →
       ok = true ∧ dec = p).
Proof.
  intros Hs Hi Hl He e. subst e. destruct (suite_cases _ _ Hs) as (_ & Hd & _ & _).
  assert (Hid : ∀ c : libspdm_secured_message_context_t,
    c <| sequence_number_endian := sequence_number_endian c |> = c) by (by intros []).
  unfold decrypt_detecting_endian. rewrite Hd. cbn [mbind exec_bind].
  fold (undetermined ctx seqn).
  pose proof (decrypt_out alg key (nonce seqn salt (sequence_number_endian ctx)) a enc tag) as Hlen.
  pose proof (decrypt_bytes alg key (nonce seqn salt (sequence_number_endian ctx)) a enc tag) as Hby.
  destruct (hal_aead_decrypt alg key (nonce seqn salt (sequence_number_endian ctx)) a enc tag)
    as [ok dec] eqn:E. cbn [snd] in Hlen, Hby.
  destruct (undetermined ctx seqn) eqn:Eu.
  - assert (Hc : sequence_number_endian ctx = 1 ∨ sequence_number_endian ctx = 3).
    { unfold undetermined, is_sequence_number_endian_determined,
        LIBSPDM_DATA_SESSION_SEQ_NUM_ENC_BIG_DEC_BIG,
        LIBSPDM_DATA_SESSION_SEQ_NUM_ENC_LITTLE_DEC_LITTLE in Eu.
      unfold endian_ok in He.
      destruct (Z.eqb_spec (sequence_number_endian ctx) 2); [done|].
      destruct (Z.eqb_spec (sequence_number_endian ctx) 0); [done|]. lia. }
    destruct ok.
    + do 3 eexists. split; [reflexivity|].
      set (e' := if sequence_number_endian ctx =? _ then _ else _).
      assert (He' : endian_ok e' ∧ little e' = little (sequence_number_endian ctx)).
      { subst e'. by destruct Hc as [-> | ->]. }
      destruct He' as [He1 He2].
      split; [done|]. split; [done|]. split; [done|]. split; [done|]. split.
      { intros _. split; [split; auto|]. by rewrite (nonce_little seqn salt e' _ He2). }
      split; [done|]. intros p [= <-]. done.
    + set (sw := if sequence_number_endian ctx =? 1 then 2 else 0).
      assert (Hsw : swap_endian (sequence_number_endian ctx) = Ret sw ∧ endian_ok sw ∧
        little sw = negb (little (sequence_number_endian ctx)))
        by (subst sw; by destruct Hc as [-> | ->]).
      destruct Hsw as (Hsw & Hsw1 & Hsw2). rewrite Hsw. cbn [mbind exec_bind].
      rewrite Hi, generate_iv_spec by done. cbn [mbind exec_bind].
      pose proof (length_nonce seqn salt sw Hl) as Hln.
      rewrite load_in by range. cbn [mbind exec_bind].
      replace (sub (nonce seqn salt sw) 0 12) with (nonce seqn salt sw)
        by (symmetry; rewrite <- Hln; apply sub_all).
      rewrite Hd. cbn [mbind exec_bind].
      pose proof (decrypt_out alg key (nonce seqn salt sw) a enc tag) as Hlen2.
      pose proof (decrypt_bytes alg key (nonce seqn salt sw) a enc tag) as Hby2.
      destruct (hal_aead_decrypt alg key (nonce seqn salt sw) a enc tag) as [ok2 dec2] eqn:E2.
      cbn [snd] in Hlen2, Hby2. destruct ok2.
      * exists true, dec2, sw. split; [done|]. split; [done|]. split; [done|]. split; [done|].
        split; [done|]. split; [intros _; split; [split; auto|done]|]. split; done.
      * exists false, dec2, (sequence_number_endian ctx). rewrite Hid. split; [done|].
        split; [done|]. split; [done|]. split; [done|]. split; [done|]. split; [done|].
        split; [|done]. intros _. split; [done|]. split; [done|]. intros _ e2 He2.
        destruct (little e2) eqn:El, (little (sequence_number_endian ctx)) eqn:Ec;
          first [ rewrite (nonce_little seqn salt e2 (sequence_number_endian ctx)) by congruence;
                  by rewrite E
                | rewrite (nonce_little seqn salt e2 sw) by (rewrite Hsw2; done); by rewrite E2 ].
  - exists ok, dec, (sequence_number_endian ctx). rewrite Hid. split; [done|]. split; [done|].
    split; [done|]. split; [done|]. split; [done|].
    split; [intros ->; split; [split; auto|done]|].
    split; [intros ->; done|]. intros p [= <- <-]. done.
Qed.

(** The message the caller finds at *app_message. *)
Definition delivered (d : decoded) (msg : list Z) : list Z :=
  match d_ptr d with
  | InApp o => sub (d_app d) o (d_size d)
  | InSecured o => sub msg o (d_size d)
  end.

(** It lies inside its buffer, which holds bytes. *)
Definition within (d : decoded) (msg : list Z) : Prop :=
  match d_ptr d with
  | InApp o => in_range (d_app d) o (d_size d) = true ∧ bytes_ok (d_app d)
  | InSecured o => in_range msg o (d_size d) = true
  end.

Lemma within_delivered d msg : within d msg → blen (delivered d msg) = d_size d.
Proof.
  unfold within, delivered. destruct (d_ptr d); [intros [Hr _]|intros Hr];
    rewrite length_sub by done; rewrite in_range_iff in Hr; lia.
Qed.

(** The four outcomes of decoding under keys that are not exhausted. *)
Definition outcome ctx (sid : Z) (rq : bool) (d : decoded) (accepted : Prop) : Prop :=
  let no_error := last_spdm_error (d_ctx d) = last_spdm_error ctx in
  let error :=
    last_spdm_error (d_ctx d) = Build_error_struct SPDM_ERROR_CODE_DECRYPT_ERROR sid in
  (d_status d = LIBSPDM_STATUS_SUCCESS ∧ no_error ∧ accepted) ∨
  ((d_status d = LIBSPDM_STATUS_INVALID_MSG_SIZE ∨ d_status d = LIBSPDM_STATUS_INVALID_MSG_FIELD)
     ∧ error) ∨
  (d_status d = LIBSPDM_STATUS_SESSION_TRY_DISCARD_KEY_UPDATE ∧ backup_valid ctx rq = true ∧
     no_error) ∨
  (d_status d = LIBSPDM_STATUS_CRYPTO_ERROR ∧ backup_valid ctx rq = false ∧ error).

(** A context that differs from another only in its last error, and in its
    endianness while that is undetermined. *)
Definition may_settle ctx (e : Z) : Prop :=
  endian_ok e ∧ (is_sequence_number_endian_determined (sequence_number_endian ctx) = true →
                 e = sequence_number_endian ctx).

Lemma may_settle_same ctx : endian_ok (sequence_number_endian ctx) →
  may_settle ctx (sequence_number_endian ctx).
Proof. by split. Qed.

Lemma may_settle_if ctx seqn e :
  endian_ok e → (undetermined ctx seqn = false → e = sequence_number_endian ctx) →
  may_settle ctx e.
Proof.
  intros He Hu. split; [done|]. intros Hd. apply Hu. unfold undetermined. by rewrite Hd.
Qed.

Definition same_but_error ctx ctx' : Prop :=
  ∃ e err, may_settle ctx e ∧
    ctx' = ctx <| sequence_number_endian := e |> <| last_spdm_error := err |>.

Lemma decode_mac_only_spec ctx sid rq seqn salt key h seq msize msg asize app alg :
  aead_of_suite (aead_cipher_suite ctx) = Some alg → aead_tag_size ctx = 16 →
  aead_iv_size ctx = 12 → endian_ok (sequence_number_endian ctx) →
  load h 0 (blen seq) = Ret seq → 0 ≤ msize ≤ blen msg → msize < 2 ^ 64 → bytes_ok msg →
  is_u32 sid → blen salt = 12 → msize ≤ asize →
  let e := sequence_number_endian ctx in
  ∃ d, decode_mac_only ctx sid rq seqn salt key (nonce seqn salt e) h (blen seq) msize msg asize app
         = Ret d ∧ d_app d = app ∧ same_but_error ctx (d_ctx d) ∧
    outcome ctx sid rq d (within d msg ∧ ∃ e' wire, may_use ctx seqn e' ∧
      little (sequence_number_endian (d_ctx d)) = little e' ∧ received msg msize wire ∧
      sealed_mac alg key (nonce seqn salt e') seq sid wire (delivered d msg)) ∧
    (∀ wire m, received msg msize wire → sealed_mac alg key (nonce seqn salt e) seq sid wire m →
       d_status d = LIBSPDM_STATUS_SUCCESS ∧ delivered d msg = m).
Proof.
  intros Hs Ht Hi He Hh Hm H64 Hb Hsid Hsalt Has e. subst e. pose proof (may_settle_same ctx He) as Hse.
  assert (Hid : ∀ c : libspdm_secured_message_context_t,
    c = c <| sequence_number_endian := sequence_number_endian c |>
          <| last_spdm_error := last_spdm_error c |>) by (by intros []).
  unfold decode_mac_only, spdm_secured_message_a_data_header1_t,
    spdm_secured_message_a_data_header2_t. cbv zeta. rewrite Ht.
  destruct (read_record_header_spec msg msize sid h seq 16 Hh Hm H64 Hb Hsid) as (r & -> & Hr);
    [lia|]. cbn [mbind exec_bind].
  replace (4 + blen seq + 2) with (6 + blen seq) by lia.
  destruct r as [st|len].
  - destruct Hr as [Hst Hno]. eexists. split; [reflexivity|]. split; [done|].
    split; [exists (sequence_number_endian ctx), (Build_error_struct SPDM_ERROR_CODE_DECRYPT_ERROR sid);
            split; [done|by destruct ctx]|].
    split; [right; left; split; [done|reflexivity]|].
    intros wire m [R1 R2] (c & tag & S1 & S2 & S3 & S4). exfalso.
    pose proof (length_header sid seq (16 + blen m)) as Hlh.
    rewrite S4 in R1. rewrite !length_app in R1.
    apply (Hno (16 + blen m)); [unfold is_u16; lia|lia|lia|].
    rewrite S4 in R2. rewrite <- Hlh.
    destruct (sub_split msg 0 _ _ _ R2) as (_ & R3 & _); [lia|lia|rewrite !length_app; lia|done].
  - destruct Hr as (L1 & L2 & L3 & L4).
    pose proof (length_header sid seq len) as Hlh.
    set (m := sub msg (6 + blen seq) (len - 16)).
    set (tag := sub msg (6 + blen seq + (len - 16)) 16).
    assert (Hlm : blen m = len - 16) by (unfold m; rewrite length_sub by range; lia).
    assert (Hltag : blen tag = 16) by (unfold tag; rewrite length_sub by range; lia).
    rewrite (load_in msg 0 (6 + blen seq + (len - 16))) by range. cbn [mbind exec_bind].
    rewrite sub_app by lia. rewrite L4, Z.add_0_l. fold m.
    rewrite (load_in msg) by range. fold tag. cbn [mbind exec_bind].
    destruct (decrypt_spec ctx alg seqn salt key (header sid seq len ++ m) [] tag Hs Hi Hsalt He)
      as (ok & dec & e' & -> & D1 & D2 & D3 & D4 & D5 & D6 & D7). cbn [mbind exec_bind].
    apply (may_settle_if ctx seqn e' D3) in D4.
    assert (Hwire : sub msg 0 (blen (header sid seq len ++ m ++ tag)) =
      header sid seq len ++ m ++ tag).
    { rewrite !length_app. rewrite !Nat2Z.inj_add, Hlh, Hlm, Hltag.
      rewrite (sub_app msg 0 (6 + blen seq)), (sub_app msg _ (len - 16) 16) by lia.
      by rewrite L4, Z.add_0_l. }
    assert (Hcomplete : ∀ wire m', received msg msize wire →
      sealed_mac alg key (nonce seqn salt (sequence_number_endian ctx)) seq sid wire m' → ok = true ∧ m = m').
    { intros wire m' [R1 R2] (c & tag' & S1 & S2 & S3 & S4).
      pose proof (length_header sid seq (16 + blen m')) as Hlh'. subst wire.
      rewrite !length_app in R1. rewrite !length_app in R2.
      destruct (sub_split msg 0 _ _ _ R2) as (_ & R3 & R4); [lia|lia|lia|].
      destruct (sub_split _ _ _ _ _ R4) as (_ & R5 & R6); [lia|lia|lia|].
      assert (Hleneq : len = 16 + blen m').
      { rewrite Hlh', L4 in R3. unfold header in R3.
        apply app_inj_1 in R3 as [_ R3]; [|done]. apply app_inj_1 in R3 as [_ R3]; [|done].
        apply (le_bytes_inj 2); [apply L2|lia|done]. }
      assert (m = m') as <-.
      { rewrite <- R5. unfold m. f_equal; lia. }
      assert (tag = tag') as <-.
      { rewrite <- R6. unfold tag. f_equal; lia. }
      split; [|done]. rewrite <- Hleneq in S3.
      pose proof (encrypt_out alg key (nonce seqn salt (sequence_number_endian ctx))
        (header sid seq len ++ m) [] 16) as [Hc _]; [lia|]. rewrite S3 in Hc. cbn in Hc.
      apply nil_length_inv in Hc as ->.
      apply decrypt_encrypt in S3. by apply D7 in S3 as [? _]. }
    destruct ok; cbn [negb].
    + replace (len - 16 <=? asize) with true by lia. rewrite assert_true. cbn [mbind exec_bind].
      destruct (D5 eq_refl) as [Hmay Hdec]. cbn in D1. apply nil_length_inv in D1 as ->.
      apply encrypt_decrypt in Hdec. rewrite Hltag in Hdec.
      eexists. split; [reflexivity|]. split; [done|].
      split; [exists e', (last_spdm_error ctx); split; [done|by destruct ctx]|].
      assert (Hdel : ∀ c, delivered (Decoded LIBSPDM_STATUS_SUCCESS c app (len - 16)
        (InSecured (6 + blen seq))) msg = m) by done.
      split.
      * left. split; [done|]. split; [done|]. split; [unfold within; cbn; range|].
        exists e', (header sid seq len ++ m ++ tag).
        split; [done|]. split; [done|]. split.
        { split; [|done]. rewrite !length_app. lia. }
        rewrite Hdel. exists [], tag. rewrite Hlm. replace (16 + (len - 16)) with len by lia.
        split; [apply L2|]. done.
      * intros wire m' Hrec Hseal. split; [done|]. rewrite Hdel. by eapply Hcomplete.
    + destruct (D6 eq_refl) as (-> & _ & _).
      replace (backup_valid (ctx <| sequence_number_endian := sequence_number_endian ctx |>) rq)
        with (backup_valid ctx rq) by done.
      destruct (backup_valid ctx rq) eqn:Eb; eexists; (split; [reflexivity|]); (split; [done|]).
      * split; [exists (sequence_number_endian ctx), (last_spdm_error ctx); split; [done|by destruct ctx]|].
        split; [right; right; left; done|]. intros wire m' Hrec Hseal.
        by destruct (Hcomplete wire m' Hrec Hseal).
      * split; [exists (sequence_number_endian ctx), (Build_error_struct SPDM_ERROR_CODE_DECRYPT_ERROR sid);
          split; [done|by destruct ctx]|].
        split; [right; right; right; done|]. intros wire m' Hrec Hseal.
        by destruct (Hcomplete wire m' Hrec Hseal).
Qed.


(** Two packets with the same header prefix in one buffer are the same. *)
Lemma same_packet msg msize sid seq len len' x y tag tag' hd' :
  hd' = header sid seq len' → sub msg 0 (6 + blen seq) = header sid seq len →
  is_u16 len → is_u16 len' → blen x = len - 16 → blen tag = 16 → blen y = len' - 16 → blen tag' = 16 →
  sub msg (6 + blen seq) (len - 16) = x → sub msg (6 + blen seq + (len - 16)) 16 = tag →
  received msg msize (hd' ++ y ++ tag') → msize ≤ blen msg →
  len' = len ∧ x = y ∧ tag = tag'.
Proof.
  intros -> Hh Hl Hl' Hx Ht Hy Ht' Sx St [R1 R2] Hm.
  pose proof (length_header sid seq len') as Hlh. rewrite !length_app in R1, R2.
  destruct (sub_split msg 0 _ _ _ R2) as (_ & R3 & R4); [lia|lia|lia|].
  destruct (sub_split _ _ _ _ _ R4) as (_ & R5 & R6); [lia|lia|lia|].
  assert (len = len') as <-.
  { rewrite Hlh, Hh in R3. unfold header in R3.
    apply app_inj_1 in R3 as [_ R3]; [|done]. apply app_inj_1 in R3 as [_ R3]; [|done].
    apply (le_bytes_inj 2); [apply Hl|apply Hl'|done]. }
  split; [done|]. split; [rewrite <- Sx, <- R5|rewrite <- St, <- R6]; f_equal; lia.
Qed.

(** The plaintext a decryption wrote to the caller's buffer, parsed. *)
Lemma parse_plaintext app dec asize :
  bytes_ok app → bytes_ok dec → 2 ≤ asize ≤ blen app → blen dec ≤ asize →
  ∃ a1 a2 p, store app 0 (zeros asize) = Ret a1 ∧ store a1 0 dec = Ret a2 ∧
    length a2 = length app ∧ bytes_ok a2 ∧ load_le 2 a2 0 = Ret p ∧ 0 ≤ p ∧
    (p + 2 ≤ blen dec → ∃ pad, is_u16 p ∧ blen (sub a2 2 p) = p ∧
       dec = enc_plaintext (sub a2 2 p) pad ∧ bytes_ok pad).
Proof.
  intros Hba Hbd Ha Hd.
  assert (R1 : in_range app 0 (blen (zeros asize)) = true)
    by (rewrite in_range_iff, length_zeros; lia).
  set (a1 := upd app 0 (zeros asize)).
  assert (L1 : length a1 = length app) by (by apply length_upd).
  assert (R2 : in_range a1 0 (blen dec) = true) by (rewrite in_range_iff; lia).
  set (a2 := upd a1 0 dec).
  assert (L2 : length a2 = length app) by (unfold a2; rewrite length_upd; done).
  assert (Hb2 : bytes_ok a2) by (unfold a2, a1, zeros; auto with word).
  exists a1, a2, (le_val (sub a2 0 2)).
  split; [by apply store_in|]. split; [by apply store_in|]. split; [done|]. split; [done|].
  unfold load_le. change (Z.of_nat 2) with 2. rewrite load_in by range. split; [done|].
  assert (Hp : is_u16 (le_val (sub a2 0 2))).
  { pose proof (le_val_bound (sub a2 0 2)) as Hb. rewrite length_sub in Hb by range.
    apply Hb. auto with word. }
  set (p := le_val (sub a2 0 2)) in *. split; [apply Hp|]. intros Hpd.
  assert (Hpre : sub a2 0 (blen dec) = dec) by (by apply sub_upd_same).
  unfold is_u16 in Hp. assert (Hpl : blen (sub a2 2 p) = p) by (rewrite length_sub by range; lia).
  exists (sub a2 (2 + p) (blen dec - 2 - p)). split; [done|]. split; [done|].
  split; [|auto with word].
  unfold enc_plaintext. rewrite Hpl, u16_small by done.
  rewrite <- Hpre at 1. replace (blen dec) with (2 + (p + (blen dec - 2 - p))) at 1 by lia.
  rewrite (sub_app a2 0 2), (sub_app a2 _ p) by lia. rewrite Z.add_0_l. f_equal.
  unfold p. rewrite <- (le_bytes_val (sub a2 0 2)) at 1 by auto with word.
  f_equal. rewrite length_sub by range. lia.
Qed.

Lemma length_enc_plaintext m pad : blen (enc_plaintext m pad) = 2 + blen m + blen pad.
Proof. unfold enc_plaintext. len_simpl. lia. Qed.

Lemma enc_plaintext_inj m pad m' pad' :
  blen m < 2 ^ 16 → blen m' < 2 ^ 16 → enc_plaintext m pad = enc_plaintext m' pad' → m = m'.
Proof.
  intros Hm1 Hm2 Heq. unfold enc_plaintext in Heq.
  apply app_inj_1 in Heq as [Hl Heq]; [|done].
  apply (le_bytes_inj 2) in Hl; [|apply u16_range|apply u16_range].
  rewrite !u16_small in Hl by (unfold is_u16; lia). apply app_inj_1 in Heq; [tauto|lia].
Qed.

Lemma decode_enc_mac_spec ctx sid rq seqn salt key h seq msize msg asize app alg :
  aead_of_suite (aead_cipher_suite ctx) = Some alg → aead_tag_size ctx = 16 →
  aead_iv_size ctx = 12 → endian_ok (sequence_number_endian ctx) →
  load h 0 (blen seq) = Ret seq → 0 ≤ msize ≤ blen msg → msize < 2 ^ 64 → bytes_ok msg →
  is_u32 sid → blen salt = 12 → msize ≤ asize → 2 ≤ asize ≤ blen app → bytes_ok app →
  let e := sequence_number_endian ctx in
  ∃ d, decode_enc_mac ctx sid rq seqn salt key (nonce seqn salt e) h (blen seq) msize msg asize app
         = Ret d ∧ length (d_app d) = length app ∧ same_but_error ctx (d_ctx d) ∧
    outcome ctx sid rq d (within d msg ∧ ∃ e' wire, may_use ctx seqn e' ∧
      little (sequence_number_endian (d_ctx d)) = little e' ∧ received msg msize wire ∧
      sealed_enc alg key (nonce seqn salt e') seq sid wire (delivered d msg)) ∧
    (∀ wire m, received msg msize wire → sealed_enc alg key (nonce seqn salt e) seq sid wire m →
       d_status d = LIBSPDM_STATUS_SUCCESS ∧ delivered d msg = m).
Proof.
  intros Hs Ht Hi He Hh Hm H64 Hb Hsid Hsalt Has Hap Hbap e. subst e.
  pose proof (may_settle_same ctx He) as Hse.
  unfold decode_enc_mac, spdm_secured_message_a_data_header1_t,
    spdm_secured_message_a_data_header2_t, spdm_secured_message_cipher_header_t.
  cbv zeta. rewrite Ht.
  destruct (read_record_header_spec msg msize sid h seq 16 Hh Hm H64 Hb Hsid) as (r & -> & Hr);
    [lia|]. cbn [mbind exec_bind].
  replace (4 + blen seq + 2) with (6 + blen seq) by lia.
  assert (Herr : ∀ e', may_settle ctx e' → same_but_error ctx (ctx <| sequence_number_endian := e' |>
    <| last_spdm_error := Build_error_struct SPDM_ERROR_CODE_DECRYPT_ERROR sid |>))
    by (intros e' He'; eexists _, _; split; [exact He'|reflexivity]).
  assert (Hplen : ∀ m pad hd c tag t, hal_aead_encrypt alg key t hd (enc_plaintext m pad) 16 =
    (true, c, tag) → blen c = 2 + blen m + blen pad).
  { intros m pad hd c tag t Henc. pose proof (encrypt_out alg key t hd (enc_plaintext m pad) 16)
      as [Hc _]; [lia|]. rewrite Henc in Hc. cbn in Hc. rewrite Hc. apply length_enc_plaintext. }
  destruct r as [st|len].
  - destruct Hr as [Hst Hno]. eexists. split; [reflexivity|]. split; [done|].
    split; [exists (sequence_number_endian ctx), (Build_error_struct SPDM_ERROR_CODE_DECRYPT_ERROR sid);
            split; [done|by destruct ctx]|].
    split; [right; left; split; [done|reflexivity]|].
    intros wire m [R1 R2] (pad & c & tag & S1 & S2 & S3 & S4 & _). exfalso.
    pose proof (length_header sid seq (18 + blen m + blen pad)) as Hlh.
    apply Hplen in S3. rewrite S4 in R1. rewrite !length_app in R1.
    apply (Hno (18 + blen m + blen pad)); [unfold is_u16; lia|lia|lia|].
    rewrite S4 in R2. rewrite <- Hlh.
    destruct (sub_split msg 0 _ _ _ R2) as (_ & R3 & _); [lia|lia|rewrite !length_app; lia|done].
  - destruct Hr as (L1 & L2 & L3 & L4).
    pose proof (length_header sid seq len) as Hlh.
    set (c := sub msg (6 + blen seq) (len - 16)).
    set (tag := sub msg (6 + blen seq + (len - 16)) 16).
    assert (Hlc : blen c = len - 16) by (unfold c; rewrite length_sub by range; lia).
    assert (Hltag : blen tag = 16) by (unfold tag; rewrite length_sub by range; lia).
    replace (asize <? len - 16) with false by lia.
    destruct (decrypt_spec ctx alg seqn salt key (header sid seq len) c tag Hs Hi Hsalt He)
      as (ok & dec & e' & Edec & D1 & D2 & D3 & D4 & D5 & D6 & D7).
    apply (may_settle_if ctx seqn e' D3) in D4.
    destruct (parse_plaintext app dec asize Hbap) as (a1 & a2 & p & P1 & P2 & P3 & Pb & P4 & P5 & P6);
      [unfold c in D2; auto with word|lia|lia|].
    rewrite P1. cbn [mbind exec_bind].
    rewrite (load_in msg 0 (6 + blen seq)) by range. rewrite L4. cbn [mbind exec_bind].
    rewrite (load_in msg (6 + blen seq)) by range. fold c. cbn [mbind exec_bind].
    rewrite (load_in msg (6 + blen seq + (len - 16))) by range. fold tag. cbn [mbind exec_bind].
    rewrite Edec. cbn [mbind exec_bind]. rewrite P2. cbn [mbind exec_bind].
    assert (Hcomplete : ∀ wire m', received msg msize wire →
      sealed_enc alg key (nonce seqn salt (sequence_number_endian ctx)) seq sid wire m' →
      ok = true ∧ ∃ pad, dec = enc_plaintext m' pad ∧ blen m' < 2 ^ 16).
    { intros wire m' Hrec (pad & c' & tag' & S1 & S2 & S3 & -> & _). pose proof (Hplen _ _ _ _ _ _ S3).
      destruct (same_packet msg msize sid seq len (18 + blen m' + blen pad) c c' tag tag'
        (header sid seq (18 + blen m' + blen pad)) eq_refl L4 L2) as (El & -> & ->);
        try done; try lia; [unfold is_u16; lia|].
      rewrite El in S3. apply decrypt_encrypt in S3. apply D7 in S3 as [? ->].
      split; [done|]. exists pad. split; [done|lia]. }
    clear Edec. destruct ok; cbn [negb].
    + rewrite P4. cbn [mbind exec_bind]. destruct (Z.ltb_spec (len - 16) (p + 2)) as [Hlt|Hge].
      * eexists. split; [reflexivity|]. split; [done|]. split; [by apply Herr|].
        split; [right; left; auto|]. intros wire m' Hrec Hseal. exfalso.
        destruct (Hcomplete wire m' Hrec Hseal) as (_ & pad & Hdec & Hm').
        pose proof (length_enc_plaintext m' pad) as Hle. rewrite <- Hdec, D1, Hlc in Hle.
        unfold load_le in P4. change (Z.of_nat 2) with 2 in P4.
        assert (Hpre : sub a2 0 (blen dec) = dec).
        { apply store_Ret_inv in P2 as [P2 ->]. by apply sub_upd_same. }
        rewrite Hdec in Hpre at 2. unfold enc_plaintext in Hpre.
        destruct (load_head a2 0 (blen dec) _ _ 2 Hpre) as (Hp & _); [lia|lia|lia|done|].
        rewrite Hp in P4. cbn [mbind exec_bind] in P4. rewrite le_val_bytes in P4.
        injection P4 as Hpe. rewrite u16_small, Z.mod_small in Hpe by (unfold is_u16; lia). lia.
      * destruct (D5 eq_refl) as [Hmay Hdec].
        destruct P6 as (pad & P6 & P7 & P8 & P9); [lia|].
        replace (p <=? asize) with true by lia. rewrite assert_true. cbn [mbind exec_bind].
        apply encrypt_decrypt in Hdec. rewrite Hltag in Hdec.
        pose proof (length_enc_plaintext (sub a2 2 p) pad) as Hle. rewrite <- P8 in Hle.
        eexists. split; [reflexivity|]. split; [done|].
        split; [exists e', (last_spdm_error ctx); split; [done|by destruct ctx]|].
        assert (Hdel : ∀ x, delivered (Decoded LIBSPDM_STATUS_SUCCESS x a2 p (InApp 2)) msg =
          sub a2 2 p) by done.
        split.
        -- left. split; [done|]. split; [done|]. split; [unfold within, is_u16 in *; cbn; split; [range|done]|].
           exists e', (header sid seq len ++ c ++ tag).
           split; [done|]. split; [done|]. split.
           { split; [rewrite !length_app; lia|]. rewrite !length_app.
             replace (blen (header sid seq len) + (blen c + blen tag)) with
               (6 + blen seq + (len - 16 + 16)) by lia.
             rewrite !Nat2Z.inj_add, Hlh, Hlc, Hltag.
             rewrite (sub_app msg 0 (6 + blen seq)), (sub_app msg _ (len - 16) 16) by lia.
             by rewrite L4, Z.add_0_l. }
           rewrite Hdel. exists pad, c, tag.
           replace (18 + blen (sub a2 2 p) + blen pad) with len by lia.
           split; [apply L2|]. split; [done|]. rewrite <- P8. done.
        -- intros wire m' Hrec Hseal. split; [done|]. rewrite Hdel.
           destruct (Hcomplete wire m' Hrec Hseal) as (_ & pad' & Hdec' & Hm').
           unfold is_u16 in P6. apply (enc_plaintext_inj _ pad m' pad'); [lia|done|congruence].
    + destruct (D6 eq_refl) as (-> & _ & _).
      replace (backup_valid (ctx <| sequence_number_endian := sequence_number_endian ctx |>) rq)
        with (backup_valid ctx rq) by done.
      destruct (backup_valid ctx rq) eqn:Eb; eexists; (split; [reflexivity|]); (split; [done|]).
      * split; [exists (sequence_number_endian ctx), (last_spdm_error ctx); split; [done|by destruct ctx]|].
        split; [right; right; left; done|]. intros wire m' Hrec Hseal.
        by destruct (Hcomplete wire m' Hrec Hseal).
      * split; [by apply Herr|]. split; [right; right; right; done|]. intros wire m' Hrec Hseal.
        by destruct (Hcomplete wire m' Hrec Hseal).
Qed.


Lemma decode_spec ctx cb sid rq msg msize asize app alg key salt seqn :
  ready ctx alg → cb_ok cb → major_version_ok ctx cb = true →
  select_keys ctx rq = Some (key, salt, seqn) →
  0 ≤ msize ≤ blen msg → msize < 2 ^ 64 → bytes_ok msg → is_u32 sid →
  msize ≤ asize → 2 ≤ asize ≤ blen app → bytes_ok app →
  ∃ d, libspdm_decode_secured_message ctx sid rq msize msg asize app cb = Ret d ∧
    length (d_app d) = length app ∧
    if exhausted ctx seqn then
      d_status d = LIBSPDM_STATUS_SEQUENCE_NUMBER_OVERFLOW ∧
      d_ctx d = ctx <| last_spdm_error := Build_error_struct SPDM_ERROR_CODE_DECRYPT_ERROR sid |>
    else
      same_but_error (increment_sequence_number ctx rq) (d_ctx d) ∧
      outcome (ctx <| last_spdm_error := Build_error_struct 0 0 |>) sid rq d
        (within d msg ∧ ∃ e wire, may_use ctx seqn e ∧
           little (sequence_number_endian (d_ctx d)) = little e ∧ received msg msize wire ∧
           sealed ctx alg cb rq sid e wire (delivered d msg)) ∧
      (∀ e wire m, little e = little (sequence_number_endian ctx) → received msg msize wire →
         sealed ctx alg cb rq sid e wire m →
         d_status d = LIBSPDM_STATUS_SUCCESS ∧ delivered d msg = m).
Proof.
  intros Hr [Hcb _] Hv Hk Hm H64 Hbm Hsid Has Hap Hba.
  destruct (ready_keys ctx alg rq Hr) as (key' & salt' & seqn' & Hk' & Ak & As & _).
  rewrite Hk in Hk'. injection Hk' as <- <- <-.
  destruct Hr as [W Hs Hi Ht He Hty Hst]. pose proof W as ((_ & _ & Hks & _) & _).
  unfold libspdm_decode_secured_message, libspdm_secured_message_set_last_spdm_error_struct.
  cbv zeta. set (c0 := ctx <| last_spdm_error := Build_error_struct 0 0 |>).
  change (major_version_ok c0 cb) with (major_version_ok ctx cb).
  change (session_type_ok c0) with (session_type_ok ctx).
  change (session_state_ok c0) with (session_state_ok ctx).
  change (select_keys c0 rq) with (select_keys ctx rq).
  change ((max_spdm_session_sequence_number c0 <? seqn) ||
    (seqn =? LIBSPDM_MAX_SPDM_SESSION_SEQUENCE_NUMBER)) with (exhausted ctx seqn).
  rewrite Hv, Hty, Hst, assert_true. cbn [negb mbind exec_bind]. rewrite Hk.
  change ((max_spdm_session_sequence_number c0 <? seqn) ||
    (seqn =? LIBSPDM_MAX_SPDM_SESSION_SEQUENCE_NUMBER)) with (exhausted ctx seqn).
  destruct (exhausted ctx seqn); [eexists; split; [reflexivity|]; by split|].
  change (aead_iv_size c0) with (aead_iv_size ctx).
  change (sequence_number_endian c0) with (sequence_number_endian ctx). rewrite Hi.
  assert (Als : blen salt = 12) by apply As.
  rewrite generate_iv_spec by done. cbn [mbind exec_bind].
  destruct (Hcb seqn) as [Hcbl _]. set (seq := get_sequence_number cb seqn) in *.
  destruct (seq_hdr_spec seq Hcbl) as (h & Eh & Lh). rewrite Eh. cbn [mbind exec_bind].
  replace (blen seq <=? 8) with true by lia. rewrite assert_true. cbn [mbind exec_bind].
  destruct (increment_other c0 rq) as (H2 & H3 & H4 & H5 & H6 & H7 & H8 & H9 & H10 & H11 & H12 & H13).
  assert (Hc1 : increment_sequence_number c0 rq =
    (increment_sequence_number ctx rq) <| last_spdm_error := Build_error_struct 0 0 |>).
  { unfold increment_sequence_number. change (session_state c0) with (session_state ctx).
    by case_decide; destruct rq. }
  set (c1 := increment_sequence_number c0 rq) in *.
  change (aead_key_size c0) with (aead_key_size ctx) in H4.
  change (aead_iv_size c0) with (aead_iv_size ctx) in H5.
  change (aead_tag_size c0) with (aead_tag_size ctx) in H6.
  change (aead_cipher_suite c0) with (aead_cipher_suite ctx) in H7.
  change (sequence_number_endian c0) with (sequence_number_endian ctx) in H8.
  change (session_type c0) with (session_type ctx) in H2.
  rewrite H4, H5, H2.
  rewrite (load_in key) by (destruct Ak; range). cbn [mbind exec_bind].
  pose proof (length_nonce seqn salt (sequence_number_endian ctx) Als) as Hln.
  rewrite Hi, load_in by range. cbn [mbind exec_bind].
  assert (Hiv : sub (nonce seqn salt (sequence_number_endian ctx)) 0 12 =
    nonce seqn salt (sequence_number_endian ctx)) by (rewrite <- Hln; apply sub_all).
  rewrite Hiv. rewrite <- H8.
  assert (Hsame : ∀ c, same_but_error c1 c → same_but_error (increment_sequence_number ctx rq) c).
  { intros c (e & err & Hee & ->). exists e, err.
    split; [unfold may_settle in *; rewrite Hc1 in Hee; exact Hee|]. by rewrite Hc1. }
  assert (Hout : ∀ d A, outcome c1 sid rq d A → outcome c0 sid rq d A).
  { intros d A. unfold outcome, backup_valid. by rewrite H11, H12, H13. }
  assert (Hmay : ∀ e, may_use c1 seqn e → may_use ctx seqn e).
  { intros e. unfold may_use, undetermined. by rewrite H8. }
  assert (Hmono : ∀ d (A B : Prop), (A → B) → outcome c0 sid rq d A → outcome c0 sid rq d B)
    by (intros d A B HAB; unfold outcome; tauto).
  unfold session_type_ok in Hty. unfold sealed. destruct (session_type ctx); try discriminate.
  - destruct (decode_mac_only_spec c1 sid rq seqn salt (sub key 0 (aead_key_size ctx)) h seq msize
      msg asize app alg) as (d & -> & D1 & D2 & D3 & D4); try done; try congruence.
    exists d. split; [done|]. split; [by rewrite D1|]. split; [by apply Hsame|]. split.
    + eapply Hmono, Hout, D3. intros (E0 & e & wire & E1 & E2 & E3 & E4).
      split; [done|]. exists e, wire. split; [by apply Hmay|]. split; [done|]. split; [done|].
      exists key, salt, seqn. done.
    + intros e wire m Hle Hrec (k' & s' & n' & Hk' & Hse). rewrite Hk in Hk'.
      injection Hk' as <- <- <-. apply (D4 wire m Hrec).
      by rewrite <- (nonce_little seqn salt e _ Hle).
  - destruct (decode_enc_mac_spec c1 sid rq seqn salt (sub key 0 (aead_key_size ctx)) h seq msize
      msg asize app alg) as (d & -> & D1 & D2 & D3 & D4); try done; try congruence.
    exists d. split; [done|]. split; [by rewrite D1|]. split; [by apply Hsame|]. split.
    + eapply Hmono, Hout, D3. intros (E0 & e & wire & E1 & E2 & E3 & E4).
      split; [done|]. exists e, wire. split; [by apply Hmay|]. split; [done|]. split; [done|].
      exists key, salt, seqn. done.
    + intros e wire m Hle Hrec (k' & s' & n' & Hk' & Hse). rewrite Hk in Hk'.
      injection Hk' as <- <- <-. apply (D4 wire m Hrec).
      by rewrite <- (nonce_little seqn salt e _ Hle).
Qed.

End facts.
End PacketFacts.

(** ** Sequence numbers over a run of calls *)
Module RunFacts.
Import ContextFacts NonceFacts PacketFacts.
Section facts.
Context `{BuildConfig, CryptoHal, !CryptoHalOk}.
Implicit Types ctx : libspdm_secured_message_context_t.

(** Whatever the arguments, a call that returns has either refused before using
    a nonce, leaving the context alone, or consumed one sequence number. *)
Lemma encode_context ctx sid rq size app off msize msg cb rng e alg :
  ready ctx alg → major_version_ok ctx cb = true →
  libspdm_encode_secured_message ctx sid rq size app off msize msg cb rng = Ret e →
  ∃ key salt seqn, select_keys ctx rq = Some (key, salt, seqn) ∧
    if exhausted ctx seqn
    then e_status e = LIBSPDM_STATUS_SEQUENCE_NUMBER_OVERFLOW ∧ e_ctx e = ctx ∧ e_msg e = msg
    else e_ctx e = increment_sequence_number ctx rq.
Proof.
  intros Hr Hv Henc.
  destruct (ready_keys ctx alg rq Hr) as (key & salt & seqn & Hk & _).
  exists key, salt, seqn. split; [done|]. destruct Hr as [_ _ _ _ _ Hty Hst].
  unfold libspdm_encode_secured_message in Henc.
  rewrite Hv, Hty, Hst, assert_true in Henc. cbn [negb mbind exec_bind] in Henc. rewrite Hk in Henc.
  fold (exhausted ctx seqn) in Henc. destruct (exhausted ctx seqn).
  { by injection Henc as <-. }
  do 5 (exec_inv Henc).
  destruct (increment_other ctx rq) as (H2 & _).
  set (c1 := increment_sequence_number ctx rq) in *. rewrite H2 in Henc.
  assert (Henc_ctx : ∀ cb sid k iv h n app off size msg msize rng e,
    encode_enc_mac c1 cb sid k iv h n app off size msg msize rng = Ret e → e_ctx e = c1).
  { clear. intros cb sid k iv h n app off size msg msize rng e He. unfold encode_enc_mac in He.
    destruct (if negb _ then _ else _) as [[ok rc] rng']. destruct ok; [|by injection He as <-].
    cbn [negb] in He. exec_inv He. destruct (msize <? _); [by injection He as <-|].
    exec_inv He. exec_inv He. destruct (libspdm_get_random_number rc rng') as [[ok pad] rng2].
    exec_inv He. destruct ok; cbn [negb] in He; [|by injection He as <-].
    do 2 exec_inv He. exec_inv He. destruct x5 as [[ok enc] tag]. do 2 exec_inv He.
    destruct ok; cbn [negb] in He; by injection He as <-. }
  assert (Hmac_ctx : ∀ sid k iv h n app off size msg msize rng e,
    encode_mac_only c1 sid k iv h n app off size msg msize rng = Ret e → e_ctx e = c1).
  { clear. intros sid k iv h n app off size msg msize rng e He. unfold encode_mac_only in He.
    exec_inv He. destruct (msize <? _); [by injection He as <-|].
    do 4 exec_inv He. exec_inv He. destruct x4 as [[ok enc] tag]. exec_inv He.
    destruct ok; cbn [negb] in He; by injection He as <-. }
  unfold session_type_ok in Hty. destruct (session_type ctx); try discriminate.
  - by eapply Hmac_ctx.
  - by eapply Henc_ctx.
Qed.

(** The nonce the next call in a direction would use, if it may. *)
Definition next_nonce ctx (rq : bool) : list (list Z) :=
  match select_keys ctx rq with
  | Some (_, salt, n) =>
      if exhausted ctx n then [] else [nonce n salt (sequence_number_endian ctx)]
  | None => []
  end.

(** A run of encodings in one direction, with any arguments, and the nonces it
    consumes, in order. *)
Inductive sends (cb : libspdm_secured_message_callbacks_t) (rq : bool) :
    libspdm_secured_message_context_t → list (list Z) → libspdm_secured_message_context_t → Prop :=
| sends_nil ctx : sends cb rq ctx [] ctx
| sends_cons ctx sid size app off msize msg rng e ns ctx' :
    libspdm_encode_secured_message ctx sid rq size app off msize msg cb rng = Ret e →
    sends cb rq (e_ctx e) ns ctx' →
    sends cb rq ctx (next_nonce ctx rq ++ ns) ctx'.

(** The nonces of the sequence numbers from [n], [k] of them. *)
Definition nonces_from (n : Z) (k : nat) (salt : list Z) (e : Z) : list (list Z) :=
  map (λ i, nonce (n + Z.of_nat i) salt e) (seq 0 k).

Lemma nonces_from_succ n k salt e :
  nonces_from n (S k) salt e = nonce n salt e :: nonces_from (n + 1) k salt e.
Proof.
  unfold nonces_from. cbn [seq map]. f_equal; [f_equal; lia|].
  rewrite <- seq_shift, map_map. apply map_ext. intros i. f_equal. lia.
Qed.

Lemma sends_nonces cb rq ctx ns ctx' alg key salt n :
  sends cb rq ctx ns ctx' → ready ctx alg → major_version_ok ctx cb = true →
  select_keys ctx rq = Some (key, salt, n) →
  ready ctx' alg ∧ ∃ k, ns = nonces_from n k salt (sequence_number_endian ctx) ∧
    select_keys ctx' rq = Some (key, salt, n + Z.of_nat k) ∧
    n + Z.of_nat k < 2 ^ 64 ∧
    (k ≠ 0%nat → n + Z.of_nat k - 1 ≤ max_spdm_session_sequence_number ctx).
Proof.
  intros Hs. revert key salt n. induction Hs as [ctx|ctx sid size app off msize msg rng e ns ctx' He Hs IH];
    intros key salt n Hr Hv Hk.
  - split; [done|]. exists 0%nat. split; [done|]. split; [by rewrite Z.add_0_r|].
    destruct (ready_keys ctx alg rq Hr) as (k' & s' & n' & Hk' & _ & _ & Hn).
    rewrite Hk in Hk'. injection Hk' as <- <- <-. unfold is_u64 in Hn. split; [lia|done].
  - destruct (encode_context _ _ _ _ _ _ _ _ _ _ _ _ Hr Hv He) as (k' & s' & n' & Hk' & Hc).
    rewrite Hk in Hk'. injection Hk' as <- <- <-. unfold next_nonce. rewrite Hk.
    destruct (exhausted ctx n) eqn:Hex.
    + destruct Hc as (_ & Hc & _). rewrite Hc in *. by apply IH.
    + rewrite Hc in *. pose proof (increment_ready ctx rq alg Hr) as Hr1.
      destruct (increment_keys ctx rq key salt n Hk) as [Hk1 _].
      destruct (increment_other ctx rq) as (_ & _ & _ & _ & _ & _ & E1 & E2 & E3 & _).
      destruct (ready_keys ctx alg rq Hr) as (k' & s' & n' & Hk' & _ & _ & Hn).
      rewrite Hk in Hk'. injection Hk' as <- <- <-.
      unfold exhausted, LIBSPDM_MAX_SPDM_SESSION_SEQUENCE_NUMBER in Hex.
      apply orb_false_elim in Hex as [Hx1 Hx2].
      apply Z.ltb_ge in Hx1. apply Z.eqb_neq in Hx2. unfold is_u64 in Hn.
      assert (Hu : u64 (n + 1) = n + 1) by (apply u64_small; unfold is_u64; lia).
      rewrite Hu in Hk1. unfold major_version_ok in *. rewrite E2 in IH.
      destruct (IH key salt (n + 1) Hr1 Hv Hk1) as (Hr' & k & -> & Hk2 & Hb & Hmax).
      split; [done|]. exists (S k). rewrite nonces_from_succ, E1.
      split; [done|]. rewrite E3 in Hmax.
      replace (n + Z.of_nat (S k)) with (n + 1 + Z.of_nat k) by lia.
      split; [done|]. split; [done|]. intros _.
      destruct k; [lia|]. apply Hmax. lia.
Qed.

Lemma nonces_from_nodup n k salt e :
  blen salt = 12 → 0 ≤ n → n + Z.of_nat k < 2 ^ 64 → NoDup (nonces_from n k salt e).
Proof.
  intros Hs Hn Hk. unfold nonces_from. apply NoDup_fmap_2_strong; [|apply NoDup_seq].
  intros i j Hi%elem_of_seq Hj%elem_of_seq Heq.
  apply nonce_inj in Heq; [lia|done|unfold is_u64; lia|unfold is_u64; lia].
Qed.

(** Peers that share the keys of a direction. *)
Record agree cs cr (rq : bool) : Prop := Agree {
  ag_type : session_type cr = session_type cs;
  ag_keys : select_keys cr rq = select_keys cs rq;
  ag_key_size : aead_key_size cr = aead_key_size cs;
  ag_endian : little (sequence_number_endian cr) = little (sequence_number_endian cs);
}.

Lemma sealed_agree cs cr alg cb rq sid e wire m :
  agree cs cr rq → sealed cs alg cb rq sid e wire m → sealed cr alg cb rq sid e wire m.
Proof.
  intros [H1' H2 H3 H4] (key & salt & n & Hk & Hs). exists key, salt, n.
  rewrite H2, H1', H3. by split.
Qed.

Lemma same_but_error_keys c c' rq : same_but_error c c' →
  select_keys c' rq = select_keys c rq ∧ session_type c' = session_type c ∧
  aead_key_size c' = aead_key_size c.
Proof. intros (e & err & He & ->). by split. Qed.

Lemma same_but_error_refl c rq : endian_ok (sequence_number_endian c) →
  same_but_error (increment_sequence_number c rq) (increment_sequence_number c rq).
Proof.
  intros He. destruct (increment_other c rq) as (_ & _ & _ & _ & _ & _ & H8 & _).
  exists (sequence_number_endian (increment_sequence_number c rq)),
    (last_spdm_error (increment_sequence_number c rq)).
  split; [apply may_settle_same; by rewrite H8|]. by destruct (increment_sequence_number c rq).
Qed.

Lemma is_u64_exhausted ctx n : is_u64 n → exhausted ctx n = false → is_u64 (n + 1).
Proof.
  unfold exhausted, LIBSPDM_MAX_SPDM_SESSION_SEQUENCE_NUMBER, is_u64.
  intros Hn [_ Hx%Z.eqb_neq]%orb_false_elim. lia.
Qed.

Lemma sealed_bytes ctx alg cb rq sid e wire m :
  cb_ok cb → bytes_ok m → sealed ctx alg cb rq sid e wire m → bytes_ok wire.
Proof.
  intros [Hcb _] Hm (key & salt & n & Hk & Hs). cbv zeta in Hs. destruct (Hcb n) as [_ Hsb].
  assert (Hh : ∀ z, bytes_ok (header sid (get_sequence_number cb n) z))
    by (intros z; unfold header; rewrite !bytes_ok_app; eauto with word).
  destruct (session_type ctx); try done.
  - destruct Hs as (c & tag & _ & _ & Henc & ->). rewrite !bytes_ok_app.
    split; [done|]. split; [done|].
    pose proof (encrypt_bytes alg (sub key 0 (aead_key_size ctx)) (nonce n salt e)
      (header sid (get_sequence_number cb n) (16 + blen m) ++ m) [] 16) as Hb.
    rewrite Henc in Hb. by apply Hb, Forall_nil_2.
  - destruct Hs as (pad & c & tag & _ & _ & Henc & -> & Hpb). rewrite !bytes_ok_app.
    pose proof (encrypt_bytes alg (sub key 0 (aead_key_size ctx)) (nonce n salt e)
      (header sid (get_sequence_number cb n) (18 + blen m + blen pad)) (enc_plaintext m pad) 16) as Hb.
    rewrite Henc in Hb. split; [done|]. apply Hb. unfold enc_plaintext.
    rewrite !bytes_ok_app. eauto with word.
Qed.

(** A receiver that agrees with the sender delivers what the sender sealed. *)
Lemma sealed_decodes cs cr alg cb rq sid e wire trail m key salt seqn asize app :
  ready cr alg → cb_ok cb → major_version_ok cr cb = true → agree cs cr rq →
  select_keys cs rq = Some (key, salt, seqn) → exhausted cr seqn = false →
  little e = little (sequence_number_endian cs) → is_u32 sid → bytes_ok m → bytes_ok trail →
  bytes_ok app → 2 ≤ asize → blen (wire ++ trail) ≤ asize ≤ blen app → asize < 2 ^ 64 →
  sealed cs alg cb rq sid e wire m →
  ∃ d, libspdm_decode_secured_message cr sid rq (blen (wire ++ trail)) (wire ++ trail)
         asize app cb = Ret d ∧
    d_status d = LIBSPDM_STATUS_SUCCESS ∧ delivered d (wire ++ trail) = m ∧
    within d (wire ++ trail) ∧ d_size d = blen m ∧ length (d_app d) = length app ∧
    select_keys (d_ctx d) rq = Some (key, salt, u64 (seqn + 1)) ∧
    last_spdm_error (d_ctx d) = Build_error_struct 0 0 ∧
    same_but_error (increment_sequence_number cr rq) (d_ctx d).
Proof.
  intros Hr Hcb Hv Hag Hk Hx Hle Hsid Hbm Hbt Hba Ha2 Ha H64 Hseal.
  assert (Hwb : bytes_ok wire) by (by apply (sealed_bytes cs alg cb rq sid e wire m)).
  pose proof Hag as [_ Hagk _ Hage]. rewrite <- Hagk in Hk.
  destruct (decode_spec cr cb sid rq (wire ++ trail) (blen (wire ++ trail)) asize app alg key salt
    seqn) as (d & Ed & Hld & Hd); try done; try lia; [apply bytes_ok_app; by split|].
  rewrite Hx in Hd. destruct Hd as (Hsame & Hout & Hcomp). exists d. split; [done|].
  destruct (Hcomp e wire m) as [D1 D2].
  - by rewrite Hage.
  - split; [rewrite length_app; lia|]. unfold sub. rewrite Nat2Z.id, drop_0.
    by rewrite take_app_length.
  - by apply (sealed_agree cs).
  - destruct (increment_keys cr rq key salt seqn Hk) as [K2 _].
    destruct (same_but_error_keys _ _ rq Hsame) as (-> & _).
    unfold outcome in Hout. rewrite D1, D2 in Hout.
    destruct Hout as [(_ & O1 & O2 & _)|[([|] & _)|[(? & _)|(? & _)]]]; try done.
    rewrite <- (within_delivered _ _ O2), D2. done.
Qed.

End facts.
End RunFacts.

(** ** The component's properties *)
Module SecuredMessageProps.
Import ContextFacts NonceFacts PacketFacts RunFacts ToyHal.


Definition toy_callbacks : libspdm_secured_message_callbacks_t :=
  Build_secured_message_callbacks (λ n, le_bytes 2 n) 32 (λ v, v).

Definition toy_algorithms : libspdm_secured_message_context_t :=
  libspdm_secured_message_set_algorithms libspdm_secured_message_init_context
    0x1200 0x1100 SPDM_ALGORITHMS_BASE_HASH_ALGO_TPM_ALG_SHA_256
    SPDM_ALGORITHMS_DHE_NAMED_GROUP_SECP_256_R1 0
    SPDM_ALGORITHMS_AEAD_CIPHER_SUITE_AES_256_GCM 0.

Definition toy_session : libspdm_secured_message_context_t :=
  toy_algorithms
  <| session_type := LIBSPDM_SESSION_TYPE_ENC_MAC |>
  <| session_state := LIBSPDM_SESSION_STATE_ESTABLISHED |>
  <| max_spdm_session_sequence_number := LIBSPDM_MAX_SPDM_SESSION_SEQUENCE_NUMBER |>.

(** Entering an established, encrypting session. *)
Lemma established_ready c alg :
  ctx_wf c → aead_of_suite (aead_cipher_suite c) = Some alg → aead_iv_size c = 12 →
  aead_tag_size c = 16 → endian_ok (sequence_number_endian c) →
  ready (c <| session_type := LIBSPDM_SESSION_TYPE_ENC_MAC |>
           <| session_state := LIBSPDM_SESSION_STATE_ESTABLISHED |>
           <| max_spdm_session_sequence_number := LIBSPDM_MAX_SPDM_SESSION_SEQUENCE_NUMBER |>) alg.
Proof. intros Hw Hs Hi Ht He. split; done. Qed.

Lemma toy_algorithms_wf : ctx_wf toy_algorithms.
Proof. apply set_algorithms_wf, init_wf. Qed.

Lemma toy_session_ready : ready toy_session AES_GCM.
Proof.
  apply (established_ready toy_algorithms AES_GCM toy_algorithms_wf eq_refl eq_refl eq_refl).
  unfold endian_ok. cbn. lia.
Qed.

Lemma toy_callbacks_ok : cb_ok toy_callbacks.
Proof. split; [intros s; split; [cbn; lia|apply (le_bytes_ok 2)]|cbn; lia]. Qed.


(** C5: decoding is safe and authentic on every input: for any received bytes
    under any claimed size that fits the memory, it reads and writes only
    inside its buffers and always returns; the delivered message lies inside its
    buffer.  It succeeds only on a packet that
    the AEAD produces from the delivered message under the direction's key, the
    session id and the nonce of the expected sequence number (in the context's
    endianness, or the other one while that is undetermined); every other input
    is a size or field error or a decryption failure, recorded for the session
    in last_spdm_error, or SESSION_TRY_DISCARD_KEY_UPDATE, unrecorded, when a
    key-update backup is valid.  Either way one sequence number is consumed;
    when the numbers are exhausted none is and the call is refused. *)
Theorem decode_safe_authentic `{BuildConfig, CryptoHal, !CryptoHalOk}
    (ctx : libspdm_secured_message_context_t) (cb : libspdm_secured_message_callbacks_t)
    (sid msize asize : Z) (rq : bool) (app msg key salt : list Z) (seqn : Z) (alg : aead_alg)
    (Hr : ready ctx alg) (Hcb : cb_ok cb) (Hv : major_version_ok ctx cb = true)
    (Hk : select_keys ctx rq = Some (key, salt, seqn))
    (Hm : 0 ≤ msize ≤ blen msg) (H64 : msize < 2 ^ 64) (Hb : bytes_ok msg) (Hsid : is_u32 sid)
    (Has : msize ≤ asize) (Ha : 2 ≤ asize ≤ blen app) (Hba : bytes_ok app) :
  ∃ d, libspdm_decode_secured_message ctx sid rq msize msg asize app cb = Ret d ∧
    length (d_app d) = length app ∧
    if exhausted ctx seqn then
      d_status d = LIBSPDM_STATUS_SEQUENCE_NUMBER_OVERFLOW ∧
      d_ctx d = ctx <| last_spdm_error := Build_error_struct SPDM_ERROR_CODE_DECRYPT_ERROR sid |>
    else
      select_keys (d_ctx d) rq = Some (key, salt, seqn + 1) ∧
      select_keys (d_ctx d) (negb rq) = select_keys ctx (negb rq) ∧
      outcome (ctx <| last_spdm_error := Build_error_struct 0 0 |>) sid rq d
        (within d msg ∧ ∃ e wire, may_use ctx seqn e ∧ received msg msize wire ∧
           sealed ctx alg cb rq sid e wire (delivered d msg)).
Proof.
  destruct (decode_spec ctx cb sid rq msg msize asize app alg key salt seqn)
    as (d & E & Hl & Hd); try done.
  exists d. split; [done|]. split; [done|]. destruct (exhausted ctx seqn) eqn:Hx; [done|].
  destruct Hd as (Hsame & Hout & _).
  destruct (increment_keys ctx rq key salt seqn Hk) as [K1 K2].
  destruct (ready_keys ctx alg rq Hr) as (k' & s' & n' & Hk' & _ & _ & Hn).
  rewrite Hk in Hk'. injection Hk' as <- <- <-.
  rewrite u64_small in K1 by (by eapply is_u64_exhausted).
  destruct (same_but_error_keys _ _ rq Hsame) as (-> & _).
  destruct (same_but_error_keys _ _ (negb rq) Hsame) as (-> & _).
  split; [done|]. split; [done|]. unfold outcome in *.
  destruct Hout as [(O1 & O2 & O0 & e & w & O3 & _ & O4 & O5)|Hout]; [left|by right].
  split; [done|]. split; [done|]. split; [done|]. by exists e, w.
Qed.

Lemma decode_safe_authentic_witness :
  ∃ d, @libspdm_decode_secured_message default_build toy_hal toy_session 1 true 6 [1; 0; 0; 0; 7; 7]
         8 (zeros 8) toy_callbacks = Ret d ∧ d_status d = LIBSPDM_STATUS_INVALID_MSG_SIZE.
Proof.
  destruct (@decode_safe_authentic default_build toy_hal toy_hal_ok toy_session toy_callbacks 1 6 8
    true (zeros 8) [1; 0; 0; 0; 7; 7] (zeros 32) (zeros 12) 0 AES_GCM toy_session_ready
    toy_callbacks_ok eq_refl eq_refl) as (d & E & _).
  - cbn. lia.
  - lia.
  - repeat constructor; cbn; lia.
  - unfold is_u32. lia.
  - lia.
  - rewrite length_zeros. lia.
  - apply bytes_ok_replicate0.
  - exists d. split; [exact E|].
    assert (Hst : match @libspdm_decode_secured_message default_build toy_hal toy_session 1 true 6
      [1; 0; 0; 0; 7; 7] 8 (zeros 8) toy_callbacks with
      | Ret d' => d_status d' = LIBSPDM_STATUS_INVALID_MSG_SIZE | Fault _ => False end)
      by (vm_compute; reflexivity).
    rewrite E in Hst. exact Hst.
Defined.

(** C4: secured messages round-trip: a receiver that shares the sender's keys,
    session type and sequence-number endianness for a direction decodes
    successfully whatever the sender encoded successfully, even with trailing
    bytes after it, and obtains exactly the application message; afterwards
    the two still share the keys, at the next sequence number. *)
Theorem secured_message_roundtrip `{BuildConfig, CryptoHal, !CryptoHalOk}
    (cs cr : libspdm_secured_message_context_t) (cb : libspdm_secured_message_callbacks_t)
    (sid size off msize asize : Z) (rq : bool) (app msg app' trail key salt : list Z) (seqn : Z)
    (rng : rng_state) (alg : aead_alg)
    (Hrs : ready cs alg) (Hrr : ready cr alg) (Hag : agree cs cr rq)
    (Hcb : cb_ok cb) (Hvs : major_version_ok cs cb = true) (Hvr : major_version_ok cr cb = true)
    (Hk : select_keys cs rq = Some (key, salt, seqn))
    (Hxs : exhausted cs seqn = false) (Hxr : exhausted cr seqn = false)
    (Hsid : is_u32 sid) (Hba : bytes_ok app) (Hbm : bytes_ok msg) (Hbt : bytes_ok trail)
    (Hba' : bytes_ok app') (Ho : 2 ≤ off) (Hs : 0 ≤ size)
    (Ha : off + size + max_padding cb ≤ blen app)
    (Hm : 32 + size + max_padding cb ≤ msize) (Hb : msize ≤ blen msg)
    (H16 : 18 + size + max_padding cb < 2 ^ 16)
    (Has : msize + blen trail ≤ asize ≤ blen app') (H64 : asize < 2 ^ 64) :
  ∃ e, libspdm_encode_secured_message cs sid rq size app off msize msg cb rng = Ret e ∧
    (no_seal (e_status e) ∨
     e_status e = LIBSPDM_STATUS_SUCCESS ∧
     let wire := sub (e_msg e) 0 (e_size e) in
     ∃ d, libspdm_decode_secured_message cr sid rq (blen (wire ++ trail)) (wire ++ trail)
            asize app' cb = Ret d ∧
       d_status d = LIBSPDM_STATUS_SUCCESS ∧ delivered d (wire ++ trail) = sub app off size ∧
       select_keys (e_ctx e) rq = Some (key, salt, seqn + 1) ∧
       select_keys (d_ctx d) rq = Some (key, salt, seqn + 1)).
Proof.
  destruct (encode_spec cs cb sid rq app off size msg msize rng alg key salt seqn)
    as (e & E & Hc & Hl & Ho'); try done.
  exists e. split; [done|]. destruct Ho' as [?|(Hst & Hsz & Hsz0 & Hseal)]; [by left|].
  right. split; [done|]. intros wire.
  assert (Hwb : bytes_ok wire) by (eapply sealed_bytes; [done| |done]; auto with word).
  assert (Hmp : 0 ≤ max_padding cb) by (destruct Hcb; unfold max_padding; lia).
  assert (Hlw : blen wire = e_size e) by (unfold wire; rewrite length_sub by range; lia).
  destruct (sealed_decodes cs cr alg cb rq sid (sequence_number_endian cs) wire trail
    (sub app off size) key salt seqn asize app') as (d & Ed & D1 & D2 & _ & _ & _ & D3 & _);
    try done; try (rewrite length_app; lia); auto with word; try lia.
  exists d. split; [done|]. split; [done|]. split; [done|].
  destruct (increment_keys cs rq key salt seqn Hk) as [K1 _].
  destruct (ready_keys cs alg rq Hrs) as (k' & s' & n' & Hk'' & _ & _ & Hn).
  rewrite Hk in Hk''. injection Hk'' as <- <- <-.
  rewrite u64_small in K1, D3 by (by eapply is_u64_exhausted). by rewrite Hc.
Qed.

Lemma secured_message_roundtrip_witness :
  ∃ e d, @libspdm_encode_secured_message default_build toy_hal toy_session 0xffff0001 true 3
         ([0; 0; 7; 8; 9] ++ zeros 40) 2 80 (zeros 100) toy_callbacks 5 = Ret e ∧
       @libspdm_decode_secured_message default_build toy_hal toy_session 0xffff0001 true
         (blen (sub (e_msg e) 0 (e_size e) ++ [0])) (sub (e_msg e) 0 (e_size e) ++ [0])
         100 (zeros 100) toy_callbacks = Ret d ∧
       delivered d (sub (e_msg e) 0 (e_size e) ++ [0]) = [7; 8; 9].
Proof.
  destruct (@secured_message_roundtrip default_build toy_hal toy_hal_ok toy_session toy_session
    toy_callbacks 0xffff0001 3 2 80 100 true ([0; 0; 7; 8; 9] ++ zeros 40) (zeros 100) (zeros 100)
    [0] (zeros 32) (zeros 12) 0 5 AES_GCM toy_session_ready toy_session_ready
    (Agree _ _ _ eq_refl eq_refl eq_refl eq_refl)
    toy_callbacks_ok eq_refl eq_refl eq_refl eq_refl eq_refl) as (e & E & Hs).
  - unfold is_u32. lia.
  - repeat constructor; cbn; lia.
  - apply bytes_ok_replicate0.
  - repeat constructor; cbn; lia.
  - apply bytes_ok_replicate0.
  - lia.
  - lia.
  - vm_compute. discriminate.
  - vm_compute. discriminate.
  - rewrite length_zeros. lia.
  - vm_compute. reflexivity.
  - rewrite length_zeros. cbn. lia.
  - lia.
  - assert (Hst : match @libspdm_encode_secured_message default_build toy_hal toy_session 0xffff0001
      true 3 ([0; 0; 7; 8; 9] ++ zeros 40) 2 80 (zeros 100) toy_callbacks 5 with
      | Ret e' => e_status e' = LIBSPDM_STATUS_SUCCESS | Fault _ => False end)
      by (vm_compute; reflexivity).
    rewrite E in Hst. rewrite Hst in Hs.
    destruct Hs as [[[Hs _]|[Hs _]]|(_ & d & D1 & _ & D2 & _)]; [discriminate|discriminate|].
    exists e, d. split; [exact E|]. split; [exact D1|exact D2].
Defined.



(** The AEAD nonce of DSP0277: for a 12-byte salt generate_iv faults for
    none of the four endianness settings and gives the salt XORed with the
    sequence number, at the low indices in little endian and at the high
    indices, most significant byte first, in big endian; so two sequence
    numbers never give the same nonce, and number 0 gives the salt in both. *)
Theorem generate_iv_nonce `{BuildConfig} (s1 s2 : Z) (salt : list Z) (e : Z)
    (Hs : blen salt = 12) (He : endian_ok e) (H1 : is_u64 s1) (H2 : is_u64 s2) :
  generate_iv s1 salt 12 e = Ret (nonce s1 salt e) ∧
  (generate_iv s1 salt 12 e = generate_iv s2 salt 12 e → s1 = s2) ∧
  generate_iv 0 salt 12 e = Ret salt.
Proof.
  rewrite !generate_iv_spec by done. split; [done|]. split.
  - intros [= Heq]. by apply (nonce_inj s1 s2 salt e).
  - f_equal. unfold nonce.
    change (le_bytes 8 0) with (replicate 8 0). change (zeros 4) with (replicate 4 0).
    change (rev (replicate 8 0)) with (replicate 8 0).
    case_if; change (replicate 8 0 ++ replicate 4 0) with (replicate 12 0);
      change (replicate 4 0 ++ replicate 8 0) with (replicate 12 0); apply lxor_zeros; lia.
Qed.

Lemma generate_iv_nonce_witness :
  @generate_iv 0x0102 (replicate 12 0) 12 2 = Ret [0; 0; 0; 0; 0; 0; 0; 0; 0; 0; 1; 2].
Proof.
  rewrite (proj1 (@generate_iv_nonce default_build 0x0102 0 (replicate 12 0) 2
    eq_refl ltac:(unfold endian_ok; lia) ltac:(unfold is_u64; lia) ltac:(unfold is_u64; lia))).
  vm_compute. reflexivity.
Defined.

End SecuredMessageProps.
