(* ===== verification/SpdmContext.v ===== *)
(** * SpdmContext: the connection context

    The fields of libspdm_context_t (include/internal/libspdm_common_lib.h)
    that the modelled components read or write, and the capability checks of
    libspdm_com_context_data.c.  Fields that a nested structure shares with
    another record carry the structure's initials as a prefix. *)

From S2P Require Import Prelude SpdmDefs CommonSupport SecuredContext.

Export ManagedBuffer.

(** ** Nested structures *)

Record libspdm_device_capability_t : Set := Build_device_capability {
  ct_exponent : Z;
  rtt : Z;
  st1 : Z;
  flags : Z;
  ext_flags : Z;
  data_transfer_size : Z;
  sender_data_transfer_size : Z;
  max_spdm_msg_size : Z;
  transport_header_size : Z;
  transport_tail_size : Z;
}.

#[export] Instance eta_device_capability : Eta libspdm_device_capability_t := λ r,
  Build_device_capability (ct_exponent r) (rtt r) (st1 r) (flags r) (ext_flags r)
    (data_transfer_size r) (sender_data_transfer_size r) (max_spdm_msg_size r)
    (transport_header_size r) (transport_tail_size r).

(** Zeroed structures. *)
Definition zero_capability : libspdm_device_capability_t :=
  Build_device_capability 0 0 0 0 0 0 0 0 0 0.

Record libspdm_device_algorithm_t : Set := Build_device_algorithm {
  da_measurement_spec : Z;
  da_other_params_support : Z;
  da_mel_spec : Z;
  da_measurement_hash_algo : Z;
  da_base_asym_algo : Z;
  da_base_hash_algo : Z;
  da_dhe_named_group : Z;
  da_aead_cipher_suite : Z;
  da_req_base_asym_alg : Z;
  da_key_schedule : Z;
  da_pqc_asym_algo : Z;
  da_req_pqc_asym_alg : Z;
  da_kem_alg : Z;
  da_pqc_first : bool;
}.
#[export] Instance eta_device_algorithm : Eta libspdm_device_algorithm_t := λ r,
  Build_device_algorithm (da_measurement_spec r) (da_other_params_support r) (da_mel_spec r)
    (da_measurement_hash_algo r) (da_base_asym_algo r) (da_base_hash_algo r) (da_dhe_named_group r)
    (da_aead_cipher_suite r) (da_req_base_asym_alg r) (da_key_schedule r) (da_pqc_asym_algo r)
    (da_req_pqc_asym_alg r) (da_kem_alg r) (da_pqc_first r).

Definition zero_algorithm : libspdm_device_algorithm_t :=
  Build_device_algorithm 0 0 0 0 0 0 0 0 0 0 0 0 0 false.

Inductive libspdm_encap_flow_type_t : Set :=
| LIBSPDM_ENCAP_FLOW_NONE
| LIBSPDM_ENCAP_FLOW_BASIC_MUT_AUTH
| LIBSPDM_ENCAP_FLOW_SESS_MUT_AUTH
| LIBSPDM_ENCAP_FLOW_GENERAL.
#[export] Instance encap_flow_type_eq_dec : EqDecision libspdm_encap_flow_type_t.
Proof. solve_decision. Defined.

(** spdm_error_data_response_not_ready_t *)
Record spdm_error_data_response_not_ready_t : Set := Build_response_not_ready {
  rd_exponent : Z;
  request_code : Z;
  token : Z;
  rd_tm : Z;
}.

(** A message header: version, code, param1, param2. *)
Record spdm_message_header_t : Set := Build_message_header {
  spdm_version : Z;
  request_response_code : Z;
  param1 : Z;
  param2 : Z;
}.

Record libspdm_encap_context_t : Type := Build_encap_context {
  request_id : Z;
  req_slot_id : Z;
  mut_auth_req_slot_id : Z;
  last_encap_request_header : spdm_message_header_t;
  last_encap_request_size : Z;
  req_context : list Z;
  req_attributes : Z;
  cert_chain_total_len : Z;
  payload_buffer : option Z;
  payload_buffer_size : Z;
  payload_buffer_max_size : Z;
  use_large_cert_chain : bool;
  flow_type : libspdm_encap_flow_type_t;
  response_not_ready : bool;
  response_not_ready_flow_type : libspdm_encap_flow_type_t;
  response_not_ready_data : spdm_error_data_response_not_ready_t;
}.
#[export] Instance eta_encap_context : Eta libspdm_encap_context_t := λ r,
  Build_encap_context (request_id r) (req_slot_id r) (mut_auth_req_slot_id r)
    (last_encap_request_header r) (last_encap_request_size r) (req_context r) (req_attributes r)
    (cert_chain_total_len r) (payload_buffer r) (payload_buffer_size r)
    (payload_buffer_max_size r) (use_large_cert_chain r) (flow_type r) (response_not_ready r)
    (response_not_ready_flow_type r) (response_not_ready_data r).

(** A context of zero bytes. *)
Definition zero_encap_context : libspdm_encap_context_t :=
  Build_encap_context 0 0 0 (Build_message_header 0 0 0 0) 0 (zeros 8) 0 0 None 0 0 false
    LIBSPDM_ENCAP_FLOW_NONE false LIBSPDM_ENCAP_FLOW_NONE (Build_response_not_ready 0 0 0 0).

(** Digest contexts are handles of the HAL; NULL is [None].  The context of the TH
    hash and its backup, whose digests the session-opening messages use, are given
    by what the HAL documents them to hold: the bytes hashed so far. *)
Record libspdm_session_transcript_t : Type := Build_session_transcript {
  message_encap_d : libspdm_managed_buffer_t;
  encap_digest_window_closed : bool;
  message_f_initialized : bool;
  digest_context_th : option (list Z);             (* the bytes hashed so far *)
  digest_context_l1l2 : option Z;
  digest_context_il1il2 : option Z;
  digest_context_encap_il1il2 : option Z;
  digest_context_th_backup : option (list Z);
}.
#[export] Instance eta_session_transcript : Eta libspdm_session_transcript_t := λ r,
  Build_session_transcript (message_encap_d r) (encap_digest_window_closed r)
    (message_f_initialized r) (digest_context_th r) (digest_context_l1l2 r)
    (digest_context_il1il2 r) (digest_context_encap_il1il2 r) (digest_context_th_backup r).

Record libspdm_session_info_t : Type := Build_session_info {
  session_id : Z;
  si_use_psk : bool;
  mut_auth_requested : Z;
  end_session_attributes : Z;
  session_policy : Z;
  heartbeat_period : Z;
  session_transcript : libspdm_session_transcript_t;
  last_key_update_request : spdm_message_header_t;
  secured_message_context : libspdm_secured_message_context_t;
  local_used_cert_chain_slot_id : Z;
  peer_used_cert_chain_slot_id : Z;
  si_encap_context : libspdm_encap_context_t;
}.
#[export] Instance eta_session_info : Eta libspdm_session_info_t := λ r,
  Build_session_info (session_id r) (si_use_psk r) (mut_auth_requested r)
    (end_session_attributes r) (session_policy r) (heartbeat_period r) (session_transcript r)
    (last_key_update_request r) (secured_message_context r) (local_used_cert_chain_slot_id r)
    (peer_used_cert_chain_slot_id r) (si_encap_context r).

Inductive libspdm_connection_state_t : Set :=
| LIBSPDM_CONNECTION_STATE_NOT_STARTED
| LIBSPDM_CONNECTION_STATE_AFTER_VERSION
| LIBSPDM_CONNECTION_STATE_AFTER_CAPABILITIES
| LIBSPDM_CONNECTION_STATE_NEGOTIATED
| LIBSPDM_CONNECTION_STATE_AFTER_DIGESTS
| LIBSPDM_CONNECTION_STATE_AFTER_CERTIFICATE
| LIBSPDM_CONNECTION_STATE_AUTHENTICATED
| LIBSPDM_CONNECTION_STATE_MAX.
#[export] Instance connection_state_eq_dec : EqDecision libspdm_connection_state_t.
Proof. solve_decision. Defined.

(** The numbers of the enumeration, for the comparisons. *)
Definition connection_state_num (s : libspdm_connection_state_t) : Z :=
  match s with
  | LIBSPDM_CONNECTION_STATE_NOT_STARTED => 0
  | LIBSPDM_CONNECTION_STATE_AFTER_VERSION => 1
  | LIBSPDM_CONNECTION_STATE_AFTER_CAPABILITIES => 2
  | LIBSPDM_CONNECTION_STATE_NEGOTIATED => 3
  | LIBSPDM_CONNECTION_STATE_AFTER_DIGESTS => 4
  | LIBSPDM_CONNECTION_STATE_AFTER_CERTIFICATE => 5
  | LIBSPDM_CONNECTION_STATE_AUTHENTICATED => 6
  | LIBSPDM_CONNECTION_STATE_MAX => 7
  end.

Inductive libspdm_response_state_t : Set :=
| LIBSPDM_RESPONSE_STATE_NORMAL
| LIBSPDM_RESPONSE_STATE_BUSY
| LIBSPDM_RESPONSE_STATE_NOT_READY
| LIBSPDM_RESPONSE_STATE_NEED_RESYNC
| LIBSPDM_RESPONSE_STATE_MAX.
#[export] Instance response_state_eq_dec : EqDecision libspdm_response_state_t.
Proof. solve_decision. Defined.

(** libspdm_transcript_t of a build that records running digests. *)
Record libspdm_transcript_t : Type := Build_transcript {
  tr_message_a : libspdm_managed_buffer_t;
  tr_message_d : libspdm_managed_buffer_t;
  tr_digest_context_m1m2 : option Z;
  tr_digest_context_mut_m1m2 : option Z;
  tr_digest_context_l1l2 : option Z;
  tr_digest_context_il1il2 : option Z;
  tr_digest_context_encap_il1il2 : option Z;
}.
#[export] Instance eta_transcript : Eta libspdm_transcript_t := λ r,
  Build_transcript (tr_message_a r) (tr_message_d r) (tr_digest_context_m1m2 r) (tr_digest_context_mut_m1m2 r)
    (tr_digest_context_l1l2 r) (tr_digest_context_il1il2 r) (tr_digest_context_encap_il1il2 r).

Inductive libspdm_key_update_operation_t : Set :=
| LIBSPDM_KEY_UPDATE_OPERATION_CREATE_UPDATE
| LIBSPDM_KEY_UPDATE_OPERATION_COMMIT_UPDATE
| LIBSPDM_KEY_UPDATE_OPERATION_DISCARD_UPDATE.

(** The calls of the callbacks the integrator registered, which see the context
    and are not to change it; they are recorded in their order. *)
Inductive notification : Set :=
| ConnectionState (s : libspdm_connection_state_t)
| KeyUpdated (session_id : Z) (op : libspdm_key_update_operation_t)
    (action : libspdm_key_update_action_t)
| MeasLogReset (session_id : option Z)
| SessionState (session_id : Z) (s : libspdm_session_state_t)
| WatchdogStart (session_id timeout : Z)
| WatchdogReset (session_id : Z)
| WatchdogStop (session_id : Z).

(** A chunk transfer: large_message is the second section of the scratch buffer,
    or NULL. *)
Record libspdm_chunk_info_t : Set := Build_chunk_info {
  chunk_in_use : bool;
  chunk_handle : Z;
  chunk_seq_no : Z;
  chunk_bytes_transferred : Z;
  large_message : bool;                            (* not NULL *)
  large_message_size : Z;
  large_message_capacity : Z;
}.
#[export] Instance eta_chunk_info : Eta libspdm_chunk_info_t := λ r,
  Build_chunk_info (chunk_in_use r) (chunk_handle r) (chunk_seq_no r) (chunk_bytes_transferred r)
    (large_message r) (large_message_size r) (large_message_capacity r).

(** The first four sections of the scratch buffer; the last two are the fields
    last_spdm_request and cache_spdm_request.  An access that leaves its section
    is an access out of bounds. *)
Record libspdm_scratch_t : Set := Build_scratch {
  secure_message_section : list Z;
  large_message_section : list Z;
  sender_receiver_section : list Z;
  large_sender_receiver_section : list Z;
}.
#[export] Instance eta_scratch : Eta libspdm_scratch_t := λ r,
  Build_scratch (secure_message_section r) (large_message_section r) (sender_receiver_section r)
    (large_sender_receiver_section r).

(** libspdm_peer_used_cert_chain_t of such a build; the key is a handle of the HAL. *)
Record libspdm_peer_used_cert_chain_t : Set := Build_peer_used_cert_chain {
  buffer_hash : list Z;
  buffer_hash_size : Z;
  leaf_cert_public_key : option Z;
}.
#[export] Instance eta_peer_used_cert_chain : Eta libspdm_peer_used_cert_chain_t := λ r,
  Build_peer_used_cert_chain (buffer_hash r) (buffer_hash_size r) (leaf_cert_public_key r).

(** The fields of the context that the processing of messages reads and writes. *)
Record libspdm_exchange_t : Type := Build_exchange {
  connection_state : libspdm_connection_state_t;   (* connection_info.connection_state *)
  digest_transcript_window_closed : bool;          (* connection_info. ... *)
  transcript : libspdm_transcript_t;
  response_state : libspdm_response_state_t;
  error_data : spdm_error_data_response_not_ready_t;
  current_token : Z;
  last_spdm_request : list Z;                      (* its section of the scratch buffer *)
  last_spdm_request_size : Z;
  cache_spdm_request : list Z;                     (* its section of the scratch buffer *)
  cache_spdm_request_size : Z;
  cache_spdm_request_session_id_valid : bool;
  cache_spdm_request_session_id : Z;
  crypto_request : bool;
  retry_times : Z;
  spdm_connection_state_callback : bool;           (* not NULL *)
  spdm_key_update_callback : bool;                 (* not NULL *)
  spdm_meas_log_reset_callback : bool;             (* not NULL *)
  notifications : list notification;
  spdm_session_state_callback : bool;              (* not NULL *)
  ci_end_session_attributes : Z;                   (* connection_info.end_session_attributes *)
  handle_error_return_policy : Z;
  scratch : libspdm_scratch_t;                     (* scratch_buffer *)
  chunk_send : libspdm_chunk_info_t;               (* chunk_context.send *)
  chunk_get : libspdm_chunk_info_t;                (* chunk_context.get *)
  multi_key_conn_req : bool;                       (* connection_info. ... *)
  multi_key_conn_rsp : bool;
  peer_used_cert_chain : list libspdm_peer_used_cert_chain_t;
  spdm_10_11_verify_signature_endian : Z;
  spdm_10_11_verify_signature_endian_setting : Z;
  local_cert_chain_provision : list (option (list Z)); (* local_context. ..., by slot *)
  local_public_key_provision : option (list Z);    (* local_context. ... *)
  peer_public_key_provision : option (list Z);     (* local_context. ... *)
  lc_heartbeat_period : Z;                         (* local_context.heartbeat_period *)
}.
#[export] Instance eta_exchange : Eta libspdm_exchange_t := λ r,
  Build_exchange (connection_state r) (digest_transcript_window_closed r) (transcript r)
    (response_state r) (error_data r) (current_token r) (last_spdm_request r)
    (last_spdm_request_size r) (cache_spdm_request r) (cache_spdm_request_size r)
    (cache_spdm_request_session_id_valid r) (cache_spdm_request_session_id r) (crypto_request r)
    (retry_times r) (spdm_connection_state_callback r) (spdm_key_update_callback r)
    (spdm_meas_log_reset_callback r) (notifications r) (spdm_session_state_callback r)
    (ci_end_session_attributes r) (handle_error_return_policy r) (scratch r) (chunk_send r)
    (chunk_get r) (multi_key_conn_req r) (multi_key_conn_rsp r) (peer_used_cert_chain r)
    (spdm_10_11_verify_signature_endian r) (spdm_10_11_verify_signature_endian_setting r)
    (local_cert_chain_provision r) (local_public_key_provision r) (peer_public_key_provision r)
    (lc_heartbeat_period r).

(** ** The context *)

Record libspdm_context_t : Type := Build_context {
  lc_is_requester : bool;                          (* local_context.is_requester *)
  lc_capability : libspdm_device_capability_t;     (* local_context.capability *)
  lc_version : list Z;                             (* the first spdm_version_count entries *)
  lc_algorithm : libspdm_device_algorithm_t;       (* local_context.algorithm *)
  lc_secured_message_version : list Z;             (* its first secured_message_version_count entries *)
  ci_version : Z;                                  (* connection_info.version *)
  ci_capability : libspdm_device_capability_t;     (* connection_info.capability *)
  ci_algorithm : libspdm_device_algorithm_t;       (* connection_info.algorithm *)
  last_spdm_request_session_id : Z;
  last_spdm_request_session_id_valid : bool;
  encap_context : libspdm_encap_context_t;
  session_info : list libspdm_session_info_t;
  latest_session_id : Z;
  max_dhe_session_count : Z;
  max_psk_session_count : Z;
  current_dhe_session_count : Z;
  current_psk_session_count : Z;
  sc_max_spdm_session_sequence_number : Z;         (* max_spdm_session_sequence_number *)
  sc_sequence_number_endian : Z;                   (* sequence_number_endian *)
  sc_last_spdm_error : libspdm_error_struct_t;     (* last_spdm_error *)
  exchange : libspdm_exchange_t;
}.
#[export] Instance eta_context : Eta libspdm_context_t := λ r,
  Build_context (lc_is_requester r) (lc_capability r) (lc_version r) (lc_algorithm r)
    (lc_secured_message_version r) (ci_version r) (ci_capability r)
    (ci_algorithm r) (last_spdm_request_session_id r) (last_spdm_request_session_id_valid r)
    (encap_context r) (session_info r) (latest_session_id r) (max_dhe_session_count r)
    (max_psk_session_count r) (current_dhe_session_count r) (current_psk_session_count r)
    (sc_max_spdm_session_sequence_number r) (sc_sequence_number_endian r)
    (sc_last_spdm_error r) (exchange r).

(** A context as its fields. *)
Ltac destruct_context ctx :=
  destruct ctx as [? ? ? ? ? ? ? ? ? ? ? ? ? ? ? ? ? ? ? ? [? ? ? ? ? ? ? ? ? ? ? ? ? ? ? ? ? ? ? ? ? ? ? ? ? ? ? ? ? ? ? ? ?]].

Definition libspdm_get_last_spdm_error_struct (ctx : libspdm_context_t) : libspdm_error_struct_t :=
  sc_last_spdm_error ctx.

Definition libspdm_set_last_spdm_error_struct (ctx : libspdm_context_t)
    (e : libspdm_error_struct_t) : libspdm_context_t :=
  ctx <| sc_last_spdm_error := e |>.

(** ** Capability checks *)
Module Capabilities.
Implicit Types ctx : libspdm_context_t.

Definition libspdm_get_connection_version ctx : Z :=
  libspdm_get_version_from_version_number (ci_version ctx).

Definition libspdm_is_capabilities_flag_supported ctx (is_requester : bool)
    (requester_capabilities_flag responder_capabilities_flag : Z) : bool :=
  let local := flags (lc_capability ctx) in
  let peer := flags (ci_capability ctx) in
  let negotiated_requester_capabilities_flag := if is_requester then local else peer in
  let negotiated_responder_capabilities_flag := if is_requester then peer else local in
  ((requester_capabilities_flag =? 0)
   || negb (Z.land negotiated_requester_capabilities_flag requester_capabilities_flag =? 0))
  && ((responder_capabilities_flag =? 0)
      || negb (Z.land negotiated_responder_capabilities_flag responder_capabilities_flag =? 0)).

Definition libspdm_is_capabilities_ext_flag_supported ctx (is_requester : bool)
    (requester_capabilities_ext_flag responder_capabilities_ext_flag : Z) : bool :=
  let local := ext_flags (lc_capability ctx) in
  let peer := ext_flags (ci_capability ctx) in
  let negotiated_requester_capabilities_ext_flag := if is_requester then local else peer in
  let negotiated_responder_capabilities_ext_flag := if is_requester then peer else local in
  ((requester_capabilities_ext_flag =? 0)
   || negb (Z.land negotiated_requester_capabilities_ext_flag requester_capabilities_ext_flag =? 0))
  && ((responder_capabilities_ext_flag =? 0)
      || negb (Z.land negotiated_responder_capabilities_ext_flag
                 responder_capabilities_ext_flag =? 0)).

Definition libspdm_is_encap_supported ctx : bool :=
  let rq := lc_is_requester ctx in
  let supported := libspdm_is_capabilities_flag_supported ctx rq in
  if libspdm_get_connection_version ctx =? SPDM_MESSAGE_VERSION_10 then false
  else if libspdm_get_connection_version ctx =? SPDM_MESSAGE_VERSION_12 then
    let is_req_encap_cap_supported := supported SPDM_GET_CAPABILITIES_REQUEST_FLAGS_ENCAP_CAP 0 in
    let is_req_mut_auth_cap_supported :=
      supported SPDM_GET_CAPABILITIES_REQUEST_FLAGS_MUT_AUTH_CAP 0 in
    let is_rsp_encap_cap_supported := supported 0 SPDM_GET_CAPABILITIES_RESPONSE_FLAGS_ENCAP_CAP in
    let is_rsp_mut_auth_cap_supported :=
      supported 0 SPDM_GET_CAPABILITIES_RESPONSE_FLAGS_MUT_AUTH_CAP in
    (is_req_encap_cap_supported || is_req_mut_auth_cap_supported)
    && (is_rsp_encap_cap_supported || is_rsp_mut_auth_cap_supported)
  else
    supported SPDM_GET_CAPABILITIES_REQUEST_FLAGS_ENCAP_CAP
      SPDM_GET_CAPABILITIES_RESPONSE_FLAGS_ENCAP_CAP.

End Capabilities.
Export Capabilities.

(** ** The sections of the scratch buffer

    Offsets and capacities, uint32_t, of the default build (chunking and
    RESPOND_IF_READY supported). *)
Module Scratch.
Implicit Types ctx : libspdm_context_t.

Definition libspdm_get_scratch_buffer_secure_message_offset : Z := 0.

Definition libspdm_get_scratch_buffer_secure_message_capacity ctx : Z :=
  let c := lc_capability ctx in
  u32 (u32 (max_spdm_msg_size c + transport_header_size c) + transport_tail_size c).

Definition libspdm_get_scratch_buffer_large_message_offset ctx : Z :=
  libspdm_get_scratch_buffer_secure_message_capacity ctx.

Definition libspdm_get_scratch_buffer_large_message_capacity ctx : Z :=
  max_spdm_msg_size (lc_capability ctx).

Definition libspdm_get_scratch_buffer_sender_receiver_offset ctx : Z :=
  u32 (libspdm_get_scratch_buffer_secure_message_capacity ctx
       + libspdm_get_scratch_buffer_large_message_capacity ctx).

Definition libspdm_get_scratch_buffer_sender_receiver_capacity ctx : Z :=
  let c := lc_capability ctx in
  u32 (u32 (max_spdm_msg_size c + transport_header_size c) + transport_tail_size c).

Definition libspdm_get_scratch_buffer_large_sender_receiver_offset ctx : Z :=
  u32 (u32 (libspdm_get_scratch_buffer_secure_message_capacity ctx
            + libspdm_get_scratch_buffer_large_message_capacity ctx)
       + libspdm_get_scratch_buffer_sender_receiver_capacity ctx).

Definition libspdm_get_scratch_buffer_large_sender_receiver_capacity ctx : Z :=
  let c := lc_capability ctx in
  u32 (u32 (max_spdm_msg_size c + transport_header_size c) + transport_tail_size c).

Definition libspdm_get_scratch_buffer_last_spdm_request_offset ctx : Z :=
  u32 (u32 (u32 (libspdm_get_scratch_buffer_secure_message_capacity ctx
                 + libspdm_get_scratch_buffer_large_message_capacity ctx)
            + libspdm_get_scratch_buffer_sender_receiver_capacity ctx)
       + libspdm_get_scratch_buffer_large_sender_receiver_capacity ctx).

Definition libspdm_get_scratch_buffer_last_spdm_request_capacity ctx : Z :=
  max_spdm_msg_size (lc_capability ctx).

Definition libspdm_get_scratch_buffer_cache_spdm_request_offset ctx : Z :=
  u32 (u32 (u32 (u32 (libspdm_get_scratch_buffer_secure_message_capacity ctx
                      + libspdm_get_scratch_buffer_large_message_capacity ctx)
                 + libspdm_get_scratch_buffer_sender_receiver_capacity ctx)
            + libspdm_get_scratch_buffer_large_sender_receiver_capacity ctx)
       + libspdm_get_scratch_buffer_last_spdm_request_capacity ctx).

Definition libspdm_get_scratch_buffer_cache_spdm_request_capacity ctx : Z :=
  max_spdm_msg_size (lc_capability ctx).

Definition libspdm_get_scratch_buffer_capacity ctx : Z :=
  u32 (u32 (u32 (u32 (u32 (libspdm_get_scratch_buffer_secure_message_capacity ctx
                           + libspdm_get_scratch_buffer_large_message_capacity ctx)
                      + libspdm_get_scratch_buffer_sender_receiver_capacity ctx)
                 + libspdm_get_scratch_buffer_large_sender_receiver_capacity ctx)
            + libspdm_get_scratch_buffer_last_spdm_request_capacity ctx)
       + libspdm_get_scratch_buffer_cache_spdm_request_capacity ctx).

End Scratch.
Export Scratch.
