(* ===== verification/SessionTable.v ===== *)
(** * SessionTable: libspdm_com_context_data_session.c

    The table of session slots of a connection: initialising a slot, finding a
    session by its id, assigning and freeing ids, and the encapsulated contexts
    of the sessions. *)

From S2P Require Import Prelude SpdmDefs CommonSupport CryptLib SecuredContext SpdmContext.

Module SessionTable.

Definition LIBSPDM_MAX_MESSAGE_D_BUFFER_SIZE : Z := 4 + (LIBSPDM_MAX_HASH_SIZE + 4) * 8.

Definition zero_transcript : libspdm_session_transcript_t :=
  Build_session_transcript
    (Build_managed_buffer 0 0 (zeros LIBSPDM_MAX_MESSAGE_D_BUFFER_SIZE))
    false false None None None None None.

Section table.
Context `{BuildConfig}.
Implicit Types ctx : libspdm_context_t.

(** The part of the function that counts the sessions: u32 counters. *)
Definition count_session ctx (sid : Z) (use_psk_ : bool) : exec libspdm_context_t :=
  if negb (sid =? INVALID_SESSION_ID) then
    if use_psk_ then
      LIBSPDM_ASSERT ((max_psk_session_count ctx =? 0)
        || (current_psk_session_count ctx <? max_psk_session_count ctx));;
      Ret (ctx <| current_psk_session_count := u32 (current_psk_session_count ctx + 1) |>)
    else
      LIBSPDM_ASSERT ((max_dhe_session_count ctx =? 0)
        || (current_dhe_session_count ctx <? max_dhe_session_count ctx));;
      Ret (ctx <| current_dhe_session_count := u32 (current_dhe_session_count ctx + 1) |>)
  else if use_psk_ then
    Ret (if 0 <? current_psk_session_count ctx
         then ctx <| current_psk_session_count := current_psk_session_count ctx - 1 |> else ctx)
  else
    Ret (if 0 <? current_dhe_session_count ctx
         then ctx <| current_dhe_session_count := current_dhe_session_count ctx - 1 |> else ctx).

(** The session type the two endpoints' capabilities give. *)
Definition negotiated_session_type ctx : exec libspdm_session_type_t :=
  let capabilities_flag := Z.land (flags (ci_capability ctx)) (flags (lc_capability ctx)) in
  let both := Z.lor SPDM_GET_CAPABILITIES_REQUEST_FLAGS_ENCRYPT_CAP
                SPDM_GET_CAPABILITIES_REQUEST_FLAGS_MAC_CAP in
  let c := Z.land capabilities_flag both in
  if c =? 0 then Ret LIBSPDM_SESSION_TYPE_NONE
  else if c =? both then Ret LIBSPDM_SESSION_TYPE_ENC_MAC
  else if c =? SPDM_GET_CAPABILITIES_REQUEST_FLAGS_MAC_CAP then Ret LIBSPDM_SESSION_TYPE_MAC_ONLY
  else (LIBSPDM_ASSERT false;; Ret LIBSPDM_SESSION_TYPE_MAX).

(** The digest contexts of the slot are freed through the HAL and set to NULL;
    then everything up to secured_message_context is zeroed, and the fields
    behind it one by one, so that nothing of the slot's previous use stays. *)
Definition libspdm_session_info_init ctx (sid smv : Z) (use_psk_ : bool) :
    exec (libspdm_context_t * libspdm_session_info_t) :=
  ctx ← count_session ctx sid use_psk_;
  ty ← negotiated_session_type ctx;
  let c := libspdm_secured_message_init_context in
  let c := libspdm_secured_message_set_use_psk c use_psk_ in
  let c := libspdm_secured_message_set_session_type c ty in
  let c :=
    if SECURED_SPDM_VERSION_12 <=? Z.shiftr smv SPDM_VERSION_NUMBER_SHIFT_BIT
    then libspdm_secured_message_set_sequence_number_endian c
           LIBSPDM_DATA_SESSION_SEQ_NUM_ENC_LITTLE_DEC_LITTLE
    else libspdm_secured_message_set_sequence_number_endian c (sc_sequence_number_endian ctx) in
  let c := libspdm_secured_message_set_max_spdm_session_sequence_number c
             (sc_max_spdm_session_sequence_number ctx) in
  let a := ci_algorithm ctx in
  let c := libspdm_secured_message_set_algorithms c (ci_version ctx) smv
             (da_base_hash_algo a) (da_dhe_named_group a) (da_kem_alg a)
             (da_aead_cipher_suite a) (da_key_schedule a) in
  let t := zero_transcript <| message_encap_d :=
             (message_encap_d zero_transcript)
               <| max_buffer_size := LIBSPDM_MAX_MESSAGE_D_BUFFER_SIZE |> |> in
  Ret (ctx, {| session_id := sid; si_use_psk := use_psk_; mut_auth_requested := 0;
               end_session_attributes := 0; session_policy := 0; heartbeat_period := 0;
               session_transcript := t;
               last_key_update_request := Build_message_header 0 0 0 0;
               secured_message_context := c;
               local_used_cert_chain_slot_id := 0; peer_used_cert_chain_slot_id := 0;
               si_encap_context := zero_encap_context |}).

Definition libspdm_session_info_set_psk_hint (si : libspdm_session_info_t)
    (psk_hint : option (list Z)) (psk_hint_size : Z) : exec libspdm_session_info_t :=
  c ← libspdm_secured_message_set_psk_hint (secured_message_context si) psk_hint psk_hint_size;
  Ret (si <| secured_message_context := c |>).

(** The loop over the slots: the first index at or after [i] whose session id is
    [sid]. *)
Fixpoint find_slot (sid : Z) (slots : list libspdm_session_info_t) (i : nat) : option nat :=
  match slots with
  | [] => None
  | s :: slots' => if session_id s =? sid then Some i else find_slot sid slots' (S i)
  end.

(** A session is its index in the table; NULL is [None]. *)
Definition libspdm_get_session_info_via_session_id ctx (sid : Z) : option nat :=
  if sid =? INVALID_SESSION_ID then None else find_slot sid (session_info ctx) 0.

(** An encapsulated context is the one of the connection or that of a slot. *)
Inductive encap_ref : Set :=
| EncapConnection
| EncapSession (index : nat).

Definition libspdm_get_encap_context ctx (sid : option Z) : option encap_ref :=
  match sid with
  | None => Some EncapConnection
  | Some sid =>
      match libspdm_get_session_info_via_session_id ctx sid with
      | None => None
      | Some i => Some (EncapSession i)
      end
  end.

Definition libspdm_get_encap_session_id_via_last_request ctx : option Z :=
  if last_spdm_request_session_id_valid ctx then Some (last_spdm_request_session_id ctx)
  else if negb (latest_session_id ctx =? INVALID_SESSION_ID)
          && libspdm_is_capabilities_flag_supported ctx false
               SPDM_GET_CAPABILITIES_REQUEST_FLAGS_HANDSHAKE_IN_THE_CLEAR_CAP
               SPDM_GET_CAPABILITIES_RESPONSE_FLAGS_HANDSHAKE_IN_THE_CLEAR_CAP then
    match libspdm_get_session_info_via_session_id ctx (latest_session_id ctx) with
    | Some i =>
        match session_info ctx !! i with
        | Some si =>
            if decide (flow_type (si_encap_context si) = LIBSPDM_ENCAP_FLOW_SESS_MUT_AUTH)
            then Some (latest_session_id ctx) else None
        | None => None
        end
    | None => None
    end
  else None.

Definition libspdm_get_encap_context_via_last_request ctx : exec (option encap_ref) :=
  let e := libspdm_get_encap_context ctx (libspdm_get_encap_session_id_via_last_request ctx) in
  LIBSPDM_ASSERT (bool_decide (is_Some e));;
  Ret e.

Definition libspdm_get_secured_message_context_via_session_info (si : option libspdm_session_info_t)
    : option libspdm_secured_message_context_t :=
  match si with None => None | Some si => Some (secured_message_context si) end.

Definition libspdm_get_secured_message_context_via_session_id ctx (sid : Z) :
    option libspdm_secured_message_context_t :=
  match libspdm_get_session_info_via_session_id ctx sid with
  | None => None
  | Some i => match session_info ctx !! i with
              | Some si => Some (secured_message_context si)
              | None => None
              end
  end.

Definition libspdm_generate_session_id (req_session_id rsp_session_id : Z) : Z :=
  Z.lor (u32 (Z.shiftl rsp_session_id 16)) req_session_id.

(** The new context and the index of the slot. *)
Definition libspdm_assign_session_id ctx (sid smv : Z) (use_psk_ : bool) :
    exec (libspdm_context_t * option nat) :=
  if sid =? INVALID_SESSION_ID then LIBSPDM_ASSERT false;; Ret (ctx, None)
  else match find_slot sid (session_info ctx) 0 with
  | Some _ => LIBSPDM_ASSERT false;; Ret (ctx, None)
  | None =>
      match find_slot INVALID_SESSION_ID (session_info ctx) 0 with
      | Some i =>
          '(ctx, si) ← libspdm_session_info_init ctx sid smv use_psk_;
          let ctx := ctx <| session_info := <[i := si]> (session_info ctx) |> in
          Ret (ctx <| latest_session_id := sid |>, Some i)
      | None => Ret (ctx, None)
      end
  end.

Definition libspdm_free_session_id ctx (sid : Z) : exec libspdm_context_t :=
  if sid =? INVALID_SESSION_ID then LIBSPDM_ASSERT false;; Ret ctx
  else
    let ctx := if latest_session_id ctx =? sid
               then ctx <| latest_session_id := INVALID_SESSION_ID |> else ctx in
    match find_slot sid (session_info ctx) 0 with
    | Some i =>
        match session_info ctx !! i with
        | Some old =>
            '(ctx, si) ← libspdm_session_info_init ctx INVALID_SESSION_ID 0 (si_use_psk old);
            Ret (ctx <| session_info := <[i := si]> (session_info ctx) |>)
        | None => Ret ctx
        end
    | None => LIBSPDM_ASSERT false;; Ret ctx
    end.

End table.
End SessionTable.
Export SessionTable.

(** ** Facts about the table *)
Module TableFacts.
Import ContextFacts.

(** A slot that holds a session of the given kind. *)
Definition is_active (psk : bool) (si : libspdm_session_info_t) : bool :=
  negb (session_id si =? INVALID_SESSION_ID) && Bool.eqb (si_use_psk si) psk.

Fixpoint active_count (psk : bool) (slots : list libspdm_session_info_t) : Z :=
  match slots with
  | [] => 0
  | s :: slots' => Z.b2z (is_active psk s) + active_count psk slots'
  end.

Definition slots_wf (slots : list libspdm_session_info_t) : Prop :=
  (∀ i j si sj, slots !! i = Some si → slots !! j = Some sj →
     session_id si = session_id sj → session_id si ≠ INVALID_SESSION_ID → i = j) ∧
  (∀ i si, slots !! i = Some si →
     is_u32 (session_id si) ∧ ctx_wf (secured_message_context si)).

(** The invariant of the table of sessions. *)
Record table_wf `{BuildConfig} (ctx : libspdm_context_t) : Prop := {
  tw_length : length (session_info ctx) = LIBSPDM_MAX_SESSION_COUNT;
  tw_small : Z.of_nat LIBSPDM_MAX_SESSION_COUNT < 2 ^ 32;
  tw_slots : slots_wf (session_info ctx);
  tw_latest : latest_session_id ctx ≠ INVALID_SESSION_ID →
    is_Some (find_slot (latest_session_id ctx) (session_info ctx) 0);
  tw_psk : current_psk_session_count ctx = active_count true (session_info ctx);
  tw_dhe : current_dhe_session_count ctx = active_count false (session_info ctx);
}.

Lemma find_slot_Some sid slots k i : find_slot sid slots k = Some i →
  ∃ si, (k ≤ i)%nat ∧ slots !! (i - k)%nat = Some si ∧ session_id si = sid.
Proof.
  revert k. induction slots as [|s slots IH]; intros k; cbn; [done|].
  destruct (Z.eqb_spec (session_id s) sid) as [E|E].
  - intros [= <-]. exists s. rewrite Nat.sub_diag. done.
  - intros (si & H1 & H2 & H3)%IH. exists si. split; [lia|]. split; [|done].
    replace (i - k)%nat with (S (i - S k)) by lia. done.
Qed.

Lemma find_slot_None sid slots k i si :
  find_slot sid slots k = None → slots !! i = Some si → session_id si ≠ sid.
Proof.
  revert k i. induction slots as [|s slots IH]; intros k i; cbn; [done|].
  destruct (Z.eqb_spec (session_id s) sid) as [E|E]; [done|].
  destruct i as [|i]; cbn; [by intros _ [= <-]|eauto].
Qed.

(** With distinct ids a session is found at its only slot. *)
Lemma find_slot_unique slots sid i si :
  slots_wf slots → sid ≠ INVALID_SESSION_ID → slots !! i = Some si → session_id si = sid →
  find_slot sid slots 0 = Some i.
Proof.
  intros [Hd _] Hn Hi Hs. destruct (find_slot sid slots 0) as [j|] eqn:E.
  - apply find_slot_Some in E as (sj & _ & Hj & Hsj). rewrite Nat.sub_0_r in Hj.
    f_equal. eapply (Hd j i); eauto; congruence.
  - by destruct (find_slot_None _ _ _ _ _ E Hi).
Qed.

(** Replacing the session at slot [i] by another one that has a fresh or no id
    does not change where the other ids are found. *)
Lemma find_slot_insert slots i old new sid :
  slots !! i = Some old → sid ≠ session_id old → sid ≠ session_id new →
  find_slot sid (<[i := new]> slots) 0 = find_slot sid slots 0.
Proof.
  intros Hi H1 H2. generalize 0%nat as k. revert i Hi.
  induction slots as [|s slots IH]; intros i Hi k; [done|].
  destruct i as [|i]; cbn in *.
  - injection Hi as ->. destruct (Z.eqb_spec (session_id new) sid); [congruence|].
    destruct (Z.eqb_spec (session_id old) sid); [congruence|done].
  - case_if; [done|]. by apply IH.
Qed.

(** A slot that keeps its id changes nothing for a search. *)
Lemma find_slot_same slots i old new sid k :
  slots !! i = Some old → session_id new = session_id old →
  find_slot sid (<[i := new]> slots) k = find_slot sid slots k.
Proof.
  revert i k. induction slots as [|s slots IH]; intros i k Hi Hs; [done|].
  destruct i as [|i]; cbn in *; [injection Hi as ->; by rewrite Hs|].
  case_if; [done|]. by apply IH.
Qed.

Lemma active_count_insert p slots i old new :
  slots !! i = Some old →
  active_count p (<[i := new]> slots) =
    active_count p slots - Z.b2z (is_active p old) + Z.b2z (is_active p new).
Proof.
  revert i. induction slots as [|s slots IH]; intros [|i]; simpl; try done.
  - intros [= ->]. lia.
  - intros H. rewrite (IH _ H). lia.
Qed.

Lemma active_count_bound p slots : 0 ≤ active_count p slots ≤ blen slots.
Proof. induction slots; cbn; [lia|]. destruct (is_active p a); cbn; lia. Qed.

(** A slot that is not in use leaves room in the counts. *)
Lemma active_count_free p slots i si : slots !! i = Some si → is_active p si = false →
  active_count p slots < blen slots.
Proof.
  intros Hi Hs. pose proof (active_count_bound p (<[i := si]> slots)).
  revert i Hi H. induction slots as [|s slots IH]; intros [|i]; cbn; try done.
  - intros [= ->] _. rewrite Hs. pose proof (active_count_bound p slots). cbn. lia.
  - intros Hi _. pose proof (IH i Hi (active_count_bound _ _)). destruct (is_active p s); cbn; lia.
Qed.

Lemma active_count_used p slots i si : slots !! i = Some si → is_active p si = true →
  0 < active_count p slots.
Proof.
  revert i. induction slots as [|s slots IH]; intros [|i]; cbn; try done.
  - intros [= ->] ->. pose proof (active_count_bound p slots). cbn. lia.
  - intros Hi Hs. pose proof (IH _ Hi Hs). destruct (is_active p s); cbn; lia.
Qed.

Lemma slots_wf_insert slots i new :
  slots_wf slots → is_u32 (session_id new) → ctx_wf (secured_message_context new) →
  (session_id new ≠ INVALID_SESSION_ID →
     ∀ j sj, j ≠ i → slots !! j = Some sj → session_id sj ≠ session_id new) →
  slots_wf (<[i := new]> slots).
Proof.
  intros [Hd Hw] Hu Hc Hf. split.
  - intros j k sj sk Hj Hk Heq Hn.
    rewrite list_lookup_insert_Some in Hj. rewrite list_lookup_insert_Some in Hk.
    destruct Hj as [(<- & <- & _)|[? Hj]], Hk as [(<- & <- & _)|[? Hk]]; try done.
    + by destruct (Hf Hn k sk); auto.
    + destruct (Hf ltac:(congruence) j sj); auto.
    + eauto.
  - intros j sj. rewrite list_lookup_insert_Some. intros [(<- & <- & _)|[? Hj]]; eauto.
Qed.

(** No secret, transcript or flow of an earlier session is left in the slot. *)
Definition erased (si : libspdm_session_info_t) : Prop :=
  let c := secured_message_context si in
  session_state c = LIBSPDM_SESSION_STATE_NOT_STARTED ∧
  master_secret c = zero_master_secret ∧ handshake_secret c = zero_handshake_secret ∧
  application_secret c = zero_application_secret ∧
  application_secret_backup c = zero_application_secret ∧
  requester_backup_valid c = false ∧ responder_backup_valid c = false ∧
  export_master_secret c = zeros 64 ∧ psk_hint c = zeros 32 ∧ psk_hint_size c = 0 ∧
  digest_context_th (session_transcript si) = None ∧
  buffer_size (message_encap_d (session_transcript si)) = 0 ∧
  si_encap_context si = zero_encap_context ∧
  last_key_update_request si = Build_message_header 0 0 0 0.

(** The counter of the sessions of a kind. *)
Definition counter (psk : bool) (ctx : libspdm_context_t) : Z :=
  if psk then current_psk_session_count ctx else current_dhe_session_count ctx.

(** What initialising a slot does to the context and to the slot. *)
Record initialised `{BuildConfig} (ctx : libspdm_context_t) (sid : Z) (psk : bool)
    (ctx' : libspdm_context_t) (si : libspdm_session_info_t) : Prop := {
  in_ctx : ctx' = ctx <| current_psk_session_count := current_psk_session_count ctx' |>
                      <| current_dhe_session_count := current_dhe_session_count ctx' |>;
  in_counted : ∀ p, counter p ctx' =
    let n := counter p ctx in
    if Bool.eqb p psk then
      if sid =? INVALID_SESSION_ID then (if 0 <? n then n - 1 else n) else u32 (n + 1)
    else n;
  in_id : session_id si = sid;
  in_psk : si_use_psk si = psk;
  in_wf : ctx_wf (secured_message_context si);
  in_erased : erased si;
  in_version : ci_version ctx' = ci_version ctx;
}.

Lemma ctx_wf_base psk ty e m :
  ctx_wf (libspdm_secured_message_set_max_spdm_session_sequence_number
    (libspdm_secured_message_set_sequence_number_endian
      (libspdm_secured_message_set_session_type
        (libspdm_secured_message_set_use_psk libspdm_secured_message_init_context psk) ty) e) m).
Proof. exact init_wf. Qed.

Lemma count_session_Ret `{BuildConfig} ctx sid psk ctx' :
  count_session ctx sid psk = Ret ctx' →
  ctx' = ctx <| current_psk_session_count := current_psk_session_count ctx' |>
             <| current_dhe_session_count := current_dhe_session_count ctx' |> ∧
  ∀ p, counter p ctx' =
    let n := counter p ctx in
    if Bool.eqb p psk then
      if sid =? INVALID_SESSION_ID then (if 0 <? n then n - 1 else n) else u32 (n + 1)
    else n.
Proof.
  unfold count_session. destruct (Z.eqb_spec sid INVALID_SESSION_ID) as [->|Hs], psk; cbn [negb];
    intros E; try (exec_inv E; clear Hx); injection E as <-; try case_if;
    destruct ctx; (split; [done|intros []; cbn in *; rewrite ?E; done]).
Qed.

Lemma init_shape `{BuildConfig} ctx sid smv psk ctx' si :
  libspdm_session_info_init ctx sid smv psk = Ret (ctx', si) → initialised ctx sid psk ctx' si.
Proof.
  unfold libspdm_session_info_init. intros E. exec_inv E. exec_inv E.
  injection E as <- <-. apply count_session_Ret in Hx as [Hx Hc].
  split; try done.
  - cbn. apply set_algorithms_wf. case_if; apply ctx_wf_base.
  - unfold erased. cbn. case_if; split_and!; done.
  - rewrite Hx. done.
Qed.

End TableFacts.

(** ** Assigning and freeing keep the invariant *)
Module TableOps.
Import ContextFacts TableFacts.

Section ops.
Context `{BuildConfig}.
Implicit Types ctx : libspdm_context_t.

Lemma table_wf_counter ctx : table_wf ctx → ∀ p, counter p ctx = active_count p (session_info ctx).
Proof. intros Hw []; apply Hw. Qed.

Lemma table_wf_count_small ctx p i si : table_wf ctx →
  session_info ctx !! i = Some si → is_active p si = false →
  u32 (counter p ctx + 1) = counter p ctx + 1.
Proof.
  intros Hw Hi Ha. rewrite (table_wf_counter ctx Hw p). apply u32_small. unfold is_u32.
  pose proof (active_count_free _ _ _ _ Hi Ha). pose proof (active_count_bound p (session_info ctx)).
  pose proof (tw_small _ Hw). rewrite (tw_length _ Hw) in *. lia.
Qed.

Lemma initialised_info ctx sid psk ctx' si : initialised ctx sid psk ctx' si →
  session_info ctx' = session_info ctx ∧ latest_session_id ctx' = latest_session_id ctx.
Proof. intros Hi. rewrite (in_ctx _ _ _ _ _ Hi). done. Qed.

(** A free slot takes a new session. *)
Lemma occupy_wf ctx i old sid psk ctx' new :
  table_wf ctx → session_info ctx !! i = Some old → session_id old = INVALID_SESSION_ID →
  sid ≠ INVALID_SESSION_ID → is_u32 sid → find_slot sid (session_info ctx) 0 = None →
  initialised ctx sid psk ctx' new →
  table_wf (ctx' <| session_info := <[i := new]> (session_info ctx') |>
                 <| latest_session_id := sid |>).
Proof.
  intros Hw Hi Ho Hs Hu Hf Hn. destruct (initialised_info _ _ _ _ _ Hn) as [Es El].
  pose proof (tw_slots _ Hw) as Hsl. pose proof (in_id _ _ _ _ _ Hn) as Hid.
  assert (Hoa : ∀ p, is_active p old = false) by (intros p; unfold is_active; by rewrite Ho).
  assert (Hcnt : ∀ p, counter p ctx' = active_count p (<[i:=new]> (session_info ctx))).
  { intros p. rewrite (in_counted _ _ _ _ _ Hn p), (active_count_insert p _ _ _ _ Hi), Hoa.
    cbv zeta. rewrite (table_wf_count_small ctx p i old Hw Hi (Hoa p)), (table_wf_counter ctx Hw p).
    unfold is_active. rewrite Hid, (in_psk _ _ _ _ _ Hn).
    apply Z.eqb_neq in Hs. rewrite Hs. destruct p, psk; cbn; lia. }
  assert (Hwf : slots_wf (<[i:=new]> (session_info ctx))).
  { apply slots_wf_insert; [done|by rewrite Hid|apply Hn|]. rewrite Hid. intros _ j sj _ Hj.
    by apply find_slot_None with (1 := Hf) (2 := Hj). }
  split; cbn; rewrite ?Es.
  - rewrite length_insert. apply Hw.
  - apply Hw.
  - done.
  - intros _. exists i. apply find_slot_unique with new; try done.
    apply list_lookup_insert_eq. by apply lookup_lt_Some in Hi.
  - apply (Hcnt true).
  - apply (Hcnt false).
Qed.

(** A slot in use is given up. *)
Lemma release_wf ctx i old ctx' new :
  table_wf ctx → session_info ctx !! i = Some old → session_id old ≠ INVALID_SESSION_ID →
  latest_session_id ctx ≠ session_id old →
  initialised ctx INVALID_SESSION_ID (si_use_psk old) ctx' new →
  table_wf (ctx' <| session_info := <[i := new]> (session_info ctx') |>).
Proof.
  intros Hw Hi Ho Hl Hn. destruct (initialised_info _ _ _ _ _ Hn) as [Es El].
  pose proof (tw_slots _ Hw) as Hsl. pose proof (in_id _ _ _ _ _ Hn) as Hid.
  assert (Hcnt : ∀ p, counter p ctx' = active_count p (<[i:=new]> (session_info ctx))).
  { intros p. rewrite (in_counted _ _ _ _ _ Hn p), (active_count_insert p _ _ _ _ Hi).
    cbv zeta. rewrite (table_wf_counter ctx Hw p), Z.eqb_refl.
    assert (Ha : is_active p old = Bool.eqb p (si_use_psk old)).
    { unfold is_active. apply Z.eqb_neq in Ho. rewrite Ho. by destruct p, (si_use_psk old). }
    assert (Hna : is_active p new = false) by (unfold is_active; by rewrite Hid).
    rewrite Hna, Ha. destruct (Bool.eqb p _); cbn; [|lia].
    pose proof (active_count_used p _ _ _ Hi Ha).
    replace (0 <? active_count p (session_info ctx)) with true by lia. lia. }
  split; cbn; rewrite ?Es, ?El.
  - rewrite length_insert. apply Hw.
  - apply Hw.
  - apply slots_wf_insert; [done|by rewrite Hid|apply Hn|]. by rewrite Hid.
  - intros Hnl. destruct (tw_latest _ Hw Hnl) as [j Hj]. exists j.
    rewrite (find_slot_insert _ _ old); [done|done|congruence|congruence].
  - apply (Hcnt true).
  - apply (Hcnt false).
Qed.

(** What the handlers do to a session in use: its id and kind stay. *)
Lemma use_wf ctx i old new :
  table_wf ctx → session_info ctx !! i = Some old → session_id new = session_id old →
  si_use_psk new = si_use_psk old → ctx_wf (secured_message_context new) →
  table_wf (ctx <| session_info := <[i := new]> (session_info ctx) |>).
Proof.
  intros Hw Hi He Hp Hc. pose proof (tw_slots _ Hw) as Hsl.
  assert (Hcnt : ∀ p, active_count p (<[i:=new]> (session_info ctx)) =
                      active_count p (session_info ctx)).
  { intros p. rewrite (active_count_insert p _ _ _ _ Hi). unfold is_active. rewrite He, Hp. lia. }
  assert (Hwf : slots_wf (<[i:=new]> (session_info ctx))).
  { apply slots_wf_insert; [done| |done|].
    - rewrite He. by eapply Hsl.
    - intros Hn j sj Hj Hs E. apply Hj. eapply Hsl; eauto; congruence. }
  split; cbn; rewrite ?Hcnt; try apply Hw; try done.
  - rewrite length_insert. apply Hw.
  - intros Hnl. destruct (tw_latest _ Hw Hnl) as [j Hj].
    apply find_slot_Some in Hj as (sj & _ & Hj & Hsj). rewrite Nat.sub_0_r in Hj.
    exists j. destruct (decide (j = i)) as [->|Hji].
    + apply find_slot_unique with new; try done; [|congruence].
      apply list_lookup_insert_eq. by apply lookup_lt_Some in Hi.
    + apply find_slot_unique with sj; try done. by rewrite list_lookup_insert_ne.
Qed.

Lemma table_wf_forget ctx sid : table_wf ctx →
  table_wf (if latest_session_id ctx =? sid
            then ctx <| latest_session_id := INVALID_SESSION_ID |> else ctx).
Proof. intros Hw. case_if; [|done]. destruct Hw. split; cbn; done. Qed.

Lemma assign_wf ctx sid smv psk ctx' r : table_wf ctx → is_u32 sid →
  libspdm_assign_session_id ctx sid smv psk = Ret (ctx', r) → table_wf ctx'.
Proof.
  intros Hw Hu. unfold libspdm_assign_session_id.
  destruct (Z.eqb_spec sid INVALID_SESSION_ID) as [|Hs].
  { intros E. exec_inv E. by injection E as <- <-. }
  destruct (find_slot sid _ 0) as [j|] eqn:Ef.
  { intros E. exec_inv E. by injection E as <- <-. }
  destruct (find_slot INVALID_SESSION_ID _ 0) as [i|] eqn:E0; [|by intros [= <- <-]].
  intros E. exec_inv E. destruct x as [c si]. cbn in E. injection E as <- <-.
  apply init_shape in Hx. apply find_slot_Some in E0 as (old & _ & Hi & Ho).
  rewrite Nat.sub_0_r in Hi. by apply occupy_wf with ctx old psk.
Qed.

Lemma free_wf ctx sid ctx' : table_wf ctx →
  libspdm_free_session_id ctx sid = Ret ctx' → table_wf ctx'.
Proof.
  intros Hw%(table_wf_forget ctx sid). unfold libspdm_free_session_id.
  assert (Hl : sid ≠ INVALID_SESSION_ID → latest_session_id (if latest_session_id ctx =? sid
            then ctx <| latest_session_id := INVALID_SESSION_ID |> else ctx) ≠ sid).
  { intros Hn. case_if; [by cbn|]. by apply Z.eqb_neq. }
  destruct (Z.eqb_spec sid INVALID_SESSION_ID) as [->|Hs].
  { intros E. exec_inv E. injection E as <-. case_if; [|done].
    destruct ctx; cbn in *. by apply Z.eqb_eq in E as ->. }
  cbv zeta. set (c := if latest_session_id ctx =? sid then _ else _) in *. clearbody c.
  destruct (find_slot sid _ 0) as [i|] eqn:Ef.
  2: { intros E. exec_inv E. by injection E as <-. }
  apply find_slot_Some in Ef as (old & _ & Hi & Ho). rewrite Nat.sub_0_r in Hi. rewrite Hi.
  intros E. exec_inv E. destruct x as [c' si]. cbn in E. injection E as <-.
  apply init_shape in Hx. apply release_wf with c old; try done; rewrite Ho; auto.
Qed.

End ops.
End TableOps.

(** ** The component's properties *)
Module SessionTableProps.
Import ContextFacts TableFacts TableOps.

(** The two endpoints agreed on MAC, or on neither MAC nor encryption: the
    case libspdm_session_info_init has a session type for. *)
Definition session_caps_ok (ctx : libspdm_context_t) : Prop :=
  Z.land (Z.land (flags (ci_capability ctx)) (flags (lc_capability ctx)))
    (Z.lor SPDM_GET_CAPABILITIES_REQUEST_FLAGS_ENCRYPT_CAP
       SPDM_GET_CAPABILITIES_REQUEST_FLAGS_MAC_CAP)
  ≠ SPDM_GET_CAPABILITIES_REQUEST_FLAGS_ENCRYPT_CAP.

(** The connection's limit on sessions of a kind, 0 meaning none. *)
Definition quota_ok (ctx : libspdm_context_t) (psk : bool) : Prop :=
  let m := if psk then max_psk_session_count ctx else max_dhe_session_count ctx in
  m = 0 ∨ counter psk ctx < m.

Lemma land_both x : let c := Z.land x (Z.lor SPDM_GET_CAPABILITIES_REQUEST_FLAGS_ENCRYPT_CAP
                       SPDM_GET_CAPABILITIES_REQUEST_FLAGS_MAC_CAP) in
  c = 0 ∨ c = 64 ∨ c = 128 ∨ c = 192.
Proof.
  intros c. subst c. change (Z.lor _ _) with (Z.shiftl (Z.ones 2) 6).
  assert (E : Z.land x (Z.shiftl (Z.ones 2) 6) = Z.shiftl (Z.land (Z.shiftr x 6) (Z.ones 2)) 6).
  { apply Z.bits_inj'; intros i Hi. rewrite Z.land_spec, !Z.shiftl_spec, Z.land_spec by done.
    destruct (decide (i < 6)).
    - rewrite (Z.testbit_neg_r _ (i - 6)) by lia. by rewrite !andb_false_r.
    - rewrite Z.shiftr_spec by lia. by replace (i - 6 + 6) with i by lia. }
  rewrite E, Z.land_ones, Z.shiftl_mul_pow2 by lia.
  pose proof (Z.mod_pos_bound (Z.shiftr x 6) (2 ^ 2)). lia.
Qed.

Section props.
Context `{BuildConfig}.

Lemma session_type_runs ctx : session_caps_ok ctx → ∃ t, negotiated_session_type ctx = Ret t.
Proof.
  unfold session_caps_ok, negotiated_session_type. cbv zeta.
  pose proof (land_both (Z.land (flags (ci_capability ctx)) (flags (lc_capability ctx)))) as Hc.
  cbv zeta in Hc. set (c := Z.land _ (Z.lor _ _)) in *. clearbody c. intros Hn.
  destruct Hc as [->|[->|[->| ->]]]; [by eexists|by destruct Hn|by eexists|by eexists].
Qed.

Lemma init_runs ctx sid smv psk : session_caps_ok ctx →
  (sid ≠ INVALID_SESSION_ID → quota_ok ctx psk) →
  ∃ ctx' si, libspdm_session_info_init ctx sid smv psk = Ret (ctx', si).
Proof.
  intros Hc Hq. unfold libspdm_session_info_init.
  assert (∃ c, count_session ctx sid psk = Ret c) as [c Ec].
  { unfold count_session. destruct (Z.eqb_spec sid INVALID_SESSION_ID) as [|Hs]; cbn [negb].
    - destruct psk; by eexists.
    - specialize (Hq Hs). unfold quota_ok, counter in Hq.
      assert (Ht : ∀ m n, m = 0 ∨ n < m → (m =? 0) || (n <? m) = true).
      { intros m n Hmn. apply orb_true_iff. rewrite Z.eqb_eq, Z.ltb_lt. exact Hmn. }
      destruct psk; rewrite (Ht _ _ Hq), assert_true; by eexists. }
  rewrite Ec. cbn [mbind exec_bind].
  destruct (session_type_runs c) as [t Et].
  { apply count_session_Ret in Ec as [-> _]. exact Hc. }
  rewrite Et. cbn [mbind exec_bind]. by do 2 eexists.
Qed.

(** The tables the program can reach: it starts with every slot free, assigns
    and frees ids, and its handlers change sessions in use. *)
Inductive reachable : libspdm_context_t → Prop :=
| reach_init ctx :
    length (session_info ctx) = LIBSPDM_MAX_SESSION_COUNT →
    Forall (λ si, session_id si = INVALID_SESSION_ID ∧ ctx_wf (secured_message_context si))
      (session_info ctx) →
    latest_session_id ctx = INVALID_SESSION_ID →
    current_psk_session_count ctx = 0 → current_dhe_session_count ctx = 0 → reachable ctx
| reach_assign ctx sid smv psk ctx' r :
    reachable ctx → is_u32 sid → libspdm_assign_session_id ctx sid smv psk = Ret (ctx', r) →
    reachable ctx'
| reach_free ctx sid ctx' :
    reachable ctx → libspdm_free_session_id ctx sid = Ret ctx' → reachable ctx'
| reach_use ctx i old new :
    reachable ctx → session_info ctx !! i = Some old → session_id new = session_id old →
    si_use_psk new = si_use_psk old → ctx_wf (secured_message_context new) →
    reachable (ctx <| session_info := <[i := new]> (session_info ctx) |>).

(** A table none of whose slots is in use. *)
Lemma free_table_wf ctx : Z.of_nat LIBSPDM_MAX_SESSION_COUNT < 2 ^ 32 →
  length (session_info ctx) = LIBSPDM_MAX_SESSION_COUNT →
  Forall (λ si, session_id si = INVALID_SESSION_ID ∧ ctx_wf (secured_message_context si))
    (session_info ctx) →
  latest_session_id ctx = INVALID_SESSION_ID →
  current_psk_session_count ctx = 0 → current_dhe_session_count ctx = 0 → table_wf ctx.
Proof.
  intros Hs Hl Hf Ht Hp Hd.
  assert (Hn : ∀ p, active_count p (session_info ctx) = 0).
  { intros p. clear Hl. induction Hf as [|si l [Hsi _] _ IH]; [done|].
    cbn. unfold is_active. by rewrite Hsi, IH. }
  rewrite Forall_lookup in Hf. split; rewrite ?Hn; try done.
  split; [intros i j si sj Hi _ _ Hne|intros i si Hi]; apply Hf in Hi as [E Hw]; [done|].
  rewrite E. split; [by vm_compute|done].
Qed.

(** C10: in every reachable table of sessions the invariant holds: the table has
    its fixed length, no two slots carry the same session id, every secured
    message context is well formed, the latest session id is free or names a
    session that is in the table, and the two session counters the quota
    checks read are exactly the numbers of pre-shared-key and key-exchange
    sessions in use. *)
Theorem session_table_invariant (ctx : libspdm_context_t)
    (Hs : Z.of_nat LIBSPDM_MAX_SESSION_COUNT < 2 ^ 32) (Hr : reachable ctx) : table_wf ctx.
Proof.
  induction Hr.
  - by apply free_table_wf.
  - by eapply assign_wf.
  - by eapply free_wf.
  - by apply use_wf with old.
Qed.

(** C27: assigning a new session id.  With the capabilities and the quota
    checked and a free slot in the table, the id is entered into a free slot:
    it is found there from then on, the slot holds a session of the requested
    kind with no secret, transcript or flow of its previous use, the other
    slots and the other ids are untouched, and the id becomes the latest.  In a
    full table nothing changes and no session is returned. *)
Theorem assign_session_spec (ctx : libspdm_context_t) (sid smv : Z) (psk : bool)
    (Hw : table_wf ctx) (Hs : is_u32 sid) (Hz : sid ≠ INVALID_SESSION_ID)
    (Hn : libspdm_get_session_info_via_session_id ctx sid = None)
    (Hc : session_caps_ok ctx) (Hq : quota_ok ctx psk) :
  (Exists (λ si, session_id si = INVALID_SESSION_ID) (session_info ctx) →
   ∃ ctx' i si, libspdm_assign_session_id ctx sid smv psk = Ret (ctx', Some i) ∧
     (∃ old, session_info ctx !! i = Some old ∧ session_id old = INVALID_SESSION_ID) ∧
     session_info ctx' = <[i := si]> (session_info ctx) ∧
     libspdm_get_session_info_via_session_id ctx' sid = Some i ∧
     session_info ctx' !! i = Some si ∧ session_id si = sid ∧ si_use_psk si = psk ∧ erased si ∧
     (∀ other, other ≠ sid → libspdm_get_session_info_via_session_id ctx' other =
                             libspdm_get_session_info_via_session_id ctx other) ∧
     latest_session_id ctx' = sid ∧ counter psk ctx' = counter psk ctx + 1 ∧
     counter (negb psk) ctx' = counter (negb psk) ctx) ∧
  (Forall (λ si, session_id si ≠ INVALID_SESSION_ID) (session_info ctx) →
   libspdm_assign_session_id ctx sid smv psk = Ret (ctx, None)).
Proof.
  unfold libspdm_get_session_info_via_session_id in *. pose proof Hz as Hz'.
  apply Z.eqb_neq in Hz'. rewrite Hz' in *. unfold libspdm_assign_session_id. rewrite Hz', Hn.
  split; intros Hf.
  - destruct (find_slot INVALID_SESSION_ID _ 0) as [i|] eqn:E0.
    2: { apply Exists_exists in Hf as (si & Hin%list_elem_of_In & He).
         apply list_elem_of_lookup in Hin as [j Hj].
         by destruct (find_slot_None _ _ _ _ _ E0 Hj). }
    apply find_slot_Some in E0 as (old & _ & Hi & Ho). rewrite Nat.sub_0_r in Hi.
    destruct (init_runs ctx sid smv psk Hc) as (c & si & Ei); [done|].
    rewrite Ei. cbn [mbind exec_bind]. apply init_shape in Ei as Hin.
    destruct (initialised_info _ _ _ _ _ Hin) as [Es _].
    pose proof (in_id _ _ _ _ _ Hin) as Hid. pose proof (lookup_lt_Some _ _ _ Hi).
    assert (Hoa : ∀ p, is_active p old = false) by (intros p; unfold is_active; by rewrite Ho).
    pose proof (occupy_wf _ _ _ _ _ _ _ Hw Hi Ho Hz Hs Hn Hin) as Hw'.
    exists (c <| session_info := <[i:=si]> (session_info c) |> <| latest_session_id := sid |>), i, si.
    split; [done|]. split; [eauto|]. cbn. rewrite Es. split; [done|].
    assert (Hli : <[i:=si]> (session_info ctx) !! i = Some si) by by apply list_lookup_insert_eq.
    split.
    { apply find_slot_unique with si; try done. pose proof (tw_slots _ Hw') as Hx.
      cbn in Hx. by rewrite Es in Hx. }
    split; [done|]. split; [done|]. split; [apply Hin|]. split; [apply Hin|]. split; [|split; [done|]].
    + intros o Hoth. destruct (Z.eqb_spec o INVALID_SESSION_ID); [done|].
      apply find_slot_insert with old; congruence.
    + change (counter psk c = counter psk ctx + 1 ∧ counter (negb psk) c = counter (negb psk) ctx).
      rewrite !(in_counted _ _ _ _ _ Hin). cbv zeta. rewrite Hz', Bool.eqb_reflx.
      rewrite (table_wf_count_small ctx psk i old Hw Hi (Hoa psk)). by destruct psk.
  - destruct (find_slot INVALID_SESSION_ID _ 0) as [i|] eqn:E0; [|done].
    apply find_slot_Some in E0 as (old & _ & Hi & Ho). rewrite Nat.sub_0_r in Hi.
    rewrite Forall_lookup in Hf. by destruct (Hf _ _ Hi).
Qed.

(** Freeing a session id that is in the table: afterwards the id is not
    found any more, its slot is free and holds no secret, transcript or flow of
    the session, every other id is found where it was and every other slot is
    untouched, the id is not the latest any more and the counter of its kind
    has gone down by one. *)
Theorem free_session_spec (ctx : libspdm_context_t) (sid : Z) (i : nat)
    (old : libspdm_session_info_t) (Hw : table_wf ctx) (Hc : session_caps_ok ctx)
    (Hf : libspdm_get_session_info_via_session_id ctx sid = Some i)
    (Hi : session_info ctx !! i = Some old) :
  ∃ ctx' new, libspdm_free_session_id ctx sid = Ret ctx' ∧
    session_info ctx' = <[i := new]> (session_info ctx) ∧
    session_id new = INVALID_SESSION_ID ∧ erased new ∧
    libspdm_get_session_info_via_session_id ctx' sid = None ∧
    (∀ other, other ≠ sid → libspdm_get_session_info_via_session_id ctx' other =
                            libspdm_get_session_info_via_session_id ctx other) ∧
    latest_session_id ctx' ≠ sid ∧
    (latest_session_id ctx ≠ sid → latest_session_id ctx' = latest_session_id ctx) ∧
    counter (si_use_psk old) ctx' = counter (si_use_psk old) ctx - 1 ∧
    counter (negb (si_use_psk old)) ctx' = counter (negb (si_use_psk old)) ctx.
Proof.
  unfold libspdm_get_session_info_via_session_id in *.
  destruct (Z.eqb_spec sid INVALID_SESSION_ID) as [|Hz]; [done|].
  apply find_slot_Some in Hf as Hf'. destruct Hf' as (si & _ & Hi' & Ho).
  rewrite Nat.sub_0_r, Hi in Hi'. injection Hi' as <-.
  assert (Hz' : (sid =? INVALID_SESSION_ID) = false) by by apply Z.eqb_neq.
  unfold libspdm_free_session_id. rewrite Hz'. cbv zeta.
  set (c := if latest_session_id ctx =? sid then _ else _).
  assert (Hcs : session_info c = session_info ctx ∧ session_caps_ok c ∧
    (∀ p, counter p c = counter p ctx) ∧ latest_session_id c ≠ sid ∧
    (latest_session_id ctx ≠ sid → latest_session_id c = latest_session_id ctx)).
  { subst c. by destruct (Z.eqb_spec (latest_session_id ctx) sid). }
  destruct Hcs as (Es & Hcc & Hct & Hl1 & Hl2). rewrite Es, Hf, Hi.
  destruct (init_runs c INVALID_SESSION_ID 0 (si_use_psk old) Hcc) as (c' & new & Ei); [done|].
  rewrite Ei. cbn [mbind exec_bind]. apply init_shape in Ei as Hin.
  destruct (initialised_info _ _ _ _ _ Hin) as [Es' El'].
  pose proof (in_id _ _ _ _ _ Hin) as Hid.
  exists (c' <| session_info := <[i:=new]> (session_info c') |>), new.
  cbn. rewrite Es', Es, El'. split; [done|]. split; [done|]. split; [done|]. split; [apply Hin|].
  split; [|split; [|split; [done|split; [done|]]]].
  - destruct (find_slot sid (<[i:=new]> (session_info ctx)) 0) as [j|] eqn:Ej; [|done]. exfalso.
    apply find_slot_Some in Ej as (sj & _ & Hj & Hsj). rewrite Nat.sub_0_r in Hj.
    apply list_lookup_insert_Some in Hj. destruct Hj as [(<- & <- & _)|[Hne Hj]]; [congruence|].
    apply Hne. eapply (proj1 (tw_slots _ Hw)); eauto; congruence.
  - intros o Hoth. destruct (Z.eqb_spec o INVALID_SESSION_ID); [done|].
    apply find_slot_insert with old; congruence.
  - set (p := si_use_psk old) in *.
    change (counter p c' = counter p ctx - 1 ∧ counter (negb p) c' = counter (negb p) ctx).
    rewrite !(in_counted _ _ _ _ _ Hin). cbv zeta. rewrite !Hct, Z.eqb_refl, Bool.eqb_reflx.
    assert (Ha : is_active p old = true).
    { unfold is_active. rewrite Ho, Hz'. subst p. apply Bool.eqb_reflx. }
    pose proof (active_count_used p _ _ _ Hi Ha).
    rewrite (table_wf_counter ctx Hw p).
    replace (0 <? active_count p (session_info ctx)) with true by lia. by destruct p.
Qed.

End props.

(** A session id is built from the two 16-bit halves the endpoints choose
    and determines them: the requester's half is its low word, the responder's
    its high word, it fits 32 bits, and it is the invalid id only when both
    halves are zero. *)
Theorem session_id_halves (rq rs : Z) (Hq : is_u16 rq) (Hs : is_u16 rs) :
  let sid := libspdm_generate_session_id rq rs in
  is_u32 sid ∧ sid mod 2 ^ 16 = rq ∧ Z.shiftr sid 16 = rs ∧
  (sid = INVALID_SESSION_ID ↔ rq = 0 ∧ rs = 0).
Proof.
  unfold is_u16 in *. cbv zeta. unfold libspdm_generate_session_id.
  rewrite u32_small by (unfold is_u32; rewrite Z.shiftl_mul_pow2 by lia; lia).
  rewrite Z.lor_comm, lor_shiftl_add by lia. rewrite Z.shiftr_div_pow2 by lia.
  rewrite Z.mod_add, Z.mod_small, Z.div_add, Z.div_small by lia.
  unfold is_u32, INVALID_SESSION_ID, LIBSPDM_INVALID_SESSION_ID. lia.
Qed.

Lemma session_id_halves_witness : Z.shiftr (libspdm_generate_session_id 0xFFFF 0xFFFE) 16 = 0xFFFE.
Proof. apply (session_id_halves 0xFFFF 0xFFFE); by vm_compute. Defined.

(** ** A concrete table *)

Definition toy_info : libspdm_session_info_t :=
  {| session_id := 0; si_use_psk := false; mut_auth_requested := 0; end_session_attributes := 0;
     session_policy := 0; heartbeat_period := 0; session_transcript := zero_transcript;
     last_key_update_request := Build_message_header 0 0 0 0;
     secured_message_context := libspdm_secured_message_init_context;
     local_used_cert_chain_slot_id := 0; peer_used_cert_chain_slot_id := 0;
     si_encap_context := zero_encap_context |}.

Definition toy_buffer : libspdm_managed_buffer_t := Build_managed_buffer 300 0 (zeros 300).

Definition toy_algorithm : libspdm_device_algorithm_t :=
  Build_device_algorithm SPDM_MEASUREMENT_SPECIFICATION_DMTF SPDM_ALGORITHMS_OPAQUE_DATA_FORMAT_1
    0 SPDM_ALGORITHMS_MEASUREMENT_HASH_ALGO_TPM_ALG_SHA_256
    SPDM_ALGORITHMS_BASE_ASYM_ALGO_TPM_ALG_ECDSA_ECC_NIST_P256
    SPDM_ALGORITHMS_BASE_HASH_ALGO_TPM_ALG_SHA_256 SPDM_ALGORITHMS_DHE_NAMED_GROUP_SECP_256_R1
    SPDM_ALGORITHMS_AEAD_CIPHER_SUITE_AES_256_GCM 0 SPDM_ALGORITHMS_KEY_SCHEDULE_SPDM 0 0 0 false.

Definition toy_exchange : libspdm_exchange_t :=
  Build_exchange LIBSPDM_CONNECTION_STATE_NEGOTIATED false 
    (Build_transcript toy_buffer toy_buffer None None None None None)
    LIBSPDM_RESPONSE_STATE_NORMAL (Build_response_not_ready 0 0 0 0) 0 (zeros 64) 0 (zeros 64) 0
    false 0 false 3 true true false [] false 0 0
    (Build_scratch (zeros 4200) (zeros 4096) (zeros 4200) (zeros 4200))
    (Build_chunk_info false 0 0 0 false 0 0) (Build_chunk_info false 0 0 0 false 0 0) false false
    (replicate 8 (Build_peer_used_cert_chain (zeros 64) 0 None)) 0 0 (replicate 8 None) None None 0.

Definition toy_table : libspdm_context_t :=
  {| lc_is_requester := true;
     lc_capability := Build_device_capability 0 0 0 192 0 4096 4096 4096 64 40;
     lc_version := [0x1100; 0x1200]; lc_algorithm := toy_algorithm;
     lc_secured_message_version := [0x1100; 0x1200]; ci_version := 0x1200;
     ci_capability := Build_device_capability 0 0 0 192 0 4096 4096 4096 64 40;
     ci_algorithm := toy_algorithm;
     last_spdm_request_session_id := 0; last_spdm_request_session_id_valid := false;
     encap_context := zero_encap_context;
     session_info := replicate 4 toy_info; latest_session_id := 0;
     max_dhe_session_count := 4; max_psk_session_count := 4;
     current_dhe_session_count := 0; current_psk_session_count := 0;
     sc_max_spdm_session_sequence_number := 100; sc_sequence_number_endian := 0;
     sc_last_spdm_error := Build_error_struct 0 0;
     exchange := toy_exchange |}.

Lemma toy_free : Forall (λ si, session_id si = INVALID_SESSION_ID ∧
  ctx_wf (secured_message_context si)) (session_info toy_table).
Proof. apply Forall_replicate. split; [done|apply init_wf]. Qed.

Lemma toy_table_wf : @table_wf default_build toy_table.
Proof. apply (@free_table_wf default_build); try done; apply toy_free. Qed.

(** The table after one session has been entered. *)
Definition toy_used : libspdm_context_t :=
  toy_table <| session_info := <[0%nat := toy_info <| session_id := 7 |>]> (session_info toy_table) |>
            <| latest_session_id := 7 |> <| current_dhe_session_count := 1 |>.

Lemma toy_used_wf : @table_wf default_build toy_used.
Proof.
  assert (Hs : slots_wf (session_info toy_used)).
  { apply slots_wf_insert; [apply (tw_slots _ toy_table_wf)|by vm_compute|apply init_wf|].
    intros _ j sj _ Hj. pose proof toy_free as Hf. rewrite Forall_lookup in Hf.
    destruct (Hf _ _ Hj) as [-> _]. done. }
  by split.
Qed.

Lemma session_table_invariant_witness : @table_wf default_build toy_table.
Proof.
  apply (@session_table_invariant default_build); [done|].
  apply reach_init; try done; apply toy_free.
Defined.

Lemma assign_session_spec_witness :
  ∃ ctx' i, @libspdm_assign_session_id default_build toy_table 7 0x1200 true = Ret (ctx', Some i) ∧
    counter true ctx' = 1.
Proof.
  destruct (proj1 (@assign_session_spec default_build toy_table 7 0x1200 true toy_table_wf
    ltac:(by vm_compute) ltac:(done) ltac:(done) ltac:(by vm_compute) ltac:(by right)))
    as (ctx' & i & si & E & _ & _ & _ & _ & _ & _ & _ & _ & _ & Hn & _).
  { by left. }
  exists ctx', i. split; [exact E|exact Hn].
Defined.

Lemma free_session_spec_witness :
  ∃ ctx', @libspdm_free_session_id default_build toy_used 7 = Ret ctx' ∧
    libspdm_get_session_info_via_session_id ctx' 7 = None.
Proof.
  destruct (@free_session_spec default_build toy_used 7 0 (toy_info <| session_id := 7 |>)
    toy_used_wf ltac:(by vm_compute) ltac:(done) ltac:(done))
    as (ctx' & new & E & _ & _ & _ & Hn & _).
  exists ctx'. split; [exact E|exact Hn].
Defined.

End SessionTableProps.
