(* ===== verification/Version.v ===== *)
(** * Version: version sets of libspdm_com_context_data.c

    The in-place selection sort of a set of version numbers and the choice of
    the highest version that two endpoints have in common, used for the SPDM
    version of a connection and for the secured message version of a session. *)

From stdpp Require Import sorting.
From S2P Require Import Prelude SpdmDefs.

Module Version.

(** LIBSPDM_MAX_VERSION_COUNT of spdm_lib_config.h. *)
Definition LIBSPDM_MAX_VERSION_COUNT : nat := 5.

(** The inner loop: [n] iterations are left from [index]. *)
Fixpoint find_index_max (ver_set : list Z) (index n index_max : nat) : nat :=
  match n with
  | O => index_max
  | S n' =>
      find_index_max ver_set (S index) n'
        (if ver_set !!! index_max <? ver_set !!! index then index else index_max)
  end.

(** Swap of two entries through a temporary. *)
Definition swap_entries (ver_set : list Z) (index_sort index_max : nat) : list Z :=
  let version := ver_set !!! index_sort in
  let ver_set := <[index_sort := ver_set !!! index_max]> ver_set in
  <[index_max := version]> ver_set.

Fixpoint sort_loop (ver_set : list Z) (ver_num index_sort n : nat) : list Z :=
  match n with
  | O => ver_set
  | S n' =>
      let index_max :=
        find_index_max ver_set (S index_sort) (ver_num - S index_sort) index_sort in
      sort_loop (swap_entries ver_set index_sort index_max) ver_num (S index_sort) n'
  end.

Definition libspdm_version_number_sort (ver_set : list Z) (ver_num : nat) : list Z :=
  if (1 <? ver_num)%nat then sort_loop ver_set ver_num 0 ver_num else ver_set.

(** A local array of LIBSPDM_MAX_VERSION_COUNT zeroed entries receives the set. *)
Definition version_list (ver_set : list Z) : list Z :=
  ver_set ++ replicate (LIBSPDM_MAX_VERSION_COUNT - length ver_set) 0.

(** The loop over the requester's versions. *)
Fixpoint find_same_version (req : list Z) (res_version : Z) : option Z :=
  match req with
  | [] => None
  | v :: req' =>
      if libspdm_get_version_from_version_number v =?
         libspdm_get_version_from_version_number res_version
      then Some v else find_same_version req' res_version
  end.

Fixpoint find_common_version (req res : list Z) : option Z :=
  match res with
  | [] => None
  | r :: res' =>
      match find_same_version req r with
      | Some v => Some v
      | None => find_common_version req res'
      end
  end.

(** A set and its number of entries are one list, so that NULL is the empty
    set; [Some v] is [true] with [*common_version = v]. *)
Definition libspdm_negotiate_connection_version (req_ver_set res_ver_set : list Z) : option Z :=
  let req_ver_num := length req_ver_set in
  let res_ver_num := length res_ver_set in
  if (LIBSPDM_MAX_VERSION_COUNT <? req_ver_num)%nat || (LIBSPDM_MAX_VERSION_COUNT <? res_ver_num)%nat
  then None
  else if (req_ver_num =? 0)%nat || (res_ver_num =? 0)%nat then None
  else
    let req_version_list :=
      libspdm_version_number_sort (version_list req_ver_set) req_ver_num in
    let res_version_list :=
      libspdm_version_number_sort (version_list res_ver_set) res_ver_num in
    find_common_version (take req_ver_num req_version_list) (take res_ver_num res_version_list).

End Version.
Export Version.

(** ** Facts *)
Module VersionFacts.

Lemma find_index_max_spec l index n m :
  (m < index)%nat → (index + n ≤ length l)%nat →
  let r := find_index_max l index n m in
  (r = m ∨ (index ≤ r < index + n)%nat) ∧
  l !!! m ≤ l !!! r ∧ (∀ j, (index ≤ j < index + n)%nat → l !!! j ≤ l !!! r).
Proof.
  revert index m. induction n as [|n IH]; intros index m Hm Hn; cbn.
  - split; [by left|]. split; [lia|]. lia.
  - destruct (Z.ltb_spec (l !!! m) (l !!! index)).
    + destruct (IH (S index) index) as (H1 & H2 & H3); [lia|lia|].
      split; [lia|]. split; [lia|]. intros j Hj.
      destruct (decide (j = index)) as [->|]; [done|]. apply H3. lia.
    + destruct (IH (S index) m) as (H1 & H2 & H3); [lia|lia|].
      split; [lia|]. split; [done|]. intros j Hj.
      destruct (decide (j = index)) as [->|]; [lia|]. apply H3. lia.
Qed.

Lemma length_swap l i j : length (swap_entries l i j) = length l.
Proof. unfold swap_entries. by rewrite !length_insert. Qed.

Lemma lookup_swap l i j k : (i < length l)%nat → (j < length l)%nat →
  swap_entries l i j !!! k =
    if decide (k = i) then l !!! j else if decide (k = j) then l !!! i else l !!! k.
Proof.
  intros Hi Hj. unfold swap_entries. destruct (decide (k = j)) as [->|Hkj].
  - rewrite list_lookup_total_insert_eq by (by rewrite length_insert).
    by case_decide as E; [rewrite E|].
  - rewrite list_lookup_total_insert_ne by congruence. case_decide as E.
    + subst k. by rewrite list_lookup_total_insert_eq.
    + by rewrite list_lookup_total_insert_ne by congruence.
Qed.

(** Swapping two entries permutes the list. *)
Lemma swap_perm l i j : (i < length l)%nat → (j < length l)%nat → swap_entries l i j ≡ₚ l.
Proof.
  intros Hi Hj. apply Permutation_inj. split; [apply length_swap|].
  pose (f k := if decide (k = i) then j else if decide (k = j) then i else k).
  exists f. split.
  - intros x y. unfold f. repeat case_decide; congruence.
  - intros k. destruct (decide (k < length l)%nat) as [Hk|Hk].
    + rewrite !list_lookup_lookup_total_lt; rewrite ?length_swap; try done.
      * rewrite lookup_swap by done. unfold f. by repeat case_decide.
      * unfold f. repeat case_decide; lia.
    + rewrite (proj2 (lookup_ge_None _ _)) by (rewrite length_swap; lia).
      symmetry. apply lookup_ge_None. unfold f. repeat case_decide; lia.
Qed.

(** [sorted_upto k n l]: the first [k] entries are in place: each is at least
    every later one among the first [n]. *)
Definition sorted_upto (k n : nat) (l : list Z) : Prop :=
  ∀ i j, (i < k)%nat → (i < j < n)%nat → l !!! j ≤ l !!! i.

Lemma sort_loop_spec l k n m :
  (n ≤ length l)%nat → (k + m = n)%nat → sorted_upto k n l →
  let l' := sort_loop l n k m in
  l' ≡ₚ l ∧ sorted_upto n n l' ∧ drop n l' = drop n l.
Proof.
  revert l k. induction m as [|m IH]; intros l k Hl Hk Hs; cbn.
  { rewrite Nat.add_0_r in Hk. by subst k. }
  destruct (find_index_max_spec l (S k) (n - S k) k) as (H1 & H2 & H3); [lia|lia|].
  set (r := find_index_max l (S k) (n - S k) k) in *.
  assert (Hr : (k ≤ r < n)%nat) by lia.
  destruct (IH (swap_entries l k r) (S k)) as (P1 & P2 & P3).
  - by rewrite length_swap.
  - lia.
  - intros i j Hi Hj. rewrite !lookup_swap by lia.
    destruct (decide (i = k)) as [->|Hik].
    + destruct (decide (j = k)); [lia|]. destruct (decide (j = r)) as [->|]; [done|].
      apply H3. lia.
    + destruct (decide (i = r)); [lia|].
      destruct (decide (j = k)) as [->|]; [apply Hs; lia|].
      destruct (decide (j = r)) as [->|]; apply Hs; lia.
  - split; [|split; [done|]].
    + by rewrite P1, swap_perm by lia.
    + rewrite P3. apply list_eq; intros i. rewrite !lookup_drop.
      destruct (decide (n + i < length l)%nat).
      * rewrite !list_lookup_lookup_total_lt by (rewrite ?length_swap; lia).
        rewrite lookup_swap by lia. rewrite !decide_False by lia. done.
      * rewrite !(proj2 (lookup_ge_None _ _)); rewrite ?length_swap; lia || done.
Qed.

(** The first entries of the list end up in descending order, the others stay. *)
Lemma version_sort_spec l n : (n ≤ length l)%nat →
  let l' := libspdm_version_number_sort l n in
  take n l' ≡ₚ take n l ∧ drop n l' = drop n l ∧ sorted_upto n n l'.
Proof.
  intros Hn. unfold libspdm_version_number_sort. destruct (Nat.ltb_spec 1 n) as [Hl|Hl].
  - destruct (sort_loop_spec l 0 n n Hn) as (P1 & P2 & P3); [lia|by intros ?; lia|].
    cbv zeta. split; [|done]. set (l' := sort_loop l n 0 n) in *.
    apply Permutation_app_inv_r with (drop n l). rewrite take_drop.
    by rewrite <- P3, take_drop.
  - split; [done|]. split; [done|]. intros i j Hi Hj. lia.
Qed.

Lemma find_same_version_spec req r :
  match find_same_version req r with
  | Some v => v ∈ req ∧ libspdm_get_version_from_version_number v =
                        libspdm_get_version_from_version_number r
  | None => ∀ v, v ∈ req → libspdm_get_version_from_version_number v ≠
                           libspdm_get_version_from_version_number r
  end.
Proof.
  induction req as [|v req IH]; cbn; [by intros ? ?%not_elem_of_nil|].
  destruct (Z.eqb_spec (libspdm_get_version_from_version_number v)
              (libspdm_get_version_from_version_number r)) as [E|E].
  - split; [left|done].
  - destruct (find_same_version req r).
    + destruct IH as [H1 H2]. split; [by right|done].
    + intros v' [->|Hv]%elem_of_cons; auto.
Qed.

(** The responder's versions are tried in order, so the first common one wins. *)
Lemma find_common_version_spec req res :
  match find_common_version req res with
  | Some v => v ∈ req ∧ ∃ i r, res !! i = Some r ∧
      libspdm_get_version_from_version_number v = libspdm_get_version_from_version_number r ∧
      ∀ j r', (j < i)%nat → res !! j = Some r' → find_same_version req r' = None
  | None => ∀ r, r ∈ res → find_same_version req r = None
  end.
Proof.
  induction res as [|r res IH]; cbn; [by intros ? ?%not_elem_of_nil|].
  pose proof (find_same_version_spec req r) as Hr.
  destruct (find_same_version req r) as [v|] eqn:E.
  - destruct Hr as [H1 H2]. split; [done|]. exists 0%nat, r. split; [done|]. split; [done|]. lia.
  - destruct (find_common_version req res) as [v|].
    + destruct IH as (H1 & i & r' & H2 & H3 & H4). split; [done|]. exists (S i), r'.
      split; [done|]. split; [done|]. intros [|j] r'' Hj; cbn; [by intros [= <-]|].
      apply H4. lia.
    + intros r' [->|Hr']%elem_of_cons; auto.
Qed.

Lemma version_mono x y : is_u16 x → is_u16 y → x ≤ y →
  libspdm_get_version_from_version_number x ≤ libspdm_get_version_from_version_number y.
Proof.
  unfold is_u16. intros Hx Hy Hxy.
  unfold libspdm_get_version_from_version_number, SPDM_VERSION_NUMBER_SHIFT_BIT.
  rewrite !Z.shiftr_div_pow2 by lia. pose proof (Z.div_le_mono x y (2 ^ 8)).
  pose proof (Z.div_pos x (2 ^ 8)).
  pose proof (Z.div_lt_upper_bound y (2 ^ 8) (2 ^ 8)).
  rewrite !u8_small; unfold is_u8; lia.
Qed.

Lemma take_version_list l : take (length l) (version_list l) = l.
Proof. unfold version_list. by rewrite take_app_length. Qed.

Lemma length_version_list l : (length l ≤ length (version_list l))%nat.
Proof. unfold version_list. rewrite length_app. lia. Qed.

Lemma sorted_list_perm l :
  take (length l) (libspdm_version_number_sort (version_list l) (length l)) ≡ₚ l.
Proof.
  destruct (version_sort_spec (version_list l) (length l) (length_version_list l)) as (P & _ & _).
  by rewrite P, take_version_list.
Qed.

(** The chosen version is one of the requester's. *)
Lemma negotiate_in req res v : libspdm_negotiate_connection_version req res = Some v → v ∈ req.
Proof.
  unfold libspdm_negotiate_connection_version. do 2 (case_if; [done|]). intros Hv.
  set (lq := take (length req) _) in *.
  pose proof (find_common_version_spec lq) as Hf.
  specialize (Hf (take (length res)
    (libspdm_version_number_sort (version_list res) (length res)))).
  rewrite Hv in Hf. destruct Hf as [Hin _]. subst lq. by rewrite sorted_list_perm in Hin.
Qed.

End VersionFacts.

(** ** Properties *)
Module VersionProps.
Import VersionFacts.

(** The selection sort orders the first [n] version numbers of an array
    in descending order, in place: they are a permutation of the ones that were
    there, no entry is smaller than a later one, and the entries behind the
    first [n] are not touched. *)
Theorem version_sort_correct (ver_set : list Z) (ver_num : nat)
    (Hn : (ver_num ≤ length ver_set)%nat) :
  let sorted := libspdm_version_number_sort ver_set ver_num in
  take ver_num sorted ≡ₚ take ver_num ver_set ∧
  StronglySorted Z.ge (take ver_num sorted) ∧
  drop ver_num sorted = drop ver_num ver_set.
Proof.
  destruct (version_sort_spec ver_set ver_num Hn) as (P & D & S). cbv zeta in *.
  set (l := libspdm_version_number_sort ver_set ver_num) in *. split; [done|]. split; [|done].
  assert (Hl : length (take ver_num l) = ver_num).
  { rewrite (Permutation_length P), length_take. lia. }
  assert (Hs : ∀ i j x y, (i < j)%nat → take ver_num l !! i = Some x →
    take ver_num l !! j = Some y → y ≤ x).
  { intros i j x y Hij Hx Hy. apply lookup_lt_Some in Hy as Hj. rewrite Hl in Hj.
    rewrite lookup_take_lt in Hx, Hy by lia.
    apply list_lookup_total_correct in Hx as <-. apply list_lookup_total_correct in Hy as <-.
    apply S; lia. }
  clear -Hs. induction (take ver_num l) as [|x t IH]; constructor.
  - apply IH. intros i j a b Hij Ha Hb. by apply (Hs (Datatypes.S i) (Datatypes.S j)); [lia| |].
  - apply Forall_lookup. intros j y Hy. apply Z.le_ge.
    by apply (Hs 0%nat (Datatypes.S j)); [lia| |].
Qed.

Lemma version_sort_correct_witness :
  drop 3 (libspdm_version_number_sort [0x1100; 0x1300; 0x1200; 7] 3) = [7].
Proof. apply (version_sort_correct [0x1100; 0x1300; 0x1200; 7] 3). cbn. lia. Defined.

(** C36: version negotiation picks the highest common version.  For non-empty
    sets of at most LIBSPDM_MAX_VERSION_COUNT 16-bit version numbers in any
    order: when it returns a version, that is one of the requester's, the
    responder has the same version, and no version the two have in common is
    higher; when it fails, the sets have no version in common.  Sets that are
    empty or too long are refused. *)
Theorem negotiate_highest_common (req res : list Z)
    (Hq : Forall is_u16 req) (Hs : Forall is_u16 res) :
  let same v r := libspdm_get_version_from_version_number v =
                  libspdm_get_version_from_version_number r in
  match libspdm_negotiate_connection_version req res with
  | Some v => v ∈ req ∧ (∃ r, r ∈ res ∧ same v r) ∧
      (∀ v' r', v' ∈ req → r' ∈ res → same v' r' →
         libspdm_get_version_from_version_number v' ≤ libspdm_get_version_from_version_number v) ∧
      (length req ≤ 5)%nat ∧ (length res ≤ 5)%nat
  | None => req = [] ∨ res = [] ∨ (5 < length req)%nat ∨ (5 < length res)%nat ∨
      ∀ v r, v ∈ req → r ∈ res → ¬ same v r
  end.
Proof.
  intros same. unfold libspdm_negotiate_connection_version, LIBSPDM_MAX_VERSION_COUNT.
  destruct (Nat.ltb_spec 5 (length req)); [do 2 right; by left|].
  destruct (Nat.ltb_spec 5 (length res)); [do 3 right; by left|]. cbn [orb].
  destruct (Nat.eqb_spec (length req) 0) as [E|_]; [left; by apply nil_length_inv|].
  destruct (Nat.eqb_spec (length res) 0) as [E|_]; [right; left; by apply nil_length_inv|].
  cbn [orb].
  pose proof (sorted_list_perm req) as Pq. pose proof (sorted_list_perm res) as Ps.
  destruct (version_sort_spec (version_list res) (length res) (length_version_list res))
    as (_ & _ & So).
  set (lq := take (length req) _) in *.
  set (ls := libspdm_version_number_sort (version_list res) (length res)) in *.
  pose proof (find_common_version_spec lq (take (length res) ls)) as Hf.
  destruct (find_common_version lq (take (length res) ls)) as [v|].
  - destruct Hf as (H1 & i & r & Hi & Hvr & Hlt).
    assert (Hr : r ∈ res) by (rewrite <- Ps; by eapply list_elem_of_lookup_2).
    split; [by rewrite <- Pq|]. split; [by exists r|].
    split; [|lia]. intros v' r' Hv' Hr' Hsame. rewrite <- Pq in Hv'. rewrite <- Ps in Hr'.
    apply list_elem_of_lookup in Hr' as [j Hj].
    destruct (decide (j < i)%nat) as [Hji|Hji].
    { pose proof (find_same_version_spec lq r') as Hno.
      rewrite (Hlt j r' Hji Hj) in Hno. by destruct (Hno v' Hv'). }
    unfold same in Hsame. rewrite Hsame, Hvr.
    assert (Hu : ∀ k x, take (length res) ls !! k = Some x → is_u16 x).
    { intros k x Hx. apply list_elem_of_lookup_2 in Hx. rewrite Ps in Hx.
      apply list_elem_of_lookup in Hx as [k' Hx]. by apply (proj1 (Forall_lookup _ _) Hs k'). }
    apply version_mono; [by eapply Hu|by eapply Hu|].
    destruct (decide (i = j)) as [->|]; [by replace r' with r by congruence|].
    apply lookup_lt_Some in Hj as Hjl. rewrite length_take in Hjl.
    rewrite lookup_take_lt in Hi, Hj by lia.
    apply list_lookup_total_correct in Hi as <-. apply list_lookup_total_correct in Hj as <-.
    apply So; lia.
  - do 4 right. intros v r Hv Hr Hsame. rewrite <- Pq in Hv. rewrite <- Ps in Hr.
    pose proof (find_same_version_spec lq r) as Hno. rewrite (Hf r Hr) in Hno.
    by apply (Hno v Hv).
Qed.

Lemma negotiate_highest_common_witness :
  match libspdm_negotiate_connection_version [0x1000; 0x1200; 0x1100] [0x1100; 0x1300; 0x1200] with
  | Some v => v ∈ [0x1000; 0x1200; 0x1100] | None => False end.
Proof.
  pose proof (negotiate_highest_common [0x1000; 0x1200; 0x1100] [0x1100; 0x1300; 0x1200]
    ltac:(repeat (constructor; [by vm_compute|]); constructor)
    ltac:(repeat (constructor; [by vm_compute|]); constructor)) as H.
  exact (proj1 H).
Defined.

End VersionProps.
