(* ===== verification/OpaqueData.v ===== *)
(** * OpaqueData: libspdm_com_opaque_data.c

    The opaque data of the session-opening messages (DSP0277): a table of
    vendor elements that carries the secured message versions an endpoint
    offers or selects and its AEAD limit.  The builders of the two endpoints
    are those of libspdm_req_common.c and libspdm_rsp_common.c.  A blob is the
    list of its bytes, an element the offset and length of its bytes in it. *)

From S2P Require Import Prelude SpdmDefs CommonSupport CryptLib SecuredContext SpdmContext.
From S2P Require Import SessionTable Version.
Import ReadWrite.

Module OpaqueData.

(** Sizes of the packed structures of spdm.h and spdm_secured_message.h. *)
Definition sizeof_spdm_general_opaque_data_table_header : Z := 4.
Definition sizeof_secured_message_general_opaque_data_table_header : Z := 8.
Definition sizeof_opaque_element_table_header : Z := 2.
Definition sizeof_secured_message_opaque_element_table_header : Z := 4.
Definition sizeof_secured_message_opaque_element_header : Z := 2.
Definition sizeof_secured_message_opaque_element_version_selection : Z := 4.
Definition sizeof_secured_message_opaque_element_supported_version : Z := 3.
Definition sizeof_secured_message_opaque_element_aead_limit : Z := 3.
Definition sizeof_spdm_version_number : Z := 2.

Section opaque.
Context `{BuildConfig}.
Implicit Types ctx : libspdm_context_t.

Definition secured_message_version_count ctx : Z := blen (lc_secured_message_version ctx).

Definition is_version_12 ctx : bool :=
  SPDM_MESSAGE_VERSION_12 <=? libspdm_get_connection_version ctx.

Definition general_header_size ctx : Z :=
  if is_version_12 ctx then sizeof_spdm_general_opaque_data_table_header
  else sizeof_secured_message_general_opaque_data_table_header.

(** [(size + 3) & ~3] is [align_up 4 size]. *)
Definition libspdm_get_opaque_data_version_selection_data_size ctx : Z :=
  if secured_message_version_count ctx =? 0 then 0
  else align_up 4 (general_header_size ctx + sizeof_secured_message_opaque_element_table_header
                   + sizeof_secured_message_opaque_element_version_selection).

Definition libspdm_get_opaque_data_supported_version_data_size ctx : Z :=
  if secured_message_version_count ctx =? 0 then 0
  else align_up 4 (general_header_size ctx + sizeof_secured_message_opaque_element_table_header
                   + sizeof_secured_message_opaque_element_supported_version
                   + sizeof_spdm_version_number * secured_message_version_count ctx).

Definition libspdm_get_untrusted_opaque_data_supported_version_data_size ctx
    (version_count : Z) : Z :=
  align_up 4 (general_header_size ctx + sizeof_secured_message_opaque_element_table_header
              + sizeof_secured_message_opaque_element_supported_version
              + sizeof_spdm_version_number * version_count).

(** ** Finding elements *)

(** The checks of the general header: the number of elements and the offset of
    the first one. *)
Definition read_general_header ctx (data_in_size : Z) (data_in : list Z) : exec (option (Z * Z)) :=
  if is_version_12 ctx then
    RETURN None IF data_in_size <? sizeof_spdm_general_opaque_data_table_header;;
    total_elements ← load_le 1 data_in 0;
    RETURN None IF total_elements <? 1;;
    Ret (Some (total_elements, sizeof_spdm_general_opaque_data_table_header))
  else
    RETURN None IF data_in_size <? sizeof_secured_message_general_opaque_data_table_header;;
    spec_id ← load_le 4 data_in 0;
    opaque_version ← load_le 1 data_in 4;
    total_elements ← load_le 1 data_in 5;
    RETURN None IF negb (spec_id =? SECURED_MESSAGE_OPAQUE_DATA_SPEC_ID)
                   || negb (opaque_version =? SECURED_MESSAGE_OPAQUE_VERSION)
                   || (total_elements <? 1);;
    Ret (Some (total_elements, sizeof_secured_message_general_opaque_data_table_header)).

(** The state of the loop over the elements. *)
Record element_search : Set := Build_element_search {
  total_element_len : Z;
  matched_element_cnt : Z;
  get_element : option (Z * Z);
}.

(** The loop; [n] elements are left, [p] is opaque_element_table_header. *)
Fixpoint element_loop (data_in : list Z) (data_element_size element_id element_index : Z)
    (n : nat) (p : Z) (s : element_search) : exec (option element_search) :=
  match n with
  | O => Ret (Some s)
  | S n' =>
      let hdr := sizeof_opaque_element_table_header in
      RETURN None IF data_element_size <? size_t (total_element_len s + hdr);;
      id ← load_le 1 data_in p;
      RETURN None IF SPDM_REGISTRY_ID_MAX <? id;;
      vendor_len ← load_le 1 data_in (p + 1);
      RETURN None IF data_element_size <? size_t (total_element_len s + hdr + vendor_len + 2);;
      field ← load data_in (p + hdr + vendor_len) 2;
      opaque_element_data_len ← libspdm_read_uint16 field;
      let current_element_len := align_up 4 (hdr + vendor_len + 2 + opaque_element_data_len) in
      let total := size_t (total_element_len s + current_element_len) in
      RETURN None IF data_element_size <? total;;
      let s :=
        if id =? element_id then
          {| total_element_len := total;
             matched_element_cnt := u8 (matched_element_cnt s + 1);
             get_element := if matched_element_cnt s =? element_index
                            then Some (p, current_element_len) else get_element s |}
        else
          {| total_element_len := total; matched_element_cnt := matched_element_cnt s;
             get_element := get_element s |} in
      element_loop data_in data_element_size element_id element_index n'
        (p + current_element_len) s
  end.

(** [Some (cnt, ptr, len)] is [true] with *total_matched_element_cnt,
    *get_element_ptr and *get_element_len; [None] is [false]. *)
Definition libspdm_get_element_from_opaque_data_with_element_id ctx (data_in_size : Z)
    (data_in : list Z) (element_id element_index : Z) : exec (option (Z * Z * Z)) :=
  RETURN None IF SPDM_REGISTRY_ID_MAX <? element_id;;
  RETURN None IF data_in_size =? 0;;
  header ← read_general_header ctx data_in_size data_in;
  match header with
  | None => Ret None
  | Some (element_num, first) =>
      let data_element_size := data_in_size - first in
      s ← element_loop data_in data_element_size element_id element_index
            (Z.to_nat element_num) first (Build_element_search 0 0 None);
      match s with
      | None => Ret None
      | Some s =>
          RETURN None IF negb (data_element_size =? total_element_len s);;
          match get_element s with
          | None => Ret None
          | Some (ptr, len) => Ret (Some (matched_element_cnt s, ptr, len))
          end
      end
  end.

(** The loop over the DMTF elements; [n] are left. *)
Fixpoint sm_data_loop ctx (data_in_size : Z) (data_in : list Z) (sm_data_id : Z)
    (n : nat) (element_index : Z) : exec (option (Z * Z)) :=
  match n with
  | O => Ret None
  | S n' =>
      result ← libspdm_get_element_from_opaque_data_with_element_id ctx data_in_size data_in
                 SPDM_REGISTRY_ID_DMTF element_index;
      match result with
      | None => Ret None
      | Some (_, ptr, len) =>
          vendor_len ← load_le 1 data_in (ptr + 1);
          if vendor_len =? 0 then
            let header := ptr + sizeof_secured_message_opaque_element_table_header in
            RETURN None IF data_in_size
                           <? header + sizeof_secured_message_opaque_element_header;;
            version ← load_le 1 data_in header;
            id ← load_le 1 data_in (header + 1);
            RETURN Some (ptr, len)
              IF (id =? sm_data_id)
                 && (version =? SECURED_MESSAGE_OPAQUE_ELEMENT_SMDATA_DATA_VERSION);;
            sm_data_loop ctx data_in_size data_in sm_data_id n' (element_index + 1)
          else sm_data_loop ctx data_in_size data_in sm_data_id n' (element_index + 1)
      end
  end.

Definition libspdm_get_sm_data_element_from_opaque_data ctx (data_in_size : Z)
    (data_in : list Z) (sm_data_id : Z) : exec (option (Z * Z)) :=
  RETURN None IF data_in_size =? 0;;
  result ← libspdm_get_element_from_opaque_data_with_element_id ctx data_in_size data_in
             SPDM_REGISTRY_ID_DMTF 0;
  match result with
  | None => Ret None
  | Some (element_num, _, _) =>
      sm_data_loop ctx data_in_size data_in sm_data_id (Z.to_nat element_num) 0
  end.

(** ** The general check of a received blob *)

(** libspdm_consttime_is_mem_equal against zero bytes: every byte is read. *)
Definition padding_is_zero (data_in : list Z) (off n : Z) : exec bool :=
  bs ← load data_in off n; Ret (forallb (λ b, b =? 0) bs).

Fixpoint check_loop (data_in : list Z) (data_element_size : Z) (n : nat)
    (p total : Z) : exec bool :=
  match n with
  | O => Ret true
  | S n' =>
      let hdr := sizeof_opaque_element_table_header in
      RETURN false IF data_element_size <? size_t (total + hdr + 2);;
      id ← load_le 1 data_in p;
      RETURN false IF SPDM_REGISTRY_ID_MAX <? id;;
      vendor_len ← load_le 1 data_in (p + 1);
      RETURN false IF data_element_size <? size_t (total + hdr + vendor_len + 2);;
      field ← load data_in (p + hdr + vendor_len) 2;
      opaque_element_data_len ← libspdm_read_uint16 field;
      let current_element_len := hdr + vendor_len + 2 + opaque_element_data_len in
      RETURN false IF data_element_size <? size_t (total + align_up 4 current_element_len);;
      ok ← (if negb (Z.land current_element_len 3 =? 0)
            then padding_is_zero data_in (p + current_element_len)
                   (4 - Z.land current_element_len 3)
            else Ret true);
      RETURN false IF negb ok;;
      let current_element_len := align_up 4 current_element_len in
      check_loop data_in data_element_size n' (p + current_element_len)
        (size_t (total + current_element_len))
  end.

Definition libspdm_process_general_opaque_data_check ctx (data_in_size : Z)
    (data_in : list Z) : exec bool :=
  LIBSPDM_ASSERT (data_in_size <=? SPDM_MAX_OPAQUE_DATA_SIZE);;
  if is_version_12 ctx
     && (Z.land (da_other_params_support (ci_algorithm ctx)) SPDM_ALGORITHMS_OPAQUE_DATA_FORMAT_MASK
         =? SPDM_ALGORITHMS_OPAQUE_DATA_FORMAT_1) then
    RETURN false IF negb (Z.land data_in_size 3 =? 0);;
    RETURN false IF data_in_size <? sizeof_spdm_general_opaque_data_table_header;;
    element_num ← load_le 1 data_in 0;
    RETURN false IF element_num <? 1;;
    check_loop data_in (data_in_size - sizeof_spdm_general_opaque_data_table_header)
      (Z.to_nat element_num) sizeof_spdm_general_opaque_data_table_header 0
  else Ret true.

(** ** Secured message versions *)

(** The general header the builders write: one element. *)
Definition write_general_header ctx (data_out : list Z) : exec (list Z) :=
  if is_version_12 ctx then
    m ← store data_out 0 [1];
    store m 1 [0; 0; 0]
  else
    m ← store data_out 0 (le_bytes 4 SECURED_MESSAGE_OPAQUE_DATA_SPEC_ID);
    m ← store m 4 [SECURED_MESSAGE_OPAQUE_VERSION];
    m ← store m 5 [1];
    store m 6 (le_bytes 2 0).

(** A secured_message_opaque_element_table_header_t of the DMTF. *)
Definition write_element_header (data_out : list Z) (p data_len : Z) : exec (list Z) :=
  m ← store data_out p [SPDM_REGISTRY_ID_DMTF];
  m ← store m (p + 1) [0];
  store m (p + 2) (le_bytes 2 data_len).

(** The results are the blob and *data_out_size. *)
Definition libspdm_build_opaque_data_version_selection_data ctx (secured_message_version : Z)
    (data_out_size : Z) (data_out : list Z) : exec (list Z * Z) :=
  RETURN (data_out, 0) IF secured_message_version_count ctx =? 0;;
  let final_data_size := libspdm_get_opaque_data_version_selection_data_size ctx in
  LIBSPDM_ASSERT (final_data_size <=? data_out_size);;
  m ← write_general_header ctx data_out;
  let p := general_header_size ctx in
  m ← write_element_header m p sizeof_secured_message_opaque_element_version_selection;
  let p := p + sizeof_secured_message_opaque_element_table_header in
  m ← store m p [SECURED_MESSAGE_OPAQUE_ELEMENT_SMDATA_DATA_VERSION];
  m ← store m (p + 1) [SECURED_MESSAGE_OPAQUE_ELEMENT_SMDATA_ID_VERSION_SELECTION];
  m ← store m (p + 2) (le_bytes 2 secured_message_version);
  let end_ := p + sizeof_secured_message_opaque_element_version_selection in
  m ← store m end_ (zeros (size_t (final_data_size - end_)));
  Ret (m, data_out_size).

(** An array of version numbers in memory. *)
Definition version_bytes (versions : list Z) : list Z := versions ≫= le_bytes 2.

Fixpoint read_versions (bs : list Z) : list Z :=
  match bs with
  | b0 :: b1 :: bs' => le_val [b0; b1] :: read_versions bs'
  | _ => []
  end.

Definition libspdm_build_opaque_data_supported_version_data ctx (data_out_size : Z)
    (data_out : list Z) : exec (list Z * Z) :=
  RETURN (data_out, 0) IF secured_message_version_count ctx =? 0;;
  let count := secured_message_version_count ctx in
  let final_data_size := libspdm_get_opaque_data_supported_version_data_size ctx in
  LIBSPDM_ASSERT (final_data_size <=? data_out_size);;
  m ← write_general_header ctx data_out;
  let p := general_header_size ctx in
  m ← write_element_header m p
        (sizeof_secured_message_opaque_element_supported_version
         + sizeof_spdm_version_number * count);
  let p := p + sizeof_secured_message_opaque_element_table_header in
  m ← store m p [SECURED_MESSAGE_OPAQUE_ELEMENT_SMDATA_DATA_VERSION];
  m ← store m (p + 1) [SECURED_MESSAGE_OPAQUE_ELEMENT_SMDATA_ID_SUPPORTED_VERSION];
  m ← store m (p + 2) [u8 count];
  let versions_list := p + sizeof_secured_message_opaque_element_supported_version in
  LIBSPDM_ASSERT (count * sizeof_spdm_version_number <=? size_t (data_out_size - versions_list));;
  m ← store m versions_list (version_bytes (lc_secured_message_version ctx));
  let end_ := versions_list + sizeof_spdm_version_number * count in
  m ← store m end_ (zeros (size_t (final_data_size - end_)));
  Ret (m, data_out_size).

(** The loop over the local versions. *)
Fixpoint has_version (versions : list Z) (selected_version : Z) : bool :=
  match versions with
  | [] => false
  | v :: versions' =>
      if libspdm_get_version_from_version_number selected_version =?
         libspdm_get_version_from_version_number v
      then true else has_version versions' selected_version
  end.

(** The second result is *secured_message_version, [None] when it is not written. *)
Definition libspdm_process_opaque_data_version_selection_data ctx (data_in_size : Z)
    (data_in : list Z) : exec (libspdm_return_t * option Z) :=
  RETURN (LIBSPDM_STATUS_SUCCESS, None) IF secured_message_version_count ctx =? 0;;
  result ← libspdm_get_sm_data_element_from_opaque_data ctx data_in_size data_in
             SECURED_MESSAGE_OPAQUE_ELEMENT_SMDATA_ID_VERSION_SELECTION;
  match result with
  | None => Ret (LIBSPDM_STATUS_INVALID_MSG_FIELD, None)
  | Some (ptr, len) =>
      vendor_len ← load_le 1 data_in (ptr + 1);
      data_len ← load_le 2 data_in (ptr + 2);
      RETURN (LIBSPDM_STATUS_INVALID_MSG_FIELD, None)
        IF negb (vendor_len =? 0)
           || negb (data_len =? sizeof_secured_message_opaque_element_version_selection);;
      let section := ptr + sizeof_secured_message_opaque_element_table_header in
      RETURN (LIBSPDM_STATUS_INVALID_MSG_FIELD, None)
        IF ptr + len <? section + sizeof_secured_message_opaque_element_version_selection;;
      selected_version ← load_le 2 data_in (section + 2);
      if has_version (lc_secured_message_version ctx) selected_version
      then Ret (LIBSPDM_STATUS_SUCCESS, Some selected_version)
      else Ret (LIBSPDM_STATUS_UNSUPPORTED_CAP, None)
  end.

Definition libspdm_process_opaque_data_supported_version_data ctx (data_in_size : Z)
    (data_in : list Z) : exec (libspdm_return_t * option Z) :=
  RETURN (LIBSPDM_STATUS_SUCCESS, None) IF secured_message_version_count ctx =? 0;;
  RETURN (LIBSPDM_STATUS_INVALID_MSG_FIELD, None)
    IF data_in_size <? libspdm_get_untrusted_opaque_data_supported_version_data_size ctx 1;;
  result ← libspdm_get_sm_data_element_from_opaque_data ctx data_in_size data_in
             SECURED_MESSAGE_OPAQUE_ELEMENT_SMDATA_ID_SUPPORTED_VERSION;
  match result with
  | None => Ret (LIBSPDM_STATUS_INVALID_MSG_FIELD, None)
  | Some (ptr, len) =>
      let section := ptr + sizeof_secured_message_opaque_element_table_header in
      RETURN (LIBSPDM_STATUS_INVALID_MSG_FIELD, None)
        IF ptr + len <? section + sizeof_secured_message_opaque_element_supported_version;;
      version_count ← load_le 1 data_in (section + 2);
      RETURN (LIBSPDM_STATUS_INVALID_MSG_FIELD, None) IF version_count =? 0;;
      vendor_len ← load_le 1 data_in (ptr + 1);
      data_len ← load_le 2 data_in (ptr + 2);
      RETURN (LIBSPDM_STATUS_INVALID_MSG_FIELD, None)
        IF negb (vendor_len =? 0)
           || negb (data_len =? sizeof_secured_message_opaque_element_supported_version
                                + sizeof_spdm_version_number * version_count);;
      let versions_list := section + sizeof_secured_message_opaque_element_supported_version in
      RETURN (LIBSPDM_STATUS_INVALID_MSG_FIELD, None)
        IF ptr + len <? versions_list + sizeof_spdm_version_number;;
      bs ← load data_in versions_list (sizeof_spdm_version_number * version_count);
      match libspdm_negotiate_connection_version (lc_secured_message_version ctx)
              (read_versions bs) with
      | None => Ret (LIBSPDM_STATUS_UNSUPPORTED_CAP, None)
      | Some common_version => Ret (LIBSPDM_STATUS_SUCCESS, Some common_version)
      end
  end.

Definition libspdm_local_max_secured_message_version ctx : Z :=
  foldl (λ max_version version,
    if libspdm_get_version_from_version_number max_version <?
       libspdm_get_version_from_version_number version then version else max_version)
    0 (lc_secured_message_version ctx).

(** ** The AEAD limit *)

(** The loop [while (aead_limit > 1)]; a 64-bit limit needs at most 63 rounds. *)
Fixpoint log2_loop (fuel : nat) (aead_limit exponent : Z) : Z :=
  match fuel with
  | O => exponent
  | S fuel' =>
      if 1 <? aead_limit then log2_loop fuel' (Z.shiftr aead_limit 1) (u8 (exponent + 1))
      else exponent
  end.

Definition libspdm_aead_limit_exponent_from_max_sequence_number (max_sequence_number : Z) : Z :=
  if LIBSPDM_MAX_SPDM_SESSION_SEQUENCE_NUMBER <=? max_sequence_number
  then SECURED_MESSAGE_AEAD_LIMIT_EXPONENT_MAX
  else log2_loop 64 (u64 (max_sequence_number + 1)) 0.

Definition libspdm_get_opaque_data_aead_limit_element_size ctx (secured_message_version : Z) : Z :=
  if libspdm_get_version_from_version_number secured_message_version <? SECURED_SPDM_VERSION_13
  then 0
  else align_up 4 (sizeof_secured_message_opaque_element_table_header
                   + sizeof_secured_message_opaque_element_aead_limit).

(** The walk over the elements of an own blob; the condition reads vendor_len
    before it is known to be inside. *)
Fixpoint current_size_loop (data_out : list Z) (data_out_capacity : Z) (n : nat)
    (p total_size : Z) : exec (option Z) :=
  match n with
  | O => Ret (Some total_size)
  | S n' =>
      let hdr := sizeof_opaque_element_table_header in
      vendor_len ← load_le 1 data_out (p + 1);
      RETURN None IF data_out_capacity <? size_t (total_size + hdr + vendor_len + 2);;
      field ← load data_out (p + hdr + vendor_len) 2;
      opaque_element_data_len ← libspdm_read_uint16 field;
      let current_element_len := align_up 4 (hdr + vendor_len + 2 + opaque_element_data_len) in
      RETURN None IF data_out_capacity <? size_t (total_size + current_element_len);;
      current_size_loop data_out data_out_capacity n' (p + current_element_len)
        (size_t (total_size + current_element_len))
  end.

(** [Some size] is [true] with *current_size. *)
Definition libspdm_get_opaque_data_current_size ctx (data_out : list Z)
    (data_out_capacity : Z) : exec (option Z) :=
  let header := general_header_size ctx in
  RETURN None IF data_out_capacity <? header;;
  element_num ← load_le 1 data_out (if is_version_12 ctx then 0 else 5);
  current_size_loop data_out data_out_capacity (Z.to_nat element_num) header header.

Definition libspdm_build_opaque_data_aead_limit_element ctx (secured_message_version : Z)
    (data_out_size : Z) (data_out : list Z) : exec (list Z * Z) :=
  let data_out_capacity := data_out_size in
  result ← libspdm_get_opaque_data_current_size ctx data_out data_out_capacity;
  LIBSPDM_ASSERT (bool_decide (is_Some result));;
  match result with
  | None => Ret (data_out, data_out_size)
  | Some existing_size =>
      let element_size :=
        libspdm_get_opaque_data_aead_limit_element_size ctx secured_message_version in
      RETURN (data_out, existing_size) IF element_size =? 0;;
      LIBSPDM_ASSERT (size_t (existing_size + element_size) <=? data_out_capacity);;
      let count := if is_version_12 ctx then 0 else 5 in
      total_elements ← load_le 1 data_out count;
      m ← store data_out count [u8 (total_elements + 1)];
      m ← write_element_header m existing_size sizeof_secured_message_opaque_element_aead_limit;
      let p := existing_size + sizeof_secured_message_opaque_element_table_header in
      m ← store m p [SECURED_MESSAGE_OPAQUE_ELEMENT_SMDATA_DATA_VERSION];
      m ← store m (p + 1) [SECURED_MESSAGE_OPAQUE_ELEMENT_SMDATA_ID_AEAD_LIMIT];
      m ← store m (p + 2) [libspdm_aead_limit_exponent_from_max_sequence_number
                             (sc_max_spdm_session_sequence_number ctx)];
      m ← store m (p + sizeof_secured_message_opaque_element_aead_limit)
            (zeros (size_t (element_size
               - (sizeof_secured_message_opaque_element_table_header
                  + sizeof_secured_message_opaque_element_aead_limit))));
      Ret (m, size_t (existing_size + element_size))
  end.

(** The second result is *aead_limit_exponent. *)
Definition libspdm_process_opaque_data_aead_limit ctx (secured_message_version data_in_size : Z)
    (data_in : list Z) : exec (libspdm_return_t * Z) :=
  let default := SECURED_MESSAGE_AEAD_LIMIT_EXPONENT_DEFAULT in
  RETURN (LIBSPDM_STATUS_SUCCESS, default)
    IF libspdm_get_version_from_version_number secured_message_version <? SECURED_SPDM_VERSION_13;;
  result ← libspdm_get_sm_data_element_from_opaque_data ctx data_in_size data_in
             SECURED_MESSAGE_OPAQUE_ELEMENT_SMDATA_ID_AEAD_LIMIT;
  match result with
  | None => Ret (LIBSPDM_STATUS_SUCCESS, default)
  | Some (ptr, len) =>
      vendor_len ← load_le 1 data_in (ptr + 1);
      data_len ← load_le 2 data_in (ptr + 2);
      RETURN (LIBSPDM_STATUS_INVALID_MSG_FIELD, default)
        IF negb (vendor_len =? 0)
           || negb (data_len =? sizeof_secured_message_opaque_element_aead_limit);;
      let section := ptr + sizeof_secured_message_opaque_element_table_header in
      RETURN (LIBSPDM_STATUS_INVALID_MSG_FIELD, default)
        IF ptr + len <? section + sizeof_secured_message_opaque_element_aead_limit;;
      exponent ← load_le 1 data_in (section + 2);
      RETURN (LIBSPDM_STATUS_INVALID_MSG_FIELD, default)
        IF SECURED_MESSAGE_AEAD_LIMIT_EXPONENT_MAX <? exponent;;
      Ret (LIBSPDM_STATUS_SUCCESS, exponent)
  end.

(** 2 ^ exponent - 1 on 64 bits, all ones from 64 on. *)
Definition max_sequence_number_of (exponent : Z) : Z :=
  if 64 <=? exponent then LIBSPDM_MAX_SPDM_SESSION_SEQUENCE_NUMBER
  else u64 (Z.shiftl 1 exponent) - 1.

Definition libspdm_apply_aead_limit_to_session ctx (si : libspdm_session_info_t)
    (peer_aead_limit_exponent : Z) : libspdm_session_info_t :=
  let local_aead_limit_exponent := libspdm_aead_limit_exponent_from_max_sequence_number
                                     (sc_max_spdm_session_sequence_number ctx) in
  let local_max_sequence_number := max_sequence_number_of local_aead_limit_exponent in
  let peer_max_sequence_number := max_sequence_number_of peer_aead_limit_exponent in
  let effective_max := if peer_max_sequence_number <? local_max_sequence_number
                       then peer_max_sequence_number else local_max_sequence_number in
  si <| secured_message_context :=
    libspdm_secured_message_set_max_spdm_session_sequence_number (secured_message_context si)
      effective_max |>.

End opaque.
End OpaqueData.
Export OpaqueData.

(** ** Facts about the parsers *)
Module OpaqueFacts.

Lemma log2_loop_spec f a x : 1 ≤ a < 2 ^ Z.of_nat f → 0 ≤ x → x + Z.log2 a < 256 →
  log2_loop f a x = x + Z.log2 a.
Proof.
  revert a x. induction f as [|f IH]; intros a x Ha Hx Hb; [cbn in Ha; lia|]. cbn [log2_loop].
  destruct (Z.ltb_spec 1 a) as [Hg|Hg].
  - assert (Hs : Z.log2 (Z.shiftr a 1) = Z.log2 a - 1).
    { rewrite Z.log2_shiftr by lia. pose proof (Z.log2_pos a). lia. }
    rewrite Z.shiftr_div_pow2 in * by lia. change (2 ^ 1) with 2 in *.
    rewrite Nat2Z.inj_succ, Z.pow_succ_r in Ha by lia.
    pose proof (Z.div_le_lower_bound a 2 1). pose proof (Z.div_lt_upper_bound a 2 (2 ^ Z.of_nat f)).
    pose proof (Z.log2_pos a Hg).
    rewrite u8_small by (unfold is_u8; lia). rewrite IH; lia.
  - replace a with 1 by lia. cbn. lia.
Qed.

(** The exponent is the logarithm of the AEAD limit, rounded down. *)
Lemma exponent_spec cap : is_u64 cap →
  let e := libspdm_aead_limit_exponent_from_max_sequence_number cap in
  0 ≤ e ≤ 64 ∧ 2 ^ e ≤ cap + 1 < 2 ^ (e + 1).
Proof.
  unfold is_u64. intros Hm.
  unfold libspdm_aead_limit_exponent_from_max_sequence_number,
    LIBSPDM_MAX_SPDM_SESSION_SEQUENCE_NUMBER, SECURED_MESSAGE_AEAD_LIMIT_EXPONENT_MAX.
  destruct (Z.leb_spec 0xffffffffffffffff cap) as [Hc|Hc].
  - split; [lia|]. replace cap with 0xffffffffffffffff by lia. cbn. lia.
  - assert (Hl : 0 ≤ Z.log2 (cap + 1) ≤ 63).
    { split; [apply Z.log2_nonneg|]. apply Z.lt_succ_r, Z.log2_lt_pow2; lia. }
    rewrite u64_small by (unfold is_u64; lia).
    rewrite log2_loop_spec by (try (change (Z.of_nat 64) with 64); lia). rewrite Z.add_0_l.
    split; [lia|]. apply Z.log2_spec. lia.
Qed.

Lemma max_sequence_number_spec x : 0 ≤ x → max_sequence_number_of x = 2 ^ Z.min x 64 - 1.
Proof.
  intros Hx. unfold max_sequence_number_of. destruct (Z.leb_spec 64 x).
  - by replace (Z.min x 64) with 64 by lia.
  - replace (Z.min x 64) with x by lia. rewrite Z.shiftl_1_l, u64_small; [done|].
    unfold is_u64. split; [lia|]. apply Z.pow_lt_mono_r; lia.
Qed.

Section facts.
Context `{BuildConfig}.
Implicit Types ctx : libspdm_context_t.

(** A field of the blob as a number. *)
Definition field (data : list Z) (p : Z) (n : nat) : Z := le_val (sub data p (Z.of_nat n)).

Lemma load_le_field data p n :
  0 ≤ p → p + Z.of_nat n ≤ blen data → load_le n data p = Ret (field data p n).
Proof. intros. unfold load_le. by rewrite load_in by range. Qed.

Lemma field_bound data p n : bytes_ok data → 0 ≤ p → p + Z.of_nat n ≤ blen data →
  0 ≤ field data p n < 2 ^ (8 * Z.of_nat n).
Proof.
  intros Hb Hp Hn. unfold field.
  replace (Z.of_nat n) with (Z.of_nat (length (sub data p (Z.of_nat n)))) at 3.
  2: { rewrite length_sub by range. lia. }
  apply le_val_bound. auto with word.
Qed.

Lemma read_field data p : bytes_ok data → 0 ≤ p → p + 2 ≤ blen data →
  load data p 2 = Ret (sub data p 2) ∧ libspdm_read_uint16 (sub data p 2) = Ret (field data p 2).
Proof.
  intros Hb Hp Hl. rewrite load_in by range. split; [done|].
  assert (Hs : length (sub data p 2) = 2%nat) by (rewrite length_sub by range; lia).
  rewrite ReadWriteFacts.read_uint16_le; [|auto with word|lia].
  unfold field. rewrite sub_sub by lia. by rewrite Z.add_0_r.
Qed.

(** The bytes of the element at [p]: its header and vendor id, its data. *)
Definition element_size (data : list Z) (p : Z) : Z :=
  let v := field data (p + 1) 1 in align_up 4 (2 + v + 2 + field data (p + 2 + v) 2).

(** An element of the table: its bytes are in the blob, data and padding included. *)
Definition element_at (data : list Z) (first p len : Z) : Prop :=
  let v := field data (p + 1) 1 in
  first ≤ p ∧ p + len ≤ blen data ∧ len = element_size data p ∧
  4 + v + field data (p + 2 + v) 2 ≤ len.

Lemma general_header_size_bound ctx : 4 ≤ general_header_size ctx ≤ 8.
Proof.
  unfold general_header_size, sizeof_spdm_general_opaque_data_table_header,
    sizeof_secured_message_general_opaque_data_table_header. case_if; lia.
Qed.

Section safety.
  (** A received blob: any bytes, of any size below 2^63. *)
  Variable data : list Z.
  Hypothesis Hdata : bytes_ok data.
  Hypothesis Hsize : blen data < 2 ^ 63.

(** Reading the header of an element known to lie inside the blob. *)
Lemma element_fields p : 0 ≤ p → p + 4 + field data (p + 1) 1 ≤ blen data →
  0 ≤ field data (p + 1) 1 < 256 ∧
  0 ≤ field data (p + 2 + field data (p + 1) 1) 2 < 65536 ∧
  4 + field data (p + 1) 1 + field data (p + 2 + field data (p + 1) 1) 2 ≤ element_size data p
    < 8 + field data (p + 1) 1 + field data (p + 2 + field data (p + 1) 1) 2.
Proof.
  intros Hp Hl. assert (Hv : 0 ≤ field data (p + 1) 1 < 256).
  { destruct (decide (p + 2 ≤ blen data)).
    - pose proof (field_bound data (p + 1) 1 Hdata). cbn in *. lia.
    - unfold field in *. assert (Hz : sub data (p + 1) (Z.of_nat 1) = []); [|by rewrite Hz in *].
      apply list_eq; intros i. rewrite lookup_sub by lia. case_decide; [|done].
      apply lookup_ge_None. lia. }
  pose proof (field_bound data (p + 2 + field data (p + 1) 1) 2 Hdata).
  change (2 ^ (8 * Z.of_nat 2)) with 65536 in *. split; [done|]. split; [lia|].
  unfold element_size. cbv zeta. set (v := field data (p + 1) 1) in *.
  set (d := field data (p + 2 + v) 2) in *. pose proof (align_up4 (2 + v + 2 + d)). lia.
Qed.

Definition search_ok (first p : Z) (s : element_search) : Prop :=
  total_element_len s = p - first ∧
  0 ≤ matched_element_cnt s < 256 ∧
  ∀ ptr len, get_element s = Some (ptr, len) → element_at data first ptr len.

Lemma element_loop_safe first id idx n p s :
  0 ≤ first → first ≤ p → p ≤ blen data → search_ok first p s →
  wp (element_loop data (blen data - first) id idx n p s)
    (λ r, ∀ s', r = Some s' → ∃ p', p' ≤ blen data ∧ search_ok first p' s').
Proof.
  intros Hf. revert p s. induction n as [|n IH]; intros p s Hp Hpl (Ht & Hm & Hg); cbn [element_loop].
  { apply wp_ret. intros s' [= <-]. exists p. split; [done|]. by split. }
  cbv zeta. unfold sizeof_opaque_element_table_header. rewrite Ht.
  rewrite (size_t_small (p - first + 2)) by lia.
  apply wp_if; intros E1; [by apply wp_ret|]. apply Z.ltb_ge in E1.
  rewrite (load_le_field data p 1) by lia. cbn [mbind exec_bind].
  apply wp_if; intros E2; [by apply wp_ret|].
  rewrite (load_le_field data (p + 1) 1) by lia. cbn [mbind exec_bind].
  pose proof (field_bound data (p + 1) 1 Hdata ltac:(lia) ltac:(lia)) as Hv.
  change (2 ^ (8 * Z.of_nat 1)) with 256 in Hv.
  rewrite (size_t_small (p - first + 2 + _ + 2)) by lia.
  apply wp_if; intros E3; [by apply wp_ret|]. apply Z.ltb_ge in E3.
  destruct (element_fields p) as (_ & Hd & Hs); [lia|lia|].
  destruct (read_field data (p + 2 + field data (p + 1) 1) Hdata) as [R1 R2]; [lia|lia|].
  rewrite R1. cbn [mbind exec_bind]. rewrite R2. cbn [mbind exec_bind].
  change (align_up 4 (2 + field data (p + 1) 1 + 2 + field data (p + 2 + field data (p + 1) 1) 2))
    with (element_size data p).
  rewrite (size_t_small (p - first + element_size data p)) by lia.
  apply wp_if; intros E4; [by apply wp_ret|]. apply Z.ltb_ge in E4.
  apply IH; [lia|lia|].
  assert (Hat : element_at data first p (element_size data p)) by (repeat split; lia).
  pose proof (u8_range (matched_element_cnt s + 1)) as Hu. unfold is_u8 in Hu.
  case_if; (split; [cbn; lia|split; [cbn; lia|]]); cbn; [|exact Hg].
  intros ptr len. case_if; [|apply Hg]. by intros [= <- <-].
Qed.

Lemma read_general_header_safe ctx :
  wp (read_general_header ctx (blen data) data)
    (λ r, ∀ n f, r = Some (n, f) → 1 ≤ n < 256 ∧ f = general_header_size ctx ∧
                                   4 ≤ f ≤ blen data).
Proof.
  unfold read_general_header, general_header_size,
    sizeof_spdm_general_opaque_data_table_header,
    sizeof_secured_message_general_opaque_data_table_header.
  case_if; apply wp_if; intros E1; try by apply wp_ret.
  - rewrite load_le_field by lia. cbn [mbind exec_bind].
    pose proof (field_bound data 0 1 Hdata ltac:(lia) ltac:(lia)) as Hv.
    apply wp_if; intros E2; apply wp_ret; [done|]. intros n f [= <- <-]. cbn in *. lia.
  - rewrite !load_le_field by lia. cbn [mbind exec_bind].
    pose proof (field_bound data 5 1 Hdata ltac:(lia) ltac:(lia)) as Hv.
    apply wp_if; intros E2; apply wp_ret; [done|]. intros n f [= <- <-].
    apply orb_false_iff in E2 as [_ E2]. cbn in *. lia.
Qed.

Lemma get_element_safe ctx id idx :
  wp (libspdm_get_element_from_opaque_data_with_element_id ctx (blen data) data id idx)
    (λ r, ∀ c ptr len, r = Some (c, ptr, len) →
       0 ≤ c < 256 ∧ element_at data (general_header_size ctx) ptr len).
Proof.
  unfold libspdm_get_element_from_opaque_data_with_element_id.
  apply wp_if; intros _; [by apply wp_ret|]. apply wp_if; intros _; [by apply wp_ret|].
  apply wp_bind. eapply wp_mono; [apply read_general_header_safe|].
  intros [[n f]|] Hh; [|by apply wp_ret]. destruct (Hh n f eq_refl) as (Hn & -> & Hf).
  apply wp_bind. eapply wp_mono.
  { apply (element_loop_safe (general_header_size ctx)); [lia|lia|lia|].
    split; [cbn; lia|]. split; [cbn; lia|]. done. }
  intros [s|] Hs; [|by apply wp_ret]. destruct (Hs s eq_refl) as (p' & Hp' & _ & Hm & Hg).
  apply wp_if; intros _; [by apply wp_ret|].
  destruct (get_element s) as [[ptr len]|]; apply wp_ret; [|done].
  intros c ptr' len' [= <- <- <-]. auto.
Qed.

(** What the search for a secured message element returns. *)
Definition sm_element_at ctx (sm_data_id ptr len : Z) : Prop :=
  element_at data (general_header_size ctx) ptr len ∧
  field data (ptr + 1) 1 = 0 ∧ ptr + 6 ≤ blen data ∧
  field data (ptr + 4) 1 = SECURED_MESSAGE_OPAQUE_ELEMENT_SMDATA_DATA_VERSION ∧
  field data (ptr + 5) 1 = sm_data_id.

(** The header of an element is inside the blob. *)
Lemma element_at_fits first ptr len : 0 ≤ first → element_at data first ptr len →
  0 ≤ ptr ∧ 4 ≤ len ∧ ptr + len ≤ blen data.
Proof.
  unfold element_at. cbv zeta. intros Hf (H1 & H2 & _ & H3).
  set (v := field data (ptr + 1) 1) in *.
  assert (0 ≤ v ∧ 0 ≤ field data (ptr + 2 + v) 2); [|lia].
  assert (Hge : ∀ q n, 0 ≤ field data q n).
  { intros q n. unfold field.
    pose proof (le_val_bound _ (bytes_ok_sub data q (Z.of_nat n) Hdata)). lia. }
  split; apply Hge.
Qed.

Lemma sm_data_loop_safe ctx id n idx :
  wp (sm_data_loop ctx (blen data) data id n idx)
    (λ r, ∀ ptr len, r = Some (ptr, len) → sm_element_at ctx id ptr len).
Proof.
  revert idx. induction n as [|n IH]; intros idx; cbn [sm_data_loop]; [by apply wp_ret|].
  apply wp_bind. eapply wp_mono; [apply get_element_safe|].
  intros [[[c ptr] len]|] Hr; [|by apply wp_ret].
  destruct (Hr c ptr len eq_refl) as (_ & Hat). pose proof (general_header_size_bound ctx).
  destruct (element_at_fits (general_header_size ctx) ptr len) as (F1 & F2 & F3); [lia|done|].
  rewrite (load_le_field data (ptr + 1) 1) by lia. cbn [mbind exec_bind]. cbv zeta.
  apply wp_if; intros E1; [|apply IH]. apply Z.eqb_eq in E1.
  unfold sizeof_secured_message_opaque_element_table_header,
    sizeof_secured_message_opaque_element_header.
  apply wp_if; intros E2; [by apply wp_ret|].
  rewrite !load_le_field by lia. cbn [mbind exec_bind].
  apply wp_if; intros E3; [|apply IH]. apply wp_ret. intros p l [= <- <-].
  apply andb_true_iff in E3 as [E3 E4]. apply Z.eqb_eq in E3, E4.
  rewrite <- Z.add_assoc in E3. split; [done|]. split; [done|]. split; [lia|]. done.
Qed.

Lemma get_sm_data_safe ctx id :
  wp (libspdm_get_sm_data_element_from_opaque_data ctx (blen data) data id)
    (λ r, ∀ ptr len, r = Some (ptr, len) → sm_element_at ctx id ptr len).
Proof.
  unfold libspdm_get_sm_data_element_from_opaque_data.
  apply wp_if; intros _; [by apply wp_ret|].
  apply wp_bind. eapply wp_mono; [apply get_element_safe|].
  intros [[[c ptr] len]|] Hr; [|by apply wp_ret]. apply sm_data_loop_safe.
Qed.

Lemma check_loop_safe first n p :
  0 ≤ first → first ≤ p → p ≤ blen data →
  no_fault (check_loop data (blen data - first) n p (p - first)).
Proof.
  intros Hf. unfold no_fault. revert p.
  induction n as [|n IH]; intros p Hp Hpl; cbn [check_loop]; [by apply wp_ret|].
  cbv zeta. unfold sizeof_opaque_element_table_header.
  rewrite (size_t_small (p - first + 2 + 2)) by lia.
  apply wp_if; intros E1; [by apply wp_ret|]. apply Z.ltb_ge in E1.
  rewrite (load_le_field data p 1) by lia. cbn [mbind exec_bind].
  apply wp_if; intros E2; [by apply wp_ret|].
  rewrite (load_le_field data (p + 1) 1) by lia. cbn [mbind exec_bind].
  pose proof (field_bound data (p + 1) 1 Hdata ltac:(lia) ltac:(lia)) as Hv.
  change (2 ^ (8 * Z.of_nat 1)) with 256 in Hv.
  rewrite (size_t_small (p - first + 2 + _ + 2)) by lia.
  apply wp_if; intros E3; [by apply wp_ret|]. apply Z.ltb_ge in E3.
  destruct (element_fields p) as (_ & Hd & Hs); [lia|lia|].
  destruct (read_field data (p + 2 + field data (p + 1) 1) Hdata) as [R1 R2]; [lia|lia|].
  rewrite R1. cbn [mbind exec_bind]. rewrite R2. cbn [mbind exec_bind].
  change (align_up 4 (2 + field data (p + 1) 1 + 2 + field data (p + 2 + field data (p + 1) 1) 2))
    with (element_size data p).
  set (v := field data (p + 1) 1) in *. set (d := field data (p + 2 + v) 2) in *.
  rewrite (size_t_small (p - first + element_size data p)) by lia.
  apply wp_if; intros E4; [by apply wp_ret|]. apply Z.ltb_ge in E4.
  apply wp_bind. apply wp_mono with (P := λ _, True).
  { apply wp_if; intros E5; [|by apply wp_ret]. unfold padding_is_zero. apply wp_bind.
    assert (Hal : Z.land (2 + v + 2 + d) 3 = (2 + v + 2 + d) mod 4)
      by (change 3 with (Z.ones 2); by rewrite Z.land_ones by lia).
    rewrite Hal in *. apply wp_load; [|by apply wp_ret]. rewrite in_range_iff.
    pose proof (Z.mod_pos_bound (2 + v + 2 + d) 4 ltac:(lia)) as Hmb.
    destruct (align_up4 (2 + v + 2 + d)) as [Hb Hm4]; [lia|].
    fold (element_size data p) in Hs. unfold element_size in Hs, E4. cbv zeta in Hs, E4.
    fold v d in Hs, E4.
    pose proof (Z.div_mod (2 + v + 2 + d) 4). pose proof (Z.div_mod (align_up 4 (2 + v + 2 + d)) 4).
    apply negb_true_iff, Z.eqb_neq in E5. lia. }
  intros ok _. apply wp_if; intros _; [by apply wp_ret|].
  replace (p - first + element_size data p) with (p + element_size data p - first) by lia.
  apply IH; lia.
Qed.

End safety.
End facts.
End OpaqueFacts.

(** ** Tables of elements

The blob as an abstract value: a list of elements, each with its registry id,
vendor id and data, and what the searches compute on it. *)
Module OpaqueTable.
Import ContextFacts OpaqueFacts.

Record opaque_element : Set := Build_opaque_element {
  oe_id : Z;
  oe_vendor : list Z;
  oe_data : list Z;
}.

Definition element_ok (e : opaque_element) : Prop :=
  0 ≤ oe_id e ≤ SPDM_REGISTRY_ID_MAX ∧ blen (oe_vendor e) < 256 ∧ blen (oe_data e) < 65536.

Definition encode_element (e : opaque_element) : list Z :=
  let n := 4 + blen (oe_vendor e) + blen (oe_data e) in
  le_bytes 1 (oe_id e) ++ le_bytes 1 (blen (oe_vendor e)) ++ oe_vendor e ++
  le_bytes 2 (blen (oe_data e)) ++ oe_data e ++ zeros (align_up 4 n - n).

Definition encode_elements (els : list opaque_element) : list Z := els ≫= encode_element.

Definition encode_header (v12 : bool) (n : Z) : list Z :=
  if v12 then le_bytes 1 n ++ [0; 0; 0]
  else le_bytes 4 SECURED_MESSAGE_OPAQUE_DATA_SPEC_ID ++ [SECURED_MESSAGE_OPAQUE_VERSION] ++
       le_bytes 1 n ++ le_bytes 2 0.

Definition encode_table (v12 : bool) (els : list opaque_element) : list Z :=
  encode_header v12 (blen els) ++ encode_elements els.

(** The elements with a registry id, with their places when the first element
    is at [p]. *)
Fixpoint matches (id p : Z) (els : list opaque_element) : list (Z * Z * opaque_element) :=
  match els with
  | [] => []
  | e :: els' =>
      let l := blen (encode_element e) in
      (if oe_id e =? id then [(p, l, e)] else []) ++ matches id (p + l) els'
  end.

Definition pick {A} (l : list A) (k : Z) : option A := if 0 <=? k then l !! Z.to_nat k else None.

(** The first secured message element of a kind. *)
Fixpoint sm_find (sm_data_id : Z) (ms : list (Z * Z * opaque_element)) : option (Z * Z) :=
  match ms with
  | [] => None
  | (p, l, e) :: ms' =>
      if bool_decide (oe_vendor e = []) &&
         bool_decide (take 2 (oe_data e) =
                      [SECURED_MESSAGE_OPAQUE_ELEMENT_SMDATA_DATA_VERSION; sm_data_id])
      then Some (p, l) else sm_find sm_data_id ms'
  end.

Lemma blen_encode_element e : element_ok e →
  blen (encode_element e) = align_up 4 (4 + blen (oe_vendor e) + blen (oe_data e)) ∧
  4 + blen (oe_vendor e) + blen (oe_data e) ≤ blen (encode_element e) < 70000.
Proof.
  intros (_ & H1 & H2). pose proof (align_up4 (4 + blen (oe_vendor e) + blen (oe_data e))).
  unfold encode_element. cbv zeta. rewrite !length_app, !length_le_bytes, length_zeros. lia.
Qed.

(** Reading an element whose encoding starts at [p]. *)
Lemma read_element data p e r :
  element_ok e → 0 ≤ p ≤ blen data → sub data p (blen data - p) = encode_element e ++ r →
  load_le 1 data p = Ret (oe_id e) ∧
  load_le 1 data (p + 1) = Ret (blen (oe_vendor e)) ∧
  load data (p + 2 + blen (oe_vendor e)) 2 = Ret (le_bytes 2 (blen (oe_data e))) ∧
  load data (p + 4 + blen (oe_vendor e)) (blen (oe_data e)) = Ret (oe_data e) ∧
  p + blen (encode_element e) ≤ blen data ∧
  sub data (p + blen (encode_element e)) (blen data - (p + blen (encode_element e))) = r.
Proof.
  intros (H1 & H2 & H3) Hp Hs.
  destruct (sub_split _ _ _ _ _ Hs) as (Hl & _ & Hr); [lia|lia|lia|].
  replace (blen data - p - blen (encode_element e))
    with (blen data - (p + blen (encode_element e))) in Hr by lia.
  unfold encode_element in Hs. cbv zeta in Hs. rewrite <- !app_assoc in Hs.
  destruct (load_le_head _ _ _ _ _ _ Hs) as (E1 & Hs1 & L1); [lia|lia|lia|].
  destruct (load_le_head _ _ _ _ _ _ Hs1) as (E2 & Hs2 & L2); [lia|lia|lia|].
  destruct (load_head _ _ _ _ _ (blen (oe_vendor e)) Hs2) as (_ & Hs3 & L3); [lia|lia|lia|lia|].
  destruct (load_head _ _ _ _ _ 2 Hs3) as (E4 & Hs4 & L4); [lia|lia|lia|done|].
  destruct (load_head _ _ _ _ _ (blen (oe_data e)) Hs4) as (E5 & Hs5 & L5); [lia|lia|lia|done|].
  rewrite Z.mod_small in E1, E2 by (unfold SPDM_REGISTRY_ID_MAX in *; lia).
  split; [done|]. split; [done|].
  replace (p + 2 + blen (oe_vendor e)) with (p + Z.of_nat 1 + Z.of_nat 1 + blen (oe_vendor e)) by lia.
  split; [done|].
  replace (p + 4 + blen (oe_vendor e))
    with (p + Z.of_nat 1 + Z.of_nat 1 + blen (oe_vendor e) + 2) by lia.
  split; [done|]. split; [lia|done].
Qed.

Lemma read_uint16_bytes n : 0 ≤ n < 65536 → libspdm_read_uint16 (le_bytes 2 n) = Ret n.
Proof.
  intros Hn. rewrite ReadWriteFacts.read_uint16_le; [|apply le_bytes_ok|rewrite length_le_bytes; lia].
  pose proof (sub_all (le_bytes 2 n)) as E. rewrite length_le_bytes in E. change (Z.of_nat 2) with 2 in E.
  rewrite E, le_val_bytes. f_equal. apply Z.mod_small. cbn. lia.
Qed.

(** ** The loop finds what the table holds *)

Lemma encode_elements_cons e els : encode_elements (e :: els) = encode_element e ++ encode_elements els.
Proof. reflexivity. Qed.

Lemma element_loop_table `{BuildConfig} data first id idx els p s :
  Forall element_ok els → 0 ≤ first ≤ p → p ≤ blen data → blen data < 2 ^ 63 →
  sub data p (blen data - p) = encode_elements els →
  total_element_len s = p - first → 0 ≤ matched_element_cnt s → 
  matched_element_cnt s + blen els < 256 →
  element_loop data (blen data - first) id idx (length els) p s =
    Ret (Some {| total_element_len := blen data - first;
                 matched_element_cnt := matched_element_cnt s + blen (matches id p els);
                 get_element := match pick (matches id p els) (idx - matched_element_cnt s) with
                                | Some (q, l, _) => Some (q, l)
                                | None => get_element s
                                end |}).
Proof.
  intros Hok. revert p s. induction Hok as [|e els He Hels IH]; intros p s Hf Hp Hsz Hs Ht Hm Hc.
  - cbn. apply (f_equal length) in Hs. rewrite length_sub in Hs by range. cbn in Hs.
    rewrite Z.add_0_r. destruct s as [t m g]; cbn in *.
    replace (pick [] (idx - m)) with (@None (Z * Z * opaque_element)) by
      (unfold pick; by case_if).
    by replace t with (blen data - first) by lia.
  - rewrite encode_elements_cons in Hs.
    destruct (read_element data p e (encode_elements els)) as (R1 & R2 & R3 & _ & R5 & R6); [done|lia|done|].
    destruct (blen_encode_element e He) as [B1 B2]. pose proof He as (O1 & O2 & O3).
    cbn [length element_loop]. cbv zeta. unfold sizeof_opaque_element_table_header.
    rewrite Ht, (size_t_small (p - first + 2)) by lia.
    replace (blen data - first <? p - first + 2) with false by lia.
    rewrite R1. cbn [mbind exec_bind].
    replace (SPDM_REGISTRY_ID_MAX <? oe_id e) with false by lia.
    rewrite R2. cbn [mbind exec_bind].
    rewrite (size_t_small (p - first + 2 + _ + 2)) by lia.
    replace (blen data - first <? p - first + 2 + blen (oe_vendor e) + 2) with false by lia.
    rewrite R3. cbn [mbind exec_bind]. rewrite read_uint16_bytes by lia. cbn [mbind exec_bind].
    replace (2 + blen (oe_vendor e) + 2 + blen (oe_data e))
      with (4 + blen (oe_vendor e) + blen (oe_data e)) by lia.
    rewrite <- B1, (size_t_small (p - first + blen (encode_element e))) by lia.
    replace (blen data - first <? p - first + blen (encode_element e)) with false by lia.
    cbn [length] in Hc. rewrite u8_small by (unfold is_u8; lia).
    cbn [matches]. cbv zeta. set (L := blen (encode_element e)) in *. clearbody L.
    pose (ms := matches id (p + L) els).
    case_if; rewrite IH; try done; cbn [total_element_len matched_element_cnt get_element]; try lia;
      fold ms; do 2 f_equal; f_equal; cbn [app length]; try lia; [].
    unfold pick. destruct (Z.eqb_spec (matched_element_cnt s) idx) as [E1|E1].
    + rewrite E1, Z.sub_diag. cbn. by replace (0 <=? idx - (idx + 1)) with false by lia.
    + destruct (Z.leb_spec 0 (idx - matched_element_cnt s)).
      * replace (0 <=? idx - (matched_element_cnt s + 1)) with true by lia.
        by replace (Z.to_nat (idx - matched_element_cnt s))
          with (S (Z.to_nat (idx - (matched_element_cnt s + 1)))) by lia.
      * by replace (0 <=? idx - (matched_element_cnt s + 1)) with false by lia.
Qed.

Section tables.
Context `{BuildConfig}.
Implicit Types ctx : libspdm_context_t.

(** A blob that is the table of [els]. *)
Definition is_table ctx (els : list opaque_element) (data : list Z) : Prop :=
  data = encode_table (is_version_12 ctx) els ∧ Forall element_ok els ∧
  1 ≤ blen els < 256 ∧ blen data < 2 ^ 63.

Lemma table_elements ctx els data : is_table ctx els data →
  let first := general_header_size ctx in
  4 ≤ first ≤ blen data ∧ sub data first (blen data - first) = encode_elements els ∧
  sub data 0 first = encode_header (is_version_12 ctx) (blen els).
Proof.
  intros (-> & Hok & Hn & Hs) first. subst first. unfold encode_table in *.
  set (h := encode_header (is_version_12 ctx) (blen els)) in *.
  assert (Hl : blen h = general_header_size ctx).
  { subst h. unfold general_header_size, encode_header. by destruct (is_version_12 ctx). }
  pose proof (general_header_size_bound ctx). rewrite <- Hl in *. rewrite length_app.
  split; [lia|]. unfold sub. rewrite Nat2Z.id. split.
  - rewrite drop_app_length. apply take_ge. lia.
  - by rewrite drop_0, take_app_length.
Qed.

Lemma read_general_header_table ctx els data : is_table ctx els data →
  read_general_header ctx (blen data) data = Ret (Some (blen els, general_header_size ctx)).
Proof.
  intros Ht. pose proof Ht as (_ & _ & Hn & _).
  destruct (table_elements _ _ _ Ht) as (Hf & _ & Hh).
  unfold read_general_header, general_header_size in *.
  destruct (is_version_12 ctx) eqn:E; cbn [encode_header] in Hh;
    unfold sizeof_spdm_general_opaque_data_table_header,
      sizeof_secured_message_general_opaque_data_table_header in *.
  - replace (blen data <? 4) with false by lia.
    destruct (load_le_head _ _ _ _ _ _ Hh) as (-> & _ & _); [lia|lia|lia|].
    rewrite Z.mod_small by (cbn; lia). cbn [mbind exec_bind].
    by replace (blen els <? 1) with false by lia.
  - replace (blen data <? 8) with false by lia.
    destruct (load_le_head _ _ _ _ _ _ Hh) as (-> & Hh1 & _); [lia|lia|lia|].
    destruct (load_head _ _ _ _ _ 1 Hh1) as (E4 & Hh2 & _); [lia|lia|lia|done|].
    destruct (load_le_head _ _ _ _ _ _ Hh2) as (E5 & _ & _); [lia|lia|lia|].
    change (0 + Z.of_nat 4) with 4 in *. change (4 + 1) with 5 in *.
    assert (E4' : load_le 1 data 4 = Ret SECURED_MESSAGE_OPAQUE_VERSION).
    { unfold load_le. change (Z.of_nat 1) with 1. by rewrite E4. }
    cbn [mbind exec_bind]. rewrite E4'. cbn [mbind exec_bind]. rewrite E5. cbn [mbind exec_bind].
    rewrite (Z.mod_small (blen els)) by (cbn; lia).
    replace (blen els <? 1) with false by lia. done.
Qed.

(** The search of the table for the [idx]-th element with an id. *)
Lemma get_element_table ctx els data id idx : is_table ctx els data →
  0 ≤ id ≤ SPDM_REGISTRY_ID_MAX → 0 ≤ idx →
  libspdm_get_element_from_opaque_data_with_element_id ctx (blen data) data id idx =
    let ms := matches id (general_header_size ctx) els in
    Ret (match ms !! Z.to_nat idx with
         | Some (p, l, _) => Some (blen ms, p, l)
         | None => None
         end).
Proof.
  intros Ht Hid Hi. pose proof Ht as (_ & Hok & Hn & Hs).
  destruct (table_elements _ _ _ Ht) as (Hf & He & _).
  unfold libspdm_get_element_from_opaque_data_with_element_id.
  replace (SPDM_REGISTRY_ID_MAX <? id) with false by lia.
  replace (blen data =? 0) with false by lia.
  rewrite (read_general_header_table ctx els) by done. cbn [mbind exec_bind]. cbv zeta.
  rewrite Nat2Z.id, (element_loop_table data (general_header_size ctx) id idx els) by (cbn; done || lia).
  cbn [mbind exec_bind total_element_len matched_element_cnt get_element].
  rewrite Z.eqb_refl. cbn [negb]. rewrite Z.sub_0_r, Z.add_0_l. unfold pick.
  replace (0 <=? idx) with true by lia.
  by destruct (_ !! Z.to_nat idx) as [[[q l] e]|].
Qed.

(** Every element found is where the table has it. *)
Lemma matches_lookup data id els p i q l e :
  Forall element_ok els → 0 ≤ p ≤ blen data → sub data p (blen data - p) = encode_elements els →
  matches id p els !! i = Some (q, l, e) →
  element_ok e ∧ 0 ≤ q ≤ blen data ∧ p ≤ q ∧ l = blen (encode_element e) ∧
  ∃ r, sub data q (blen data - q) = encode_element e ++ r.
Proof.
  intros Hok. revert p i. induction Hok as [|e' els He Hels IH]; intros p i Hp Hs;
    cbn [matches]; cbv zeta; [done|].
  rewrite encode_elements_cons in Hs.
  destruct (read_element data p e' (encode_elements els)) as (_ & _ & _ & _ & R5 & R6); [done|lia|done|].
  destruct (blen_encode_element e' He) as [_ B2].
  assert (Hrest : ∀ j, matches id (p + blen (encode_element e')) els !! j = Some (q, l, e) →
    element_ok e ∧ 0 ≤ q ≤ blen data ∧ p ≤ q ∧ l = blen (encode_element e) ∧
    ∃ r, sub data q (blen data - q) = encode_element e ++ r).
  { intros j Hj. destruct (IH (p + blen (encode_element e')) j) as (H1 & H2 & H3 & H4 & H5); try done.
    - lia.
    - split; [done|]. split; [done|]. split; [|done].
      pose proof (Zle_0_nat (length (oe_vendor e'))). lia. }
  case_if; [|apply Hrest]. destruct i as [|i]; cbn [app lookup list_lookup]; [|apply Hrest].
  intros [= <- <- <-]. split; [done|]. split; [lia|]. split; [lia|]. split; [done|]. by eexists.
Qed.

(** Elements of the DMTF that the secured message code can look into. *)
Definition sm_ok (m : Z * Z * opaque_element) : Prop := 2 ≤ blen (oe_data (snd m)).

Lemma sm_data_loop_table ctx els data id n k : is_table ctx els data →
  Forall sm_ok (matches SPDM_REGISTRY_ID_DMTF (general_header_size ctx) els) →
  (k + n = length (matches SPDM_REGISTRY_ID_DMTF (general_header_size ctx) els))%nat →
  sm_data_loop ctx (blen data) data id n (Z.of_nat k) =
    Ret (sm_find id (drop k (matches SPDM_REGISTRY_ID_DMTF (general_header_size ctx) els))).
Proof.
  intros Ht. destruct (table_elements _ _ _ Ht) as (Hf & He & _).
  pose proof Ht as (_ & Hok & Hn & Hs).
  set (ms := matches SPDM_REGISTRY_ID_DMTF (general_header_size ctx) els). intros Hsm.
  revert k. induction n as [|n IH]; intros k Hk; cbn [sm_data_loop].
  { rewrite drop_ge by lia. done. }
  rewrite (get_element_table ctx els) by (done || lia || (by vm_compute)). cbv zeta. fold ms.
  rewrite Nat2Z.id. destruct (ms !! k) as [[[q l] e]|] eqn:Ek.
  2: { apply lookup_ge_None in Ek. lia. }
  cbn [mbind exec_bind]. rewrite (drop_S _ _ _ Ek). cbn [sm_find].
  destruct (matches_lookup data SPDM_REGISTRY_ID_DMTF els
    (general_header_size ctx) k q l e Hok ltac:(lia) He Ek)
    as (Hoe & Hq & _ & -> & r & Hr).
  destruct (read_element data q e r Hoe Hq Hr) as (_ & R2 & _ & R4 & R5 & _).
  rewrite R2. cbn [mbind exec_bind].
  assert (Hd : 2 ≤ blen (oe_data e)).
  { rewrite Forall_lookup in Hsm. exact (Hsm _ _ Ek). }
  pose proof (IH (S k) ltac:(lia)) as IHk. replace (Z.of_nat (S k)) with (Z.of_nat k + 1) in IHk by lia.
  destruct (Z.eqb_spec (blen (oe_vendor e)) 0) as [Ev|Ev].
  2: { rewrite bool_decide_eq_false_2; [exact IHk|]. intros E. by rewrite E in Ev. }
  apply Nat2Z.inj_iff with (m := 0%nat), nil_length_inv in Ev. rewrite Ev in *.
  rewrite bool_decide_eq_true_2 by done. cbn [length] in *. cbn [andb].
  destruct (oe_data e) as [|v [|s tl]] eqn:Ed; [cbn in Hd; lia|cbn in Hd; lia|].
  destruct (blen_encode_element e Hoe) as [_ B]. rewrite Ev, Ed in B. cbn [length] in B.
  cbv zeta. unfold sizeof_secured_message_opaque_element_table_header,
    sizeof_secured_message_opaque_element_header.
  replace (blen data <? q + 4 + 2) with false by lia.
  replace (q + 4 + Z.of_nat 0) with (q + 4) in R4 by lia.
  rewrite load_in in R4 by range. injection R4 as R4.
  assert (Hv : load_le 1 data (q + 4) = Ret v ∧ load_le 1 data (q + 4 + 1) = Ret s).
  { unfold load_le. rewrite !load_in by range. cbn [mbind exec_bind].
    assert (Hsub : ∀ o, 0 ≤ o → o + 1 ≤ blen (v :: s :: tl) →
      sub data (q + 4 + o) (Z.of_nat 1) = sub (v :: s :: tl) o 1).
    { intros o Ho Hol. rewrite <- R4, sub_sub by (cbn [length] in *; lia). done. }
    replace (q + 4) with (q + 4 + 0) at 1 by lia. rewrite !Hsub by (cbn [length]; lia).
    unfold sub. change (Z.to_nat 1) with 1%nat. change (Z.to_nat 0) with 0%nat.
    cbn [take drop le_val]. rewrite Z.mul_0_r, !Z.add_0_r. done. }
  destruct Hv as [-> ->]. cbn [mbind exec_bind].
  assert (Hb : bool_decide (take 2 (v :: s :: tl) =
      [SECURED_MESSAGE_OPAQUE_ELEMENT_SMDATA_DATA_VERSION; id]) =
    (s =? id) && (v =? SECURED_MESSAGE_OPAQUE_ELEMENT_SMDATA_DATA_VERSION)).
  { cbn [take]. destruct (Z.eqb_spec s id) as [->|N1].
    - destruct (Z.eqb_spec v SECURED_MESSAGE_OPAQUE_ELEMENT_SMDATA_DATA_VERSION) as [->|N2].
      + by apply bool_decide_eq_true_2.
      + apply bool_decide_eq_false_2. congruence.
    - apply bool_decide_eq_false_2. congruence. }
  rewrite Hb. by case_if.
Qed.

Lemma get_sm_data_table ctx els data id : is_table ctx els data →
  Forall sm_ok (matches SPDM_REGISTRY_ID_DMTF (general_header_size ctx) els) →
  libspdm_get_sm_data_element_from_opaque_data ctx (blen data) data id =
    Ret (sm_find id (matches SPDM_REGISTRY_ID_DMTF (general_header_size ctx) els)).
Proof.
  intros Ht Hsm. destruct (table_elements _ _ _ Ht) as (Hf & _).
  unfold libspdm_get_sm_data_element_from_opaque_data.
  replace (blen data =? 0) with false by lia.
  rewrite (get_element_table ctx els) by (done || lia || (by vm_compute)). cbv zeta.
  destruct (matches SPDM_REGISTRY_ID_DMTF (general_header_size ctx) els) as [|[[q l] e] ms] eqn:E.
  { done. }
  change (Z.to_nat 0) with 0%nat. cbn [mbind exec_bind lookup list_lookup]. rewrite Nat2Z.id.
  change 0 with (Z.of_nat 0). by rewrite (sm_data_loop_table ctx els data id _ 0), E by (by rewrite ?E).
Qed.

Lemma read_padding data p e r :
  element_ok e → 0 ≤ p ≤ blen data → sub data p (blen data - p) = encode_element e ++ r →
  let n := 4 + blen (oe_vendor e) + blen (oe_data e) in
  load data (p + n) (align_up 4 n - n) = Ret (zeros (align_up 4 n - n)).
Proof.
  intros He Hp Hs n. pose proof He as (H1 & H2 & H3). pose proof (align_up4 n) as Ha.
  assert (Hsplit : encode_element e =
    (le_bytes 1 (oe_id e) ++ le_bytes 1 (blen (oe_vendor e)) ++ oe_vendor e ++
     le_bytes 2 (blen (oe_data e)) ++ oe_data e) ++ zeros (align_up 4 n - n)).
  { unfold encode_element. by rewrite <- !app_assoc. }
  rewrite Hsplit, <- app_assoc in Hs.
  set (h := le_bytes 1 (oe_id e) ++ _) in Hs.
  assert (Hh : blen h = n) by (subst h n; rewrite !length_app, !length_le_bytes; lia).
  destruct (load_head _ _ _ _ _ n Hs) as (_ & Hs' & L); [lia|lia|lia|done|].
  destruct (load_head _ _ _ _ _ (align_up 4 n - n) Hs') as (E & _ & _); [lia|lia|lia| |done].
  rewrite length_zeros. lia.
Qed.

Lemma check_loop_table data first els p :
  Forall element_ok els → 0 ≤ first ≤ p → p ≤ blen data → blen data < 2 ^ 63 →
  sub data p (blen data - p) = encode_elements els →
  check_loop data (blen data - first) (length els) p (p - first) = Ret true.
Proof.
  intros Hok. revert p. induction Hok as [|e els He Hels IH]; intros p Hf Hp Hsz Hs; [done|].
  rewrite encode_elements_cons in Hs.
  destruct (read_element data p e (encode_elements els)) as (R1 & R2 & R3 & _ & R5 & R6);
    [done|lia|done|].
  pose proof (read_padding data p e (encode_elements els) He ltac:(lia) Hs) as Hpad.
  destruct (blen_encode_element e He) as [B1 B2]. pose proof He as (O1 & O2 & O3).
  cbn [length check_loop]. cbv zeta in *. unfold sizeof_opaque_element_table_header.
  rewrite (size_t_small (p - first + 2 + 2)) by lia.
  replace (blen data - first <? p - first + 2 + 2) with false by lia.
  rewrite R1. cbn [mbind exec_bind].
  replace (SPDM_REGISTRY_ID_MAX <? oe_id e) with false by lia.
  rewrite R2. cbn [mbind exec_bind].
  rewrite (size_t_small (p - first + 2 + _ + 2)) by lia.
  replace (blen data - first <? p - first + 2 + blen (oe_vendor e) + 2) with false by lia.
  rewrite R3. cbn [mbind exec_bind]. rewrite read_uint16_bytes by lia. cbn [mbind exec_bind].
  replace (2 + blen (oe_vendor e) + 2 + blen (oe_data e))
    with (4 + blen (oe_vendor e) + blen (oe_data e)) by lia.
  set (n := 4 + blen (oe_vendor e) + blen (oe_data e)) in *.
  rewrite <- B1 in *. rewrite (size_t_small (p - first + blen (encode_element e))) by lia.
  replace (blen data - first <? p - first + blen (encode_element e)) with false by lia.
  assert (Hz : (if negb (Z.land n 3 =? 0) then padding_is_zero data (p + n) (4 - Z.land n 3)
                else Ret true) = Ret true).
  { destruct (Z.eqb_spec (Z.land n 3) 0) as [|Hn]; [done|]. cbn [negb].
    assert (Hal : Z.land n 3 = n mod 4) by (change 3 with (Z.ones 2); by rewrite Z.land_ones by lia).
    pose proof (align_up4 n) as Ha. rewrite <- B1 in Ha.
    pose proof (Z.div_mod n 4). pose proof (Z.mod_pos_bound n 4 ltac:(lia)).
    pose proof (Z.div_mod (blen (encode_element e)) 4).
    replace (4 - Z.land n 3) with (blen (encode_element e) - n) by lia.
    unfold padding_is_zero. rewrite Hpad. cbn [mbind exec_bind]. f_equal.
    apply forallb_forall. intros x Hx%list_elem_of_In. unfold zeros in Hx.
    by apply elem_of_replicate in Hx as [-> _]. }
  rewrite Hz. cbn [mbind exec_bind negb].
  replace (p - first + blen (encode_element e)) with (p + blen (encode_element e) - first) by lia.
  apply IH; try done; lia.
Qed.

(** The general check accepts every table. *)
Lemma general_check_table ctx els data : is_table ctx els data →
  blen data ≤ SPDM_MAX_OPAQUE_DATA_SIZE →
  libspdm_process_general_opaque_data_check ctx (blen data) data = Ret true.
Proof.
  intros Ht Hl. pose proof Ht as (Hd & Hok & Hn & Hs).
  destruct (table_elements _ _ _ Ht) as (Hf & He & Hh).
  unfold libspdm_process_general_opaque_data_check.
  replace (blen data <=? SPDM_MAX_OPAQUE_DATA_SIZE) with true by lia.
  rewrite assert_true. cbn [mbind exec_bind].
  unfold general_header_size, encode_table in *.
  destruct (is_version_12 ctx) eqn:E; cbn [andb]; [|done]. case_if; [|done].
  assert (Hmod : Z.land (blen data) 3 = 0).
  { change 3 with (Z.ones 2). rewrite Z.land_ones by lia. rewrite Hd. rewrite length_app.
    rewrite Nat2Z.inj_add. change (blen (encode_header true (blen els))) with 4.
    change (2 ^ 2) with 4. rewrite Z.add_mod, Z.mod_same, Z.add_0_l, Z.mod_mod by lia.
    clear -Hok. induction Hok as [|e els He Hels IH]; [done|].
    rewrite encode_elements_cons, length_app, Nat2Z.inj_add, Z.add_mod, IH by lia.
    destruct (blen_encode_element e He) as [B1 B2]. rewrite Z.add_0_r, Z.mod_mod, B1 by lia.
    apply align_up4. pose proof (He) as (_ & ? & ?). lia. }
  rewrite Hmod. cbn [negb Z.eqb].
  unfold sizeof_spdm_general_opaque_data_table_header in *.
  replace (blen data <? 4) with false by lia. cbn [encode_header] in Hh.
  destruct (load_le_head _ _ _ _ _ _ Hh) as (-> & _ & _); [lia|lia|lia|].
  rewrite Z.mod_small by (cbn; lia). cbn [mbind exec_bind].
  replace (blen els <? 1) with false by lia. rewrite Nat2Z.id.
  apply (check_loop_table data 4 els 4); try done; lia.
Qed.

(** The walk of a builder over its own table, whose bytes are the first
    [n] of the buffer. *)
Lemma current_size_loop_table data cap els p n :
  Forall element_ok els → 0 ≤ p ≤ n → n ≤ cap → cap ≤ blen data → cap < 2 ^ 63 →
  sub data p (n - p) = encode_elements els →
  current_size_loop data cap (length els) p p = Ret (Some n).
Proof.
  intros Hok. revert p. induction Hok as [|e els He Hels IH]; intros p Hp Hn Hc Hsz Hs.
  - apply (f_equal length) in Hs. rewrite length_sub in Hs by range. cbn in *.
    by replace p with n by lia.
  - rewrite encode_elements_cons in Hs.
    assert (Hl : blen (sub data 0 n) = n) by (rewrite length_sub by range; lia).
    assert (Hs' : sub (sub data 0 n) p (blen (sub data 0 n) - p) =
                  encode_element e ++ encode_elements els).
    { rewrite Hl, sub_sub by lia. exact Hs. }
    destruct (read_element (sub data 0 n) p e (encode_elements els) He ltac:(lia) Hs')
      as (_ & R2 & R3 & _ & R5 & R6).
    assert (Hpre : ∀ o k bs, 0 ≤ o → load (sub data 0 n) o k = Ret bs → load data o k = Ret bs).
    { intros o k bs Ho [Hr ->]%load_Ret_inv. rewrite in_range_iff in Hr.
      rewrite load_in, sub_sub by range. by rewrite Z.add_0_l. }
    destruct (blen_encode_element e He) as [B1 B2]. pose proof He as (O1 & O2 & O3).
    cbn [length current_size_loop]. cbv zeta. unfold sizeof_opaque_element_table_header.
    assert (R2' : load_le 1 data (p + 1) = Ret (blen (oe_vendor e))).
    { unfold load_le in *. destruct (load (sub data 0 n) (p + 1) _) as [bs|] eqn:El; [|done].
      by rewrite (Hpre _ _ bs) by (done || lia). }
    rewrite R2'. cbn [mbind exec_bind].
    rewrite (size_t_small (p + 2 + _ + 2)) by lia.
    replace (cap <? p + 2 + blen (oe_vendor e) + 2) with false by lia.
    rewrite (Hpre (p + 2 + blen (oe_vendor e)) 2 _ ltac:(lia) R3). cbn [mbind exec_bind].
    rewrite read_uint16_bytes by lia. cbn [mbind exec_bind].
    replace (2 + blen (oe_vendor e) + 2 + blen (oe_data e))
      with (4 + blen (oe_vendor e) + blen (oe_data e)) by lia.
    rewrite <- B1, size_t_small by lia.
    replace (cap <? p + blen (encode_element e)) with false by lia.
    apply IH; try lia. rewrite <- R6, Hl. rewrite sub_sub by lia. done.
Qed.

(** ** What the builders write *)

Definition version_selection_element (smv : Z) : opaque_element :=
  {| oe_id := SPDM_REGISTRY_ID_DMTF; oe_vendor := [];
     oe_data := [SECURED_MESSAGE_OPAQUE_ELEMENT_SMDATA_DATA_VERSION;
                 SECURED_MESSAGE_OPAQUE_ELEMENT_SMDATA_ID_VERSION_SELECTION] ++ le_bytes 2 smv |}.

Definition supported_version_element (versions : list Z) : opaque_element :=
  {| oe_id := SPDM_REGISTRY_ID_DMTF; oe_vendor := [];
     oe_data := [SECURED_MESSAGE_OPAQUE_ELEMENT_SMDATA_DATA_VERSION;
                 SECURED_MESSAGE_OPAQUE_ELEMENT_SMDATA_ID_SUPPORTED_VERSION; u8 (blen versions)]
                ++ version_bytes versions |}.

Definition aead_limit_element (exponent : Z) : opaque_element :=
  {| oe_id := SPDM_REGISTRY_ID_DMTF; oe_vendor := [];
     oe_data := [SECURED_MESSAGE_OPAQUE_ELEMENT_SMDATA_DATA_VERSION;
                 SECURED_MESSAGE_OPAQUE_ELEMENT_SMDATA_ID_AEAD_LIMIT; exponent] |}.

Lemma length_version_bytes vs : length (version_bytes vs) = (2 * length vs)%nat.
Proof.
  induction vs as [|v vs IH]; [done|].
  change (version_bytes (v :: vs)) with (le_bytes 2 v ++ version_bytes vs).
  rewrite length_app, IH. cbn. lia.
Qed.

Lemma read_version_bytes vs : Forall is_u16 vs → read_versions (version_bytes vs) = vs.
Proof.
  induction 1 as [|v vs Hv Hvs IH]; [done|].
  change (version_bytes (v :: vs)) with (le_bytes 2 v ++ version_bytes vs).
  pose proof (le_val_bytes 2 v) as E. unfold is_u16 in Hv. rewrite Z.mod_small in E by (cbn; lia).
  cbn [le_bytes app read_versions] in *. by rewrite E, IH.
Qed.

Lemma write_general_header_spec ctx b : general_header_size ctx ≤ blen b →
  ∃ m, write_general_header ctx b = Ret m ∧ length m = length b ∧
    sub m 0 (general_header_size ctx) = encode_header (is_version_12 ctx) 1.
Proof.
  unfold write_general_header, general_header_size, encode_header,
    sizeof_spdm_general_opaque_data_table_header,
    sizeof_secured_message_general_opaque_data_table_header.
  intros Hl. assert (Hs : sub b 0 0 = []) by done. remember (length b) as N eqn:Hb. symmetry in Hb.
  destruct (is_version_12 ctx).
  - put_field. change (0 + blen [1]) with 1 in *. put_field. eexists. split; [reflexivity|]. split; [done|]. etrans; [eassumption|done].
  - put_field. change (0 + blen (le_bytes 4 _)) with 4 in *. put_field.
    change (4 + blen [SECURED_MESSAGE_OPAQUE_VERSION]) with 5 in *. put_field.
    change (5 + blen [1]) with 6 in *. put_field.
    eexists. split; [reflexivity|]. split; [done|]. etrans; [eassumption|done].
Qed.

Lemma write_element_header_spec b p c n : sub b 0 p = c → p = blen c → p + 4 ≤ blen b →
  ∃ m, write_element_header b p n = Ret m ∧ length m = length b ∧
    sub m 0 (p + 4) = c ++ le_bytes 1 SPDM_REGISTRY_ID_DMTF ++ le_bytes 1 0 ++ le_bytes 2 n.
Proof.
  intros Hs Hp Hl. unfold write_element_header. remember (length b) as N eqn:Hb. symmetry in Hb.
  put_field. change (blen [SPDM_REGISTRY_ID_DMTF]) with 1 in *.
  put_field. change (p + 1 + blen [0]) with (p + 1 + 1) in *.
  replace (p + 1 + 1) with (p + 2) in * by lia.
  match goal with Hx : sub ?m 0 (p + 2) = ?c, Hy : length ?m = _ |- context [store ?m _ ?d] =>
    destruct (store_prefix m (p + 2) c d Hx) as (m' & E & Hl' & Hs') end.
  { rewrite !length_app. cbn. lia. }
  { rewrite length_le_bytes. lia. }
  rewrite E. exists m'. split; [done|]. split; [congruence|].
  replace (p + 4) with (p + 2 + blen (le_bytes 2 n)) by (rewrite length_le_bytes; lia).
  rewrite Hs'. by rewrite <- !app_assoc.
Qed.

Lemma align_up4_header ctx x : 0 ≤ x < 2 ^ 62 →
  align_up 4 (general_header_size ctx + x) = general_header_size ctx + align_up 4 x.
Proof.
  intros Hx. pose proof (align_up4 x) as H1.
  pose proof (align_up4 (general_header_size ctx + x)) as H2.
  assert (Hm : general_header_size ctx = 4 ∨ general_header_size ctx = 8).
  { unfold general_header_size, sizeof_spdm_general_opaque_data_table_header,
      sizeof_secured_message_general_opaque_data_table_header. case_if; auto. }
  pose proof (Z.div_mod (align_up 4 x) 4).
  pose proof (Z.div_mod (align_up 4 (general_header_size ctx + x)) 4). lia.
Qed.

Lemma length_encode_header ctx n :
  blen (encode_header (is_version_12 ctx) n) = general_header_size ctx.
Proof. unfold general_header_size, encode_header. by destruct (is_version_12 ctx). Qed.

(** Store the next field, at an offset equal to the end of the last one. *)
Ltac put_at :=
  match goal with
  | Hs : sub ?m 0 ?o = ?c, Hl : length ?m = _ |- context [store ?m ?o' ?d] =>
      replace o' with o by (cbn [length]; rewrite ?length_le_bytes, ?length_zeros; lia);
      put_field
  end.

Lemma build_supported_version_spec ctx n b :
  let vs := lc_secured_message_version ctx in
  let final := libspdm_get_opaque_data_supported_version_data_size ctx in
  1 ≤ blen vs < 256 → final ≤ n ≤ blen b → n < 2 ^ 32 →
  final = blen (encode_table (is_version_12 ctx) [supported_version_element vs]) ∧
  ∃ m, libspdm_build_opaque_data_supported_version_data ctx n b = Ret (m, n) ∧
    length m = length b ∧
    sub m 0 final = encode_table (is_version_12 ctx) [supported_version_element vs].
Proof.
  intros vs final Hc Hn Hb.
  pose proof (general_header_size_bound ctx) as Hg. pose proof (length_encode_header ctx 1) as Hh.
  assert (Hfe : final = general_header_size ctx + align_up 4 (7 + 2 * blen vs)).
  { subst final. unfold libspdm_get_opaque_data_supported_version_data_size,
      secured_message_version_count. fold vs. replace (blen vs =? 0) with false by lia.
    rewrite <- align_up4_header by lia. f_equal.
    unfold sizeof_secured_message_opaque_element_table_header,
      sizeof_secured_message_opaque_element_supported_version, sizeof_spdm_version_number. lia. }
  pose proof (align_up4 (7 + 2 * blen vs)) as Ha. pose proof (length_version_bytes vs) as Hv.
  set (A := align_up 4 (7 + 2 * blen vs)) in *.
  assert (Henc : encode_table (is_version_12 ctx) [supported_version_element vs] =
    encode_header (is_version_12 ctx) 1 ++ le_bytes 1 SPDM_REGISTRY_ID_DMTF ++ le_bytes 1 0 ++
    le_bytes 2 (3 + 2 * blen vs) ++ [1] ++ [1] ++ [u8 (blen vs)] ++ version_bytes vs ++
    zeros (A - (7 + 2 * blen vs))).
  { unfold encode_table. f_equal. unfold encode_elements. cbn [mbind list_bind].
    rewrite app_nil_r. unfold encode_element, supported_version_element.
    cbn [oe_id oe_vendor oe_data app length].
    replace (Z.of_nat (S (S (S (length (version_bytes vs)))))) with (3 + 2 * blen vs) by lia.
    replace (4 + Z.of_nat 0 + (3 + 2 * blen vs)) with (7 + 2 * blen vs) by lia. done. }
  rewrite Henc. clear Henc. split.
  { rewrite !length_app, !length_le_bytes, length_zeros. cbn [length]. lia. }
  unfold libspdm_build_opaque_data_supported_version_data, secured_message_version_count.
  fold vs. fold final. replace (blen vs =? 0) with false by lia. cbv zeta.
  replace (final <=? n) with true by lia. rewrite assert_true. cbn [mbind exec_bind].
  destruct (write_general_header_spec ctx b) as (m1 & -> & L1 & S1); [lia|]. cbn [mbind exec_bind].
  unfold sizeof_secured_message_opaque_element_table_header,
      sizeof_secured_message_opaque_element_supported_version, sizeof_spdm_version_number.
  destruct (write_element_header_spec m1 (general_header_size ctx) _ (3 + 2 * blen vs) S1)
    as (m2 & -> & L2 & S2); [lia|lia|]. cbn [mbind exec_bind].
  rewrite L1 in L2. clear S1 L1 m1.
  assert (Hl : length m2 = length b) by done. clear L2. remember (length b) as N eqn:HN. clear HN b.
  put_at. put_at. put_at.
  rewrite (size_t_small (n - (general_header_size ctx + 4 + 3))) by lia.
  replace (blen vs * 2 <=? n - (general_header_size ctx + 4 + 3)) with true by lia.
  rewrite assert_true. cbn [mbind exec_bind]. put_at.
  match goal with |- context [zeros ?z] =>
    replace z with (A - (7 + 2 * blen vs)) by (cbn [length]; rewrite size_t_small; lia) end.
  put_at. eexists. split; [reflexivity|]. split; [done|].
  etrans; [|etrans; [eassumption|by rewrite <- ?app_assoc]].
  f_equal. rewrite length_zeros. cbn [length]. lia.
Qed.

Lemma build_version_selection_spec ctx smv n b :
  let final := libspdm_get_opaque_data_version_selection_data_size ctx in
  1 ≤ blen (lc_secured_message_version ctx) → final ≤ n ≤ blen b → n < 2 ^ 32 →
  final = blen (encode_table (is_version_12 ctx) [version_selection_element smv]) ∧
  ∃ m, libspdm_build_opaque_data_version_selection_data ctx smv n b = Ret (m, n) ∧
    length m = length b ∧
    sub m 0 final = encode_table (is_version_12 ctx) [version_selection_element smv].
Proof.
  intros final Hc Hn Hb.
  pose proof (general_header_size_bound ctx) as Hg. pose proof (length_encode_header ctx 1) as Hh.
  assert (Hfe : final = general_header_size ctx + 8).
  { subst final. unfold libspdm_get_opaque_data_version_selection_data_size,
      secured_message_version_count.
    replace (blen (lc_secured_message_version ctx) =? 0) with false by lia.
    rewrite <- Z.add_assoc, align_up4_header by (by vm_compute). done. }
  assert (Henc : encode_table (is_version_12 ctx) [version_selection_element smv] =
    encode_header (is_version_12 ctx) 1 ++ le_bytes 1 SPDM_REGISTRY_ID_DMTF ++ le_bytes 1 0 ++
    le_bytes 2 4 ++ [1] ++ [0] ++ le_bytes 2 smv) by (by destruct (is_version_12 ctx)).
  rewrite Henc. clear Henc. split.
  { rewrite !length_app, !length_le_bytes. cbn [length]. lia. }
  unfold libspdm_build_opaque_data_version_selection_data, secured_message_version_count.
  fold final. replace (blen (lc_secured_message_version ctx) =? 0) with false by lia. cbv zeta.
  replace (final <=? n) with true by lia. rewrite assert_true. cbn [mbind exec_bind].
  destruct (write_general_header_spec ctx b) as (m1 & -> & L1 & S1); [lia|]. cbn [mbind exec_bind].
  unfold sizeof_secured_message_opaque_element_table_header,
      sizeof_secured_message_opaque_element_version_selection.
  destruct (write_element_header_spec m1 (general_header_size ctx) _ 4 S1)
    as (m2 & -> & L2 & S2); [lia|lia|]. cbn [mbind exec_bind].
  rewrite L1 in L2. clear S1 L1 m1.
  assert (Hl : length m2 = length b) by done. clear L2. remember (length b) as N eqn:HN. clear HN b.
  put_at. put_at. put_at.
  match goal with |- context [zeros ?z] =>
    replace z with 0 by (cbn [length]; rewrite ?length_le_bytes, size_t_small; lia) end.
  put_at. eexists. split; [reflexivity|]. split; [done|].
  etrans; [|etrans; [eassumption|by rewrite <- ?app_assoc, app_nil_r]].
  f_equal. rewrite length_zeros. cbn [length]. rewrite ?length_le_bytes. lia.
Qed.

(** Counting one element more in a header. *)
Lemma upd_header v12 n r : 0 ≤ n < 255 →
  upd (encode_header v12 n ++ r) (if v12 then 0 else 5) [u8 (n + 1)] = encode_header v12 (n + 1) ++ r.
Proof. destruct v12; reflexivity. Qed.

Lemma encode_elements_app l1 l2 :
  encode_elements (l1 ++ l2) = encode_elements l1 ++ encode_elements l2.
Proof.
  induction l1 as [|e l1 IH]; [done|]. cbn [app]. rewrite !encode_elements_cons, IH.
  by rewrite app_assoc.
Qed.

Lemma exponent_bound max : 0 ≤ max →
  is_u8 (libspdm_aead_limit_exponent_from_max_sequence_number max).
Proof.
  intros Hm. unfold libspdm_aead_limit_exponent_from_max_sequence_number. case_if.
  { by vm_compute. }
  clear E. assert (Hl : ∀ f a e, is_u8 e → is_u8 (log2_loop f a e)).
  { induction f as [|f IH]; intros a e He; cbn; [done|]. case_if; [|done].
    apply IH, u8_range. }
  apply Hl. by vm_compute.
Qed.

(** Appending the AEAD limit to a table at the start of a larger buffer. *)
Lemma build_aead_limit_spec ctx smv els n b :
  let t := blen (encode_table (is_version_12 ctx) els) in
  let e := libspdm_aead_limit_exponent_from_max_sequence_number
             (sc_max_spdm_session_sequence_number ctx) in
  Forall element_ok els → 1 ≤ blen els < 255 → 
  sub b 0 t = encode_table (is_version_12 ctx) els →
  t + libspdm_get_opaque_data_aead_limit_element_size ctx smv ≤ n ≤ blen b → n < 2 ^ 32 →
  ∃ m, libspdm_build_opaque_data_aead_limit_element ctx smv n b =
      Ret (m, t + libspdm_get_opaque_data_aead_limit_element_size ctx smv) ∧
    length m = length b ∧
    sub m 0 (t + libspdm_get_opaque_data_aead_limit_element_size ctx smv) =
      encode_table (is_version_12 ctx)
        (if libspdm_get_version_from_version_number smv <? SECURED_SPDM_VERSION_13
         then els else els ++ [aead_limit_element e]).
Proof.
  intros t e Hok Hn Hs Hcap Hsz.
  pose proof (general_header_size_bound ctx) as Hg.
  assert (Ht : t = general_header_size ctx + blen (encode_elements els)).
  { subst t. unfold encode_table. rewrite length_app, Nat2Z.inj_add. by rewrite length_encode_header. }
  assert (Hsz0 : 0 ≤ libspdm_get_opaque_data_aead_limit_element_size ctx smv).
  { unfold libspdm_get_opaque_data_aead_limit_element_size. case_if; by vm_compute. }
  assert (Hs' := Hs). unfold encode_table in Hs'.
  destruct (load_head _ _ _ _ _ (general_header_size ctx) Hs') as (Hh & He & _);
    [lia|lia|lia|by rewrite length_encode_header|]. rewrite Z.add_0_l in He.
  assert (Hcount : load_le 1 b (if is_version_12 ctx then 0 else 5) = Ret (blen els)).
  { apply load_Ret_inv in Hh as [_ Hh]. symmetry in Hh.
    assert (Hgb : general_header_size ctx ≤ blen b) by lia.
    unfold encode_header, general_header_size in Hh, Hgb.
    destruct (is_version_12 ctx);
      unfold sizeof_spdm_general_opaque_data_table_header,
        sizeof_secured_message_general_opaque_data_table_header in Hh, Hgb.
    - destruct (load_le_head _ _ _ _ _ _ Hh) as (-> & _ & _); [lia|lia|lia|].
      rewrite Z.mod_small; [done|cbn; lia].
    - rewrite app_assoc in Hh. 
      destruct (load_head _ _ _ _ _ 5 Hh) as (_ & Hh2 & _); [lia|lia|lia|done|].
      destruct (load_le_head _ _ _ _ _ _ Hh2) as (Hc & _ & _); [lia|lia|lia|].
      change (0 + 5) with 5 in Hc. rewrite Hc, Z.mod_small; [done|cbn; lia]. }
  unfold libspdm_build_opaque_data_aead_limit_element, libspdm_get_opaque_data_current_size. cbv zeta.
  replace (n <? general_header_size ctx) with false by lia.
  rewrite Hcount. cbn [mbind exec_bind]. rewrite Nat2Z.id.
  rewrite (current_size_loop_table b n els (general_header_size ctx) t) by (done || lia).
  cbn [mbind exec_bind]. rewrite bool_decide_eq_true_2 by (by eexists).
  rewrite assert_true. cbn [mbind exec_bind].
  destruct (libspdm_get_version_from_version_number smv <? SECURED_SPDM_VERSION_13) eqn:Ev.
  { assert (Hz : libspdm_get_opaque_data_aead_limit_element_size ctx smv = 0)
      by (unfold libspdm_get_opaque_data_aead_limit_element_size; by rewrite Ev).
    rewrite Hz, Z.add_0_r in *. cbn [Z.eqb]. exists b. done. }
  assert (Hz : libspdm_get_opaque_data_aead_limit_element_size ctx smv = 8)
    by (unfold libspdm_get_opaque_data_aead_limit_element_size; by rewrite Ev).
  rewrite Hz in *. cbn [Z.eqb]. rewrite (size_t_small (t + 8)) by lia.
  replace (t + 8 <=? n) with true by lia. rewrite assert_true. cbn [mbind exec_bind].
  set (cnt := if is_version_12 ctx then 0 else 5) in *.
  assert (Hcnt : 0 ≤ cnt ∧ cnt + 1 ≤ general_header_size ctx).
  { subst cnt. unfold general_header_size, sizeof_spdm_general_opaque_data_table_header,
      sizeof_secured_message_general_opaque_data_table_header. case_if; lia. }
  cbn [mbind exec_bind].
  rewrite store_in by range. cbn [mbind exec_bind].
  assert (Hir : in_range b cnt (blen [u8 (blen els + 1)]) = true) by (rewrite in_range_iff; cbn; lia).
  assert (S1 : sub (upd b cnt [u8 (blen els + 1)]) 0 t =
               encode_header (is_version_12 ctx) (blen els + 1) ++ encode_elements els).
  { rewrite sub_upd_inside by (done || (cbn; lia)). rewrite Z.sub_0_r, Hs. unfold encode_table.
    apply upd_header. lia. }
  pose proof (length_upd b cnt _ Hir) as L1.
  set (m1 := upd b cnt [u8 (blen els + 1)]) in *. clearbody m1.
  unfold sizeof_secured_message_opaque_element_table_header,
    sizeof_secured_message_opaque_element_aead_limit.
  destruct (write_element_header_spec m1 t _ 3 S1) as (m2 & -> & L2 & S2).
  { rewrite length_app, Nat2Z.inj_add, length_encode_header. lia. }
  { lia. }
  cbn [mbind exec_bind]. rewrite L1 in L2. clear S1 L1.
  pose proof (length_encode_header ctx (blen els + 1)) as Hh2.
  assert (Hl : length m2 = length b) by done. clear L2. remember (length b) as N eqn:HN.
  put_at. put_at. put_at. change (zeros (size_t (8 - (4 + 3)))) with [0]. put_at.
  eexists. split; [reflexivity|]. split; [done|].
  etrans; [|etrans; [eassumption|]].
  - f_equal. cbn [length]. lia.
  - unfold encode_table. rewrite length_app. cbn [length].
    replace (Z.of_nat (length els + 1)) with (blen els + 1) by lia.
    rewrite encode_elements_app, <- ?app_assoc. do 2 f_equal.
Qed.

(** ** What the processing functions read from such tables *)

Lemma load_inside data p n d o k : load data p n = Ret d → 0 ≤ o → 0 ≤ k → o + k ≤ n →
  load data (p + o) k = Ret (sub d o k).
Proof.
  intros [Hr ->]%load_Ret_inv Ho Hk Hn. rewrite in_range_iff in Hr.
  rewrite load_in by range. by rewrite sub_sub by lia.
Qed.

(** The fields of a vendor-less element found at [p]. *)
Lemma element_reads data p e r : element_ok e → oe_vendor e = [] → 0 ≤ p ≤ blen data →
  sub data p (blen data - p) = encode_element e ++ r →
  load_le 1 data (p + 1) = Ret 0 ∧ load_le 2 data (p + 2) = Ret (blen (oe_data e)) ∧
  ∀ o k, 0 ≤ o → 0 ≤ k → o + k ≤ blen (oe_data e) →
    load data (p + 4 + o) k = Ret (sub (oe_data e) o k).
Proof.
  intros He Hv Hp Hs. destruct (read_element data p e r He Hp Hs) as (_ & R2 & R3 & R4 & _ & _).
  rewrite Hv in *. cbn [length] in *. split; [done|].
  rewrite Z.add_0_r in R3, R4. split.
  - unfold load_le. change (Z.of_nat 2) with 2. rewrite R3. cbn [mbind exec_bind].
    rewrite le_val_bytes, Z.mod_small; [done|]. pose proof (He) as (_ & _ & Hd). cbn. lia.
  - intros o k Ho Hk Hok. by apply load_inside with (1 := R4).
Qed.

(** The first element of a table. *)
Lemma table_first ctx e els data : is_table ctx (e :: els) data →
  element_ok e ∧ 0 ≤ general_header_size ctx ≤ blen data ∧
  general_header_size ctx + blen (encode_element e) ≤ blen data ∧
  sub data (general_header_size ctx) (blen data - general_header_size ctx) =
    encode_element e ++ encode_elements els.
Proof.
  intros Ht. pose proof (table_elements _ _ _ Ht) as (Hf & Hs & _). rewrite encode_elements_cons in Hs.
  destruct Ht as (_ & Hok & _). apply Forall_cons_1 in Hok as [He _].
  destruct (read_element data (general_header_size ctx) e (encode_elements els))
    as (_ & _ & _ & _ & H5 & _); [done|lia|done|].
  split_and!; try done; lia.
Qed.

Lemma supported_version_element_ok vs : 1 ≤ blen vs < 256 →
  element_ok (supported_version_element vs) ∧
  blen (oe_data (supported_version_element vs)) = 3 + 2 * blen vs.
Proof.
  intros Hv. assert (blen (oe_data (supported_version_element vs)) = 3 + 2 * blen vs).
  { cbn [oe_data supported_version_element app length].
    rewrite length_version_bytes. lia. }
  split; [|done]. split; [by vm_compute|]. split; [cbn; lia|]. lia.
Qed.

Lemma version_selection_element_ok v : element_ok (version_selection_element v).
Proof. split; [by vm_compute|]. by split. Qed.

Lemma aead_limit_element_ok e : element_ok (aead_limit_element e).
Proof. split; [by vm_compute|]. by split. Qed.

(** Optional AEAD limit after the version element. *)
Definition with_aead_limit (e : opaque_element) (l : option Z) : list opaque_element :=
  e :: match l with Some x => [aead_limit_element x] | None => [] end.

Lemma process_supported_version_table ctx vs l data :
  1 ≤ blen vs < 256 → Forall is_u16 vs → secured_message_version_count ctx ≠ 0 →
  is_table ctx (with_aead_limit (supported_version_element vs) l) data →
  libspdm_process_opaque_data_supported_version_data ctx (blen data) data =
    Ret (match libspdm_negotiate_connection_version (lc_secured_message_version ctx) vs with
         | Some v => (LIBSPDM_STATUS_SUCCESS, Some v)
         | None => (LIBSPDM_STATUS_UNSUPPORTED_CAP, None)
         end).
Proof.
  intros Hv Hu Hc Ht. destruct (table_first _ _ _ _ Ht) as (He & Hg & Hl & Hs).
  destruct (supported_version_element_ok vs Hv) as [_ Hd].
  destruct (blen_encode_element _ He) as [B1 B2]. rewrite Hd in B1, B2.
  destruct (element_reads _ _ _ _ He eq_refl Hg Hs) as (R1 & R2 & R3).
  set (p := general_header_size ctx) in *.
  unfold libspdm_process_opaque_data_supported_version_data.
  replace (secured_message_version_count ctx =? 0) with false by lia.
  assert (Hmin : libspdm_get_untrusted_opaque_data_supported_version_data_size ctx 1 ≤ blen data).
  { unfold libspdm_get_untrusted_opaque_data_supported_version_data_size.
    rewrite <- !Z.add_assoc, align_up4_header by (by vm_compute). fold p.
    etrans; [|exact Hl]. apply Z.add_le_mono_l. rewrite B1. cbn [oe_vendor supported_version_element length].
    change (align_up 4 _) with 12 at 1. pose proof (align_up4 (4 + Z.of_nat 0 + (3 + 2 * blen vs))) as Ha.
    pose proof (Z.div_mod (align_up 4 (4 + Z.of_nat 0 + (3 + 2 * blen vs))) 4). lia. }
  replace (blen data <? _) with false by lia.
  rewrite (get_sm_data_table ctx _ data _ Ht).
  2: { destruct l; cbn; repeat constructor; unfold sm_ok; cbn [snd]; rewrite ?Hd; cbn; lia. }
  assert (Hfind : sm_find SECURED_MESSAGE_OPAQUE_ELEMENT_SMDATA_ID_SUPPORTED_VERSION
    (matches SPDM_REGISTRY_ID_DMTF p (with_aead_limit (supported_version_element vs) l)) =
    Some (p, blen (encode_element (supported_version_element vs)))) by done.
  fold p. rewrite Hfind. cbn [mbind exec_bind]. cbv zeta.
  unfold sizeof_secured_message_opaque_element_table_header,
    sizeof_secured_message_opaque_element_supported_version, sizeof_spdm_version_number.
  set (L := blen (encode_element (supported_version_element vs))) in *.
  cbn [oe_vendor supported_version_element length] in B2.
  replace (p + L <? p + 4 + 3) with false by lia.
  assert (Rc : load_le 1 data (p + 4 + 2) = Ret (blen vs)).
  { unfold load_le. rewrite R3 by lia. cbn [mbind exec_bind]. f_equal.
    change (le_val [u8 (blen vs)] = blen vs). cbn. rewrite u8_small by (unfold is_u8; lia). lia. }
  rewrite Rc. cbn [mbind exec_bind]. replace (blen vs =? 0) with false by lia.
  rewrite R1. cbn [mbind exec_bind]. rewrite R2, Hd. cbn [mbind exec_bind].
  rewrite !Z.eqb_refl. cbn [negb orb].
  replace (p + L <? p + 4 + 3 + 2) with false by lia.
  rewrite R3 by lia. cbn [mbind exec_bind].
  assert (Hb : sub (oe_data (supported_version_element vs)) 3 (2 * blen vs) = version_bytes vs).
  { unfold sub. change (Z.to_nat 3) with 3%nat. cbn [oe_data supported_version_element app drop].
    apply take_ge. rewrite length_version_bytes. lia. }
  rewrite Hb, read_version_bytes by done. by destruct (libspdm_negotiate_connection_version _ _).
Qed.

Lemma process_version_selection_table ctx v l data :
  is_u16 v → secured_message_version_count ctx ≠ 0 →
  is_table ctx (with_aead_limit (version_selection_element v) l) data →
  libspdm_process_opaque_data_version_selection_data ctx (blen data) data =
    Ret (if has_version (lc_secured_message_version ctx) v
         then (LIBSPDM_STATUS_SUCCESS, Some v) else (LIBSPDM_STATUS_UNSUPPORTED_CAP, None)).
Proof.
  intros Hu Hc Ht. destruct (table_first _ _ _ _ Ht) as (He & Hg & Hl & Hs).
  destruct (element_reads _ _ _ _ He eq_refl Hg Hs) as (R1 & R2 & R3).
  set (p := general_header_size ctx) in *.
  unfold libspdm_process_opaque_data_version_selection_data.
  replace (secured_message_version_count ctx =? 0) with false by lia.
  rewrite (get_sm_data_table ctx _ data _ Ht).
  2: { destruct l; cbn; repeat constructor; unfold sm_ok; cbn; lia. }
  assert (Hfind : sm_find SECURED_MESSAGE_OPAQUE_ELEMENT_SMDATA_ID_VERSION_SELECTION
    (matches SPDM_REGISTRY_ID_DMTF p (with_aead_limit (version_selection_element v) l)) =
    Some (p, 8)) by done.
  fold p. rewrite Hfind. cbn [mbind exec_bind]. cbv zeta.
  unfold sizeof_secured_message_opaque_element_table_header,
    sizeof_secured_message_opaque_element_version_selection.
  rewrite R1. cbn [mbind exec_bind]. rewrite R2. cbn [mbind exec_bind].
  change (blen (oe_data (version_selection_element v))) with 4 in *. cbn [negb orb Z.eqb].
  replace (p + 8 <? p + 4 + 4) with false by lia.
  assert (Rv : load_le 2 data (p + 4 + 2) = Ret v).
  { unfold load_le. rewrite R3 by (cbn; lia). cbn [mbind exec_bind]. f_equal.
    change (le_val (le_bytes 2 v) = v). rewrite le_val_bytes. apply Z.mod_small. exact Hu. }
  change (negb (4 =? 4)%positive) with false. cbv iota. rewrite Rv. cbn [mbind exec_bind]. by case_if.
Qed.

Lemma process_aead_limit_table ctx smv e l data :
  element_ok e → oe_id e = SPDM_REGISTRY_ID_DMTF → oe_vendor e = [] → 2 ≤ blen (oe_data e) →
  take 2 (oe_data e) ≠ [SECURED_MESSAGE_OPAQUE_ELEMENT_SMDATA_DATA_VERSION;
                        SECURED_MESSAGE_OPAQUE_ELEMENT_SMDATA_ID_AEAD_LIMIT] →
  is_table ctx (with_aead_limit e l) data → (∀ x, l = Some x → 0 ≤ x ≤ 64) →
  libspdm_process_opaque_data_aead_limit ctx smv (blen data) data =
    Ret (LIBSPDM_STATUS_SUCCESS,
         if libspdm_get_version_from_version_number smv <? SECURED_SPDM_VERSION_13 then 64
         else match l with Some x => x | None => 64 end).
Proof.
  intros He Hid Hve Hd2 Hne Ht Hx. unfold libspdm_process_opaque_data_aead_limit.
  destruct (table_first _ _ _ _ Ht) as (_ & Hg & Hl & Hs).
  case_if; [done|]. set (p := general_header_size ctx) in *.
  rewrite (get_sm_data_table ctx _ data _ Ht).
  2: { unfold with_aead_limit. cbn [matches]. rewrite Hid. cbn.
       destruct l; repeat constructor; unfold sm_ok; cbn; lia. }
  set (L := blen (encode_element e)) in *.
  assert (Hfind : sm_find SECURED_MESSAGE_OPAQUE_ELEMENT_SMDATA_ID_AEAD_LIMIT
    (matches SPDM_REGISTRY_ID_DMTF p (with_aead_limit e l)) =
    match l with Some _ => Some (p + L, 8) | None => None end).
  { unfold with_aead_limit. cbn [matches]. rewrite Hid. cbn [Z.eqb SPDM_REGISTRY_ID_DMTF app sm_find].
    rewrite (bool_decide_eq_false_2 (take 2 _ = _)) by done. rewrite andb_false_r. by destruct l. }
  fold p. rewrite Hfind. cbn [mbind exec_bind]. destruct l as [x|]; [|done]. cbv zeta.
  unfold with_aead_limit in Hs.
  destruct (read_element _ _ _ _ He Hg Hs) as (_ & _ & _ & _ & H5 & H6). fold L in H5, H6.
  destruct (blen_encode_element e He) as [_ HB].
  destruct (element_reads data (p + L) (aead_limit_element x) [] (aead_limit_element_ok x) eq_refl)
    as (R1 & R2 & R3); [lia|by rewrite H6|].
  change (blen (oe_data (aead_limit_element x))) with 3 in *.
  rewrite R1. cbn [mbind exec_bind]. rewrite R2. cbn [mbind exec_bind].
  unfold sizeof_secured_message_opaque_element_aead_limit,
    sizeof_secured_message_opaque_element_table_header.
  cbn [negb orb Z.eqb Pos.eqb]. replace (p + L + 8 <? p + L + 4 + 3) with false by lia.
  assert (Re : load_le 1 data (p + L + 4 + 2) = Ret x).
  { unfold load_le. rewrite R3 by (cbn; lia). cbn [mbind exec_bind]. f_equal.
    change (x + 256 * 0 = x). lia. }
  rewrite Re. cbn [mbind exec_bind]. specialize (Hx x eq_refl).
  unfold SECURED_MESSAGE_AEAD_LIMIT_EXPONENT_MAX. by replace (64 <? x) with false by lia.
Qed.

End tables.
End OpaqueTable.

(** ** Properties *)
Module OpaqueDataProps.
Import ContextFacts OpaqueFacts OpaqueTable.

Section props.
Context `{BuildConfig}.
Implicit Types ctx : libspdm_context_t.

Lemma has_version_in vs v : has_version vs v = true →
  ∃ u, u ∈ vs ∧ libspdm_get_version_from_version_number v = libspdm_get_version_from_version_number u.
Proof.
  induction vs as [|u vs IH]; cbn; [done|].
  destruct (Z.eqb_spec (libspdm_get_version_from_version_number v)
              (libspdm_get_version_from_version_number u)) as [E|E].
  - intros _. exists u. split; [left|done].
  - intros (w & Hw & Ew)%IH. exists w. split; [by right|done].
Qed.

(** Where a secured message element that was found lies. *)
Definition sm_place (data : list Z) (r : option (Z * Z)) : Prop :=
  ∀ ptr len, r = Some (ptr, len) →
    0 ≤ ptr ∧ 4 ≤ len ∧ ptr + len ≤ blen data ∧ ptr + 6 ≤ blen data ∧
    (field data (ptr + 1) 1 = 0 → 4 + field data (ptr + 2) 2 ≤ len).

Section received.
Variable data : list Z.
Hypothesis Hd : bytes_ok data.
Hypothesis Hn : blen data < 2 ^ 63.

Lemma get_sm_data_place ctx id :
  wp (libspdm_get_sm_data_element_from_opaque_data ctx (blen data) data id) (sm_place data).
Proof.
  eapply wp_mono; [by apply get_sm_data_safe|]. intros r Hr ptr len E.
  destruct (Hr ptr len E) as (Hat & _ & H6 & _). pose proof (general_header_size_bound ctx).
  destruct (element_at_fits data Hd (general_header_size ctx) ptr len) as (H1 & H2 & H3);
    [lia|done|].
  split_and!; try done. intros Hv. destruct Hat as (_ & _ & _ & Hle). rewrite Hv in Hle.
  rewrite !Z.add_0_r in Hle. lia.
Qed.

Lemma general_check_safe ctx : blen data ≤ SPDM_MAX_OPAQUE_DATA_SIZE →
  no_fault (libspdm_process_general_opaque_data_check ctx (blen data) data).
Proof.
  intros Hs. unfold libspdm_process_general_opaque_data_check, no_fault.
  apply wp_bind, wp_assert; [unfold SPDM_MAX_OPAQUE_DATA_SIZE in *; lia|].
  apply wp_if; intros _; [|by apply wp_ret]. apply wp_if; intros _; [by apply wp_ret|].
  unfold sizeof_spdm_general_opaque_data_table_header.
  apply wp_if; intros E; [by apply wp_ret|].
  rewrite load_le_field by lia. cbn [mbind exec_bind].
  apply wp_if; intros _; [by apply wp_ret|]. by apply (check_loop_safe data Hd Hn 4); lia.
Qed.

Lemma version_selection_safe ctx :
  wp (libspdm_process_opaque_data_version_selection_data ctx (blen data) data)
    (λ '(st, v), ∀ x, v = Some x → st = LIBSPDM_STATUS_SUCCESS ∧
       has_version (lc_secured_message_version ctx) x = true).
Proof.
  unfold libspdm_process_opaque_data_version_selection_data.
  apply wp_if; intros _; [by apply wp_ret|]. apply wp_bind. eapply wp_mono; [apply get_sm_data_place|].
  intros [[ptr len]|] Hr; [|by apply wp_ret]. destruct (Hr ptr len eq_refl) as (P1 & P2 & P3 & P4 & P5).
  rewrite !(load_le_field data (ptr + 1) 1), (load_le_field data (ptr + 2) 2) by lia.
  cbn [mbind exec_bind]. apply wp_if; intros E1; [by apply wp_ret|].
  apply wp_if; intros E2; [by apply wp_ret|].
  unfold sizeof_secured_message_opaque_element_table_header,
    sizeof_secured_message_opaque_element_version_selection in *.
  rewrite load_le_field by lia. cbn [mbind exec_bind].
  apply wp_if; intros E3; apply wp_ret; [|done]. by intros x [= <-].
Qed.

Lemma supported_version_safe ctx :
  wp (libspdm_process_opaque_data_supported_version_data ctx (blen data) data)
    (λ '(st, v), ∀ x, v = Some x → st = LIBSPDM_STATUS_SUCCESS ∧
       x ∈ lc_secured_message_version ctx).
Proof.
  unfold libspdm_process_opaque_data_supported_version_data.
  apply wp_if; intros _; [by apply wp_ret|]. apply wp_if; intros _; [by apply wp_ret|].
  apply wp_bind. eapply wp_mono; [apply get_sm_data_place|].
  intros [[ptr len]|] Hr; [|by apply wp_ret]. destruct (Hr ptr len eq_refl) as (P1 & P2 & P3 & P4 & P5).
  cbv zeta. unfold sizeof_secured_message_opaque_element_table_header,
    sizeof_secured_message_opaque_element_supported_version, sizeof_spdm_version_number in *.
  apply wp_if; intros E1; [by apply wp_ret|].
  rewrite (load_le_field data (ptr + 4 + 2) 1) by lia. cbn [mbind exec_bind].
  apply wp_if; intros E2; [by apply wp_ret|].
  rewrite (load_le_field data (ptr + 1) 1), (load_le_field data (ptr + 2) 2) by lia.
  cbn [mbind exec_bind]. apply wp_if; intros E3; [by apply wp_ret|].
  apply orb_false_iff in E3 as [E3 E4]. apply negb_false_iff, Z.eqb_eq in E3, E4.
  apply wp_if; intros E5; [by apply wp_ret|]. specialize (P5 E3).
  pose proof (field_bound data (ptr + 4 + 2) 1 Hd) as Hc.
  apply wp_bind, wp_load; [rewrite in_range_iff; lia|].
  destruct (libspdm_negotiate_connection_version _ _) as [v|] eqn:Ev; apply wp_ret; [|done].
  intros x [= <-]. split; [done|]. by apply VersionFacts.negotiate_in in Ev.
Qed.

Lemma aead_limit_safe ctx smv :
  wp (libspdm_process_opaque_data_aead_limit ctx smv (blen data) data) (λ '(st, e), 0 ≤ e ≤ 64).
Proof.
  unfold libspdm_process_opaque_data_aead_limit.
  assert (Hdef : 0 ≤ SECURED_MESSAGE_AEAD_LIMIT_EXPONENT_DEFAULT ≤ 64) by (by vm_compute).
  apply wp_if; intros _; [by apply wp_ret|]. apply wp_bind. eapply wp_mono; [apply get_sm_data_place|].
  intros [[ptr len]|] Hr; [|by apply wp_ret]. destruct (Hr ptr len eq_refl) as (P1 & P2 & P3 & P4 & P5).
  rewrite (load_le_field data (ptr + 1) 1), (load_le_field data (ptr + 2) 2) by lia.
  cbn [mbind exec_bind]. apply wp_if; intros E1; [by apply wp_ret|].
  apply wp_if; intros E2; [by apply wp_ret|].
  unfold sizeof_secured_message_opaque_element_table_header,
    sizeof_secured_message_opaque_element_aead_limit in *.
  rewrite load_le_field by lia. cbn [mbind exec_bind].
  pose proof (field_bound data (ptr + 4 + 2) 1 Hd) as Hc.
  unfold SECURED_MESSAGE_AEAD_LIMIT_EXPONENT_MAX.
  apply wp_if; intros E3; [by apply wp_ret|]. apply wp_ret. lia.
Qed.
End received.


(** Searching a table.  On the encoding of any list of elements, each with
    its registry id, vendor id and data of any size the fields can hold, and
    with the header of the connection's version, the search for the
    [idx]-th element of an id returns the number of elements with that id and
    the exact place of the one asked for, and [false] when there is none. *)
Theorem opaque_table_search ctx (els : list opaque_element) (id idx : Z)
    (Hok : Forall element_ok els) (Hn : 1 ≤ blen els < 256)
    (Hid : 0 ≤ id ≤ SPDM_REGISTRY_ID_MAX) (Hi : 0 ≤ idx) :
  let data := encode_table (is_version_12 ctx) els in
  blen data < 2 ^ 63 →
  let ms := matches id (general_header_size ctx) els in
  libspdm_get_element_from_opaque_data_with_element_id ctx (blen data) data id idx =
    Ret (match ms !! Z.to_nat idx with
         | Some (p, l, _) => Some (blen ms, p, l)
         | None => None
         end) ∧
  (∀ i p l e, ms !! i = Some (p, l, e) → sub data p l = encode_element e).
Proof.
  intros data Hl ms. assert (Ht : is_table ctx els data) by done.
  split; [by apply get_element_table|]. intros i p l e Hm.
  destruct (table_elements _ _ _ Ht) as (Hf & He & _).
  destruct (matches_lookup data id els (general_header_size ctx) i p l e Hok ltac:(lia) He Hm)
    as (Heo & Hp & _ & -> & r & Hr).
  destruct (sub_split _ _ _ _ _ Hr) as (_ & Hsub & _); [lia|lia|lia|exact Hsub].
Qed.

(** C32: the exponent an endpoint advertises is the largest whose AEAD limit does
    not exceed its own: for every 64-bit cap, [2 ^ e <= cap + 1 < 2 ^ (e + 1)]
    (the loop's 64 rounds are enough for every cap).  Applied to a session
    together with the peer's exponent, the sequence number limit it leaves is
    the smaller of the two limits, so neither endpoint sends past what the other
    expects nor past its own cap. *)
Theorem aead_limit_exponent_sound ctx (si : libspdm_session_info_t) (peer : Z)
    (Hm : is_u64 (sc_max_spdm_session_sequence_number ctx)) (Hp : 0 ≤ peer) :
  let cap := sc_max_spdm_session_sequence_number ctx in
  let e := libspdm_aead_limit_exponent_from_max_sequence_number cap in
  let limit := max_spdm_session_sequence_number
                 (secured_message_context (libspdm_apply_aead_limit_to_session ctx si peer)) in
  0 ≤ e ≤ 64 ∧ 2 ^ e ≤ cap + 1 < 2 ^ (e + 1) ∧
  limit = Z.min (2 ^ e - 1) (2 ^ Z.min peer 64 - 1) ∧ limit ≤ cap ∧ limit < 2 ^ peer.
Proof.
  intros cap e limit. assert (He : 0 ≤ e ≤ 64 ∧ 2 ^ e ≤ cap + 1 < 2 ^ (e + 1))
    by by apply exponent_spec.
  split; [apply He|]. split; [apply He|].
  assert (Hlim : limit = Z.min (2 ^ e - 1) (2 ^ Z.min peer 64 - 1)).
  { change limit with (if max_sequence_number_of peer <? max_sequence_number_of e
                       then max_sequence_number_of peer else max_sequence_number_of e).
    rewrite !max_sequence_number_spec by lia. replace (Z.min e 64) with e by lia. case_if; lia. }
  split; [done|]. rewrite Hlim. split; [lia|].
  pose proof (Z.pow_le_mono_r 2 (Z.min peer 64) peer). lia.
Qed.


Lemma is_table_prefix ctx els m n : Forall element_ok els → 1 ≤ blen els < 256 →
  n = blen (encode_table (is_version_12 ctx) els) → n < 2 ^ 63 →
  sub m 0 n = encode_table (is_version_12 ctx) els → is_table ctx els (sub m 0 n).
Proof. intros Hok Hn Hl Hs E. split; [done|]. split; [done|]. split; [done|]. rewrite E. lia. Qed.

(** The versions of an endpoint: 1 to SECURED_SPDM_MAX_VERSION_COUNT 16-bit numbers. *)
Definition versions_ok ctx : Prop :=
  1 ≤ blen (lc_secured_message_version ctx) ≤ SECURED_SPDM_MAX_VERSION_COUNT ∧
  Forall is_u16 (lc_secured_message_version ctx).

(** A builder's element followed by its AEAD limit, in a buffer of exactly the
    size the callers reserve. *)
Lemma append_aead_limit ctx smv e t (b m1 : list Z) :
  element_ok e → t = blen (encode_table (is_version_12 ctx) [e]) →
  length m1 = length b →
  blen b = t + libspdm_get_opaque_data_aead_limit_element_size ctx smv → blen b ≤ 1024 →
  sub m1 0 t = encode_table (is_version_12 ctx) [e] →
  let l := if libspdm_get_version_from_version_number smv <? SECURED_SPDM_VERSION_13 then None
           else Some (libspdm_aead_limit_exponent_from_max_sequence_number
                        (sc_max_spdm_session_sequence_number ctx)) in
  ∃ m : list Z, libspdm_build_opaque_data_aead_limit_element ctx smv (blen b) m1 = Ret (m, blen m) ∧
    is_table ctx (with_aead_limit e l) m ∧ blen m ≤ 1024.
Proof.
  intros He Ht Hl Hb Hsz Hs l.
  destruct (build_aead_limit_spec ctx smv [e] (blen b) m1) as (m & E & Lm & Sm);
    rewrite <- ?Ht; try done; try lia.
  { by constructor. }
  rewrite <- Ht in *. exists m. rewrite <- Hb in *.
  assert (Hlm : blen m = blen b) by lia. rewrite Hlm. split; [done|]. split; [|lia].
  rewrite <- Hlm, sub_all in Sm. split.
  - rewrite Sm. subst l. by case_if.
  - split; [|split; [|lia]].
    + clearbody l. constructor; [done|]. destruct l; constructor; [apply aead_limit_element_ok|constructor].
    + subst l. unfold with_aead_limit. case_if; cbn; lia.
Qed.

(** C24: negotiating the secured message version, request direction.  The opaque
    data a requester builds in the buffer it reserves is accepted by the
    responder's general check; the responder selects exactly the version that
    version negotiation picks from the two endpoints' lists, or answers that
    there is none; and it reads back the AEAD limit exponent the requester
    advertised, 64 when the requester does not offer version 1.3 or the
    session is older. *)
Theorem supported_versions_roundtrip (rq rs : libspdm_context_t) (b : list Z) (smv : Z)
    (Hq : versions_ok rq) (Hs : secured_message_version_count rs ≠ 0)
    (Hv : is_version_12 rq = is_version_12 rs)
    (Hcap : is_u64 (sc_max_spdm_session_sequence_number rq)) :
  let size := libspdm_get_opaque_data_supported_version_data_size rq in
  let local_max := libspdm_local_max_secured_message_version rq in
  blen b = size + libspdm_get_opaque_data_aead_limit_element_size rq local_max →
  ∃ b1 b2 : list Z, libspdm_build_opaque_data_supported_version_data rq size b = Ret (b1, size) ∧
    libspdm_build_opaque_data_aead_limit_element rq local_max (blen b) b1 = Ret (b2, blen b2) ∧
    libspdm_process_general_opaque_data_check rs (blen b2) b2 = Ret true ∧
    libspdm_process_opaque_data_supported_version_data rs (blen b2) b2 =
      Ret (match libspdm_negotiate_connection_version (lc_secured_message_version rs)
                   (lc_secured_message_version rq) with
           | Some v => (LIBSPDM_STATUS_SUCCESS, Some v)
           | None => (LIBSPDM_STATUS_UNSUPPORTED_CAP, None)
           end) ∧
    libspdm_process_opaque_data_aead_limit rs smv (blen b2) b2 =
      Ret (LIBSPDM_STATUS_SUCCESS,
           if libspdm_get_version_from_version_number smv <? SECURED_SPDM_VERSION_13 then 64
           else if libspdm_get_version_from_version_number local_max <? SECURED_SPDM_VERSION_13
           then 64
           else libspdm_aead_limit_exponent_from_max_sequence_number
                  (sc_max_spdm_session_sequence_number rq)).
Proof.
  intros size local_max Hb. destruct Hq as [Hn Hu]. unfold SECURED_SPDM_MAX_VERSION_COUNT in Hn.
  assert (Ha : 0 ≤ libspdm_get_opaque_data_aead_limit_element_size rq local_max ≤ 8).
  { unfold libspdm_get_opaque_data_aead_limit_element_size. case_if; by vm_compute. }
  destruct (supported_version_element_ok (lc_secured_message_version rq)) as [He Hd]; [lia|].
  assert (Hsz : size ≤ 64).
  { subst size. unfold libspdm_get_opaque_data_supported_version_data_size,
      secured_message_version_count. pose proof (general_header_size_bound rq) as Hg.
    unfold sizeof_secured_message_opaque_element_table_header,
      sizeof_secured_message_opaque_element_supported_version, sizeof_spdm_version_number.
    replace (blen (lc_secured_message_version rq) =? 0) with false by lia.
    match goal with |- align_up 4 ?x ≤ _ => pose proof (align_up4 x) end. lia. }
  destruct (build_supported_version_spec rq size b) as (Hf & b1 & E1 & L1 & S1);
    [lia|fold size; lia|lia|]. fold size in Hf, S1.
  destruct (append_aead_limit rq local_max _ size b b1 He Hf L1 Hb ltac:(lia) S1)
    as (b2 & E2 & Ht & L2). cbv zeta in Ht.
  set (l := if _ <? SECURED_SPDM_VERSION_13 then None else _) in Ht.
  assert (Ht' : is_table rs (with_aead_limit
    (supported_version_element (lc_secured_message_version rq)) l) b2).
  { destruct Ht as (T1 & T2). split; [by rewrite <- Hv|done]. }
  exists b1, b2. split; [done|]. split; [done|]. split; [by eapply general_check_table|].
  split; [by apply (process_supported_version_table rs _ l); [lia| | |]|].
  rewrite (process_aead_limit_table rs smv _ l b2 He); try done.
  - subst l. repeat case_if; done.
  - rewrite Hd. lia.
  - subst l. intros x. case_if; [done|]. intros [= <-]. by apply exponent_spec.
Qed.

(** C25: negotiating the secured message version, response direction.  The opaque
    data a responder builds for a selected version is accepted by the
    requester's general check; the requester takes exactly that version when
    it offers it and refuses it otherwise; and it reads back the AEAD limit
    exponent the responder advertised in a session of version 1.3, 64 in an
    older one. *)
Theorem selected_version_roundtrip (rs rq : libspdm_context_t) (b : list Z) (v : Z)
    (Hs : secured_message_version_count rs ≠ 0) (Hq : secured_message_version_count rq ≠ 0)
    (Hv : is_version_12 rs = is_version_12 rq) (Hu : is_u16 v)
    (Hcap : is_u64 (sc_max_spdm_session_sequence_number rs)) :
  let size := libspdm_get_opaque_data_version_selection_data_size rs in
  blen b = size + libspdm_get_opaque_data_aead_limit_element_size rs v →
  ∃ b1 b2 : list Z, libspdm_build_opaque_data_version_selection_data rs v size b = Ret (b1, size) ∧
    libspdm_build_opaque_data_aead_limit_element rs v (blen b) b1 = Ret (b2, blen b2) ∧
    libspdm_process_general_opaque_data_check rq (blen b2) b2 = Ret true ∧
    libspdm_process_opaque_data_version_selection_data rq (blen b2) b2 =
      Ret (if has_version (lc_secured_message_version rq) v
           then (LIBSPDM_STATUS_SUCCESS, Some v) else (LIBSPDM_STATUS_UNSUPPORTED_CAP, None)) ∧
    libspdm_process_opaque_data_aead_limit rq v (blen b2) b2 =
      Ret (LIBSPDM_STATUS_SUCCESS,
           if libspdm_get_version_from_version_number v <? SECURED_SPDM_VERSION_13 then 64
           else libspdm_aead_limit_exponent_from_max_sequence_number
                  (sc_max_spdm_session_sequence_number rs)).
Proof.
  intros size Hb. unfold secured_message_version_count in Hs.
  assert (Ha : 0 ≤ libspdm_get_opaque_data_aead_limit_element_size rs v ≤ 8).
  { unfold libspdm_get_opaque_data_aead_limit_element_size. case_if; by vm_compute. }
  assert (Hsz : size ≤ 64).
  { subst size. unfold libspdm_get_opaque_data_version_selection_data_size, general_header_size.
    repeat case_if; by vm_compute. }
  destruct (build_version_selection_spec rs v size b) as (Hf & b1 & E1 & L1 & S1);
    [lia|fold size; lia|lia|]. fold size in Hf, S1.
  pose proof (version_selection_element_ok v) as He.
  destruct (append_aead_limit rs v _ size b b1 He Hf L1 Hb ltac:(lia) S1)
    as (b2 & E2 & Ht & L2). cbv zeta in Ht.
  set (l := if _ <? SECURED_SPDM_VERSION_13 then None else _) in Ht.
  assert (Ht' : is_table rq (with_aead_limit (version_selection_element v) l) b2).
  { destruct Ht as (T1 & T2). split; [by rewrite <- Hv|done]. }
  exists b1, b2. split; [done|]. split; [done|]. split; [by eapply general_check_table|].
  split; [by apply (process_version_selection_table rq v l)|].
  rewrite (process_aead_limit_table rq v _ l b2 He); try done.
  - subst l. repeat case_if; done.
  - subst l. intros x. case_if; [done|]. intros [= <-]. by apply exponent_spec.
Qed.

End props.

Lemma supported_versions_roundtrip_witness :
  ∃ b2 : list Z, @libspdm_process_opaque_data_supported_version_data SessionTableProps.toy_table (blen b2) b2 =
    Ret (LIBSPDM_STATUS_SUCCESS, Some 0x1200).
Proof.
  destruct (@supported_versions_roundtrip default_build SessionTableProps.toy_table
    SessionTableProps.toy_table (zeros 16) 0x1200) as (b1 & b2 & _ & _ & _ & E & _).
  - split; [by vm_compute|]. repeat (constructor; [by vm_compute|]). constructor.
  - done.
  - done.
  - by vm_compute.
  - by vm_compute.
  - exists b2. exact E.
Defined.

Lemma selected_version_roundtrip_witness :
  ∃ b2 : list Z, @libspdm_process_opaque_data_version_selection_data SessionTableProps.toy_table (blen b2) b2 =
    Ret (LIBSPDM_STATUS_SUCCESS, Some 0x1100).
Proof.
  destruct (@selected_version_roundtrip default_build SessionTableProps.toy_table
    SessionTableProps.toy_table (zeros 12) 0x1100) as (b1 & b2 & _ & _ & _ & E & _);
    [done|done|done|by vm_compute|by vm_compute|by vm_compute|].
  exists b2. exact E.
Defined.


Lemma aead_limit_exponent_sound_witness :
  libspdm_aead_limit_exponent_from_max_sequence_number
    (sc_max_spdm_session_sequence_number SessionTableProps.toy_table) ≤ 64.
Proof.
  apply (aead_limit_exponent_sound SessionTableProps.toy_table SessionTableProps.toy_info 70);
    by vm_compute.
Defined.

Lemma opaque_table_search_witness :
  let els := [aead_limit_element 3; version_selection_element 0x1200] in
  let data := encode_table (is_version_12 SessionTableProps.toy_table) els in
  libspdm_get_element_from_opaque_data_with_element_id SessionTableProps.toy_table
    (blen data) data 0 1 = Ret (Some (2, 12, 8)).
Proof.
  intros els data.
  destruct (@opaque_table_search default_build SessionTableProps.toy_table els 0 1) as [E _].
  - constructor; [apply aead_limit_element_ok|].
    constructor; [apply version_selection_element_ok|constructor].
  - by vm_compute.
  - by vm_compute.
  - done.
  - by vm_compute.
  - etrans; [exact E|]. vm_compute. reflexivity.
Defined.

(** A requester without secured message versions stops at an assertion when it
    appends its AEAD limit to the empty opaque data it has built: the append
    walks the blob before it finds out that it has nothing to add. *)
Lemma empty_version_list_asserts (ctx : libspdm_context_t) (b : list Z) :
  lc_secured_message_version ctx = [] →
  libspdm_get_opaque_data_supported_version_data_size ctx = 0 ∧
  libspdm_get_opaque_data_aead_limit_element_size ctx
    (libspdm_local_max_secured_message_version ctx) = 0 ∧
  @libspdm_build_opaque_data_aead_limit_element default_build ctx
    (libspdm_local_max_secured_message_version ctx) 0 b = Fault AssertFailed.
Proof.
  intros E. unfold libspdm_get_opaque_data_supported_version_data_size,
    secured_message_version_count, libspdm_local_max_secured_message_version. rewrite E.
  split; [done|]. split; [done|].
  unfold libspdm_build_opaque_data_aead_limit_element, libspdm_get_opaque_data_current_size.
  pose proof (general_header_size_bound ctx). cbv zeta.
  by replace (0 <? general_header_size ctx) with true by lia.
Qed.

End OpaqueDataProps.
