(* ===== verification/Messages.v ===== *)
(** * Messages: the message layer both endpoints share

    Message and error codes of include/industry_standard/spdm.h, the state of
    the connection and its notifications, the reset of the transcripts
    (libspdm_com_context_data.c), and the ERROR responses of the responder
    (libspdm_rsp_error.c, libspdm_rsp_handle_response_state.c). *)

From S2P Require Import Prelude SpdmDefs CommonSupport SecuredContext SpdmContext SessionTable.

(** ** Codes *)

Definition SPDM_KEY_UPDATE_OPERATIONS_UPDATE_KEY : Z := 1.
Definition SPDM_KEY_UPDATE_OPERATIONS_UPDATE_ALL_KEYS : Z := 2.
Definition SPDM_KEY_UPDATE_OPERATIONS_VERIFY_NEW_KEY : Z := 3.

Definition LIBSPDM_MAX_RDT_EXPONENT : Z := 31.

(** Sizes of the packed structures of spdm.h. *)
Definition sizeof_spdm_message_header : Z := 4.
Definition sizeof_spdm_error_data_response_not_ready : Z := 4.

(** A guard of a handler whose branch returns what another function returns. *)
Notation "'TAIL' m 'IF' c ;; k" := (if c then m else k)
  (at level 10, m at level 99, c at level 99, k at level 200,
   format "'TAIL'  m  'IF'  c ;;  '//' k") : spdm_scope.

Module Messages.
Section messages.
Context `{BuildConfig}.
Implicit Types ctx : libspdm_context_t.

(** libspdm_copy_mem is a service of the platform (hal/library/memlib.h); it
    requires that the source fits the destination, here the bytes of [dst] from
    [off] on. *)
Definition copy_mem (dst : list Z) (off dst_len : Z) (src : list Z) : exec (list Z) :=
  if blen src <=? dst_len then store dst off src else Fault OutOfBounds.

Definition set_exchange ctx (f : libspdm_exchange_t → libspdm_exchange_t) : libspdm_context_t :=
  ctx <| exchange := f (exchange ctx) |>.

Definition notify ctx (registered : bool) (n : notification) : libspdm_context_t :=
  if registered
  then set_exchange ctx (λ x, x <| notifications := notifications x ++ [n] |>) else ctx.

(** A slot of the session table, and storing it. *)
Definition set_slot ctx (i : nat) (si : libspdm_session_info_t) : libspdm_context_t :=
  ctx <| session_info := <[i := si]> (session_info ctx) |>.

(** ** State of the connection *)

Definition libspdm_trigger_connection_state_callback ctx (s : libspdm_connection_state_t) :
    libspdm_context_t :=
  notify ctx (spdm_connection_state_callback (exchange ctx)) (ConnectionState s).

Definition libspdm_set_connection_state ctx (s : libspdm_connection_state_t) : libspdm_context_t :=
  if bool_decide (connection_state (exchange ctx) ≠ s) then
    let ctx := set_exchange ctx (λ x, x <| connection_state := s |>) in
    libspdm_trigger_connection_state_callback ctx s
  else ctx.

Definition libspdm_trigger_key_update_callback ctx (session_id : Z)
    (key_update_op : libspdm_key_update_operation_t)
    (key_update_action : libspdm_key_update_action_t) : libspdm_context_t :=
  notify ctx (spdm_key_update_callback (exchange ctx))
    (KeyUpdated session_id key_update_op key_update_action).

(** [connection_info.connection_state < s] *)
Definition connection_state_below ctx (s : libspdm_connection_state_t) : bool :=
  connection_state_num (connection_state (exchange ctx)) <? connection_state_num s.

(** ** Reset of the transcripts

    The build records running digests (LIBSPDM_RECORD_TRANSCRIPT_DATA_SUPPORT is
    0): a reset frees a digest context through the HAL, and sets it to NULL. *)

Definition libspdm_reset_message_b ctx : libspdm_context_t :=
  set_exchange ctx (λ x, x <| transcript := (transcript x) <| tr_digest_context_m1m2 := None |> |>).

Definition libspdm_reset_message_c ctx : libspdm_context_t :=
  set_exchange ctx (λ x, x <| transcript := (transcript x) <| tr_digest_context_m1m2 := None |> |>).

Definition libspdm_reset_message_mut_b ctx : libspdm_context_t :=
  set_exchange ctx (λ x,
    x <| transcript := (transcript x) <| tr_digest_context_mut_m1m2 := None |> |>).

Definition libspdm_reset_message_mut_c ctx : libspdm_context_t :=
  set_exchange ctx (λ x,
    x <| transcript := (transcript x) <| tr_digest_context_mut_m1m2 := None |> |>).

(** [session_info]: the index of a slot, [None] when NULL. *)
Definition reset_session_transcript ctx (i : nat)
    (f : libspdm_session_transcript_t → libspdm_session_transcript_t) : libspdm_context_t :=
  match session_info ctx !! i with
  | Some si => set_slot ctx i (si <| session_transcript := f (session_transcript si) |>)
  | None => ctx
  end.

Definition libspdm_reset_message_m ctx (session_info_ : option nat) : libspdm_context_t :=
  let ctx :=
    match session_info_ with
    | None => set_exchange ctx (λ x,
        x <| transcript := (transcript x) <| tr_digest_context_l1l2 := None |> |>)
    | Some i => reset_session_transcript ctx i (λ t, t <| digest_context_l1l2 := None |>)
    end in
  notify ctx (spdm_meas_log_reset_callback (exchange ctx))
    (MeasLogReset (i ← session_info_; session_id <$> session_info ctx !! i)).

Definition libspdm_reset_message_e ctx (session_info_ : option nat) : libspdm_context_t :=
  match session_info_ with
  | None => set_exchange ctx (λ x,
      x <| transcript := (transcript x) <| tr_digest_context_il1il2 := None |> |>)
  | Some i => reset_session_transcript ctx i (λ t, t <| digest_context_il1il2 := None |>)
  end.

Definition libspdm_reset_message_encap_e ctx (session_info_ : option nat) : libspdm_context_t :=
  match session_info_ with
  | None => set_exchange ctx (λ x,
      x <| transcript := (transcript x) <| tr_digest_context_encap_il1il2 := None |> |>)
  | Some i => reset_session_transcript ctx i (λ t, t <| digest_context_encap_il1il2 := None |>)
  end.

(** The requests that reset M1 and M2 before the connection is authenticated. *)
Definition resets_challenge (request_code : Z) : bool :=
  existsb (Z.eqb request_code)
    [SPDM_KEY_EXCHANGE; SPDM_GET_MEASUREMENTS; SPDM_FINISH; SPDM_PSK_EXCHANGE; SPDM_PSK_FINISH;
     SPDM_KEY_UPDATE; SPDM_HEARTBEAT; SPDM_GET_ENCAPSULATED_REQUEST; SPDM_END_SESSION;
     SPDM_GET_MEASUREMENT_EXTENSION_LOG].

Definition libspdm_reset_message_buffer_via_request_code ctx (session_info_ : option nat)
    (request_code : Z) : libspdm_context_t :=
  let ctx :=
    if negb (request_code =? SPDM_GET_DIGESTS)
       && negb (connection_state_below ctx LIBSPDM_CONNECTION_STATE_NEGOTIATED)
    then set_exchange ctx (λ x, x <| digest_transcript_window_closed := true |>) else ctx in
  let ctx :=
    if negb (request_code =? SPDM_GET_MEASUREMENTS)
    then libspdm_reset_message_m ctx session_info_ else ctx in
  let unauthenticated := connection_state_below ctx LIBSPDM_CONNECTION_STATE_AUTHENTICATED in
  if resets_challenge request_code then
    if unauthenticated then
      libspdm_reset_message_mut_c (libspdm_reset_message_mut_b
        (libspdm_reset_message_c (libspdm_reset_message_b ctx)))
    else ctx
  else if request_code =? SPDM_DELIVER_ENCAPSULATED_RESPONSE then
    if unauthenticated then libspdm_reset_message_c (libspdm_reset_message_b ctx) else ctx
  else if request_code =? SPDM_GET_DIGESTS then libspdm_reset_message_b ctx
  else if request_code =? SPDM_GET_ENDPOINT_INFO then
    libspdm_reset_message_encap_e (libspdm_reset_message_e ctx session_info_) session_info_
  else ctx.

(** ** ERROR responses *)

(** What a response handler leaves behind: [rp_response] is the buffer of
    *response_size bytes it was given. *)
Record reply : Type := Reply {
  rp_status : libspdm_return_t;
  rp_ctx : libspdm_context_t;
  rp_size : Z;               (* *response_size *)
  rp_response : list Z;
}.

Definition libspdm_generate_error_response ctx (error_code error_data response_size : Z)
    (response : list Z) : exec reply :=
  LIBSPDM_ASSERT (sizeof_spdm_message_header <=? response_size);;
  let v := libspdm_get_connection_version ctx in
  let v := if v =? 0 then SPDM_MESSAGE_VERSION_10 else v in
  response ← store response 0 [v; SPDM_ERROR; error_code; error_data];
  (if v <=? SPDM_MESSAGE_VERSION_11 then
     LIBSPDM_ASSERT (negb (error_code =? SPDM_ERROR_CODE_RESPONSE_TOO_LARGE)
                     && negb (error_code =? SPDM_ERROR_CODE_LARGE_RESPONSE))
   else Ret tt);;
  Ret (Reply LIBSPDM_STATUS_SUCCESS ctx sizeof_spdm_message_header response).

Definition libspdm_generate_extended_error_response ctx (error_code error_data : Z)
    (extended_error_data : list Z) (response_size : Z) (response : list Z) : exec reply :=
  let size := sizeof_spdm_message_header + blen extended_error_data in
  LIBSPDM_ASSERT (size <=? response_size);;
  response ← store response 0
    [libspdm_get_connection_version ctx; SPDM_ERROR; error_code; error_data];
  response ← copy_mem response sizeof_spdm_message_header
    (response_size - sizeof_spdm_message_header) extended_error_data;
  Ret (Reply LIBSPDM_STATUS_SUCCESS ctx size response).

(** The bytes of spdm_error_data_response_not_ready_t. *)
Definition not_ready_bytes (e : spdm_error_data_response_not_ready_t) : list Z :=
  [rd_exponent e; request_code e; token e; rd_tm e].

(** The original request is cached for the RESPOND_IF_READY that follows. *)
Definition defer_request ctx (request_code : Z) : exec libspdm_context_t :=
  let x := exchange ctx in
  last ← load (last_spdm_request x) 0 (last_spdm_request_size x);
  cache ← copy_mem (cache_spdm_request x) 0
            (libspdm_get_scratch_buffer_cache_spdm_request_capacity ctx) last;
  Ret (set_exchange ctx (λ x,
    x <| cache_spdm_request_size := last_spdm_request_size x |>
      <| cache_spdm_request := cache |>
      <| cache_spdm_request_session_id_valid := last_spdm_request_session_id_valid ctx |>
      <| cache_spdm_request_session_id := last_spdm_request_session_id ctx |>
      <| error_data := Build_response_not_ready 1 request_code (current_token x) 1 |>
      <| current_token := u8 (current_token x + 1) |>)).

Definition libspdm_responder_handle_response_state ctx (request_code response_size : Z)
    (response : list Z) : exec reply :=
  match response_state (exchange ctx) with
  | LIBSPDM_RESPONSE_STATE_BUSY =>
      libspdm_generate_error_response ctx SPDM_ERROR_CODE_BUSY 0 response_size response
  | LIBSPDM_RESPONSE_STATE_NEED_RESYNC =>
      r ← libspdm_generate_error_response ctx SPDM_ERROR_CODE_REQUEST_RESYNCH 0 response_size
            response;
      RETURN r IF LIBSPDM_STATUS_IS_ERROR (rp_status r);;
      Ret (Reply LIBSPDM_STATUS_SUCCESS
             (libspdm_set_connection_state (rp_ctx r) LIBSPDM_CONNECTION_STATE_NOT_STARTED)
             (rp_size r) (rp_response r))
  | LIBSPDM_RESPONSE_STATE_NOT_READY =>
      ctx ← (if negb (request_code =? SPDM_RESPOND_IF_READY) then defer_request ctx request_code
             else Ret ctx);
      libspdm_generate_extended_error_response ctx SPDM_ERROR_CODE_RESPONSE_NOT_READY 0
        (not_ready_bytes (error_data (exchange ctx))) response_size response
  | _ => Ret (Reply LIBSPDM_STATUS_SUCCESS ctx response_size response)
  end.

End messages.
End Messages.
Export Messages.
