(* ===== verification/KeyUpdate.v ===== *)
(** * KeyUpdate: the KEY_UPDATE exchange

    The responder's handler (libspdm_rsp_key_update_ack.c), the requester's
    side (libspdm_req_key_update.c) and its treatment of ERROR responses
    (libspdm_req_handle_error_response.c).  The requester is written over the
    services of [RequesterChannel], which send a request and receive a
    response. *)

From S2P Require Import Prelude SpdmDefs CommonSupport CryptLib SecuredContext SecuredSession.
From S2P Require Import SpdmContext SessionTable Messages.

Module KeyUpdate.

(** The header of a message: its first four bytes. *)
Definition read_header (m : list Z) : exec spdm_message_header_t :=
  b ← load m 0 sizeof_spdm_message_header;
  match b with
  | [v; c; p1; p2] => Ret (Build_message_header v c p1 p2)
  | _ => Fault OutOfBounds
  end.

Definition header_bytes (h : spdm_message_header_t) : list Z :=
  [spdm_version h; request_response_code h; param1 h; param2 h].

Section responder.
Context `{BuildConfig, CryptoHal}.
Implicit Types ctx : libspdm_context_t.

(** The session a pointer of the table stands for. *)
Definition slot ctx (i : nat) : exec libspdm_session_info_t :=
  match session_info ctx !! i with Some si => Ret si | None => Fault OutOfBounds end.

(** libspdm_create_update_session_data_key on the context of a slot, and what
    follows when it succeeds: the notification. *)
Definition create_update ctx (session_id : Z) (i : nat) (action : libspdm_key_update_action_t) :
    exec (bool * libspdm_context_t) :=
  si ← slot ctx i;
  '(result, c) ← libspdm_create_update_session_data_key (secured_message_context si) action;
  let ctx := set_slot ctx i (si <| secured_message_context := c |>) in
  RETURN (false, ctx) IF negb result;;
  Ret (true, libspdm_trigger_key_update_callback ctx session_id
               LIBSPDM_KEY_UPDATE_OPERATION_CREATE_UPDATE action).

(** The same for libspdm_activate_update_session_data_key with the new key. *)
Definition commit_update ctx (session_id : Z) (i : nat) (action : libspdm_key_update_action_t) :
    exec (bool * libspdm_context_t) :=
  si ← slot ctx i;
  let '(result, c) :=
    libspdm_activate_update_session_data_key (secured_message_context si) action true in
  let ctx := set_slot ctx i (si <| secured_message_context := c |>) in
  RETURN (false, ctx) IF negb result;;
  Ret (true, libspdm_trigger_key_update_callback ctx session_id
               LIBSPDM_KEY_UPDATE_OPERATION_COMMIT_UPDATE action).

(** The switch on the operation: the request is rejected, an operation on the
    keys fails, or the operation is done. *)
Inductive key_update_result : Type :=
| Rejected
| Failed (ctx : libspdm_context_t)
| Done (ctx : libspdm_context_t).

Definition zero_header : spdm_message_header_t := Build_message_header 0 0 0 0.
#[export] Instance message_header_eq_dec : EqDecision spdm_message_header_t.
Proof. solve_decision. Defined.

Definition save_last_request ctx (i : nat) (h : spdm_message_header_t) : exec libspdm_context_t :=
  si ← slot ctx i;
  Ret (set_slot ctx i (si <| last_key_update_request := h |>)).

Definition key_update_operation ctx (session_id : Z) (i : nat)
    (prev_spdm_request spdm_request : spdm_message_header_t) : exec key_update_result :=
  let op := param1 spdm_request in
  if op =? SPDM_KEY_UPDATE_OPERATIONS_UPDATE_KEY then
    RETURN Rejected IF bool_decide (prev_spdm_request ≠ zero_header);;
    '(result, ctx) ← create_update ctx session_id i LIBSPDM_KEY_UPDATE_ACTION_REQUESTER;
    RETURN Failed ctx IF negb result;;
    ctx ← save_last_request ctx i spdm_request;
    Ret (Done ctx)
  else if op =? SPDM_KEY_UPDATE_OPERATIONS_UPDATE_ALL_KEYS then
    RETURN Rejected IF bool_decide (prev_spdm_request ≠ zero_header);;
    '(result, ctx) ← create_update ctx session_id i LIBSPDM_KEY_UPDATE_ACTION_REQUESTER;
    RETURN Failed ctx IF negb result;;
    '(result, ctx) ← create_update ctx session_id i LIBSPDM_KEY_UPDATE_ACTION_RESPONDER;
    RETURN Failed ctx IF negb result;;
    '(result, ctx) ← commit_update ctx session_id i LIBSPDM_KEY_UPDATE_ACTION_RESPONDER;
    RETURN Failed ctx IF negb result;;
    ctx ← save_last_request ctx i spdm_request;
    Ret (Done ctx)
  else if op =? SPDM_KEY_UPDATE_OPERATIONS_VERIFY_NEW_KEY then
    RETURN Rejected
      IF negb (param1 prev_spdm_request =? SPDM_KEY_UPDATE_OPERATIONS_UPDATE_KEY)
         && negb (param1 prev_spdm_request =? SPDM_KEY_UPDATE_OPERATIONS_UPDATE_ALL_KEYS);;
    '(result, ctx) ← commit_update ctx session_id i LIBSPDM_KEY_UPDATE_ACTION_REQUESTER;
    RETURN Failed ctx IF negb result;;
    ctx ← save_last_request ctx i zero_header;
    Ret (Done ctx)
  else Ret Rejected.

Definition libspdm_get_response_key_update ctx (request_size : Z) (request : list Z)
    (response_size : Z) (response : list Z) : exec reply :=
  let error code data := libspdm_generate_error_response ctx code data response_size response in
  spdm_request ← read_header request;
  LIBSPDM_ASSERT (request_response_code spdm_request =? SPDM_KEY_UPDATE);;
  let v := libspdm_get_connection_version ctx in
  TAIL error SPDM_ERROR_CODE_UNSUPPORTED_REQUEST SPDM_KEY_UPDATE IF v <? SPDM_MESSAGE_VERSION_11;;
  TAIL error SPDM_ERROR_CODE_VERSION_MISMATCH 0 IF negb (spdm_version spdm_request =? v);;
  TAIL libspdm_responder_handle_response_state ctx (request_response_code spdm_request)
         response_size response
    IF bool_decide (response_state (exchange ctx) ≠ LIBSPDM_RESPONSE_STATE_NORMAL);;
  TAIL error SPDM_ERROR_CODE_UNSUPPORTED_REQUEST SPDM_KEY_UPDATE
    IF negb (libspdm_is_capabilities_flag_supported ctx false
               SPDM_GET_CAPABILITIES_REQUEST_FLAGS_KEY_UPD_CAP
               SPDM_GET_CAPABILITIES_RESPONSE_FLAGS_KEY_UPD_CAP);;
  TAIL error SPDM_ERROR_CODE_UNEXPECTED_REQUEST 0
    IF connection_state_below ctx LIBSPDM_CONNECTION_STATE_NEGOTIATED;;
  let no_session :=
    error (if SPDM_MESSAGE_VERSION_12 <=? v then SPDM_ERROR_CODE_SESSION_REQUIRED
           else SPDM_ERROR_CODE_UNSPECIFIED) 0 in
  TAIL no_session IF negb (last_spdm_request_session_id_valid ctx);;
  let session_id := last_spdm_request_session_id ctx in
  match libspdm_get_session_info_via_session_id ctx session_id with
  | None => no_session
  | Some i =>
      si ← slot ctx i;
      TAIL error SPDM_ERROR_CODE_UNEXPECTED_REQUEST 0
        IF bool_decide (session_state (secured_message_context si)
                        ≠ LIBSPDM_SESSION_STATE_ESTABLISHED);;
      TAIL error SPDM_ERROR_CODE_INVALID_REQUEST 0
        IF negb (request_size =? sizeof_spdm_message_header);;
      r ← key_update_operation ctx session_id i (last_key_update_request si) spdm_request;
      match r with
      | Rejected => error SPDM_ERROR_CODE_INVALID_REQUEST 0
      | Failed ctx => Ret (Reply LIBSPDM_STATUS_UNSUPPORTED_CAP ctx response_size response)
      | Done ctx =>
          let ctx := libspdm_reset_message_buffer_via_request_code ctx (Some i)
                       (request_response_code spdm_request) in
          LIBSPDM_ASSERT (sizeof_spdm_message_header <=? response_size);;
          response ← store response 0 (zeros sizeof_spdm_message_header);
          response ← store response 0
            [spdm_version spdm_request; SPDM_KEY_UPDATE_ACK; param1 spdm_request;
             param2 spdm_request];
          Ret (Reply LIBSPDM_STATUS_SUCCESS ctx sizeof_spdm_message_header response)
      end
  end.

End responder.

(** ** The requester *)

(** What a requester's exchange uses: the transfer of messages
    (libspdm_req_send_receive.c) over the buffers and the device of the
    integrator.  [W] is the world behind them; the random generator is threaded
    with it.  A request is the list of its bytes, a received response the list
    of its *response_size bytes. *)
Class RequesterChannel `{BuildConfig, CryptoHal} : Type := {
  W : Type;
  (** the integrator's callbacks that lend and take back the buffers; a receiver
      buffer comes with the bytes that it holds *)
  libspdm_acquire_sender_buffer : W → libspdm_return_t * W;
  libspdm_release_sender_buffer : W → W;
  libspdm_acquire_receiver_buffer : W → libspdm_return_t * list Z * W;
  libspdm_release_receiver_buffer : W → W;
  libspdm_send_spdm_request : libspdm_context_t → option Z → list Z → rng_state * W →
    exec (libspdm_return_t * libspdm_context_t * (rng_state * W));
  libspdm_receive_spdm_response : libspdm_context_t → option Z → rng_state * W →
    exec (libspdm_return_t * libspdm_context_t * list Z * (rng_state * W));
}.

Section requester.
Context `{BuildConfig, CryptoHal}.
Context {channel : RequesterChannel}.
Implicit Types ctx : libspdm_context_t.
Definition world : Type := (rng_state * W)%type.
Implicit Types w : world.

(** What handling a response leaves behind. *)
Record handled : Type := Handled {
  hd_status : libspdm_return_t;
  hd_ctx : libspdm_context_t;
  hd_response : list Z;          (* *response, *response_size bytes *)
  hd_world : world;
}.

Definition is_error (st : libspdm_return_t) : bool := LIBSPDM_STATUS_IS_ERROR st.

(** *** ERROR responses *)

Definition libspdm_handle_simple_error_response ctx (error_code : Z) :
    exec (libspdm_return_t * libspdm_context_t) :=
  RETURN (LIBSPDM_STATUS_NOT_READY_PEER, ctx) IF error_code =? SPDM_ERROR_CODE_RESPONSE_NOT_READY;;
  RETURN (LIBSPDM_STATUS_BUSY_PEER, ctx) IF error_code =? SPDM_ERROR_CODE_BUSY;;
  last ← read_header (last_spdm_request (exchange ctx));
  let code := request_response_code last in
  let v := libspdm_get_connection_version ctx in
  let without flag := negb (libspdm_is_capabilities_flag_supported ctx true 0 flag) in
  if ((code =? SPDM_SET_CERTIFICATE) || (code =? SPDM_GET_CSR))
     && (error_code =? SPDM_ERROR_CODE_RESET_REQUIRED) then
    Ret (if (SPDM_MESSAGE_VERSION_13 <=? v)
            && without SPDM_GET_CAPABILITIES_RESPONSE_FLAGS_CERT_INSTALL_RESET_CAP
         then (LIBSPDM_STATUS_ERROR_PEER, ctx) else (LIBSPDM_STATUS_RESET_REQUIRED_PEER, ctx))
  else if (code =? SPDM_SET_KEY_PAIR_INFO) && (error_code =? SPDM_ERROR_CODE_RESET_REQUIRED) then
    Ret (if (SPDM_MESSAGE_VERSION_14 <=? v)
            && without SPDM_GET_CAPABILITIES_RESPONSE_FLAGS_SET_KEY_PAIR_RESET_CAP
         then (LIBSPDM_STATUS_ERROR_PEER, ctx) else (LIBSPDM_STATUS_RESET_REQUIRED_PEER, ctx))
  else if error_code =? SPDM_ERROR_CODE_REQUEST_RESYNCH then
    Ret (LIBSPDM_STATUS_RESYNCH_PEER,
         set_exchange ctx (λ x, x <| connection_state := LIBSPDM_CONNECTION_STATE_NOT_STARTED |>))
  else Ret (LIBSPDM_STATUS_ERROR_PEER, ctx).

(** On every return the caller holds a receiver buffer. *)
Definition libspdm_requester_respond_if_ready ctx (session_id : option Z)
    (expected_response_code : Z) (response : list Z) w : exec handled :=
  let '(rng, d) := w in
  let d := libspdm_release_receiver_buffer d in
  let '(status, d) := libspdm_acquire_sender_buffer d in
  RETURN Handled status ctx response (rng, d) IF is_error status;;
  LIBSPDM_ASSERT (sizeof_spdm_message_header <=? max_spdm_msg_size (lc_capability ctx));;
  let ctx := set_exchange ctx (λ x, x <| crypto_request := true |>) in
  let e := error_data (exchange ctx) in
  let v := libspdm_get_connection_version ctx in
  let request := [v; SPDM_RESPOND_IF_READY; request_code e; token e] in
  '(status, ctx, (rng, d)) ← libspdm_send_spdm_request ctx session_id request (rng, d);
  let d := libspdm_release_sender_buffer d in
  if is_error status then
    let '(status, response, d) := libspdm_acquire_receiver_buffer d in
    Ret (Handled status ctx response (rng, d))
  else
    let '(status, response, d) := libspdm_acquire_receiver_buffer d in
    RETURN Handled status ctx response (rng, d) IF is_error status;;
    '(status, ctx, response, w) ← libspdm_receive_spdm_response ctx session_id (rng, d);
    RETURN Handled status ctx response w IF is_error status;;
    RETURN Handled LIBSPDM_STATUS_INVALID_MSG_SIZE ctx response w
      IF blen response <? sizeof_spdm_message_header;;
    spdm_response ← read_header response;
    spdm_request ← read_header (last_spdm_request (exchange ctx));
    RETURN Handled LIBSPDM_STATUS_INVALID_MSG_FIELD ctx response w
      IF negb (spdm_version spdm_response =? spdm_version spdm_request);;
    if request_response_code spdm_response =? SPDM_ERROR then
      '(status, ctx) ← libspdm_handle_simple_error_response ctx (param1 spdm_response);
      Ret (Handled status ctx response w)
    else
      RETURN Handled LIBSPDM_STATUS_INVALID_MSG_FIELD ctx response w
        IF negb (request_response_code spdm_response =? expected_response_code);;
      Ret (Handled LIBSPDM_STATUS_SUCCESS ctx response w).

Definition libspdm_handle_response_not_ready ctx (session_id : option Z) (response : list Z)
    (original_request_code expected_response_code : Z) w : exec handled :=
  let fail st := Handled st ctx response w in
  RETURN fail LIBSPDM_STATUS_INVALID_MSG_SIZE
    IF blen response <? sizeof_spdm_message_header + sizeof_spdm_error_data_response_not_ready;;
  spdm_response ← read_header response;
  e ← read_header (drop (Z.to_nat sizeof_spdm_message_header) response);
  let extend_error_data :=
    Build_response_not_ready (spdm_version e) (request_response_code e) (param1 e) (param2 e) in
  LIBSPDM_ASSERT (request_response_code spdm_response =? SPDM_ERROR);;
  LIBSPDM_ASSERT (param1 spdm_response =? SPDM_ERROR_CODE_RESPONSE_NOT_READY);;
  RETURN fail LIBSPDM_STATUS_INVALID_MSG_FIELD
    IF negb (request_code extend_error_data =? original_request_code);;
  RETURN fail LIBSPDM_STATUS_INVALID_MSG_FIELD IF rd_tm extend_error_data <=? 1;;
  RETURN fail LIBSPDM_STATUS_INVALID_MSG_FIELD
    IF LIBSPDM_MAX_RDT_EXPONENT <? rd_exponent extend_error_data;;
  let ctx := set_exchange ctx (λ x, x <| error_data := extend_error_data |>) in
  libspdm_requester_respond_if_ready ctx session_id expected_response_code response w.

Definition libspdm_handle_error_response_main ctx (session_id : option Z) (response : list Z)
    (original_request_code expected_response_code : Z) w : exec handled :=
  spdm_response ← read_header response;
  LIBSPDM_ASSERT (request_response_code spdm_response =? SPDM_ERROR);;
  match session_id, param1 spdm_response =? SPDM_ERROR_CODE_DECRYPT_ERROR with
  | Some sid, true =>
      ctx ← libspdm_free_session_id ctx sid;
      Ret (Handled LIBSPDM_STATUS_SESSION_MSG_ERROR ctx response w)
  | _, _ =>
      TAIL libspdm_handle_response_not_ready ctx session_id response original_request_code
             expected_response_code w
        IF param1 spdm_response =? SPDM_ERROR_CODE_RESPONSE_NOT_READY;;
      '(status, ctx) ← libspdm_handle_simple_error_response ctx (param1 spdm_response);
      Ret (Handled status ctx response w)
  end.

(** *** KEY_UPDATE *)

(** The session-key operations on the context of a slot. *)
Definition create_key ctx (i : nat) (action : libspdm_key_update_action_t) :
    exec (bool * libspdm_context_t) :=
  si ← slot ctx i;
  '(result, c) ← libspdm_create_update_session_data_key (secured_message_context si) action;
  Ret (result, set_slot ctx i (si <| secured_message_context := c |>)).

Definition activate_key ctx (i : nat) (action : libspdm_key_update_action_t) (use_new_key : bool) :
    exec (bool * libspdm_context_t) :=
  si ← slot ctx i;
  let '(result, c) :=
    libspdm_activate_update_session_data_key (secured_message_context si) action use_new_key in
  Ret (result, set_slot ctx i (si <| secured_message_context := c |>)).

(** What an exchange of the function leaves behind. *)
Record exchanged : Type := Exchanged {
  ex_status : libspdm_return_t;
  ex_ctx : libspdm_context_t;
  ex_world : world;
}.

(** The checks on the response of the first exchange, in their order. *)
Definition check_update_response ctx (session_id : Z) (response : list Z) w : exec exchanged :=
  spdm_response ← read_header response;
  spdm_request ← read_header (last_spdm_request (exchange ctx));
  if request_response_code spdm_response =? SPDM_ERROR then
    h ← libspdm_handle_error_response_main ctx (Some session_id) response SPDM_KEY_UPDATE
          SPDM_KEY_UPDATE_ACK w;
    Ret (Exchanged (hd_status h) (hd_ctx h) (hd_world h))
  else
    Ret (Exchanged
      (if negb (blen response =? sizeof_spdm_message_header) then LIBSPDM_STATUS_INVALID_MSG_SIZE
       else if negb (spdm_version spdm_response =? spdm_version spdm_request)
       then LIBSPDM_STATUS_INVALID_MSG_FIELD
       else if negb (request_response_code spdm_response =? SPDM_KEY_UPDATE_ACK)
               || negb (param1 spdm_response =? param1 spdm_request)
               || negb (param2 spdm_response =? param2 spdm_request)
       then LIBSPDM_STATUS_INVALID_MSG_FIELD else LIBSPDM_STATUS_SUCCESS) ctx w).

(** Update key: the first exchange of the function, up to the activation of the
    new keys. *)
Definition update_key ctx (session_id : Z) (i : nat) (single_direction : bool) w :
    exec exchanged :=
  let '(rng, d) := w in
  let '(status, d) := libspdm_acquire_sender_buffer d in
  RETURN Exchanged status ctx (rng, d) IF is_error status;;
  LIBSPDM_ASSERT (sizeof_spdm_message_header <=? max_spdm_msg_size (lc_capability ctx));;
  let op := if single_direction then SPDM_KEY_UPDATE_OPERATIONS_UPDATE_KEY
            else SPDM_KEY_UPDATE_OPERATIONS_UPDATE_ALL_KEYS in
  let '(result, tag, rng) := libspdm_get_random_number 1 rng in
  RETURN Exchanged LIBSPDM_STATUS_LOW_ENTROPY ctx (rng, libspdm_release_sender_buffer d)
    IF negb result;;
  let request := [libspdm_get_connection_version ctx; SPDM_KEY_UPDATE; op] ++ tag in
  '(result, ctx) ←
    (if single_direction then Ret (true, ctx)
     else create_key ctx i LIBSPDM_KEY_UPDATE_ACTION_RESPONDER);
  RETURN Exchanged LIBSPDM_STATUS_CRYPTO_ERROR ctx (rng, libspdm_release_sender_buffer d)
    IF negb result;;
  '(status, ctx, (rng, d)) ← libspdm_send_spdm_request ctx (Some session_id) request (rng, d);
  let d := libspdm_release_sender_buffer d in
  RETURN Exchanged status ctx (rng, d) IF is_error status;;
  let '(status, response, d) := libspdm_acquire_receiver_buffer d in
  RETURN Exchanged status ctx (rng, d) IF is_error status;;
  '(status, ctx, response, w) ←
    libspdm_receive_spdm_response ctx (Some session_id) (rng, d);
  r ← (if is_error status then Ret (Exchanged status ctx w)
       else check_update_response ctx session_id response w);
  let ctx := ex_ctx r in
  let '(rng, d) := ex_world r in
  let ret st ctx := Exchanged st ctx (rng, libspdm_release_receiver_buffer d) in
  if is_error (ex_status r) then
    if single_direction then Ret (ret (ex_status r) ctx)
    else
      '(result, ctx) ← activate_key ctx i LIBSPDM_KEY_UPDATE_ACTION_RESPONDER false;
      Ret (ret (if (result : bool) then ex_status r else LIBSPDM_STATUS_CRYPTO_ERROR) ctx)
  else
    '(result, ctx) ←
      (if single_direction then Ret (true, ctx)
       else activate_key ctx i LIBSPDM_KEY_UPDATE_ACTION_RESPONDER true);
    RETURN ret LIBSPDM_STATUS_CRYPTO_ERROR ctx IF negb result;;
    '(result, ctx) ← create_key ctx i LIBSPDM_KEY_UPDATE_ACTION_REQUESTER;
    RETURN ret LIBSPDM_STATUS_CRYPTO_ERROR ctx IF negb result;;
    '(result, ctx) ← activate_key ctx i LIBSPDM_KEY_UPDATE_ACTION_REQUESTER true;
    RETURN ret LIBSPDM_STATUS_CRYPTO_ERROR ctx IF negb result;;
    Ret (ret LIBSPDM_STATUS_SUCCESS ctx).

(** Verify key: the second exchange. *)
Definition verify_key ctx (session_id : Z) w : exec exchanged :=
  let '(rng, d) := w in
  let '(status, d) := libspdm_acquire_sender_buffer d in
  RETURN Exchanged status ctx (rng, d) IF is_error status;;
  LIBSPDM_ASSERT (sizeof_spdm_message_header <=? max_spdm_msg_size (lc_capability ctx));;
  let '(result, tag, rng) := libspdm_get_random_number 1 rng in
  RETURN Exchanged LIBSPDM_STATUS_LOW_ENTROPY ctx (rng, libspdm_release_sender_buffer d)
    IF negb result;;
  let request :=
    [libspdm_get_connection_version ctx; SPDM_KEY_UPDATE;
     SPDM_KEY_UPDATE_OPERATIONS_VERIFY_NEW_KEY] ++ tag in
  '(status, ctx, (rng, d)) ← libspdm_send_spdm_request ctx (Some session_id) request (rng, d);
  let d := libspdm_release_sender_buffer d in
  RETURN Exchanged status ctx (rng, d) IF is_error status;;
  let '(status, response, d) := libspdm_acquire_receiver_buffer d in
  RETURN Exchanged status ctx (rng, d) IF is_error status;;
  '(status, ctx, response, w) ←
    libspdm_receive_spdm_response ctx (Some session_id) (rng, d);
  let ret st ctx w := Exchanged st ctx (w.1, libspdm_release_receiver_buffer w.2) in
  RETURN ret status ctx w IF is_error status;;
  spdm_response ← read_header response;
  h ← (if request_response_code spdm_response =? SPDM_ERROR then
         libspdm_handle_error_response_main ctx (Some session_id) response SPDM_KEY_UPDATE
           SPDM_KEY_UPDATE_ACK w
       else Ret (Handled LIBSPDM_STATUS_SUCCESS ctx response w));
  let ret st := ret st (hd_ctx h) (hd_world h) in
  RETURN ret (hd_status h) IF is_error (hd_status h);;
  let response := hd_response h in
  RETURN ret LIBSPDM_STATUS_INVALID_MSG_SIZE
    IF negb (blen response =? sizeof_spdm_message_header);;
  spdm_response ← read_header response;
  spdm_request ← read_header (last_spdm_request (exchange (hd_ctx h)));
  RETURN ret LIBSPDM_STATUS_INVALID_MSG_FIELD
    IF negb (spdm_version spdm_response =? spdm_version spdm_request);;
  RETURN ret LIBSPDM_STATUS_INVALID_MSG_FIELD
    IF negb (request_response_code spdm_response =? SPDM_KEY_UPDATE_ACK)
       || negb (param1 spdm_response =? param1 spdm_request)
       || negb (param2 spdm_response =? param2 spdm_request);;
  Ret (ret LIBSPDM_STATUS_SUCCESS).

(** The new value of *key_updated is the boolean. *)
Definition libspdm_try_key_update ctx (session_id : Z) (single_direction key_updated : bool) w :
    exec (exchanged * bool) :=
  let fail st := (Exchanged st ctx w, key_updated) in
  RETURN fail LIBSPDM_STATUS_UNSUPPORTED_CAP
    IF libspdm_get_connection_version ctx <? SPDM_MESSAGE_VERSION_11;;
  RETURN fail LIBSPDM_STATUS_UNSUPPORTED_CAP
    IF negb (libspdm_is_capabilities_flag_supported ctx true
               SPDM_GET_CAPABILITIES_REQUEST_FLAGS_KEY_UPD_CAP
               SPDM_GET_CAPABILITIES_RESPONSE_FLAGS_KEY_UPD_CAP);;
  RETURN fail LIBSPDM_STATUS_INVALID_STATE_LOCAL
    IF connection_state_below ctx LIBSPDM_CONNECTION_STATE_NEGOTIATED;;
  match libspdm_get_session_info_via_session_id ctx session_id with
  | None => LIBSPDM_ASSERT false;; Ret (fail LIBSPDM_STATUS_INVALID_STATE_LOCAL)
  | Some i =>
      si ← slot ctx i;
      RETURN fail LIBSPDM_STATUS_INVALID_STATE_LOCAL
        IF bool_decide (session_state (secured_message_context si)
                        ≠ LIBSPDM_SESSION_STATE_ESTABLISHED);;
      let ctx := libspdm_reset_message_buffer_via_request_code ctx (Some i) SPDM_KEY_UPDATE in
      u ← (if key_updated then Ret (Exchanged LIBSPDM_STATUS_SUCCESS ctx w)
           else update_key ctx session_id i single_direction w);
      RETURN (u, key_updated) IF is_error (ex_status u);;
      v ← verify_key (ex_ctx u) session_id (ex_world u);
      Ret (v, true)
  end.

(** The do-while loop: [retry] more attempts are made while the peer is busy. *)
Fixpoint key_update_loop ctx (session_id : Z) (single_direction key_updated : bool) (retry : nat) w :
    exec exchanged :=
  '(r, key_updated) ← libspdm_try_key_update ctx session_id single_direction key_updated w;
  RETURN r IF bool_decide (ex_status r ≠ LIBSPDM_STATUS_BUSY_PEER);;
  match retry with
  | O => Ret r
  | S retry =>
      key_update_loop (ex_ctx r) session_id single_direction key_updated retry (ex_world r)
  end.

Definition libspdm_key_update ctx (session_id : Z) (single_direction : bool) w : exec exchanged :=
  let ctx := set_exchange ctx (λ x, x <| crypto_request := true |>) in
  key_update_loop ctx session_id single_direction false
    (Z.to_nat (retry_times (exchange ctx))) w.

End requester.
End KeyUpdate.
Export KeyUpdate.
