(* ===== verification/Connection.v ===== *)
(** * Connection: GET_VERSION and GET_CAPABILITIES

    The reset of a connection (libspdm_com_context_data.c,
    libspdm_com_context_data_session.c, libspdm_rsp_encap_response.c), the
    transcript of the set-up messages, and the first two exchanges of a
    connection: the requester's side (libspdm_req_get_version.c,
    libspdm_req_get_capabilities.c) over the services of [RequesterChannel], and
    the responder's handlers (libspdm_rsp_version.c, libspdm_rsp_capabilities.c). *)

From S2P Require Import Prelude SpdmDefs CommonSupport CryptLib SecuredContext SecuredSession.
From S2P Require Import SpdmContext SessionTable Version Messages KeyUpdate.

Module Connection.
Import Masks.

Section common.
Context `{BuildConfig}.
Implicit Types ctx : libspdm_context_t.

(** ** Messages A and D *)

Definition libspdm_reset_message_a ctx : exec libspdm_context_t :=
  m ← libspdm_reset_managed_buffer (tr_message_a (transcript (exchange ctx)));
  Ret (set_exchange ctx (λ x, x <| transcript := (transcript x) <| tr_message_a := m |> |>)).

Definition libspdm_reset_message_d ctx : exec libspdm_context_t :=
  m ← libspdm_reset_managed_buffer (tr_message_d (transcript (exchange ctx)));
  Ret (set_exchange ctx (λ x,
    x <| transcript := (transcript x) <| tr_message_d := m |> |>
      <| digest_transcript_window_closed := false |>)).

Definition libspdm_append_message_a ctx (message : list Z) :
    exec (libspdm_return_t * libspdm_context_t) :=
  '(status, m) ← libspdm_append_managed_buffer (tr_message_a (transcript (exchange ctx))) message;
  Ret (status, set_exchange ctx (λ x,
    x <| transcript := (transcript x) <| tr_message_a := m |> |>)).

(** A request and its response enter message A together; the context of the
    first failure. *)
Definition append_exchange ctx (request response : list Z) :
    exec (libspdm_return_t * libspdm_context_t) :=
  '(status, ctx) ← libspdm_append_message_a ctx request;
  RETURN (status, ctx) IF LIBSPDM_STATUS_IS_ERROR status;;
  libspdm_append_message_a ctx response.

(** ** Reset of the connection *)

(** The loop over the slots from [i] on. *)
Fixpoint reset_sessions ctx (i n : nat) : exec libspdm_context_t :=
  match n with
  | O => Ret ctx
  | S n =>
      '(ctx, si) ← libspdm_session_info_init ctx INVALID_SESSION_ID 0 false;
      reset_sessions (set_slot ctx i si) (S i) n
  end.

(** A key is freed through the HAL, and the handle becomes NULL. *)
Definition libspdm_free_peer_leaf_cert_public_key (c : libspdm_peer_used_cert_chain_t) :
    libspdm_peer_used_cert_chain_t :=
  c <| leaf_cert_public_key := None |>.

Definition zero_peer_used_cert_chain (c : libspdm_peer_used_cert_chain_t) :
    libspdm_peer_used_cert_chain_t :=
  Build_peer_used_cert_chain (zeros (blen (buffer_hash c))) 0 None.

(** The large message of a transfer, when there is one, is cleared. *)
Definition libspdm_reset_chunk_info ctx (i : libspdm_chunk_info_t) :
    exec (libspdm_context_t * libspdm_chunk_info_t) :=
  ctx ← (if large_message i then
           m ← store (large_message_section (scratch (exchange ctx))) 0
                 (zeros (large_message_capacity i));
           Ret (set_exchange ctx (λ x, x <| scratch := (scratch x) <| large_message_section := m |> |>))
         else Ret ctx);
  Ret (ctx, Build_chunk_info false (chunk_handle i) 0 0 false 0 0).

Definition reset_transcripts ctx : exec libspdm_context_t :=
  ctx ← libspdm_reset_message_a ctx;
  ctx ← libspdm_reset_message_d ctx;
  let ctx := libspdm_reset_message_c (libspdm_reset_message_b ctx) in
  let ctx := libspdm_reset_message_mut_c (libspdm_reset_message_mut_b ctx) in
  let ctx := libspdm_reset_message_m ctx None in
  let ctx := libspdm_reset_message_e ctx None in
  Ret (libspdm_reset_message_encap_e ctx None).

Definition libspdm_reset_context ctx : exec libspdm_context_t :=
  ctx ← reset_sessions ctx 0 LIBSPDM_MAX_SESSION_COUNT;
  ctx ← reset_transcripts ctx;
  let ctx := set_exchange ctx (λ x,
    x <| peer_used_cert_chain :=
           zero_peer_used_cert_chain <$>
             (libspdm_free_peer_leaf_cert_public_key <$> peer_used_cert_chain x) |>
      <| connection_state := LIBSPDM_CONNECTION_STATE_NOT_STARTED |>) in
  let ctx := ctx <| ci_version := 0 |> <| ci_capability := zero_capability |>
                 <| ci_algorithm := zero_algorithm |>
                 <| sc_last_spdm_error := Build_error_struct 0 0 |>
                 <| encap_context := zero_encap_context |> in
  '(ctx, get) ← libspdm_reset_chunk_info ctx (chunk_get (exchange ctx));
  '(ctx, send) ← libspdm_reset_chunk_info ctx (chunk_send (exchange ctx));
  let ctx := set_exchange ctx (λ x,
    x <| chunk_get := get |> <| chunk_send := send |>
      <| multi_key_conn_req := false |> <| multi_key_conn_rsp := false |>
      <| cache_spdm_request_size := 0 |>
      <| response_state := LIBSPDM_RESPONSE_STATE_NORMAL |> <| current_token := 0 |>
      <| last_spdm_request_size := 0 |>
      <| spdm_10_11_verify_signature_endian := spdm_10_11_verify_signature_endian_setting x |>) in
  Ret (ctx <| latest_session_id := INVALID_SESSION_ID |>
           <| last_spdm_request_session_id := INVALID_SESSION_ID |>
           <| last_spdm_request_session_id_valid := false |>
           <| current_dhe_session_count := 0 |> <| current_psk_session_count := 0 |>).

(** No encapsulated request is outstanding any more. *)
Definition idle_encap (e : libspdm_encap_context_t) : libspdm_encap_context_t :=
  e <| flow_type := LIBSPDM_ENCAP_FLOW_NONE |> <| response_not_ready := false |>.

Definition libspdm_reset_all_encap_state ctx : libspdm_context_t :=
  ctx <| encap_context := idle_encap (encap_context ctx) |>
      <| session_info := (λ si, si <| si_encap_context := idle_encap (si_encap_context si) |>)
                           <$> session_info ctx |>.

End common.

(** ** Capability messages

    GET_CAPABILITIES and CAPABILITIES have the same layout; before version 1.2
    they end before data_transfer_size. *)

Definition LIBSPDM_MAX_CT_EXPONENT : Z := 31.
Definition sizeof_spdm_capabilities_message : Z := 20.
Definition sizeof_spdm_capabilities_message_11 : Z := 12.
Definition sizeof_spdm_supported_algorithms_block : Z := 30.
Definition sizeof_spdm_extended_algorithm : Z := 4.
Definition sizeof_spdm_negotiate_algorithms_common_struct_table : Z := 4.
Definition sizeof_spdm_version_response : Z := 6.
Definition sizeof_spdm_version_number : Z := 2.
Definition sizeof_libspdm_version_response_mine : Z := 16.

Definition message_ct_exponent (m : list Z) : exec Z := load_le 1 m 5.
Definition message_ext_flags (m : list Z) : exec Z := load_le 2 m 6.
Definition message_flags (m : list Z) : exec Z := load_le 4 m 8.
Definition message_data_transfer_size (m : list Z) : exec Z := load_le 4 m 12.
Definition message_max_spdm_msg_size (m : list Z) : exec Z := load_le 4 m 16.

(** The bits of a flags field from [i] on. *)
Definition flag_bit (capabilities_flag i : Z) : Z := Z.land (u8 (Z.shiftr capabilities_flag i)) 0x01.
Definition flag_pair (capabilities_flag i : Z) : Z := Z.land (u8 (Z.shiftr capabilities_flag i)) 0x03.

(** spdm_negotiate_algorithms_common_struct_table_t *)
Record struct_table_t : Set := StructTable {
  alg_type : Z;
  alg_count : Z;
  alg_supported : Z;
}.
#[export] Instance eta_struct_table : Eta struct_table_t := λ r,
  StructTable (alg_type r) (alg_count r) (alg_supported r).

Definition table_bytes (t : struct_table_t) : list Z :=
  [alg_type t; alg_count t] ++ le_bytes 2 (alg_supported t).

(** The algorithm structure tables of an endpoint: one for every type of which it
    supports an algorithm, in the order of the types. *)
Definition local_tables (v : Z) (a : libspdm_device_algorithm_t) : list struct_table_t :=
  let table t supported := if supported =? 0 then [] else [StructTable t 0x20 supported] in
  table SPDM_NEGOTIATE_ALGORITHMS_STRUCT_TABLE_ALG_TYPE_DHE (da_dhe_named_group a)
  ++ table SPDM_NEGOTIATE_ALGORITHMS_STRUCT_TABLE_ALG_TYPE_AEAD (da_aead_cipher_suite a)
  ++ table SPDM_NEGOTIATE_ALGORITHMS_STRUCT_TABLE_ALG_TYPE_REQ_BASE_ASYM_ALG (da_req_base_asym_alg a)
  ++ table SPDM_NEGOTIATE_ALGORITHMS_STRUCT_TABLE_ALG_TYPE_KEY_SCHEDULE (da_key_schedule a)
  ++ (if SPDM_MESSAGE_VERSION_14 <=? v then
        table SPDM_NEGOTIATE_ALGORITHMS_STRUCT_TABLE_ALG_TYPE_REQ_PQC_ASYM_ALG (da_req_pqc_asym_alg a)
        ++ table SPDM_NEGOTIATE_ALGORITHMS_STRUCT_TABLE_ALG_TYPE_KEM_ALG (da_kem_alg a)
      else []).

(** ** The responder *)
Section responder.
Context `{BuildConfig}.
Implicit Types ctx : libspdm_context_t.

(** *** VERSION *)

Definition generate_invalid_version_error ctx (response : list Z) : exec reply :=
  response ← store response 0
    [SPDM_MESSAGE_VERSION_10; SPDM_ERROR; SPDM_ERROR_CODE_VERSION_MISMATCH; 0];
  Ret (Reply LIBSPDM_STATUS_SUCCESS ctx sizeof_spdm_message_header response).

(** The response, and the connection after it. *)
Definition answer_version ctx (v response_size : Z) (response : list Z) : exec reply :=
  LIBSPDM_ASSERT (sizeof_libspdm_version_response_mine <=? response_size);;
  let spdm_version_count := blen (lc_version ctx) in
  let size := sizeof_spdm_version_response + spdm_version_count * sizeof_spdm_version_number in
  response ← store response 0 (zeros size);
  response ← store response 0
    [v; SPDM_VERSION; 0; 0; 0; spdm_version_count];
  response ← copy_mem response sizeof_spdm_version_response
    (SPDM_MAX_VERSION_COUNT * sizeof_spdm_version_number) (concat (le_bytes 2 <$> lc_version ctx));
  message ← load response 0 size;
  '(status, ctx) ← libspdm_append_message_a ctx message;
  if LIBSPDM_STATUS_IS_ERROR status then
    ctx ← libspdm_reset_message_a ctx;
    libspdm_generate_error_response ctx SPDM_ERROR_CODE_UNSPECIFIED 0 size response
  else
    let ctx := libspdm_set_connection_state ctx LIBSPDM_CONNECTION_STATE_AFTER_VERSION in
    Ret (Reply LIBSPDM_STATUS_SUCCESS (ctx <| lc_is_requester := false |>) size response).

Definition libspdm_get_response_version ctx (request_size : Z) (request : list Z)
    (response_size : Z) (response : list Z) : exec reply :=
  let error ctx code := libspdm_generate_error_response ctx code 0 in
  spdm_request ← read_header request;
  LIBSPDM_ASSERT (request_response_code spdm_request =? SPDM_GET_VERSION);;
  TAIL error ctx SPDM_ERROR_CODE_INVALID_REQUEST response_size response
    IF request_size <? sizeof_spdm_message_header;;
  TAIL error ctx SPDM_ERROR_CODE_UNEXPECTED_REQUEST response_size response
    IF last_spdm_request_session_id_valid ctx;;
  TAIL generate_invalid_version_error ctx response
    IF negb (spdm_version spdm_request =? SPDM_MESSAGE_VERSION_10);;
  let ctx := libspdm_set_connection_state ctx LIBSPDM_CONNECTION_STATE_NOT_STARTED in
  let ctx := if bool_decide (response_state (exchange ctx) = LIBSPDM_RESPONSE_STATE_NEED_RESYNC)
             then set_exchange ctx (λ x, x <| response_state := LIBSPDM_RESPONSE_STATE_NORMAL |>)
             else ctx in
  let ctx := libspdm_reset_all_encap_state ctx in
  TAIL libspdm_responder_handle_response_state ctx (request_response_code spdm_request)
         response_size response
    IF bool_decide (response_state (exchange ctx) ≠ LIBSPDM_RESPONSE_STATE_NORMAL);;
  ctx ← libspdm_reset_context ctx;
  message ← load request 0 sizeof_spdm_message_header;
  '(status, ctx) ← libspdm_append_message_a ctx message;
  TAIL error ctx SPDM_ERROR_CODE_UNSPECIFIED response_size response
    IF LIBSPDM_STATUS_IS_ERROR status;;
  answer_version ctx (spdm_version spdm_request) response_size response.

(** *** CAPABILITIES *)

Definition libspdm_check_request_version_compatibility ctx (version : Z) :
    bool * libspdm_context_t :=
  if existsb (λ n, libspdm_get_version_from_version_number n =? version) (lc_version ctx)
  then (true, ctx <| ci_version := u16 (Z.shiftl version SPDM_VERSION_NUMBER_SHIFT_BIT) |>)
  else (false, ctx).

Definition libspdm_check_request_flag_compatibility (capabilities_flag version : Z) : exec bool :=
  let cert_cap := flag_bit capabilities_flag 1 in
  let chal_cap := flag_bit capabilities_flag 2 in
  let encrypt_cap := flag_bit capabilities_flag 6 in
  let mac_cap := flag_bit capabilities_flag 7 in
  let mut_auth_cap := flag_bit capabilities_flag 8 in
  let key_ex_cap := flag_bit capabilities_flag 9 in
  let psk_cap := flag_pair capabilities_flag 10 in
  let encap_cap := flag_bit capabilities_flag 12 in
  let hbeat_cap := flag_bit capabilities_flag 13 in
  let key_upd_cap := flag_bit capabilities_flag 14 in
  let handshake_in_the_clear_cap := flag_bit capabilities_flag 15 in
  let pub_key_id_cap := flag_bit capabilities_flag 16 in
  let ep_info_cap := flag_pair capabilities_flag 22 in
  let event_cap := flag_bit capabilities_flag 25 in
  let multi_key_cap := flag_pair capabilities_flag 26 in
  let v11 := SPDM_MESSAGE_VERSION_11 <=? version in
  let v13 := SPDM_MESSAGE_VERSION_13 <=? version in
  LIBSPDM_ASSERT v11;;
  RETURN false IF v11 && ((psk_cap =? 2) || (psk_cap =? 3));;
  RETURN false IF v11 &&
    (if (key_ex_cap =? 1) || negb (psk_cap =? 0) then (mac_cap =? 0) && (encrypt_cap =? 0)
     else (mac_cap =? 1) || (encrypt_cap =? 1) || (handshake_in_the_clear_cap =? 1)
          || (hbeat_cap =? 1) || (key_upd_cap =? 1) || (v13 && (event_cap =? 1)));;
  RETURN false IF v11 && (key_ex_cap =? 0) && (psk_cap =? 1) && (handshake_in_the_clear_cap =? 1);;
  RETURN false IF v11 &&
    (if (cert_cap =? 1) || (pub_key_id_cap =? 1) then
       (cert_cap =? 1) && (pub_key_id_cap =? 1)
       || (chal_cap =? 0) && (key_ex_cap =? 0)
          && (if v13 then (ep_info_cap =? 0) || (ep_info_cap =? 1) else true)
     else (chal_cap =? 1) || (mut_auth_cap =? 1) || (v13 && (ep_info_cap =? 2)));;
  RETURN false IF v11 && (mut_auth_cap =? 1) && (key_ex_cap =? 0) && (chal_cap =? 0);;
  RETURN false IF (version =? SPDM_MESSAGE_VERSION_11) && (mut_auth_cap =? 1) && (encap_cap =? 0);;
  RETURN false IF v13 && ((ep_info_cap =? 3) || (multi_key_cap =? 3));;
  RETURN false IF v13 && negb (multi_key_cap =? 0) && ((pub_key_id_cap =? 1) || (cert_cap =? 0));;
  Ret true.

(** The size of the request that counts: what follows it is ignored. *)
Definition capabilities_request_size (v : Z) : Z :=
  if SPDM_MESSAGE_VERSION_12 <=? v then sizeof_spdm_capabilities_message
  else if SPDM_MESSAGE_VERSION_11 <=? v then sizeof_spdm_capabilities_message_11
  else sizeof_spdm_message_header.

(** The checks on the fields of the request. *)
Definition check_capabilities_request (v param1_ : Z) (request : list Z) : exec bool :=
  RETURN true IF v <? SPDM_MESSAGE_VERSION_11;;
  flags_ ← message_flags request;
  compatible ← libspdm_check_request_flag_compatibility flags_ v;
  RETURN false IF negb compatible;;
  let chunk := negb (Z.land flags_ SPDM_GET_CAPABILITIES_REQUEST_FLAGS_CHUNK_CAP =? 0) in
  sizes ← (if SPDM_MESSAGE_VERSION_12 <=? v then
             data_transfer_size_ ← message_data_transfer_size request;
             max_spdm_msg_size_ ← message_max_spdm_msg_size request;
             Ret (negb ((data_transfer_size_ <? SPDM_MIN_DATA_TRANSFER_SIZE_VERSION_12)
                        || (max_spdm_msg_size_ <? data_transfer_size_))
                  && (chunk || (data_transfer_size_ =? max_spdm_msg_size_)))
           else Ret true);
  RETURN false IF negb sizes;;
  ct_exponent_ ← message_ct_exponent request;
  RETURN false IF LIBSPDM_MAX_CT_EXPONENT <? ct_exponent_;;
  RETURN false IF (SPDM_MESSAGE_VERSION_13 <=? v)
    && negb (Z.land param1_ SPDM_GET_CAPABILITIES_REQUEST_PARAM1_SUPPORTED_ALGORITHMS =? 0)
    && negb chunk;;
  Ret true.

(** The block with the algorithms the responder supports. *)
Definition supported_algorithms_bytes (v : Z) (a : libspdm_device_algorithm_t) : list Z :=
  let tables := (λ t, t <| alg_supported := u16 (alg_supported t) |>) <$> local_tables v a in
  [blen tables; 0]
  ++ le_bytes 2 (sizeof_spdm_supported_algorithms_block
                 + blen tables * sizeof_spdm_negotiate_algorithms_common_struct_table)
  ++ [da_measurement_spec a; da_other_params_support a]
  ++ le_bytes 4 (da_base_asym_algo a) ++ le_bytes 4 (da_base_hash_algo a)
  ++ le_bytes 4 (if SPDM_MESSAGE_VERSION_14 <=? v then da_pqc_asym_algo a else 0)
  ++ zeros 8 ++ [0; 0; 0; da_mel_spec a] ++ concat (table_bytes <$> tables).

(** The bytes of the response; *response_size is their number.  They are built
    in place, over zeros, and the reserved bytes stay zero. *)
Definition capabilities_response ctx (v : Z) (algorithms : bool) (flags_ : Z) : exec (list Z) :=
  let c := lc_capability ctx in
  ext_flags_ ← (if SPDM_MESSAGE_VERSION_14 <=? v then
                  libspdm_mask_capability_ext_flags (libspdm_get_connection_version ctx) false
                    (ext_flags c)
                else Ret 0);
  Ret ([v; SPDM_CAPABILITIES;
        if algorithms then SPDM_CAPABILITIES_RESPONSE_PARAM1_SUPPORTED_ALGORITHMS else 0; 0; 0;
        ct_exponent c] ++ le_bytes 2 ext_flags_ ++ le_bytes 4 flags_
       ++ (if SPDM_MESSAGE_VERSION_12 <=? v
           then le_bytes 4 (data_transfer_size c) ++ le_bytes 4 (max_spdm_msg_size c) else [])
       ++ (if algorithms then supported_algorithms_bytes v (lc_algorithm ctx) else [])).

(** What the requester can do becomes part of the connection. *)
Definition keep_requester_capabilities ctx (v : Z) (request : list Z) : exec libspdm_context_t :=
  let at_least v' (m : exec Z) := if v' <=? v then m else Ret 0 in
  ct_exponent_ ← at_least SPDM_MESSAGE_VERSION_11 (message_ct_exponent request);
  flags_ ← at_least SPDM_MESSAGE_VERSION_11
    (f ← message_flags request;
     libspdm_mask_capability_flags (libspdm_get_connection_version ctx) true f);
  data_transfer_size_ ← at_least SPDM_MESSAGE_VERSION_12 (message_data_transfer_size request);
  max_spdm_msg_size_ ← at_least SPDM_MESSAGE_VERSION_12 (message_max_spdm_msg_size request);
  ext_flags_ ← at_least SPDM_MESSAGE_VERSION_14
    (f ← message_ext_flags request;
     libspdm_mask_capability_ext_flags (libspdm_get_connection_version ctx) true f);
  Ret (ctx <| ci_capability := (ci_capability ctx)
                <| ct_exponent := ct_exponent_ |> <| flags := flags_ |>
                <| data_transfer_size := data_transfer_size_ |>
                <| max_spdm_msg_size := max_spdm_msg_size_ |> <| ext_flags := ext_flags_ |> |>).

(** The response to a valid request, and the connection after it. *)
Definition answer_capabilities ctx (spdm_request : spdm_message_header_t) (request : list Z)
    (response_size : Z) (response : list Z) : exec reply :=
  let v := spdm_version spdm_request in
  let ctx := libspdm_reset_message_buffer_via_request_code ctx None
               (request_response_code spdm_request) in
  response_flags ← libspdm_mask_capability_flags (libspdm_get_connection_version ctx) false
                     (flags (lc_capability ctx));
  request_flags ← (if SPDM_MESSAGE_VERSION_13 <=? v then message_flags request else Ret 0);
  let supported_algs_requested :=
    (SPDM_MESSAGE_VERSION_13 <=? v)
    && negb (Z.land (param1 spdm_request)
               SPDM_GET_CAPABILITIES_REQUEST_PARAM1_SUPPORTED_ALGORITHMS =? 0)
    && negb (Z.land request_flags SPDM_GET_CAPABILITIES_REQUEST_FLAGS_CHUNK_CAP =? 0)
    && negb (Z.land response_flags SPDM_GET_CAPABILITIES_RESPONSE_FLAGS_CHUNK_CAP =? 0) in
  spdm_response ← capabilities_response ctx v supported_algs_requested response_flags;
  let size := blen spdm_response in
  LIBSPDM_ASSERT (size <=? response_size);;
  response ← store response 0 spdm_response;
  message ← load request 0 (capabilities_request_size v);
  '(status, ctx) ← append_exchange ctx message spdm_response;
  TAIL libspdm_generate_error_response ctx SPDM_ERROR_CODE_UNSPECIFIED 0 size response
    IF LIBSPDM_STATUS_IS_ERROR status;;
  ctx ← keep_requester_capabilities ctx v request;
  Ret (Reply LIBSPDM_STATUS_SUCCESS
         (libspdm_set_connection_state ctx LIBSPDM_CONNECTION_STATE_AFTER_CAPABILITIES) size response).

Definition libspdm_get_response_capabilities ctx (request_size : Z) (request : list Z)
    (response_size : Z) (response : list Z) : exec reply :=
  let error ctx code := libspdm_generate_error_response ctx code 0 in
  spdm_request ← read_header request;
  LIBSPDM_ASSERT (request_response_code spdm_request =? SPDM_GET_CAPABILITIES);;
  TAIL libspdm_responder_handle_response_state ctx (request_response_code spdm_request)
         response_size response
    IF bool_decide (response_state (exchange ctx) ≠ LIBSPDM_RESPONSE_STATE_NORMAL);;
  TAIL error ctx SPDM_ERROR_CODE_UNEXPECTED_REQUEST response_size response
    IF bool_decide (connection_state (exchange ctx) ≠ LIBSPDM_CONNECTION_STATE_AFTER_VERSION);;
  let v := spdm_version spdm_request in
  let '(compatible, ctx) := libspdm_check_request_version_compatibility ctx v in
  TAIL error ctx SPDM_ERROR_CODE_VERSION_MISMATCH response_size response IF negb compatible;;
  TAIL error ctx SPDM_ERROR_CODE_INVALID_REQUEST response_size response
    IF request_size <? capabilities_request_size v;;
  valid ← check_capabilities_request v (param1 spdm_request) request;
  TAIL error ctx SPDM_ERROR_CODE_INVALID_REQUEST response_size response IF negb valid;;
  answer_capabilities ctx spdm_request request response_size response.

End responder.

(** ** The requester *)
Section requester.
Context `{BuildConfig, CryptoHal} {channel : RequesterChannel}.
Implicit Types ctx : libspdm_context_t.
Implicit Types w : world.

(** What building a request gives: the request, or the status of a failure. *)
Definition build_request : Type :=
  libspdm_context_t → exec (libspdm_context_t * (list Z + libspdm_return_t)).

(** What is done with the response: a status, and what the function hands to its
    caller. *)
Definition process_response (A : Type) : Type :=
  libspdm_context_t → list Z → exec (libspdm_return_t * libspdm_context_t * A).

(** The frame of the functions: a request is built in the sender buffer and sent
    outside of a session, and the response is processed in the receiver buffer. *)
Definition exchange_message {A} (build : build_request) (process : process_response A) (out : A)
    ctx w : exec (exchanged * A) :=
  let '(rng, d) := w in
  let '(status, d) := libspdm_acquire_sender_buffer d in
  RETURN (Exchanged status ctx (rng, d), out) IF is_error status;;
  '(ctx, request) ← build ctx;
  match request with
  | inr status => Ret (Exchanged status ctx (rng, libspdm_release_sender_buffer d), out)
  | inl request =>
      '(status, ctx, (rng, d)) ← libspdm_send_spdm_request ctx None request (rng, d);
      let d := libspdm_release_sender_buffer d in
      RETURN (Exchanged status ctx (rng, d), out) IF is_error status;;
      let '(status, _, d) := libspdm_acquire_receiver_buffer d in
      RETURN (Exchanged status ctx (rng, d), out) IF is_error status;;
      '(status, ctx, response, (rng, d)) ← libspdm_receive_spdm_response ctx None (rng, d);
      '(status, ctx, out) ← (if is_error status then Ret (status, ctx, out)
                             else process ctx response);
      Ret (Exchanged status ctx (rng, libspdm_release_receiver_buffer d), out)
  end.

(** The do-while loops of the functions: [retry] more attempts are made while the
    peer is busy. *)
Fixpoint retry_exchange {A} (try : A → libspdm_context_t → world → exec (exchanged * A)) (out : A)
    ctx (retry : nat) w : exec (exchanged * A) :=
  '(r, out) ← try out ctx w;
  RETURN (r, out) IF bool_decide (ex_status r ≠ LIBSPDM_STATUS_BUSY_PEER);;
  match retry with
  | O => Ret (r, out)
  | S retry => retry_exchange try out (ex_ctx r) retry (ex_world r)
  end.

(** crypto_request is cleared before the first attempt. *)
Definition with_retries {A} (try : A → libspdm_context_t → world → exec (exchanged * A)) (out : A)
    ctx w : exec (exchanged * A) :=
  let ctx := set_exchange ctx (λ x, x <| crypto_request := false |>) in
  retry_exchange try out ctx (Z.to_nat (retry_times (exchange ctx))) w.

(** The code of a response: that of an ERROR, the expected one, or an invalid one. *)
Definition check_response_code ctx (h : spdm_message_header_t) (expected : Z) :
    exec (libspdm_return_t * libspdm_context_t) :=
  if request_response_code h =? SPDM_ERROR then
    libspdm_handle_simple_error_response ctx (param1 h)
  else Ret (if request_response_code h =? expected then LIBSPDM_STATUS_SUCCESS
            else LIBSPDM_STATUS_INVALID_MSG_FIELD, ctx).

(** *** GET_VERSION *)

(** *version_number_entry_count and the array of the caller, or NULL. *)
Definition version_out : Type := option (Z * list Z).

Definition build_get_version : build_request := λ ctx,
  LIBSPDM_ASSERT (sizeof_spdm_message_header <=? max_spdm_msg_size (lc_capability ctx));;
  Ret (ctx, inl [SPDM_MESSAGE_VERSION_10; SPDM_GET_VERSION; 0; 0]).

(** The [n] entries of a VERSION response from [off] on. *)
Fixpoint read_versions (response : list Z) (off : Z) (n : nat) : exec (list Z) :=
  match n with
  | O => Ret []
  | S n =>
      v ← load_le 2 response off;
      l ← read_versions response (off + sizeof_spdm_version_number) n;
      Ret (v :: l)
  end.

(** The caller receives the versions, sorted, when they fit. *)
Definition put_versions (out : version_out) (versions : list Z) : bool * version_out :=
  match out with
  | None => (true, None)
  | Some (count, entries) =>
      if count <? blen versions then (false, Some (blen versions, entries))
      else
        let entries := versions ++ drop (length versions) entries in
        (true, Some (blen versions, libspdm_version_number_sort entries (length versions)))
  end.

(** The version of the connection is chosen. *)
Definition keep_version (out : version_out) ctx (versions : list Z) :
    exec (libspdm_return_t * libspdm_context_t * version_out) :=
  match libspdm_negotiate_connection_version (lc_version ctx) versions with
  | None =>
      ctx ← libspdm_reset_message_a ctx;
      Ret (LIBSPDM_STATUS_NEGOTIATION_FAIL, ctx, out)
  | Some common_version =>
      let ctx := ctx <| ci_version := common_version |> in
      let '(fits, out) := put_versions out versions in
      if fits then
        let ctx := set_exchange ctx (λ x,
          x <| connection_state := LIBSPDM_CONNECTION_STATE_AFTER_VERSION |>) in
        Ret (LIBSPDM_STATUS_SUCCESS, ctx <| lc_is_requester := true |>, out)
      else
        ctx ← libspdm_reset_message_a ctx;
        Ret (LIBSPDM_STATUS_BUFFER_TOO_SMALL, ctx, out)
  end.

Definition process_version (out : version_out) : process_response version_out := λ ctx response,
  let fail st := (st, ctx, out) in
  RETURN fail LIBSPDM_STATUS_INVALID_MSG_SIZE IF blen response <? sizeof_spdm_message_header;;
  h ← read_header response;
  RETURN fail LIBSPDM_STATUS_INVALID_MSG_FIELD
    IF negb (spdm_version h =? SPDM_MESSAGE_VERSION_10);;
  RETURN fail LIBSPDM_STATUS_ERROR_PEER
    IF (request_response_code h =? SPDM_ERROR)
       && (param1 h =? SPDM_ERROR_CODE_RESPONSE_NOT_READY);;
  '(status, ctx) ← check_response_code ctx h SPDM_VERSION;
  let fail st := (st, ctx, out) in
  RETURN fail status IF is_error status;;
  RETURN fail LIBSPDM_STATUS_INVALID_MSG_SIZE IF blen response <? sizeof_spdm_version_response;;
  count ← load_le 1 response 5;
  RETURN fail LIBSPDM_STATUS_INVALID_MSG_FIELD IF Z.of_nat LIBSPDM_MAX_VERSION_COUNT <? count;;
  RETURN fail LIBSPDM_STATUS_INVALID_MSG_FIELD IF count =? 0;;
  let size := sizeof_spdm_version_response + count * sizeof_spdm_version_number in
  RETURN fail LIBSPDM_STATUS_INVALID_MSG_SIZE IF blen response <? size;;
  request ← load (last_spdm_request (exchange ctx)) 0 sizeof_spdm_message_header;
  message ← load response 0 size;
  '(status, ctx) ← libspdm_append_message_a ctx request;
  RETURN (status, ctx, out) IF is_error status;;
  '(status, ctx) ← libspdm_append_message_a ctx message;
  if is_error status then
    ctx ← libspdm_reset_message_a ctx;
    Ret (status, ctx, out)
  else
    versions ← read_versions response sizeof_spdm_version_response (Z.to_nat count);
    keep_version out ctx versions.

Definition libspdm_try_get_version (out : version_out) ctx w : exec (exchanged * version_out) :=
  ctx ← libspdm_reset_context ctx;
  exchange_message build_get_version (process_version out) out ctx w.

Definition libspdm_get_version (out : version_out) ctx w : exec (exchanged * version_out) :=
  with_retries libspdm_try_get_version out ctx w.

(** *** GET_CAPABILITIES *)

Definition validate_responder_capability (capabilities_flag version : Z) : bool :=
  let cert_cap := flag_bit capabilities_flag 1 in
  let chal_cap := flag_bit capabilities_flag 2 in
  let meas_cap := flag_pair capabilities_flag 3 in
  let meas_fresh_cap := flag_bit capabilities_flag 5 in
  let encrypt_cap := flag_bit capabilities_flag 6 in
  let mac_cap := flag_bit capabilities_flag 7 in
  let mut_auth_cap := flag_bit capabilities_flag 8 in
  let key_ex_cap := flag_bit capabilities_flag 9 in
  let psk_cap := flag_pair capabilities_flag 10 in
  let encap_cap := flag_bit capabilities_flag 12 in
  let hbeat_cap := flag_bit capabilities_flag 13 in
  let key_upd_cap := flag_bit capabilities_flag 14 in
  let handshake_in_the_clear_cap := flag_bit capabilities_flag 15 in
  let pub_key_id_cap := flag_bit capabilities_flag 16 in
  let alias_cert_cap := flag_bit capabilities_flag 18 in
  let set_cert_cap := flag_bit capabilities_flag 19 in
  let csr_cap := flag_bit capabilities_flag 20 in
  let cert_install_reset_cap := flag_bit capabilities_flag 21 in
  let ep_info_cap := flag_pair capabilities_flag 22 in
  let event_cap := flag_bit capabilities_flag 25 in
  let multi_key_cap := flag_pair capabilities_flag 26 in
  let get_key_pair_info_cap := flag_bit capabilities_flag 28 in
  let set_key_pair_info_cap := flag_bit capabilities_flag 29 in
  let set_key_pair_reset_cap := flag_bit capabilities_flag 30 in
  let v13 := SPDM_MESSAGE_VERSION_13 <=? version in
  if meas_cap =? 3 then false
  else if (meas_cap =? 0) && (meas_fresh_cap =? 1) then false
  else if version =? SPDM_MESSAGE_VERSION_10 then
    negb (if (meas_cap =? 0) || (meas_cap =? 1) then negb (cert_cap =? chal_cap)
          else (meas_cap =? 2) && (cert_cap =? 0))
  else
    negb (
      (SPDM_MESSAGE_VERSION_11 <=? version) &&
      ((psk_cap =? 3)
       || (if (key_ex_cap =? 1) || negb (psk_cap =? 0) then (mac_cap =? 0) && (encrypt_cap =? 0)
           else (mac_cap =? 1) || (encrypt_cap =? 1) || (handshake_in_the_clear_cap =? 1)
                || (hbeat_cap =? 1) || (key_upd_cap =? 1) || (v13 && (event_cap =? 1)))
       || (key_ex_cap =? 0) && negb (psk_cap =? 0) && (handshake_in_the_clear_cap =? 1)
       || (if (cert_cap =? 1) || (pub_key_id_cap =? 1) then
             (cert_cap =? 1) && (pub_key_id_cap =? 1)
             || (chal_cap =? 0) && (key_ex_cap =? 0) && ((meas_cap =? 0) || (meas_cap =? 1))
                && (if v13 then (ep_info_cap =? 0) || (ep_info_cap =? 1) else true)
           else (chal_cap =? 1) || (key_ex_cap =? 1) || (meas_cap =? 2) || (mut_auth_cap =? 1)
                || (v13 && (ep_info_cap =? 2)))
       || (mut_auth_cap =? 1) && (key_ex_cap =? 0) && (chal_cap =? 0))
      || (version =? SPDM_MESSAGE_VERSION_11) && (mut_auth_cap =? 1) && (encap_cap =? 0)
      || (SPDM_MESSAGE_VERSION_12 <=? version) &&
         ((cert_cap =? 0) && ((alias_cert_cap =? 1) || (set_cert_cap =? 1))
          || (csr_cap =? 1) && (set_cert_cap =? 0)
          || (cert_install_reset_cap =? 1) && (csr_cap =? 0) && (set_cert_cap =? 0))
      || v13 &&
         ((ep_info_cap =? 3) || (multi_key_cap =? 3)
          || negb (multi_key_cap =? 0) && ((get_key_pair_info_cap =? 0) || (cert_cap =? 0))
          || (pub_key_id_cap =? 1)
             && (negb (multi_key_cap =? 0) || (get_key_pair_info_cap =? 1)
                 || (set_key_pair_info_cap =? 1)))
      || (SPDM_MESSAGE_VERSION_14 <=? version)
         && (set_key_pair_reset_cap =? 1) && (set_key_pair_info_cap =? 0)).

(** *supported_algs_length and the buffer of the caller, or NULL. *)
Definition algs_out : Type := (option Z * option (list Z))%type.

Definition build_get_capabilities (supported_algs : bool) : build_request := λ ctx,
  let c := lc_capability ctx in
  let v := libspdm_get_connection_version ctx in
  LIBSPDM_ASSERT (capabilities_request_size v <=? max_spdm_msg_size c);;
  flags_ ← (if SPDM_MESSAGE_VERSION_11 <=? v then libspdm_mask_capability_flags v true (flags c)
            else Ret 0);
  (if supported_algs then
     LIBSPDM_ASSERT ((SPDM_MESSAGE_VERSION_13 <=? v)
       && negb (Z.land flags_ SPDM_GET_CAPABILITIES_REQUEST_FLAGS_CHUNK_CAP =? 0))
   else Ret tt);;
  ext_flags_ ← (if SPDM_MESSAGE_VERSION_14 <=? v
                then libspdm_mask_capability_ext_flags v true (ext_flags c) else Ret 0);
  Ret (ctx, inl (
    [v; SPDM_GET_CAPABILITIES;
     if supported_algs then SPDM_GET_CAPABILITIES_REQUEST_PARAM1_SUPPORTED_ALGORITHMS else 0; 0]
    ++ (if SPDM_MESSAGE_VERSION_11 <=? v
        then [0; ct_exponent c] ++ le_bytes 2 ext_flags_ ++ le_bytes 4 flags_ else [])
    ++ (if SPDM_MESSAGE_VERSION_12 <=? v
        then le_bytes 4 (data_transfer_size c) ++ le_bytes 4 (max_spdm_msg_size c) else []))).

(** The block with the algorithms: its length, which its counts must give. *)
Definition check_algorithms_block (response : list Z) : exec (Z + libspdm_return_t) :=
  let off := sizeof_spdm_capabilities_message in
  RETURN inr LIBSPDM_STATUS_INVALID_MSG_SIZE
    IF blen response <? off + sizeof_spdm_supported_algorithms_block;;
  length_ ← load_le 2 response (off + 2);
  RETURN inr LIBSPDM_STATUS_INVALID_MSG_FIELD IF length_ <? sizeof_spdm_supported_algorithms_block;;
  RETURN inr LIBSPDM_STATUS_INVALID_MSG_FIELD IF blen response - off <? length_;;
  ext_asym_count ← load_le 1 response (off + 26);
  ext_hash_count ← load_le 1 response (off + 27);
  param1_ ← load_le 1 response off;
  let expected_block_length :=
    sizeof_spdm_supported_algorithms_block + ext_asym_count * sizeof_spdm_extended_algorithm
    + ext_hash_count * sizeof_spdm_extended_algorithm
    + param1_ * sizeof_spdm_negotiate_algorithms_common_struct_table in
  RETURN inr LIBSPDM_STATUS_INVALID_MSG_FIELD IF negb (length_ =? expected_block_length);;
  Ret (inl length_).

(** The checks on the fields of the response. *)
Definition check_capabilities_response (v : Z) (response : list Z) : exec bool :=
  flags_ ← message_flags response;
  RETURN false IF negb (validate_responder_capability flags_ v);;
  sizes ← (if SPDM_MESSAGE_VERSION_12 <=? v then
             data_transfer_size_ ← message_data_transfer_size response;
             max_spdm_msg_size_ ← message_max_spdm_msg_size response;
             Ret (negb ((data_transfer_size_ <? SPDM_MIN_DATA_TRANSFER_SIZE_VERSION_12)
                        || (max_spdm_msg_size_ <? data_transfer_size_))
                  && (negb (Z.land flags_ SPDM_GET_CAPABILITIES_RESPONSE_FLAGS_CHUNK_CAP =? 0)
                      || (data_transfer_size_ =? max_spdm_msg_size_)))
           else Ret true);
  RETURN false IF negb sizes;;
  ct_exponent_ ← message_ct_exponent response;
  Ret (ct_exponent_ <=? LIBSPDM_MAX_CT_EXPONENT).

(** What the responder can do becomes part of the connection. *)
Definition keep_responder_capabilities ctx (v : Z) (response : list Z) : exec libspdm_context_t :=
  let at_least v' (m : exec Z) := if v' <=? v then m else Ret 0 in
  ct_exponent_ ← message_ct_exponent response;
  f ← message_flags response;
  flags_ ← libspdm_mask_capability_flags (libspdm_get_connection_version ctx) false f;
  ext_flags_ ← at_least SPDM_MESSAGE_VERSION_14
    (f ← message_ext_flags response;
     libspdm_mask_capability_ext_flags (libspdm_get_connection_version ctx) false f);
  data_transfer_size_ ← at_least SPDM_MESSAGE_VERSION_12 (message_data_transfer_size response);
  max_spdm_msg_size_ ← at_least SPDM_MESSAGE_VERSION_12 (message_max_spdm_msg_size response);
  Ret (ctx <| ci_capability := (ci_capability ctx)
                <| ct_exponent := ct_exponent_ |> <| flags := flags_ |>
                <| ext_flags := ext_flags_ |> <| data_transfer_size := data_transfer_size_ |>
                <| max_spdm_msg_size := max_spdm_msg_size_ |> |>).

(** The caller receives the block, when there is one and it fits. *)
Definition put_algorithms (out : algs_out) (block : option (list Z)) : exec (bool * algs_out) :=
  match out, block with
  | (Some n, Some b), Some block =>
      if blen block <=? n then
        b ← copy_mem b 0 n block;
        Ret (true, (Some (blen block), Some b))
      else Ret (false, (Some (blen block), Some b))
  | (Some _, b), _ => Ret (true, (Some 0, b))
  | _, _ => Ret (true, out)
  end.

Definition process_capabilities (out : algs_out) : process_response algs_out := λ ctx response,
  let fail st := (st, ctx, out) in
  RETURN fail LIBSPDM_STATUS_INVALID_MSG_SIZE IF blen response <? sizeof_spdm_message_header;;
  h ← read_header response;
  '(status, ctx) ← check_response_code ctx h SPDM_CAPABILITIES;
  let fail st := (st, ctx, out) in
  RETURN fail status IF is_error status;;
  spdm_request ← read_header (last_spdm_request (exchange ctx));
  let v := spdm_version h in
  RETURN fail LIBSPDM_STATUS_INVALID_MSG_FIELD IF negb (v =? spdm_version spdm_request);;
  let base := if SPDM_MESSAGE_VERSION_12 <=? v then sizeof_spdm_capabilities_message
              else sizeof_spdm_capabilities_message_11 in
  RETURN fail LIBSPDM_STATUS_INVALID_MSG_SIZE IF blen response <? base;;
  let requested := (SPDM_MESSAGE_VERSION_13 <=? v)
    && negb (Z.land (param1 spdm_request)
               SPDM_GET_CAPABILITIES_REQUEST_PARAM1_SUPPORTED_ALGORITHMS =? 0) in
  let has_block := requested
    && negb (Z.land (param1 h) SPDM_CAPABILITIES_RESPONSE_PARAM1_SUPPORTED_ALGORITHMS =? 0) in
  block ← (if has_block then check_algorithms_block response else Ret (inl 0));
  match block with
  | inr status => Ret (fail status)
  | inl block_size =>
      let size := base + block_size in
      valid ← check_capabilities_response v response;
      RETURN fail LIBSPDM_STATUS_INVALID_MSG_FIELD IF negb valid;;
      request ← load (last_spdm_request (exchange ctx)) 0 (capabilities_request_size v);
      message ← load response 0 size;
      '(status, ctx) ← append_exchange ctx request message;
      RETURN (status, ctx, out) IF is_error status;;
      ctx ← keep_responder_capabilities ctx v response;
      algorithms ← (if has_block then
                      b ← load response sizeof_spdm_capabilities_message block_size; Ret (Some b)
                    else Ret None);
      '(fits, out) ← put_algorithms out algorithms;
      RETURN (LIBSPDM_STATUS_BUFFER_TOO_SMALL, ctx, out) IF negb fits;;
      let ctx := set_exchange ctx (λ x,
        x <| connection_state := LIBSPDM_CONNECTION_STATE_AFTER_CAPABILITIES |>) in
      Ret (LIBSPDM_STATUS_SUCCESS, ctx, out)
  end.

Definition libspdm_try_get_capabilities (out : algs_out) ctx w : exec (exchanged * algs_out) :=
  RETURN (Exchanged LIBSPDM_STATUS_INVALID_STATE_LOCAL ctx w, out)
    IF bool_decide (connection_state (exchange ctx) ≠ LIBSPDM_CONNECTION_STATE_AFTER_VERSION);;
  let ctx := libspdm_reset_message_buffer_via_request_code ctx None SPDM_GET_CAPABILITIES in
  exchange_message (build_get_capabilities (bool_decide (is_Some out.2)))
    (process_capabilities out) out ctx w.

Definition libspdm_get_capabilities ctx w : exec exchanged :=
  '(r, _) ← with_retries libspdm_try_get_capabilities (None, None) ctx w;
  Ret r.

Definition libspdm_get_capabilities_with_supported_algs (out : algs_out) ctx w :
    exec (exchanged * algs_out) :=
  LIBSPDM_ASSERT (bool_decide (out.2 = None) || bool_decide (is_Some out.1));;
  with_retries libspdm_try_get_capabilities out ctx w.

End requester.

End Connection.
Export Connection.
