(* ===== verification/Algorithms.v ===== *)
(** * Algorithms: NEGOTIATE_ALGORITHMS and the set-up of a connection

    The responder chooses one algorithm of every kind that both endpoints support
    (libspdm_rsp_algorithms.c), and the requester checks the choice
    (libspdm_req_negotiate_algorithms.c); libspdm_init_connection runs the three
    exchanges of the set-up (libspdm_req_communication.c). *)

From S2P Require Import Prelude SpdmDefs CommonSupport CryptLib SecuredContext SecuredSession.
From S2P Require Import SpdmContext SessionTable Version Messages KeyUpdate Connection.

Module Algorithms.

(** ** Messages *)

Definition sizeof_spdm_negotiate_algorithms_request : Z := 32.
Definition sizeof_spdm_algorithms_response : Z := 36.
Definition sizeof_libspdm_algorithms_response_mine : Z := 60.

Definition libspdm_onehot0 (mask : Z) : bool := (mask =? 0) || (Z.land mask (u32 (mask - 1)) =? 0).

(** The number of external algorithms of a table. *)
Definition ext_alg_count (t : struct_table_t) : Z := Z.land (alg_count t) 0xF.

(** The bytes of a table with its external algorithms. *)
Definition table_size (t : struct_table_t) : Z :=
  sizeof_spdm_negotiate_algorithms_common_struct_table + 4 * ext_alg_count t.

(** One table of a message of [size] bytes at [off], where [pre] is the type of the table before
    it and [selection] the further checks on it. *)
Definition read_table (v : Z) (selection : struct_table_t → bool) (m : list Z) (size off : Z)
    (pre : option Z) : exec (struct_table_t + libspdm_return_t) :=
  RETURN inr LIBSPDM_STATUS_INVALID_MSG_SIZE IF size <? off;;
  RETURN inr LIBSPDM_STATUS_INVALID_MSG_SIZE
    IF size - off <? sizeof_spdm_negotiate_algorithms_common_struct_table;;
  type ← load_le 1 m off;
  RETURN inr LIBSPDM_STATUS_INVALID_MSG_FIELD
    IF (type <? SPDM_NEGOTIATE_ALGORITHMS_STRUCT_TABLE_ALG_TYPE_DHE)
       || (SPDM_NEGOTIATE_ALGORITHMS_STRUCT_TABLE_ALG_TYPE_KEM_ALG <? type);;
  RETURN inr LIBSPDM_STATUS_INVALID_MSG_FIELD
    IF (v <? SPDM_MESSAGE_VERSION_14)
       && (SPDM_NEGOTIATE_ALGORITHMS_STRUCT_TABLE_ALG_TYPE_KEY_SCHEDULE <? type);;
  RETURN inr LIBSPDM_STATUS_INVALID_MSG_FIELD
    IF match pre with Some pre => type <=? pre | None => false end;;
  count ← load_le 1 m (off + 1);
  RETURN inr LIBSPDM_STATUS_INVALID_MSG_FIELD IF negb (Z.land (Z.shiftr count 4) 0xF =? 2);;
  supported ← load_le 2 m (off + 2);
  let t := StructTable type count supported in
  RETURN inr LIBSPDM_STATUS_INVALID_MSG_FIELD IF negb (selection t);;
  RETURN inr LIBSPDM_STATUS_INVALID_MSG_SIZE
    IF size - off - sizeof_spdm_negotiate_algorithms_common_struct_table <? 4 * ext_alg_count t;;
  Ret (inl t).

(** The [n] tables from [off] on, and where they end. *)
Fixpoint read_tables (v : Z) (selection : struct_table_t → bool) (m : list Z) (size off : Z)
    (pre : option Z) (n : nat) : exec (list struct_table_t * Z + libspdm_return_t) :=
  match n with
  | O => Ret (inl ([], off))
  | S n =>
      t ← read_table v selection m size off pre;
      match t with
      | inr st => Ret (inr st)
      | inl t =>
          l ← read_tables v selection m size (off + table_size t) (Some (alg_type t)) n;
          match l with
          | inr st => Ret (inr st)
          | inl (l, off) => Ret (inl (t :: l, off))
          end
      end
  end.

(** The fields of a message that offers or selects algorithms, other than those
    of its tables. *)
Definition message_length (m : list Z) : exec Z := load_le 2 m 4.
Definition message_measurement_specification (m : list Z) : exec Z := load_le 1 m 6.
Definition message_other_params (m : list Z) : exec Z := load_le 1 m 7.
Definition message_mel_specification (m : list Z) : exec Z := load_le 1 m 31.
Definition request_base_asym_algo (m : list Z) : exec Z := load_le 4 m 8.
Definition request_base_hash_algo (m : list Z) : exec Z := load_le 4 m 12.
Definition request_pqc_asym_algo (m : list Z) : exec Z := load_le 4 m 16.
Definition request_ext_asym_count (m : list Z) : exec Z := load_le 1 m 28.
Definition request_ext_hash_count (m : list Z) : exec Z := load_le 1 m 29.

(** What an ALGORITHMS response selects. *)
Record selection_t : Set := Selection {
  measurement_specification_sel : Z;
  other_params_selection : Z;
  measurement_hash_algo : Z;
  base_asym_sel : Z;
  base_hash_sel : Z;
  pqc_asym_sel : Z;
  mel_specification_sel : Z;
  struct_table : list struct_table_t;
}.
#[export] Instance eta_selection : Eta selection_t := λ r,
  Selection (measurement_specification_sel r) (other_params_selection r)
    (measurement_hash_algo r) (base_asym_sel r) (base_hash_sel r) (pqc_asym_sel r)
    (mel_specification_sel r) (struct_table r).

Definition zero_table : struct_table_t := StructTable 0 0 0.

Definition zero_selection : selection_t := Selection 0 0 0 0 0 0 0 [].

(** An algorithm of the kind of a table becomes part of the connection. *)
Definition set_algorithm (a : libspdm_device_algorithm_t) (t : struct_table_t) :
    option libspdm_device_algorithm_t :=
  let s := alg_supported t in
  if alg_type t =? SPDM_NEGOTIATE_ALGORITHMS_STRUCT_TABLE_ALG_TYPE_DHE
  then Some (a <| da_dhe_named_group := s |>)
  else if alg_type t =? SPDM_NEGOTIATE_ALGORITHMS_STRUCT_TABLE_ALG_TYPE_AEAD
  then Some (a <| da_aead_cipher_suite := s |>)
  else if alg_type t =? SPDM_NEGOTIATE_ALGORITHMS_STRUCT_TABLE_ALG_TYPE_REQ_BASE_ASYM_ALG
  then Some (a <| da_req_base_asym_alg := s |>)
  else if alg_type t =? SPDM_NEGOTIATE_ALGORITHMS_STRUCT_TABLE_ALG_TYPE_KEY_SCHEDULE
  then Some (a <| da_key_schedule := s |>)
  else if alg_type t =? SPDM_NEGOTIATE_ALGORITHMS_STRUCT_TABLE_ALG_TYPE_REQ_PQC_ASYM_ALG
  then Some (a <| da_req_pqc_asym_alg := s |>)
  else if alg_type t =? SPDM_NEGOTIATE_ALGORITHMS_STRUCT_TABLE_ALG_TYPE_KEM_ALG
  then Some (a <| da_kem_alg := s |>)
  else None.

Definition set_algorithms (a : libspdm_device_algorithm_t) (l : list struct_table_t) :
    libspdm_device_algorithm_t :=
  foldl (λ a t, default a (set_algorithm a t)) a l.

(** Before version 1.1 there are no tables. *)
Definition clear_table_algorithms (a : libspdm_device_algorithm_t) : libspdm_device_algorithm_t :=
  a <| da_dhe_named_group := 0 |> <| da_aead_cipher_suite := 0 |> <| da_req_base_asym_alg := 0 |>
    <| da_key_schedule := 0 |> <| da_other_params_support := 0 |> <| da_req_pqc_asym_alg := 0 |>
    <| da_kem_alg := 0 |>.

(** What the capabilities of the two endpoints make necessary. *)
Section needs.
Implicit Types ctx : libspdm_context_t.

Definition needs_signature ctx (is_requester : bool) : bool :=
  let supported := libspdm_is_capabilities_flag_supported ctx is_requester in
  supported 0 SPDM_GET_CAPABILITIES_RESPONSE_FLAGS_CERT_CAP
  || supported 0 SPDM_GET_CAPABILITIES_RESPONSE_FLAGS_CHAL_CAP
  || supported 0 SPDM_GET_CAPABILITIES_RESPONSE_FLAGS_MEAS_CAP_SIG
  || supported 0 SPDM_GET_CAPABILITIES_RESPONSE_FLAGS_EP_INFO_CAP_SIG
  || supported SPDM_GET_CAPABILITIES_REQUEST_FLAGS_KEY_EX_CAP
       SPDM_GET_CAPABILITIES_RESPONSE_FLAGS_KEY_EX_CAP.

Definition needs_key_exchange ctx (is_requester : bool) : bool :=
  libspdm_is_capabilities_flag_supported ctx is_requester
    SPDM_GET_CAPABILITIES_REQUEST_FLAGS_KEY_EX_CAP SPDM_GET_CAPABILITIES_RESPONSE_FLAGS_KEY_EX_CAP.

Definition needs_psk ctx (is_requester : bool) : bool :=
  libspdm_is_capabilities_flag_supported ctx is_requester
    SPDM_GET_CAPABILITIES_REQUEST_FLAGS_PSK_CAP SPDM_GET_CAPABILITIES_RESPONSE_FLAGS_PSK_CAP.

Definition needs_aead ctx (is_requester : bool) : bool :=
  let supported := libspdm_is_capabilities_flag_supported ctx is_requester in
  supported SPDM_GET_CAPABILITIES_REQUEST_FLAGS_ENCRYPT_CAP
    SPDM_GET_CAPABILITIES_RESPONSE_FLAGS_ENCRYPT_CAP
  || supported SPDM_GET_CAPABILITIES_REQUEST_FLAGS_MAC_CAP
       SPDM_GET_CAPABILITIES_RESPONSE_FLAGS_MAC_CAP.

Definition needs_requester_signature ctx (is_requester : bool) : bool :=
  let supported := libspdm_is_capabilities_flag_supported ctx is_requester in
  supported SPDM_GET_CAPABILITIES_REQUEST_FLAGS_MUT_AUTH_CAP
    SPDM_GET_CAPABILITIES_RESPONSE_FLAGS_MUT_AUTH_CAP
  || supported SPDM_GET_CAPABILITIES_REQUEST_FLAGS_EP_INFO_CAP_SIG 0.

End needs.

(** A traditional and a post-quantum algorithm, by the sizes of their results:
    exactly one is chosen. *)
Definition exactly_one (algo_size pqc_algo_size : Z) : bool :=
  negb (((algo_size =? 0) && (pqc_algo_size =? 0))
        || (negb (algo_size =? 0) && negb (pqc_algo_size =? 0))).

(** ** The responder *)

(** The priorities of the default build, which supports every algorithm. *)
Definition hash_priority_table : list Z :=
  [SPDM_ALGORITHMS_BASE_HASH_ALGO_TPM_ALG_SHA_512;
   SPDM_ALGORITHMS_BASE_HASH_ALGO_TPM_ALG_SHA_384;
   SPDM_ALGORITHMS_BASE_HASH_ALGO_TPM_ALG_SHA_256;
   SPDM_ALGORITHMS_BASE_HASH_ALGO_TPM_ALG_SHA3_512;
   SPDM_ALGORITHMS_BASE_HASH_ALGO_TPM_ALG_SHA3_384;
   SPDM_ALGORITHMS_BASE_HASH_ALGO_TPM_ALG_SHA3_256;
   SPDM_ALGORITHMS_BASE_HASH_ALGO_TPM_ALG_SM3_256; 0].

Definition asym_priority_table : list Z :=
  [SPDM_ALGORITHMS_BASE_ASYM_ALGO_TPM_ALG_ECDSA_ECC_NIST_P521;
   SPDM_ALGORITHMS_BASE_ASYM_ALGO_TPM_ALG_ECDSA_ECC_NIST_P384;
   SPDM_ALGORITHMS_BASE_ASYM_ALGO_TPM_ALG_ECDSA_ECC_NIST_P256;
   SPDM_ALGORITHMS_BASE_ASYM_ALGO_TPM_ALG_RSAPSS_4096;
   SPDM_ALGORITHMS_BASE_ASYM_ALGO_TPM_ALG_RSAPSS_3072;
   SPDM_ALGORITHMS_BASE_ASYM_ALGO_TPM_ALG_RSAPSS_2048;
   SPDM_ALGORITHMS_BASE_ASYM_ALGO_TPM_ALG_RSASSA_4096;
   SPDM_ALGORITHMS_BASE_ASYM_ALGO_TPM_ALG_RSASSA_3072;
   SPDM_ALGORITHMS_BASE_ASYM_ALGO_TPM_ALG_RSASSA_2048;
   SPDM_ALGORITHMS_BASE_ASYM_ALGO_EDDSA_ED448;
   SPDM_ALGORITHMS_BASE_ASYM_ALGO_EDDSA_ED25519;
   SPDM_ALGORITHMS_BASE_ASYM_ALGO_TPM_ALG_SM2_ECC_SM2_P256; 0].

Definition req_asym_priority_table : list Z :=
  [SPDM_ALGORITHMS_BASE_ASYM_ALGO_TPM_ALG_ECDSA_ECC_NIST_P521;
   SPDM_ALGORITHMS_BASE_ASYM_ALGO_TPM_ALG_ECDSA_ECC_NIST_P384;
   SPDM_ALGORITHMS_BASE_ASYM_ALGO_TPM_ALG_ECDSA_ECC_NIST_P256;
   SPDM_ALGORITHMS_BASE_ASYM_ALGO_TPM_ALG_RSAPSS_4096;
   SPDM_ALGORITHMS_BASE_ASYM_ALGO_TPM_ALG_RSAPSS_3072;
   SPDM_ALGORITHMS_BASE_ASYM_ALGO_TPM_ALG_RSAPSS_2048;
   SPDM_ALGORITHMS_BASE_ASYM_ALGO_TPM_ALG_RSASSA_4096;
   SPDM_ALGORITHMS_BASE_ASYM_ALGO_TPM_ALG_RSASSA_3072;
   SPDM_ALGORITHMS_BASE_ASYM_ALGO_TPM_ALG_RSASSA_2048;
   SPDM_ALGORITHMS_BASE_ASYM_ALGO_EDDSA_ED448;
   SPDM_ALGORITHMS_BASE_ASYM_ALGO_EDDSA_ED25519;
   SPDM_ALGORITHMS_BASE_ASYM_ALGO_TPM_ALG_SM2_ECC_SM2_P256; 0].

Definition dhe_priority_table : list Z :=
  [SPDM_ALGORITHMS_DHE_NAMED_GROUP_SECP_521_R1;
   SPDM_ALGORITHMS_DHE_NAMED_GROUP_SECP_384_R1;
   SPDM_ALGORITHMS_DHE_NAMED_GROUP_SECP_256_R1;
   SPDM_ALGORITHMS_DHE_NAMED_GROUP_FFDHE_4096;
   SPDM_ALGORITHMS_DHE_NAMED_GROUP_FFDHE_3072;
   SPDM_ALGORITHMS_DHE_NAMED_GROUP_FFDHE_2048;
   SPDM_ALGORITHMS_DHE_NAMED_GROUP_SM2_P256; 0].

Definition aead_priority_table : list Z :=
  [SPDM_ALGORITHMS_AEAD_CIPHER_SUITE_AES_256_GCM;
   SPDM_ALGORITHMS_AEAD_CIPHER_SUITE_AES_128_GCM;
   SPDM_ALGORITHMS_AEAD_CIPHER_SUITE_CHACHA20_POLY1305;
   SPDM_ALGORITHMS_AEAD_CIPHER_SUITE_AEAD_SM4_GCM; 0].

Definition key_schedule_priority_table : list Z := [SPDM_ALGORITHMS_KEY_SCHEDULE_SPDM].

Definition measurement_hash_priority_table : list Z :=
  [SPDM_ALGORITHMS_MEASUREMENT_HASH_ALGO_TPM_ALG_SHA_512;
   SPDM_ALGORITHMS_MEASUREMENT_HASH_ALGO_TPM_ALG_SHA_384;
   SPDM_ALGORITHMS_MEASUREMENT_HASH_ALGO_TPM_ALG_SHA_256;
   SPDM_ALGORITHMS_MEASUREMENT_HASH_ALGO_TPM_ALG_SHA3_512;
   SPDM_ALGORITHMS_MEASUREMENT_HASH_ALGO_TPM_ALG_SHA3_384;
   SPDM_ALGORITHMS_MEASUREMENT_HASH_ALGO_TPM_ALG_SHA3_256;
   SPDM_ALGORITHMS_MEASUREMENT_HASH_ALGO_TPM_ALG_SM3_256;
   SPDM_ALGORITHMS_MEASUREMENT_HASH_ALGO_RAW_BIT_STREAM_ONLY].

Definition measurement_spec_priority_table : list Z := [SPDM_MEASUREMENT_SPECIFICATION_DMTF].

Definition other_params_support_priority_table : list Z :=
  [SPDM_ALGORITHMS_OPAQUE_DATA_FORMAT_1; SPDM_ALGORITHMS_OPAQUE_DATA_FORMAT_0;
   SPDM_ALGORITHMS_OPAQUE_DATA_FORMAT_NONE].

Definition mel_spec_priority_table : list Z := [SPDM_MEL_SPECIFICATION_DMTF].

Definition pqc_asym_priority_table : list Z :=
  [SPDM_ALGORITHMS_PQC_ASYM_ALGO_ML_DSA_87;
   SPDM_ALGORITHMS_PQC_ASYM_ALGO_ML_DSA_65;
   SPDM_ALGORITHMS_PQC_ASYM_ALGO_ML_DSA_44;
   SPDM_ALGORITHMS_PQC_ASYM_ALGO_SLH_DSA_SHAKE_256F;
   SPDM_ALGORITHMS_PQC_ASYM_ALGO_SLH_DSA_SHA2_256F;
   SPDM_ALGORITHMS_PQC_ASYM_ALGO_SLH_DSA_SHAKE_256S;
   SPDM_ALGORITHMS_PQC_ASYM_ALGO_SLH_DSA_SHA2_256S;
   SPDM_ALGORITHMS_PQC_ASYM_ALGO_SLH_DSA_SHAKE_192F;
   SPDM_ALGORITHMS_PQC_ASYM_ALGO_SLH_DSA_SHA2_192F;
   SPDM_ALGORITHMS_PQC_ASYM_ALGO_SLH_DSA_SHAKE_192S;
   SPDM_ALGORITHMS_PQC_ASYM_ALGO_SLH_DSA_SHA2_192S;
   SPDM_ALGORITHMS_PQC_ASYM_ALGO_SLH_DSA_SHAKE_128F;
   SPDM_ALGORITHMS_PQC_ASYM_ALGO_SLH_DSA_SHA2_128F;
   SPDM_ALGORITHMS_PQC_ASYM_ALGO_SLH_DSA_SHAKE_128S;
   SPDM_ALGORITHMS_PQC_ASYM_ALGO_SLH_DSA_SHA2_128S; 0].

Definition req_pqc_asym_priority_table : list Z :=
  [SPDM_ALGORITHMS_PQC_ASYM_ALGO_ML_DSA_87;
   SPDM_ALGORITHMS_PQC_ASYM_ALGO_ML_DSA_65;
   SPDM_ALGORITHMS_PQC_ASYM_ALGO_ML_DSA_44;
   SPDM_ALGORITHMS_PQC_ASYM_ALGO_SLH_DSA_SHAKE_256F;
   SPDM_ALGORITHMS_PQC_ASYM_ALGO_SLH_DSA_SHA2_256F;
   SPDM_ALGORITHMS_PQC_ASYM_ALGO_SLH_DSA_SHAKE_256S;
   SPDM_ALGORITHMS_PQC_ASYM_ALGO_SLH_DSA_SHA2_256S;
   SPDM_ALGORITHMS_PQC_ASYM_ALGO_SLH_DSA_SHAKE_192F;
   SPDM_ALGORITHMS_PQC_ASYM_ALGO_SLH_DSA_SHA2_192F;
   SPDM_ALGORITHMS_PQC_ASYM_ALGO_SLH_DSA_SHAKE_192S;
   SPDM_ALGORITHMS_PQC_ASYM_ALGO_SLH_DSA_SHA2_192S;
   SPDM_ALGORITHMS_PQC_ASYM_ALGO_SLH_DSA_SHAKE_128F;
   SPDM_ALGORITHMS_PQC_ASYM_ALGO_SLH_DSA_SHA2_128F;
   SPDM_ALGORITHMS_PQC_ASYM_ALGO_SLH_DSA_SHAKE_128S;
   SPDM_ALGORITHMS_PQC_ASYM_ALGO_SLH_DSA_SHA2_128S; 0].

Definition pqc_kem_priority_table : list Z :=
  [SPDM_ALGORITHMS_KEM_ALG_ML_KEM_1024; SPDM_ALGORITHMS_KEM_ALG_ML_KEM_768;
   SPDM_ALGORITHMS_KEM_ALG_ML_KEM_512; 0].

(** The loop over the priorities. *)
Fixpoint first_common (priority_table : list Z) (common_algo : Z) : Z :=
  match priority_table with
  | [] => 0
  | p :: l => if negb (Z.land common_algo p =? 0) then p else first_common l common_algo
  end.

Definition libspdm_prioritize_algorithm (priority_table : list Z) (local_algo peer_algo : Z) : Z :=
  first_common priority_table (Z.land local_algo peer_algo).

(** The bytes of the response, with no external algorithm. *)
Definition algorithms_bytes (v param1_ size : Z) (sel : selection_t) : list Z :=
  [v; SPDM_ALGORITHMS; param1_; 0] ++ le_bytes 2 size
  ++ [measurement_specification_sel sel; other_params_selection sel]
  ++ le_bytes 4 (measurement_hash_algo sel) ++ le_bytes 4 (base_asym_sel sel)
  ++ le_bytes 4 (base_hash_sel sel) ++ le_bytes 4 (pqc_asym_sel sel)
  ++ zeros 7 ++ [mel_specification_sel sel; 0; 0; 0; 0]
  ++ concat (table_bytes <$> struct_table sel).

(** The priorities of a kind of table, and what an endpoint supports of the kind. *)
Definition table_priority (type : Z) : list Z :=
  if type =? SPDM_NEGOTIATE_ALGORITHMS_STRUCT_TABLE_ALG_TYPE_DHE then dhe_priority_table
  else if type =? SPDM_NEGOTIATE_ALGORITHMS_STRUCT_TABLE_ALG_TYPE_AEAD then aead_priority_table
  else if type =? SPDM_NEGOTIATE_ALGORITHMS_STRUCT_TABLE_ALG_TYPE_REQ_BASE_ASYM_ALG
  then req_asym_priority_table
  else if type =? SPDM_NEGOTIATE_ALGORITHMS_STRUCT_TABLE_ALG_TYPE_KEY_SCHEDULE
  then key_schedule_priority_table
  else if type =? SPDM_NEGOTIATE_ALGORITHMS_STRUCT_TABLE_ALG_TYPE_REQ_PQC_ASYM_ALG
  then req_pqc_asym_priority_table
  else pqc_kem_priority_table.

Definition table_algorithm (a : libspdm_device_algorithm_t) (type : Z) : Z :=
  if type =? SPDM_NEGOTIATE_ALGORITHMS_STRUCT_TABLE_ALG_TYPE_DHE then da_dhe_named_group a
  else if type =? SPDM_NEGOTIATE_ALGORITHMS_STRUCT_TABLE_ALG_TYPE_AEAD
  then da_aead_cipher_suite a
  else if type =? SPDM_NEGOTIATE_ALGORITHMS_STRUCT_TABLE_ALG_TYPE_REQ_BASE_ASYM_ALG
  then da_req_base_asym_alg a
  else if type =? SPDM_NEGOTIATE_ALGORITHMS_STRUCT_TABLE_ALG_TYPE_KEY_SCHEDULE
  then da_key_schedule a
  else if type =? SPDM_NEGOTIATE_ALGORITHMS_STRUCT_TABLE_ALG_TYPE_REQ_PQC_ASYM_ALG
  then da_req_pqc_asym_alg a
  else da_kem_alg a.

Section responder.
Context `{BuildConfig}.
Implicit Types ctx : libspdm_context_t.

(** *** The request *)

(** The tables of the request and where they end, or an invalid request. *)
Definition check_algorithms_request (v param1_ : Z) (request : list Z) (request_size : Z) :
    exec (option (list struct_table_t * Z)) :=
  ext_asym_count ← request_ext_asym_count request;
  ext_hash_count ← request_ext_hash_count request;
  let off := sizeof_spdm_negotiate_algorithms_request + 4 * ext_asym_count + 4 * ext_hash_count in
  RETURN None
    IF request_size <? off + sizeof_spdm_negotiate_algorithms_common_struct_table * param1_;;
  tables ← (if SPDM_MESSAGE_VERSION_11 <=? v
            then read_tables v (λ _, true) request request_size off None (Z.to_nat param1_)
            else Ret (inl ([], off)));
  match tables with
  | inr _ => Ret None
  | inl (tables, end_) =>
      let ext_alg_total_count :=
        u16 (foldr Z.add (ext_asym_count + ext_hash_count) (ext_alg_count <$> tables)) in
      length_ ← message_length request;
      let '(max_count, max_length) :=
        if SPDM_MESSAGE_VERSION_11 <=? v
        then (SPDM_NEGOTIATE_ALGORITHMS_REQUEST_MAX_EXT_ALG_COUNT_VERSION_11,
              SPDM_NEGOTIATE_ALGORITHMS_REQUEST_MAX_LENGTH_VERSION_11)
        else (SPDM_NEGOTIATE_ALGORITHMS_REQUEST_MAX_EXT_ALG_COUNT_VERSION_10,
              SPDM_NEGOTIATE_ALGORITHMS_REQUEST_MAX_LENGTH_VERSION_10) in
      RETURN None IF max_count <? ext_alg_total_count;;
      RETURN None IF max_length <? length_;;
      RETURN None IF negb (end_ =? length_);;
      Ret (Some (tables, end_))
  end.

(** *** The selection

    The steps work on what the peer offers, in connection_info.algorithm, and on
    the selection; the boolean is false when the request is invalid. *)

(** A table of the request: the algorithms offered, and the table of the response. *)
Definition select_table ctx (t : struct_table_t) : exec (option (libspdm_context_t * struct_table_t)) :=
  let a := lc_algorithm ctx in
  match set_algorithm (ci_algorithm ctx) t with
  | None => Ret (Some (ctx, zero_table))
  | Some c =>
      RETURN None IF alg_supported t =? 0;;
      (if (alg_type t =? SPDM_NEGOTIATE_ALGORITHMS_STRUCT_TABLE_ALG_TYPE_REQ_PQC_ASYM_ALG)
          || (alg_type t =? SPDM_NEGOTIATE_ALGORITHMS_STRUCT_TABLE_ALG_TYPE_KEM_ALG)
       then LIBSPDM_ASSERT (da_kem_alg a <=? 0xFFFF) else Ret tt);;
      Ret (Some (ctx <| ci_algorithm := c |>,
        StructTable (alg_type t) 0x20
          (u16 (libspdm_prioritize_algorithm (table_priority (alg_type t))
                  (table_algorithm a (alg_type t)) (alg_supported t)))))
  end.

Fixpoint select_tables ctx (tables : list struct_table_t) :
    exec (bool * libspdm_context_t * list struct_table_t) :=
  match tables with
  | [] => Ret (true, ctx, [])
  | t :: tables =>
      r ← select_table ctx t;
      match r with
      | None => Ret (false, ctx, const zero_table <$> t :: tables)
      | Some (ctx, t) =>
          '(valid, ctx, l) ← select_tables ctx tables;
          Ret (valid, ctx, t :: l)
      end
  end.

(** The algorithms of the request, other than those of its tables. *)
Definition keep_offer ctx (v : Z) (request : list Z) : exec libspdm_context_t :=
  spec ← message_measurement_specification request;
  asym ← request_base_asym_algo request;
  hash ← request_base_hash_algo request;
  pqc ← request_pqc_asym_algo request;
  let a := (ci_algorithm ctx)
    <| da_measurement_spec := spec |>
    <| da_measurement_hash_algo :=
         if negb (spec =? 0) then da_measurement_hash_algo (lc_algorithm ctx) else 0 |>
    <| da_base_asym_algo := asym |> <| da_base_hash_algo := hash |> in
  Ret (ctx <| ci_algorithm :=
         if SPDM_MESSAGE_VERSION_14 <=? v then a <| da_pqc_asym_algo := pqc |> else a |>).

Definition keep_other_params ctx (v : Z) (request : list Z) : exec libspdm_context_t :=
  other ← message_other_params request;
  mel ← message_mel_specification request;
  let a := ci_algorithm ctx in
  Ret (ctx <| ci_algorithm :=
    if SPDM_MESSAGE_VERSION_13 <=? v
    then a <| da_other_params_support := other |> <| da_mel_spec := mel |>
    else if SPDM_MESSAGE_VERSION_12 <=? v
    then a <| da_other_params_support := Z.land other SPDM_ALGORITHMS_OPAQUE_DATA_FORMAT_MASK |>
    else a |>).

(** What is preferred of the algorithms both endpoints support. *)
Definition prioritize_selection ctx (v : Z) (tables : list struct_table_t) : selection_t :=
  let l := lc_algorithm ctx in
  let c := ci_algorithm ctx in
  let supported := libspdm_is_capabilities_flag_supported ctx false 0 in
  let mask := Z.land SPDM_ALGORITHMS_OPAQUE_DATA_FORMAT_MASK in
  Selection
    (if supported SPDM_GET_CAPABILITIES_RESPONSE_FLAGS_MEAS_CAP
        || supported SPDM_GET_CAPABILITIES_RESPONSE_FLAGS_MEL_CAP
     then u8 (libspdm_prioritize_algorithm measurement_spec_priority_table
                (da_measurement_spec l) (da_measurement_spec c))
     else 0)
    (if SPDM_MESSAGE_VERSION_12 <=? v
     then u8 (libspdm_prioritize_algorithm other_params_support_priority_table
                (mask (da_other_params_support l)) (mask (da_other_params_support c)))
     else 0)
    (libspdm_prioritize_algorithm measurement_hash_priority_table
       (da_measurement_hash_algo l) (da_measurement_hash_algo c))
    (libspdm_prioritize_algorithm asym_priority_table (da_base_asym_algo l) (da_base_asym_algo c))
    (libspdm_prioritize_algorithm hash_priority_table (da_base_hash_algo l) (da_base_hash_algo c))
    (if SPDM_MESSAGE_VERSION_14 <=? v
     then libspdm_prioritize_algorithm pqc_asym_priority_table
            (da_pqc_asym_algo l) (da_pqc_asym_algo c)
     else 0)
    (if (SPDM_MESSAGE_VERSION_13 <=? v) && supported SPDM_GET_CAPABILITIES_RESPONSE_FLAGS_MEL_CAP
     then u8 (libspdm_prioritize_algorithm mel_spec_priority_table (da_mel_spec l) (da_mel_spec c))
     else 0)
    tables.

(** Whether the requester uses several keys, and the bit of the selection that
    says so; [None] for an invalid capability. *)
Definition select_multi_key_conn ctx (sel : selection_t) :
    option (libspdm_context_t * selection_t) :=
  let cap := Z.land (flags (ci_capability ctx)) SPDM_GET_CAPABILITIES_REQUEST_FLAGS_MULTI_KEY_CAP in
  let multi_key :=
    if cap =? 0 then Some false
    else if cap =? SPDM_GET_CAPABILITIES_REQUEST_FLAGS_MULTI_KEY_CAP_ONLY then Some true
    else if cap =? SPDM_GET_CAPABILITIES_REQUEST_FLAGS_MULTI_KEY_CAP_NEG then
      Some (negb (Z.land (da_other_params_support (lc_algorithm ctx))
                    SPDM_ALGORITHMS_MULTI_KEY_CONN =? 0))
    else None in
  match multi_key with
  | None => None
  | Some b =>
      let other := other_params_selection sel in
      Some (set_exchange ctx (λ x, x <| multi_key_conn_req := b |>),
            sel <| other_params_selection :=
              if b then Z.lor other SPDM_ALGORITHMS_MULTI_KEY_CONN
              else Z.ldiff other SPDM_ALGORITHMS_MULTI_KEY_CONN |>)
  end.

(** The entry [i] of the tables is of type [type] and selects an algorithm. *)
Definition table_selects (l : list struct_table_t) (i : nat) (type : Z) : bool :=
  match l !! i with
  | Some t => (alg_type t =? type) && negb (alg_supported t =? 0)
  | None => false
  end.

Definition clear_tables (type : Z) (l : list struct_table_t) : list struct_table_t :=
  (λ t, if alg_type t =? type then t <| alg_supported := 0 |> else t) <$> l.

(** The loop over the [n] tables from [i] on: what is selected of [asym] and of
    [kex] excludes [other_asym] and [other_kex]. *)
Fixpoint exclude_tables (asym other_asym kex other_kex : Z) (l : list struct_table_t) (i n : nat) :
    list struct_table_t :=
  match n with
  | O => l
  | S n =>
      let l := if table_selects l i asym then clear_tables other_asym l else l in
      let l := if table_selects l i kex then clear_tables other_kex l else l in
      exclude_tables asym other_asym kex other_kex l (S i) n
  end.

(** Of a traditional and a post-quantum algorithm one is kept. *)
Definition exclude_algorithms (pqc_first : bool) (sel : selection_t) : selection_t :=
  let n := length (struct_table sel) in
  if pqc_first then
    let sel := if negb (pqc_asym_sel sel =? 0) then sel <| base_asym_sel := 0 |> else sel in
    sel <| struct_table := exclude_tables
      SPDM_NEGOTIATE_ALGORITHMS_STRUCT_TABLE_ALG_TYPE_REQ_PQC_ASYM_ALG
      SPDM_NEGOTIATE_ALGORITHMS_STRUCT_TABLE_ALG_TYPE_REQ_BASE_ASYM_ALG
      SPDM_NEGOTIATE_ALGORITHMS_STRUCT_TABLE_ALG_TYPE_KEM_ALG
      SPDM_NEGOTIATE_ALGORITHMS_STRUCT_TABLE_ALG_TYPE_DHE (struct_table sel) 0 n |>
  else
    let sel := if negb (base_asym_sel sel =? 0) then sel <| pqc_asym_sel := 0 |> else sel in
    sel <| struct_table := exclude_tables
      SPDM_NEGOTIATE_ALGORITHMS_STRUCT_TABLE_ALG_TYPE_REQ_BASE_ASYM_ALG
      SPDM_NEGOTIATE_ALGORITHMS_STRUCT_TABLE_ALG_TYPE_REQ_PQC_ASYM_ALG
      SPDM_NEGOTIATE_ALGORITHMS_STRUCT_TABLE_ALG_TYPE_DHE
      SPDM_NEGOTIATE_ALGORITHMS_STRUCT_TABLE_ALG_TYPE_KEM_ALG (struct_table sel) 0 n |>.

(** *** The connection *)

(** The algorithms of the selection, other than those of its tables. *)
Definition keep_selection ctx (v : Z) (sel : selection_t) : libspdm_context_t :=
  let a := (ci_algorithm ctx)
    <| da_measurement_spec := measurement_specification_sel sel |>
    <| da_measurement_hash_algo := measurement_hash_algo sel |>
    <| da_base_asym_algo := base_asym_sel sel |> <| da_base_hash_algo := base_hash_sel sel |> in
  ctx <| ci_algorithm :=
    if SPDM_MESSAGE_VERSION_14 <=? v then a <| da_pqc_asym_algo := pqc_asym_sel sel |> else a |>.

(** The algorithms that the capabilities make necessary are selected. *)
Definition check_selection ctx (measurement_specification : Z) : bool :=
  let a := ci_algorithm ctx in
  let measures := libspdm_is_capabilities_flag_supported ctx false 0
                    SPDM_GET_CAPABILITIES_RESPONSE_FLAGS_MEAS_CAP
                  && negb (measurement_specification =? 0) in
  (if measures then
     (da_measurement_spec a =? SPDM_MEASUREMENT_SPECIFICATION_DMTF)
     && negb (libspdm_get_measurement_hash_size (da_measurement_hash_algo a) =? 0)
   else true)
  && (if needs_signature ctx false || needs_psk ctx false
      then negb (libspdm_get_hash_size (da_base_hash_algo a) =? 0) else true)
  && (if needs_signature ctx false
      then exactly_one (libspdm_get_asym_signature_size (da_base_asym_algo a))
             (libspdm_get_pqc_asym_signature_size (da_pqc_asym_algo a))
      else true).

Definition check_table_selection ctx : bool :=
  let a := ci_algorithm ctx in
  (if needs_key_exchange ctx false
   then exactly_one (libspdm_get_dhe_pub_key_size (da_dhe_named_group a))
          (libspdm_get_kem_encap_key_size (da_kem_alg a))
   else true)
  && (if needs_aead ctx false
      then negb (libspdm_get_aead_key_size (da_aead_cipher_suite a) =? 0) else true)
  && (if needs_requester_signature ctx false
      then exactly_one (libspdm_get_req_asym_signature_size (da_req_base_asym_alg a))
             (libspdm_get_req_pqc_asym_signature_size (da_req_pqc_asym_alg a))
      else true)
  && (if needs_key_exchange ctx false || needs_psk ctx false
      then da_key_schedule a =? SPDM_ALGORITHMS_KEY_SCHEDULE_SPDM else true).

(** The algorithms of the selected tables, and the other parameters. *)
Definition keep_table_selection ctx (v : Z) (sel : selection_t) : exec libspdm_context_t :=
  LIBSPDM_ASSERT (forallb (λ t, bool_decide (is_Some (set_algorithm (ci_algorithm ctx) t)))
                    (struct_table sel));;
  let a := set_algorithms (ci_algorithm ctx) (struct_table sel) in
  let format := Z.land (other_params_selection sel) SPDM_ALGORITHMS_OPAQUE_DATA_FORMAT_MASK in
  Ret (ctx <| ci_algorithm :=
    if SPDM_MESSAGE_VERSION_13 <=? v then
      a <| da_other_params_support :=
             Z.lor (Z.land (da_other_params_support a) SPDM_ALGORITHMS_MULTI_KEY_CONN) format |>
        <| da_mel_spec := mel_specification_sel sel |>
    else if SPDM_MESSAGE_VERSION_12 <=? v then
      a <| da_other_params_support := format |> <| da_mel_spec := 0 |>
    else a <| da_other_params_support := 0 |> |>).

(** Whether the responder uses several keys. *)
Definition keep_multi_key_conn_rsp ctx : bool * libspdm_context_t :=
  let cap := Z.land (flags (lc_capability ctx)) SPDM_GET_CAPABILITIES_RESPONSE_FLAGS_MULTI_KEY_CAP in
  let set b := set_exchange ctx (λ x, x <| multi_key_conn_rsp := b |>) in
  if Z.land (da_other_params_support (ci_algorithm ctx)) SPDM_ALGORITHMS_MULTI_KEY_CONN =? 0 then
    if cap =? SPDM_GET_CAPABILITIES_RESPONSE_FLAGS_MULTI_KEY_CAP_ONLY then (false, ctx)
    else (true, set false)
  else if cap =? 0 then (false, ctx)
  else (true, set true).

(** The part of the negotiation about the tables of the message. *)
Definition finish_tables ctx (v : Z) (sel : selection_t) : exec (bool * libspdm_context_t) :=
  if SPDM_MESSAGE_VERSION_11 <=? v then
    ctx ← keep_table_selection ctx v sel;
    RETURN (false, ctx) IF negb (check_table_selection ctx);;
    Ret (if SPDM_MESSAGE_VERSION_13 <=? v then keep_multi_key_conn_rsp ctx else (true, ctx))
  else Ret (true, ctx <| ci_algorithm := clear_table_algorithms (ci_algorithm ctx) |>).

Definition select_algorithms ctx (v : Z) (request : list Z) (tables : list struct_table_t) :
    exec (bool * libspdm_context_t * selection_t) :=
  ctx ← keep_offer ctx v request;
  '(valid, ctx, selected) ← select_tables ctx tables;
  RETURN (false, ctx, zero_selection <| struct_table := selected |>) IF negb valid;;
  ctx ← keep_other_params ctx v request;
  let sel := prioritize_selection ctx v selected in
  match (if SPDM_MESSAGE_VERSION_13 <=? v then select_multi_key_conn ctx sel else Some (ctx, sel)) with
  | None => Ret (false, ctx, sel)
  | Some (ctx, sel) =>
      let sel := if SPDM_MESSAGE_VERSION_14 <=? v
                 then exclude_algorithms (da_pqc_first (lc_algorithm ctx)) sel else sel in
      let ctx := keep_selection ctx v sel in
      spec ← message_measurement_specification request;
      RETURN (false, ctx, sel) IF negb (check_selection ctx spec);;
      '(valid, ctx) ← finish_tables ctx v sel;
      Ret (valid, ctx, sel)
  end.

(** The response to a valid request, and the connection after it. *)
Definition answer_algorithms ctx (spdm_request : spdm_message_header_t) (request : list Z)
    (tables : list struct_table_t) (spdm_request_size response_size : Z) (response : list Z) :
    exec reply :=
  let v := spdm_version spdm_request in
  let ctx := libspdm_reset_message_buffer_via_request_code ctx None
               (request_response_code spdm_request) in
  LIBSPDM_ASSERT (sizeof_libspdm_algorithms_response_mine <=? response_size);;
  let param1_ := if SPDM_MESSAGE_VERSION_11 <=? v then param1 spdm_request else 0 in
  let size := sizeof_spdm_algorithms_response
              + param1_ * sizeof_spdm_negotiate_algorithms_common_struct_table in
  '(valid, ctx, sel) ← select_algorithms ctx v request tables;
  response ← store response 0 (zeros sizeof_libspdm_algorithms_response_mine);
  response ← store response 0 (algorithms_bytes v param1_ size sel);
  let error ctx code := libspdm_generate_error_response ctx code 0 size response in
  TAIL error ctx SPDM_ERROR_CODE_INVALID_REQUEST IF negb valid;;
  message ← load request 0 spdm_request_size;
  spdm_response ← load response 0 size;
  '(status, ctx) ← append_exchange ctx message spdm_response;
  TAIL error ctx SPDM_ERROR_CODE_UNSPECIFIED IF LIBSPDM_STATUS_IS_ERROR status;;
  Ret (Reply LIBSPDM_STATUS_SUCCESS
         (libspdm_set_connection_state ctx LIBSPDM_CONNECTION_STATE_NEGOTIATED) size response).

Definition libspdm_get_response_algorithms ctx (request_size : Z) (request : list Z)
    (response_size : Z) (response : list Z) : exec reply :=
  let error ctx code := libspdm_generate_error_response ctx code 0 in
  spdm_request ← read_header request;
  LIBSPDM_ASSERT (request_response_code spdm_request =? SPDM_NEGOTIATE_ALGORITHMS);;
  let measures := negb (Z.land (flags (lc_capability ctx))
                          SPDM_GET_CAPABILITIES_RESPONSE_FLAGS_MEAS_CAP =? 0) in
  LIBSPDM_ASSERT (eqb measures (negb (da_measurement_spec (lc_algorithm ctx) =? 0)));;
  LIBSPDM_ASSERT (eqb measures (negb (da_measurement_hash_algo (lc_algorithm ctx) =? 0)));;
  TAIL libspdm_responder_handle_response_state ctx (request_response_code spdm_request)
         response_size response
    IF bool_decide (response_state (exchange ctx) ≠ LIBSPDM_RESPONSE_STATE_NORMAL);;
  TAIL error ctx SPDM_ERROR_CODE_UNEXPECTED_REQUEST response_size response
    IF bool_decide (connection_state (exchange ctx) ≠ LIBSPDM_CONNECTION_STATE_AFTER_CAPABILITIES);;
  let v := spdm_version spdm_request in
  TAIL error ctx SPDM_ERROR_CODE_VERSION_MISMATCH response_size response
    IF negb (v =? libspdm_get_connection_version ctx);;
  TAIL error ctx SPDM_ERROR_CODE_INVALID_REQUEST response_size response
    IF request_size <? sizeof_spdm_negotiate_algorithms_request;;
  checked ← check_algorithms_request v (param1 spdm_request) request request_size;
  match checked with
  | None => error ctx SPDM_ERROR_CODE_INVALID_REQUEST response_size response
  | Some (tables, spdm_request_size) =>
      answer_algorithms ctx spdm_request request tables spdm_request_size response_size response
  end.

End responder.

(** ** The requester *)
Section requester.
Context `{BuildConfig, CryptoHal} {channel : RequesterChannel}.
Implicit Types ctx : libspdm_context_t.
Implicit Types w : world.

(** *** The request *)

Definition request_tables ctx : list struct_table_t :=
  let v := libspdm_get_connection_version ctx in
  if SPDM_MESSAGE_VERSION_11 <=? v then local_tables v (lc_algorithm ctx) else [].

(** The length of the request. *)
Definition algorithms_request_size ctx : Z :=
  sizeof_spdm_negotiate_algorithms_request
  + blen (request_tables ctx) * sizeof_spdm_negotiate_algorithms_common_struct_table.

(** The other parameters that are offered; [None] for an invalid capability of the
    responder. *)
Definition offer_other_params ctx : option (libspdm_context_t * Z) :=
  let v := libspdm_get_connection_version ctx in
  let other := da_other_params_support (lc_algorithm ctx) in
  if SPDM_MESSAGE_VERSION_13 <=? v then
    let cap := Z.land (flags (ci_capability ctx))
                 SPDM_GET_CAPABILITIES_RESPONSE_FLAGS_MULTI_KEY_CAP in
    let multi_key :=
      if cap =? 0 then Some false
      else if cap =? SPDM_GET_CAPABILITIES_RESPONSE_FLAGS_MULTI_KEY_CAP_ONLY then Some true
      else if cap =? SPDM_GET_CAPABILITIES_RESPONSE_FLAGS_MULTI_KEY_CAP_NEG then
        Some (negb (Z.land other SPDM_ALGORITHMS_MULTI_KEY_CONN =? 0))
      else None in
    match multi_key with
    | None => None
    | Some b =>
        Some (set_exchange ctx (λ x, x <| multi_key_conn_rsp := b |>),
              if b then Z.lor other SPDM_ALGORITHMS_MULTI_KEY_CONN
              else Z.ldiff other SPDM_ALGORITHMS_MULTI_KEY_CONN)
    end
  else Some (ctx, if SPDM_MESSAGE_VERSION_12 <=? v
                  then Z.land other SPDM_ALGORITHMS_OPAQUE_DATA_FORMAT_MASK else 0).

Definition algorithms_request_bytes ctx (other : Z) : list Z :=
  let v := libspdm_get_connection_version ctx in
  let a := lc_algorithm ctx in
  [v; SPDM_NEGOTIATE_ALGORITHMS; blen (request_tables ctx); 0]
  ++ le_bytes 2 (algorithms_request_size ctx) ++ [da_measurement_spec a; other]
  ++ le_bytes 4 (da_base_asym_algo a) ++ le_bytes 4 (da_base_hash_algo a)
  ++ le_bytes 4 (if SPDM_MESSAGE_VERSION_14 <=? v then da_pqc_asym_algo a else 0)
  ++ zeros 8 ++ [0; 0; 0; if SPDM_MESSAGE_VERSION_13 <=? v then da_mel_spec a else 0]
  ++ concat (table_bytes <$> request_tables ctx).

(** The algorithms of post-quantum tables fit two bytes. *)
Definition tables_fit ctx : bool :=
  let a := lc_algorithm ctx in
  (libspdm_get_connection_version ctx <? SPDM_MESSAGE_VERSION_14)
  || (da_req_pqc_asym_alg a <=? 0xFFFF) && (da_kem_alg a <=? 0xFFFF).

Definition build_negotiate_algorithms : build_request := λ ctx,
  let size := max_spdm_msg_size (lc_capability ctx) in
  LIBSPDM_ASSERT (sizeof_spdm_negotiate_algorithms_request <=? size);;
  LIBSPDM_ASSERT (algorithms_request_size ctx <=? size);;
  match offer_other_params ctx with
  | None =>
      LIBSPDM_ASSERT false;;
      Ret (ctx, inr LIBSPDM_STATUS_INVALID_MSG_FIELD)
  | Some (ctx, other) =>
      LIBSPDM_ASSERT (tables_fit ctx);;
      Ret (ctx, inl (algorithms_request_bytes ctx other))
  end.

(** *** The response *)

(** The selection of a response, whose tables are [tables]. *)
Definition read_selection (response : list Z) (tables : list struct_table_t) : exec selection_t :=
  spec ← message_measurement_specification response;
  other ← message_other_params response;
  measurement_hash ← load_le 4 response 8;
  asym ← load_le 4 response 12;
  hash ← load_le 4 response 16;
  pqc ← load_le 4 response 20;
  mel ← message_mel_specification response;
  Ret (Selection spec other measurement_hash asym hash pqc mel tables).

(** At most one algorithm of every kind is selected. *)
Definition selection_onehot (v : Z) (sel : selection_t) : bool :=
  libspdm_onehot0 (measurement_specification_sel sel)
  && ((v <? SPDM_MESSAGE_VERSION_12)
      || libspdm_onehot0 (Z.land (other_params_selection sel)
                            SPDM_ALGORITHMS_OPAQUE_DATA_FORMAT_MASK))
  && libspdm_onehot0 (measurement_hash_algo sel)
  && libspdm_onehot0 (base_asym_sel sel)
  && libspdm_onehot0 (base_hash_sel sel)
  && ((v <? SPDM_MESSAGE_VERSION_14) || libspdm_onehot0 (pqc_asym_sel sel)).

(** The selection of a response, and where the response ends. *)
Definition check_algorithms_response (v param1_ : Z) (response : list Z) :
    exec (selection_t * Z + libspdm_return_t) :=
  RETURN inr LIBSPDM_STATUS_INVALID_MSG_SIZE IF blen response <? sizeof_spdm_algorithms_response;;
  sel ← read_selection response [];
  RETURN inr LIBSPDM_STATUS_INVALID_MSG_FIELD IF negb (selection_onehot v sel);;
  ext_asym_sel_count ← load_le 1 response 32;
  ext_hash_sel_count ← load_le 1 response 33;
  RETURN inr LIBSPDM_STATUS_INVALID_MSG_FIELD IF 0 <? ext_asym_sel_count;;
  RETURN inr LIBSPDM_STATUS_INVALID_MSG_FIELD IF 0 <? ext_hash_sel_count;;
  let off := sizeof_spdm_algorithms_response + 4 * ext_asym_sel_count + 4 * ext_hash_sel_count in
  RETURN inr LIBSPDM_STATUS_INVALID_MSG_SIZE
    IF blen response <? off + sizeof_spdm_negotiate_algorithms_common_struct_table * param1_;;
  tables ← (if SPDM_MESSAGE_VERSION_11 <=? v then
              read_tables v (λ t, (ext_alg_count t =? 0) && libspdm_onehot0 (alg_supported t))
                response (blen response) off None (Z.to_nat param1_)
            else Ret (inl ([], off)));
  match tables with
  | inr status => Ret (inr status)
  | inl (tables, end_) =>
      length_ ← message_length response;
      RETURN inr LIBSPDM_STATUS_INVALID_MSG_SIZE IF negb (end_ =? length_);;
      Ret (inl (sel <| struct_table := tables |>, end_))
  end.

(** The algorithms of the response become part of the connection. *)
Definition keep_algorithms ctx (v : Z) (sel : selection_t) : libspdm_context_t :=
  let ctx := keep_selection ctx v sel in
  let a := ci_algorithm ctx in
  ctx <| ci_algorithm :=
    if SPDM_MESSAGE_VERSION_13 <=? v then
      a <| da_other_params_support := other_params_selection sel |>
        <| da_mel_spec := mel_specification_sel sel |>
    else if SPDM_MESSAGE_VERSION_12 <=? v then
      a <| da_other_params_support := Z.land (other_params_selection sel)
                                        SPDM_ALGORITHMS_OPAQUE_DATA_FORMAT_MASK |>
    else a |>.

(** An algorithm with a result of [size] bytes is one the requester supports. *)
Definition supported_locally (size algo local_algo : Z) : bool :=
  (size =? 0) || negb (Z.land algo local_algo =? 0).

(** Of a traditional and a post-quantum algorithm one is selected, which the
    requester supports; before version 1.4 the second does not count. *)
Definition selects_one (v : Z) (size : Z → Z) (algo local_algo : Z)
    (pqc_size : Z → Z) (pqc_algo local_pqc_algo : Z) : bool :=
  let algo_size := size algo in
  let pqc_algo_size := if SPDM_MESSAGE_VERSION_14 <=? v then pqc_size pqc_algo else 0 in
  exactly_one algo_size pqc_algo_size
  && supported_locally algo_size algo local_algo
  && supported_locally pqc_algo_size pqc_algo local_pqc_algo.

(** The checks of what was selected, in their order. *)
Definition check_algorithms ctx (v measurement_specification : Z) : libspdm_return_t :=
  let a := ci_algorithm ctx in
  let l := lc_algorithm ctx in
  let measures := libspdm_is_capabilities_flag_supported ctx true 0
                    SPDM_GET_CAPABILITIES_RESPONSE_FLAGS_MEAS_CAP
                  && negb (measurement_specification =? 0) in
  if negb (da_measurement_spec a
           =? if measures then SPDM_MEASUREMENT_SPECIFICATION_DMTF else 0)
  then LIBSPDM_STATUS_INVALID_MSG_FIELD
  else if measures && (libspdm_get_measurement_hash_size (da_measurement_hash_algo a) =? 0)
  then LIBSPDM_STATUS_NEGOTIATION_FAIL
  else if (needs_signature ctx true || needs_psk ctx true)
          && ((libspdm_get_hash_size (da_base_hash_algo a) =? 0)
              || (Z.land (da_base_hash_algo a) (da_base_hash_algo l) =? 0))
  then LIBSPDM_STATUS_NEGOTIATION_FAIL
  else if needs_signature ctx true
          && negb (selects_one v
                     libspdm_get_asym_signature_size (da_base_asym_algo a) (da_base_asym_algo l)
                     libspdm_get_pqc_asym_signature_size (da_pqc_asym_algo a) (da_pqc_asym_algo l))
  then LIBSPDM_STATUS_NEGOTIATION_FAIL
  else LIBSPDM_STATUS_SUCCESS.

Definition check_table_algorithms ctx (v mel_specification : Z) : libspdm_return_t :=
  let a := ci_algorithm ctx in
  let l := lc_algorithm ctx in
  let schedules := needs_key_exchange ctx true || needs_psk ctx true in
  let logs := libspdm_is_capabilities_flag_supported ctx true 0
                SPDM_GET_CAPABILITIES_RESPONSE_FLAGS_MEL_CAP
              && negb (mel_specification =? 0) in
  if needs_key_exchange ctx true
     && negb (selects_one v
                libspdm_get_dhe_pub_key_size (da_dhe_named_group a) (da_dhe_named_group l)
                libspdm_get_kem_encap_key_size (da_kem_alg a) (da_kem_alg l))
  then LIBSPDM_STATUS_NEGOTIATION_FAIL
  else if needs_aead ctx true
          && ((libspdm_get_aead_key_size (da_aead_cipher_suite a) =? 0)
              || (Z.land (da_aead_cipher_suite a) (da_aead_cipher_suite l) =? 0))
  then LIBSPDM_STATUS_NEGOTIATION_FAIL
  else if needs_requester_signature ctx true
          && negb (selects_one v
                     libspdm_get_req_asym_signature_size (da_req_base_asym_alg a)
                       (da_req_base_asym_alg l)
                     libspdm_get_req_pqc_asym_signature_size (da_req_pqc_asym_alg a)
                       (da_req_pqc_asym_alg l))
  then LIBSPDM_STATUS_NEGOTIATION_FAIL
  else if schedules
          && (negb (da_key_schedule a =? SPDM_ALGORITHMS_KEY_SCHEDULE_SPDM)
              || (Z.land (da_key_schedule a) (da_key_schedule l) =? 0))
  then LIBSPDM_STATUS_NEGOTIATION_FAIL
  else if schedules && (SPDM_MESSAGE_VERSION_13 <=? v)
          && negb (da_mel_spec a =? if logs then SPDM_MEL_SPECIFICATION_DMTF else 0)
  then LIBSPDM_STATUS_INVALID_MSG_FIELD
  else LIBSPDM_STATUS_SUCCESS.

(** Whether the requester uses several keys. *)
Definition keep_multi_key_conn_req ctx : libspdm_return_t * libspdm_context_t :=
  let cap := Z.land (flags (lc_capability ctx)) SPDM_GET_CAPABILITIES_REQUEST_FLAGS_MULTI_KEY_CAP in
  let set b := set_exchange ctx (λ x, x <| multi_key_conn_req := b |>) in
  if Z.land (da_other_params_support (ci_algorithm ctx)) SPDM_ALGORITHMS_MULTI_KEY_CONN =? 0 then
    if cap =? SPDM_GET_CAPABILITIES_REQUEST_FLAGS_MULTI_KEY_CAP_ONLY
    then (LIBSPDM_STATUS_NEGOTIATION_FAIL, ctx) else (LIBSPDM_STATUS_SUCCESS, set false)
  else if cap =? 0 then (LIBSPDM_STATUS_NEGOTIATION_FAIL, ctx)
  else (LIBSPDM_STATUS_SUCCESS, set true).

(** What follows the checks: the algorithms of the tables. *)
Definition keep_table_algorithms ctx (v mel_specification : Z) (sel : selection_t) :
    libspdm_return_t * libspdm_context_t :=
  if SPDM_MESSAGE_VERSION_11 <=? v then
    let ctx := ctx <| ci_algorithm := set_algorithms (ci_algorithm ctx) (struct_table sel) |> in
    let status := check_table_algorithms ctx v mel_specification in
    if is_error status then (status, ctx)
    else if SPDM_MESSAGE_VERSION_13 <=? v then keep_multi_key_conn_req ctx
    else (LIBSPDM_STATUS_SUCCESS, ctx)
  else (LIBSPDM_STATUS_SUCCESS,
        ctx <| ci_algorithm := clear_table_algorithms (ci_algorithm ctx) |>).

Definition process_algorithms : process_response unit := λ ctx response,
  RETURN (LIBSPDM_STATUS_INVALID_MSG_SIZE, ctx, tt) IF blen response <? sizeof_spdm_message_header;;
  h ← read_header response;
  '(status, ctx) ← check_response_code ctx h SPDM_ALGORITHMS;
  RETURN (status, ctx, tt) IF is_error status;;
  let request := last_spdm_request (exchange ctx) in
  spdm_request ← read_header request;
  let v := spdm_version h in
  RETURN (LIBSPDM_STATUS_INVALID_MSG_FIELD, ctx, tt) IF negb (v =? spdm_version spdm_request);;
  checked ← check_algorithms_response v (param1 h) response;
  match checked with
  | inr status => Ret (status, ctx, tt)
  | inl (sel, size) =>
      message ← load request 0 (algorithms_request_size ctx);
      spdm_response ← load response 0 size;
      '(status, ctx) ← append_exchange ctx message spdm_response;
      RETURN (status, ctx, tt) IF is_error status;;
      let ctx := keep_algorithms ctx v sel in
      spec ← message_measurement_specification request;
      let status := check_algorithms ctx v spec in
      RETURN (status, ctx, tt) IF is_error status;;
      mel ← message_mel_specification request;
      let '(status, ctx) := keep_table_algorithms ctx v mel sel in
      RETURN (status, ctx, tt) IF is_error status;;
      Ret (LIBSPDM_STATUS_SUCCESS, set_exchange ctx (λ x,
        x <| connection_state := LIBSPDM_CONNECTION_STATE_NEGOTIATED |>), tt)
  end.

Definition libspdm_try_negotiate_algorithms (out : unit) ctx w : exec (exchanged * unit) :=
  RETURN (Exchanged LIBSPDM_STATUS_INVALID_STATE_LOCAL ctx w, out)
    IF bool_decide (connection_state (exchange ctx) ≠ LIBSPDM_CONNECTION_STATE_AFTER_CAPABILITIES);;
  let ctx := libspdm_reset_message_buffer_via_request_code ctx None SPDM_NEGOTIATE_ALGORITHMS in
  exchange_message build_negotiate_algorithms process_algorithms out ctx w.

Definition libspdm_negotiate_algorithms ctx w : exec exchanged :=
  '(r, _) ← with_retries libspdm_try_negotiate_algorithms tt ctx w;
  Ret r.

(** ** The set-up of a connection *)

Definition libspdm_init_connection ctx (get_version_only : bool) w : exec exchanged :=
  '(r, _) ← libspdm_get_version None ctx w;
  RETURN r IF is_error (ex_status r);;
  RETURN Exchanged LIBSPDM_STATUS_SUCCESS (ex_ctx r) (ex_world r) IF get_version_only;;
  r ← libspdm_get_capabilities (ex_ctx r) (ex_world r);
  RETURN r IF is_error (ex_status r);;
  r ← libspdm_negotiate_algorithms (ex_ctx r) (ex_world r);
  RETURN r IF is_error (ex_status r);;
  Ret (Exchanged LIBSPDM_STATUS_SUCCESS (ex_ctx r) (ex_world r)).

(** The last component is *spdm_version, where it is written. *)
Definition libspdm_get_supported_algorithms (out : algs_out) ctx w :
    exec (exchanged * algs_out * option Z) :=
  LIBSPDM_ASSERT (bool_decide (is_Some out.2));;
  LIBSPDM_ASSERT (bool_decide (is_Some out.1));;
  RETURN (Exchanged LIBSPDM_STATUS_UNSUPPORTED_CAP ctx w, out, None)
    IF negb (existsb (λ n, SPDM_MESSAGE_VERSION_13 <=? libspdm_get_version_from_version_number n)
               (lc_version ctx));;
  LIBSPDM_ASSERT (negb (Z.land (flags (lc_capability ctx))
                          SPDM_GET_CAPABILITIES_REQUEST_FLAGS_CHUNK_CAP =? 0));;
  '(r, _) ← libspdm_get_version None ctx w;
  RETURN (r, out, None) IF is_error (ex_status r);;
  let v := libspdm_get_connection_version (ex_ctx r) in
  RETURN (Exchanged LIBSPDM_STATUS_UNSUPPORTED_CAP (ex_ctx r) (ex_world r), out, Some v)
    IF v <? SPDM_MESSAGE_VERSION_13;;
  '(r, out) ← libspdm_get_capabilities_with_supported_algs out (ex_ctx r) (ex_world r);
  RETURN (r, out, Some v) IF is_error (ex_status r);;
  Ret (Exchanged LIBSPDM_STATUS_SUCCESS (ex_ctx r) (ex_world r), out, Some v).

End requester.

End Algorithms.
Export Algorithms.
