(* ===== verification/Maintenance.v ===== *)
(** * Maintenance: the requester's HEARTBEAT and END_SESSION

    libspdm_req_heartbeat.c and libspdm_req_end_session.c, over the services of
    [RequesterChannel]. *)

From S2P Require Import Prelude SpdmDefs CommonSupport CryptLib SecuredContext SecuredSession.
From S2P Require Import SpdmContext SessionTable Messages KeyUpdate.

Module Maintenance.

Section requester.
Context `{BuildConfig, CryptoHal} {channel : RequesterChannel}.
Implicit Types ctx : libspdm_context_t.
Implicit Types w : world.

(** The loops of libspdm_heartbeat and libspdm_send_receive_end_session: [retry]
    more attempts are made while the peer is busy. *)
Fixpoint retry_loop (try : libspdm_context_t → world → exec exchanged) ctx (retry : nat) w :
    exec exchanged :=
  r ← try ctx w;
  RETURN r IF bool_decide (ex_status r ≠ LIBSPDM_STATUS_BUSY_PEER);;
  match retry with
  | O => Ret r
  | S retry => retry_loop try (ex_ctx r) retry (ex_world r)
  end.

(** The checks on a response that is only a header: an ERROR, one with the
    expected code, or an invalid one. *)
Definition check_header_response ctx (session_id : Z) (response : list Z)
    (request_code_ expected_code : Z) w : exec exchanged :=
  let fail st := Exchanged st ctx w in
  RETURN fail LIBSPDM_STATUS_INVALID_MSG_SIZE IF blen response <? sizeof_spdm_message_header;;
  h ← read_header response;
  e ← (if request_response_code h =? SPDM_ERROR then
         libspdm_handle_error_response_main ctx (Some session_id) response request_code_
           expected_code w
       else Ret (Handled (if negb (request_response_code h =? expected_code)
                          then LIBSPDM_STATUS_INVALID_MSG_FIELD else LIBSPDM_STATUS_SUCCESS)
                   ctx response w));
  let ret st := Exchanged st (hd_ctx e) (hd_world e) in
  RETURN ret (hd_status e) IF is_error (hd_status e);;
  spdm_response ← read_header (hd_response e);
  spdm_request ← read_header (last_spdm_request (exchange (hd_ctx e)));
  RETURN ret LIBSPDM_STATUS_INVALID_MSG_FIELD
    IF negb (spdm_version spdm_response =? spdm_version spdm_request);;
  RETURN ret LIBSPDM_STATUS_INVALID_MSG_SIZE
    IF negb (blen (hd_response e) =? sizeof_spdm_message_header);;
  Ret (ret LIBSPDM_STATUS_SUCCESS).

(** Sending a request that is only a header in the session of slot [i], and
    checking the response; the receiver buffer stays with the caller when a
    response was received ([true]). *)
Definition exchange_header ctx (session_id : Z) (i : nat) (request_code_ param expected_code : Z) w :
    exec (exchanged * bool) :=
  let '(rng, d) := w in
  let '(status, d) := libspdm_acquire_sender_buffer d in
  RETURN (Exchanged status ctx (rng, d), false) IF is_error status;;
  LIBSPDM_ASSERT (sizeof_spdm_message_header <=? max_spdm_msg_size (lc_capability ctx));;
  let request := [libspdm_get_connection_version ctx; request_code_; param; 0] in
  '(status, ctx, (rng, d)) ← libspdm_send_spdm_request ctx (Some session_id) request (rng, d);
  let d := libspdm_release_sender_buffer d in
  RETURN (Exchanged status ctx (rng, d), false) IF is_error status;;
  let ctx := libspdm_reset_message_buffer_via_request_code ctx (Some i) request_code_ in
  let '(status, response, d) := libspdm_acquire_receiver_buffer d in
  RETURN (Exchanged status ctx (rng, d), false) IF is_error status;;
  '(status, ctx, response, w) ← libspdm_receive_spdm_response ctx (Some session_id) (rng, d);
  RETURN (Exchanged status ctx w, true) IF is_error status;;
  r ← check_header_response ctx session_id response request_code_ expected_code w;
  Ret (r, true).

Definition release_receiver (r : exchanged) (ctx : libspdm_context_t) : exchanged :=
  let '(rng, d) := ex_world r in
  Exchanged (ex_status r) ctx (rng, libspdm_release_receiver_buffer d).

(** ** HEARTBEAT *)

Definition libspdm_try_heartbeat (session_id : Z) ctx w : exec exchanged :=
  let fail st := Exchanged st ctx w in
  RETURN fail LIBSPDM_STATUS_UNSUPPORTED_CAP
    IF libspdm_get_connection_version ctx <? SPDM_MESSAGE_VERSION_11;;
  match libspdm_get_session_info_via_session_id ctx session_id with
  | None => Ret (fail LIBSPDM_STATUS_INVALID_PARAMETER)
  | Some i =>
      si ← slot ctx i;
      RETURN fail LIBSPDM_STATUS_UNSUPPORTED_CAP
        IF negb (libspdm_is_capabilities_flag_supported ctx true
                   SPDM_GET_CAPABILITIES_REQUEST_FLAGS_HBEAT_CAP
                   SPDM_GET_CAPABILITIES_RESPONSE_FLAGS_HBEAT_CAP);;
      RETURN fail LIBSPDM_STATUS_INVALID_STATE_LOCAL
        IF connection_state_below ctx LIBSPDM_CONNECTION_STATE_NEGOTIATED;;
      RETURN fail LIBSPDM_STATUS_INVALID_STATE_LOCAL
        IF bool_decide (session_state (secured_message_context si)
                        ≠ LIBSPDM_SESSION_STATE_ESTABLISHED);;
      RETURN fail LIBSPDM_STATUS_INVALID_STATE_LOCAL IF heartbeat_period si =? 0;;
      '(r, received) ← exchange_header ctx session_id i SPDM_HEARTBEAT 0 SPDM_HEARTBEAT_ACK w;
      Ret (if (received : bool) then release_receiver r (ex_ctx r) else r)
  end.

Definition libspdm_heartbeat ctx (session_id : Z) w : exec exchanged :=
  let ctx := set_exchange ctx (λ x, x <| crypto_request := true |>) in
  retry_loop (libspdm_try_heartbeat session_id) ctx (Z.to_nat (retry_times (exchange ctx))) w.

(** ** END_SESSION *)

(** The session is over on the requester's side. *)
Definition end_session ctx (session_id : Z) (i : nat) (attributes : Z) : exec libspdm_context_t :=
  si ← slot ctx i;
  let c := libspdm_secured_message_set_session_state (secured_message_context si)
             LIBSPDM_SESSION_STATE_NOT_STARTED in
  let ctx := set_slot ctx i (si <| end_session_attributes := attributes |>
                               <| secured_message_context := c |>) in
  libspdm_free_session_id ctx session_id.

Definition libspdm_try_send_receive_end_session (session_id end_session_attributes : Z) ctx w :
    exec exchanged :=
  let fail st := Exchanged st ctx w in
  RETURN fail LIBSPDM_STATUS_UNSUPPORTED_CAP
    IF libspdm_get_connection_version ctx <? SPDM_MESSAGE_VERSION_11;;
  RETURN fail LIBSPDM_STATUS_INVALID_STATE_LOCAL
    IF connection_state_below ctx LIBSPDM_CONNECTION_STATE_NEGOTIATED;;
  match libspdm_get_session_info_via_session_id ctx session_id with
  | None => LIBSPDM_ASSERT false;; Ret (fail LIBSPDM_STATUS_INVALID_STATE_LOCAL)
  | Some i =>
      si ← slot ctx i;
      RETURN fail LIBSPDM_STATUS_INVALID_STATE_LOCAL
        IF bool_decide (session_state (secured_message_context si)
                        ≠ LIBSPDM_SESSION_STATE_ESTABLISHED);;
      let attributes :=
        if libspdm_is_capabilities_flag_supported ctx true 0
             SPDM_GET_CAPABILITIES_RESPONSE_FLAGS_CACHE_CAP
        then end_session_attributes else 0 in
      '(r, received) ←
        exchange_header ctx session_id i SPDM_END_SESSION attributes SPDM_END_SESSION_ACK w;
      RETURN r IF negb received;;
      ctx ← (if is_error (ex_status r) then Ret (ex_ctx r)
             else end_session (ex_ctx r) session_id i attributes);
      Ret (release_receiver r ctx)
  end.

Definition libspdm_send_receive_end_session ctx (session_id end_session_attributes : Z) w :
    exec exchanged :=
  let ctx := set_exchange ctx (λ x, x <| crypto_request := true |>) in
  retry_loop (libspdm_try_send_receive_end_session session_id end_session_attributes) ctx
    (Z.to_nat (retry_times (exchange ctx))) w.

End requester.
End Maintenance.
Export Maintenance.
