(* ===== verification/Transport.v ===== *)
(** * Transport: the interface of the transport bindings, and the transport
    layer of the bindings that wrap application messages

    A binding frames SPDM and secured messages ([TransportBinding]); what the
    layer above relies on are the laws of [TransportBindingOk], which the file
    Bindings discharges for MCTP, TCP and PCI DOE.  The functions
    libspdm_transport_mctp_encode_message and libspdm_transport_tcp_encode_message
    (libspdm_mctp_common.c, libspdm_tcp_common.c) are the same code over their
    binding, and so are the two decoders: they are [wrapped_encode_message] and
    [wrapped_decode_message] here.

    Memories: the message of the caller lies in a buffer [msg] at an offset,
    with room in front of it for the headers; *transport_message of an encoding
    is a second buffer [buf]; a decoding reads the received frame and writes
    the caller's buffer [app], the target of message. *)

From S2P Require Import Prelude SpdmDefs CommonSupport CryptLib SecuredContext.
From S2P Require Import SecuredMessage SpdmContext SessionTable.

(** include/library/spdm_secured_message_lib.h *)
Definition SPDM_ERROR_CODE_INVALID_SESSION : Z := 0x02.

(** ** The interface *)

(** What a framing leaves behind: the memory around the message, and
    *transport_message as an offset in it ([None]: not assigned). *)
Record framed : Type := Framed {
  f_status : libspdm_return_t;
  f_mem : list Z;
  f_ptr : option Z;
  f_size : Z;            (* *transport_message_size *)
}.

(** What the inverse leaves behind.  The argument [session_id] of type
    uint32_t ** is [None] when NULL, [Some p] when *session_id is [p], and the
    pointer p is NULL ([None]) or an offset in the received memory. *)
Record unframed : Type := Unframed {
  u_status : libspdm_return_t;
  u_session : option (option Z);
  u_message : option (Z * Z);      (* *message and *message_size, if assigned *)
}.

Class TransportBinding `{BuildConfig} : Type := {
  (** size of the header, and of the space left in front of a secured message *)
  tb_header_size : Z;
  tb_secured_header_size : Z;
  (** session_id, need_alignment, message_size, memory, message, *transport_message_size *)
  tb_encode_message : option Z → bool → Z → list Z → Z → Z → exec framed;
  (** session_id, need_alignment, transport_message_size, memory, transport_message *)
  tb_decode_message : option (option Z) → bool → Z → list Z → Z → exec unframed;
  tb_callbacks : libspdm_secured_message_callbacks_t;
}.

Definition is_secured {A} (sid : option A) : bool :=
  match sid with Some _ => true | None => false end.

(** The laws: a frame is a header, the message and zeros up to the alignment;
    encoding produces exactly that, decoding inverts it and is safe on any
    bytes. *)
Class TransportBindingOk `{BuildConfig} (B : TransportBinding) : Type := {
  tb_frame_header : bool → Z → list Z;
  tb_padded : Z → Z;
  tb_limit : Z;
  tb_sizes : 0 < tb_header_size ≤ tb_secured_header_size ∧ tb_secured_header_size ≤ 16;
  tb_limit_ok : tb_limit < 2 ^ 61;
  tb_pad n : 0 ≤ n < 2 ^ 62 → n ≤ tb_padded n < n + 16 ∧ tb_padded (tb_padded n) = tb_padded n;
  tb_pad_mono a b : 0 ≤ a → a ≤ b → b < 2 ^ 62 → tb_padded a ≤ tb_padded b;
  tb_header_ok b n : blen (tb_frame_header b n) = tb_header_size ∧ bytes_ok (tb_frame_header b n);
  tb_cb : PacketFacts.cb_ok tb_callbacks;
  tb_encode_ok sid al size mem off cap :
    let n := tb_header_size + tb_padded size in
    tb_header_size ≤ off → 0 ≤ size → size < 2 ^ 62 → off + tb_padded size ≤ blen mem →
    n ≤ cap → n ≤ tb_limit →
    (∀ s, sid = Some s → 4 ≤ size ∧ le_val (sub mem off 4) = s) →
    ∃ mem', tb_encode_message sid al size mem off cap =
        Ret (Framed LIBSPDM_STATUS_SUCCESS mem' (Some (off - tb_header_size)) n) ∧
      length mem' = length mem ∧
      sub mem' (off - tb_header_size) n =
        tb_frame_header (is_secured sid) n ++ sub mem off size ++ zeros (tb_padded size - size);
  tb_decode_ok p al mem off b payload :
    let n := tb_header_size + blen payload in
    0 ≤ off → off + n ≤ blen mem → n ≤ tb_limit →
    sub mem off n = tb_frame_header b n ++ payload →
    0 < blen payload → (b = true → 4 < blen payload) → tb_padded (blen payload) = blen payload →
    tb_decode_message (Some p) al n mem off =
      Ret (Unframed LIBSPDM_STATUS_SUCCESS
             (Some (if b then Some (off + tb_header_size) else None))
             (Some (off + tb_header_size, blen payload)));
  tb_decode_safe p al n mem off :
    0 ≤ off → tb_header_size < n → off + n ≤ blen mem → n < 2 ^ 63 → bytes_ok mem →
    ∃ u, tb_decode_message (Some p) al n mem off = Ret u ∧
      (u_status u = LIBSPDM_STATUS_SUCCESS ∧
       u_message u = Some (off + tb_header_size, n - tb_header_size) ∧
       (u_session u = Some None ∨
        u_session u = Some (Some (off + tb_header_size)) ∧ tb_header_size + 4 < n) ∨
       LIBSPDM_STATUS_IS_ERROR (u_status u) = true ∧ u_message u = None);
  tb_decode_short p al n mem off :
    n ≤ tb_header_size →
    tb_decode_message p al n mem off =
      (LIBSPDM_ASSERT false;; Ret (Unframed LIBSPDM_STATUS_INVALID_MSG_SIZE p None));
}.

(** A binding that never pads. *)
Class Unpadded `{BuildConfig} (B : TransportBinding) {Ok : TransportBindingOk B} : Prop :=
  unpadded n : tb_padded n = n.

(** ** The transport layer *)

Module Transport.
Section transport.
Context `{BuildConfig, CryptoHal}.
Implicit Types ctx : libspdm_context_t.

(** Where *transport_message points after an encoding. *)
Inductive transport_ptr : Set :=
| InMessage (off : Z)
| InBuffer (off : Z).

Record transport_encoded : Type := TransportEncoded {
  te_status : libspdm_return_t;
  te_ctx : libspdm_context_t;
  te_msg : list Z;         (* the memory around the message *)
  te_buf : list Z;         (* the transport buffer *)
  te_ptr : transport_ptr;  (* *transport_message *)
  te_size : Z;             (* *transport_message_size *)
  te_rng : rng_state;
}.

(** Where *message points after a decoding. *)
Inductive received_ptr : Set :=
| InCaller (off : Z)
| InTransport (off : Z).

Record transport_decoded : Type := TransportDecoded {
  td_status : libspdm_return_t;
  td_ctx : libspdm_context_t;
  td_session : option (option Z);   (* *session_id, if assigned *)
  td_is_app : option bool;          (* *is_app_message, if assigned *)
  td_app : list Z;                  (* the caller's buffer *)
  td_ptr : received_ptr;            (* *message *)
  td_size : Z;                      (* *message_size *)
}.

(** The secured message context a lookup returns is the one inside the slot. *)
Definition put_secured_message_context ctx (sid : Z) (c : libspdm_secured_message_context_t) :
    libspdm_context_t :=
  match libspdm_get_session_info_via_session_id ctx sid with
  | Some i =>
      match session_info ctx !! i with
      | Some si =>
          ctx <| session_info := <[i := si <| secured_message_context := c |>]> (session_info ctx) |>
      | None => ctx
      end
  | None => ctx
  end.

(** The pointer and size of the application message after a secured message
    at [moff] of the frame was decoded. *)
Definition app_ptr (moff : Z) (d : decoded) : received_ptr :=
  match d_ptr d with
  | InApp o => InCaller o
  | InSecured o => InTransport (moff + o)
  end.

Section wrapped.
Context {binding : TransportBinding}.

(** A message that is already an application message stays; an SPDM message
    becomes one with a header in front: error status, or its memory, offset and
    size. *)
Definition to_app_message (is_app_message : bool) (message_size : Z) (msg : list Z) (off : Z) :
    exec (libspdm_return_t * list Z * Z * Z) :=
  if is_app_message then Ret (LIBSPDM_STATUS_SUCCESS, msg, off, message_size)
  else
    f ← tb_encode_message None false message_size msg off (size_t (tb_header_size + message_size));
    Ret (f_status f, f_mem f, default 0 (f_ptr f), f_size f).

Definition wrapped_encode_message ctx (session_id : option Z)
    (is_app_message is_request_message : bool) (message_size : Z) (msg : list Z) (off : Z)
    (transport_message_size : Z) (buf : list Z) (rng : rng_state) : exec transport_encoded :=
  let fail st ctx msg buf rng :=
    TransportEncoded st ctx msg buf (InBuffer 0) transport_message_size rng in
  RETURN fail LIBSPDM_STATUS_UNSUPPORTED_CAP ctx msg buf rng
    IF is_app_message && negb (is_secured session_id);;
  match session_id with
  | Some sid =>
      match libspdm_get_secured_message_context_via_session_id ctx sid with
      | None => Ret (fail LIBSPDM_STATUS_UNSUPPORTED_CAP ctx msg buf rng)
      | Some c =>
          '(st, msg, app_off, app_size) ← to_app_message is_app_message message_size msg off;
          RETURN fail st ctx msg buf rng IF LIBSPDM_STATUS_IS_ERROR st;;
          let hdr := tb_secured_header_size in
          e ← libspdm_encode_secured_message c sid is_request_message app_size msg app_off
                (size_t (transport_message_size - hdr)) (drop (Z.to_nat hdr) buf)
                tb_callbacks rng;
          let ctx := put_secured_message_context ctx sid (e_ctx e) in
          let buf := take (Z.to_nat hdr) buf ++ e_msg e in
          RETURN fail (e_status e) ctx (e_app e) buf (e_rng e)
            IF LIBSPDM_STATUS_IS_ERROR (e_status e);;
          f ← tb_encode_message (Some sid) true (e_size e) buf hdr transport_message_size;
          Ret (TransportEncoded
                 (if LIBSPDM_STATUS_IS_ERROR (f_status f) then f_status f else LIBSPDM_STATUS_SUCCESS)
                 ctx (e_app e) (f_mem f)
                 (InBuffer (default 0 (f_ptr f))) (f_size f) (e_rng e))
      end
  | None =>
      f ← tb_encode_message None true message_size msg off transport_message_size;
      Ret (TransportEncoded
             (if LIBSPDM_STATUS_IS_ERROR (f_status f) then f_status f else LIBSPDM_STATUS_SUCCESS)
             ctx (f_mem f) buf
             (match f_ptr f with Some p => InMessage p | None => InBuffer 0 end) (f_size f) rng)
  end.

(** The last step of decoding in a session: the application message at
    [InCaller o] or [InTransport o], [size] bytes, is unwrapped if it is an SPDM
    message. *)
Definition from_app_message ctx (session : option Z) (frame app : list Z) (ptr : received_ptr)
    (size : Z) : exec transport_decoded :=
  let ret st is_app ptr size :=
    TransportDecoded st ctx (Some session) (Some is_app) app ptr size in
  u ← match ptr with
      | InCaller o => tb_decode_message (Some session) false size app o
      | InTransport o => tb_decode_message (Some session) false size frame o
      end;
  if LIBSPDM_STATUS_IS_ERROR (u_status u) then
    Ret (ret LIBSPDM_STATUS_SUCCESS true ptr size)
  else
    let '(o, n) := default (0, 0) (u_message u) in
    let ptr := match ptr with InCaller _ => InCaller o | InTransport _ => InTransport o end in
    match u_session u with
    | Some (Some _) => Ret (ret LIBSPDM_STATUS_UNSUPPORTED_CAP false ptr n)
    | _ => Ret (ret LIBSPDM_STATUS_SUCCESS false ptr n)
    end.

(** [session_id] and [is_app_message] tell whether these pointers are not NULL. *)
Definition wrapped_decode_message ctx (session_id is_app_message is_request_message : bool)
    (transport_message_size : Z) (frame : list Z) (message_size : Z) (app : list Z) :
    exec transport_decoded :=
  let ctx := libspdm_set_last_spdm_error_struct ctx (Build_error_struct 0 0) in
  let ret st ctx session app :=
    TransportDecoded st ctx session None app (InCaller 0) message_size in
  RETURN ret LIBSPDM_STATUS_UNSUPPORTED_CAP ctx None app
    IF negb session_id || negb is_app_message;;
  u ← tb_decode_message (Some None) true transport_message_size frame 0;
  RETURN ret (u_status u) ctx None app IF LIBSPDM_STATUS_IS_ERROR (u_status u);;
  let '(moff, msize) := default (0, 0) (u_message u) in
  match u_session u with
  | Some (Some p) =>
      sid ← load_le 4 frame p;
      match libspdm_get_secured_message_context_via_session_id ctx sid with
      | None =>
          let spdm_error := Build_error_struct SPDM_ERROR_CODE_INVALID_SESSION sid in
          Ret (ret LIBSPDM_STATUS_UNSUPPORTED_CAP
                 (libspdm_set_last_spdm_error_struct ctx spdm_error) (Some (Some p)) app)
      | Some c =>
          d ← libspdm_decode_secured_message c sid is_request_message msize
                (drop (Z.to_nat moff) frame) message_size app tb_callbacks;
          let ctx := put_secured_message_context ctx sid (d_ctx d) in
          if LIBSPDM_STATUS_IS_ERROR (d_status d) then
            let spdm_error := libspdm_secured_message_get_last_spdm_error_struct (d_ctx d) in
            Ret (ret (d_status d) (libspdm_set_last_spdm_error_struct ctx spdm_error)
                   (Some (Some p)) (d_app d))
          else from_app_message ctx (Some p) frame (d_app d) (app_ptr moff d) (d_size d)
      end
  | _ =>
      u ← tb_decode_message (Some None) true transport_message_size frame 0;
      RETURN ret (u_status u) ctx None app IF LIBSPDM_STATUS_IS_ERROR (u_status u);;
      LIBSPDM_ASSERT (bool_decide (u_session u = Some None));;
      let '(moff, msize) := default (0, 0) (u_message u) in
      Ret (TransportDecoded LIBSPDM_STATUS_SUCCESS ctx (Some None) (Some false) app
             (InTransport moff) msize)
  end.

End wrapped.
End transport.
End Transport.
Export Transport.

(** ** Facts about the layer, against the interface *)
Module TransportFacts.
Import ContextFacts NonceFacts PacketFacts RunFacts TableFacts.

Section lookup.
Context `{BuildConfig}.
Implicit Types ctx : libspdm_context_t.

(** A session that is found is in its slot, and storing its context there is
    seen by the next lookup. *)
Lemma lookup_put ctx sid c0 c :
  libspdm_get_secured_message_context_via_session_id ctx sid = Some c0 →
  libspdm_get_secured_message_context_via_session_id
    (put_secured_message_context ctx sid c) sid = Some c.
Proof.
  unfold libspdm_get_secured_message_context_via_session_id, put_secured_message_context,
    libspdm_get_session_info_via_session_id. destruct (sid =? INVALID_SESSION_ID); [done|].
  destruct (find_slot sid (session_info ctx) 0) as [i|] eqn:E; [|done].
  destruct (session_info ctx !! i) as [si|] eqn:Es; [|done]. intros _. cbn [session_info].
  change (session_info (ctx <| session_info := ?x |>)) with x.
  assert (Hf : find_slot sid (<[i := si <| secured_message_context := c |>]> (session_info ctx)) 0 =
    Some i) by (rewrite (find_slot_same _ i si); done).
  match goal with |- context [find_slot sid ?l 0] =>
    change l with (<[i := si <| secured_message_context := c |>]> (session_info ctx)) end.
  rewrite Hf. change (session_info (set_field ?f ?g ?r)) with (g (session_info r)).
  rewrite list_lookup_insert_eq by (by eapply lookup_lt_Some). done.
Qed.

End lookup.

Section secured.
Context `{BuildConfig, CryptoHal, !CryptoHalOk} (B : TransportBinding) `{!TransportBindingOk B}.

(** A record starts with the session id, and is never empty or long. *)
Lemma sealed_head c alg cb rq sid e wire m :
  cb_ok cb → sealed c alg cb rq sid e wire m →
  sub wire 0 4 = le_bytes 4 sid ∧ 22 ≤ blen wire < 2 ^ 17.
Proof.
  intros [Hcb _] (key & salt & n & _ & Hs). cbv zeta in Hs. destruct (Hcb n) as [Hn _].
  set (seq := get_sequence_number cb n) in *.
  assert (Hpre : ∀ x t, sub (le_bytes 4 sid ++ x ++ t) 0 4 = le_bytes 4 sid).
  { intros x t. unfold sub. by rewrite drop_0. }
  destruct (session_type c); try done.
  - destruct Hs as (x & tag & Hl & Htag & _ & ->).
    split; [unfold header; rewrite <- !app_assoc; apply Hpre|].
    rewrite !length_app. pose proof (length_header sid seq (16 + blen m)). lia.
  - destruct Hs as (pad & x & tag & Hl & Htag & Henc & -> & _).
    split; [unfold header; rewrite <- !app_assoc; apply Hpre|].
    match type of Henc with hal_aead_encrypt ?a ?k ?v ?d ?p ?t = _ =>
      pose proof (encrypt_out a k v d p t) as [Hx _]; [lia|] end.
    rewrite Henc in Hx. cbn [fst snd] in Hx. apply (f_equal Z.of_nat) in Hx; rewrite length_enc_plaintext in Hx.
    rewrite !length_app. pose proof (length_header sid seq (18 + blen m + blen pad)). lia.
Qed.

(** Sending: the secured message is written behind the space for the header,
    and framed. *)
Lemma seal_and_frame c sid rq size msg off tsize buf rng al alg key salt seqn :
  let hs := tb_secured_header_size in
  let h := tb_header_size in
  ready c alg → major_version_ok c tb_callbacks = true → is_u32 sid →
  select_keys c rq = Some (key, salt, seqn) → exhausted c seqn = false →
  2 ≤ off → 0 ≤ size → off + size + max_padding tb_callbacks ≤ blen msg →
  hs + 32 + size + max_padding tb_callbacks ≤ tsize → tsize ≤ blen buf → tsize ≤ tb_limit →
  18 + size + max_padding tb_callbacks < 2 ^ 16 → tb_padded (tsize - hs) = tsize - hs →
  ∃ e, libspdm_encode_secured_message c sid rq size msg off (size_t (tsize - hs))
         (drop (Z.to_nat hs) buf) tb_callbacks rng = Ret e ∧
    e_ctx e = increment_sequence_number c rq ∧
    (no_seal (e_status e) ∨
     e_status e = LIBSPDM_STATUS_SUCCESS ∧ ∃ mem' wire,
       let n := h + tb_padded (blen wire) in
       e_size e = blen wire ∧
       tb_encode_message (Some sid) al (e_size e) (take (Z.to_nat hs) buf ++ e_msg e) hs tsize =
         Ret (Framed LIBSPDM_STATUS_SUCCESS mem' (Some (hs - h)) n) ∧
       0 ≤ hs - h ∧ n ≤ tsize ∧ hs - h + n ≤ blen mem' ∧
       sub mem' (hs - h) n =
         tb_frame_header true n ++ wire ++ zeros (tb_padded (blen wire) - blen wire) ∧
       sealed c alg tb_callbacks rq sid (sequence_number_endian c) wire (sub msg off size)).
Proof.
  intros hs h Hr Hv Hsid Hk Hx Ho Hsz Hmsg Hts Hbuf Hlim H16 Hpad.
  pose proof tb_sizes as [Hh Hhs]. fold h hs in Hh, Hhs. pose proof tb_limit_ok as Hlo.
  pose proof tb_cb as Hcb. assert (Hmp : 0 ≤ max_padding tb_callbacks)
    by (destruct Hcb; unfold max_padding; lia).
  rewrite size_t_small by lia.
  destruct (encode_spec c tb_callbacks sid rq msg off size (drop (Z.to_nat hs) buf) (tsize - hs)
    rng alg key salt seqn) as (e & E & Hc & Hl & Hout); try done; try lia.
  { rewrite length_drop. lia. }
  exists e. split; [done|]. split; [done|].
  destruct Hout as [?|(Hst & Hes & He0 & Hseal)]; [by left|]. right.
  split; [done|]. rewrite length_drop in Hl.
  set (wire := sub (e_msg e) 0 (e_size e)) in *.
  assert (Hw : blen wire = e_size e) by (unfold wire; rewrite length_sub by range; lia).
  set (buf' := take (Z.to_nat hs) buf ++ e_msg e).
  assert (Hlb : length buf' = length buf) by (unfold buf'; rewrite length_app, length_take; lia).
  assert (Hsub : ∀ k, 0 ≤ k ≤ e_size e → sub buf' hs k = sub (e_msg e) 0 k).
  { intros k Hk'. unfold buf', sub. f_equal. rewrite drop_0, drop_app_length'; [done|].
    rewrite length_take. lia. }
  destruct (sealed_head _ _ _ _ _ _ _ _ Hcb Hseal) as [Hhead Hw22].
  destruct (tb_pad (e_size e)) as [Hp _]; [lia|].
  pose proof (tb_pad_mono (e_size e) (tsize - hs) He0 Hes ltac:(lia)) as Hmono.
  rewrite Hpad in Hmono.
  destruct (tb_encode_ok (Some sid) al (e_size e) buf' hs tsize) as (mem' & Hen & Hlm & Hsm);
    [lia..|intros s [= <-]; split; [lia|]|].
  { rewrite Hsub by lia. pose proof (sub_sub (e_msg e) 0 (e_size e) 0 4) as Hss. change (0 + 0) with 0 in Hss. rewrite <- Hss by lia. fold wire.
    rewrite Hhead, le_val_bytes. apply Z.mod_small. apply Hsid. }
  exists mem', wire. cbv zeta. rewrite Hw. fold h in Hen, Hsm. split; [done|].
  split; [done|]. split; [lia|]. split; [lia|]. split; [lia|].
  split; [|done]. rewrite Hsm, Hsub by lia. done.
Qed.

(** Receiving: a frame of a sealed message is recognized, and the receiver that
    agrees on the keys opens it. *)
Lemma unframe_and_open cs cr sid rq wire m al alg key salt seqn asize app :
  let h := tb_header_size in
  let n := h + tb_padded (blen wire) in
  let payload := wire ++ zeros (tb_padded (blen wire) - blen wire) in
  let frame := tb_frame_header true n ++ payload in
  ready cr alg → major_version_ok cr tb_callbacks = true → agree cs cr rq → is_u32 sid →
  select_keys cs rq = Some (key, salt, seqn) → exhausted cr seqn = false →
  bytes_ok m → bytes_ok app → n ≤ asize ≤ blen app → n ≤ tb_limit → asize < 2 ^ 64 →
  sealed cs alg tb_callbacks rq sid (sequence_number_endian cs) wire m →
  blen frame = n ∧
  tb_decode_message (Some None) al n frame 0 =
    Ret (Unframed LIBSPDM_STATUS_SUCCESS (Some (Some h)) (Some (h, blen payload))) ∧
  load_le 4 frame h = Ret sid ∧ drop (Z.to_nat h) frame = payload ∧
  ∃ d, libspdm_decode_secured_message cr sid rq (blen payload) payload asize app tb_callbacks = Ret d ∧
    d_status d = LIBSPDM_STATUS_SUCCESS ∧ delivered d payload = m ∧ within d payload ∧
    d_size d = blen m ∧
    select_keys (d_ctx d) rq = Some (key, salt, u64 (seqn + 1)) ∧
    last_spdm_error (d_ctx d) = Build_error_struct 0 0 ∧
    same_but_error (increment_sequence_number cr rq) (d_ctx d).
Proof.
  intros h n payload frame Hr Hv Hag Hsid Hk Hx Hbm Hba Ha Hlim H64 Hseal.
  pose proof tb_sizes as [Hh Hhs]. fold h in Hh. pose proof tb_limit_ok as Hlo.
  pose proof tb_cb as Hcb.
  destruct (sealed_head _ _ _ _ _ _ _ _ Hcb Hseal) as [Hhead Hw22].
  destruct (tb_pad (blen wire)) as [Hp Hidem]; [lia|].
  assert (Hlz : blen (zeros (tb_padded (blen wire) - blen wire)) =
    tb_padded (blen wire) - blen wire) by (rewrite length_zeros; lia).
  assert (Hlp : blen payload = tb_padded (blen wire)) by (unfold payload; rewrite length_app; lia).
  destruct (tb_header_ok true n) as [Hlh _]. fold h in Hlh.
  assert (Hlf : blen frame = n) by (unfold frame; rewrite length_app, Nat2Z.inj_add, Hlh, Hlp; done).
  split; [done|]. rewrite Hlp.
  assert (Hdrop : drop (Z.to_nat h) frame = payload)
    by (unfold frame; apply drop_app_length'; lia).
  split.
  { pose proof (tb_decode_ok None al frame 0 true payload) as Hd. cbv zeta in Hd.
    rewrite Hlp in Hd. fold h in Hd. fold n in Hd. rewrite Z.add_0_l in Hd.
    apply Hd; try done; try lia. transitivity (sub frame 0 (blen frame)); [by rewrite Hlf|apply sub_all]. }
  split.
  { unfold load_le. rewrite load_in by (rewrite in_range_iff; lia). cbn [mbind exec_bind].
    unfold sub. rewrite Hdrop. unfold payload.
    change (Z.of_nat 4) with 4. unfold sub in Hhead. rewrite drop_0 in Hhead.
    rewrite take_app_le by lia. rewrite Hhead, le_val_bytes. f_equal. by apply Z.mod_small. }
  split; [done|]. rewrite <- Hlp.
  destruct (sealed_decodes cs cr alg tb_callbacks rq sid (sequence_number_endian cs) wire
    (zeros (tb_padded (blen wire) - blen wire)) m key salt seqn asize app)
    as (d & E & D1 & D2 & D3 & D4 & _ & D5 & D6 & D7); try done; try lia.
  { unfold zeros. auto with word. }
  { fold payload. lia. }
  by exists d.
Qed.
(** The message a caller of the decoder finds. *)
Definition received_message (td : transport_decoded) (frame : list Z) : list Z :=
  match td_ptr td with
  | InCaller o => sub (td_app td) o (td_size td)
  | InTransport o => sub frame o (td_size td)
  end.

Lemma sub_drop m (k : nat) o n : 0 ≤ o → sub (drop k m) o n = sub m (Z.of_nat k + o) n.
Proof. intros Ho. unfold sub. rewrite drop_drop. do 2 f_equal. lia. Qed.

(** The wrapped SPDM message comes out of the application message. *)
Lemma unwrap_ok ctx sess frame payload d m :
  let h := tb_header_size in
  drop (Z.to_nat h) frame = payload → within d payload →
  delivered d payload = tb_frame_header false (h + blen m) ++ m → d_size d = h + blen m →
  0 < blen m → h + blen m ≤ tb_limit → tb_padded (blen m) = blen m →
  ∃ td, from_app_message ctx sess frame (d_app d) (app_ptr h d) (d_size d) = Ret td ∧
    td_status td = LIBSPDM_STATUS_SUCCESS ∧ td_ctx td = ctx ∧ td_session td = Some sess ∧
    td_is_app td = Some false ∧ received_message td frame = m.
Proof.
  intros h Hdrop Hin Hdel Hsz Hm Hlim Hpad. pose proof tb_sizes as [Hh _]. fold h in Hh.
  destruct (tb_header_ok false (h + blen m)) as [Hlh _]. fold h in Hlh.
  unfold from_app_message, app_ptr, received_message. unfold within in Hin.
  unfold delivered in Hdel. rewrite Hsz in *.
  assert (Htail : ∀ mem o, in_range mem o (h + blen m) = true →
    sub mem o (h + blen m) = tb_frame_header false (h + blen m) ++ m →
    sub mem (o + h) (blen m) = m).
  { intros mem o Hr Hs. rewrite in_range_iff in Hr.
    destruct (sub_split mem o _ _ _ Hs) as (_ & _ & Ht); [lia..|].
    rewrite Hlh in Ht. by replace (h + blen m - h) with (blen m) in Ht by lia. }
  destruct (d_ptr d) as [o|o].
  - destruct Hin as [Hin _]. pose proof Hin as Hin'. rewrite in_range_iff in Hin'.
    pose proof (tb_decode_ok sess false (d_app d) o false m) as Hd. cbv zeta in Hd. fold h in Hd.
    rewrite Hd by (done || lia).
    cbn [mbind exec_bind u_status u_message u_session default from_option].
    rewrite success_not_error. eexists. split; [reflexivity|]. cbn. auto 8.
  - pose proof Hin as Hin'. rewrite in_range_iff in Hin'. rewrite <- Hdrop in Hin', Hdel.
    rewrite length_drop in Hin'. rewrite sub_drop in Hdel by lia.
    rewrite Z2Nat.id in Hdel by lia.
    pose proof (tb_decode_ok sess false frame (h + o) false m) as Hd. cbv zeta in Hd. fold h in Hd.
    rewrite Hd by (done || lia).
    cbn [mbind exec_bind u_status u_message u_session default from_option].
    rewrite success_not_error. eexists. split; [reflexivity|]. cbn.
    repeat (split; [done|]). apply Htail; [|done]. rewrite in_range_iff. lia.
Qed.

End secured.
End TransportFacts.
