(* ===== verification/InPlace.v ===== *)
(** * InPlace: sealing a message that already lies in the output buffer

    libspdm_encode_secured_message takes the application message and the secured
    message as two pointers.  SecuredMessage models them as two memories, which
    is how the MCTP, TCP and PCI DOE transports call it.  The storage transport
    moves the application message into the transport buffer first, so both
    pointers point into one memory: this file models that call, byte copies and
    all, over a single memory whose offset 0 is secured_message.

    libspdm_copy_mem is the copy of os_stub/memlib/copy_mem.c.  The AEAD of the
    HAL takes its plaintext before it writes its ciphertext. *)

From S2P Require Import Prelude SpdmDefs CommonSupport CryptLib SecuredContext.
From S2P Require Import SecuredMessage.

Module InPlace.
Import Message.

Section copy.
Context `{BuildConfig}.

(** The copy loop, ascending. *)
Fixpoint copy_bytes (src_len : nat) (mem : list Z) (dst src : Z) : exec (list Z) :=
  match src_len with
  | O => Ret mem
  | S src_len =>
      b ← load mem src 1;
      mem ← store mem dst b;
      copy_bytes src_len mem (dst + 1) (src + 1)
  end.

Definition overlap (dst src src_len : Z) : bool :=
  ((src <? dst) && (dst <? src + src_len)) || ((dst <? src) && (src <? dst + src_len)).

(** Both buffers in one memory. *)
Definition libspdm_copy_mem (mem : list Z) (dst dst_len src src_len : Z) : exec (list Z) :=
  LIBSPDM_ASSERT (negb (overlap dst src src_len));;
  LIBSPDM_ASSERT (negb (dst_len <? src_len));;
  copy_bytes (Z.to_nat src_len) mem dst src.

End copy.

Section message.
Context `{BuildConfig, CryptoHal}.
Implicit Types ctx : libspdm_secured_message_context_t.

(** The fields [e_msg] and [e_app] of the result are the one memory. *)
Definition encode_enc_mac_in_place ctx (cb : libspdm_secured_message_callbacks_t)
    (session_id : Z) (key iv seq_hdr : list Z) (n : Z)
    (mem : list Z) (app_off app_size msg_size : Z) (rng : rng_state) : exec encoded :=
  let record_header_size :=
    spdm_secured_message_a_data_header1_t + n + spdm_secured_message_a_data_header2_t in
  let max_rand_count := get_max_random_number_count cb in
  let '(result, rand_count, rng) :=
    if negb (max_rand_count =? 0) then
      let '(ok, b, rng) := libspdm_get_random_number 4 rng in
      (ok, u8 (u32 (le_val b mod max_rand_count + 1)), rng)
    else (true, 0, rng) in
  RETURN Encoded LIBSPDM_STATUS_LOW_ENTROPY ctx mem msg_size mem rng IF negb result;;
  let cipher_text_size :=
    size_t (spdm_secured_message_cipher_header_t + app_size + rand_count) in
  let total_secured_message_size :=
    size_t (record_header_size + cipher_text_size + aead_tag_size ctx) in
  LIBSPDM_ASSERT (total_secured_message_size <=? msg_size);;
  RETURN Encoded LIBSPDM_STATUS_BUFFER_TOO_SMALL ctx mem total_secured_message_size mem rng
    IF msg_size <? total_secured_message_size;;
  let msg_size := total_secured_message_size in
  mem ← write_record_header mem session_id seq_hdr n
          (u16 (cipher_text_size + aead_tag_size ctx));
  let enc_msg_header := app_off - spdm_secured_message_cipher_header_t in
  mem ← store mem enc_msg_header (le_bytes 2 (u16 app_size));
  let '(result, padding, rng) := libspdm_get_random_number rand_count rng in
  mem ← store mem (app_off + app_size) padding;
  RETURN Encoded LIBSPDM_STATUS_LOW_ENTROPY ctx mem msg_size mem rng IF negb result;;
  a_data ← load mem 0 record_header_size;
  dec_msg ← load mem enc_msg_header cipher_text_size;
  '(result, enc_msg, tag) ←
    libspdm_aead_encryption (aead_cipher_suite ctx) key iv a_data dec_msg (aead_tag_size ctx);
  mem ← store mem record_header_size enc_msg;
  mem ← store mem (record_header_size + cipher_text_size) tag;
  RETURN Encoded LIBSPDM_STATUS_CRYPTO_ERROR ctx mem msg_size mem rng IF negb result;;
  Ret (Encoded LIBSPDM_STATUS_SUCCESS ctx mem msg_size mem rng).

Definition encode_mac_only_in_place ctx
    (session_id : Z) (key iv seq_hdr : list Z) (n : Z)
    (mem : list Z) (app_off app_size msg_size : Z) (rng : rng_state) : exec encoded :=
  let record_header_size :=
    spdm_secured_message_a_data_header1_t + n + spdm_secured_message_a_data_header2_t in
  let total_secured_message_size :=
    size_t (record_header_size + app_size + aead_tag_size ctx) in
  LIBSPDM_ASSERT (total_secured_message_size <=? msg_size);;
  RETURN Encoded LIBSPDM_STATUS_BUFFER_TOO_SMALL ctx mem total_secured_message_size mem rng
    IF msg_size <? total_secured_message_size;;
  let msg_size := total_secured_message_size in
  mem ← write_record_header mem session_id seq_hdr n (u16 (app_size + aead_tag_size ctx));
  mem ← libspdm_copy_mem mem record_header_size (size_t (msg_size - record_header_size))
          app_off app_size;
  a_data ← load mem 0 (record_header_size + app_size);
  '(result, _, tag) ←
    libspdm_aead_encryption (aead_cipher_suite ctx) key iv a_data [] (aead_tag_size ctx);
  mem ← store mem (record_header_size + app_size) tag;
  RETURN Encoded LIBSPDM_STATUS_CRYPTO_ERROR ctx mem msg_size mem rng IF negb result;;
  Ret (Encoded LIBSPDM_STATUS_SUCCESS ctx mem msg_size mem rng).

Definition encode_secured_message_in_place ctx (session_id : Z) (is_request_message : bool)
    (app_message_size : Z) (mem : list Z) (app_off secured_message_size : Z)
    (cb : libspdm_secured_message_callbacks_t) (rng : rng_state) : exec encoded :=
  let fail st := Encoded st ctx mem secured_message_size mem rng in
  RETURN fail LIBSPDM_STATUS_UNSUPPORTED_CAP IF negb (major_version_ok ctx cb);;
  LIBSPDM_ASSERT (session_type_ok ctx);;
  LIBSPDM_ASSERT (session_state_ok ctx);;
  match select_keys ctx is_request_message with
  | None => LIBSPDM_ASSERT false;; Ret (fail LIBSPDM_STATUS_INVALID_STATE_LOCAL)
  | Some (key, salt, sequence_number) =>
      RETURN fail LIBSPDM_STATUS_SEQUENCE_NUMBER_OVERFLOW
        IF (max_spdm_session_sequence_number ctx <? sequence_number)
           || (sequence_number =? LIBSPDM_MAX_SPDM_SESSION_SEQUENCE_NUMBER);;
      iv ← generate_iv sequence_number salt (aead_iv_size ctx) (sequence_number_endian ctx);
      let seq := get_sequence_number cb sequence_number in
      seq_hdr ← store (zeros 8) 0 seq;
      let n := blen seq in
      LIBSPDM_ASSERT (n <=? 8);;
      let ctx := increment_sequence_number ctx is_request_message in
      key ← load key 0 (aead_key_size ctx);
      iv ← load iv 0 (aead_iv_size ctx);
      match session_type ctx with
      | LIBSPDM_SESSION_TYPE_ENC_MAC =>
          encode_enc_mac_in_place ctx cb session_id key iv seq_hdr n mem app_off app_message_size
            secured_message_size rng
      | LIBSPDM_SESSION_TYPE_MAC_ONLY =>
          encode_mac_only_in_place ctx session_id key iv seq_hdr n mem app_off app_message_size
            secured_message_size rng
      | _ =>
          LIBSPDM_ASSERT false;;
          Ret (Encoded LIBSPDM_STATUS_UNSUPPORTED_CAP ctx mem secured_message_size mem rng)
      end
  end.

End message.
End InPlace.
Export InPlace.

(** ** Equivalence with the encoder over two memories *)
Module InPlaceFacts.
Import ContextFacts NonceFacts PacketFacts.

Section copy.
Context `{BuildConfig}.

(** Copying towards lower addresses is right even when the ranges overlap. *)
Lemma copy_bytes_down k mem dst src :
  0 ≤ dst < src → src + Z.of_nat k ≤ blen mem →
  copy_bytes k mem dst src = Ret (upd mem dst (sub mem src (Z.of_nat k))).
Proof.
  revert mem dst src. induction k as [|k IH]; intros mem dst src Hd Hs.
  { cbn [copy_bytes]. unfold upd, sub. change (Z.to_nat (Z.of_nat 0)) with 0%nat.
    rewrite take_0, Nat.add_0_r. cbn [app]. by rewrite take_drop. }
  cbn [copy_bytes]. rewrite load_in by range. cbn [mbind exec_bind].
  assert (Hl : blen (sub mem src 1) = 1) by (rewrite length_sub by range; lia).
  assert (Hr : in_range mem dst (blen (sub mem src 1)) = true) by (rewrite in_range_iff; lia).
  rewrite store_in by done. cbn [mbind exec_bind].
  rewrite IH by (rewrite ?length_upd by done; lia). f_equal.
  rewrite sub_upd_disjoint by (done || lia).
  replace (dst + 1) with (dst + blen (sub mem src 1)) by lia.
  assert (Hk : blen (sub mem (src + 1) (Z.of_nat k)) = Z.of_nat k)
    by (rewrite length_sub by range; lia).
  rewrite upd_upd_app by (rewrite in_range_iff, length_app; lia). f_equal.
  rewrite <- sub_app by lia. f_equal. lia.
Qed.

Lemma copy_mem_asserts mem dst dst_len src n :
  overlap dst src n = true → LIBSPDM_DEBUG_ASSERT_ENABLE = true →
  libspdm_copy_mem mem dst dst_len src n = Fault AssertFailed.
Proof. intros Ho Hd. unfold libspdm_copy_mem, LIBSPDM_ASSERT. by rewrite Ho, Hd. Qed.

Lemma copy_mem_release mem dst dst_len src n :
  LIBSPDM_DEBUG_ASSERT_ENABLE = false → 0 ≤ dst < src → 0 ≤ n → src + n ≤ blen mem →
  libspdm_copy_mem mem dst dst_len src n = Ret (upd mem dst (sub mem src n)).
Proof.
  intros Hd Hds Hn Hs. unfold libspdm_copy_mem, LIBSPDM_ASSERT. rewrite Hd. cbn [andb mbind exec_bind].
  rewrite copy_bytes_down by lia. by rewrite Z2Nat.id.
Qed.

(** The record header leaves the rest of the memory alone. *)
Lemma write_record_header_rest msg sid h n len m1 (i : nat) :
  0 ≤ n → write_record_header msg sid h n len = Ret m1 → 6 + n ≤ Z.of_nat i →
  length m1 = length msg ∧ m1 !! i = msg !! i.
Proof.
  intros Hn Hw Hi. unfold write_record_header, spdm_secured_message_a_data_header1_t in Hw.
  exec_inv Hw. exec_inv Hw. exec_inv Hw.
  apply store_Ret_inv in Hx as [R1 ->]. apply load_Ret_inv in Hx0 as [R2 ->].
  apply store_Ret_inv in Hx1 as [R3 ->]. apply store_Ret_inv in Hw as [R4 ->].
  assert (Hl : blen (sub h 0 n) = n) by (rewrite length_sub by done; lia).
  split; [by rewrite !length_upd|].
  rewrite !lookup_upd by done. rewrite !decide_False by (len_simpl; lia). done.
Qed.

End copy.

Section message.
Context `{BuildConfig, CryptoHal, !CryptoHalOk}.
Implicit Types ctx : libspdm_secured_message_context_t.

(** The same outcome, and the same record on success. *)
Record same_record (e e' : encoded) : Prop := SameRecord {
  sr_status : e_status e' = e_status e;
  sr_ctx : e_ctx e' = e_ctx e;
  sr_size : e_size e' = e_size e;
  sr_rng : e_rng e' = e_rng e;
  sr_length : length (e_msg e') = length (e_msg e);
  sr_record : e_status e = LIBSPDM_STATUS_SUCCESS →
    sub (e_msg e') 0 (e_size e') = sub (e_msg e) 0 (e_size e);
}.

(** The ciphertext and the tag cover what the plaintext left behind. *)
Lemma packet_over m m' p c tag :
  (∀ i : nat, Z.of_nat i < p → m' !! i = m !! i) → length m' = length m →
  in_range m p (blen c) = true → in_range m (p + blen c) (blen tag) = true →
  sub (upd (upd m' p c) (p + blen c) tag) 0 (p + blen c + blen tag) =
  sub (upd (upd m p c) (p + blen c) tag) 0 (p + blen c + blen tag).
Proof.
  intros Hm Hl R1 R2. pose proof R1 as R1'. pose proof R2 as R2'. rewrite in_range_iff in R1', R2'.
  assert (R3 : in_range m' p (blen c) = true) by (rewrite in_range_iff; lia).
  apply list_eq; intros i. rewrite !lookup_sub by lia. case_decide as Hi; [|done].
  rewrite !lookup_upd by (rewrite ?in_range_iff, ?length_upd by done; lia).
  repeat case_decide; try done; try lia. apply Hm. lia.
Qed.

Lemma enc_mac_in_place ctx cb sid key iv h n mem off size msize rng alg e :
  aead_of_suite (aead_cipher_suite ctx) = Some alg → aead_tag_size ctx = 16 →
  0 ≤ n ≤ 8 → 0 ≤ get_max_random_number_count cb < 2 ^ 32 →
  8 + n ≤ off → 0 ≤ size < 2 ^ 32 →
  encode_enc_mac ctx cb sid key iv h n mem off size mem msize rng = Ret e →
  ∃ e', encode_enc_mac_in_place ctx cb sid key iv h n mem off size msize rng = Ret e' ∧
    same_record e e'.
Proof.
  intros Hs Ht Hn Hcb Ho Hsz. destruct (suite_cases _ _ Hs) as (He & _ & _ & _).
  unfold encode_enc_mac, encode_enc_mac_in_place. cbv zeta.
  set (rnd := if negb (get_max_random_number_count cb =? 0) then _ else _).
  assert (Hrnd : 0 ≤ rnd.1.2 ≤ 255).
  { subst rnd. destruct (Z.eqb_spec (get_max_random_number_count cb) 0); cbn [negb]; [cbn; lia|].
    destruct (get_random_spec 4 rng) as (ok & b & s' & -> & Hb & Hbo); [lia|]. cbn.
    pose proof (rand_count_bound (le_val b) (get_max_random_number_count cb)) as Hr.
    apply le_val_bound in Hbo. lia. }
  destruct rnd as [[ok rc] rng1]. cbn [fst snd] in Hrnd. destruct ok; cbn [negb].
  2: { intros [= <-]. eexists. split; [reflexivity|]. by split. }
  unfold spdm_secured_message_a_data_header1_t, spdm_secured_message_a_data_header2_t,
    spdm_secured_message_cipher_header_t. rewrite Ht.
  rewrite (size_t_small (2 + size + rc)) by lia.
  rewrite (size_t_small (4 + n + 2 + (2 + size + rc) + 16)) by lia.
  destruct (LIBSPDM_ASSERT _); cbn [mbind exec_bind]; [|done].
  case_if. { intros [= <-]. eexists. split; [reflexivity|]. by split. }
  intros Hrun. exec_inv Hrun. rename x into m1, Hx into Hw. rewrite Hw. cbn [mbind exec_bind].
  assert (Hrest : ∀ i : nat, 6 + n ≤ Z.of_nat i → length m1 = length mem ∧ m1 !! i = mem !! i)
    by (intros i Hi; eapply write_record_header_rest; [|exact Hw|]; lia).
  destruct (Hrest (Z.to_nat (6 + n))) as [Hl1 _]; [lia|].
  exec_inv Hrun. apply store_Ret_inv in Hx as [R1 ->].
  destruct (get_random_spec rc rng1) as (ok & pad & rng2 & Er & Hpad & _); [lia|].
  rewrite Er in Hrun |- *. exec_inv Hrun. apply store_Ret_inv in Hx as [R2 ->].
  set (lb := le_bytes 2 (u16 size)) in *. assert (Hlb : blen lb = 2) by reflexivity.
  assert (L1 : length (upd mem (off - 2) lb) = length mem) by (by apply length_upd).
  pose proof R1 as R1'. pose proof R2 as R2'. rewrite in_range_iff in R1', R2'. rewrite L1 in R2'.
  assert (R3 : in_range m1 (off - 2) (blen lb) = true) by (rewrite in_range_iff; lia).
  rewrite store_in by done. cbn [mbind exec_bind].
  assert (L2 : length (upd m1 (off - 2) lb) = length mem) by (by rewrite length_upd).
  assert (R4 : in_range (upd m1 (off - 2) lb) (off + size) (blen pad) = true)
    by (rewrite in_range_iff, L2; lia).
  rewrite store_in by done. cbn [mbind exec_bind].
  set (a2 := upd (upd mem (off - 2) lb) (off + size) pad) in *.
  set (m3 := upd (upd m1 (off - 2) lb) (off + size) pad) in *.
  assert (L3 : length m3 = length mem) by (subst m3; rewrite length_upd by done; done).
  assert (La : length a2 = length mem) by (subst a2; rewrite length_upd by done; done).
  destruct ok; cbn [negb] in Hrun |- *.
  2: { injection Hrun as <-. eexists. split; [reflexivity|]. split; try done. cbn. congruence. }
  assert (Hlow : ∀ i : nat, Z.of_nat i < 6 + n → m3 !! i = m1 !! i).
  { intros i Hi. subst m3. rewrite !lookup_upd by done. rewrite !decide_False by lia. done. }
  assert (Hhigh : ∀ i : nat, 6 + n ≤ Z.of_nat i → m3 !! i = a2 !! i).
  { intros i Hi. subst m3 a2. rewrite !lookup_upd by done.
    repeat case_decide; try done. by apply Hrest. }
  exec_inv Hrun. apply load_Ret_inv in Hx as [R5 ->].
  exec_inv Hrun. apply load_Ret_inv in Hx as [R6 ->].
  pose proof R5 as R5'. pose proof R6 as R6'. rewrite in_range_iff in R5', R6'.
  rewrite load_in by (rewrite in_range_iff; lia). cbn [mbind exec_bind].
  rewrite load_in by (rewrite in_range_iff; lia). cbn [mbind exec_bind].
  assert (Ha : sub m3 0 (4 + n + 2) = sub m1 0 (4 + n + 2)).
  { apply list_eq; intros i. rewrite !lookup_sub by lia. case_decide; [|done]. apply Hlow. lia. }
  assert (Hp : sub m3 (off - 2) (2 + size + rc) = sub a2 (off - 2) (2 + size + rc)).
  { apply list_eq; intros i. rewrite !lookup_sub by lia. case_decide; [|done]. apply Hhigh. lia. }
  rewrite Ha, Hp. rewrite He in Hrun |- *. cbn [mbind exec_bind] in Hrun |- *.
  match type of Hrun with context [hal_aead_encrypt ?a ?k ?v ?d ?p ?t] =>
    pose proof (encrypt_out a k v d p t) as [Hc Htag]; [lia|];
    destruct (hal_aead_encrypt a k v d p t) as [[ok c] tag] end.
  cbn [fst snd] in Hc, Htag. rewrite length_sub in Hc by done.
  assert (Hcl : blen c = 2 + size + rc) by lia. clear Hc.
  exec_inv Hrun. apply store_Ret_inv in Hx as [R7 ->].
  exec_inv Hrun. apply store_Ret_inv in Hx as [R8 ->].
  pose proof R7 as R7'. pose proof R8 as R8'. rewrite in_range_iff in R7', R8'.
  rewrite length_upd in R8' by done.
  rewrite store_in by (rewrite in_range_iff; lia). cbn [mbind exec_bind].
  assert (R9 : in_range m3 (4 + n + 2) (blen c) = true) by (rewrite in_range_iff; lia).
  rewrite store_in by (rewrite in_range_iff, length_upd by done; lia). cbn [mbind exec_bind].
  assert (Hlen : ∀ m : list Z, length m = length mem →
    length (upd (upd m (4 + n + 2) c) (4 + n + 2 + (2 + size + rc)) tag) = length mem).
  { intros m Hm. rewrite !length_upd; [done|rewrite in_range_iff; lia|].
    rewrite in_range_iff, length_upd by (rewrite in_range_iff; lia). lia. }
  destruct ok; cbn [negb] in Hrun |- *; injection Hrun as <-; (eexists; split; [reflexivity|]);
    (split; [done..|cbn; rewrite !Hlen; done|]); [|done].
  intros _. cbn [e_msg e_size]. rewrite <- Hcl, <- Htag.
  apply packet_over; [intros i Hi; apply Hlow; lia|lia|done|rewrite in_range_iff; lia].
Qed.

(** Where the assertions are off, the overlapping copy moves the message. *)
Lemma mac_only_in_place ctx sid key iv h n mem off size msize rng e :
  LIBSPDM_DEBUG_ASSERT_ENABLE = false → 0 ≤ n ≤ 8 → 8 + n ≤ off → 0 ≤ size →
  encode_mac_only ctx sid key iv h n mem off size mem msize rng = Ret e →
  ∃ e', encode_mac_only_in_place ctx sid key iv h n mem off size msize rng = Ret e' ∧
    same_record e e'.
Proof.
  intros Hd Hn Ho Hsz. unfold encode_mac_only, encode_mac_only_in_place. cbv zeta.
  unfold spdm_secured_message_a_data_header1_t, spdm_secured_message_a_data_header2_t.
  destruct (LIBSPDM_ASSERT _); cbn [mbind exec_bind]; [|done].
  case_if. { intros [= <-]. eexists. split; [reflexivity|]. by split. }
  intros Hrun. exec_inv Hrun. rename x into m1, Hx into Hw. rewrite Hw. cbn [mbind exec_bind].
  assert (Hrest : ∀ i : nat, 6 + n ≤ Z.of_nat i → length m1 = length mem ∧ m1 !! i = mem !! i)
    by (intros i Hi; eapply write_record_header_rest; [|exact Hw|]; lia).
  destruct (Hrest (Z.to_nat (6 + n))) as [Hl1 _]; [lia|].
  exec_inv Hrun. apply load_Ret_inv in Hx as [R1 ->]. pose proof R1 as R1'.
  rewrite in_range_iff in R1'. rewrite copy_mem_release by (done || lia). cbn [mbind exec_bind].
  assert (Hp : sub m1 off size = sub mem off size).
  { apply list_eq; intros i. rewrite !lookup_sub by lia. case_decide; [|done]. apply Hrest. lia. }
  rewrite Hp. exec_inv Hrun. apply store_Ret_inv in Hx as [_ ->].
  exec_inv Hrun. rewrite Hx. cbn [mbind exec_bind].
  exec_inv Hrun. destruct x0 as [[ok c] tag]. rewrite Hx0. cbn [mbind exec_bind].
  exec_inv Hrun. rewrite Hx1. cbn [mbind exec_bind].
  destruct ok; cbn [negb] in Hrun |- *; injection Hrun as <-; eexists; (split; [reflexivity|]);
    by split.
Qed.

(** With the assertions on, the same copy stops the program: the ranges overlap
    as soon as the message is longer than the gap between them. *)
Lemma mac_only_in_place_asserts ctx sid key iv h n mem off size msize rng :
  LIBSPDM_DEBUG_ASSERT_ENABLE = true → 0 ≤ n ≤ 8 → 6 + n < off → off - (6 + n) < size →
  22 + n + size ≤ msize → msize ≤ blen mem → size < 2 ^ 32 → aead_tag_size ctx = 16 →
  load h 0 n = Ret (sub h 0 n) → in_range h 0 n = true →
  encode_mac_only_in_place ctx sid key iv h n mem off size msize rng = Fault AssertFailed.
Proof.
  intros Hd Hn Ho Hov Hms Hmem Hsz Ht Hh Hr. unfold encode_mac_only_in_place. cbv zeta.
  unfold spdm_secured_message_a_data_header1_t, spdm_secured_message_a_data_header2_t.
  rewrite Ht, (size_t_small (4 + n + 2 + size + 16)) by lia.
  replace (_ <=? msize) with true by lia. rewrite assert_true. cbn [mbind exec_bind].
  replace (msize <? _) with false by lia.
  assert (Hl : blen (sub h 0 n) = n) by (rewrite length_sub by done; lia).
  rewrite <- Hl at 1.
  destruct (write_record_header_spec mem sid h (sub h 0 n) (u16 (size + 16)))
    as (m1 & -> & _ & _); [by rewrite Hl|lia|]. cbn [mbind exec_bind].
  rewrite copy_mem_asserts; [done|unfold overlap; lia|done].
Qed.

(** Sealing in place and sealing from a separate buffer agree, where the
    message lies behind the header. *)
Lemma in_place_same ctx cb sid rq size mem off msize rng alg key salt seqn e :
  ready ctx alg → cb_ok cb → select_keys ctx rq = Some (key, salt, seqn) →
  8 + blen (get_sequence_number cb seqn) ≤ off → 0 ≤ size < 2 ^ 32 →
  session_type ctx = LIBSPDM_SESSION_TYPE_ENC_MAC ∨ LIBSPDM_DEBUG_ASSERT_ENABLE = false →
  libspdm_encode_secured_message ctx sid rq size mem off msize mem cb rng = Ret e →
  ∃ e', encode_secured_message_in_place ctx sid rq size mem off msize cb rng = Ret e' ∧
    same_record e e'.
Proof.
  intros Hr [Hcb Hmax] Hk Ho Hsz Hty. destruct Hr as [W Hs Hi Ht He Hty' Hst].
  destruct (Hcb seqn) as [Hn _].
  unfold libspdm_encode_secured_message, encode_secured_message_in_place.
  case_if. { intros [= <-]. eexists. split; [reflexivity|]. by split. }
  rewrite Hty', Hst, assert_true. cbn [mbind exec_bind]. rewrite Hk.
  case_if. { intros [= <-]. eexists. split; [reflexivity|]. by split. }
  intros Hrun. exec_inv Hrun. rewrite Hx. cbn [mbind exec_bind].
  exec_inv Hrun. rewrite Hx0. cbn [mbind exec_bind].
  replace (blen (get_sequence_number cb seqn) <=? 8) with true in * by lia.
  rewrite assert_true in *. cbn [mbind exec_bind] in Hrun |- *.
  exec_inv Hrun. rewrite Hx1. cbn [mbind exec_bind].
  exec_inv Hrun. rewrite Hx2. cbn [mbind exec_bind].
  destruct (increment_other ctx rq) as (H2 & _ & _ & _ & H6 & H7 & _).
  unfold session_type_ok in Hty'. rewrite <- H2 in Hty, Hty'.
  set (c1 := increment_sequence_number ctx rq) in *.
  destruct (session_type c1) eqn:Et; try done.
  - destruct Hty as [|Hd]; [done|]. eapply mac_only_in_place; try done; lia.
  - rewrite <- H7 in Hs. eapply enc_mac_in_place; try done; lia.
Qed.

(** A session that only authenticates cannot seal in place with assertions on. *)
Lemma in_place_mac_asserts ctx cb sid rq size mem off msize rng alg key salt seqn :
  LIBSPDM_DEBUG_ASSERT_ENABLE = true → ready ctx alg → cb_ok cb →
  major_version_ok ctx cb = true → select_keys ctx rq = Some (key, salt, seqn) →
  exhausted ctx seqn = false → session_type ctx = LIBSPDM_SESSION_TYPE_MAC_ONLY →
  let n := blen (get_sequence_number cb seqn) in
  6 + n < off → off - (6 + n) < size → 22 + n + size ≤ msize → msize ≤ blen mem →
  size < 2 ^ 32 →
  encode_secured_message_in_place ctx sid rq size mem off msize cb rng = Fault AssertFailed.
Proof.
  intros Hd Hr [Hcb _] Hv Hk Hx Hty n Ho Hov Hms Hmem Hsz.
  destruct (ready_keys ctx alg rq Hr) as (key' & salt' & seqn' & Hk' & Ak & As & _).
  rewrite Hk in Hk'. injection Hk' as <- <- <-.
  destruct Hr as [W Hs Hi Ht He Hty' Hst]. pose proof W as ((_ & _ & Hks & _) & _).
  destruct (Hcb seqn) as [Hn _]. fold n in Hn.
  unfold encode_secured_message_in_place. rewrite Hv, Hty', Hst, assert_true.
  cbn [negb mbind exec_bind]. rewrite Hk. unfold exhausted in Hx. rewrite Hx, Hi.
  assert (Als : blen salt = 12) by apply As.
  rewrite generate_iv_spec by done. cbn [mbind exec_bind].
  destruct (seq_hdr_spec _ Hn) as (h & Eh & Lh). rewrite Eh. cbn [mbind exec_bind].
  fold n. replace (n <=? 8) with true by lia. rewrite assert_true. cbn [mbind exec_bind].
  destruct (increment_other ctx rq) as (H2 & _ & H4 & H5 & H6 & _).
  set (c1 := increment_sequence_number ctx rq) in *. rewrite H4, H5, H2, Hty.
  rewrite (load_in key) by (destruct Ak; range). cbn [mbind exec_bind].
  pose proof (length_nonce seqn salt (sequence_number_endian ctx) Als) as Hln.
  rewrite Hi, load_in by range. cbn [mbind exec_bind].
  apply load_Ret_inv in Lh as [Lr _]. fold n in Lr.
  apply mac_only_in_place_asserts; try done; try lia. by apply load_in.
Qed.

End message.
End InPlaceFacts.
