(* ===== verification/Bindings.v ===== *)
(** * Bindings: the MCTP, TCP and PCI DOE transport bindings

    The framing functions of libspdm_mctp_mctp.c, libspdm_tcp_tcp.c and
    libspdm_doe_pcidoe.c, the PCI DOE transport layer of libspdm_doe_common.c,
    and the instances of [TransportBinding] and [TransportBindingOk]. *)

From S2P Require Import Prelude SpdmDefs CommonSupport CryptLib SecuredContext.
From S2P Require Import SecuredMessage SpdmContext SessionTable Transport.

(** ** Parts the three bindings share *)
Module Framing.
Section framing.
Context `{BuildConfig}.

(** The branch on session_id when encoding: the type byte at [p_type], and for a
    secured message the check that it starts with the session id.  The boolean
    tells that it does. *)
Definition write_message_type (session_id : option Z) (mem : list Z) (p_type message : Z)
    (secured plain : Z) : exec (bool * list Z) :=
  match session_id with
  | Some sid =>
      mem ← store mem p_type (le_bytes 1 secured);
      data32 ← load_le 4 mem message;
      LIBSPDM_ASSERT (sid =? data32);;
      Ret (sid =? data32, mem)
  | None =>
      mem ← store mem p_type (le_bytes 1 plain);
      Ret (true, mem)
  end.

(** The switch on the message type when decoding: an error status, or the new
    value of *session_id. *)
Definition read_message_type (session_id : option (option Z)) (size hdr off : Z)
    (message_type secured plain : Z) : exec (libspdm_return_t + option (option Z)) :=
  if message_type =? secured then
    LIBSPDM_ASSERT (is_secured session_id);;
    RETURN inl LIBSPDM_STATUS_INVALID_MSG_FIELD IF negb (is_secured session_id);;
    RETURN inl LIBSPDM_STATUS_INVALID_MSG_SIZE IF size <=? hdr + 4;;
    Ret (inr (Some (Some (off + hdr))))
  else if message_type =? plain then
    Ret (inr (match session_id with Some _ => Some None | None => None end))
  else Ret (inl LIBSPDM_STATUS_UNSUPPORTED_CAP).

End framing.
End Framing.
Export Framing.

(** ** MCTP *)
Module Mctp.

Definition LIBSPDM_MCTP_ALIGNMENT : Z := 1.
Definition LIBSPDM_MCTP_SEQUENCE_NUMBER_COUNT : Z := 2.
Definition LIBSPDM_MCTP_MAX_RANDOM_NUMBER_COUNT : Z := 32.
Definition MCTP_MESSAGE_TYPE_SPDM : Z := 0x05.
Definition MCTP_MESSAGE_TYPE_SECURED_MCTP : Z := 0x06.
Definition sizeof_mctp_message_header : Z := 1.

(** The bytes copied to the buffer. *)
Definition libspdm_mctp_get_sequence_number (sequence_number : Z) : list Z :=
  take (Z.to_nat LIBSPDM_MCTP_SEQUENCE_NUMBER_COUNT) (le_bytes 8 sequence_number).

Definition libspdm_mctp_get_max_random_number_count : Z := LIBSPDM_MCTP_MAX_RANDOM_NUMBER_COUNT.

Definition libspdm_mctp_get_secured_spdm_version (secured_message_version : Z) : Z :=
  secured_message_version.

Section mctp.
Context `{BuildConfig}.

Definition libspdm_mctp_encode_message (session_id : option Z) (need_alignment : bool)
    (message_size : Z) (mem : list Z) (message transport_message_size : Z) : exec framed :=
  let alignment := if need_alignment then LIBSPDM_MCTP_ALIGNMENT else 1 in
  let aligned_message_size := align_up alignment message_size in
  let size := size_t (aligned_message_size + sizeof_mctp_message_header) in
  LIBSPDM_ASSERT (size <=? transport_message_size);;
  RETURN Framed LIBSPDM_STATUS_BUFFER_TOO_SMALL mem None size IF transport_message_size <? size;;
  let transport_message := message - sizeof_mctp_message_header in
  '(ok, mem) ← write_message_type session_id mem transport_message message
                 MCTP_MESSAGE_TYPE_SECURED_MCTP MCTP_MESSAGE_TYPE_SPDM;
  RETURN Framed LIBSPDM_STATUS_INVALID_MSG_FIELD mem (Some transport_message) size IF negb ok;;
  mem ← store mem (message + message_size) (zeros (aligned_message_size - message_size));
  Ret (Framed LIBSPDM_STATUS_SUCCESS mem (Some transport_message) size).

Definition libspdm_mctp_decode_message (session_id : option (option Z)) (need_alignment : bool)
    (transport_message_size : Z) (mem : list Z) (transport_message : Z) : exec unframed :=
  LIBSPDM_ASSERT (sizeof_mctp_message_header <? transport_message_size);;
  RETURN Unframed LIBSPDM_STATUS_INVALID_MSG_SIZE session_id None
    IF transport_message_size <=? sizeof_mctp_message_header;;
  message_type ← load_le 1 mem transport_message;
  r ← read_message_type session_id transport_message_size sizeof_mctp_message_header
        transport_message message_type MCTP_MESSAGE_TYPE_SECURED_MCTP MCTP_MESSAGE_TYPE_SPDM;
  match r with
  | inl st => Ret (Unframed st session_id None)
  | inr session_id =>
      LIBSPDM_ASSERT (negb need_alignment
        || (Z.land (size_t (transport_message_size - sizeof_mctp_message_header))
              (LIBSPDM_MCTP_ALIGNMENT - 1) =? 0));;
      Ret (Unframed LIBSPDM_STATUS_SUCCESS session_id
             (Some (transport_message + sizeof_mctp_message_header,
                    transport_message_size - sizeof_mctp_message_header)))
  end.

Definition mctp_callbacks : libspdm_secured_message_callbacks_t :=
  Build_secured_message_callbacks libspdm_mctp_get_sequence_number
    libspdm_mctp_get_max_random_number_count libspdm_mctp_get_secured_spdm_version.

#[export] Instance mctp_binding : TransportBinding := {
  tb_header_size := sizeof_mctp_message_header;
  tb_secured_header_size := sizeof_mctp_message_header;
  tb_encode_message := libspdm_mctp_encode_message;
  tb_decode_message := libspdm_mctp_decode_message;
  tb_callbacks := mctp_callbacks;
}.
End mctp.

Section transport.
Context `{BuildConfig, CryptoHal}.

Definition libspdm_transport_mctp_encode_message :=
  wrapped_encode_message (binding := mctp_binding).
Definition libspdm_transport_mctp_decode_message :=
  wrapped_decode_message (binding := mctp_binding).
End transport.
End Mctp.

(** ** TCP *)
Module Tcp.

Definition SPDM_TCP_MESSAGE_TYPE_OUT_OF_SESSION : Z := 0x05.
Definition SPDM_TCP_MESSAGE_TYPE_IN_SESSION : Z := 0x06.
Definition SPDM_TCP_MESSAGE_TYPE_ROLE_INQUIRY : Z := 0xBF.
Definition SPDM_TCP_MESSAGE_TYPE_ERROR_TOO_LARGE : Z := 0xC0.
Definition SPDM_TCP_MESSAGE_TYPE_ERROR_RESERVED_MAX : Z := 0xFF.
Definition SPDM_TCP_MAX_RANDOM_NUMBER_COUNT : Z := 0.
Definition sizeof_spdm_tcp_binding_header : Z := 4.

(** Nothing is written to the buffer: SPDM_TCP_SEQUENCE_NUMBER_COUNT is 0. *)
Definition libspdm_tcp_get_sequence_number (sequence_number : Z) : list Z := [].

Definition libspdm_tcp_get_max_random_number_count : Z := SPDM_TCP_MAX_RANDOM_NUMBER_COUNT.

Definition libspdm_tcp_get_secured_spdm_version (secured_message_version : Z) : Z :=
  secured_message_version.

Definition libspdm_transport_tcp_get_header_size : Z :=
  sizeof_spdm_tcp_binding_header + spdm_secured_message_cipher_header_t.

(** The message types of role inquiry and errors. *)
Definition is_discovery_type (message_type : Z) : bool :=
  (message_type =? SPDM_TCP_MESSAGE_TYPE_ROLE_INQUIRY)
  || negb ((message_type <? SPDM_TCP_MESSAGE_TYPE_ERROR_TOO_LARGE)
           || (SPDM_TCP_MESSAGE_TYPE_ERROR_RESERVED_MAX <? message_type)).

(** The status, the buffer and *transport_message_size. *)
Definition libspdm_tcp_encode_discovery_message (message_type transport_message_size : Z)
    (transport_message : list Z) : exec (libspdm_return_t * list Z * Z) :=
  RETURN (LIBSPDM_STATUS_INVALID_PARAMETER, transport_message, transport_message_size)
    IF negb (is_discovery_type message_type);;
  RETURN (LIBSPDM_STATUS_BUFFER_TOO_SMALL, transport_message, sizeof_spdm_tcp_binding_header)
    IF transport_message_size <? sizeof_spdm_tcp_binding_header;;
  m ← store transport_message 0 (le_bytes 2 0);
  m ← store m 2 (le_bytes 1 1);
  m ← store m 3 (le_bytes 1 message_type);
  Ret (LIBSPDM_STATUS_SUCCESS, m, sizeof_spdm_tcp_binding_header).

(** The status and *message_type, if assigned. *)
Definition libspdm_tcp_decode_discovery_message (transport_message_size : Z)
    (transport_message : list Z) : exec (libspdm_return_t * option Z) :=
  RETURN (LIBSPDM_STATUS_INVALID_MSG_SIZE, None)
    IF transport_message_size <? sizeof_spdm_tcp_binding_header;;
  binding_version ← load_le 1 transport_message 2;
  RETURN (LIBSPDM_STATUS_UNSUPPORTED_CAP, None) IF negb (binding_version =? 1);;
  payload_length ← load_le 2 transport_message 0;
  RETURN (LIBSPDM_STATUS_INVALID_MSG_FIELD, None) IF negb (payload_length =? 0);;
  type ← load_le 1 transport_message 3;
  RETURN (LIBSPDM_STATUS_INVALID_MSG_FIELD, None) IF negb (is_discovery_type type);;
  Ret (LIBSPDM_STATUS_SUCCESS, Some type).

Section tcp.
Context `{BuildConfig}.

Definition libspdm_tcp_encode_message (session_id : option Z) (message_size : Z) (mem : list Z)
    (message transport_message_size : Z) : exec framed :=
  let size := size_t (message_size + sizeof_spdm_tcp_binding_header) in
  RETURN Framed LIBSPDM_STATUS_BUFFER_TOO_SMALL mem None size IF transport_message_size <? size;;
  let transport_message := message - sizeof_spdm_tcp_binding_header in
  mem ← store mem transport_message (le_bytes 2 (u16 (size - 2)));
  mem ← store mem (transport_message + 2) (le_bytes 1 1);
  '(ok, mem) ← write_message_type session_id mem (transport_message + 3) message
                 SPDM_TCP_MESSAGE_TYPE_IN_SESSION SPDM_TCP_MESSAGE_TYPE_OUT_OF_SESSION;
  RETURN Framed LIBSPDM_STATUS_INVALID_MSG_FIELD mem (Some transport_message) size IF negb ok;;
  Ret (Framed LIBSPDM_STATUS_SUCCESS mem (Some transport_message) size).

Definition libspdm_tcp_decode_message (session_id : option (option Z))
    (transport_message_size : Z) (mem : list Z) (transport_message : Z) : exec unframed :=
  LIBSPDM_ASSERT (sizeof_spdm_tcp_binding_header <? transport_message_size);;
  RETURN Unframed LIBSPDM_STATUS_INVALID_MSG_SIZE session_id None
    IF transport_message_size <=? sizeof_spdm_tcp_binding_header;;
  message_type ← load_le 1 mem (transport_message + 3);
  r ← read_message_type session_id transport_message_size sizeof_spdm_tcp_binding_header
        transport_message message_type
        SPDM_TCP_MESSAGE_TYPE_IN_SESSION SPDM_TCP_MESSAGE_TYPE_OUT_OF_SESSION;
  match r with
  | inl st => Ret (Unframed st session_id None)
  | inr session_id =>
      Ret (Unframed LIBSPDM_STATUS_SUCCESS session_id
             (Some (transport_message + sizeof_spdm_tcp_binding_header,
                    transport_message_size - sizeof_spdm_tcp_binding_header)))
  end.

Definition tcp_callbacks : libspdm_secured_message_callbacks_t :=
  Build_secured_message_callbacks libspdm_tcp_get_sequence_number
    libspdm_tcp_get_max_random_number_count libspdm_tcp_get_secured_spdm_version.

(** TCP has no alignment argument. *)
#[export] Instance tcp_binding : TransportBinding := {
  tb_header_size := sizeof_spdm_tcp_binding_header;
  tb_secured_header_size := libspdm_transport_tcp_get_header_size;
  tb_encode_message := λ sid _, libspdm_tcp_encode_message sid;
  tb_decode_message := λ sid _, libspdm_tcp_decode_message sid;
  tb_callbacks := tcp_callbacks;
}.
End tcp.

Section transport.
Context `{BuildConfig, CryptoHal}.

Definition libspdm_transport_tcp_encode_message :=
  wrapped_encode_message (binding := tcp_binding).
Definition libspdm_transport_tcp_decode_message :=
  wrapped_decode_message (binding := tcp_binding).
End transport.
End Tcp.

(** ** PCI DOE *)
Module PciDoe.

Definition PCI_DOE_VENDOR_ID_PCISIG : Z := 0x0001.
Definition PCI_DOE_DATA_OBJECT_TYPE_DOE_DISCOVERY : Z := 0x00.
Definition PCI_DOE_DATA_OBJECT_TYPE_SPDM : Z := 0x01.
Definition PCI_DOE_DATA_OBJECT_TYPE_SECURED_SPDM : Z := 0x02.
Definition PCI_DOE_MAX_SIZE_IN_BYTE : Z := 0x00100000.
Definition PCI_DOE_MAX_SIZE_IN_DW : Z := PCI_DOE_MAX_SIZE_IN_BYTE / 4.
Definition LIBSPDM_PCI_DOE_ALIGNMENT : Z := 4.
Definition LIBSPDM_PCI_DOE_SEQUENCE_NUMBER_COUNT : Z := 0.
Definition LIBSPDM_PCI_DOE_MAX_RANDOM_NUMBER_COUNT : Z := 0.
Definition sizeof_pci_doe_data_object_header : Z := 8.
Definition sizeof_pci_doe_discovery_response : Z := 4.

Definition libspdm_pci_doe_get_sequence_number (sequence_number : Z) : list Z :=
  take (Z.to_nat LIBSPDM_PCI_DOE_SEQUENCE_NUMBER_COUNT) (le_bytes 8 sequence_number).

Definition libspdm_pci_doe_get_max_random_number_count : Z :=
  LIBSPDM_PCI_DOE_MAX_RANDOM_NUMBER_COUNT.

Definition libspdm_pci_doe_get_secured_spdm_version (secured_message_version : Z) : Z :=
  secured_message_version.

Definition libspdm_transport_pci_doe_get_header_size : Z :=
  sizeof_pci_doe_data_object_header + spdm_secured_message_cipher_header_t.

(** The length field for an object of [size] bytes; [None] when it is too long. *)
Definition length_field (size : Z) : option Z :=
  if PCI_DOE_MAX_SIZE_IN_BYTE <? size then None
  else if size =? PCI_DOE_MAX_SIZE_IN_BYTE then Some 0
  else Some (u32 (u32 size / 4)).

(** The checks on the reserved byte and the length field of a received object:
    the error status, if any. *)
Definition check_length (mem : list Z) (off size : Z) : exec (option libspdm_return_t) :=
  reserved ← load_le 1 mem (off + 3);
  RETURN Some LIBSPDM_STATUS_INVALID_MSG_FIELD IF negb (reserved =? 0);;
  dw ← load_le 4 mem (off + 4);
  RETURN Some LIBSPDM_STATUS_INVALID_MSG_SIZE IF PCI_DOE_MAX_SIZE_IN_DW <=? dw;;
  let length_ := if dw =? 0 then PCI_DOE_MAX_SIZE_IN_BYTE else u32 (dw * 4) in
  RETURN Some LIBSPDM_STATUS_INVALID_MSG_SIZE IF negb (length_ =? size);;
  Ret None.

Section doe.
Context `{BuildConfig}.

Definition libspdm_pci_doe_encode_message (session_id : option Z) (message_size : Z)
    (mem : list Z) (message transport_message_size : Z) : exec framed :=
  let aligned_message_size := align_up LIBSPDM_PCI_DOE_ALIGNMENT message_size in
  let size := size_t (aligned_message_size + sizeof_pci_doe_data_object_header) in
  LIBSPDM_ASSERT (size <=? transport_message_size);;
  RETURN Framed LIBSPDM_STATUS_BUFFER_TOO_SMALL mem None size IF transport_message_size <? size;;
  let transport_message := message - sizeof_pci_doe_data_object_header in
  mem ← store mem transport_message (le_bytes 2 PCI_DOE_VENDOR_ID_PCISIG);
  '(ok, mem) ← write_message_type session_id mem (transport_message + 2) message
                 PCI_DOE_DATA_OBJECT_TYPE_SECURED_SPDM PCI_DOE_DATA_OBJECT_TYPE_SPDM;
  RETURN Framed LIBSPDM_STATUS_INVALID_MSG_FIELD mem (Some transport_message) size IF negb ok;;
  mem ← store mem (transport_message + 3) (le_bytes 1 0);
  match length_field size with
  | None => Ret (Framed LIBSPDM_STATUS_BUFFER_FULL mem (Some transport_message) size)
  | Some length_ =>
      mem ← store mem (transport_message + 4) (le_bytes 4 length_);
      mem ← store mem (message + message_size) (zeros (aligned_message_size - message_size));
      Ret (Framed LIBSPDM_STATUS_SUCCESS mem (Some transport_message) size)
  end.

Definition libspdm_pci_doe_encode_discovery (message_size : Z) (mem : list Z)
    (message transport_message_size : Z) : exec framed :=
  let aligned_message_size := align_up LIBSPDM_PCI_DOE_ALIGNMENT message_size in
  let size := size_t (aligned_message_size + sizeof_pci_doe_data_object_header) in
  LIBSPDM_ASSERT (size <=? transport_message_size);;
  RETURN Framed LIBSPDM_STATUS_BUFFER_TOO_SMALL mem None size IF transport_message_size <? size;;
  let transport_message := message - sizeof_pci_doe_data_object_header in
  mem ← store mem transport_message (le_bytes 2 PCI_DOE_VENDOR_ID_PCISIG);
  mem ← store mem (transport_message + 2) (le_bytes 1 PCI_DOE_DATA_OBJECT_TYPE_DOE_DISCOVERY);
  mem ← store mem (transport_message + 3) (le_bytes 1 0);
  match length_field size with
  | None => Ret (Framed LIBSPDM_STATUS_BUFFER_FULL mem (Some transport_message) size)
  | Some length_ =>
      mem ← store mem (transport_message + 4) (le_bytes 4 length_);
      mem ← store mem (message + message_size) (zeros (aligned_message_size - message_size));
      Ret (Framed LIBSPDM_STATUS_SUCCESS mem (Some transport_message) size)
  end.

Definition libspdm_pci_doe_decode_message (session_id : option (option Z))
    (transport_message_size : Z) (mem : list Z) (transport_message : Z) : exec unframed :=
  LIBSPDM_ASSERT (sizeof_pci_doe_data_object_header <? transport_message_size);;
  RETURN Unframed LIBSPDM_STATUS_INVALID_MSG_SIZE session_id None
    IF transport_message_size <=? sizeof_pci_doe_data_object_header;;
  vendor_id ← load_le 2 mem transport_message;
  RETURN Unframed LIBSPDM_STATUS_INVALID_MSG_FIELD session_id None
    IF negb (vendor_id =? PCI_DOE_VENDOR_ID_PCISIG);;
  data_object_type ← load_le 1 mem (transport_message + 2);
  r ← read_message_type session_id transport_message_size sizeof_pci_doe_data_object_header
        transport_message data_object_type
        PCI_DOE_DATA_OBJECT_TYPE_SECURED_SPDM PCI_DOE_DATA_OBJECT_TYPE_SPDM;
  match r with
  | inl st => Ret (Unframed st session_id None)
  | inr session_id =>
      r ← check_length mem transport_message transport_message_size;
      match r with
      | Some st => Ret (Unframed st session_id None)
      | None =>
          LIBSPDM_ASSERT (Z.land (size_t (transport_message_size - sizeof_pci_doe_data_object_header))
                            (LIBSPDM_PCI_DOE_ALIGNMENT - 1) =? 0);;
          Ret (Unframed LIBSPDM_STATUS_SUCCESS session_id
                 (Some (transport_message + sizeof_pci_doe_data_object_header,
                        transport_message_size - sizeof_pci_doe_data_object_header)))
      end
  end.

(** The status and the bytes assigned through the pointers that are not NULL
    ([index] tells whether index is).  A field is assigned before the checks of
    the length. *)
Definition libspdm_pci_doe_decode_discovery_request (transport_message_size : Z)
    (transport_message : list Z) (index : bool) : exec (libspdm_return_t * option Z) :=
  LIBSPDM_ASSERT (sizeof_pci_doe_data_object_header <? transport_message_size);;
  RETURN (LIBSPDM_STATUS_INVALID_MSG_SIZE, None)
    IF transport_message_size <=? sizeof_pci_doe_data_object_header;;
  vendor_id ← load_le 2 transport_message 0;
  RETURN (LIBSPDM_STATUS_INVALID_MSG_FIELD, None) IF negb (vendor_id =? PCI_DOE_VENDOR_ID_PCISIG);;
  data_object_type ← load_le 1 transport_message 2;
  RETURN (LIBSPDM_STATUS_UNSUPPORTED_CAP, None)
    IF negb (data_object_type =? PCI_DOE_DATA_OBJECT_TYPE_DOE_DISCOVERY);;
  v ← (if index then
         b ← load_le 1 transport_message sizeof_pci_doe_data_object_header; Ret (Some b)
       else Ret None);
  r ← check_length transport_message 0 transport_message_size;
  Ret (default LIBSPDM_STATUS_SUCCESS r, v).

Definition libspdm_pci_doe_decode_discovery_request_version (transport_message_size : Z)
    (transport_message : list Z) (version : bool) : exec (libspdm_return_t * option Z) :=
  '(status, _) ←
    libspdm_pci_doe_decode_discovery_request transport_message_size transport_message false;
  RETURN (status, None) IF LIBSPDM_STATUS_IS_ERROR status;;
  if version then
    b ← load_le 1 transport_message (sizeof_pci_doe_data_object_header + 1);
    Ret (LIBSPDM_STATUS_SUCCESS, Some b)
  else Ret (LIBSPDM_STATUS_SUCCESS, None).

(** What the three pointers receive: vendor_id, protocol, next_index (each is
    assigned only when it is not NULL).  vendor_id is read through a pointer to
    uint8_t. *)
Definition libspdm_pci_doe_decode_discovery_response (transport_message_size : Z)
    (transport_message : list Z) (vendor_id protocol next_index : bool) :
    exec (libspdm_return_t * (option Z * option Z * option Z)) :=
  let none := (None, None, None) in
  let read (wanted : bool) off : exec (option Z) :=
    if wanted then b ← load_le 1 transport_message off; Ret (Some b) else Ret None in
  LIBSPDM_ASSERT (sizeof_pci_doe_data_object_header <? transport_message_size);;
  RETURN (LIBSPDM_STATUS_INVALID_MSG_SIZE, none)
    IF transport_message_size <=? sizeof_pci_doe_data_object_header;;
  vendor ← load_le 2 transport_message 0;
  RETURN (LIBSPDM_STATUS_INVALID_MSG_FIELD, none) IF negb (vendor =? PCI_DOE_VENDOR_ID_PCISIG);;
  data_object_type ← load_le 1 transport_message 2;
  RETURN (LIBSPDM_STATUS_UNSUPPORTED_CAP, none)
    IF negb (data_object_type =? PCI_DOE_DATA_OBJECT_TYPE_DOE_DISCOVERY);;
  RETURN (LIBSPDM_STATUS_INVALID_MSG_SIZE, none)
    IF transport_message_size <?
         sizeof_pci_doe_data_object_header + sizeof_pci_doe_discovery_response;;
  let message := sizeof_pci_doe_data_object_header in
  v ← read vendor_id message;
  p ← read protocol (message + 2);
  n ← read next_index (message + 2 + 1);
  r ← check_length transport_message 0 transport_message_size;
  Ret (default LIBSPDM_STATUS_SUCCESS r, (v, p, n)).

Definition pci_doe_callbacks : libspdm_secured_message_callbacks_t :=
  Build_secured_message_callbacks libspdm_pci_doe_get_sequence_number
    libspdm_pci_doe_get_max_random_number_count libspdm_pci_doe_get_secured_spdm_version.

(** PCI DOE always aligns. *)
#[export] Instance pci_doe_binding : TransportBinding := {
  tb_header_size := sizeof_pci_doe_data_object_header;
  tb_secured_header_size := sizeof_pci_doe_data_object_header;
  tb_encode_message := λ sid _, libspdm_pci_doe_encode_message sid;
  tb_decode_message := λ sid _, libspdm_pci_doe_decode_message sid;
  tb_callbacks := pci_doe_callbacks;
}.
End doe.

Section transport.
Context `{BuildConfig, CryptoHal}.
Implicit Types ctx : libspdm_context_t.

Definition libspdm_transport_pci_doe_encode_message ctx (session_id : option Z)
    (is_app_message is_request_message : bool) (message_size : Z) (msg : list Z) (off : Z)
    (transport_message_size : Z) (buf : list Z) (rng : rng_state) : exec transport_encoded :=
  let fail st ctx msg buf rng :=
    TransportEncoded st ctx msg buf (InBuffer 0) transport_message_size rng in
  RETURN fail LIBSPDM_STATUS_UNSUPPORTED_CAP ctx msg buf rng IF is_app_message;;
  match session_id with
  | Some sid =>
      match libspdm_get_secured_message_context_via_session_id ctx sid with
      | None => Ret (fail LIBSPDM_STATUS_UNSUPPORTED_CAP ctx msg buf rng)
      | Some c =>
          let hdr := sizeof_pci_doe_data_object_header in
          e ← libspdm_encode_secured_message c sid is_request_message message_size msg off
                (size_t (transport_message_size - hdr)) (drop (Z.to_nat hdr) buf)
                pci_doe_callbacks rng;
          let ctx := put_secured_message_context ctx sid (e_ctx e) in
          let buf := take (Z.to_nat hdr) buf ++ e_msg e in
          RETURN fail (e_status e) ctx (e_app e) buf (e_rng e)
            IF LIBSPDM_STATUS_IS_ERROR (e_status e);;
          f ← libspdm_pci_doe_encode_message (Some sid) (e_size e) buf hdr transport_message_size;
          Ret (TransportEncoded
                 (if LIBSPDM_STATUS_IS_ERROR (f_status f) then f_status f else LIBSPDM_STATUS_SUCCESS)
                 ctx (e_app e) (f_mem f)
                 (InBuffer (default 0 (f_ptr f))) (f_size f) (e_rng e))
      end
  | None =>
      f ← libspdm_pci_doe_encode_message None message_size msg off transport_message_size;
      Ret (TransportEncoded
             (if LIBSPDM_STATUS_IS_ERROR (f_status f) then f_status f else LIBSPDM_STATUS_SUCCESS)
             ctx (f_mem f) buf
             (match f_ptr f with Some p => InMessage p | None => InBuffer 0 end) (f_size f) rng)
  end.

Definition libspdm_transport_pci_doe_decode_message ctx
    (session_id is_app_message is_request_message : bool) (transport_message_size : Z)
    (frame : list Z) (message_size : Z) (app : list Z) : exec transport_decoded :=
  let ctx := libspdm_set_last_spdm_error_struct ctx (Build_error_struct 0 0) in
  RETURN TransportDecoded LIBSPDM_STATUS_UNSUPPORTED_CAP ctx None None app (InCaller 0) message_size
    IF negb session_id || negb is_app_message;;
  let ret st ctx session app :=
    TransportDecoded st ctx session (Some false) app (InCaller 0) message_size in
  u ← libspdm_pci_doe_decode_message (Some None) transport_message_size frame 0;
  RETURN ret (u_status u) ctx None app IF LIBSPDM_STATUS_IS_ERROR (u_status u);;
  let '(moff, msize) := default (0, 0) (u_message u) in
  match u_session u with
  | Some (Some p) =>
      sid ← load_le 4 frame p;
      match libspdm_get_secured_message_context_via_session_id ctx sid with
      | None =>
          let spdm_error := Build_error_struct SPDM_ERROR_CODE_INVALID_SESSION sid in
          Ret (ret LIBSPDM_STATUS_UNSUPPORTED_CAP
                 (libspdm_set_last_spdm_error_struct ctx spdm_error) (Some (Some p)) app)
      | Some c =>
          d ← libspdm_decode_secured_message c sid is_request_message msize
                (drop (Z.to_nat moff) frame) message_size app pci_doe_callbacks;
          let ctx := put_secured_message_context ctx sid (d_ctx d) in
          if LIBSPDM_STATUS_IS_ERROR (d_status d) then
            let spdm_error := libspdm_secured_message_get_last_spdm_error_struct (d_ctx d) in
            Ret (TransportDecoded (d_status d) (libspdm_set_last_spdm_error_struct ctx spdm_error)
                   (Some (Some p)) (Some false) (d_app d) (app_ptr moff d) (d_size d))
          else
            Ret (TransportDecoded LIBSPDM_STATUS_SUCCESS ctx (Some (Some p)) (Some false)
                   (d_app d) (app_ptr moff d) (d_size d))
      end
  | _ =>
      u ← libspdm_pci_doe_decode_message (Some None) transport_message_size frame 0;
      RETURN ret (u_status u) ctx None app IF LIBSPDM_STATUS_IS_ERROR (u_status u);;
      LIBSPDM_ASSERT (bool_decide (u_session u = Some None));;
      let '(moff, msize) := default (0, 0) (u_message u) in
      Ret (TransportDecoded LIBSPDM_STATUS_SUCCESS ctx (Some None) (Some false) app
             (InTransport moff) msize)
  end.
End transport.
End PciDoe.

(** ** The bindings obey the laws *)
Module FramingFacts.
Import PacketFacts.
Section facts.
Context `{BuildConfig}.

Lemma load_le_in k m off : in_range m off (Z.of_nat k) = true →
  load_le k m off = Ret (le_val (sub m off (Z.of_nat k))).
Proof. intros Hr. unfold load_le. by rewrite load_in. Qed.

(** A header in place, then the padding: the frame. *)
Lemma store_padding mem off size hd k :
  0 ≤ size → 0 ≤ k → blen hd ≤ off → off + size + k ≤ blen mem →
  ∃ mem', store (upd mem (off - blen hd) hd) (off + size) (zeros k) = Ret mem' ∧
    length mem' = length mem ∧
    sub mem' (off - blen hd) (blen hd + size + k) = hd ++ sub mem off size ++ zeros k.
Proof.
  intros Hs Hk Ho Hm.
  assert (Hr : in_range mem (off - blen hd) (blen hd) = true) by (rewrite in_range_iff; lia).
  assert (Hz : blen (zeros k) = k) by (rewrite length_zeros; lia).
  assert (Hr2 : in_range (upd mem (off - blen hd) hd) (off + size) (blen (zeros k)) = true)
    by (rewrite in_range_iff, length_upd, Hz by done; lia).
  eexists. rewrite store_in by done. split; [reflexivity|].
  split; [by rewrite !length_upd|].
  assert (Hr3 : in_range mem (off + size) (blen (zeros k)) = true) by (rewrite in_range_iff; lia).
  pose proof (sub_framed mem off size hd (zeros k) Hs Hr Hr3) as Hf. by rewrite Hz in Hf.
Qed.

Lemma write_message_type_ok sid mem p_type message s1 s2 :
  in_range mem p_type 1 = true → p_type + 1 ≤ message →
  (∀ s, sid = Some s → message + 4 ≤ blen mem ∧ le_val (sub mem message 4) = s) →
  write_message_type sid mem p_type message s1 s2 =
    Ret (true, upd mem p_type (le_bytes 1 (if is_secured sid then s1 else s2))).
Proof.
  intros Hr Hp Hs. rewrite in_range_iff in Hr. unfold write_message_type. destruct sid as [s|].
  - destruct (Hs s eq_refl) as [Hl He].
    rewrite store_in by (rewrite in_range_iff; cbn; lia). cbn [mbind exec_bind].
    assert (Hi : in_range mem p_type (blen (le_bytes 1 s1)) = true)
      by (rewrite in_range_iff; cbn; lia).
    rewrite load_le_in by (rewrite in_range_iff, length_upd by done; lia).
    change (Z.of_nat 4) with 4. cbn [mbind exec_bind].
    rewrite sub_upd_disjoint, He, Z.eqb_refl, assert_true by (done || cbn; lia). done.
  - rewrite store_in by (rewrite in_range_iff; cbn; lia). done.
Qed.

Lemma read_message_type_ok p size hdr off (b : bool) s1 s2 :
  s1 ≠ s2 → (b = true → hdr + 4 < size) →
  read_message_type (Some p) size hdr off (if b then s1 else s2) s1 s2 =
    Ret (inr (Some (if b then Some (off + hdr) else None))).
Proof.
  intros Hn Hs. unfold read_message_type. destruct b.
  - rewrite Z.eqb_refl, assert_true. cbn [is_secured negb mbind exec_bind].
    by replace (size <=? hdr + 4) with false by lia.
  - rewrite Z.eqb_refl. by replace (s2 =? s1) with false by lia.
Qed.

Lemma read_message_type_safe p size hdr off t s1 s2 :
  ∃ r, read_message_type (Some p) size hdr off t s1 s2 = Ret r ∧
    match r with
    | inl st => LIBSPDM_STATUS_IS_ERROR st = true
    | inr s => s = Some None ∨ s = Some (Some (off + hdr)) ∧ hdr + 4 < size
    end.
Proof.
  unfold read_message_type. rewrite assert_true. cbn [is_secured negb mbind exec_bind].
  repeat case_if; eexists; (split; [reflexivity|]); cbn; try done; [|by left].
  right. split; [done|lia].
Qed.

End facts.
End FramingFacts.

Module MctpFacts.
Import Mctp FramingFacts PacketFacts.
Section facts.
Context `{BuildConfig}.

Definition mctp_header (secured : bool) (n : Z) : list Z :=
  le_bytes 1 (if secured then MCTP_MESSAGE_TYPE_SECURED_MCTP else MCTP_MESSAGE_TYPE_SPDM).

Lemma mctp_aligned (al : bool) size : 0 ≤ size < 2 ^ 62 →
  align_up (if al then LIBSPDM_MCTP_ALIGNMENT else 1) size = size.
Proof. intros ?. destruct al; apply align_up1; lia. Qed.

Lemma mctp_encode_ok sid al size mem off cap :
  1 ≤ off → 0 ≤ size < 2 ^ 62 → off + size ≤ blen mem → 1 + size ≤ cap →
  (∀ s, sid = Some s → 4 ≤ size ∧ le_val (sub mem off 4) = s) →
  ∃ mem', libspdm_mctp_encode_message sid al size mem off cap =
      Ret (Framed LIBSPDM_STATUS_SUCCESS mem' (Some (off - 1)) (1 + size)) ∧
    length mem' = length mem ∧
    sub mem' (off - 1) (1 + size) =
      mctp_header (is_secured sid) (1 + size) ++ sub mem off size ++ zeros (size - size).
Proof.
  intros Ho Hs Hm Hc Hsid. unfold libspdm_mctp_encode_message, sizeof_mctp_message_header.
  rewrite mctp_aligned by done. cbv zeta. rewrite (size_t_small (size + 1)) by lia.
  replace (size + 1 <=? cap) with true by lia. replace (cap <? size + 1) with false by lia.
  rewrite assert_true. cbn [mbind exec_bind].
  rewrite write_message_type_ok; [|range|lia|intros s Hss; destruct (Hsid s Hss); lia].
  cbn [mbind exec_bind negb]. rewrite Z.sub_diag.
  fold (mctp_header (is_secured sid) (1 + size)).
  set (hd := mctp_header (is_secured sid) (1 + size)). assert (Hhd : blen hd = 1) by done.
  rewrite <- Hhd. destruct (store_padding mem off size hd 0) as (mem' & -> & Hl & Hsub); [lia..|].
  rewrite Z.add_0_r in Hsub. cbn [mbind exec_bind]. rewrite (Z.add_comm size).
  by exists mem'.
Qed.

Lemma mctp_decode_ok p al mem off b payload :
  let n := 1 + blen payload in
  0 ≤ off → off + n ≤ blen mem → sub mem off n = mctp_header b n ++ payload →
  0 < blen payload → (b = true → 4 < blen payload) →
  libspdm_mctp_decode_message (Some p) al n mem off =
    Ret (Unframed LIBSPDM_STATUS_SUCCESS (Some (if b then Some (off + 1) else None))
           (Some (off + 1, blen payload))).
Proof.
  intros n Ho Hm Hs Hp Hb. unfold libspdm_mctp_decode_message, sizeof_mctp_message_header.
  replace (1 <? n) with true by lia. replace (n <=? 1) with false by lia.
  rewrite assert_true. cbn [mbind exec_bind].
  destruct (load_le_head mem off n 1 _ _ Hs) as (-> & _); [lia..|]. cbn [mbind exec_bind].
  rewrite Z.mod_small by (by destruct b).
  rewrite read_message_type_ok; [|done|intros ->; specialize (Hb eq_refl); lia].
  cbn [mbind exec_bind]. change (LIBSPDM_MCTP_ALIGNMENT - 1) with 0.
  rewrite Z.land_0_r, orb_true_r, assert_true. cbn [mbind exec_bind].
  by replace (n - 1) with (blen payload) by lia.
Qed.

Lemma mctp_decode_safe p al n mem off :
  0 ≤ off → 1 < n → off + n ≤ blen mem →
  ∃ u, libspdm_mctp_decode_message (Some p) al n mem off = Ret u ∧
    (u_status u = LIBSPDM_STATUS_SUCCESS ∧ u_message u = Some (off + 1, n - 1) ∧
     (u_session u = Some None ∨ u_session u = Some (Some (off + 1)) ∧ 1 + 4 < n) ∨
     LIBSPDM_STATUS_IS_ERROR (u_status u) = true ∧ u_message u = None).
Proof.
  intros Ho Hn Hm. unfold libspdm_mctp_decode_message, sizeof_mctp_message_header.
  replace (1 <? n) with true by lia. replace (n <=? 1) with false by lia.
  rewrite assert_true. cbn [mbind exec_bind].
  rewrite load_le_in by (change (Z.of_nat 1) with 1; range). cbn [mbind exec_bind].
  destruct (read_message_type_safe p n 1 off (le_val (sub mem off (Z.of_nat 1)))
    MCTP_MESSAGE_TYPE_SECURED_MCTP MCTP_MESSAGE_TYPE_SPDM) as (r & -> & Hr).
  cbn [mbind exec_bind]. destruct r as [st|s].
  - eexists. split; [reflexivity|]. right. done.
  - change (LIBSPDM_MCTP_ALIGNMENT - 1) with 0.
    rewrite Z.land_0_r, orb_true_r, assert_true. cbn [mbind exec_bind].
    eexists. split; [reflexivity|]. left. done.
Qed.

Lemma mctp_cb : cb_ok mctp_callbacks.
Proof.
  split; [|by vm_compute].
  intros s. change (get_sequence_number mctp_callbacks s) with (take 2 (le_bytes 8 s)).
  split; [by rewrite length_take|auto with word].
Qed.

#[export] Instance mctp_binding_ok : TransportBindingOk mctp_binding.
Proof.
  refine {| tb_frame_header := mctp_header; tb_padded := λ n, n; tb_limit := 2 ^ 60 |}.
  - by vm_compute.
  - lia.
  - intros n ?. split; [lia|done].
  - lia.
  - intros b n. split; [done|apply (le_bytes_ok 1)].
  - apply mctp_cb.
  - intros sid al size mem off cap n ? ? ? ? ? ? Hs. by apply mctp_encode_ok.
  - intros p al mem off b payload n ? ? ? ? ? ? ?. by apply mctp_decode_ok.
  - intros p al n mem off ? ? ? ? ?. by apply mctp_decode_safe.
  - intros p al n mem off Hn. cbn in *. unfold libspdm_mctp_decode_message.
    replace (sizeof_mctp_message_header <? n) with false by lia.
    by replace (n <=? sizeof_mctp_message_header) with true by lia.
Defined.

#[export] Instance mctp_unpadded : Unpadded mctp_binding.
Proof. done. Qed.

End facts.
End MctpFacts.

Module TcpFacts.
Import Tcp FramingFacts PacketFacts.
Section facts.
Context `{BuildConfig}.

Definition tcp_header (secured : bool) (n : Z) : list Z :=
  le_bytes 2 (u16 (n - 2)) ++ le_bytes 1 1 ++
  le_bytes 1 (if secured then SPDM_TCP_MESSAGE_TYPE_IN_SESSION
              else SPDM_TCP_MESSAGE_TYPE_OUT_OF_SESSION).

Lemma tcp_encode_ok sid size mem off cap :
  4 ≤ off → 0 ≤ size < 2 ^ 62 → off + size ≤ blen mem → 4 + size ≤ cap →
  (∀ s, sid = Some s → 4 ≤ size ∧ le_val (sub mem off 4) = s) →
  ∃ mem', libspdm_tcp_encode_message sid size mem off cap =
      Ret (Framed LIBSPDM_STATUS_SUCCESS mem' (Some (off - 4)) (4 + size)) ∧
    length mem' = length mem ∧
    sub mem' (off - 4) (4 + size) =
      tcp_header (is_secured sid) (4 + size) ++ sub mem off size ++ zeros (size - size).
Proof.
  intros Ho Hs Hm Hc Hsid. unfold libspdm_tcp_encode_message, sizeof_spdm_tcp_binding_header.
  cbv zeta. rewrite (size_t_small (size + 4)) by lia. rewrite (Z.add_comm size).
  replace (cap <? 4 + size) with false by lia.
  set (l := le_bytes 2 (u16 (4 + size - 2))). set (v := le_bytes 1 1).
  assert (Hl : blen l = 2) by done. assert (Hv : blen v = 1) by done.
  rewrite store_in by (rewrite in_range_iff; lia). cbn [mbind exec_bind].
  assert (Hr : in_range mem (off - 4) (blen l) = true) by (rewrite in_range_iff; lia).
  rewrite store_in by (rewrite in_range_iff, length_upd by done; lia). cbn [mbind exec_bind].
  replace (off - 4 + 2) with (off - 4 + blen l) by lia. rewrite upd_upd_app by (rewrite in_range_iff, length_app; lia).
  assert (Hr2 : in_range mem (off - 4) (blen (l ++ v)) = true)
    by (rewrite in_range_iff, length_app; lia).
  rewrite write_message_type_ok; [|rewrite in_range_iff, length_upd by done; lia|lia|].
  2:{ intros s Hss. destruct (Hsid s Hss). rewrite length_upd by done. split; [lia|].
      rewrite sub_upd_disjoint by (done || rewrite ?length_app; lia). done. }
  cbn [mbind exec_bind negb].
  set (t := le_bytes 1 _).
  replace (off - 4 + 3) with (off - 4 + blen (l ++ v)) by (rewrite length_app; lia).
  rewrite upd_upd_app by (rewrite in_range_iff, !length_app; cbn; lia).
  eexists. split; [reflexivity|].
  assert (Hh : (l ++ v) ++ t = tcp_header (is_secured sid) (4 + size)) by (by rewrite <- app_assoc).
  rewrite Hh. set (hd := tcp_header _ _). assert (Hhd : blen hd = 4) by done.
  rewrite <- Hhd, Z.sub_diag, app_nil_r.
  destruct (store_padding mem off size hd 0) as (mem' & Hst & Hlen & Hsub); [lia..|].
  apply store_Ret_inv in Hst as [_ ->]. rewrite Z.add_0_r, app_nil_r in Hsub.
  assert (Hr3 : in_range mem (off - blen hd) (blen hd) = true) by (rewrite in_range_iff; lia).
  split; [by apply length_upd|]. rewrite <- Hsub. f_equal. unfold upd at 2.
  rewrite Nat.add_0_r. by rewrite app_nil_l, take_drop.
Qed.

Lemma tcp_decode_ok p mem off b payload :
  let n := 4 + blen payload in
  0 ≤ off → off + n ≤ blen mem → sub mem off n = tcp_header b n ++ payload →
  0 < blen payload → (b = true → 4 < blen payload) →
  libspdm_tcp_decode_message (Some p) n mem off =
    Ret (Unframed LIBSPDM_STATUS_SUCCESS (Some (if b then Some (off + 4) else None))
           (Some (off + 4, blen payload))).
Proof.
  intros n Ho Hm Hs Hp Hb. unfold libspdm_tcp_decode_message, sizeof_spdm_tcp_binding_header.
  replace (4 <? n) with true by lia. replace (n <=? 4) with false by lia.
  rewrite assert_true. cbn [mbind exec_bind].
  unfold tcp_header in Hs. rewrite <- !app_assoc in Hs.
  destruct (load_le_head mem off n 2 _ _ Hs) as (_ & Hs1 & _); [lia..|].
  destruct (load_le_head mem _ _ 1 _ _ Hs1) as (_ & Hs2 & _); [lia..|].
  destruct (load_le_head mem _ _ 1 _ _ Hs2) as (Ht & _); [lia..|].
  replace (off + Z.of_nat 2 + Z.of_nat 1) with (off + 3) in Ht by lia. rewrite Ht.
  cbn [mbind exec_bind]. rewrite Z.mod_small by (by destruct b).
  rewrite read_message_type_ok; [|done|intros ->; specialize (Hb eq_refl); lia].
  cbn [mbind exec_bind]. by replace (n - 4) with (blen payload) by lia.
Qed.

Lemma tcp_decode_safe p n mem off :
  0 ≤ off → 4 < n → off + n ≤ blen mem →
  ∃ u, libspdm_tcp_decode_message (Some p) n mem off = Ret u ∧
    (u_status u = LIBSPDM_STATUS_SUCCESS ∧ u_message u = Some (off + 4, n - 4) ∧
     (u_session u = Some None ∨ u_session u = Some (Some (off + 4)) ∧ 4 + 4 < n) ∨
     LIBSPDM_STATUS_IS_ERROR (u_status u) = true ∧ u_message u = None).
Proof.
  intros Ho Hn Hm. unfold libspdm_tcp_decode_message, sizeof_spdm_tcp_binding_header.
  replace (4 <? n) with true by lia. replace (n <=? 4) with false by lia.
  rewrite assert_true. cbn [mbind exec_bind].
  rewrite load_le_in by (change (Z.of_nat 1) with 1; range). cbn [mbind exec_bind].
  destruct (read_message_type_safe p n 4 off (le_val (sub mem (off + 3) (Z.of_nat 1)))
    SPDM_TCP_MESSAGE_TYPE_IN_SESSION SPDM_TCP_MESSAGE_TYPE_OUT_OF_SESSION) as (r & -> & Hr).
  cbn [mbind exec_bind]. destruct r as [st|s].
  - eexists. split; [reflexivity|]. right. done.
  - eexists. split; [reflexivity|]. left. done.
Qed.

#[export] Instance tcp_binding_ok : TransportBindingOk tcp_binding.
Proof.
  refine {| tb_frame_header := tcp_header; tb_padded := λ n, n; tb_limit := 2 ^ 60 |}.
  - by vm_compute.
  - lia.
  - intros n ?. split; [lia|done].
  - lia.
  - intros b n. split; [done|]. unfold tcp_header. rewrite !bytes_ok_app.
    split_and!; apply le_bytes_ok.
  - split; [|by vm_compute]. intros s. split; [by vm_compute|constructor].
  - intros sid al size mem off cap n ? ? ? ? ? ? Hs. by apply tcp_encode_ok.
  - intros p al mem off b payload n ? ? ? ? ? ? ?. by apply tcp_decode_ok.
  - intros p al n mem off ? ? ? ? ?. by apply tcp_decode_safe.
  - intros p al n mem off Hn. cbn in *. unfold libspdm_tcp_decode_message.
    replace (sizeof_spdm_tcp_binding_header <? n) with false by lia.
    by replace (n <=? sizeof_spdm_tcp_binding_header) with true by lia.
Defined.

#[export] Instance tcp_unpadded : Unpadded tcp_binding.
Proof. done. Qed.

End facts.
End TcpFacts.

Module DoeFacts.
Import PciDoe FramingFacts PacketFacts.
Section facts.
Context `{BuildConfig}.

Definition doe_length (n : Z) : Z := if n =? PCI_DOE_MAX_SIZE_IN_BYTE then 0 else n / 4.

Definition doe_prefix (type : Z) : list Z :=
  le_bytes 2 PCI_DOE_VENDOR_ID_PCISIG ++ le_bytes 1 type.

(** The header of a data object of [n] bytes. *)
Definition doe_header_of (type n : Z) : list Z :=
  doe_prefix type ++ le_bytes 1 0 ++ le_bytes 4 (doe_length n).

Definition doe_type (secured : bool) : Z :=
  if secured then PCI_DOE_DATA_OBJECT_TYPE_SECURED_SPDM else PCI_DOE_DATA_OBJECT_TYPE_SPDM.

Definition doe_header (secured : bool) (n : Z) : list Z := doe_header_of (doe_type secured) n.

Definition doe_padded (n : Z) : Z := align_up 4 n.

Lemma doe_padded_ok n : 0 ≤ n < 2 ^ 62 →
  n ≤ doe_padded n < n + 4 ∧ doe_padded n mod 4 = 0 ∧ doe_padded (doe_padded n) = doe_padded n.
Proof.
  intros Hn. unfold doe_padded. destruct (align_up4 n) as [H1 H2]; [lia|].
  destruct (align_up4 (align_up 4 n)) as [H3 H4]; [lia|]. split; [done|]. split; [done|].
  apply Z.mod_divide in H2 as [x H2]; [|done]. apply Z.mod_divide in H4 as [y H4]; [|done]. lia.
Qed.

Lemma doe_padded_mult n : 0 ≤ n < 2 ^ 62 → n mod 4 = 0 → doe_padded n = n.
Proof.
  intros Hn Hm. destruct (doe_padded_ok n Hn) as (H1 & H2 & _).
  apply Z.mod_divide in Hm as [x Hm]; [|done]. apply Z.mod_divide in H2 as [y H2]; [|done]. lia.
Qed.

Lemma length_field_ok n : 0 ≤ n ≤ PCI_DOE_MAX_SIZE_IN_BYTE → length_field n = Some (doe_length n).
Proof.
  unfold length_field, doe_length, PCI_DOE_MAX_SIZE_IN_BYTE. intros Hn.
  replace (1048576 <? n) with false by lia. case_if; [done|].
  rewrite (u32_small n) by (unfold is_u32; lia). rewrite u32_small; [done|].
  unfold is_u32. pose proof (Z.div_lt_upper_bound n 4 (2 ^ 32)). pose proof (Z.div_pos n 4). lia.
Qed.

Lemma doe_length_range n : 0 ≤ n ≤ PCI_DOE_MAX_SIZE_IN_BYTE → 0 ≤ doe_length n < PCI_DOE_MAX_SIZE_IN_DW.
Proof.
  unfold doe_length. change PCI_DOE_MAX_SIZE_IN_BYTE with 1048576.
  change PCI_DOE_MAX_SIZE_IN_DW with 262144. intros Hn.
  destruct (Z.eqb_spec n 1048576); [lia|].
  pose proof (Z.div_lt_upper_bound n 4 262144). pose proof (Z.div_pos n 4). lia.
Qed.

(** Reserved, length and padding after the first three header bytes. *)
Lemma doe_finish_ok type size mem off :
  8 ≤ off → 0 ≤ size < 2 ^ 62 → off + doe_padded size ≤ blen mem →
  8 + doe_padded size ≤ PCI_DOE_MAX_SIZE_IN_BYTE →
  ∃ m1 m2 mem', store (upd mem (off - 8) (doe_prefix type)) (off - 8 + 3) (le_bytes 1 0) = Ret m1 ∧
    store m1 (off - 8 + 4) (le_bytes 4 (doe_length (8 + doe_padded size))) = Ret m2 ∧
    store m2 (off + size) (zeros (doe_padded size - size)) = Ret mem' ∧
    length mem' = length mem ∧
    sub mem' (off - 8) (8 + doe_padded size) =
      doe_header_of type (8 + doe_padded size) ++ sub mem off size ++ zeros (doe_padded size - size).
Proof.
  intros Ho Hs Hm Hn. destruct (align_up4 size) as [Hp _]; [lia|].
  fold (doe_padded size) in Hp. set (n := doe_padded size) in *.
  set (pre := doe_prefix type). assert (Hpre : blen pre = 3) by done.
  set (r := le_bytes 1 0). assert (Hr : blen r = 1) by done.
  set (l := le_bytes 4 (doe_length (8 + n))). assert (Hl : blen l = 4) by done.
  assert (R1 : in_range mem (off - 8) (blen pre) = true) by (rewrite in_range_iff; lia).
  rewrite store_in by (rewrite in_range_iff, length_upd by done; lia).
  replace (off - 8 + 3) with (off - 8 + blen pre) by lia.
  rewrite upd_upd_app by (rewrite in_range_iff, length_app; lia).
  assert (Hpr : blen (pre ++ r) = 4) by done.
  assert (R2 : in_range mem (off - 8) (blen (pre ++ r)) = true) by (rewrite in_range_iff; lia).
  set (hd := doe_header_of type (8 + n)). assert (Hhd : blen hd = 8) by done.
  destruct (store_padding mem off size hd (n - size)) as (m & Hst & Hlen & Hsub); [lia..|].
  rewrite Hhd in Hst, Hsub.
  eexists _, _, m. split; [reflexivity|].
  rewrite store_in by (rewrite in_range_iff, length_upd by done; lia). split; [reflexivity|].
  replace (off - 8 + 4) with (off - 8 + blen (pre ++ r)) by lia.
  rewrite upd_upd_app by (rewrite in_range_iff, length_app; lia).
  change ((pre ++ r) ++ l) with hd. split; [done|]. split; [done|].
  rewrite <- Hsub. f_equal. lia.
Qed.

Lemma doe_encode_ok sid size mem off cap :
  8 ≤ off → 0 ≤ size < 2 ^ 62 → off + doe_padded size ≤ blen mem → 8 + doe_padded size ≤ cap →
  8 + doe_padded size ≤ PCI_DOE_MAX_SIZE_IN_BYTE →
  (∀ s, sid = Some s → 4 ≤ size ∧ le_val (sub mem off 4) = s) →
  ∃ mem', libspdm_pci_doe_encode_message sid size mem off cap =
      Ret (Framed LIBSPDM_STATUS_SUCCESS mem' (Some (off - 8)) (8 + doe_padded size)) ∧
    length mem' = length mem ∧
    sub mem' (off - 8) (8 + doe_padded size) =
      doe_header (is_secured sid) (8 + doe_padded size) ++ sub mem off size ++
      zeros (doe_padded size - size).
Proof.
  intros Ho Hs Hm Hc Hn Hsid. destruct (align_up4 size) as [Hp _]; [lia|].
  fold (doe_padded size) in Hp.
  destruct (doe_finish_ok (doe_type (is_secured sid)) size mem off Ho Hs Hm Hn)
    as (m1 & m2 & mem' & E1 & E2 & E3 & Hlen & Hsub).
  unfold libspdm_pci_doe_encode_message, sizeof_pci_doe_data_object_header,
    LIBSPDM_PCI_DOE_ALIGNMENT. cbv zeta. fold (doe_padded size). set (n := doe_padded size) in *.
  rewrite (size_t_small (n + 8)) by (unfold PCI_DOE_MAX_SIZE_IN_BYTE in *; lia).
  rewrite (Z.add_comm n). replace (8 + n <=? cap) with true by lia.
  replace (cap <? 8 + n) with false by lia. rewrite assert_true. cbn [mbind exec_bind].
  set (v := le_bytes 2 PCI_DOE_VENDOR_ID_PCISIG) in *. assert (Hv : blen v = 2) by done.
  assert (R1 : in_range mem (off - 8) (blen v) = true) by (rewrite in_range_iff; lia).
  rewrite store_in by done. cbn [mbind exec_bind].
  rewrite write_message_type_ok; [|rewrite in_range_iff, length_upd by done; lia|lia|].
  2:{ intros s Hss. destruct (Hsid s Hss). rewrite length_upd by done. split; [lia|].
      rewrite sub_upd_disjoint by (done || lia). done. }
  cbn [mbind exec_bind negb]. fold (doe_type (is_secured sid)).
  set (t := le_bytes 1 _). assert (Ht : blen t = 1) by done.
  replace (off - 8 + 2) with (off - 8 + blen v) by lia.
  rewrite upd_upd_app by (rewrite in_range_iff, length_app; lia).
  change (v ++ t) with (doe_prefix (doe_type (is_secured sid))). rewrite E1. cbn [mbind exec_bind].
  rewrite length_field_ok by lia. rewrite E2. cbn [mbind exec_bind]. rewrite E3.
  by exists mem'.
Qed.

Lemma doe_encode_discovery_ok size mem off cap :
  8 ≤ off → 0 ≤ size < 2 ^ 62 → off + doe_padded size ≤ blen mem → 8 + doe_padded size ≤ cap →
  8 + doe_padded size ≤ PCI_DOE_MAX_SIZE_IN_BYTE →
  ∃ mem', libspdm_pci_doe_encode_discovery size mem off cap =
      Ret (Framed LIBSPDM_STATUS_SUCCESS mem' (Some (off - 8)) (8 + doe_padded size)) ∧
    length mem' = length mem ∧
    sub mem' (off - 8) (8 + doe_padded size) =
      doe_header_of PCI_DOE_DATA_OBJECT_TYPE_DOE_DISCOVERY (8 + doe_padded size) ++
      sub mem off size ++ zeros (doe_padded size - size).
Proof.
  intros Ho Hs Hm Hc Hn. destruct (align_up4 size) as [Hp _]; [lia|].
  fold (doe_padded size) in Hp.
  destruct (doe_finish_ok PCI_DOE_DATA_OBJECT_TYPE_DOE_DISCOVERY size mem off Ho Hs Hm Hn)
    as (m1 & m2 & mem' & E1 & E2 & E3 & Hlen & Hsub).
  unfold libspdm_pci_doe_encode_discovery, sizeof_pci_doe_data_object_header,
    LIBSPDM_PCI_DOE_ALIGNMENT. cbv zeta. fold (doe_padded size). set (n := doe_padded size) in *.
  rewrite (size_t_small (n + 8)) by (unfold PCI_DOE_MAX_SIZE_IN_BYTE in *; lia).
  rewrite (Z.add_comm n). replace (8 + n <=? cap) with true by lia.
  replace (cap <? 8 + n) with false by lia. rewrite assert_true. cbn [mbind exec_bind].
  set (v := le_bytes 2 PCI_DOE_VENDOR_ID_PCISIG) in *. assert (Hv : blen v = 2) by done.
  set (t := le_bytes 1 PCI_DOE_DATA_OBJECT_TYPE_DOE_DISCOVERY). assert (Ht : blen t = 1) by done.
  assert (R1 : in_range mem (off - 8) (blen v) = true) by (rewrite in_range_iff; lia).
  rewrite store_in by done. cbn [mbind exec_bind].
  rewrite store_in by (rewrite in_range_iff, length_upd by done; lia). cbn [mbind exec_bind].
  replace (off - 8 + 2) with (off - 8 + blen v) by lia.
  rewrite upd_upd_app by (rewrite in_range_iff, length_app; lia).
  change (v ++ t) with (doe_prefix PCI_DOE_DATA_OBJECT_TYPE_DOE_DISCOVERY).
  rewrite E1. cbn [mbind exec_bind].
  rewrite length_field_ok by lia. rewrite E2. cbn [mbind exec_bind]. rewrite E3.
  by exists mem'.
Qed.

Lemma check_length_ok mem off n type rest :
  sub mem off n = doe_header_of type n ++ rest → 0 ≤ off → off + n ≤ blen mem →
  8 ≤ n ≤ PCI_DOE_MAX_SIZE_IN_BYTE → n mod 4 = 0 →
  load_le 2 mem off = Ret PCI_DOE_VENDOR_ID_PCISIG ∧ load_le 1 mem (off + 2) = Ret (type mod 256) ∧
  check_length mem off n = Ret None ∧ sub mem (off + 8) (n - 8) = rest.
Proof.
  intros Hs Ho Hm Hn Hd. unfold doe_header_of, doe_prefix in Hs. rewrite <- !app_assoc in Hs.
  destruct (load_le_head mem off n 2 _ _ Hs) as (Hl1 & Hs1 & _); [lia..|].
  destruct (load_le_head mem _ _ 1 _ _ Hs1) as (Hl2 & Hs2 & _); [lia..|].
  destruct (load_le_head mem _ _ 1 _ _ Hs2) as (Hl3 & Hs3 & _); [lia..|].
  destruct (load_le_head mem _ _ 4 _ _ Hs3) as (Hl4 & Hs4 & _); [lia..|].
  replace (off + Z.of_nat 2) with (off + 2) in * by lia.
  replace (off + 2 + Z.of_nat 1) with (off + 3) in * by lia.
  replace (off + 3 + Z.of_nat 1) with (off + 4) in * by lia.
  rewrite Hl1, Hl2. split; [done|]. split; [done|].
  split; [|rewrite <- Hs4; f_equal; lia].
  pose proof (doe_length_range n ltac:(lia)) as Hr. change PCI_DOE_MAX_SIZE_IN_DW with 262144 in *.
  unfold check_length. rewrite Hl3. cbn [mbind exec_bind].
  change (0 mod 2 ^ (8 * Z.of_nat 1) =? 0) with true. cbn [negb]. rewrite Hl4.
  cbn [mbind exec_bind]. unfold PCI_DOE_MAX_SIZE_IN_BYTE in *.
  change (2 ^ (8 * Z.of_nat 4)) with 4294967296. rewrite Z.mod_small by lia.
  change PCI_DOE_MAX_SIZE_IN_DW with 262144.
  replace (262144 <=? doe_length n) with false by lia.
  unfold doe_length in *. unfold PCI_DOE_MAX_SIZE_IN_BYTE in *.
  destruct (Z.eqb_spec n 1048576) as [->|]; [done|].
  pose proof (Z.div_mod n 4). replace (n / 4 =? 0) with false by lia.
  rewrite u32_small by (unfold is_u32; lia). by replace (n / 4 * 4 =? n) with true by lia.
Qed.

Lemma doe_decode_ok p mem off b payload :
  let n := 8 + blen payload in
  0 ≤ off → off + n ≤ blen mem → n ≤ PCI_DOE_MAX_SIZE_IN_BYTE →
  sub mem off n = doe_header b n ++ payload → 0 < blen payload →
  (b = true → 4 < blen payload) → doe_padded (blen payload) = blen payload →
  libspdm_pci_doe_decode_message (Some p) n mem off =
    Ret (Unframed LIBSPDM_STATUS_SUCCESS (Some (if b then Some (off + 8) else None))
           (Some (off + 8, blen payload))).
Proof.
  intros n Ho Hm Hmax Hs Hp Hb Hpad. unfold libspdm_pci_doe_decode_message,
    sizeof_pci_doe_data_object_header.
  destruct (align_up4 (blen payload)) as [_ Hmod];
    [unfold PCI_DOE_MAX_SIZE_IN_BYTE in *; lia|]. fold (doe_padded (blen payload)) in Hmod.
  rewrite Hpad in Hmod.
  destruct (check_length_ok mem off n _ _ Hs Ho Hm) as (Hv & Ht & Hc & _); [lia| |].
  { unfold n. replace (8 + blen payload) with (blen payload + 2 * 4) by lia.
    by rewrite Z.mod_add by lia. }
  replace (8 <? n) with true by lia. replace (n <=? 8) with false by lia.
  rewrite assert_true. cbn [mbind exec_bind]. rewrite Hv. cbn [mbind exec_bind].
  rewrite Z.eqb_refl. cbn [negb]. rewrite Ht. cbn [mbind exec_bind].
  rewrite Z.mod_small by (by destruct b). unfold doe_type.
  rewrite read_message_type_ok; [|done|intros ->; specialize (Hb eq_refl); lia].
  cbn [mbind exec_bind]. rewrite Hc. cbn [mbind exec_bind].
  replace (n - 8) with (blen payload) by lia. unfold LIBSPDM_PCI_DOE_ALIGNMENT.
  rewrite size_t_small by (unfold PCI_DOE_MAX_SIZE_IN_BYTE in *; lia).
  change (4 - 1) with (Z.ones 2). rewrite Z.land_ones by lia. change (2 ^ 2) with 4.
  rewrite Hmod, assert_true. done.
Qed.

Lemma check_length_safe mem off n :
  0 ≤ off → 8 ≤ n → off + n ≤ blen mem → bytes_ok mem →
  ∃ r, check_length mem off n = Ret r ∧
    match r with
    | Some st => LIBSPDM_STATUS_IS_ERROR st = true
    | None => n mod 4 = 0 ∧ n ≤ PCI_DOE_MAX_SIZE_IN_BYTE ∧
        le_val (sub mem (off + 3) 1) = 0 ∧ le_val (sub mem (off + 4) 4) = doe_length n
    end.
Proof.
  intros Ho Hn Hm Hb. unfold check_length.
  rewrite (load_le_in 1 mem) by (change (Z.of_nat 1) with 1; range). cbn [mbind exec_bind].
  change (Z.of_nat 1) with 1.
  case_if; [eexists; by split|]. apply negb_false_iff, Z.eqb_eq in E.
  rewrite (load_le_in 4 mem) by (change (Z.of_nat 4) with 4; range). cbn [mbind exec_bind].
  change (Z.of_nat 4) with 4. set (dw := le_val (sub mem (off + 4) 4)).
  assert (Hdw : 0 ≤ dw < 2 ^ 32).
  { pose proof (le_val_bound (sub mem (off + 4) 4)) as Hv. rewrite length_sub in Hv by range.
    apply Hv. auto with word. }
  change PCI_DOE_MAX_SIZE_IN_DW with 262144. change PCI_DOE_MAX_SIZE_IN_BYTE with 1048576.
  destruct (Z.leb_spec 262144 dw); [eexists; by split|].
  set (len := if dw =? 0 then 1048576 else u32 (dw * 4)).
  destruct (Z.eqb_spec len n) as [<-|]; cbn [negb]; [|eexists; by split].
  eexists. split; [done|]. rewrite E. subst len.
  unfold doe_length. change PCI_DOE_MAX_SIZE_IN_BYTE with 1048576.
  destruct (Z.eqb_spec dw 0) as [Hz|Hz]; [by rewrite Hz|].
  rewrite u32_small by (unfold is_u32; lia). rewrite Z.mod_mul, Z.div_mul by lia.
  replace (dw * 4 =? 1048576) with false by lia. lia.
Qed.

Lemma doe_decode_safe p n mem off :
  0 ≤ off → 8 < n → off + n ≤ blen mem → n < 2 ^ 63 → bytes_ok mem →
  ∃ u, libspdm_pci_doe_decode_message (Some p) n mem off = Ret u ∧
    (u_status u = LIBSPDM_STATUS_SUCCESS ∧ u_message u = Some (off + 8, n - 8) ∧
     (u_session u = Some None ∨ u_session u = Some (Some (off + 8)) ∧ 8 + 4 < n) ∨
     LIBSPDM_STATUS_IS_ERROR (u_status u) = true ∧ u_message u = None).
Proof.
  intros Ho Hn Hm H63 Hb. unfold libspdm_pci_doe_decode_message, sizeof_pci_doe_data_object_header.
  replace (8 <? n) with true by lia. replace (n <=? 8) with false by lia.
  rewrite assert_true. cbn [mbind exec_bind].
  rewrite (load_le_in 2 mem) by (change (Z.of_nat 2) with 2; range). cbn [mbind exec_bind].
  case_if; [eexists; split; [reflexivity|]; by right|].
  rewrite (load_le_in 1 mem) by (change (Z.of_nat 1) with 1; range). cbn [mbind exec_bind].
  destruct (read_message_type_safe p n 8 off (le_val (sub mem (off + 2) (Z.of_nat 1)))
    PCI_DOE_DATA_OBJECT_TYPE_SECURED_SPDM PCI_DOE_DATA_OBJECT_TYPE_SPDM) as (r & -> & Hr).
  cbn [mbind exec_bind]. destruct r as [st|s]; [eexists; split; [reflexivity|]; by right|].
  destruct (check_length_safe mem off n) as (r & -> & Hc); [lia|lia|lia|done|].
  cbn [mbind exec_bind]. destruct r as [st|]; [eexists; split; [reflexivity|]; by right|].
  destruct Hc as (Hmod & _). rewrite size_t_small by lia. unfold LIBSPDM_PCI_DOE_ALIGNMENT.
  change (4 - 1) with (Z.ones 2). rewrite Z.land_ones by lia. change (2 ^ 2) with 4.
  assert (Hm8 : (n - 8) mod 4 = 0)
    by (replace (n - 8) with (n + (-2) * 4) by lia; by rewrite Z.mod_add by lia).
  rewrite Hm8, assert_true. eexists. split; [reflexivity|]. by left.
Qed.

#[export] Instance pci_doe_binding_ok : TransportBindingOk pci_doe_binding.
Proof.
  refine {| tb_frame_header := doe_header; tb_padded := doe_padded;
            tb_limit := PCI_DOE_MAX_SIZE_IN_BYTE |}.
  - by vm_compute.
  - done.
  - intros n Hn. destruct (doe_padded_ok n) as (? & _ & ?); [lia|]. split; [lia|done].
  - intros a b ? ? ?. destruct (doe_padded_ok a) as (? & Ha & _); [lia|].
    destruct (doe_padded_ok b) as (? & Hb & _); [lia|].
    apply Z.mod_divide in Ha as [x Ha]; [|done]. apply Z.mod_divide in Hb as [y Hb]; [|done]. lia.
  - intros b n. split; [done|]. unfold doe_header, doe_header_of, doe_prefix.
    rewrite !bytes_ok_app. split_and!; apply le_bytes_ok.
  - split; [|by vm_compute]. intros s. split; [by vm_compute|constructor].
  - intros sid al size mem off cap n ? ? ? ? ? ? Hs. by apply doe_encode_ok.
  - intros p al mem off b payload n ? ? ? ? ? ? ?. by apply doe_decode_ok.
  - intros p al n mem off ? ? ? ? ?. by apply doe_decode_safe.
  - intros p al n mem off Hn. cbn in *. unfold libspdm_pci_doe_decode_message.
    replace (sizeof_pci_doe_data_object_header <? n) with false by lia.
    by replace (n <=? sizeof_pci_doe_data_object_header) with true by lia.
Defined.

End facts.
End DoeFacts.
