(* ===== verification/Storage.v ===== *)
(** * Storage: the storage transport binding

    libspdm_storage.c.  Requests are framed by a virtual header with the
    operation and the connection id; responses are not framed, so the requester
    tells secured responses by its own state.  A secured message starts with
    four reserved bytes, and the message it seals is described by one descriptor
    in front of it.

    This transport is not an instance of [TransportBinding]: the message is moved
    into the transport buffer before it is sealed there (file InPlace), and
    *session_id is an input of the decoder as well. *)

From S2P Require Import Prelude SpdmDefs CommonSupport CryptLib SecuredContext.
From S2P Require Import SecuredMessage SpdmContext SessionTable Transport InPlace.

Module Storage.

Definition LIBSPDM_STORAGE_MAX_RANDOM_NUMBER_COUNT : Z := 32.
Definition LIBSPDM_STORAGE_CMD_DIRECTION_IF_SEND : Z := 0x01.
Definition LIBSPDM_STORAGE_CMD_DIRECTION_IF_RECV : Z := 0x02.
Definition LIBSPDM_STORAGE_SECURED_MESSAGE_DESCRIPTOR_MIN_SIZE : Z := 1 + 3 + (16 * 1).
Definition LIBSPDM_STORAGE_SECURED_MESSAGE_NUM_DESCRIPTORS_OFFSET : Z := 4 + 4 + 2 + 2 + 2 + 2.
Definition LIBSPDM_STORAGE_SECURED_MESSAGE_HEADER_RESERVED_BYTES : Z := 4.

Definition SPDM_STORAGE_SECURED_MSG_DESCRIPTOR_SPDM : Z := 0x04.
Definition SPDM_STORAGE_SECURED_MSG_ENCAPSULATED_STATUS_SUCCESS : Z := 0x00.
Definition SPDM_STORAGE_SECURED_MSG_ENCAPSULATED_STATUS_INVALID_CMD : Z := 0x02.

Definition SPDM_STORAGE_SEQUENCE_NUMBER_COUNT : Z := 2.
Definition SPDM_STORAGE_SECURITY_BINDING_VERSION : Z := 0x1000.
Definition SPDM_STORAGE_SECURITY_PROTOCOL_DMTF : Z := 0xE8.
Definition SPDM_STORAGE_OPERATION_CODE_DISCOVERY : Z := 0x01.
Definition SPDM_STORAGE_OPERATION_CODE_PENDING_INFO : Z := 0x02.
Definition SPDM_STORAGE_OPERATION_CODE_MESSAGE : Z := 0x05.
Definition SPDM_STORAGE_OPERATION_CODE_SECURED_MESSAGE : Z := 0x06.
Definition SPDM_STORAGE_MAX_CONNECTION_ID_MASK : Z := 0x3.

(** sizeof of the packed structures. *)
Definition sizeof_storage_transport_virtual_header : Z := 3.
Definition sizeof_storage_discovery_response : Z := 32.
Definition sizeof_storage_pending_info_response : Z := 12.

Definition libspdm_storage_get_secured_spdm_version (secured_message_version : Z) : Z :=
  secured_message_version.

Definition libspdm_storage_get_max_random_number_count : Z :=
  LIBSPDM_STORAGE_MAX_RANDOM_NUMBER_COUNT.

(** The bytes of the buffer the returned size counts. *)
Definition libspdm_storage_get_sequence_number (sequence_number : Z) : list Z :=
  take (Z.to_nat SPDM_STORAGE_SEQUENCE_NUMBER_COUNT) (le_bytes 8 sequence_number).

Definition storage_callbacks : libspdm_secured_message_callbacks_t :=
  Build_secured_message_callbacks libspdm_storage_get_sequence_number
    libspdm_storage_get_max_random_number_count libspdm_storage_get_secured_spdm_version.

(** security_protocol_specific, and its parts. *)
Definition protocol_specific (operation connection_id : Z) : Z :=
  u16 (Z.lor (Z.shiftl operation 2)
         (Z.land connection_id SPDM_STORAGE_MAX_CONNECTION_ID_MASK)).

Definition spsp_connection_id (spsp0 : Z) : Z := Z.land spsp0 0x03.
Definition spsp_operation (spsp0 : Z) : Z := Z.shiftr (Z.land spsp0 0xFC) 2.

Section framing.
Context `{BuildConfig}.

(** The virtual header both decoders read: an error status, or spsp0. *)
Definition read_virtual_header (mem : list Z) (transport_message : Z) :
    exec (libspdm_return_t + Z) :=
  security_protocol ← load_le 1 mem transport_message;
  RETURN inl LIBSPDM_STATUS_INVALID_MSG_FIELD
    IF negb (security_protocol =? SPDM_STORAGE_SECURITY_PROTOCOL_DMTF);;
  security_protocol_specific ← load_le 2 mem (transport_message + 1);
  let spsp0 := Z.land security_protocol_specific 0xFF in
  let spsp1 := Z.shiftr security_protocol_specific 8 in
  RETURN inl LIBSPDM_STATUS_INVALID_MSG_FIELD IF negb (spsp1 =? 0);;
  Ret (inr spsp0).

(** [session_id] as in [TransportBinding]; [connection_id] tells whether that
    pointer is not NULL, and the second result is what it then receives. *)
Definition libspdm_storage_decode_message (session_id : option (option Z)) (connection_id : bool)
    (transport_message_size : Z) (mem : list Z) (transport_message : Z) :
    exec (unframed * option Z) :=
  let hdr := sizeof_storage_transport_virtual_header in
  let reserved := LIBSPDM_STORAGE_SECURED_MESSAGE_HEADER_RESERVED_BYTES in
  LIBSPDM_ASSERT (hdr <=? transport_message_size);;
  RETURN (Unframed LIBSPDM_STATUS_INVALID_MSG_SIZE session_id None, None)
    IF transport_message_size <=? hdr;;
  RETURN (Unframed LIBSPDM_STATUS_INVALID_MSG_SIZE session_id None, None)
    IF transport_message_size =? 0;;
  r ← read_virtual_header mem transport_message;
  match r with
  | inl st => Ret (Unframed st session_id None, None)
  | inr spsp0 =>
      let conn := if connection_id then Some (spsp_connection_id spsp0) else None in
      let spdm_operation := spsp_operation spsp0 in
      if (spdm_operation =? SPDM_STORAGE_OPERATION_CODE_DISCOVERY)
         || (spdm_operation =? SPDM_STORAGE_OPERATION_CODE_PENDING_INFO)
         || (spdm_operation =? SPDM_STORAGE_OPERATION_CODE_MESSAGE) then
        Ret (Unframed LIBSPDM_STATUS_SUCCESS
               (match session_id with Some _ => Some None | None => None end)
               (Some (transport_message + hdr, transport_message_size - hdr)), conn)
      else if spdm_operation =? SPDM_STORAGE_OPERATION_CODE_SECURED_MESSAGE then
        LIBSPDM_ASSERT (is_secured session_id);;
        RETURN (Unframed LIBSPDM_STATUS_INVALID_MSG_FIELD session_id None, conn)
          IF negb (is_secured session_id);;
        RETURN (Unframed LIBSPDM_STATUS_INVALID_MSG_SIZE session_id None, conn)
          IF transport_message_size <=? hdr + 4;;
        let message := transport_message + hdr + reserved in
        Ret (Unframed LIBSPDM_STATUS_SUCCESS (Some (Some message))
               (Some (message, transport_message_size - hdr - reserved)), conn)
      else Ret (Unframed LIBSPDM_STATUS_UNSUPPORTED_CAP session_id None, conn)
  end.

Definition libspdm_storage_encode_message (session_id : option Z) (connection_id message_size : Z)
    (mem : list Z) (message transport_message_size : Z) : exec framed :=
  let hdr := sizeof_storage_transport_virtual_header in
  RETURN Framed LIBSPDM_STATUS_INVALID_MSG_SIZE mem None transport_message_size
    IF (transport_message_size =? 0) || (message_size =? 0);;
  LIBSPDM_ASSERT (hdr <=? transport_message_size);;
  let size := size_t (message_size + hdr) in
  RETURN Framed LIBSPDM_STATUS_BUFFER_TOO_SMALL mem None size
    IF transport_message_size <? size;;
  RETURN Framed LIBSPDM_STATUS_INVALID_MSG_FIELD mem None transport_message_size
    IF negb (Z.land connection_id (Z.lnot 0x03) =? 0);;
  let transport_message := message - hdr in
  mem ← store mem transport_message (le_bytes 1 SPDM_STORAGE_SECURITY_PROTOCOL_DMTF);
  match session_id with
  | Some sid =>
      mem ← store mem (transport_message + 1)
              (le_bytes 2 (protocol_specific SPDM_STORAGE_OPERATION_CODE_SECURED_MESSAGE
                             connection_id));
      mem ← store mem message (zeros LIBSPDM_STORAGE_SECURED_MESSAGE_HEADER_RESERVED_BYTES);
      data32 ← load_le 4 mem (message + LIBSPDM_STORAGE_SECURED_MESSAGE_HEADER_RESERVED_BYTES);
      LIBSPDM_ASSERT (sid =? data32);;
      RETURN Framed LIBSPDM_STATUS_INVALID_MSG_FIELD mem (Some transport_message) size
        IF negb (sid =? data32);;
      Ret (Framed LIBSPDM_STATUS_SUCCESS mem (Some transport_message) size)
  | None =>
      mem ← store mem (transport_message + 1)
              (le_bytes 2 (protocol_specific SPDM_STORAGE_OPERATION_CODE_MESSAGE connection_id));
      Ret (Framed LIBSPDM_STATUS_SUCCESS mem (Some transport_message) size)
  end.

End framing.

(** ** Descriptors *)

(** The fields of spdm_storage_secured_message_descriptor. *)
Definition desc_type_off : Z := 1.
Definition desc_status_off : Z := 2.
Definition desc_length_off : Z := 4.
Definition desc_offset_off : Z := 8.

(** The loop over the descriptors: [inl] is a return with that status, and
    whether the error structure is set to INVALID_CMD; [inr] is the offset of
    the SPDM message. *)
Fixpoint check_descriptors (k : nat) (i : Z) (mem : list Z) (message_size start descriptor : Z)
    (is_request_message : bool) (spdm_msg_offset : Z) :
    exec ((libspdm_return_t * bool) + Z) :=
  match k with
  | O => Ret (inr spdm_msg_offset)
  | S k =>
      desc_type ← load_le 1 mem (descriptor + desc_type_off);
      if desc_type =? SPDM_STORAGE_SECURED_MSG_DESCRIPTOR_SPDM then
        length_ ← load_le 4 mem (descriptor + desc_length_off);
        RETURN inl (LIBSPDM_STATUS_INVALID_MSG_SIZE, false) IF message_size <? length_;;
        offset ← load_le 4 mem (descriptor + desc_offset_off);
        RETURN inl (LIBSPDM_STATUS_INVALID_MSG_FIELD, false)
          IF offset <? LIBSPDM_STORAGE_SECURED_MESSAGE_NUM_DESCRIPTORS_OFFSET;;
        let spdm_msg_offset :=
          u32 (offset - LIBSPDM_STORAGE_SECURED_MESSAGE_NUM_DESCRIPTORS_OFFSET) in
        RETURN inl (LIBSPDM_STATUS_INVALID_MSG_SIZE, false) IF message_size <? spdm_msg_offset;;
        status ← load_le 1 mem (descriptor + desc_status_off);
        RETURN inl (LIBSPDM_STATUS_ERROR_PEER, false)
          IF negb is_request_message
             && negb (status =? SPDM_STORAGE_SECURED_MSG_ENCAPSULATED_STATUS_SUCCESS);;
        check_descriptors k (i + 1) mem message_size start
          (start + LIBSPDM_STORAGE_SECURED_MESSAGE_DESCRIPTOR_MIN_SIZE * i)
          is_request_message spdm_msg_offset
      else Ret (inl (LIBSPDM_STATUS_UNSUPPORTED_CAP, true))
  end.

Section transport.
Context `{BuildConfig, CryptoHal}.
Implicit Types ctx : libspdm_context_t.

(** The status, the context, *message as an offset in [mem], *message_size. *)
Definition libspdm_storage_secured_message_decode ctx (session_id message_size : Z)
    (mem : list Z) (message : Z) (is_request_message : bool) :
    exec (libspdm_return_t * libspdm_context_t * Z * Z) :=
  RETURN (LIBSPDM_STATUS_INVALID_MSG_SIZE, ctx, message, message_size)
    IF message_size <? LIBSPDM_STORAGE_SECURED_MESSAGE_DESCRIPTOR_MIN_SIZE;;
  num_descriptors ← load_le 1 mem message;
  let spdm_error :=
    Build_error_struct SPDM_STORAGE_SECURED_MSG_ENCAPSULATED_STATUS_INVALID_CMD session_id in
  let ctx_error := libspdm_set_last_spdm_error_struct ctx spdm_error in
  RETURN (LIBSPDM_STATUS_INVALID_MSG_FIELD, ctx_error, message, message_size)
    IF num_descriptors =? 0;;
  RETURN (LIBSPDM_STATUS_UNSUPPORTED_CAP, ctx_error, message, message_size)
    IF 1 <? num_descriptors;;
  let start := message + 3 in
  r ← check_descriptors (Z.to_nat num_descriptors) 0 mem message_size start start
        is_request_message 0;
  match r with
  | inl (st, set_error) =>
      Ret (st, if set_error : bool then ctx_error else ctx, message, message_size)
  | inr spdm_msg_offset =>
      Ret (LIBSPDM_STATUS_SUCCESS, ctx, message + spdm_msg_offset,
           message_size - spdm_msg_offset)
  end.

(** The transport buffer, and where in it *message and *secured_message point. *)
Record storage_secured : Type := StorageSecured {
  ss_status : libspdm_return_t;
  ss_buf : list Z;
  ss_message : Z;
  ss_message_size : Z;
  ss_secured_message : Z;
  ss_secured_message_size : Z;
}.

Definition libspdm_storage_secured_message_encode ctx (message_size : Z) (msg : list Z) (off : Z)
    (transport_message_size : Z) (buf : list Z) (is_request_message : bool) :
    exec storage_secured :=
  let min_size := LIBSPDM_STORAGE_SECURED_MESSAGE_DESCRIPTOR_MIN_SIZE in
  let sec_trans_header_size :=
    (if is_request_message then sizeof_storage_transport_virtual_header else 0) + 4 in
  buf ← store buf 0 (zeros transport_message_size);
  let secured_message := sec_trans_header_size in
  let secured_message_size := size_t (transport_message_size - sec_trans_header_size) in
  RETURN StorageSecured LIBSPDM_STATUS_INVALID_MSG_SIZE buf 0 message_size secured_message
           secured_message_size
    IF secured_message_size <? size_t (min_size + message_size);;
  let secured_storage_desc_start := secured_message + (4 + 2 + 2 + 2 + 2) in
  let secured_storage_desc_end := secured_storage_desc_start + min_size in
  d ← load msg off message_size;
  LIBSPDM_ASSERT (negb (size_t (secured_message_size - min_size) <? message_size));;
  buf ← store buf secured_storage_desc_end d;
  buf ← store buf secured_storage_desc_start (zeros min_size);
  let spdm_error := libspdm_get_last_spdm_error_struct ctx in
  buf ← store buf secured_storage_desc_start (le_bytes 1 1);
  let descriptor := secured_storage_desc_start + 3 in
  buf ← store buf (descriptor + desc_type_off)
          (le_bytes 1 SPDM_STORAGE_SECURED_MSG_DESCRIPTOR_SPDM);
  buf ← store buf (descriptor + desc_status_off)
          (le_bytes 1 (if is_request_message then 0 else error_code spdm_error));
  buf ← store buf (descriptor + desc_length_off) (le_bytes 4 (u32 message_size));
  buf ← store buf (descriptor + desc_offset_off) (le_bytes 4 (4 + 4 + 2 + 2 + 2 + 2 + min_size));
  Ret (StorageSecured LIBSPDM_STATUS_SUCCESS buf secured_storage_desc_start
         (size_t (message_size + min_size)) secured_message secured_message_size).

(** ** The transport layer *)

Definition libspdm_transport_storage_encode_message ctx (session_id : option Z)
    (is_app_message is_request_message : bool) (message_size : Z) (msg : list Z) (off : Z)
    (transport_message_size : Z) (buf : list Z) (rng : rng_state) : exec transport_encoded :=
  let fail st ctx buf rng :=
    TransportEncoded st ctx msg buf (InBuffer 0) transport_message_size rng in
  let reserved := LIBSPDM_STORAGE_SECURED_MESSAGE_HEADER_RESERVED_BYTES in
  RETURN fail LIBSPDM_STATUS_UNSUPPORTED_CAP ctx buf rng IF is_app_message;;
  RETURN fail LIBSPDM_STATUS_INVALID_MSG_SIZE ctx buf rng IF transport_message_size =? 0;;
  match session_id with
  | Some sid =>
      match libspdm_get_secured_message_context_via_session_id ctx sid with
      | None => Ret (fail LIBSPDM_STATUS_UNSUPPORTED_CAP ctx buf rng)
      | Some c =>
          s ← libspdm_storage_secured_message_encode ctx message_size msg off
                transport_message_size buf is_request_message;
          RETURN fail (ss_status s) ctx (ss_buf s) rng IF LIBSPDM_STATUS_IS_ERROR (ss_status s);;
          let hdr := ss_secured_message s in
          e ← encode_secured_message_in_place c sid is_request_message (ss_message_size s)
                (drop (Z.to_nat hdr) (ss_buf s)) (ss_message s - hdr)
                (ss_secured_message_size s) storage_callbacks rng;
          let ctx := put_secured_message_context ctx sid (e_ctx e) in
          let buf := take (Z.to_nat hdr) (ss_buf s) ++ e_msg e in
          RETURN fail (e_status e) ctx buf (e_rng e) IF LIBSPDM_STATUS_IS_ERROR (e_status e);;
          let size := size_t (e_size e + reserved) in
          if negb is_request_message then
            Ret (TransportEncoded LIBSPDM_STATUS_SUCCESS ctx msg buf (InBuffer (hdr - reserved))
                   size (e_rng e))
          else
            f ← libspdm_storage_encode_message (Some sid) 0 size buf (hdr - reserved)
                  transport_message_size;
            Ret (TransportEncoded
                   (if LIBSPDM_STATUS_IS_ERROR (f_status f) then f_status f
                    else LIBSPDM_STATUS_SUCCESS)
                   ctx msg (f_mem f) (InBuffer (default 0 (f_ptr f))) (f_size f) (e_rng e))
      end
  | None =>
      if negb is_request_message then
        Ret (TransportEncoded LIBSPDM_STATUS_SUCCESS ctx msg buf (InMessage off) message_size rng)
      else
        f ← libspdm_storage_encode_message None 0 message_size msg off transport_message_size;
        Ret (TransportEncoded
               (if LIBSPDM_STATUS_IS_ERROR (f_status f) then f_status f else LIBSPDM_STATUS_SUCCESS)
               ctx (f_mem f) buf
               (match f_ptr f with Some p => InMessage p | None => InBuffer 0 end) (f_size f) rng)
  end.

(** *session_id of the decoder: NULL, the caller's own variable with its value,
    or a pointer into the received message. *)
Inductive session_ptr : Set :=
| NoSession
| CallerSession (id : Z)
| FrameSession (off : Z).

Record storage_decoded : Type := StorageDecoded {
  sd_status : libspdm_return_t;
  sd_ctx : libspdm_context_t;
  sd_session : session_ptr;      (* *session_id *)
  sd_is_app : option bool;       (* *is_app_message, if assigned *)
  sd_app : list Z;               (* the caller's buffer *)
  sd_ptr : received_ptr;         (* *message *)
  sd_size : Z;                   (* *message_size *)
}.

(** Opening a secured message whose record starts at [moff] of the frame, and
    the descriptor in it. *)
Definition open_secured ctx (session : session_ptr) (sid : Z) (is_request_message : bool)
    (msize : Z) (frame : list Z) (moff message_size : Z) (app : list Z) : exec storage_decoded :=
  match libspdm_get_secured_message_context_via_session_id ctx sid with
  | None =>
      let spdm_error := Build_error_struct SPDM_ERROR_CODE_INVALID_SESSION sid in
      Ret (StorageDecoded LIBSPDM_STATUS_UNSUPPORTED_CAP
             (libspdm_set_last_spdm_error_struct ctx spdm_error) session (Some false) app
             (InCaller 0) message_size)
  | Some c =>
      d ← libspdm_decode_secured_message c sid is_request_message msize
            (drop (Z.to_nat moff) frame) message_size app storage_callbacks;
      let ctx := put_secured_message_context ctx sid (d_ctx d) in
      if LIBSPDM_STATUS_IS_ERROR (d_status d) then
        let spdm_error := libspdm_secured_message_get_last_spdm_error_struct (d_ctx d) in
        Ret (StorageDecoded (d_status d) (libspdm_set_last_spdm_error_struct ctx spdm_error)
               session (Some false) (d_app d) (app_ptr moff d) (d_size d))
      else
        let decode mem o :=
          libspdm_storage_secured_message_decode ctx sid (d_size d) mem o is_request_message in
        '(st, ctx, ptr, size) ←
          match app_ptr moff d with
          | InCaller o =>
              '(st, ctx, o, size) ← decode (d_app d) o; Ret (st, ctx, InCaller o, size)
          | InTransport o =>
              '(st, ctx, o, size) ← decode frame o; Ret (st, ctx, InTransport o, size)
          end;
        Ret (StorageDecoded
               (if LIBSPDM_STATUS_IS_ERROR st then st else LIBSPDM_STATUS_SUCCESS)
               ctx session (Some false) (d_app d) ptr size)
  end.

(** [session_id] is [None] when the pointer is NULL; [is_app_message] tells
    whether that pointer is not NULL. *)
Definition libspdm_transport_storage_decode_message ctx (session_id : option session_ptr)
    (is_app_message is_request_message : bool) (transport_message_size : Z) (frame : list Z)
    (message_size : Z) (app : list Z) : exec storage_decoded :=
  let reserved := LIBSPDM_STORAGE_SECURED_MESSAGE_HEADER_RESERVED_BYTES in
  let ctx := libspdm_set_last_spdm_error_struct ctx (Build_error_struct 0 0) in
  match session_id with
  | None =>
      Ret (StorageDecoded LIBSPDM_STATUS_UNSUPPORTED_CAP ctx NoSession None app (InCaller 0)
             message_size)
  | Some session =>
      RETURN StorageDecoded LIBSPDM_STATUS_UNSUPPORTED_CAP ctx session None app (InCaller 0)
               message_size IF negb is_app_message;;
      let fail st session :=
        StorageDecoded st ctx session (Some false) app (InCaller 0) message_size in
      if negb is_request_message then
        match session with
        | NoSession =>
            Ret (StorageDecoded LIBSPDM_STATUS_SUCCESS ctx NoSession (Some false) app
                   (InTransport 0) transport_message_size)
        | _ =>
            RETURN fail LIBSPDM_STATUS_INVALID_MSG_SIZE session
              IF transport_message_size <? reserved + 4;;
            sid ← load_le 4 frame reserved;
            open_secured ctx (CallerSession sid) sid is_request_message
              (transport_message_size - reserved) frame reserved message_size app
        end
      else
        '(u, _) ← libspdm_storage_decode_message (Some None) false transport_message_size frame 0;
        RETURN fail (u_status u) session IF LIBSPDM_STATUS_IS_ERROR (u_status u);;
        let '(moff, msize) := default (0, 0) (u_message u) in
        match u_session u with
        | Some (Some p) =>
            sid ← load_le 4 frame p;
            open_secured ctx (FrameSession p) sid is_request_message msize frame moff
              message_size app
        | _ =>
            '(u, _) ← libspdm_storage_decode_message (Some None) false transport_message_size
                        frame 0;
            RETURN fail (u_status u) session IF LIBSPDM_STATUS_IS_ERROR (u_status u);;
            LIBSPDM_ASSERT (bool_decide (u_session u = Some None));;
            let '(moff, msize) := default (0, 0) (u_message u) in
            Ret (StorageDecoded LIBSPDM_STATUS_SUCCESS ctx NoSession (Some false) app
                   (InTransport moff) msize)
        end
  end.

(** ** Management commands *)

(** The status, the buffer, *transport_message_size and *allocation_length, if
    assigned. *)
Definition libspdm_transport_storage_encode_management_cmd
    (cmd_direction transport_operation connection_id transport_message_size : Z)
    (transport_message : list Z) : exec (libspdm_return_t * list Z * Z * option Z) :=
  let hdr := sizeof_storage_transport_virtual_header in
  let ret st alloc := (st, transport_message, transport_message_size, alloc) in
  RETURN ret LIBSPDM_STATUS_INVALID_MSG_SIZE None IF transport_message_size =? 0;;
  RETURN ret LIBSPDM_STATUS_BUFFER_TOO_SMALL None IF transport_message_size <? hdr;;
  RETURN ret LIBSPDM_STATUS_INVALID_MSG_FIELD None
    IF negb (Z.land connection_id (Z.lnot 0x03) =? 0);;
  RETURN ret LIBSPDM_STATUS_INVALID_MSG_FIELD None
    IF negb ((cmd_direction =? LIBSPDM_STORAGE_CMD_DIRECTION_IF_SEND)
             || (cmd_direction =? LIBSPDM_STORAGE_CMD_DIRECTION_IF_RECV));;
  let recv := cmd_direction =? LIBSPDM_STORAGE_CMD_DIRECTION_IF_RECV in
  let finish alloc :=
    m ← store transport_message 0 (zeros hdr);
    m ← store m 0 (le_bytes 1 SPDM_STORAGE_SECURITY_PROTOCOL_DMTF);
    m ← store m 1 (le_bytes 2 (protocol_specific transport_operation connection_id));
    Ret (LIBSPDM_STATUS_SUCCESS, m, hdr, alloc) in
  let sized size :=
    if recv then
      RETURN ret LIBSPDM_STATUS_BUFFER_TOO_SMALL (Some size) IF transport_message_size <? size;;
      finish (Some size)
    else finish None in
  if transport_operation =? SPDM_STORAGE_OPERATION_CODE_DISCOVERY then
    sized sizeof_storage_discovery_response
  else if transport_operation =? SPDM_STORAGE_OPERATION_CODE_PENDING_INFO then
    sized sizeof_storage_pending_info_response
  else Ret (ret LIBSPDM_STATUS_INVALID_MSG_FIELD None).

(** The status, the buffer and *transport_message_size. *)
Definition libspdm_transport_storage_encode_discovery_response (transport_message_size : Z)
    (transport_message : list Z) : exec (libspdm_return_t * list Z * Z) :=
  let size := sizeof_storage_discovery_response in
  let ret st := (st, transport_message, transport_message_size) in
  RETURN ret LIBSPDM_STATUS_INVALID_MSG_SIZE IF transport_message_size =? 0;;
  RETURN ret LIBSPDM_STATUS_BUFFER_TOO_SMALL IF transport_message_size <? size;;
  m ← store transport_message 0 (zeros size);
  m ← store m 0 (le_bytes 2 (u16 size));
  m ← store m 2 (le_bytes 2 SPDM_STORAGE_SECURITY_BINDING_VERSION);
  m ← store m 4 (le_bytes 1 0);
  m ← store m 8 (le_bytes 1
        (Z.lor (Z.lor (Z.lor (Z.shiftl 1 SPDM_STORAGE_OPERATION_CODE_DISCOVERY)
                             (Z.shiftl 1 SPDM_STORAGE_OPERATION_CODE_PENDING_INFO))
                      (Z.shiftl 1 SPDM_STORAGE_OPERATION_CODE_MESSAGE))
               (Z.shiftl 1 SPDM_STORAGE_OPERATION_CODE_SECURED_MESSAGE)));
  Ret (LIBSPDM_STATUS_SUCCESS, m, size).

Definition libspdm_transport_storage_encode_pending_info_response (transport_message_size : Z)
    (transport_message : list Z) (response_pending : bool) (pending_response_length : Z) :
    exec (libspdm_return_t * list Z * Z) :=
  let size := sizeof_storage_pending_info_response in
  let ret st := (st, transport_message, transport_message_size) in
  RETURN ret LIBSPDM_STATUS_INVALID_MSG_SIZE IF transport_message_size =? 0;;
  RETURN ret LIBSPDM_STATUS_BUFFER_TOO_SMALL IF transport_message_size <? size;;
  m ← store transport_message 0 (zeros size);
  m ← store m 0 (le_bytes 2 (u16 size));
  m ← store m 2 (le_bytes 2 SPDM_STORAGE_SECURITY_BINDING_VERSION);
  if response_pending then
    m ← store m 4 (le_bytes 4 (Z.shiftl 1 0));
    m ← store m 8 (le_bytes 4 pending_response_length);
    Ret (LIBSPDM_STATUS_SUCCESS, m, size)
  else Ret (LIBSPDM_STATUS_SUCCESS, m, size).

(** The status and *transport_command, if assigned. *)
Definition libspdm_transport_storage_decode_management_cmd (transport_message_size : Z)
    (transport_message : list Z) : exec (libspdm_return_t * option Z) :=
  let hdr := sizeof_storage_transport_virtual_header in
  RETURN (LIBSPDM_STATUS_INVALID_MSG_SIZE, None) IF transport_message_size =? 0;;
  LIBSPDM_ASSERT (hdr <=? transport_message_size);;
  RETURN (LIBSPDM_STATUS_INVALID_MSG_SIZE, None) IF transport_message_size <? hdr;;
  r ← read_virtual_header transport_message 0;
  match r with
  | inl st => Ret (st, None)
  | inr spsp0 =>
      let spdm_operation := spsp_operation spsp0 in
      if (spdm_operation =? SPDM_STORAGE_OPERATION_CODE_DISCOVERY)
         || (spdm_operation =? SPDM_STORAGE_OPERATION_CODE_PENDING_INFO)
         || (spdm_operation =? SPDM_STORAGE_OPERATION_CODE_MESSAGE)
         || (spdm_operation =? SPDM_STORAGE_OPERATION_CODE_SECURED_MESSAGE) then
        Ret (LIBSPDM_STATUS_SUCCESS, Some spdm_operation)
      else Ret (LIBSPDM_STATUS_UNSUPPORTED_CAP, Some 0)
  end.

End transport.
End Storage.
Export Storage.
