(* ===== verification/SendReceive.v ===== *)
(** * SendReceive: sending requests and receiving responses

    The requester's input and output (libspdm_req_send_receive.c): the transport
    layer and the device under a message, the roll-back of a key update when a
    response does not decode, and the transfer of large messages in chunks
    (CHUNK_SEND, and CHUNK_GET in libspdm_req_handle_error_response.c).  They are
    an instance of [RequesterChannel]. *)

From S2P Require Import Prelude SpdmDefs CommonSupport CryptLib SecuredContext SecuredSession.
From S2P Require Import SpdmContext SessionTable Messages KeyUpdate Transport.

(** The functions of a transport layer, registered with
    libspdm_register_transport_layer_func. *)
Class TransportLayer `{BuildConfig, CryptoHal} : Type := {
  (** session_id, is_app_message, is_request_message, message_size, the memory
      around the message, its offset, *transport_message_size, the transport
      buffer *)
  transport_encode_message : libspdm_context_t → option Z → bool → bool → Z → list Z → Z → Z →
    list Z → rng_state → exec transport_encoded;
  (** session_id and is_app_message not NULL, is_request_message, size and
      bytes of the frame, *message_size, the caller's buffer *)
  transport_decode_message : libspdm_context_t → bool → bool → bool → Z → list Z → Z → list Z →
    exec transport_decoded;
}.

(** The functions of the device, registered with libspdm_register_device_io_func
    and libspdm_register_device_buffer_func, over the state [D] of the device. *)
Class Device : Type := {
  D : Type;
  receiver_buffer_size : Z;
  device_acquire_sender_buffer : D → libspdm_return_t * D;
  device_release_sender_buffer : D → D;
  device_acquire_receiver_buffer : D → libspdm_return_t * D;
  device_release_receiver_buffer : D → D;
  (** the message and the timeout *)
  device_send_message : list Z → Z → D → libspdm_return_t * D;
  (** the room for the message and the timeout; the bytes received *)
  device_receive_message : Z → Z → D → libspdm_return_t * list Z * D;
}.

Module SendReceive.

(** ** Chunk messages *)

Definition sizeof_spdm_chunk_send_request : Z := 12.
Definition sizeof_spdm_chunk_send_ack_response : Z := 6.
Definition sizeof_spdm_chunk_send_ack_response_14 : Z := 8.
Definition sizeof_spdm_chunk_get_request : Z := 6.
Definition sizeof_spdm_chunk_get_request_14 : Z := 8.
Definition sizeof_spdm_chunk_response_response : Z := 12.
Definition sizeof_spdm_error_response : Z := 4.
Definition sizeof_spdm_error_data_large_response : Z := 1.

Definition SPDM_CHUNK_SEND_REQUEST_ATTRIBUTE_LAST_CHUNK : Z := 1.
Definition SPDM_CHUNK_SEND_ACK_RESPONSE_ATTRIBUTE_EARLY_ERROR_DETECTED : Z := 1.
Definition SPDM_CHUNK_GET_RESPONSE_ATTRIBUTE_LAST_CHUNK : Z := 1.

(** The sequence number of a chunk message: 16 bits, 32 from version 1.4 on. *)
Definition seq_no_bytes (version seq_no : Z) : list Z :=
  if version <? SPDM_MESSAGE_VERSION_14 then le_bytes 2 seq_no else le_bytes 4 seq_no.

Definition send_ack_header_size (version : Z) : Z :=
  if version <? SPDM_MESSAGE_VERSION_14 then sizeof_spdm_chunk_send_ack_response
  else sizeof_spdm_chunk_send_ack_response_14.

Section requester.
Context `{BuildConfig, CryptoHal} {layer : TransportLayer} {device : Device}.
Implicit Types ctx : libspdm_context_t.
Definition io_world : Type := (rng_state * D)%type.
Implicit Types w : io_world.

(** ** One message *)

(** Where the request lies: one of the two sections of the scratch buffer in
    which requests are built. *)
Inductive request_place : Set :=
| InSenderReceiver
| InLargeSenderReceiver.

Definition section_of (p : request_place) ctx : list Z :=
  match p with
  | InSenderReceiver => sender_receiver_section (scratch (exchange ctx))
  | InLargeSenderReceiver => large_sender_receiver_section (scratch (exchange ctx))
  end.

Definition set_scratch ctx (f : libspdm_scratch_t → libspdm_scratch_t) : libspdm_context_t :=
  set_exchange ctx (λ x, x <| scratch := f (scratch x) |>).

Definition put_section (p : request_place) ctx (m : list Z) : libspdm_context_t :=
  set_scratch ctx (λ s, match p with
    | InSenderReceiver => s <| sender_receiver_section := m |>
    | InLargeSenderReceiver => s <| large_sender_receiver_section := m |>
    end).

Definition put_secure ctx (m : list Z) : libspdm_context_t :=
  set_scratch ctx (λ s, s <| secure_message_section := m |>).

(** The requests that are not kept for the comparison with the response. *)
Definition not_kept (code : Z) : bool :=
  (code =? SPDM_RESPOND_IF_READY) || (code =? SPDM_CHUNK_GET) || (code =? SPDM_CHUNK_SEND).

Definition keep_request ctx (request : list Z) : exec libspdm_context_t :=
  code ← load_le 1 request 1;
  RETURN ctx IF not_kept code;;
  last ← copy_mem (last_spdm_request (exchange ctx)) 0
           (libspdm_get_scratch_buffer_last_spdm_request_capacity ctx) request;
  Ret (set_exchange ctx (λ x, x <| last_spdm_request := last |>
                                <| last_spdm_request_size := blen request |>)).

(** A session whose keys cannot be used any more is freed. *)
Definition drop_session ctx (session_id : option Z) (status : libspdm_return_t) :
    exec libspdm_context_t :=
  match session_id with
  | Some sid =>
      if bool_decide (status = LIBSPDM_STATUS_SEQUENCE_NUMBER_OVERFLOW)
         || bool_decide (status = LIBSPDM_STATUS_CRYPTO_ERROR)
      then libspdm_free_session_id ctx sid else Ret ctx
  | None => Ret ctx
  end.

(** The bytes *transport_message points to. *)
Definition encoded_message (t : transport_encoded) : exec (list Z) :=
  match te_ptr t with
  | InMessage o => load (te_msg t) o (te_size t)
  | InBuffer o => load (te_buf t) o (te_size t)
  end.

(** The request of [request_size] bytes lies behind the room for the transport
    header of its section, which is the transport buffer as well; the secured
    message is encoded from the first section. *)
Definition libspdm_send_request ctx (place : request_place) (session_id : option Z)
    (is_app_message : bool) (request_size : Z) w :
    exec (libspdm_return_t * libspdm_context_t * io_world) :=
  let '(rng, d) := w in
  let cap := lc_capability ctx in
  let transport_header_size := transport_header_size cap in
  let message := section_of place ctx in
  request ← load message transport_header_size request_size;
  memory ← (if is_secured session_id then
              let secure := secure_message_section (scratch (exchange ctx)) in
              copy_mem secure transport_header_size (blen secure - transport_header_size) request
            else Ret message);
  ctx ← keep_request ctx request;
  t ← transport_encode_message ctx session_id is_app_message true request_size memory
        transport_header_size (blen message) message rng;
  ctx ← (if is_secured session_id then
           memory ← store (te_msg t) transport_header_size (zeros request_size);
           Ret (put_section place (put_secure (te_ctx t) memory) (te_buf t))
         else Ret (put_section place (te_ctx t) (te_msg t)));
  let rng := te_rng t in
  if is_error (te_status t) then
    ctx ← drop_session ctx session_id (te_status t);
    Ret (te_status t, ctx, (rng, d))
  else
    message ← encoded_message t;
    let '(status, d) := device_send_message message (rtt cap) d in
    Ret (status, ctx, (rng, d)).

(** What receiving leaves behind: the bytes of *response, *response_size of
    them. *)
Record received : Type := Received {
  rc_status : libspdm_return_t;
  rc_ctx : libspdm_context_t;
  rc_response : list Z;
  rc_world : io_world;
}.

(** A frame through the transport layer: *message_session_id and
    is_message_app_message, which were [session_id] and false, and the message. *)
Record opened : Type := Opened {
  op_status : libspdm_return_t;
  op_ctx : libspdm_context_t;
  op_session : option Z;
  op_is_app : bool;
  op_message : list Z;
  op_place : received_ptr;
}.

(** The decoded message goes behind the room for the transport header of the
    first section, unless it stays in the frame. *)
Definition open_frame ctx (session_id : option Z) (is_request_message : bool) (frame : list Z) :
    exec opened :=
  let transport_header_size := transport_header_size (lc_capability ctx) in
  let secure := secure_message_section (scratch (exchange ctx)) in
  let app_size :=
    size_t (libspdm_get_scratch_buffer_secure_message_capacity ctx - transport_header_size) in
  let head := take (Z.to_nat transport_header_size) secure in
  let app := drop (Z.to_nat transport_header_size) secure in
  t ← transport_decode_message ctx true true is_request_message (blen frame) frame app_size app;
  session ← match td_session t with
            | None => Ret session_id
            | Some None => Ret None
            | Some (Some p) => sid ← load_le 4 frame p; Ret (Some sid)
            end;
  message ← (if is_error (td_status t) then Ret []
             else match td_ptr t with
                  | InCaller o => load (td_app t) o (td_size t)
                  | InTransport o => load frame o (td_size t)
                  end);
  Ret (Opened (td_status t) (put_secure (td_ctx t) (head ++ td_app t)) session
         (default false (td_is_app t)) message (td_ptr t)).

(** The time the responder has to answer. *)
Definition response_timeout ctx : Z :=
  let cap := lc_capability ctx in
  if crypto_request (exchange ctx)
  then u64 (rtt cap + u64 (Z.shiftl 1 (ct_exponent (ci_capability ctx))))
  else u64 (rtt cap + st1 cap).

Definition same_session (a b : option Z) : bool := bool_decide (a = b).

(** The slot whose backup keys a frame is decoded with once more, and what
    decoding gives then; or the context of a failure. *)
Definition open_with_backup ctx (session_id message_session_id : option Z) (frame : list Z) :
    exec (libspdm_context_t + nat * opened) :=
  match message_session_id with
  | None => Ret (inl ctx)
  | Some sid =>
      match libspdm_get_session_info_via_session_id ctx sid with
      | None => Ret (inl ctx)
      | Some i =>
          '(result, ctx) ← activate_key ctx i LIBSPDM_KEY_UPDATE_ACTION_RESPONDER false;
          RETURN inl ctx IF negb result;;
          o ← open_frame ctx session_id false frame;
          Ret (inr (i, o))
      end
  end.

(** The checks on a decoded response; [temp_session]: the slot whose keys were
    rolled back. *)
Definition accept_response (o : opened) (session_id : option Z) (is_app_message : bool)
    (temp_session : option nat) : exec (libspdm_return_t * libspdm_context_t * list Z) :=
  let ctx := op_ctx o in
  let response :=
    take (Z.to_nat (data_transfer_size (lc_capability ctx))) (op_message o) in
  let decrypt_error :=
    error_code (sc_last_spdm_error ctx) =? SPDM_ERROR_CODE_DECRYPT_ERROR in
  let status := op_status o in
  if negb (same_session (op_session o) session_id)
     || negb (Bool.eqb is_app_message (op_is_app o)) then
    Ret (if decrypt_error then LIBSPDM_STATUS_SESSION_MSG_ERROR else LIBSPDM_STATUS_RECEIVE_FAIL,
         ctx, response)
  else
    ctx ← match session_id with
          | Some sid => if is_error status && decrypt_error then libspdm_free_session_id ctx sid
                        else Ret ctx
          | None => Ret ctx
          end;
    match temp_session with
    | None => Ret (status, ctx, response)
    | Some i =>
        RETURN (LIBSPDM_STATUS_INVALID_STATE_LOCAL, ctx, response)
          IF negb (is_secured (op_session o));;
        '(result, ctx) ← create_key ctx i LIBSPDM_KEY_UPDATE_ACTION_RESPONDER;
        RETURN (LIBSPDM_STATUS_INVALID_STATE_LOCAL, ctx, response) IF negb result;;
        Ret (status, ctx, response)
    end.

Definition libspdm_receive_response ctx (session_id : option Z) (is_app_message : bool)
    (response_size : Z) w : exec received :=
  let '(rng, d) := w in
  let '(status, frame, d) := device_receive_message response_size (response_timeout ctx) d in
  let ret r := let '(status, ctx, response) := r in Received status ctx response (rng, d) in
  RETURN ret (status, ctx, []) IF is_error status;;
  o ← open_frame ctx session_id false frame;
  if bool_decide (op_status o = LIBSPDM_STATUS_SESSION_TRY_DISCARD_KEY_UPDATE) then
    r ← open_with_backup (op_ctx o) session_id (op_session o) frame;
    match r with
    | inl ctx => Ret (ret (LIBSPDM_STATUS_INVALID_STATE_LOCAL, ctx, []))
    | inr (i, o) =>
        r ← accept_response o session_id is_app_message (Some i);
        Ret (ret r)
    end
  else
    r ← accept_response o session_id is_app_message None;
    Ret (ret r).

(** ** Large requests: CHUNK_SEND *)

Definition set_send ctx (f : libspdm_chunk_info_t → libspdm_chunk_info_t) : libspdm_context_t :=
  set_exchange ctx (λ x, x <| chunk_send := f (chunk_send x) |>).

Definition set_large_message ctx (m : list Z) : libspdm_context_t :=
  set_scratch ctx (λ s, s <| large_message_section := m |>).

(** The transfer is over: its state is cleared, and the next one gets another
    handle (uint8_t). *)
Definition finish_send ctx : libspdm_context_t :=
  let ctx := set_large_message ctx (zeros (large_message_capacity (chunk_send (exchange ctx)))) in
  set_send ctx (λ i, Build_chunk_info false (u8 (chunk_handle i + 1)) 0 0 false 0 0).

(** The bytes of a CHUNK_SEND request, and those of the large message it carries. *)
Definition chunk_send_request ctx (min_data_transfer_size : Z) : exec (list Z * Z) :=
  let i := chunk_send (exchange ctx) in
  let v := libspdm_get_connection_version ctx in
  let rest := size_t (large_message_size i - chunk_bytes_transferred i) in
  let room := size_t (min_data_transfer_size - sizeof_spdm_chunk_send_request) in
  let copy_size := if room <? rest then room else rest in
  let first := chunk_seq_no i =? 0 in
  let copy_size := if first then size_t (copy_size - 4) else copy_size in
  chunk ← load (large_message_section (scratch (exchange ctx))) (chunk_bytes_transferred i)
            copy_size;
  let last := large_message_size i <=? chunk_bytes_transferred i + copy_size in
  let seq := if v <? SPDM_MESSAGE_VERSION_14 then le_bytes 2 (chunk_seq_no i) ++ [0; 0]
             else le_bytes 4 (chunk_seq_no i) in
  let size := if first then le_bytes 4 (large_message_size i) else [] in
  Ret ([v; SPDM_CHUNK_SEND;
        if last then SPDM_CHUNK_SEND_REQUEST_ATTRIBUTE_LAST_CHUNK else 0; chunk_handle i]
       ++ seq ++ le_bytes 4 copy_size ++ size ++ chunk, copy_size).

(** What a response to CHUNK_SEND leads to: the loop goes on, or ends with a
    status. *)
Inductive chunk_outcome : Type :=
| ChunkAgain (ctx : libspdm_context_t)
| ChunkDone (status : libspdm_return_t) (ctx : libspdm_context_t).

(** The response to the whole request becomes the large message. *)
Definition keep_response ctx (response : list Z) : exec chunk_outcome :=
  m ← copy_mem (large_message_section (scratch (exchange ctx))) 0
        (large_message_capacity (chunk_send (exchange ctx))) response;
  Ret (ChunkDone LIBSPDM_STATUS_SUCCESS
         (set_send (set_large_message ctx m) (λ i, i <| large_message_size := blen response |>))).

Definition check_chunk_send_ack ctx (response : list Z) : exec chunk_outcome :=
  let done st := ChunkDone st ctx in
  let v := libspdm_get_connection_version ctx in
  let i := chunk_send (exchange ctx) in
  RETURN done LIBSPDM_STATUS_INVALID_MSG_SIZE IF blen response <? sizeof_spdm_message_header;;
  h ← read_header response;
  let is_error_response := request_response_code h =? SPDM_ERROR in
  let is_large := param1 h =? SPDM_ERROR_CODE_LARGE_RESPONSE in
  if is_error_response && negb is_large then
    '(status, ctx) ← libspdm_handle_simple_error_response ctx (param1 h);
    Ret (ChunkDone status ctx)
  else
    RETURN done LIBSPDM_STATUS_INVALID_MSG_FIELD IF negb (spdm_version h =? v);;
    if is_error_response && is_large then
      TAIL keep_response ctx response IF blen response <? large_message_capacity i;;
      Ret (done LIBSPDM_STATUS_INVALID_MSG_SIZE)
    else
      RETURN done LIBSPDM_STATUS_INVALID_MSG_FIELD
        IF negb (request_response_code h =? SPDM_CHUNK_SEND_ACK);;
      let response_header_size := send_ack_header_size v in
      RETURN done LIBSPDM_STATUS_INVALID_MSG_SIZE IF blen response <? response_header_size;;
      let rest := drop (Z.to_nat response_header_size) response in
      if negb (Z.land (param1 h) SPDM_CHUNK_SEND_ACK_RESPONSE_ATTRIBUTE_EARLY_ERROR_DETECTED =? 0)
      then
        RETURN done LIBSPDM_STATUS_INVALID_MSG_SIZE
          IF blen response <? response_header_size + sizeof_spdm_error_response;;
        e ← read_header rest;
        RETURN done LIBSPDM_STATUS_INVALID_MSG_FIELD
          IF negb (spdm_version e =? v) || negb (request_response_code e =? SPDM_ERROR);;
        RETURN done LIBSPDM_STATUS_ERROR_PEER IF param1 e =? SPDM_ERROR_CODE_LARGE_RESPONSE;;
        keep_response ctx rest
      else
        RETURN done LIBSPDM_STATUS_INVALID_MSG_FIELD IF negb (param2 h =? chunk_handle i);;
        seq ← load_le (if v <? SPDM_MESSAGE_VERSION_14 then 2 else 4) response
                sizeof_spdm_message_header;
        RETURN done LIBSPDM_STATUS_INVALID_MSG_FIELD IF negb (chunk_seq_no i =? seq);;
        let ctx := set_send ctx (λ i, i <| chunk_seq_no := u32 (chunk_seq_no i + 1) |>) in
        if large_message_size i <=? chunk_bytes_transferred i then keep_response ctx rest
        else Ret (ChunkAgain ctx).

(** One round of the loop. *)
Definition chunk_send_round ctx (session_id : option Z) (min_data_transfer_size : Z) w :
    exec (chunk_outcome * io_world) :=
  let transport_header_size := transport_header_size (lc_capability ctx) in
  let message_size := libspdm_get_scratch_buffer_sender_receiver_capacity ctx in
  LIBSPDM_ASSERT (transport_header_size <=? large_message_capacity (chunk_send (exchange ctx)));;
  '(request, copy_size) ← chunk_send_request ctx min_data_transfer_size;
  (if copy_size <=? message_size - transport_header_size - transport_header_size then Ret tt
   else Fault OutOfBounds);;
  m ← store (sender_receiver_section (scratch (exchange ctx))) transport_header_size request;
  let ctx := put_section InSenderReceiver ctx m in
  let ctx := set_send ctx (λ i,
    i <| chunk_bytes_transferred := chunk_bytes_transferred i + copy_size |>) in
  '(status, ctx, w) ←
    libspdm_send_request ctx InSenderReceiver session_id false (blen request) w;
  RETURN (ChunkDone status ctx, w) IF is_error status;;
  let ctx := put_section InSenderReceiver ctx (zeros message_size) in
  r ← libspdm_receive_response ctx session_id false message_size w;
  RETURN (ChunkDone (rc_status r) (rc_ctx r), rc_world r) IF is_error (rc_status r);;
  o ← check_chunk_send_ack (rc_ctx r) (rc_response r);
  Ret (o, rc_world r).

(** The loop; each round but the last sends at least one byte of the message. *)
Fixpoint chunk_send_loop (fuel : nat) ctx (session_id : option Z) (min_data_transfer_size : Z) w :
    exec (libspdm_return_t * libspdm_context_t * io_world) :=
  match fuel with
  | O => Fault OutOfBounds
  | S fuel =>
      '(o, w) ← chunk_send_round ctx session_id min_data_transfer_size w;
      match o with
      | ChunkAgain ctx => chunk_send_loop fuel ctx session_id min_data_transfer_size w
      | ChunkDone status ctx => Ret (status, ctx, w)
      end
  end.

Definition libspdm_handle_large_request ctx (session_id : option Z) (request : list Z) w :
    exec (libspdm_return_t * libspdm_context_t * io_world) :=
  let fail st := (st, ctx, w) in
  let v := libspdm_get_connection_version ctx in
  RETURN fail LIBSPDM_STATUS_UNSUPPORTED_CAP IF v <? SPDM_MESSAGE_VERSION_12;;
  RETURN fail LIBSPDM_STATUS_ERROR_PEER
    IF negb (libspdm_is_capabilities_flag_supported ctx true
               SPDM_GET_CAPABILITIES_REQUEST_FLAGS_CHUNK_CAP
               SPDM_GET_CAPABILITIES_RESPONSE_FLAGS_CHUNK_CAP);;
  let min_data_transfer_size := Z.min (data_transfer_size (ci_capability ctx))
                                      (sender_data_transfer_size (lc_capability ctx)) in
  let max_chunk_data_transfer_size :=
    u64 (u64 (u64 (min_data_transfer_size - sizeof_spdm_chunk_send_request) * 65536) - 4) in
  RETURN fail LIBSPDM_STATUS_BUFFER_TOO_SMALL
    IF (v <? SPDM_MESSAGE_VERSION_14) && (max_chunk_data_transfer_size <? blen request);;
  let capacity := libspdm_get_scratch_buffer_large_message_capacity ctx in
  m ← copy_mem (zeros capacity) 0 capacity request;
  let ctx := set_large_message ctx m in
  let ctx := set_send ctx (λ i,
    Build_chunk_info true (chunk_handle i) 0 0 true (blen request) capacity) in
  '(status, ctx, w) ←
    chunk_send_loop (S (length request)) ctx session_id min_data_transfer_size w;
  Ret (status, if is_error status then finish_send ctx else ctx, w).

(** ** Large responses: CHUNK_GET *)

(** The transfer of a large response, in the second section. *)
Record large_response : Set := LargeResponse {
  lr_seq_no : Z;           (* chunk_seq_no *)
  lr_size : Z;             (* large_response_size *)
  lr_so_far : Z;           (* large_response_size_so_far *)
}.

(** The bytes of a CHUNK_GET request, or that the sequence number wrapped. *)
Definition chunk_get_request (version handle : Z) (l : large_response) : option (list Z) :=
  let header := [version; SPDM_CHUNK_GET; 0; handle] in
  if version <? SPDM_MESSAGE_VERSION_14 then
    if (u16 (lr_seq_no l) =? 0) && negb (lr_so_far l =? 0) then None
    else Some (header ++ le_bytes 2 (lr_seq_no l))
  else Some (header ++ le_bytes 4 (lr_seq_no l)).

(** The fields of CHUNK_RESPONSE behind its header. *)
Definition read_chunk_response (version : Z) (response : list Z) : exec (Z * Z) :=
  seq ← load_le (if version <? SPDM_MESSAGE_VERSION_14 then 2 else 4) response
          sizeof_spdm_message_header;
  size ← load_le 4 response 8;
  Ret (seq, size).

(** The checks on the first chunk: the size of the large response, or an error
    status. *)
Definition first_chunk ctx (response : list Z) (chunk_size : Z) (response_from_chunk : bool) :
    exec (Z + libspdm_return_t) :=
  let v := libspdm_get_connection_version ctx in
  let cap := lc_capability ctx in
  let max_chunk_data_transfer_size :=
    u64 (u64 (u64 (data_transfer_size cap - sizeof_spdm_chunk_response_response) * 65536) - 4) in
  RETURN inr LIBSPDM_STATUS_INVALID_MSG_SIZE
    IF blen response <? sizeof_spdm_chunk_response_response + 4;;
  RETURN inr LIBSPDM_STATUS_INVALID_MSG_SIZE
    IF blen response <? SPDM_MIN_DATA_TRANSFER_SIZE_VERSION_12;;
  RETURN inr LIBSPDM_STATUS_INVALID_MSG_SIZE
    IF chunk_size <? SPDM_MIN_DATA_TRANSFER_SIZE_VERSION_12 - sizeof_spdm_chunk_response_response - 4;;
  large_response_size ← load_le 4 response sizeof_spdm_chunk_response_response;
  RETURN inr LIBSPDM_STATUS_INVALID_MSG_FIELD IF large_response_size <? chunk_size;;
  RETURN inr LIBSPDM_STATUS_INVALID_MSG_FIELD IF max_spdm_msg_size cap <? large_response_size;;
  RETURN inr LIBSPDM_STATUS_INVALID_MSG_FIELD
    IF (v <? SPDM_MESSAGE_VERSION_14) && (max_chunk_data_transfer_size <? large_response_size);;
  let min_large_response_size :=
    if response_from_chunk
    then SPDM_MIN_DATA_TRANSFER_SIZE_VERSION_12 - send_ack_header_size v
    else SPDM_MIN_DATA_TRANSFER_SIZE_VERSION_12 in
  RETURN inr LIBSPDM_STATUS_INVALID_MSG_FIELD
    IF large_response_size <=? min_large_response_size;;
  Ret (inl large_response_size).

(** Those on a later one. *)
Definition later_chunk (l : large_response) (response : list Z) (chunk_size : Z) (last : bool) :
    option libspdm_return_t :=
  if (blen response <? sizeof_spdm_chunk_response_response)
     || (lr_size l <? chunk_size + lr_so_far l)
     || (negb last
         && ((blen response <? SPDM_MIN_DATA_TRANSFER_SIZE_VERSION_12)
             || (chunk_size <? SPDM_MIN_DATA_TRANSFER_SIZE_VERSION_12
                               - sizeof_spdm_chunk_response_response)))
  then Some LIBSPDM_STATUS_INVALID_MSG_SIZE else None.

(** A chunk: an error status, or the transfer with the chunk stored, and whether
    it was the last. *)
Definition take_chunk ctx (handle : Z) (l : large_response) (response : list Z)
    (response_from_chunk : bool) :
    exec (libspdm_return_t * libspdm_context_t + large_response * libspdm_context_t * bool) :=
  let fail st := inl (st, ctx) in
  let v := libspdm_get_connection_version ctx in
  h ← read_header response;
  if request_response_code h =? SPDM_ERROR then
    r ← libspdm_handle_simple_error_response ctx (param1 h);
    Ret (inl r)
  else
    RETURN fail LIBSPDM_STATUS_INVALID_MSG_FIELD
      IF negb (spdm_version h =? v) || negb (request_response_code h =? SPDM_CHUNK_RESPONSE)
         || negb (param2 h =? handle);;
    let last := negb (Z.land (param1 h) SPDM_CHUNK_GET_RESPONSE_ATTRIBUTE_LAST_CHUNK =? 0) in
    let first := lr_seq_no l =? 0 in
    RETURN fail LIBSPDM_STATUS_INVALID_MSG_SIZE
      IF blen response <? (if first then sizeof_spdm_chunk_response_response + 4
                           else sizeof_spdm_chunk_response_response);;
    '(seq, chunk_size) ← read_chunk_response v response;
    size ← (if first then first_chunk ctx response chunk_size response_from_chunk
            else Ret (match later_chunk l response chunk_size last with
                      | Some st => inr st
                      | None => inl (lr_size l)
                      end));
    match size with
    | inr st => Ret (fail st)
    | inl size =>
        let expected := if v <? SPDM_MESSAGE_VERSION_14 then u16 (lr_seq_no l) else lr_seq_no l in
        RETURN fail LIBSPDM_STATUS_INVALID_MSG_FIELD IF negb (seq =? expected);;
        let chunk := sizeof_spdm_chunk_response_response + (if first then 4 else 0) in
        RETURN fail LIBSPDM_STATUS_INVALID_MSG_SIZE IF blen response - chunk <? chunk_size;;
        bytes ← load response chunk chunk_size;
        m ← copy_mem (large_message_section (scratch (exchange ctx))) (lr_so_far l)
              (size - lr_so_far l) bytes;
        Ret (inr (LargeResponse (u32 (lr_seq_no l + 1)) size (lr_so_far l + chunk_size),
                  set_large_message ctx m, last))
    end.

Definition set_get_in_use ctx (b : bool) : libspdm_context_t :=
  set_exchange ctx (λ x, x <| chunk_get := (chunk_get x) <| chunk_in_use := b |> |>).

(** The services the loop uses: sending a CHUNK_GET request that lies in the
    third section, and receiving its response. *)
Section chunk_get.
Variable send : libspdm_context_t → list Z → io_world →
  exec (libspdm_return_t * libspdm_context_t * io_world).
Variable receive : libspdm_context_t → io_world → exec received.

(** The loop; each round but the last takes at least 30 bytes. *)
Fixpoint chunk_get_loop (fuel : nat) ctx (handle : Z) (l : large_response)
    (response_from_chunk : bool) w :
    exec (libspdm_return_t * libspdm_context_t * large_response * io_world) :=
  match fuel with
  | O => Fault OutOfBounds
  | S fuel =>
      let message_size := libspdm_get_scratch_buffer_sender_receiver_capacity ctx in
      let room := size_t (message_size - transport_header_size (lc_capability ctx)) in
      LIBSPDM_ASSERT (transport_header_size (lc_capability ctx) <=? message_size);;
      LIBSPDM_ASSERT ((if libspdm_get_connection_version ctx <? SPDM_MESSAGE_VERSION_14
                       then sizeof_spdm_chunk_get_request
                       else sizeof_spdm_chunk_get_request_14) <=? room);;
      match chunk_get_request (libspdm_get_connection_version ctx) handle l with
      | None => Ret (LIBSPDM_STATUS_INVALID_MSG_FIELD, ctx, l, w)
      | Some request =>
          '(status, ctx, w) ← send ctx request w;
          RETURN (status, ctx, l, w) IF is_error status;;
          let ctx := put_section InSenderReceiver ctx (zeros message_size) in
          r ← receive ctx w;
          RETURN (rc_status r, rc_ctx r, l, rc_world r) IF is_error (rc_status r);;
          t ← take_chunk (rc_ctx r) handle l (rc_response r) response_from_chunk;
          match t with
          | inl (status, ctx) => Ret (status, ctx, l, rc_world r)
          | inr (l, ctx, last) =>
              if (lr_so_far l <? lr_size l) && negb last
              then chunk_get_loop fuel ctx handle l response_from_chunk (rc_world r)
              else Ret (LIBSPDM_STATUS_SUCCESS, ctx, l, rc_world r)
          end
      end
  end.

(** [response_capacity] bounds *inout_response.  A large response always fits it:
    the callers give at least max_spdm_msg_size, which bounds lr_size. *)
Definition libspdm_handle_error_large_response ctx (response : list Z) (response_capacity : Z)
    (response_from_chunk : bool) w : exec received :=
  let fail st := Received st ctx response w in
  RETURN fail LIBSPDM_STATUS_UNSUPPORTED_CAP
    IF libspdm_get_connection_version ctx <? SPDM_MESSAGE_VERSION_12;;
  RETURN fail LIBSPDM_STATUS_ERROR_PEER
    IF negb (connection_state_below ctx LIBSPDM_CONNECTION_STATE_AFTER_CAPABILITIES)
       && negb (libspdm_is_capabilities_flag_supported ctx true
                  SPDM_GET_CAPABILITIES_REQUEST_FLAGS_CHUNK_CAP
                  SPDM_GET_CAPABILITIES_RESPONSE_FLAGS_CHUNK_CAP);;
  RETURN fail LIBSPDM_STATUS_INVALID_MSG_SIZE
    IF blen response <? sizeof_spdm_error_response + sizeof_spdm_error_data_large_response;;
  handle ← load_le 1 response sizeof_spdm_error_response;
  let capacity := libspdm_get_scratch_buffer_large_message_capacity ctx in
  let ctx := set_get_in_use (set_large_message ctx (zeros capacity)) true in
  '(status, ctx, l, w) ←
    chunk_get_loop (S (S (Z.to_nat capacity))) ctx handle (LargeResponse 0 0 0)
      response_from_chunk w;
  if is_error status then Ret (Received status (set_get_in_use ctx false) response w)
  else if negb (lr_so_far l =? lr_size l) then
    Ret (Received LIBSPDM_STATUS_INVALID_MSG_FIELD (set_get_in_use ctx false) response w)
  else if lr_size l <=? response_capacity then
    large ← load (large_message_section (scratch (exchange ctx))) 0 (lr_size l);
    m ← store (large_message_section (scratch (exchange ctx))) 0 (zeros (lr_size l));
    Ret (Received status (set_get_in_use (set_large_message ctx m) false) large w)
  else Ret (Received status (set_get_in_use ctx false) response w).

End chunk_get.

(** ** SPDM messages *)

(** The handshake of a session can be in the clear: then its messages are sent
    outside of the session. *)
Definition session_of_message ctx (session_id : option Z) : exec (option Z + libspdm_return_t) :=
  match session_id with
  | Some sid =>
      if libspdm_is_capabilities_flag_supported ctx true
           SPDM_GET_CAPABILITIES_REQUEST_FLAGS_HANDSHAKE_IN_THE_CLEAR_CAP
           SPDM_GET_CAPABILITIES_RESPONSE_FLAGS_HANDSHAKE_IN_THE_CLEAR_CAP then
        match libspdm_get_session_info_via_session_id ctx sid with
        | None => LIBSPDM_ASSERT false;; Ret (inr LIBSPDM_STATUS_INVALID_STATE_LOCAL)
        | Some i =>
            si ← slot ctx i;
            Ret (inl (if bool_decide (session_state (secured_message_context si)
                                      = LIBSPDM_SESSION_STATE_HANDSHAKING)
                         && negb (si_use_psk si) then None else session_id))
        end
      else Ret (inl session_id)
  | None => Ret (inl session_id)
  end.

(** A message is large for a size that is set and exceeded. *)
Definition exceeds (size limit : Z) : bool := negb (limit =? 0) && (limit <? size).

(** The request of [request_size] bytes lies behind the room for the transport
    header of its section. *)
Definition send_spdm_request_from ctx (place : request_place) (session_id : option Z)
    (request_size : Z) w : exec (libspdm_return_t * libspdm_context_t * io_world) :=
  let fail st := (st, ctx, w) in
  let local := lc_capability ctx in
  let peer := ci_capability ctx in
  let chunking := libspdm_is_capabilities_flag_supported ctx true
                    SPDM_GET_CAPABILITIES_REQUEST_FLAGS_CHUNK_CAP
                    SPDM_GET_CAPABILITIES_RESPONSE_FLAGS_CHUNK_CAP in
  let too_large := exceeds request_size (data_transfer_size peer) in
  let too_large_to_send := exceeds request_size (sender_data_transfer_size local) in
  RETURN fail LIBSPDM_STATUS_PEER_BUFFER_TOO_SMALL IF negb chunking && too_large;;
  RETURN fail LIBSPDM_STATUS_BUFFER_TOO_SMALL IF negb chunking && too_large_to_send;;
  s ← session_of_message ctx session_id;
  match s with
  | inr st => Ret (fail st)
  | inl session_id =>
      RETURN fail LIBSPDM_STATUS_PEER_BUFFER_TOO_SMALL
        IF exceeds request_size (max_spdm_msg_size peer);;
      LIBSPDM_ASSERT (request_size <=? max_spdm_msg_size local);;
      request ← load (section_of place ctx) (transport_header_size local) request_size;
      code ← load_le 1 request 1;
      if negb (code =? SPDM_GET_VERSION) && negb (code =? SPDM_GET_CAPABILITIES)
         && (too_large || too_large_to_send) then
        ctx ← keep_request ctx request;
        libspdm_handle_large_request ctx session_id request w
      else libspdm_send_request ctx place session_id false request_size w
  end.

(** The caller has written the request into the section. *)
Definition send_spdm_request ctx (place : request_place) (session_id : option Z)
    (request : list Z) w : exec (libspdm_return_t * libspdm_context_t * io_world) :=
  m ← store (section_of place ctx) (transport_header_size (lc_capability ctx)) request;
  send_spdm_request_from (put_section place ctx m) place session_id (blen request) w.

(** The checks on the code of a response that came in chunks. *)
Definition check_large_response (r : received) : exec received :=
  let fail st := Received st (rc_ctx r) (rc_response r) (rc_world r) in
  RETURN r IF is_error (rc_status r);;
  RETURN fail LIBSPDM_STATUS_INVALID_MSG_SIZE
    IF blen (rc_response r) <? sizeof_spdm_message_header;;
  h ← read_header (rc_response r);
  RETURN fail LIBSPDM_STATUS_INVALID_MSG_FIELD IF request_response_code h =? SPDM_VERSION;;
  RETURN fail LIBSPDM_STATUS_INVALID_MSG_FIELD
    IF (request_response_code h =? SPDM_CAPABILITIES)
       && (Z.land (param1 h) SPDM_CAPABILITIES_RESPONSE_PARAM1_SUPPORTED_ALGORITHMS =? 0);;
  Ret r.

(** The responses to CHUNK_GET are received by the same function; a transfer in
    progress keeps it from starting another one, so that a depth of two is all
    that is used. *)
Fixpoint receive_spdm_response (depth : nat) ctx (session_id : option Z) (response_size : Z) w :
    exec received :=
  let fail st := Received st ctx [] w in
  s ← session_of_message ctx session_id;
  match s with
  | inr st => Ret (fail st)
  | inl session_id =>
      let i := chunk_send (exchange ctx) in
      let response_from_chunk := chunk_in_use i in
      let response_capacity := if chunk_in_use i then large_message_capacity i else response_size in
      r ← (if chunk_in_use i then
             response ← load (large_message_section (scratch (exchange ctx))) 0
                          (large_message_size i);
             (if large_message_size i <=? response_size then Ret tt else Fault OutOfBounds);;
             Ret (Received LIBSPDM_STATUS_SUCCESS (finish_send ctx) response w)
           else libspdm_receive_response ctx session_id false response_size w);
      RETURN r IF is_error (rc_status r);;
      RETURN Received LIBSPDM_STATUS_INVALID_MSG_SIZE (rc_ctx r) (rc_response r) (rc_world r)
        IF blen (rc_response r) <? sizeof_spdm_message_header;;
      h ← read_header (rc_response r);
      if (request_response_code h =? SPDM_ERROR)
         && (param1 h =? SPDM_ERROR_CODE_LARGE_RESPONSE)
         && negb (chunk_in_use (chunk_get (exchange (rc_ctx r)))) then
        match depth with
        | O => Fault OutOfBounds
        | S depth =>
            large ← libspdm_handle_error_large_response
              (λ ctx request w, send_spdm_request ctx InSenderReceiver session_id request w)
              (λ ctx w, receive_spdm_response depth ctx session_id
                 (libspdm_get_scratch_buffer_sender_receiver_capacity ctx) w)
              (rc_ctx r) (rc_response r) response_capacity response_from_chunk (rc_world r);
            check_large_response large
        end
      else Ret r
  end.

(** ** The services of the requester *)

#[export] Instance spdm_channel : RequesterChannel := {
  W := D;
  libspdm_acquire_sender_buffer := device_acquire_sender_buffer;
  libspdm_release_sender_buffer := device_release_sender_buffer;
  libspdm_acquire_receiver_buffer d :=
    let '(st, d) := device_acquire_receiver_buffer d in (st, [], d);
  libspdm_release_receiver_buffer := device_release_receiver_buffer;
  libspdm_send_spdm_request ctx session_id request w :=
    send_spdm_request ctx InLargeSenderReceiver session_id request w;
  libspdm_receive_spdm_response ctx session_id w :=
    r ← receive_spdm_response 2 ctx session_id
          (libspdm_get_scratch_buffer_large_sender_receiver_capacity ctx) w;
    Ret (rc_status r, rc_ctx r, rc_response r, rc_world r);
}.

End requester.
End SendReceive.
Export SendReceive.
