(* ===== verification/Handlers.v ===== *)
(** * Handlers: session maintenance and chunk handlers of the responder

    HEARTBEAT (libspdm_rsp_heartbeat_ack.c), END_SESSION
    (libspdm_rsp_end_session_ack.c), RESPOND_IF_READY
    (libspdm_rsp_respond_if_ready.c), CHUNK_GET (libspdm_rsp_chunk_response.c)
    and CHUNK_SEND (libspdm_rsp_chunk_send_ack.c), and the order that mutual
    authentication imposes on requests (libspdm_rsp_receive_send.c). *)

From S2P Require Import Prelude SpdmDefs CommonSupport CryptLib SecuredContext SecuredSession.
From S2P Require Import SpdmContext SessionTable Messages KeyUpdate Transport SendReceive.

Module Handlers.

Definition SPDM_KEY_EXCHANGE_RESPONSE_MUT_AUTH_REQUESTED : Z := 1.
Definition SPDM_KEY_EXCHANGE_RESPONSE_MUT_AUTH_REQUESTED_WITH_ENCAP_REQUEST : Z := 2.
Definition SPDM_KEY_EXCHANGE_RESPONSE_MUT_AUTH_REQUESTED_WITH_GET_DIGESTS : Z := 4.
Definition SPDM_END_SESSION_REQUEST_ATTRIBUTES_PRESERVE_NEGOTIATED_STATE_CLEAR : Z := 1.

Section handlers.
Context `{BuildConfig, CryptoHal}.
Implicit Types ctx : libspdm_context_t.

(** libspdm_get_spdm_response_func: the context, request_size and request,
    *response_size and response. *)
Definition handler : Type := libspdm_context_t → Z → list Z → Z → list Z → exec reply.

(** A response that is only a header. *)
Definition header_reply ctx (response_size : Z) (response : list Z) (header : list Z) : exec reply :=
  LIBSPDM_ASSERT (sizeof_spdm_message_header <=? response_size);;
  response ← store response 0 (zeros sizeof_spdm_message_header);
  response ← store response 0 header;
  Ret (Reply LIBSPDM_STATUS_SUCCESS ctx sizeof_spdm_message_header response).

(** ** HEARTBEAT *)

Definition libspdm_get_response_heartbeat : handler := λ ctx request_size request response_size response,
  let error code data := libspdm_generate_error_response ctx code data response_size response in
  spdm_request ← read_header request;
  LIBSPDM_ASSERT (request_response_code spdm_request =? SPDM_HEARTBEAT);;
  let v := libspdm_get_connection_version ctx in
  TAIL error SPDM_ERROR_CODE_UNSUPPORTED_REQUEST SPDM_HEARTBEAT IF v <? SPDM_MESSAGE_VERSION_11;;
  TAIL error SPDM_ERROR_CODE_VERSION_MISMATCH 0 IF negb (spdm_version spdm_request =? v);;
  TAIL libspdm_responder_handle_response_state ctx (request_response_code spdm_request)
         response_size response
    IF bool_decide (response_state (exchange ctx) ≠ LIBSPDM_RESPONSE_STATE_NORMAL);;
  TAIL error SPDM_ERROR_CODE_UNSUPPORTED_REQUEST SPDM_HEARTBEAT
    IF negb (libspdm_is_capabilities_flag_supported ctx false
               SPDM_GET_CAPABILITIES_REQUEST_FLAGS_HBEAT_CAP
               SPDM_GET_CAPABILITIES_RESPONSE_FLAGS_HBEAT_CAP);;
  TAIL error SPDM_ERROR_CODE_UNEXPECTED_REQUEST 0
    IF connection_state_below ctx LIBSPDM_CONNECTION_STATE_NEGOTIATED;;
  let no_session :=
    error (if SPDM_MESSAGE_VERSION_12 <=? v then SPDM_ERROR_CODE_SESSION_REQUIRED
           else SPDM_ERROR_CODE_UNSPECIFIED) 0 in
  TAIL no_session IF negb (last_spdm_request_session_id_valid ctx);;
  match libspdm_get_session_info_via_session_id ctx (last_spdm_request_session_id ctx) with
  | None => no_session
  | Some i =>
      si ← slot ctx i;
      TAIL error SPDM_ERROR_CODE_UNEXPECTED_REQUEST 0
        IF bool_decide (session_state (secured_message_context si)
                        ≠ LIBSPDM_SESSION_STATE_ESTABLISHED);;
      TAIL error SPDM_ERROR_CODE_INVALID_REQUEST 0
        IF negb (request_size =? sizeof_spdm_message_header);;
      TAIL error SPDM_ERROR_CODE_UNEXPECTED_REQUEST 0 IF heartbeat_period si =? 0;;
      let ctx := libspdm_reset_message_buffer_via_request_code ctx (Some i)
                   (request_response_code spdm_request) in
      header_reply ctx response_size response [spdm_version spdm_request; SPDM_HEARTBEAT_ACK; 0; 0]
  end.

(** ** END_SESSION *)

Definition libspdm_get_response_end_session : handler := λ ctx request_size request response_size response,
  let error code data := libspdm_generate_error_response ctx code data response_size response in
  spdm_request ← read_header request;
  let v := libspdm_get_connection_version ctx in
  TAIL error SPDM_ERROR_CODE_UNSUPPORTED_REQUEST SPDM_END_SESSION IF v <? SPDM_MESSAGE_VERSION_11;;
  TAIL error SPDM_ERROR_CODE_VERSION_MISMATCH 0 IF negb (spdm_version spdm_request =? v);;
  TAIL libspdm_responder_handle_response_state ctx (request_response_code spdm_request)
         response_size response
    IF bool_decide (response_state (exchange ctx) ≠ LIBSPDM_RESPONSE_STATE_NORMAL);;
  TAIL error SPDM_ERROR_CODE_UNEXPECTED_REQUEST 0
    IF connection_state_below ctx LIBSPDM_CONNECTION_STATE_NEGOTIATED;;
  let no_session :=
    error (if SPDM_MESSAGE_VERSION_12 <=? v then SPDM_ERROR_CODE_SESSION_REQUIRED
           else SPDM_ERROR_CODE_UNSPECIFIED) 0 in
  TAIL no_session IF negb (last_spdm_request_session_id_valid ctx);;
  match libspdm_get_session_info_via_session_id ctx (last_spdm_request_session_id ctx) with
  | None => no_session
  | Some i =>
      si ← slot ctx i;
      TAIL error SPDM_ERROR_CODE_UNEXPECTED_REQUEST 0
        IF bool_decide (session_state (secured_message_context si)
                        ≠ LIBSPDM_SESSION_STATE_ESTABLISHED);;
      TAIL error SPDM_ERROR_CODE_INVALID_REQUEST 0
        IF negb (request_size =? sizeof_spdm_message_header);;
      let ctx := libspdm_reset_message_buffer_via_request_code ctx (Some i)
                   (request_response_code spdm_request) in
      si ← slot ctx i;
      let ctx := set_slot ctx i (si <| end_session_attributes := param1 spdm_request |>) in
      let clear := SPDM_END_SESSION_REQUEST_ATTRIBUTES_PRESERVE_NEGOTIATED_STATE_CLEAR in
      let ctx := if Z.land (param1 spdm_request) clear =? 0 then ctx
                 else set_exchange ctx (λ x,
                   x <| ci_end_session_attributes := Z.lor (ci_end_session_attributes x) clear |>) in
      header_reply ctx response_size response
        [spdm_version spdm_request; SPDM_END_SESSION_ACK; 0; 0]
  end.

(** ** CHUNK_GET *)

Definition set_get ctx (f : libspdm_chunk_info_t → libspdm_chunk_info_t) : libspdm_context_t :=
  set_exchange ctx (λ x, x <| chunk_get := f (chunk_get x) |>).

Definition read_seq_no (version : Z) (request : list Z) : exec Z :=
  load_le (if version <? SPDM_MESSAGE_VERSION_14 then 2 else 4) request sizeof_spdm_message_header.

(** The seq_no field of CHUNK_RESPONSE and what follows it up to chunk_size. *)
Definition wide_seq_no (version seq_no : Z) : list Z :=
  if version <? SPDM_MESSAGE_VERSION_14 then le_bytes 2 seq_no ++ [0; 0] else le_bytes 4 seq_no.

(** The response for an accepted CHUNK_GET: the next chunk of the large message. *)
Definition chunk_response ctx (spdm_request : spdm_message_header_t) (chunk_seq_no_ : Z)
    (min_data_transfer_size response_size : Z) (response : list Z) : exec reply :=
  let i := chunk_get (exchange ctx) in
  let v := libspdm_get_connection_version ctx in
  let first := chunk_seq_no_ =? 0 in
  let rest := large_message_size i - chunk_bytes_transferred i in
  let chunk_size :=
    if first then u32 (min_data_transfer_size - sizeof_spdm_chunk_response_response - 4)
    else u32 (Z.min (size_t (min_data_transfer_size - sizeof_spdm_chunk_response_response))
                    (u32 rest)) in
  response ← store response 0 (zeros response_size);
  LIBSPDM_ASSERT (min_data_transfer_size <? response_size);;
  LIBSPDM_ASSERT (negb first || (chunk_size <? large_message_size i));;
  chunk ← load (large_message_section (scratch (exchange ctx))) (chunk_bytes_transferred i)
            chunk_size;
  let size := if first then le_bytes 4 (large_message_size i) else [] in
  let transferred := chunk_bytes_transferred i + chunk_size in
  LIBSPDM_ASSERT (transferred <=? large_message_size i);;
  let last := transferred =? large_message_size i in
  response ← store response 0
    ([spdm_version spdm_request; SPDM_CHUNK_RESPONSE;
      if last then SPDM_CHUNK_GET_RESPONSE_ATTRIBUTE_LAST_CHUNK else 0; chunk_handle i]
     ++ wide_seq_no v (chunk_seq_no i) ++ le_bytes 4 chunk_size ++ size ++ chunk);
  let ctx :=
    if last then
      set_get (set_large_message ctx (zeros (large_message_capacity i)))
        (λ i, Build_chunk_info false (u8 (chunk_handle i + 1)) 0 0 false 0 0)
    else set_get ctx (λ i, i <| chunk_seq_no := u32 (chunk_seq_no i + 1) |>
                             <| chunk_bytes_transferred := transferred |>) in
  Ret (Reply LIBSPDM_STATUS_SUCCESS ctx
         (sizeof_spdm_chunk_response_response + blen size + chunk_size) response).

Definition libspdm_get_response_chunk_get : handler := λ ctx request_size request response_size response,
  let error code data := libspdm_generate_error_response ctx code data response_size response in
  let i := chunk_get (exchange ctx) in
  let v := libspdm_get_connection_version ctx in
  TAIL error SPDM_ERROR_CODE_UNSUPPORTED_REQUEST SPDM_CHUNK_GET IF v <? SPDM_MESSAGE_VERSION_12;;
  TAIL error SPDM_ERROR_CODE_UNEXPECTED_REQUEST 0
    IF negb (libspdm_is_capabilities_flag_supported ctx false
               SPDM_GET_CAPABILITIES_REQUEST_FLAGS_CHUNK_CAP
               SPDM_GET_CAPABILITIES_RESPONSE_FLAGS_CHUNK_CAP);;
  spdm_request ← read_header request;
  TAIL libspdm_responder_handle_response_state ctx (request_response_code spdm_request)
         response_size response
    IF bool_decide (response_state (exchange ctx) ≠ LIBSPDM_RESPONSE_STATE_NORMAL);;
  TAIL error SPDM_ERROR_CODE_UNEXPECTED_REQUEST 0
    IF connection_state_below ctx LIBSPDM_CONNECTION_STATE_AFTER_CAPABILITIES;;
  TAIL error SPDM_ERROR_CODE_INVALID_REQUEST 0
    IF request_size <? (if v <? SPDM_MESSAGE_VERSION_14 then sizeof_spdm_chunk_get_request
                        else sizeof_spdm_chunk_get_request_14);;
  TAIL error SPDM_ERROR_CODE_UNSUPPORTED_REQUEST SPDM_CHUNK_GET
    IF spdm_version spdm_request <? SPDM_MESSAGE_VERSION_12;;
  TAIL error SPDM_ERROR_CODE_VERSION_MISMATCH 0 IF negb (spdm_version spdm_request =? v);;
  TAIL error SPDM_ERROR_CODE_UNEXPECTED_REQUEST 0 IF negb (chunk_in_use i);;
  TAIL error SPDM_ERROR_CODE_INVALID_REQUEST 0 IF negb (param2 spdm_request =? chunk_handle i);;
  seq ← read_seq_no v request;
  TAIL error SPDM_ERROR_CODE_INVALID_REQUEST 0
    IF negb (seq =? (if v <? SPDM_MESSAGE_VERSION_14 then u16 (chunk_seq_no i)
                     else chunk_seq_no i));;
  let min_data_transfer_size := Z.min (data_transfer_size (ci_capability ctx))
                                      (sender_data_transfer_size (lc_capability ctx)) in
  let max_chunk_data_transfer_size :=
    u64 (u64 (u64 (min_data_transfer_size - sizeof_spdm_chunk_response_response) * 65536) - 4) in
  TAIL error SPDM_ERROR_CODE_RESPONSE_TOO_LARGE 0
    IF (v <? SPDM_MESSAGE_VERSION_14) && (max_chunk_data_transfer_size <? large_message_size i);;
  chunk_response ctx spdm_request seq min_data_transfer_size response_size response.

(** ** The order of requests during mutual authentication *)

(** The request that the mut_auth_requested bits call for next, and the error
    for another one. *)
Definition expected_request (mut_auth : Z) : option (Z * Z) :=
  if mut_auth =? SPDM_KEY_EXCHANGE_RESPONSE_MUT_AUTH_REQUESTED then
    Some (SPDM_FINISH, SPDM_ERROR_CODE_UNEXPECTED_REQUEST)
  else if mut_auth =? SPDM_KEY_EXCHANGE_RESPONSE_MUT_AUTH_REQUESTED_WITH_ENCAP_REQUEST then
    Some (SPDM_GET_ENCAPSULATED_REQUEST, SPDM_ERROR_CODE_UNEXPECTED_REQUEST)
  else if mut_auth =? SPDM_KEY_EXCHANGE_RESPONSE_MUT_AUTH_REQUESTED_WITH_GET_DIGESTS then
    Some (SPDM_DELIVER_ENCAPSULATED_RESPONSE, SPDM_ERROR_CODE_REQUEST_IN_FLIGHT)
  else None.

Definition mut_auth_session ctx (session_id : option Z) : option nat :=
  match session_id with
  | Some sid => libspdm_get_session_info_via_session_id ctx sid
  | None =>
      if negb (latest_session_id ctx =? INVALID_SESSION_ID)
         && libspdm_is_capabilities_flag_supported ctx false
              SPDM_GET_CAPABILITIES_REQUEST_FLAGS_HANDSHAKE_IN_THE_CLEAR_CAP
              SPDM_GET_CAPABILITIES_RESPONSE_FLAGS_HANDSHAKE_IN_THE_CLEAR_CAP
      then libspdm_get_session_info_via_session_id ctx (latest_session_id ctx) else None
  end.

Definition is_chunk_request (code : Z) : bool := (code =? SPDM_CHUNK_GET) || (code =? SPDM_CHUNK_SEND).

(** During the handshake of a session. *)
Definition unexpected_in_handshake ctx (session_id : option Z) (code : Z) : exec (option Z) :=
  match mut_auth_session ctx session_id with
  | Some i =>
      si ← slot ctx i;
      let started := negb (last_encap_request_size (si_encap_context si) =? 0) in
      let handshaking := bool_decide (session_state (secured_message_context si)
                                      = LIBSPDM_SESSION_STATE_HANDSHAKING) in
      RETURN None
        IF negb (bool_decide (response_state (exchange ctx) = LIBSPDM_RESPONSE_STATE_NORMAL))
           || negb handshaking || started;;
      Ret (match expected_request (mut_auth_requested si) with
           | Some (expected_code, reject_error_code) =>
               if negb (code =? expected_code) && negb (is_chunk_request code)
                  && (is_secured session_id || negb (code =? SPDM_GET_VERSION))
               then Some reject_error_code else None
           | None => None
           end)
  | None => Ret None
  end.

(** During basic mutual authentication. *)
Definition unexpected_in_basic ctx (session_id : option Z) (code : Z) : option Z :=
  if negb (is_secured session_id)
     && bool_decide (flow_type (encap_context ctx) = LIBSPDM_ENCAP_FLOW_BASIC_MUT_AUTH)
     && (last_encap_request_size (encap_context ctx) =? 0)
     && negb (code =? SPDM_GET_ENCAPSULATED_REQUEST) && negb (is_chunk_request code)
     && negb (code =? SPDM_GET_VERSION)
  then Some SPDM_ERROR_CODE_UNEXPECTED_REQUEST else None.

Definition encap_context_of ctx (r : encap_ref) : exec libspdm_encap_context_t :=
  match r with
  | EncapConnection => Ret (encap_context ctx)
  | EncapSession i => si ← slot ctx i; Ret (si_encap_context si)
  end.

(** While an encapsulated flow of the channel is in progress. *)
Definition unexpected_in_encap ctx (session_id : option Z) (code : Z) : exec (option Z) :=
  r ← libspdm_get_encap_context_via_last_request ctx;
  match r with
  | None => Ret None
  | Some r =>
      e ← encap_context_of ctx r;
      if bool_decide (flow_type e ≠ LIBSPDM_ENCAP_FLOW_NONE) then
        Ret (if (code =? SPDM_GET_ENCAPSULATED_REQUEST)
                || (code =? SPDM_DELIVER_ENCAPSULATED_RESPONSE)
                || (code =? SPDM_GET_VERSION) || is_chunk_request code
             then None else Some SPDM_ERROR_CODE_REQUEST_IN_FLIGHT)
      else
        Ret (if response_not_ready e && negb (code =? SPDM_GET_ENCAPSULATED_REQUEST)
                && (is_secured session_id || negb (code =? SPDM_GET_VERSION))
             then Some SPDM_ERROR_CODE_REQUEST_IN_FLIGHT else None)
  end.

(** [Some code]: the function returns true with *error_code. *)
Definition libspdm_is_request_unexpected_for_mut_auth_encap ctx (session_id : option Z) (code : Z) :
    exec (option Z) :=
  e ← unexpected_in_handshake ctx session_id code;
  match e with
  | Some _ => Ret e
  | None =>
      match unexpected_in_basic ctx session_id code with
      | Some e => Ret (Some e)
      | None => unexpected_in_encap ctx session_id code
      end
  end.

(** ** CHUNK_SEND *)

(** Whether a first chunk is refused. *)
Definition bad_first_chunk ctx (h : spdm_message_header_t) (seq_no chunk_size large_size
    request_size : Z) : bool :=
  let cap := lc_capability ctx in
  let calc_max_chunk_size := u32 (u32 request_size - (sizeof_spdm_chunk_send_request + 4)) in
  let max_chunk_data_transfer_size :=
    if libspdm_get_connection_version ctx <? SPDM_MESSAGE_VERSION_14
    then u64 (u64 (u64 (data_transfer_size cap - sizeof_spdm_chunk_send_request) * 65536) - 4)
    else 2 ^ 64 - 1 in
  negb (seq_no =? 0)
  || (chunk_size <? SPDM_MIN_DATA_TRANSFER_SIZE_VERSION_12 - sizeof_spdm_chunk_send_request - 4)
  || (calc_max_chunk_size <? chunk_size)
  || (data_transfer_size cap <? u32 request_size)
  || (max_spdm_msg_size cap <? large_size)
  || (max_chunk_data_transfer_size <? large_size)
  || (large_size <=? SPDM_MIN_DATA_TRANSFER_SIZE_VERSION_12)
  || negb (Z.land (param1 h) SPDM_CHUNK_SEND_REQUEST_ATTRIBUTE_LAST_CHUNK =? 0).

(** A first chunk: the context with the transfer it starts, or an early error. *)
Definition start_transfer ctx (h : spdm_message_header_t) (seq_no chunk_size large_size : Z)
    (request_size : Z) (request : list Z) : exec (option libspdm_context_t) :=
  RETURN None IF bad_first_chunk ctx h seq_no chunk_size large_size request_size;;
  chunk ← load request (sizeof_spdm_chunk_send_request + 4) chunk_size;
  let capacity := libspdm_get_scratch_buffer_large_message_capacity ctx in
  m ← copy_mem (large_message_section (scratch (exchange ctx))) 0 capacity chunk;
  Ret (Some (set_send (set_large_message ctx m) (λ _,
    Build_chunk_info true (param2 h) seq_no chunk_size true large_size capacity))).

(** Whether a later chunk is refused. *)
Definition bad_later_chunk ctx (h : spdm_message_header_t) (seq_no chunk_size request_size : Z) :
    bool :=
  let i := chunk_send (exchange ctx) in
  let calc_max_chunk_size := u32 (u32 request_size - sizeof_spdm_chunk_send_request) in
  let last := negb (Z.land (param1 h) SPDM_CHUNK_SEND_REQUEST_ATTRIBUTE_LAST_CHUNK =? 0) in
  let total := chunk_size + chunk_bytes_transferred i in
  negb (param2 h =? chunk_handle i)
  || (calc_max_chunk_size <? chunk_size)
  || (large_message_size i <? total)
  || (last && negb (total =? large_message_size i))
  || (negb last
      && ((chunk_size <? SPDM_MIN_DATA_TRANSFER_SIZE_VERSION_12 - sizeof_spdm_chunk_send_request)
          || (data_transfer_size (lc_capability ctx) <? u32 request_size)))
  || (seq_no =? 0).

(** A later chunk: an out-of-order one is an early error, although it is stored
    when nothing else is wrong with it. *)
Definition continue_transfer ctx (h : spdm_message_header_t) (seq_no chunk_size : Z)
    (request_size : Z) (request : list Z) : exec (bool * libspdm_context_t) :=
  let i := chunk_send (exchange ctx) in
  let in_order := seq_no =? u32 (chunk_seq_no i + 1) in
  RETURN (false, ctx) IF bad_later_chunk ctx h seq_no chunk_size request_size;;
  chunk ← load request sizeof_spdm_chunk_send_request chunk_size;
  m ← copy_mem (large_message_section (scratch (exchange ctx))) (chunk_bytes_transferred i)
        (large_message_size i - chunk_bytes_transferred i) chunk;
  let last := negb (Z.land (param1 h) SPDM_CHUNK_SEND_REQUEST_ATTRIBUTE_LAST_CHUNK =? 0) in
  Ret (in_order, set_send (set_large_message ctx m) (λ i,
    i <| chunk_seq_no := seq_no |>
      <| chunk_bytes_transferred := chunk_bytes_transferred i + chunk_size |>
      <| chunk_in_use := if last then false else chunk_in_use i |>)).

(** The state of the transfer is cleared. *)
Definition clear_send ctx : libspdm_context_t :=
  let i := chunk_send (exchange ctx) in
  let ctx := if large_message i then set_large_message ctx (zeros (large_message_capacity i))
             else ctx in
  set_send ctx (λ _, Build_chunk_info false 0 0 0 false 0 0).

(** The handlers that another handler may call. *)
Section nested.
Variable get_response : Z → option handler.

(** The response to the assembled request, behind the header of the
    acknowledgement. *)
Definition large_request_response ctx (response_size : Z) (response : list Z) : exec reply :=
  let i := chunk_send (exchange ctx) in
  let m := large_message_section (scratch (exchange ctx)) in
  let error code := libspdm_generate_error_response ctx code 0 response_size response in
  opcode ← load_le 1 m 1;
  match get_response opcode with
  | None => error SPDM_ERROR_CODE_INVALID_REQUEST
  | Some response_func =>
      TAIL error SPDM_ERROR_CODE_INVALID_REQUEST IF is_chunk_request opcode;;
      e ← libspdm_is_request_unexpected_for_mut_auth_encap ctx
            (if last_spdm_request_session_id_valid ctx
             then Some (last_spdm_request_session_id ctx) else None) opcode;
      match e with
      | Some reject_error_code => error reject_error_code
      | None =>
          request ← load m 0 (large_message_size i);
          response_func ctx (large_message_size i) request response_size response
      end
  end.

(** CHUNK_SEND_ACK for a chunk that was accepted or not. *)
Definition chunk_send_ack ctx (h : spdm_message_header_t) (seq_no : Z) (accepted : bool)
    (response_size : Z) (response : list Z) : exec reply :=
  let v := libspdm_get_connection_version ctx in
  let response_header_size := send_ack_header_size v in
  LIBSPDM_ASSERT (response_header_size <=? response_size);;
  response ← store response 0 (zeros response_size);
  let attributes :=
    if accepted then 0 else SPDM_CHUNK_SEND_ACK_RESPONSE_ATTRIBUTE_EARLY_ERROR_DETECTED in
  response ← store response 0
    ([spdm_version h; SPDM_CHUNK_SEND_ACK; attributes; param2 h] ++ seq_no_bytes v seq_no);
  let head := take (Z.to_nat response_header_size) response in
  let rest := drop (Z.to_nat response_header_size) response in
  let rest_size := response_size - response_header_size in
  let i := chunk_send (exchange ctx) in
  if negb accepted then
    r ← libspdm_generate_error_response ctx SPDM_ERROR_CODE_INVALID_REQUEST 0 rest_size rest;
    Ret (Reply LIBSPDM_STATUS_SUCCESS (clear_send (rp_ctx r)) (response_header_size + rp_size r)
           (head ++ rp_response r))
  else if chunk_bytes_transferred i =? large_message_size i then
    r ← large_request_response ctx rest_size rest;
    Ret (Reply (rp_status r) (clear_send (rp_ctx r)) (response_header_size + rp_size r)
           (head ++ rp_response r))
  else Ret (Reply LIBSPDM_STATUS_SUCCESS ctx response_header_size response).

Definition libspdm_get_response_chunk_send : handler := λ ctx request_size request response_size response,
  let error code data := libspdm_generate_error_response ctx code data response_size response in
  let v := libspdm_get_connection_version ctx in
  TAIL error SPDM_ERROR_CODE_UNSUPPORTED_REQUEST SPDM_CHUNK_SEND IF v <? SPDM_MESSAGE_VERSION_12;;
  TAIL error SPDM_ERROR_CODE_UNSUPPORTED_REQUEST SPDM_CHUNK_SEND
    IF negb (libspdm_is_capabilities_flag_supported ctx false
               SPDM_GET_CAPABILITIES_REQUEST_FLAGS_CHUNK_CAP
               SPDM_GET_CAPABILITIES_RESPONSE_FLAGS_CHUNK_CAP);;
  h ← read_header request;
  TAIL libspdm_responder_handle_response_state ctx (request_response_code h) response_size response
    IF bool_decide (response_state (exchange ctx) ≠ LIBSPDM_RESPONSE_STATE_NORMAL);;
  TAIL error SPDM_ERROR_CODE_UNEXPECTED_REQUEST 0
    IF connection_state_below ctx LIBSPDM_CONNECTION_STATE_AFTER_CAPABILITIES;;
  TAIL error SPDM_ERROR_CODE_INVALID_REQUEST 0 IF request_size <? sizeof_spdm_chunk_send_request;;
  TAIL error SPDM_ERROR_CODE_UNSUPPORTED_REQUEST SPDM_CHUNK_SEND
    IF spdm_version h <? SPDM_MESSAGE_VERSION_12;;
  TAIL error SPDM_ERROR_CODE_VERSION_MISMATCH 0 IF negb (spdm_version h =? v);;
  TAIL error SPDM_ERROR_CODE_UNEXPECTED_REQUEST 0 IF chunk_in_use (chunk_get (exchange ctx));;
  seq_no ← read_seq_no v request;
  chunk_size ← load_le 4 request 8;
  if negb (chunk_in_use (chunk_send (exchange ctx))) then
    TAIL error SPDM_ERROR_CODE_INVALID_REQUEST 0
      IF request_size <? sizeof_spdm_chunk_send_request + 4;;
    large_size ← load_le 4 request sizeof_spdm_chunk_send_request;
    t ← start_transfer ctx h seq_no chunk_size large_size request_size request;
    chunk_send_ack (default ctx t) h seq_no (bool_decide (is_Some t)) response_size response
  else
    '(accepted, ctx) ← continue_transfer ctx h seq_no chunk_size request_size request;
    chunk_send_ack ctx h seq_no accepted response_size response.

(** ** RESPOND_IF_READY *)

Definition libspdm_get_response_respond_if_ready : handler := λ ctx request_size request response_size response,
  let error code data := libspdm_generate_error_response ctx code data response_size response in
  let x := exchange ctx in
  h ← read_header request;
  LIBSPDM_ASSERT (request_response_code h =? SPDM_RESPOND_IF_READY);;
  TAIL error SPDM_ERROR_CODE_VERSION_MISMATCH 0
    IF negb (spdm_version h =? libspdm_get_connection_version ctx);;
  TAIL libspdm_responder_handle_response_state ctx (request_response_code h) response_size response
    IF bool_decide (response_state x ≠ LIBSPDM_RESPONSE_STATE_NORMAL);;
  TAIL error SPDM_ERROR_CODE_INVALID_REQUEST 0 IF request_size <? sizeof_spdm_message_header;;
  TAIL error SPDM_ERROR_CODE_UNEXPECTED_REQUEST 0 IF cache_spdm_request_size x =? 0;;
  TAIL error SPDM_ERROR_CODE_UNEXPECTED_REQUEST 0
    IF negb (Bool.eqb (last_spdm_request_session_id_valid ctx)
                      (cache_spdm_request_session_id_valid x))
       || (cache_spdm_request_session_id_valid x
           && negb (last_spdm_request_session_id ctx =? cache_spdm_request_session_id x));;
  TAIL error SPDM_ERROR_CODE_INVALID_REQUEST 0
    IF negb (param1 h =? request_code (error_data x)) || (param1 h =? SPDM_RESPOND_IF_READY)
       || negb (param2 h =? token (error_data x));;
  match get_response (param1 h) with
  | None => error SPDM_ERROR_CODE_UNSUPPORTED_REQUEST (param1 h)
  | Some response_func =>
      cached ← load (cache_spdm_request x) 0 (cache_spdm_request_size x);
      r ← response_func ctx (cache_spdm_request_size x) cached response_size response;
      let x := exchange (rp_ctx r) in
      cache ← store (cache_spdm_request x) 0 (zeros (cache_spdm_request_size x));
      Ret (Reply (rp_status r)
             (set_exchange (rp_ctx r) (λ x,
                x <| cache_spdm_request := cache |> <| cache_spdm_request_size := 0 |>))
             (rp_size r) (rp_response r))
  end.

End nested.

End handlers.
End Handlers.
Export Handlers.
