(* ===== verification/Responder.v ===== *)
(** * Responder: receiving a request and answering it

    The responder's input and output (libspdm_rsp_receive_send.c) and its main
    operation, libspdm_responder_dispatch_message (libspdm_rsp_communication.c):
    a request is decoded, dispatched to the handler of its code, and the
    response is encoded, in chunks when it is large.  The state of a session
    follows the response that is sent. *)

From S2P Require Import Prelude SpdmDefs CommonSupport CryptLib SecuredContext SecuredSession.
From S2P Require Import SpdmContext SessionTable Messages KeyUpdate Connection Algorithms Transport.
From S2P Require Import SendReceive Handlers.

Module Responder.

Definition LIBSPDM_DATA_HANDLE_ERROR_RETURN_POLICY_DROP_ON_DECRYPT_ERROR : Z := 1.

(** libspdm_get_response_func: the context, session_id, is_app_message, the
    request of request_size bytes, *response_size and response. *)
Definition app_handler : Type :=
  libspdm_context_t → option Z → bool → list Z → Z → list Z → exec reply.

(** The handlers of the requests that are not modelled, by their code, and
    the function registered with libspdm_register_get_response_func. *)
Class ResponderServices `{BuildConfig, CryptoHal} : Type := {
  other_handler : Z → option handler;
  get_response_func : option app_handler;
}.

Section responder.
Context `{BuildConfig, CryptoHal} {services : ResponderServices} {layer : TransportLayer}.
Implicit Types ctx : libspdm_context_t.

(** ** Dispatch *)

(** CHUNK_SEND and RESPOND_IF_READY call the handler of another request: the
    depth bounds how deep they are nested.  CHUNK_SEND refuses an assembled chunk
    message, RESPOND_IF_READY a cached RESPOND_IF_READY, and a cached CHUNK_SEND
    that completed a transfer is out of order when it is replayed, so that
    CHUNK_SEND, RESPOND_IF_READY, CHUNK_SEND, RESPOND_IF_READY, CHUNK_SEND is as
    deep as it gets. *)
Fixpoint get_response (depth : nat) (request_code : Z) : option handler :=
  let inner := match depth with O => λ _, None | S depth => get_response depth end in
  if request_code =? SPDM_GET_VERSION then Some libspdm_get_response_version
  else if request_code =? SPDM_GET_CAPABILITIES then Some libspdm_get_response_capabilities
  else if request_code =? SPDM_NEGOTIATE_ALGORITHMS then Some libspdm_get_response_algorithms
  else if request_code =? SPDM_RESPOND_IF_READY then Some (libspdm_get_response_respond_if_ready inner)
  else if request_code =? SPDM_END_SESSION then Some libspdm_get_response_end_session
  else if request_code =? SPDM_HEARTBEAT then Some libspdm_get_response_heartbeat
  else if request_code =? SPDM_KEY_UPDATE then Some libspdm_get_response_key_update
  else if request_code =? SPDM_CHUNK_GET then Some libspdm_get_response_chunk_get
  else if request_code =? SPDM_CHUNK_SEND then Some (libspdm_get_response_chunk_send inner)
  else other_handler request_code.

Definition libspdm_get_response_func_via_request_code : Z → option handler := get_response 4.

(** Every request has a handler of its own, which the C code compares. *)
Definition libspdm_request_interrupts_chunk_transfer ctx (request_code : Z) : bool :=
  if request_code =? SPDM_GET_VERSION then false
  else (chunk_in_use (chunk_get (exchange ctx)) && negb (request_code =? SPDM_CHUNK_GET))
       || (chunk_in_use (chunk_send (exchange ctx)) && negb (request_code =? SPDM_CHUNK_SEND)).

(** ** State of a session *)

Definition libspdm_trigger_session_state_callback ctx (session_id : Z)
    (s : libspdm_session_state_t) : libspdm_context_t :=
  notify ctx (spdm_session_state_callback (exchange ctx)) (SessionState session_id s).

Definition libspdm_set_session_state ctx (sid : Z) (s : libspdm_session_state_t) :
    exec libspdm_context_t :=
  match libspdm_get_session_info_via_session_id ctx sid with
  | None => LIBSPDM_ASSERT false;; Ret ctx
  | Some i =>
      si ← slot ctx i;
      let c := secured_message_context si in
      if bool_decide (libspdm_secured_message_get_session_state c ≠ s) then
        let c := libspdm_secured_message_set_session_state c s in
        let ctx := set_slot ctx i (si <| secured_message_context := c |>) in
        Ret (libspdm_trigger_session_state_callback ctx (session_id si) s)
      else Ret ctx
  end.

Definition libspdm_terminate_session ctx (sid : Z) : exec (libspdm_return_t * libspdm_context_t) :=
  match libspdm_get_session_info_via_session_id ctx sid with
  | None => Ret (LIBSPDM_STATUS_INVALID_PARAMETER, ctx)
  | Some i =>
      ctx ← libspdm_set_session_state ctx sid LIBSPDM_SESSION_STATE_NOT_STARTED;
      ctx ← libspdm_free_session_id ctx sid;
      Ret (LIBSPDM_STATUS_SUCCESS, ctx)
  end.

(** ** Receiving *)

(** What processing a request leaves behind: *session_id, *is_app_message and
    the receiver buffer. *)
Record processed : Type := Processed {
  pr_status : libspdm_return_t;
  pr_ctx : libspdm_context_t;
  pr_session : option Z;
  pr_is_app : bool;
  pr_request : list Z;
}.

(** Decoding with the requester's keys before the update: the slot, and what
    decoding gives; or the context of a failure. *)
Definition open_with_backup_key ctx (message_session_id : option Z) (request : list Z) :
    exec (libspdm_context_t + nat * opened) :=
  match message_session_id with
  | None => Ret (inl ctx)
  | Some sid =>
      match libspdm_get_session_info_via_session_id ctx sid with
      | None => Ret (inl ctx)
      | Some i =>
          '(result, ctx) ← activate_key ctx i LIBSPDM_KEY_UPDATE_ACTION_REQUESTER false;
          RETURN inl ctx IF negb result;;
          let ctx := libspdm_trigger_key_update_callback ctx sid
                       LIBSPDM_KEY_UPDATE_OPERATION_DISCARD_UPDATE
                       LIBSPDM_KEY_UPDATE_ACTION_REQUESTER in
          o ← open_frame ctx None true request;
          Ret (inr (i, o))
      end
  end.

(** The new keys are made once more after that; [None]: it failed. *)
Definition restore_update ctx (i : nat) (message_session_id : option Z) :
    exec (bool * libspdm_context_t) :=
  match message_session_id with
  | None => Ret (false, ctx)
  | Some sid => create_update ctx sid i LIBSPDM_KEY_UPDATE_ACTION_REQUESTER
  end.

(** Clearing the decoded message, in the secure section or in the frame. *)
Definition clear_message ctx (request : list Z) (place : received_ptr) (size : Z) :
    exec (libspdm_context_t * list Z) :=
  match place with
  | InCaller o =>
      m ← store (secure_message_section (scratch (exchange ctx)))
            (transport_header_size (lc_capability ctx) + o) (zeros size);
      Ret (put_secure ctx m, request)
  | InTransport o =>
      m ← store request o (zeros size);
      Ret (ctx, m)
  end.

(** A decoded request is kept in last_spdm_request. *)
Definition accept_request (o : opened) (request : list Z) : exec processed :=
  let ctx := op_ctx o in
  let decoded_message := take (Z.to_nat (data_transfer_size (lc_capability ctx))) (op_message o) in
  last ← copy_mem (last_spdm_request (exchange ctx)) 0
           (libspdm_get_scratch_buffer_last_spdm_request_capacity ctx) decoded_message;
  let ctx := set_exchange ctx (λ x, x <| last_spdm_request := last |>
                                      <| last_spdm_request_size := blen decoded_message |>) in
  '(ctx, request) ← clear_message ctx request (op_place o) (blen decoded_message);
  let ret st ctx := Processed st ctx (op_session o) (op_is_app o) request in
  RETURN ret LIBSPDM_STATUS_UNSUPPORTED_CAP ctx
    IF negb (op_is_app o) && (blen decoded_message <? sizeof_spdm_message_header);;
  match op_session o with
  | None => Ret (ret LIBSPDM_STATUS_SUCCESS ctx)
  | Some sid =>
      match libspdm_get_session_info_via_session_id ctx sid with
      | None => Ret (ret LIBSPDM_STATUS_UNSUPPORTED_CAP ctx)
      | Some _ =>
          Ret (ret LIBSPDM_STATUS_SUCCESS
                 (ctx <| last_spdm_request_session_id := sid |>
                      <| last_spdm_request_session_id_valid := true |>))
      end
  end.

(** A frame that does not decode: the error it recorded is answered. *)
Definition refuse_request (o : opened) (request : list Z) : processed :=
  let e := sc_last_spdm_error (op_ctx o) in
  if negb (error_code e =? 0)
  then Processed LIBSPDM_STATUS_SUCCESS (op_ctx o) (Some (error_session_id e)) false request
  else Processed (op_status o) (op_ctx o) (op_session o) (op_is_app o) request.

Definition libspdm_process_request ctx (request : list Z) : exec processed :=
  let fail st ctx := Processed st ctx None false request in
  RETURN fail LIBSPDM_STATUS_INVALID_PARAMETER ctx IF blen request =? 0;;
  let ctx := ctx <| last_spdm_request_session_id_valid := false |> in
  let ctx := set_exchange ctx (λ x,
    x <| last_spdm_request_size := libspdm_get_scratch_buffer_last_spdm_request_capacity ctx |>) in
  o ← open_frame ctx None true request;
  if bool_decide (op_status o = LIBSPDM_STATUS_SESSION_TRY_DISCARD_KEY_UPDATE) then
    r ← open_with_backup_key (op_ctx o) (op_session o) request;
    match r with
    | inl ctx => Ret (fail LIBSPDM_STATUS_INVALID_STATE_LOCAL ctx)
    | inr (i, o) =>
        RETURN refuse_request o request IF is_error (op_status o);;
        '(result, ctx) ← restore_update (op_ctx o) i (op_session o);
        RETURN fail LIBSPDM_STATUS_INVALID_STATE_LOCAL ctx IF negb result;;
        accept_request (Opened (op_status o) ctx (op_session o) (op_is_app o) (op_message o)
                          (op_place o)) request
    end
  else
    RETURN refuse_request o request IF is_error (op_status o);;
    accept_request o request.

(** ** Answering *)

(** The response to the request in last_spdm_request, over the response buffer
    of response_size bytes. *)
Definition dispatch_request ctx (session_id : option Z) (is_app_message : bool)
    (response_size : Z) (response : list Z) : exec reply :=
  let x := exchange ctx in
  request ← load (last_spdm_request x) 0 (last_spdm_request_size x);
  let app_response :=
    match get_response_func with
    | Some f => f ctx session_id is_app_message request response_size response
    | None => Ret (Reply LIBSPDM_STATUS_UNSUPPORTED_CAP ctx response_size response)
    end in
  TAIL app_response IF is_app_message;;
  request_code ← load_le 1 (last_spdm_request x) 1;
  TAIL libspdm_generate_error_response ctx SPDM_ERROR_CODE_UNEXPECTED_REQUEST 0 response_size
         response
    IF libspdm_request_interrupts_chunk_transfer ctx request_code;;
  match libspdm_get_response_func_via_request_code request_code with
  | Some get_response_func =>
      e ← libspdm_is_request_unexpected_for_mut_auth_encap ctx session_id request_code;
      match e with
      | Some reject_error_code =>
          libspdm_generate_error_response ctx reject_error_code 0 response_size response
      | None => get_response_func ctx (blen request) request response_size response
      end
  | None => app_response
  end.

(** A large response is kept for the CHUNK_GET requests that follow. *)
Definition keep_large_response (r : reply) : exec reply :=
  let ctx := rp_ctx r in
  let large_buffer_size := libspdm_get_scratch_buffer_large_message_capacity ctx in
  let ctx := set_get ctx (λ i,
    Build_chunk_info true (u8 (chunk_handle i + 1)) 0 0 (large_message i) (large_message_size i)
      large_buffer_size) in
  my_response ← load (rp_response r) 0 (rp_size r);
  code ← load_le 1 (rp_response r) 1;
  let message :=
    if code =? SPDM_CHUNK_SEND_ACK
    then drop (Z.to_nat (send_ack_header_size (libspdm_get_connection_version ctx))) my_response
    else my_response in
  m ← copy_mem (zeros large_buffer_size) 0 large_buffer_size message;
  let ctx := set_get (set_large_message ctx m) (λ i,
    i <| large_message := true |> <| large_message_size := blen message |>) in
  libspdm_generate_extended_error_response ctx SPDM_ERROR_CODE_LARGE_RESPONSE 0
    [chunk_handle (chunk_get (exchange ctx))] (rp_size r) (rp_response r).

(** What becomes of a response that does not fit the requester or a message. *)
Definition limit_response (r : reply) : exec reply :=
  let ctx := rp_ctx r in
  let local := lc_capability ctx in
  let peer := ci_capability ctx in
  RETURN r IF negb (bool_decide (rp_status r = LIBSPDM_STATUS_SUCCESS));;
  LIBSPDM_ASSERT (rp_size r <=? max_spdm_msg_size local);;
  if exceeds (rp_size r) (max_spdm_msg_size peer) then
    libspdm_generate_extended_error_response ctx SPDM_ERROR_CODE_RESPONSE_TOO_LARGE 0
      (le_bytes 4 (rp_size r)) (rp_size r) (rp_response r)
  else if (exceeds (rp_size r) (data_transfer_size peer)
           || exceeds (rp_size r) (sender_data_transfer_size local))
          && libspdm_is_capabilities_flag_supported ctx false
               SPDM_GET_CAPABILITIES_REQUEST_FLAGS_CHUNK_CAP
               SPDM_GET_CAPABILITIES_RESPONSE_FLAGS_CHUNK_CAP
  then keep_large_response r
  else Ret r.

(** The code of the response that is sent, or of the one that it carries. *)
Definition sent_code ctx (my_response : list Z) (my_response_size : Z) : exec Z :=
  code ← load_le 1 my_response 1;
  let header_size := send_ack_header_size (libspdm_get_connection_version ctx) in
  if code =? SPDM_CHUNK_SEND_ACK then
    if header_size <? my_response_size then load_le 1 my_response (header_size + 1) else Ret code
  else if code =? SPDM_CHUNK_RESPONSE then
    chunk_seq_no ← load_le 2 my_response sizeof_spdm_message_header;
    if chunk_seq_no =? 0
    then load_le 1 my_response (sizeof_spdm_chunk_response_response + 4 + 1) else Ret code
  else Ret code.

(** What sending a response does to the session [i], or to the latest one. *)
Definition follow_response ctx (session : option (Z * nat)) (code : Z) : exec libspdm_context_t :=
  let in_the_clear := libspdm_is_capabilities_flag_supported ctx false
    SPDM_GET_CAPABILITIES_REQUEST_FLAGS_HANDSHAKE_IN_THE_CLEAR_CAP
    SPDM_GET_CAPABILITIES_RESPONSE_FLAGS_HANDSHAKE_IN_THE_CLEAR_CAP in
  let establish ctx sid := libspdm_set_session_state ctx sid LIBSPDM_SESSION_STATE_ESTABLISHED in
  match session with
  | None => if (code =? SPDM_FINISH_RSP) && in_the_clear
            then establish ctx (latest_session_id ctx) else Ret ctx
  | Some (sid, i) =>
      si ← slot ctx i;
      let watched := negb (heartbeat_period si =? 0)
                     && libspdm_is_capabilities_flag_supported ctx false
                          SPDM_GET_CAPABILITIES_REQUEST_FLAGS_HBEAT_CAP
                          SPDM_GET_CAPABILITIES_RESPONSE_FLAGS_HBEAT_CAP in
      if code =? SPDM_FINISH_RSP then (if in_the_clear then Ret ctx else establish ctx sid)
      else if code =? SPDM_PSK_FINISH_RSP then establish ctx sid
      else if code =? SPDM_END_SESSION_ACK then
        '(_, ctx) ← libspdm_terminate_session (notify ctx watched (WatchdogStop sid)) sid;
        Ret ctx
      else Ret (notify ctx watched (WatchdogReset sid))
  end.

(** What building a response leaves behind: the response buffer, and the bytes
    of the message to send. *)
Record built : Type := Built {
  bl_status : libspdm_return_t;
  bl_ctx : libspdm_context_t;
  bl_buffer : list Z;
  bl_message : list Z;
  bl_rng : rng_state;
}.

(** The memory around my_response: the secure section in a session, and the
    response buffer otherwise; it lies behind the room for the transport header. *)
Definition response_memory ctx (session_id : option Z) (response : list Z) : list Z :=
  if is_secured session_id then secure_message_section (scratch (exchange ctx)) else response.

Definition my_response_capacity ctx (session_id : option Z) (response : list Z) : Z :=
  let cap := lc_capability ctx in
  let size := if is_secured session_id then libspdm_get_scratch_buffer_secure_message_capacity ctx
              else blen response in
  size_t (size_t (size - transport_header_size cap) - transport_tail_size cap).

(** Encoding [size] bytes of my_response. *)
Definition encode_response ctx (session_id : option Z) (is_app_message : bool) (size : Z)
    (my_response response : list Z) (rng : rng_state) : exec transport_encoded :=
  let th := transport_header_size (lc_capability ctx) in
  memory ← store (response_memory ctx session_id response) th my_response;
  transport_encode_message ctx session_id is_app_message false size memory th (blen response)
    response rng.

(** The two memories after it. *)
Definition encoded_memories (session_id : option Z) (t : transport_encoded) :
    libspdm_context_t * list Z :=
  if is_secured session_id then (put_secure (te_ctx t) (te_msg t), te_buf t)
  else (te_ctx t, te_msg t).

(** The response to a message that was refused. *)
Definition build_error ctx (session_id : option Z) (size : Z) (my_response response : list Z)
    (rng : rng_state) : exec built :=
  let decrypt_error :=
    error_code (sc_last_spdm_error ctx) =? SPDM_ERROR_CODE_DECRYPT_ERROR in
  let free ctx :=
    match session_id with
    | Some sid => if decrypt_error then libspdm_free_session_id ctx sid else Ret ctx
    | None => Ret ctx
    end in
  let drop_it :=
    ctx ← free ctx;
    Ret (Built LIBSPDM_STATUS_UNSUPPORTED_CAP ctx response [] rng) in
  if decrypt_error then
    if Z.land (handle_error_return_policy (exchange ctx))
         LIBSPDM_DATA_HANDLE_ERROR_RETURN_POLICY_DROP_ON_DECRYPT_ERROR =? 0 then
      r ← libspdm_generate_error_response ctx SPDM_ERROR_CODE_DECRYPT_ERROR 0 size my_response;
      t ← encode_response (rp_ctx r) session_id false (rp_size r) (rp_response r) response rng;
      let '(ctx, buffer) := encoded_memories session_id t in
      if is_error (te_status t) then
        ctx ← drop_session ctx session_id (te_status t);
        Ret (Built (te_status t) ctx buffer [] (te_rng t))
      else
        message ← encoded_message t;
        ctx ← free ctx;
        Ret (Built LIBSPDM_STATUS_SUCCESS
               (libspdm_set_last_spdm_error_struct ctx (Build_error_struct 0 0))
               buffer message (te_rng t))
    else drop_it
  else
    LIBSPDM_ASSERT (error_code (sc_last_spdm_error ctx) =? SPDM_ERROR_CODE_INVALID_SESSION);;
    drop_it.

(** The plain text of a response is cleared, and the request is done. *)
Definition finish_response ctx (session_id : option Z) (size : Z) : exec libspdm_context_t :=
  ctx ← (if is_secured session_id then
           m ← store (secure_message_section (scratch (exchange ctx)))
                 (transport_header_size (lc_capability ctx)) (zeros size);
           Ret (put_secure ctx m)
         else Ret ctx);
  last ← store (last_spdm_request (exchange ctx)) 0
           (zeros (libspdm_get_scratch_buffer_last_spdm_request_capacity ctx));
  Ret ((set_exchange ctx (λ x, x <| last_spdm_request := last |> <| last_spdm_request_size := 0 |>))
         <| last_spdm_request_session_id_valid := false |>).

(** Sending a response: the encoding, and what follows it. *)
Definition send_response (session : option (Z * nat)) (is_app_message : bool) (r : reply)
    (response : list Z) (rng : rng_state) : exec built :=
  let session_id := fst <$> session in
  t ← encode_response (rp_ctx r) session_id is_app_message (rp_size r) (rp_response r) response rng;
  let '(ctx, buffer) := encoded_memories session_id t in
  if is_error (te_status t) then
    ctx ← drop_session ctx session_id (te_status t);
    ctx ← finish_response ctx session_id (rp_size r);
    Ret (Built (te_status t) ctx buffer [] (te_rng t))
  else
    message ← encoded_message t;
    let my_response :=
      drop (Z.to_nat (transport_header_size (lc_capability ctx))) (te_msg t) in
    code ← sent_code ctx my_response (rp_size r);
    ctx ← follow_response ctx session code;
    ctx ← finish_response ctx session_id (rp_size r);
    Ret (Built LIBSPDM_STATUS_SUCCESS ctx buffer message (te_rng t)).

(** The part of the function for a request that was accepted. *)
Definition answer_request ctx (session : option (Z * nat)) (is_app_message : bool) (size : Z)
    (my_response response : list Z) (rng : rng_state) : exec built :=
  let session_id := fst <$> session in
  let fail st := Built st ctx response [] rng in
  RETURN fail LIBSPDM_STATUS_INVALID_PARAMETER IF blen response =? 0;;
  RETURN fail LIBSPDM_STATUS_INVALID_STATE_LOCAL IF last_spdm_request_size (exchange ctx) =? 0;;
  r ← dispatch_request ctx session_id is_app_message size my_response;
  r ← limit_response r;
  if (rp_size r =? 0) && bool_decide (rp_status r = LIBSPDM_STATUS_UNSUPPORTED_CAP) then
    ctx ← finish_response (rp_ctx r) session_id 0;
    Ret (Built LIBSPDM_STATUS_UNSUPPORTED_CAP ctx response [] rng)
  else
    r ← (if is_error (rp_status r) then
           code ← load_le 1 (last_spdm_request (exchange (rp_ctx r))) 1;
           libspdm_generate_error_response (rp_ctx r) SPDM_ERROR_CODE_UNSUPPORTED_REQUEST code
             (rp_size r) (rp_response r)
         else Ret r);
    send_response session is_app_message r response rng.

Definition libspdm_build_response ctx (session_id : option Z) (is_app_message : bool)
    (response : list Z) (rng : rng_state) : exec built :=
  let size := my_response_capacity ctx session_id response in
  memory ← store (response_memory ctx session_id response)
             (transport_header_size (lc_capability ctx)) (zeros size);
  let '(ctx, response) :=
    if is_secured session_id then (put_secure ctx memory, response) else (ctx, memory) in
  let my_response := zeros size in
  if negb (error_code (sc_last_spdm_error ctx) =? 0) then
    build_error ctx session_id size my_response response rng
  else
    match session_id with
    | None => answer_request ctx None is_app_message size my_response response rng
    | Some sid =>
        match libspdm_get_session_info_via_session_id ctx sid with
        | None =>
            LIBSPDM_ASSERT false;;
            Ret (Built LIBSPDM_STATUS_UNSUPPORTED_CAP ctx response [] rng)
        | Some i => answer_request ctx (Some (sid, i)) is_app_message size my_response response rng
        end
    end.

(** ** The operation of the responder *)

Section device.
Context {device : Device}.

Definition put_response_buffer ctx (m : list Z) : libspdm_context_t :=
  put_section InLargeSenderReceiver ctx m.

Definition libspdm_responder_dispatch_message ctx (rng : rng_state) (d : D) :
    exec (libspdm_return_t * libspdm_context_t * rng_state * D) :=
  let '(status, d) := device_acquire_receiver_buffer d in
  RETURN (status, ctx, rng, d) IF is_error status;;
  let '(status, request, d) := device_receive_message receiver_buffer_size 0 d in
  let d := if is_error status then device_release_receiver_buffer d else d in
  RETURN (status, ctx, rng, d) IF is_error status;;
  p ← libspdm_process_request ctx request;
  let d := device_release_receiver_buffer d in
  RETURN (pr_status p, pr_ctx p, rng, d) IF is_error (pr_status p);;
  let ctx := pr_ctx p in
  let '(status, d) := device_acquire_sender_buffer d in
  RETURN (status, ctx, rng, d) IF is_error status;;
  let response := zeros (libspdm_get_scratch_buffer_large_sender_receiver_capacity ctx) in
  b ← libspdm_build_response (put_response_buffer ctx response) (pr_session p) (pr_is_app p)
        response rng;
  let ctx := put_response_buffer (bl_ctx b) (bl_buffer b) in
  if is_error (bl_status b) then
    Ret (bl_status b, ctx, bl_rng b, device_release_sender_buffer d)
  else
    let '(status, d) := device_send_message (bl_message b) 0 d in
    Ret (status, ctx, bl_rng b, device_release_sender_buffer d).

End device.
End responder.
End Responder.
Export Responder.
