(* ===== verification/Transcript.v ===== *)
(** * Transcript: the transcript hash of a session

    The hash and HMAC services of the crypt library (libspdm_crypt_hash.c,
    libspdm_crypt_hmac.c, and the finished keys of libspdm_secmes_session.c), the
    TH transcript of a session in the build that keeps a running digest
    (libspdm_append_message_k, libspdm_append_message_f and their resets of
    libspdm_com_context_data.c), and the hashes and HMACs over it
    (libspdm_com_crypto_service_session.c). *)

From S2P Require Import Prelude SpdmDefs CommonSupport CryptLib SecuredContext SecuredSession.
From S2P Require Import SpdmContext SessionTable Messages KeyUpdate.
Import KeyScheduleFacts.

(** The hash functions of the HAL (include/hal/library/cryptlib): whether an
    operation succeeds, and the digests.  A hash context is given by the bytes
    hashed so far. *)
Class HashHal : Type := {
  hal_hash_new : hash_alg → bool;                       (* not NULL *)
  hal_hash_init : hash_alg → bool;
  hal_hash_duplicate : hash_alg → list Z → bool;
  hal_hash_update : hash_alg → list Z → list Z → bool;  (* context, data *)
  hal_hash_final : hash_alg → list Z → bool * list Z;
  hal_hash_all : hash_alg → list Z → bool * list Z;
  hal_hmac_all : hash_alg → list Z → list Z → bool * list Z;   (* data, key *)
}.

(** Digests and HMACs have the size of the algorithm. *)
Class HashHalOk `{!HashHal} : Prop := {
  hash_final_out h bs : blen (hal_hash_final h bs).2 = hash_size_of h ∧
    bytes_ok (hal_hash_final h bs).2;
  hash_all_out h bs : blen (hal_hash_all h bs).2 = hash_size_of h ∧
    bytes_ok (hal_hash_all h bs).2;
  hmac_all_out h bs key : blen (hal_hmac_all h bs key).2 = hash_size_of h ∧
    bytes_ok (hal_hmac_all h bs key).2;
}.

Definition SPDM_MAX_SLOT_COUNT : Z := 8.

(** ** Dispatch to the HAL *)
Module HashDispatch.
Section dispatch.
Context `{BuildConfig, HashHal}.

(** The switch over base_hash_algo that the functions share; [bad] is the result
    after the assertion of its default case. *)
Definition hash_switch {A} (base_hash_algo : Z) (f : hash_alg → A) (bad : A) : exec A :=
  match hash_of_algo base_hash_algo with
  | Some h => Ret (f h)
  | None => LIBSPDM_ASSERT false;; Ret bad
  end.

(** NULL is [None]; a new context has hashed nothing. *)
Definition libspdm_hash_new (base_hash_algo : Z) : exec (option (list Z)) :=
  hash_switch base_hash_algo (λ h, if hal_hash_new h then Some [] else None) None.

Definition libspdm_hash_free (base_hash_algo : Z) (hash_context : option (list Z)) : exec unit :=
  match hash_context with
  | None => Ret tt
  | Some _ => hash_switch base_hash_algo (λ _, tt) tt
  end.

(** The status and the context. *)
Definition libspdm_hash_init (base_hash_algo : Z) (hash_context : list Z) :
    exec (bool * list Z) :=
  hash_switch base_hash_algo (λ h, (hal_hash_init h, [])) (false, hash_context).

(** The copy of [hash_ctx] in [new_hash_ctx]; NULL is refused. *)
Definition libspdm_hash_duplicate (base_hash_algo : Z) (hash_ctx : option (list Z))
    (new_hash_ctx : list Z) : exec (bool * list Z) :=
  hash_switch base_hash_algo
    (λ h, match hash_ctx with
          | Some c => (hal_hash_duplicate h c, c)
          | None => (false, new_hash_ctx)
          end) (false, new_hash_ctx).

Definition libspdm_hash_update (base_hash_algo : Z) (hash_context : option (list Z))
    (data : list Z) : exec (bool * option (list Z)) :=
  hash_switch base_hash_algo
    (λ h, match hash_context with
          | Some c => (hal_hash_update h c data, Some (c ++ data))
          | None => (false, None)
          end) (false, hash_context).

Definition libspdm_hash_final (base_hash_algo : Z) (hash_context : list Z) :
    exec (bool * list Z) :=
  hash_switch base_hash_algo (λ h, hal_hash_final h hash_context) (false, []).

Definition libspdm_hash_all (base_hash_algo : Z) (data : list Z) : exec (bool * list Z) :=
  hash_switch base_hash_algo (λ h, hal_hash_all h data) (false, []).

Definition libspdm_hmac_all (base_hash_algo : Z) (data key : list Z) : exec (bool * list Z) :=
  hash_switch base_hash_algo (λ h, hal_hmac_all h data key) (false, []).

(** *** HMACs with the finished keys of a session *)

Definition libspdm_hmac_all_with_request_finished_key (c : libspdm_secured_message_context_t)
    (data : list Z) : exec (bool * list Z) :=
  key ← load (request_finished_key (handshake_secret c)) 0 (hash_size c);
  libspdm_hmac_all (base_hash_algo c) data key.

Definition libspdm_hmac_all_with_response_finished_key (c : libspdm_secured_message_context_t)
    (data : list Z) : exec (bool * list Z) :=
  key ← load (response_finished_key (handshake_secret c)) 0 (hash_size c);
  libspdm_hmac_all (base_hash_algo c) data key.

End dispatch.
End HashDispatch.
Export HashDispatch.

(** ** The TH transcript *)
Module Transcript.
Section transcript_.
Context `{BuildConfig, HashHal}.
Implicit Types ctx : libspdm_context_t.

Definition hash_algo ctx : Z := da_base_hash_algo (ci_algorithm ctx).
Definition digest_size ctx : Z := libspdm_get_hash_size (hash_algo ctx).

(** The transcript of the session in slot [i]. *)
Definition set_transcript ctx (i : nat)
    (f : libspdm_session_transcript_t → libspdm_session_transcript_t) : exec libspdm_context_t :=
  si ← slot ctx i;
  Ret (set_slot ctx i (si <| session_transcript := f (session_transcript si) |>)).

Definition set_th ctx (i : nat) (th : option (list Z)) : exec libspdm_context_t :=
  set_transcript ctx i (λ t, t <| digest_context_th := th |>).

(** *** Resets *)

Definition libspdm_reset_message_k ctx (i : nat) : exec libspdm_context_t :=
  si ← slot ctx i;
  libspdm_hash_free (hash_algo ctx) (digest_context_th (session_transcript si));;
  libspdm_hash_free (hash_algo ctx) (digest_context_th_backup (session_transcript si));;
  set_transcript ctx i (λ t, t <| digest_context_th := None |>
                               <| digest_context_th_backup := None |>).

Definition libspdm_reset_message_encap_d ctx (i : nat) : exec libspdm_context_t :=
  si ← slot ctx i;
  m ← libspdm_reset_managed_buffer (message_encap_d (session_transcript si));
  set_transcript ctx i (λ t, t <| message_encap_d := m |>
                               <| encap_digest_window_closed := false |>).

Definition libspdm_reset_message_f ctx (i : nat) : exec libspdm_context_t :=
  si ← slot ctx i;
  let th := digest_context_th (session_transcript si) in
  libspdm_hash_free (hash_algo ctx) th;;
  set_transcript ctx i (λ t,
    (match th with
     | Some _ => t <| digest_context_th := digest_context_th_backup t |>
                   <| digest_context_th_backup := None |>
     | None => t
     end) <| message_f_initialized := false |>).

(** *** The certificate chain, or the public key, of an endpoint *)

Definition libspdm_get_peer_public_key_buffer ctx : option (list Z) :=
  peer_public_key_provision (exchange ctx).

Definition libspdm_get_local_public_key_buffer ctx : option (list Z) :=
  local_public_key_provision (exchange ctx).

(** The array is indexed by the slot of the certificate. *)
Definition libspdm_get_local_cert_chain_buffer ctx (slot_id : Z) : exec (list Z) :=
  match local_cert_chain_provision (exchange ctx) !! Z.to_nat slot_id with
  | None => Fault OutOfBounds
  | Some chain =>
      LIBSPDM_ASSERT (bool_decide (is_Some chain));;
      LIBSPDM_ASSERT (negb (blen (default [] chain) =? 0));;
      Ret (default [] chain)
  end.

Definition libspdm_hash_buffer ctx (buffer : list Z) : exec (list Z + libspdm_return_t) :=
  '(result, hash) ← libspdm_hash_all (hash_algo ctx) buffer;
  RETURN inr LIBSPDM_STATUS_CRYPTO_ERROR IF negb result;;
  hash ← load hash 0 (digest_size ctx);
  Ret (inl hash).

Definition slot_id_ok (slot_id : Z) : bool :=
  (slot_id <? SPDM_MAX_SLOT_COUNT) || (slot_id =? 0xFF).

(** cert_chain_buffer_hash of the peer; or the status that is returned. *)
Definition peer_cert_chain_hash ctx (slot_id : Z) : exec (list Z + libspdm_return_t) :=
  LIBSPDM_ASSERT (slot_id_ok slot_id);;
  if slot_id =? 0xFF then
    match libspdm_get_peer_public_key_buffer ctx with
    | None => Ret (inr LIBSPDM_STATUS_INVALID_STATE_PEER)
    | Some key => libspdm_hash_buffer ctx key
    end
  else
    match peer_used_cert_chain (exchange ctx) !! Z.to_nat slot_id with
    | None => Fault OutOfBounds
    | Some chain =>
        LIBSPDM_ASSERT (digest_size ctx =? buffer_hash_size chain);;
        hash ← load (buffer_hash chain) 0 (digest_size ctx);
        Ret (inl hash)
    end.

(** The one of this endpoint. *)
Definition local_cert_chain_hash ctx (slot_id : Z) : exec (list Z + libspdm_return_t) :=
  LIBSPDM_ASSERT (slot_id_ok slot_id);;
  if slot_id =? 0xFF then
    match libspdm_get_local_public_key_buffer ctx with
    | None => Ret (inr LIBSPDM_STATUS_INVALID_STATE_LOCAL)
    | Some key => libspdm_hash_buffer ctx key
    end
  else
    chain ← libspdm_get_local_cert_chain_buffer ctx slot_id;
    libspdm_hash_buffer ctx chain.

(** *** Appending *)

(** A digest context after an update, which is freed when the update fails. *)
Definition update_or_free ctx (th : option (list Z)) (data : list Z) : exec (option (list Z)) :=
  '(result, th) ← libspdm_hash_update (hash_algo ctx) th data;
  if (result : bool) then Ret th
  else libspdm_hash_free (hash_algo ctx) th;; Ret None.

(** The status of such an update. *)
Definition hashed_status (th : option (list Z)) : libspdm_return_t :=
  match th with Some _ => LIBSPDM_STATUS_SUCCESS | None => LIBSPDM_STATUS_CRYPTO_ERROR end.

(** Several updates; the first failure ends them. *)
Fixpoint update_all ctx (th : list Z) (data : list (list Z)) : exec (option (list Z)) :=
  match data with
  | [] => Ret (Some th)
  | d :: data =>
      th ← update_or_free ctx (Some th) d;
      match th with
      | None => Ret None
      | Some th => update_all ctx th data
      end
  end.

Definition managed_data (m : libspdm_managed_buffer_t) : exec (list Z) :=
  load (libspdm_get_managed_buffer m) 0 (libspdm_get_managed_buffer_size m).

(** What enters for an endpoint: the DIGESTS of a multi-key connection, and the
    hash of its certificate chain. *)
Definition with_digests (multi_key : bool) (digests : libspdm_managed_buffer_t)
    (cert_chain_hash : list Z) : exec (list (list Z)) :=
  if multi_key then d ← managed_data digests; Ret [d; cert_chain_hash]
  else Ret [cert_chain_hash].

(** The digest context of a session that has none: message A and, unless a PSK
    is used, the digests and the certificate chain of the responder. *)
Definition open_th ctx (si : libspdm_session_info_t) (is_requester : bool) :
    exec (list Z + libspdm_return_t) :=
  let a := hash_algo ctx in
  let t := transcript (exchange ctx) in
  cert ← (if si_use_psk si then Ret (inl [])
          else if is_requester then peer_cert_chain_hash ctx (peer_used_cert_chain_slot_id si)
          else local_cert_chain_hash ctx (local_used_cert_chain_slot_id si));
  match cert with
  | inr status => Ret (inr status)
  | inl cert_chain_buffer_hash =>
      new ← libspdm_hash_new a;
      match new with
      | None => Ret (inr LIBSPDM_STATUS_CRYPTO_ERROR)
      | Some th =>
          '(result, th) ← libspdm_hash_init a th;
          if negb result then
            libspdm_hash_free a (Some th);; Ret (inr LIBSPDM_STATUS_CRYPTO_ERROR)
          else
            message_a ← managed_data (tr_message_a t);
            certs ← (if si_use_psk si then Ret []
                     else with_digests (multi_key_conn_rsp (exchange ctx)) (tr_message_d t)
                            cert_chain_buffer_hash);
            th ← update_all ctx th (message_a :: certs);
            match th with
            | None => Ret (inr LIBSPDM_STATUS_CRYPTO_ERROR)
            | Some th => Ret (inl th)
            end
      end
  end.

(** [i] is the slot of the session. *)
Definition libspdm_append_message_k ctx (i : nat) (is_requester : bool) (message : list Z) :
    exec (libspdm_return_t * libspdm_context_t) :=
  si ← slot ctx i;
  th ← (match digest_context_th (session_transcript si) with
        | Some th => Ret (inl th : list Z + libspdm_return_t)
        | None => open_th ctx si is_requester
        end);
  match th with
  | inr status => Ret (status, ctx)
  | inl th =>
      th ← update_or_free ctx (Some th) message;
      ctx ← set_th ctx i th;
      Ret (hashed_status th, ctx)
  end.

Definition uses_mut_auth (si : libspdm_session_info_t) : bool :=
  negb (si_use_psk si) && negb (mut_auth_requested si =? 0).

(** The first call for message F: the context of message K is kept for a reset,
    and the digests and the certificate chain of the requester are appended. *)
Definition open_message_f ctx (i : nat) (is_requester : bool) :
    exec (libspdm_return_t * libspdm_context_t) :=
  si ← slot ctx i;
  '(status, ctx) ← (match digest_context_th (session_transcript si) with
                    | None => libspdm_append_message_k ctx i is_requester []
                    | Some _ => Ret (LIBSPDM_STATUS_SUCCESS, ctx)
                    end);
  RETURN (status, ctx) IF LIBSPDM_STATUS_IS_ERROR status;;
  cert ← (if uses_mut_auth si then
            if is_requester then local_cert_chain_hash ctx (local_used_cert_chain_slot_id si)
            else peer_cert_chain_hash ctx (peer_used_cert_chain_slot_id si)
          else Ret (inl []));
  match cert with
  | inr status => Ret (status, ctx)
  | inl mut_cert_chain_buffer_hash =>
      si ← slot ctx i;
      let th := digest_context_th (session_transcript si) in
      LIBSPDM_ASSERT (bool_decide (is_Some th));;
      new ← libspdm_hash_new (hash_algo ctx);
      match new with
      | None =>
          ctx ← set_transcript ctx i (λ t, t <| digest_context_th_backup := None |>);
          Ret (LIBSPDM_STATUS_CRYPTO_ERROR, ctx)
      | Some backup =>
          '(result, backup) ← libspdm_hash_duplicate (hash_algo ctx) th backup;
          if negb result then
            libspdm_hash_free (hash_algo ctx) (Some backup);;
            ctx ← set_transcript ctx i (λ t, t <| digest_context_th_backup := None |>);
            Ret (LIBSPDM_STATUS_CRYPTO_ERROR, ctx)
          else
            ctx ← set_transcript ctx i (λ t, t <| digest_context_th_backup := Some backup |>);
            certs ← (if uses_mut_auth si
                     then with_digests (multi_key_conn_req (exchange ctx))
                            (message_encap_d (session_transcript si)) mut_cert_chain_buffer_hash
                     else Ret []);
            th ← (match th with None => Ret None | Some th => update_all ctx th certs end);
            ctx ← set_th ctx i th;
            Ret (hashed_status th, ctx)
      end
  end.

Definition libspdm_append_message_f ctx (i : nat) (is_requester : bool) (message : list Z) :
    exec (libspdm_return_t * libspdm_context_t) :=
  si ← slot ctx i;
  '(status, ctx) ← (if message_f_initialized (session_transcript si)
                    then Ret (LIBSPDM_STATUS_SUCCESS, ctx)
                    else open_message_f ctx i is_requester);
  RETURN (status, ctx) IF LIBSPDM_STATUS_IS_ERROR status;;
  si ← slot ctx i;
  let th := digest_context_th (session_transcript si) in
  LIBSPDM_ASSERT (bool_decide (is_Some th));;
  th ← update_or_free ctx th message;
  ctx ← set_th ctx i th;
  RETURN (LIBSPDM_STATUS_CRYPTO_ERROR, ctx) IF bool_decide (th = None);;
  ctx ← set_transcript ctx i (λ t, t <| message_f_initialized := true |>);
  Ret (LIBSPDM_STATUS_SUCCESS, ctx).

(** *** Hashes and HMACs of the transcript *)

(** The digest of the transcript, taken of a copy of its context; [None] is a
    failure. *)
Definition th_digest ctx (i : nat) : exec (option (list Z)) :=
  let a := hash_algo ctx in
  si ← slot ctx i;
  new ← libspdm_hash_new a;
  match new with
  | None => Ret None
  | Some copy =>
      '(result, copy) ←
        libspdm_hash_duplicate a (digest_context_th (session_transcript si)) copy;
      if negb result then libspdm_hash_free a (Some copy);; Ret None
      else
        '(result, hash) ← libspdm_hash_final a copy;
        libspdm_hash_free a (Some copy);;
        Ret (if (result : bool) then Some hash else None)
  end.

(** The buffer has *size bytes; its new content, of the hash size. *)
Definition libspdm_calculate_th_hash_for_exchange ctx (i : nat) (size : Z) :
    exec (option (list Z)) :=
  LIBSPDM_ASSERT (digest_size ctx <=? size);;
  th_digest ctx i.

Definition libspdm_calculate_th_hash_for_finish ctx (i : nat) (size : Z) :
    exec (option (list Z)) :=
  LIBSPDM_ASSERT (digest_size ctx <=? size);;
  th_digest ctx i.

(** The HMAC of the digest with a finished key of the session. *)
Definition th_hmac ctx (i : nat)
    (hmac : libspdm_secured_message_context_t → list Z → exec (bool * list Z)) :
    exec (option (list Z)) :=
  hash ← th_digest ctx i;
  match hash with
  | None => Ret None
  | Some hash_data =>
      si ← slot ctx i;
      data ← load hash_data 0 (digest_size ctx);
      '(result, value) ← hmac (secured_message_context si) data;
      Ret (if (result : bool) then Some value else None)
  end.

Definition libspdm_calculate_th_hmac_for_exchange_rsp ctx (i : nat) (size : Z) :
    exec (option (list Z)) :=
  LIBSPDM_ASSERT (digest_size ctx <=? size);;
  th_hmac ctx i libspdm_hmac_all_with_response_finished_key.

Definition has_th ctx (i : nat) : exec bool :=
  si ← slot ctx i;
  Ret (bool_decide (is_Some (digest_context_th (session_transcript si)))).

Definition libspdm_calculate_th_hmac_for_finish_rsp ctx (i : nat) (size : Z) :
    exec (option (list Z)) :=
  LIBSPDM_ASSERT (digest_size ctx <=? size);;
  th ← has_th ctx i;
  LIBSPDM_ASSERT th;;
  th_hmac ctx i libspdm_hmac_all_with_response_finished_key.

Definition libspdm_calculate_th_hmac_for_finish_req ctx (i : nat) (size : Z) :
    exec (option (list Z)) :=
  LIBSPDM_ASSERT (digest_size ctx <=? size);;
  th ← has_th ctx i;
  LIBSPDM_ASSERT th;;
  th_hmac ctx i libspdm_hmac_all_with_request_finished_key.

Definition libspdm_calculate_th1_hash ctx (i : nat) : exec (option (list Z)) :=
  libspdm_calculate_th_hash_for_exchange ctx i (digest_size ctx).

Definition libspdm_calculate_th2_hash ctx (i : nat) : exec (option (list Z)) :=
  libspdm_calculate_th_hash_for_finish ctx i (digest_size ctx).

End transcript_.
End Transcript.
Export Transcript.
