(* ===== verification/PskSession.v ===== *)
(** * PskSession: opening a session with a pre-shared key

    PSK_EXCHANGE and PSK_FINISH of the requester (libspdm_req_psk_exchange.c,
    libspdm_req_psk_finish.c) over the services of [RequesterChannel], and of the
    responder (libspdm_rsp_psk_exchange_rsp.c, libspdm_rsp_psk_finish_rsp.c), with
    the allocation of session ids (libspdm_req_common.c, libspdm_rsp_common.c).
    The transcript of a session is that of Transcript, its keys are those of
    SecuredSession, and the opaque data of the messages that of OpaqueData. *)

From S2P Require Import Prelude SpdmDefs CommonSupport CryptLib SecuredContext SecuredSession.
From S2P Require Import SpdmContext SessionTable OpaqueData Messages KeyUpdate Connection.
From S2P Require Import Handlers Responder Transcript.

Definition SPDM_REQUEST_NO_MEASUREMENT_SUMMARY_HASH : Z := 0.
Definition SPDM_REQUEST_TCB_COMPONENT_MEASUREMENT_HASH : Z := 1.
Definition SPDM_REQUEST_ALL_MEASUREMENTS_HASH : Z := 0xFF.

Definition LIBSPDM_PSK_CONTEXT_LENGTH : Z := LIBSPDM_MAX_HASH_SIZE.

(** Sizes of the packed structures of spdm.h. *)
Definition sizeof_spdm_psk_exchange_request : Z := 12.
Definition sizeof_spdm_psk_exchange_response : Z := 12.
Definition sizeof_spdm_psk_finish_request : Z := 4.
Definition sizeof_spdm_psk_finish_response : Z := 4.

(** The functions of the integrator (include/hal/library/responder) that the
    responder calls.  A function that fills a buffer is given the size it may
    write ([opaque_data] is false when the buffer is NULL), and returns whether it
    succeeds, the new size, and the bytes it wrote. *)
Class SessionServices : Type := {
  libspdm_psk_exchange_rsp_opaque_data (ctx : libspdm_context_t) (psk_hint : option (list Z))
    (spdm_version measurement_hash_type : Z) (req_opaque_data : list Z)
    (opaque_data : bool) (opaque_data_size : Z) : bool * Z * list Z;
  libspdm_psk_finish_rsp_opaque_data (ctx : libspdm_context_t) (session_id spdm_version : Z)
    (req_opaque_data : list Z) (opaque_data_size : Z) : bool * Z * list Z;
  libspdm_generate_measurement_summary_hash (ctx : libspdm_context_t)
    (measurement_summary_hash_type measurement_summary_hash_size : Z) : bool * list Z;
  libspdm_start_watchdog (session_id timeout : Z) : bool;
}.

Module PskSession.

(** ** What both endpoints share *)
Section common.
Context `{BuildConfig, CryptoHal, HashHal}.
Implicit Types ctx : libspdm_context_t.

(** The slots are searched for one that has no id of this endpoint, which is
    what [free] tells of a session id. *)
Fixpoint free_session_index (free : Z → bool) (slots : list libspdm_session_info_t) (i : nat) :
    option nat :=
  match slots with
  | [] => None
  | si :: slots => if free (session_id si) then Some i else free_session_index free slots (S i)
  end.

(** The limit on the sessions of a kind is reached. *)
Definition session_limit_reached ctx (use_psk_ : bool) : bool :=
  if use_psk_ then
    negb (max_psk_session_count ctx =? 0)
    && (max_psk_session_count ctx <=? current_psk_session_count ctx)
  else
    negb (max_dhe_session_count ctx =? 0)
    && (max_dhe_session_count ctx <=? current_dhe_session_count ctx).

Definition libspdm_allocate_req_session_id ctx (use_psk_ : bool) : Z :=
  if session_limit_reached ctx use_psk_ then Z.land INVALID_SESSION_ID 0xFFFF
  else match free_session_index
               (λ sid, Z.land sid 0xFFFF =? Z.land INVALID_SESSION_ID 0xFFFF)
               (session_info ctx) 0 with
       | Some index => u16 (0xFFFF - Z.of_nat index)
       | None => Z.land INVALID_SESSION_ID 0xFFFF
       end.

Definition libspdm_allocate_rsp_session_id ctx (use_psk_ : bool) : Z :=
  if session_limit_reached ctx use_psk_ then Z.shiftr (Z.land INVALID_SESSION_ID 0xFFFF0000) 16
  else match free_session_index
               (λ sid, Z.land sid 0xFFFF0000 =? Z.land INVALID_SESSION_ID 0xFFFF0000)
               (session_info ctx) 0 with
       | Some index => u16 (0xFFFF - Z.of_nat index)
       | None => Z.shiftr (Z.land INVALID_SESSION_ID 0xFFFF0000) 16
       end.

Definition libspdm_get_measurement_summary_hash_size ctx (is_requester : bool)
    (measurement_summary_hash_type : Z) : Z :=
  if negb (libspdm_is_capabilities_flag_supported ctx is_requester 0
             SPDM_GET_CAPABILITIES_RESPONSE_FLAGS_MEAS_CAP) then 0
  else if (measurement_summary_hash_type =? SPDM_REQUEST_TCB_COMPONENT_MEASUREMENT_HASH)
          || (measurement_summary_hash_type =? SPDM_REQUEST_ALL_MEASUREMENTS_HASH)
  then libspdm_get_hash_size (hash_algo ctx) else 0.

(** The session of slot [i] after a function on its secured message context. *)
Definition with_session_keys ctx (i : nat)
    (f : libspdm_secured_message_context_t → exec (bool * libspdm_secured_message_context_t)) :
    exec (bool * libspdm_context_t) :=
  si ← slot ctx i;
  '(result, c) ← f (secured_message_context si);
  Ret (result, set_slot ctx i (si <| secured_message_context := c |>)).

(** TH1 and the handshake keys, TH2 and the data keys. *)
Definition handshake_keys ctx (i : nat) : exec (bool * libspdm_context_t) :=
  th1 ← libspdm_calculate_th1_hash ctx i;
  match th1 with
  | None => Ret (false, ctx)
  | Some th1_hash_data =>
      with_session_keys ctx i (λ c, libspdm_generate_session_handshake_key c th1_hash_data)
  end.

Definition data_keys ctx (i : nat) : exec (bool * libspdm_context_t) :=
  th2 ← libspdm_calculate_th2_hash ctx i;
  match th2 with
  | None => Ret (false, ctx)
  | Some th2_hash_data =>
      with_session_keys ctx i (λ c, libspdm_generate_session_data_key c th2_hash_data)
  end.

(** A new session: its PSK hint and its AEAD limit. *)
Definition setup_psk_session ctx (i : nat) (psk_hint : option (list Z))
    (psk_hint_size secured_message_version peer_aead_limit_exponent : Z) :
    exec libspdm_context_t :=
  si ← slot ctx i;
  si ← libspdm_session_info_set_psk_hint si psk_hint psk_hint_size;
  let si :=
    if SECURED_SPDM_VERSION_13 <=? libspdm_get_version_from_version_number secured_message_version
    then libspdm_apply_aead_limit_to_session ctx si peer_aead_limit_exponent else si in
  Ret (set_slot ctx i si).

(** libspdm_consttime_is_mem_equal: every byte of both is read. *)
Definition mem_equal (a b : list Z) (n : Z) : exec bool :=
  a ← load a 0 n; b ← load b 0 n; Ret (bool_decide (a = b)).

(** The double check of the negotiated algorithms; [is_requester] is what the
    caller passes to the capability check. *)
Definition psk_algorithms_ok ctx (is_requester : bool) : bool :=
  let a := ci_algorithm ctx in
  (negb (libspdm_is_capabilities_flag_supported ctx is_requester 0
           SPDM_GET_CAPABILITIES_RESPONSE_FLAGS_MEAS_CAP)
   || ((da_measurement_spec a =? SPDM_MEASUREMENT_SPECIFICATION_DMTF)
       && negb (libspdm_get_measurement_hash_size (da_measurement_hash_algo a) =? 0)))
  && negb (libspdm_get_hash_size (da_base_hash_algo a) =? 0)
  && (da_key_schedule a =? SPDM_ALGORITHMS_KEY_SCHEDULE_SPDM).

Definition opaque_format ctx : Z :=
  Z.land (da_other_params_support (ci_algorithm ctx)) SPDM_ALGORITHMS_OPAQUE_DATA_FORMAT_MASK.

(** From version 1.2 on the opaque data must be of format 1. *)
Definition opaque_format_ok ctx : bool :=
  (libspdm_get_connection_version ctx <? SPDM_MESSAGE_VERSION_12)
  || (opaque_format ctx =? SPDM_ALGORITHMS_OPAQUE_DATA_FORMAT_1).

End common.

(** ** The responder *)
Section responder.
Context `{BuildConfig, CryptoHal, HashHal, SessionServices}.
Implicit Types ctx : libspdm_context_t.

(** *** PSK_EXCHANGE *)

Record psk_exchange_request : Type := Build_psk_exchange_request {
  pq_header : spdm_message_header_t;
  pq_req_session_id : Z;
  pq_context_length : Z;
  pq_psk_hint : list Z;
  pq_opaque_data : list Z;
}.

(** The request once its size is checked; [None] when it is too short. *)
Definition read_psk_exchange_request (request_size : Z) (request : list Z) :
    exec (option psk_exchange_request) :=
  RETURN None IF request_size <? sizeof_spdm_psk_exchange_request;;
  h ← read_header request;
  req_session_id ← load_le 2 request 4;
  psk_hint_length ← load_le 2 request 6;
  context_length ← load_le 2 request 8;
  opaque_length ← load_le 2 request 10;
  RETURN None IF request_size <? sizeof_spdm_psk_exchange_request + psk_hint_length
                                 + context_length + opaque_length;;
  psk_hint ← load request sizeof_spdm_psk_exchange_request psk_hint_length;
  opaque_data ← load request
    (sizeof_spdm_psk_exchange_request + psk_hint_length + context_length) opaque_length;
  Ret (Some (Build_psk_exchange_request h req_session_id context_length psk_hint opaque_data)).

Definition psk_exchange_request_size (q : psk_exchange_request) : Z :=
  sizeof_spdm_psk_exchange_request + blen (pq_psk_hint q) + pq_context_length q
  + blen (pq_opaque_data q).

(** psk_hint is NULL when it is empty. *)
Definition psk_hint_pointer (q : psk_exchange_request) : option (list Z) :=
  if blen (pq_psk_hint q) =? 0 then None else Some (pq_psk_hint q).

Definition call_opaque_data ctx (q : psk_exchange_request) : bool → Z → bool * Z * list Z :=
  libspdm_psk_exchange_rsp_opaque_data ctx (psk_hint_pointer q) (spdm_version (pq_header q))
    (param1 (pq_header q)) (pq_opaque_data q).

(** What the opaque data of the request decides: who writes the one of the
    response, its size, the version of the session and the limit of the peer. *)
Record psk_opaque : Type := Build_psk_opaque {
  op_default : bool;                      (* use_default_opaque_data *)
  op_rsp_size : Z;                        (* opaque_psk_exchange_rsp_size *)
  op_version : Z;                         (* secured_message_version *)
  op_limit : Z;                           (* peer_aead_limit_exponent *)
}.

(** The library's own opaque data: the request is checked. *)
Definition default_psk_opaque ctx (q : psk_exchange_request) : exec (option (Z * Z)) :=
  let data := pq_opaque_data q in
  let rsp_size := libspdm_get_opaque_data_version_selection_data_size ctx in
  result ← libspdm_process_general_opaque_data_check ctx (blen data) data;
  RETURN None IF negb result;;
  '(status, v) ← libspdm_process_opaque_data_supported_version_data ctx (blen data) data;
  RETURN None IF LIBSPDM_STATUS_IS_ERROR status;;
  let version := default 0 v in
  Ret (Some (rsp_size + libspdm_get_opaque_data_aead_limit_element_size ctx version, version)).

(** The integrator's: it is written to the response buffer for a while. *)
Definition custom_psk_opaque ctx (q : psk_exchange_request) (size : Z) (response : list Z) :
    exec (option (Z * Z) * list Z) :=
  let '(result, size, written) := call_opaque_data ctx q true size in
  response ← store response 0 written;
  RETURN (None, response) IF negb result;;
  data ← load response 0 size;
  '(status, v) ← libspdm_process_opaque_data_version_selection_data ctx size data;
  RETURN (None, response) IF LIBSPDM_STATUS_IS_ERROR status;;
  Ret (Some (size, default 0 v), response).

(** Or the error code of the response; the response buffer comes with both. *)
Definition choose_psk_opaque ctx (q : psk_exchange_request) (room : Z) (response : list Z) :
    exec ((psk_opaque + Z) * list Z) :=
  let data := pq_opaque_data q in
  RETURN (inl (Build_psk_opaque false 0 0 SECURED_MESSAGE_AEAD_LIMIT_EXPONENT_DEFAULT), response)
    IF blen data =? 0;;
  let '(custom, size, _) := call_opaque_data ctx q false (size_t room) in
  '(chosen, response) ←
    (if (custom : bool) then custom_psk_opaque ctx q size response
     else chosen ← default_psk_opaque ctx q; Ret (chosen, response));
  match chosen with
  | None => Ret (inr (if custom then SPDM_ERROR_CODE_UNSPECIFIED
                      else SPDM_ERROR_CODE_INVALID_REQUEST), response)
  | Some (rsp_size, version) =>
      '(status, limit) ← libspdm_process_opaque_data_aead_limit ctx version (blen data) data;
      RETURN (inr SPDM_ERROR_CODE_INVALID_REQUEST, response) IF LIBSPDM_STATUS_IS_ERROR status;;
      Ret (inl (Build_psk_opaque (negb custom) rsp_size version limit), response)
  end.

Definition with_context ctx : bool :=
  libspdm_is_capabilities_flag_supported ctx false 0
    SPDM_GET_CAPABILITIES_RESPONSE_FLAGS_PSK_CAP_RESPONDER_WITH_CONTEXT.

Definition psk_context_length ctx : Z := if with_context ctx then LIBSPDM_PSK_CONTEXT_LENGTH else 0.

Definition heartbeat_supported ctx (is_requester : bool) : bool :=
  libspdm_is_capabilities_flag_supported ctx is_requester
    SPDM_GET_CAPABILITIES_REQUEST_FLAGS_HBEAT_CAP SPDM_GET_CAPABILITIES_RESPONSE_FLAGS_HBEAT_CAP.

(** The watchdog of a session that enters the application phase. *)
Definition start_watchdog ctx (session_id : Z) : bool * libspdm_context_t :=
  let period := lc_heartbeat_period (exchange ctx) in
  if negb (period =? 0) && heartbeat_supported ctx false
  then (libspdm_start_watchdog session_id (u16 (period * 2)),
        notify ctx true (WatchdogStart session_id (u16 (period * 2))))
  else (true, ctx).

(** The fields of the response up to its HMAC: the size of the message without
    it, unless a field could not be made. *)
Definition fill_psk_exchange_response ctx (q : psk_exchange_request) (o : psk_opaque)
    (summary_size rsp_session_id : Z) (response : list Z) (rng : rng_state) :
    exec (option Z * list Z * rng_state) :=
  let v := spdm_version (pq_header q) in
  let type := param1 (pq_header q) in
  let context_length := psk_context_length ctx in
  let period := if heartbeat_supported ctx false then lc_heartbeat_period (exchange ctx) else 0 in
  m ← store response 0 [v; SPDM_PSK_EXCHANGE_RSP; period; 0];
  m ← store m 4 (le_bytes 2 rsp_session_id ++ le_bytes 2 0);
  m ← store m 8 (le_bytes 2 context_length ++ le_bytes 2 (op_rsp_size o));
  let ptr := sizeof_spdm_psk_exchange_response in
  let '(result, summary) :=
    if libspdm_is_capabilities_flag_supported ctx false 0
         SPDM_GET_CAPABILITIES_RESPONSE_FLAGS_MEAS_CAP
       && ((type =? SPDM_REQUEST_TCB_COMPONENT_MEASUREMENT_HASH)
           || (type =? SPDM_REQUEST_ALL_MEASUREMENTS_HASH))
    then libspdm_generate_measurement_summary_hash ctx type summary_size else (true, []) in
  m ← store m ptr summary;
  RETURN (None, m, rng) IF negb result;;
  let ptr := ptr + summary_size in
  let '(result, rsp_context, rng) :=
    if context_length =? 0 then (true, [], rng) else libspdm_get_random_number context_length rng in
  m ← store m ptr rsp_context;
  RETURN (None, m, rng) IF negb result;;
  let ptr := ptr + context_length in
  RETURN (Some ptr, m, rng) IF op_rsp_size o =? 0;;
  if op_default o then
    region ← load m ptr (op_rsp_size o);
    '(region, _) ← libspdm_build_opaque_data_version_selection_data ctx (op_version o)
                     (libspdm_get_opaque_data_version_selection_data_size ctx) region;
    '(region, size) ← libspdm_build_opaque_data_aead_limit_element ctx (op_version o)
                        (op_rsp_size o) region;
    m ← store m ptr region;
    Ret (Some (ptr + size), m, rng)
  else
    let '(result, size, written) := call_opaque_data ctx q true (op_rsp_size o) in
    m ← store m ptr written;
    RETURN (None, m, rng) IF negb result;;
    Ret (Some (ptr + size), m, rng).

(** Message K and the handshake keys, then the HMAC of the response, which ends it. *)
Definition responder_handshake ctx (i : nat) (request response : list Z) (size : Z) :
    exec (bool * libspdm_context_t * list Z) :=
  '(status, ctx) ← libspdm_append_message_k ctx i false request;
  RETURN (false, ctx, response) IF LIBSPDM_STATUS_IS_ERROR status;;
  message ← load response 0 size;
  '(status, ctx) ← libspdm_append_message_k ctx i false message;
  RETURN (false, ctx, response) IF LIBSPDM_STATUS_IS_ERROR status;;
  '(result, ctx) ← handshake_keys ctx i;
  RETURN (false, ctx, response) IF negb result;;
  hmac ← libspdm_calculate_th_hmac_for_exchange_rsp ctx i (digest_size ctx);
  match hmac with
  | None => Ret (false, ctx, response)
  | Some hmac =>
      hmac ← load hmac 0 (digest_size ctx);
      response ← store response size hmac;
      '(status, ctx) ← libspdm_append_message_k ctx i false hmac;
      Ret (negb (LIBSPDM_STATUS_IS_ERROR status), ctx, response)
  end.

(** Without a context of the responder the session enters the application phase
    at once. *)
Definition responder_application ctx (i : nat) (session_id : Z) : exec (bool * libspdm_context_t) :=
  '(result, ctx) ← data_keys ctx i;
  RETURN (false, ctx) IF negb result;;
  let '(result, ctx) := start_watchdog ctx session_id in
  RETURN (false, ctx) IF negb result;;
  ctx ← libspdm_set_session_state ctx session_id LIBSPDM_SESSION_STATE_ESTABLISHED;
  Ret (true, ctx).

(** From the assigned session on: every failure frees it. *)
Definition open_psk_session ctx (i : nat) (q : psk_exchange_request) (o : psk_opaque)
    (session_id rsp_session_id summary_size : Z) (request response : list Z) (rng : rng_state) :
    exec (bool * libspdm_context_t * list Z * rng_state) :=
  ctx ← setup_psk_session ctx i (psk_hint_pointer q) (blen (pq_psk_hint q)) (op_version o)
          (op_limit o);
  let ctx := libspdm_reset_message_buffer_via_request_code ctx None
               (request_response_code (pq_header q)) in
  '(filled, response, rng) ←
    fill_psk_exchange_response ctx q o summary_size rsp_session_id response rng;
  match filled with
  | None => Ret (false, ctx, response, rng)
  | Some size =>
      '(result, ctx, response) ← responder_handshake ctx i request response size;
      RETURN (false, ctx, response, rng) IF negb result;;
      si ← slot ctx i;
      let ctx := set_slot ctx i
        (if SPDM_MESSAGE_VERSION_12 <=? spdm_version (pq_header q)
         then si <| session_policy := param2 (pq_header q) |> else si) in
      ctx ← libspdm_set_session_state ctx session_id LIBSPDM_SESSION_STATE_HANDSHAKING;
      '(result, ctx) ← (if with_context ctx then Ret (true, ctx)
                        else responder_application ctx i session_id);
      RETURN (false, ctx, response, rng) IF negb result;;
      si ← slot ctx i;
      let period := if heartbeat_supported ctx false
                    then lc_heartbeat_period (exchange ctx) else 0 in
      Ret (true, set_slot ctx i (si <| heartbeat_period := period |>), response, rng)
  end.

(** The checks of the request that need no more than its header: the error code
    and data of the response. *)
Definition psk_exchange_refused ctx (h : spdm_message_header_t) : option (Z * Z) :=
  let a := ci_algorithm ctx in
  let type := param1 h in
  if negb (libspdm_is_capabilities_flag_supported ctx false
             SPDM_GET_CAPABILITIES_REQUEST_FLAGS_PSK_CAP
             SPDM_GET_CAPABILITIES_RESPONSE_FLAGS_PSK_CAP)
  then Some (SPDM_ERROR_CODE_UNSUPPORTED_REQUEST, SPDM_PSK_EXCHANGE)
  else if negb (libspdm_is_capabilities_flag_supported ctx false
                  SPDM_GET_CAPABILITIES_REQUEST_FLAGS_MAC_CAP
                  SPDM_GET_CAPABILITIES_RESPONSE_FLAGS_MAC_CAP)
  then Some (SPDM_ERROR_CODE_INVALID_REQUEST, SPDM_KEY_EXCHANGE)
  else if connection_state_below ctx LIBSPDM_CONNECTION_STATE_NEGOTIATED
  then Some (SPDM_ERROR_CODE_UNEXPECTED_REQUEST, 0)
  else if negb (opaque_format_ok ctx) then Some (SPDM_ERROR_CODE_INVALID_REQUEST, 0)
  else if last_spdm_request_session_id_valid ctx
  then Some (SPDM_ERROR_CODE_UNEXPECTED_REQUEST, 0)
  else if negb (psk_algorithms_ok ctx true) then Some (SPDM_ERROR_CODE_INVALID_REQUEST, 0)
  else if (0 <? type)
          && (negb (libspdm_is_capabilities_flag_supported ctx false 0
                      SPDM_GET_CAPABILITIES_RESPONSE_FLAGS_MEAS_CAP)
              || (da_measurement_spec a =? 0) || (da_measurement_hash_algo a =? 0))
  then Some (SPDM_ERROR_CODE_INVALID_REQUEST, 0)
  else if (libspdm_get_measurement_summary_hash_size ctx false type =? 0)
          && negb (type =? SPDM_REQUEST_NO_MEASUREMENT_SUMMARY_HASH)
  then Some (SPDM_ERROR_CODE_INVALID_REQUEST, 0)
  else None.

(** The handler, which also takes random numbers. *)
Definition libspdm_get_response_psk_exchange ctx (request_size : Z) (request : list Z)
    (response_size : Z) (response : list Z) (rng : rng_state) : exec (reply * rng_state) :=
  let error response code data :=
    r ← libspdm_generate_error_response ctx code data response_size response; Ret (r, rng) in
  spdm_request ← read_header request;
  LIBSPDM_ASSERT (request_response_code spdm_request =? SPDM_PSK_EXCHANGE);;
  let v := libspdm_get_connection_version ctx in
  TAIL error response SPDM_ERROR_CODE_UNSUPPORTED_REQUEST SPDM_PSK_EXCHANGE
    IF v <? SPDM_MESSAGE_VERSION_11;;
  TAIL error response SPDM_ERROR_CODE_VERSION_MISMATCH 0
    IF negb (spdm_version spdm_request =? v);;
  TAIL (r ← libspdm_responder_handle_response_state ctx (request_response_code spdm_request)
              response_size response; Ret (r, rng))
    IF bool_decide (response_state (exchange ctx) ≠ LIBSPDM_RESPONSE_STATE_NORMAL);;
  match psk_exchange_refused ctx spdm_request with
  | Some (code, data) => error response code data
  | None =>
  q ← read_psk_exchange_request request_size request;
  match q with
  | None => error response SPDM_ERROR_CODE_INVALID_REQUEST 0
  | Some q =>
  TAIL error response SPDM_ERROR_CODE_INVALID_REQUEST 0
    IF LIBSPDM_PSK_MAX_HINT_LENGTH <? blen (pq_psk_hint q);;
  let summary_size :=
    libspdm_get_measurement_summary_hash_size ctx false (param1 spdm_request) in
  let fixed_size := sizeof_spdm_psk_exchange_response + summary_size + psk_context_length ctx
                    + digest_size ctx in
  '(o, response) ← choose_psk_opaque ctx q (response_size - fixed_size) response;
  match o with
  | inr code => error response code 0
  | inl o =>
  let total_size := fixed_size + op_rsp_size o in
  LIBSPDM_ASSERT (total_size <=? response_size);;
  response ← store response 0 (zeros total_size);
  let error ctx code :=
    r ← libspdm_generate_error_response ctx code 0 total_size response; Ret (r, rng) in
  let rsp_session_id := libspdm_allocate_rsp_session_id ctx true in
  TAIL error ctx SPDM_ERROR_CODE_SESSION_LIMIT_EXCEEDED
    IF rsp_session_id =? Z.shiftr (Z.land INVALID_SESSION_ID 0xFFFF0000) 16;;
  let session_id := libspdm_generate_session_id (pq_req_session_id q) rsp_session_id in
  '(ctx, slot_index) ← libspdm_assign_session_id ctx session_id (op_version o) true;
  match slot_index with
  | None => error ctx SPDM_ERROR_CODE_SESSION_LIMIT_EXCEEDED
  | Some i =>
  request ← load request 0 (psk_exchange_request_size q);
  '(result, ctx, response, rng) ← open_psk_session ctx i q o session_id rsp_session_id
                                    summary_size request response rng;
  if (result : bool) then Ret (Reply LIBSPDM_STATUS_SUCCESS ctx total_size response, rng)
  else
    ctx ← libspdm_free_session_id ctx session_id;
    r ← libspdm_generate_error_response ctx SPDM_ERROR_CODE_UNSPECIFIED 0 total_size response;
    Ret (r, rng)
  end end end end.

(** *** PSK_FINISH *)

(** The opaque data of the request and the offset of the HMAC; [None]: the sizes
    of the request do not fit. *)
Definition read_psk_finish_request ctx (request_size : Z) (request : list Z) :
    exec (option (list Z * Z)) :=
  let base := sizeof_spdm_psk_finish_request in
  '(ok, opaque, ptr) ←
    (if SPDM_MESSAGE_VERSION_14 <=? libspdm_get_connection_version ctx then
       RETURN (false, [], 0) IF request_size <? base + 2;;
       field ← load request base 2;
       req_opaque_data_size ← ReadWrite.libspdm_read_uint16 field;
       RETURN (false, [], 0) IF SPDM_MAX_OPAQUE_DATA_SIZE <? req_opaque_data_size;;
       RETURN (false, [], 0) IF request_size <? base + 2 + req_opaque_data_size;;
       opaque ← load request (base + 2) req_opaque_data_size;
       Ret (true, opaque, base + 2 + req_opaque_data_size)
     else Ret (true, [], base));
  RETURN None IF negb ok || negb (request_size =? ptr + digest_size ctx);;
  Ret (Some (opaque, ptr)).

Definition libspdm_verify_psk_finish_req_hmac ctx (i : nat) (hmac : list Z) : exec bool :=
  LIBSPDM_ASSERT (blen hmac =? digest_size ctx);;
  hmac_data ← libspdm_calculate_th_hmac_for_finish_req ctx i (digest_size ctx);
  match hmac_data with
  | None => Ret false
  | Some hmac_data => mem_equal hmac hmac_data (digest_size ctx)
  end.

(** The response without its header; from version 1.4 on with the opaque data of
    the integrator.  That function returns a bool, which the caller takes for a
    status: neither 0 nor 1 is an error, so that its failure is not seen.  The
    results are the size of the message; [None]: the opaque data is too long. *)
Definition fill_psk_finish_response ctx (session_id v : Z) (req_opaque_data : list Z)
    (response_size : Z) (response : list Z) : exec (option Z * list Z) :=
  let base := sizeof_spdm_psk_finish_response in
  m ← store response 0 [v; SPDM_PSK_FINISH_RSP; 0; 0];
  if SPDM_MESSAGE_VERSION_14 <=? libspdm_get_connection_version ctx then
    let '(size, written) :=
      if opaque_format ctx =? SPDM_ALGORITHMS_OPAQUE_DATA_FORMAT_NONE then (0, [])
      else let '(_, size, written) :=
             libspdm_psk_finish_rsp_opaque_data ctx session_id v req_opaque_data
               (response_size - base - 2) in (size, written) in
    m ← store m (base + 2) written;
    RETURN (None, m) IF SPDM_MAX_OPAQUE_DATA_SIZE <? size;;
    m ← store m base (le_bytes 2 size);
    Ret (Some (base + 2 + size), m)
  else Ret (Some base, m).

(** Message F, the response and the data keys, once the HMAC is verified: the
    size of the response, unless something fails. *)
Definition finish_psk_session ctx (i : nat) (session_id v : Z) (hmac req_opaque_data : list Z)
    (response_size : Z) (response : list Z) : exec (option Z * libspdm_context_t * list Z) :=
  '(status, ctx) ← libspdm_append_message_f ctx i false hmac;
  RETURN (None, ctx, response) IF LIBSPDM_STATUS_IS_ERROR status;;
  let has_opaque := SPDM_MESSAGE_VERSION_14 <=? libspdm_get_connection_version ctx in
  LIBSPDM_ASSERT (sizeof_spdm_psk_finish_response + (if has_opaque then 2 else 0)
                  <=? response_size);;
  response ← store response 0 (zeros response_size);
  '(size, response) ←
    fill_psk_finish_response ctx session_id v req_opaque_data response_size response;
  match size with
  | None => Ret (None, ctx, response)
  | Some size =>
      message ← load response 0 size;
      '(status, ctx) ← libspdm_append_message_f ctx i false message;
      RETURN (None, ctx, response) IF LIBSPDM_STATUS_IS_ERROR status;;
      '(result, ctx) ← data_keys ctx i;
      RETURN (None, ctx, response) IF negb result;;
      let '(result, ctx) := start_watchdog ctx session_id in
      RETURN (None, ctx, response) IF negb result;;
      Ret (Some size, ctx, response)
  end.

Definition libspdm_get_response_psk_finish : handler := λ ctx request_size request response_size response,
  let error ctx code data := libspdm_generate_error_response ctx code data response_size response in
  spdm_request ← read_header request;
  LIBSPDM_ASSERT (request_response_code spdm_request =? SPDM_PSK_FINISH);;
  let v := libspdm_get_connection_version ctx in
  TAIL error ctx SPDM_ERROR_CODE_UNSUPPORTED_REQUEST SPDM_PSK_FINISH IF v <? SPDM_MESSAGE_VERSION_11;;
  TAIL error ctx SPDM_ERROR_CODE_VERSION_MISMATCH 0 IF negb (spdm_version spdm_request =? v);;
  TAIL libspdm_responder_handle_response_state ctx (request_response_code spdm_request)
         response_size response
    IF bool_decide (response_state (exchange ctx) ≠ LIBSPDM_RESPONSE_STATE_NORMAL);;
  TAIL error ctx SPDM_ERROR_CODE_UNSUPPORTED_REQUEST SPDM_PSK_FINISH
    IF negb (libspdm_is_capabilities_flag_supported ctx false
               SPDM_GET_CAPABILITIES_REQUEST_FLAGS_PSK_CAP
               SPDM_GET_CAPABILITIES_RESPONSE_FLAGS_PSK_CAP_RESPONDER_WITH_CONTEXT);;
  TAIL error ctx SPDM_ERROR_CODE_UNEXPECTED_REQUEST 0
    IF connection_state_below ctx LIBSPDM_CONNECTION_STATE_NEGOTIATED;;
  let no_session :=
    error ctx (if SPDM_MESSAGE_VERSION_12 <=? v then SPDM_ERROR_CODE_SESSION_REQUIRED
               else SPDM_ERROR_CODE_UNSPECIFIED) 0 in
  TAIL no_session IF negb (last_spdm_request_session_id_valid ctx);;
  let session_id := last_spdm_request_session_id ctx in
  match libspdm_get_session_info_via_session_id ctx session_id with
  | None => no_session
  | Some i =>
      si ← slot ctx i;
      TAIL error ctx SPDM_ERROR_CODE_UNEXPECTED_REQUEST 0 IF negb (si_use_psk si);;
      TAIL error ctx SPDM_ERROR_CODE_UNEXPECTED_REQUEST 0
        IF bool_decide (session_state (secured_message_context si)
                        ≠ LIBSPDM_SESSION_STATE_HANDSHAKING);;
      q ← read_psk_finish_request ctx request_size request;
      match q with
      | None => error ctx SPDM_ERROR_CODE_INVALID_REQUEST 0
      | Some (req_opaque_data, ptr) =>
          let ctx := libspdm_reset_message_buffer_via_request_code ctx (Some i)
                       (request_response_code spdm_request) in
          message ← load request 0 (request_size - digest_size ctx);
          '(status, ctx) ← libspdm_append_message_f ctx i false message;
          TAIL error ctx SPDM_ERROR_CODE_UNSPECIFIED 0 IF LIBSPDM_STATUS_IS_ERROR status;;
          hmac ← load request ptr (digest_size ctx);
          result ← libspdm_verify_psk_finish_req_hmac ctx i hmac;
          if negb result then
            if Z.land (handle_error_return_policy (exchange ctx))
                 LIBSPDM_DATA_HANDLE_ERROR_RETURN_POLICY_DROP_ON_DECRYPT_ERROR =? 0
            then error ctx SPDM_ERROR_CODE_DECRYPT_ERROR 0
            else Ret (Reply LIBSPDM_STATUS_UNSUPPORTED_CAP ctx 0 response)
          else
            '(size, ctx, response) ←
              finish_psk_session ctx i session_id (spdm_version spdm_request) hmac req_opaque_data
                response_size response;
            match size with
            | Some size => Ret (Reply LIBSPDM_STATUS_SUCCESS ctx size response)
            | None =>
                libspdm_generate_error_response ctx SPDM_ERROR_CODE_UNSPECIFIED 0 response_size
                  response
            end
      end
  end.

End responder.

(** ** The requester *)
Section requester.
Context `{BuildConfig, CryptoHal, HashHal} {channel : RequesterChannel}.
Implicit Types ctx : libspdm_context_t.
Implicit Types w : world.

(** *** PSK_EXCHANGE *)

(** The arguments of libspdm_send_receive_psk_exchange_ex that are read; a pointer
    that may be NULL is an option. *)
Record psk_exchange_args : Type := Build_psk_exchange_args {
  pa_psk_hint : option (list Z);
  pa_psk_hint_size : Z;
  pa_measurement_hash_type : Z;
  pa_session_policy : Z;
  pa_requester_context_in : option (list Z);       (* requester_context_in_size bytes *)
  pa_requester_opaque_data : option (list Z);      (* requester_opaque_data_size bytes *)
}.

(** And those that are written: an [outbuf] is a buffer with its size. *)
Record psk_exchange_outs : Type := Build_psk_exchange_outs {
  po_session_id : Z;
  po_heartbeat_period : option Z;
  po_measurement_hash : option (list Z);
  po_requester_context : option outbuf;
  po_responder_context : option outbuf;
  po_responder_opaque_data : option outbuf;
}.
#[export] Instance eta_psk_exchange_outs : Eta psk_exchange_outs := λ r,
  Build_psk_exchange_outs (po_session_id r) (po_heartbeat_period r) (po_measurement_hash r)
    (po_requester_context r) (po_responder_context r) (po_responder_opaque_data r).

(** As much of [data] as fits the caller's buffer, when there is one. *)
Definition copy_out (out : option outbuf) (data : list Z) : exec (option outbuf) :=
  match out with
  | None => Ret None
  | Some o =>
      let size := if blen data <? ob_size o then blen data else ob_size o in
      d ← load data 0 size;
      b ← store (ob_buf o) 0 d;
      Ret (Some (Outbuf b size))
  end.

(** The opaque data of the request that the library makes. *)
Definition default_request_opaque ctx : exec (list Z) :=
  let local_max_secured_version := libspdm_local_max_secured_message_version ctx in
  let version_size := libspdm_get_opaque_data_supported_version_data_size ctx in
  let size := version_size
    + libspdm_get_opaque_data_aead_limit_element_size ctx local_max_secured_version in
  '(data, _) ← libspdm_build_opaque_data_supported_version_data ctx version_size (zeros size);
  '(data, size) ← libspdm_build_opaque_data_aead_limit_element ctx local_max_secured_version size
                    data;
  load data 0 size.

Definition request_opaque_data ctx (args : psk_exchange_args) : exec (list Z) :=
  match pa_requester_opaque_data args with
  | Some data => LIBSPDM_ASSERT (blen data <=? SPDM_MAX_OPAQUE_DATA_SIZE);; Ret data
  | None => default_request_opaque ctx
  end.

(** psk_hint_size bytes: without a hint, those that the sender buffer holds. *)
Definition request_psk_hint ctx (args : psk_exchange_args) : exec (list Z) :=
  match pa_psk_hint args with
  | Some hint => load hint 0 (pa_psk_hint_size args)
  | None => load (large_sender_receiver_section (scratch (exchange ctx)))
              (transport_header_size (lc_capability ctx) + sizeof_spdm_psk_exchange_request)
              (pa_psk_hint_size args)
  end.

(** The request; [None] in its place: no random numbers. *)
Definition build_psk_exchange ctx (args : psk_exchange_args) (outs : psk_exchange_outs)
    (req_session_id : Z) (rng : rng_state) :
    exec (option (list Z) * psk_exchange_outs * rng_state) :=
  let v := libspdm_get_connection_version ctx in
  let spdm_request_size := max_spdm_msg_size (lc_capability ctx) in
  LIBSPDM_ASSERT (sizeof_spdm_psk_exchange_request + pa_psk_hint_size args <=? spdm_request_size);;
  let context_length := match pa_requester_context_in args with
                        | None => LIBSPDM_PSK_CONTEXT_LENGTH | Some c => blen c end in
  LIBSPDM_ASSERT (context_length <=? LIBSPDM_PSK_CONTEXT_LENGTH);;
  opaque ← request_opaque_data ctx args;
  LIBSPDM_ASSERT (sizeof_spdm_psk_exchange_request + pa_psk_hint_size args + context_length
                  + blen opaque <=? spdm_request_size);;
  hint ← request_psk_hint ctx args;
  let '(result, requester_context, rng) :=
    match pa_requester_context_in args with
    | None => libspdm_get_random_number LIBSPDM_PSK_CONTEXT_LENGTH rng
    | Some c => (true, c, rng)
    end in
  RETURN (None, outs, rng) IF negb result;;
  copied ← copy_out (po_requester_context outs) requester_context;
  let policy := if SPDM_MESSAGE_VERSION_12 <=? v then pa_session_policy args else 0 in
  Ret (Some ([v; SPDM_PSK_EXCHANGE; pa_measurement_hash_type args; policy]
             ++ le_bytes 2 req_session_id ++ le_bytes 2 (pa_psk_hint_size args)
             ++ le_bytes 2 context_length ++ le_bytes 2 (blen opaque)
             ++ hint ++ requester_context ++ opaque),
       outs <| po_requester_context := copied |>, rng).

(** The response: its fixed part, and the offsets behind it. *)
Record psk_exchange_response : Type := Build_psk_exchange_response {
  pp_header : spdm_message_header_t;
  pp_rsp_session_id : Z;
  pp_context_length : Z;
  pp_opaque_length : Z;
}.

Definition read_psk_exchange_response (response : list Z) : exec psk_exchange_response :=
  h ← read_header response;
  rsp_session_id ← load_le 2 response 4;
  context_length ← load_le 2 response 8;
  opaque_length ← load_le 2 response 10;
  Ret (Build_psk_exchange_response h rsp_session_id context_length opaque_length).

(** The opaque data of the response: the version of the session and the limit of
    the peer; [None] is an invalid field. *)
Definition read_response_opaque ctx (opaque : list Z) : exec (option (Z * Z)) :=
  let default_limit := SECURED_MESSAGE_AEAD_LIMIT_EXPONENT_DEFAULT in
  RETURN Some (0, default_limit) IF blen opaque =? 0;;
  result ← libspdm_process_general_opaque_data_check ctx (blen opaque) opaque;
  RETURN None IF negb result;;
  '(status, v) ← libspdm_process_opaque_data_version_selection_data ctx (blen opaque) opaque;
  RETURN None IF LIBSPDM_STATUS_IS_ERROR status;;
  let version := default 0 v in
  '(status, limit) ← libspdm_process_opaque_data_aead_limit ctx version (blen opaque) opaque;
  RETURN None IF LIBSPDM_STATUS_IS_ERROR status;;
  Ret (Some (version, limit)).

(** The caller's buffer of the opaque data must be larger than the data. *)
Definition copy_opaque_out (out : option outbuf) (opaque : list Z) :
    exec (option (option outbuf)) :=
  match out with
  | None => Ret (Some None)
  | Some o =>
      RETURN None IF ob_size o <=? blen opaque;;
      b ← store (ob_buf o) 0 opaque;
      Ret (Some (Some (Outbuf b (blen opaque))))
  end.

Definition libspdm_verify_psk_exchange_rsp_hmac ctx (i : nat) (hmac_data : list Z) : exec bool :=
  LIBSPDM_ASSERT (digest_size ctx =? blen hmac_data);;
  calc_hmac_data ← libspdm_calculate_th_hmac_for_exchange_rsp ctx i (digest_size ctx);
  match calc_hmac_data with
  | None => Ret false
  | Some calc_hmac_data => mem_equal calc_hmac_data hmac_data (digest_size ctx)
  end.

(** Message K, the handshake keys, and the verification of the response. *)
Definition requester_handshake ctx (i : nat) (request message verify_data : list Z) :
    exec (libspdm_return_t * libspdm_context_t) :=
  '(status, ctx) ← libspdm_append_message_k ctx i true request;
  RETURN (status, ctx) IF is_error status;;
  '(status, ctx) ← libspdm_append_message_k ctx i true message;
  RETURN (status, ctx) IF is_error status;;
  '(result, ctx) ← handshake_keys ctx i;
  RETURN (LIBSPDM_STATUS_CRYPTO_ERROR, ctx) IF negb result;;
  result ← libspdm_verify_psk_exchange_rsp_hmac ctx i verify_data;
  RETURN (LIBSPDM_STATUS_VERIF_FAIL, ctx) IF negb result;;
  libspdm_append_message_k ctx i true verify_data.

Definition set_psk_session_state ctx (i : nat) (s : libspdm_session_state_t) :
    exec libspdm_context_t :=
  si ← slot ctx i;
  Ret (set_slot ctx i (si <| secured_message_context :=
    libspdm_secured_message_set_session_state (secured_message_context si) s |>)).

(** The session enters the handshake phase, or, when the responder has no context,
    the application phase. *)
Definition requester_enter ctx (i : nat) (session_policy_ : Z) :
    exec (libspdm_return_t * libspdm_context_t) :=
  si ← slot ctx i;
  let ctx := set_slot ctx i (si <| session_policy := session_policy_ |>) in
  ctx ← set_psk_session_state ctx i LIBSPDM_SESSION_STATE_HANDSHAKING;
  if negb (libspdm_is_capabilities_flag_supported ctx true 0
             SPDM_GET_CAPABILITIES_RESPONSE_FLAGS_PSK_CAP_RESPONDER_WITH_CONTEXT) then
    '(result, ctx) ← data_keys ctx i;
    RETURN (LIBSPDM_STATUS_CRYPTO_ERROR, ctx) IF negb result;;
    ctx ← set_psk_session_state ctx i LIBSPDM_SESSION_STATE_ESTABLISHED;
    Ret (LIBSPDM_STATUS_SUCCESS, ctx)
  else Ret (LIBSPDM_STATUS_SUCCESS, ctx).

(** The session once the response is parsed: every failure frees it. *)
Definition accept_psk_session ctx (args : psk_exchange_args) (outs : psk_exchange_outs)
    (i : nat) (version limit period : Z) (request message verify_data summary : list Z) :
    exec (libspdm_return_t * libspdm_context_t * psk_exchange_outs) :=
  let fail status ctx :=
    ctx ← libspdm_free_session_id ctx (po_session_id outs); Ret (status, ctx, outs) in
  ctx ← setup_psk_session ctx i (pa_psk_hint args) (pa_psk_hint_size args) version limit;
  '(status, ctx) ← requester_handshake ctx i request message verify_data;
  TAIL fail status ctx IF is_error status;;
  measurement_hash ← (match po_measurement_hash outs with
                      | None => Ret None
                      | Some b => b ← store b 0 summary; Ret (Some b)
                      end);
  let outs := outs <| po_measurement_hash := measurement_hash |> in
  '(status, ctx) ← requester_enter ctx i (pa_session_policy args);
  TAIL (ctx ← libspdm_free_session_id ctx (po_session_id outs); Ret (status, ctx, outs))
    IF is_error status;;
  si ← slot ctx i;
  Ret (LIBSPDM_STATUS_SUCCESS, set_slot ctx i (si <| heartbeat_period := period |>), outs).

(** A PSK_EXCHANGE_RSP of the right version and at least of its fixed size. *)
Definition process_psk_exchange_rsp ctx (args : psk_exchange_args) (outs : psk_exchange_outs)
    (req_session_id request_size : Z) (response : list Z) :
    exec (libspdm_return_t * libspdm_context_t * psk_exchange_outs) :=
  p ← read_psk_exchange_response response;
  let period := param1 (pp_header p) in
  RETURN (LIBSPDM_STATUS_INVALID_MSG_FIELD, ctx, outs)
    IF negb (libspdm_is_capabilities_flag_supported ctx true
               SPDM_GET_CAPABILITIES_REQUEST_FLAGS_HBEAT_CAP
               SPDM_GET_CAPABILITIES_RESPONSE_FLAGS_HBEAT_CAP) && negb (period =? 0);;
  let outs := outs <| po_heartbeat_period :=
    match po_heartbeat_period outs with None => None | Some _ => Some period end |> in
  let fail st outs := (st, ctx, outs) in
  let summary_size :=
    libspdm_get_measurement_summary_hash_size ctx true (pa_measurement_hash_type args) in
  let hmac_size := digest_size ctx in
  let base := sizeof_spdm_psk_exchange_response in
  let context_ptr := base + summary_size in
  let opaque_ptr := context_ptr + pp_context_length p in
  let verify_ptr := opaque_ptr + pp_opaque_length p in
  RETURN fail LIBSPDM_STATUS_INVALID_MSG_SIZE outs IF blen response <? verify_ptr + hmac_size;;
  opaque ← load response opaque_ptr (pp_opaque_length p);
  chosen ← read_response_opaque ctx opaque;
  match chosen with
  | None => Ret (fail LIBSPDM_STATUS_INVALID_MSG_FIELD outs)
  | Some (version, limit) =>
  RETURN fail LIBSPDM_STATUS_INVALID_MSG_FIELD outs
    IF SPDM_MAX_OPAQUE_DATA_SIZE <? pp_opaque_length p;;
  RETURN fail LIBSPDM_STATUS_INVALID_MSG_FIELD outs
    IF (if libspdm_is_capabilities_flag_supported ctx true 0
             SPDM_GET_CAPABILITIES_RESPONSE_FLAGS_PSK_CAP_RESPONDER
        then negb (pp_context_length p =? 0) else pp_context_length p =? 0);;
  rsp_context ← load response context_ptr (pp_context_length p);
  copied ← copy_out (po_responder_context outs) rsp_context;
  let outs := outs <| po_responder_context := copied |> in
  copied ← copy_opaque_out (po_responder_opaque_data outs) opaque;
  match copied with
  | None => Ret (fail LIBSPDM_STATUS_BUFFER_TOO_SMALL outs)
  | Some copied =>
  let session_id := libspdm_generate_session_id req_session_id (pp_rsp_session_id p) in
  let outs := outs <| po_responder_opaque_data := copied |> <| po_session_id := session_id |> in
  '(ctx, slot_index) ← libspdm_assign_session_id ctx session_id version true;
  match slot_index with
  | None => Ret (LIBSPDM_STATUS_SESSION_NUMBER_EXCEED, ctx, outs)
  | Some i =>
  request ← load (last_spdm_request (exchange ctx)) 0 request_size;
  message ← load response 0 verify_ptr;
  verify_data ← load response verify_ptr hmac_size;
  summary ← load response base summary_size;
  accept_psk_session ctx args outs i version limit period request message verify_data summary
  end end end.

(** The code, version and fixed size of the response, whatever they are. *)
Definition receive_psk_exchange_rsp ctx (args : psk_exchange_args) (outs : psk_exchange_outs)
    (req_session_id request_size : Z) (response : list Z) w :
    exec (exchanged * psk_exchange_outs) :=
  RETURN (Exchanged LIBSPDM_STATUS_INVALID_MSG_SIZE ctx w, outs)
    IF blen response <? sizeof_spdm_message_header;;
  h ← read_header response;
  r ← (if request_response_code h =? SPDM_ERROR then
         libspdm_handle_error_response_main ctx None response SPDM_PSK_EXCHANGE
           SPDM_PSK_EXCHANGE_RSP w
       else Ret (Handled (if request_response_code h =? SPDM_PSK_EXCHANGE_RSP
                          then LIBSPDM_STATUS_SUCCESS else LIBSPDM_STATUS_INVALID_MSG_FIELD)
                   ctx response w));
  let fail st := (Exchanged st (hd_ctx r) (hd_world r), outs) in
  RETURN fail (hd_status r) IF is_error (hd_status r);;
  let response := hd_response r in
  h ← read_header response;
  spdm_request ← read_header (last_spdm_request (exchange (hd_ctx r)));
  RETURN fail LIBSPDM_STATUS_INVALID_MSG_FIELD
    IF negb (spdm_version h =? spdm_version spdm_request);;
  RETURN fail LIBSPDM_STATUS_INVALID_MSG_SIZE
    IF blen response <? sizeof_spdm_psk_exchange_response;;
  '(status, ctx, outs) ←
    process_psk_exchange_rsp (hd_ctx r) args outs req_session_id request_size response;
  Ret (Exchanged status ctx (hd_world r), outs).

(** The checks before a request is made. *)
Definition psk_exchange_unavailable ctx : option libspdm_return_t :=
  if libspdm_get_connection_version ctx <? SPDM_MESSAGE_VERSION_11
  then Some LIBSPDM_STATUS_UNSUPPORTED_CAP
  else if negb (libspdm_is_capabilities_flag_supported ctx true
                  SPDM_GET_CAPABILITIES_REQUEST_FLAGS_PSK_CAP
                  SPDM_GET_CAPABILITIES_RESPONSE_FLAGS_PSK_CAP)
  then Some LIBSPDM_STATUS_UNSUPPORTED_CAP
  else if negb (libspdm_is_capabilities_flag_supported ctx true
                  SPDM_GET_CAPABILITIES_REQUEST_FLAGS_MAC_CAP
                  SPDM_GET_CAPABILITIES_RESPONSE_FLAGS_MAC_CAP)
  then Some LIBSPDM_STATUS_UNSUPPORTED_CAP
  else if connection_state_below ctx LIBSPDM_CONNECTION_STATE_NEGOTIATED
  then Some LIBSPDM_STATUS_INVALID_STATE_LOCAL
  else if negb (opaque_format_ok ctx) then Some LIBSPDM_STATUS_INVALID_STATE_PEER
  else None.

Definition libspdm_try_send_receive_psk_exchange (args : psk_exchange_args)
    (outs : psk_exchange_outs) ctx w : exec (exchanged * psk_exchange_outs) :=
  let type := pa_measurement_hash_type args in
  LIBSPDM_ASSERT ((type =? SPDM_REQUEST_NO_MEASUREMENT_SUMMARY_HASH)
                  || (type =? SPDM_REQUEST_TCB_COMPONENT_MEASUREMENT_HASH)
                  || (type =? SPDM_REQUEST_ALL_MEASUREMENTS_HASH));;
  let fail st ctx w := (Exchanged st ctx w, outs) in
  match psk_exchange_unavailable ctx with
  | Some status => Ret (fail status ctx w)
  | None =>
  let req_session_id := libspdm_allocate_req_session_id ctx true in
  RETURN fail LIBSPDM_STATUS_SESSION_NUMBER_EXCEED ctx w
    IF req_session_id =? Z.land INVALID_SESSION_ID 0xFFFF;;
  let ctx := libspdm_reset_message_buffer_via_request_code ctx None SPDM_PSK_EXCHANGE in
  RETURN fail LIBSPDM_STATUS_INVALID_STATE_LOCAL ctx w IF negb (psk_algorithms_ok ctx true);;
  let '(rng, d) := w in
  let '(status, d) := libspdm_acquire_sender_buffer d in
  RETURN fail status ctx (rng, d) IF is_error status;;
  '(request, outs, rng) ← build_psk_exchange ctx args outs req_session_id rng;
  match request with
  | None => Ret (Exchanged LIBSPDM_STATUS_LOW_ENTROPY ctx (rng, libspdm_release_sender_buffer d), outs)
  | Some request =>
  '(status, ctx, (rng, d)) ← libspdm_send_spdm_request ctx None request (rng, d);
  let d := libspdm_release_sender_buffer d in
  RETURN (Exchanged status ctx (rng, d), outs) IF is_error status;;
  let '(status, _, d) := libspdm_acquire_receiver_buffer d in
  RETURN (Exchanged status ctx (rng, d), outs) IF is_error status;;
  '(status, ctx, response, w) ← libspdm_receive_spdm_response ctx None (rng, d);
  '(r, outs) ← (if is_error status then Ret (Exchanged status ctx w, outs)
                else receive_psk_exchange_rsp ctx args outs req_session_id (blen request) response w);
  let '(rng, d) := ex_world r in
  Ret (Exchanged (ex_status r) (ex_ctx r) (rng, libspdm_release_receiver_buffer d), outs)
  end end.

(** The do-while loop of libspdm_send_receive_psk_exchange_ex; the short form
    passes NULL for the contexts and the opaque data. *)
Definition libspdm_send_receive_psk_exchange_ex (args : psk_exchange_args)
    (outs : psk_exchange_outs) ctx w : exec (exchanged * psk_exchange_outs) :=
  let ctx := set_exchange ctx (λ x, x <| crypto_request := true |>) in
  retry_exchange (libspdm_try_send_receive_psk_exchange args) outs ctx
    (Z.to_nat (retry_times (exchange ctx))) w.

Definition libspdm_send_receive_psk_exchange (psk_hint : option (list Z)) (psk_hint_size
    measurement_hash_type session_policy_ session_id : Z) (heartbeat_period_ : option Z)
    (measurement_hash : option (list Z)) ctx w : exec (exchanged * psk_exchange_outs) :=
  libspdm_send_receive_psk_exchange_ex
    (Build_psk_exchange_args psk_hint psk_hint_size measurement_hash_type session_policy_ None None)
    (Build_psk_exchange_outs session_id heartbeat_period_ measurement_hash None None None) ctx w.

(** *** PSK_FINISH *)

(** The request up to its HMAC. *)
Definition build_psk_finish ctx (requester_opaque_data : option (list Z)) : exec (list Z) :=
  let v := libspdm_get_connection_version ctx in
  let spdm_request_size := max_spdm_msg_size (lc_capability ctx) in
  let header := [v; SPDM_PSK_FINISH; 0; 0] in
  LIBSPDM_ASSERT (sizeof_spdm_message_header <=? spdm_request_size);;
  request ← (if SPDM_MESSAGE_VERSION_14 <=? v then
               let opaque := default [] requester_opaque_data in
               LIBSPDM_ASSERT (blen opaque <=? SPDM_MAX_OPAQUE_DATA_SIZE);;
               LIBSPDM_ASSERT (sizeof_spdm_psk_finish_request + 2 + blen opaque
                               <=? spdm_request_size);;
               Ret (header ++ le_bytes 2 (blen opaque) ++ opaque)
             else Ret header);
  LIBSPDM_ASSERT (blen request + digest_size ctx <=? spdm_request_size);;
  Ret request.

Definition libspdm_generate_psk_exchange_req_hmac ctx (i : nat) : exec (option (list Z)) :=
  hmac ← libspdm_calculate_th_hmac_for_finish_req ctx i (digest_size ctx);
  match hmac with
  | None => Ret None
  | Some hmac => hmac ← load hmac 0 (digest_size ctx); Ret (Some hmac)
  end.

(** The request with its HMAC enters message F; or the status of a failure. *)
Definition seal_psk_finish ctx (i : nat) (request : list Z) :
    exec (libspdm_return_t * libspdm_context_t * list Z) :=
  '(status, ctx) ← libspdm_append_message_f ctx i true request;
  RETURN (status, ctx, request) IF is_error status;;
  hmac ← libspdm_generate_psk_exchange_req_hmac ctx i;
  match hmac with
  | None => Ret (LIBSPDM_STATUS_CRYPTO_ERROR, ctx, request)
  | Some hmac =>
      '(status, ctx) ← libspdm_append_message_f ctx i true hmac;
      Ret (status, ctx, request ++ hmac)
  end.

(** The exact size of the response, and its opaque data for the caller: the status
    and the caller's buffer. *)
Definition check_psk_finish_rsp ctx (out : option outbuf) (response : list Z) :
    exec (libspdm_return_t * option outbuf) :=
  let base := sizeof_spdm_psk_finish_response in
  if SPDM_MESSAGE_VERSION_14 <=? libspdm_get_connection_version ctx then
    RETURN (LIBSPDM_STATUS_INVALID_MSG_SIZE, out) IF blen response <? base + 2;;
    field ← load response base 2;
    opaque_data_size ← ReadWrite.libspdm_read_uint16 field;
    RETURN (LIBSPDM_STATUS_INVALID_MSG_FIELD, out) IF SPDM_MAX_OPAQUE_DATA_SIZE <? opaque_data_size;;
    RETURN (LIBSPDM_STATUS_INVALID_MSG_SIZE, out)
      IF negb (blen response =? base + 2 + opaque_data_size);;
    match out with
    | None => Ret (LIBSPDM_STATUS_SUCCESS, None)
    | Some o =>
        RETURN (LIBSPDM_STATUS_BUFFER_TOO_SMALL, out) IF ob_size o <? opaque_data_size;;
        opaque ← load response (base + 2) opaque_data_size;
        b ← store (ob_buf o) 0 opaque;
        Ret (LIBSPDM_STATUS_SUCCESS, Some (Outbuf b opaque_data_size))
    end
  else
    RETURN (LIBSPDM_STATUS_INVALID_MSG_SIZE, out) IF negb (blen response =? base);;
    Ret (LIBSPDM_STATUS_SUCCESS, (λ o, Outbuf (ob_buf o) 0) <$> out).

(** The session enters the application phase. *)
Definition process_psk_finish_rsp ctx (i : nat) (out : option outbuf) (response : list Z) :
    exec (libspdm_return_t * libspdm_context_t * option outbuf) :=
  '(status, out) ← check_psk_finish_rsp ctx out response;
  RETURN (status, ctx, out) IF is_error status;;
  '(status, ctx) ← libspdm_append_message_f ctx i true response;
  RETURN (status, ctx, out) IF is_error status;;
  '(result, ctx) ← data_keys ctx i;
  RETURN (LIBSPDM_STATUS_CRYPTO_ERROR, ctx, out) IF negb result;;
  ctx ← set_psk_session_state ctx i LIBSPDM_SESSION_STATE_ESTABLISHED;
  Ret (LIBSPDM_STATUS_SUCCESS, ctx, out).

Definition receive_psk_finish_rsp ctx (session_id : Z) (i : nat) (out : option outbuf)
    (response : list Z) w : exec (exchanged * option outbuf) :=
  RETURN (Exchanged LIBSPDM_STATUS_INVALID_MSG_SIZE ctx w, out)
    IF blen response <? sizeof_spdm_message_header;;
  h ← read_header response;
  r ← (if request_response_code h =? SPDM_ERROR then
         RETURN Handled LIBSPDM_STATUS_SESSION_MSG_ERROR ctx response w
           IF param1 h =? SPDM_ERROR_CODE_DECRYPT_ERROR;;
         libspdm_handle_error_response_main ctx (Some session_id) response SPDM_PSK_FINISH
           SPDM_PSK_FINISH_RSP w
       else Ret (Handled (if request_response_code h =? SPDM_PSK_FINISH_RSP
                          then LIBSPDM_STATUS_SUCCESS else LIBSPDM_STATUS_INVALID_MSG_FIELD)
                   ctx response w));
  let fail st := (Exchanged st (hd_ctx r) (hd_world r), out) in
  RETURN fail (hd_status r) IF is_error (hd_status r);;
  let response := hd_response r in
  h ← read_header response;
  spdm_request ← read_header (last_spdm_request (exchange (hd_ctx r)));
  RETURN fail LIBSPDM_STATUS_INVALID_MSG_FIELD
    IF negb (spdm_version h =? spdm_version spdm_request);;
  '(status, ctx, out) ← process_psk_finish_rsp (hd_ctx r) i out response;
  Ret (Exchanged status ctx (hd_world r), out).

(** The exchange with the session of slot [i]; the boolean tells that the function
    returns its status as it is, and does not end the session. *)
Definition psk_finish_exchange ctx (session_id : Z) (i : nat)
    (requester_opaque_data : option (list Z)) (out : option outbuf) w :
    exec (exchanged * option outbuf * bool) :=
  let '(rng, d) := w in
  let '(status, d) := libspdm_acquire_sender_buffer d in
  RETURN (Exchanged status ctx (rng, d), out, true) IF is_error status;;
  request ← build_psk_finish ctx requester_opaque_data;
  '(status, ctx, request) ← seal_psk_finish ctx i request;
  let fail status ctx d := (Exchanged status ctx (rng, d), out, false) in
  RETURN fail status ctx (libspdm_release_sender_buffer d) IF is_error status;;
  '(status, ctx, (rng, d)) ← libspdm_send_spdm_request ctx (Some session_id) request (rng, d);
  RETURN (Exchanged status ctx (rng, libspdm_release_sender_buffer d), out, false)
    IF is_error status;;
  let ctx := libspdm_reset_message_buffer_via_request_code ctx (Some i) SPDM_PSK_FINISH in
  let '(status, _, d) := libspdm_acquire_receiver_buffer (libspdm_release_sender_buffer d) in
  RETURN (Exchanged status ctx (rng, d), out, false) IF is_error status;;
  '(status, ctx, response, w) ← libspdm_receive_spdm_response ctx (Some session_id) (rng, d);
  '(r, out) ← (if is_error status then Ret (Exchanged status ctx w, out)
               else receive_psk_finish_rsp ctx session_id i out response w);
  let '(rng, d) := ex_world r in
  Ret (Exchanged (ex_status r) (ex_ctx r) (rng, libspdm_release_receiver_buffer d), out, false).

(** The label [error]: unless the peer is busy the session ends. *)
Definition end_failed_session (session_id : Z) (r : exchanged) : exec exchanged :=
  RETURN r IF bool_decide (ex_status r = LIBSPDM_STATUS_SUCCESS)
              || bool_decide (ex_status r = LIBSPDM_STATUS_BUSY_PEER);;
  ctx ← libspdm_free_session_id (ex_ctx r) session_id;
  Ret (Exchanged (ex_status r) ctx (ex_world r)).

Definition libspdm_try_send_receive_psk_finish (session_id : Z)
    (requester_opaque_data : option (list Z)) (out : option outbuf) ctx w :
    exec (exchanged * option outbuf) :=
  let error st := r ← end_failed_session session_id (Exchanged st ctx w); Ret (r, out) in
  RETURN (Exchanged LIBSPDM_STATUS_UNSUPPORTED_CAP ctx w, out)
    IF libspdm_get_connection_version ctx <? SPDM_MESSAGE_VERSION_11;;
  TAIL error LIBSPDM_STATUS_UNSUPPORTED_CAP
    IF negb (libspdm_is_capabilities_flag_supported ctx true
               SPDM_GET_CAPABILITIES_REQUEST_FLAGS_PSK_CAP
               SPDM_GET_CAPABILITIES_RESPONSE_FLAGS_PSK_CAP_RESPONDER_WITH_CONTEXT);;
  TAIL error LIBSPDM_STATUS_INVALID_STATE_LOCAL
    IF connection_state_below ctx LIBSPDM_CONNECTION_STATE_NEGOTIATED;;
  match libspdm_get_session_info_via_session_id ctx session_id with
  | None => LIBSPDM_ASSERT false;; error LIBSPDM_STATUS_INVALID_STATE_LOCAL
  | Some i =>
      si ← slot ctx i;
      TAIL error LIBSPDM_STATUS_INVALID_STATE_LOCAL
        IF bool_decide (session_state (secured_message_context si)
                        ≠ LIBSPDM_SESSION_STATE_HANDSHAKING);;
      '(r, out, returned) ← psk_finish_exchange ctx session_id i requester_opaque_data out w;
      RETURN (r, out) IF (returned : bool);;
      r ← end_failed_session session_id r;
      Ret (r, out)
  end.

Definition libspdm_send_receive_psk_finish_ex (session_id : Z)
    (requester_opaque_data : option (list Z)) (out : option outbuf) ctx w :
    exec (exchanged * option outbuf) :=
  let ctx := set_exchange ctx (λ x, x <| crypto_request := true |>) in
  retry_exchange (libspdm_try_send_receive_psk_finish session_id requester_opaque_data) out ctx
    (Z.to_nat (retry_times (exchange ctx))) w.

Definition libspdm_send_receive_psk_finish (session_id : Z) ctx w :
    exec (exchanged * option outbuf) :=
  libspdm_send_receive_psk_finish_ex session_id None None ctx w.

End requester.
End PskSession.
Export PskSession.
