(* ===== verification/TransportProps.v ===== *)
(** * TransportProps: properties of the transport bindings and layers

    Framing, whole-session round trips through the transports, and safety of
    decoding received frames. *)

From S2P Require Import Prelude SpdmDefs CommonSupport CryptLib SecuredContext.
From S2P Require Import SecuredMessage SpdmContext SessionTable Transport Bindings.

Module TransportProps.
Import ContextFacts NonceFacts PacketFacts RunFacts TableFacts TransportFacts.
Import MctpFacts TcpFacts DoeFacts ToyHal SecuredMessageProps SessionTableProps.

(** A session whose context can carry traffic through a binding. *)
Definition live `{BuildConfig} (B : TransportBinding) (ctx : libspdm_context_t) (sid : Z)
    (c : libspdm_secured_message_context_t) (alg : aead_alg) : Prop :=
  libspdm_get_secured_message_context_via_session_id ctx sid = Some c ∧ ready c alg ∧
  major_version_ok c tb_callbacks = true.

(** The next sequence number of a direction of a session is [n]. *)
Definition at_number `{BuildConfig} (ctx : libspdm_context_t) (sid : Z) (rq : bool)
    (key salt : list Z) (n : Z) : Prop :=
  ∃ c, libspdm_get_secured_message_context_via_session_id ctx sid = Some c ∧
    select_keys c rq = Some (key, salt, n).

Section helpers.
Context `{BuildConfig, CryptoHal, !CryptoHalOk}.

Lemma at_number_put ctx sid c0 c rq key salt n :
  libspdm_get_secured_message_context_via_session_id ctx sid = Some c0 →
  select_keys c rq = Some (key, salt, n) →
  at_number (put_secured_message_context ctx sid c) sid rq key salt n.
Proof. intros Hl Hk. exists c. split; [by eapply lookup_put|done]. Qed.

Lemma next_number c rq alg key salt n :
  ready c alg → select_keys c rq = Some (key, salt, n) → exhausted c n = false →
  select_keys (increment_sequence_number c rq) rq = Some (key, salt, n + 1).
Proof.
  intros Hr Hk Hx. destruct (increment_keys c rq key salt n Hk) as [K _].
  destruct (ready_keys c alg rq Hr) as (k' & s' & n' & Hk' & _ & _ & Hn).
  rewrite Hk in Hk'. injection Hk' as <- <- <-.
  by rewrite u64_small in K by (by eapply is_u64_exhausted).
Qed.

End helpers.

Section wrapped.
Context `{BuildConfig, CryptoHal, !CryptoHalOk}.
Context (B : TransportBinding) {Ok : TransportBindingOk B} {Un : Unpadded B}.

(** A side that sent or received a message is at the next number. *)
Lemma at_number_moved ctx sid c0 c c' rq alg key salt n :
  libspdm_get_secured_message_context_via_session_id ctx sid = Some c0 → ready c alg →
  select_keys c rq = Some (key, salt, n) → exhausted c n = false →
  same_but_error (increment_sequence_number c rq) c' →
  at_number (put_secured_message_context ctx sid c') sid rq key salt (n + 1).
Proof.
  intros Hl Hr Hk Hx Hs. eapply at_number_put; [done|].
  destruct (same_but_error_keys _ _ rq Hs) as (-> & _). by eapply next_number.
Qed.

(** Sending an SPDM message in a session. *)
Lemma wrapped_encode_spec ctx c sid rq size msg off tsize buf rng alg key salt seqn :
  let h := tb_header_size in
  let maxp := max_padding tb_callbacks in
  live B ctx sid c alg → is_u32 sid → select_keys c rq = Some (key, salt, seqn) →
  exhausted c seqn = false → h + 2 ≤ off → 0 < size → off + size + maxp ≤ blen msg →
  tb_secured_header_size + 32 + (h + size) + maxp ≤ tsize → tsize ≤ blen buf →
  tsize ≤ tb_limit → 18 + (h + size) + maxp < 2 ^ 16 → bytes_ok msg →
  ∃ te, wrapped_encode_message ctx (Some sid) false rq size msg off tsize buf rng = Ret te ∧
    (no_seal (te_status te) ∨
     te_status te = LIBSPDM_STATUS_SUCCESS ∧ ∃ p wire,
       te_ptr te = InBuffer p ∧ te_size te = h + blen wire ∧ te_size te ≤ tsize ∧
       te_ctx te = put_secured_message_context ctx sid (increment_sequence_number c rq) ∧
       sub (te_buf te) p (te_size te) = tb_frame_header true (h + blen wire) ++ wire ∧
       sealed c alg tb_callbacks rq sid (sequence_number_endian c) wire
         (tb_frame_header false (h + size) ++ sub msg off size)).
Proof.
  intros h maxp (Hl & Hr & Hv) Hsid Hk Hx Ho Hs Hm Hts Hbuf Hlim H16 Hb.
  pose proof tb_sizes as [Hh Hhs]. pose proof tb_limit_ok as Hlo. fold h in Hh.
  assert (Hmp : 0 ≤ maxp) by (destruct tb_cb; unfold maxp, max_padding; lia).
  assert (Hpd : ∀ n, 0 ≤ n < 2 ^ 63 → tb_padded n = n) by (intros; by apply unpadded).
  unfold wrapped_encode_message, to_app_message. cbn [is_secured negb andb].
  rewrite Hl. fold h. rewrite (size_t_small (h + size)) by lia.
  destruct (tb_encode_ok None false size msg off (h + size)) as (msg' & En & Hlm & Hsm);
    fold h; rewrite ?Hpd by lia; try lia; try done.
  fold h in En, Hsm. rewrite Hpd in En, Hsm by lia. rewrite En.
  cbn [mbind exec_bind f_status f_mem f_ptr f_size default from_option id].
  rewrite success_not_error, Z.sub_diag, app_nil_r in *.
  destruct (seal_and_frame B c sid rq (h + size) msg' (off - h) tsize buf rng true alg key salt seqn)
    as (e & -> & Hc & Hout); fold maxp; try done; try lia.
  cbn [mbind exec_bind].
  destruct Hout as [Hst|(Hst & mem' & wire & Hsz & En' & Hp0 & Hn & Hbl & Hsub & Hseal)];
    [rewrite (no_seal_error _ Hst); eexists; split; [reflexivity|]; by left|].
  rewrite Hst, success_not_error. fold h in En', Hsub, Hn. cbv zeta in Hn.
  rewrite Hsm in Hseal.
  assert (Hw : tb_padded (blen wire) = blen wire).
  { apply Hpd. destruct (sealed_head _ _ _ _ _ _ _ _ tb_cb Hseal). lia. }
  rewrite Hw in En', Hsub, Hn. rewrite Z.sub_diag, app_nil_r in Hsub.
  rewrite En'. cbn [mbind exec_bind f_status f_mem f_ptr f_size default from_option id].
  eexists. split; [reflexivity|]. right. split; [done|].
  exists (tb_secured_header_size - h), wire.
  cbn [te_ptr te_size te_ctx te_buf]. split; [done|]. split; [done|]. split; [done|].
  rewrite Hc. by split.
Qed.

(** Receiving it, at a peer that agrees on the keys of the direction. *)
Lemma wrapped_decode_spec ctx cs cr sid rq wire m app asize alg key salt seqn :
  let h := tb_header_size in
  let frame := tb_frame_header true (h + blen wire) ++ wire in
  live B ctx sid cr alg → agree cs cr rq → is_u32 sid →
  select_keys cs rq = Some (key, salt, seqn) → exhausted cr seqn = false →
  0 < blen m → bytes_ok m → bytes_ok app → h + blen wire ≤ asize ≤ blen app →
  h + blen wire ≤ tb_limit → asize < 2 ^ 64 → h + blen m ≤ tb_limit →
  sealed cs alg tb_callbacks rq sid (sequence_number_endian cs) wire
    (tb_frame_header false (h + blen m) ++ m) →
  blen frame = h + blen wire ∧
  ∃ td, wrapped_decode_message ctx true true rq (blen frame) frame asize app = Ret td ∧
    td_status td = LIBSPDM_STATUS_SUCCESS ∧ td_session td = Some (Some h) ∧
    load_le 4 frame h = Ret sid ∧ td_is_app td = Some false ∧ received_message td frame = m ∧
    ∃ c', td_ctx td = put_secured_message_context
        (libspdm_set_last_spdm_error_struct ctx (Build_error_struct 0 0)) sid c' ∧
      same_but_error (increment_sequence_number cr rq) c'.
Proof.
  intros h frame (Hl & Hr & Hv) Hag Hsid Hk Hx Hm Hbm Hba Ha Hlim H64 Hlm Hseal.
  pose proof tb_sizes as [Hh Hhs]. fold h in Hh. pose proof tb_limit_ok as Hlo.
  pose proof (sealed_head _ _ _ _ _ _ _ _ tb_cb Hseal) as [_ Hw].
  assert (Hpw : tb_padded (blen wire) = blen wire) by (apply unpadded; lia).
  destruct (tb_header_ok false (h + blen m)) as [Hlh Hbh]. fold h in Hlh.
  destruct (unframe_and_open B cs cr sid rq wire (tb_frame_header false (h + blen m) ++ m) true alg
    key salt seqn asize app) as (Hlf & Hdec & Hsd & Hdrop & d & Ed & D1 & D2 & D3 & D4 & _ & _ & D5);
    try done; try (rewrite Hpw; fold h; lia); [by apply bytes_ok_app|].
  fold h in Hlf, Hdec, Hsd, Hdrop. rewrite Hpw, Z.sub_diag in *.
  change (zeros 0) with (@nil Z) in *. rewrite app_nil_r in *. fold frame in Hlf, Hdec, Hsd, Hdrop.
  split; [done|]. rewrite Hlf. unfold wrapped_decode_message. cbn [negb orb].
  rewrite Hdec. cbn [mbind exec_bind u_status u_message u_session default from_option id].
  rewrite success_not_error. cbv iota. rewrite Hsd. cbn [mbind exec_bind].
  set (ctx' := libspdm_set_last_spdm_error_struct ctx (Build_error_struct 0 0)).
  change (libspdm_get_secured_message_context_via_session_id ctx' sid) with
    (libspdm_get_secured_message_context_via_session_id ctx sid). rewrite Hl.
  rewrite Hdrop, Ed. cbn [mbind exec_bind]. rewrite D1, success_not_error.
  destruct (unwrap_ok B (put_secured_message_context ctx' sid (d_ctx d)) (Some h) frame wire d m)
    as (td & E & T1 & T2 & T3 & T4 & T5); fold h; try done.
  { rewrite D4, length_app. lia. }
  exists td. fold h in E. rewrite E. repeat (split; [done|]). rewrite T2.
  by exists (d_ctx d).
Qed.

(** The message [m] was sealed for this frame's session: the frame carries a
    record that the AEAD produces from it at the expected sequence number. *)
Definition genuine ctx (rq : bool) (frame m : list Z) : Prop :=
  ∃ sid c alg key salt seqn e wire,
    load_le 4 frame tb_header_size = Ret sid ∧ live B ctx sid c alg ∧
    select_keys c rq = Some (key, salt, seqn) ∧ exhausted c seqn = false ∧ may_use c seqn e ∧
    received (drop (Z.to_nat tb_header_size) frame) (blen frame - tb_header_size) wire ∧
    sealed c alg tb_callbacks rq sid e wire m.

(** The error structure a failed decoding leaves: none, or the reason and the
    session id of the frame. *)
Definition error_recorded ctx (frame : list Z) (err : libspdm_error_struct_t) : Prop :=
  err = Build_error_struct 0 0 ∨
  ∃ sid, load_le 4 frame tb_header_size = Ret sid ∧
    match libspdm_get_secured_message_context_via_session_id ctx sid with
    | None => err = Build_error_struct SPDM_ERROR_CODE_INVALID_SESSION sid
    | Some _ => err = Build_error_struct SPDM_ERROR_CODE_DECRYPT_ERROR sid
    end.

(** An assertion of the build stopped the program because of a message no longer
    than the header. *)
Definition stopped_by_short (f : fault) (short : Prop) : Prop :=
  f = AssertFailed ∧ LIBSPDM_DEBUG_ASSERT_ENABLE = true ∧ short.

Lemma from_app_safe ctx sess frame payload d :
  let h := tb_header_size in
  let m := delivered d payload in
  drop (Z.to_nat h) frame = payload → within d payload → bytes_ok frame →
  h ≤ blen frame < 2 ^ 62 → blen (d_app d) < 2 ^ 62 →
  match from_app_message ctx sess frame (d_app d) (app_ptr h d) (d_size d) with
  | Ret td => td_ctx td = ctx ∧ td_session td = Some sess ∧
      (td_status td = LIBSPDM_STATUS_SUCCESS ∧
         (td_is_app td = Some true ∧ received_message td frame = m ∨
          td_is_app td = Some false ∧ received_message td frame = drop (Z.to_nat h) m) ∨
       td_status td = LIBSPDM_STATUS_UNSUPPORTED_CAP)
  | Fault f => stopped_by_short f (blen m ≤ h)
  end.
Proof.
  intros h m Hdrop Hin Hbf Hlf Hla. pose proof tb_sizes as [Hh _]. fold h in Hh.
  pose proof (within_delivered d payload Hin) as Hlm. fold m in Hlm.
  (* the memory and offset the pointer means *)
  assert (∃ mem o, 0 ≤ o ∧ o + d_size d ≤ blen mem ∧ 0 ≤ d_size d ∧ blen mem < 2 ^ 62 ∧ bytes_ok mem ∧
    sub mem o (d_size d) = m ∧
    match app_ptr h d with
    | InCaller o' => mem = d_app d ∧ o' = o
    | InTransport o' => mem = frame ∧ o' = o
    end) as (mem & o & Ho & Hol & Hsz & Hml & Hmb & Hsub & Hptr).
  { unfold within in Hin. subst m. unfold delivered, app_ptr. destruct (d_ptr d) as [o|o].
    - destruct Hin as [Hin Hb]. rewrite in_range_iff in Hin.
      exists (d_app d), o. split_and!; try done; lia.
    - rewrite in_range_iff in Hin. rewrite <- Hdrop, length_drop in Hin.
      exists frame, (h + o). rewrite <- Hdrop, sub_drop, Z2Nat.id by lia. split_and!; try done; lia. }
  set (n := d_size d) in *. unfold from_app_message.
  assert (Hu : ∃ r, tb_decode_message (Some sess) false n mem o = r ∧
    match app_ptr h d with
    | InCaller o' => tb_decode_message (Some sess) false n (d_app d) o'
    | InTransport o' => tb_decode_message (Some sess) false n frame o'
    end = r).
  { eexists. split; [reflexivity|]. destruct (app_ptr h d) as [o'|o'], Hptr as [-> ->]; done. }
  destruct Hu as (r & Hr & ->). destruct (Z.le_gt_cases n h) as [Hs|Hs].
  { rewrite tb_decode_short in Hr by done. subst r. unfold LIBSPDM_ASSERT.
    destruct LIBSPDM_DEBUG_ASSERT_ENABLE eqn:Ed; cbn.
    - split; [done|]. split; [done|lia].
    - split; [done|]. split; [done|]. left. split; [done|]. left. split; [done|].
      unfold received_message. cbn. destruct (app_ptr h d), Hptr as [-> ->]; done. }
  destruct (tb_decode_safe sess false n mem o) as (u & Hu & Hc); [lia|fold h; lia|lia|lia|done|].
  rewrite Hu in Hr. subst r. cbn [mbind exec_bind].
  destruct Hc as [(Hst & Hmsg & Hsess)|(Hst & Hmsg)].
  - rewrite Hst, success_not_error, Hmsg. fold h. cbn [default from_option id].
    assert (Hrm : ∀ st b, received_message (TransportDecoded st ctx (Some sess) b (d_app d)
      match app_ptr h d with InCaller _ => InCaller (o + h) | InTransport _ => InTransport (o + h) end
      (n - h)) frame = drop (Z.to_nat h) m).
    { intros st b. rewrite <- Hsub. unfold received_message. cbn.
      destruct (app_ptr h d), Hptr as [<- ->]; unfold sub;
        rewrite skipn_firstn_comm, drop_drop; f_equal; [lia|f_equal; lia|lia|f_equal; lia]. }
    destruct Hsess as [->|[-> _]]; cbn [mbind exec_bind]; (split; [done|]); (split; [done|]).
    + left. split; [done|]. right. split; [done|]. apply Hrm.
    + by right.
  - rewrite Hst. split; [done|]. split; [done|]. left. split; [done|]. left. split; [done|].
    unfold received_message. cbn. destruct (app_ptr h d), Hptr as [-> ->]; done.
Qed.

(** Opening a received record in a live session, whatever it holds. *)
Lemma open_any ctx sid c alg rq frame app asize :
  let h := tb_header_size in
  let payload := drop (Z.to_nat h) frame in
  load_le 4 frame h = Ret sid → live B ctx sid c alg → is_u32 sid →
  bytes_ok frame → bytes_ok app → h + 4 < blen frame → blen frame < 2 ^ 62 →
  blen frame ≤ asize ≤ blen app → blen app < 2 ^ 62 →
  ∃ d, libspdm_decode_secured_message c sid rq (blen frame - h) payload asize app tb_callbacks = Ret d ∧
    blen (d_app d) = blen app ∧
    (d_status d = LIBSPDM_STATUS_SUCCESS ∧ within d payload ∧
       genuine ctx rq frame (delivered d payload) ∧ last_spdm_error (d_ctx d) = Build_error_struct 0 0 ∨
     LIBSPDM_STATUS_IS_ERROR (d_status d) = true ∧
       error_recorded ctx frame (last_spdm_error (d_ctx d))).
Proof.
  intros h payload Hsd Hlive Hsid Hbf Hba Hf Hff Ha Haa. pose proof Hlive as (Hl & Hr & Hv).
  pose proof tb_sizes as [Hh _]. fold h in Hh.
  assert (Hlp : blen payload = blen frame - h) by (unfold payload; rewrite length_drop; lia).
  destruct (ready_keys c alg rq Hr) as (key & salt & n & Hk & _ & _ & _).
  destruct (decode_spec c tb_callbacks sid rq payload (blen frame - h) asize app alg key salt n)
    as (d & E & Hld & Hd); try done; try lia; [apply tb_cb|unfold payload; auto with word|].
  exists d. split; [done|]. split; [lia|].
  assert (Hrec : error_recorded ctx frame (Build_error_struct SPDM_ERROR_CODE_DECRYPT_ERROR sid))
    by (right; exists sid; by rewrite Hl).
  destruct (exhausted c n) eqn:Hx.
  { destruct Hd as [-> ->]. by right. }
  destruct Hd as (_ & Hout & _). unfold outcome in Hout. cbv zeta in Hout.
  destruct Hout as [(O1 & O2 & O3 & e & wire & O4 & _ & O5 & O6)|[([O|O] & O2)|[(O & _ & O2)|(O & _ & O2)]]].
  - left. split; [done|]. split; [done|]. split; [|done].
    exists sid, c, alg, key, salt, n, e, wire. done.
  - right. by rewrite O, O2.
  - right. by rewrite O, O2.
  - right. rewrite O, O2. split; [done|by left].
  - right. by rewrite O, O2.
Qed.

End wrapped.

(** C37: an SPDM message survives a session over MCTP or TCP, or any binding
    that obeys the interface and does not pad: what one endpoint's transport
    encodes for a session, the peer that shares the session's keys decodes from
    the frame alone, with success: it finds the session id in the frame, the
    message is not taken for an application message and arrives byte for byte,
    and both sides move to the next sequence number.  The only encodings that
    fail are those for which the random source or the AEAD fails. *)
Theorem wrapped_session_roundtrip `{BuildConfig, CryptoHal, !CryptoHalOk}
    (B : TransportBinding) {Ok : TransportBindingOk B} {Un : Unpadded B}
    (ctxs ctxr : libspdm_context_t) (cs cr : libspdm_secured_message_context_t) (rq : bool)
    (sid size off tsize asize seqn : Z) (msg buf app key salt : list Z) (rng : rng_state)
    (alg : aead_alg)
    (Hls : live B ctxs sid cs alg) (Hlr : live B ctxr sid cr alg) (Hag : agree cs cr rq)
    (Hsid : is_u32 sid) (Hk : select_keys cs rq = Some (key, salt, seqn))
    (Hxs : exhausted cs seqn = false) (Hxr : exhausted cr seqn = false)
    (Hbm : bytes_ok msg) (Hba : bytes_ok app)
    (Ho : tb_header_size + 2 ≤ off) (Hs : 0 < size)
    (Hm : off + size + max_padding tb_callbacks ≤ blen msg)
    (Ht : tb_secured_header_size + 32 + (tb_header_size + size) + max_padding tb_callbacks ≤ tsize)
    (Hb : tsize ≤ blen buf) (Hl : tsize ≤ tb_limit)
    (H16 : 18 + (tb_header_size + size) + max_padding tb_callbacks < 2 ^ 16)
    (Ha : tsize ≤ asize ≤ blen app) (H64 : asize < 2 ^ 64) :
  ∃ te, wrapped_encode_message ctxs (Some sid) false rq size msg off tsize buf rng = Ret te ∧
    (no_seal (te_status te) ∨
     te_status te = LIBSPDM_STATUS_SUCCESS ∧ at_number (te_ctx te) sid rq key salt (seqn + 1) ∧
     ∃ p, te_ptr te = InBuffer p ∧
       let frame := sub (te_buf te) p (te_size te) in
       ∃ td, wrapped_decode_message ctxr true true rq (te_size te) frame asize app = Ret td ∧
         td_status td = LIBSPDM_STATUS_SUCCESS ∧ td_session td = Some (Some tb_header_size) ∧
         load_le 4 frame tb_header_size = Ret sid ∧ td_is_app td = Some false ∧
         received_message td frame = sub msg off size ∧
         at_number (td_ctx td) sid rq key salt (seqn + 1)).
Proof.
  pose proof tb_sizes as [Hh Hhs]. pose proof tb_limit_ok as Hlo.
  assert (Hmp : 0 ≤ max_padding tb_callbacks) by (destruct tb_cb; unfold max_padding; lia).
  assert (Hlm : blen (sub msg off size) = size) by (rewrite length_sub by range; lia).
  destruct (wrapped_encode_spec B ctxs cs sid rq size msg off tsize buf rng alg key salt seqn)
    as (te & E & Hout); try done.
  exists te. split; [done|]. pose proof Hls as (Ls & Rs & _). pose proof Hlr as (Lr & Rr & _).
  destruct Hout as [?|(Hst & p & wire & T1 & T2 & T3 & T4 & T5 & T6)]; [by left|right].
  split; [done|]. split.
  { rewrite T4. apply (at_number_moved _ sid cs cs _ rq alg); try done. apply same_but_error_refl. by destruct Rs. }
  exists p. split; [done|]. rewrite <- Hlm in T6 at 1.
  cbv zeta. rewrite T2 in T5 |- *. rewrite T5.
  destruct (wrapped_decode_spec B ctxr cs cr sid rq wire (sub msg off size) app asize alg key salt
    seqn) as (Hlf & td & D1 & D2 & D3 & D4 & D5 & D6 & c' & D7 & D8); try done; try lia; [auto with word|].
  rewrite Hlf in D1. exists td. do 6 (split; [done|]). rewrite D7.
  apply (at_number_moved _ sid cr cr _ rq alg); try done. by rewrite (ag_keys _ _ _ Hag).
Qed.

(** A connection with a live session in its first slot. *)
Definition toy_sid : Z := 0xffff0001.
Definition toy_connection : libspdm_context_t :=
  toy_table <| session_info := <[0%nat := toy_info <| session_id := toy_sid |>
      <| secured_message_context := toy_session |>]> (session_info toy_table) |>.

Lemma toy_live (B : @TransportBinding default_build) :
  major_version_ok toy_session (@tb_callbacks _ B) = true →
  @live default_build B toy_connection toy_sid toy_session AES_GCM.
Proof. intros Hv. split; [reflexivity|]. split; [apply toy_session_ready|done]. Qed.

Lemma toy_agree rq : agree toy_session toy_session rq.
Proof. by split. Qed.

Definition toy_message : list Z := zeros 9 ++ [7; 8; 9] ++ zeros 40.

Lemma wrapped_session_roundtrip_witness :
  ∃ te td p, @Mctp.libspdm_transport_mctp_encode_message default_build toy_hal toy_connection
      (Some toy_sid) false true 3 toy_message 9 90 (zeros 100) 5 = Ret te ∧
    te_ptr te = InBuffer p ∧
    @Mctp.libspdm_transport_mctp_decode_message default_build toy_hal toy_connection true true true
      (te_size te) (sub (te_buf te) p (te_size te)) 100 (zeros 100) = Ret td ∧
    received_message td (sub (te_buf te) p (te_size te)) = [7; 8; 9].
Proof.
  destruct (@wrapped_session_roundtrip default_build toy_hal toy_hal_ok Mctp.mctp_binding
    mctp_binding_ok mctp_unpadded toy_connection toy_connection toy_session toy_session true toy_sid
    3 9 90 100 0 toy_message (zeros 100) (zeros 100) (zeros 32) (zeros 12) 5 AES_GCM
    (toy_live Mctp.mctp_binding eq_refl) (toy_live Mctp.mctp_binding eq_refl) (toy_agree true))
    as (te & E & Hs);
    [by vm_compute|done|done|done|repeat constructor; cbn; lia|apply bytes_ok_replicate0
    |by vm_compute|lia|by vm_compute|by vm_compute|by vm_compute|by vm_compute|by vm_compute
    |by vm_compute|by vm_compute|].
  assert (Hst : match @Mctp.libspdm_transport_mctp_encode_message default_build toy_hal
    toy_connection (Some toy_sid) false true 3 toy_message 9 90 (zeros 100) 5 with
    | Ret te' => te_status te' = LIBSPDM_STATUS_SUCCESS | Fault _ => False end)
    by (vm_compute; reflexivity).
  unfold Mctp.libspdm_transport_mctp_encode_message in Hst. rewrite E in Hst.
  destruct Hs as [[[Hs _]|[Hs _]]|(_ & _ & p & Hp & td & D & _ & _ & _ & _ & Hm & _)];
    [rewrite Hst in Hs; discriminate|rewrite Hst in Hs; discriminate|].
  exists te, td, p. split; [exact E|]. split; [exact Hp|]. split; [exact D|exact Hm].
Defined.



(** ** PCI DOE *)

Section doe.
Context `{BuildConfig, CryptoHal, !CryptoHalOk}.
Import PciDoe.

(** Zeros up to the next doubleword. *)
Definition doe_pad (wire : list Z) : list Z := zeros (doe_padded (blen wire) - blen wire).

Lemma doe_encode_spec ctx c sid rq size msg off tsize buf rng alg key salt seqn :
  live pci_doe_binding ctx sid c alg → is_u32 sid → select_keys c rq = Some (key, salt, seqn) →
  exhausted c seqn = false → 2 ≤ off → 0 ≤ size → off + size ≤ blen msg →
  40 + size ≤ tsize → tsize mod 4 = 0 → tsize ≤ blen buf → tsize ≤ PCI_DOE_MAX_SIZE_IN_BYTE →
  18 + size < 2 ^ 16 →
  ∃ te, libspdm_transport_pci_doe_encode_message ctx (Some sid) false rq size msg off tsize buf rng
          = Ret te ∧
    (no_seal (te_status te) ∨
     te_status te = LIBSPDM_STATUS_SUCCESS ∧ ∃ p wire,
       te_ptr te = InBuffer p ∧ te_size te = 8 + doe_padded (blen wire) ∧ te_size te ≤ tsize ∧
       at_number (te_ctx te) sid rq key salt (seqn + 1) ∧
       sub (te_buf te) p (te_size te) = doe_header true (8 + doe_padded (blen wire)) ++ wire ++ doe_pad wire ∧
       sealed c alg pci_doe_callbacks rq sid (sequence_number_endian c) wire (sub msg off size)).
Proof.
  intros (Hlk & Hr & Hv) Hsid Hk Hx Ho Hs Hm Ht Ht4 Hb Hl H16.
  assert (Hmp : max_padding pci_doe_callbacks = 0) by (by vm_compute).
  change PCI_DOE_MAX_SIZE_IN_BYTE with 1048576 in Hl.
  assert (Hpt : doe_padded (tsize - 8) = tsize - 8) by (apply doe_padded_mult;
    [lia|replace (tsize - 8) with (tsize + (-2) * 4) by lia; by rewrite Z.mod_add]).
  destruct (seal_and_frame pci_doe_binding c sid rq size msg off tsize buf rng true alg key
    salt seqn) as (e & E & Hc & Hout);
    [done|done|done|done|done|done|done|change tb_callbacks with pci_doe_callbacks; lia
    |change tb_callbacks with pci_doe_callbacks; change tb_secured_header_size with 8; lia
    |done|change tb_limit with 1048576; lia|change tb_callbacks with pci_doe_callbacks; lia|done|].
  change tb_secured_header_size with 8 in E, Hout. change tb_header_size with 8 in Hout.
  change tb_callbacks with pci_doe_callbacks in E, Hout.
  unfold libspdm_transport_pci_doe_encode_message. rewrite Hlk.
  change sizeof_pci_doe_data_object_header with 8. rewrite E. cbn [mbind exec_bind].
  destruct Hout as [Hst|(Hst & mem' & wire & Hsz & En & Hp0 & Hn & Hbl & Hsub & Hseal)];
    [rewrite (no_seal_error _ Hst); eexists; split; [reflexivity|]; by left|].
  rewrite Hst, success_not_error. change (tb_encode_message (Some sid) true (e_size e)) with
    (libspdm_pci_doe_encode_message (Some sid) (e_size e)) in En.
  rewrite En. cbn [mbind exec_bind f_status f_mem f_ptr f_size default from_option id].
  eexists. split; [reflexivity|]. right. split; [done|]. exists (8 - 8), wire.
  cbn [te_ptr te_size te_ctx te_buf]. split; [done|]. split; [done|]. split; [done|].
  split; [|done]. eapply at_number_put; [done|]. rewrite Hc. by eapply next_number.
Qed.

Lemma doe_decode_spec ctx cs cr sid rq wire m app asize alg key salt seqn :
  let n := 8 + doe_padded (blen wire) in
  let frame := doe_header true n ++ wire ++ doe_pad wire in
  live pci_doe_binding ctx sid cr alg → agree cs cr rq → is_u32 sid →
  select_keys cs rq = Some (key, salt, seqn) → exhausted cr seqn = false →
  bytes_ok m → bytes_ok app → n ≤ asize ≤ blen app →
  n ≤ PCI_DOE_MAX_SIZE_IN_BYTE → asize < 2 ^ 64 →
  sealed cs alg pci_doe_callbacks rq sid (sequence_number_endian cs) wire m →
  ∃ td, libspdm_transport_pci_doe_decode_message ctx true true rq n frame asize app = Ret td ∧
    td_status td = LIBSPDM_STATUS_SUCCESS ∧ td_session td = Some (Some 8) ∧
    load_le 4 frame 8 = Ret sid ∧ td_is_app td = Some false ∧ received_message td frame = m ∧
    at_number (td_ctx td) sid rq key salt (seqn + 1).
Proof.
  intros n frame (Hl & Hr & Hv) Hag Hsid Hk Hx Hbm Hba Ha Hlim H64 Hseal.
  destruct (unframe_and_open pci_doe_binding cs cr sid rq wire m true alg key salt seqn asize app)
    as (Hlf & Hdec & Hsd & Hdrop & d & Ed & D1 & D2 & D3 & D4 & D5 & _); try done.
  change (tb_decode_message (Some None) true) with (libspdm_pci_doe_decode_message (Some None)) in Hdec.
  change tb_header_size with 8 in *. change tb_callbacks with pci_doe_callbacks in *.
  change (tb_frame_header true (8 + tb_padded (blen wire)) ++ wire ++
    zeros (tb_padded (blen wire) - blen wire)) with frame in *.
  change (8 + tb_padded (blen wire)) with n in *.
  change (wire ++ zeros (tb_padded (blen wire) - blen wire)) with (wire ++ doe_pad wire) in *.
  unfold libspdm_transport_pci_doe_decode_message. cbn [negb orb].
  rewrite Hdec. cbn [mbind exec_bind u_status u_message u_session default from_option id].
  rewrite success_not_error. cbv iota. rewrite Hsd. cbn [mbind exec_bind].
  set (ctx' := libspdm_set_last_spdm_error_struct ctx (Build_error_struct 0 0)).
  change (libspdm_get_secured_message_context_via_session_id ctx' sid) with
    (libspdm_get_secured_message_context_via_session_id ctx sid). rewrite Hl.
  rewrite Hdrop, Ed. cbn [mbind exec_bind]. rewrite D1, success_not_error.
  eexists. split; [reflexivity|]. repeat (split; [done|]). split.
  - rewrite <- D2. unfold received_message, delivered, app_ptr. cbn.
    unfold within in D3. destruct (d_ptr d) as [o|o]; [done|].
    rewrite in_range_iff in D3. rewrite <- Hdrop, sub_drop by lia. done.
  - eapply at_number_put; [exact Hl|].
    destruct (ready_keys cr alg rq Hr) as (k' & s' & n' & Hk' & _ & _ & Hn).
    rewrite (ag_keys _ _ _ Hag), Hk in Hk'. injection Hk' as <- <- <-.
    by rewrite u64_small in D5 by (by eapply is_u64_exhausted).
Qed.

End doe.

(** An SPDM message survives a session over PCI DOE, where frames are padded
    to doublewords and nothing is wrapped: the peer that shares the session's
    keys decodes the frame with success to the very message, whatever the
    padding, and both sides move to the next sequence number.  The only
    encodings that fail are those for which the random source or the AEAD
    fails. *)
Theorem doe_session_roundtrip `{BuildConfig, CryptoHal, !CryptoHalOk}
    (ctxs ctxr : libspdm_context_t) (cs cr : libspdm_secured_message_context_t) (rq : bool)
    (sid size off tsize asize seqn : Z) (msg buf app key salt : list Z) (rng : rng_state)
    (alg : aead_alg)
    (Hls : live PciDoe.pci_doe_binding ctxs sid cs alg)
    (Hlr : live PciDoe.pci_doe_binding ctxr sid cr alg) (Hag : agree cs cr rq)
    (Hsid : is_u32 sid) (Hk : select_keys cs rq = Some (key, salt, seqn))
    (Hxs : exhausted cs seqn = false) (Hxr : exhausted cr seqn = false)
    (Hbm : bytes_ok msg) (Hba : bytes_ok app) (Ho : 2 ≤ off) (Hs : 0 ≤ size)
    (Hm : off + size ≤ blen msg) (Ht : 40 + size ≤ tsize) (Ht4 : tsize mod 4 = 0)
    (Hb : tsize ≤ blen buf) (Hl : tsize ≤ PciDoe.PCI_DOE_MAX_SIZE_IN_BYTE)
    (H16 : 18 + size < 2 ^ 16) (Ha : tsize ≤ asize ≤ blen app) (H64 : asize < 2 ^ 64) :
  ∃ te, PciDoe.libspdm_transport_pci_doe_encode_message ctxs (Some sid) false rq size msg off tsize
          buf rng = Ret te ∧
    (no_seal (te_status te) ∨
     te_status te = LIBSPDM_STATUS_SUCCESS ∧ at_number (te_ctx te) sid rq key salt (seqn + 1) ∧
     ∃ p, te_ptr te = InBuffer p ∧
       let frame := sub (te_buf te) p (te_size te) in
       ∃ td, PciDoe.libspdm_transport_pci_doe_decode_message ctxr true true rq (te_size te) frame
               asize app = Ret td ∧
         td_status td = LIBSPDM_STATUS_SUCCESS ∧ td_session td = Some (Some 8) ∧
         load_le 4 frame 8 = Ret sid ∧ td_is_app td = Some false ∧
         received_message td frame = sub msg off size ∧
         at_number (td_ctx td) sid rq key salt (seqn + 1)).
Proof.
  destruct (doe_encode_spec ctxs cs sid rq size msg off tsize buf rng alg key salt seqn)
    as (te & E & Hout); try done.
  exists te. split; [done|].
  destruct Hout as [?|(Hst & p & wire & T1 & T2 & T3 & T4 & T5 & T6)]; [by left|right].
  split; [done|]. split; [done|]. exists p. split; [done|].
  cbv zeta. rewrite T2 in T5 |- *. rewrite T5.
  apply (doe_decode_spec ctxr cs cr sid rq wire (sub msg off size) app asize alg key salt seqn);
    try done; [auto with word|lia|lia].
Qed.

Lemma doe_session_roundtrip_witness :
  ∃ te td p, @PciDoe.libspdm_transport_pci_doe_encode_message default_build toy_hal toy_connection
      (Some toy_sid) false false 3 toy_message 9 88 (zeros 100) 5 = Ret te ∧
    te_ptr te = InBuffer p ∧
    @PciDoe.libspdm_transport_pci_doe_decode_message default_build toy_hal toy_connection true true
      false (te_size te) (sub (te_buf te) p (te_size te)) 100 (zeros 100) = Ret td ∧
    received_message td (sub (te_buf te) p (te_size te)) = [7; 8; 9].
Proof.
  destruct (@doe_session_roundtrip default_build toy_hal toy_hal_ok toy_connection toy_connection
    toy_session toy_session false toy_sid 3 9 88 100 0 toy_message (zeros 100) (zeros 100)
    (zeros 32) (zeros 12) 5 AES_GCM (toy_live PciDoe.pci_doe_binding eq_refl)
    (toy_live PciDoe.pci_doe_binding eq_refl) (toy_agree false)) as (te & E & Hs);
    [by vm_compute|done|done|done|repeat constructor; cbn; lia|apply bytes_ok_replicate0
    |lia|lia|by vm_compute|lia|done|by vm_compute|by vm_compute|lia|by vm_compute|lia|].
  assert (Hst : match @PciDoe.libspdm_transport_pci_doe_encode_message default_build toy_hal
    toy_connection (Some toy_sid) false false 3 toy_message 9 88 (zeros 100) 5 with
    | Ret te' => te_status te' = LIBSPDM_STATUS_SUCCESS | Fault _ => False end)
    by (vm_compute; reflexivity).
  rewrite E in Hst.
  destruct Hs as [[[Hs _]|[Hs _]]|(_ & _ & p & Hp & td & D & _ & _ & _ & _ & Hm & _)];
    [rewrite Hst in Hs; discriminate|rewrite Hst in Hs; discriminate|].
  exists te, td, p. split; [exact E|]. split; [exact Hp|]. split; [exact D|exact Hm].
Defined.



(** A well-formed data object of a type: the header for its own size, in
    doublewords, and a payload. *)
Definition doe_object (type : Z) (frame : list Z) : Prop :=
  ∃ payload, frame = doe_header_of type (blen frame) ++ payload ∧
    8 < blen frame ≤ PciDoe.PCI_DOE_MAX_SIZE_IN_BYTE ∧ blen frame mod 4 = 0.

Lemma sub_le_bytes m off n k v : bytes_ok m → in_range m off n = true → n = Z.of_nat k →
  le_val (sub m off n) = v → sub m off n = le_bytes k v.
Proof.
  intros Hb Hr -> <-. rewrite <- (le_bytes_val (sub m off (Z.of_nat k))) at 1 by auto with word.
  f_equal. rewrite length_sub by done. lia.
Qed.

Lemma doe_object_intro type frame : bytes_ok frame → 8 < blen frame ≤ PciDoe.PCI_DOE_MAX_SIZE_IN_BYTE →
  blen frame mod 4 = 0 → le_val (sub frame 0 2) = PciDoe.PCI_DOE_VENDOR_ID_PCISIG →
  le_val (sub frame 2 1) = type → le_val (sub frame 3 1) = 0 →
  le_val (sub frame 4 4) = doe_length (blen frame) → doe_object type frame.
Proof.
  intros Hb Hn Hm H1 H2 H3 H4. exists (sub frame 8 (blen frame - 8)). split; [|done].
  pose proof (sub_all frame) as Hall.
  replace (blen frame) with (2 + (1 + (1 + (4 + (blen frame - 8))))) in Hall at 1 by lia.
  rewrite !sub_app in Hall by lia. rewrite <- Hall at 1.
  unfold doe_header_of, doe_prefix. rewrite <- !app_assoc.
  rewrite (sub_le_bytes frame 0 2 2 PciDoe.PCI_DOE_VENDOR_ID_PCISIG Hb) by (done || range).
  rewrite (sub_le_bytes frame (0 + 2) 1 1 type Hb) by (done || range).
  rewrite (sub_le_bytes frame (0 + 2 + 1) 1 1 0 Hb) by (done || range).
  rewrite (sub_le_bytes frame (0 + 2 + 1 + 1) 4 4 (doe_length (blen frame)) Hb) by (done || range). done.
Qed.

Lemma doe_success_inv `{BuildConfig} frame u : bytes_ok frame → 8 < blen frame →
  PciDoe.libspdm_pci_doe_decode_message (Some None) (blen frame) frame 0 = Ret u →
  u_status u = LIBSPDM_STATUS_SUCCESS →
  doe_object PciDoe.PCI_DOE_DATA_OBJECT_TYPE_SPDM frame ∨
  doe_object PciDoe.PCI_DOE_DATA_OBJECT_TYPE_SECURED_SPDM frame ∧ 12 < blen frame.
Proof.
  intros Hb Hn. unfold PciDoe.libspdm_pci_doe_decode_message.
  change PciDoe.sizeof_pci_doe_data_object_header with 8.
  replace (8 <? blen frame) with true by lia. replace (blen frame <=? 8) with false by lia.
  rewrite assert_true. cbn [mbind exec_bind].
  rewrite (FramingFacts.load_le_in 2 frame) by (change (Z.of_nat 2) with 2; range).
  cbn [mbind exec_bind]. change (Z.of_nat 2) with 2.
  destruct (Z.eqb_spec (le_val (sub frame 0 2)) PciDoe.PCI_DOE_VENDOR_ID_PCISIG) as [Hv|];
    [|cbn [negb]; by intros [= <-]].
  rewrite (FramingFacts.load_le_in 1 frame) by (change (Z.of_nat 1) with 1; range).
  cbn [negb mbind exec_bind]. change (Z.of_nat 1) with 1. change (0 + 2) with 2.
  set (t := le_val (sub frame 2 1)). unfold read_message_type. rewrite assert_true.
  destruct (check_length_safe frame 0 (blen frame)) as (r & Hr & Hc); [lia..|done|].
  assert (Hobj : r = None → doe_object t frame).
  { intros ->. destruct Hc as (? & ? & ? & ?). by apply doe_object_intro. }
  destruct (Z.eqb_spec t PciDoe.PCI_DOE_DATA_OBJECT_TYPE_SECURED_SPDM) as [Ht|];
    [|destruct (Z.eqb_spec t PciDoe.PCI_DOE_DATA_OBJECT_TYPE_SPDM) as [Ht|];
      [|cbn [mbind exec_bind]; by intros [= <-]]]; cbn [is_secured negb mbind exec_bind].
  - destruct (Z.leb_spec (blen frame) (8 + 4)); [by intros [= <-]|].
    cbn [mbind exec_bind]. rewrite Hr. cbn [mbind exec_bind].
    destruct r as [st|]; [intros [= <-] Hst; cbn in Hst; by rewrite Hst in Hc|].
    intros _ _. right. rewrite <- Ht. split; [by apply Hobj|lia].
  - rewrite Hr. cbn [mbind exec_bind].
    destruct r as [st|]; [intros [= <-] Hst; cbn in Hst; by rewrite Hst in Hc|].
    intros _ _. left. rewrite <- Ht. by apply Hobj.
Qed.

(** C39: the PCI DOE decoder accepts exactly the well-formed SPDM and secured SPDM
    data objects: for every received frame longer than a header it returns, and
    it returns success if and only if the frame is the PCI-SIG header of its own
    size (in doublewords, 0 for the largest size) with a zero reserved byte and a
    payload, where a secured object has more than a session id. *)
Theorem doe_accepts_iff `{BuildConfig} (frame : list Z)
    (Hb : bytes_ok frame) (Hn : 8 < blen frame) (H63 : blen frame < 2 ^ 63) :
  ∃ u, PciDoe.libspdm_pci_doe_decode_message (Some None) (blen frame) frame 0 = Ret u ∧
    (u_status u = LIBSPDM_STATUS_SUCCESS ↔
     doe_object PciDoe.PCI_DOE_DATA_OBJECT_TYPE_SPDM frame ∨
     doe_object PciDoe.PCI_DOE_DATA_OBJECT_TYPE_SECURED_SPDM frame ∧ 12 < blen frame) ∧
    (u_status u ≠ LIBSPDM_STATUS_SUCCESS → LIBSPDM_STATUS_IS_ERROR (u_status u) = true).
Proof.
  destruct (doe_decode_safe None (blen frame) frame 0) as (u & Hu & Hc); [lia|done|lia|done|done|].
  exists u. split; [done|]. split; [|destruct Hc as [(-> & _)|(? & _)]; done].
  split.
  - intros Hst. eapply doe_success_inv; [exact Hb|done|exact Hu|exact Hst].
  - intros Hobj. enough (Hd : ∃ s p, PciDoe.libspdm_pci_doe_decode_message (Some None) (blen frame)
      frame 0 = Ret (Unframed LIBSPDM_STATUS_SUCCESS s p)).
    { destruct Hd as (s & p & Hd). rewrite Hu in Hd. by injection Hd as ->. }
    assert (∃ b payload, frame = doe_header b (blen frame) ++ payload ∧
      blen frame ≤ PciDoe.PCI_DOE_MAX_SIZE_IN_BYTE ∧ blen frame mod 4 = 0 ∧
      (b = true → 12 < blen frame)) as (b & payload & Hf & Hmax & Hm4 & Hlong)
      by (destruct Hobj as [(p & ? & ? & ?)|[(p & ? & ? & ?) ?]];
          [exists false, p|exists true, p]; split_and!; done || lia).
    assert (Hlp : blen frame = 8 + blen payload).
    { apply (f_equal length) in Hf. rewrite length_app in Hf.
      change (length (doe_header b (blen frame))) with 8%nat in Hf. lia. }
    pose proof (doe_decode_ok None frame 0 b payload) as Hd. cbv zeta in Hd. rewrite <- Hlp in Hd.
    eexists _, _.
    apply Hd; [lia|lia|exact Hmax|by rewrite sub_all|lia|intros ->; specialize (Hlong eq_refl); lia|].
    change PciDoe.PCI_DOE_MAX_SIZE_IN_BYTE with 1048576 in *.
    apply doe_padded_mult; [lia|].
    replace (blen payload) with (blen frame + (-2) * 4) by lia. by rewrite Z.mod_add.
Qed.

Lemma doe_accepts_iff_witness :
  ∃ u, @PciDoe.libspdm_pci_doe_decode_message default_build (Some None) 12
         [1; 0; 1; 0; 3; 0; 0; 0; 16; 132; 0; 0] 0 = Ret u ∧ u_status u = LIBSPDM_STATUS_SUCCESS.
Proof.
  destruct (@doe_accepts_iff default_build [1; 0; 1; 0; 3; 0; 0; 0; 16; 132; 0; 0])
    as (u & Hu & Hiff & _); [repeat constructor; cbn; lia|cbn; lia|cbn; lia|].
  exists u. split; [exact Hu|]. apply Hiff. left. exists [16; 132; 0; 0].
  split; [reflexivity|]. split; [by vm_compute|reflexivity].
Defined.

(** DOE discovery round-trips: for a discovery payload of four bytes the
    encoder produces a frame from which the request decoders read the index and
    the version, and the response decoder reads the protocol and the next index;
    of the 16-bit vendor id the response decoder delivers only the low byte. *)
Theorem doe_discovery_roundtrip `{BuildConfig} (mem : list Z) (off cap b0 b1 b2 b3 : Z)
    (Hm : sub mem off 4 = [b0; b1; b2; b3]) (Ho : 8 ≤ off) (Hl : off + 4 ≤ blen mem)
    (Hc : 12 ≤ cap) :
  ∃ mem', PciDoe.libspdm_pci_doe_encode_discovery 4 mem off cap =
      Ret (Framed LIBSPDM_STATUS_SUCCESS mem' (Some (off - 8)) 12) ∧
    let frame := sub mem' (off - 8) 12 in
    PciDoe.libspdm_pci_doe_decode_discovery_request 12 frame true =
      Ret (LIBSPDM_STATUS_SUCCESS, Some b0) ∧
    PciDoe.libspdm_pci_doe_decode_discovery_request_version 12 frame true =
      Ret (LIBSPDM_STATUS_SUCCESS, Some b1) ∧
    PciDoe.libspdm_pci_doe_decode_discovery_response 12 frame true true true =
      Ret (LIBSPDM_STATUS_SUCCESS, (Some b0, Some b2, Some b3)).
Proof.
  assert (Hp : doe_padded 4 = 4) by (by vm_compute).
  destruct (doe_encode_discovery_ok 4 mem off cap) as (mem' & E & _ & Hs); rewrite ?Hp in *;
    [lia|lia|lia|lia|by vm_compute|].
  change (8 + 4) with 12 in *. rewrite Hm in Hs. exists mem'. split; [exact E|].
  cbv zeta. rewrite Hs.
  change (doe_header_of PciDoe.PCI_DOE_DATA_OBJECT_TYPE_DOE_DISCOVERY 12 ++ [b0; b1; b2; b3] ++
    zeros (4 - 4)) with [1; 0; 0; 0; 3; 0; 0; 0; b0; b1; b2; b3].
  clear. unfold PciDoe.libspdm_pci_doe_decode_discovery_request_version,
    PciDoe.libspdm_pci_doe_decode_discovery_request,
    PciDoe.libspdm_pci_doe_decode_discovery_response, LIBSPDM_ASSERT.
  destruct LIBSPDM_DEBUG_ASSERT_ENABLE; split_and!;
    [destruct b0|destruct b1|destruct b0, b2, b3|destruct b0|destruct b1|destruct b0, b2, b3];
    reflexivity.
Qed.

Lemma doe_discovery_roundtrip_witness :
  ∃ mem', @PciDoe.libspdm_pci_doe_encode_discovery default_build 4 (zeros 8 ++ [0x86; 0x80; 1; 2]) 8 12 =
      Ret (Framed LIBSPDM_STATUS_SUCCESS mem' (Some 0) 12) ∧
    @PciDoe.libspdm_pci_doe_decode_discovery_response default_build 12 (sub mem' 0 12) true true true =
      Ret (LIBSPDM_STATUS_SUCCESS, (Some 0x86, Some 1, Some 2)).
Proof.
  destruct (@doe_discovery_roundtrip default_build (zeros 8 ++ [0x86; 0x80; 1; 2]) 8 12 0x86 0x80 1 2)
    as (mem' & E & _ & _ & Hr); [reflexivity|lia|by vm_compute|lia|].
  exists mem'. split; [exact E|exact Hr].
Defined.

End TransportProps.
