(* ===== verification/StorageProps.v ===== *)
(** * StorageProps: properties of the storage transport

    Sealing in place against sealing from a separate buffer, the space check of
    the descriptor encoder, round trips of sessions and of management commands,
    and safety of decoding. *)

From S2P Require Import Prelude SpdmDefs CommonSupport CryptLib SecuredContext.
From S2P Require Import SecuredMessage SpdmContext SessionTable Transport InPlace.
From S2P Require Import Bindings Storage TransportProps.

Module StorageFacts.
Import ContextFacts NonceFacts PacketFacts RunFacts TableFacts TransportFacts FramingFacts.
Import InPlaceFacts TransportProps.

(** The bytes of the descriptor block: the count, the descriptor at offset 3, and
    one more byte that no field uses. *)
Definition descriptor_block (status size : Z) : list Z :=
  [1; 0; 0; 0; 4; u8 status; 0] ++ le_bytes 4 size ++ [36; 0; 0; 0; 0; 0; 0; 0; 0].

Lemma length_descriptor_block st size : length (descriptor_block st size) = 20%nat.
Proof. reflexivity. Qed.

(** The header in front of a secured message. *)
Definition header_room (rq : bool) : Z := if rq then 7 else 4.

Lemma storage_cb : cb_ok storage_callbacks.
Proof.
  split; [|by vm_compute].
  intros s. change (get_sequence_number storage_callbacks s) with (take 2 (le_bytes 8 s)).
  split; [by rewrite length_take|auto with word].
Qed.

Lemma storage_padding : max_padding storage_callbacks = 32.
Proof. reflexivity. Qed.

Lemma storage_seq_length s : blen (get_sequence_number storage_callbacks s) = 2.
Proof. reflexivity. Qed.

(** Filling in the fields of the zeroed block. *)
Lemma block_fields st size :
  upd (upd (upd (upd (upd (zeros 20) 0 (le_bytes 1 1)) 4 (le_bytes 1 4)) 5 (le_bytes 1 st))
         7 (le_bytes 4 size)) 11 (le_bytes 4 36) = descriptor_block st size.
Proof.
  unfold descriptor_block. change (le_bytes 1 st) with [u8 st]. generalize (u8 st) as s.
  cbn [le_bytes]. generalize (size mod 256) as a, (size / 256 mod 256) as b,
    (size / 256 / 256 mod 256) as c, (size / 256 / 256 / 256 mod 256) as d. reflexivity.
Qed.

Lemma store_out m off bs : blen m < off + blen bs → store m off bs = Fault OutOfBounds.
Proof. intros Hl. unfold store, in_range. by replace (_ && _) with false by lia. Qed.

Lemma upd_keeps m p bs n : blen m = n → 0 ≤ p → p + blen bs ≤ n → blen (upd m p bs) = n.
Proof. intros <- Hp Hb. by rewrite length_upd by (rewrite in_range_iff; lia). Qed.

(** Writing the descriptor block, in front of whatever follows. *)
Lemma fill_block {A} m p code size (k : list Z → exec A) :
  0 ≤ p → p + 20 ≤ blen m →
  ∃ m', (m ← store m p (zeros 20); m ← store m p (le_bytes 1 1);
         m ← store m (p + 3 + desc_type_off) (le_bytes 1 4);
         m ← store m (p + 3 + desc_status_off) (le_bytes 1 code);
         m ← store m (p + 3 + desc_length_off) (le_bytes 4 size);
         m ← store m (p + 3 + desc_offset_off) (le_bytes 4 36); k m) = k m' ∧
    length m' = length m ∧ sub m' p 20 = descriptor_block code size ∧
    ∀ o n, 0 ≤ o → o + n ≤ p ∨ p + 20 ≤ o → sub m' o n = sub m o n.
Proof.
  intros Hp Hm. unfold desc_type_off, desc_status_off, desc_length_off, desc_offset_off.
  set (n := blen m) in *. assert (L0 : blen m = n) by done.
  assert (Hin : ∀ (m : list Z) q (bs : list Z), blen m = n → p ≤ q → q + blen bs ≤ p + 20 →
    in_range m q (blen bs) = true) by (intros m' q bs Hl; rewrite in_range_iff; lia).
  assert (Hst : ∀ (m : list Z) q (bs : list Z), blen m = n → p ≤ q → q + blen bs ≤ p + 20 →
    store m q bs = Ret (upd m q bs) ∧ blen (upd m q bs) = n)
    by (intros m' q bs Hl ? ?; split; [apply store_in, Hin|apply upd_keeps]; lia).
  assert (Hdis : ∀ (m : list Z) q (bs : list Z) o n', blen m = n → p ≤ q →
    q + blen bs ≤ p + 20 → 0 ≤ o → o + n' ≤ p ∨ p + 20 ≤ o → sub (upd m q bs) o n' = sub m o n')
    by (intros m' q bs o n' Hl ? ? ? ?; apply sub_upd_disjoint; [apply Hin|..]; lia).
  assert (Hins : ∀ (m : list Z) q (bs : list Z), blen m = n → p ≤ q → q + blen bs ≤ p + 20 →
    sub (upd m q bs) p 20 = upd (sub m p 20) (q - p) bs)
    by (intros m' q bs Hl ? ?; apply sub_upd_inside; [apply Hin|..]; lia).
  destruct (Hst m p (zeros 20)) as [-> L1]; [done|lia|len_simpl; lia|]. cbn [mbind exec_bind].
  destruct (Hst _ p (le_bytes 1 1) L1) as [-> L2]; [lia|len_simpl; lia|]. cbn [mbind exec_bind].
  destruct (Hst _ (p + 3 + 1) (le_bytes 1 4) L2) as [-> L3]; [lia|len_simpl; lia|].
  cbn [mbind exec_bind].
  destruct (Hst _ (p + 3 + 2) (le_bytes 1 code) L3) as [-> L4]; [lia|len_simpl; lia|].
  cbn [mbind exec_bind].
  destruct (Hst _ (p + 3 + 4) (le_bytes 4 size) L4) as [-> L5]; [lia|len_simpl; lia|].
  cbn [mbind exec_bind].
  destruct (Hst _ (p + 3 + 8) (le_bytes 4 36) L5) as [-> L6]; [lia|len_simpl; lia|].
  cbn [mbind exec_bind]. eexists. split; [reflexivity|]. split; [lia|]. split.
  - rewrite !Hins by (assumption || (clear; len_simpl; lia)). rewrite <- block_fields.
    replace (p + 3 + 8 - p) with 11 by lia. replace (p + 3 + 4 - p) with 7 by lia.
    replace (p + 3 + 2 - p) with 5 by lia. replace (p + 3 + 1 - p) with 4 by lia.
    rewrite Z.sub_diag. do 5 f_equal.
    unfold upd. change (Z.to_nat 0) with 0%nat. rewrite take_0. cbn [app].
    rewrite drop_ge; [apply app_nil_r|]. rewrite length_sub by range. rewrite length_zeros. lia.
  - intros o n' Ho Hd. rewrite !Hdis; solve [done | assumption | clear -Ho Hd; len_simpl; lia].
Qed.

(** Writing a virtual header. *)
Lemma store_header {A} buf spec (k : list Z → exec A) :
  3 ≤ blen buf →
  ∃ m, (m ← store buf 0 (zeros 3); m ← store m 0 (le_bytes 1 0xE8);
        m ← store m 1 (le_bytes 2 spec); k m) = k m ∧ sub m 0 3 = 0xE8 :: le_bytes 2 spec.
Proof.
  intros Hb. assert (Hr : ∀ (m bs : list Z) p, 0 ≤ p → p + blen bs ≤ 3 → length m = length buf →
    in_range m p (blen bs) = true) by (intros m bs p ? ? Hl; rewrite in_range_iff; lia).
  assert (R1 : in_range buf 0 (blen (zeros 3)) = true) by (apply Hr; [lia|by vm_compute|done]).
  rewrite store_in by done. cbn [mbind exec_bind]. set (b1 := upd buf 0 (zeros 3)).
  assert (L1 : length b1 = length buf) by (by apply length_upd).
  assert (R2 : in_range b1 0 (blen (le_bytes 1 0xE8)) = true) by (apply Hr; [lia|by vm_compute|done]).
  rewrite store_in by done. cbn [mbind exec_bind].
  assert (L2 : length (upd b1 0 (le_bytes 1 0xE8)) = length buf) by (by rewrite length_upd).
  rewrite store_in by (apply Hr; [lia|len_simpl; lia|done]). cbn [mbind exec_bind].
  eexists. split; [reflexivity|].
  pose proof (upd_upd_app b1 0 (le_bytes 1 0xE8) (le_bytes 2 spec)) as E.
  change (0 + blen (le_bytes 1 0xE8)) with 1 in E.
  assert (R3 : in_range b1 0 (blen (le_bytes 1 0xE8 ++ le_bytes 2 spec)) = true)
    by (apply Hr; [lia|len_simpl; lia|done]).
  rewrite E by done. by apply sub_upd_same in R3.
Qed.

(** The management commands are read back as sent, for all four connections. *)
Lemma management_cmd_roundtrip `{BuildConfig} dir op conn size buf :
  op = SPDM_STORAGE_OPERATION_CODE_DISCOVERY ∨ op = SPDM_STORAGE_OPERATION_CODE_PENDING_INFO →
  dir = LIBSPDM_STORAGE_CMD_DIRECTION_IF_SEND ∨ dir = LIBSPDM_STORAGE_CMD_DIRECTION_IF_RECV →
  0 ≤ conn ≤ 3 → 32 ≤ size ≤ blen buf →
  ∃ m alloc, libspdm_transport_storage_encode_management_cmd dir op conn size buf =
      Ret (LIBSPDM_STATUS_SUCCESS, m, 3, alloc) ∧
    libspdm_transport_storage_decode_management_cmd 3 (sub m 0 3) =
      Ret (LIBSPDM_STATUS_SUCCESS, Some op) ∧
    (alloc = None ↔ dir = LIBSPDM_STORAGE_CMD_DIRECTION_IF_SEND).
Proof.
  intros Hop Hdir Hconn Hsz.
  assert (Hc : conn = 0 ∨ conn = 1 ∨ conn = 2 ∨ conn = 3) by lia.
  unfold libspdm_transport_storage_encode_management_cmd. cbv zeta.
  unfold sizeof_storage_transport_virtual_header, sizeof_storage_discovery_response,
    sizeof_storage_pending_info_response, SPDM_STORAGE_SECURITY_PROTOCOL_DMTF.
  replace (size =? 0) with false by lia. replace (size <? 3) with false by lia.
  replace (size <? 32) with false by lia. replace (size <? 12) with false by lia.
  replace (negb (Z.land conn (Z.lnot 3) =? 0)) with false
    by (by destruct Hc as [-> | [-> | [-> | ->]]]).
  unfold LIBSPDM_STORAGE_CMD_DIRECTION_IF_SEND, LIBSPDM_STORAGE_CMD_DIRECTION_IF_RECV,
    SPDM_STORAGE_OPERATION_CODE_DISCOVERY, SPDM_STORAGE_OPERATION_CODE_PENDING_INFO in *.
  destruct Hop as [-> | ->], Hdir as [-> | ->]; cbn [Z.eqb Pos.eqb negb orb];
    (match goal with |- context [store _ 1 (le_bytes 2 ?spec)] =>
      match goal with |- context [Ret (LIBSPDM_STATUS_SUCCESS, _, 3, ?al)] =>
        destruct (store_header buf spec (λ m, Ret (LIBSPDM_STATUS_SUCCESS, m, 3, al)))
          as (m & Em & Sm); [lia|]; exists m, al end end);
    (split; [exact Em|]); rewrite Sm; (split; [|by cbn]);
    unfold libspdm_transport_storage_decode_management_cmd;
    change (sizeof_storage_transport_virtual_header <=? 3) with true; rewrite assert_true;
    by destruct Hc as [-> | [-> | [-> | ->]]].
Qed.

Section encode.
Context `{BuildConfig}.
Implicit Types ctx : libspdm_context_t.

(** The space the encoder has for the message, and the space it checks for. *)
Lemma secured_encode_cases ctx size msg off tsize buf rq :
  let room := tsize - header_room rq in
  0 ≤ size < 2 ^ 32 → 0 ≤ off → off + size ≤ blen msg → 0 ≤ room → tsize = blen buf →
  tsize < 2 ^ 62 →
  let r := libspdm_storage_secured_message_encode ctx size msg off tsize buf rq in
  if room <? 20 + size then ∃ s, r = Ret s ∧ ss_status s = LIBSPDM_STATUS_INVALID_MSG_SIZE
  else if room <? 32 + size then r = Fault OutOfBounds
  else ∃ buf', r = Ret (StorageSecured LIBSPDM_STATUS_SUCCESS buf' (header_room rq + 12)
                          (size + 20) (header_room rq) room) ∧
    length buf' = length buf ∧ sub buf' 0 (header_room rq) = zeros (header_room rq) ∧
    sub buf' (header_room rq + 12) (20 + size) =
      descriptor_block (if rq then 0 else error_code (sc_last_spdm_error ctx)) (u32 size) ++
      sub msg off size.
Proof.
  intros room Hsz Ho Hm Hroom Hb Ht r. subst r room.
  unfold libspdm_storage_secured_message_encode. cbv zeta.
  change (LIBSPDM_STORAGE_SECURED_MESSAGE_DESCRIPTOR_MIN_SIZE) with 20.
  assert (Hh : (if rq then sizeof_storage_transport_virtual_header else 0) + 4 = header_room rq)
    by (by destruct rq). rewrite Hh. set (h := header_room rq) in *.
  assert (Hhr : 4 ≤ h ≤ 7) by (subst h; destruct rq; cbn; lia).
  rewrite store_in by (rewrite in_range_iff, length_zeros; lia). cbn [mbind exec_bind].
  assert (Hz : upd buf 0 (zeros tsize) = zeros tsize).
  { unfold upd. change (Z.to_nat 0) with 0%nat. rewrite take_0, length_zeros. cbn [app].
    rewrite drop_ge by lia. apply app_nil_r. }
  rewrite Hz. set (b0 := zeros tsize). assert (L0 : blen b0 = tsize)
    by (subst b0; rewrite length_zeros; lia).
  rewrite !(size_t_small (tsize - h)), !(size_t_small (20 + size)) by lia.
  destruct (Z.ltb_spec (tsize - h) (20 + size)) as [E|E]; [by eexists|].
  rewrite load_in by range. cbn [mbind exec_bind].
  rewrite (size_t_small (tsize - h - 20)) by lia.
  replace (tsize - h - 20 <? size) with false by lia. rewrite assert_true. cbn [mbind exec_bind].
  set (d := sub msg off size). assert (Ld : blen d = size) by (subst d; rewrite length_sub by range; lia).
  change (4 + 2 + 2 + 2 + 2) with 12.
  destruct (Z.ltb_spec (tsize - h) (32 + size)) as [E2|E2]; [by rewrite store_out by lia|].
  assert (R0 : in_range b0 (h + 12 + 20) (blen d) = true) by (rewrite in_range_iff; lia).
  rewrite store_in by done. cbn [mbind exec_bind]. set (b1 := upd b0 (h + 12 + 20) d).
  assert (L1 : blen b1 = tsize) by (by apply upd_keeps; lia).
  set (code := if rq then 0 else _).
  destruct (fill_block b1 (h + 12) code (u32 size) (λ b, Ret (StorageSecured
    LIBSPDM_STATUS_SUCCESS b (h + 12) (size_t (size + 20)) h (tsize - h)))) as (b7 & E7 & L7 & S7 & Hout); [lia|lia|].
  exists b7. split; [etransitivity; [exact E7|by rewrite size_t_small by lia]|]. split; [lia|].
  split.
  { rewrite Hout by lia. subst b1. rewrite sub_upd_disjoint by (done || lia). subst b0.
    unfold sub, zeros. rewrite drop_0, take_replicate. f_equal. lia. }
  rewrite sub_app by lia. rewrite S7. f_equal. rewrite Hout by lia. subst b1. rewrite <- Ld.
  by apply sub_upd_same.
Qed.

(** ** Reading the descriptor back *)

Lemma block_load mem o code size rest (j : nat) k :
  sub mem o (20 + blen rest) = descriptor_block code size ++ rest → 0 ≤ o →
  o + 20 + blen rest ≤ blen mem → 0 ≤ k → k + Z.of_nat j ≤ 20 →
  load_le j mem (o + k) = Ret (le_val (sub (descriptor_block code size) k (Z.of_nat j))).
Proof.
  intros Hs Ho Hm Hk Hj. rewrite load_le_in by range. do 2 f_equal.
  rewrite <- (sub_sub mem o (20 + blen rest)) by lia. rewrite Hs. unfold sub.
  rewrite drop_app_le by (rewrite length_descriptor_block; lia).
  by rewrite take_app_le by (rewrite length_drop, length_descriptor_block; lia).
Qed.

Lemma block_length code size : is_u32 size →
  le_val (sub (descriptor_block code size) 7 4) = size.
Proof.
  intros Hs. change (sub (descriptor_block code size) 7 4) with (le_bytes 4 size).
  rewrite le_val_bytes. by apply Z.mod_small.
Qed.

Lemma secured_decode_ok ctx sid mem o rq code m :
  sub mem o (20 + blen m) = descriptor_block code (blen m) ++ m → 0 ≤ o →
  o + 20 + blen m ≤ blen mem → blen m < 2 ^ 32 →
  libspdm_storage_secured_message_decode ctx sid (20 + blen m) mem o rq =
    Ret (if negb rq && negb (u8 code =? 0)
         then (LIBSPDM_STATUS_ERROR_PEER, ctx, o, 20 + blen m)
         else (LIBSPDM_STATUS_SUCCESS, ctx, o + 20, blen m)).
Proof.
  intros Hs Ho Hm Hn. pose proof (λ j k, block_load mem o code (blen m) m j k Hs Ho Hm) as Hld.
  unfold libspdm_storage_secured_message_decode, desc_type_off, desc_length_off, desc_offset_off.
  change LIBSPDM_STORAGE_SECURED_MESSAGE_DESCRIPTOR_MIN_SIZE with 20.
  replace (20 + blen m <? 20) with false by lia.
  pose proof (Hld 1%nat 0) as H1. rewrite Z.add_0_r in H1. rewrite H1 by lia.
  cbn [mbind exec_bind]. change (le_val (sub (descriptor_block code (blen m)) 0 (Z.of_nat 1))) with 1.
  change (Z.to_nat 1) with 1%nat. cbn [Z.eqb Z.ltb Z.compare Pos.compare Pos.compare_cont].
  change (1 =? 0) with false. change (1 <? 1) with false. cbv iota. cbn [check_descriptors].
  unfold desc_type_off, desc_length_off, desc_offset_off, desc_status_off.
  rewrite <- !Z.add_assoc. rewrite (Hld 1%nat (3 + 1)) by lia. cbn [mbind exec_bind].
  change (le_val (sub (descriptor_block code (blen m)) (3 + 1) (Z.of_nat 1))) with 4.
  change (4 =? SPDM_STORAGE_SECURED_MSG_DESCRIPTOR_SPDM) with true. cbv iota.
  rewrite (Hld 4%nat (3 + 4)) by lia. cbn [mbind exec_bind].
  change (3 + 4) with 7. change (Z.of_nat 4) with 4. rewrite block_length by (unfold is_u32; lia).
  replace (20 + blen m <? blen m) with false by lia.
  rewrite (Hld 4%nat (3 + 8)) by lia. cbn [mbind exec_bind].
  change (le_val (sub (descriptor_block code (blen m)) (3 + 8) (Z.of_nat 4))) with 36.
  change (36 <? LIBSPDM_STORAGE_SECURED_MESSAGE_NUM_DESCRIPTORS_OFFSET) with false. cbv iota.
  change (u32 (36 - LIBSPDM_STORAGE_SECURED_MESSAGE_NUM_DESCRIPTORS_OFFSET)) with 20.
  replace (20 + blen m <? 20) with false by lia.
  rewrite (Hld 1%nat (3 + 2)) by lia. cbn [mbind exec_bind].
  change (le_val (sub (descriptor_block code (blen m)) (3 + 2) (Z.of_nat 1))) with (u8 code + 256 * 0).
  rewrite Z.add_0_r. change SPDM_STORAGE_SECURED_MSG_ENCAPSULATED_STATUS_SUCCESS with 0.
  case_if; [done|]. cbn [mbind exec_bind]. by replace (20 + blen m - 20) with (blen m) by lia.
Qed.

(** ** Frames *)

(** What stands in front of the record. *)
Definition frame_header (rq : bool) : list Z :=
  if rq then [0xE8; 24; 0; 0; 0; 0; 0] else zeros 4.

Lemma length_frame_header rq : blen (frame_header rq) = header_room rq.
Proof. by destruct rq. Qed.

Lemma storage_frame_ok sid buf wire cap :
  is_u32 sid → sub buf 7 (blen wire) = wire → 4 ≤ blen wire → sub wire 0 4 = le_bytes 4 sid →
  7 + blen wire ≤ cap → cap ≤ blen buf → cap < 2 ^ 62 →
  ∃ mem', libspdm_storage_encode_message (Some sid) 0 (blen wire + 4) buf 3 cap =
      Ret (Framed LIBSPDM_STATUS_SUCCESS mem' (Some 0) (7 + blen wire)) ∧
    sub mem' 0 (7 + blen wire) = frame_header true ++ wire.
Proof.
  intros Hsid Hs Hw4 Hhd Hcap Hbuf H62. unfold libspdm_storage_encode_message.
  change sizeof_storage_transport_virtual_header with 3.
  replace (cap =? 0) with false by lia. replace (blen wire + 4 =? 0) with false by lia.
  cbn [orb]. replace (3 <=? cap) with true by lia. rewrite assert_true. cbn [mbind exec_bind].
  rewrite size_t_small by lia. replace (cap <? blen wire + 4 + 3) with false by lia.
  change (negb (Z.land 0 (Z.lnot 3) =? 0)) with false. cbv iota.
  change (le_bytes 1 SPDM_STORAGE_SECURITY_PROTOCOL_DMTF) with [0xE8].
  change (le_bytes 2 (protocol_specific SPDM_STORAGE_OPERATION_CODE_SECURED_MESSAGE 0))
    with [24; 0].
  change (zeros LIBSPDM_STORAGE_SECURED_MESSAGE_HEADER_RESERVED_BYTES) with [0; 0; 0; 0].
  rewrite store_in by range. cbn [mbind exec_bind]. change (3 - 3) with 0.
  assert (Hr : ∀ bs : list Z, blen bs ≤ 7 → in_range buf 0 (blen bs) = true)
    by (intros bs Hb; rewrite in_range_iff; lia).
  assert (L1 : length (upd buf 0 [0xE8]) = length buf) by (apply length_upd, Hr; cbn; lia).
  rewrite store_in by (rewrite in_range_iff, L1; cbn; lia). cbn [mbind exec_bind].
  change (0 + 1) with (0 + blen [0xE8]). rewrite upd_upd_app by (apply Hr; cbn; lia).
  cbn [app]. assert (L2 : length (upd buf 0 [0xE8; 24; 0]) = length buf)
    by (apply length_upd, Hr; cbn; lia).
  rewrite store_in by (rewrite in_range_iff, L2; cbn; lia). cbn [mbind exec_bind].
  pose proof (upd_upd_app buf 0 [0xE8; 24; 0] [0; 0; 0; 0]) as E3.
  change (0 + blen [0xE8; 24; 0]) with 3 in E3. rewrite E3 by (apply Hr; cbn; lia).
  cbn [app]. set (m := upd buf 0 _).
  assert (L3 : length m = length buf) by (apply length_upd, Hr; cbn; lia).
  assert (Hm : ∀ o n, 7 ≤ o → sub m o n = sub buf o n)
    by (intros o n Ho; apply sub_upd_disjoint; [apply Hr; cbn; lia|lia|cbn; lia]).
  change (3 + LIBSPDM_STORAGE_SECURED_MESSAGE_HEADER_RESERVED_BYTES) with 7.
  rewrite load_le_in by (rewrite in_range_iff, L3; lia). cbn [mbind exec_bind].
  change (Z.of_nat 4) with 4. rewrite Hm by lia.
  pose proof (sub_sub buf 7 (blen wire) 0 4) as Hss. rewrite Z.add_0_r in Hss.
  rewrite <- Hss, Hs, Hhd, le_val_bytes by lia.
  replace (sid mod _) with sid by (symmetry; apply Z.mod_small, Hsid).
  rewrite Z.eqb_refl, assert_true. cbn [mbind exec_bind negb].
  exists m. split; [by replace (7 + blen wire) with (blen wire + 4 + 3) by lia|].
  rewrite sub_app by lia. change (0 + 7) with 7. rewrite (Hm 7), Hs by lia. f_equal.
Qed.

End encode.

(** ** Sessions *)

(** A session whose context can carry traffic through this transport. *)
Definition storage_live `{BuildConfig} (ctx : libspdm_context_t) (sid : Z)
    (c : libspdm_secured_message_context_t) (alg : aead_alg) : Prop :=
  libspdm_get_secured_message_context_via_session_id ctx sid = Some c ∧ ready c alg ∧
  major_version_ok c storage_callbacks = true.

(** The message the record seals. *)
Definition described (ctx : libspdm_context_t) (rq : bool) (m : list Z) : list Z :=
  descriptor_block (if rq then 0 else error_code (sc_last_spdm_error ctx)) (blen m) ++ m.

Section session.
Context `{BuildConfig, CryptoHal, !CryptoHalOk}.
Implicit Types ctx : libspdm_context_t.

(** The record in place: behind [h] bytes of the buffer, with the message
    twelve bytes into it. *)
Lemma seal_in_place c sid rq size buf h alg key salt seqn rng :
  ready c alg → major_version_ok c storage_callbacks = true →
  select_keys c rq = Some (key, salt, seqn) → exhausted c seqn = false →
  session_type c = LIBSPDM_SESSION_TYPE_ENC_MAC ∨ LIBSPDM_DEBUG_ASSERT_ENABLE = false →
  0 ≤ size → 0 ≤ h → h + 64 + size ≤ blen buf → 50 + size < 2 ^ 16 →
  ∃ e, encode_secured_message_in_place c sid rq size (drop (Z.to_nat h) buf) 12 (blen buf - h)
         storage_callbacks rng = Ret e ∧
    e_ctx e = increment_sequence_number c rq ∧ length (e_msg e) = length (drop (Z.to_nat h) buf) ∧
    (no_seal (e_status e) ∨
     e_status e = LIBSPDM_STATUS_SUCCESS ∧ 0 ≤ e_size e ≤ blen buf - h ∧
     sealed c alg storage_callbacks rq sid (sequence_number_endian c)
       (sub (e_msg e) 0 (e_size e)) (sub buf (h + 12) size)).
Proof.
  intros Hr Hv Hk Hx Hty Hs Hh Hb H16.
  assert (Ld : blen (drop (Z.to_nat h) buf) = blen buf - h) by (rewrite length_drop; lia).
  destruct (encode_spec c storage_callbacks sid rq (drop (Z.to_nat h) buf) 12 size
    (drop (Z.to_nat h) buf) (blen buf - h) rng alg key salt seqn)
    as (e0 & E0 & C0 & L0 & Hout); try done; rewrite ?storage_padding; try lia; [apply storage_cb|].
  destruct (in_place_same c storage_callbacks sid rq size (drop (Z.to_nat h) buf) 12
    (blen buf - h) rng alg key salt seqn e0) as (e & E & [S1 S2 S3 S4 S5 S6]); try done;
    [apply storage_cb|lia|].
  exists e. split; [done|]. split; [congruence|]. split; [congruence|]. rewrite S1.
  destruct Hout as [?|(Hst & H1' & H2' & Hseal)]; [by left|right]. split; [done|].
  split; [lia|]. rewrite S6 by done. rewrite sub_drop in Hseal by lia.
  by replace (Z.of_nat (Z.to_nat h) + 12) with (h + 12) in Hseal by lia.
Qed.

Lemma storage_encode_spec ctx c sid rq size msg off tsize buf rng alg key salt seqn :
  let h := header_room rq in
  storage_live ctx sid c alg → is_u32 sid → select_keys c rq = Some (key, salt, seqn) →
  exhausted c seqn = false →
  session_type c = LIBSPDM_SESSION_TYPE_ENC_MAC ∨ LIBSPDM_DEBUG_ASSERT_ENABLE = false →
  0 ≤ off → 0 < size → off + size ≤ blen msg → h + 84 + size ≤ tsize → tsize = blen buf →
  tsize < 2 ^ 62 → 70 + size < 2 ^ 16 →
  ∃ te, libspdm_transport_storage_encode_message ctx (Some sid) false rq size msg off tsize buf
          rng = Ret te ∧
    (no_seal (te_status te) ∨
     te_status te = LIBSPDM_STATUS_SUCCESS ∧ ∃ wire,
       te_ptr te = InBuffer 0 ∧ te_size te = h + blen wire ∧ te_size te ≤ tsize ∧
       te_ctx te = put_secured_message_context ctx sid (increment_sequence_number c rq) ∧
       sub (te_buf te) 0 (te_size te) = frame_header rq ++ wire ∧
       sealed c alg storage_callbacks rq sid (sequence_number_endian c) wire
         (described ctx rq (sub msg off size))).
Proof.
  intros h (Hl & Hr & Hv) Hsid Hk Hx Hty Ho Hs Hm Hts Hb H62 H16.
  assert (Hh : 4 ≤ h ≤ 7) by (subst h; destruct rq; cbn; lia).
  unfold libspdm_transport_storage_encode_message. cbv zeta.
  replace (tsize =? 0) with false by lia. rewrite Hl.
  pose proof (secured_encode_cases ctx size msg off tsize buf rq) as Henc. cbv zeta in Henc.
  fold h in Henc. replace (tsize - h <? 20 + size) with false in Henc by lia.
  replace (tsize - h <? 32 + size) with false in Henc by lia.
  destruct Henc as (buf' & -> & Lb & Hz & Hblk); try lia. cbn [mbind exec_bind].
  cbn [ss_status ss_buf ss_message ss_message_size ss_secured_message ss_secured_message_size].
  rewrite success_not_error. replace (h + 12 - h) with 12 by lia.
  destruct (seal_in_place c sid rq (size + 20) buf' h alg key salt seqn rng)
    as (e & E & C1 & L1 & Hout); try done; try lia.
  replace (blen buf' - h) with (tsize - h) in * by lia. rewrite E. cbn [mbind exec_bind].
  destruct Hout as [Hst|(Hst & He & Hseal)];
    [rewrite (no_seal_error _ Hst); eexists; split; [reflexivity|]; by left|].
  rewrite Hst, success_not_error. set (wire := sub (e_msg e) 0 (e_size e)) in *.
  rewrite length_drop in L1.
  assert (Hw : blen wire = e_size e) by (unfold wire; rewrite length_sub by range; lia).
  set (buf'' := take (Z.to_nat h) buf' ++ e_msg e) in *.
  assert (Lb'' : length buf'' = length buf') by (unfold buf''; rewrite length_app, length_take; lia).
  assert (Hsub : sub buf'' h (blen wire) = wire).
  { unfold wire at 2. rewrite Hw. unfold buf'', sub. f_equal. rewrite drop_0, drop_app_length'; [done|].
    rewrite length_take. lia. }
  assert (Hlow : sub buf'' 0 h = zeros h).
  { rewrite <- Hz. unfold buf'', sub. rewrite !drop_0. rewrite take_app_le by (rewrite length_take; lia).
    rewrite take_take. f_equal. lia. }
  assert (Hdesc : sub buf' (h + 12) (size + 20) = described ctx rq (sub msg off size)).
  { rewrite (Z.add_comm size), Hblk. unfold described. rewrite u32_small by (unfold is_u32; lia).
    do 2 f_equal. rewrite length_sub by range. lia. }
  rewrite Hdesc in Hseal.
  destruct (sealed_head _ _ _ _ _ _ _ _ storage_cb Hseal) as [Hhead Hw22].
  change LIBSPDM_STORAGE_SECURED_MESSAGE_HEADER_RESERVED_BYTES with 4.
  rewrite (size_t_small (e_size e + 4)) by lia. rewrite <- Hw, C1.
  subst h. destruct rq; cbn [negb].
  - change (header_room true) with 7 in *.
    destruct (storage_frame_ok sid buf'' wire tsize) as (m & Ef & Hf); try done; try lia.
    change (7 - 4) with 3. rewrite Ef. cbn [mbind exec_bind f_status f_mem f_ptr f_size].
    eexists. split; [reflexivity|]. right. split; [done|]. exists wire.
    cbn [te_ptr te_size te_ctx te_buf default from_option id]. split_and!; try done. lia.
  - eexists. split; [reflexivity|]. right. split; [done|]. exists wire.
    cbn [te_ptr te_size te_ctx te_buf].
    rewrite (Z.add_comm (blen wire)). change (header_room false) with 4 in *.
    split_and!; try done; try lia.
    rewrite sub_app, Hlow by lia. change (0 + 4) with 4. by rewrite Hsub.
Qed.

(** The message the caller of the decoder finds. *)
Definition storage_message (sd : storage_decoded) (frame : list Z) : list Z :=
  match sd_ptr sd with
  | InCaller o => sub (sd_app sd) o (sd_size sd)
  | InTransport o => sub frame o (sd_size sd)
  end.

(** What the status in the descriptor turns a response into. *)
Definition delivered_or_refused (rq : bool) (code : Z) (sd : storage_decoded)
    (frame m : list Z) : Prop :=
  if negb rq && negb (u8 code =? 0) then sd_status sd = LIBSPDM_STATUS_ERROR_PEER
  else sd_status sd = LIBSPDM_STATUS_SUCCESS ∧ storage_message sd frame = m.

Lemma open_secured_ok ctx session cs cr sid rq frame moff wire code m asize app alg key salt seqn :
  drop (Z.to_nat moff) frame = wire → 0 ≤ moff ≤ blen frame → storage_live ctx sid cr alg →
  agree cs cr rq → is_u32 sid → select_keys cs rq = Some (key, salt, seqn) →
  exhausted cr seqn = false → bytes_ok m → bytes_ok app → blen wire ≤ asize ≤ blen app →
  asize < 2 ^ 64 → blen m < 2 ^ 32 →
  sealed cs alg storage_callbacks rq sid (sequence_number_endian cs) wire
    (descriptor_block code (blen m) ++ m) →
  ∃ sd, open_secured ctx session sid rq (blen wire) frame moff asize app = Ret sd ∧
    sd_session sd = session ∧ sd_is_app sd = Some false ∧
    delivered_or_refused rq code sd frame m ∧
    ∃ c', sd_ctx sd = put_secured_message_context ctx sid c' ∧
      same_but_error (increment_sequence_number cr rq) c'.
Proof.
  intros Hdrop Hmo (Hl & Hr & Hv) Hag Hsid Hk Hx Hbm Hba Ha H64 Hm32 Hseal.
  destruct (sealed_head _ _ _ _ _ _ _ _ storage_cb Hseal) as [_ Hw22].
  destruct (sealed_decodes cs cr alg storage_callbacks rq sid (sequence_number_endian cs) wire []
    (descriptor_block code (blen m) ++ m) key salt seqn asize app)
    as (d & E & D1 & D2 & D3 & D4 & _ & _ & _ & D7); rewrite ?app_nil_r in *; try done; try lia.
  { apply storage_cb. }
  { apply bytes_ok_app. split; [|done]. unfold descriptor_block. rewrite !bytes_ok_app.
    split; [|split; [auto with word|]]; repeat constructor; try lia; apply u8_range. }
  { constructor. }
  unfold open_secured. rewrite Hl, Hdrop, E. cbn [mbind exec_bind]. rewrite D1, success_not_error.
  rewrite length_app, length_descriptor_block in D4.
  replace (d_size d) with (20 + blen m) by lia. unfold app_ptr, delivered, within in *.
  replace (d_size d) with (20 + blen m) in * by lia.
  set (ctx' := put_secured_message_context ctx sid (d_ctx d)).
  assert (Hgo : ∀ mem o, in_range mem o (20 + blen m) = true →
    sub mem o (20 + blen m) = descriptor_block code (blen m) ++ m →
    libspdm_storage_secured_message_decode ctx' sid (20 + blen m) mem o rq =
      Ret (if negb rq && negb (u8 code =? 0)
           then (LIBSPDM_STATUS_ERROR_PEER, ctx', o, 20 + blen m)
           else (LIBSPDM_STATUS_SUCCESS, ctx', o + 20, blen m)) ∧
    sub mem (o + 20) (blen m) = m).
  { intros mem o Hin Hs. rewrite in_range_iff in Hin. split; [apply secured_decode_ok; try done; lia|].
    destruct (sub_split mem o _ _ _ Hs) as (_ & _ & Ht); [lia..|].
    rewrite length_descriptor_block in Ht. change (Z.of_nat 20) with 20 in Ht.
    by replace (20 + blen m - 20) with (blen m) in Ht by lia. }
  unfold delivered_or_refused, storage_message.
  destruct (d_ptr d) as [o|o].
  - destruct D3 as [D3 _]. destruct (Hgo _ _ D3 D2) as [-> Htail]. cbn [mbind exec_bind].
    destruct (negb rq && negb (u8 code =? 0)); cbn [mbind exec_bind];
      (eexists; split; [reflexivity|]); split_and!; try done; by exists (d_ctx d).
  - rewrite <- Hdrop in D2, D3. rewrite in_range_iff, length_drop in D3.
    rewrite sub_drop in D2 by lia. rewrite Z2Nat.id in D2 by lia.
    destruct (Hgo frame (moff + o)) as [-> Htail]; [rewrite in_range_iff; lia|done|].
    cbn [mbind exec_bind].
    destruct (negb rq && negb (u8 code =? 0)); cbn [mbind exec_bind];
      (eexists; split; [reflexivity|]); split_and!; try done; by exists (d_ctx d).
Qed.

(** The header of a request is recognized. *)
Lemma storage_unframe_ok wire :
  4 ≤ blen wire → blen wire < 2 ^ 62 →
  libspdm_storage_decode_message (Some None) false (7 + blen wire) (frame_header true ++ wire) 0 =
    Ret (Unframed LIBSPDM_STATUS_SUCCESS (Some (Some 7)) (Some (7, blen wire)), None).
Proof.
  intros Hw H62. unfold libspdm_storage_decode_message, read_virtual_header.
  change sizeof_storage_transport_virtual_header with 3.
  replace (3 <=? 7 + blen wire) with true by lia. rewrite assert_true. cbn [mbind exec_bind].
  replace (7 + blen wire <=? 3) with false by lia. replace (7 + blen wire =? 0) with false by lia.
  rewrite load_le_in by (rewrite in_range_iff, length_app; cbn; lia). cbn [mbind exec_bind].
  change (le_val (sub (frame_header true ++ wire) 0 (Z.of_nat 1))) with 0xE8.
  rewrite load_le_in by (rewrite in_range_iff, length_app; cbn; lia).
  change (le_val (sub (frame_header true ++ wire) (0 + 1) (Z.of_nat 2))) with 24.
  cbn -[Z.add Z.sub Z.leb Z.of_nat LIBSPDM_ASSERT]. rewrite assert_true. cbn [mbind exec_bind].
  replace (7 + blen wire <=? 3 + 4) with false by lia.
  change (0 + 3 + LIBSPDM_STORAGE_SECURED_MESSAGE_HEADER_RESERVED_BYTES) with 7.
  change LIBSPDM_STORAGE_SECURED_MESSAGE_HEADER_RESERVED_BYTES with 4.
  by replace (7 + blen wire - 3 - 4) with (blen wire) by lia.
Qed.

(** *session_id after a secured message was decoded. *)
Definition session_found (rq : bool) (sid : Z) : session_ptr :=
  if rq then FrameSession 7 else CallerSession sid.

Lemma storage_decode_spec ctx session cs cr sid rq wire code m asize app alg key salt seqn :
  let frame := frame_header rq ++ wire in
  rq = true ∨ session ≠ NoSession → storage_live ctx sid cr alg →
  agree cs cr rq → is_u32 sid → select_keys cs rq = Some (key, salt, seqn) →
  exhausted cr seqn = false → bytes_ok m → bytes_ok app → blen frame ≤ asize ≤ blen app →
  asize < 2 ^ 62 → blen m < 2 ^ 32 →
  sealed cs alg storage_callbacks rq sid (sequence_number_endian cs) wire
    (descriptor_block code (blen m) ++ m) →
  ∃ sd, libspdm_transport_storage_decode_message ctx (Some session) true rq (blen frame) frame
          asize app = Ret sd ∧
    sd_session sd = session_found rq sid ∧ sd_is_app sd = Some false ∧
    delivered_or_refused rq code sd frame m ∧
    ∃ c', sd_ctx sd = put_secured_message_context
        (libspdm_set_last_spdm_error_struct ctx (Build_error_struct 0 0)) sid c' ∧
      same_but_error (increment_sequence_number cr rq) c'.
Proof.
  intros frame Hses Hlive Hag Hsid Hk Hx Hbm Hba Ha H62 Hm32 Hseal.
  destruct (sealed_head _ _ _ _ _ _ _ _ storage_cb Hseal) as [Hhead Hw22].
  assert (Hlf : blen frame = header_room rq + blen wire)
    by (unfold frame; rewrite length_app, Nat2Z.inj_add, length_frame_header; done).
  assert (Hhr : 4 ≤ header_room rq ≤ 7) by (destruct rq; cbn; lia).
  assert (Hdrop : drop (Z.to_nat (header_room rq)) frame = wire).
  { unfold frame. apply drop_app_length'. pose proof (length_frame_header rq). lia. }
  assert (Hsd : load_le 4 frame (header_room rq) = Ret sid).
  { rewrite load_le_in by (change (Z.of_nat 4) with 4; rewrite in_range_iff; lia).
    change (Z.of_nat 4) with 4. unfold sub. rewrite Hdrop. unfold sub in Hhead.
    rewrite drop_0 in Hhead. rewrite Hhead, le_val_bytes. f_equal. by apply Z.mod_small. }
  set (ctx' := libspdm_set_last_spdm_error_struct ctx (Build_error_struct 0 0)).
  destruct (open_secured_ok ctx' (session_found rq sid) cs cr sid rq frame (header_room rq) wire
    code m asize app alg key salt seqn) as (sd & E & HS); try done; try lia.
  exists sd. split; [|exact HS]. unfold libspdm_transport_storage_decode_message. cbv zeta.
  fold ctx'. cbn [negb]. rewrite Hlf. destruct rq; cbn [negb].
  - change (header_room true) with 7 in *. unfold frame. rewrite storage_unframe_ok by lia.
    cbn [mbind exec_bind u_status u_message u_session default from_option id].
    rewrite success_not_error. fold frame. rewrite Hsd. cbn [mbind exec_bind]. exact E.
  - change (header_room false) with 4 in *. destruct Hses as [|Hses]; [done|].
    change LIBSPDM_STORAGE_SECURED_MESSAGE_HEADER_RESERVED_BYTES with 4.
    replace (4 + blen wire <? 4 + 4) with false by lia. rewrite Hsd. cbn [mbind exec_bind].
    replace (4 + blen wire - 4) with (blen wire) by lia. by destruct session.
Qed.

(** ** Any received frame *)

(** What a descriptor block must say for its message to be handed over: one SPDM
    descriptor, a length within the message, the offset [k] of the message
    counted from the block, and for a response the status success. *)
Definition names_message (rq : bool) (m : list Z) (k : Z) : Prop :=
  20 ≤ blen m ∧ le_val (sub m 0 1) = 1 ∧ le_val (sub m 4 1) = 4 ∧
  le_val (sub m 7 4) ≤ blen m ∧ le_val (sub m 11 4) = 16 + k ∧ 0 ≤ k ≤ blen m ∧
  (rq = true ∨ le_val (sub m 5 1) = 0).

Lemma secured_decode_safe ctx sid mem o size rq :
  in_range mem o size = true → bytes_ok mem →
  let m := sub mem o size in
  ∃ st ctx' o' n, libspdm_storage_secured_message_decode ctx sid size mem o rq =
      Ret (st, ctx', o', n) ∧
    (LIBSPDM_STATUS_IS_ERROR st = true ∨
     st = LIBSPDM_STATUS_SUCCESS ∧ ctx' = ctx ∧ ∃ k, o' = o + k ∧ n = size - k ∧
       names_message rq m k).
Proof.
  intros Hr Hb m. rewrite in_range_iff in Hr.
  assert (Hl : blen m = size) by (unfold m; rewrite length_sub by range; lia).
  assert (Hld : ∀ (j : nat) k, 0 ≤ k → k + Z.of_nat j ≤ size →
    load_le j mem (o + k) = Ret (le_val (sub m k (Z.of_nat j)))).
  { intros j k Hk Hj. rewrite load_le_in by range. unfold m. by rewrite sub_sub by lia. }
  assert (Herr : ∀ st c o' n, LIBSPDM_STATUS_IS_ERROR st = true →
    ∃ st' ctx' o'' n', Ret (st, c, o', n) = Ret (st', ctx', o'', n') ∧
    (LIBSPDM_STATUS_IS_ERROR st' = true ∨
     st' = LIBSPDM_STATUS_SUCCESS ∧ ctx' = ctx ∧ ∃ k, o'' = o + k ∧ n' = size - k ∧
       names_message rq m k)) by (intros; do 4 eexists; split; [reflexivity|by left]).
  unfold libspdm_storage_secured_message_decode.
  change LIBSPDM_STORAGE_SECURED_MESSAGE_DESCRIPTOR_MIN_SIZE with 20.
  destruct (Z.ltb_spec size 20) as [E0|E0]; [by apply Herr|].
  pose proof (Hld 1%nat 0) as H1'. rewrite Z.add_0_r in H1'. rewrite H1' by lia.
  cbn [mbind exec_bind]. change (Z.of_nat 1) with 1.
  destruct (Z.eqb_spec (le_val (sub m 0 1)) 0) as [E1|E1]; [by apply Herr|].
  destruct (Z.ltb_spec 1 (le_val (sub m 0 1))) as [E2|E2]; [by apply Herr|].
  assert (E3 : le_val (sub m 0 1) = 1).
  { destruct (le_val_bound (sub m 0 1)); [unfold m; auto with word|lia]. }
  rewrite E3. change (Z.to_nat 1) with 1%nat. cbn [check_descriptors].
  unfold desc_type_off, desc_length_off, desc_offset_off, desc_status_off.
  rewrite <- !Z.add_assoc, (Hld 1%nat (3 + 1)) by lia. cbn [mbind exec_bind].
  change (3 + 1) with 4. change (Z.of_nat 1) with 1.
  change SPDM_STORAGE_SECURED_MSG_DESCRIPTOR_SPDM with 4.
  destruct (Z.eqb_spec (le_val (sub m 4 1)) 4) as [E4|E4]; [|by apply Herr].
  rewrite (Hld 4%nat (3 + 4)) by lia. cbn [mbind exec_bind].
  change (3 + 4) with 7. change (Z.of_nat 4) with 4.
  destruct (Z.ltb_spec size (le_val (sub m 7 4))) as [E5|E5]; [by apply Herr|].
  rewrite (Hld 4%nat (3 + 8)) by lia. cbn [mbind exec_bind]. change (3 + 8) with 11.
  change (Z.of_nat 4) with 4. change LIBSPDM_STORAGE_SECURED_MESSAGE_NUM_DESCRIPTORS_OFFSET with 16.
  destruct (Z.ltb_spec (le_val (sub m 11 4)) 16) as [E6|E6]; [by apply Herr|].
  assert (Hv : le_val (sub m 11 4) < 2 ^ 32).
  { pose proof (le_val_bound (sub m 11 4)) as Hv. rewrite length_sub in Hv by range.
    apply Hv. unfold m. auto with word. }
  rewrite u32_small by (unfold is_u32; lia).
  destruct (Z.ltb_spec size (le_val (sub m 11 4) - 16)) as [E7|E7]; [by apply Herr|].
  rewrite (Hld 1%nat (3 + 2)) by lia. cbn [mbind exec_bind]. change (3 + 2) with 5.
  change (Z.of_nat 1) with 1. change SPDM_STORAGE_SECURED_MSG_ENCAPSULATED_STATUS_SUCCESS with 0.
  case_if; [by apply Herr|]. do 4 eexists. split; [reflexivity|]. right. split; [done|].
  split; [done|]. exists (le_val (sub m 11 4) - 16). split; [done|]. split; [done|].
  unfold names_message. split_and!; try done; try lia.
  apply andb_false_iff in E as [E|E]; [left|right]; apply negb_false_iff in E; [done|by apply Z.eqb_eq].
Qed.

(** The record of a frame was sealed for the session it names. *)
Definition storage_genuine ctx (rq : bool) (frame m : list Z) : Prop :=
  ∃ sid c alg key salt seqn e wire,
    load_le 4 frame (header_room rq) = Ret sid ∧ storage_live ctx sid c alg ∧
    select_keys c rq = Some (key, salt, seqn) ∧ exhausted c seqn = false ∧ may_use c seqn e ∧
    received (drop (Z.to_nat (header_room rq)) frame) (blen frame - header_room rq) wire ∧
    sealed c alg storage_callbacks rq sid e wire m.

(** The outcomes inside a session. *)
Definition opened_safely ctx (rq : bool) (frame : list Z) (sd : storage_decoded) : Prop :=
  LIBSPDM_STATUS_IS_ERROR (sd_status sd) = true ∨
  sd_status sd = LIBSPDM_STATUS_SUCCESS ∧ ∃ m k, storage_genuine ctx rq frame m ∧
    names_message rq m k ∧ storage_message sd frame = drop (Z.to_nat k) m.

Lemma open_secured_safe ctx session sid rq frame asize app :
  let h := header_room rq in
  (∀ c, libspdm_get_secured_message_context_via_session_id ctx sid = Some c →
    ∃ alg, storage_live ctx sid c alg) →
  load_le 4 frame h = Ret sid → is_u32 sid → bytes_ok frame → bytes_ok app →
  h + 4 ≤ blen frame → blen frame < 2 ^ 62 → blen frame ≤ asize ≤ blen app → blen app < 2 ^ 62 →
  ∃ sd, open_secured ctx session sid rq (blen frame - h) frame h asize app = Ret sd ∧
    sd_session sd = session ∧ sd_is_app sd = Some false ∧ opened_safely ctx rq frame sd.
Proof.
  intros h Hlv Hsd Hsid Hbf Hba Hf H62 Ha Haa. assert (Hh : 4 ≤ h ≤ 7) by (subst h; destruct rq; cbn; lia).
  unfold open_secured, opened_safely.
  destruct (libspdm_get_secured_message_context_via_session_id ctx sid) as [c|] eqn:El.
  2: { eexists. split; [reflexivity|]. split; [done|]. split; [done|by left]. }
  destruct (Hlv c eq_refl) as [alg Hlive]. pose proof Hlive as (_ & Hr & Hv).
  set (payload := drop (Z.to_nat h) frame).
  assert (Hlp : blen payload = blen frame - h) by (unfold payload; rewrite length_drop; lia).
  assert (Hbp : bytes_ok payload) by (unfold payload; auto with word).
  destruct (ready_keys c alg rq Hr) as (key & salt & n & Hk & _ & _ & _).
  destruct (decode_spec c storage_callbacks sid rq payload (blen frame - h) asize app alg key salt n)
    as (d & E & Hld & Hd); try done; try lia; [apply storage_cb|].
  rewrite E. cbn [mbind exec_bind].
  destruct (LIBSPDM_STATUS_IS_ERROR (d_status d)) eqn:Eerr.
  { eexists. split; [reflexivity|]. split; [done|]. split; [done|by left]. }
  destruct (exhausted c n) eqn:Hx; [destruct Hd as [Hst _]; by rewrite Hst in Eerr|].
  destruct Hd as (_ & Hout & _). unfold outcome in Hout. cbv zeta in Hout.
  destruct Hout as [(O1 & _ & O3 & e & wire & O4 & _ & O5 & O6)|[([O|O] & _)|[(O & _)|(O & _)]]];
    try by rewrite O in Eerr.
  assert (Hgen : storage_genuine ctx rq frame (delivered d payload))
    by (exists sid, c, alg, key, salt, n, e, wire; done).
  unfold within, delivered in O3, Hgen. unfold app_ptr. destruct (d_ptr d) as [o|o].
  - destruct O3 as [O3 Hb3].
    destruct (secured_decode_safe (put_secured_message_context ctx sid (d_ctx d)) sid (d_app d) o
      (d_size d) rq O3 Hb3) as (st & ctx' & o' & n' & -> & Hs). cbn [mbind exec_bind].
    eexists. split; [reflexivity|]. split; [done|]. split; [done|]. cbn [sd_status].
    destruct Hs as [Hs|(-> & _ & k & -> & -> & Hn)]; [left; by rewrite !Hs|right]. split; [done|]. exists (sub (d_app d) o (d_size d)), k. split; [done|].
    split; [done|]. unfold storage_message. cbn. rewrite in_range_iff in O3.
    destruct Hn as (_ & _ & _ & _ & _ & Hkk & _). rewrite length_sub in Hkk by range.
    unfold sub. rewrite skipn_firstn_comm, drop_drop. f_equal; [lia|f_equal; lia].
  - rewrite in_range_iff, Hlp in O3. unfold payload in Hgen. rewrite sub_drop, Z2Nat.id in Hgen by lia.
    destruct (secured_decode_safe (put_secured_message_context ctx sid (d_ctx d)) sid frame (h + o)
      (d_size d) rq) as (st & ctx' & o' & n' & -> & Hs); [rewrite in_range_iff; lia|done|].
    cbn [mbind exec_bind].
    eexists. split; [reflexivity|]. split; [done|]. split; [done|]. cbn [sd_status].
    destruct Hs as [Hs|(-> & _ & k & -> & -> & Hn)]; [left; by rewrite !Hs|right]. split; [done|]. exists (sub frame (h + o) (d_size d)), k. split; [done|].
    split; [done|]. unfold storage_message. cbn.
    destruct Hn as (_ & _ & _ & _ & _ & Hkk & _). rewrite length_sub in Hkk by range.
    unfold sub. rewrite skipn_firstn_comm, drop_drop. f_equal; [lia|f_equal; lia].
Qed.

Lemma storage_unframe_cases frame :
  3 < blen frame → blen frame < 2 ^ 62 →
  ∃ u c, libspdm_storage_decode_message (Some None) false (blen frame) frame 0 = Ret (u, c) ∧
    (LIBSPDM_STATUS_IS_ERROR (u_status u) = true ∨
     u_status u = LIBSPDM_STATUS_SUCCESS ∧
       (u_session u = Some None ∧ u_message u = Some (3, blen frame - 3) ∨
        u_session u = Some (Some 7) ∧ u_message u = Some (7, blen frame - 7) ∧ 7 < blen frame)).
Proof.
  intros Hf H62. unfold libspdm_storage_decode_message, read_virtual_header.
  change sizeof_storage_transport_virtual_header with 3.
  change LIBSPDM_STORAGE_SECURED_MESSAGE_HEADER_RESERVED_BYTES with 4.
  replace (3 <=? blen frame) with true by lia. cbn [is_secured negb].
  rewrite assert_true. cbn [mbind exec_bind].
  replace (blen frame <=? 3) with false by lia. replace (blen frame =? 0) with false by lia.
  rewrite !load_le_in by (rewrite in_range_iff; lia). cbn [mbind exec_bind].
  destruct (_ =? SPDM_STORAGE_SECURITY_PROTOCOL_DMTF); cbn [negb mbind exec_bind];
    [|do 2 eexists; split; [reflexivity|by left]].
  destruct (Z.shiftr _ 8 =? 0); cbn [negb mbind exec_bind];
    [|do 2 eexists; split; [reflexivity|by left]].
  set (op := spsp_operation _).
  destruct ((op =? SPDM_STORAGE_OPERATION_CODE_DISCOVERY)
    || (op =? SPDM_STORAGE_OPERATION_CODE_PENDING_INFO)
    || (op =? SPDM_STORAGE_OPERATION_CODE_MESSAGE)).
  { do 2 eexists. split; [reflexivity|]. right. split; [done|]. by left. }
  destruct (op =? SPDM_STORAGE_OPERATION_CODE_SECURED_MESSAGE);
    [|do 2 eexists; split; [reflexivity|by left]].
  destruct (Z.leb_spec (blen frame) (3 + 4)). { do 2 eexists. split; [reflexivity|by left]. }
  do 2 eexists. split; [reflexivity|]. right. split; [done|]. right. split; [done|].
  split; [|lia]. cbn [u_message]. do 2 f_equal. lia.
Qed.

End session.
End StorageFacts.

Module StorageProps.
Import ContextFacts NonceFacts PacketFacts RunFacts TableFacts TransportFacts FramingFacts.
Import InPlaceFacts TransportProps StorageFacts ToyHal SecuredMessageProps SessionTableProps.


Lemma toy_storage_live :
  @storage_live default_build toy_connection toy_sid toy_session AES_GCM.
Proof. split; [reflexivity|]. split; [apply toy_session_ready|done]. Qed.


(** C22: decoding is safe and authentic over the storage transport, on any
    received bytes: success outside a session hands over a request without its
    header or the whole of a response; success inside one hands over what the
    descriptor of a record names, and the AEAD authenticates that record for the
    session at the expected sequence number.  Everything else is an error
    status.  Two requests are not handled: one too short for the header stops a
    build with assertions, and a secured request of 8 to 10 bytes has its session
    id read behind its end, because the size check leaves out the four reserved
    bytes. *)
Theorem storage_decode_safe `{BuildConfig, CryptoHal, !CryptoHalOk}
    (ctx : libspdm_context_t) (session : session_ptr) (rq : bool) (asize : Z) (frame app : list Z)
    (Hlive : ∀ sid c, libspdm_get_secured_message_context_via_session_id ctx sid = Some c →
      ∃ alg, storage_live ctx sid c alg)
    (Hbf : bytes_ok frame) (Hba : bytes_ok app) (Ha : blen frame ≤ asize ≤ blen app)
    (Hl : blen app < 2 ^ 62) :
  match libspdm_transport_storage_decode_message ctx (Some session) true rq (blen frame) frame
          asize app with
  | Ret sd =>
      LIBSPDM_STATUS_IS_ERROR (sd_status sd) = true ∨
      sd_status sd = LIBSPDM_STATUS_SUCCESS ∧ sd_is_app sd = Some false ∧
        (sd_session sd = NoSession ∧
           storage_message sd frame = (if rq then drop 3 frame else frame) ∨
         ∃ m k, storage_genuine ctx rq frame m ∧ names_message rq m k ∧
           storage_message sd frame = drop (Z.to_nat k) m)
  | Fault AssertFailed => LIBSPDM_DEBUG_ASSERT_ENABLE = true ∧ rq = true ∧ blen frame < 3
  | Fault OutOfBounds => rq = true ∧ 7 < blen frame < 11
  end.
Proof.
  unfold libspdm_transport_storage_decode_message. cbv zeta. cbn [negb].
  set (ctx' := libspdm_set_last_spdm_error_struct ctx (Build_error_struct 0 0)).
  change LIBSPDM_STORAGE_SECURED_MESSAGE_HEADER_RESERVED_BYTES with 4.
  assert (Hsid : ∀ o, 0 ≤ o → o + 4 ≤ blen frame → ∃ sid, load_le 4 frame o = Ret sid ∧ is_u32 sid).
  { intros o Ho Ho4. rewrite load_le_in by (change (Z.of_nat 4) with 4; range).
    change (Z.of_nat 4) with 4. eexists. split; [reflexivity|].
    pose proof (le_val_bound (sub frame o 4)) as Hv. rewrite length_sub in Hv by range.
    apply Hv. auto with word. }
  assert (Hopen : ∀ sess sid, load_le 4 frame (header_room rq) = Ret sid → is_u32 sid →
    header_room rq + 4 ≤ blen frame →
    match open_secured ctx' sess sid rq (blen frame - header_room rq) frame (header_room rq) asize app with
    | Ret sd => LIBSPDM_STATUS_IS_ERROR (sd_status sd) = true ∨
        sd_status sd = LIBSPDM_STATUS_SUCCESS ∧ sd_is_app sd = Some false ∧
          (sd_session sd = NoSession ∧
             storage_message sd frame = (if rq then drop 3 frame else frame) ∨
           ∃ m k, storage_genuine ctx rq frame m ∧ names_message rq m k ∧
             storage_message sd frame = drop (Z.to_nat k) m)
    | Fault _ => False
    end).
  { intros sess sid Hs Hu Hf.
    destruct (open_secured_safe ctx' sess sid rq frame asize app) as (sd & -> & _ & Hap & Ho);
      try done; try lia; [by intros c; apply Hlive|].
    destruct Ho as [?|(? & m & k & ? & ? & ?)]; [by left|right].
    split; [done|]. split; [done|]. right. by exists m, k. }
  destruct rq; cbn [negb].
  - destruct (Z.le_gt_cases (blen frame) 3) as [Hs|Hs].
    { unfold libspdm_storage_decode_message. change sizeof_storage_transport_virtual_header with 3.
      replace (blen frame <=? 3) with true by lia. unfold LIBSPDM_ASSERT.
      destruct LIBSPDM_DEBUG_ASSERT_ENABLE eqn:Ed; [|by left].
      destruct (Z.leb_spec 3 (blen frame)); [by left|]. cbn. lia. }
    destruct (storage_unframe_cases frame) as (u & c & -> & Hu); [lia|lia|].
    cbn [mbind exec_bind]. destruct Hu as [Hu|(Hst & [[Hse Hmsg]|(Hse & Hmsg & H7)])].
    + rewrite Hu. by left.
    + rewrite Hst, success_not_error, Hmsg, Hse. cbn [default from_option id mbind exec_bind].
      rewrite bool_decide_true, assert_true by done. cbn [mbind exec_bind]. right. split; [done|]. split; [done|]. left.
      split; [done|]. unfold storage_message, sub. cbn. rewrite take_ge; [done|].
      rewrite length_drop. lia.
    + rewrite Hst, success_not_error, Hmsg, Hse. cbn [default from_option id].
      destruct (Z.le_gt_cases 11 (blen frame)) as [H11|H11].
      * destruct (Hsid 7) as (sid & Hs7 & Hs32); [lia|lia|]. rewrite Hs7. cbn [mbind exec_bind].
        specialize (Hopen (FrameSession 7) sid Hs7 Hs32 ltac:(cbn; lia)).
        change (header_room true) with 7 in Hopen. by destruct (open_secured _ _ _ _ _ _ _ _ _).
      * assert (Hr : in_range frame 7 4 = false) by (apply not_true_iff_false; rewrite in_range_iff; lia).
        unfold load_le, load. change (Z.of_nat 4) with 4. rewrite Hr. cbn. lia.
  - destruct session as [|id|o]; [right; cbn; split; [done|]; split; [done|]; left; split; [done|];
      apply sub_all|..];
    (destruct (Z.ltb_spec (blen frame) (4 + 4)); [by left|];
     destruct (Hsid 4) as (sid & Hs4 & Hs32); [lia|lia|]; rewrite Hs4; cbn [mbind exec_bind];
     specialize (Hopen (CallerSession sid) sid Hs4 Hs32 ltac:(cbn; lia));
     change (header_room false) with 4 in Hopen; by destruct (open_secured _ _ _ _ _ _ _ _ _)).
Qed.

(** A secured request of eight bytes: its session id would be at offset 7. *)
Definition short_request : list Z := [0xE8; 24; 0; 0; 0; 0; 0; 1].

Lemma short_request_overread :
  @libspdm_transport_storage_decode_message default_build toy_hal toy_table (Some NoSession) true
    true 8 short_request 20 (zeros 20) = Fault OutOfBounds.
Proof. vm_compute. reflexivity. Qed.

Lemma storage_decode_safe_witness :
  @libspdm_transport_storage_decode_message default_build toy_hal toy_table (Some NoSession) true
    true 8 short_request 20 (zeros 20) = Fault OutOfBounds ∧ true = true ∧ 7 < 8 < 11.
Proof.
  pose proof (@storage_decode_safe default_build toy_hal toy_hal_ok toy_table NoSession true 20
    short_request (zeros 20)) as Hs.
  change (blen short_request) with 8 in Hs. rewrite short_request_overread in *.
  split; [done|]. apply Hs.
  - intros sid c Hl. exfalso.
    unfold libspdm_get_secured_message_context_via_session_id,
      libspdm_get_session_info_via_session_id in Hl.
    by destruct sid.
  - repeat constructor; cbn; lia.
  - apply bytes_ok_replicate0.
  - rewrite length_zeros. lia.
  - rewrite length_zeros. lia.
Defined.

(** C33: the space the descriptor encoder checks for is twelve bytes less than what
    it writes to: the message goes behind the 32 bytes of headers and descriptor
    block, the check counts the 20 of the block.  Below 20 bytes of room the
    encoder reports INVALID_MSG_SIZE, between 20 and 32 it writes past the end of
    the transport buffer, and from 32 on it lays the message out behind its
    descriptor with the buffer zeroed in front. *)
Theorem storage_encode_space `{BuildConfig} (ctx : libspdm_context_t) (size off tsize : Z)
    (msg buf : list Z) (rq : bool)
    (Hs : 0 ≤ size < 2 ^ 32) (Ho : 0 ≤ off) (Hm : off + size ≤ blen msg)
    (Ht : header_room rq ≤ tsize < 2 ^ 62) (Hb : tsize = blen buf) :
  match libspdm_storage_secured_message_encode ctx size msg off tsize buf rq with
  | Fault f => f = OutOfBounds ∧ 20 + size ≤ tsize - header_room rq < 32 + size
  | Ret s =>
      ss_status s = LIBSPDM_STATUS_INVALID_MSG_SIZE ∧ tsize - header_room rq < 20 + size ∨
      ss_status s = LIBSPDM_STATUS_SUCCESS ∧ 32 + size ≤ tsize - header_room rq ∧
        ss_message_size s = 20 + size ∧ length (ss_buf s) = length buf ∧
        sub (ss_buf s) 0 (header_room rq) = zeros (header_room rq) ∧
        sub (ss_buf s) (ss_message s) (ss_message_size s) =
          descriptor_block (if rq then 0 else error_code (sc_last_spdm_error ctx)) (u32 size) ++
          sub msg off size
  end.
Proof.
  pose proof (secured_encode_cases ctx size msg off tsize buf rq) as Hc. cbv zeta in Hc.
  destruct (Z.ltb_spec (tsize - header_room rq) (20 + size)) as [E1|E1].
  { destruct Hc as (s & -> & Hst); [done|lia..|]. by left. }
  destruct (Z.ltb_spec (tsize - header_room rq) (32 + size)) as [E2|E2];
    [rewrite Hc by (done || lia); split; [done|lia]|].
  destruct Hc as (b & -> & Hl & Hz & Hd); [done|lia..|]. right. cbn.
  rewrite (Z.add_comm size). auto 7.
Qed.

Lemma storage_encode_space_witness :
  @libspdm_storage_secured_message_encode default_build toy_table 3 [7; 8; 9] 0 30 (zeros 30) true =
    Fault OutOfBounds ∧ 20 + 3 ≤ 30 - 7 < 32 + 3.
Proof.
  pose proof (@storage_encode_space default_build toy_table 3 0 30 [7; 8; 9] (zeros 30) true) as Hs.
  assert (E : @libspdm_storage_secured_message_encode default_build toy_table 3 [7; 8; 9] 0 30
    (zeros 30) true = Fault OutOfBounds) by (vm_compute; reflexivity).
  rewrite E in *. split; [done|]. apply Hs; by vm_compute.
Defined.

(** C34: in a session that only authenticates, encoding over the storage transport
    stops a build with assertions: the message lies four bytes behind the place
    in the record it is copied to, and libspdm_copy_mem asserts that its buffers
    do not overlap. *)
Theorem storage_mac_only_asserts `{BuildConfig, CryptoHal, !CryptoHalOk}
    (ctx : libspdm_context_t) (c : libspdm_secured_message_context_t) (rq : bool)
    (sid size off tsize seqn : Z) (msg buf key salt : list Z) (rng : rng_state) (alg : aead_alg)
    (Hd : LIBSPDM_DEBUG_ASSERT_ENABLE = true) (Hl : storage_live ctx sid c alg)
    (Hty : session_type c = LIBSPDM_SESSION_TYPE_MAC_ONLY)
    (Hk : select_keys c rq = Some (key, salt, seqn)) (Hx : exhausted c seqn = false)
    (Hs : 0 ≤ size < 2 ^ 31) (Ho : 0 ≤ off) (Hm : off + size ≤ blen msg)
    (Ht : header_room rq + 44 + size ≤ tsize) (Hb : tsize = blen buf) (H62 : tsize < 2 ^ 62) :
  libspdm_transport_storage_encode_message ctx (Some sid) false rq size msg off tsize buf rng =
    Fault AssertFailed.
Proof.
  destruct Hl as (Hl & Hr & Hv). set (h := header_room rq) in *.
  assert (Hh : 4 ≤ h ≤ 7) by (subst h; destruct rq; cbn; lia).
  unfold libspdm_transport_storage_encode_message. cbv zeta.
  replace (tsize =? 0) with false by lia. rewrite Hl.
  pose proof (secured_encode_cases ctx size msg off tsize buf rq) as Henc. cbv zeta in Henc.
  fold h in Henc. replace (tsize - h <? 20 + size) with false in Henc by lia.
  replace (tsize - h <? 32 + size) with false in Henc by lia.
  destruct Henc as (buf' & -> & Lb & _); try lia. cbn [mbind exec_bind].
  cbn [ss_status ss_buf ss_message ss_message_size ss_secured_message ss_secured_message_size].
  rewrite success_not_error. replace (h + 12 - h) with 12 by lia.
  rewrite (in_place_mac_asserts c storage_callbacks sid rq (size + 20) (drop (Z.to_nat h) buf') 12
    (tsize - h) rng alg key salt seqn); rewrite ?storage_seq_length, ?length_drop;
    try done; try lia. apply storage_cb.
Qed.

(** A session of the toy connection that only authenticates. *)
Definition toy_mac_session : libspdm_secured_message_context_t :=
  toy_session <| session_type := LIBSPDM_SESSION_TYPE_MAC_ONLY |>.
Definition toy_mac_connection : libspdm_context_t :=
  put_secured_message_context toy_connection toy_sid toy_mac_session.

Lemma mac_only_ready c alg :
  ready c alg → ready (c <| session_type := LIBSPDM_SESSION_TYPE_MAC_ONLY |>) alg.
Proof. intros [W S I T E _ St]. by split. Qed.

Lemma storage_mac_only_asserts_witness :
  session_type toy_mac_session = LIBSPDM_SESSION_TYPE_MAC_ONLY ∧
  @libspdm_transport_storage_encode_message default_build toy_hal toy_mac_connection
    (Some toy_sid) false true 3 toy_message 9 100 (zeros 100) 5 = Fault AssertFailed.
Proof.
  split; [reflexivity|].
  apply (@storage_mac_only_asserts default_build toy_hal toy_hal_ok toy_mac_connection
    toy_mac_session true toy_sid 3 9 100 0 toy_message (zeros 100) (zeros 32) (zeros 12) 5 AES_GCM);
    [done|split; [reflexivity|split; [apply mac_only_ready, toy_session_ready|done]]|done|by vm_compute|by vm_compute
    |lia|lia|by vm_compute|by vm_compute|by vm_compute|by vm_compute].
Defined.


Definition toy_buffer : list Z := zeros 12 ++ [7; 8; 9] ++ zeros 85.


End StorageProps.
