(* ===== verification/KeyUpdateProps.v ===== *)
(** * KeyUpdateProps: properties of the KEY_UPDATE exchange *)

From S2P Require Import Prelude SpdmDefs CommonSupport CryptLib SecuredContext SecuredSession.
From S2P Require Import SecuredMessage SpdmContext SessionTable Messages KeyUpdate.

(** ** The keys of a session across an update *)
Module UpdateFacts.
Import ContextFacts SessionFacts NonceFacts PacketFacts RunFacts.
Section facts.
Context `{BuildConfig, CryptoHal, !CryptoHalOk}.
Implicit Types c : libspdm_secured_message_context_t.

(** What no key update and no traffic changes. *)
Definition frame_of c :=
  (session_type c, session_state c, version c, secured_message_version c, base_hash_algo c,
   hash_size c, aead_cipher_suite c, aead_key_size c, aead_iv_size c, aead_tag_size c,
   sequence_number_endian c, max_spdm_session_sequence_number c).

Lemma create_frame c action ok c' :
  libspdm_create_update_session_data_key c action = Ret (ok, c') → frame_of c' = frame_of c.
Proof.
  unfold libspdm_create_update_session_data_key, mbind, exec_bind. intros E.
  repeat (case_match; simplify_eq; try done).
Qed.

Lemma activate_frame c action use_new :
  frame_of (libspdm_activate_update_session_data_key c action use_new).2 = frame_of c.
Proof.
  unfold libspdm_activate_update_session_data_key.
  destruct use_new, action, (requester_backup_valid c), (responder_backup_valid c); done.
Qed.

(** The direction that creating new keys leads to. *)
Definition new_dir c (action : libspdm_key_update_action_t) :
    option (list Z * list Z * list Z * Z) :=
  match libspdm_create_update_session_data_key c action with
  | Ret (true, c') => Some (dir_of action (application_secret c'))
  | _ => None
  end.

(** It depends on the frame and on those keys alone. *)
Definition update_core (v n a ks is_ : Z) (secret key salt : list Z) :
    option (list Z * list Z * list Z * Z) :=
  let c := libspdm_secured_message_init_context <| version := v |> <| hash_size := n |>
    <| base_hash_algo := a |> <| aead_key_size := ks |> <| aead_iv_size := is_ |> in
  match
    bin_str9 ← bin_str v SPDM_BIN_STR_9_LABEL None (u16 n) n;
    prk ← load secret 0 n;
    '(status, s) ← expand_into a prk bin_str9 secret n;
    RETURN (false, s, key, salt) IF negb status;;
    '(status, k, i) ← libspdm_generate_aead_key_and_iv c s key salt;
    Ret (status, s, k, i)
  with
  | Ret (true, s, k, i) => Some (s, k, i, 0)
  | _ => None
  end.

Lemma update_core_zero v n a ks is_ s k i d : update_core v n a ks is_ s k i = Some d → d.2 = 0.
Proof.
  unfold update_core. destruct (mbind _ _) as [[[[[] ?] ?] ?]|]; [|done..].
  by intros [= <-].
Qed.

Lemma new_dir_core c action : is_direction action →
  let '(s, k, i, _) := dir_of action (application_secret c) in
  new_dir c action = update_core (version c) (hash_size c) (base_hash_algo c) (aead_key_size c)
    (aead_iv_size c) s k i.
Proof.
  assert (Hg : ∀ x y z, libspdm_generate_aead_key_and_iv c x y z =
    libspdm_generate_aead_key_and_iv (libspdm_secured_message_init_context
      <| version := version c |> <| hash_size := hash_size c |>
      <| base_hash_algo := base_hash_algo c |> <| aead_key_size := aead_key_size c |>
      <| aead_iv_size := aead_iv_size c |>) x y z) by done.
  intros [-> | ->]; unfold new_dir, update_core, dir_of,
    libspdm_create_update_session_data_key, mbind, exec_bind; cbn [bool_decide].
  - destruct (bin_str _ _ _ _ _); [|done]. rewrite decide_True by done.
    cbn -[libspdm_generate_aead_key_and_iv]. destruct (load _ _ _); [|done].
    destruct (expand_into _ _ _ _ _) as [[[] s]|]; [|done|done]. cbn [negb].
    rewrite <- Hg. match goal with |- context [libspdm_generate_aead_key_and_iv ?x s] =>
      change (libspdm_generate_aead_key_and_iv x s) with (libspdm_generate_aead_key_and_iv c s) end.
    by destruct (libspdm_generate_aead_key_and_iv c s _ _) as [[[[] k] i]|].
  - destruct (bin_str _ _ _ _ _); [|done]. rewrite decide_False, decide_True by done.
    cbn -[libspdm_generate_aead_key_and_iv]. destruct (load _ _ _); [|done].
    destruct (expand_into _ _ _ _ _) as [[[] s]|]; [|done|done]. cbn [negb].
    rewrite <- Hg. match goal with |- context [libspdm_generate_aead_key_and_iv ?x s] =>
      change (libspdm_generate_aead_key_and_iv x s) with (libspdm_generate_aead_key_and_iv c s) end.
    by destruct (libspdm_generate_aead_key_and_iv c s _ _) as [[[[] k] i]|].
Qed.

(** *** The steps of an update, on what they change *)

Definition dir : Type := list Z * list Z * list Z * Z.

(** The keys that follow those of a direction. *)
Definition next c (d : dir) : option dir :=
  let '(s, k, i, _) := d in
  update_core (version c) (hash_size c) (base_hash_algo c) (aead_key_size c) (aead_iv_size c) s k i.

Lemma next_frame c1 c2 d : frame_of c1 = frame_of c2 → next c1 d = next c2 d.
Proof.
  unfold frame_of. intros [= _ _ Hv _ Ha Hn _ Hk Hi _ _ _]. destruct d as [[[s k] i] n].
  unfold next. congruence.
Qed.

Lemma next_zero c d d' : next c d = Some d' → d'.2 = 0.
Proof. destruct d as [[[s k] i] n]. apply update_core_zero. Qed.

Lemma new_dir_next c action : is_direction action →
  new_dir c action = next c (dir_of action (application_secret c)).
Proof.
  intros Hd. pose proof (new_dir_core c action Hd) as E. unfold next.
  by destruct (dir_of action (application_secret c)) as [[[s k] i] n].
Qed.

(** Both directions of the application keys, and whether old keys are kept. *)
Record keys : Type := Keys {
  k_req : dir; k_rsp : dir; b_req : bool; b_rsp : bool;
}.

Definition keys_of c : keys :=
  Keys (dir_of LIBSPDM_KEY_UPDATE_ACTION_REQUESTER (application_secret c))
    (dir_of LIBSPDM_KEY_UPDATE_ACTION_RESPONDER (application_secret c))
    (requester_backup_valid c) (responder_backup_valid c).

Definition key_dir (v : keys) (action : libspdm_key_update_action_t) : dir :=
  match action with LIBSPDM_KEY_UPDATE_ACTION_REQUESTER => k_req v | _ => k_rsp v end.

Definition bump (d : dir) : dir := let '(s, k, i, n) := d in (s, k, i, n + 1).

(** Sending or receiving a request ([true]) or a response. *)
Definition moved (rq : bool) (v : keys) : keys :=
  if rq then Keys (bump (k_req v)) (k_rsp v) (b_req v) (b_rsp v)
  else Keys (k_req v) (bump (k_rsp v)) (b_req v) (b_rsp v).

Definition created (action : libspdm_key_update_action_t) (d : dir) (v : keys) : keys :=
  match action with
  | LIBSPDM_KEY_UPDATE_ACTION_REQUESTER => Keys d (k_rsp v) true (b_rsp v)
  | _ => Keys (k_req v) d (b_req v) true
  end.

Definition activated (action : libspdm_key_update_action_t) (v : keys) : keys :=
  match action with
  | LIBSPDM_KEY_UPDATE_ACTION_REQUESTER => Keys (k_req v) (k_rsp v) false (b_rsp v)
  | _ => Keys (k_req v) (k_rsp v) (b_req v) false
  end.

Lemma keyed_frame c c' h : keyed c h → frame_of c' = frame_of c → keyed c' h.
Proof. unfold frame_of. intros [Ka Kn] [= _ _ _ _ F5 F6 _ _ _ _ _ _]. split; congruence. Qed.

Lemma create_step c h action :
  ctx_wf c → keyed c h → is_direction action →
  match next c (key_dir (keys_of c) action) with
  | Some d => ∃ c', libspdm_create_update_session_data_key c action = Ret (true, c') ∧
      ctx_wf c' ∧ frame_of c' = frame_of c ∧ keys_of c' = created action d (keys_of c)
  | None => ∃ c', libspdm_create_update_session_data_key c action = Ret (false, c')
  end.
Proof.
  intros W K Hd. pose proof (create_update_spec c h action W K Hd)
    as (c' & E & W' & _ & O & _ & B & _ & _ & Hv).
  pose proof (new_dir_next c action Hd) as Hn. unfold new_dir in Hn.
  assert (key_dir (keys_of c) action = dir_of action (application_secret c)) as ->
    by (by destruct Hd as [-> | ->]).
  rewrite <- Hn, E. destruct (key_update_reference c h action) as [[[s k] i]|]; cbn [is_some];
    [|by exists c'].
  destruct (Hv s k i eq_refl) as [Hb _]. exists c'. split; [done|]. split; [done|].
  split; [by eapply create_frame|].
  unfold keys_of, created. destruct Hd as [-> | ->]; cbn [other] in O;
    cbn [backup_valid other] in *; rewrite O, Hb, B; done.
Qed.

Lemma activate_step c action : is_direction action →
  let r := libspdm_activate_update_session_data_key c action true in
  r.1 = true ∧ frame_of r.2 = frame_of c ∧ keys_of r.2 = activated action (keys_of c).
Proof.
  intros Hd r. pose proof (activate_spec c action true Hd) as (A1 & A2 & _ & A3 & A4 & _ & A5).
  pose proof (activate_frame c action true) as Hf. fold r in A1, A2, A3, A4, A5, Hf.
  split; [done|]. split; [done|]. cbn [negb andb] in A2. unfold keys_of, activated.
  destruct Hd as [-> | ->]; cbn [other backup_valid] in *; rewrite A2, A3, A4, A5; done.
Qed.

(** A context of an established session in which keys can be updated. *)
Record updatable c (h : hash_alg) (alg : aead_alg) : Prop := Updatable {
  up_ready : ready c alg;
  up_keyed : keyed c h;
  up_established : session_state c = LIBSPDM_SESSION_STATE_ESTABLISHED;
  up_endian : is_sequence_number_endian_determined (sequence_number_endian c) = true;
}.

Lemma updatable_frame c c' h alg :
  updatable c h alg → ctx_wf c' → frame_of c' = frame_of c → updatable c' h alg.
Proof.
  intros [[W S I T E Ty St] K Es En] W' Hf. pose proof (keyed_frame c c' h K Hf) as K'.
  unfold frame_of in Hf. injection Hf as F1 F2 F3 F4 F5 F6 F7 F8 F9 F10 F11 F12.
  split; [split; try done; try congruence|done|congruence|congruence].
  - unfold session_type_ok in *. by rewrite F1.
  - unfold session_state_ok in *. by rewrite F2.
Qed.

Lemma moved_step c c' h alg rq :
  updatable c h alg → same_but_error (increment_sequence_number c rq) c' →
  exhausted c (key_dir (keys_of c) (if rq then LIBSPDM_KEY_UPDATE_ACTION_REQUESTER
                                    else LIBSPDM_KEY_UPDATE_ACTION_RESPONDER)).2 = false →
  updatable c' h alg ∧ frame_of c' = frame_of c ∧ keys_of c' = moved rq (keys_of c).
Proof.
  intros Hu (e & err & [He Hde] & Hc) Hx.
  destruct (increment_other c rq) as (F1 & F2 & F3 & F4 & F5 & F6 & F7 & F8 & F9 & F10 & F11 & _).
  pose proof Hu as [Hr _ Hest Hend].
  assert (e = sequence_number_endian c) as -> by (rewrite <- F7; apply Hde; by rewrite F7).
  assert (Hf : frame_of c' = frame_of c).
  { subst c'. unfold increment_sequence_number. rewrite Hest, decide_False by done. by destruct rq. }
  assert (W : ctx_wf c').
  { pose proof (increment_wf c rq (r_wf _ _ Hr)) as W. subst c'. exact W. }
  split; [by eapply updatable_frame|]. split; [done|]. subst c'.
  pose proof (r_wf _ _ Hr) as (_ & _ & _ & (_ & _ & _ & _ & N1 & _ & _ & N2) & _).
  unfold keys_of, increment_sequence_number in *. rewrite Hest, decide_False by done.
  destruct rq; cbn in *; rewrite u64_small by (by eapply is_u64_exhausted); done.
Qed.

End facts.
End UpdateFacts.

(** ** The responder's handler against an abstract machine *)
Module ResponderFacts.
Import ContextFacts SessionFacts PacketFacts TableFacts UpdateFacts.

(** What KEY_UPDATE keeps for a session: its application keys, and the last
    accepted request of an update that is not yet verified. *)
Record update_state : Type := UpdateState {
  us_keys : keys;
  us_last : spdm_message_header_t;
}.

Inductive update_outcome : Type :=
| UpdateRejected
| UpdateFailed
| Updated (s : update_state).

(** One request of the protocol, given how keys are derived. *)
Definition update_step (derive : dir → option dir) (rq : spdm_message_header_t)
    (s : update_state) : update_outcome :=
  let v := us_keys s in
  let op := param1 rq in
  let idle := bool_decide (us_last s = zero_header) in
  let updating := (param1 (us_last s) =? 1) || (param1 (us_last s) =? 2) in
  if (op =? 1) && idle then
    match derive (k_req v) with
    | Some d => Updated (UpdateState (created LIBSPDM_KEY_UPDATE_ACTION_REQUESTER d v) rq)
    | None => UpdateFailed
    end
  else if (op =? 2) && idle then
    match derive (k_req v), derive (k_rsp v) with
    | Some d, Some d' => Updated (UpdateState (Keys d d' true false) rq)
    | _, _ => UpdateFailed
    end
  else if (op =? 3) && updating then
    Updated (UpdateState (activated LIBSPDM_KEY_UPDATE_ACTION_REQUESTER v) zero_header)
  else UpdateRejected.

Section facts.
Context `{BuildConfig, CryptoHal, !CryptoHalOk}.
Implicit Types ctx : libspdm_context_t.
Implicit Types si : libspdm_session_info_t.

(** The session of a slot as the abstract machine sees it. *)
Definition update_state_of si : update_state :=
  UpdateState (keys_of (secured_message_context si)) (last_key_update_request si).

(** What the handling of the exchange leaves alone: everything but the sessions,
    the transcripts and the notifications. *)
Definition calm ctx ctx' : Prop :=
  ∃ l w t n, ctx' = ctx <| session_info := l |> <| exchange := (exchange ctx)
    <| digest_transcript_window_closed := w |> <| transcript := t |> <| notifications := n |> |>.

Lemma calm_intro ctx ctx' :
  ctx' = ctx <| session_info := session_info ctx' |> <| exchange := (exchange ctx)
    <| digest_transcript_window_closed := digest_transcript_window_closed (exchange ctx') |>
    <| transcript := transcript (exchange ctx') |>
    <| notifications := notifications (exchange ctx') |> |> → calm ctx ctx'.
Proof. intros E. do 4 eexists. exact E. Qed.

Lemma calm_refl ctx : calm ctx ctx.
Proof. apply calm_intro. destruct_context ctx. reflexivity. Qed.

Lemma calm_trans ctx1 ctx2 ctx3 : calm ctx1 ctx2 → calm ctx2 ctx3 → calm ctx1 ctx3.
Proof. intros (l & w & t & n & ->) (l' & w' & t' & n' & ->). by exists l', w', t', n'. Qed.

Lemma calm_notify ctx b n : calm ctx (notify ctx b n).
Proof.
  apply calm_intro. destruct_context ctx.
  by destruct b.
Qed.

Lemma calm_set_slot ctx i si : calm ctx (set_slot ctx i si).
Proof. apply calm_intro. destruct_context ctx. reflexivity. Qed.

Lemma calm_info ctx ctx' : calm ctx ctx' →
  ∃ l, session_info ctx' = l ∧ connection_state (exchange ctx') = connection_state (exchange ctx).
Proof. intros (l & w & t & n & ->). by exists l. Qed.

Lemma info_notify ctx b n : session_info (notify ctx b n) = session_info ctx.
Proof. by destruct b. Qed.

(** [ctx'] is [ctx] with another secured context in the slot [i]. *)
Definition slot_moved ctx ctx' (i : nat) si (c' : libspdm_secured_message_context_t) : Prop :=
  calm ctx ctx' ∧
  session_info ctx' = <[i := si <| secured_message_context := c' |>]> (session_info ctx).

Lemma slot_moved_trans ctx1 ctx2 ctx3 i si c2 c3 :
  slot_moved ctx1 ctx2 i si c2 →
  slot_moved ctx2 ctx3 i (si <| secured_message_context := c2 |>) c3 → slot_moved ctx1 ctx3 i si c3.
Proof.
  intros [C1 E1] [C2 E2]. split; [by eapply calm_trans|]. rewrite E2, E1. by rewrite list_insert_insert_eq.
Qed.

Lemma slot_moved_lookup ctx ctx' i si0 si c' :
  session_info ctx !! i = Some si0 → slot_moved ctx ctx' i si c' →
  session_info ctx' !! i = Some (si <| secured_message_context := c' |>).
Proof.
  intros Hi [_ ->]. apply list_lookup_insert_eq. by eapply lookup_lt_Some.
Qed.

Lemma slot_moved_notify ctx i si c' b n :
  slot_moved ctx (notify (set_slot ctx i (si <| secured_message_context := c' |>)) b n) i si c'.
Proof.
  split; [eapply calm_trans; [apply calm_set_slot|apply calm_notify]|by rewrite info_notify].
Qed.

Lemma slot_Some ctx i si : session_info ctx !! i = Some si → slot ctx i = Ret si.
Proof. unfold slot. by intros ->. Qed.

Lemma create_update_step ctx sid i si h action : let c := secured_message_context si in
  session_info ctx !! i = Some si → ctx_wf c → keyed c h → is_direction action →
  match next c (key_dir (keys_of c) action) with
  | Some d => ∃ ctx' c', create_update ctx sid i action = Ret (true, ctx') ∧
      slot_moved ctx ctx' i si c' ∧ ctx_wf c' ∧ frame_of c' = frame_of c ∧
      keys_of c' = created action d (keys_of c)
  | None => ∃ ctx' c', create_update ctx sid i action = Ret (false, ctx') ∧
      slot_moved ctx ctx' i si c'
  end.
Proof.
  intros c Hi W K Hd. pose proof (create_step c h action W K Hd) as Hc.
  unfold create_update. rewrite (slot_Some ctx i si Hi). cbn [mbind exec_bind].
  destruct (next c _) as [d|].
  - destruct Hc as (c' & E & W' & F & V). unfold c in E. rewrite E. cbn [mbind exec_bind negb].
    eexists _, c'. split; [reflexivity|]. split_and!; try done; apply slot_moved_notify.
  - destruct Hc as (c' & E). unfold c in E. rewrite E. cbn [mbind exec_bind negb].
    eexists _, c'. split; [reflexivity|]. split; [apply calm_set_slot|done].
Qed.

Lemma commit_update_step ctx sid i si action : let c := secured_message_context si in
  session_info ctx !! i = Some si → ctx_wf c → is_direction action →
  ∃ ctx' c', commit_update ctx sid i action = Ret (true, ctx') ∧
    slot_moved ctx ctx' i si c' ∧ ctx_wf c' ∧ frame_of c' = frame_of c ∧
    keys_of c' = activated action (keys_of c).
Proof.
  intros c Hi W Hd. pose proof (activate_step c action Hd) as Ha.
  pose proof (activate_wf c action true W) as W'.
  unfold commit_update. rewrite (slot_Some ctx i si Hi). cbn [mbind exec_bind].
  fold c. destruct (libspdm_activate_update_session_data_key c action true) as [ok c'].
  cbn [fst snd] in *. destruct Ha as (-> & F & V). cbn [negb].
  eexists _, c'. split; [reflexivity|]. split_and!; try done; apply slot_moved_notify.
Qed.

Lemma slot_moved_save ctx ctx' i si c' h :
  session_info ctx !! i = Some si → slot_moved ctx ctx' i si c' →
  slot_moved ctx (set_slot ctx' i (si <| secured_message_context := c' |>
                                      <| last_key_update_request := h |>))
    i (si <| last_key_update_request := h |>) c'.
Proof.
  intros Hi [C E]. split; [eapply calm_trans; [done|apply calm_set_slot]|].
  cbn. rewrite E. by rewrite list_insert_insert_eq.
Qed.

(** What an accepted operation leaves: the keys [v] and the last request [rq]. *)
Definition operated ctx (i : nat) si (v : keys) (rq : spdm_message_header_t)
    (r : exec key_update_result) : Prop :=
  let c := secured_message_context si in
  ∃ ctx' c', r = Ret (Done ctx') ∧
    slot_moved ctx ctx' i (si <| last_key_update_request := rq |>) c' ∧
    ctx_wf c' ∧ frame_of c' = frame_of c ∧ keys_of c' = v.

Definition broken ctx (i : nat) si (r : exec key_update_result) : Prop :=
  ∃ ctx' c', r = Ret (Failed ctx') ∧ slot_moved ctx ctx' i si c'.

Lemma operated_intro ctx ctx' i si c' v rq : let c := secured_message_context si in
  session_info ctx !! i = Some si → slot_moved ctx ctx' i si c' →
  ctx_wf c' → frame_of c' = frame_of c → keys_of c' = v →
  operated ctx i si v rq (ctx ← save_last_request ctx' i rq; Ret (Done ctx)).
Proof.
  intros c Hi M W F V. unfold save_last_request.
  rewrite (slot_Some ctx' i _ (slot_moved_lookup _ _ _ _ _ _ Hi M)). cbn [mbind exec_bind].
  eexists _, c'. split; [reflexivity|]. split_and!; try done. by apply slot_moved_save.
Qed.

Section operations.
Context (ctx : libspdm_context_t) (sid : Z) (i : nat) (si : libspdm_session_info_t) (h : hash_alg)
  (rq : spdm_message_header_t).
Let c := secured_message_context si.
Context (Hi : session_info ctx !! i = Some si) (W : ctx_wf c) (K : keyed c h).

Lemma update_key_step :
  let r :=
    '(result, ctx) ← create_update ctx sid i LIBSPDM_KEY_UPDATE_ACTION_REQUESTER;
    RETURN Failed ctx IF negb result;;
    ctx ← save_last_request ctx i rq; Ret (Done ctx) in
  match next c (k_req (keys_of c)) with
  | Some d => operated ctx i si (created LIBSPDM_KEY_UPDATE_ACTION_REQUESTER d (keys_of c)) rq r
  | None => broken ctx i si r
  end.
Proof.
  pose proof (create_update_step ctx sid i si h LIBSPDM_KEY_UPDATE_ACTION_REQUESTER Hi W K
    (or_introl eq_refl)) as Hc. fold c in Hc. cbn [key_dir] in Hc.
  destruct (next c _) as [d|].
  - destruct Hc as (ctx' & c' & -> & M & W' & F & V). cbn [mbind exec_bind negb].
    by eapply operated_intro.
  - destruct Hc as (ctx' & c' & -> & M). by eexists _, c'.
Qed.

Lemma verify_key_step :
  operated ctx i si (activated LIBSPDM_KEY_UPDATE_ACTION_REQUESTER (keys_of c)) zero_header
    ('(result, ctx) ← commit_update ctx sid i LIBSPDM_KEY_UPDATE_ACTION_REQUESTER;
     RETURN Failed ctx IF negb result;;
     ctx ← save_last_request ctx i zero_header; Ret (Done ctx)).
Proof.
  pose proof (commit_update_step ctx sid i si LIBSPDM_KEY_UPDATE_ACTION_REQUESTER Hi W
    (or_introl eq_refl)) as (ctx' & c' & -> & M & W' & F & V). cbn [mbind exec_bind negb].
  by eapply operated_intro.
Qed.

Lemma update_all_keys_step :
  let r :=
    '(result, ctx) ← create_update ctx sid i LIBSPDM_KEY_UPDATE_ACTION_REQUESTER;
    RETURN Failed ctx IF negb result;;
    '(result, ctx) ← create_update ctx sid i LIBSPDM_KEY_UPDATE_ACTION_RESPONDER;
    RETURN Failed ctx IF negb result;;
    '(result, ctx) ← commit_update ctx sid i LIBSPDM_KEY_UPDATE_ACTION_RESPONDER;
    RETURN Failed ctx IF negb result;;
    ctx ← save_last_request ctx i rq; Ret (Done ctx) in
  match next c (k_req (keys_of c)), next c (k_rsp (keys_of c)) with
  | Some d, Some d' => operated ctx i si (Keys d d' true false) rq r
  | _, _ => broken ctx i si r
  end.
Proof.
  pose proof (create_update_step ctx sid i si h LIBSPDM_KEY_UPDATE_ACTION_REQUESTER Hi W K
    (or_introl eq_refl)) as Hc. fold c in Hc. cbn [key_dir] in Hc.
  destruct (next c (k_req _)) as [d|].
  2: { destruct Hc as (ctx' & c' & -> & M). by eexists _, c'. }
  destruct Hc as (ctx1 & c1 & -> & M1 & W1 & F1 & V1). cbn [mbind exec_bind negb].
  pose proof (slot_moved_lookup _ _ _ _ _ _ Hi M1) as Hi1.
  pose proof (create_update_step ctx1 sid i _ h LIBSPDM_KEY_UPDATE_ACTION_RESPONDER Hi1 W1
    (keyed_frame c c1 h K F1) (or_intror eq_refl)) as Hc.
  cbn [secured_message_context set_field key_dir] in Hc.
  rewrite (next_frame _ _ _ F1), V1 in Hc. cbn [k_rsp created] in Hc.
  destruct (next c _) as [d'|].
  2: { destruct Hc as (ctx2 & c2 & -> & M2). eexists _, c2. split; [reflexivity|].
       by eapply slot_moved_trans. }
  destruct Hc as (ctx2 & c2 & -> & M2 & W2 & F2 & V2). cbn [mbind exec_bind negb].
  change (frame_of c2 = frame_of c1) in F2.
  pose proof (slot_moved_lookup _ _ _ _ _ _ Hi1 M2) as Hi2.
  pose proof (commit_update_step ctx2 sid i _ LIBSPDM_KEY_UPDATE_ACTION_RESPONDER Hi2 W2
    (or_intror eq_refl)) as (ctx3 & c3 & -> & M3 & W3 & F3 & V3). cbn [mbind exec_bind negb].
  change (frame_of c3 = frame_of c2) in F3. change (keys_of c3 = activated LIBSPDM_KEY_UPDATE_ACTION_RESPONDER (keys_of c2)) in V3.
  eapply (operated_intro ctx ctx3); try done.
  - eapply slot_moved_trans; [|exact M3]. by eapply slot_moved_trans.
  - by rewrite F3, F2.
  - by rewrite V3, V2.
Qed.

End operations.

(** The switch of the handler is the abstract step. *)
Lemma key_update_operation_step ctx sid i si h rq : let c := secured_message_context si in
  session_info ctx !! i = Some si → ctx_wf c → keyed c h →
  let r := key_update_operation ctx sid i (last_key_update_request si) rq in
  match update_step (next c) rq (update_state_of si) with
  | UpdateRejected => r = Ret Rejected
  | UpdateFailed => broken ctx i si r
  | Updated s => operated ctx i si (us_keys s) (us_last s) r
  end.
Proof.
  intros c Hi W K r. subst r. unfold key_update_operation, update_step, update_state_of.
  cbn [us_last us_keys]. fold c. change SPDM_KEY_UPDATE_OPERATIONS_UPDATE_KEY with 1.
  change SPDM_KEY_UPDATE_OPERATIONS_UPDATE_ALL_KEYS with 2.
  change SPDM_KEY_UPDATE_OPERATIONS_VERIFY_NEW_KEY with 3.
  assert (bool_decide (last_key_update_request si ≠ zero_header) =
          negb (bool_decide (last_key_update_request si = zero_header))) as ->
    by (by rewrite <- bool_decide_not).
  assert (Hc : param1 rq = 1 ∨ param1 rq = 2 ∨ param1 rq = 3 ∨
    (param1 rq =? 1) = false ∧ (param1 rq =? 2) = false ∧ (param1 rq =? 3) = false) by lia.
  destruct Hc as [E | [E | [E | (E1 & E2 & E3)]]].
  - rewrite E. cbn -[next keys_of]. destruct (bool_decide _); [|done]. cbn -[next keys_of].
    pose proof (update_key_step ctx sid i si h rq Hi W K) as Hs. cbv zeta in Hs. fold c in Hs.
    destruct (next c _); exact Hs.
  - rewrite E. cbn -[next keys_of]. destruct (bool_decide _); [|done]. cbn -[next keys_of].
    pose proof (update_all_keys_step ctx sid i si h rq Hi W K) as Hs. cbv zeta in Hs. fold c in Hs.
    destruct (next c (k_req (keys_of c))), (next c (k_rsp (keys_of c))); exact Hs.
  - rewrite E. cbn -[next keys_of]. destruct (param1 (last_key_update_request si) =? 1),
      (param1 (last_key_update_request si) =? 2); try done;
      exact (verify_key_step ctx sid i si Hi W).
  - by rewrite E1, E2, E3.
Qed.

(** *** ERROR responses and the guards *)

(** An ERROR response; the sessions are as they were. *)
Definition error_reply ctx (r : reply) : Prop :=
  let v := libspdm_get_connection_version ctx in
  rp_status r = LIBSPDM_STATUS_SUCCESS ∧ session_info (rp_ctx r) = session_info ctx ∧
  ∃ code data rest, sub (rp_response r) 0 (rp_size r) =
    [if v =? 0 then SPDM_MESSAGE_VERSION_10 else v; SPDM_ERROR; code; data] ++ rest.

Lemma error_reply_intro ctx code data response :
  4 ≤ blen response → code ≠ SPDM_ERROR_CODE_RESPONSE_TOO_LARGE →
  code ≠ SPDM_ERROR_CODE_LARGE_RESPONSE →
  ∃ r, libspdm_generate_error_response ctx code data (blen response) response = Ret r ∧
    rp_ctx r = ctx ∧ rp_size r = 4 ∧ error_reply ctx r.
Proof.
  intros Hl Hne1 Hne2. unfold libspdm_generate_error_response, sizeof_spdm_message_header.
  rewrite (proj2 (Z.leb_le 4 _)) by done. rewrite assert_true. cbn [mbind exec_bind].
  set (v := if libspdm_get_connection_version ctx =? 0 then _ else _).
  assert (Hr : in_range response 0 (blen [v; SPDM_ERROR; code; data]) = true) by range.
  rewrite store_in by done. cbn [mbind exec_bind].
  apply Z.eqb_neq in Hne1, Hne2. rewrite Hne1, Hne2. cbn [negb andb].
  rewrite assert_true. assert (E : (if v <=? SPDM_MESSAGE_VERSION_11 then Ret tt else Ret tt) = Ret tt)
    by (by destruct (_ <=? _)).
  rewrite E. cbn [mbind exec_bind]. eexists. split; [reflexivity|]. split; [done|]. split; [done|].
  split; [done|]. split; [done|]. exists code, data, []. cbn [rp_response rp_size].
  exact (sub_upd_same response 0 [v; SPDM_ERROR; code; data] Hr).
Qed.

(** The buffers of the exchange hold what their sizes say, and the state of the
    responder is one of those the library defines a response for. *)
Record exchange_ok ctx : Prop := ExchangeOk {
  xo_last : 0 ≤ last_spdm_request_size (exchange ctx) ≤ blen (last_spdm_request (exchange ctx));
  xo_last_max : last_spdm_request_size (exchange ctx) ≤ max_spdm_msg_size (lc_capability ctx);
  xo_cache : max_spdm_msg_size (lc_capability ctx) ≤ blen (cache_spdm_request (exchange ctx));
  xo_state : response_state (exchange ctx) ≠ LIBSPDM_RESPONSE_STATE_MAX;
}.

Lemma defer_request_ok ctx code : exchange_ok ctx →
  ∃ ctx', defer_request ctx code = Ret ctx' ∧ session_info ctx' = session_info ctx ∧
    libspdm_get_connection_version ctx' = libspdm_get_connection_version ctx ∧
    rd_tm (error_data (exchange ctx')) = 1 ∧ request_code (error_data (exchange ctx')) = code.
Proof.
  intros [[? ?] ? ? _]. unfold defer_request, copy_mem.
  assert (Hr : in_range (last_spdm_request (exchange ctx)) 0
                 (last_spdm_request_size (exchange ctx)) = true) by range.
  rewrite load_in by done. cbn [mbind exec_bind]. pose proof (length_sub _ _ _ Hr) as Hl.
  unfold libspdm_get_scratch_buffer_cache_spdm_request_capacity.
  rewrite (proj2 (Z.leb_le _ _)) by lia. rewrite store_in by range. cbn [mbind exec_bind].
  eexists. by split.
Qed.

(** The bytes of RESPONSE_NOT_READY. *)
Lemma not_ready_reply ctx code response :
  exchange_ok ctx → 8 ≤ blen response →
  response_state (exchange ctx) = LIBSPDM_RESPONSE_STATE_NOT_READY →
  ∃ r e, libspdm_responder_handle_response_state ctx code (blen response) response = Ret r ∧
    rp_status r = LIBSPDM_STATUS_SUCCESS ∧ session_info (rp_ctx r) = session_info ctx ∧
    sub (rp_response r) 0 (rp_size r) =
      [libspdm_get_connection_version ctx; SPDM_ERROR; SPDM_ERROR_CODE_RESPONSE_NOT_READY; 0]
      ++ not_ready_bytes e ∧
    (code ≠ SPDM_RESPOND_IF_READY → rd_tm e = 1 ∧ request_code e = code).
Proof.
  intros Hx Hl Es. unfold libspdm_responder_handle_response_state. rewrite Es.
  assert (Hd : ∃ ctx', (if negb (code =? SPDM_RESPOND_IF_READY) then defer_request ctx code
                        else Ret ctx) = Ret ctx' ∧ session_info ctx' = session_info ctx ∧
    libspdm_get_connection_version ctx' = libspdm_get_connection_version ctx ∧
    (code ≠ SPDM_RESPOND_IF_READY → rd_tm (error_data (exchange ctx')) = 1 ∧
       request_code (error_data (exchange ctx')) = code)).
  { destruct (Z.eqb_spec code SPDM_RESPOND_IF_READY); cbn [negb]; [by exists ctx|].
    destruct (defer_request_ok ctx code Hx) as (c & E & I & V & T). by exists c. }
  destruct Hd as (ctx' & -> & I & V & T). cbn [mbind exec_bind].
  unfold libspdm_generate_extended_error_response.
  set (e := error_data (exchange ctx')) in *. set (tl := not_ready_bytes e).
  rewrite (proj2 (Z.leb_le _ _)) by (unfold sizeof_spdm_message_header; cbn; lia).
  rewrite assert_true, V. cbn [mbind exec_bind]. set (hd := [_; SPDM_ERROR; _; _]).
  assert (Hr1 : in_range response 0 (blen hd) = true) by (unfold hd; range).
  rewrite store_in by done. cbn [mbind exec_bind]. unfold copy_mem.
  rewrite (proj2 (Z.leb_le _ _)) by (unfold sizeof_spdm_message_header; cbn; lia).
  assert (Hr2 : in_range (upd response 0 hd) 4 (blen tl) = true)
    by (rewrite in_range_iff, length_upd by done; cbn; lia).
  rewrite store_in by done. cbn [mbind exec_bind]. eexists _, e. split; [reflexivity|].
  split; [done|]. split; [done|]. split; [|done]. cbn [rp_response rp_size].
  change sizeof_spdm_message_header with (0 + blen hd).
  rewrite (upd_upd_app response 0 hd tl) by (rewrite in_range_iff, length_app; cbn; lia).
  exact (sub_upd_same response 0 (hd ++ tl) ltac:(rewrite in_range_iff, length_app; cbn; lia)).
Qed.

Lemma response_state_reply ctx code response :
  exchange_ok ctx → 8 ≤ blen response → 0 < libspdm_get_connection_version ctx →
  response_state (exchange ctx) ≠ LIBSPDM_RESPONSE_STATE_NORMAL →
  ∃ r, libspdm_responder_handle_response_state ctx code (blen response) response = Ret r ∧
    error_reply ctx r.
Proof.
  intros Hx Hl Hv Hn. destruct (response_state (exchange ctx)) eqn:Es;
    try done; [| | |by destruct (xo_state _ Hx)].
  - unfold libspdm_responder_handle_response_state. rewrite Es.
    destruct (error_reply_intro ctx SPDM_ERROR_CODE_BUSY 0 response) as (r & E & _ & _ & R);
      [lia|done..|]. by exists r.
  - destruct (not_ready_reply ctx code response Hx Hl Es) as (r & e & E & S & I & B & _).
    exists r. split; [done|]. split; [done|]. split; [done|]. do 3 eexists.
    destruct (Z.eqb_spec (libspdm_get_connection_version ctx) 0); [lia|]. exact B.
  - unfold libspdm_responder_handle_response_state. rewrite Es.
    destruct (error_reply_intro ctx SPDM_ERROR_CODE_REQUEST_RESYNCH 0 response)
      as (r & E & C & _ & R); [lia|done..|]. rewrite E. cbn [mbind exec_bind].
    destruct R as (S & I & R). rewrite S. cbn [LIBSPDM_STATUS_IS_ERROR].
    eexists. split; [reflexivity|]. split; [done|]. split; [|exact R]. cbn [rp_ctx].
    unfold libspdm_set_connection_state, libspdm_trigger_connection_state_callback.
    rewrite C. case_bool_decide; [|done]. by rewrite info_notify.
Qed.

(** The guards of the handler: the slot of the session the request is for. *)
Definition admitted ctx (rq : spdm_message_header_t) (size : Z) : option nat :=
  let v := libspdm_get_connection_version ctx in
  if (SPDM_MESSAGE_VERSION_11 <=? v) && (spdm_version rq =? v)
     && bool_decide (response_state (exchange ctx) = LIBSPDM_RESPONSE_STATE_NORMAL)
     && libspdm_is_capabilities_flag_supported ctx false
          SPDM_GET_CAPABILITIES_REQUEST_FLAGS_KEY_UPD_CAP
          SPDM_GET_CAPABILITIES_RESPONSE_FLAGS_KEY_UPD_CAP
     && negb (connection_state_below ctx LIBSPDM_CONNECTION_STATE_NEGOTIATED)
     && last_spdm_request_session_id_valid ctx && (size =? 4)
  then
    i ← libspdm_get_session_info_via_session_id ctx (last_spdm_request_session_id ctx);
    si ← session_info ctx !! i;
    if bool_decide (session_state (secured_message_context si) = LIBSPDM_SESSION_STATE_ESTABLISHED)
    then Some i else None
  else None.

(** The established sessions have a negotiated hash algorithm. *)
Definition sessions_keyed ctx : Prop :=
  ∀ i si, session_info ctx !! i = Some si →
    session_state (secured_message_context si) = LIBSPDM_SESSION_STATE_ESTABLISHED →
    ctx_wf (secured_message_context si) ∧ ∃ h, keyed (secured_message_context si) h.

Lemma reset_calm ctx i si : session_info ctx !! i = Some si →
  let ctx' := libspdm_reset_message_buffer_via_request_code ctx (Some i) SPDM_KEY_UPDATE in
  calm ctx ctx' ∧ ∃ t, session_info ctx' = <[i := si <| session_transcript := t |>]> (session_info ctx).
Proof.
  intros Hi ctx'. subst ctx'. unfold libspdm_reset_message_buffer_via_request_code.
  change (resets_challenge SPDM_KEY_UPDATE) with true. cbn [negb].
  change (SPDM_KEY_UPDATE =? SPDM_GET_DIGESTS) with false.
  change (SPDM_KEY_UPDATE =? SPDM_GET_MEASUREMENTS) with false. cbn [negb andb].
  set (ctx1 := if negb _ then set_exchange ctx _ else ctx).
  assert (C1 : calm ctx ctx1 ∧ session_info ctx1 = session_info ctx).
  { subst ctx1. destruct (negb _); [|by split; [apply calm_refl|]].
    split; [|done]. apply calm_intro. destruct_context ctx.
    reflexivity. }
  set (ctx2 := libspdm_reset_message_m ctx1 (Some i)).
  assert (C2 : calm ctx ctx2 ∧ ∃ t, session_info ctx2 =
    <[i := si <| session_transcript := t |>]> (session_info ctx)).
  { destruct C1 as [C1 I1]. subst ctx2. unfold libspdm_reset_message_m, reset_session_transcript.
    rewrite I1, Hi. split.
    - eapply calm_trans; [exact C1|]. eapply calm_trans; [apply calm_set_slot|apply calm_notify].
    - rewrite info_notify. eexists. cbn [session_info set_slot]. cbn. by rewrite I1. }
  destruct C2 as [C2 I2]. case_if; [|done]. split; [|exact I2].
  eapply calm_trans; [exact C2|]. apply calm_intro.
  destruct_context ctx2. reflexivity.
Qed.

Lemma read_header_cons v c p1 p2 rest :
  read_header (v :: c :: p1 :: p2 :: rest) = Ret (Build_message_header v c p1 p2).
Proof.
  unfold read_header. rewrite load_in by (unfold sizeof_spdm_message_header; range). reflexivity.
Qed.

Lemma read_header_ok m : 4 ≤ blen m →
  ∃ h rest, read_header m = Ret h ∧ m = header_bytes h ++ rest.
Proof.
  intros Hl. destruct m as [|v [|c [|p1 [|p2 rest]]]]; cbn [length] in Hl; try lia.
  exists (Build_message_header v c p1 p2), rest. by rewrite read_header_cons.
Qed.

Lemma lookup_slot ctx sid i : libspdm_get_session_info_via_session_id ctx sid = Some i →
  ∃ si, session_info ctx !! i = Some si ∧ session_id si = sid.
Proof.
  unfold libspdm_get_session_info_via_session_id. case_if; [done|].
  intros (si & _ & Hi & Hs)%find_slot_Some. rewrite Nat.sub_0_r in Hi. eauto.
Qed.

Lemma admitted_slot ctx rq n i : admitted ctx rq n = Some i →
  ∃ si, session_info ctx !! i = Some si ∧ session_id si = last_spdm_request_session_id ctx ∧
    session_state (secured_message_context si) = LIBSPDM_SESSION_STATE_ESTABLISHED.
Proof.
  unfold admitted. case_if; [clear E|done].
  destruct (libspdm_get_session_info_via_session_id ctx _) as [j|] eqn:Hj; [|done]. cbn.
  destruct (lookup_slot _ _ _ Hj) as (si & Hi & Hs). rewrite Hi. cbn.
  case_bool_decide; [|done]. intros [= ->]. eauto.
Qed.

(** The rest of the handler once its guards let a request pass. *)
Lemma handler_admitted ctx request response rq i si h :
  let c := secured_message_context si in
  read_header request = Ret rq → request_response_code rq = SPDM_KEY_UPDATE →
  4 ≤ blen response →
  admitted ctx rq (blen request) = Some i → session_info ctx !! i = Some si →
  ctx_wf c → keyed c h →
  ∃ r, libspdm_get_response_key_update ctx (blen request) request (blen response) response = Ret r ∧
  match update_step (next c) rq (update_state_of si) with
  | UpdateRejected => error_reply ctx r
  | UpdateFailed => rp_status r = LIBSPDM_STATUS_UNSUPPORTED_CAP ∧
      ∃ c', slot_moved ctx (rp_ctx r) i si c'
  | Updated s => rp_status r = LIBSPDM_STATUS_SUCCESS ∧
      sub (rp_response r) 0 (rp_size r) =
        [spdm_version rq; SPDM_KEY_UPDATE_ACK; param1 rq; param2 rq] ∧
      ∃ c' t, slot_moved ctx (rp_ctx r) i
        (si <| last_key_update_request := us_last s |> <| session_transcript := t |>) c' ∧
        ctx_wf c' ∧ frame_of c' = frame_of c ∧ keys_of c' = us_keys s
  end.
Proof.
  intros c Er Ec Hl Ha Hi W K. unfold admitted in Ha.
  destruct (_ && _) eqn:G in Ha; [|done]. rewrite !andb_true_iff in G.
  destruct G as ((((((G1 & G2) & G3) & G4) & G5) & G6) & G7).
  unfold libspdm_get_response_key_update. rewrite Er. cbn [mbind exec_bind]. rewrite Ec.
  change (SPDM_KEY_UPDATE =? SPDM_KEY_UPDATE) with true. rewrite assert_true.
  cbn [mbind exec_bind]. rewrite (proj2 (Z.ltb_ge _ _)) by lia. rewrite G2, G4, G6. cbn [negb].
  apply bool_decide_eq_true in G3. rewrite bool_decide_false by (by intros []).
  apply negb_true_iff in G5. rewrite G5.
  destruct (libspdm_get_session_info_via_session_id ctx _) as [j|]; [|done]. cbn in Ha.
  destruct (session_info ctx !! j) as [sj|] eqn:Hj; [|done]. cbn in Ha.
  case_bool_decide as Est; [|done]. injection Ha as ->. rewrite Hi in Hj. injection Hj as <-. rewrite (slot_Some ctx i si Hi).
  cbn [mbind exec_bind]. rewrite bool_decide_false by (by intros []).
  change sizeof_spdm_message_header with 4. rewrite G7. cbn [negb].
  pose proof (key_update_operation_step ctx (last_spdm_request_session_id ctx) i si h rq Hi W K) as Ho.
  cbv zeta in Ho. fold c in Ho. destruct (update_step _ _ _) as [| |s].
  - rewrite Ho. cbn [mbind exec_bind].
    destruct (error_reply_intro ctx SPDM_ERROR_CODE_INVALID_REQUEST 0 response)
      as (r & E & _ & _ & R); [lia|done..|]. by exists r.
  - destruct Ho as (ctx' & c' & -> & M). cbn [mbind exec_bind]. eexists. split; [reflexivity|].
    split; [done|]. by exists c'.
  - destruct Ho as (ctx' & c' & -> & M & W' & F & V). cbn [mbind exec_bind].
    destruct (reset_calm ctx' i _ (slot_moved_lookup _ _ _ _ _ _ Hi M)) as (C & t & I).
    rewrite (proj2 (Z.leb_le 4 _)) by lia. rewrite assert_true. cbn [mbind exec_bind].
    assert (Hr : in_range response 0 (blen (zeros 4)) = true) by (cbn; range).
    rewrite store_in by done. cbn [mbind exec_bind]. set (m := [_; _; _; _]).
    assert (Hr' : in_range (upd response 0 (zeros 4)) 0 (blen m) = true)
      by (rewrite in_range_iff, length_upd by done; cbn; lia).
    rewrite store_in by done. cbn [mbind exec_bind]. eexists. split; [reflexivity|].
    split; [done|]. split; [exact (sub_upd_same _ 0 m Hr')|]. exists c', t.
    split; [|done]. destruct M as [M1 M2]. split; [by eapply calm_trans|].
    cbn [rp_ctx]. rewrite I, M2. by rewrite list_insert_insert_eq.
Qed.

(** A request the guards stop is answered with an ERROR response. *)
Lemma handler_rejected ctx request response rq :
  read_header request = Ret rq → request_response_code rq = SPDM_KEY_UPDATE →
  8 ≤ blen response → exchange_ok ctx → admitted ctx rq (blen request) = None →
  ∃ r, libspdm_get_response_key_update ctx (blen request) request (blen response) response = Ret r ∧
    error_reply ctx r.
Proof.
  intros Er Ec Hl Hx Ha.
  assert (He : ∀ code data, code ≠ SPDM_ERROR_CODE_RESPONSE_TOO_LARGE →
    code ≠ SPDM_ERROR_CODE_LARGE_RESPONSE →
    ∃ r, libspdm_generate_error_response ctx code data (blen response) response = Ret r ∧
      error_reply ctx r).
  { intros code data H1' H2'.
    destruct (error_reply_intro ctx code data response) as (r & E & _ & _ & R); [lia|done..|eauto]. }
  unfold libspdm_get_response_key_update. rewrite Er. cbn [mbind exec_bind]. rewrite Ec.
  change (SPDM_KEY_UPDATE =? SPDM_KEY_UPDATE) with true. rewrite assert_true.
  cbn [mbind exec_bind]. destruct (Z.ltb_spec (libspdm_get_connection_version ctx)
    SPDM_MESSAGE_VERSION_11) as [|Hv]; [by apply He|].
  case_if; [by apply He|]. rewrite negb_false_iff in E.
  case_bool_decide as Hs.
  { apply response_state_reply; [done..| |done]. unfold SPDM_MESSAGE_VERSION_11 in Hv. lia. }
  case_if; [by apply He|]. case_if; [by apply He|].
  assert (Hn : (if SPDM_MESSAGE_VERSION_12 <=? libspdm_get_connection_version ctx
    then SPDM_ERROR_CODE_SESSION_REQUIRED else SPDM_ERROR_CODE_UNSPECIFIED)
    ≠ SPDM_ERROR_CODE_RESPONSE_TOO_LARGE ∧
    (if SPDM_MESSAGE_VERSION_12 <=? libspdm_get_connection_version ctx
    then SPDM_ERROR_CODE_SESSION_REQUIRED else SPDM_ERROR_CODE_UNSPECIFIED)
    ≠ SPDM_ERROR_CODE_LARGE_RESPONSE) by (by case_if).
  destruct Hn as [Hn1 Hn2]. destruct (last_spdm_request_session_id_valid ctx) eqn:Hl'; [|by apply He]. cbn [negb].
  destruct (libspdm_get_session_info_via_session_id ctx _) as [i|] eqn:Hi; [|by apply He].
  destruct (lookup_slot _ _ _ Hi) as (si & Hsi & _). rewrite (slot_Some ctx i si Hsi).
  cbn [mbind exec_bind]. case_bool_decide as Hest; [by apply He|].
  change sizeof_spdm_message_header with 4.
  destruct (blen request =? 4) eqn:Hsz; [|by apply He]. exfalso. apply negb_false_iff in E0.
  unfold admitted in Ha. rewrite (proj2 (Z.leb_le _ _) Hv), E, E0, E1, Hl', Hsz, Hi in Ha.
  rewrite bool_decide_true in Ha by done. cbn in Ha. rewrite Hsi in Ha. cbn in Ha.
  by rewrite bool_decide_true in Ha.
Qed.

End facts.
End ResponderFacts.

(** ** The component's properties *)
Module KeyUpdateProps.
Import ContextFacts SessionFacts PacketFacts UpdateFacts ResponderFacts.
Import SessionTableProps SecuredSessionProps SecuredMessageProps ToyHal.

(** C15: the responder's KEY_UPDATE handler refines the abstract machine
    [update_step]: for every KEY_UPDATE request, of any contents and length, it
    returns.  A request that the guards admit is one for an established session,
    and does to the session's keys and last request what the machine does: it
    is acknowledged with its own operation and tag when the machine moves, is
    answered with an ERROR and changes no session when the machine rejects it,
    and makes the handler fail when the keys cannot be derived.  Every other
    request is answered with an ERROR and changes no session.  No case touches
    another slot of the table, or anything that the keys are derived from. *)
Theorem key_update_refines `{BuildConfig, CryptoHal, !CryptoHalOk}
    (ctx : libspdm_context_t) (request response : list Z)
    (Hq : 4 ≤ blen request) (Hc : request !! 1%nat = Some SPDM_KEY_UPDATE)
    (Hr : 8 ≤ blen response) (Hx : exchange_ok ctx) (Hs : sessions_keyed ctx) :
  ∃ rq r, read_header request = Ret rq ∧
    libspdm_get_response_key_update ctx (blen request) request (blen response) response = Ret r ∧
    match admitted ctx rq (blen request) with
    | None => error_reply ctx r
    | Some i => ∃ si, session_info ctx !! i = Some si ∧
        let c := secured_message_context si in
        session_state c = LIBSPDM_SESSION_STATE_ESTABLISHED ∧
        session_id si = last_spdm_request_session_id ctx ∧
        match update_step (next c) rq (update_state_of si) with
        | UpdateRejected => error_reply ctx r
        | UpdateFailed => rp_status r = LIBSPDM_STATUS_UNSUPPORTED_CAP ∧
            ∃ si', session_info (rp_ctx r) = <[i := si']> (session_info ctx)
        | Updated s => rp_status r = LIBSPDM_STATUS_SUCCESS ∧
            sub (rp_response r) 0 (rp_size r) =
              [spdm_version rq; SPDM_KEY_UPDATE_ACK; param1 rq; param2 rq] ∧
            ∃ si', session_info (rp_ctx r) = <[i := si']> (session_info ctx) ∧
              session_id si' = session_id si ∧ update_state_of si' = s ∧
              frame_of (secured_message_context si') = frame_of c
        end
    end.
Proof.
  destruct (read_header_ok request Hq) as (rq & rest & Er & ->).
  assert (Ec : request_response_code rq = SPDM_KEY_UPDATE) by (cbn in Hc; congruence).
  exists rq. destruct (admitted ctx rq _) as [i|] eqn:Ha.
  - destruct (admitted_slot _ _ _ _ Ha) as (si & Hi & Hid & Hst).
    destruct (Hs i si Hi Hst) as (W & h & K).
    destruct (handler_admitted ctx _ response rq i si h Er Ec ltac:(lia) Ha Hi W K) as (r & E & R).
    exists r. split; [done|]. split; [done|]. exists si. split; [done|]. cbv zeta.
    split; [done|]. split; [done|]. destruct (update_step _ _ _) as [| |s]; [done| |].
    + destruct R as (S & c' & M). split; [done|]. eexists. apply M.
    + destruct R as (S & B & c' & t & M & W' & F & V). split; [done|]. split; [done|].
      eexists. split; [apply M|]. split; [done|]. split; [|done].
      unfold update_state_of. cbn. rewrite V. by destruct s.
  - destruct (handler_rejected ctx _ response rq Er Ec Hr Hx Ha) as (r & E & R). by exists r.
Qed.

(** A responder with one established session. *)
Definition key_update_flags : Z :=
  Z.lor 192 (Z.lor SPDM_GET_CAPABILITIES_REQUEST_FLAGS_KEY_UPD_CAP
               SPDM_GET_CAPABILITIES_RESPONSE_FLAGS_KEY_UPD_CAP).

Definition toy_peer (is_requester : bool) : libspdm_context_t :=
  toy_table <| lc_is_requester := is_requester |>
    <| lc_capability := Build_device_capability 0 0 0 key_update_flags 0 4096 4096 4096 64 40 |>
    <| ci_capability := Build_device_capability 0 0 0 key_update_flags 0 4096 4096 4096 64 40 |>
    <| session_info := <[0%nat := toy_info <| session_id := 7 |>
                                    <| secured_message_context := toy_session |>]>
         (session_info toy_table) |>
    <| last_spdm_request_session_id := 7 |> <| last_spdm_request_session_id_valid := true |>
    <| exchange := toy_exchange <| cache_spdm_request := zeros 4096 |> |>.

Lemma toy_peer_keyed b : sessions_keyed (toy_peer b).
Proof.
  intros i si Hi Hs. destruct i as [|[|[|[|i]]]]; cbn in Hi; try done;
    injection Hi as <-; try done.
  split; [apply (r_wf _ _ toy_session_ready)|]. by exists SHA256.
Qed.

Lemma key_update_refines_witness :
  ∃ r, @libspdm_get_response_key_update default_build toy_hal (toy_peer false) 4
         [0x12; 0xE9; 1; 0x55] 8 (zeros 8) = Ret r ∧
    rp_status r = LIBSPDM_STATUS_SUCCESS ∧
    sub (rp_response r) 0 (rp_size r) = [0x12; 0x69; 1; 0x55].
Proof.
  destruct (@key_update_refines default_build toy_hal toy_hal_ok (toy_peer false)
    [0x12; 0xE9; 1; 0x55] (zeros 8)) as (rq & r & Er & E & R).
  1: (cbn; lia). 1: reflexivity. 1: (vm_compute; discriminate). 1: (by split; vm_compute).
  1: apply toy_peer_keyed.
  exists r. split; [exact E|]. vm_compute in Er. injection Er as <-.
  assert (Ha : admitted (toy_peer false) (Build_message_header 0x12 0xE9 1 0x55) 4 = Some 0%nat)
    by (vm_compute; reflexivity).
  cbn [length] in R. change (Z.of_nat 4) with 4 in R. rewrite Ha in R.
  destruct R as (si & Hi & R). injection Hi as <-. cbv zeta in R. destruct R as (_ & _ & R).
  destruct (update_step _ _ _) as [| |s] eqn:Eu; [vm_compute in Eu; discriminate..|].
  destruct R as (S & B & _). by split.
Defined.

(** C40: a RESPONSE_NOT_READY never makes progress: for any request other than
    RESPOND_IF_READY, the ERROR response of the library's responder in the state
    NOT_READY carries RDTM 1, which the library's requester refuses as an
    invalid field.  The request fails, no RESPOND_IF_READY is ever sent, and
    nothing of the requester's context or of the channel changes. *)
Theorem response_not_ready_refused `{BuildConfig, CryptoHal} {channel : RequesterChannel}
    (responder requester : libspdm_context_t) (sid : option Z) (code expected : Z)
    (response : list Z) (w : world)
    (Hx : exchange_ok responder) (Hr : 8 ≤ blen response)
    (Hs : response_state (exchange responder) = LIBSPDM_RESPONSE_STATE_NOT_READY)
    (Hc : code ≠ SPDM_RESPOND_IF_READY) :
  ∃ r, libspdm_responder_handle_response_state responder code (blen response) response = Ret r ∧
    rp_status r = LIBSPDM_STATUS_SUCCESS ∧
    let received := sub (rp_response r) 0 (rp_size r) in
    libspdm_handle_error_response_main requester sid received code expected w =
      Ret (Handled LIBSPDM_STATUS_INVALID_MSG_FIELD requester received w).
Proof.
  destruct (not_ready_reply responder code response Hx Hr Hs) as (r & e & E & S & _ & B & T).
  destruct (T Hc) as [T1 T2].
  exists r. split; [done|]. split; [done|]. cbv zeta. rewrite B. unfold not_ready_bytes.
  cbn [app]. unfold libspdm_handle_error_response_main. rewrite read_header_cons.
  cbn [mbind exec_bind request_response_code param1]. rewrite assert_true. cbn [mbind exec_bind].
  change (SPDM_ERROR_CODE_RESPONSE_NOT_READY =? SPDM_ERROR_CODE_DECRYPT_ERROR) with false.
  change (SPDM_ERROR_CODE_RESPONSE_NOT_READY =? SPDM_ERROR_CODE_RESPONSE_NOT_READY) with true.
  assert (En : libspdm_handle_response_not_ready requester sid
    (libspdm_get_connection_version responder :: SPDM_ERROR :: SPDM_ERROR_CODE_RESPONSE_NOT_READY
     :: 0 :: not_ready_bytes e) code expected w = Ret (Handled LIBSPDM_STATUS_INVALID_MSG_FIELD
     requester (libspdm_get_connection_version responder :: SPDM_ERROR ::
       SPDM_ERROR_CODE_RESPONSE_NOT_READY :: 0 :: not_ready_bytes e) w)); [|by destruct sid].
  unfold libspdm_handle_response_not_ready, not_ready_bytes. rewrite T1, T2.
  rewrite (proj2 (Z.ltb_ge _ _)) by (vm_compute; discriminate). rewrite read_header_cons.
  change (Z.to_nat sizeof_spdm_message_header) with 4%nat. cbn [drop]. rewrite read_header_cons.
  cbn [mbind exec_bind request_response_code param1]. rewrite !assert_true. cbn.
  by rewrite Z.eqb_refl.
Qed.

(** A channel to a peer that never answers. *)
Definition silent_channel : @RequesterChannel default_build toy_hal :=
  @Build_RequesterChannel default_build toy_hal unit
    (λ w, (LIBSPDM_STATUS_SUCCESS, w)) (λ w, w) (λ w, (LIBSPDM_STATUS_SUCCESS, [], w)) (λ w, w)
    (λ ctx _ _ w, Ret (LIBSPDM_STATUS_SUCCESS, ctx, w))
    (λ ctx _ w, Ret (LIBSPDM_STATUS_RECEIVE_FAIL, ctx, [], w)).

Lemma response_not_ready_refused_witness :
  let busy := (toy_peer false) <| exchange := (exchange (toy_peer false))
    <| response_state := LIBSPDM_RESPONSE_STATE_NOT_READY |> |> in
  ∃ h, @libspdm_handle_error_response_main default_build toy_hal silent_channel (toy_peer true)
    (Some 7) [0x12; 0x7F; 0x42; 0; 1; 0xE9; 0; 1] 0xE9 0x69 (0, tt) = Ret h ∧
    hd_status h = LIBSPDM_STATUS_INVALID_MSG_FIELD ∧
    ∃ r, @libspdm_responder_handle_response_state default_build busy 0xE9 8 (zeros 8) = Ret r ∧
      sub (rp_response r) 0 (rp_size r) = [0x12; 0x7F; 0x42; 0; 1; 0xE9; 0; 1].
Proof.
  intros busy.
  destruct (@response_not_ready_refused default_build toy_hal silent_channel busy (toy_peer true)
    (Some 7) 0xE9 0x69 (zeros 8) (0, tt)) as (r & E & _ & R).
  1: (by split; vm_compute). 1: (vm_compute; discriminate). 1-2: done.
  change (blen (zeros 8)) with 8 in E.
  assert (B : sub (rp_response r) 0 (rp_size r) = [0x12; 0x7F; 0x42; 0; 1; 0xE9; 0; 1]).
  { vm_compute in E. injection E as <-. reflexivity. }
  cbv zeta in R. rewrite B in R.
  eexists. split; [exact R|]. split; [reflexivity|]. by exists r.
Defined.

End KeyUpdateProps.
