(* ===== verification/ChunkProps.v ===== *)
(** * ChunkProps: properties of the transfer of large messages in chunks *)

From S2P Require Import Prelude SpdmDefs CommonSupport CryptLib SecuredContext SecuredSession.
From S2P Require Import SecuredMessage SpdmContext SessionTable Messages KeyUpdate KeyUpdateProps.
From S2P Require Import Transport SendReceive Handlers Responder.

(** ** The requester's loop *)
Module ChunkFacts.
Import ResponderFacts.

(** The branches that end a transfer with an error status. *)
Ltac stopped := solve [repeat eexists | repeat eexists; eassumption].

Section requester.
Context `{BuildConfig, CryptoHal} {device : Device}.
Implicit Types ctx : libspdm_context_t.
Implicit Types l : large_response.

(** What the loop relies on, and the services do not change. *)
Definition chunk_frame ctx : libspdm_device_capability_t * Z * nat * nat :=
  (lc_capability ctx, ci_version ctx,
   length (large_message_section (scratch (exchange ctx))),
   length (last_spdm_request (exchange ctx))).

(** The scratch buffer has the sizes of the capabilities. *)
Record chunk_room ctx : Prop := ChunkRoom {
  cr_header : 0 ≤ transport_header_size (lc_capability ctx);
  cr_request : transport_header_size (lc_capability ctx) + sizeof_spdm_chunk_get_request_14
               ≤ libspdm_get_scratch_buffer_sender_receiver_capacity ctx;
  cr_max : is_u32 (max_spdm_msg_size (lc_capability ctx));
  cr_large : max_spdm_msg_size (lc_capability ctx)
             = blen (large_message_section (scratch (exchange ctx)));
  cr_last : 4 ≤ blen (last_spdm_request (exchange ctx));
}.

Lemma chunk_room_frame ctx ctx' : chunk_frame ctx' = chunk_frame ctx → chunk_room ctx → chunk_room ctx'.
Proof.
  unfold chunk_frame. intros [= E1 E2 E3 E4] []. unfold libspdm_get_scratch_buffer_sender_receiver_capacity in *.
  split; unfold libspdm_get_scratch_buffer_sender_receiver_capacity; rewrite ?E1; lia || done.
Qed.

Lemma read_header_any (m : list Z) : 4 ≤ blen m → ∃ h, read_header m = Ret h.
Proof. intros Hm. destruct (read_header_ok m Hm) as (h & r & E & _). by exists h. Qed.

Lemma load_le_any k (m : list Z) off : bytes_ok m → in_range m off (Z.of_nat k) = true →
  ∃ v, load_le k m off = Ret v ∧ 0 ≤ v < 2 ^ (8 * Z.of_nat k).
Proof.
  intros Hm Hr. unfold load_le. rewrite load_in by done. cbn [mbind exec_bind].
  eexists. split; [reflexivity|]. pose proof (le_val_bound _ (bytes_ok_sub m off (Z.of_nat k) Hm)) as Hb.
  rewrite length_sub in Hb by done. by rewrite Nat2Z.id in Hb.
Qed.

(** The ERROR responses that are not handled by a transfer. *)
Lemma simple_error_any ctx code : 4 ≤ blen (last_spdm_request (exchange ctx)) →
  ∃ st ctx', libspdm_handle_simple_error_response ctx code = Ret (st, ctx') ∧ is_error st = true ∧
    chunk_frame ctx' = chunk_frame ctx.
Proof.
  intros Hl. unfold libspdm_handle_simple_error_response.
  destruct (read_header_any _ Hl) as (h & ->). cbn [mbind exec_bind].
  repeat case_if; do 2 eexists; (split; [reflexivity|]); split; reflexivity.
Qed.

(** The progress of a transfer: every chunk but the last carries at least 26
    bytes, within the large message. *)
Definition transfer_ok (max : Z) l : Prop :=
  l = LargeResponse 0 0 0 ∨
  0 < lr_seq_no l ∧ 26 * lr_seq_no l ≤ lr_so_far l ∧ lr_so_far l ≤ lr_size l ∧ lr_size l ≤ max.

Lemma transfer_bounds max l : 0 ≤ max → transfer_ok max l →
  0 ≤ lr_seq_no l ∧ 26 * lr_seq_no l ≤ lr_so_far l ∧ lr_so_far l ≤ lr_size l ∧ lr_size l ≤ max.
Proof. intros Hm [->|?]; cbn; lia. Qed.

Lemma first_chunk_any ctx response chunk_size b : bytes_ok response → chunk_room ctx →
  (∃ st, first_chunk ctx response chunk_size b = Ret (inr st) ∧ is_error st = true) ∨
  ∃ size, first_chunk ctx response chunk_size b = Ret (inl size) ∧
    26 ≤ chunk_size ≤ size ∧ size ≤ max_spdm_msg_size (lc_capability ctx) ∧ 16 ≤ blen response.
Proof.
  intros Hb [_ _ Hm _ _]. unfold first_chunk.
  repeat (case_if; [left; stopped|]).
  unfold sizeof_spdm_chunk_response_response, SPDM_MIN_DATA_TRANSFER_SIZE_VERSION_12 in *.
  destruct (load_le_any 4 response 12 Hb) as (v & -> & Hv); [range|]. cbn [mbind exec_bind].
  repeat (case_if; [left; stopped|]).
  all: right; eexists; (split; [reflexivity|]); lia.
Qed.

(** A chunk is an error, or moves the transfer on. *)
Lemma take_chunk_any ctx handle l response b :
  let max := max_spdm_msg_size (lc_capability ctx) in
  bytes_ok response → 4 ≤ blen response → chunk_room ctx → transfer_ok max l →
  (∃ st ctx', take_chunk ctx handle l response b = Ret (inl (st, ctx')) ∧ is_error st = true ∧
     chunk_frame ctx' = chunk_frame ctx) ∨
  ∃ l' ctx' last, take_chunk ctx handle l response b = Ret (inr (l', ctx', last)) ∧
    chunk_frame ctx' = chunk_frame ctx ∧ 0 ≤ lr_size l' ≤ max ∧
    (last = false → transfer_ok max l' ∧ lr_so_far l < lr_so_far l').
Proof.
  intros max Hb H4 Hr Ht. pose proof Hr as [_ _ Hm Hl Hlast]. fold max in Hm, Hl.
  pose proof (transfer_bounds max l ltac:(unfold is_u32 in Hm; lia) Ht) as Hbd.
  unfold take_chunk. destruct (read_header_any _ H4) as (h & ->). cbn [mbind exec_bind].
  destruct (request_response_code h =? SPDM_ERROR).
  { destruct (simple_error_any ctx (param1 h) Hlast) as (st & ctx' & -> & He & Hf).
    cbn [mbind exec_bind]. left. eauto. }
  case_if; [left; stopped|]. unfold sizeof_spdm_chunk_response_response in *.
  destruct (blen response <? _) eqn:Hlen; [left; stopped|].
  assert (H12 : 12 ≤ blen response) by (destruct (lr_seq_no l =? 0); lia).
  unfold read_chunk_response. set (v := libspdm_get_connection_version ctx).
  destruct (load_le_any (if v <? SPDM_MESSAGE_VERSION_14 then 2 else 4) response
    sizeof_spdm_message_header Hb) as (seq & -> & _).
  { unfold sizeof_spdm_message_header. destruct (v <? SPDM_MESSAGE_VERSION_14); range. }
  destruct (load_le_any 4 response 8 Hb) as (chunk_size & -> & Hcs); [range|].
  cbn [mbind exec_bind]. destruct (lr_seq_no l =? 0) eqn:Hfirst.
  - destruct (first_chunk_any ctx response chunk_size b Hb Hr)
      as [(st & -> & He)|(size & -> & Hsz & Hmax & H16)]; cbn [mbind exec_bind]; [left; stopped|].
    fold max in Hmax. repeat (case_if; [left; stopped|]).
    destruct Ht as [->|Ht]; [|lia]. cbn [lr_so_far lr_seq_no lr_size] in *.
    rewrite load_in by range. cbn [mbind exec_bind]. unfold copy_mem.
    rewrite length_sub by range. rewrite (proj2 (Z.leb_le _ _)) by lia.
    rewrite store_in by (rewrite in_range_iff, length_sub by range; lia). cbn [mbind exec_bind].
    right. do 3 eexists. split; [reflexivity|]. split.
    { unfold chunk_frame. cbn. by rewrite length_upd by (rewrite in_range_iff, length_sub by range; lia). }
    cbn [lr_size lr_so_far]. split; [lia|]. intros _. split; [|lia]. right. cbn.
    rewrite u32_small by (unfold is_u32; lia). lia.
  - cbn [mbind exec_bind]. destruct (later_chunk _ _ _ _) eqn:Hlater.
    { left. do 2 eexists. split; [reflexivity|]. unfold later_chunk in Hlater.
      destruct (_ || _) in Hlater; [|done]. injection Hlater as <-. done. }
    unfold later_chunk in Hlater. destruct (_ || _) eqn:Hok in Hlater; [done|].
    unfold sizeof_spdm_chunk_response_response, SPDM_MIN_DATA_TRANSFER_SIZE_VERSION_12 in *.
    repeat (case_if; [left; stopped|]).
    rewrite load_in by range. cbn [mbind exec_bind]. unfold copy_mem.
    rewrite length_sub by range. rewrite (proj2 (Z.leb_le _ _)) by lia.
    rewrite store_in by (rewrite in_range_iff, length_sub by range; lia). cbn [mbind exec_bind].
    right. do 3 eexists. split; [reflexivity|]. split.
    { unfold chunk_frame. cbn. by rewrite length_upd by (rewrite in_range_iff, length_sub by range; lia). }
    cbn [lr_size lr_so_far]. split; [lia|]. intros Hlst.
    match type of Hlst with ?x = false => set (last := x) in * end.
    rewrite Hlst in *. cbn [negb andb] in *. unfold transfer_ok. cbn.
    rewrite u32_small by (unfold is_u32 in *; lia). lia.
Qed.

(** Services that return on any message, and leave the context of the transfer. *)
Record chunk_services
    (send : libspdm_context_t → list Z → io_world →
            exec (libspdm_return_t * libspdm_context_t * io_world))
    (receive : libspdm_context_t → io_world → exec received) : Prop := ChunkServices {
  cs_send ctx request w : chunk_room ctx → ∃ st ctx' w',
    send ctx request w = Ret (st, ctx', w') ∧ chunk_frame ctx' = chunk_frame ctx;
  cs_receive ctx w : chunk_room ctx → ∃ r,
    receive ctx w = Ret r ∧ chunk_frame (rc_ctx r) = chunk_frame ctx ∧
    bytes_ok (rc_response r) ∧
    (is_error (rc_status r) = false → sizeof_spdm_message_header ≤ blen (rc_response r));
}.

Lemma section_frame ctx p m : chunk_frame (put_section p ctx m) = chunk_frame ctx.
Proof. by destruct p. Qed.

Section loop.
Context {send : libspdm_context_t → list Z → io_world →
          exec (libspdm_return_t * libspdm_context_t * io_world)}.
Context {receive : libspdm_context_t → io_world → exec received}.
Hypothesis services : chunk_services send receive.

Lemma chunk_get_loop_any fuel ctx handle l b w :
  let max := max_spdm_msg_size (lc_capability ctx) in
  chunk_room ctx → transfer_ok max l → (Z.to_nat (max - lr_so_far l) < fuel)%nat →
  ∃ st ctx' l' w', chunk_get_loop send receive fuel ctx handle l b w = Ret (st, ctx', l', w') ∧
    chunk_frame ctx' = chunk_frame ctx ∧ (is_error st = false → st = LIBSPDM_STATUS_SUCCESS ∧ 0 ≤ lr_size l' ≤ max).
Proof.
  revert ctx l w. induction fuel as [|fuel IH]; intros ctx l w max Hr Ht Hf; [lia|].
  pose proof Hr as [Hh Hq Hm _ _]. fold max in Hm.
  pose proof (transfer_bounds max l ltac:(unfold is_u32 in Hm; lia) Ht) as Hbd.
  assert (Hms : is_u32 (libspdm_get_scratch_buffer_sender_receiver_capacity ctx))
    by apply u32_range.
  unfold sizeof_spdm_chunk_get_request_14, is_u32 in *. cbn [chunk_get_loop].
  rewrite (proj2 (Z.leb_le (transport_header_size _) _)) by lia.
  rewrite assert_true. cbn [mbind exec_bind]. rewrite size_t_small by lia. rewrite (proj2 (Z.leb_le _ _)), assert_true.
  2: { unfold sizeof_spdm_chunk_get_request, sizeof_spdm_chunk_get_request_14. case_match; lia. }
  cbn [mbind exec_bind]. destruct (chunk_get_request _ _ _) as [request|];
    [|do 4 eexists; by split].
  destruct (cs_send _ _ services ctx request w Hr) as (st & ctx1 & w1 & -> & F1).
  cbn [mbind exec_bind]. destruct (is_error st) eqn:He; [do 4 eexists; split; [reflexivity|]; by rewrite He|].
  set (ctx2 := put_section _ _ _).
  assert (F2 : chunk_frame ctx2 = chunk_frame ctx) by (unfold ctx2; by rewrite section_frame).
  destruct (cs_receive _ _ services ctx2 w1 (chunk_room_frame _ _ F2 Hr)) as (r & -> & F3 & Hb & Hok).
  cbn [mbind exec_bind]. rewrite F2 in F3. destruct (is_error (rc_status r)) eqn:He'.
  { do 4 eexists. split; [reflexivity|]. by rewrite He'. }
  assert (Emax : max_spdm_msg_size (lc_capability (rc_ctx r)) = max).
  { unfold chunk_frame in F3. injection F3 as E _ _ _. by rewrite E. }
  destruct (take_chunk_any (rc_ctx r) handle l (rc_response r) b)
    as [(st' & ctx' & -> & Hst & F4)|(l' & ctx' & last & -> & F4 & Hsz & Hnext)];
    [done|by apply Hok|by eapply chunk_room_frame|by rewrite Emax| |]; cbn [mbind exec_bind].
  { do 4 eexists. split; [reflexivity|]. split; [congruence|]. by rewrite Hst. }
  rewrite Emax in *. destruct ((lr_so_far l' <? lr_size l') && negb last) eqn:Hgo.
  - apply andb_true_iff in Hgo as [_ Hl]. apply negb_true_iff in Hl.
    destruct (Hnext Hl) as [Ht' Hmore]. pose proof (transfer_bounds max l' ltac:(lia) Ht') as Hbd'.
    assert (F5 : chunk_frame ctx' = chunk_frame ctx) by congruence.
    destruct (IH ctx' l' (rc_world r)) as (st' & ctx'' & l'' & w' & -> & F6 & Hs).
    { by eapply chunk_room_frame. }
    { unfold chunk_frame in F5. injection F5 as E _ _ _. rewrite E. done. }
    { unfold chunk_frame in F5. injection F5 as E _ _ _. rewrite E. fold max. lia. }
    do 4 eexists. split; [reflexivity|]. split; [congruence|].
    unfold chunk_frame in F5. injection F5 as E _ _ _. by rewrite E in Hs.
  - do 4 eexists. split; [reflexivity|]. split; [congruence|done].
Qed.

End loop.
End requester.
End ChunkFacts.

(** ** Reassembly *)
Module ReassemblyFacts.
Import ResponderFacts ChunkFacts.

Lemma load_mid (a b r : list Z) : load (a ++ b ++ r) (blen a) (blen b) = Ret b.
Proof.
  rewrite load_in by (rewrite in_range_iff, !length_app; lia). unfold sub.
  by rewrite !Nat2Z.id, drop_app_length, take_app_length.
Qed.

Lemma load_le_mid k (a r : list Z) z off : off = blen a →
  load_le k (a ++ le_bytes k z ++ r) off = Ret (z mod 2 ^ (8 * Z.of_nat k)).
Proof.
  intros ->. unfold load_le. pose proof (load_mid a (le_bytes k z) r) as E.
  rewrite length_le_bytes in E. rewrite E. cbn [mbind exec_bind]. by rewrite le_val_bytes.
Qed.

Lemma length_wide_seq_no v k : length (wide_seq_no v k) = 4%nat.
Proof. unfold wide_seq_no. case_match; done. Qed.

(** The fields of a chunk message behind its header. *)
Definition chunk_seq_no_width (v : Z) : nat := if v <? SPDM_MESSAGE_VERSION_14 then 2 else 4.

Lemma load_wide_seq_no v k (h r : list Z) : blen h = 4 → is_u32 k →
  (v < SPDM_MESSAGE_VERSION_14 → k < 65536) →
  load_le (chunk_seq_no_width v) (h ++ wide_seq_no v k ++ r) 4 = Ret k.
Proof.
  intros Hh Hk Hv. unfold chunk_seq_no_width, wide_seq_no, is_u32 in *.
  destruct (Z.ltb_spec v SPDM_MESSAGE_VERSION_14).
  - rewrite <- app_assoc, load_le_mid by lia. f_equal. apply Z.mod_small. cbn. lia.
  - rewrite load_le_mid by lia. f_equal. apply Z.mod_small. cbn. lia.
Qed.

(** The bytes of CHUNK_RESPONSE. *)
Definition chunk_message (v h n k : Z) (last : bool) (chunk : list Z) : list Z :=
  [v; SPDM_CHUNK_RESPONSE; if last then SPDM_CHUNK_GET_RESPONSE_ATTRIBUTE_LAST_CHUNK else 0; h]
  ++ wide_seq_no v k ++ le_bytes 4 (blen chunk) ++ (if k =? 0 then le_bytes 4 n else []) ++ chunk.

Lemma length_chunk_message v h n k last chunk :
  blen (chunk_message v h n k last chunk) = (if k =? 0 then 16 else 12) + blen chunk.
Proof.
  unfold chunk_message. rewrite !length_app, length_wide_seq_no, length_le_bytes.
  destruct (k =? 0); cbn [length]; rewrite ?length_le_bytes; lia.
Qed.

(** Where the chunk [k] starts, for a transfer size [d], and its size. *)
Definition chunk_start (d k : Z) : Z := if k =? 0 then 0 else k * (d - 12) - 4.
Definition chunk_length (d n k : Z) : Z :=
  if k =? 0 then d - 16 else Z.min (d - 12) (n - chunk_start d k).

Lemma chunk_next d n k : 42 ≤ d < n → 0 ≤ k → chunk_start d k < n →
  26 ≤ chunk_length d n k ∧ chunk_start d k + chunk_length d n k = chunk_start d (k + 1) ∨
  0 < chunk_length d n k ∧ chunk_start d k + chunk_length d n k = n.
Proof.
  unfold chunk_length, chunk_start. intros Hd Hk Hs.
  destruct (Z.eqb_spec k 0) as [->|Hn]; [left; change (0 + 1 =? 0) with false; lia|].
  rewrite (proj2 (Z.eqb_neq (k + 1) 0)) by lia. set (p := k * (d - 12)) in *.
  replace ((k + 1) * (d - 12)) with (p + (d - 12)) by (unfold p; ring). lia.
Qed.

Lemma chunk_bounds d n k : 42 ≤ d < n → 0 ≤ k → chunk_start d k < n →
  0 ≤ chunk_start d k ∧ 0 < chunk_length d n k ≤ (if k =? 0 then d - 16 else d - 12) ∧
  chunk_start d k + chunk_length d n k ≤ n.
Proof.
  unfold chunk_length, chunk_start. intros Hd Hk Hs.
  destruct (Z.eqb_spec k 0) as [->|Hn]; [lia|]. nia.
Qed.

(** Storing a prefix of a buffer. *)
Lemma store_head (c : list Z) n : 0 ≤ n → blen c ≤ n →
  ∃ m', store (zeros n) 0 c = Ret m' ∧ sub m' 0 (blen c) = c.
Proof.
  intros Hn Hc. assert (Hr : in_range (zeros n) 0 (blen c) = true)
    by (rewrite in_range_iff, length_zeros; lia).
  exists (upd (zeros n) 0 c). split; [by apply store_in|by apply sub_upd_same].
Qed.

Lemma store_zeros n : 0 ≤ n → store (zeros n) 0 (zeros n) = Ret (zeros n).
Proof.
  intros Hn. assert (Hl : blen (zeros n) = n) by (rewrite length_zeros; lia).
  rewrite store_in by (rewrite in_range_iff, Hl; lia). f_equal.
  pose proof (sub_upd_same (zeros n) 0 (zeros n) ltac:(rewrite in_range_iff, Hl; lia)) as E.
  transitivity (sub (upd (zeros n) 0 (zeros n)) 0 (blen (upd (zeros n) 0 (zeros n))));
    [by rewrite sub_all|]. by rewrite length_upd by (rewrite in_range_iff, Hl; lia).
Qed.

Section responder.
Context `{BuildConfig, CryptoHal}.
Implicit Types ctx : libspdm_context_t.

(** A responder that answers chunk requests of the version [v], in chunks of at
    most [d] bytes. *)
Record serving ctx (v d : Z) : Prop := Serving {
  sv_version : libspdm_get_connection_version ctx = v;
  sv_12 : SPDM_MESSAGE_VERSION_12 ≤ v < 256;
  sv_cap : libspdm_is_capabilities_flag_supported ctx false
             SPDM_GET_CAPABILITIES_REQUEST_FLAGS_CHUNK_CAP
             SPDM_GET_CAPABILITIES_RESPONSE_FLAGS_CHUNK_CAP = true;
  sv_state : response_state (exchange ctx) = LIBSPDM_RESPONSE_STATE_NORMAL;
  sv_connected : connection_state_below ctx LIBSPDM_CONNECTION_STATE_AFTER_CAPABILITIES = false;
  sv_size : Z.min (data_transfer_size (ci_capability ctx))
                  (sender_data_transfer_size (lc_capability ctx)) = d;
}.

(** It holds the message [m] under the handle [h], and has sent the first [t]
    bytes of it in [k] chunks. *)
Record holding ctx (h : Z) (m : list Z) (k t : Z) : Prop := Holding {
  hl_info : ∃ c, chunk_get (exchange ctx) = Build_chunk_info true h k t true (blen m) c;
  hl_message : sub (large_message_section (scratch (exchange ctx))) 0 (blen m) = m;
  hl_room : blen m ≤ blen (large_message_section (scratch (exchange ctx)));
}.

(** The bytes of the request for the chunk [k]. *)
Definition chunk_request (v h k : Z) : list Z :=
  [v; SPDM_CHUNK_GET; 0; h] ++ le_bytes (chunk_seq_no_width v) k.

(** What the responder is after the chunk. *)
Definition served ctx ctx' (h : Z) (m : list Z) (k t : Z) : Prop :=
  let d := Z.min (data_transfer_size (ci_capability ctx))
                 (sender_data_transfer_size (lc_capability ctx)) in
  lc_capability ctx' = lc_capability ctx ∧
  let t' := t + chunk_length d (blen m) k in
  if t' =? blen m then chunk_get (exchange ctx') = Build_chunk_info false (u8 (h + 1)) 0 0 false 0 0
  else serving ctx' (libspdm_get_connection_version ctx) d ∧ holding ctx' h m (k + 1) t'.

Lemma chunk_response_spec ctx v d h m k hd size :
  spdm_version hd = v → serving ctx v d → holding ctx h m k (chunk_start d k) →
  is_u32 (blen m) → 42 ≤ d < blen m → d < size → 0 ≤ k → k + 1 < 2 ^ 32 →
  chunk_start d k < blen m →
  let c := sub m (chunk_start d k) (chunk_length d (blen m) k) in
  let last := chunk_start d k + chunk_length d (blen m) k =? blen m in
  ∃ r, chunk_response ctx hd k d size (zeros size) = Ret r ∧
    rp_status r = LIBSPDM_STATUS_SUCCESS ∧
    sub (rp_response r) 0 (rp_size r) = chunk_message v h (blen m) k last c ∧
    served ctx (rp_ctx r) h m k (chunk_start d k).
Proof.
  intros Hv Hs Hh Hm Hd Hsz Hk Hk32 Ht c last. pose proof Hh as [[cap Ei] Hsub Hroom].
  pose proof Hs as [Ev E12 Ecap Est Econ Ed].
  destruct (chunk_bounds d (blen m) k Hd Hk Ht) as (Hst & Hn & Hend). unfold is_u32 in Hm.
  assert (En : (if k =? 0 then u32 (d - 12 - 4)
    else u32 (Z.min (size_t (d - 12)) (u32 (blen m - chunk_start d k)))) = chunk_length d (blen m) k).
  { unfold chunk_length. destruct (k =? 0).
    - rewrite u32_small by (unfold is_u32; lia). lia.
    - rewrite size_t_small, (u32_small (blen m - _)), u32_small by (unfold is_u32; lia). lia. }
  assert (Ea : negb (k =? 0) || (chunk_length d (blen m) k <? blen m) = true)
    by (destruct (k =? 0); cbn [negb orb]; [lia|done]).
  set (t := chunk_start d k) in *. set (n := chunk_length d (blen m) k) in *.
  unfold chunk_response. rewrite Ei. cbn [chunk_in_use chunk_handle chunk_seq_no
    chunk_bytes_transferred large_message large_message_size large_message_capacity].
  unfold sizeof_spdm_chunk_response_response.
  rewrite En, store_zeros by lia. cbn [mbind exec_bind].
  rewrite (proj2 (Z.ltb_lt d size)), assert_true by lia. cbn [mbind exec_bind].
  rewrite Ea, assert_true. cbn [mbind exec_bind]. rewrite load_in by range. cbn [mbind exec_bind].
  rewrite (proj2 (Z.leb_le _ _)), assert_true by lia. cbn [mbind exec_bind]. fold last.
  assert (Hc : sub (large_message_section (scratch (exchange ctx))) t n = c).
  { unfold c. rewrite <- Hsub at 1. by rewrite sub_sub by lia. }
  assert (Hcl : blen c = n) by (unfold c; rewrite length_sub by range; lia).
  rewrite Hc, Hv, Ev. set (sz := if k =? 0 then le_bytes 4 (blen m) else []).
  destruct (store_head (chunk_message v h (blen m) k last c) size) as (m' & Em & Es).
  { lia. } { rewrite length_chunk_message, Hcl. destruct (k =? 0); lia. }
  unfold chunk_message in Em at 1. rewrite Hcl in Em. fold sz in Em.
  rewrite Em. cbn [mbind exec_bind].
  eexists. split; [reflexivity|]. split; [done|]. cbn [rp_size rp_response rp_ctx]. split.
  { etransitivity; [|exact Es]. f_equal. rewrite length_chunk_message, Hcl. unfold sz. by destruct (k =? 0). }
  unfold served. cbv zeta. rewrite Ed, Ev. fold n t.
  change (t + n =? blen m) with last. clearbody last. clear Em Es. destruct last; [cbn; by rewrite Ei|]. split; [done|].
  split; [split; done|]. split; [|done..]. exists cap. cbn. rewrite Ei. cbn.
  rewrite u32_small by (unfold is_u32; lia). done.
Qed.

(** Before version 1.4, sixteen bits number the chunks. *)
Definition numbered (v d n : Z) : Prop :=
  v < SPDM_MESSAGE_VERSION_14 → n ≤ (d - 12) * 65536 - 4.

Lemma numbered_chunk v d n k : 42 ≤ d < n → 0 ≤ k → chunk_start d k < n → numbered v d n →
  v < SPDM_MESSAGE_VERSION_14 → k < 65536.
Proof.
  unfold numbered, chunk_start. intros Hd Hk Hs Hn Hv. specialize (Hn Hv).
  destruct (Z.eqb_spec k 0) in Hs; [lia|]. nia.
Qed.

Lemma chunk_count d n k : 42 ≤ d < n → 0 ≤ k → chunk_start d k < n → is_u32 n → k + 1 < 2 ^ 32.
Proof.
  unfold chunk_start, is_u32. intros Hd Hk Hs Hn. destruct (Z.eqb_spec k 0) in Hs; [lia|].
  assert (k * 30 ≤ k * (d - 12)) by (apply Z.mul_le_mono_nonneg_l; lia). lia.
Qed.

Lemma max_chunk_transfer v d n : 42 ≤ d < 2 ^ 32 → is_u32 n → numbered v d n →
  (v <? SPDM_MESSAGE_VERSION_14) && (u64 (u64 (u64 (d - 12) * 65536) - 4) <? n) = false.
Proof.
  unfold is_u32, numbered. intros Hd Hn Hv. rewrite (u64_small (d - 12)) by (unfold is_u64; lia).
  rewrite (u64_small ((d - 12) * 65536)), u64_small by (unfold is_u64; lia).
  destruct (Z.ltb_spec v SPDM_MESSAGE_VERSION_14); cbn [andb]; [|done]. apply Z.ltb_ge. lia.
Qed.

(** The handler answers the request for the next chunk with it. *)
Lemma chunk_get_handler ctx v d h m k size response :
  serving ctx v d → holding ctx h m k (chunk_start d k) → is_u32 (blen m) → 42 ≤ d < blen m →
  0 ≤ k → chunk_start d k < blen m → numbered v d (blen m) →
  let q := chunk_request v h k in
  libspdm_get_response_chunk_get ctx (blen q) q size response =
    chunk_response ctx (Build_message_header v SPDM_CHUNK_GET 0 h) k d size response.
Proof.
  intros [Ev E12 Ecap Est Econ Ed] [[cap Ei] _ _] Hm Hd Hk Hs Hn q.
  pose proof (numbered_chunk v d _ k Hd Hk Hs Hn) as Hk16.
  pose proof (chunk_count d _ k Hd Hk Hs Hm) as Hk32.
  unfold libspdm_get_response_chunk_get. rewrite Ev, Ecap, Est, Econ, Ei, Ed.
  rewrite (proj2 (Z.ltb_ge v SPDM_MESSAGE_VERSION_12)) by lia. cbn [negb].
  unfold q, chunk_request. cbn [app]. rewrite read_header_cons. cbn [mbind exec_bind].
  cbn [request_response_code spdm_version param2 chunk_in_use chunk_handle chunk_seq_no
    large_message_size negb]. rewrite bool_decide_false by (by intros []).
  rewrite !Z.eqb_refl. cbn [negb].
  assert (Hl : (blen (v :: SPDM_CHUNK_GET :: 0 :: h :: le_bytes (chunk_seq_no_width v) k) <?
    (if v <? SPDM_MESSAGE_VERSION_14 then sizeof_spdm_chunk_get_request
     else sizeof_spdm_chunk_get_request_14)) = false).
  { cbn [length]. rewrite length_le_bytes. unfold chunk_seq_no_width.
    destruct (v <? SPDM_MESSAGE_VERSION_14); done. }
  rewrite Hl. unfold read_seq_no. fold (chunk_seq_no_width v).
  pose proof (load_le_mid (chunk_seq_no_width v) [v; SPDM_CHUNK_GET; 0; h] [] k 4 eq_refl) as El.
  rewrite app_nil_r in El. cbn [app] in El. change sizeof_spdm_message_header with 4. rewrite El.
  cbn [mbind exec_bind].
  assert (Ek : k mod 2 ^ (8 * Z.of_nat (chunk_seq_no_width v)) = k).
  { apply Z.mod_small. unfold chunk_seq_no_width. destruct (Z.ltb_spec v SPDM_MESSAGE_VERSION_14); cbn; lia. }
  rewrite Ek. assert (Ek' : (if v <? SPDM_MESSAGE_VERSION_14 then u16 k else k) = k).
  { destruct (Z.ltb_spec v SPDM_MESSAGE_VERSION_14); [|done]. apply u16_small. unfold is_u16. lia. }
  rewrite Ek', Z.eqb_refl. cbn [negb]. unfold sizeof_spdm_chunk_response_response.
  rewrite max_chunk_transfer by (done || (unfold is_u32 in Hm; lia)).
  by rewrite (proj2 (Z.ltb_ge v SPDM_MESSAGE_VERSION_12)) by lia.
Qed.

(** The fields of a chunk message, where the requester reads them. *)
Lemma read_chunk_message v h n k last c : is_u32 k → is_u32 (blen c) → is_u32 n →
  (v < SPDM_MESSAGE_VERSION_14 → k < 65536) →
  let r := chunk_message v h n k last c in
  read_chunk_response v r = Ret (k, blen c) ∧
  (k = 0 → load_le 4 r 12 = Ret n) ∧
  load r (12 + (if k =? 0 then 4 else 0)) (blen c) = Ret c.
Proof.
  intros Hk Hc Hn Hv r. unfold is_u32 in Hc, Hn. unfold r, chunk_message.
  set (hd := [v; _; _; _]). set (sz := if k =? 0 then _ else _).
  assert (Hw : blen (hd ++ wide_seq_no v k) = 8)
    by (rewrite length_app, length_wide_seq_no; done).
  split; [|split].
  - unfold read_chunk_response. fold (chunk_seq_no_width v). change sizeof_spdm_message_header with 4.
    rewrite load_wide_seq_no by done. cbn [mbind exec_bind].
    rewrite app_assoc, load_le_mid by done. cbn [mbind exec_bind]. do 2 f_equal.
    apply Z.mod_small. cbn. lia.
  - intros ->. unfold sz. cbn [Z.eqb]. rewrite app_assoc, app_assoc, load_le_mid.
    + f_equal. apply Z.mod_small. cbn. lia.
    + rewrite length_app, length_le_bytes. lia.
  - pose proof (load_mid (hd ++ wide_seq_no v k ++ le_bytes 4 (blen c) ++ sz) c []) as E.
    rewrite app_nil_r, <- !app_assoc in E.
    replace (12 + (if k =? 0 then 4 else 0)) with
      (blen (hd ++ wide_seq_no v k ++ le_bytes 4 (blen c) ++ sz)); [done|].
    rewrite !length_app, length_wide_seq_no, length_le_bytes. unfold sz.
    destruct (k =? 0); cbn [length]; rewrite ?length_le_bytes; cbn; lia.
Qed.

End responder.

Section requester.
Context `{BuildConfig, CryptoHal} {device : Device}.
Implicit Types ctx : libspdm_context_t.

(** A requester of the version [v] that can take in a message of [n] bytes. *)
Record collecting ctx (v n : Z) : Prop := Collecting {
  co_version : libspdm_get_connection_version ctx = v;
  co_room : chunk_room ctx;
  co_max : n ≤ max_spdm_msg_size (lc_capability ctx);
  co_size : 42 ≤ data_transfer_size (lc_capability ctx) < 2 ^ 32;
  co_numbered : numbered v (data_transfer_size (lc_capability ctx)) n;
}.

Lemma collecting_frame ctx ctx' v n :
  chunk_frame ctx' = chunk_frame ctx → collecting ctx v n → collecting ctx' v n.
Proof.
  intros F [E R M S N]. pose proof (chunk_room_frame _ _ F R). unfold chunk_frame in F.
  injection F as F1 F2 _ _. unfold libspdm_get_connection_version in *.
  split; unfold libspdm_get_connection_version; rewrite ?F1, ?F2; done.
Qed.

(** The transfer after the first [k] chunks. *)
Definition transfer_at (n d k : Z) : large_response :=
  LargeResponse k (if k =? 0 then 0 else n) (chunk_start d k).

Lemma first_chunk_message ctx v h n last c b :
  collecting ctx v n → SPDM_MESSAGE_VERSION_12 ≤ v → 42 < n → is_u32 n → 26 ≤ blen c ≤ n →
  first_chunk ctx (chunk_message v h n 0 last c) (blen c) b = Ret (inl n).
Proof.
  intros [Ev _ Hm Hs Hn] Hv Hn42 Hn32 Hc. unfold first_chunk. rewrite Ev, length_chunk_message.
  unfold sizeof_spdm_chunk_response_response, SPDM_MIN_DATA_TRANSFER_SIZE_VERSION_12.
  cbn [Z.eqb]. rewrite !(proj2 (Z.ltb_ge (16 + _) _)), (proj2 (Z.ltb_ge (blen c) (42 - 12 - 4))) by lia.
  pose proof (read_chunk_message v h n 0 last c) as (_ & E & _);
    [unfold is_u32 in *; lia..|]. cbn [Z.add] in E. rewrite E by done.
  cbn [mbind exec_bind]. rewrite (proj2 (Z.ltb_ge n (blen c))) by lia.
  rewrite (proj2 (Z.ltb_ge (max_spdm_msg_size _) _)) by lia.
  rewrite max_chunk_transfer by done.
  assert (Hmin : (n <=? (if b then 42 - send_ack_header_size v else 42)) = false).
  { apply Z.leb_gt. unfold send_ack_header_size, sizeof_spdm_chunk_send_ack_response,
      sizeof_spdm_chunk_send_ack_response_14. destruct b; [|lia]. case_match; lia. }
  by rewrite Hmin.
Qed.

Lemma take_chunk_message ctx v d h m k b :
  collecting ctx v (blen m) → SPDM_MESSAGE_VERSION_12 ≤ v → is_u32 (blen m) →
  42 ≤ d < blen m → 0 ≤ k → chunk_start d k < blen m → numbered v d (blen m) →
  let n := chunk_length d (blen m) k in
  let t := chunk_start d k in
  let c := sub m t n in
  let last := t + n =? blen m in
  take_chunk ctx h (transfer_at (blen m) d k) (chunk_message v h (blen m) k last c) b =
    Ret (inr (LargeResponse (k + 1) (blen m) (t + n),
              set_large_message ctx (upd (large_message_section (scratch (exchange ctx))) t c), last)).
Proof.
  intros Hcol Hv Hm Hd Hk Hs Hnum n t c last. pose proof Hcol as [Ev [_ _ _ Hl _] Hmax _ _].
  pose proof (numbered_chunk v d _ k Hd Hk Hs Hnum) as Hk16.
  pose proof (chunk_count d _ k Hd Hk Hs Hm) as Hk32.
  destruct (chunk_bounds d (blen m) k Hd Hk Hs) as (B1 & B2 & B3). fold t n in B1, B2, B3.
  assert (Hc : blen c = n) by (unfold c; rewrite length_sub by range; lia).
  destruct (read_chunk_message v h (blen m) k last c) as (E1 & _ & E3);
    [unfold is_u32 in *; lia..|done|].
  unfold take_chunk, transfer_at. cbn [lr_seq_no lr_size lr_so_far]. fold t.
  set (r := chunk_message v h (blen m) k last c) in *.
  assert (Hr : blen r = (if k =? 0 then 16 else 12) + n)
    by (unfold r; rewrite length_chunk_message; lia).
  assert (Eh : read_header r = Ret (Build_message_header v SPDM_CHUNK_RESPONSE
    (if last then SPDM_CHUNK_GET_RESPONSE_ATTRIBUTE_LAST_CHUNK else 0) h)) by apply read_header_cons.
  rewrite Eh. cbn [mbind exec_bind request_response_code spdm_version param1 param2].
  change (SPDM_CHUNK_RESPONSE =? SPDM_ERROR) with false. rewrite Ev, !Z.eqb_refl. cbn [negb orb].
  assert (El : negb (Z.land (if last then SPDM_CHUNK_GET_RESPONSE_ATTRIBUTE_LAST_CHUNK else 0)
    SPDM_CHUNK_GET_RESPONSE_ATTRIBUTE_LAST_CHUNK =? 0) = last) by (by destruct last).
  rewrite El. unfold sizeof_spdm_chunk_response_response.
  assert (Hg : (blen r <? (if k =? 0 then 12 + 4 else 12)) = false)
    by (apply Z.ltb_ge; destruct (k =? 0); lia).
  rewrite Hg, E1. cbn [mbind exec_bind].
  assert (Hsize : (if k =? 0 then first_chunk ctx r (blen c) b
    else Ret (match later_chunk (LargeResponse k (if k =? 0 then 0 else blen m) t) r (blen c) last with
              | Some st => inr st | None => inl (if k =? 0 then 0 else blen m) end)) =
    Ret (inl (blen m))).
  { destruct (Z.eqb_spec k 0) as [->|Hk0].
    - unfold r. apply (first_chunk_message ctx v); try done; [lia|]. rewrite Hc. unfold n, chunk_length. cbn [Z.eqb]. lia.
    - unfold later_chunk. cbn [lr_size lr_so_far]. rewrite Hc, Hr.
      unfold sizeof_spdm_chunk_response_response, SPDM_MIN_DATA_TRANSFER_SIZE_VERSION_12.
      rewrite (proj2 (Z.ltb_ge (12 + n) 12)), (proj2 (Z.ltb_ge (blen m) _)) by lia. cbn [orb].
      destruct last eqn:Hlast; [done|]. unfold last in Hlast.
      assert (n = d - 12).
      { unfold n, chunk_length in Hlast |- *. rewrite (proj2 (Z.eqb_neq k 0) Hk0) in Hlast |- *.
        fold t in Hlast |- *. lia. }
      rewrite (proj2 (Z.ltb_ge (12 + n) 42)), (proj2 (Z.ltb_ge n (42 - 12))) by lia. done. }
  rewrite Hsize. cbn [mbind exec_bind].
  assert (Ek : (if v <? SPDM_MESSAGE_VERSION_14 then u16 k else k) = k).
  { destruct (Z.ltb_spec v SPDM_MESSAGE_VERSION_14); [|done]. apply u16_small. unfold is_u16. lia. }
  rewrite Ek, Z.eqb_refl. cbn [negb]. rewrite Hr, Hc.
  assert (Hg' : ((if k =? 0 then 16 else 12) + n - (12 + (if k =? 0 then 4 else 0)) <? n) = false)
    by (apply Z.ltb_ge; destruct (k =? 0); lia).
  rewrite Hg'. rewrite Hc in E3. rewrite E3. cbn [mbind exec_bind]. unfold copy_mem.
  rewrite Hc, (proj2 (Z.leb_le n _)) by lia. rewrite store_in by (rewrite in_range_iff; lia).
  cbn [mbind exec_bind]. by rewrite u32_small by (unfold is_u32; lia).
Qed.

Lemma chunk_get_request_at v h n d k : 0 ≤ k →
  (v < SPDM_MESSAGE_VERSION_14 → k < 65536) →
  chunk_get_request v h (transfer_at n d k) = Some (chunk_request v h k).
Proof.
  intros Hk Hv. unfold chunk_get_request, chunk_request, chunk_seq_no_width, transfer_at.
  cbn [lr_seq_no lr_so_far]. destruct (Z.ltb_spec v SPDM_MESSAGE_VERSION_14); [|done].
  rewrite u16_small by (unfold is_u16; lia). unfold chunk_start.
  by destruct (Z.eqb_spec k 0).
Qed.

End requester.

(** *** A requester linked to a responder *)
Section link.
Context `{BuildConfig, CryptoHal}.
Implicit Types ctx rsp : libspdm_context_t.

(** The device is the responder, and the response it has ready. *)
#[local] Instance link_device : Device := {|
  D := libspdm_context_t * list Z;
  receiver_buffer_size := 0;
  device_acquire_sender_buffer := λ d, (LIBSPDM_STATUS_SUCCESS, d);
  device_release_sender_buffer := λ d, d;
  device_acquire_receiver_buffer := λ d, (LIBSPDM_STATUS_SUCCESS, d);
  device_release_receiver_buffer := λ d, d;
  device_send_message := λ _ _ d, (LIBSPDM_STATUS_SUCCESS, d);
  device_receive_message := λ _ _ d, (LIBSPDM_STATUS_SUCCESS, d.2, d);
|}.

(** CHUNK_GET, with a response buffer for a message of the responder's size. *)
Definition link_send ctx (request : list Z) (w : io_world) :
    exec (libspdm_return_t * libspdm_context_t * io_world) :=
  let '(rng, (rsp, _)) := w in
  let size := max_spdm_msg_size (lc_capability rsp) in
  r ← libspdm_get_response_chunk_get rsp (blen request) request size (zeros size);
  Ret (rp_status r, ctx, (rng, (rp_ctx r, sub (rp_response r) 0 (rp_size r)))).

Definition link_receive ctx (w : io_world) : exec received :=
  let '(rng, (rsp, response)) := w in
  Ret (Received LIBSPDM_STATUS_SUCCESS ctx response (rng, (rsp, []))).

Lemma link_loop fuel ctx rsp v d h m k b rng x :
  collecting ctx v (blen m) → serving rsp v d → holding rsp h m k (chunk_start d k) →
  is_u32 (blen m) → 42 ≤ d < blen m → d < max_spdm_msg_size (lc_capability rsp) →
  numbered v d (blen m) → 0 ≤ k → chunk_start d k < blen m →
  sub (large_message_section (scratch (exchange ctx))) 0 (chunk_start d k) =
    sub m 0 (chunk_start d k) →
  (Z.to_nat (blen m - chunk_start d k) < fuel)%nat →
  ∃ ctx' rsp' k',
    chunk_get_loop link_send link_receive fuel ctx h (transfer_at (blen m) d k) b (rng, (rsp, x)) =
      Ret (LIBSPDM_STATUS_SUCCESS, ctx', LargeResponse k' (blen m) (blen m), (rng, (rsp', []))) ∧
    chunk_frame ctx' = chunk_frame ctx ∧
    sub (large_message_section (scratch (exchange ctx'))) 0 (blen m) = m ∧
    chunk_get (exchange rsp') = Build_chunk_info false (u8 (h + 1)) 0 0 false 0 0.
Proof.
  revert ctx rsp k x. induction fuel as [|fuel IH];
    intros ctx rsp k x Hcol Hsv Hh Hm Hd Hsz Hnum Hk Hs Hpre Hf; [lia|].
  pose proof Hcol as [Ev [Rh Rq Rm Rl _] Hmax _ _].
  pose proof Hsv as [_ Hv _ _ _ _].
  pose proof (numbered_chunk v d _ k Hd Hk Hs Hnum) as Hk16.
  pose proof (chunk_count d _ k Hd Hk Hs Hm) as Hk32.
  destruct (chunk_bounds d (blen m) k Hd Hk Hs) as (B1 & B2 & B3).
  pose proof (u32_range (u32 (max_spdm_msg_size (lc_capability ctx) +
    transport_header_size (lc_capability ctx)) + transport_tail_size (lc_capability ctx))) as Hms.
  fold (libspdm_get_scratch_buffer_sender_receiver_capacity ctx) in Hms.
  unfold sizeof_spdm_chunk_get_request_14, is_u32 in Rq, Hms.
  cbn [chunk_get_loop]. rewrite (proj2 (Z.leb_le (transport_header_size _) _)) by lia.
  rewrite assert_true. cbn [mbind exec_bind]. rewrite size_t_small by lia.
  rewrite (proj2 (Z.leb_le _ _)), assert_true.
  2: { unfold sizeof_spdm_chunk_get_request, sizeof_spdm_chunk_get_request_14. destruct (_ <? _); lia. }
  cbn [mbind exec_bind]. rewrite Ev, chunk_get_request_at by done.
  cbn [link_send]. rewrite (chunk_get_handler rsp v d h m k) by done.
  destruct (chunk_response_spec rsp v d h m k (Build_message_header v SPDM_CHUNK_GET 0 h)
    (max_spdm_msg_size (lc_capability rsp))) as (r & -> & Sr & Br & Hserved); try done.
  cbn [mbind exec_bind]. rewrite Sr. change (is_error LIBSPDM_STATUS_SUCCESS) with false.
  cbn iota. cbn [link_receive mbind exec_bind rc_status rc_ctx rc_response rc_world].
  change (is_error LIBSPDM_STATUS_SUCCESS) with false. cbn iota. rewrite Br.
  set (ctx2 := put_section _ _ _).
  assert (Hcol2 : collecting ctx2 v (blen m))
    by (apply (collecting_frame ctx); [apply section_frame|done]).
  rewrite (take_chunk_message ctx2 v d h m k) by (done || lia). cbn [mbind exec_bind].
  cbn [lr_so_far lr_size].
  assert (Hsec : sub (upd (large_message_section (scratch (exchange ctx2))) (chunk_start d k)
      (sub m (chunk_start d k) (chunk_length d (blen m) k))) 0
      (chunk_start d k + chunk_length d (blen m) k) =
    sub m 0 (chunk_start d k + chunk_length d (blen m) k)).
  { assert (Hc : blen (sub m (chunk_start d k) (chunk_length d (blen m) k)) =
      chunk_length d (blen m) k) by (rewrite length_sub by range; lia).
    rewrite <- Hc at 2. rewrite sub_upd_append by (rewrite in_range_iff, Hc; cbn; lia).
    rewrite (sub_app m 0) by lia. f_equal. exact Hpre. }
  set (ctx3 := set_large_message ctx2 _) in *.
  assert (F3 : chunk_frame ctx3 = chunk_frame ctx).
  { unfold ctx3, chunk_frame. cbn. rewrite length_upd; [done|].
    rewrite in_range_iff, length_sub by range. cbn. lia. }
  unfold served in Hserved. cbv zeta in Hserved. destruct Hserved as [Hlc Hserved].
  destruct Hsv as [Er _ _ _ _ Ed]. rewrite Ed, Er in Hserved.
  destruct (Z.eqb_spec (chunk_start d k + chunk_length d (blen m) k) (blen m)) as [Hend|Hmore].
  - rewrite andb_false_r. rewrite Hend in *. do 3 eexists. split; [reflexivity|].
    split; [done|]. split; [|done].
    etransitivity; [exact Hsec|apply sub_all].
  - rewrite (proj2 (Z.ltb_lt _ _)) by lia. cbn [negb andb]. destruct Hserved as [Hsv' Hh'].
    destruct (chunk_next d (blen m) k Hd Hk Hs) as [[_ Hnext]|[_ ?]]; [|lia].
    rewrite Hnext in *.
    destruct (IH ctx3 (rp_ctx r) (k + 1) []) as (ctx' & rsp' & k' & E & F & Hsub & Hget);
      try done; try lia.
    { by apply (collecting_frame ctx). } { by rewrite Hlc. }
    unfold transfer_at in E. rewrite (proj2 (Z.eqb_neq (k + 1) 0)) in E by lia.
    exists ctx', rsp', k'. rewrite E. split; [done|]. split; [congruence|done].
Qed.

(** A large response of the responder is kept, and announced with its handle. *)
Lemma limit_response_large r0 v d m :
  let rsp := rp_ctx r0 in
  serving rsp v d → rp_status r0 = LIBSPDM_STATUS_SUCCESS → rp_size r0 = blen m →
  load (rp_response r0) 0 (blen m) = Ret m → (∀ c, m !! 1%nat = Some c → c ≠ SPDM_CHUNK_SEND_ACK) →
  42 ≤ d < blen m → blen m ≤ max_spdm_msg_size (lc_capability rsp) →
  exceeds (blen m) (max_spdm_msg_size (ci_capability rsp)) = false →
  let h := u8 (chunk_handle (chunk_get (exchange rsp)) + 1) in
  ∃ r1, limit_response r0 = Ret r1 ∧ rp_status r1 = LIBSPDM_STATUS_SUCCESS ∧
    sub (rp_response r1) 0 (rp_size r1) = [v; SPDM_ERROR; SPDM_ERROR_CODE_LARGE_RESPONSE; 0; h] ∧
    serving (rp_ctx r1) v d ∧ holding (rp_ctx r1) h m 0 0 ∧
    lc_capability (rp_ctx r1) = lc_capability rsp.
Proof.
  intros rsp Hsv Hst Hsz Hm Hcode Hd Hmax Hpeer h. pose proof Hsv as [Ev E12 Ecap Est Econ Ed].
  destruct (load_Ret_inv _ _ _ _ Hm) as [Hin Hsub]. rewrite in_range_iff in Hin.
  unfold limit_response. rewrite Hst. fold rsp. rewrite bool_decide_true by done. cbn [negb].
  rewrite Hsz, (proj2 (Z.leb_le _ _)), assert_true by done. cbn [mbind exec_bind].
  rewrite Hpeer, Ecap, andb_true_r.
  assert (Hex : exceeds (blen m) (data_transfer_size (ci_capability rsp))
    || exceeds (blen m) (sender_data_transfer_size (lc_capability rsp)) = true).
  { unfold exceeds. destruct (Z.min_spec (data_transfer_size (ci_capability rsp))
      (sender_data_transfer_size (lc_capability rsp))) as [[_ E]|[_ E]]; rewrite E in Ed;
      apply orb_true_iff; [left|right]; lia. }
  rewrite Hex. unfold keep_large_response. fold rsp. rewrite Hsz, Hm. cbn [mbind exec_bind].
  destruct (lookup_lt_is_Some_2 m 1) as [c Hc]; [lia|].
  assert (El : load_le 1 (rp_response r0) 1 = Ret c).
  { unfold load_le. rewrite load_in by (rewrite in_range_iff; lia). cbn [mbind exec_bind].
    assert (E1 : sub (rp_response r0) 1 1 = [c]).
    { pose proof (sub_sub (rp_response r0) 0 (blen m) 1 1 ltac:(lia) ltac:(lia) ltac:(lia) ltac:(lia)) as E1.
      rewrite <- Hsub in E1. change (0 + 1) with 1 in E1. rewrite <- E1. destruct m as [|x [|y m]]; [done..|]. by injection Hc as ->. }
    change (Z.of_nat 1) with 1. rewrite E1. cbn. f_equal. lia. }
  rewrite El. cbn [mbind exec_bind]. rewrite (proj2 (Z.eqb_neq c _)) by (by apply Hcode).
  set (cap := libspdm_get_scratch_buffer_large_message_capacity _).
  assert (Hcap : blen m ≤ cap) by exact Hmax. unfold copy_mem at 1.
  rewrite (proj2 (Z.leb_le _ _)) by done.
  destruct (store_head m cap) as (sec & Es & Hs); [lia|done|]. rewrite Es. cbn [mbind exec_bind].
  assert (Hlsec : blen sec = cap).
  { destruct (store_Ret_inv _ _ _ _ Es) as [Hr ->]. rewrite length_upd, length_zeros by done. lia. }
  set (ctx1 := set_get _ _). unfold libspdm_generate_extended_error_response.
  change (sizeof_spdm_message_header + blen [_]) with 5. rewrite (proj2 (Z.leb_le 5 _)) by lia.
  rewrite assert_true. cbn [mbind exec_bind].
  change (libspdm_get_connection_version ctx1) with (libspdm_get_connection_version rsp). rewrite Ev.
  change (chunk_handle (chunk_get (exchange ctx1))) with h.
  change sizeof_spdm_message_header with (0 + blen [v; SPDM_ERROR; SPDM_ERROR_CODE_LARGE_RESPONSE; 0]).
  rewrite store_in by range. cbn [mbind exec_bind]. unfold copy_mem.
  rewrite (proj2 (Z.leb_le _ _)) by (cbn; lia).
  set (hd := [v; _; _; _]).
  assert (Hr1 : in_range (rp_response r0) 0 (blen (hd ++ [h])) = true) by (rewrite in_range_iff; cbn; lia).
  rewrite store_in by (rewrite in_range_iff, length_upd by (rewrite in_range_iff; cbn; lia); cbn; lia).
  cbn [mbind exec_bind]. rewrite upd_upd_app by done.
  eexists. split; [reflexivity|]. split; [done|]. split; [exact (sub_upd_same _ 0 _ Hr1)|].
  split; [by split|]. split; [|done]. split; [by exists cap|exact Hs|].
  change (blen m ≤ blen sec). lia.
Qed.

End link.
End ReassemblyFacts.

(** ** The component's properties *)
Module LargeMessageProps.
Import ChunkFacts ReassemblyFacts SessionTableProps SecuredMessageProps ToyHal.



(** An endpoint that transfers 64 bytes at once. *)
Definition toy_chunking : libspdm_context_t :=
  let cap := Build_device_capability 0 0 0
    (Z.lor SPDM_GET_CAPABILITIES_REQUEST_FLAGS_CHUNK_CAP SPDM_GET_CAPABILITIES_RESPONSE_FLAGS_CHUNK_CAP)
    0 64 64 4096 64 40 in
  toy_table <| lc_capability := cap |> <| ci_capability := cap |>.

(** Closed goals about the toy endpoints. *)
Ltac ground := vm_compute; repeat split; first [reflexivity|discriminate|intros _; discriminate].

Lemma toy_room : chunk_room toy_chunking.
Proof. split; ground. Qed.

(** A peer that repeats the first chunk of a message. *)
Definition stuck_chunk : list Z :=
  [0x12; 0x06; 0; 7; 0; 0; 0; 0; 30; 0; 0; 0; 64; 0; 0; 0] ++ zeros 30.

Definition stuck_receive `{CryptoHal} {device : Device} (ctx : libspdm_context_t) (w : io_world) :
    exec received :=
  Ret (Received LIBSPDM_STATUS_SUCCESS ctx stuck_chunk w).


(** C16: a large response arrives whole: when a response is larger than what the
    two endpoints can transfer at once, the responder announces it with an ERROR
    of the code LARGE_RESPONSE and a handle, and the requester that handles this
    ERROR collects, chunk after chunk from the responder's CHUNK_GET handler,
    exactly the bytes of the response.  Both ends then have no transfer in
    progress.  Before version 1.4 the response must fit the sixteen-bit sequence
    numbers. *)
Theorem chunk_get_roundtrip `{BuildConfig, CryptoHal}
    (r0 : reply) (ctx : libspdm_context_t) (v d : Z) (m : list Z) (capacity : Z) (b : bool)
    (rng : rng_state)
    (Hsv : serving (rp_ctx r0) v d) (Hst : rp_status r0 = LIBSPDM_STATUS_SUCCESS)
    (Hsz : rp_size r0 = blen m) (Hm : load (rp_response r0) 0 (blen m) = Ret m)
    (Hcode : ∀ c, m !! 1%nat = Some c → c ≠ SPDM_CHUNK_SEND_ACK)
    (Hd : 42 ≤ d < blen m) (Hmax : blen m ≤ max_spdm_msg_size (lc_capability (rp_ctx r0)))
    (Hpeer : exceeds (blen m) (max_spdm_msg_size (ci_capability (rp_ctx r0))) = false)
    (Hn : numbered v d (blen m)) (Hco : collecting ctx v (blen m))
    (Hcap : libspdm_is_capabilities_flag_supported ctx true
              SPDM_GET_CAPABILITIES_REQUEST_FLAGS_CHUNK_CAP
              SPDM_GET_CAPABILITIES_RESPONSE_FLAGS_CHUNK_CAP = true)
    (Hc : blen m ≤ capacity) :
  ∃ r1 r rsp, limit_response r0 = Ret r1 ∧ rp_status r1 = LIBSPDM_STATUS_SUCCESS ∧
    let announced := sub (rp_response r1) 0 (rp_size r1) in
    libspdm_handle_error_large_response link_send link_receive ctx announced capacity b
      (rng, (rp_ctx r1, [])) = Ret r ∧
    rc_status r = LIBSPDM_STATUS_SUCCESS ∧ rc_response r = m ∧ rc_world r = (rng, (rsp, [])) ∧
    chunk_in_use (chunk_get (exchange (rc_ctx r))) = false ∧
    chunk_in_use (chunk_get (exchange rsp)) = false.
Proof.
  pose proof Hco as [Ev Hr Hmax' _ _]. pose proof Hr as [_ _ Rm Rl _].
  assert (Hm32 : is_u32 (blen m)) by (unfold is_u32 in *; lia).
  destruct (limit_response_large r0 v d m) as (r1 & E1 & S1 & B1 & Hsv1 & Hh1 & Hlc); try done.
  set (h := u8 _) in *. exists r1.
  unfold libspdm_handle_error_large_response, libspdm_get_scratch_buffer_large_message_capacity.
  rewrite B1, Ev, Hcap. pose proof Hsv as [_ Hv _ _ _ _].
  rewrite (proj2 (Z.ltb_ge v _)) by lia. rewrite andb_false_r. cbv zeta.
  change (blen [_; _; _; _; h] <? _) with false. cbn iota.
  change (load_le 1 [v; SPDM_ERROR; SPDM_ERROR_CODE_LARGE_RESPONSE; 0; h] sizeof_spdm_error_response)
    with (Ret (h + 256 * 0)). rewrite Z.add_0_r. cbn [mbind exec_bind].
  set (max := max_spdm_msg_size (lc_capability ctx)) in *. set (ctx0 := set_get_in_use _ _).
  assert (Hco0 : collecting ctx0 v (blen m)).
  { apply (collecting_frame ctx); [|done]. unfold chunk_frame. cbn. unfold is_u32 in Rm.
    rewrite length_zeros. do 2 f_equal. lia. }
  destruct (link_loop (S (S (Z.to_nat max))) ctx0 (rp_ctx r1) v d h m 0 b rng [])
    as (ctx' & rsp' & k' & E & F & Hsub & Hget); try done; try lia.
  { rewrite Hlc. lia. } { change (chunk_start d 0) with 0. lia. }
  { change (chunk_start d 0) with 0. lia. }
  change (LargeResponse 0 0 0) with (transfer_at (blen m) d 0). rewrite E. cbn [mbind exec_bind].
  change (is_error LIBSPDM_STATUS_SUCCESS) with false. cbn iota. cbn [lr_so_far lr_size].
  rewrite Z.eqb_refl. cbn [negb]. rewrite (proj2 (Z.leb_le _ capacity)) by done.
  assert (Hlen : blen m ≤ blen (large_message_section (scratch (exchange ctx')))).
  { destruct (collecting_frame _ _ _ _ F Hco0) as [_ [_ _ _ L _] M' _ _]. lia. }
  rewrite load_in by range. cbn [mbind exec_bind]. rewrite store_in by range. cbn [mbind exec_bind].
  eexists _, rsp'. split; [done|]. split; [done|]. split; [reflexivity|].
  split; [done|]. split; [exact Hsub|]. split; [done|]. split; [done|]. by rewrite Hget.
Qed.

(** A large response of a hundred bytes. *)
Definition toy_large : list Z := [0x12; 0x60; 0; 0] ++ zeros 95 ++ [9].

Lemma chunk_get_roundtrip_witness :
  ∃ r1 r, @limit_response default_build
      (Reply LIBSPDM_STATUS_SUCCESS toy_chunking 100 (toy_large ++ zeros 100)) = Ret r1 ∧
    @libspdm_handle_error_large_response default_build toy_hal link_device
      (@link_send default_build toy_hal) (@link_receive toy_hal) toy_chunking
      (sub (rp_response r1) 0 (rp_size r1)) 4096 false (0, (rp_ctx r1, [])) = Ret r ∧
    rc_response r = toy_large.
Proof.
  destruct (@chunk_get_roundtrip default_build toy_hal
    (Reply LIBSPDM_STATUS_SUCCESS toy_chunking 100 (toy_large ++ zeros 100)) toy_chunking 0x12 64
    toy_large 4096 false 0) as (r1 & r & rsp & E1 & _ & E & _ & R & _).
  - split; ground.
  - reflexivity.
  - reflexivity.
  - vm_compute. reflexivity.
  - intros c Hc. vm_compute in Hc. injection Hc as <-. discriminate.
  - ground.
  - ground.
  - ground.
  - ground.
  - split; [reflexivity|apply toy_room|ground..].
  - ground.
  - ground.
  - by exists r1, r.
Defined.

End LargeMessageProps.
