(* ===== verification/ConnectionProps.v ===== *)
(** * ConnectionProps: the set-up of a connection over a link

    What the set-up reads and writes of a context ([SetupFacts]), and GET_VERSION
    and GET_CAPABILITIES between a requester and the dispatcher of a responder
    ([SetupLinkFacts]), which AlgorithmsProps continues. *)

From S2P Require Import Prelude SpdmDefs CommonSupport CryptLib SecuredContext SecuredSession.
From S2P Require Import SpdmContext SessionTable Version Messages KeyUpdate Connection Algorithms.
From S2P Require Import Transport SendReceive Handlers Responder.

(** ** What the set-up reads and writes of a context *)
Module SetupFacts.
Import ManagedBufferFacts.

Record setup_t : Type := Setup {
  su_capability : libspdm_device_capability_t;
  su_version : list Z;
  su_algorithm : libspdm_device_algorithm_t;
  su_message_a : libspdm_managed_buffer_t;
  su_last : list Z;
  su_ci_version : Z;
  su_ci_capability : libspdm_device_capability_t;
  su_ci_algorithm : libspdm_device_algorithm_t;
  su_multi_key_req : bool;
  su_multi_key_rsp : bool;
  su_state : libspdm_connection_state_t;
  su_response_state : libspdm_response_state_t;
}.
#[export] Instance eta_setup : Eta setup_t := λ r,
  Setup (su_capability r) (su_version r) (su_algorithm r) (su_message_a r) (su_last r)
    (su_ci_version r) (su_ci_capability r) (su_ci_algorithm r) (su_multi_key_req r)
    (su_multi_key_rsp r) (su_state r) (su_response_state r).

Definition setup (ctx : libspdm_context_t) : setup_t :=
  let x := exchange ctx in
  Setup (lc_capability ctx) (lc_version ctx) (lc_algorithm ctx) (tr_message_a (transcript x))
    (last_spdm_request x) (ci_version ctx) (ci_capability ctx) (ci_algorithm ctx)
    (multi_key_conn_req x) (multi_key_conn_rsp x) (connection_state x) (response_state x).

Create Rewrite HintDb setup.

Section facts.
Context `{BuildConfig}.
Implicit Types ctx : libspdm_context_t.

(** *** Functions that leave the set-up alone, or change one field *)

Lemma setup_notify ctx b n : setup (notify ctx b n) = setup ctx.
Proof. by destruct b. Qed.

Lemma setup_set_connection_state ctx s :
  setup (libspdm_set_connection_state ctx s) = (setup ctx) <| su_state := s |>.
Proof.
  unfold libspdm_set_connection_state, libspdm_trigger_connection_state_callback.
  case_bool_decide as E; [by rewrite setup_notify|]. by rewrite <- E.
Qed.

Lemma setup_reset_message_m ctx : setup (libspdm_reset_message_m ctx None) = setup ctx.
Proof. unfold libspdm_reset_message_m. by rewrite setup_notify. Qed.

Lemma setup_reset_message_b ctx : setup (libspdm_reset_message_b ctx) = setup ctx.
Proof. done. Qed.
Lemma setup_reset_message_c ctx : setup (libspdm_reset_message_c ctx) = setup ctx.
Proof. done. Qed.
Lemma setup_reset_message_mut_b ctx : setup (libspdm_reset_message_mut_b ctx) = setup ctx.
Proof. done. Qed.
Lemma setup_reset_message_mut_c ctx : setup (libspdm_reset_message_mut_c ctx) = setup ctx.
Proof. done. Qed.
Lemma setup_reset_message_e ctx : setup (libspdm_reset_message_e ctx None) = setup ctx.
Proof. done. Qed.
Lemma setup_reset_message_encap_e ctx : setup (libspdm_reset_message_encap_e ctx None) = setup ctx.
Proof. done. Qed.
Hint Rewrite setup_notify setup_set_connection_state setup_reset_message_m setup_reset_message_b
  setup_reset_message_c setup_reset_message_mut_b setup_reset_message_mut_c setup_reset_message_e
  setup_reset_message_encap_e : setup.

Lemma setup_via_request_code ctx code :
  setup (libspdm_reset_message_buffer_via_request_code ctx None code) = setup ctx.
Proof.
  unfold libspdm_reset_message_buffer_via_request_code.
  assert (E : ∀ (b : bool) c1 c2, setup c1 = setup ctx → setup c2 = setup ctx →
    setup (if b then c1 else c2) = setup ctx) by (by intros []).
  repeat first [apply E | rewrite setup_reset_message_m | autorewrite with setup]; done.
Qed.

Lemma reset_sessions_setup ctx i n ctx' :
  reset_sessions ctx i n = Ret ctx' → setup ctx' = setup ctx ∧ lc_is_requester ctx' = lc_is_requester ctx.
Proof.
  revert ctx i; induction n as [|n IH]; intros ctx i E; cbn [reset_sessions] in E; [by injection E as <-|].
  exec_inv E. destruct x as (c, si). apply IH in E as [-> ->].
  unfold libspdm_session_info_init in Hx. exec_inv Hx. exec_inv Hx.
  injection Hx as <- <-. unfold count_session in Hx0. cbn in Hx0.
  injection Hx0 as <-. by case_if.
Qed.

(** *** Message A *)

Definition message_a ctx : list Z := contents (su_message_a (setup ctx)).
Definition message_a_wf ctx : Prop := ManagedBuffer.wf (su_message_a (setup ctx)).

(** [ctx'] is [ctx] with [message] appended to message A. *)
Definition appended ctx (message : list Z) ctx' : Prop :=
  ∃ m, setup ctx' = (setup ctx) <| su_message_a := m |> ∧ ManagedBuffer.wf m ∧
    contents m = message_a ctx ++ message.

Lemma append_message_a_inv ctx message ctx' st : message_a_wf ctx →
  libspdm_append_message_a ctx message = Ret (st, ctx') →
  (st = LIBSPDM_STATUS_SUCCESS ∧ appended ctx message ctx') ∨
  (st = LIBSPDM_STATUS_BUFFER_FULL ∧ setup ctx' = setup ctx).
Proof.
  intros Hw E. unfold libspdm_append_message_a in E. exec_inv E. destruct x as (st', m).
  injection E as <- <-. change (tr_message_a _) with (su_message_a (setup ctx)) in Hx.
  destruct (append_cases _ message Hw) as [(m' & Em & Hm & _ & _ & Hc & _)|[Em _]];
    rewrite Em in Hx; injection Hx as <- <-; [left|by right].
  split; [done|]. by exists m'.
Qed.

Lemma appended_trans ctx m1 c m2 ctx' : appended ctx m1 c → appended c m2 ctx' →
  appended ctx (m1 ++ m2) ctx'.
Proof.
  intros (a & Ea & _ & Ca) (b & Eb & Wb & Cb). exists b.
  rewrite Eb, Ea. split; [done|split; [done|]].
  rewrite Cb. unfold message_a. rewrite Ea. cbn. by rewrite Ca, app_assoc.
Qed.

Lemma appended_wf ctx m ctx' : appended ctx m ctx' → message_a_wf ctx'.
Proof. intros (a & Ea & Wa & _). unfold message_a_wf. by rewrite Ea. Qed.

(** A step that keeps message A does not matter before an append. *)
Lemma appended_from ctx c m ctx' : setup c = setup ctx → appended c m ctx' → appended ctx m ctx'.
Proof. unfold appended, message_a. by intros ->. Qed.

Lemma append_exchange_inv ctx request response st ctx' : message_a_wf ctx →
  append_exchange ctx request response = Ret (st, ctx') →
  (st = LIBSPDM_STATUS_SUCCESS ∧ appended ctx (request ++ response) ctx') ∨
  st = LIBSPDM_STATUS_BUFFER_FULL.
Proof.
  intros Hw E. unfold append_exchange in E. exec_inv E. destruct x as (st1, c).
  apply append_message_a_inv in Hx as [[-> Hx]|[-> _]]; [| |done].
  - apply append_message_a_inv in E as [[-> E]|[-> E]]; [left|by right|by eapply appended_wf].
    split; [done|]. by eapply appended_trans.
  - injection E as <- _. by right.
Qed.

(** *** The reset of a connection *)

Definition reset_setup (s : setup_t) (m : libspdm_managed_buffer_t) : setup_t :=
  Setup (su_capability s) (su_version s) (su_algorithm s) m (su_last s) 0 zero_capability
    zero_algorithm false false LIBSPDM_CONNECTION_STATE_NOT_STARTED LIBSPDM_RESPONSE_STATE_NORMAL.

Lemma reset_chunk_info_setup ctx i ctx' i' :
  libspdm_reset_chunk_info ctx i = Ret (ctx', i') → setup ctx' = setup ctx ∧ chunk_in_use i' = false.
Proof.
  unfold libspdm_reset_chunk_info. intros E. exec_inv E. injection E as <- <-. split; [|done].
  destruct (large_message i); [|by injection Hx as <-]. exec_inv Hx. by injection Hx as <-.
Qed.

Lemma setup_reset_rest ctx :
  setup (libspdm_reset_message_encap_e (libspdm_reset_message_e (libspdm_reset_message_m
    (libspdm_reset_message_mut_c (libspdm_reset_message_mut_b (libspdm_reset_message_c
      (libspdm_reset_message_b ctx)))) None) None) None) = setup ctx.
Proof. by autorewrite with setup. Qed.

Lemma reset_transcripts_setup ctx ctx' : message_a_wf ctx → reset_transcripts ctx = Ret ctx' →
  ∃ m, setup ctx' = (setup ctx) <| su_message_a := m |> ∧ ManagedBuffer.wf m ∧ contents m = [].
Proof.
  intros Hw E. unfold reset_transcripts in E. exec_inv E. exec_inv E. injection E as <-.
  unfold libspdm_reset_message_a in Hx. exec_inv Hx. injection Hx as <-.
  change (tr_message_a _) with (su_message_a (setup ctx)) in Hx1.
  destruct (reset_wf _ Hw) as (m & Em & Wm & Cm & _). rewrite Em in Hx1. injection Hx1 as <-.
  unfold libspdm_reset_message_d in Hx0. exec_inv Hx0. injection Hx0 as <-.
  exists m. split; [|done]. etrans; [apply (setup_reset_rest (set_exchange _ _))|done].
Qed.

Lemma reset_context_setup ctx ctx' : message_a_wf ctx → libspdm_reset_context ctx = Ret ctx' →
  ∃ m, setup ctx' = reset_setup (setup ctx) m ∧ ManagedBuffer.wf m ∧ contents m = [].
Proof.
  intros Hw E. unfold libspdm_reset_context in E. exec_inv E. apply reset_sessions_setup in Hx as [Es _].
  assert (Hw' : message_a_wf x) by (unfold message_a_wf; by rewrite Es).
  exec_inv E. apply reset_transcripts_setup in Hx as (m & Em & Wm & Cm); [|done].
  exec_inv E. destruct x1 as (c1, g). apply reset_chunk_info_setup in Hx as [E1 _].
  exec_inv E. destruct x1 as (c2, d). apply reset_chunk_info_setup in Hx as [E2 _].
  injection E as <-. exists m. split; [|done].
  rewrite <- E2 in E1. clear E2.
  apply (f_equal (λ s, s <| su_multi_key_req := false |> <| su_multi_key_rsp := false |>
                         <| su_response_state := LIBSPDM_RESPONSE_STATE_NORMAL |>)) in E1.
  etrans; [exact E1|]. rewrite Es in Em.
  exact (f_equal (λ s, reset_setup s (su_message_a s)) Em).
Qed.

(** What no step of the set-up changes. *)
Definition local_part ctx : libspdm_device_capability_t * list Z * libspdm_device_algorithm_t :=
  (lc_capability ctx, lc_version ctx, lc_algorithm ctx).

Lemma local_setup ctx ctx' : 
  local_part ctx' = local_part ctx ↔
  su_capability (setup ctx') = su_capability (setup ctx) ∧ su_version (setup ctx') = su_version (setup ctx) ∧
  su_algorithm (setup ctx') = su_algorithm (setup ctx).
Proof.
  unfold local_part. cbn. split; [by intros [= -> -> ->]|by intros (-> & -> & ->)].
Qed.

(** The state between the exchanges: nothing is negotiated yet. *)
Definition unnegotiated ctx : Prop :=
  message_a_wf ctx ∧ su_ci_algorithm (setup ctx) = zero_algorithm ∧
  su_multi_key_req (setup ctx) = false ∧ su_multi_key_rsp (setup ctx) = false.

Lemma appended_local ctx m ctx' : appended ctx m ctx' → local_part ctx' = local_part ctx.
Proof. intros (a & Ea & _). apply local_setup. by rewrite Ea. Qed.

Lemma reset_message_a_inv ctx ctx' : message_a_wf ctx → libspdm_reset_message_a ctx = Ret ctx' →
  message_a_wf ctx' ∧ local_part ctx' = local_part ctx.
Proof.
  intros Hw E. unfold libspdm_reset_message_a in E. exec_inv E. injection E as <-.
  change (tr_message_a _) with (su_message_a (setup ctx)) in Hx.
  destruct (reset_wf _ Hw) as (m & Em & Wm & _). rewrite Em in Hx. by injection Hx as <-.
Qed.

End facts.
End SetupFacts.

(** ** A requester and a responder that exchange whole messages

    The messages of the requester are dispatched by the responder, and its
    responses are received, as they are: the transport and its buffers, which
    other theorems are about, are left out. *)
Module SetupLinkFacts.
Import SetupFacts.

(** The responder, and the response that is under way. *)
Record link_t : Type := Link {
  lk_responder : libspdm_context_t;
  lk_response : list Z;
}.

Definition put_last_request (ctx : libspdm_context_t) (request : list Z) : exec libspdm_context_t :=
  last ← store (last_spdm_request (exchange ctx)) 0 request;
  Ret (set_exchange ctx (λ x, x <| last_spdm_request := last |>
                                <| last_spdm_request_size := blen request |>)).

Section link.
Context `{BuildConfig, CryptoHal} {services : ResponderServices}.
Implicit Types ctx q s : libspdm_context_t.

(** The size of the responder's buffer. *)
Variable size : Z.

Definition link_send ctx (session_id : option Z) (request : list Z) (w : rng_state * link_t) :
    exec (libspdm_return_t * libspdm_context_t * (rng_state * link_t)) :=
  ctx ← put_last_request ctx request;
  s ← put_last_request (lk_responder w.2) request;
  r ← dispatch_request s None false size (zeros size);
  response ← load (rp_response r) 0 (rp_size r);
  Ret (LIBSPDM_STATUS_SUCCESS, ctx, (w.1, Link (rp_ctx r) response)).

Definition link_receive ctx (session_id : option Z) (w : rng_state * link_t) :
    exec (libspdm_return_t * libspdm_context_t * list Z * (rng_state * link_t)) :=
  Ret (LIBSPDM_STATUS_SUCCESS, ctx, lk_response w.2, w).

Definition setup_link : RequesterChannel := {|
  W := link_t;
  libspdm_acquire_sender_buffer := λ d, (LIBSPDM_STATUS_SUCCESS, d);
  libspdm_release_sender_buffer := λ d, d;
  libspdm_acquire_receiver_buffer := λ d, (LIBSPDM_STATUS_SUCCESS, zeros size, d);
  libspdm_release_receiver_buffer := λ d, d;
  libspdm_send_spdm_request := link_send;
  libspdm_receive_spdm_response := link_receive;
|}.
#[local] Existing Instance setup_link.

(** The response of [s] to [request], and the responder after it. *)
Definition answers s (request response : list Z) s' : Prop :=
  ∃ s0 r, put_last_request s request = Ret s0 ∧
    dispatch_request s0 None false size (zeros size) = Ret r ∧
    load (rp_response r) 0 (rp_size r) = Ret response ∧ s' = rp_ctx r.

(** An exchange over the link, whatever its status. *)
Lemma link_exchange {A} (build : build_request) (process : process_response A) out q rng d st q' w' out' :
  exchange_message build process out q (rng, d) = Ret (Exchanged st q' w', out') →
  build q = Ret (q', inr st) ∨
  ∃ q1 request q2 response s', build q = Ret (q1, inl request) ∧
    put_last_request q1 request = Ret q2 ∧ answers (lk_responder d) request response s' ∧
    process q2 response = Ret (st, q', out') ∧ w' = (rng, Link s' response).
Proof.
  unfold exchange_message. cbn -[build_request process_response link_send].
  change (is_error LIBSPDM_STATUS_SUCCESS) with false. cbn -[link_send].
  intros E. exec_inv E. destruct x as [q1 [request|st1]]; [right|by injection E as <- <- _ _; left].
  exec_inv E. destruct x as [[st1 q2] [rng1 d1]]. unfold link_send in Hx0.
  exec_inv Hx0. exec_inv Hx0. exec_inv Hx0. exec_inv Hx0. injection Hx0 as <- <- <- <-.
  cbn in E. exec_inv E. destruct x3 as [[st1 q3] out1]. injection E as <- <- <- <-.
  exists q1, request, x, x2, (rp_ctx x1). repeat split; try done. by exists x0, x1.
Qed.

(** *** The answers of the responder *)

(** A response that the requester does not accept as [expected]; it tells the
    requester to try again only if [keep] holds. *)
Definition rejected (response : list Z) (expected : Z) (keep : Prop) : Prop :=
  response !! 1%nat ≠ Some expected ∧
  (response !! 1%nat = Some SPDM_ERROR → response !! 2%nat = Some SPDM_ERROR_CODE_BUSY → keep).

Lemma put_last_request_inv ctx request ctx' : put_last_request ctx request = Ret ctx' →
  ∃ l, setup ctx' = (setup ctx) <| su_last := l |> ∧ load l 0 (blen request) = Ret request ∧
    last_spdm_request (exchange ctx') = l ∧ last_spdm_request_size (exchange ctx') = blen request.
Proof.
  unfold put_last_request. intros E. exec_inv E. injection E as <-.
  apply store_Ret_inv in Hx as [Hr ->].
  exists (upd (last_spdm_request (exchange ctx)) 0 request). split; [done|]. split; [|done]. pose proof Hr as Hl. rewrite in_range_iff in Hl.
  rewrite load_in, sub_upd_same by (done || (rewrite in_range_iff, length_upd by done; lia)). done.
Qed.

Lemma load_prefix m n hd tl k l : load m 0 n = Ret (hd ++ tl) → k = blen hd → load m 0 k = Ret l → l = hd.
Proof.
  intros (Hr & E)%load_Ret_inv -> (Hk & ->)%load_Ret_inv. rewrite in_range_iff in Hr, Hk.
  destruct (sub_split m 0 n hd tl) as (_ & -> & _); done || lia.
Qed.

(** The first bytes of a loaded response. *)
Lemma stored_response m off hd m' k response : store m off hd = Ret m' → off = 0 →
  load m' 0 k = Ret response → blen hd ≤ k → ∃ tl, response = hd ++ tl.
Proof.
  intros (Hr & ->)%store_Ret_inv -> (Hk & ->)%load_Ret_inv Hl.
  exists (sub (upd m 0 hd) (blen hd) (k - blen hd)). rewrite in_range_iff in Hk.
  assert (E : k = blen hd + (k - blen hd)) by lia. rewrite E at 1.
  rewrite sub_app, sub_upd_same by (done || lia). done.
Qed.

Lemma generate_error_inv ctx c d n buf r response expected keep :
  libspdm_generate_error_response ctx c d n buf = Ret r →
  load (rp_response r) 0 (rp_size r) = Ret response → expected ≠ SPDM_ERROR →
  (c = SPDM_ERROR_CODE_BUSY → keep) →
  rp_ctx r = ctx ∧ rejected response expected keep.
Proof.
  unfold libspdm_generate_error_response. intros E El Hne Hk. exec_inv E. exec_inv E. exec_inv E.
  injection E as <-. cbn in *. split; [done|].
  destruct (stored_response _ _ _ _ _ _ Hx0 eq_refl El) as (tl & ->); [done|].
  split; cbn; [congruence|intros _ [= ->]; auto].
Qed.

Lemma generate_extended_error_inv ctx c d ext n buf r response expected keep :
  libspdm_generate_extended_error_response ctx c d ext n buf = Ret r →
  load (rp_response r) 0 (rp_size r) = Ret response → expected ≠ SPDM_ERROR →
  (c = SPDM_ERROR_CODE_BUSY → keep) →
  rp_ctx r = ctx ∧ rejected response expected keep.
Proof.
  unfold libspdm_generate_extended_error_response. intros E El Hne Hk. exec_inv E. exec_inv E.
  exec_inv E. injection E as <-. cbn in *. split; [done|].
  unfold copy_mem in Hx1. destruct (_ <=? _) in Hx1; [|done].
  apply store_Ret_inv in Hx0 as [Hr0 ->]. apply store_Ret_inv in Hx1 as [Hr1 ->].
  apply load_Ret_inv in El as [Hr2 ->].
  set (hd := [libspdm_get_connection_version ctx; SPDM_ERROR; c; d]) in *.
  assert (Hb : ∀ i : nat, (i < 4)%nat →
    sub (upd (upd buf 0 hd) 4 ext) 0 (4 + blen ext) !! i = hd !! i).
  { intros i Hi. rewrite lookup_sub by lia. rewrite decide_True by lia.
    rewrite lookup_upd by done. rewrite decide_False by lia.
    rewrite lookup_upd by done. rewrite decide_True by (cbn; lia). f_equal. lia. }
  split; rewrite !Hb by lia; cbn; [congruence|intros _ [= ->]; auto].
Qed.

Lemma zeros_rejected n k response expected keep :
  load (zeros n) 0 k = Ret response → 0 < expected → rejected response expected keep.
Proof.
  intros (_ & ->)%load_Ret_inv He.
  assert (Hz : ∀ i x, sub (zeros n) 0 k !! i = Some x → x = 0).
  { intros i x. rewrite lookup_sub by lia. case_decide; [|done]. unfold zeros.
    by intros [-> _]%lookup_replicate. }
  split; [intros Hx%Hz; lia|by intros Hx%Hz].
Qed.

(** A responder that is busy, not ready, or out of synchronisation. *)
Lemma handle_response_state_inv ctx code n r response expected (keep : Prop) :
  libspdm_responder_handle_response_state ctx code n (zeros n) = Ret r →
  response_state (exchange ctx) ≠ LIBSPDM_RESPONSE_STATE_NORMAL →
  load (rp_response r) 0 (rp_size r) = Ret response → 0 < expected → expected ≠ SPDM_ERROR → keep →
  (∃ st, setup (rp_ctx r) = (setup ctx) <| su_state := st |>) ∧ rejected response expected keep.
Proof.
  unfold libspdm_responder_handle_response_state. intros E Hn El He Hne Hk.
  destruct (response_state (exchange ctx)) eqn:Es; [done|..].
  - eapply (generate_error_inv _ _ _ _ _ _ _ expected keep) in E as [-> E]; [|done|done|done]. split; [|done]. by exists (su_state (setup ctx)).
  - exec_inv E.
    assert (Ex : setup x = setup ctx).
    { case_if; [|by injection Hx as <-]. unfold defer_request in Hx. exec_inv Hx. exec_inv Hx.
      by injection Hx as <-. }
    eapply (generate_extended_error_inv _ _ _ _ _ _ _ _ expected keep) in E as [-> E]; [|done|done|done]. split; [|done].
    rewrite Ex. by exists (su_state (setup ctx)).
  - exec_inv E. destruct (LIBSPDM_STATUS_IS_ERROR (rp_status x)).
    { injection E as <-. eapply (generate_error_inv _ _ _ _ _ _ _ expected keep) in Hx as [-> E]; [|done|done|done]. split; [|done].
      by exists (su_state (setup ctx)). }
    injection E as <-. cbn in *. eapply (generate_error_inv _ _ _ _ _ _ _ expected keep) in Hx as [-> E]; [|done|done|done]. split; [|done].
    rewrite setup_set_connection_state. by eexists.
  - injection E as <-. split; [by exists (su_state (setup ctx))|]. by eapply zeros_rejected.
Qed.

(** The dispatch of a request refuses it, or calls its handler. *)
Lemma dispatch_inv ctx request code h r response expected :
  load (last_spdm_request (exchange ctx)) 0 (last_spdm_request_size (exchange ctx)) = Ret request →
  load_le 1 (last_spdm_request (exchange ctx)) 1 = Ret code →
  get_response 4 code = Some h →
  dispatch_request ctx None false size (zeros size) = Ret r →
  load (rp_response r) 0 (rp_size r) = Ret response → expected ≠ SPDM_ERROR →
  (rp_ctx r = ctx ∧ rejected response expected (setup (rp_ctx r) = setup ctx)) ∨
  h ctx (blen request) request size (zeros size) = Ret r.
Proof.
  unfold dispatch_request. intros El Ec Eh. rewrite El. cbn [mbind exec_bind]. rewrite Ec.
  cbn [mbind exec_bind]. intros E Er Hne.
  assert (Hg : ∀ c, libspdm_generate_error_response ctx c 0 size (zeros size) = Ret r →
    rp_ctx r = ctx ∧ rejected response expected (setup (rp_ctx r) = setup ctx)).
  { intros c Hg. eapply (generate_error_inv _ _ _ _ _ _ _ expected True) in Hg as [-> Hr]; [|done..].
    split; [done|]. split; [apply Hr|done]. }
  destruct (libspdm_request_interrupts_chunk_transfer _ _); [left; by eapply Hg|].
  unfold libspdm_get_response_func_via_request_code in E. rewrite Eh in E. exec_inv E.
  destruct x as [c|]; [left; by eapply Hg|by right].
Qed.

Definition get_version_message : list Z := [SPDM_MESSAGE_VERSION_10; SPDM_GET_VERSION; 0; 0].

Definition version_message (versions : list Z) : list Z :=
  [SPDM_MESSAGE_VERSION_10; SPDM_VERSION; 0; 0; 0; blen versions] ++ concat (le_bytes 2 <$> versions).

Lemma length_version_entries versions :
  length (concat (le_bytes 2 <$> versions)) = (2 * length versions)%nat.
Proof. induction versions; [done|]. cbn [fmap list_fmap concat]. rewrite length_app, IHversions. cbn. lia. Qed.

(** What GET_VERSION is answered, and the responder after it. *)
Definition version_answered s (response : list Z) s' : Prop :=
  message_a_wf s' ∧ local_part s' = local_part s ∧
  (rejected response SPDM_VERSION True ∨
   response = version_message (lc_version s) ∧ unnegotiated s' ∧
   message_a s' = get_version_message ++ response ∧
   response_state (exchange s') = LIBSPDM_RESPONSE_STATE_NORMAL).

(** One store at the start of a buffer. *)
Lemma stored_one m hd m1 l : store m 0 hd = Ret m1 → load m1 0 (blen hd) = Ret l → l = hd.
Proof.
  intros (Hr & ->)%store_Ret_inv (_ & ->)%load_Ret_inv. by rewrite sub_upd_same.
Qed.

(** Two stores, one after the other, at the start of a buffer. *)
Lemma stored_two m hd m1 body m2 k l : store m 0 hd = Ret m1 → store m1 (blen hd) body = Ret m2 →
  k = blen hd + blen body → load m2 0 k = Ret l → l = hd ++ body.
Proof.
  intros (Hr1 & ->)%store_Ret_inv (Hr2 & ->)%store_Ret_inv -> (_ & ->)%load_Ret_inv.
  rewrite sub_upd_append by done. by rewrite sub_upd_same.
Qed.

Lemma answer_version_inv s r response : message_a_wf s →
  answer_version s SPDM_MESSAGE_VERSION_10 size (zeros size) = Ret r →
  load (rp_response r) 0 (rp_size r) = Ret response →
  (message_a_wf (rp_ctx r) ∧ local_part (rp_ctx r) = local_part s ∧ rejected response SPDM_VERSION True) ∨
  (response = version_message (lc_version s) ∧ ∃ c, appended s response c ∧
     setup (rp_ctx r) = (setup c) <| su_state := LIBSPDM_CONNECTION_STATE_AFTER_VERSION |>).
Proof.
  intros Hw E El. unfold answer_version in E.
  exec_inv E. exec_inv E. exec_inv E. exec_inv E. exec_inv E. exec_inv E. destruct x4 as (st, s3).
  unfold copy_mem in Hx2. destruct (_ <=? _) in Hx2; [|done].
  eapply (stored_two _ _ _ _ _ _ _ Hx1 Hx2) in Hx3; [|rewrite length_version_entries;
    unfold sizeof_spdm_version_response, sizeof_spdm_version_number; cbn [length]; lia].
  apply append_message_a_inv in Hx4 as [[-> Ha]|[-> Ha]]; [|..|done].
  - injection E as <-. cbn in El.
    eapply (stored_two _ _ _ _ _ _ _ Hx1 Hx2) in El; [|rewrite length_version_entries;
    unfold sizeof_spdm_version_response, sizeof_spdm_version_number; cbn [length]; lia].
    subst. right. split; [done|]. exists s3. split; [done|].
    apply setup_set_connection_state.
  - left. exec_inv E. apply reset_message_a_inv in Hx4 as [Wa La]; [|unfold message_a_wf; by rewrite Ha].
    eapply (generate_error_inv _ _ _ _ _ _ _ SPDM_VERSION True) in E as [-> E]; [|done..].
    split; [done|split; [|done]]. rewrite La. apply local_setup. by rewrite Ha.
Qed.

(** What GET_VERSION does before anything else. *)
Lemma restart_setup s :
  let c := libspdm_set_connection_state s LIBSPDM_CONNECTION_STATE_NOT_STARTED in
  let c := if bool_decide (response_state (exchange c) = LIBSPDM_RESPONSE_STATE_NEED_RESYNC)
           then set_exchange c (λ x, x <| response_state := LIBSPDM_RESPONSE_STATE_NORMAL |>)
           else c in
  ∃ rs, setup (libspdm_reset_all_encap_state c)
        = (setup s) <| su_state := LIBSPDM_CONNECTION_STATE_NOT_STARTED |> <| su_response_state := rs |>.
Proof.
  intros c. pose proof (setup_set_connection_state s LIBSPDM_CONNECTION_STATE_NOT_STARTED) as Ec.
  destruct (bool_decide _); [exists LIBSPDM_RESPONSE_STATE_NORMAL|by exists (su_response_state (setup s))].
  exact (f_equal (λ t, t <| su_response_state := LIBSPDM_RESPONSE_STATE_NORMAL |>) Ec).
Qed.

Lemma version_handler_inv s r response : message_a_wf s →
  libspdm_get_response_version s 4 get_version_message size (zeros size) = Ret r →
  load (rp_response r) 0 (rp_size r) = Ret response → version_answered s response (rp_ctx r).
Proof.
  intros Hw E El. unfold libspdm_get_response_version in E.
  change (read_header get_version_message) with
    (Ret (Build_message_header SPDM_MESSAGE_VERSION_10 SPDM_GET_VERSION 0 0)) in E.
  cbn [mbind exec_bind request_response_code spdm_version] in E. exec_inv E. clear x Hx.
  change (4 <? sizeof_spdm_message_header) with false in E. cbv iota in E.
  assert (Hrej : ∀ c code n buf, libspdm_generate_error_response c code 0 n buf = Ret r →
    message_a_wf c → local_part c = local_part s → version_answered s response (rp_ctx r)).
  { intros c code n buf Hg Hc Hl.
    eapply (generate_error_inv _ _ _ _ _ _ _ SPDM_VERSION True) in Hg as [-> Hg]; [|done..].
    split; [done|split; [done|by left]]. }
  case_if; [by eapply Hrej|]. cbn [negb] in E.
  change (negb (SPDM_MESSAGE_VERSION_10 =? SPDM_MESSAGE_VERSION_10)) with false in E. cbv iota in E.
  match type of E with context [libspdm_reset_all_encap_state ?c] =>
    set (s1 := libspdm_reset_all_encap_state c) in E end.
  pose proof (restart_setup s : ∃ rs, setup s1 = _) as Es.
  clearbody s1. destruct Es as (rs & Es).
  assert (Hw1 : message_a_wf s1) by (unfold message_a_wf; by rewrite Es).
  assert (Hl1 : local_part s1 = local_part s) by (apply local_setup; by rewrite Es).
  case_bool_decide as En.
  { eapply (handle_response_state_inv _ _ _ _ _ SPDM_VERSION True) in E as [(st & Ep) Hr]; try done.
    split; [unfold message_a_wf; by rewrite Ep|]. split; [|by left].
    rewrite <- Hl1. apply local_setup. by rewrite Ep. }
  exec_inv E. apply reset_context_setup in Hx as (m & Em & Wm & Cm); [|done].
  assert (Hwx : message_a_wf x) by (unfold message_a_wf; by rewrite Em).
  assert (Hlx : local_part x = local_part s) by (rewrite <- Hl1; apply local_setup; by rewrite Em).
  exec_inv E. apply load_Ret_inv in Hx as [_ ->].
  change (sub get_version_message 0 sizeof_spdm_message_header) with get_version_message in E.
  exec_inv E. destruct x0 as (st, s2).
  apply append_message_a_inv in Hx as [[-> Ha]|[-> Ha]]; [| |done].
  2: { eapply Hrej; [exact E|unfold message_a_wf; by rewrite Ha|].
       rewrite <- Hlx. apply local_setup. by rewrite Ha. }
  destruct (answer_version_inv _ _ _ (appended_wf _ _ _ Ha) E El) as [(W & L & R)|(-> & c & Hc & Es')].
  - split; [done|split; [|by left]]. rewrite L, <- Hlx. by eapply appended_local.
  - pose proof (appended_trans _ _ _ _ _ Ha Hc) as (a & Ea & Wa & Ca).
    rewrite Ea, Em in Es'. unfold message_a in Ca. rewrite Em in Ca. cbn in Ca. rewrite Cm in Ca.
    assert (Hv : lc_version s2 = lc_version s)
      by (pose proof (appended_local _ _ _ Ha) as L; rewrite Hlx in L; by injection L).
    rewrite Hv in *. split; [unfold message_a_wf; by rewrite Es'|].
    split; [rewrite <- Hl1; apply local_setup; by rewrite Es'|right].
    split; [done|]. unfold unnegotiated, message_a, message_a_wf.
    change (response_state (exchange (rp_ctx r))) with (su_response_state (setup (rp_ctx r))).
    by rewrite Es'.
Qed.

Lemma load_all m : load m 0 (blen m) = Ret m.
Proof. rewrite load_in by (rewrite in_range_iff; lia). by rewrite sub_all. Qed.

Lemma load_byte m n b (i : nat) x : load m 0 n = Ret b → b !! i = Some x →
  load_le 1 m (Z.of_nat i) = Ret x.
Proof.
  intros (Hr & ->)%load_Ret_inv Hb. rewrite in_range_iff in Hr.
  rewrite lookup_sub in Hb by lia. case_decide; [|done]. unfold load_le.
  pose proof (lookup_lt_Some _ _ _ Hb). rewrite load_in by (rewrite in_range_iff; lia).
  cbn [mbind exec_bind]. unfold sub. rewrite Nat2Z.id.
  rewrite (drop_S m x) by (rewrite <- Hb; f_equal; lia).
  change (take _ _) with [x]. cbn [le_val]. by rewrite Z.mul_0_r, Z.add_0_r.
Qed.

Lemma version_answer s response s' : message_a_wf s →
  answers s get_version_message response s' → version_answered s response s'.
Proof.
  intros Hw (s0 & r & Ep & Ed & El & ->).
  apply put_last_request_inv in Ep as (l & Es & Hl & El1 & El2).
  assert (Hw0 : message_a_wf s0) by (unfold message_a_wf; by rewrite Es).
  assert (Hl0 : local_part s0 = local_part s) by (apply local_setup; by rewrite Es).
  assert (Hv : version_answered s0 response (rp_ctx r)).
  { rewrite <- El1 in Hl. rewrite <- El2 in Hl.
    pose proof (load_byte _ _ _ 1 _ Hl eq_refl) as Hc.
    destruct (dispatch_inv _ _ _ _ _ _ SPDM_VERSION Hl Hc eq_refl Ed El) as [[-> [R _]]|Eh]; [done|..].
    - split; [done|split; [done|left]]. by split.
    - by apply version_handler_inv. }
  destruct Hv as (W & L & C). rewrite Hl0 in L. split; [done|split; [done|]].
  by replace (lc_version s) with (lc_version s0) by (by injection Hl0).
Qed.

(** *** The requester *)

Lemma simple_error_inv q code st q' : libspdm_handle_simple_error_response q code = Ret (st, q') →
  is_error st = true ∧ (∃ c, setup q' = (setup q) <| su_state := c |>) ∧
  (st = LIBSPDM_STATUS_BUSY_PEER → code = SPDM_ERROR_CODE_BUSY ∧ q' = q).
Proof.
  unfold libspdm_handle_simple_error_response. intros E.
  assert (Hc : ∃ c, setup q = (setup q) <| su_state := c |>) by (by exists (su_state (setup q))).
  destruct (code =? SPDM_ERROR_CODE_RESPONSE_NOT_READY); [by injection E as <- <-|].
  destruct (code =? SPDM_ERROR_CODE_BUSY) eqn:Eb; [injection E as <- <-|].
  { split; [done|split; [done|]]. intros _. split; [lia|done]. }
  exec_inv E.
  repeat match type of E with
         | (if ?b then _ else _) = _ => destruct b
         | Ret (if ?b then _ else _) = _ => destruct b
         end; injection E as <- <-; (split; [done|split; [first [exact Hc|by eexists]|done]]).
Qed.

Lemma read_header_inv m h : read_header m = Ret h → ∃ tl, m = header_bytes h ++ tl.
Proof.
  unfold read_header. intros E. exec_inv E. apply load_Ret_inv in Hx as [_ Hx].
  destruct x as [|v [|c [|p1 [|p2 [|]]]]]; try done. injection E as <-.
  exists (drop 4 m). unfold sub in Hx. rewrite drop_0 in Hx.
  rewrite <- (take_drop 4 m) at 1. f_equal. exact (eq_sym Hx).
Qed.

Lemma read_header_app h tl : read_header (header_bytes h ++ tl) = Ret h.
Proof.
  destruct h. unfold read_header. rewrite load_in; [done|].
  rewrite in_range_iff. unfold sizeof_spdm_message_header. cbn [header_bytes app length]. lia.
Qed.

Lemma check_response_code_inv q h expected st q' :
  check_response_code q h expected = Ret (st, q') →
  (st = LIBSPDM_STATUS_SUCCESS ∧ q' = q ∧ request_response_code h = expected) ∨
  (is_error st = true ∧ (∃ c, setup q' = (setup q) <| su_state := c |>) ∧
   (st = LIBSPDM_STATUS_BUSY_PEER →
    request_response_code h = SPDM_ERROR ∧ param1 h = SPDM_ERROR_CODE_BUSY ∧ q' = q)).
Proof.
  unfold check_response_code. destruct (request_response_code h =? SPDM_ERROR) eqn:E1.
  - intros (? & ? & Hb)%simple_error_inv. right. split; [done|split; [done|]].
    intros [-> ->]%Hb. split; [lia|done].
  - destruct (request_response_code h =? expected) eqn:E2; intros [= <- <-]; [left; split; [done|split; [done|lia]]|].
    right. split; [done|split; [|done]]. by exists (su_state (setup q)).
Qed.

(** What a step of the requester that failed may have changed. *)
Definition kept q q' : Prop := message_a_wf q' ∧ local_part q' = local_part q.

Lemma kept_state q q' c : message_a_wf q → setup q' = (setup q) <| su_state := c |> → kept q q'.
Proof.
  intros Hw E. split; [unfold message_a_wf; by rewrite E|]. apply local_setup. by rewrite E.
Qed.

Lemma kept_trans q1 q2 q3 : kept q1 q2 → kept q2 q3 → kept q1 q3.
Proof. intros [_ L1] [W2 L2]. split; [done|]. by rewrite L2. Qed.

Lemma append_message_a_kept q m st q' : message_a_wf q →
  libspdm_append_message_a q m = Ret (st, q') → kept q q'.
Proof.
  intros Hw [[_ Ha]|[_ Ha]]%append_message_a_inv; [| |done].
  - split; [by eapply appended_wf|by eapply appended_local].
  - apply (kept_state _ _ (su_state (setup q))); [done|]. by rewrite Ha.
Qed.

Lemma keep_version_inv out q versions st q' out' : message_a_wf q →
  keep_version out q versions = Ret (st, q', out') →
  kept q q' ∧ (st = LIBSPDM_STATUS_SUCCESS → ∃ v,
    setup q' = (setup q) <| su_ci_version := v |> <| su_state := LIBSPDM_CONNECTION_STATE_AFTER_VERSION |>).
Proof.
  intros Hw E. unfold keep_version in E.
  destruct (libspdm_negotiate_connection_version _ _) as [v|].
  - destruct (put_versions out versions) as [[|] out1].
    + injection E as <- <- <-. split; [done|]. intros _. by exists v.
    + exec_inv E. injection E as <- <- <-. apply reset_message_a_inv in Hx; [|done].
      by split; [exact Hx|].
  - exec_inv E. injection E as <- <- <-. apply reset_message_a_inv in Hx; [|done]. by split; [exact Hx|].
Qed.

Lemma process_version_inv out q response st q' out' : message_a_wf q →
  load (last_spdm_request (exchange q)) 0 4 = Ret get_version_message →
  process_version out q response = Ret (st, q', out') →
  kept q q' ∧ (st = LIBSPDM_STATUS_SUCCESS →
    response !! 1%nat = Some SPDM_VERSION ∧ ∃ count message c v, load_le 1 response 5 = Ret count ∧
    load response 0 (6 + count * 2) = Ret message ∧ appended q (get_version_message ++ message) c ∧
    setup q' = (setup c) <| su_ci_version := v |> <| su_state := LIBSPDM_CONNECTION_STATE_AFTER_VERSION |>).
Proof.
  intros Hw Hl E. unfold process_version in E.
  assert (Hk : kept q q) by done.
  assert (Hs : ∀ x : libspdm_return_t, x ≠ LIBSPDM_STATUS_SUCCESS → Ret (x, q, out) = Ret (st, q', out') →
    kept q q' ∧ st ≠ LIBSPDM_STATUS_SUCCESS) by (by intros x Hx [= <- <- <-]).
  case_if; [apply Hs in E as [? ?]; done|]. exec_inv E.
  apply read_header_inv in Hx as (tl & ->).
  case_if; [apply Hs in E as [? ?]; done|]. case_if; [apply Hs in E as [? ?]; done|].
  exec_inv E. destruct x0 as (st1, q1).
  apply check_response_code_inv in Hx as [(-> & -> & Hc)|(He & (c & Es) & _)].
  2: { rewrite He in E. injection E as <- <- <-. split; [by eapply kept_state|].
       intros ->. done. }
  cbn [is_error] in E. change (is_error LIBSPDM_STATUS_SUCCESS) with false in E. cbv iota in E.
  case_if; [apply Hs in E as [? ?]; done|]. exec_inv E. rename Hx into Hcount.
  case_if; [apply Hs in E as [? ?]; done|]. case_if; [apply Hs in E as [? ?]; done|].
  case_if; [apply Hs in E as [? ?]; done|].
  exec_inv E. change sizeof_spdm_message_header with 4 in Hx. rewrite Hl in Hx. injection Hx as <-. exec_inv E. exec_inv E. destruct x2 as (st1, q1).
  pose proof (append_message_a_kept _ _ _ _ Hw Hx0) as Hk1.
  destruct (is_error st1) eqn:Ee; [injection E as <- <- <-; split; [done|by intros ->]|].
  apply append_message_a_inv in Hx0 as [[-> Ha]|[-> _]]; [|done..].
  exec_inv E. destruct x2 as (st2, q2).
  pose proof (append_message_a_kept _ _ _ _ (proj1 Hk1) Hx0) as Hk2.
  destruct (is_error st2) eqn:Ee2.
  { exec_inv E. injection E as <- <- <-.
    match goal with Hr : libspdm_reset_message_a _ = _ |- _ => apply reset_message_a_inv in Hr; [|apply Hk2] end.
    split; [|by intros ->]. eapply kept_trans; [exact Hk1|]. by eapply kept_trans. }
  apply append_message_a_inv in Hx0 as [[-> Ha2]|[-> _]]; [|done|apply Hk1].
  exec_inv E. apply keep_version_inv in E as [Hk3 Hv]; [|apply Hk2].
  split; [eapply kept_trans; [exact Hk1|by eapply kept_trans]|].
  intros Est. split; [by rewrite <- Hc|]. destruct (Hv Est) as (v & Ev).
  exists x0, x1, q2, v. split; [done|split; [done|split; [|done]]]. by eapply appended_trans.
Qed.

(** *** GET_VERSION over the link *)

Lemma length_version_message versions : blen (version_message versions) = 6 + blen versions * 2.
Proof. unfold version_message. rewrite length_app, length_version_entries. cbn [length]. lia. Qed.

(** The two endpoints agree on what was exchanged, and nothing is negotiated. *)
Definition in_step q s : Prop :=
  unnegotiated q ∧ unnegotiated s ∧ message_a q = message_a s ∧
  response_state (exchange s) = LIBSPDM_RESPONSE_STATE_NORMAL.

Lemma unnegotiated_from q m c q' : unnegotiated q → appended q m c →
  (∃ v st, setup q' = (setup c) <| su_ci_version := v |> <| su_state := st |>) → unnegotiated q'.
Proof.
  intros (_ & A & B & C) (a & Ea & Wa & _) (v & st & E). unfold unnegotiated, message_a_wf.
  by rewrite E, Ea.
Qed.

Lemma try_version_link out q rng d r out' : message_a_wf q → message_a_wf (lk_responder d) →
  libspdm_try_get_version out q (rng, d) = Ret (r, out') →
  kept q (ex_ctx r) ∧ kept (lk_responder d) (lk_responder (ex_world r).2) ∧
  (ex_status r = LIBSPDM_STATUS_SUCCESS → in_step (ex_ctx r) (lk_responder (ex_world r).2)).
Proof.
  intros Wq Ws E. unfold libspdm_try_get_version in E. exec_inv E.
  apply reset_context_setup in Hx as (m & Em & Wm & Cm); [|done]. destruct r as [st q' w'].
  apply link_exchange in E as [E|(q1 & request & q2 & response & s' & Eb & Ep & Ea & Er & ->)].
  { unfold build_get_version in E. exec_inv E. discriminate. }
  unfold build_get_version in Eb. exec_inv Eb. injection Eb as <- <-.
  apply put_last_request_inv in Ep as (l & El & Hl & Hl' & _).
  assert (Wx : message_a_wf q2) by (unfold message_a_wf; by rewrite El, Em).
  rewrite <- Hl' in Hl. apply process_version_inv in Er as [Hk Hst]; [|done|exact Hl].
  apply version_answer in Ea as (Ws' & Ls' & Ha); [|done]. cbn.
  assert (Lq : local_part q2 = local_part q) by (apply local_setup; by rewrite El, Em).
  split; [split; [apply Hk|by rewrite (proj2 Hk)]|split; [done|]].
  intros (Hv & count & message & c & v & Hc & Hm & Happ & Es)%Hst.
  destruct Ha as [[Hn _]|(Ere & Us & Ma & Hrs)]; [congruence|].
  assert (message = response) as ->.
  { rewrite Ere in Hc.
    pose proof (load_byte _ _ _ 5 _ (load_all (version_message (lc_version (lk_responder d)))) eq_refl) as Hc'.
    change (Z.of_nat 5) with 5 in Hc'. rewrite Hc in Hc'. injection Hc' as ->.
    rewrite <- length_version_message, <- Ere in Hm. rewrite load_all in Hm. by injection Hm. }
  assert (Uq : unnegotiated q2) by (unfold unnegotiated, message_a_wf; by rewrite El, Em).
  split; [eapply unnegotiated_from; [exact Uq|exact Happ|by do 2 eexists]|split; [done|split; [|done]]].
  rewrite Ma. unfold message_a. rewrite Es. destruct Happ as (a & Eq & _ & Ca). rewrite Eq. cbn.
  rewrite Ca. unfold message_a. rewrite El, Em. cbn. by rewrite Cm.
Qed.

(** The attempts of a function, of which the last one counts. *)
Lemma retry_link {A} (P : A → libspdm_context_t → libspdm_context_t → Prop)
    (Q : exchanged → Prop) (try : A → libspdm_context_t → world → exec (exchanged * A)) out q n w r out' :
  (∀ out q w r out', P out q (lk_responder w.2) → try out q w = Ret (r, out') →
    (ex_status r = LIBSPDM_STATUS_BUSY_PEER → P out' (ex_ctx r) (lk_responder (ex_world r).2)) ∧
    (ex_status r = LIBSPDM_STATUS_SUCCESS → Q r)) →
  P out q (lk_responder w.2) → retry_exchange try out q n w = Ret (r, out') →
  ex_status r = LIBSPDM_STATUS_SUCCESS → Q r.
Proof.
  intros Ht. revert out q w; induction n as [|n IH]; intros out q w HP E Hs; cbn [retry_exchange] in E;
    exec_inv E; destruct x as (r1, out1); destruct (Ht _ _ _ _ _ HP Hx) as [Hb Hq].
  - destruct (bool_decide _); injection E as <- <-; auto.
  - destruct (bool_decide _) eqn:Eb; [injection E as <- <-; auto|].
    apply bool_decide_eq_false in Eb. apply IH in E; auto. apply Hb. by apply dec_stable.
Qed.

Definition locals q s (lq ls : libspdm_device_capability_t * list Z * libspdm_device_algorithm_t) : Prop :=
  local_part q = lq ∧ local_part s = ls.

Lemma get_version_link out q rng d r out' lq ls : message_a_wf q → message_a_wf (lk_responder d) →
  locals q (lk_responder d) lq ls →
  libspdm_get_version out q (rng, d) = Ret (r, out') → ex_status r = LIBSPDM_STATUS_SUCCESS →
  in_step (ex_ctx r) (lk_responder (ex_world r).2) ∧ locals (ex_ctx r) (lk_responder (ex_world r).2) lq ls.
Proof.
  intros Wq Ws [Lq Ls] E. unfold libspdm_get_version, with_retries in E. revert E.
  apply (retry_link (λ _ q s, message_a_wf q ∧ message_a_wf s ∧ locals q s lq ls)
    (λ r, in_step (ex_ctx r) (lk_responder (ex_world r).2) ∧
          locals (ex_ctx r) (lk_responder (ex_world r).2) lq ls)); [|done].
  clear. intros out q [rng d] r out' (Wq & Ws & Lq & Ls) E.
  destruct (try_version_link _ _ _ _ _ _ Wq Ws E) as ([W1 L1] & [W2 L2] & Hs).
  unfold locals. rewrite L1, L2. split; [done|]. intros Est. split; [by apply Hs|done].
Qed.

(** *** The fields of a message *)

Lemma load_le_app k a z b off : off = blen a →
  load_le k (a ++ le_bytes k z ++ b) off = Ret (z mod 2 ^ (8 * Z.of_nat k)).
Proof.
  intros ->. unfold load_le. rewrite load_in by (rewrite in_range_iff, !length_app, length_le_bytes; lia).
  cbn [mbind exec_bind]. unfold sub. rewrite !Nat2Z.id, drop_app_length, take_app_length'
    by (by rewrite length_le_bytes). by rewrite le_val_bytes.
Qed.

Lemma read_header_load m n b h : load m 0 n = Ret b → read_header b = Ret h → read_header m = Ret h.
Proof.
  intros (Hr & ->)%load_Ret_inv Hb. destruct (read_header_inv _ _ Hb) as (tl & E).
  rewrite in_range_iff in Hr. unfold sub in E. rewrite drop_0 in E.
  rewrite <- (take_drop (Z.to_nat n) m), E, <- app_assoc. apply read_header_app.
Qed.

(** GET_CAPABILITIES and CAPABILITIES from their fields. *)
Definition capability_bytes (v code p1 ct ext fl : Z) (sizes : list Z) : list Z :=
  [v; code; p1; 0; 0; ct] ++ le_bytes 2 ext ++ le_bytes 4 fl ++ sizes.

Lemma capability_flags v code p1 ct ext fl sizes :
  message_flags (capability_bytes v code p1 ct ext fl sizes) = Ret (u32 fl).
Proof.
  unfold message_flags, capability_bytes. rewrite (app_assoc _ (le_bytes 2 ext)).
  by rewrite load_le_app by (rewrite length_app, length_le_bytes; done).
Qed.

Lemma capability_sizes v code p1 ct ext fl d m :
  message_data_transfer_size (capability_bytes v code p1 ct ext fl (le_bytes 4 d ++ le_bytes 4 m)) = Ret (u32 d) ∧
  message_max_spdm_msg_size (capability_bytes v code p1 ct ext fl (le_bytes 4 d ++ le_bytes 4 m)) = Ret (u32 m).
Proof.
  unfold message_data_transfer_size, message_max_spdm_msg_size, capability_bytes.
  rewrite (app_assoc _ (le_bytes 2 ext)), (app_assoc _ (le_bytes 4 fl)). split.
  - by rewrite load_le_app by (rewrite !length_app, !length_le_bytes; done).
  - rewrite (app_assoc _ (le_bytes 4 d)), <- (app_nil_r (le_bytes 4 m)).
    by rewrite load_le_app by (rewrite !length_app, !length_le_bytes; done).
Qed.

Lemma land_mod_mask f m : 0 ≤ m < 2 ^ 32 → u32 (Z.land f m) = Z.land f m.
Proof.
  intros Hm. unfold u32. rewrite <- !Z.land_ones, <- Z.land_assoc by lia.
  by rewrite Z.land_ones, Z.mod_small by lia.
Qed.

(** The flags one endpoint masks are the ones the other reads. *)
Lemma mask_wire v rq f g : Masks.libspdm_mask_capability_flags v rq f = Ret g →
  Masks.libspdm_mask_capability_flags v rq (u32 g) = Ret g.
Proof.
  unfold Masks.libspdm_mask_capability_flags. intros E.
  repeat (case_if; [destruct rq; injection E as <-;
    rewrite ?land_mod_mask, <- ?Z.land_assoc, ?Z.land_diag by done; done|]).
  exact E.
Qed.

Lemma mask_total v rq rq' f f' g : Masks.libspdm_mask_capability_flags v rq f = Ret g →
  ∃ g', Masks.libspdm_mask_capability_flags v rq' f' = Ret g'.
Proof.
  unfold Masks.libspdm_mask_capability_flags. intros E.
  repeat (case_if; [destruct rq'; by eexists|]). by eexists.
Qed.
(** *** GET_CAPABILITIES over the link *)

(** What an endpoint knows of the capabilities of its peer, which is a requester
    or a responder. *)
Definition knows (v : Z) (requester : bool) (known peer : libspdm_device_capability_t) : Prop :=
  Masks.libspdm_mask_capability_flags v requester (flags peer) = Ret (flags known) ∧
  data_transfer_size known =
    (if SPDM_MESSAGE_VERSION_12 <=? v then u32 (data_transfer_size peer) else 0) ∧
  max_spdm_msg_size known =
    (if SPDM_MESSAGE_VERSION_12 <=? v then u32 (max_spdm_msg_size peer) else 0).

Definition capability_sizes_bytes (v : Z) (c : libspdm_device_capability_t) : list Z :=
  if SPDM_MESSAGE_VERSION_12 <=? v
  then le_bytes 4 (data_transfer_size c) ++ le_bytes 4 (max_spdm_msg_size c) else [].

(** GET_CAPABILITIES of a requester with the capabilities [c]. *)
Definition get_capabilities_bytes (v ext fl : Z) (c : libspdm_device_capability_t) : list Z :=
  if SPDM_MESSAGE_VERSION_11 <=? v
  then capability_bytes v SPDM_GET_CAPABILITIES 0 (ct_exponent c) ext fl (capability_sizes_bytes v c)
  else [v; SPDM_GET_CAPABILITIES; 0; 0].

Lemma length_capability_bytes v code p1 ct ext fl c :
  blen (capability_bytes v code p1 ct ext fl (capability_sizes_bytes v c)) =
  if SPDM_MESSAGE_VERSION_12 <=? v then 20 else 12.
Proof.
  unfold capability_bytes, capability_sizes_bytes. rewrite !length_app, !length_le_bytes.
  destruct (_ <=? v); rewrite ?length_app, ?length_le_bytes; done.
Qed.

Lemma length_get_capabilities_bytes v ext fl c :
  blen (get_capabilities_bytes v ext fl c) = capabilities_request_size v.
Proof.
  unfold get_capabilities_bytes, capabilities_request_size.
  destruct (SPDM_MESSAGE_VERSION_11 <=? v) eqn:E.
  - rewrite length_capability_bytes. by destruct (_ <=? v).
  - by replace (SPDM_MESSAGE_VERSION_12 <=? v) with false by (unfold SPDM_MESSAGE_VERSION_11, SPDM_MESSAGE_VERSION_12 in *; lia).
Qed.

Lemma get_capabilities_header v ext fl c :
  read_header (get_capabilities_bytes v ext fl c) =
  Ret (Build_message_header v SPDM_GET_CAPABILITIES 0 0).
Proof.
  unfold get_capabilities_bytes. destruct (_ <=? v); [|done].
  apply (read_header_app (Build_message_header v SPDM_GET_CAPABILITIES 0 0)).
Qed.

Lemma build_get_capabilities_inv q q1 x : build_get_capabilities false q = Ret (q1, x) →
  let v := libspdm_get_connection_version q in
  q1 = q ∧ ∃ ext fl, x = inl (get_capabilities_bytes v ext fl (lc_capability q)) ∧
    (SPDM_MESSAGE_VERSION_11 <= v →
     Masks.libspdm_mask_capability_flags v true (flags (lc_capability q)) = Ret fl).
Proof.
  intros E v. unfold build_get_capabilities in E. exec_inv E. exec_inv E. cbn [mbind exec_bind] in E.
  exec_inv E. injection E as <- <-. split; [done|]. exists x2, x1.
  unfold get_capabilities_bytes, capability_bytes, capability_sizes_bytes. fold v. fold v in Hx0.
  destruct (SPDM_MESSAGE_VERSION_11 <=? v) eqn:E11; [done|].
  replace (SPDM_MESSAGE_VERSION_12 <=? v) with false
    by (unfold SPDM_MESSAGE_VERSION_11, SPDM_MESSAGE_VERSION_12 in *; lia).
  split; [done|lia].
Qed.

Lemma keep_requester_capabilities_inv s v ext fl g f c s' :
  libspdm_get_connection_version s = v →
  (SPDM_MESSAGE_VERSION_11 <= v → Masks.libspdm_mask_capability_flags v true (flags c) = Ret fl) →
  Masks.libspdm_mask_capability_flags v false f = Ret g →
  keep_requester_capabilities s v (get_capabilities_bytes v ext fl c) = Ret s' →
  ∃ known, s' = s <| ci_capability := known |> ∧ knows v true known c.
Proof.
  intros Hv Hfl Hg E. unfold keep_requester_capabilities in E. rewrite Hv in E.
  exec_inv E. exec_inv E. exec_inv E. exec_inv E. exec_inv E. injection E as <-.
  eexists. split; [reflexivity|]. unfold knows. cbn.
  unfold get_capabilities_bytes in Hx0, Hx1, Hx2.
  destruct (SPDM_MESSAGE_VERSION_11 <=? v) eqn:E11.
  - rewrite capability_flags in Hx0. cbn [mbind exec_bind] in Hx0.
    specialize (Hfl ltac:(lia)). rewrite (mask_wire _ _ _ _ Hfl) in Hx0. injection Hx0 as <-.
    split; [done|]. unfold capability_sizes_bytes in Hx1, Hx2.
    destruct (SPDM_MESSAGE_VERSION_12 <=? v); [|injection Hx1 as <-; by injection Hx2 as <-].
    destruct (capability_sizes v SPDM_GET_CAPABILITIES 0 (ct_exponent c) ext fl
      (data_transfer_size c) (max_spdm_msg_size c)) as [E1 E2].
    rewrite E1 in Hx1. rewrite E2 in Hx2. injection Hx1 as <-; by injection Hx2 as <-.
  - replace (SPDM_MESSAGE_VERSION_12 <=? v) with false in *
      by (unfold SPDM_MESSAGE_VERSION_11, SPDM_MESSAGE_VERSION_12 in *; lia).
    injection Hx0 as <-. injection Hx1 as <-. injection Hx2 as <-. split; [|done].
    unfold Masks.libspdm_mask_capability_flags in *.
    destruct (v =? SPDM_MESSAGE_VERSION_10); [done|].
    replace (v =? SPDM_MESSAGE_VERSION_11) with false in * by lia.
    unfold SPDM_MESSAGE_VERSION_11, SPDM_MESSAGE_VERSION_12, SPDM_MESSAGE_VERSION_13, SPDM_MESSAGE_VERSION_14 in *.
    repeat (replace (v =? _) with false in * by lia). exec_inv Hg. by rewrite Hx0.
Qed.

Definition capabilities_bytes (v ext fl : Z) (c : libspdm_device_capability_t) : list Z :=
  capability_bytes v SPDM_CAPABILITIES 0 (ct_exponent c) ext fl (capability_sizes_bytes v c).

(** The response of [s], and [s] after it. *)
Definition capabilities_answered s (v : Z) (request response : list Z) (peer : libspdm_device_capability_t) s' : Prop :=
  rejected response SPDM_CAPABILITIES (∃ n, setup s' = (setup s) <| su_ci_version := n |>) ∨
  ∃ ext fl n c known, response = capabilities_bytes v ext fl (lc_capability s) ∧
    Masks.libspdm_mask_capability_flags v false (flags (lc_capability s)) = Ret fl ∧
    appended s (request ++ response) c ∧ knows v true known peer ∧
    libspdm_get_version_from_version_number n = v ∧
    setup s' = (setup c) <| su_ci_version := n |> <| su_ci_capability := known |>
                         <| su_state := LIBSPDM_CONNECTION_STATE_AFTER_CAPABILITIES |>.

Lemma capabilities_response_inv s v fl bs : capabilities_response s v false fl = Ret bs →
  ∃ ext, bs = capabilities_bytes v ext fl (lc_capability s).
Proof.
  unfold capabilities_response. intros E. exec_inv E. exists x.
  assert (E' : ∀ a b : list Z, Ret a = Ret b → b = a) by congruence. apply E' in E as ->.
  by rewrite app_nil_r.
Qed.

Lemma answer_capabilities_inv s v ext fl c r response :
  let request := get_capabilities_bytes v ext fl c in
  message_a_wf s → libspdm_get_connection_version s = v →
  (SPDM_MESSAGE_VERSION_11 <= v → Masks.libspdm_mask_capability_flags v true (flags c) = Ret fl) →
  answer_capabilities s (Build_message_header v SPDM_GET_CAPABILITIES 0 0) request size (zeros size) = Ret r →
  load (rp_response r) 0 (rp_size r) = Ret response →
  capabilities_answered s v request response c (rp_ctx r).
Proof.
  intros request Hw Hv Hfl E El. unfold answer_capabilities in E.
  cbn [request_response_code spdm_version param1] in E.
  set (s1 := libspdm_reset_message_buffer_via_request_code s None SPDM_GET_CAPABILITIES) in *.
  assert (Es1 : setup s1 = setup s) by apply setup_via_request_code.
  assert (Hv1 : libspdm_get_connection_version s1 = v)
    by (rewrite <- Hv; exact (f_equal (λ t, libspdm_get_version_from_version_number (su_ci_version t)) Es1)).
  assert (Hc1 : lc_capability s1 = lc_capability s) by exact (f_equal su_capability Es1).
  clearbody s1. rewrite Hv1 in E. exec_inv E. exec_inv E. rewrite andb_false_r in E. cbn [andb] in E.
  exec_inv E. exec_inv E. exec_inv E. exec_inv E. exec_inv E. destruct x5 as (st, s2).
  apply capabilities_response_inv in Hx1 as (xt & ->). rewrite Hc1 in *.
  rewrite <- (length_get_capabilities_bytes v ext fl c), load_all in Hx4. injection Hx4 as <-.
  destruct (LIBSPDM_STATUS_IS_ERROR st) eqn:Est.
  { eapply (generate_error_inv _ _ _ _ _ _ _ SPDM_CAPABILITIES False) in E as [-> [R1 R2]]; [|done..].
    left. split; [done|]. intros A B. destruct (R2 A B). }
  exec_inv E. injection E as <-. cbn in El. fold request in Hx5.
  rewrite (stored_one _ _ _ _ Hx3 El). clear Hx3 El response.
  apply append_exchange_inv in Hx5 as [[-> Ha]|Hf]; [|by rewrite Hf in Est|unfold message_a_wf; by rewrite Es1].
  assert (Hv2 : libspdm_get_connection_version s2 = v).
  { destruct Ha as (a & Ea & _). rewrite <- Hv1.
    exact (f_equal (λ t, libspdm_get_version_from_version_number (su_ci_version t)) Ea). }
  eapply keep_requester_capabilities_inv in Hx1 as (known & -> & Hk); [|done|done|exact Hx].
  right. exists xt, x, (ci_version s2), s2, known.
  split; [done|split; [done|split; [by eapply appended_from|split; [done|split; [done|]]]]].
  cbn [rp_ctx]. by rewrite setup_set_connection_state.
Qed.

Lemma version_compatibility_inv s v b s' : libspdm_check_request_version_compatibility s v = (b, s') →
  (b = false ∧ s' = s) ∨ (b = true ∧ libspdm_get_connection_version s' = v ∧
    setup s' = (setup s) <| su_ci_version := ci_version s' |>).
Proof.
  unfold libspdm_check_request_version_compatibility.
  destruct (existsb _ _) eqn:E; intros [= <- <-]; [right|by left]. split; [done|split; [|done]].
  apply existsb_exists in E as (n & _ & E). apply Z.eqb_eq in E as <-.
  unfold libspdm_get_connection_version, libspdm_get_version_from_version_number. cbn.
  set (b := u8 (Z.shiftr n SPDM_VERSION_NUMBER_SHIFT_BIT)). assert (Hb : is_u8 b) by apply u8_range. unfold is_u8 in Hb.
  change SPDM_VERSION_NUMBER_SHIFT_BIT with 8.
  rewrite u16_small by (unfold is_u16; rewrite Z.shiftl_mul_pow2 by lia; lia).
  rewrite Z.shiftr_shiftl_l by done. cbn [Z.sub]. rewrite Z.shiftl_0_r. by apply u8_small.
Qed.

Lemma capabilities_handler_inv s v ext fl c r response :
  let request := get_capabilities_bytes v ext fl c in
  message_a_wf s → response_state (exchange s) = LIBSPDM_RESPONSE_STATE_NORMAL →
  (SPDM_MESSAGE_VERSION_11 <= v → Masks.libspdm_mask_capability_flags v true (flags c) = Ret fl) →
  libspdm_get_response_capabilities s (blen request) request size (zeros size) = Ret r →
  load (rp_response r) 0 (rp_size r) = Ret response →
  capabilities_answered s v request response c (rp_ctx r).
Proof.
  intros request Hw Hn Hfl E El. unfold libspdm_get_response_capabilities in E.
  change (read_header request) with (read_header (get_capabilities_bytes v ext fl c)) in E.
  rewrite (get_capabilities_header v ext fl c) in E. cbn [mbind exec_bind] in E.
  exec_inv E. rewrite Hn, bool_decide_false in E by (by intros []). cbn [spdm_version param1] in E.
  assert (Hrej : ∀ c' code, (∃ n, setup c' = (setup s) <| su_ci_version := n |>) →
    libspdm_generate_error_response c' code 0 size (zeros size) = Ret r → code ≠ SPDM_ERROR_CODE_BUSY →
    capabilities_answered s v request response c (rp_ctx r)).
  { intros c' code Hc Hg Hb. left.
    by eapply (generate_error_inv _ _ _ _ _ _ _ SPDM_CAPABILITIES (∃ n, _)) in Hg as [-> Hg]. }
  assert (Hs : ∃ n, setup s = (setup s) <| su_ci_version := n |>) by (by exists (ci_version s)).
  case_if; [by eapply Hrej|]. destruct (libspdm_check_request_version_compatibility s v) as [b s'] eqn:Ec.
  apply version_compatibility_inv in Ec as [[-> ->]|(-> & Hv & Es)];
    cbn [negb] in E; [by eapply Hrej|]. case_if; [eapply Hrej; [by eexists|done..]|]. exec_inv E.
  case_if; [eapply Hrej; [by eexists|done..]|].
  eapply answer_capabilities_inv in E; [|unfold message_a_wf; by rewrite Es|done|done|done].
  assert (Hl : lc_capability s' = lc_capability s) by exact (f_equal su_capability Es).
  destruct E as [[R1 R2]|(xt & f & n & c1 & known & F1 & F2 & Ha & F3 & F4 & F5)]; [left|right].
  - split; [done|]. intros A B. destruct (R2 A B) as (n & En). exists n. by rewrite En, Es.
  - rewrite Hl in *. destruct Ha as (a & Ea & Wa & Ca). unfold message_a in Ca. rewrite Es in Ca.
    exists xt, f, n, (set_exchange s (λ x, x <| transcript := (transcript x) <| tr_message_a := a |> |>)), known.
    split; [done|split; [done|split; [by exists a|split; [done|split; [done|]]]]].
    by rewrite F5, Ea, Es.
Qed.

Lemma capabilities_answer s v ext fl c response s' :
  let request := get_capabilities_bytes v ext fl c in
  message_a_wf s → response_state (exchange s) = LIBSPDM_RESPONSE_STATE_NORMAL →
  (SPDM_MESSAGE_VERSION_11 <= v → Masks.libspdm_mask_capability_flags v true (flags c) = Ret fl) →
  answers s request response s' →
  ∃ s0 l, setup s0 = (setup s) <| su_last := l |> ∧ capabilities_answered s0 v request response c s'.
Proof.
  intros request Hw Hn Hfl (s0 & r & Ep & Ed & El & ->).
  apply put_last_request_inv in Ep as (l & Es & Hl & El1 & El2). exists s0, l. split; [done|].
  assert (Hw0 : message_a_wf s0) by (unfold message_a_wf; by rewrite Es).
  rewrite <- El1, <- El2 in Hl.
  assert (Hc : load_le 1 (last_spdm_request (exchange s0)) 1 = Ret SPDM_GET_CAPABILITIES).
  { apply (load_byte _ _ _ 1 _ Hl). subst request. unfold get_capabilities_bytes. by destruct (_ <=? v). }
  destruct (dispatch_inv _ _ _ _ _ _ SPDM_CAPABILITIES Hl Hc eq_refl Ed El) as [[-> [R1 R2]]|Eh]; [done|..].
  - left. split; [done|]. intros A B. by exists (ci_version s0).
  - apply capabilities_handler_inv; try done.
    change (response_state (exchange s0)) with (su_response_state (setup s0)). by rewrite Es.
Qed.

(** The requester's side. *)
Lemma keep_responder_capabilities_inv q v ext fl c q' :
  libspdm_get_connection_version q = v →
  Masks.libspdm_mask_capability_flags v false (flags c) = Ret fl →
  keep_responder_capabilities q v (capabilities_bytes v ext fl c) = Ret q' →
  ∃ known, q' = q <| ci_capability := known |> ∧ knows v false known c.
Proof.
  intros Hv Hfl E. unfold keep_responder_capabilities in E. rewrite Hv in E.
  exec_inv E. exec_inv E. exec_inv E. exec_inv E. exec_inv E. exec_inv E. injection E as <-.
  eexists. split; [reflexivity|]. unfold knows. cbn. unfold capabilities_bytes in *.
  rewrite capability_flags in Hx0. injection Hx0 as <-. rewrite (mask_wire _ _ _ _ Hfl) in Hx1.
  injection Hx1 as <-. split; [done|]. unfold capability_sizes_bytes in Hx3, Hx4.
  destruct (SPDM_MESSAGE_VERSION_12 <=? v); [|injection Hx3 as <-; by injection Hx4 as <-].
  destruct (capability_sizes v SPDM_CAPABILITIES 0 (ct_exponent c) ext fl
    (data_transfer_size c) (max_spdm_msg_size c)) as [E1 E2].
  rewrite E1 in Hx3. rewrite E2 in Hx4. injection Hx3 as <-. by injection Hx4 as <-.
Qed.

(** A response that is processed with success, and one that asks for patience. *)
Lemma process_capabilities_inv q v request response st q' out' :
  message_a_wf q → load (last_spdm_request (exchange q)) 0 (capabilities_request_size v) = Ret request →
  read_header request = Ret (Build_message_header v SPDM_GET_CAPABILITIES 0 0) →
  process_capabilities (None, None) q response = Ret (st, q', out') →
  (st = LIBSPDM_STATUS_BUSY_PEER → response !! 1%nat = Some SPDM_ERROR ∧
     response !! 2%nat = Some SPDM_ERROR_CODE_BUSY ∧ q' = q ∧
     out' = (None, None)) ∧
  (st = LIBSPDM_STATUS_SUCCESS → response !! 1%nat = Some SPDM_CAPABILITIES ∧
     ∃ m c c', load response 0 (if SPDM_MESSAGE_VERSION_12 <=? v then 20 else 12) = Ret m ∧
       appended q (request ++ m) c ∧ keep_responder_capabilities c v response = Ret c' ∧
       setup q' = (setup c') <| su_state := LIBSPDM_CONNECTION_STATE_AFTER_CAPABILITIES |>).
Proof.
  intros Hw Hl Hh E. set (base := if SPDM_MESSAGE_VERSION_12 <=? v then 20 else 12).
  unfold process_capabilities in E. case_if; [by injection E as <- <- <-|]. exec_inv E. pose proof Hx as Hhd. apply read_header_inv in Hx as (tl & ->).
  exec_inv E. destruct x0 as (st1, q1).
  apply check_response_code_inv in Hx as [(-> & -> & Hc)|(He & _ & Hb)].
  2: { rewrite He in E. injection E as <- <- <-. split; [|by intros ->].
       intros (A & B & ->)%Hb. cbn. by rewrite A, B. }
  change (is_error LIBSPDM_STATUS_SUCCESS) with false in E. cbv iota in E.
  exec_inv E. rewrite (read_header_load _ _ _ _ Hl Hh) in Hx. injection Hx as <-.
  cbn [spdm_version param1] in E. 
  destruct (spdm_version x =? v) eqn:Ev; cbn [negb] in E; [|by injection E as <- <- <-].
  apply Z.eqb_eq in Ev. rewrite Ev in E.
  change (if SPDM_MESSAGE_VERSION_12 <=? v then _ else _) with base in E. clearbody base.
  case_if; [by injection E as <- <- <-|]. rewrite andb_false_r in E. cbn [andb] in E.
  exec_inv E. injection Hx as <-. exec_inv E. destruct x0; cbn [negb] in E; [|by injection E as <- <- <-].
  exec_inv E. exec_inv E. exec_inv E. destruct x2 as (st2, q2).
  rewrite Hl in Hx0. injection Hx0 as <-. rewrite Z.add_0_r in Hx1.
  apply append_exchange_inv in Hx2 as [[-> Ha]| ->]; [|by injection E as <- <- <-|done].
  change (is_error LIBSPDM_STATUS_SUCCESS) with false in E. cbv iota in E.
  exec_inv E. cbn in E. injection E as <- <- <-.
  split; [done|]. intros _. split; [by rewrite <- Hc|]. by exists x1, q2, x0.
Qed.
(** The endpoints know each other's version and capabilities. *)
Definition capable q s : Prop :=
  let v := libspdm_get_connection_version q in
  in_step q s ∧ libspdm_get_connection_version s = v ∧
  knows v true (ci_capability s) (lc_capability q) ∧ knows v false (ci_capability q) (lc_capability s).

(** [capable] and [in_step] are about the set-up of the contexts. *)
Lemma version_setup ctx : libspdm_get_connection_version ctx =
  libspdm_get_version_from_version_number (su_ci_version (setup ctx)).
Proof. done. Qed.

Lemma in_step_setup q s q' s' :
  (∃ l, setup q' = (setup q) <| su_last := l |>) →
  (∃ l n, setup s' = (setup s) <| su_last := l |> <| su_ci_version := n |>) →
  in_step q s → in_step q' s'.
Proof.
  intros (l & Eq) (l' & n & Es). unfold in_step, unnegotiated, message_a, message_a_wf.
  change (response_state (exchange ?c)) with (su_response_state (setup c)). by rewrite Eq, Es.
Qed.

Lemma locals_setup q s q' s' lq ls :
  (∃ l, setup q' = (setup q) <| su_last := l |>) →
  (∃ l n, setup s' = (setup s) <| su_last := l |> <| su_ci_version := n |>) →
  locals q s lq ls → locals q' s' lq ls.
Proof.
  intros (l & Eq) (l' & n & Es) [<- <-]. split; apply local_setup; by rewrite ?Eq, ?Es.
Qed.

(** Both endpoints append the same bytes and keep what they learn. *)
Lemma capable_after q s request response cq cs q' s' v kq ks n lq ls :
  in_step q s → locals q s lq ls → libspdm_get_connection_version q = v →
  appended q (request ++ response) cq → appended s (request ++ response) cs →
  setup q' = (setup cq) <| su_ci_capability := kq |> <| su_state := LIBSPDM_CONNECTION_STATE_AFTER_CAPABILITIES |> →
  setup s' = (setup cs) <| su_ci_version := n |> <| su_ci_capability := ks |>
                        <| su_state := LIBSPDM_CONNECTION_STATE_AFTER_CAPABILITIES |> →
  libspdm_get_version_from_version_number n = v →
  knows v true ks (lc_capability q) → knows v false kq (lc_capability s) →
  capable q' s' ∧ locals q' s' lq ls.
Proof.
  intros ((_ & Aq & Bq & Cq) & (_ & As & Bs & Cs) & Em & Hn) [<- <-] Hv
    (a & Ea & Wa & Ca) (b & Eb & Wb & Cb) Eq Es Hvn Hk1 Hk2.
  rewrite Ea in Eq. rewrite Eb in Es.
  assert (Hv' : libspdm_get_connection_version q' = v) by (rewrite version_setup, Eq; exact Hv).
  assert (Hl : lc_capability q' = lc_capability q) by exact (f_equal su_capability Eq).
  assert (Hl' : lc_capability s' = lc_capability s) by exact (f_equal su_capability Es).
  split; [|split; apply local_setup; by rewrite ?Eq, ?Es].
  unfold capable. rewrite Hv', Hl, Hl'.
  split; [|split; [rewrite version_setup, Es; exact Hvn|split]].
  - unfold in_step, unnegotiated, message_a_wf, message_a.
    change (response_state (exchange ?c)) with (su_response_state (setup c)).
    rewrite Eq, Es. cbn. rewrite Ca, Cb, Em. done.
  - by replace (ci_capability s') with ks by (by rewrite (f_equal su_ci_capability Es : ci_capability s' = _)).
  - by replace (ci_capability q') with kq by (by rewrite (f_equal su_ci_capability Eq : ci_capability q' = _)).
Qed.

Lemma try_capabilities_link q rng d r out' lq ls :
  in_step q (lk_responder d) → locals q (lk_responder d) lq ls →
  libspdm_try_get_capabilities (None, None) q (rng, d) = Ret (r, out') →
  let s' := lk_responder (ex_world r).2 in
  (ex_status r = LIBSPDM_STATUS_BUSY_PEER → out' = (None, None) ∧ in_step (ex_ctx r) s' ∧ locals (ex_ctx r) s' lq ls) ∧
  (ex_status r = LIBSPDM_STATUS_SUCCESS → capable (ex_ctx r) s' ∧ locals (ex_ctx r) s' lq ls).
Proof.
  intros Hi Hl E s'. subst s'. unfold libspdm_try_get_capabilities in E.
  destruct (bool_decide _); [by injection E as <- _|]. destruct r as [st q' w'].
  match type of E with context [exchange_message _ _ _ ?c] => set (q0 := c) in E end.
  assert (Eq0 : setup q0 = setup q) by apply setup_via_request_code. clearbody q0.
  assert (Hi0 : in_step q0 (lk_responder d)).
  { eapply in_step_setup; [| |exact Hi]; [by exists (su_last (setup q))|by do 2 eexists]. }
  assert (Hl0 : locals q0 (lk_responder d) lq ls).
  { eapply locals_setup; [| |exact Hl]; [by exists (su_last (setup q))|by do 2 eexists]. }
  clear q Eq0 Hi Hl. rename q0 into q. cbn [ex_status ex_ctx ex_world].
  apply link_exchange in E as [E|(q1 & request & q2 & response & s' & Eb & Ep & Ea & Er & ->)].
  { by apply build_get_capabilities_inv in E as (_ & ? & ? & ? & _). }
  apply build_get_capabilities_inv in Eb as (-> & ext & fl & [= ->] & Hfl). cbn [snd lk_responder].
  apply put_last_request_inv in Ep as (l & Eq2 & Hload & Hlast & _).
  rewrite length_get_capabilities_bytes, <- Hlast in Hload.
  set (v := libspdm_get_connection_version q) in *.
  apply capabilities_answer in Ea as (s0 & l' & Es0 & Ha); [|apply Hi0|apply Hi0|done].
  assert (Hq : ∃ l, setup q2 = (setup q) <| su_last := l |>) by (by exists l).
  assert (Hn : ∀ s1 n, setup s1 = (setup s0) <| su_ci_version := n |> →
    ∃ l n, setup s1 = (setup (lk_responder d)) <| su_last := l |> <| su_ci_version := n |>).
  { intros s1 n E1. exists l', n. by rewrite E1, Es0. }
  pose proof (λ s1 n E1, in_step_setup _ _ _ _ Hq (Hn s1 n E1) Hi0) as Hi1.
  pose proof (λ s1 n E1, locals_setup _ _ _ _ _ _ Hq (Hn s1 n E1) Hl0) as Hl1.
  assert (Hc : lc_capability q2 = lc_capability q) by exact (f_equal su_capability Eq2).
  assert (Hv : libspdm_get_connection_version q2 = v) by (rewrite version_setup, Eq2; done).
  apply (process_capabilities_inv _ v (get_capabilities_bytes v ext fl (lc_capability q))) in Er as [Hb Hs];
    [|apply (Hi1 s0 (ci_version s0)); done|exact Hload|apply get_capabilities_header].
  destruct Ha as [[R1 R2]|(xt & f & n & cs & ks & -> & Hf & Hcs & Hk & Hvn & Es)]; split.
  - intros (A & B & -> & ->)%Hb. destruct (R2 A B) as (n & En).
    split; [done|]. by split; [eapply Hi1|eapply Hl1].
  - by intros (A & _)%Hs.
  - by intros (A & _)%Hb.
  - intros (_ & m & c & c' & Em & Hcq & Hkq & Eq')%Hs.
    assert (m = capabilities_bytes v xt f (lc_capability s0)) as ->.
    { revert Em. unfold capabilities_bytes. rewrite <- (length_capability_bytes v SPDM_CAPABILITIES 0
        (ct_exponent (lc_capability s0)) xt f (lc_capability s0)), load_all. by intros [= ->]. }
    eapply keep_responder_capabilities_inv in Hkq as (kq & -> & Hkq); [| |exact Hf].
    2: { destruct Hcq as (a & Ea & _). rewrite version_setup, Ea. exact Hv. }
    eapply (capable_after q2 s0); [apply (Hi1 s0 (ci_version s0)); done|
      apply (Hl1 s0 (ci_version s0)); done|exact Hv|exact Hcq|exact Hcs|exact Eq'|exact Es|done|
      by rewrite Hc|done].
Qed.

Lemma get_capabilities_link q rng d r lq ls :
  in_step q (lk_responder d) → locals q (lk_responder d) lq ls →
  libspdm_get_capabilities q (rng, d) = Ret r → ex_status r = LIBSPDM_STATUS_SUCCESS →
  capable (ex_ctx r) (lk_responder (ex_world r).2) ∧ locals (ex_ctx r) (lk_responder (ex_world r).2) lq ls.
Proof.
  intros Hi Hl E. unfold libspdm_get_capabilities in E. exec_inv E. destruct x as [r' out'].
  injection E as ->. unfold with_retries in Hx. revert Hx.
  apply (retry_link (λ out q s, out = (None, None) ∧ in_step q s ∧ locals q s lq ls)
    (λ r, capable (ex_ctx r) (lk_responder (ex_world r).2) ∧
          locals (ex_ctx r) (lk_responder (ex_world r).2) lq ls)); [|done].
  clear. intros out q [rng d] r out' (-> & Hi & Hl) E. by apply try_capabilities_link with (1 := Hi) (2 := Hl) in E.
Qed.
End link.
End SetupLinkFacts.
