(* ===== verification/AlgorithmsProps.v ===== *)
(** * AlgorithmsProps: properties of the negotiation of algorithms

    What a selection becomes at both endpoints ([SelectionFacts]),
    NEGOTIATE_ALGORITHMS over a link ([NegotiationFacts]), what the responder
    selects ([SelectionProps]), and the set-up of a connection as a whole
    ([ConnectionSetupProps]). *)

From S2P Require Import Prelude SpdmDefs CommonSupport CryptLib SecuredContext SecuredSession.
From S2P Require Import SpdmContext SessionTable Version Messages KeyUpdate Connection Algorithms.
From S2P Require Import Transport SendReceive Handlers Responder ConnectionProps.

(** ** Tables and selections *)
Module SelectionFacts.
Import SetupFacts SetupLinkFacts.

(** *** The algorithms of tables *)

(** What tables say of the kind [type], where [d] is what was before. *)
Definition offered (type : Z) (l : list struct_table_t) (d : Z) : Z :=
  foldl (λ d t, if alg_type t =? type then alg_supported t else d) d l.

Lemma set_algorithms_fields a l : set_algorithms a l =
  a <| da_dhe_named_group := offered SPDM_NEGOTIATE_ALGORITHMS_STRUCT_TABLE_ALG_TYPE_DHE l (da_dhe_named_group a) |>
    <| da_aead_cipher_suite := offered SPDM_NEGOTIATE_ALGORITHMS_STRUCT_TABLE_ALG_TYPE_AEAD l (da_aead_cipher_suite a) |>
    <| da_req_base_asym_alg := offered SPDM_NEGOTIATE_ALGORITHMS_STRUCT_TABLE_ALG_TYPE_REQ_BASE_ASYM_ALG l (da_req_base_asym_alg a) |>
    <| da_key_schedule := offered SPDM_NEGOTIATE_ALGORITHMS_STRUCT_TABLE_ALG_TYPE_KEY_SCHEDULE l (da_key_schedule a) |>
    <| da_req_pqc_asym_alg := offered SPDM_NEGOTIATE_ALGORITHMS_STRUCT_TABLE_ALG_TYPE_REQ_PQC_ASYM_ALG l (da_req_pqc_asym_alg a) |>
    <| da_kem_alg := offered SPDM_NEGOTIATE_ALGORITHMS_STRUCT_TABLE_ALG_TYPE_KEM_ALG l (da_kem_alg a) |>.
Proof.
  revert a. induction l as [|[ty n s] l IH]; intros a; [by destruct a|].
  unfold set_algorithms in *. cbn [foldl]. rewrite IH. unfold offered. cbn [foldl alg_type alg_supported].
  unfold set_algorithm. cbn [alg_type alg_supported]. destruct a.
  repeat match goal with |- context [ty =? ?k] =>
    destruct (Z.eqb_spec ty k) as [-> |]; [done|] end. done.
Qed.

Lemma offered_any type l d e : type ∈ alg_type <$> l → offered type l d = offered type l e.
Proof.
  revert d e. induction l as [|t l IH]; intros d e H; [by apply not_elem_of_nil in H|].
  unfold offered in *. cbn [foldl]. destruct (Z.eqb_spec (alg_type t) type); [done|].
  apply IH. by apply elem_of_cons in H as [->|H].
Qed.

Lemma offered_none type l d : type ∉ alg_type <$> l → offered type l d = d.
Proof.
  revert d. induction l as [|t l IH]; intros d H; [done|].
  cbn [fmap list_fmap] in H. apply not_elem_of_cons in H as [H1 H].
  unfold offered in *. cbn [foldl]. destruct (Z.eqb_spec (alg_type t) type); [done|by apply IH].
Qed.

(** What a list of tables says replaces what another one of the same kinds said. *)
Lemma offered_absorb type l1 l2 d : alg_type <$> l1 = alg_type <$> l2 →
  offered type l2 (offered type l1 d) = offered type l2 d.
Proof.
  intros E. destruct (decide (type ∈ alg_type <$> l2)); [by apply offered_any|].
  by rewrite (offered_none _ l1) by (by rewrite E).
Qed.

(** A table of one of the kinds of the specification. *)
Definition table_known (t : struct_table_t) : Prop :=
  SPDM_NEGOTIATE_ALGORITHMS_STRUCT_TABLE_ALG_TYPE_DHE <= alg_type t ∧
  alg_type t <= SPDM_NEGOTIATE_ALGORITHMS_STRUCT_TABLE_ALG_TYPE_KEM_ALG.

Lemma set_algorithm_Some a t : is_Some (set_algorithm a t) ↔ table_known t.
Proof.
  unfold set_algorithm, table_known. split.
  - intros [x E]. repeat (case_if; [unfold SPDM_NEGOTIATE_ALGORITHMS_STRUCT_TABLE_ALG_TYPE_DHE,
      SPDM_NEGOTIATE_ALGORITHMS_STRUCT_TABLE_ALG_TYPE_AEAD,
      SPDM_NEGOTIATE_ALGORITHMS_STRUCT_TABLE_ALG_TYPE_REQ_BASE_ASYM_ALG,
      SPDM_NEGOTIATE_ALGORITHMS_STRUCT_TABLE_ALG_TYPE_KEY_SCHEDULE,
      SPDM_NEGOTIATE_ALGORITHMS_STRUCT_TABLE_ALG_TYPE_REQ_PQC_ASYM_ALG,
      SPDM_NEGOTIATE_ALGORITHMS_STRUCT_TABLE_ALG_TYPE_KEM_ALG in *; lia|]). done.
  - intros H. repeat (case_if; [by eexists|]). unfold SPDM_NEGOTIATE_ALGORITHMS_STRUCT_TABLE_ALG_TYPE_DHE,
      SPDM_NEGOTIATE_ALGORITHMS_STRUCT_TABLE_ALG_TYPE_AEAD,
      SPDM_NEGOTIATE_ALGORITHMS_STRUCT_TABLE_ALG_TYPE_REQ_BASE_ASYM_ALG,
      SPDM_NEGOTIATE_ALGORITHMS_STRUCT_TABLE_ALG_TYPE_KEY_SCHEDULE,
      SPDM_NEGOTIATE_ALGORITHMS_STRUCT_TABLE_ALG_TYPE_REQ_PQC_ASYM_ALG,
      SPDM_NEGOTIATE_ALGORITHMS_STRUCT_TABLE_ALG_TYPE_KEM_ALG in *; lia.
Qed.

(** *** Tables in messages *)

(** A table without external algorithms that fits its fields. *)
Definition table_ok (t : struct_table_t) : Prop :=
  is_u8 (alg_count t) ∧ ext_alg_count t = 0 ∧ is_u16 (alg_supported t).

Lemma load_le_byte a x b : load_le 1 (a ++ x :: b) (blen a) = Ret x.
Proof.
  rewrite (load_byte _ _ _ (length a) x (load_all (a ++ x :: b))); [done|].
  by rewrite lookup_app_r, Nat.sub_diag by lia.
Qed.

Lemma read_table_bytes v f a t b size pre x : table_ok t →
  read_table v f (a ++ table_bytes t ++ b) size (blen a) pre = Ret (inl x) → x = t.
Proof.
  intros (Hc & _ & Hs) E. unfold read_table in E.
  assert (E1 : load_le 1 (a ++ table_bytes t ++ b) (blen a) = Ret (alg_type t)) by apply load_le_byte.
  assert (E2 : load_le 1 (a ++ table_bytes t ++ b) (blen a + 1) = Ret (alg_count t)).
  { unfold table_bytes. cbn [app]. rewrite cons_middle, app_assoc.
    replace (blen a + 1) with (blen (a ++ [alg_type t])) by (rewrite length_app; cbn; lia).
    apply load_le_byte. }
  assert (E3 : load_le 2 (a ++ table_bytes t ++ b) (blen a + 2) = Ret (alg_supported t)).
  { unfold table_bytes. rewrite <- app_assoc, app_assoc, load_le_app by (rewrite length_app; cbn; lia).
    unfold is_u16 in Hs. by rewrite Z.mod_small by done. }
  rewrite E1, E2, E3 in E. cbn [mbind exec_bind] in E.
  repeat match type of E with (if ?b then _ else _) = _ => destruct b; [done|] end.
  injection E as <-. by destruct t.
Qed.

Lemma read_tables_bytes v f a ts b size pre l e : Forall table_ok ts →
  read_tables v f (a ++ concat (table_bytes <$> ts) ++ b) size (blen a) pre (length ts) = Ret (inl (l, e)) →
  l = ts.
Proof.
  intros Hts. revert a pre l e. induction Hts as [|t ts Ht Hts IH]; intros a pre l e E;
    cbn [fmap list_fmap concat length read_tables] in E; [by injection E as <- _|].
  rewrite <- app_assoc in E. exec_inv E. destruct x as [x|]; [|done].
  apply read_table_bytes in Hx as ->; [|done].
  exec_inv E. destruct x as [[l' e']|]; [|done]. injection E as <- ->.
  rewrite app_assoc in Hx.
  replace (blen a + table_size t) with (blen (a ++ table_bytes t)) in Hx.
  2: { unfold table_size, table_bytes. destruct Ht as (_ & -> & _).
       rewrite !length_app, length_le_bytes. unfold sizeof_spdm_negotiate_algorithms_common_struct_table. cbn [length]. lia. }
  by apply IH in Hx as ->.
Qed.

Lemma length_read_tables v f m size off pre n l e :
  read_tables v f m size off pre n = Ret (inl (l, e)) → length l = n.
Proof.
  revert off pre l e. induction n as [|n IH]; intros off pre l e E; cbn [read_tables] in E; [by injection E as <- _|].
  exec_inv E. destruct x as [x|]; [|done]. exec_inv E. destruct x0 as [[l' e']|]; [|done].
  injection E as <- ->. cbn. f_equal. by eapply IH.
Qed.

(** *** Selections in messages *)

Definition selection_ok (sel : selection_t) : Prop :=
  is_u32 (measurement_hash_algo sel) ∧ is_u32 (base_asym_sel sel) ∧ is_u32 (base_hash_sel sel) ∧
  is_u32 (pqc_asym_sel sel) ∧ Forall table_ok (struct_table sel).

(** The fields of a response of the responder. *)
Lemma length_tables_bytes ts : blen (concat (table_bytes <$> ts)) = 4 * blen ts.
Proof.
  induction ts as [|t ts IH]; [done|]. cbn [fmap list_fmap concat]. rewrite length_app, Nat2Z.inj_add, IH.
  unfold table_bytes. rewrite length_app, length_le_bytes. cbn [length]. lia.
Qed.

Lemma length_algorithms_bytes v p size sel :
  blen (algorithms_bytes v p size sel) = 36 + 4 * blen (struct_table sel).
Proof.
  unfold algorithms_bytes. rewrite !length_app, !Nat2Z.inj_add, length_tables_bytes, !length_le_bytes,
    length_zeros. cbn [length]. lia.
Qed.

Lemma byte_at m (i : nat) x : m !! i = Some x → load_le 1 m (Z.of_nat i) = Ret x.
Proof. apply (load_byte m (blen m)). apply load_all. Qed.

Lemma field_at k m a z b : m = a ++ le_bytes k z ++ b →
  load_le k m (blen a) = Ret (z mod 2 ^ (8 * Z.of_nat k)).
Proof. intros ->. by apply load_le_app. Qed.

Lemma algorithms_length v p size sel : message_length (algorithms_bytes v p size sel) = Ret (u16 size).
Proof. apply (field_at 2 _ [v; SPDM_ALGORITHMS; p; 0] size _ eq_refl). Qed.

Lemma algorithms_selection v p size sel ts : selection_ok sel →
  read_selection (algorithms_bytes v p size sel) ts = Ret (sel <| struct_table := ts |>).
Proof.
  intros (R1 & R2 & R3 & R4 & _). unfold read_selection, message_measurement_specification,
    message_other_params, message_mel_specification.
  set (m := algorithms_bytes v p size sel).
  set (a1 := [v; SPDM_ALGORITHMS; p; 0] ++ le_bytes 2 size
             ++ [measurement_specification_sel sel; other_params_selection sel]).
  set (a2 := a1 ++ le_bytes 4 (measurement_hash_algo sel)).
  set (a3 := a2 ++ le_bytes 4 (base_asym_sel sel)).
  set (a4 := a3 ++ le_bytes 4 (base_hash_sel sel)).
  pose proof (byte_at m 6 _ eq_refl) as B1. pose proof (byte_at m 7 _ eq_refl) as B2.
  pose proof (byte_at m 31 _ eq_refl) as B3.
  pose proof (field_at 4 m a1 (measurement_hash_algo sel) _ eq_refl) as F1.
  pose proof (field_at 4 m a2 (base_asym_sel sel) _ eq_refl) as F2.
  pose proof (field_at 4 m a3 (base_hash_sel sel) _ eq_refl) as F3.
  pose proof (field_at 4 m a4 (pqc_asym_sel sel) _ eq_refl) as F4.
  change (blen a1) with 8 in F1. change (blen a2) with 12 in F2. change (blen a3) with 16 in F3.
  change (blen a4) with 20 in F4. change (Z.of_nat 6) with 6 in B1. change (Z.of_nat 7) with 7 in B2.
  change (Z.of_nat 31) with 31 in B3. clearbody m a1 a2 a3 a4.
  change (2 ^ (8 * Z.of_nat 4)) with (2 ^ 32) in *. unfold is_u32 in *.
  rewrite Z.mod_small in F1, F2, F3, F4 by done.
  rewrite B1, B2, B3, F1, F2, F3, F4. cbn [mbind exec_bind]. by destruct sel.
Qed.

(** What the requester reads of the responder's selection. *)
Lemma check_response_selection v p size sel x e :
  selection_ok sel → p = blen (struct_table sel) → (v < SPDM_MESSAGE_VERSION_11 → struct_table sel = []) →
  check_algorithms_response v p (algorithms_bytes v p size sel) = Ret (inl (x, e)) →
  x = sel ∧ e = u16 size.
Proof.
  intros Ho Hp Hv E. unfold check_algorithms_response in E.
  destruct (_ <? _) in E; [done|]. rewrite (algorithms_selection v p size sel [] Ho) in E.
  cbn [mbind exec_bind] in E. destruct (negb _) in E; [done|].
  pose proof (byte_at (algorithms_bytes v p size sel) 32 0 eq_refl) as B1.
  pose proof (byte_at (algorithms_bytes v p size sel) 33 0 eq_refl) as B2.
  change (Z.of_nat 32) with 32 in B1. change (Z.of_nat 33) with 33 in B2.
  rewrite B1, B2 in E. cbn [mbind exec_bind] in E. clear B1 B2.
  change (0 <? 0) with false in E. cbv iota in E.
  destruct (_ <? _) in E; [done|]. exec_inv E. destruct x0 as [[tables off]|]; [|done].
  rewrite algorithms_length in E. cbn [mbind exec_bind] in E.
  destruct (off =? u16 size) eqn:Ee; cbn [negb] in E; [|done].
  injection E as <- <-. apply Z.eqb_eq in Ee. split; [|done].
  assert (tables = struct_table sel) as ->; [|by destruct sel]. clear Ee.
  destruct (SPDM_MESSAGE_VERSION_11 <=? v) eqn:E11; [|injection Hx as <- _; symmetry; apply Hv; lia].
  set (a := [v; SPDM_ALGORITHMS; p; 0] ++ le_bytes 2 size
             ++ [measurement_specification_sel sel; other_params_selection sel]
             ++ le_bytes 4 (measurement_hash_algo sel) ++ le_bytes 4 (base_asym_sel sel)
             ++ le_bytes 4 (base_hash_sel sel) ++ le_bytes 4 (pqc_asym_sel sel)
             ++ zeros 7 ++ [mel_specification_sel sel; 0; 0; 0; 0]).
  assert (Em : algorithms_bytes v p size sel = a ++ concat (table_bytes <$> struct_table sel) ++ []) by
    (rewrite app_nil_r; reflexivity).
  rewrite Em in Hx. change (_ + _ + _) with (blen a) in Hx. rewrite Hp, Nat2Z.id in Hx.
  eapply read_tables_bytes; [apply Ho|exact Hx].
Qed.

(** *** The choice of the responder *)

Lemma first_common_in l c : first_common l c ∈ 0 :: l.
Proof.
  induction l as [|p l IH]; cbn [first_common]; [by left|].
  destruct (negb _); [right; left|]. apply elem_of_cons in IH as [->|IH]; [left|do 2 right; done].
Qed.

Lemma prioritize_range (P : Z → Prop) l a b : Forall P (0 :: l) → P (libspdm_prioritize_algorithm l a b).
Proof. intros H. by eapply (proj1 (Forall_forall _ _) H), list_elem_of_In, first_common_in. Qed.

Ltac ranges := unfold is_u8, is_u16, is_u32; apply (bool_decide_unpack _); vm_compute; done.

Lemma clear_tables_ok type l : Forall table_ok l → Forall table_ok (clear_tables type l).
Proof.
  intros H. apply Forall_fmap. eapply Forall_impl; [|exact H]. intros t (A & B & C). unfold compose.
  destruct (_ =? _); [|done]. split; [done|split; [done|]]. cbn. unfold is_u16. lia.
Qed.

Lemma clear_tables_types type l : alg_type <$> clear_tables type l = alg_type <$> l.
Proof.
  unfold clear_tables. rewrite <- list_fmap_compose. apply list_fmap_ext. intros _ t _. unfold compose.
  by destruct (_ =? _).
Qed.

Lemma exclude_tables_spec a oa k ok l i n :
  (Forall table_ok l → Forall table_ok (exclude_tables a oa k ok l i n)) ∧
  alg_type <$> exclude_tables a oa k ok l i n = alg_type <$> l.
Proof.
  revert l i. induction n as [|n IH]; intros l i; [done|]. cbn [exclude_tables].
  set (l1 := if table_selects l i a then clear_tables oa l else l).
  assert ((Forall table_ok l → Forall table_ok l1) ∧ alg_type <$> l1 = alg_type <$> l) as [A1 B1].
  { subst l1. destruct (table_selects _ _ _); [|done]. split; [apply clear_tables_ok|apply clear_tables_types]. }
  clearbody l1. set (l2 := if table_selects l1 i k then clear_tables ok l1 else l1).
  assert ((Forall table_ok l1 → Forall table_ok l2) ∧ alg_type <$> l2 = alg_type <$> l1) as [A2 B2].
  { subst l2. destruct (table_selects _ _ _); [|done]. split; [apply clear_tables_ok|apply clear_tables_types]. }
  destruct (IH l2 (S i)) as [A3 B3]. split; [auto|]. congruence.
Qed.

Lemma exclude_algorithms_spec b sel :
  (selection_ok sel → selection_ok (exclude_algorithms b sel)) ∧
  alg_type <$> struct_table (exclude_algorithms b sel) = alg_type <$> struct_table sel ∧
  other_params_selection (exclude_algorithms b sel) = other_params_selection sel.
Proof.
  unfold exclude_algorithms. assert (is_u32 0) by (unfold is_u32; lia).
  destruct b; destruct (negb _); cbn;
    (split; [intros (? & ? & ? & ? & ?); repeat (split; [done|]); by apply exclude_tables_spec|];
     split; [apply exclude_tables_spec|done]).
Qed.

Section responder.
Context `{BuildConfig}.
Implicit Types ctx : libspdm_context_t.

Lemma select_tables_inv ctx tables ctx' l : Forall table_known tables →
  select_tables ctx tables = Ret (true, ctx', l) →
  ctx' = ctx <| ci_algorithm := set_algorithms (ci_algorithm ctx) tables |> ∧ Forall table_ok l ∧
  alg_type <$> l = alg_type <$> tables.
Proof.
  intros Hk. revert ctx ctx' l. induction Hk as [|t tables Hk _ IH]; intros ctx ctx' l E; cbn [select_tables] in E.
  { injection E as <- <-. split; [by destruct ctx|done]. }
  exec_inv E. destruct x as [[c t']|]; [|done]. exec_inv E. destruct x as [[b c'] l'].
  injection E as -> <- <-. apply IH in Hx0 as (-> & Hl & Ht). clear IH.
  unfold set_algorithms. cbn [foldl]. unfold select_table in Hx.
  destruct (proj2 (set_algorithm_Some (ci_algorithm ctx) t) Hk) as [a Ea]. rewrite Ea in *.
  destruct (_ =? 0) in Hx; [done|]. exec_inv Hx. injection Hx as <- <-.
  split; [done|]. split.
  - constructor; [|done]. split; [ranges|split; [done|apply u16_range]].
  - cbn [fmap list_fmap alg_type]. by f_equal.
Qed.

Lemma prioritize_selection_ok ctx v tables : Forall table_ok tables →
  selection_ok (prioritize_selection ctx v tables).
Proof.
  intros Ht. unfold prioritize_selection, selection_ok.
  cbn [measurement_hash_algo base_asym_sel base_hash_sel pqc_asym_sel struct_table].
  assert (Hp : ∀ l a b, Forall is_u32 (0 :: l) → is_u32 (libspdm_prioritize_algorithm l a b))
    by (intros; by apply prioritize_range).
  split; [apply Hp; ranges|split; [apply Hp; ranges|split; [apply Hp; ranges|split; [|done]]]].
  destruct (_ <=? v); [apply Hp; ranges|ranges].
Qed.
End responder.

(** What both endpoints make of a selection. *)
Definition negotiated (v : Z) (sel : selection_t) : libspdm_device_algorithm_t :=
  let a := zero_algorithm
    <| da_measurement_spec := measurement_specification_sel sel |>
    <| da_measurement_hash_algo := measurement_hash_algo sel |>
    <| da_base_asym_algo := base_asym_sel sel |> <| da_base_hash_algo := base_hash_sel sel |> in
  let a := if SPDM_MESSAGE_VERSION_14 <=? v then a <| da_pqc_asym_algo := pqc_asym_sel sel |> else a in
  let a :=
    if SPDM_MESSAGE_VERSION_13 <=? v then
      a <| da_other_params_support := other_params_selection sel |>
        <| da_mel_spec := mel_specification_sel sel |>
    else if SPDM_MESSAGE_VERSION_12 <=? v then
      a <| da_other_params_support := Z.land (other_params_selection sel)
                                        SPDM_ALGORITHMS_OPAQUE_DATA_FORMAT_MASK |>
    else a in
  if SPDM_MESSAGE_VERSION_11 <=? v then set_algorithms a (struct_table sel)
  else clear_table_algorithms a.

(** The bit for several keys of other parameters, from version 1.3 on. *)
Definition multi_key_bit (v other : Z) : bool :=
  (SPDM_MESSAGE_VERSION_13 <=? v) && negb (Z.land other SPDM_ALGORITHMS_MULTI_KEY_CONN =? 0).

(** The steps of the responder on the algorithms of the connection. *)
Section steps.
Context `{BuildConfig}.
Implicit Types ctx : libspdm_context_t.

Lemma keep_offer_inv ctx v request ctx' : keep_offer ctx v request = Ret ctx' →
  ci_algorithm ctx = zero_algorithm →
  ∃ m1 m2 m3 m4 m5, ctx' = ctx <| ci_algorithm := zero_algorithm
    <| da_measurement_spec := m1 |> <| da_measurement_hash_algo := m2 |>
    <| da_base_asym_algo := m3 |> <| da_base_hash_algo := m4 |> <| da_pqc_asym_algo := m5 |> |> ∧
    (v < SPDM_MESSAGE_VERSION_14 → m5 = 0).
Proof.
  intros E Hz. unfold keep_offer in E. exec_inv E. exec_inv E. exec_inv E. exec_inv E. injection E as <-.
  exists x, (if negb (x =? 0) then da_measurement_hash_algo (lc_algorithm ctx) else 0), x0, x1,
    (if SPDM_MESSAGE_VERSION_14 <=? v then x2 else 0).
  rewrite Hz. destruct (SPDM_MESSAGE_VERSION_14 <=? v) eqn:E14; (split; [reflexivity|intros; lia || done]).
Qed.

Lemma keep_other_params_inv ctx v request ctx' : keep_other_params ctx v request = Ret ctx' →
  ∃ other mel, message_other_params request = Ret other ∧ ctx' = ctx <| ci_algorithm :=
    if SPDM_MESSAGE_VERSION_13 <=? v
    then (ci_algorithm ctx) <| da_other_params_support := other |> <| da_mel_spec := mel |>
    else if SPDM_MESSAGE_VERSION_12 <=? v
    then (ci_algorithm ctx) <| da_other_params_support := Z.land other SPDM_ALGORITHMS_OPAQUE_DATA_FORMAT_MASK |>
    else ci_algorithm ctx |>.
Proof. intros E. unfold keep_other_params in E. exec_inv E. exec_inv E. injection E as <-. by exists x, x0. Qed.

Lemma multi_key_small (other : Z) (b : bool) : 
  negb (Z.land (if b then Z.lor other SPDM_ALGORITHMS_MULTI_KEY_CONN
                else Z.ldiff other SPDM_ALGORITHMS_MULTI_KEY_CONN) SPDM_ALGORITHMS_MULTI_KEY_CONN =? 0) = b.
Proof.
  destruct b.
  - rewrite Z.land_lor_distr_l, Z.land_diag. destruct (Z.eqb_spec (Z.lor (Z.land other SPDM_ALGORITHMS_MULTI_KEY_CONN)
      SPDM_ALGORITHMS_MULTI_KEY_CONN) 0) as [E|]; [|done]. by apply Z.lor_eq_0_iff in E as [_ E].
  - rewrite Z.ldiff_land, <- Z.land_assoc, (Z.land_comm (Z.lnot _)), Z.land_lnot_diag, Z.land_0_r. done.
Qed.

(** The selection of several keys by the requester. *)
Lemma select_multi_key_conn_inv ctx v sel ctx' sel' :
  (if SPDM_MESSAGE_VERSION_13 <=? v then select_multi_key_conn ctx sel else Some (ctx, sel)) = Some (ctx', sel') →
  multi_key_conn_req (exchange ctx) = false →
  ctx' = set_exchange ctx (λ x, x <| multi_key_conn_req := multi_key_bit v (other_params_selection sel') |>) ∧
  ∃ other, sel' = sel <| other_params_selection := other |>.
Proof.
  intros E Hn. unfold multi_key_bit. destruct (SPDM_MESSAGE_VERSION_13 <=? v).
  - unfold select_multi_key_conn in E. destruct (if _ =? 0 then _ else _) as [b|]; [|done].
    injection E as <- <-. rewrite andb_true_l. split; [|by eexists].
    pose proof (multi_key_small (other_params_selection sel) b) as Eb.
    apply (f_equal (λ y, set_exchange ctx (λ x, x <| multi_key_conn_req := y |>))) in Eb.
    symmetry in Eb. exact Eb.
  - injection E as <- <-. split; [|by exists (other_params_selection sel); destruct sel].
    change (false && ?b) with false. rewrite <- Hn. destruct ctx as []. unfold set_exchange. cbn.
    f_equal. match goal with |- ?x = _ => by destruct x end.
Qed.
(** The algorithms of the connection after the tables. *)
Definition finished (v : Z) (sel : selection_t) (a : libspdm_device_algorithm_t) : libspdm_device_algorithm_t :=
  let b := set_algorithms a (struct_table sel) in
  let format := Z.land (other_params_selection sel) SPDM_ALGORITHMS_OPAQUE_DATA_FORMAT_MASK in
  if SPDM_MESSAGE_VERSION_11 <=? v then
    if SPDM_MESSAGE_VERSION_13 <=? v then
      b <| da_other_params_support :=
             Z.lor (Z.land (da_other_params_support b) SPDM_ALGORITHMS_MULTI_KEY_CONN) format |>
        <| da_mel_spec := mel_specification_sel sel |>
    else if SPDM_MESSAGE_VERSION_12 <=? v then
      b <| da_other_params_support := format |> <| da_mel_spec := 0 |>
    else b <| da_other_params_support := 0 |>
  else clear_table_algorithms a.

Lemma set_multi_key_same ctx : multi_key_conn_rsp (exchange ctx) = false →
  ctx = set_exchange ctx (λ x, x <| multi_key_conn_rsp := false |>).
Proof.
  intros Hn. rewrite <- Hn. destruct ctx as []. unfold set_exchange. cbn.
  f_equal. match goal with |- ?x = _ => by destruct x end.
Qed.

Lemma keep_multi_key_conn_rsp_inv ctx ctx' : keep_multi_key_conn_rsp ctx = (true, ctx') →
  ctx' = set_exchange ctx (λ x, x <| multi_key_conn_rsp :=
    negb (Z.land (da_other_params_support (ci_algorithm ctx)) SPDM_ALGORITHMS_MULTI_KEY_CONN =? 0) |>).
Proof.
  unfold keep_multi_key_conn_rsp. destruct (_ =? 0); destruct (_ =? _); intros E; try discriminate E;
    symmetry; exact (f_equal snd E).
Qed.

Lemma finish_tables_inv ctx v sel ctx' : finish_tables ctx v sel = Ret (true, ctx') →
  multi_key_conn_rsp (exchange ctx) = false →
  ctx' = set_exchange (ctx <| ci_algorithm := finished v sel (ci_algorithm ctx) |>) (λ x,
    x <| multi_key_conn_rsp :=
           multi_key_bit v (da_other_params_support (finished v sel (ci_algorithm ctx))) |>).
Proof.
  intros E Hn. unfold finish_tables in E. unfold finished, multi_key_bit.
  destruct (SPDM_MESSAGE_VERSION_11 <=? v) eqn:E11.
  - exec_inv E. unfold keep_table_selection in Hx.
    exec_inv Hx. clear x0 Hx0.
    assert (x = ctx <| ci_algorithm := finished v sel (ci_algorithm ctx) |>) as ->.
    { unfold finished. rewrite E11. destruct (_ <=? v); [|destruct (_ <=? v)]; congruence. }
    clear Hx. unfold finished in *. rewrite E11 in *.
    match goal with |- context [ctx <| ci_algorithm := ?a |>] => set (A := a) in * end.
    destruct (check_table_selection _); [|done]. cbn [negb] in E.
    destruct (SPDM_MESSAGE_VERSION_13 <=? v).
    + assert (E' : keep_multi_key_conn_rsp (ctx <| ci_algorithm := A |>) = (true, ctx')) by congruence.
      apply keep_multi_key_conn_rsp_inv in E' as ->. reflexivity.
    + assert (ctx' = ctx <| ci_algorithm := A |>) as -> by congruence. by apply set_multi_key_same.
  - assert ((SPDM_MESSAGE_VERSION_13 <=? v) = false) as -> by (unfold SPDM_MESSAGE_VERSION_11, SPDM_MESSAGE_VERSION_13 in *; lia).
    assert (ctx' = ctx <| ci_algorithm := clear_table_algorithms (ci_algorithm ctx) |>) as -> by congruence.
    by apply set_multi_key_same.
Qed.
Lemma mask_multi_key other format :
  Z.land (Z.lor (Z.land other SPDM_ALGORITHMS_MULTI_KEY_CONN)
            (Z.land format SPDM_ALGORITHMS_OPAQUE_DATA_FORMAT_MASK)) SPDM_ALGORITHMS_OPAQUE_DATA_FORMAT_MASK =
    Z.land format SPDM_ALGORITHMS_OPAQUE_DATA_FORMAT_MASK ∧
  Z.land (Z.lor (Z.land other SPDM_ALGORITHMS_MULTI_KEY_CONN)
            (Z.land format SPDM_ALGORITHMS_OPAQUE_DATA_FORMAT_MASK)) SPDM_ALGORITHMS_MULTI_KEY_CONN =
    Z.land other SPDM_ALGORITHMS_MULTI_KEY_CONN.
Proof.
  rewrite !Z.land_lor_distr_l, <- !Z.land_assoc.
  change (Z.land SPDM_ALGORITHMS_MULTI_KEY_CONN SPDM_ALGORITHMS_OPAQUE_DATA_FORMAT_MASK) with 0.
  change (Z.land SPDM_ALGORITHMS_OPAQUE_DATA_FORMAT_MASK SPDM_ALGORITHMS_MULTI_KEY_CONN) with 0.
  by rewrite !Z.land_0_r, Z.lor_0_r, !Z.land_diag.
Qed.

(** What the responder makes of its selection, from an offer, is [negotiated] but
    for the bit of the other parameters that the requester set for several keys. *)
Lemma finished_negotiated v sel tables other mel m1 m2 m3 m4 m5 :
  alg_type <$> struct_table sel = alg_type <$> tables →
  (v < SPDM_MESSAGE_VERSION_11 → tables = []) → (v < SPDM_MESSAGE_VERSION_14 → m5 = 0) →
  let a1 := zero_algorithm <| da_measurement_spec := m1 |> <| da_measurement_hash_algo := m2 |>
    <| da_base_asym_algo := m3 |> <| da_base_hash_algo := m4 |> <| da_pqc_asym_algo := m5 |> in
  let a2 := set_algorithms a1 tables in
  let a3 := if SPDM_MESSAGE_VERSION_13 <=? v
    then a2 <| da_other_params_support := other |> <| da_mel_spec := mel |>
    else if SPDM_MESSAGE_VERSION_12 <=? v
    then a2 <| da_other_params_support := Z.land other SPDM_ALGORITHMS_OPAQUE_DATA_FORMAT_MASK |>
    else a2 in
  let a4 := a3
    <| da_measurement_spec := measurement_specification_sel sel |>
    <| da_measurement_hash_algo := measurement_hash_algo sel |>
    <| da_base_asym_algo := base_asym_sel sel |> <| da_base_hash_algo := base_hash_sel sel |> in
  let a5 := if SPDM_MESSAGE_VERSION_14 <=? v then a4 <| da_pqc_asym_algo := pqc_asym_sel sel |> else a4 in
  ∃ x, finished v sel a5 = (negotiated v sel) <| da_other_params_support := x |> ∧
    Z.land x SPDM_ALGORITHMS_OPAQUE_DATA_FORMAT_MASK =
      Z.land (da_other_params_support (negotiated v sel)) SPDM_ALGORITHMS_OPAQUE_DATA_FORMAT_MASK ∧
    multi_key_bit v x = multi_key_bit v other.
Proof.
  intros Ht H11 H14 a1 a2 a3 a4 a5.
  exists (da_other_params_support (finished v sel a5)). subst a5 a4 a3 a2 a1.
  unfold finished, negotiated, multi_key_bit. rewrite !set_algorithms_fields.
  unfold SPDM_MESSAGE_VERSION_11, SPDM_MESSAGE_VERSION_12, SPDM_MESSAGE_VERSION_13, SPDM_MESSAGE_VERSION_14 in *.
  destruct (0x14 <=? v) eqn:E14; destruct (0x13 <=? v) eqn:E13; try (exfalso; lia);
    destruct (0x12 <=? v) eqn:E12; try (exfalso; lia); destruct (0x11 <=? v) eqn:E11; try (exfalso; lia).
  all: try rewrite H14 by lia; try rewrite H11 by lia.
  all: cbn -[Z.land Z.lor offered].
  all: rewrite ?(offered_absorb _ tables) by done.
  all: try (destruct (mask_multi_key other (other_params_selection sel)) as [E1 E2]; rewrite E1, ?E2).
  all: repeat match goal with |- context [Z.land (Z.land ?a ?m) ?m] => rewrite <- !(Z.land_assoc a), !Z.land_diag end.
  all: try done.
Qed.
Lemma select_algorithms_inv ctx v request tables ctx' sel :
  select_algorithms ctx v request tables = Ret (true, ctx', sel) →
  Forall table_known tables → (v < SPDM_MESSAGE_VERSION_11 → tables = []) →
  ci_algorithm ctx = zero_algorithm → multi_key_conn_req (exchange ctx) = false →
  multi_key_conn_rsp (exchange ctx) = false →
  selection_ok sel ∧ length (struct_table sel) = length tables ∧
  ∃ other x, message_other_params request = Ret other ∧
    setup ctx' = (setup ctx) <| su_ci_algorithm := (negotiated v sel) <| da_other_params_support := x |> |>
      <| su_multi_key_req := multi_key_bit v (other_params_selection sel) |>
      <| su_multi_key_rsp := multi_key_bit v other |> ∧
    Z.land x SPDM_ALGORITHMS_OPAQUE_DATA_FORMAT_MASK =
      Z.land (da_other_params_support (negotiated v sel)) SPDM_ALGORITHMS_OPAQUE_DATA_FORMAT_MASK.
Proof.
  intros E Hk H11 Hz Hreq Hrsp. unfold select_algorithms in E.
  exec_inv E. apply keep_offer_inv in Hx as (m1 & m2 & m3 & m4 & m5 & -> & H14); [|done].
  exec_inv E. destruct x as [[b c2] selected]. destruct b; cbn [negb] in E; [|done].
  apply select_tables_inv in Hx as (-> & Hok & Htypes); [|done].
  exec_inv E. apply keep_other_params_inv in Hx as (other & mel & Hother & ->).
  match type of E with context [prioritize_selection ?c v selected] =>
    set (c3 := c) in *; pose proof (prioritize_selection_ok c3 v selected Hok) as Hs1 end.
  set (sel1 := prioritize_selection c3 v selected) in *.
  assert (Ht1 : struct_table sel1 = selected) by done. clearbody sel1.
  match type of E with match ?x with _ => _ end = _ =>
    destruct x as [[c4 sel2]|] eqn:Em; [|done] end.
  apply select_multi_key_conn_inv in Em as (-> & o & ->); [|done].
  set (sel2 := sel1 <| other_params_selection := o |>) in *.
  set (sel3 := if SPDM_MESSAGE_VERSION_14 <=? v then _ else sel2) in E.
  assert (selection_ok sel3 ∧ alg_type <$> struct_table sel3 = alg_type <$> tables ∧
          other_params_selection sel3 = other_params_selection sel2) as (Hs3 & Ht3 & Ho3).
  { subst sel3. rewrite <- Htypes, <- Ht1. change (struct_table sel1) with (struct_table sel2).
    destruct (SPDM_MESSAGE_VERSION_14 <=? v); [|done].
    destruct (exclude_algorithms_spec (da_pqc_first (lc_algorithm (set_exchange c3 (λ x,
      x <| multi_key_conn_req := multi_key_bit v (other_params_selection sel2) |>)))) sel2) as (A & B & C).
    by split; [apply A|]. }
  clearbody sel3. exec_inv E. destruct (check_selection _ _) in E; [|done]. cbn [negb] in E.
  exec_inv E. destruct x0 as [valid c5]. injection E as -> <- <-.
  apply finish_tables_inv in Hx0 as ->; [|by destruct (_ <=? v)].
  split; [done|split; [by rewrite <- (length_fmap alg_type), Ht3, length_fmap|]].
  destruct (finished_negotiated v sel3 tables other mel m1 m2 m3 m4 m5 Ht3 H11 H14) as (y & Ey & Em & Eb).
  exists other, y. split; [done|split; [|done]].
  match goal with |- context [finished v sel3 ?a] =>
    assert (Ef : finished v sel3 a = (negotiated v sel3) <| da_other_params_support := y |>) by exact Ey end.
  rewrite Ef. change (da_other_params_support (_ <| da_other_params_support := y |>)) with y.
  by rewrite Eb, Ho3.
Qed.
End steps.

Lemma read_tables_known v f m size off pre n l e :
  read_tables v f m size off pre n = Ret (inl (l, e)) → Forall table_known l.
Proof.
  revert off pre l e. induction n as [|n IH]; intros off pre l e E; cbn [read_tables] in E; [by injection E as <- _|].
  exec_inv E. destruct x as [x|]; [|done]. exec_inv E. destruct x0 as [[l' e']|]; [|done].
  injection E as <- ->. constructor; [|by eapply IH]. clear Hx0 IH.
  unfold read_table in Hx. destruct (_ <? _) in Hx; [done|]. destruct (_ <? _) in Hx; [done|].
  exec_inv Hx. destruct (_ || _) eqn:Ek in Hx; [done|]. destruct (_ && _) in Hx; [done|].
  destruct (match pre with Some _ => _ | None => _ end) in Hx; [done|].
  exec_inv Hx. destruct (negb _) in Hx; [done|]. exec_inv Hx. destruct (negb _) in Hx; [done|].
  destruct (_ <? _) in Hx; [done|]. injection Hx as <-. unfold table_known. cbn. lia.
Qed.

Lemma check_algorithms_request_inv `{BuildConfig} v p request n tables e :
  check_algorithms_request v p request n = Ret (Some (tables, e)) → 0 ≤ p →
  Forall table_known tables ∧ (v < SPDM_MESSAGE_VERSION_11 → tables = []) ∧
  blen tables = (if SPDM_MESSAGE_VERSION_11 <=? v then p else 0) ∧ message_length request = Ret e.
Proof.
  intros E Hp. unfold check_algorithms_request in E. exec_inv E. exec_inv E. destruct (_ <? _) in E; [done|].
  exec_inv E. destruct x1 as [[tables' e']|]; [|done]. exec_inv E.
  destruct (if SPDM_MESSAGE_VERSION_11 <=? v then _ else _) as [m1 m2] in E.
  destruct (_ <? _) in E; [done|]. destruct (_ <? _) in E; [done|].
  destruct (e' =? x1) eqn:Ee; cbn [negb] in E; [|done]. injection E as <- <-.
  apply Z.eqb_eq in Ee as ->. destruct (SPDM_MESSAGE_VERSION_11 <=? v) eqn:E11.
  - split; [by eapply read_tables_known|split; [lia|split; [|done]]].
    apply length_read_tables in Hx1. lia.
  - by injection Hx1 as <- _.
Qed.

End SelectionFacts.

(** ** NEGOTIATE_ALGORITHMS over the link *)
Module NegotiationFacts.
Import SetupFacts SetupLinkFacts SelectionFacts.

Section responder.
Context `{BuildConfig, CryptoHal} {services : ResponderServices}.
Implicit Types ctx q s : libspdm_context_t.
Variable size : Z.

(** The response of [s] to a request with [n] tables, and [s] after it. *)
Definition algorithms_answered s (v n : Z) (request response : list Z) s' : Prop :=
  rejected response SPDM_ALGORITHMS (setup s' = setup s) ∨
  ∃ e message sel p other x m, message_length request = Ret e ∧ load request 0 e = Ret message ∧
    response = algorithms_bytes v p (36 + p * 4) sel ∧ selection_ok sel ∧ p = blen (struct_table sel) ∧ p <= n ∧
    (v < SPDM_MESSAGE_VERSION_11 → struct_table sel = []) ∧ message_other_params request = Ret other ∧
    ManagedBuffer.wf m ∧ ManagedBuffer.contents m = message_a s ++ message ++ response ∧
    Z.land x SPDM_ALGORITHMS_OPAQUE_DATA_FORMAT_MASK =
      Z.land (da_other_params_support (negotiated v sel)) SPDM_ALGORITHMS_OPAQUE_DATA_FORMAT_MASK ∧
    setup s' = (setup s) <| su_message_a := m |>
      <| su_ci_algorithm := (negotiated v sel) <| da_other_params_support := x |> |>
      <| su_multi_key_req := multi_key_bit v (other_params_selection sel) |>
      <| su_multi_key_rsp := multi_key_bit v other |> <| su_state := LIBSPDM_CONNECTION_STATE_NEGOTIATED |>.

Lemma answer_algorithms_inv s v p2 p request tables e r response : unnegotiated s → 0 ≤ p →
  check_algorithms_request v p request (blen request) = Ret (Some (tables, e)) →
  answer_algorithms s (Build_message_header v SPDM_NEGOTIATE_ALGORITHMS p p2) request tables e size (zeros size) = Ret r →
  load (rp_response r) 0 (rp_size r) = Ret response →
  algorithms_answered s v p request response (rp_ctx r).
Proof.
  intros (Hw & Hz & Hreq & Hrsp) Hp Hcheck E El. unfold answer_algorithms in E.
  apply check_algorithms_request_inv in Hcheck as (Hk & H11 & Hn & Hlen); [|done].
  cbn [request_response_code spdm_version param1] in E.
  set (s1 := libspdm_reset_message_buffer_via_request_code s None SPDM_NEGOTIATE_ALGORITHMS) in *.
  assert (Es1 : setup s1 = setup s) by apply setup_via_request_code. clearbody s1.
  exec_inv E. clear x Hx. exec_inv E. destruct x as [[valid s2] sel].
  exec_inv E. exec_inv E. destruct valid; cbn [negb] in E.
  2: { eapply (generate_error_inv _ _ _ _ _ _ _ SPDM_ALGORITHMS False) in E as [-> [R1 R2]]; [|done..].
       left. split; [done|]. intros A B. destruct (R2 A B). }
  apply select_algorithms_inv in Hx as (Hok & Hlt & other & y & Hother & Es2 & Hy); [|done|done|..].
  2: { rewrite <- Hz, <- Es1. done. }
  2: { rewrite <- Hreq, <- Es1. done. }
  2: { rewrite <- Hrsp, <- Es1. done. }
  rewrite Es1 in Es2. exec_inv E. exec_inv E. exec_inv E. destruct x3 as [st s3].
  set (p' := if SPDM_MESSAGE_VERSION_11 <=? v then p else 0) in *.
  assert (Hp' : p' = blen (struct_table sel)) by (rewrite Hlt; lia).
  match type of Hx1 with store _ 0 (algorithms_bytes v p' ?n sel) = _ =>
    change n with (36 + p' * 4) in * end.
  assert (Hlb : blen (algorithms_bytes v p' (36 + p' * 4) sel) = 36 + p' * 4)
    by (rewrite length_algorithms_bytes; lia).
  rewrite <- Hlb in Hx2. apply (stored_one _ _ _ _ Hx1) in Hx2 as ->.
  assert (Hw2 : message_a_wf s2) by (unfold message_a_wf; rewrite Es2; exact Hw).
  apply append_exchange_inv in Hx3 as [[-> Ha]| ->]; [| |done].
  2: { eapply (generate_error_inv _ _ _ _ _ _ _ SPDM_ALGORITHMS False) in E as [-> [R1 R2]]; [|done..].
       left. split; [done|]. intros A B. destruct (R2 A B). }
  injection E as <-. cbn [rp_response rp_size rp_ctx] in *.
  rewrite <- Hlb in El. apply (stored_one _ _ _ _ Hx1) in El as ->.
  destruct Ha as (m & Em & Wm & Cm). right. unfold message_a in Cm. rewrite Es2 in Cm.
  exists e, x1, sel, p', other, y, m. split; [done|split; [done|split; [done|split; [done|split; [done|]]]]].
  split; [subst p'; destruct (_ <=? v); lia|].
  split; [|split; [done|split; [done|split; [exact Cm|split; [done|]]]]].
  - intros Hv. apply length_zero_iff_nil. by rewrite Hlt, H11.
  - by rewrite setup_set_connection_state, Em, Es2.
Qed.

Lemma algorithms_handler_inv s v p2 p request r response :
  unnegotiated s → response_state (exchange s) = LIBSPDM_RESPONSE_STATE_NORMAL → 0 ≤ p →
  read_header request = Ret (Build_message_header v SPDM_NEGOTIATE_ALGORITHMS p p2) →
  libspdm_get_response_algorithms s (blen request) request size (zeros size) = Ret r →
  load (rp_response r) 0 (rp_size r) = Ret response →
  algorithms_answered s v p request response (rp_ctx r).
Proof.
  intros Hu Hn Hp Hh E El. unfold libspdm_get_response_algorithms in E. rewrite Hh in E.
  cbn [mbind exec_bind request_response_code spdm_version param1] in E.
  exec_inv E. exec_inv E. exec_inv E. clear x x0 x1 Hx Hx0 Hx1.
  rewrite Hn, bool_decide_false in E by (by intros []).
  assert (Hrej : ∀ code, libspdm_generate_error_response s code 0 size (zeros size) = Ret r →
    code ≠ SPDM_ERROR_CODE_BUSY → algorithms_answered s v p request response (rp_ctx r)).
  { intros code Hg Hb. left. eapply (generate_error_inv _ _ _ _ _ _ _ SPDM_ALGORITHMS False) in Hg as [-> [R1 R2]];
      [|done..]. split; [done|]. intros A B. destruct (R2 A B). }
  destruct (bool_decide _) in E; [by eapply Hrej|]. destruct (negb (_ =? _)) in E; [by eapply Hrej|].
  destruct (_ <? _) in E; [by eapply Hrej|]. exec_inv E.
  destruct x as [[tables e]|]; [|by eapply Hrej]. by eapply answer_algorithms_inv.
Qed.

Lemma algorithms_answer s v p2 p request response s' :
  unnegotiated s → response_state (exchange s) = LIBSPDM_RESPONSE_STATE_NORMAL → 0 ≤ p →
  read_header request = Ret (Build_message_header v SPDM_NEGOTIATE_ALGORITHMS p p2) →
  answers size s request response s' →
  ∃ s0 l, setup s0 = (setup s) <| su_last := l |> ∧ algorithms_answered s0 v p request response s'.
Proof.
  intros Hu Hn Hp Hh (s0 & r & Ep & Ed & El & ->).
  apply put_last_request_inv in Ep as (l & Es & Hl & El1 & El2). exists s0, l. split; [done|].
  rewrite <- El1, <- El2 in Hl.
  assert (Hc : load_le 1 (last_spdm_request (exchange s0)) 1 = Ret SPDM_NEGOTIATE_ALGORITHMS).
  { apply (load_byte _ _ _ 1 _ Hl). apply read_header_inv in Hh as (tl & ->). done. }
  assert (Hu0 : unnegotiated s0) by (revert Hu; unfold unnegotiated, message_a_wf; by rewrite Es).
  destruct (dispatch_inv _ _ _ _ _ _ _ SPDM_ALGORITHMS Hl Hc eq_refl Ed El) as [[-> R]|Eh]; [done|by left|].
  eapply algorithms_handler_inv; try done.
  change (response_state (exchange s0)) with (su_response_state (setup s0)). by rewrite Es.
Qed.

End responder.

(** *** The requester *)
Section requester.
Context `{BuildConfig, CryptoHal} {services : ResponderServices}.
Implicit Types ctx q s : libspdm_context_t.

Lemma offer_other_params_inv q q1 other : offer_other_params q = Some (q1, other) →
  let v := libspdm_get_connection_version q in
  (v < SPDM_MESSAGE_VERSION_13 → su_multi_key_rsp (setup q) = false) →
  setup q1 = (setup q) <| su_multi_key_rsp := multi_key_bit v other |>.
Proof.
  intros E v Hn. unfold offer_other_params in E. fold v in E. unfold multi_key_bit.
  destruct (SPDM_MESSAGE_VERSION_13 <=? v) eqn:E13.
  - destruct (if _ =? 0 then _ else _) as [b|]; [|done].
    assert (E' : (q1, other) = (set_exchange q (λ x, x <| multi_key_conn_rsp := b |>),
      if b then Z.lor (da_other_params_support (lc_algorithm q)) SPDM_ALGORITHMS_MULTI_KEY_CONN
      else Z.ldiff (da_other_params_support (lc_algorithm q)) SPDM_ALGORITHMS_MULTI_KEY_CONN)) by congruence.
    pose proof (f_equal fst E') as E1. pose proof (f_equal snd E') as E2. cbn [fst snd] in E1, E2.
    rewrite E1, E2, andb_true_l, multi_key_small. done.
  - assert (q1 = q) as -> by congruence. rewrite andb_false_l. specialize (Hn ltac:(lia)).
    rewrite <- Hn. done.
Qed.

Lemma build_negotiate_inv q q1 x : build_negotiate_algorithms q = Ret (q1, x) →
  let v := libspdm_get_connection_version q in
  (v < SPDM_MESSAGE_VERSION_13 → su_multi_key_rsp (setup q) = false) →
  x = inr LIBSPDM_STATUS_INVALID_MSG_FIELD ∨
  ∃ other, x = inl (algorithms_request_bytes q1 other) ∧
    setup q1 = (setup q) <| su_multi_key_rsp := multi_key_bit v other |>.
Proof.
  intros E v Hn. unfold build_negotiate_algorithms in E. exec_inv E. exec_inv E.
  destruct (offer_other_params q) as [[q2 other]|] eqn:Eo; exec_inv E; [right|by left; injection E].
  assert (q1 = q2) as -> by congruence. exists other. split; [congruence|by apply offer_other_params_inv].
Qed.

(** The request. *)
Lemma length_request_tables q : blen (request_tables q) <= 6.
Proof.
  unfold request_tables, local_tables. destruct (_ <=? _); [|cbn; lia].
  repeat (rewrite length_app || case_if); cbn [length]; lia.
Qed.

Lemma algorithms_request_header q other : read_header (algorithms_request_bytes q other) =
  Ret (Build_message_header (libspdm_get_connection_version q) SPDM_NEGOTIATE_ALGORITHMS
         (blen (request_tables q)) 0).
Proof.
  apply (read_header_app (Build_message_header (libspdm_get_connection_version q) SPDM_NEGOTIATE_ALGORITHMS
         (blen (request_tables q)) 0)).
Qed.

Lemma length_algorithms_request q other : blen (algorithms_request_bytes q other) = algorithms_request_size q.
Proof.
  unfold algorithms_request_bytes, algorithms_request_size.
  rewrite !length_app, !Nat2Z.inj_add, length_tables_bytes, !length_le_bytes, length_zeros.
  unfold sizeof_spdm_negotiate_algorithms_request, sizeof_spdm_negotiate_algorithms_common_struct_table.
  cbn [length]. lia.
Qed.

Lemma algorithms_request_length q other :
  message_length (algorithms_request_bytes q other) = Ret (algorithms_request_size q).
Proof.
  etrans; [apply (field_at 2 _ [libspdm_get_connection_version q; SPDM_NEGOTIATE_ALGORITHMS;
    blen (request_tables q); 0] (algorithms_request_size q) _ eq_refl)|].
  change (2 ^ (8 * Z.of_nat 2)) with (2 ^ 16). rewrite Z.mod_small; [done|].
  pose proof (length_request_tables q). unfold algorithms_request_size,
    sizeof_spdm_negotiate_algorithms_request, sizeof_spdm_negotiate_algorithms_common_struct_table. lia.
Qed.

Lemma algorithms_request_other q other : message_other_params (algorithms_request_bytes q other) = Ret other.
Proof. apply (byte_at (algorithms_request_bytes q other) 7). reflexivity. Qed.

(** *** The response *)

(** The algorithms of the connection after the tables. *)
Lemma kept_negotiated q v sel : ci_algorithm q = zero_algorithm →
  (if SPDM_MESSAGE_VERSION_11 <=? v
   then set_algorithms (ci_algorithm (keep_algorithms q v sel)) (struct_table sel)
   else clear_table_algorithms (ci_algorithm (keep_algorithms q v sel))) = negotiated v sel.
Proof. intros Hz. unfold keep_algorithms, keep_selection, negotiated. cbn [ci_algorithm]. by rewrite Hz. Qed.

Lemma keep_multi_key_conn_req_inv q q' : keep_multi_key_conn_req q = (LIBSPDM_STATUS_SUCCESS, q') →
  setup q' = (setup q) <| su_multi_key_req :=
    negb (Z.land (da_other_params_support (ci_algorithm q)) SPDM_ALGORITHMS_MULTI_KEY_CONN =? 0) |>.
Proof.
  unfold keep_multi_key_conn_req. intros E. destruct (_ =? 0); destruct (_ =? _) in E; try discriminate E;
    exact (eq_sym (f_equal (λ x, setup (snd x)) E)).
Qed.

Lemma negotiated_other v sel : SPDM_MESSAGE_VERSION_13 <= v →
  da_other_params_support (negotiated v sel) = other_params_selection sel.
Proof.
  intros Hv. unfold negotiated. rewrite set_algorithms_fields.
  unfold SPDM_MESSAGE_VERSION_11, SPDM_MESSAGE_VERSION_13 in *.
  replace (0x11 <=? v) with true by lia. replace (0x13 <=? v) with true by lia. done.
Qed.

Lemma keep_table_algorithms_inv q v mel sel q' : keep_table_algorithms (keep_algorithms q v sel) v mel sel =
    (LIBSPDM_STATUS_SUCCESS, q') →
  ci_algorithm q = zero_algorithm → (v < SPDM_MESSAGE_VERSION_13 → multi_key_conn_req (exchange q) = false) →
  setup q' = (setup q) <| su_ci_algorithm := negotiated v sel |>
    <| su_multi_key_req := multi_key_bit v (other_params_selection sel) |>.
Proof.
  intros E Hz Hreq. pose proof (kept_negotiated q v sel Hz) as En. unfold keep_table_algorithms in E.
  unfold multi_key_bit. destruct (SPDM_MESSAGE_VERSION_11 <=? v) eqn:E11.
  - rewrite En in E. destruct (is_error _) eqn:Ee in E.
    { assert (Hc : check_table_algorithms ((keep_algorithms q v sel) <| ci_algorithm := negotiated v sel |>) v mel =
        LIBSPDM_STATUS_SUCCESS) by congruence. by rewrite Hc in Ee. }
    destruct (SPDM_MESSAGE_VERSION_13 <=? v) eqn:E13.
    + apply keep_multi_key_conn_req_inv in E as ->.
      change (ci_algorithm (_ <| ci_algorithm := negotiated v sel |>)) with (negotiated v sel).
      rewrite negotiated_other, andb_true_l by lia. done.
    + assert (q' = (keep_algorithms q v sel) <| ci_algorithm := negotiated v sel |>) as -> by congruence.
      rewrite andb_false_l, <- Hreq by lia. done.
  - rewrite En in E. assert (q' = (keep_algorithms q v sel) <| ci_algorithm := negotiated v sel |>) as -> by congruence.
    assert ((SPDM_MESSAGE_VERSION_13 <=? v) = false) as E13 by (unfold SPDM_MESSAGE_VERSION_11, SPDM_MESSAGE_VERSION_13 in *; lia).
    rewrite E13, andb_false_l, <- Hreq by lia. done.
Qed.

Lemma read_tables_fails v f m size off pre n st : read_tables v f m size off pre n = Ret (inr st) →
  st = LIBSPDM_STATUS_INVALID_MSG_SIZE ∨ st = LIBSPDM_STATUS_INVALID_MSG_FIELD.
Proof.
  revert off pre. induction n as [|n IH]; intros off pre E; cbn [read_tables] in E; [done|].
  exec_inv E. destruct x as [x|st'].
  - exec_inv E. destruct x0 as [[l e]|st']; [done|]. injection E as <-. by eapply IH.
  - injection E as <-. clear IH. unfold read_table in Hx.
    repeat match type of Hx with
           | (if ?b then _ else _) = _ => destruct b; [injection Hx as <-; auto|]
           | (_ ≫= _) = _ => exec_inv Hx
           end. done.
Qed.

Lemma check_algorithms_response_fails v p m st : check_algorithms_response v p m = Ret (inr st) →
  st = LIBSPDM_STATUS_INVALID_MSG_SIZE ∨ st = LIBSPDM_STATUS_INVALID_MSG_FIELD.
Proof.
  intros E. unfold check_algorithms_response in E.
  destruct (_ <? _) in E; [injection E as <-; auto|]. exec_inv E.
  destruct (negb _) in E; [injection E as <-; auto|]. exec_inv E. exec_inv E.
  destruct (0 <? _) in E; [injection E as <-; auto|]. destruct (0 <? _) in E; [injection E as <-; auto|].
  destruct (_ <? _) in E; [injection E as <-; auto|]. exec_inv E. destruct x2 as [[ts e]|st'].
  - exec_inv E. destruct (negb _) in E; [injection E as <-; auto|done].
  - injection E as <-. destruct (_ <=? _) in Hx2; [|done]. by eapply read_tables_fails.
Qed.

Lemma check_algorithms_settled q v spec : check_algorithms q v spec = LIBSPDM_STATUS_SUCCESS ∨
  check_algorithms q v spec = LIBSPDM_STATUS_INVALID_MSG_FIELD ∨
  check_algorithms q v spec = LIBSPDM_STATUS_NEGOTIATION_FAIL.
Proof. unfold check_algorithms. repeat case_match; auto. Qed.

Lemma check_table_algorithms_settled q v mel : check_table_algorithms q v mel = LIBSPDM_STATUS_SUCCESS ∨
  check_table_algorithms q v mel = LIBSPDM_STATUS_INVALID_MSG_FIELD ∨
  check_table_algorithms q v mel = LIBSPDM_STATUS_NEGOTIATION_FAIL.
Proof. unfold check_table_algorithms. repeat case_match; auto. Qed.

Lemma keep_table_algorithms_settled q v mel sel :
  (keep_table_algorithms q v mel sel).1 = LIBSPDM_STATUS_SUCCESS ∨
  (keep_table_algorithms q v mel sel).1 = LIBSPDM_STATUS_INVALID_MSG_FIELD ∨
  (keep_table_algorithms q v mel sel).1 = LIBSPDM_STATUS_NEGOTIATION_FAIL.
Proof.
  unfold keep_table_algorithms. destruct (_ <=? v); [|by left].
  destruct (is_error _); [apply check_table_algorithms_settled|]. destruct (_ <=? v); [|by left].
  unfold keep_multi_key_conn_req. destruct (_ =? 0), (_ =? _); auto.
Qed.

(** Processing a response either fails or succeeds. *)
Lemma process_algorithms_inv q v p request response st q' out :
  message_a_wf q → ci_algorithm q = zero_algorithm →
  (v < SPDM_MESSAGE_VERSION_13 → multi_key_conn_req (exchange q) = false) →
  load (last_spdm_request (exchange q)) 0 (algorithms_request_size q) = Ret request →
  read_header request = Ret (Build_message_header v SPDM_NEGOTIATE_ALGORITHMS p 0) →
  process_algorithms q response = Ret (st, q', out) →
  (st = LIBSPDM_STATUS_BUSY_PEER → response !! 1%nat = Some SPDM_ERROR ∧
     response !! 2%nat = Some SPDM_ERROR_CODE_BUSY ∧ q' = q) ∧
  (st = LIBSPDM_STATUS_SUCCESS → response !! 1%nat = Some SPDM_ALGORITHMS ∧
     ∃ h sel size m c, read_header response = Ret h ∧
       check_algorithms_response v (param1 h) response = Ret (inl (sel, size)) ∧
       load response 0 size = Ret m ∧ appended q (request ++ m) c ∧
       setup q' = (setup c) <| su_ci_algorithm := negotiated v sel |>
         <| su_multi_key_req := multi_key_bit v (other_params_selection sel) |>
         <| su_state := LIBSPDM_CONNECTION_STATE_NEGOTIATED |>).
Proof.
  intros Hw Hz Hreq Hl Hh E. unfold process_algorithms in E.
  destruct (_ <? _) in E; [by injection E as <- <- <-|]. exec_inv E. pose proof Hx as Hhd.
  apply read_header_inv in Hx as (tl & ->).
  exec_inv E. destruct x0 as (st1, q1).
  apply check_response_code_inv in Hx as [(-> & -> & Hc)|(He & _ & Hb)].
  2: { rewrite He in E. injection E as <- <- <-. split; [|by intros ->].
       intros (A & B & ->)%Hb. cbn. by rewrite A, B. }
  change (is_error LIBSPDM_STATUS_SUCCESS) with false in E. cbv iota in E.
  exec_inv E. rewrite (read_header_load _ _ _ _ Hl Hh) in Hx. injection Hx as <-.
  cbn [spdm_version] in E.
  destruct (spdm_version x =? v) eqn:Ev; cbn [negb] in E; [|by injection E as <- <- <-].
  apply Z.eqb_eq in Ev. rewrite Ev in E. exec_inv E. destruct x0 as [[sel size]|st1].
  2: { injection E as <- <- <-. by apply check_algorithms_response_fails in Hx as [->| ->]. }
  exec_inv E. rewrite Hl in Hx0. injection Hx0 as <-. exec_inv E. exec_inv E. destruct x1 as [st1 c].
  apply append_exchange_inv in Hx1 as [[-> Ha]| ->]; [|by injection E as <- <- <-|done].
  change (is_error LIBSPDM_STATUS_SUCCESS) with false in E. cbv iota in E. exec_inv E.
  destruct (is_error (check_algorithms _ _ _)) eqn:Ee in E.
  { assert (st = check_algorithms (keep_algorithms c v sel) v x1) as -> by congruence.
    split; [intros Hb; by destruct (check_algorithms_settled (keep_algorithms c v sel) v x1) as [?|[?|?]]; congruence|].
    intros Hs. by rewrite Hs in Ee. }
  clear Ee. exec_inv E. destruct (keep_table_algorithms _ _ _ _) as [st2 c2] eqn:Ek in E.
  destruct (is_error st2) eqn:Ee.
  { injection E as <- <- <-. split; [|by intros ->]. intros ->.
    by destruct (keep_table_algorithms_settled (keep_algorithms c v sel) v x2 sel) as [?|[?|?]]; rewrite Ek in *. }
  assert (st2 = LIBSPDM_STATUS_SUCCESS) as ->.
  { destruct (keep_table_algorithms_settled (keep_algorithms c v sel) v x2 sel) as [Hs|[Hs|Hs]];
      rewrite Ek in Hs; cbn [fst] in Hs; by subst st2. }
  apply keep_table_algorithms_inv in Ek.
  2: { rewrite <- Hz. destruct Ha as (a & Ea & _). exact (f_equal su_ci_algorithm Ea). }
  2: { intros Hv. rewrite <- Hreq by done. destruct Ha as (a & Ea & _). exact (f_equal su_multi_key_req Ea). }
  injection E as <- <- <-. split; [done|]. intros _. split; [by rewrite <- Hc|].
  exists x, sel, size, x0, c. split; [done|split; [by rewrite Hx|split; [done|split; [done|]]]].
  exact (f_equal (λ t, t <| su_state := LIBSPDM_CONNECTION_STATE_NEGOTIATED |>) Ek).
Qed.

(** *** The exchange *)

(** The endpoints before it: they know each other, and nothing is selected; an
    attempt may have decided how many keys the responder uses. *)
Definition prepared q s : Prop :=
  let v := libspdm_get_connection_version q in
  message_a_wf q ∧ ci_algorithm q = zero_algorithm ∧ su_multi_key_req (setup q) = false ∧
  (v < SPDM_MESSAGE_VERSION_13 → su_multi_key_rsp (setup q) = false) ∧
  unnegotiated s ∧ message_a q = message_a s ∧
  response_state (exchange s) = LIBSPDM_RESPONSE_STATE_NORMAL ∧
  libspdm_get_connection_version s = v ∧
  knows v true (ci_capability s) (lc_capability q) ∧ knows v false (ci_capability q) (lc_capability s).

(** The endpoints after it. *)
Definition agreed q s : Prop :=
  let v := libspdm_get_connection_version q in
  connection_state (exchange q) = LIBSPDM_CONNECTION_STATE_NEGOTIATED ∧
  connection_state (exchange s) = LIBSPDM_CONNECTION_STATE_NEGOTIATED ∧
  libspdm_get_connection_version s = v ∧
  knows v true (ci_capability s) (lc_capability q) ∧ knows v false (ci_capability q) (lc_capability s) ∧
  (∃ x, ci_algorithm s = (ci_algorithm q) <| da_other_params_support := x |> ∧
     Z.land x SPDM_ALGORITHMS_OPAQUE_DATA_FORMAT_MASK =
     Z.land (da_other_params_support (ci_algorithm q)) SPDM_ALGORITHMS_OPAQUE_DATA_FORMAT_MASK) ∧
  multi_key_conn_req (exchange q) = multi_key_conn_req (exchange s) ∧
  multi_key_conn_rsp (exchange q) = multi_key_conn_rsp (exchange s) ∧
  message_a q = message_a s.

Lemma capable_prepared q s : capable q s → prepared q s.
Proof. intros (((? & ? & ? & ?) & ? & ? & ?) & ? & ? & ?). by repeat (split; [done|]). Qed.

Lemma prepared_setup q s q' s' :
  (∃ l b, setup q' = (setup q) <| su_last := l |> <| su_multi_key_rsp := b |> ∧
     (libspdm_get_connection_version q < SPDM_MESSAGE_VERSION_13 → b = false)) →
  (∃ l, setup s' = (setup s) <| su_last := l |>) → prepared q s → prepared q' s'.
Proof.
  intros (l & b & Eq & Hb) (l' & Es) (W & Z1 & M1 & M2 & U & Ma & N & V & K1 & K2). unfold prepared.
  assert (Ev : libspdm_get_connection_version q' = libspdm_get_connection_version q)
    by (rewrite !version_setup, Eq; done).
  assert (Ev' : libspdm_get_connection_version s' = libspdm_get_connection_version s)
    by (rewrite !version_setup, Es; done).
  pose proof (f_equal su_ci_capability Eq : ci_capability q' = ci_capability q) as Ec1.
  pose proof (f_equal su_ci_capability Es : ci_capability s' = ci_capability s) as Ec2.
  pose proof (f_equal su_capability Eq : lc_capability q' = lc_capability q) as Ec3.
  pose proof (f_equal su_capability Es : lc_capability s' = lc_capability s) as Ec4.
  rewrite Ev, Ev', Ec1, Ec2, Ec3, Ec4. unfold unnegotiated, message_a, message_a_wf in *.
  change (response_state (exchange s')) with (su_response_state (setup s')).
  change (ci_algorithm q') with (su_ci_algorithm (setup q')). rewrite Eq, Es. by repeat (split; [done|]).
Qed.

Variable size : Z.
#[local] Existing Instance setup_link.

(** Both endpoints keep what the response selects. *)
Lemma negotiation_agreed q q1 q2 s s0 l l' other response q' s' :
  let v := libspdm_get_connection_version q in
  let request := algorithms_request_bytes q1 other in
  prepared q s → setup q2 = (setup q) <| su_multi_key_rsp := multi_key_bit v other |> <| su_last := l |> →
  setup s0 = (setup s) <| su_last := l' |> →
  algorithms_answered s0 v (blen (request_tables q1)) request response s' →
  response !! 1%nat = Some SPDM_ALGORITHMS →
  (∃ h sel size m c, read_header response = Ret h ∧
       check_algorithms_response v (param1 h) response = Ret (inl (sel, size)) ∧
       load response 0 size = Ret m ∧ appended q2 (request ++ m) c ∧
       setup q' = (setup c) <| su_ci_algorithm := negotiated v sel |>
         <| su_multi_key_req := multi_key_bit v (other_params_selection sel) |>
         <| su_state := LIBSPDM_CONNECTION_STATE_NEGOTIATED |>) →
  agreed q' s'.
Proof.
  intros v request (W & Z1 & M1 & M2 & U & Ma & N & V & K1 & K2) Eq2 Es0 Ha Hcode Hq.
  destruct Ha as [[R1 _]|(e & message & sel & p & other' & x & m & He & Hm & -> & Hok & Hp & Hpn & H11 &
    Hother & Wm & Cm & Hx & Es)].
  { done. }
  destruct Hq as (h & sel' & size' & m' & c & Hh & Hc & Hm' & Ha & Eq).
  assert (param1 h = p) as Hph.
  { pose proof (read_header_app (Build_message_header v SPDM_ALGORITHMS p 0)
      (drop 4 (algorithms_bytes v p (36 + p * 4) sel))) as Hh'.
    change (header_bytes _ ++ _) with (algorithms_bytes v p (36 + p * 4) sel) in Hh'.
    assert (h = Build_message_header v SPDM_ALGORITHMS p 0) as -> by congruence. done. }
  rewrite Hph in Hc. apply check_response_selection in Hc as [-> ->]; [|done..].
  pose proof (length_request_tables q1) as Hn.
  rewrite u16_small in Hm' by (unfold is_u16; lia).
  assert (m' = algorithms_bytes v p (36 + p * 4) sel) as ->.
  { revert Hm'. replace (36 + p * 4) with (blen (algorithms_bytes v p (36 + p * 4) sel)) at 2
      by (rewrite length_algorithms_bytes; lia). rewrite load_all. by intros [= ->]. }
  assert (message = request) as ->.
  { subst request. rewrite algorithms_request_length in He. injection He as <-.
    rewrite <- (length_algorithms_request q1 other), load_all in Hm. by injection Hm. }
  subst request. rewrite algorithms_request_other in Hother. injection Hother as <-.
  destruct Ha as (a & Ea & Wa & Ca). rewrite Ea, Eq2 in Eq. rewrite Es0 in Es.
  unfold message_a in Ca, Cm. rewrite Eq2 in Ca. rewrite Es0 in Cm.
  unfold agreed. assert (Hv : libspdm_get_connection_version q' = v) by (rewrite version_setup, Eq; done).
  assert (Hl : lc_capability q' = lc_capability q) by exact (f_equal su_capability Eq).
  assert (Hl' : lc_capability s' = lc_capability s) by exact (f_equal su_capability Es).
  assert (Hc : ci_capability q' = ci_capability q) by exact (f_equal su_ci_capability Eq).
  assert (Hc' : ci_capability s' = ci_capability s) by exact (f_equal su_ci_capability Es).
  assert (Halg : ci_algorithm q' = negotiated v sel) by exact (f_equal su_ci_algorithm Eq).
  rewrite Hv, Hl, Hl', Hc, Hc', Halg.
  split; [exact (f_equal su_state Eq)|split; [exact (f_equal su_state Es)|]].
  split; [rewrite version_setup, Es; exact V|split; [done|split; [done|]]].
  split; [exists x; split; [exact (f_equal su_ci_algorithm Es)|done]|].
  split; [exact (eq_trans (f_equal su_multi_key_req Eq) (eq_sym (f_equal su_multi_key_req Es)))|].
  split; [exact (eq_trans (f_equal su_multi_key_rsp Eq) (eq_sym (f_equal su_multi_key_rsp Es)))|].
  unfold message_a. rewrite Eq, Es. change (ManagedBuffer.contents a = ManagedBuffer.contents m).
  rewrite Ca, Cm. change (message_a q ++ algorithms_request_bytes q1 other ++ algorithms_bytes v p (36 + p * 4) sel =
    message_a s ++ algorithms_request_bytes q1 other ++ algorithms_bytes v p (36 + p * 4) sel). by rewrite Ma.
Qed.

Lemma try_algorithms_link q rng d r out' :
  prepared q (lk_responder d) →
  libspdm_try_negotiate_algorithms (channel := setup_link size) tt q (rng, d) = Ret (r, out') →
  let s' := lk_responder (ex_world r).2 in
  (ex_status r = LIBSPDM_STATUS_BUSY_PEER → prepared (ex_ctx r) s') ∧
  (ex_status r = LIBSPDM_STATUS_SUCCESS → agreed (ex_ctx r) s').
Proof.
  intros Hi E s'. subst s'. unfold libspdm_try_negotiate_algorithms in E.
  destruct (bool_decide _); [by injection E as <- _|]. destruct r as [st q' w'].
  match type of E with context [exchange_message _ _ _ ?c] => set (q0 := c) in E end.
  assert (Eq0 : setup q0 = setup q) by apply setup_via_request_code. clearbody q0.
  assert (Hi0 : prepared q0 (lk_responder d)).
  { eapply prepared_setup; [| |exact Hi]; [|by exists (su_last (setup (lk_responder d)))].
    exists (su_last (setup q)), (su_multi_key_rsp (setup q)). split; [exact Eq0|apply Hi]. }
  clear q Eq0 Hi. rename q0 into q. cbn [ex_status ex_ctx ex_world].
  set (v := libspdm_get_connection_version q).
  apply link_exchange in E as [E|(q1 & request & q2 & response & s' & Eb & Ep & Ea & Er & ->)].
  { apply build_negotiate_inv in E as [[= ->]|(? & ? & _)]; done || apply Hi0. }
  apply build_negotiate_inv in Eb as [?|(other & [= ->] & Eq1)]; [done|..|apply Hi0]. cbn [snd lk_responder].
  apply put_last_request_inv in Ep as (l & Eq2 & Hload & Hlast & _).
  rewrite length_algorithms_request, <- Hlast in Hload.
  assert (Hv1 : libspdm_get_connection_version q1 = v) by (rewrite version_setup, Eq1; done).
  assert (Hsize : algorithms_request_size q1 = algorithms_request_size q2).
  { unfold algorithms_request_size, request_tables. rewrite !version_setup, Eq2.
    by rewrite (f_equal su_algorithm Eq2 : lc_algorithm q2 = lc_algorithm q1). }
  rewrite Eq1 in Eq2. pose proof (algorithms_request_header q1 other) as Hh. rewrite Hv1 in Hh.
  eapply algorithms_answer in Ea as (s0 & l' & Es0 & Ha); [|apply Hi0|apply Hi0| |exact Hh]; [|lia].
  rewrite Hsize in Hload.
  assert (W2 : message_a_wf q2) by (unfold message_a_wf; rewrite Eq2; apply Hi0).
  assert (Z2 : ci_algorithm q2 = zero_algorithm).
  { transitivity (su_ci_algorithm (setup q2)); [done|]. rewrite Eq2. apply Hi0. }
  assert (M2 : v < SPDM_MESSAGE_VERSION_13 → multi_key_conn_req (exchange q2) = false).
  { intros _. change (multi_key_conn_req (exchange q2)) with (su_multi_key_req (setup q2)).
    rewrite Eq2. apply Hi0. }
  destruct (process_algorithms_inv _ _ _ _ _ _ _ _ W2 Z2 M2 Hload Hh Er) as [Hb Hs].
  destruct Ha as [[R1 R2]|Ha]; split.
  - intros (A & B & ->)%Hb. eapply prepared_setup; [| |exact Hi0].
    + exists l, (multi_key_bit v other). split; [done|]. unfold multi_key_bit. fold v.
      intros Hv. by replace (SPDM_MESSAGE_VERSION_13 <=? v) with false by lia.
    + exists l'. by rewrite (R2 A B), Es0.
  - by intros (A & _)%Hs.
  - destruct Ha as (e & message & sel & p & other' & x & m & _ & _ & -> & _). by intros (A & _)%Hb.
  - intros (Hcode & Hq)%Hs.
    eapply negotiation_agreed; [exact Hi0|exact Eq2|exact Es0|right; exact Ha|exact Hcode|exact Hq].
Qed.

(** *** No step ends with a warning *)

Definition settled (st : libspdm_return_t) : Prop := is_error st = true ∨ st = LIBSPDM_STATUS_SUCCESS.

Ltac settle E :=
  cbv zeta in E;
  lazymatch type of E with
  | (if ?b then _ else _) = Ret _ => let Eb := fresh "Eb" in destruct b eqn:Eb; settle E
  | (_ ≫= _) = Ret _ => exec_inv E; settle E
  | match ?x with _ => _ end = Ret _ => let Ex := fresh "Ex" in destruct x eqn:Ex; settle E
  | Ret (?a, _, _) = Ret (?st, _, _) =>
      let Es := fresh "Es" in assert (Es : a = st) by congruence; rewrite <- Es;
      first [by right | left; assumption | left; reflexivity | left]
  | _ => idtac
  end.

Lemma keep_version_settled out q versions st q' out' :
  keep_version out q versions = Ret (st, q', out') → settled st.
Proof. intros E. unfold keep_version in E. settle E. Qed.

Lemma process_version_settled out q response st q' out' :
  process_version out q response = Ret (st, q', out') → settled st.
Proof. intros E. unfold process_version in E. settle E. by apply keep_version_settled in E. Qed.

Lemma check_algorithms_block_fails m st : check_algorithms_block m = Ret (inr st) → is_error st = true.
Proof.
  intros E. unfold check_algorithms_block in E.
  repeat match type of E with
         | (if ?b then _ else _) = _ => destruct b; [by injection E as <-|]
         | (_ ≫= _) = _ => exec_inv E
         end. done.
Qed.

Lemma process_capabilities_settled out q response st q' out' :
  process_capabilities out q response = Ret (st, q', out') → settled st.
Proof.
  intros E. unfold process_capabilities in E. settle E.
  match goal with Hb : (if ?b then check_algorithms_block _ else _) = _ |- _ => destruct b; [|done] end.
  by eapply check_algorithms_block_fails.
Qed.

Lemma process_algorithms_settled q response st q' out' :
  process_algorithms q response = Ret (st, q', out') → settled st.
Proof.
  intros E. unfold process_algorithms in E. settle E.
  match goal with Hc : check_algorithms_response _ _ _ = _ |- _ =>
    by apply check_algorithms_response_fails in Hc as [->| ->] end.
Qed.

Lemma exchange_settled {A} (build : build_request) (process : process_response A) out q w r out' :
  (∀ q q' st, build q = Ret (q', inr st) → settled st) →
  (∀ q response st q' out', process q response = Ret (st, q', out') → settled st) →
  exchange_message (channel := setup_link size) build process out q w = Ret (r, out') → settled (ex_status r).
Proof.
  intros Hb Hp E. destruct r as [st q' w'], w as [rng d].
  apply link_exchange in E as [E|(? & ? & ? & ? & ? & _ & _ & _ & E & _)]; [by apply Hb in E|by apply Hp in E].
Qed.

Lemma retry_settled {A} (try : A → libspdm_context_t → world (channel := setup_link size) → exec (exchanged (channel := setup_link size) * A)) out q n w r out' :
  (∀ out q w r out', try out q w = Ret (r, out') → settled (ex_status r)) →
  retry_exchange try out q n w = Ret (r, out') → settled (ex_status r).
Proof.
  intros Ht. revert out q w. induction n as [|n IH]; intros out q w E; cbn [retry_exchange] in E;
    exec_inv E; destruct x as (r1, out1).
  - destruct (bool_decide _); injection E as <- <-; by eapply Ht.
  - destruct (bool_decide _); [injection E as <- <-; by eapply Ht|by eapply IH].
Qed.

Lemma get_version_settled out q w r out' :
  libspdm_get_version (channel := setup_link size) out q w = Ret (r, out') → settled (ex_status r).
Proof.
  apply retry_settled. clear. intros out q w r out' E. unfold libspdm_try_get_version in E. exec_inv E.
  revert E. apply exchange_settled; [|intros *; apply process_version_settled].
  intros q1 q' st E. unfold build_get_version in E. by exec_inv E.
Qed.

Lemma get_capabilities_settled q w r :
  libspdm_get_capabilities (channel := setup_link size) q w = Ret r → settled (ex_status r).
Proof.
  intros E. unfold libspdm_get_capabilities in E. exec_inv E. destruct x as [r' out']. injection E as ->.
  revert Hx. apply retry_settled. clear. intros out q w r out' E. unfold libspdm_try_get_capabilities in E.
  destruct (bool_decide _); [injection E as <- _; by left|]. revert E.
  apply exchange_settled; [|intros *; apply process_capabilities_settled].
  intros q1 q' st E. unfold build_get_capabilities in E. exec_inv E. exec_inv E. exec_inv E. by exec_inv E.
Qed.

Lemma negotiate_algorithms_link q rng d r :
  prepared q (lk_responder d) → libspdm_negotiate_algorithms (channel := setup_link size) q (rng, d) = Ret r →
  settled (ex_status r) ∧
  (ex_status r = LIBSPDM_STATUS_SUCCESS → agreed (ex_ctx r) (lk_responder (ex_world r).2)).
Proof.
  intros Hi E. unfold libspdm_negotiate_algorithms in E. exec_inv E. destruct x as [r' out']. injection E as ->.
  unfold with_retries in Hx. split.
  - revert Hx. apply retry_settled. clear. intros out q w r out' E. unfold libspdm_try_negotiate_algorithms in E.
    destruct (bool_decide _); [injection E as <- _; by left|]. revert E.
    apply exchange_settled; [|intros *; apply process_algorithms_settled].
    intros q1 q' st E. unfold build_negotiate_algorithms in E. exec_inv E. exec_inv E.
    destruct (offer_other_params q1) as [[q2 o]|]; exec_inv E; [done|]. injection E as _ <-. by left.
  - revert Hx. apply (retry_link size (λ _ q s, prepared q s) (λ r, agreed (ex_ctx r) (lk_responder (ex_world r).2)));
      [|done].
    clear. intros [] q [rng d] r out' Hi E. by eapply try_algorithms_link.
Qed.

End requester.
End NegotiationFacts.

(** ** The algorithms that are selected *)
Module SelectionProps.
Import ToyHal SessionTableProps SelectionFacts.

(** [sel] is the first algorithm of [priority] that [local] and [peer] have in
    common. *)
Definition chosen (priority : list Z) (local peer sel : Z) : Prop :=
  ∃ earlier later, priority = earlier ++ sel :: later ∧ Z.land (Z.land local peer) sel ≠ 0 ∧
    Forall (λ p, Z.land (Z.land local peer) p = 0) earlier.

Definition chosen_or_none (priority : list Z) (local peer sel : Z) : Prop :=
  sel = 0 ∨ chosen priority local peer sel.

Lemma first_common_chosen l c : first_common l c = 0 ∧ Forall (λ p, Z.land c p = 0) l ∨
  ∃ earlier later, l = earlier ++ first_common l c :: later ∧ Z.land c (first_common l c) ≠ 0 ∧
    Forall (λ p, Z.land c p = 0) earlier.
Proof.
  induction l as [|p l IH]; cbn [first_common]; [by left|].
  destruct (Z.eqb_spec (Z.land c p) 0) as [E|E]; cbn [negb]; [|right; by exists [], l].
  destruct IH as [[IH1 IH2]|(a & b & E1 & E2 & E3)]; [left; split; [done|by constructor]|right].
  exists (p :: a), b. split; [cbn; congruence|split; [done|by constructor]].
Qed.

Lemma prioritize_chosen l a b : chosen_or_none l a b (libspdm_prioritize_algorithm l a b).
Proof. destruct (first_common_chosen l (Z.land a b)) as [[? _]|?]; [by left|by right]. Qed.

(** A table of the response, which answers one of the request. *)
Definition table_chosen (l : libspdm_device_algorithm_t) (t t' : struct_table_t) : Prop :=
  alg_type t' = alg_type t ∧
  chosen_or_none (table_priority (alg_type t)) (table_algorithm l (alg_type t)) (alg_supported t) (alg_supported t').

Lemma clear_tables_chosen l ts ts' type :
  Forall2 (table_chosen l) ts ts' → Forall2 (table_chosen l) ts (clear_tables type ts').
Proof.
  intros H. induction H as [|t t' ts ts' [Ht Hc] _ IH]; [constructor|]. constructor; [|exact IH].
  destruct (_ =? _); [|done]. split; [done|by left].
Qed.

Lemma exclude_tables_chosen l ts a oa k ok ts' i n :
  Forall2 (table_chosen l) ts ts' → Forall2 (table_chosen l) ts (exclude_tables a oa k ok ts' i n).
Proof.
  revert ts' i. induction n as [|n IH]; intros ts' i H; [done|]. cbn [exclude_tables]. apply IH.
  destruct (table_selects ts' i a); [apply (clear_tables_chosen _ _ _ oa) in H|];
    destruct (table_selects _ i k); done || by apply clear_tables_chosen.
Qed.

(** *** One of two kinds of tables *)

(** No table of the kind [type] selects an algorithm. *)
Definition cleared (type : Z) (l : list struct_table_t) : Prop :=
  ∀ t, t ∈ l → alg_type t = type → alg_supported t = 0.

(** The entries before [i] of the kind [a] exclude the kind [o]. *)
Definition excluded (a o : Z) (l : list struct_table_t) (i : nat) : Prop :=
  ∀ j, (j < i)%nat → table_selects l j a = true → cleared o l.

Lemma clear_tables_cleared type type' l : type = type' ∨ cleared type' l → cleared type' (clear_tables type l).
Proof.
  intros Hc t Ht Hty. apply list_elem_of_fmap in Ht as (t' & -> & Ht').
  destruct (Z.eqb_spec (alg_type t') type) as [E|E]; [done|]. destruct Hc as [-> |Hc]; [done|by apply Hc].
Qed.

Lemma clear_tables_selects type l j a : a ≠ type → table_selects (clear_tables type l) j a = table_selects l j a.
Proof.
  intros Hne. unfold table_selects, clear_tables. rewrite list_lookup_fmap.
  destruct (l !! j) as [t|]; [|done]. cbn. destruct (Z.eqb_spec (alg_type t) type) as [E|E]; [|done].
  cbn. rewrite E. by replace (type =? a) with false by lia.
Qed.

Lemma clear_tables_excluded type a o l i : a ≠ type → excluded a o l i → excluded a o (clear_tables type l) i.
Proof.
  intros Hne He j Hj Hs. rewrite clear_tables_selects in Hs by done.
  apply clear_tables_cleared. right. by eapply He.
Qed.

(** One visit of the loop, for one of its two pairs of kinds. *)
Lemma visit_excluded a o l i : a ≠ o → excluded a o l i →
  excluded a o (if table_selects l i a then clear_tables o l else l) (S i).
Proof.
  intros Hne He j Hj Hs. destruct (table_selects l i a) eqn:E.
  - apply clear_tables_cleared. by left.
  - destruct (decide (j = i)) as [-> |]; [congruence|]. apply (He j); [lia|done].
Qed.

Lemma exclude_tables_excluded a oa k ok l i n : a ≠ oa → a ≠ ok → k ≠ ok → k ≠ oa →
  excluded a oa l i → excluded k ok l i →
  excluded a oa (exclude_tables a oa k ok l i n) (i + n) ∧ excluded k ok (exclude_tables a oa k ok l i n) (i + n).
Proof.
  intros N1 N2 N3 N4. revert l i. induction n as [|n IH]; intros l i Ea Ek; cbn [exclude_tables].
  { by rewrite Nat.add_0_r. }
  rewrite Nat.add_succ_r. apply (IH _ (S i)).
  - pose proof (visit_excluded _ _ _ _ N1 Ea) as V. set (l1 := if table_selects l i a then _ else l) in *.
    destruct (table_selects l1 i k); [by apply clear_tables_excluded|done].
  - apply visit_excluded; [done|]. destruct (table_selects l i a); [by apply clear_tables_excluded|done].
Qed.

(** At most one of the kinds [a] and [o] is selected. *)
Definition exclusive (a o : Z) (l : list struct_table_t) : Prop := cleared a l ∨ cleared o l.

Lemma excluded_exclusive a o l : excluded a o l (length l) → exclusive a o l.
Proof.
  intros He. destruct (decide (Exists (λ t, alg_type t = a ∧ alg_supported t ≠ 0) l)) as [Hx|Hx].
  - right. apply Exists_exists in Hx as (t & Ht & <- & Hs).
    apply list_elem_of_In, list_elem_of_lookup in Ht as [j Hj].
    apply (He j); [by eapply lookup_lt_Some|]. unfold table_selects. rewrite Hj. lia.
  - left. intros t Ht Hty. destruct (decide (alg_supported t = 0)) as [|Hs]; [done|]. destruct Hx.
    apply Exists_exists. exists t. split; [by apply list_elem_of_In|done].
Qed.

Lemma length_exclude_tables a oa k ok l i n : length (exclude_tables a oa k ok l i n) = length l.
Proof. by rewrite <- (length_fmap alg_type), (proj2 (exclude_tables_spec a oa k ok l i n)), length_fmap. Qed.

(** What excluding leaves of a selection. *)
Lemma exclude_algorithms_exclusive b sel :
  let sel' := exclude_algorithms b sel in
  (base_asym_sel sel' = 0 ∨ pqc_asym_sel sel' = 0) ∧
  exclusive SPDM_NEGOTIATE_ALGORITHMS_STRUCT_TABLE_ALG_TYPE_REQ_BASE_ASYM_ALG
    SPDM_NEGOTIATE_ALGORITHMS_STRUCT_TABLE_ALG_TYPE_REQ_PQC_ASYM_ALG (struct_table sel') ∧
  exclusive SPDM_NEGOTIATE_ALGORITHMS_STRUCT_TABLE_ALG_TYPE_DHE
    SPDM_NEGOTIATE_ALGORITHMS_STRUCT_TABLE_ALG_TYPE_KEM_ALG (struct_table sel').
Proof.
  assert (Hs : ∀ a o l, exclusive a o l → exclusive o a l) by (intros a o l [?|?]; [by right|by left]).
  assert (Hx : ∀ a oa k ok l, a ≠ oa → a ≠ ok → k ≠ ok → k ≠ oa →
    exclusive a oa (exclude_tables a oa k ok l 0 (length l)) ∧
    exclusive k ok (exclude_tables a oa k ok l 0 (length l))).
  { intros a oa k ok l N1 N2 N3 N4.
    destruct (exclude_tables_excluded a oa k ok l 0 (length l)) as [X1 X2]; try done; [intros j; lia..|].
    split; apply excluded_exclusive; by rewrite length_exclude_tables. }
  intros sel'. subst sel'. unfold exclude_algorithms. destruct b.
  - destruct (negb (pqc_asym_sel sel =? 0)) eqn:E; cbn -[exclude_tables];
      (split; [lia|split; [apply Hs|apply Hs]; by apply Hx]).
  - destruct (negb (base_asym_sel sel =? 0)) eqn:E; cbn -[exclude_tables]; (split; [lia|by apply Hx]).
Qed.

Lemma exclude_algorithms_chosen (P Q : Z → Prop) l ts b sel : P 0 → Q 0 →
  P (base_asym_sel sel) → Q (pqc_asym_sel sel) → Forall2 (table_chosen l) ts (struct_table sel) →
  let sel' := exclude_algorithms b sel in
  P (base_asym_sel sel') ∧ Q (pqc_asym_sel sel') ∧ base_hash_sel sel' = base_hash_sel sel ∧
  Forall2 (table_chosen l) ts (struct_table sel').
Proof.
  intros P0 Q0 HP HQ Ht sel'. subst sel'. unfold exclude_algorithms.
  destruct b; destruct (negb _); cbn -[exclude_tables];
    (split; [done|split; [done|split; [done|by apply exclude_tables_chosen]]]).
Qed.

Section select.
Context `{BuildConfig}.
Implicit Types ctx : libspdm_context_t.

Lemma select_tables_chosen ctx tables ctx' l : Forall table_known tables →
  select_tables ctx tables = Ret (true, ctx', l) →
  Forall2 (table_chosen (lc_algorithm ctx)) tables l ∧ lc_algorithm ctx' = lc_algorithm ctx.
Proof.
  intros Hk. revert ctx ctx' l. induction Hk as [|t tables Hk _ IH]; intros ctx ctx' l E; cbn [select_tables] in E.
  { injection E as <- <-. split; [constructor|done]. }
  exec_inv E. destruct x as [[c t']|]; [|done]. exec_inv E. destruct x as [[b c'] l'].
  injection E as -> <- <-. unfold select_table in Hx.
  destruct (proj2 (set_algorithm_Some (ci_algorithm ctx) t) Hk) as [a Ea]. rewrite Ea in Hx.
  destruct (_ =? 0) in Hx; [done|]. exec_inv Hx. injection Hx as <- <-.
  apply IH in Hx0 as [IH1 IH2]. split; [|done]. constructor; [|done]. split; [done|].
  cbn [alg_supported alg_type]. rewrite u16_small; [apply prioritize_chosen|].
  apply (prioritize_range is_u16). unfold table_priority. repeat case_match; ranges.
Qed.

Lemma select_multi_key_conn_selection ctx v sel ctx' sel' :
  (if SPDM_MESSAGE_VERSION_13 <=? v then select_multi_key_conn ctx sel else Some (ctx, sel)) = Some (ctx', sel') →
  ∃ other, sel' = sel <| other_params_selection := other |>.
Proof.
  intros E. destruct (SPDM_MESSAGE_VERSION_13 <=? v).
  - unfold select_multi_key_conn in E. destruct (if _ =? 0 then _ else _) as [b|]; [|done].
    injection E as _ <-. by eexists.
  - injection E as _ <-. exists (other_params_selection sel). by destruct sel.
Qed.

(** C28: what the responder selects is what it prefers of what both endpoints
    support: the signature, hash and post-quantum signature algorithms, and the
    algorithm of every table of the response, are each none or the first of the
    responder's priorities that its own context and the request have in common;
    the tables of the response answer those of the request one by one; and from
    version 1.4 on a traditional algorithm and its post-quantum counterpart are
    never selected together. *)
Theorem selected_algorithms_common ctx v request tables ctx' sel asym hash pqc :
  select_algorithms ctx v request tables = Ret (true, ctx', sel) → Forall table_known tables →
  request_base_asym_algo request = Ret asym → request_base_hash_algo request = Ret hash →
  request_pqc_asym_algo request = Ret pqc →
  let l := lc_algorithm ctx in
  chosen_or_none asym_priority_table (da_base_asym_algo l) asym (base_asym_sel sel) ∧
  chosen_or_none hash_priority_table (da_base_hash_algo l) hash (base_hash_sel sel) ∧
  (pqc_asym_sel sel = 0 ∨ SPDM_MESSAGE_VERSION_14 <= v ∧
     chosen pqc_asym_priority_table (da_pqc_asym_algo l) pqc (pqc_asym_sel sel)) ∧
  Forall2 (table_chosen l) tables (struct_table sel) ∧
  (SPDM_MESSAGE_VERSION_14 <= v → (base_asym_sel sel = 0 ∨ pqc_asym_sel sel = 0) ∧
     exclusive SPDM_NEGOTIATE_ALGORITHMS_STRUCT_TABLE_ALG_TYPE_REQ_BASE_ASYM_ALG
       SPDM_NEGOTIATE_ALGORITHMS_STRUCT_TABLE_ALG_TYPE_REQ_PQC_ASYM_ALG (struct_table sel) ∧
     exclusive SPDM_NEGOTIATE_ALGORITHMS_STRUCT_TABLE_ALG_TYPE_DHE
       SPDM_NEGOTIATE_ALGORITHMS_STRUCT_TABLE_ALG_TYPE_KEM_ALG (struct_table sel)).
Proof.
  intros E Hk Ha Hh Hp l. unfold select_algorithms in E.
  exec_inv E. unfold keep_offer in Hx. rewrite Ha, Hh, Hp in Hx. cbn [mbind exec_bind] in Hx.
  exec_inv Hx. assert (Ex : x = _) by (symmetry; injection Hx as Hx; exact Hx). clear Hx.
  assert (Hx : lc_algorithm x = l ∧ da_base_asym_algo (ci_algorithm x) = asym ∧
    da_base_hash_algo (ci_algorithm x) = hash ∧
    (SPDM_MESSAGE_VERSION_14 <= v → da_pqc_asym_algo (ci_algorithm x) = pqc)).
  { rewrite Ex. cbn. destruct (SPDM_MESSAGE_VERSION_14 <=? v) eqn:E14; cbn; repeat (split; [done|]); lia. }
  clear Ex. destruct Hx as (Hl & Hx1 & Hx2 & Hx3).
  exec_inv E. destruct x1 as [[b c2] selected]. destruct b; cbn [negb] in E; [|done].
  pose proof (proj1 (select_tables_chosen _ _ _ _ Hk Hx)) as Hts. rewrite Hl in Hts.
  apply select_tables_inv in Hx as (-> & _ & _); [|done].
  exec_inv E. apply keep_other_params_inv in Hx as (other & mel & _ & ->).
  match type of E with context [prioritize_selection ?c v selected] => set (c3 := c) in * end.
  assert (H3 : lc_algorithm c3 = l ∧ da_base_asym_algo (ci_algorithm c3) = asym ∧
    da_base_hash_algo (ci_algorithm c3) = hash ∧
    (SPDM_MESSAGE_VERSION_14 <= v → da_pqc_asym_algo (ci_algorithm c3) = pqc)).
  { subst c3. cbn -[set_algorithms]. rewrite set_algorithms_fields.
    destruct (SPDM_MESSAGE_VERSION_13 <=? v); [|destruct (SPDM_MESSAGE_VERSION_12 <=? v)]; by cbn -[offered]. }
  clearbody c3. clear Hl Hx1 Hx2 Hx3 x. destruct H3 as (Hl & Hx1 & Hx2 & Hx3).
  set (sel1 := prioritize_selection c3 v selected) in *.
  assert (S1 : chosen_or_none asym_priority_table (da_base_asym_algo l) asym (base_asym_sel sel1) ∧
    chosen_or_none hash_priority_table (da_base_hash_algo l) hash (base_hash_sel sel1) ∧
    (pqc_asym_sel sel1 = 0 ∨ SPDM_MESSAGE_VERSION_14 <= v ∧
       chosen pqc_asym_priority_table (da_pqc_asym_algo l) pqc (pqc_asym_sel sel1)) ∧
    struct_table sel1 = selected).
  { rewrite <- Hl, <- Hx1, <- Hx2. split; [apply prioritize_chosen|split; [apply prioritize_chosen|split; [|done]]].
    subst sel1. cbn -[libspdm_prioritize_algorithm chosen].
    destruct (SPDM_MESSAGE_VERSION_14 <=? v) eqn:E14; [|by left]. rewrite <- Hx3 by lia.
    edestruct prioritize_chosen as [E0|Ec]; [left; exact E0|right; split; [lia|exact Ec]]. }
  clearbody sel1. destruct S1 as (P1 & P2 & P3 & <-).
  match type of E with match ?x with _ => _ end = _ => destruct x as [[c4 sel2]|] eqn:Em; [|done] end.
  apply select_multi_key_conn_selection in Em as (o & ->). 
  exec_inv E. destruct (check_selection _ _) in E; [|done]. cbn [negb] in E.
  exec_inv E. match type of E with (let '(_, _) := ?y in _) = _ => destruct y as [valid c5] end.
  match type of E with Ret (_, _, ?s3) = _ => assert (Es : sel = s3) by congruence end.
  clear E. rewrite Es. clear Es.
  destruct (SPDM_MESSAGE_VERSION_14 <=? v) eqn:E14.
  - match goal with |- context [exclude_algorithms ?b ?s2] =>
      destruct (exclude_algorithms_exclusive b s2) as (X1 & X2 & X3);
      destruct (exclude_algorithms_chosen (chosen_or_none asym_priority_table (da_base_asym_algo l) asym)
        (λ x, x = 0 ∨ SPDM_MESSAGE_VERSION_14 <= v ∧ chosen pqc_asym_priority_table (da_pqc_asym_algo l) pqc x)
        l tables b s2 (or_introl eq_refl) (or_introl eq_refl) P1 P3 Hts)
        as (Q1 & Q2 & Q3 & Q4) end.
    split; [exact Q1|split; [by rewrite Q3|split; [exact Q2|split; [exact Q4|]]]]. by intros _.
  - split; [exact P1|split; [exact P2|split; [exact P3|split; [exact Hts|lia]]]].
Qed.
End select.

(** A requester of the versions 1.1, 1.2 and 1.4, and a responder of the versions
    1.2, 1.3 and 1.4, that agree on version 1.4 and open secure sessions. *)
Definition toy_requester : libspdm_context_t :=
  toy_table <| lc_version := [0x1100; 0x1200; 0x1400] |>
    <| lc_capability := Build_device_capability 0 0 0
         (Z.lor SPDM_GET_CAPABILITIES_REQUEST_FLAGS_KEY_EX_CAP
           (Z.lor SPDM_GET_CAPABILITIES_REQUEST_FLAGS_ENCRYPT_CAP
             (Z.lor SPDM_GET_CAPABILITIES_REQUEST_FLAGS_MAC_CAP
                SPDM_GET_CAPABILITIES_REQUEST_FLAGS_CHUNK_CAP))) 0 64 4096 4096 64 40 |>
    <| lc_algorithm := Build_device_algorithm 1 2 1 0 0x90 6 0x18 6 0 1 2 0 1 false |>.

Definition toy_responder : libspdm_context_t :=
  toy_table <| lc_is_requester := false |> <| lc_version := [0x1200; 0x1300; 0x1400] |>
    <| lc_capability := Build_device_capability 0 0 0
         (Z.lor SPDM_GET_CAPABILITIES_RESPONSE_FLAGS_KEY_EX_CAP
           (Z.lor SPDM_GET_CAPABILITIES_RESPONSE_FLAGS_ENCRYPT_CAP
             (Z.lor SPDM_GET_CAPABILITIES_RESPONSE_FLAGS_MAC_CAP
               (Z.lor SPDM_GET_CAPABILITIES_RESPONSE_FLAGS_CHUNK_CAP
                 (Z.lor SPDM_GET_CAPABILITIES_RESPONSE_FLAGS_CERT_CAP
                    SPDM_GET_CAPABILITIES_RESPONSE_FLAGS_CHAL_CAP))))) 0 64 4096 4096 64 40 |>
    <| lc_algorithm := Build_device_algorithm 0 2 0 0 0x90 2 0x08 2 0 1 2 0 1 false |>.

(** The responder once it knows the capabilities of the requester. *)
Definition toy_informed : libspdm_context_t :=
  toy_responder <| ci_version := 0x1400 |> <| ci_capability := lc_capability toy_requester |>
                <| ci_algorithm := zero_algorithm |>.

Definition toy_offer : list Z :=
  algorithms_request_bytes (toy_requester <| ci_version := 0x1400 |>) 2.

Definition toy_offered : list struct_table_t := request_tables (toy_requester <| ci_version := 0x1400 |>).

Lemma toy_selects :
  match @select_algorithms default_build toy_informed 0x14 toy_offer toy_offered with
  | Ret (b, _, sel) => bool_decide (b = true ∧ base_asym_sel sel = 0x80 ∧ pqc_asym_sel sel = 0 ∧
      alg_supported <$> struct_table sel = [8; 2; 1; 0])
  | _ => false
  end = true.
Proof. vm_compute. reflexivity. Qed.

Lemma selected_algorithms_common_witness :
  ∃ ctx' sel, @select_algorithms default_build toy_informed 0x14 toy_offer toy_offered = Ret (true, ctx', sel) ∧
    chosen asym_priority_table 0x90 0x90 (base_asym_sel sel) ∧ pqc_asym_sel sel = 0.
Proof.
  pose proof toy_selects as S.
  destruct (@select_algorithms default_build toy_informed 0x14 toy_offer toy_offered)
    as [[[b ctx'] sel]|f] eqn:E; [|discriminate S].
  apply bool_decide_eq_true_1 in S as (-> & Sa & Sp & _). exists ctx', sel. split; [reflexivity|].
  assert (K : Forall table_known toy_offered) by (repeat constructor; vm_compute; discriminate).
  destruct (@selected_algorithms_common default_build toy_informed 0x14 toy_offer toy_offered ctx' sel 0x90 6 2
    E K eq_refl eq_refl eq_refl) as ([A|A] & _ & _ & _ & X); [by rewrite Sa in A|].
  split; [exact A|]. destruct (X ltac:(by vm_compute)) as [[B|B] _]; [by rewrite Sa in B|exact B].
Defined.

End SelectionProps.

(** ** The set-up of a connection *)
Module ConnectionSetupProps.
Import ToyHal SessionTableProps SetupFacts SetupLinkFacts SelectionFacts NegotiationFacts SelectionProps.

Section setup.
Context `{BuildConfig, CryptoHal} {services : ResponderServices}.
Implicit Types q s : libspdm_context_t.

(** C1: when libspdm_init_connection of a requester succeeds over a link to the
    responder's own handlers, the two endpoints agree: both are negotiated, at
    the same version, each has recorded the capabilities of the other under the
    masks of that version, the selected algorithms (but for the requester's own
    multiple-key bit of the other parameters) and the use of several keys are the
    same, and so are the messages of the set-up that the transcripts start with. *)
Theorem libspdm_init_connection_agreement size q rng d r :
  message_a_wf q → message_a_wf (lk_responder d) →
  libspdm_init_connection (channel := setup_link size) q false (rng, d) = Ret r →
  ex_status r = LIBSPDM_STATUS_SUCCESS →
  agreed (ex_ctx r) (lk_responder (ex_world r).2).
Proof.
  intros Wq Ws E Hst. unfold libspdm_init_connection in E.
  exec_inv E. destruct x as [r1 out1]. pose proof (get_version_settled _ _ _ _ _ _ Hx) as S1.
  destruct (is_error (ex_status r1)) eqn:E1; [injection E as <-; by rewrite Hst in E1|].
  destruct S1 as [S1|S1]; [congruence|].
  eapply get_version_link in Hx as [Hi1 Hl1]; [|done|done|by split|done].
  exec_inv E. rename x into r2. destruct (ex_world r1) as [rng1 d1] eqn:Ew1.
  pose proof (get_capabilities_settled _ _ _ _ Hx) as S2.
  destruct (is_error (ex_status r2)) eqn:E2; [injection E as <-; by rewrite Hst in E2|].
  destruct S2 as [S2|S2]; [congruence|].
  eapply get_capabilities_link in Hx as [Hi2 _]; [|exact Hi1|exact Hl1|done].
  exec_inv E. rename x into r3. destruct (ex_world r2) as [rng2 d2] eqn:Ew2.
  apply negotiate_algorithms_link in Hx as [S3 Ha]; [|by apply capable_prepared].
  destruct (is_error (ex_status r3)) eqn:E3; [injection E as <-; by rewrite Hst in E3|].
  destruct S3 as [S3|S3]; [congruence|]. injection E as <-. by apply Ha.
Qed.
End setup.

(** *** A requester that encrypts without authentication *)

Lemma land_bit x n : 0 <= n → Z.land x (2 ^ n) ≠ 0 → Z.land x (2 ^ n) = 2 ^ n.
Proof.
  intros Hn. assert (E : Z.land x (2 ^ n) = if Z.testbit x n then 2 ^ n else 0).
  { apply Z.bits_inj'. intros m Hm. rewrite Z.land_spec, Z.pow2_bits_eqb by done.
    destruct (Z.eqb_spec n m) as [-> |Hne].
    - rewrite andb_true_r. destruct (Z.testbit x m); [by rewrite Z.pow2_bits_true|by rewrite Z.bits_0].
    - rewrite andb_false_r. destruct (Z.testbit x n); [by rewrite Z.pow2_bits_false|by rewrite Z.bits_0]. }
  rewrite E. by destruct (Z.testbit x n).
Qed.

Section encrypt_only.
Context `{BuildConfig}.
Implicit Types ctx s : libspdm_context_t.

(** GET_CAPABILITIES of version 1.1 with the flags KEY_EX_CAP and ENCRYPT_CAP. *)
Definition encrypt_only_request : list Z := [0x11; SPDM_GET_CAPABILITIES; 0; 0; 0; 0; 0; 0; 0x40; 0x02; 0; 0].

Lemma reset_context_asserts ctx :
  LIBSPDM_DEBUG_ASSERT_ENABLE = true → (0 < LIBSPDM_MAX_SESSION_COUNT)%nat →
  Z.land (Z.land (flags (ci_capability ctx)) (flags (lc_capability ctx)))
    (Z.lor SPDM_GET_CAPABILITIES_REQUEST_FLAGS_ENCRYPT_CAP SPDM_GET_CAPABILITIES_REQUEST_FLAGS_MAC_CAP) =
    SPDM_GET_CAPABILITIES_REQUEST_FLAGS_ENCRYPT_CAP →
  libspdm_reset_context ctx = Fault AssertFailed.
Proof.
  intros Hd Hn Hf. unfold libspdm_reset_context. destruct LIBSPDM_MAX_SESSION_COUNT as [|n]; [lia|].
  cbn [reset_sessions]. unfold libspdm_session_info_init, count_session.
  change (negb (INVALID_SESSION_ID =? INVALID_SESSION_ID)) with false. cbv iota. cbn [mbind exec_bind].
  unfold negotiated_session_type. set (c := if 0 <? _ then _ else ctx).
  assert (Ec : ci_capability c = ci_capability ctx ∧ lc_capability c = lc_capability ctx) by (subst c; by case_if).
  clearbody c. destruct Ec as [-> ->]. cbv zeta. rewrite Hf.
  change (_ =? 0) with false. change (_ =? Z.lor _ _) with false.
  change (SPDM_GET_CAPABILITIES_REQUEST_FLAGS_ENCRYPT_CAP =? SPDM_GET_CAPABILITIES_REQUEST_FLAGS_MAC_CAP) with false.
  unfold LIBSPDM_ASSERT. rewrite Hd. reflexivity.
Qed.

Lemma get_version_asserts ctx size response :
  LIBSPDM_DEBUG_ASSERT_ENABLE = true → (0 < LIBSPDM_MAX_SESSION_COUNT)%nat →
  last_spdm_request_session_id_valid ctx = false →
  response_state (exchange ctx) = LIBSPDM_RESPONSE_STATE_NORMAL →
  Z.land (Z.land (flags (ci_capability ctx)) (flags (lc_capability ctx)))
    (Z.lor SPDM_GET_CAPABILITIES_REQUEST_FLAGS_ENCRYPT_CAP SPDM_GET_CAPABILITIES_REQUEST_FLAGS_MAC_CAP) =
    SPDM_GET_CAPABILITIES_REQUEST_FLAGS_ENCRYPT_CAP →
  libspdm_get_response_version ctx 4 get_version_message size response = Fault AssertFailed.
Proof.
  intros Hd Hn Hv Hr Hf. unfold libspdm_get_response_version.
  change (read_header get_version_message) with
    (Ret (Build_message_header SPDM_MESSAGE_VERSION_10 SPDM_GET_VERSION 0 0)).
  cbn [mbind exec_bind request_response_code spdm_version].
  change (SPDM_GET_VERSION =? SPDM_GET_VERSION) with true. rewrite assert_true. cbn [mbind exec_bind].
  change (4 <? sizeof_spdm_message_header) with false. cbv iota. rewrite Hv.
  change (negb (SPDM_MESSAGE_VERSION_10 =? SPDM_MESSAGE_VERSION_10)) with false. cbv iota zeta.
  pose proof (setup_set_connection_state ctx LIBSPDM_CONNECTION_STATE_NOT_STARTED) as Es.
  set (c := libspdm_set_connection_state ctx LIBSPDM_CONNECTION_STATE_NOT_STARTED) in *. clearbody c.
  assert (Hrc : response_state (exchange c) = LIBSPDM_RESPONSE_STATE_NORMAL)
    by (rewrite <- Hr; exact (f_equal su_response_state Es)).
  rewrite Hrc.
  change (bool_decide (LIBSPDM_RESPONSE_STATE_NORMAL = LIBSPDM_RESPONSE_STATE_NEED_RESYNC)) with false.
  rewrite bool_decide_false by (intros Hx; apply Hx; exact Hrc).
  rewrite reset_context_asserts; [done..|].
  change (ci_capability (libspdm_reset_all_encap_state c)) with (su_ci_capability (setup c)).
  change (lc_capability (libspdm_reset_all_encap_state c)) with (su_capability (setup c)).
  rewrite Es. exact Hf.
Qed.

(** C29: an unauthenticated requester can stop a responder that encrypts: once the
    responder has answered a GET_CAPABILITIES of version 1.1 whose flags have
    ENCRYPT_CAP without MAC_CAP (which its flag check lets through) with
    CAPABILITIES, the next GET_VERSION outside a session ends in the
    LIBSPDM_ASSERT(false) of libspdm_session_info_init, in a build with
    assertions. *)
Theorem encrypt_without_mac_asserts s size r response :
  LIBSPDM_DEBUG_ASSERT_ENABLE = true → (0 < LIBSPDM_MAX_SESSION_COUNT)%nat →
  message_a_wf s → response_state (exchange s) = LIBSPDM_RESPONSE_STATE_NORMAL →
  Z.land (flags (lc_capability s)) SPDM_GET_CAPABILITIES_RESPONSE_FLAGS_ENCRYPT_CAP ≠ 0 →
  libspdm_get_response_capabilities s 12 encrypt_only_request size (zeros size) = Ret r →
  load (rp_response r) 0 (rp_size r) = Ret response → response !! 1%nat = Some SPDM_CAPABILITIES →
  libspdm_get_response_version ((rp_ctx r) <| last_spdm_request_session_id_valid := false |>) 4
    get_version_message size (zeros size) = Fault AssertFailed.
Proof.
  intros Hd Hn Hw Hs Hl E El Hc.
  set (c := Build_device_capability 0 0 0 0x240 0 0 0 0 0 0).
  assert (Ha : capabilities_answered s 0x11 encrypt_only_request response c (rp_ctx r)).
  { apply (capabilities_handler_inv size s 0x11 0 0x240 c r response); done. }
  destruct Ha as [[Hx _]|(xt & f & n & c1 & known & _ & _ & (a & Ea & _) & (Hk & _) & _ & Es)]; [done|].
  injection Hk as Hk. rewrite Ea in Es.
  apply get_version_asserts; try done.
  - rewrite <- Hs. exact (f_equal su_response_state Es).
  - change (flags (ci_capability (_ <| last_spdm_request_session_id_valid := false |>)))
      with (flags (su_ci_capability (setup (rp_ctx r)))).
    change (flags (lc_capability (_ <| last_spdm_request_session_id_valid := false |>)))
      with (flags (su_capability (setup (rp_ctx r)))).
    rewrite Es. change (Z.land (Z.land (flags known) (flags (lc_capability s))) 0xC0 = 2 ^ 6).
    assert (flags known = 0x240) as -> by (symmetry; exact Hk).
    rewrite (Z.land_comm 0x240), <- Z.land_assoc. change (Z.land 0x240 0xC0) with (2 ^ 6). by apply land_bit.
Qed.
End encrypt_only.

(** A responder of version 1.1 that waits for GET_CAPABILITIES. *)
Definition toy_waiting : libspdm_context_t :=
  toy_responder <| lc_version := [0x1100] |>
    <| exchange := toy_exchange <| connection_state := LIBSPDM_CONNECTION_STATE_AFTER_VERSION |> |>.

Lemma toy_accepts :
  match @libspdm_get_response_capabilities default_build toy_waiting 12 encrypt_only_request 64 (zeros 64) with
  | Ret r => match load (rp_response r) 0 (rp_size r) with
             | Ret response => bool_decide (response !! 1%nat = Some SPDM_CAPABILITIES)
             | _ => false
             end
  | _ => false
  end = true.
Proof. vm_compute. reflexivity. Qed.

Lemma encrypt_without_mac_asserts_witness :
  ∃ r, @libspdm_get_response_capabilities default_build toy_waiting 12 encrypt_only_request 64 (zeros 64) = Ret r ∧
    @libspdm_get_response_version default_build ((rp_ctx r) <| last_spdm_request_session_id_valid := false |>) 4
      get_version_message 64 (zeros 64) = Fault AssertFailed.
Proof.
  pose proof toy_accepts as S.
  destruct (@libspdm_get_response_capabilities default_build toy_waiting 12 encrypt_only_request 64 (zeros 64))
    as [r|f] eqn:E; [|discriminate S].
  exists r. split; [reflexivity|].
  destruct (load (rp_response r) 0 (rp_size r)) as [response|f] eqn:El; [|discriminate S].
  assert (Hf : Z.land (flags (lc_capability toy_waiting)) SPDM_GET_CAPABILITIES_RESPONSE_FLAGS_ENCRYPT_CAP ≠ 0)
    by (vm_compute; discriminate).
  apply (@encrypt_without_mac_asserts default_build toy_waiting 64 r response);
    [reflexivity|vm_compute; lia|split; by vm_compute|reflexivity|exact Hf|exact E|exact El|
     exact (bool_decide_eq_true_1 _ S)].
Defined.

Definition toy_services : @ResponderServices default_build toy_hal :=
  {| other_handler := λ _, None; get_response_func := None |}.

Lemma toy_message_a : message_a_wf toy_requester ∧ message_a_wf toy_responder.
Proof. split; split; by vm_compute. Qed.

Lemma toy_set_up :
  match @libspdm_init_connection default_build toy_hal (@setup_link default_build toy_hal toy_services 4096)
          toy_requester false (0, Link toy_responder []) with
  | Ret r => bool_decide (ex_status r = LIBSPDM_STATUS_SUCCESS)
  | _ => false
  end = true.
Proof. vm_compute. reflexivity. Qed.

Lemma libspdm_init_connection_agreement_witness :
  ∃ r, @libspdm_init_connection default_build toy_hal (@setup_link default_build toy_hal toy_services 4096)
         toy_requester false (0, Link toy_responder []) = Ret r ∧
    @agreed default_build (ex_ctx r) (lk_responder (ex_world r).2).
Proof.
  pose proof toy_set_up as S.
  destruct (@libspdm_init_connection default_build toy_hal (@setup_link default_build toy_hal toy_services 4096)
    toy_requester false (0, Link toy_responder [])) as [r|f] eqn:E; [|discriminate S].
  exists r. split; [reflexivity|].
  exact (@libspdm_init_connection_agreement default_build toy_hal toy_services 4096 toy_requester 0
    (Link toy_responder []) r (proj1 toy_message_a) (proj2 toy_message_a) E (bool_decide_eq_true_1 _ S)).
Defined.

End ConnectionSetupProps.
