(* ===== verification/PskFacts.v ===== *)
(** * PskFacts: what opening a session with a pre-shared key leaves behind

    The transcript of a session and the digests and HMACs of it (TranscriptFacts),
    what the key schedule of such a session reads (PskKeyFacts), and the slot of the
    session after an accepted PSK_EXCHANGE and PSK_FINISH at each endpoint
    (PskFacts). *)

From S2P Require Import Prelude SpdmDefs CommonSupport CryptLib SecuredContext SecuredSession.
From S2P Require Import SpdmContext SessionTable OpaqueData Messages KeyUpdate Connection.
From S2P Require Import Handlers Responder ConnectionProps Transcript PskSession.
Import KeyScheduleFacts ContextFacts TableFacts SessionFacts.

(** ** The transcript of a session that uses a PSK *)
Module TranscriptFacts.
Import SetupFacts.
Section facts.
Context `{BuildConfig, CryptoHal, HashHal, !HashHalOk}.
Implicit Types ctx : libspdm_context_t.

(** What a message is appended to: message A when no context is open. *)
Definition opened ctx (si : libspdm_session_info_t) : list Z :=
  default (message_a ctx) (digest_context_th (session_transcript si)).

Definition with_th (si : libspdm_session_info_t) (th : list Z) : libspdm_session_info_t :=
  si <| session_transcript := (session_transcript si) <| digest_context_th := Some th |> |>.

Definition with_keys (si : libspdm_session_info_t) (c : libspdm_secured_message_context_t) :
    libspdm_session_info_t := si <| secured_message_context := c |>.

Lemma slot_inv ctx i si : slot ctx i = Ret si → session_info ctx !! i = Some si.
Proof. unfold slot. destruct (session_info ctx !! i); [by intros [= ->]|discriminate]. Qed.

Lemma slot_in ctx i si : session_info ctx !! i = Some si → slot ctx i = Ret si.
Proof. unfold slot. by intros ->. Qed.

Lemma slot_set_slot ctx i old si : session_info ctx !! i = Some old →
  session_info (set_slot ctx i si) !! i = Some si.
Proof.
  intros Hi. cbn. apply list_lookup_insert_Some. left. split_and!; try done. by eapply lookup_lt_Some.
Qed.

Lemma set_slot_twice ctx i si si' : set_slot (set_slot ctx i si) i si' = set_slot ctx i si'.
Proof. unfold set_slot. cbn. rewrite list_insert_insert, decide_True by done. by destruct ctx. Qed.

Lemma set_slot_same ctx i si : session_info ctx !! i = Some si → set_slot ctx i si = ctx.
Proof. intros Hi. unfold set_slot. cbn. rewrite list_insert_id by done. by destruct ctx. Qed.

Lemma set_transcript_in ctx i si f : session_info ctx !! i = Some si →
  set_transcript ctx i f =
    Ret (set_slot ctx i (si <| session_transcript := f (session_transcript si) |>)).
Proof. intros Hi. unfold set_transcript. by rewrite (slot_in _ _ _ Hi). Qed.

Lemma set_th_in ctx i si th : session_info ctx !! i = Some si →
  set_th ctx i th = Ret (set_slot ctx i
    (si <| session_transcript := (session_transcript si) <| digest_context_th := th |> |>)).
Proof. intros Hi. unfold set_th. by rewrite (set_transcript_in _ _ _ _ Hi). Qed.

Lemma Ret_triple_inv {A B C} (a a' : A) (b b' : B) (c c' : C) :
  Ret (a, b, c) = Ret (a', b', c') → a = a' ∧ b = b' ∧ c = c'.
Proof. by intros [= -> -> ->]. Qed.

Lemma hash_switch_inv {A} a (f : hash_alg → A) bad x : hash_switch a f bad = Ret x →
  (∃ h, hash_of_algo a = Some h ∧ x = f h) ∨ x = bad.
Proof.
  unfold hash_switch. destruct (hash_of_algo a) as [h|].
  - intros [= <-]. eauto.
  - intros E. exec_inv E. injection E as <-. by right.
Qed.

Lemma update_or_free_inv ctx th d th' : update_or_free ctx (Some th) d = Ret th' →
  th' = Some (th ++ d) ∨ th' = None.
Proof.
  unfold update_or_free, libspdm_hash_update. intros E. exec_inv E. destruct x as [r t].
  apply hash_switch_inv in Hx as [(h & _ & [= -> ->])|[= -> ->]].
  - case_if; [injection E as <-; by left|]. exec_inv E. injection E as <-. by right.
  - exec_inv E. injection E as <-. by right.
Qed.

Lemma update_all_inv ctx ds : ∀ th th', update_all ctx th ds = Ret (Some th') →
  th' = th ++ concat ds.
Proof.
  induction ds as [|d ds IH]; cbn; intros th th' E.
  - injection E as <-. by rewrite app_nil_r.
  - exec_inv E. apply update_or_free_inv in Hx as [->| ->]; [|discriminate].
    apply IH in E as ->. by rewrite app_assoc.
Qed.

Lemma managed_data_inv m d : managed_data m = Ret d → d = contents m.
Proof. unfold managed_data. intros E. apply load_Ret_inv in E as [_ ->]. done. Qed.

(** A new digest context of such a session has hashed message A. *)
Lemma open_th_psk ctx si r o : si_use_psk si = true → open_th ctx si r = Ret o →
  o = inl (message_a ctx) ∨ o = inr LIBSPDM_STATUS_CRYPTO_ERROR.
Proof.
  intros Hp. unfold open_th. rewrite Hp. intros E. exec_inv E. injection Hx as <-.
  exec_inv E. destruct x as [new|]; [|injection E as <-; by right].
  apply hash_switch_inv in Hx as [(h & _ & Hn)|[=]].
  case_if; [injection Hn as ->|discriminate].
  exec_inv E. destruct x as [result c]. case_if; [exec_inv E; injection E as <-; by right|].
  apply hash_switch_inv in Hx as [(h' & _ & [= -> ->])|[= -> ->]]; [|discriminate].
  exec_inv E. apply managed_data_inv in Hx as ->. exec_inv E. injection Hx as <-.
  exec_inv E. destruct x as [x|]; injection E as <-; [left|by right].
  apply update_all_inv in Hx as ->. cbn. by rewrite app_nil_r.
Qed.

(** Appending to message K; a failure does not return success. *)
Lemma append_k_psk ctx i si r message st ctx' :
  session_info ctx !! i = Some si → si_use_psk si = true →
  libspdm_append_message_k ctx i r message = Ret (st, ctx') → LIBSPDM_STATUS_IS_ERROR st = false →
  st = LIBSPDM_STATUS_SUCCESS ∧ ctx' = set_slot ctx i (with_th si (opened ctx si ++ message)).
Proof.
  intros Hi Hp. unfold libspdm_append_message_k. rewrite (slot_in _ _ _ Hi). intros E Hst.
  cbn [mbind exec_bind] in E. exec_inv E.
  assert (Hx' : x = inl (opened ctx si) ∨ x = inr LIBSPDM_STATUS_CRYPTO_ERROR).
  { unfold opened. destruct (digest_context_th (session_transcript si)) as [t|].
    - injection Hx as <-. by left.
    - by eapply open_th_psk. }
  destruct Hx' as [-> | ->]; [|by injection E as <- <-].
  exec_inv E. rewrite (set_th_in _ _ _ _ Hi) in E. injection E as <- <-.
  by apply update_or_free_inv in Hx0 as [-> | ->].
Qed.

(** A session whose message F is the bytes [message] so far: the context of
    message K is kept by the first of them. *)
Definition with_f (si : libspdm_session_info_t) (th message : list Z) : libspdm_session_info_t :=
  let t := session_transcript si in
  si <| session_transcript := t
    <| digest_context_th_backup :=
         if message_f_initialized t then digest_context_th_backup t else Some th |>
    <| digest_context_th := Some (th ++ message) |> <| message_f_initialized := true |> |>.

(** The first call keeps the context. *)
Lemma open_message_f_psk ctx i si r th st ctx' :
  session_info ctx !! i = Some si → si_use_psk si = true →
  digest_context_th (session_transcript si) = Some th →
  open_message_f ctx i r = Ret (st, ctx') → LIBSPDM_STATUS_IS_ERROR st = false →
  ctx' = set_slot ctx i (with_th (si <| session_transcript := (session_transcript si)
           <| digest_context_th_backup := Some th |> |>) th).
Proof.
  intros Hi Hp Hth E Hst. unfold open_message_f, uses_mut_auth in E.
  rewrite (slot_in _ _ _ Hi) in E. cbn -[libspdm_hash_new libspdm_hash_duplicate] in E.
  rewrite Hp, Hth in E. cbn -[libspdm_hash_new libspdm_hash_duplicate] in E.
  rewrite (slot_in _ _ _ Hi) in E. cbn -[libspdm_hash_new libspdm_hash_duplicate] in E.
  rewrite Hth in E.
  exec_inv E. clear Hx. exec_inv E. destruct x0 as [new|].
  2: { exec_inv E. by injection E as <- <-. }
  exec_inv E. destruct x0 as [result copy]. case_if.
  { exec_inv E. exec_inv E. by injection E as <- <-. }
  apply hash_switch_inv in Hx0 as [(h & _ & [= -> ->])|[= -> ->]]; [|discriminate].
  rewrite (set_transcript_in _ _ _ _ Hi) in E. cbn [mbind exec_bind] in E. rewrite Hp in E.
  cbn -[set_slot] in E.
  rewrite (set_th_in _ _ _ _ (slot_set_slot _ _ _ _ Hi)), set_slot_twice in E.
  cbn [mbind exec_bind] in E. by injection E as <- <-.
Qed.

Lemma append_f_psk ctx i si r th message st ctx' :
  session_info ctx !! i = Some si → si_use_psk si = true →
  digest_context_th (session_transcript si) = Some th →
  libspdm_append_message_f ctx i r message = Ret (st, ctx') → LIBSPDM_STATUS_IS_ERROR st = false →
  st = LIBSPDM_STATUS_SUCCESS ∧ ctx' = set_slot ctx i (with_f si th message).
Proof.
  intros Hi Hp Hth. unfold libspdm_append_message_f. rewrite (slot_in _ _ _ Hi). intros E Hst.
  cbn [mbind exec_bind] in E. exec_inv E. destruct x as [st1 ctx1].
  destruct (LIBSPDM_STATUS_IS_ERROR st1) eqn:Est1; [injection E as <- <-; congruence|].
  set (si1 := si <| session_transcript := (session_transcript si)
    <| digest_context_th_backup := if message_f_initialized (session_transcript si)
         then digest_context_th_backup (session_transcript si) else Some th |> |>).
  assert (ctx1 = set_slot ctx i (with_th si1 th)) as ->.
  { unfold si1. destruct (message_f_initialized (session_transcript si)) eqn:Ef.
    - injection Hx as <- <-. symmetry. rewrite <- (set_slot_same ctx i si Hi) at 2. f_equal.
      destruct si as [? ? ? ? ? ? [] ? ? ? ? ?]. cbn in *. by subst.
    - by eapply open_message_f_psk. }
  rewrite (slot_in _ _ _ (slot_set_slot _ _ _ _ Hi)) in E. cbn in E.
  exec_inv E. exec_inv E. apply update_or_free_inv in Hx1 as [-> | ->].
  all: rewrite (set_th_in _ _ _ _ (slot_set_slot _ _ _ _ Hi)), set_slot_twice in E.
  all: cbn -[set_slot set_transcript] in E.
  2: { by injection E as <- <-. }
  rewrite (set_transcript_in _ _ _ _ (slot_set_slot _ _ _ _ Hi)), set_slot_twice in E.
  cbn [mbind exec_bind] in E. by injection E as <- <-.
Qed.

(** *** Digests and HMACs *)

Lemma th_digest_inv ctx i si th d : session_info ctx !! i = Some si →
  digest_context_th (session_transcript si) = Some th → th_digest ctx i = Ret (Some d) →
  ∃ h, hash_of_algo (hash_algo ctx) = Some h ∧ hal_hash_final h th = (true, d).
Proof.
  intros Hi Hth. unfold th_digest. rewrite (slot_in _ _ _ Hi). cbn [mbind exec_bind].
  rewrite Hth. intros E. exec_inv E. destruct x as [new|]; [|discriminate].
  exec_inv E. destruct x as [result copy]. case_if; [exec_inv E; discriminate|].
  apply hash_switch_inv in Hx0 as [(h & Hh & [= -> ->])|[= -> ->]]; [|discriminate].
  exec_inv E. destruct x as [result hash]. exec_inv E. clear Hx1.
  destruct result; [|discriminate]. injection E as ->. exists h. split; [done|].
  apply hash_switch_inv in Hx0 as [(h' & Hh' & ->)|[=]]. congruence.
Qed.

(** The HMAC of the transcript [th] with a finished key. *)
Definition th_mac (h : hash_alg) (th key mac : list Z) : Prop :=
  ∃ d, hal_hash_final h th = (true, d) ∧ hal_hmac_all h d key = (true, mac).

Lemma th_mac_size h th key mac : th_mac h th key mac → blen mac = hash_size_of h.
Proof. intros (d & _ & E). pose proof (proj1 (hmac_all_out h d key)) as Hl. by rewrite E in Hl. Qed.

Lemma th_mac_inv ctx i si h th mac (hmac : libspdm_secured_message_context_t → list Z → exec (bool * list Z))
    (key : libspdm_secured_message_context_t → list Z) :
  (∀ c d, hmac c d = (k ← load (key c) 0 (hash_size c); libspdm_hmac_all (base_hash_algo c) d k)) →
  session_info ctx !! i = Some si → digest_context_th (session_transcript si) = Some th →
  hash_of_algo (hash_algo ctx) = Some h → keyed (secured_message_context si) h →
  th_hmac ctx i hmac = Ret (Some mac) →
  th_mac h th (sub (key (secured_message_context si)) 0 (hash_size_of h)) mac.
Proof.
  intros Hm Hi Hth Hh [Hk Hn]. unfold th_hmac. intros E. exec_inv E.
  destruct x as [d|]; [|discriminate].
  destruct (th_digest_inv _ _ _ _ _ Hi Hth Hx) as (h' & Hh' & Hd).
  assert (h' = h) as -> by congruence.
  rewrite (slot_in _ _ _ Hi) in E. cbn [mbind exec_bind] in E. exec_inv E.
  apply load_Ret_inv in Hx0 as [_ ->]. exec_inv E. destruct x as [result v].
  destruct result; [|discriminate]. injection E as ->.
  rewrite Hm in Hx0. exec_inv Hx0. apply load_Ret_inv in Hx1 as [_ ->].
  apply hash_switch_inv in Hx0 as [(h' & Hh2 & E)|[=]]. assert (h' = h) as -> by congruence.
  rewrite Hn in E. exists d. split; [done|]. rewrite E. f_equal.
  unfold digest_size. rewrite (proj1 (hash_of_algo_cases _ _ Hh)).
  pose proof (proj1 (hash_final_out h th)) as Hl. rewrite Hd in Hl. cbn in Hl.
  by rewrite <- Hl, sub_all.
Qed.

Lemma load_digest ctx h m x : load m 0 (digest_size ctx) = Ret x →
  hash_of_algo (hash_algo ctx) = Some h → blen m = hash_size_of h → x = m.
Proof.
  intros [_ ->]%load_Ret_inv Hh Hl. unfold digest_size.
  rewrite (proj1 (hash_of_algo_cases _ _ Hh)), <- Hl. apply sub_all.
Qed.

(** The two lists of [n] bytes are compared as a whole. *)
Lemma mem_equal_inv a b n : mem_equal a b n = Ret true → blen a = n → blen b = n → a = b.
Proof.
  unfold mem_equal. intros E Ha Hb. exec_inv E. exec_inv E.
  apply load_Ret_inv in Hx as [_ ->]. apply load_Ret_inv in Hx0 as [_ ->].
  injection E as E. apply bool_decide_eq_true in E. by rewrite <- Ha, sub_all, Ha, <- Hb, sub_all in E.
Qed.
End facts.
End TranscriptFacts.

(** ** The keys of a session that uses a PSK *)
Module PskKeyFacts.
Import TranscriptFacts.
Section facts.
Context `{BuildConfig, CryptoHal, !CryptoHalOk}.
Implicit Types c : libspdm_secured_message_context_t.

(** All that the key schedule of such a session reads of its context. *)
Definition schedule c :=
  (version c, base_hash_algo c, hash_size c, aead_key_size c, aead_iv_size c, use_psk c,
   sub (psk_hint c) 0 (psk_hint_size c)).

Lemma schedule_handshake c1 c2 h th1 : schedule c1 = schedule c2 → use_psk c1 = true →
  session_handshake_reference c1 h th1 = session_handshake_reference c2 h th1.
Proof.
  unfold schedule. intros [= E1 E2 E3 E4 E5 E6 E7] Hp.
  unfold session_handshake_reference, handshake_stage, finished_key, aead_key_iv.
  rewrite <- E6, Hp, E1, E2, E4, E5, E7. done.
Qed.

Lemma schedule_data c1 c2 h th2 : schedule c1 = schedule c2 → use_psk c1 = true →
  session_data_reference c1 h th2 = session_data_reference c2 h th2.
Proof.
  unfold schedule. intros [= E1 E2 E3 E4 E5 E6 E7] Hp.
  unfold session_data_reference, data_stage, finished_key, aead_key_iv.
  rewrite <- E6, Hp, E1, E2, E4, E5, E7. done.
Qed.

Ltac frame_step E := match type of E with
  | Ret _ = Ret _ => injection E as <- <-; done
  | (if ?b then _ else _) = _ => destruct b
  | (?m ≫= _) = _ => exec_inv E; repeat match goal with x : (_ * _)%type |- _ => destruct x end
  | _ => progress cbn [mbind exec_bind] in E
  end.

Lemma handshake_frame c th1 b c' : libspdm_generate_session_handshake_key c th1 = Ret (b, c') →
  schedule c' = schedule c ∧ session_state c' = session_state c.
Proof. unfold libspdm_generate_session_handshake_key. intros E. repeat frame_step E. Qed.

Lemma data_frame c th2 b c' : libspdm_generate_session_data_key c th2 = Ret (b, c') →
  schedule c' = schedule c ∧ session_state c' = session_state c.
Proof. unfold libspdm_generate_session_data_key. intros E. repeat frame_step E. Qed.
End facts.
End PskKeyFacts.

(** ** What an accepted handshake leaves at an endpoint *)
Module PskFacts.
Import SetupFacts SetupLinkFacts TranscriptFacts PskKeyFacts.

(** The keys of a direction: secret, finished key, encryption key, salt. *)
Definition direction_keys : Type := list Z * list Z * list Z * list Z.

Definition finished_of (k : direction_keys) : list Z := let '(_, f, _, _) := k in f.

Section facts.
Context `{BuildConfig, CryptoHal, HashHal, !CryptoHalOk, !HashHalOk}.
Implicit Types ctx : libspdm_context_t.
Implicit Types si : libspdm_session_info_t.

(** A session with a PSK whose hash algorithm is [h]. *)
Record psk_keyed (h : hash_alg) si : Prop := {
  pk_psk : si_use_psk si = true;
  pk_use : use_psk (secured_message_context si) = true;
  pk_keyed : keyed (secured_message_context si) h;
  pk_wf : ctx_wf (secured_message_context si);
}.

(** A new session. *)
Record fresh (h : hash_alg) si : Prop := {
  fr_keyed : psk_keyed h si;
  fr_th : digest_context_th (session_transcript si) = None;
  fr_f : message_f_initialized (session_transcript si) = false;
}.

(** The keys that the schedule gives for the transcript [th]. *)
Definition schedule_gives (h : hash_alg) si (th : list Z) (keys : direction_keys * direction_keys) :
    Prop :=
  ∃ th1, hal_hash_final h th = (true, th1) ∧
    session_handshake_reference (secured_message_context si) h th1 = Some keys.

(** The handshake is done: message K is [th] and its HMAC [mac], which verifies
    under the finished key of the responder, and the session has the keys that the
    schedule gives for [th]. *)
Record handshake_done (h : hash_alg) (th mac : list Z) (keys : direction_keys * direction_keys) si :
    Prop := {
  hd_keyed : psk_keyed h si;
  hd_th : digest_context_th (session_transcript si) = Some (th ++ mac);
  hd_f : message_f_initialized (session_transcript si) = false;
  hd_gives : schedule_gives h si th keys;
  hd_mac : th_mac h th (finished_of keys.2) mac;
  hd_held : handshake_keys_of (secured_message_context si) = keys;
}.

(** Nothing but the transcript and the secrets has changed. *)
Definition same_session si si' : Prop :=
  session_id si' = session_id si ∧
  schedule (secured_message_context si') = schedule (secured_message_context si) ∧
  session_state (secured_message_context si') = session_state (secured_message_context si).

Lemma psk_keyed_with_th h si th : psk_keyed h si → psk_keyed h (with_th si th).
Proof. intros [? ? ? ?]. by split. Qed.

Lemma psk_keyed_schedule h si c : psk_keyed h si → schedule c = schedule (secured_message_context si) →
  ctx_wf c → psk_keyed h (with_keys si c).
Proof.
  intros [Hp Hu [Hk Hn] Hw]. unfold schedule. intros [= E1 E2 E3 E4 E5 E6 E7] Hc.
  split; try done; cbn; [by rewrite E6|]. split; [by rewrite E2|by rewrite E3].
Qed.

(** The handshake keys of the transcript so far. *)
Lemma handshake_keys_inv ctx i si h th ctx' :
  session_info ctx !! i = Some si → psk_keyed h si → hash_of_algo (hash_algo ctx) = Some h →
  digest_context_th (session_transcript si) = Some th →
  handshake_keys ctx i = Ret (true, ctx') →
  ∃ c keys, ctx' = set_slot ctx i (with_keys si c) ∧ ctx_wf c ∧
    schedule c = schedule (secured_message_context si) ∧
    session_state c = session_state (secured_message_context si) ∧
    schedule_gives h si th keys ∧ handshake_keys_of c = keys.
Proof.
  intros Hi Hk Hh Hth. unfold handshake_keys, libspdm_calculate_th1_hash,
    libspdm_calculate_th_hash_for_exchange. intros E. exec_inv E.
  destruct x as [th1|]; [|discriminate]. exec_inv Hx. clear Hx0.
  destruct (th_digest_inv _ _ _ _ _ Hi Hth Hx) as (h' & Hh' & Hd).
  assert (h' = h) as -> by congruence.
  unfold with_session_keys in E. rewrite (slot_in _ _ _ Hi) in E. cbn [mbind exec_bind] in E.
  exec_inv E. destruct x0 as [result c]. injection E as -> <-.
  pose proof (proj1 (hash_final_out h th)) as Hl. rewrite Hd in Hl. cbn in Hl.
  destruct Hk as [Hp Hu Hke Hw].
  destruct (generate_session_handshake_key_spec (secured_message_context si) h th1 Hw Hke Hl)
    as (c' & E & Hw' & _ & Hv); [congruence|].
  rewrite E in Hx0. injection Hx0 as Hr ->.
  destruct (session_handshake_reference (secured_message_context si) h th1) as [keys|] eqn:Er;
    [|discriminate].
  destruct (handshake_frame _ _ _ _ E) as [Hs Hst].
  exists c, keys. split_and!; try done; [by exists th1|]. by apply Hv.
Qed.

Lemma opened_with_th ctx si th : opened ctx (with_th si th) = th.
Proof. reflexivity. Qed.

Lemma with_th_twice si th th' : with_th (with_th si th) th' = with_th si th'.
Proof. reflexivity. Qed.

Lemma opened_fresh h ctx si : fresh h si → opened ctx si = message_a ctx.
Proof. intros [_ Hth _]. unfold opened. by rewrite Hth. Qed.

Lemma held_response c h keys : keyed c h → handshake_keys_of c = keys →
  sub (response_finished_key (handshake_secret c)) 0 (hash_size_of h) = finished_of keys.2.
Proof. intros [_ Hn] <-. unfold handshake_keys_of, finished_of. cbn. by rewrite Hn. Qed.

Lemma held_request c h keys : keyed c h → handshake_keys_of c = keys →
  sub (request_finished_key (handshake_secret c)) 0 (hash_size_of h) = finished_of keys.1.
Proof. intros [_ Hn] <-. unfold handshake_keys_of, finished_of. cbn. by rewrite Hn. Qed.

(** The two messages enter message K, and the keys are derived. *)
Lemma message_k_keys ctx i si h r request message st1 ctx1 st2 ctx2 ctx3 :
  session_info ctx !! i = Some si → fresh h si → hash_of_algo (hash_algo ctx) = Some h →
  libspdm_append_message_k ctx i r request = Ret (st1, ctx1) → LIBSPDM_STATUS_IS_ERROR st1 = false →
  libspdm_append_message_k ctx1 i r message = Ret (st2, ctx2) → LIBSPDM_STATUS_IS_ERROR st2 = false →
  handshake_keys ctx2 i = Ret (true, ctx3) →
  let th := message_a ctx ++ request ++ message in
  ∃ si' keys, ctx3 = set_slot ctx i si' ∧ psk_keyed h si' ∧ same_session si si' ∧
    digest_context_th (session_transcript si') = Some th ∧
    message_f_initialized (session_transcript si') = false ∧
    schedule_gives h si' th keys ∧ handshake_keys_of (secured_message_context si') = keys.
Proof.
  intros Hi Hf Hh E1 H1' E2 H2' E3 th. pose proof Hf as [Hk _ Hfi].
  destruct (append_k_psk _ _ _ _ _ _ _ Hi (pk_psk _ _ Hk) E1 H1') as [_ ->].
  rewrite (opened_fresh h) in E2 by done.
  apply (append_k_psk _ _ _ _ _ _ _ (slot_set_slot _ _ _ _ Hi)) in E2 as [_ ->];
    [|exact (pk_psk _ _ Hk)|done]. rewrite opened_with_th, with_th_twice, set_slot_twice, <- app_assoc in E3. fold th in E3.
  set (si2 := with_th _ _) in E3.
  destruct (handshake_keys_inv _ i si2 h th _ (slot_set_slot _ _ _ _ Hi)
    (psk_keyed_with_th h si th Hk) Hh eq_refl E3) as (c & keys & -> & Hw & Hs & Hst & Hg & Hv).
  rewrite set_slot_twice. exists (with_keys si2 c), keys.
  pose proof (psk_keyed_schedule h si2 c (psk_keyed_with_th h si th Hk) Hs Hw) as Hk'.
  split_and!; try done.
  destruct Hg as (th1 & Hd & Hr). exists th1. split; [done|]. rewrite <- Hr.
  apply schedule_handshake; [done|]. apply Hk'.
Qed.

Lemma exchange_mac ctx i si h th keys n mac :
  session_info ctx !! i = Some si → psk_keyed h si → hash_of_algo (hash_algo ctx) = Some h →
  digest_context_th (session_transcript si) = Some th →
  handshake_keys_of (secured_message_context si) = keys →
  libspdm_calculate_th_hmac_for_exchange_rsp ctx i n = Ret (Some mac) →
  th_mac h th (finished_of keys.2) mac.
Proof.
  intros Hi Hk Hh Hth Hv E. unfold libspdm_calculate_th_hmac_for_exchange_rsp in E. exec_inv E.
  rewrite <- (held_response _ h keys (pk_keyed _ _ Hk) Hv).
  by apply (th_mac_inv ctx i si h th mac libspdm_hmac_all_with_response_finished_key
    (λ c, response_finished_key (handshake_secret c))); [| | | |apply Hk|].
Qed.

(** The HMAC ends message K. *)
Lemma handshake_done_with_mac ctx i si h r th mac keys st ctx' :
  session_info ctx !! i = Some si → psk_keyed h si →
  digest_context_th (session_transcript si) = Some th →
  message_f_initialized (session_transcript si) = false →
  schedule_gives h si th keys → handshake_keys_of (secured_message_context si) = keys →
  th_mac h th (finished_of keys.2) mac →
  libspdm_append_message_k ctx i r mac = Ret (st, ctx') → LIBSPDM_STATUS_IS_ERROR st = false →
  st = LIBSPDM_STATUS_SUCCESS ∧ 
  ∃ si', ctx' = set_slot ctx i si' ∧ same_session si si' ∧ handshake_done h th mac keys si'.
Proof.
  intros Hi Hk Hth Hf Hg Hv Hm E Hst.
  destruct (append_k_psk _ _ _ _ _ _ _ Hi (pk_psk _ _ Hk) E Hst) as [-> ->].
  split; [done|]. exists (with_th si (th ++ mac)). unfold opened. rewrite Hth. cbn [default].
  split_and!; [done|done|]. split; try done. by apply psk_keyed_with_th.
Qed.

Lemma requester_handshake_inv ctx i si h request message mac st ctx' :
  session_info ctx !! i = Some si → fresh h si → hash_of_algo (hash_algo ctx) = Some h →
  blen mac = hash_size_of h →
  requester_handshake ctx i request message mac = Ret (st, ctx') → is_error st = false →
  st = LIBSPDM_STATUS_SUCCESS ∧ ∃ si' keys, ctx' = set_slot ctx i si' ∧ same_session si si' ∧
    handshake_done h (message_a ctx ++ request ++ message) mac keys si'.
Proof.
  intros Hi Hf Hh Hl E Hst. unfold requester_handshake in E.
  exec_inv E. destruct x as [st1 ctx1]. case_if; [injection E as <- <-; congruence|].
  exec_inv E. destruct x as [st2 ctx2]. case_if; [injection E as <- <-; congruence|].
  exec_inv E. destruct x as [ok ctx3]. destruct ok; [|by injection E as <- <-].
  destruct (message_k_keys _ _ _ _ _ _ _ _ _ _ _ _ Hi Hf Hh Hx E0 Hx0 E1 Hx1)
    as (si' & keys & -> & Hk & (S1 & S2 & S3) & Hth & Hfi & Hg & Hv).
  exec_inv E. destruct x; [|by injection E as <- <-]. cbn [negb] in E.
  unfold libspdm_verify_psk_exchange_rsp_hmac in Hx2. exec_inv Hx2. clear Hx3. exec_inv Hx2.
  destruct x0 as [calc|]; [|discriminate].
  pose proof (exchange_mac _ i si' h _ keys _ _ (slot_set_slot _ _ _ _ Hi) Hk Hh Hth Hv Hx3) as Hm.
  apply mem_equal_inv in Hx2 as ->.
  2: { rewrite (th_mac_size _ _ _ _ Hm). symmetry. by apply hash_of_algo_cases. }
  2: { rewrite Hl. symmetry. by apply hash_of_algo_cases. }
  destruct (handshake_done_with_mac _ i si' h _ _ mac keys st ctx' (slot_set_slot _ _ _ _ Hi) Hk
    Hth Hfi Hg Hv Hm E Hst) as (-> & si2 & -> & (T1 & T2 & T3) & Hd).
  split; [done|]. exists si2, keys. rewrite set_slot_twice. split_and!; [done| |done].
  split_and!; congruence.
Qed.

Lemma responder_handshake_inv ctx i si h request response size ctx' response' :
  session_info ctx !! i = Some si → fresh h si → hash_of_algo (hash_algo ctx) = Some h →
  responder_handshake ctx i request response size = Ret (true, ctx', response') →
  ∃ mac si' keys, ctx' = set_slot ctx i si' ∧ same_session si si' ∧
    in_range response 0 size = true ∧ blen mac = hash_size_of h ∧
    store response size mac = Ret response' ∧
    handshake_done h (message_a ctx ++ request ++ sub response 0 size) mac keys si'.
Proof.
  intros Hi Hf Hh E. unfold responder_handshake in E.
  exec_inv E. destruct x as [st1 ctx1]. case_if; [discriminate|].
  exec_inv E. apply load_Ret_inv in Hx0 as [Hr ->].
  exec_inv E. destruct x as [st2 ctx2]. case_if; [discriminate|].
  exec_inv E. destruct x as [ok ctx3]. destruct ok; [|discriminate].
  destruct (message_k_keys _ _ _ _ _ _ _ _ _ _ _ _ Hi Hf Hh Hx E0 Hx0 E1 Hx1)
    as (si' & keys & -> & Hk & (S1 & S2 & S3) & Hth & Hfi & Hg & Hv).
  exec_inv E. destruct x as [mac|]; [|discriminate]. exec_inv E. exec_inv E. exec_inv E.
  destruct x1 as [st3 ctx4]. apply Ret_triple_inv in E as (Hst & -> & ->).
  pose proof (exchange_mac _ i si' h _ keys _ _ (slot_set_slot _ _ _ _ Hi) Hk Hh Hth Hv Hx2) as Hm.
  apply (load_digest _ h) in Hx3 as ->; [|exact Hh|by eapply th_mac_size].
  destruct (handshake_done_with_mac _ i si' h _ _ mac keys st3 ctx' (slot_set_slot _ _ _ _ Hi) Hk
    Hth Hfi Hg Hv Hm Hx5) as (_ & si2 & -> & (T1 & T2 & T3) & Hd); [by destruct (LIBSPDM_STATUS_IS_ERROR st3)|].
  exists mac, si2, keys. rewrite set_slot_twice. split_and!; try done.
  - split_and!; congruence.
  - by eapply th_mac_size.
Qed.

(** *** A new session *)

(** The parts of a context that the session is opened with. *)
Definition opened_with ctx : setup_t * libspdm_exchange_t * list Z :=
  (setup ctx, exchange ctx, lc_secured_message_version ctx).

Lemma opened_with_inv ctx ctx' : opened_with ctx' = opened_with ctx →
  setup ctx' = setup ctx ∧ exchange ctx' = exchange ctx ∧
  lc_secured_message_version ctx' = lc_secured_message_version ctx.
Proof.
  intros E. split_and!; [exact (f_equal (λ p, p.1.1) E)|exact (f_equal (λ p, p.1.2) E)|
    exact (f_equal snd E)].
Qed.

(** The schedule of a session with a PSK and its hint. *)
Definition negotiated_schedule ctx (hint : list Z) :=
  let a := ci_algorithm ctx in
  (ci_version ctx, da_base_hash_algo a, libspdm_get_hash_size (da_base_hash_algo a),
   libspdm_get_aead_key_size (da_aead_cipher_suite a),
   libspdm_get_aead_iv_size (da_aead_cipher_suite a), true, hint).

Lemma setup_hash_algo ctx ctx' h : setup ctx' = setup ctx →
  hash_of_algo (hash_algo ctx) = Some h → hash_of_algo (hash_algo ctx') = Some h.
Proof. intros [= ? ? ? ? ? ? ? Ha]. unfold hash_algo. by rewrite Ha. Qed.

Lemma setup_capabilities ctx ctx' b f g : setup ctx' = setup ctx →
  libspdm_is_capabilities_flag_supported ctx' b f g = libspdm_is_capabilities_flag_supported ctx b f g.
Proof.
  intros [= Hl _ _ _ _ _ Hc _ _ _ _ _]. unfold libspdm_is_capabilities_flag_supported.
  by rewrite Hl, Hc.
Qed.

(** The phase that the responder's context decides. *)
Definition opened_phase ctx (is_requester : bool) : libspdm_session_state_t :=
  if libspdm_is_capabilities_flag_supported ctx is_requester 0
       SPDM_GET_CAPABILITIES_RESPONSE_FLAGS_PSK_CAP_RESPONDER_WITH_CONTEXT
  then LIBSPDM_SESSION_STATE_HANDSHAKING else LIBSPDM_SESSION_STATE_ESTABLISHED.

Lemma setup_phase ctx ctx' b : setup ctx' = setup ctx → opened_phase ctx' b = opened_phase ctx b.
Proof. intros Hs. unfold opened_phase. by rewrite (setup_capabilities _ _ _ _ _ Hs). Qed.

Lemma setup_schedule ctx ctx' hint : setup ctx' = setup ctx →
  negotiated_schedule ctx' hint = negotiated_schedule ctx hint.
Proof. intros [= ? ? ? ? ? Hv ? Ha]. unfold negotiated_schedule. by rewrite Ha, Hv. Qed.

Lemma setup_message_a ctx ctx' : setup ctx' = setup ctx → message_a ctx' = message_a ctx.
Proof. unfold message_a. by intros ->. Qed.

Lemma count_session_with ctx sid psk ctx' : count_session ctx sid psk = Ret ctx' →
  opened_with ctx' = opened_with ctx.
Proof. intros [E _]%count_session_Ret. rewrite E. reflexivity. Qed.

Lemma init_fresh ctx h sid smv ctx' si : hash_of_algo (hash_algo ctx) = Some h →
  libspdm_session_info_init ctx sid smv true = Ret (ctx', si) →
  opened_with ctx' = opened_with ctx ∧ fresh h si ∧
  schedule (secured_message_context si) = negotiated_schedule ctx [] ∧
  session_state (secured_message_context si) = LIBSPDM_SESSION_STATE_NOT_STARTED.
Proof.
  intros Hh E. pose proof (init_shape _ _ _ _ _ _ E) as Hi.
  unfold libspdm_session_info_init in E. exec_inv E. exec_inv E. injection E as <- <-.
  apply count_session_with in Hx. split; [done|].
  apply opened_with_inv in Hx as ([= _ _ _ _ _ Hv _ Ha _ _ _ _] & _ & _).
  split_and!.
  - split; [split|done|done]; try apply Hi; try done.
    + cbn. by case_if.
    + unfold keyed, hash_algo in *. rewrite <- Ha in Hh. cbn. split; [by case_if|].
      destruct (hash_of_algo_cases _ _ Hh) as [Hs _]. by case_if.
  - unfold schedule, negotiated_schedule. rewrite <- Ha, <- Hv. cbn. by case_if.
  - cbn. by case_if.
Qed.

Lemma find_slot_taken sid slots i old si n : slots !! i = Some old → session_id si = sid →
  find_slot sid slots n = None → find_slot sid (<[i := si]> slots) n = Some (n + i)%nat.
Proof.
  intros Hi Hid. revert i n Hi. induction slots as [|s slots IH]; intros [|i] n Hi Ef; cbn in *; try done.
  - rewrite Hid, Z.eqb_refl. f_equal. lia.
  - destruct (session_id s =? sid); [done|]. etransitivity; [by apply (IH i (S n))|f_equal; lia].
Qed.

Lemma assign_fresh ctx h sid smv ctx' i : hash_of_algo (hash_algo ctx) = Some h →
  libspdm_assign_session_id ctx sid smv true = Ret (ctx', Some i) →
  sid ≠ INVALID_SESSION_ID ∧ opened_with ctx' = opened_with ctx ∧
  find_slot sid (session_info ctx') 0 = Some i ∧
  ∃ si, session_info ctx' !! i = Some si ∧ session_id si = sid ∧ fresh h si ∧
    schedule (secured_message_context si) = negotiated_schedule ctx [] ∧
    session_state (secured_message_context si) = LIBSPDM_SESSION_STATE_NOT_STARTED.
Proof.
  intros Hh. unfold libspdm_assign_session_id.
  destruct (Z.eqb_spec sid INVALID_SESSION_ID) as [|Hs]; [intros E; exec_inv E; discriminate|].
  destruct (find_slot sid _ 0) as [j|] eqn:Ef; [intros E; exec_inv E; discriminate|].
  destruct (find_slot INVALID_SESSION_ID _ 0) as [k|] eqn:E0; [|discriminate].
  intros E. exec_inv E. destruct x as [c si]. cbn in E. injection E as <- <-.
  pose proof (init_shape _ _ _ _ _ _ Hx) as Hin.
  apply (init_fresh _ h) in Hx as (Hw & Hf & Hsc & Hst); [|done].
  apply find_slot_Some in E0 as (old & _ & Hi & Ho). rewrite Nat.sub_0_r in Hi.
  assert (Es : session_info c = session_info ctx) by (rewrite (in_ctx _ _ _ _ _ Hin); done).
  split; [done|]. split; [exact Hw|]. cbn. rewrite Es. split.
  - apply (find_slot_taken _ _ _ old _ 0); [done|apply Hin|done].
  - exists si. split_and!; try done; [|apply Hin].
    apply list_lookup_insert_Some. left. split_and!; try done. by eapply lookup_lt_Some.
Qed.

(** The hint that is stored. *)
Definition hint_bytes (hint : option (list Z)) (size : Z) : list Z :=
  match hint with Some p => if 0 <? size then sub p 0 size else [] | None => [] end.

Lemma set_psk_hint_inv c hint size c' ctx :
  libspdm_secured_message_set_psk_hint c hint size = Ret c' → ctx_wf c →
  schedule c = negotiated_schedule ctx [] → (∀ p, hint = Some p → bytes_ok p) →
  ctx_wf c' ∧ schedule c' = negotiated_schedule ctx (hint_bytes hint size) ∧
  session_state c' = session_state c.
Proof.
  intros E Hw Hs Hb. destruct hint as [p|]; [|by injection E as <-].
  assert (Hwp : wp (libspdm_secured_message_set_psk_hint c (Some p) size) ctx_wf → ctx_wf c')
    by (by rewrite E). unfold libspdm_secured_message_set_psk_hint in E. unfold hint_bytes.
  destruct (Z.ltb_spec 0 size) as [Hz|]; [|by injection E as <-].
  exec_inv E. apply load_Ret_inv in Hx as [Hr ->]. exec_inv E. injection E as <-.
  cbn in Hx. apply store_Ret_inv in Hx as [Hr2 ->].
  assert (Hl : blen (sub p 0 size) = size) by (rewrite length_sub by done; lia).
  pose proof Hw as (_ & _ & _ & _ & _ & [Hp _] & _).
  split; [|split; [|done]].
  - apply Hwp, set_psk_hint_wf; [done| |].
    + rewrite Hl, in_range_iff in Hr2. lia.
    + intros ? [= <-]. split; [by apply Hb|]. rewrite in_range_iff in Hr. lia.
  - revert Hs. unfold schedule, negotiated_schedule. cbn. intros [= -> -> -> -> -> -> _].
    f_equal. rewrite <- Hl at 2. by apply sub_upd_same.
Qed.

Lemma setup_inv ctx h i si hint size smv limit ctx' :
  session_info ctx !! i = Some si → fresh h si →
  schedule (secured_message_context si) = negotiated_schedule ctx [] →
  (∀ p, hint = Some p → bytes_ok p) →
  setup_psk_session ctx i hint size smv limit = Ret ctx' →
  ∃ si', ctx' = set_slot ctx i si' ∧ fresh h si' ∧ session_id si' = session_id si ∧
    schedule (secured_message_context si') = negotiated_schedule ctx (hint_bytes hint size) ∧
    session_state (secured_message_context si') = session_state (secured_message_context si).
Proof.
  intros Hi [Hk Hth Hf] Hs Hb E. unfold setup_psk_session in E. rewrite (slot_in _ _ _ Hi) in E.
  cbn [mbind exec_bind] in E. exec_inv E. injection E as <-.
  unfold libspdm_session_info_set_psk_hint in Hx. exec_inv Hx. injection Hx as <-.
  destruct (set_psk_hint_inv _ _ _ _ ctx Hx0 (pk_wf _ _ Hk) Hs Hb) as (Hw & Hs' & Hst).
  eexists. split; [reflexivity|]. destruct Hk as [Hp Hu [Hk Hn] _].
  assert (Hk' : psk_keyed h (si <| secured_message_context := x0 |>)).
  { revert Hs Hs'. unfold schedule, negotiated_schedule. intros [= E1 E2 E3 E4 E5 E6 _].
    intros [= E1' E2' E3' E4' E5' E6' _]. split; [done|exact E6'| |exact Hw].
    split; cbn; congruence. }
  destruct Hk' as [Hp' Hu' Hk' Hw'].
  case_if; (split_and!; [split; [split; done|done|done]|done|done|done]).
Qed.

(** *** The application phase *)

(** The session has the data keys that the schedule gives for the transcript. *)
Definition has_data_keys (h : hash_alg) (th : list Z) si : Prop :=
  ∃ th2, hal_hash_final h th = (true, th2) ∧
    session_data_reference (secured_message_context si) h th2 =
      Some (data_keys_of (secured_message_context si)).

Lemma data_keys_inv ctx i si h th ctx' :
  session_info ctx !! i = Some si → psk_keyed h si → hash_of_algo (hash_algo ctx) = Some h →
  digest_context_th (session_transcript si) = Some th →
  data_keys ctx i = Ret (true, ctx') →
  ∃ c, ctx' = set_slot ctx i (with_keys si c) ∧ psk_keyed h (with_keys si c) ∧
    same_session si (with_keys si c) ∧ has_data_keys h th (with_keys si c).
Proof.
  intros Hi Hk Hh Hth. unfold data_keys, libspdm_calculate_th2_hash,
    libspdm_calculate_th_hash_for_finish. intros E. exec_inv E.
  destruct x as [th2|]; [|discriminate]. exec_inv Hx. clear Hx0.
  destruct (th_digest_inv _ _ _ _ _ Hi Hth Hx) as (h' & Hh' & Hd).
  assert (h' = h) as -> by congruence.
  unfold with_session_keys in E. rewrite (slot_in _ _ _ Hi) in E. cbn [mbind exec_bind] in E.
  exec_inv E. destruct x0 as [result c]. injection E as -> <-.
  pose proof (proj1 (hash_final_out h th)) as Hl. rewrite Hd in Hl. cbn in Hl.
  pose proof Hk as [Hp Hu Hke Hw].
  destruct (generate_session_data_key_spec (secured_message_context si) h th2 Hw Hke Hl)
    as (c' & E & Hw' & _ & Hv).
  rewrite E in Hx0. injection Hx0 as Hr ->.
  destruct (session_data_reference (secured_message_context si) h th2) as [keys|] eqn:Er;
    [|discriminate].
  destruct (data_frame _ _ _ _ E) as [Hs Hst]. destruct (Hv _ eq_refl) as [Hkeys _].
  exists c. split_and!; [done|by apply psk_keyed_schedule|done|].
  exists th2. split; [done|]. cbn. rewrite Hkeys, <- Er. apply schedule_data; [done|].
  apply (pk_use h _ (psk_keyed_schedule h si c Hk Hs Hw')).
Qed.

(** *** An open session *)

(** The session that a PSK_EXCHANGE opens: message K is [th] and the HMAC [mac] of
    the responder, which verifies; the keys of the phase the session is in are
    those that the schedule gives. *)
Definition psk_opened (h : hash_alg) (th mac : list Z) si : Prop :=
  psk_keyed h si ∧ digest_context_th (session_transcript si) = Some (th ++ mac) ∧
  message_f_initialized (session_transcript si) = false ∧
  ∃ keys, schedule_gives h si th keys ∧ th_mac h th (finished_of keys.2) mac ∧
    match session_state (secured_message_context si) with
    | LIBSPDM_SESSION_STATE_HANDSHAKING =>
        handshake_keys_of (secured_message_context si) = keys
    | LIBSPDM_SESSION_STATE_ESTABLISHED => has_data_keys h (th ++ mac) si
    | _ => False
    end.

Definition with_state si (s : libspdm_session_state_t) : libspdm_session_info_t :=
  si <| secured_message_context :=
    libspdm_secured_message_set_session_state (secured_message_context si) s |>.

Lemma psk_keyed_with_state h si s : psk_keyed h si → psk_keyed h (with_state si s).
Proof.
  intros [Hp Hu [Hk Hn] Hw].
  assert (Hw' := set_session_state_wf _ s Hw).
  split; [done| | |exact Hw']; [|split]; cbn; unfold libspdm_secured_message_set_session_state;
    by case_decide.
Qed.

Lemma schedule_with_state si s :
  schedule (secured_message_context (with_state si s)) = schedule (secured_message_context si).
Proof. cbn. unfold libspdm_secured_message_set_session_state. by case_decide. Qed.

Lemma schedule_gives_same h si si' th keys : use_psk (secured_message_context si) = true →
  schedule (secured_message_context si') = schedule (secured_message_context si) →
  schedule_gives h si th keys → schedule_gives h si' th keys.
Proof.
  intros Hu Hs (th1 & Hd & Hr). exists th1. split; [done|].
  rewrite <- Hr. symmetry. by apply schedule_handshake.
Qed.

(** The session is in the handshake phase. *)
Lemma opened_handshaking h th mac keys si : handshake_done h th mac keys si →
  psk_opened h th mac (with_state si LIBSPDM_SESSION_STATE_HANDSHAKING).
Proof.
  intros [Hk Hth Hf Hg Hm Hv]. split; [by apply psk_keyed_with_state|].
  split; [exact Hth|]. split; [exact Hf|]. exists keys. split; [|by split].
  apply (schedule_gives_same h si); [apply Hk|apply schedule_with_state|done].
Qed.

(** And enters the application phase. *)
Lemma opened_established h th mac si c : psk_opened h th mac si →
  psk_keyed h (with_keys si c) → same_session si (with_keys si c) →
  has_data_keys h (th ++ mac) (with_keys si c) →
  psk_opened h th mac (with_state (with_keys si c) LIBSPDM_SESSION_STATE_ESTABLISHED).
Proof.
  intros (Hk & Hth & Hf & keys & Hg & Hm & _) Hk' (_ & Hs & _) (th2 & Hd & Hr).
  split; [by apply psk_keyed_with_state|]. split; [exact Hth|]. split; [exact Hf|].
  exists keys. split; [|split; [done|]].
  - apply (schedule_gives_same h si); [apply Hk|by rewrite schedule_with_state|done].
  - cbn. exists th2. split; [done|]. transitivity (session_data_reference c h th2); [|exact Hr].
    apply schedule_data; [reflexivity|apply Hk'].
Qed.

Lemma requester_enter_inv ctx i si h th mac keys policy st ctx' :
  session_info ctx !! i = Some si → hash_of_algo (hash_algo ctx) = Some h →
  handshake_done h th mac keys si →
  requester_enter ctx i policy = Ret (st, ctx') → is_error st = false →
  st = LIBSPDM_STATUS_SUCCESS ∧ ∃ si', ctx' = set_slot ctx i si' ∧ psk_opened h th mac si' ∧
    session_id si' = session_id si ∧
    schedule (secured_message_context si') = schedule (secured_message_context si) ∧
    session_state (secured_message_context si') = opened_phase ctx true.
Proof.
  intros Hi Hh Hd E Hst. unfold requester_enter in E. rewrite (slot_in _ _ _ Hi) in E.
  cbn [mbind exec_bind] in E. set (si1 := si <| session_policy := policy |>) in E.
  assert (Hd1 : handshake_done h th mac keys si1) by (destruct Hd as [[] ? ? ? ? ?]; by split).
  unfold set_psk_session_state in E.
  rewrite (slot_in _ _ _ (slot_set_slot _ _ _ _ Hi)) in E.
  cbn [mbind exec_bind] in E. rewrite set_slot_twice in E. fold (with_state si1 LIBSPDM_SESSION_STATE_HANDSHAKING) in E.
  pose proof (opened_handshaking _ _ _ _ _ Hd1) as Ho.
  set (si2 := with_state si1 LIBSPDM_SESSION_STATE_HANDSHAKING) in *.
  unfold opened_phase. change (libspdm_is_capabilities_flag_supported (set_slot ctx i si2))
    with (libspdm_is_capabilities_flag_supported ctx) in E.
  destruct (libspdm_is_capabilities_flag_supported ctx true 0 _); cbn [negb] in E.
  2: { exec_inv E. destruct x as [ok ctx1]. destruct ok; [|by injection E as <- <-].
    destruct (data_keys_inv _ i si2 h (th ++ mac) _ (slot_set_slot _ _ _ _ Hi) (proj1 Ho) Hh
      (proj1 (proj2 Ho)) Hx) as (c & -> & Hk & Hs & Hdk).
    rewrite set_slot_twice in E. cbn [negb] in E.
    rewrite (slot_in _ _ _ (slot_set_slot _ _ _ _ Hi)) in E.
    cbn [mbind exec_bind] in E. rewrite set_slot_twice in E. injection E as <- <-. split; [done|].
    exists (with_state (with_keys si2 c) LIBSPDM_SESSION_STATE_ESTABLISHED).
    split; [reflexivity|]. split; [by apply opened_established|].
    split; [done|]. split; [|done].
    etransitivity; [apply (schedule_with_state (with_keys si2 c))|apply Hs]. }
  injection E as <- <-. split; [done|]. by exists si2.
Qed.

(** ** The requester *)

Lemma accept_inv ctx args outs h i si version limit period request message mac
    summary ctx' outs' :
  session_info ctx !! i = Some si → hash_of_algo (hash_algo ctx) = Some h → fresh h si →
  schedule (secured_message_context si) = negotiated_schedule ctx [] →
  (∀ p, pa_psk_hint args = Some p → bytes_ok p) → blen mac = hash_size_of h →
  accept_psk_session ctx args outs i version limit period request message mac summary =
    Ret (LIBSPDM_STATUS_SUCCESS, ctx', outs') →
  ∃ si', session_info ctx' !! i = Some si' ∧ session_id si' = session_id si ∧
    psk_opened h (message_a ctx ++ request ++ message) mac si' ∧
    schedule (secured_message_context si') =
      negotiated_schedule ctx (hint_bytes (pa_psk_hint args) (pa_psk_hint_size args)) ∧
    session_state (secured_message_context si') = opened_phase ctx true ∧
    po_session_id outs' = po_session_id outs.
Proof.
  intros Hi Hh Hf Hs Hb Hl E. unfold accept_psk_session in E. exec_inv E.
  destruct (setup_inv _ _ _ _ _ _ _ _ _ Hi Hf Hs Hb Hx) as (si1 & -> & Hf1 & Hid1 & Hs1 & Hst1).
  exec_inv E. destruct x as [st1 ctx1]. case_if; [exec_inv E; by injection E as -> <- <-|].
  destruct (requester_handshake_inv _ i si1 h _ _ _ _ _ (slot_set_slot _ _ _ _ Hi) Hf1 Hh Hl Hx0 E0)
    as (-> & si2 & keys & -> & (Hid2 & Hs2 & Hst2) & Hd).
  rewrite set_slot_twice in E. exec_inv E. clear Hx1. exec_inv E. destruct x0 as [st2 ctx2].
  case_if; [exec_inv E; by injection E as -> <- <-|].
  destruct (requester_enter_inv _ i si2 h _ _ keys _ _ _ (slot_set_slot _ _ _ _ Hi) Hh Hd Hx1 E1)
    as (-> & si3 & -> & Ho & Hid3 & Hs3 & Hp3).
  rewrite set_slot_twice in E. rewrite (slot_in _ _ _ (slot_set_slot _ _ _ _ Hi)) in E.
  cbn [mbind exec_bind] in E. rewrite set_slot_twice in E. injection E as <- <-.
  exists (si3 <| heartbeat_period := period |>).
  split; [exact (slot_set_slot _ _ _ _ Hi)|]. split; [cbn; congruence|].
  split; [|split; [cbn; congruence|by split]].
  destruct Ho as ([? ? ? ?] & Ho). split; [by split|exact Ho].
Qed.

Lemma process_inv ctx args outs h rid n response ctx' outs' :
  hash_of_algo (hash_algo ctx) = Some h → (∀ p, pa_psk_hint args = Some p → bytes_ok p) →
  process_psk_exchange_rsp ctx args outs rid n response = Ret (LIBSPDM_STATUS_SUCCESS, ctx', outs') →
  ∃ p i si, read_psk_exchange_response response = Ret p ∧
    po_session_id outs' = libspdm_generate_session_id rid (pp_rsp_session_id p) ∧
    session_info ctx' !! i = Some si ∧ session_id si = po_session_id outs' ∧
    schedule (secured_message_context si) =
      negotiated_schedule ctx (hint_bytes (pa_psk_hint args) (pa_psk_hint_size args)) ∧
    session_state (secured_message_context si) = opened_phase ctx true ∧
    let size := sizeof_spdm_psk_exchange_response
      + libspdm_get_measurement_summary_hash_size ctx true (pa_measurement_hash_type args)
      + pp_context_length p + pp_opaque_length p in
    in_range (last_spdm_request (exchange ctx)) 0 n = true ∧
    in_range response 0 size = true ∧ in_range response size (hash_size_of h) = true ∧
    psk_opened h
      (message_a ctx ++ sub (last_spdm_request (exchange ctx)) 0 n ++ sub response 0 size)
      (sub response size (hash_size_of h)) si.
Proof.
  intros Hh Hb E. unfold process_psk_exchange_rsp in E. exec_inv E. rename x into p.
  case_if; [discriminate|]. case_if; [discriminate|]. exec_inv E. exec_inv E.
  destruct x0 as [[version limit]|]; [|discriminate].
  case_if; [discriminate|]. case_if; [discriminate|]. exec_inv E. exec_inv E. exec_inv E.
  destruct x2 as [copied|]; [|discriminate]. exec_inv E. destruct x2 as [ctx1 [i|]]; [|discriminate].
  destruct (assign_fresh _ h _ _ _ _ Hh Hx5) as (_ & Hw & _ & si & Hi & Hid & Hf & Hs & _).
  apply opened_with_inv in Hw as (Ws & Wx & _).
  exec_inv E. exec_inv E. exec_inv E. exec_inv E.
  apply load_Ret_inv in Hx6 as [R1 ->]. apply load_Ret_inv in Hx7 as [R2 ->].
  assert (Hds : digest_size ctx = hash_size_of h) by by apply hash_of_algo_cases.
  rewrite Hds in Hx8. apply load_Ret_inv in Hx8 as [R3 ->].
  assert (Hh1 := setup_hash_algo _ _ _ Ws Hh). rewrite <- (setup_schedule _ _ [] Ws) in Hs.
  destruct (accept_inv _ _ _ h i si _ _ _ _ _ _ _ _ _ Hi Hh1 Hf Hs Hb
    ltac:(rewrite length_sub by done; pose proof (hash_size_range h); lia) E)
    as (si' & Hi' & Hid' & Ho & Hs' & Hp' & Hid2).
  exists p, i, si'. split; [done|]. split; [by rewrite Hid2|]. split; [done|].
  split; [rewrite Hid2; cbn; congruence|]. split; [by rewrite Hs', (setup_schedule _ _ _ Ws)|].
  split; [by rewrite Hp', (setup_phase _ _ _ Ws)|]. cbv zeta.
  rewrite Wx in R1, Ho. rewrite (setup_message_a _ _ Ws) in Ho. by split_and!.
Qed.

(** ** The responder *)

(** A slot in which only transcripts that the session does not use may differ. *)
Record slot_kept si si' : Prop := {
  sk_id : session_id si' = session_id si;
  sk_psk : si_use_psk si' = si_use_psk si;
  sk_keys : secured_message_context si' = secured_message_context si;
  sk_th : digest_context_th (session_transcript si') = digest_context_th (session_transcript si);
  sk_f : message_f_initialized (session_transcript si') =
         message_f_initialized (session_transcript si);
}.

Definition kept_at (i : nat) ctx ctx' : Prop :=
  setup ctx' = setup ctx ∧
  ∀ si, session_info ctx !! i = Some si →
    ∃ si', session_info ctx' !! i = Some si' ∧ slot_kept si si'.

Lemma kept_same i ctx ctx' : setup ctx' = setup ctx → session_info ctx' = session_info ctx →
  kept_at i ctx ctx'.
Proof. intros Hs Hi. split; [done|]. intros si. rewrite Hi. intros Hsi. exists si. by split. Qed.

Lemma kept_at_trans i ctx1 ctx2 ctx3 : kept_at i ctx1 ctx2 → kept_at i ctx2 ctx3 → kept_at i ctx1 ctx3.
Proof.
  intros [S1 K1] [S2 K2]. split; [congruence|]. intros si Hi.
  destruct (K1 si Hi) as (si1 & Hi1 & []). destruct (K2 si1 Hi1) as (si2 & Hi2 & []).
  exists si2. split; [done|]. split; congruence.
Qed.

Lemma kept_notify i ctx b n : kept_at i ctx (notify ctx b n).
Proof. apply kept_same; by destruct b. Qed.

Lemma kept_reset_transcript i ctx j f :
  (∀ t, digest_context_th (f t) = digest_context_th t ∧
        message_f_initialized (f t) = message_f_initialized t) →
  kept_at i ctx (reset_session_transcript ctx j f).
Proof.
  intros Hf. unfold reset_session_transcript.
  destruct (session_info ctx !! j) as [sj|] eqn:Hj; [|by apply kept_same].
  split; [done|]. intros si Hi. destruct (decide (i = j)) as [->|Hn].
  - eexists. split; [by eapply slot_set_slot|]. assert (si = sj) as -> by congruence.
    by split; try apply Hf.
  - exists si. split; [|done]. cbn. by rewrite list_lookup_insert_ne.
Qed.

Lemma kept_via_request_code i ctx s code :
  kept_at i ctx (libspdm_reset_message_buffer_via_request_code ctx s code).
Proof.
  assert (Hif : ∀ (b : bool) c1 c2 c, kept_at i c c1 → kept_at i c c2 → kept_at i c (if b then c1 else c2))
    by (by intros []).
  assert (Hm : ∀ c, kept_at i c (libspdm_reset_message_m c s)).
  { intros c. unfold libspdm_reset_message_m. eapply kept_at_trans; [|apply kept_notify].
    destruct s; [by apply kept_reset_transcript|by apply kept_same]. }
  assert (He : ∀ c, kept_at i c (libspdm_reset_message_encap_e (libspdm_reset_message_e c s) s)).
  { intros c. destruct s; [|by apply kept_same].
    eapply kept_at_trans; by apply kept_reset_transcript. }
  unfold libspdm_reset_message_buffer_via_request_code. cbv zeta.
  eapply kept_at_trans with (if negb (code =? SPDM_GET_DIGESTS)
       && negb (connection_state_below ctx LIBSPDM_CONNECTION_STATE_NEGOTIATED)
    then set_exchange ctx (λ x, x <| digest_transcript_window_closed := true |>) else ctx).
  { apply Hif; by apply kept_same. }
  set (c := if _ && _ then _ else _). clearbody c. clear ctx. rename c into ctx.
  eapply kept_at_trans with (if negb (code =? SPDM_GET_MEASUREMENTS)
    then libspdm_reset_message_m ctx s else ctx).
  { apply Hif; [apply Hm|by apply kept_same]. }
  set (c := if negb (code =? SPDM_GET_MEASUREMENTS) then _ else _). clearbody c.
  repeat (apply Hif; [|]); try (by apply kept_same). apply He.
Qed.

Lemma set_state_inv ctx sid i si s ctx' : sid ≠ INVALID_SESSION_ID →
  find_slot sid (session_info ctx) 0 = Some i → session_info ctx !! i = Some si →
  session_state (secured_message_context si) ≠ s →
  libspdm_set_session_state ctx sid s = Ret ctx' →
  setup ctx' = setup ctx ∧ session_info ctx' = <[i := with_state si s]> (session_info ctx).
Proof.
  intros Hs Hf Hi Hn. unfold libspdm_set_session_state, libspdm_get_session_info_via_session_id.
  rewrite (proj2 (Z.eqb_neq _ _) Hs), Hf, (slot_in _ _ _ Hi). cbn [mbind exec_bind].
  unfold libspdm_secured_message_get_session_state. rewrite bool_decide_true by done.
  intros [= <-]. unfold libspdm_trigger_session_state_callback. split; [by rewrite setup_notify|].
  by destruct (spdm_session_state_callback _).
Qed.

(** With no session the slots stay as they are. *)
Lemma slots_via_request_code ctx code :
  let ctx' := libspdm_reset_message_buffer_via_request_code ctx None code in
  session_info ctx' = session_info ctx ∧
  lc_secured_message_version ctx' = lc_secured_message_version ctx.
Proof.
  set (P c := session_info c = session_info ctx ∧
              lc_secured_message_version c = lc_secured_message_version ctx).
  assert (Hif : ∀ (b : bool) c1 c2, P c1 → P c2 → P (if b then c1 else c2)) by (by intros []).
  assert (Hn : ∀ c b n, P c → P (notify c b n)) by (by intros ? []).
  intros ctx'. change (P ctx'). unfold ctx'. clear ctx'.
  unfold libspdm_reset_message_buffer_via_request_code, libspdm_reset_message_m. cbv zeta.
  repeat first [apply Hif | apply Hn | done].
Qed.

Section with_services.
Context `{SessionServices}.

(** Without a context of the responder the session enters the application phase. *)
Lemma responder_application_inv ctx i si h th mac sid ctx' : sid ≠ INVALID_SESSION_ID →
  find_slot sid (session_info ctx) 0 = Some i → session_info ctx !! i = Some si →
  hash_of_algo (hash_algo ctx) = Some h → psk_opened h th mac si →
  session_state (secured_message_context si) ≠ LIBSPDM_SESSION_STATE_ESTABLISHED →
  responder_application ctx i sid = Ret (true, ctx') →
  ∃ si', session_info ctx' !! i = Some si' ∧ psk_opened h th mac si' ∧
    session_id si' = session_id si ∧
    schedule (secured_message_context si') = schedule (secured_message_context si) ∧
    session_state (secured_message_context si') = LIBSPDM_SESSION_STATE_ESTABLISHED.
Proof.
  intros Hs Hf Hi Hh Ho Hn E. unfold responder_application in E. exec_inv E.
  destruct x as [ok ctx1]. destruct ok; [|discriminate]. cbn [negb] in E.
  pose proof Ho as (Hk & Hth & _).
  destruct (data_keys_inv ctx i si h (th ++ mac) _ Hi Hk Hh Hth Hx) as (c & -> & Hk' & Hss & Hdk).
  destruct (start_watchdog _ sid) as [ok ctx2] eqn:Ew. destruct ok; [|discriminate]. cbn [negb] in E.
  assert (Hw : session_info ctx2 = session_info (set_slot ctx i (with_keys si c))).
  { unfold start_watchdog in Ew. case_if; [injection Ew as _ <-|injection Ew as <-]; done. }
  exec_inv E. injection E as <-. pose proof Hss as (Hid & Hsch & Hst).
  apply (set_state_inv _ _ i (with_keys si c)) in Hx0 as [_ Hx0]; [|done|..].
  - exists (with_state (with_keys si c) LIBSPDM_SESSION_STATE_ESTABLISHED).
    rewrite Hx0. split; [|split; [by apply opened_established|]].
    + apply list_lookup_insert_Some. left. split_and!; try done. rewrite Hw. cbn.
      rewrite length_insert. by eapply lookup_lt_Some.
    + split; [done|]. split; [|done].
      etransitivity; [apply (schedule_with_state (with_keys si c))|done].
  - rewrite Hw. cbn. rewrite (find_slot_same _ _ _ _ _ _ Hi Hid). done.
  - rewrite Hw. by eapply slot_set_slot.
  - by rewrite Hst.
Qed.

Lemma opened_update h th mac si policy period : psk_opened h th mac si →
  psk_opened h th mac (si <| session_policy := policy |> <| heartbeat_period := period |>).
Proof. intros ([? ? ? ?] & Ho). split; [by split|exact Ho]. Qed.

Lemma psk_hint_ok q : bytes_ok (pq_psk_hint q) → ∀ p, psk_hint_pointer q = Some p → bytes_ok p.
Proof. unfold psk_hint_pointer. intros Hb p. case_if; [done|]. by intros [= <-]. Qed.

Lemma psk_hint_bytes q : hint_bytes (psk_hint_pointer q) (blen (pq_psk_hint q)) = pq_psk_hint q.
Proof.
  unfold hint_bytes, psk_hint_pointer. destruct (Z.eqb_spec (blen (pq_psk_hint q)) 0) as [E|E].
  - by destruct (pq_psk_hint q).
  - replace (0 <? blen (pq_psk_hint q)) with true by lia. apply sub_all.
Qed.

Lemma open_inv ctx i si h q o sid rsid summary request response rng ctx' response' rng' :
  sid ≠ INVALID_SESSION_ID → find_slot sid (session_info ctx) 0 = Some i →
  session_info ctx !! i = Some si → hash_of_algo (hash_algo ctx) = Some h → fresh h si →
  session_id si = sid → schedule (secured_message_context si) = negotiated_schedule ctx [] →
  session_state (secured_message_context si) = LIBSPDM_SESSION_STATE_NOT_STARTED →
  bytes_ok (pq_psk_hint q) →
  open_psk_session ctx i q o sid rsid summary request response rng =
    Ret (true, ctx', response', rng') →
  ∃ ctx1 size m mac si', setup ctx1 = setup ctx ∧
    lc_secured_message_version ctx1 = lc_secured_message_version ctx ∧
    fill_psk_exchange_response ctx1 q o summary rsid response rng = Ret (Some size, m, rng') ∧
    in_range m 0 size = true ∧ blen mac = hash_size_of h ∧ store m size mac = Ret response' ∧
    session_info ctx' !! i = Some si' ∧ session_id si' = sid ∧
    schedule (secured_message_context si') = negotiated_schedule ctx (pq_psk_hint q) ∧
    session_state (secured_message_context si') = opened_phase ctx false ∧
    psk_opened h (message_a ctx ++ request ++ sub m 0 size) mac si'.
Proof.
  intros Hs Hfs Hi Hh Hf Hid Hsc Hst Hb E. unfold open_psk_session in E. exec_inv E.
  destruct (setup_inv _ _ _ _ _ _ _ _ _ Hi Hf Hsc (psk_hint_ok q Hb) Hx)
    as (si1 & -> & Hf1 & Hid1 & Hsc1 & Hst1).
  exec_inv E. destruct x as [[filled m] rng1]. 
  set (ctx1 := libspdm_reset_message_buffer_via_request_code _ None _) in *.
  assert (Hsu : setup ctx1 = setup ctx) by exact (setup_via_request_code (set_slot ctx i si1) _).
  pose proof (slots_via_request_code (set_slot ctx i si1) (request_response_code (pq_header q)))
    as Hsl. fold ctx1 in Hsl. cbv zeta in Hsl.
  assert (Hi1 : session_info ctx1 !! i = Some si1).
  { rewrite (proj1 Hsl). by eapply slot_set_slot. }
  assert (Hfs1 : find_slot sid (session_info ctx1) 0 = Some i).
  { rewrite (proj1 Hsl). cbn.
    by rewrite (find_slot_same _ _ _ _ _ _ Hi Hid1). }
  destruct filled as [size|]; [|discriminate].
  exec_inv E. destruct x as [[ok ctx2] response2]. destruct ok; [|discriminate]. cbn [negb] in E.
  destruct (responder_handshake_inv _ _ _ _ _ _ _ _ _ Hi1 Hf1 (setup_hash_algo _ _ _ Hsu Hh) Hx1)
    as (mac & si2 & keys & -> & (Hid2 & Hsc2 & Hst2) & Hr & Hl & Hm & Hd).
  rewrite (slot_in _ _ _ (slot_set_slot _ _ _ _ Hi1)) in E. cbn [mbind exec_bind] in E.
  rewrite set_slot_twice in E.
  set (si3 := if _ <=? _ then _ else _) in E.
  assert (Hd3 : handshake_done h (message_a ctx1 ++ request ++ sub m 0 size) mac keys si3).
  { unfold si3. case_if; [|done]. destruct Hd as [[] ? ? ? ? ?]. by split. }
  assert (E3 : session_id si3 = sid ∧ schedule (secured_message_context si3) =
      schedule (secured_message_context si2) ∧ session_state (secured_message_context si3) =
      LIBSPDM_SESSION_STATE_NOT_STARTED).
  { unfold si3. case_if; cbn; split_and!; try done; congruence. }
  clearbody si3. destruct E3 as (Hid3 & Hsc3 & Hst3).
  exec_inv E. apply (set_state_inv _ _ i si3) in Hx2 as [Hsu2 Hi2]; [|done|..].
  2: { cbn. by rewrite (find_slot_same _ _ _ _ _ _ Hi1) by congruence. }
  2: { by eapply slot_set_slot. }
  2: { by rewrite Hst3. }
  cbn in Hi2. rewrite list_insert_insert, decide_True in Hi2 by done.
  pose proof (opened_handshaking _ _ _ _ _ Hd3) as Ho.
  exec_inv E. destruct x0 as [ok ctx3]. destruct ok; [|discriminate]. cbn [negb] in E.
  exec_inv E. apply slot_inv in Hx3. injection E as <- <- <-.
  assert (Hlast : psk_opened h (message_a ctx1 ++ request ++ sub m 0 size) mac x0 ∧
    session_id x0 = sid ∧ schedule (secured_message_context x0) =
    schedule (secured_message_context si3) ∧
    session_state (secured_message_context x0) = opened_phase ctx false).
  { assert (Hix : session_info x !! i = Some (with_state si3 LIBSPDM_SESSION_STATE_HANDSHAKING)).
    { rewrite Hi2. apply list_lookup_insert_Some. left. split_and!; try done. by eapply lookup_lt_Some. }
    assert (Hp : opened_phase x false = opened_phase ctx false)
      by (apply setup_phase; rewrite Hsu2; exact Hsu).
    rewrite <- Hp. unfold opened_phase. unfold with_context in Hx2.
    destruct (libspdm_is_capabilities_flag_supported x false 0 _).
    - injection Hx2 as <-. rewrite Hix in Hx3. injection Hx3 as <-.
      split; [exact Ho|]. split; [exact Hid3|]. split; [apply schedule_with_state|done].
    - eapply responder_application_inv in Hx2 as (si4 & Hi4 & Ho4 & Hid4 & Hsc4 & Hp4);
        [|exact Hs| |exact Hix| |exact Ho|done].
      + assert (x0 = si4) as -> by congruence. split; [done|]. split; [by rewrite Hid4|].
        split; [|done]. rewrite Hsc4. apply schedule_with_state.
      + rewrite Hi2. rewrite (find_slot_same _ _ si1 _ sid _ Hi1); [done|cbn; congruence].
      + eapply setup_hash_algo; [exact Hsu2|]. by eapply setup_hash_algo. }
  destruct Hlast as (Hol & Hidl & Hscl & Hpl).
  exists ctx1, size, m, mac, (x0 <| heartbeat_period :=
    if heartbeat_supported ctx3 false then lc_heartbeat_period (exchange ctx3) else 0 |>).
  split_and!; try done.
  - apply Hsl.
  - eapply slot_set_slot; exact Hx3.
  - cbn. by rewrite Hscl, Hsc3, Hsc2, Hsc1, psk_hint_bytes.
  - rewrite <- (setup_message_a _ _ Hsu). destruct Hol as ([? ? ? ?] & Hol). split; [by split|exact Hol].
Qed.

(** *** The fields of the response *)

Definition psk_response_header (v period rsp_session_id context_length opaque_length : Z) : list Z :=
  [v; SPDM_PSK_EXCHANGE_RSP; period; 0] ++ (le_bytes 2 rsp_session_id ++ le_bytes 2 0)
  ++ le_bytes 2 context_length ++ le_bytes 2 opaque_length.

(** The integrator's opaque data fills the size it announced. *)
Definition opaque_data_exact : Prop :=
  ∀ ctx hint v t data n size written,
    libspdm_psk_exchange_rsp_opaque_data ctx hint v t data true n = (true, size, written) → size = n.

(** The opaque data of a response: none, or the library's own of the size it needs
    for the version it selects, or the integrator's. *)
Definition opaque_sized ctx (o : psk_opaque) : Prop :=
  op_rsp_size o = 0 ∨
  (op_default o = true ∧ secured_message_version_count ctx ≠ 0 ∧
   op_rsp_size o = libspdm_get_opaque_data_version_selection_data_size ctx
     + libspdm_get_opaque_data_aead_limit_element_size ctx (op_version o)) ∨
  op_default o = false.

Lemma sub_upd_append_at m off n bs a : in_range m off (blen bs) = true → n = off + blen bs →
  sub m 0 off = a → sub (upd m off bs) 0 n = a ++ bs.
Proof. intros Hr -> <-. by apply sub_upd_append. Qed.

Lemma header_kept m off bs m' hd : sub m 0 12 = hd → store m off bs = Ret m' → 12 ≤ off →
  sub m' 0 12 = hd ∧ length m' = length m.
Proof.
  intros <- [Hr ->]%store_Ret_inv Ho. split; [|by apply length_upd].
  apply sub_upd_disjoint; [done|lia|lia].
Qed.

Lemma build_default_size ctx v n region r1 size1 r2 size2 : secured_message_version_count ctx ≠ 0 →
  n = libspdm_get_opaque_data_version_selection_data_size ctx
      + libspdm_get_opaque_data_aead_limit_element_size ctx v → blen region = n →
  libspdm_build_opaque_data_version_selection_data ctx v
    (libspdm_get_opaque_data_version_selection_data_size ctx) region = Ret (r1, size1) →
  libspdm_build_opaque_data_aead_limit_element ctx v n r1 = Ret (r2, size2) → size2 = n.
Proof.
  intros Hc Hn Hl E1 E2. unfold secured_message_version_count in Hc.
  assert (Ha : 0 ≤ libspdm_get_opaque_data_aead_limit_element_size ctx v ≤ 8).
  { unfold libspdm_get_opaque_data_aead_limit_element_size. case_if; by vm_compute. }
  assert (Hsz : 0 ≤ libspdm_get_opaque_data_version_selection_data_size ctx ≤ 64).
  { unfold libspdm_get_opaque_data_version_selection_data_size, general_header_size.
    repeat case_if; by vm_compute. }
  destruct (OpaqueTable.build_version_selection_spec ctx v
    (libspdm_get_opaque_data_version_selection_data_size ctx) region) as (Hf & b1 & E & L1 & S1);
    [lia|lia|lia|].
  rewrite E in E1. injection E1 as <- <-.
  rewrite Hf in S1, Hn.
  destruct (OpaqueTable.build_aead_limit_spec ctx v _ n b1
    (Forall_cons _ _ _ (OpaqueTable.version_selection_element_ok v) (Forall_nil _)) ltac:(done) S1)
    as (b2 & E3 & _); [lia|lia|]. rewrite E3 in E2. injection E2 as _ <-. lia.
Qed.

Lemma fill_inv ctx q o summary rsid response rng size m rng' :
  opaque_data_exact → opaque_sized ctx o → 0 ≤ summary →
  fill_psk_exchange_response ctx q o summary rsid response rng = Ret (Some size, m, rng') →
  size = sizeof_spdm_psk_exchange_response + summary + psk_context_length ctx + op_rsp_size o ∧
  ∃ v period, sub m 0 12 = psk_response_header v period rsid (psk_context_length ctx) (op_rsp_size o).
Proof.
  intros He Ho Hs E. unfold fill_psk_exchange_response in E.
  set (period := if heartbeat_supported ctx false then _ else _) in E.
  set (v := spdm_version (pq_header q)) in E.
  exec_inv E. exec_inv E. exec_inv E. rename x into m1, x0 into m2, x1 into m3.
  assert (Hh : sub m3 0 12 = psk_response_header v period rsid (psk_context_length ctx) (op_rsp_size o)).
  { apply store_Ret_inv in Hx as [R1 ->]. apply store_Ret_inv in Hx0 as [R2 ->].
    apply store_Ret_inv in Hx1 as [R3 ->].
    unfold psk_response_header. rewrite (app_assoc [v; SPDM_PSK_EXCHANGE_RSP; period; 0]).
    apply (sub_upd_append_at _ 8); [done|done|]. by apply (sub_upd_append_at _ 4);
      [done|done|apply sub_upd_same]. }
  clear Hx Hx0 Hx1.
  match type of E with (let '(_, _) := ?t in _) = _ => destruct t as [ok1 bs1] end.
  exec_inv E. destruct (header_kept _ _ _ _ _ Hh Hx ltac:(done)) as [Hh1 L1].
  destruct ok1; [|discriminate]. cbn [negb] in E.
  match type of E with (let '(_, _) := ?t in _) = _ => destruct t as [[ok2 bs2] rng2] end.
  exec_inv E. destruct (header_kept _ _ _ _ _ Hh1 Hx0
    ltac:(unfold sizeof_spdm_psk_exchange_response; lia))
    as [Hh2 L2].
  destruct ok2; [|discriminate]. cbn [negb] in E.
  set (ptr := sizeof_spdm_psk_exchange_response + summary + psk_context_length ctx) in *.
  assert (Hp : 12 ≤ ptr).
  { unfold ptr, sizeof_spdm_psk_exchange_response, psk_context_length, LIBSPDM_PSK_CONTEXT_LENGTH,
      LIBSPDM_MAX_HASH_SIZE. case_if; lia. }
  destruct (Z.eqb_spec (op_rsp_size o) 0) as [Hz|Hz].
  { injection E as <- <- <-. split; [lia|]. by exists v, period. }
  case_if.
  - destruct Ho as [Ho|[(_ & Hc & Ho)|Ho]]; [done| |congruence].
    exec_inv E. apply load_Ret_inv in Hx1 as [R ->]. exec_inv E. destruct x1 as [r1 s1].
    exec_inv E. destruct x1 as [r2 s2]. exec_inv E. injection E as <- <- <-.
    assert (Hl : blen (sub x0 ptr (op_rsp_size o)) = op_rsp_size o)
      by (rewrite length_sub by done; rewrite in_range_iff in R; lia).
    rewrite (build_default_size _ _ _ _ _ _ _ _ Hc Ho Hl Hx1 Hx2). split; [done|]. exists v, period.
    by apply (header_kept _ _ _ _ _ Hh2 Hx3 Hp).
  - destruct (call_opaque_data ctx q true (op_rsp_size o)) as [[ok3 s3] bs3] eqn:Eo.
    exec_inv E. destruct ok3; [|discriminate]. injection E as <- <- <-.
    apply He in Eo as ->. split; [done|]. exists v, period.
    by apply (header_kept _ _ _ _ _ Hh2 Hx1 Hp).
Qed.

Lemma default_opaque_sized ctx q size version : default_psk_opaque ctx q = Ret (Some (size, version)) →
  0 ≤ size ∧ (size = 0 ∨ (secured_message_version_count ctx ≠ 0 ∧
    size = libspdm_get_opaque_data_version_selection_data_size ctx
      + libspdm_get_opaque_data_aead_limit_element_size ctx version)).
Proof.
  unfold default_psk_opaque. intros E. exec_inv E. case_if; [discriminate|].
  exec_inv E. destruct x0 as [status v]. case_if; [discriminate|]. injection E as <- <-.
  assert (Ha : 0 ≤ libspdm_get_opaque_data_aead_limit_element_size ctx (default 0 v)).
  { unfold libspdm_get_opaque_data_aead_limit_element_size. case_if; by vm_compute. }
  assert (Hsz : 0 ≤ libspdm_get_opaque_data_version_selection_data_size ctx).
  { unfold libspdm_get_opaque_data_version_selection_data_size, general_header_size.
    repeat case_if; by vm_compute. }
  split; [lia|].
  destruct (Z.eqb_spec (secured_message_version_count ctx) 0) as [Hz|Hz]; [left|by right].
  unfold libspdm_process_opaque_data_supported_version_data in Hx0. rewrite Hz in Hx0.
  injection Hx0 as _ <-. unfold libspdm_get_opaque_data_version_selection_data_size.
  rewrite Hz. reflexivity.
Qed.

Lemma choose_inv ctx q room buf o buf' : choose_psk_opaque ctx q room buf = Ret (inl o, buf') →
  opaque_sized ctx o ∧ 0 ≤ op_rsp_size o.
Proof.
  unfold choose_psk_opaque. intros E. case_if; [injection E as <- _; by split; [left|]|].
  destruct (call_opaque_data ctx q false (size_t room)) as [[custom size] written]. exec_inv E.
  destruct x as [[[rsp_size version]|] buf1]; [|discriminate].
  exec_inv E. destruct x as [status limit]. case_if; [discriminate|]. injection E as <- _. cbn.
  destruct custom.
  - split; [by right; right|]. unfold custom_psk_opaque in Hx.
    destruct (call_opaque_data ctx q true size) as [[ok size1] written1].
    exec_inv Hx. case_if; [discriminate|]. exec_inv Hx. apply load_Ret_inv in Hx2 as [R _].
    exec_inv Hx. destruct x1. case_if; [discriminate|]. injection Hx as <- _ _.
    rewrite in_range_iff in R. lia.
  - exec_inv Hx. injection Hx as -> _. destruct (default_opaque_sized _ _ _ _ Hx1) as [H0' Hc].
    split; [|done]. destruct Hc as [->|[Hc ->]]; [by left|right; left; by split_and!].
Qed.

(** An ERROR is no answer that the requester accepts. *)
Definition answer (r : reply) (code : Z) (response : list Z) : Prop :=
  load (rp_response r) 0 (rp_size r) = Ret response ∧ response !! 1%nat = Some code.

Lemma error_no_answer {A} ctx c d n buf (x : A) r y code response :
  (r ← libspdm_generate_error_response ctx c d n buf; Ret (r, x)) = Ret (r, y) → code ≠ SPDM_ERROR →
  ¬ answer r code response.
Proof.
  intros E Hc [Hl Hb]. exec_inv E. injection E as -> _.
  by destruct (generate_error_inv _ _ _ _ _ _ _ code True Hx Hl Hc (λ _, I)) as [_ [Hn _]].
Qed.

Lemma summary_size_nonneg ctx b t : 0 ≤ libspdm_get_measurement_summary_hash_size ctx b t.
Proof.
  unfold libspdm_get_measurement_summary_hash_size. repeat case_if; try lia. apply hash_size_bound.
Qed.

Lemma psk_context_length_nonneg ctx : 0 ≤ psk_context_length ctx.
Proof. unfold psk_context_length. by case_if. Qed.

Lemma setup_context_length ctx ctx' : setup ctx' = setup ctx →
  psk_context_length ctx' = psk_context_length ctx.
Proof. intros Hs. unfold psk_context_length, with_context. by rewrite (setup_capabilities _ _ _ _ _ Hs). Qed.

Lemma opaque_sized_setup ctx ctx' o : setup ctx' = setup ctx →
  lc_secured_message_version ctx' = lc_secured_message_version ctx →
  opaque_sized ctx o → opaque_sized ctx' o.
Proof.
  intros [= _ _ _ _ _ Hv _ _ _ _ _ _] Hl. unfold opaque_sized,
    libspdm_get_opaque_data_version_selection_data_size, general_header_size, is_version_12,
    libspdm_get_connection_version, secured_message_version_count. by rewrite Hl, Hv.
Qed.

(** The sizes of a request that is read. *)
Lemma read_request_inv n request q : read_psk_exchange_request n request = Ret (Some q) →
  read_header request = Ret (pq_header q) ∧ (bytes_ok request → bytes_ok (pq_psk_hint q)) ∧
  load_le 2 request 4 = Ret (pq_req_session_id q).
Proof.
  unfold read_psk_exchange_request. intros E. case_if; [discriminate|].
  do 5 exec_inv E. case_if; [discriminate|]. do 2 exec_inv E. injection E as <-. cbn.
  apply load_Ret_inv in Hx4 as [_ ->]. split; [done|]. split; [|done]. by apply bytes_ok_sub.
Qed.

Lemma rsp_session_id_u16 ctx b : is_u16 (libspdm_allocate_rsp_session_id ctx b).
Proof.
  unfold libspdm_allocate_rsp_session_id. case_if; [by vm_compute|].
  destruct (free_session_index _ _ _); [apply u16_range|by vm_compute].
Qed.

Lemma psk_exchange_inv s h request n rng r rng' response :
  hash_of_algo (hash_algo s) = Some h → bytes_ok request → opaque_data_exact →
  libspdm_get_response_psk_exchange s (blen request) request n (zeros n) rng = Ret (r, rng') →
  answer r SPDM_PSK_EXCHANGE_RSP response →
  ∃ q o rsid i si, read_psk_exchange_request (blen request) request = Ret (Some q) ∧
    let size := sizeof_spdm_psk_exchange_response
      + libspdm_get_measurement_summary_hash_size s false (param1 (pq_header q))
      + psk_context_length s + op_rsp_size o in
    (∃ v period,
       sub response 0 12 = psk_response_header v period rsid (psk_context_length s) (op_rsp_size o)) ∧
    is_u16 rsid ∧ 0 ≤ op_rsp_size o ∧ blen response = size + hash_size_of h ∧
    session_info (rp_ctx r) !! i = Some si ∧
    session_id si = libspdm_generate_session_id (pq_req_session_id q) rsid ∧
    schedule (secured_message_context si) = negotiated_schedule s (pq_psk_hint q) ∧
    session_state (secured_message_context si) = opened_phase s false ∧
    psk_opened h (message_a s ++ sub request 0 (psk_exchange_request_size q) ++ sub response 0 size)
      (sub response size (hash_size_of h)) si.
Proof.
  intros Hh Hb Hex E Ha. unfold libspdm_get_response_psk_exchange in E.
  exec_inv E. rename x into hd. exec_inv E. clear Hx0. 
  case_if; [by destruct (error_no_answer _ _ _ _ _ _ _ _ SPDM_PSK_EXCHANGE_RSP _ E ltac:(done) Ha)|].
  case_if; [by destruct (error_no_answer _ _ _ _ _ _ _ _ SPDM_PSK_EXCHANGE_RSP _ E ltac:(done) Ha)|].
  case_if.
  { apply bool_decide_eq_true in E2. exec_inv E. injection E as -> _. destruct Ha as [Hl Hc].
    by destruct (handle_response_state_inv _ _ _ _ _ SPDM_PSK_EXCHANGE_RSP True Hx0 E2 Hl
      ltac:(done) ltac:(done) I) as [_ [Hn _]]. }
  destruct (psk_exchange_refused s hd) as [[code data]|];
    [by destruct (error_no_answer _ _ _ _ _ _ _ _ SPDM_PSK_EXCHANGE_RSP _ E ltac:(done) Ha)|].
  exec_inv E. destruct x0 as [q|];
    [|by destruct (error_no_answer _ _ _ _ _ _ _ _ SPDM_PSK_EXCHANGE_RSP _ E ltac:(done) Ha)].
  case_if; [by destruct (error_no_answer _ _ _ _ _ _ _ _ SPDM_PSK_EXCHANGE_RSP _ E ltac:(done) Ha)|].
  exec_inv E. destruct x0 as [[o|code] buf];
    [|by destruct (error_no_answer _ _ _ _ _ _ _ _ SPDM_PSK_EXCHANGE_RSP _ E ltac:(done) Ha)].
  exec_inv E. exec_inv E. rename x1 into buf1. 
  case_if; [by destruct (error_no_answer _ _ _ _ _ _ _ _ SPDM_PSK_EXCHANGE_RSP _ E ltac:(done) Ha)|].
  exec_inv E. destruct x1 as [s1 [i|]];
    [|by destruct (error_no_answer _ _ _ _ _ _ _ _ SPDM_PSK_EXCHANGE_RSP _ E ltac:(done) Ha)].
  exec_inv E. exec_inv E. destruct x2 as [[[ok s2] buf2] rng2].
  destruct ok; [|exec_inv E; by destruct (error_no_answer _ _ _ _ _ _ _ _ SPDM_PSK_EXCHANGE_RSP _ E ltac:(done) Ha)].
  injection E as <- _. destruct Ha as [Hl _]. cbn [rp_response rp_size rp_ctx] in *.
  destruct (read_request_inv _ _ _ Hx0) as (Hq & Hhint & Hn).
  assert (pq_header q = hd) as Ehd by congruence. rewrite <- Ehd in *.
  destruct (assign_fresh s h _ _ s1 i Hh Hx4) as (Hs & Hw & Hfs & si & Hi & Hid & Hfr & Hsc & Hst).
  apply opened_with_inv in Hw as (Ws & _ & Wv). rewrite <- (setup_schedule _ _ [] Ws) in Hsc.
  destruct (open_inv s1 i si h q o _ _ _ _ _ _ _ _ _ Hs Hfs Hi (setup_hash_algo _ _ _ Ws Hh) Hfr
    Hid Hsc Hst (Hhint Hb) Hx6)
    as (s3 & size & m & mac & si' & Ws3 & Wv3 & Hfill & Hr & Hlm & Hm & Hi' & Hid' & Hsc' & Hp' & Ho).
  rewrite Ws in Ws3. rewrite Wv in Wv3.
  rewrite (setup_message_a _ _ Ws) in Ho. rewrite (setup_schedule _ _ _ Ws) in Hsc'.
  rewrite (setup_phase _ _ _ Ws) in Hp'.
  apply load_Ret_inv in Hx5 as [_ ->]. apply load_Ret_inv in Hl as [Hrl ->].
  destruct (fill_inv _ _ _ _ _ _ _ _ _ _ Hex (opaque_sized_setup _ _ _ Ws3 Wv3 (proj1 (choose_inv _ _ _ _ _ _ Hx1)))
    (summary_size_nonneg _ _ _) Hfill) as (Hsize & v & period & Hhd).
  rewrite (setup_context_length _ _ Ws3) in Hsize, Hhd.
  assert (Hds : digest_size s = hash_size_of h) by by apply hash_of_algo_cases.
  apply store_Ret_inv in Hm as [Hrm ->]. rewrite Hds in Hrl.
  exists q, o, (libspdm_allocate_rsp_session_id s true), i, si'. split; [done|]. cbv zeta. rewrite <- Hsize.
  assert (H12 : 12 ≤ size).
  { rewrite Hsize. unfold sizeof_spdm_psk_exchange_response.
    pose proof (summary_size_nonneg s false (param1 (pq_header q))).
    pose proof (psk_context_length_nonneg s). pose proof (proj2 (choose_inv _ _ _ _ _ _ Hx1)). lia. }
  set (T := _ + op_rsp_size o). assert (HT : T = size + blen mac) by (unfold T; lia).
  clearbody T. subst T. pose proof (hash_size_range h) as Hhr.
  rewrite in_range_iff in Hrm.
  assert (Hsub : ∀ a b, 0 ≤ a → 0 ≤ b → a + b ≤ size + blen mac →
    sub (sub (upd m size mac) 0 (size + blen mac)) a b = sub (upd m size mac) a b).
  { intros a b ? ? ?. rewrite sub_sub by lia. by rewrite Z.add_0_l. }
  rewrite !Hsub by lia. rewrite <- Hlm, sub_upd_same by (rewrite in_range_iff; lia).
  rewrite (sub_upd_disjoint _ _ _ 0 12), (sub_upd_disjoint _ _ _ 0 size)
    by (rewrite ?in_range_iff; lia).
  split_and!; try done; [by exists v, period|apply rsp_session_id_u16|
    apply (choose_inv _ _ _ _ _ _ Hx1)|].
  rewrite length_sub; [lia|]. rewrite in_range_iff, length_upd by (rewrite in_range_iff; lia). lia.
Qed.

(** ** The messages *)

Lemma sub_middle a h b off n : off = blen a → n = blen h → sub (a ++ h ++ b) off n = h.
Proof. intros -> ->. unfold sub. rewrite !Nat2Z.id, drop_app_length. by apply take_app_length'. Qed.

Lemma load_le_middle (k : nat) a z b off : off = blen a → 0 ≤ z < 2 ^ (8 * Z.of_nat k) →
  load_le k (a ++ le_bytes k z ++ b) off = Ret z.
Proof. intros Ho Hz. rewrite load_le_app by done. by rewrite Z.mod_small. Qed.

Lemma Ret_inj {A} (x y : A) : Ret x = Ret y → x = y.
Proof. by intros [= ->]. Qed.

Lemma rsp_header_read wire v period rsid ctxlen oplen p :
  sub wire 0 12 = psk_response_header v period rsid ctxlen oplen → 12 ≤ blen wire →
  is_u16 rsid → 0 ≤ ctxlen < 2 ^ 16 → 0 ≤ oplen < 2 ^ 16 →
  read_psk_exchange_response wire = Ret p →
  pp_rsp_session_id p = rsid ∧ pp_context_length p = ctxlen ∧ pp_opaque_length p = oplen.
Proof.
  intros Hh Hl H1' H2' H3' E. 
  assert (wire = psk_response_header v period rsid ctxlen oplen ++ drop 12 wire) as Hw.
  { rewrite <- Hh. unfold sub. rewrite drop_0. symmetry. apply (take_drop 12). }
  unfold psk_response_header in Hw. unfold read_psk_exchange_response in E.
  do 4 exec_inv E. injection E as <-. cbn [pp_rsp_session_id pp_context_length pp_opaque_length].
  revert Hx0 Hx1 Hx2. rewrite Hw, <- !app_assoc. intros E1 E2 E3. split_and!; apply Ret_inj.
  - rewrite <- E1. by apply load_le_middle.
  - rewrite <- E2.
    rewrite (app_assoc _ (le_bytes 2 rsid)), (app_assoc _ (le_bytes 2 0)). apply load_le_middle; [done|lia].
  - rewrite <- E3.
    rewrite (app_assoc _ (le_bytes 2 rsid)), (app_assoc _ (le_bytes 2 0)), (app_assoc _ (le_bytes 2 ctxlen)).
    apply load_le_middle; [done|lia].
Qed.

(** The fields of a request that the requester builds. *)
Record built_request (args : psk_exchange_args) (rid : Z) (request : list Z) : Prop := {
  br_header : ∃ v policy, take 4 request =
    [v; SPDM_PSK_EXCHANGE; pa_measurement_hash_type args; policy];
  br_fields : ∃ hint rctx opaque,
    drop 4 request = le_bytes 2 rid ++ le_bytes 2 (blen hint) ++ le_bytes 2 (blen rctx)
      ++ le_bytes 2 (blen opaque) ++ hint ++ rctx ++ opaque ∧
    hint = hint_bytes (pa_psk_hint args) (pa_psk_hint_size args);
}.

(** A hint comes with its size. *)
Definition hint_ok (args : psk_exchange_args) : Prop :=
  0 ≤ pa_psk_hint_size args ∧ (pa_psk_hint args = None → pa_psk_hint_size args = 0) ∧
  ∀ p, pa_psk_hint args = Some p → bytes_ok p.

Lemma request_hint_inv ctx args hint : hint_ok args → request_psk_hint ctx args = Ret hint →
  blen hint = pa_psk_hint_size args ∧ hint = hint_bytes (pa_psk_hint args) (pa_psk_hint_size args).
Proof.
  intros (Hs & Hn & _). unfold request_psk_hint, hint_bytes.
  destruct (pa_psk_hint args) as [p|]; intros [R ->]%load_Ret_inv;
    (split; [rewrite length_sub by done; lia|]).
  - destruct (Z.ltb_spec 0 (pa_psk_hint_size args)); [done|].
    by replace (pa_psk_hint_size args) with 0 by lia.
  - by rewrite Hn.
Qed.

Lemma build_inv ctx args outs rid rng request outs' rng' : hint_ok args →
  build_psk_exchange ctx args outs rid rng = Ret (Some request, outs', rng') →
  built_request args rid request.
Proof.
  intros Hh E. unfold build_psk_exchange in E. exec_inv E. exec_inv E. exec_inv E. exec_inv E.
  rename x1 into opaque. clear Hx Hx0 Hx2. exec_inv E. rename x1 into hint.
  destruct (request_hint_inv _ _ _ Hh Hx) as [Hl Hhint].
  match type of E with (let (_, _) := ?t in _) = _ => destruct t as [[ok rctx] rng1] eqn:Er end.
  destruct ok; [|discriminate]. cbn [negb] in E. exec_inv E. injection E as <- <- <-.
  assert (Hr : match pa_requester_context_in args with
               | None => LIBSPDM_PSK_CONTEXT_LENGTH | Some c => blen c end = blen rctx).
  { destruct (pa_requester_context_in args) as [c|]; [by injection Er as <- <-|].
    unfold libspdm_get_random_number in Er. cbn in Er.
    destruct (random_ok LIBSPDM_PSK_CONTEXT_LENGTH rng) as [Hn _]; [by vm_compute|].
    by rewrite Er in Hn. }
  split; [by do 2 eexists|]. exists hint, rctx, opaque. split; [|done].
  by rewrite <- Hr, Hl.
Qed.

Lemma built_read args rid request q : built_request args rid request → is_u16 rid →
  blen request < 2 ^ 16 → read_psk_exchange_request (blen request) request = Ret (Some q) →
  param1 (pq_header q) = pa_measurement_hash_type args ∧ pq_req_session_id q = rid ∧
  pq_psk_hint q = hint_bytes (pa_psk_hint args) (pa_psk_hint_size args) ∧
  psk_exchange_request_size q = blen request.
Proof.
  intros [(v & policy & Ht) (hint & rctx & opaque & Hd & Hhint)] Hrid Hlen E.
  assert (Hq : request = [v; SPDM_PSK_EXCHANGE; pa_measurement_hash_type args; policy] ++
    le_bytes 2 rid ++ le_bytes 2 (blen hint) ++ le_bytes 2 (blen rctx) ++ le_bytes 2 (blen opaque)
    ++ hint ++ rctx ++ opaque) by (rewrite <- Ht, <- Hd; symmetry; apply take_drop).
  clear Ht Hd. assert (Hl : blen request = 12 + blen hint + blen rctx + blen opaque).
  { rewrite Hq, !length_app, !length_le_bytes. cbn [length]. lia. }
  unfold read_psk_exchange_request in E. case_if; [discriminate|].
  do 5 exec_inv E. case_if; [discriminate|]. do 2 exec_inv E. injection E as <-.
  unfold psk_exchange_request_size. cbn [pq_header pq_req_session_id pq_psk_hint pq_context_length pq_opaque_data].
  set (hd := [v; SPDM_PSK_EXCHANGE; pa_measurement_hash_type args; policy]) in *.
  assert (x0 = rid) as ->.
  { apply Ret_inj. rewrite <- Hx0, Hq. by apply load_le_middle. }
  assert (x1 = blen hint) as ->.
  { apply Ret_inj. rewrite <- Hx1, Hq, (app_assoc hd). apply load_le_middle; [done|lia]. }
  assert (x2 = blen rctx) as ->.
  { apply Ret_inj. rewrite <- Hx2, Hq, (app_assoc hd), (app_assoc (hd ++ _)).
    apply load_le_middle; [done|lia]. }
  assert (x3 = blen opaque) as ->.
  { apply Ret_inj. rewrite <- Hx3, Hq, (app_assoc hd), (app_assoc (hd ++ _)), (app_assoc ((hd ++ _) ++ _)).
    apply load_le_middle; [done|lia]. }
  apply load_Ret_inv in Hx4 as [R4 ->]. apply load_Ret_inv in Hx5 as [R5 ->].
  rewrite !length_sub by done. split_and!; [|done| |].
  - assert (x = Build_message_header v SPDM_PSK_EXCHANGE (pa_measurement_hash_type args) policy) as ->;
      [|done]. apply Ret_inj. rewrite <- Hx, Hq. exact (read_header_app (Build_message_header _ _ _ _) _).
  - rewrite <- Hhint, Hq, !app_assoc, <- app_assoc, <- app_assoc.
    apply sub_middle; [|done]. rewrite !length_app, !length_le_bytes. done.
  - unfold sizeof_spdm_psk_exchange_request. lia.
Qed.

(** ** PSK_FINISH *)

(** Message F goes on with the same transcript. *)
Lemma with_f_facts h si th m : psk_keyed h si →
  psk_keyed h (with_f si th m) ∧
  digest_context_th (session_transcript (with_f si th m)) = Some (th ++ m) ∧
  secured_message_context (with_f si th m) = secured_message_context si ∧
  session_id (with_f si th m) = session_id si.
Proof. intros [? ? ? ?]. split; [by split|done]. Qed.

Lemma finish_mac ctx i si h th keys n mac :
  session_info ctx !! i = Some si → psk_keyed h si → hash_of_algo (hash_algo ctx) = Some h →
  digest_context_th (session_transcript si) = Some th →
  handshake_keys_of (secured_message_context si) = keys →
  libspdm_calculate_th_hmac_for_finish_req ctx i n = Ret (Some mac) →
  th_mac h th (finished_of keys.1) mac.
Proof.
  intros Hi Hk Hh Hth Hv E. unfold libspdm_calculate_th_hmac_for_finish_req in E.
  exec_inv E. exec_inv E. exec_inv E.
  rewrite <- (held_request _ h keys (pk_keyed _ _ Hk) Hv).
  by apply (th_mac_inv ctx i si h th mac libspdm_hmac_all_with_request_finished_key
    (λ c, request_finished_key (handshake_secret c))); [| | | |apply Hk|].
Qed.

(** The session in the application phase, with the transcript [th]. *)
Definition psk_finished (h : hash_alg) (th : list Z) si : Prop :=
  psk_keyed h si ∧ digest_context_th (session_transcript si) = Some th ∧ has_data_keys h th si.

(** A session in the handshake phase whose transcript is [th] and whose keys are
    [keys]. *)
Record awaits_finish (h : hash_alg) (th : list Z) (keys : direction_keys * direction_keys) si : Prop := {
  af_keyed : psk_keyed h si;
  af_th : digest_context_th (session_transcript si) = Some th;
  af_held : handshake_keys_of (secured_message_context si) = keys;
}.

Lemma seal_inv ctx i si h th keys request st ctx' sealed :
  session_info ctx !! i = Some si → hash_of_algo (hash_algo ctx) = Some h →
  awaits_finish h th keys si →
  seal_psk_finish ctx i request = Ret (st, ctx', sealed) → is_error st = false →
  ∃ mac si', sealed = request ++ mac ∧ th_mac h (th ++ request) (finished_of keys.1) mac ∧
    ctx' = set_slot ctx i si' ∧ session_id si' = session_id si ∧
    secured_message_context si' = secured_message_context si ∧
    awaits_finish h (th ++ sealed) keys si'.
Proof.
  intros Hi Hh [Hk Hth Hv] E Hst. unfold seal_psk_finish in E.
  exec_inv E. destruct x as [st1 ctx1]. case_if; [injection E as <- <- <-; congruence|].
  destruct (append_f_psk _ _ _ _ th _ _ _ Hi (pk_psk _ _ Hk) Hth Hx E0) as [_ ->].
  destruct (with_f_facts h si th request Hk) as (Hk1 & Hth1 & Hs1 & Hid1).
  exec_inv E. destruct x as [mac|]; [|by injection E as <- <- <-].
  unfold libspdm_generate_psk_exchange_req_hmac in Hx0. exec_inv Hx0. destruct x as [mac0|]; [|discriminate].
  exec_inv Hx0. injection Hx0 as ->. rewrite <- Hs1 in Hv.
  pose proof (finish_mac _ i _ h _ keys _ _ (slot_set_slot _ _ _ _ Hi) Hk1 Hh Hth1 Hv Hx1) as Hm.
  apply (load_digest _ h) in Hx2 as ->; [|exact Hh|by eapply th_mac_size].
  exec_inv E. destruct x as [st2 ctx2]. injection E as -> -> <-.
  destruct (append_f_psk _ _ _ _ _ _ _ _ (slot_set_slot _ _ _ _ Hi) (pk_psk _ _ Hk1) Hth1 Hx0 Hst)
    as [-> ->].
  destruct (with_f_facts h _ (th ++ request) mac0 Hk1) as (Hk2 & Hth2 & Hs2 & Hid2).
  exists mac0, (with_f (with_f si th request) (th ++ request) mac0).
  rewrite set_slot_twice. split_and!; try done.
  split; [done|by rewrite app_assoc|by rewrite Hs2].
Qed.

Lemma finish_rsp_inv ctx i si h th keys out response ctx' out' :
  session_info ctx !! i = Some si → hash_of_algo (hash_algo ctx) = Some h →
  awaits_finish h th keys si →
  process_psk_finish_rsp ctx i out response = Ret (LIBSPDM_STATUS_SUCCESS, ctx', out') →
  ∃ si', ctx' = set_slot ctx i si' ∧ session_id si' = session_id si ∧
    session_state (secured_message_context si') = LIBSPDM_SESSION_STATE_ESTABLISHED ∧
    schedule (secured_message_context si') = schedule (secured_message_context si) ∧
    psk_finished h (th ++ response) si'.
Proof.
  intros Hi Hh [Hk Hth _] E. unfold process_psk_finish_rsp in E.
  exec_inv E. destruct x as [st0 out0]. case_if; [by injection E as -> _ _|].
  exec_inv E. destruct x as [st1 ctx1]. case_if; [by injection E as -> _ _|].
  destruct (append_f_psk _ _ _ _ th _ _ _ Hi (pk_psk _ _ Hk) Hth Hx0 E1) as [_ ->].
  destruct (with_f_facts h si th response Hk) as (Hk1 & Hth1 & Hs1 & Hid1).
  exec_inv E. destruct x as [ok ctx2]. destruct ok; [|discriminate]. cbn [negb] in E.
  destruct (data_keys_inv _ _ _ h _ _ (slot_set_slot _ _ _ _ Hi) Hk1 Hh Hth1 Hx1)
    as (c & -> & Hk2 & (Hid2 & Hsc2 & _) & Hd2).
  exec_inv E. injection E as <- _. unfold set_psk_session_state in Hx2.
  rewrite set_slot_twice, (slot_in _ _ _ (slot_set_slot _ _ _ _ Hi)) in Hx2.
  cbn [mbind exec_bind] in Hx2. rewrite set_slot_twice in Hx2. injection Hx2 as <-.
  exists (with_state (with_keys (with_f si th response) c) LIBSPDM_SESSION_STATE_ESTABLISHED).
  split; [done|]. split; [done|]. split; [done|].
  split; [by rewrite schedule_with_state, Hsc2|].
  split; [by apply psk_keyed_with_state|]. split; [exact Hth1|].
  destruct Hd2 as (th2 & Hf2 & Hr2). exists th2. split; [done|].
  transitivity (session_data_reference c h th2); [|exact Hr2].
  apply schedule_data; [reflexivity|]. by apply Hk2.
Qed.

Lemma error_refused ctx c d n buf r code response :
  libspdm_generate_error_response ctx c d n buf = Ret r → code ≠ SPDM_ERROR →
  ¬ answer r code response.
Proof.
  intros E Hc [Hl Hb].
  by destruct (generate_error_inv _ _ _ _ _ _ _ code True E Hl Hc (λ _, I)) as [_ [Hn _]].
Qed.

Lemma slot_kept_awaits h th keys si si' : slot_kept si si' → awaits_finish h th keys si →
  awaits_finish h th keys si'.
Proof.
  intros [Hid Hp Hs Ht _] [[? ? ? ?] Hth Hv]. split; [split| |]; congruence.
Qed.

(** The request ends with the HMAC. *)
Lemma read_finish_inv ctx n request opaque ptr : read_psk_finish_request ctx n request = Ret (Some (opaque, ptr)) →
  n = ptr + digest_size ctx.
Proof.
  unfold read_psk_finish_request. intros E. exec_inv E. destruct x as [[ok opaque1] ptr1].
  destruct ok; [|discriminate]. cbn [negb orb] in E. case_if; [discriminate|]. injection E as <- <-. lia.
Qed.

Lemma finish_session_inv ctx i si h th keys sid v mac opaque n buf size ctx' buf' :
  session_info ctx !! i = Some si → hash_of_algo (hash_algo ctx) = Some h →
  awaits_finish h th keys si →
  finish_psk_session ctx i sid v mac opaque n buf = Ret (Some size, ctx', buf') →
  ∃ si', session_info ctx' !! i = Some si' ∧ session_id si' = session_id si ∧
    schedule (secured_message_context si') = schedule (secured_message_context si) ∧
    session_state (secured_message_context si') = session_state (secured_message_context si) ∧
    psk_finished h (th ++ mac ++ sub buf' 0 size) si'.
Proof.
  intros Hi Hh [Hk Hth _] E. unfold finish_psk_session in E.
  exec_inv E. destruct x as [st1 ctx1]. case_if; [discriminate|].
  destruct (append_f_psk _ _ _ _ th _ _ _ Hi (pk_psk _ _ Hk) Hth Hx E0) as [_ ->].
  destruct (with_f_facts h si th mac Hk) as (Hk1 & Hth1 & Hs1 & Hid1).
  exec_inv E. exec_inv E. exec_inv E. destruct x1 as [[size1|] buf1]; [|discriminate].
  exec_inv E. apply load_Ret_inv in Hx3 as [_ ->].
  exec_inv E. destruct x1 as [st2 ctx2]. case_if; [discriminate|].
  destruct (append_f_psk _ _ _ _ _ _ _ _ (slot_set_slot _ _ _ _ Hi) (pk_psk _ _ Hk1) Hth1 Hx3 E1)
    as [_ ->].
  destruct (with_f_facts h _ (th ++ mac) (sub buf1 0 size1) Hk1) as (Hk2 & Hth2 & Hs2 & Hid2).
  exec_inv E. destruct x1 as [ok ctx3]. destruct ok; [|discriminate]. cbn [negb] in E.
  rewrite set_slot_twice in Hx4.
  destruct (data_keys_inv _ _ _ h _ _ (slot_set_slot _ _ _ _ Hi) Hk2 Hh Hth2 Hx4)
    as (c & -> & Hk3 & (Hid3 & Hsc3 & Hst3) & Hd3).
  destruct (start_watchdog _ sid) as [ok ctx4] eqn:Ew. destruct ok; [|discriminate]. cbn [negb] in E.
  injection E as <- <- <-. rewrite set_slot_twice in Ew.
  exists (with_keys (with_f (with_f si th mac) (th ++ mac) (sub buf1 0 size1)) c).
  split. { unfold start_watchdog in Ew. case_if; [injection Ew as _ <-|injection Ew as <-];
    exact (slot_set_slot _ _ _ _ Hi). }
  split_and!; try done. split; [done|]. by rewrite app_assoc.
Qed.

Lemma psk_finish_inv s i si h th keys request n r response :
  libspdm_get_session_info_via_session_id s (last_spdm_request_session_id s) = Some i →
  session_info s !! i = Some si → hash_of_algo (hash_algo s) = Some h → awaits_finish h th keys si →
  libspdm_get_response_psk_finish s (blen request) request n (zeros n) = Ret r →
  answer r SPDM_PSK_FINISH_RSP response →
  ∃ body mac si', request = body ++ mac ∧ blen mac = hash_size_of h ∧
    th_mac h (th ++ body) (finished_of keys.1) mac ∧
    session_info (rp_ctx r) !! i = Some si' ∧ session_id si' = session_id si ∧
    schedule (secured_message_context si') = schedule (secured_message_context si) ∧
    session_state (secured_message_context si') = session_state (secured_message_context si) ∧
    psk_finished h (th ++ request ++ response) si'.
Proof.
  intros Hsi Hi Hh Haw E Ha. unfold libspdm_get_response_psk_finish in E.
  exec_inv E. exec_inv E. clear Hx0.
  assert (Hr : ∀ ctx c d m buf, libspdm_generate_error_response ctx c d m buf ≠ Ret r)
    by (intros ? ? ? ? ? Hr; by destruct (error_refused _ _ _ _ _ _ SPDM_PSK_FINISH_RSP response Hr)).
  case_if; [by destruct (Hr _ _ _ _ _ E)|]. case_if; [by destruct (Hr _ _ _ _ _ E)|].
  case_if.
  { apply bool_decide_eq_true in E2. destruct Ha as [Hl Hc].
    by destruct (handle_response_state_inv _ _ _ _ _ SPDM_PSK_FINISH_RSP True E E2 Hl
      ltac:(done) ltac:(done) I) as [_ [Hn _]]. }
  case_if; [by destruct (Hr _ _ _ _ _ E)|]. case_if; [by destruct (Hr _ _ _ _ _ E)|].
  case_if; [by destruct (Hr _ _ _ _ _ E)|]. rewrite Hsi, (slot_in _ _ _ Hi) in E.
  cbn [mbind exec_bind] in E.
  case_if; [by destruct (Hr _ _ _ _ _ E)|]. case_if; [by destruct (Hr _ _ _ _ _ E)|].
  exec_inv E. destruct x1 as [[opaque ptr]|]; [|by destruct (Hr _ _ _ _ _ E)].
  apply read_finish_inv in Hx0.
  set (s1 := libspdm_reset_message_buffer_via_request_code s (Some i) _) in *.
  assert (Hk1 : kept_at i s s1) by apply kept_via_request_code.
  destruct Hk1 as [Hsu Hk1]. destruct (Hk1 si Hi) as (si1 & Hi1 & Hsk).
  pose proof (slot_kept_awaits _ _ _ _ _ Hsk Haw) as Haw1. pose proof Haw1 as [Hka Htha Hva].
  assert (Hds : digest_size s = hash_size_of h) by by apply hash_of_algo_cases.
  assert (Hh1 := setup_hash_algo _ _ _ Hsu Hh).
  assert (Hds1 : digest_size s1 = hash_size_of h) by by apply hash_of_algo_cases.
  exec_inv E. rename x1 into body. exec_inv E. destruct x1 as [st1 s2].
  case_if; [by destruct (Hr _ _ _ _ _ E)|].
  destruct (append_f_psk _ _ _ _ th _ _ _ Hi1 (pk_psk _ _ Hka) Htha Hx2 E8) as [_ ->].
  destruct (with_f_facts h si1 th body Hka) as (Hk2 & Hth2 & Hs2 & Hid2).
  exec_inv E. rename x1 into mac. exec_inv E.
  destruct x1; [|exfalso; cbn [negb] in E; case_if; [by destruct (Hr _ _ _ _ _ E)|];
    injection E as <-; destruct Ha as [[_ ->]%load_Ret_inv Ha]; done].
  cbn [negb] in E. apply load_Ret_inv in Hx1 as [R1 ->].
  change (digest_size (set_slot s1 i _)) with (digest_size s1) in Hx3. rewrite Hds1 in R1, Hx3.
  apply load_Ret_inv in Hx3 as [R2 ->]. rewrite Hds in Hx0.
  rewrite in_range_iff in R1. pose proof (hash_size_range h) as Hhr.
  assert (Hlm : blen (sub request ptr (hash_size_of h)) = hash_size_of h)
    by (rewrite length_sub by done; lia).
  set (body := sub request 0 _) in *. set (mac := sub request ptr _) in *.
  assert (Hreq : request = body ++ mac).
  { unfold body, mac. rewrite <- (sub_all request) at 1. rewrite Hx0 at 1.
    replace (blen request - digest_size s1) with ptr by lia. apply sub_app; lia. }
  unfold libspdm_verify_psk_finish_req_hmac in Hx4. exec_inv Hx4. clear Hx1. exec_inv Hx4.
  destruct x2 as [mac1|]; [|discriminate]. rewrite <- Hs2 in Hva.
  pose proof (finish_mac _ i _ h _ keys _ _ (slot_set_slot _ _ _ _ Hi1) Hk2 Hh1 Hth2 Hva Hx1) as Hm.
  apply mem_equal_inv in Hx4 as <-;
    [|rewrite Hlm; symmetry; exact Hds1|rewrite (th_mac_size _ _ _ _ Hm); symmetry; exact Hds1].
  clearbody body mac. subst request.
  exec_inv E. destruct x2 as [[[size|] s3] buf]; [|by destruct (Hr _ _ _ _ _ E)]. injection E as <-.
  destruct Ha as [[_ ->]%load_Ret_inv _]. cbn [rp_response rp_size rp_ctx] in *.
  destruct (finish_session_inv _ i (with_f si1 th body) h (th ++ body) keys _ _ _ _ _ _ _ _ _
    (slot_set_slot _ _ _ _ Hi1) Hh1 (Build_awaits_finish _ _ _ _ Hk2 Hth2 Hva) Hx3)
    as (si' & Hi' & Hid' & Hsc' & Hst' & Hf').
  exists body, mac, si'. pose proof (sk_id _ _ Hsk). pose proof (sk_keys _ _ Hsk) as Hks.
  rewrite Hs2, Hks in Hsc', Hst'. rewrite <- !app_assoc in *. split_and!; try done. congruence.
Qed.
End with_services.
End facts.
End PskFacts.
