(* ===== verification/PskProps.v ===== *)
(** * PskProps: opening a session with a pre-shared key is correct

    The two endpoints agree on the session, its transcript and its keys after
    PSK_EXCHANGE and after PSK_FINISH; each accepts the other only with an HMAC of
    the transcript under a key of the schedule; and what a second attempt at
    PSK_FINISH, and opaque data longer than the specification allows, lead to. *)

From S2P Require Import Prelude SpdmDefs CommonSupport CryptLib SecuredContext SecuredSession.
From S2P Require Import SpdmContext SessionTable OpaqueData Messages KeyUpdate Connection.
From S2P Require Import Handlers Responder ConnectionProps Transcript PskSession PskFacts.
Import KeyScheduleFacts ContextFacts TableFacts SessionFacts.
Import SetupFacts SetupLinkFacts TranscriptFacts PskKeyFacts PskFacts.

(** ** Toy services, for the witnesses *)
Module ToyPsk.
Import ToyHal SessionTableProps.

Definition toy_hash : HashHal := {|
  hal_hash_new _ := true; hal_hash_init _ := true; hal_hash_duplicate _ _ := true;
  hal_hash_update _ _ _ := true;
  hal_hash_final h bs := (true, spread bs (hash_size_of h));
  hal_hash_all h bs := (true, spread bs (hash_size_of h));
  hal_hmac_all h bs k := (true, spread (k ++ bs) (hash_size_of h)) |}.

Lemma toy_hash_ok : @HashHalOk toy_hash.
Proof. split; intros; cbn; apply spread_ok; pose proof (hash_size_range h); lia. Qed.

Definition toy_services : SessionServices := {|
  libspdm_psk_exchange_rsp_opaque_data _ _ _ _ _ _ _ := (false, 0, []);
  libspdm_psk_finish_rsp_opaque_data _ _ _ _ _ := (true, 4, [1; 2; 3; 4]);
  libspdm_generate_measurement_summary_hash _ _ n := (true, zeros n);
  libspdm_start_watchdog _ _ := true |}.

Lemma toy_services_exact : @opaque_data_exact toy_services.
Proof. intros ? ? ? ? ? ? ? ?. discriminate. Qed.

Definition toy_capability (f : Z) : libspdm_device_capability_t :=
  Build_device_capability 0 0 0 f 0 4096 4096 4096 64 40.

Definition requester_flags : Z :=
  Z.lor SPDM_GET_CAPABILITIES_REQUEST_FLAGS_PSK_CAP_REQUESTER
    (Z.lor SPDM_GET_CAPABILITIES_REQUEST_FLAGS_MAC_CAP
       SPDM_GET_CAPABILITIES_REQUEST_FLAGS_ENCRYPT_CAP).

Definition responder_flags : Z :=
  Z.lor SPDM_GET_CAPABILITIES_RESPONSE_FLAGS_PSK_CAP_RESPONDER_WITH_CONTEXT
    (Z.lor SPDM_GET_CAPABILITIES_RESPONSE_FLAGS_MAC_CAP
       SPDM_GET_CAPABILITIES_RESPONSE_FLAGS_ENCRYPT_CAP).

Definition toy_endpoint (local peer : Z) : libspdm_context_t :=
  toy_table <| lc_capability := toy_capability local |>
            <| ci_capability := toy_capability peer |> <| ci_version := 0x1200 |>
            <| exchange := (exchange toy_table) <| last_spdm_request := zeros 4096 |> |>.

Definition toy_requester : libspdm_context_t := toy_endpoint requester_flags responder_flags.
Definition toy_responder : libspdm_context_t :=
  (toy_endpoint responder_flags requester_flags) <| lc_is_requester := false |>.

Definition toy_args : psk_exchange_args :=
  Build_psk_exchange_args (Some [1; 2; 3]) 3 0 0 None None.
Definition toy_outs : psk_exchange_outs :=
  Build_psk_exchange_outs 0 (Some 0) None None None None.

#[local] Existing Instances default_build toy_hal toy_hash toy_services.

Lemma bytes_ok_forallb l : forallb (λ z, (0 <=? z) && (z <? 256)) l = true → bytes_ok l.
Proof.
  intros Hb. apply Forall_forall. intros z Hz. rewrite forallb_forall in Hb.
  specialize (Hb z Hz). unfold is_u8. lia.
Qed.

(** PSK_EXCHANGE between two endpoints. *)
Record exchanged_psk `{CryptoHal} : Type := ExchangedPsk {
  te_request : list Z; te_outs : psk_exchange_outs; te_rng : rng_state;
  te_sent : libspdm_context_t; te_reply : reply; te_rng' : rng_state; te_response : list Z;
  te_requester : libspdm_context_t; te_outs' : psk_exchange_outs;
}.

Section opening.
Context `{BuildConfig, CryptoHal, HashHal, SessionServices}.
Variables (q s : libspdm_context_t) (args : psk_exchange_args) (outs : psk_exchange_outs)
  (rng_q rng_s : rng_state).

Definition psk_opening : exec (option exchanged_psk) :=
  '(built, outs, rng) ← build_psk_exchange q args outs 0xFFFF rng_q;
  match built with
  | None => Ret None
  | Some request =>
      q ← put_last_request q request;
      '(r, rng') ← libspdm_get_response_psk_exchange s (blen request) request 1024 (zeros 1024) rng_s;
      response ← load (rp_response r) 0 (rp_size r);
      '(status, q', outs') ← process_psk_exchange_rsp q args outs 0xFFFF (blen request) response;
      Ret (if bool_decide (status = LIBSPDM_STATUS_SUCCESS)
              && bool_decide (response !! 1%nat = Some SPDM_PSK_EXCHANGE_RSP)
              && forallb (λ z, (0 <=? z) && (z <? 256)) request
              && (blen request <? 2 ^ 16) && (blen response <? 2 ^ 16)
           then Some (ExchangedPsk _ request outs rng q r rng' response q' outs') else None)
  end.

Lemma psk_opening_inv t : psk_opening = Ret (Some t) →
  build_psk_exchange q args outs 0xFFFF rng_q = Ret (Some (te_request t), te_outs t, te_rng t) ∧
  put_last_request q (te_request t) = Ret (te_sent t) ∧
  libspdm_get_response_psk_exchange s (blen (te_request t)) (te_request t) 1024 (zeros 1024) rng_s =
    Ret (te_reply t, te_rng' t) ∧
  load (rp_response (te_reply t)) 0 (rp_size (te_reply t)) = Ret (te_response t) ∧
  process_psk_exchange_rsp (te_sent t) args (te_outs t) 0xFFFF (blen (te_request t)) (te_response t) =
    Ret (LIBSPDM_STATUS_SUCCESS, te_requester t, te_outs' t) ∧
  te_response t !! 1%nat = Some SPDM_PSK_EXCHANGE_RSP ∧ bytes_ok (te_request t) ∧
  blen (te_request t) < 2 ^ 16 ∧ blen (te_response t) < 2 ^ 16.
Proof.
  unfold psk_opening. intros E. exec_inv E. destruct x as [[[request|] outs1] rng]; [|discriminate E].
  exec_inv E. exec_inv E. destruct x0 as [r rng']. exec_inv E. exec_inv E.
  destruct x1 as [[status q'] outs']. case_if; [|discriminate E]. injection E as <-. cbn.
  rewrite !andb_true_iff, !bool_decide_eq_true in E0. destruct E0 as ((((-> & Hb) & Hf) & Hl) & Hl').
  split_and!; try done; [by apply bytes_ok_forallb|lia|lia].
Qed.
End opening.

(** PSK_FINISH in the session [session_id], which both have in their first slot. *)
Record finished_psk : Type := FinishedPsk {
  tf_body : list Z; tf_requester : libspdm_context_t; tf_sealed : list Z;
  tf_reply : reply; tf_response : list Z; tf_established : libspdm_context_t;
}.

(** A request of the session has arrived. *)
Definition received_in s (session_id : Z) : libspdm_context_t :=
  s <| last_spdm_request_session_id := session_id |> <| last_spdm_request_session_id_valid := true |>.

(** Only the first slot holds the session. *)
Definition first_slot_only (sid : Z) (ctx : libspdm_context_t) : bool :=
  forallb (λ si, negb (session_id si =? sid)) (drop 1 (session_info ctx)).

Lemma first_slot_only_inv sid ctx i si : first_slot_only sid ctx = true →
  session_info ctx !! i = Some si → session_id si = sid → i = 0%nat.
Proof.
  unfold first_slot_only. rewrite forallb_forall. intros Hf Hi Hid. destruct i as [|i]; [done|].
  exfalso. specialize (Hf si). rewrite Hid, Z.eqb_refl in Hf.
  enough (false = true) by done. apply Hf, list_elem_of_In, (list_elem_of_lookup_2 _ i).
  by rewrite lookup_drop.
Qed.

Section finishing.
Context `{BuildConfig, CryptoHal, HashHal, SessionServices}.
Variables (q s : libspdm_context_t) (sid : Z).

Definition psk_finishing : exec (option finished_psk) :=
  body ← build_psk_finish q None;
  '(status1, q, sealed) ← seal_psk_finish q 0 body;
  r ← libspdm_get_response_psk_finish (received_in s sid) (blen sealed) sealed 1024 (zeros 1024);
  response ← load (rp_response r) 0 (rp_size r);
  '(status2, q', _) ← process_psk_finish_rsp
    (libspdm_reset_message_buffer_via_request_code q (Some 0%nat) SPDM_PSK_FINISH) 0 None response;
  Ret (if bool_decide (status1 = LIBSPDM_STATUS_SUCCESS)
          && bool_decide (status2 = LIBSPDM_STATUS_SUCCESS)
          && bool_decide (response !! 1%nat = Some SPDM_PSK_FINISH_RSP)
          && bool_decide (libspdm_get_session_info_via_session_id (received_in s sid) sid = Some 0%nat)
       then Some (FinishedPsk body q sealed r response q') else None).

Lemma psk_finishing_inv t : psk_finishing = Ret (Some t) →
  seal_psk_finish q 0 (tf_body t) = Ret (LIBSPDM_STATUS_SUCCESS, tf_requester t, tf_sealed t) ∧
  libspdm_get_response_psk_finish (received_in s sid) (blen (tf_sealed t)) (tf_sealed t) 1024
    (zeros 1024) = Ret (tf_reply t) ∧
  load (rp_response (tf_reply t)) 0 (rp_size (tf_reply t)) = Ret (tf_response t) ∧
  tf_response t !! 1%nat = Some SPDM_PSK_FINISH_RSP ∧
  libspdm_get_session_info_via_session_id (received_in s sid) sid = Some 0%nat ∧
  ∃ out, process_psk_finish_rsp (libspdm_reset_message_buffer_via_request_code (tf_requester t)
    (Some 0%nat) SPDM_PSK_FINISH) 0 None (tf_response t) = Ret (LIBSPDM_STATUS_SUCCESS, tf_established t, out).
Proof.
  unfold psk_finishing. intros E. exec_inv E. exec_inv E. destruct x0 as [[status1 q1] sealed].
  exec_inv E. exec_inv E. exec_inv E. destruct x2 as [[status2 q'] out]. case_if; [|discriminate E].
  injection E as <-. cbn. rewrite !andb_true_iff, !bool_decide_eq_true in E0.
  destruct E0 as (((-> & ->) & Hc) & Hf). split_and!; try done. by exists out.
Qed.

(** A second attempt, after one with the request [body1]. *)
Definition psk_retrying (body1 : list Z) : exec bool :=
  '(status1, q1, sealed1) ← seal_psk_finish q 0 body1;
  body2 ← build_psk_finish q1 None;
  '(status2, q2, sealed2) ← seal_psk_finish
    (libspdm_reset_message_buffer_via_request_code q1 (Some 0%nat) SPDM_PSK_FINISH) 0 body2;
  r ← libspdm_get_response_psk_finish (received_in s sid) (blen sealed2) sealed2 1024 (zeros 1024);
  response ← load (rp_response r) 0 (rp_size r);
  Ret (bool_decide (status1 = LIBSPDM_STATUS_SUCCESS)
       && bool_decide (status2 = LIBSPDM_STATUS_SUCCESS)
       && bool_decide (response !! 1%nat = Some SPDM_PSK_FINISH_RSP)
       && bool_decide (libspdm_get_session_info_via_session_id (received_in s sid) sid = Some 0%nat)).

Lemma psk_retrying_inv body1 : psk_retrying body1 = Ret true →
  ∃ q1 sealed1 body2 q2 sealed2 r response,
    seal_psk_finish q 0 body1 = Ret (LIBSPDM_STATUS_SUCCESS, q1, sealed1) ∧
    seal_psk_finish (libspdm_reset_message_buffer_via_request_code q1 (Some 0%nat) SPDM_PSK_FINISH)
      0 body2 = Ret (LIBSPDM_STATUS_SUCCESS, q2, sealed2) ∧
    libspdm_get_response_psk_finish (received_in s sid) (blen sealed2) sealed2 1024 (zeros 1024) = Ret r ∧
    load (rp_response r) 0 (rp_size r) = Ret response ∧
    response !! 1%nat = Some SPDM_PSK_FINISH_RSP ∧
    libspdm_get_session_info_via_session_id (received_in s sid) sid = Some 0%nat.
Proof.
  unfold psk_retrying. intros E. exec_inv E. destruct x as [[status1 q1] sealed1].
  exec_inv E. exec_inv E. destruct x0 as [[status2 q2] sealed2]. exec_inv E. exec_inv E.
  injection E as E. rewrite !andb_true_iff, !bool_decide_eq_true in E.
  destruct E as (((-> & ->) & Hc) & Hf).
  exists q1, sealed1, x, q2, sealed2, x0, x1. by split_and!.
Qed.
End finishing.

Abbreviation toy_opening := (@psk_opening default_build toy_hal toy_hash toy_services
  toy_requester toy_responder toy_args toy_outs 0 9).

(** The first slot of a context holds the session, which is in the handshake phase. *)
Definition handshaking_first (sid : Z) (ctx : libspdm_context_t) : bool :=
  first_slot_only sid ctx
  && match hash_of_algo (hash_algo ctx) with Some SHA256 => true | _ => false end
  && match session_info ctx !! 0%nat with
     | Some si => bool_decide (session_state (secured_message_context si)
                               = LIBSPDM_SESSION_STATE_HANDSHAKING)
     | None => false
     end.

Lemma handshaking_first_inv sid ctx i si : handshaking_first sid ctx = true →
  session_info ctx !! i = Some si → session_id si = sid →
  session_info ctx !! 0%nat = Some si ∧ hash_of_algo (hash_algo ctx) = Some SHA256 ∧
  session_state (secured_message_context si) = LIBSPDM_SESSION_STATE_HANDSHAKING.
Proof.
  unfold handshaking_first. rewrite !andb_true_iff. intros [[Hf Hh] Hs] Hi Hid.
  pose proof (first_slot_only_inv _ _ _ _ Hf Hi Hid) as ->. rewrite Hi in Hs.
  apply bool_decide_eq_true in Hs. split; [done|]. split; [|done].
  by destruct (hash_of_algo (hash_algo ctx)) as [[]|].
Qed.

Lemma toy_opening_ok : match toy_opening with
  | Ret (Some t) => handshaking_first (po_session_id (te_outs' t)) (te_requester t)
                    && handshaking_first (po_session_id (te_outs' t)) (rp_ctx (te_reply t))
  | _ => false
  end = true.
Proof. vm_compute. reflexivity. Qed.

Abbreviation toy_finishing := (t ← toy_opening; match t with
  | Some t => @psk_finishing default_build toy_hal toy_hash toy_services (te_requester t)
                (rp_ctx (te_reply t)) (po_session_id (te_outs' t))
  | None => Ret None
  end).

Abbreviation toy_retrying := (t ← toy_opening; match t with
  | Some t => @psk_retrying default_build toy_hal toy_hash toy_services (te_requester t)
                (rp_ctx (te_reply t)) (po_session_id (te_outs' t)) [0; 0]
  | None => Ret false
  end).

(** The toy checksum collides for this first request. *)
Lemma toy_retrying_ok : toy_retrying = Ret true.
Proof. vm_compute. reflexivity. Qed.

Lemma toy_finishing_ok : match toy_finishing with Ret (Some _) => true | _ => false end = true.
Proof. vm_compute. reflexivity. Qed.
End ToyPsk.

(** ** Agreement *)
Module PskProps.
Section props.
Context `{BuildConfig, CryptoHal, HashHal, SessionServices, !CryptoHalOk, !HashHalOk}.
Implicit Types q s : libspdm_context_t.

(** What the set-up of the connection leaves equal at both endpoints. *)
Record negotiated (h : hash_alg) q s : Prop := {
  ng_hash : hash_of_algo (hash_algo q) = Some h;
  ng_schedule : negotiated_schedule q [] = negotiated_schedule s [];
  ng_message_a : message_a q = message_a s;
  ng_flags : flags (ci_capability q) = flags (lc_capability s);
}.

(** The same session at both ends: transcript, phase and the keys in use. *)
Record same_psk_session (h : hash_alg) (th : list Z) (sq ss : libspdm_session_info_t) : Prop := {
  ss_id : session_id sq = session_id ss;
  ss_schedule : schedule (secured_message_context sq) = schedule (secured_message_context ss);
  ss_state : session_state (secured_message_context sq) = session_state (secured_message_context ss);
  ss_th_q : digest_context_th (session_transcript sq) = Some th;
  ss_th_s : digest_context_th (session_transcript ss) = Some th;
  ss_keys :
    match session_state (secured_message_context sq) with
    | LIBSPDM_SESSION_STATE_HANDSHAKING => ∃ keys,
        awaits_finish h th keys sq ∧ awaits_finish h th keys ss
    | LIBSPDM_SESSION_STATE_ESTABLISHED =>
        data_keys_of (secured_message_context sq) = data_keys_of (secured_message_context ss)
    | _ => False
    end;
}.

Lemma same_hash q s h : negotiated h q s → hash_of_algo (hash_algo s) = Some h.
Proof.
  intros [Hh Hs _ _]. unfold negotiated_schedule in Hs. injection Hs as _ Ha _ _ _.
  unfold hash_algo. by rewrite <- Ha.
Qed.

Lemma same_schedule q s h hint : negotiated h q s →
  negotiated_schedule q hint = negotiated_schedule s hint.
Proof.
  intros [_ Hs _ _]. unfold negotiated_schedule in *. injection Hs as E1 E2 _ E4 E5.
  by rewrite E1, E2, E4, E5.
Qed.

Lemma same_summary_size q s h t : negotiated h q s →
  libspdm_get_measurement_summary_hash_size q true t = libspdm_get_measurement_summary_hash_size s false t.
Proof.
  intros Hn. unfold libspdm_get_measurement_summary_hash_size,
    libspdm_is_capabilities_flag_supported. rewrite (ng_flags _ _ _ Hn).
  assert (hash_algo q = hash_algo s) as ->; [|done].
  destruct Hn as [_ Hs _ _]. unfold negotiated_schedule in Hs. by injection Hs as _ Ha _ _ _.
Qed.

Lemma same_phase q s h : negotiated h q s → opened_phase q true = opened_phase s false.
Proof.
  intros Hn. unfold opened_phase, libspdm_is_capabilities_flag_supported.
  by rewrite (ng_flags _ _ _ Hn).
Qed.

(** The slots are determined by the transcript and the HMAC. *)
Lemma opened_agree h th mac sq ss : psk_opened h th mac sq → psk_opened h th mac ss →
  session_id sq = session_id ss →
  schedule (secured_message_context sq) = schedule (secured_message_context ss) →
  session_state (secured_message_context sq) = session_state (secured_message_context ss) →
  same_psk_session h (th ++ mac) sq ss.
Proof.
  intros (Hk1 & Ht1 & _ & k1 & (d1 & D1 & R1) & _ & P1) (Hk2 & Ht2 & _ & k2 & (d2 & D2 & R2) & _ & P2)
    Hid Hs Hst.
  assert (d2 = d1) as -> by congruence.
  rewrite <- (schedule_handshake _ _ _ _ Hs (pk_use _ _ Hk1)), R1 in R2. injection R2 as <-.
  split; try done. rewrite <- Hst in P2.
  destruct (session_state (secured_message_context sq)); try done.
  - exists k1. by split.
  - destruct P1 as (t1 & T1 & Q1), P2 as (t2 & T2 & Q2). assert (t2 = t1) as -> by congruence.
    rewrite <- (schedule_data _ _ _ _ Hs (pk_use _ _ Hk1)), Q1 in Q2. by apply (inj Some) in Q2.
Qed.

Lemma exchange_agree q0 q s h args outs outs0 rid rng rng1 request n r rngs rngs1 response
    q' outs'
    (Hn : negotiated h q s) (Hx : opaque_data_exact) (Ha : hint_ok args) (Hrid : is_u16 rid)
    (Hb : bytes_ok request) (Hlen : blen request < 2 ^ 16) (Hlen' : blen response < 2 ^ 16)
    (Hbuild : build_psk_exchange q0 args outs0 rid rng = Ret (Some request, outs, rng1))
    (Hlast : load (last_spdm_request (exchange q)) 0 (blen request) = Ret request)
    (Hrsp : libspdm_get_response_psk_exchange s (blen request) request n (zeros n) rngs = Ret (r, rngs1))
    (Hans : answer r SPDM_PSK_EXCHANGE_RSP response)
    (Hacc : process_psk_exchange_rsp q args outs rid (blen request) response =
              Ret (LIBSPDM_STATUS_SUCCESS, q', outs')) :
  ∃ i j sq ss, session_info q' !! i = Some sq ∧ session_info (rp_ctx r) !! j = Some ss ∧
    session_id sq = po_session_id outs' ∧
    same_psk_session h (message_a q ++ request ++ response) sq ss.
Proof.
  destruct (psk_exchange_inv _ h _ _ _ _ _ _ (same_hash _ _ _ Hn) Hb Hx Hrsp Hans)
    as (m & o & rsid & j & ss & Hread & (v & period & Hhd) & Hr16 & Hop & Hl & Hj & Hid & Hsc & Hst & Ho).
  destruct (process_inv q args outs h rid _ response q' outs' (ng_hash _ _ _ Hn) (proj2 (proj2 Ha)) Hacc)
    as (p & i & sq & Hp & Hid' & Hi & Hids & Hsc' & Hst' & R1 & R2 & R3 & Ho').
  destruct (built_read _ _ _ _ (build_inv _ _ _ _ _ _ _ _ Ha Hbuild) Hrid Hlen Hread)
    as (Htype & Hrq & Hhint & Hsize).
  pose proof (summary_size_nonneg s false (param1 (pq_header m))) as Hsum.
  pose proof (psk_context_length_nonneg s) as Hctx. pose proof (hash_size_range h) as Hhr.
  destruct (rsp_header_read response v period rsid (psk_context_length s) (op_rsp_size o) p Hhd)
    as (E1 & E2 & E3); [unfold sizeof_spdm_psk_exchange_response in Hl; lia|done|
      unfold sizeof_spdm_psk_exchange_response in Hl; lia
     |unfold sizeof_spdm_psk_exchange_response in Hl; lia|done|].
  rewrite E2, E3, (same_summary_size _ _ _ _ Hn), <- Htype in Ho', R2, R3.
  set (size := _ + op_rsp_size o) in *. cbv zeta in Ho.
  apply load_Ret_inv in Hlast as [_ Hlast]. rewrite <- Hlast in Ho'.
  rewrite Hsize, sub_all, <- (ng_message_a _ _ _ Hn) in Ho.
  rewrite in_range_iff in R2, R3.
  assert (Hw : sub response 0 size ++ sub response size (hash_size_of h) = response).
  { rewrite <- (sub_all response) at 3. rewrite Hl. symmetry. apply sub_app; lia. }
  exists i, j, sq, ss. split; [done|]. split; [done|]. split; [done|].
  replace (message_a q ++ request ++ response) with
    ((message_a q ++ request ++ sub response 0 size) ++ sub response size (hash_size_of h))
    by (rewrite <- Hw at 3; by rewrite !app_assoc).
  apply opened_agree; [done|done|congruence| |].
  - by rewrite Hsc, Hsc', Hhint, (same_schedule _ _ _ _ Hn).
  - by rewrite Hst, Hst', (same_phase _ _ _ Hn).
Qed.

(** C3: the two endpoints agree on the session that PSK_EXCHANGE opens.  When the
    responder answers the request that the requester built with a
    PSK_EXCHANGE_RSP, and the requester, which keeps the request it sent, accepts
    those bytes, then each has a slot
    with the same session id, the same key schedule and phase, and the same
    transcript: message A, the request and the whole response.  In the handshake
    phase both hold the same handshake keys, and in the application phase, which a
    responder without a context enters at once, the same data keys.  The endpoints
    agree on the algorithms, message A and the capabilities of the responder, as
    the set-up of the connection leaves them. *)
Theorem psk_exchange_agreement q0 q s h args outs outs0 rid rng rng1 request n r rngs rngs1 response
    q' outs'
    (Hn : negotiated h q s) (Hx : opaque_data_exact) (Ha : hint_ok args) (Hrid : is_u16 rid)
    (Hb : bytes_ok request) (Hlen : blen request < 2 ^ 16) (Hlen' : blen response < 2 ^ 16)
    (Hbuild : build_psk_exchange q0 args outs0 rid rng = Ret (Some request, outs, rng1))
    (Hlast : load (last_spdm_request (exchange q)) 0 (blen request) = Ret request)
    (Hrsp : libspdm_get_response_psk_exchange s (blen request) request n (zeros n) rngs = Ret (r, rngs1))
    (Hans : answer r SPDM_PSK_EXCHANGE_RSP response)
    (Hacc : process_psk_exchange_rsp q args outs rid (blen request) response =
              Ret (LIBSPDM_STATUS_SUCCESS, q', outs')) :
  ∃ i j sq ss, session_info q' !! i = Some sq ∧ session_info (rp_ctx r) !! j = Some ss ∧
    session_id sq = po_session_id outs' ∧
    same_psk_session h (message_a q ++ request ++ response) sq ss.
Proof. by eapply exchange_agree. Qed.

Lemma finished_agree h th sq ss : psk_finished h th sq → psk_finished h th ss →
  schedule (secured_message_context sq) = schedule (secured_message_context ss) →
  data_keys_of (secured_message_context sq) = data_keys_of (secured_message_context ss).
Proof.
  intros (Hk & _ & t1 & T1 & Q1) (_ & _ & t2 & T2 & Q2) Hs. assert (t2 = t1) as -> by congruence.
  rewrite <- (schedule_data _ _ _ _ Hs (pk_use _ _ Hk)), Q1 in Q2. by apply (inj Some) in Q2.
Qed.

(** C7: the two endpoints agree on the application keys after PSK_FINISH.  When both
    hold the same session in the handshake phase, the responder answers the request
    that the requester sealed with a PSK_FINISH_RSP, and the requester accepts those
    bytes, then both slots have the same transcript, with the request, its HMAC and
    the response appended, and the same data keys; the requester's session is
    established. *)
Theorem psk_finish_agreement q s h th i j sq ss body q1 sealed n r response out q' out'
    (Hq : session_info q !! i = Some sq) (Hs : session_info s !! j = Some ss)
    (Hhq : hash_of_algo (hash_algo q) = Some h) (Hhs : hash_of_algo (hash_algo s) = Some h)
    (Hsame : same_psk_session h th sq ss)
    (Hphase : session_state (secured_message_context sq) = LIBSPDM_SESSION_STATE_HANDSHAKING)
    (Hseal : seal_psk_finish q i body = Ret (LIBSPDM_STATUS_SUCCESS, q1, sealed))
    (Hfind : libspdm_get_session_info_via_session_id s (last_spdm_request_session_id s) = Some j)
    (Hrsp : libspdm_get_response_psk_finish s (blen sealed) sealed n (zeros n) = Ret r)
    (Hans : answer r SPDM_PSK_FINISH_RSP response)
    (Hacc : process_psk_finish_rsp
              (libspdm_reset_message_buffer_via_request_code q1 (Some i) SPDM_PSK_FINISH) i out response =
            Ret (LIBSPDM_STATUS_SUCCESS, q', out')) :
  ∃ sq' ss', session_info q' !! i = Some sq' ∧ session_info (rp_ctx r) !! j = Some ss' ∧
    session_id sq' = session_id ss' ∧
    session_state (secured_message_context sq') = LIBSPDM_SESSION_STATE_ESTABLISHED ∧
    digest_context_th (session_transcript sq') = Some (th ++ sealed ++ response) ∧
    digest_context_th (session_transcript ss') = Some (th ++ sealed ++ response) ∧
    data_keys_of (secured_message_context sq') = data_keys_of (secured_message_context ss').
Proof.
  destruct Hsame as [Hid Hsc Hst _ _ Hk]. rewrite Hphase in Hk. destruct Hk as (keys & Haq & Has).
  destruct (seal_inv _ _ _ _ _ _ _ _ _ _ Hq Hhq Haq Hseal eq_refl)
    as (mac & sq1 & _ & _ & -> & Hid1 & Hc1 & Ha1).
  destruct (kept_via_request_code i (set_slot q i sq1) (Some i) SPDM_PSK_FINISH) as [Hsu Hkept].
  destruct (Hkept _ (slot_set_slot _ _ _ _ Hq)) as (sq2 & Hi2 & Hsk).
  destruct (finish_rsp_inv _ _ _ _ _ _ _ _ _ _ Hi2 (setup_hash_algo _ _ _ Hsu Hhq)
    (slot_kept_awaits _ _ _ _ _ Hsk Ha1) Hacc) as (sq' & -> & Hid' & Hst' & Hsc' & Hf).
  destruct (psk_finish_inv _ _ _ _ _ _ _ _ _ _ Hfind Hs Hhs Has Hrsp Hans)
    as (body' & mac' & ss' & _ & _ & _ & Hj & Hids & Hscs & _ & Hfs).
  rewrite <- app_assoc in Hf. exists sq', ss'.
  assert (Hsc2 : schedule (secured_message_context sq') = schedule (secured_message_context ss'))
    by (rewrite Hsc', (sk_keys _ _ Hsk), Hc1, Hscs; done).
  split_and!; [by eapply slot_set_slot|done| |done|apply Hf|apply Hfs|by eapply finished_agree].
  rewrite Hid', (sk_id _ _ Hsk), Hid1, Hids. done.
Qed.

(** C6: the requester accepts a PSK_EXCHANGE_RSP only from a peer that knows the
    finished key.  Whatever bytes arrive, an accepted response ends, at the offset
    its length fields give, with the HMAC of the transcript (message A, the request
    as it was sent, and the response up to there) under the responder's finished
    key that the schedule derives from that transcript; the new session has the
    id made of both halves, that transcript and HMAC as message K, and the keys of
    the schedule. *)
Theorem psk_exchange_authenticated q h args outs rid n response q' outs'
    (Hh : hash_of_algo (hash_algo q) = Some h) (Ha : hint_ok args)
    (Hacc : process_psk_exchange_rsp q args outs rid n response =
              Ret (LIBSPDM_STATUS_SUCCESS, q', outs')) :
  ∃ request body mac rest i si keys, 
    load (last_spdm_request (exchange q)) 0 n = Ret request ∧ response = body ++ mac ++ rest ∧
    session_info q' !! i = Some si ∧ session_id si = po_session_id outs' ∧
    digest_context_th (session_transcript si) = Some ((message_a q ++ request ++ body) ++ mac) ∧
    schedule_gives h si (message_a q ++ request ++ body) keys ∧
    th_mac h (message_a q ++ request ++ body) (finished_of keys.2) mac ∧
    match session_state (secured_message_context si) with
    | LIBSPDM_SESSION_STATE_HANDSHAKING => handshake_keys_of (secured_message_context si) = keys
    | _ => has_data_keys h ((message_a q ++ request ++ body) ++ mac) si
    end.
Proof.
  destruct (process_inv q args outs h rid n response q' outs' Hh (proj2 (proj2 Ha)) Hacc)
    as (p & i & si & _ & _ & Hi & Hid & _ & _ & R1 & R2 & R3 & _ & Hth & _ & keys & Hg & Hm & Hp).
  set (size := _ + pp_opaque_length p) in *.
  exists (sub (last_spdm_request (exchange q)) 0 n), (sub response 0 size),
    (sub response size (hash_size_of h)),
    (sub response (size + hash_size_of h) (blen response - (size + hash_size_of h))), i, si, keys.
  split; [by apply load_in|]. split.
  { rewrite in_range_iff in R2, R3. rewrite <- (sub_all response) at 1.
    rewrite <- sub_app by lia.
    replace (blen response) with (size + (hash_size_of h + (blen response - (size + hash_size_of h))))
      at 1 by lia. apply sub_app; lia. }
  split_and!; try done. by destruct (session_state _).
Qed.

(** C8: the responder answers a PSK_FINISH with a PSK_FINISH_RSP only if the request
    ends with the HMAC of the transcript so far and the request under the
    requester's finished key; the session then has the data keys of the transcript
    with the request and the response, and keeps its id and phase until the
    response is sent. *)
Theorem psk_finish_authenticated s h j ss th keys request n r response
    (Hfind : libspdm_get_session_info_via_session_id s (last_spdm_request_session_id s) = Some j)
    (Hs : session_info s !! j = Some ss) (Hh : hash_of_algo (hash_algo s) = Some h)
    (Ha : awaits_finish h th keys ss)
    (Hrsp : libspdm_get_response_psk_finish s (blen request) request n (zeros n) = Ret r)
    (Hans : answer r SPDM_PSK_FINISH_RSP response) :
  ∃ body mac ss', request = body ++ mac ∧ blen mac = hash_size_of h ∧
    th_mac h (th ++ body) (finished_of keys.1) mac ∧
    session_info (rp_ctx r) !! j = Some ss' ∧ session_id ss' = session_id ss ∧
    session_state (secured_message_context ss') = session_state (secured_message_context ss) ∧
    digest_context_th (session_transcript ss') = Some (th ++ request ++ response) ∧
    has_data_keys h (th ++ request ++ response) ss'.
Proof.
  destruct (psk_finish_inv _ _ _ _ _ _ _ _ _ _ Hfind Hs Hh Ha Hrsp Hans)
    as (body & mac & ss' & Hr & Hl & Hm & Hj & Hid & _ & Hst & _ & Hth & Hd).
  exists body, mac, ss'. by split_and!.
Qed.

(** C31: a second attempt at PSK_FINISH is not what the responder expects.  The
    requester does not reset message F before it tries again (after a BUSY
    response): the HMAC of the second request covers the first request and its
    HMAC as well.  A responder in the state of the first attempt accepts it only if
    the HMACs of the two different transcripts collide. *)
Theorem psk_finish_retry q s h th i j sq ss body1 q1 sealed1 body2 q2 sealed2 n r response
    (Hq : session_info q !! i = Some sq) (Hs : session_info s !! j = Some ss)
    (Hhq : hash_of_algo (hash_algo q) = Some h) (Hhs : hash_of_algo (hash_algo s) = Some h)
    (Hsame : same_psk_session h th sq ss)
    (Hphase : session_state (secured_message_context sq) = LIBSPDM_SESSION_STATE_HANDSHAKING)
    (Hseal1 : seal_psk_finish q i body1 = Ret (LIBSPDM_STATUS_SUCCESS, q1, sealed1))
    (Hseal2 : seal_psk_finish
                (libspdm_reset_message_buffer_via_request_code q1 (Some i) SPDM_PSK_FINISH) i body2 =
              Ret (LIBSPDM_STATUS_SUCCESS, q2, sealed2))
    (Hfind : libspdm_get_session_info_via_session_id s (last_spdm_request_session_id s) = Some j)
    (Hrsp : libspdm_get_response_psk_finish s (blen sealed2) sealed2 n (zeros n) = Ret r)
    (Hans : answer r SPDM_PSK_FINISH_RSP response) :
  ∃ key mac, th_mac h (th ++ body2) key mac ∧ th_mac h (th ++ sealed1 ++ body2) key mac ∧
    th ++ body2 ≠ th ++ sealed1 ++ body2.
Proof.
  destruct Hsame as [Hid Hsc Hst _ _ Hk]. rewrite Hphase in Hk. destruct Hk as (keys & Haq & Has).
  destruct (seal_inv _ _ _ _ _ _ _ _ _ _ Hq Hhq Haq Hseal1 eq_refl)
    as (mac1 & sq1 & Hs1 & Hm1 & -> & _ & _ & Ha1).
  destruct (kept_via_request_code i (set_slot q i sq1) (Some i) SPDM_PSK_FINISH) as [Hsu Hkept].
  destruct (Hkept _ (slot_set_slot _ _ _ _ Hq)) as (sq2 & Hi2 & Hsk).
  destruct (seal_inv _ _ _ _ _ _ _ _ _ _ Hi2 (setup_hash_algo _ _ _ Hsu Hhq)
    (slot_kept_awaits _ _ _ _ _ Hsk Ha1) Hseal2 eq_refl) as (mac2 & sq3 & Hs2 & Hm2 & _).
  destruct (psk_finish_inv _ _ _ _ _ _ _ _ _ _ Hfind Hs Hhs Has Hrsp Hans)
    as (body' & mac' & ss' & Hr & Hl & Hm & _).
  rewrite Hs2 in Hr. apply app_inj_2 in Hr as [-> ->].
  2: { apply Nat2Z.inj. rewrite Hl. by eapply th_mac_size. }
  exists (finished_of keys.1), mac'. rewrite <- app_assoc in Hm2. split_and!; [done|done|].
  intros E. apply (f_equal length) in E. rewrite Hs1, !length_app in E.
  pose proof (th_mac_size _ _ _ _ Hm1). pose proof (hash_size_range h). lia.
Qed.

(** C30: opaque data longer than the specification allows stops a responder that is
    built with assertions.  A PSK_EXCHANGE that passes every check of its header
    and sizes, with more than SPDM_MAX_OPAQUE_DATA_SIZE bytes of opaque data, for
    which the integrator has no opaque data of its own, is not refused with an
    ERROR: the general check of the opaque data asserts on its size. *)
Theorem psk_exchange_opaque_asserts s hd request n buf rng m
    (Hassert : LIBSPDM_DEBUG_ASSERT_ENABLE = true)
    (Hhd : read_header request = Ret hd)
    (Hcode : request_response_code hd = SPDM_PSK_EXCHANGE)
    (Hv : spdm_version hd = libspdm_get_connection_version s)
    (Hv11 : SPDM_MESSAGE_VERSION_11 ≤ libspdm_get_connection_version s)
    (Hst : response_state (exchange s) = LIBSPDM_RESPONSE_STATE_NORMAL)
    (Hok : psk_exchange_refused s hd = None)
    (Hread : read_psk_exchange_request (blen request) request = Ret (Some m))
    (Hhint : blen (pq_psk_hint m) ≤ LIBSPDM_PSK_MAX_HINT_LENGTH)
    (Hlong : SPDM_MAX_OPAQUE_DATA_SIZE < blen (pq_opaque_data m))
    (Hnone : ∀ size, (call_opaque_data s m false size).1.1 = false) :
  libspdm_get_response_psk_exchange s (blen request) request n buf rng = Fault AssertFailed.
Proof.
  unfold libspdm_get_response_psk_exchange. rewrite Hhd. cbn [mbind exec_bind].
  rewrite Hcode, Z.eqb_refl, assert_true. cbn [mbind exec_bind].
  rewrite (proj2 (Z.ltb_ge _ _) Hv11), Hv, Z.eqb_refl. cbn [negb].
  rewrite bool_decide_false by (intros Hns; by apply Hns). rewrite Hok, Hread. cbn [mbind exec_bind].
  rewrite (proj2 (Z.ltb_ge _ _) Hhint).
  assert (Hf : ∀ room b, choose_psk_opaque s m room b = Fault AssertFailed); [|by rewrite Hf].
  intros room b. unfold choose_psk_opaque.
  replace (blen (pq_opaque_data m) =? 0) with false
    by (unfold SPDM_MAX_OPAQUE_DATA_SIZE in Hlong; lia).
  specialize (Hnone (size_t room)).
  destruct (call_opaque_data s m false (size_t room)) as [[custom size] written]. cbn in Hnone. subst custom.
  unfold default_psk_opaque, libspdm_process_general_opaque_data_check, LIBSPDM_ASSERT.
  by rewrite (proj2 (Z.leb_gt _ _) Hlong), Hassert.
Qed.
End props.

(** *** Witnesses *)
Section witnesses.
Import ToyHal ToyPsk SessionTableProps.
#[local] Existing Instances default_build toy_hal toy_hash toy_services toy_hal_ok toy_hash_ok.

Lemma toy_negotiated request q : put_last_request toy_requester request = Ret q →
  negotiated SHA256 q toy_responder.
Proof.
  intros (l & Hs & _)%put_last_request_inv.
  pose proof (f_equal su_ci_algorithm Hs) as Ha. pose proof (f_equal su_ci_version Hs) as Hv.
  pose proof (f_equal su_ci_capability Hs) as Hc. pose proof (f_equal su_message_a Hs) as Hm.
  cbn in Ha, Hv, Hc, Hm. split.
  - unfold hash_algo. by rewrite Ha.
  - unfold negotiated_schedule. by rewrite Ha, Hv.
  - unfold message_a, setup. cbn. by rewrite Hm.
  - by rewrite Hc.
Qed.

Lemma toy_hint_ok : hint_ok toy_args.
Proof. split; [done|]. split; [done|]. intros p [= <-]. by apply bytes_ok_forallb. Qed.

Lemma toy_id_ok : is_u16 0xFFFF.
Proof. by vm_compute. Qed.

Lemma toy_opened : ∃ t, toy_opening = Ret (Some t) ∧
  handshaking_first (po_session_id (te_outs' t)) (te_requester t) = true ∧
  handshaking_first (po_session_id (te_outs' t)) (rp_ctx (te_reply t)) = true.
Proof.
  pose proof toy_opening_ok as R. destruct toy_opening as [[t|]|]; [|done|done].
  apply andb_true_iff in R as [R1 R2]. by exists t.
Qed.

Lemma psk_exchange_agreement_witness : ∃ sq ss th, same_psk_session SHA256 th sq ss.
Proof.
  destruct toy_opened as (t & E & _).
  destruct (psk_opening_inv _ _ _ _ _ _ _ E) as (Hb & Hp & Hr & Hl & Hq & Hc & Hok & L1 & L2).
  destruct (put_last_request_inv _ _ _ Hp) as (l & _ & Hll & Hle & _). rewrite <- Hle in Hll.
  destruct (@psk_exchange_agreement default_build toy_hal toy_hash toy_services toy_hal_ok toy_hash_ok
    toy_requester (te_sent t) toy_responder SHA256 toy_args (te_outs t) toy_outs 0xFFFF 0 (te_rng t)
    (te_request t) 1024 (te_reply t) 9 (te_rng' t) (te_response t) (te_requester t) (te_outs' t)
    (toy_negotiated _ _ Hp) toy_services_exact toy_hint_ok toy_id_ok Hok L1 L2 Hb Hll Hr
    (conj Hl Hc) Hq) as (i & j & sq & ss & _ & _ & _ & Hs).
  by eexists sq, ss, _.
Defined.

Lemma psk_exchange_authenticated_witness : ∃ th key mac, th_mac SHA256 th key mac.
Proof.
  destruct toy_opened as (t & E & _).
  destruct (psk_opening_inv _ _ _ _ _ _ _ E) as (_ & Hp & _ & _ & Hq & _).
  destruct (@psk_exchange_authenticated default_build toy_hal toy_hash toy_hal_ok toy_hash_ok
    (te_sent t) SHA256 toy_args (te_outs t) 0xFFFF _ (te_response t) (te_requester t) (te_outs' t)
    (ng_hash _ _ _ (toy_negotiated _ _ Hp)) toy_hint_ok Hq)
    as (request & body & mac & rest & i & si & keys & _ & _ & _ & _ & _ & _ & Hm & _).
  by exists (message_a (te_sent t) ++ request ++ body), (finished_of keys.2), mac.
Defined.

(** What both endpoints hold once the session is open. *)
Lemma toy_handshaking t : toy_opening = Ret (Some t) →
  handshaking_first (po_session_id (te_outs' t)) (te_requester t) = true →
  handshaking_first (po_session_id (te_outs' t)) (rp_ctx (te_reply t)) = true →
  ∃ sq ss th, session_info (te_requester t) !! 0%nat = Some sq ∧
    session_info (rp_ctx (te_reply t)) !! 0%nat = Some ss ∧
    hash_of_algo (hash_algo (te_requester t)) = Some SHA256 ∧
    hash_of_algo (hash_algo (rp_ctx (te_reply t))) = Some SHA256 ∧
    same_psk_session SHA256 th sq ss ∧
    session_state (secured_message_context sq) = LIBSPDM_SESSION_STATE_HANDSHAKING.
Proof.
  intros E Fq Fs.
  destruct (psk_opening_inv _ _ _ _ _ _ _ E) as (Hb & Hp & Hr & Hl & Hq & Hc & Hok & L1 & L2).
  destruct (put_last_request_inv _ _ _ Hp) as (l & _ & Hll & Hle & _). rewrite <- Hle in Hll.
  destruct (@exchange_agree default_build toy_hal toy_hash toy_services toy_hal_ok toy_hash_ok
    toy_requester (te_sent t) toy_responder SHA256 toy_args (te_outs t) toy_outs 0xFFFF 0 (te_rng t)
    (te_request t) 1024 (te_reply t) 9 (te_rng' t) (te_response t) (te_requester t) (te_outs' t)
    (toy_negotiated _ _ Hp) toy_services_exact toy_hint_ok toy_id_ok Hok L1 L2 Hb Hll Hr
    (conj Hl Hc) Hq) as (i & j & sq & ss & Hi & Hj & Hid & Hs).
  destruct (handshaking_first_inv _ _ _ _ Fq Hi Hid) as (Hi0 & Hh & Hst).
  destruct (handshaking_first_inv _ _ _ _ Fs Hj) as (Hj0 & Hh' & _).
  { by rewrite <- (ss_id _ _ _ _ Hs). }
  eexists sq, ss, _. split_and!; eassumption.
Qed.

Lemma toy_finished : ∃ t f sq ss th, 
  @psk_finishing default_build toy_hal toy_hash toy_services (te_requester t)
    (rp_ctx (te_reply t)) (po_session_id (te_outs' t)) = Ret (Some f) ∧
  session_info (te_requester t) !! 0%nat = Some sq ∧
  session_info (rp_ctx (te_reply t)) !! 0%nat = Some ss ∧
  hash_of_algo (hash_algo (te_requester t)) = Some SHA256 ∧
  hash_of_algo (hash_algo (rp_ctx (te_reply t))) = Some SHA256 ∧
  same_psk_session SHA256 th sq ss ∧
  session_state (secured_message_context sq) = LIBSPDM_SESSION_STATE_HANDSHAKING.
Proof.
  destruct toy_opened as (t & E & Fq & Fs). pose proof toy_finishing_ok as R.
  rewrite E in R. cbn [mbind exec_bind] in R.
  destruct (psk_finishing (te_requester t) (rp_ctx (te_reply t)) (po_session_id (te_outs' t)))
    as [[f|]|] eqn:Ef; [|done|done].
  destruct (toy_handshaking t E Fq Fs) as (sq & ss & th & Hs).
  exists t, f, sq, ss, th. split; [exact Ef|exact Hs].
Qed.

Lemma psk_finish_agreement_witness : ∃ sq ss,
  data_keys_of (secured_message_context sq) = data_keys_of (secured_message_context ss) ∧
  session_state (secured_message_context sq) = LIBSPDM_SESSION_STATE_ESTABLISHED.
Proof.
  destruct toy_finished as (t & f & sq & ss & th & Ef & Hq & Hs & Hhq & Hhs & Hsame & Hst).
  destruct (psk_finishing_inv _ _ _ _ Ef) as (H1 & H2 & H3 & H4 & H5 & out & H6).
  destruct (@psk_finish_agreement default_build toy_hal toy_hash toy_services toy_hal_ok toy_hash_ok
    (te_requester t) (received_in (rp_ctx (te_reply t)) (po_session_id (te_outs' t))) SHA256 th 0 0 sq ss
    _ _ _ _ _ _ _ _ _ Hq Hs Hhq Hhs Hsame Hst H1 H5 H2 (conj H3 H4) H6)
    as (sq' & ss' & _ & _ & _ & He & _ & _ & Hk).
  by exists sq', ss'.
Defined.

Lemma psk_finish_authenticated_witness : ∃ th key mac, th_mac SHA256 th key mac.
Proof.
  destruct toy_finished as (t & f & sq & ss & th & Ef & Hq & Hs & Hhq & Hhs & Hsame & Hst).
  destruct (psk_finishing_inv _ _ _ _ Ef) as (H1 & H2 & H3 & H4 & H5 & out & H6).
  pose proof (ss_keys _ _ _ _ Hsame) as Hk. rewrite Hst in Hk. destruct Hk as (keys & _ & Ha).
  destruct (@psk_finish_authenticated default_build toy_hal toy_hash toy_services toy_hal_ok toy_hash_ok
    (received_in (rp_ctx (te_reply t)) (po_session_id (te_outs' t))) SHA256 0 ss th keys
    _ _ _ _ H5 Hs Hhs Ha H2 (conj H3 H4)) as (body & mac & ss' & _ & _ & Hm & _).
  by exists (th ++ body), (finished_of keys.1), mac.
Defined.

Lemma psk_finish_retry_witness : ∃ th th' key mac,
  th_mac SHA256 th key mac ∧ th_mac SHA256 th' key mac ∧ th ≠ th'.
Proof.
  destruct toy_opened as (t & E & Fq & Fs). pose proof toy_retrying_ok as R.
  rewrite E in R. cbn [mbind exec_bind] in R.
  destruct (psk_retrying_inv _ _ _ _ R)
    as (q1 & sealed1 & body2 & q2 & sealed2 & r & response & H1 & H2 & H3 & H4 & H5 & H6).
  destruct (toy_handshaking t E Fq Fs) as (sq & ss & th & Hq & Hs & Hhq & Hhs & Hsame & Hst).
  destruct (@psk_finish_retry default_build toy_hal toy_hash toy_services toy_hal_ok toy_hash_ok
    (te_requester t) (received_in (rp_ctx (te_reply t)) (po_session_id (te_outs' t))) SHA256 th 0 0 sq ss
    _ _ _ _ _ _ _ _ _ Hq Hs Hhq Hhs Hsame Hst H1 H2 H6 H3 (conj H4 H5)) as (key & mac & Hm & Hm' & Hne).
  exists (th ++ body2), (th ++ sealed1 ++ body2), key, mac. split; [exact Hm|]. by split.
Defined.

(** A request with 1028 bytes of opaque data. *)
Definition long_request : list Z :=
  [0x12; SPDM_PSK_EXCHANGE; 0; 0] ++ le_bytes 2 1 ++ le_bytes 2 0 ++ le_bytes 2 0
  ++ le_bytes 2 1028 ++ zeros 1028.

Lemma psk_exchange_opaque_asserts_witness :
  @libspdm_get_response_psk_exchange default_build toy_hal toy_hash toy_services toy_responder
    (blen long_request) long_request 4096 (zeros 4096) 0 = Fault AssertFailed.
Proof.
  apply (@psk_exchange_opaque_asserts default_build toy_hal toy_hash toy_services toy_responder
    (Build_message_header 0x12 SPDM_PSK_EXCHANGE 0 0) long_request 4096 (zeros 4096) 0
    (Build_psk_exchange_request (Build_message_header 0x12 SPDM_PSK_EXCHANGE 0 0) 1 0 [] (zeros 1028)));
    vm_compute; try reflexivity; discriminate.
Defined.
End witnesses.
End PskProps.
