(* ===== verification/SessionIdProps.v ===== *)
(** * SessionIdProps: an endpoint always finds an id for a session

    Each endpoint chooses its half of a session id from the index of a slot, and
    the peer chooses the other half freely.  The ids of a table that is only used
    this way never collide, and a session can be opened as long as a slot is free
    and the limit of its kind is not reached. *)

From S2P Require Import Prelude SpdmDefs CommonSupport CryptLib SecuredContext SecuredSession.
From S2P Require Import SpdmContext SessionTable PskSession.
Import ContextFacts TableFacts TableOps SessionTableProps.

(** ** The half of a session id that an endpoint chooses *)
Module SessionIdFacts.

(** The requester's half is the low word, the responder's the high one. *)
Definition own_half (is_requester : bool) (sid : Z) : Z :=
  if is_requester then sid mod 2 ^ 16 else Z.shiftr sid 16.

(** A half that this endpoint chose, with one that the peer chose. *)
Definition joined (is_requester : bool) (own peer : Z) : Z :=
  if is_requester then libspdm_generate_session_id own peer
  else libspdm_generate_session_id peer own.

Definition allocated (is_requester : bool) ctx (psk : bool) : Z :=
  if is_requester then libspdm_allocate_req_session_id ctx psk
  else libspdm_allocate_rsp_session_id ctx psk.

(** What the search for a slot compares. *)
Definition half_free (is_requester : bool) (sid : Z) : bool :=
  if is_requester then Z.land sid 0xFFFF =? Z.land INVALID_SESSION_ID 0xFFFF
  else Z.land sid 0xFFFF0000 =? Z.land INVALID_SESSION_ID 0xFFFF0000.

Lemma half_free_spec rq sid : is_u32 sid → half_free rq sid = (own_half rq sid =? 0).
Proof.
  unfold is_u32. intros Hs. destruct rq; cbn [half_free own_half].
  - change 0xFFFF with (Z.ones 16). by rewrite Z.land_ones.
  - change (Z.land INVALID_SESSION_ID 0xFFFF0000) with 0.
    assert (E : Z.land sid 0xFFFF0000 = Z.shiftl (Z.shiftr sid 16) 16).
    { change 0xFFFF0000 with (Z.shiftl (Z.ones 16) 16).
      transitivity (Z.shiftl (Z.land (Z.shiftr sid 16) (Z.ones 16)) 16).
      - apply Z.bits_inj'. intros k Hk. rewrite Z.land_spec, !Z.shiftl_spec, Z.land_spec by done.
        destruct (decide (k < 16)).
        + rewrite (Z.testbit_neg_r _ (k - 16)) by lia. by rewrite !andb_false_r.
        + rewrite Z.shiftr_spec by lia. by replace (k - 16 + 16) with k by lia.
      - rewrite Z.land_ones, Z.mod_small; [done| |done]. rewrite Z.shiftr_div_pow2 by done.
        split; [apply Z.div_pos; lia|apply Z.div_lt_upper_bound; lia]. }
    rewrite E, Z.shiftl_mul_pow2 by done.
    destruct (Z.eqb_spec (Z.shiftr sid 16) 0) as [->|Hn]; [done|]. apply Z.eqb_neq. lia.
Qed.

Lemma allocated_eq rq ctx psk : allocated rq ctx psk =
  if session_limit_reached ctx psk then 0
  else match free_session_index (half_free rq) (session_info ctx) 0 with
       | Some i => u16 (0xFFFF - Z.of_nat i)
       | None => 0
       end.
Proof. by destruct rq. Qed.

Lemma joined_spec rq own peer : is_u16 own → is_u16 peer →
  is_u32 (joined rq own peer) ∧ own_half rq (joined rq own peer) = own.
Proof.
  intros Ho Hp. destruct rq; cbn [joined own_half].
  - destruct (session_id_halves own peer Ho Hp) as (? & ? & _). done.
  - destruct (session_id_halves peer own Hp Ho) as (? & _ & ? & _). done.
Qed.

(** Where only the free slots have no half, the first of them is found. *)
Lemma free_session_index_find free slots k :
  (∀ si, si ∈ slots → free (session_id si) = (session_id si =? INVALID_SESSION_ID)) →
  free_session_index free slots k = find_slot INVALID_SESSION_ID slots k.
Proof.
  revert k. induction slots as [|si slots IH]; intros k Hf; cbn; [done|].
  rewrite Hf by left. case_if; [done|]. apply IH. intros s Hs. apply Hf. by right.
Qed.

(** Every session of the table has the half of its slot. *)
Definition own_ids (is_requester : bool) ctx : Prop :=
  ∀ i si, session_info ctx !! i = Some si → session_id si ≠ INVALID_SESSION_ID →
    own_half is_requester (session_id si) = 0xFFFF - Z.of_nat i.

Lemma own_ids_set rq ctx ctx' i new : own_ids rq ctx →
  session_info ctx' = <[i := new]> (session_info ctx) →
  (session_id new ≠ INVALID_SESSION_ID → own_half rq (session_id new) = 0xFFFF - Z.of_nat i) →
  own_ids rq ctx'.
Proof.
  intros Ho E Hn j sj Hj. rewrite E in Hj. apply list_lookup_insert_Some in Hj.
  destruct Hj as [(<- & <- & _)|[_ Hj]]; [done|by apply Ho].
Qed.

Section allocation.
Context `{BuildConfig}.
Implicit Types ctx : libspdm_context_t.

(** Freeing a session changes one slot, which has no id then. *)
Lemma free_shape ctx sid ctx' : libspdm_free_session_id ctx sid = Ret ctx' →
  session_info ctx' = session_info ctx ∨
  ∃ i new, session_info ctx' = <[i := new]> (session_info ctx) ∧ session_id new = INVALID_SESSION_ID.
Proof.
  unfold libspdm_free_session_id. destruct (sid =? INVALID_SESSION_ID).
  { intros E. exec_inv E. injection E as <-. by left. }
  cbv zeta. set (c := if latest_session_id ctx =? sid then _ else _).
  assert (session_info c = session_info ctx) as <- by (subst c; by case_if). clearbody c.
  destruct (find_slot sid (session_info c) 0) as [i|].
  2: { intros E. exec_inv E. injection E as <-. by left. }
  destruct (session_info c !! i) as [old|]; [|intros [= <-]; by left].
  intros E. exec_inv E. destruct x as [c' si]. cbn in E. injection E as <-.
  apply init_shape in Hx. destruct (initialised_info _ _ _ _ _ Hx) as [Es _].
  right. exists i, si. cbn. rewrite Es. split; [done|apply Hx].
Qed.

(** The table an endpoint that opens sessions with its own halves can reach. *)
Inductive opened (is_requester : bool) : libspdm_context_t → Prop :=
| opened_init ctx :
    length (session_info ctx) = LIBSPDM_MAX_SESSION_COUNT →
    Forall (λ si, session_id si = INVALID_SESSION_ID ∧ ctx_wf (secured_message_context si))
      (session_info ctx) →
    latest_session_id ctx = INVALID_SESSION_ID →
    current_psk_session_count ctx = 0 → current_dhe_session_count ctx = 0 →
    opened is_requester ctx
| opened_open ctx psk peer smv ctx' r :
    opened is_requester ctx → is_u16 peer → allocated is_requester ctx psk ≠ 0 →
    libspdm_assign_session_id ctx (joined is_requester (allocated is_requester ctx psk) peer) smv psk =
      Ret (ctx', r) →
    opened is_requester ctx'
| opened_free ctx sid ctx' :
    opened is_requester ctx → libspdm_free_session_id ctx sid = Ret ctx' → opened is_requester ctx'
| opened_use ctx i old new :
    opened is_requester ctx → session_info ctx !! i = Some old → session_id new = session_id old →
    si_use_psk new = si_use_psk old → ctx_wf (secured_message_context new) →
    opened is_requester (ctx <| session_info := <[i := new]> (session_info ctx) |>).

Hypothesis few_slots : Z.of_nat LIBSPDM_MAX_SESSION_COUNT < 2 ^ 16.

(** A half that is allocated is the one of the first free slot. *)
Lemma allocated_find rq ctx psk : table_wf ctx → own_ids rq ctx →
  allocated rq ctx psk =
    if session_limit_reached ctx psk then 0
    else match find_slot INVALID_SESSION_ID (session_info ctx) 0 with
         | Some i => 0xFFFF - Z.of_nat i
         | None => 0
         end.
Proof.
  intros Hw Ho. rewrite allocated_eq. case_if; [done|]. rewrite free_session_index_find.
  - destruct (find_slot _ _ 0) as [i|] eqn:Ei; [|done].
    apply find_slot_Some in Ei as (si & _ & Hi & _). rewrite Nat.sub_0_r in Hi.
    apply lookup_lt_Some in Hi. rewrite (tw_length _ Hw) in Hi. apply u16_small. unfold is_u16. lia.
  - intros si [i Hi]%list_elem_of_lookup. destruct (proj2 (tw_slots _ Hw) i si Hi) as [Hu _].
    rewrite half_free_spec by done.
    destruct (Z.eqb_spec (session_id si) INVALID_SESSION_ID) as [->|Hn]; [by destruct rq|].
    rewrite (Ho i si Hi Hn). apply lookup_lt_Some in Hi. rewrite (tw_length _ Hw) in Hi.
    apply Z.eqb_neq. lia.
Qed.

(** The id made of it is new, whatever the peer chose. *)
Lemma joined_fresh rq ctx i si peer : table_wf ctx → own_ids rq ctx →
  session_info ctx !! i = Some si → session_id si = INVALID_SESSION_ID → is_u16 peer →
  let sid := joined rq (0xFFFF - Z.of_nat i) peer in
  is_u32 sid ∧ sid ≠ INVALID_SESSION_ID ∧ own_half rq sid = 0xFFFF - Z.of_nat i ∧
  find_slot sid (session_info ctx) 0 = None.
Proof.
  intros Hw Ho Hi Hs Hp sid. pose proof (lookup_lt_Some _ _ _ Hi) as Hl.
  rewrite (tw_length _ Hw) in Hl.
  destruct (joined_spec rq (0xFFFF - Z.of_nat i) peer) as [Hu Hh]; [unfold is_u16; lia|done|].
  fold sid in Hu, Hh.
  assert (Hn : sid ≠ INVALID_SESSION_ID).
  { intros E. rewrite E in Hh. assert (own_half rq INVALID_SESSION_ID = 0) by (by destruct rq). lia. }
  split_and!; try done. destruct (find_slot sid _ 0) as [j|] eqn:E; [|done]. exfalso.
  apply find_slot_Some in E as (sj & _ & Hj & Hsj). rewrite Nat.sub_0_r in Hj.
  assert (Hjh : own_half rq (session_id sj) = 0xFFFF - Z.of_nat j) by (apply (Ho j); congruence).
  rewrite Hsj, Hh in Hjh. assert (j = i) as -> by lia. congruence.
Qed.

(** What an assignment of a new id does to the table. *)
Lemma assign_shape ctx sid smv psk ctx' r : sid ≠ INVALID_SESSION_ID →
  libspdm_assign_session_id ctx sid smv psk = Ret (ctx', r) →
  session_info ctx' = session_info ctx ∨
  ∃ i new, find_slot INVALID_SESSION_ID (session_info ctx) 0 = Some i ∧
    session_info ctx' = <[i := new]> (session_info ctx) ∧ session_id new = sid.
Proof.
  intros Hs. unfold libspdm_assign_session_id. apply Z.eqb_neq in Hs. rewrite Hs.
  destruct (find_slot sid _ 0).
  { intros E. exec_inv E. injection E as <- <-. by left. }
  destruct (find_slot INVALID_SESSION_ID _ 0) as [i|] eqn:E0; [|intros [= <- <-]; by left].
  intros E. exec_inv E. destruct x as [c si]. cbn in E. injection E as <- <-.
  apply init_shape in Hx. destruct (initialised_info _ _ _ _ _ Hx) as [Es _].
  right. exists i, si. cbn. rewrite Es. split_and!; [done|done|apply Hx].
Qed.

Lemma opened_inv rq ctx : opened rq ctx → table_wf ctx ∧ own_ids rq ctx.
Proof.
  intros Hr. induction Hr as [ctx Hl Hf Ht Hp Hd|ctx psk peer smv ctx' r _ [Hw Ho] Hp Ha E
    |ctx sid ctx' _ [Hw Ho] E|ctx i old new _ [Hw Ho] Hi Hs Hk Hc].
  - split; [apply free_table_wf; try done; lia|]. intros i si Hi Hn.
    rewrite Forall_lookup in Hf. by destruct (Hf _ _ Hi).
  - rewrite (allocated_find rq ctx psk Hw Ho) in Ha, E. case_if; [done|].
    destruct (find_slot INVALID_SESSION_ID (session_info ctx) 0) as [i|] eqn:Ei; [|done].
    apply find_slot_Some in Ei as Ei'. destruct Ei' as (si & _ & Hi & Hs). rewrite Nat.sub_0_r in Hi.
    destruct (joined_fresh rq ctx i si peer Hw Ho Hi Hs Hp) as (Hu & Hn & Hh & _).
    split; [by eapply assign_wf|].
    apply assign_shape in E as [E|(j & new & Hj & E & Hsid)]; [|rewrite Ei in Hj|done].
    + intros j sj Hj. rewrite E in Hj. by apply Ho.
    + injection Hj as <-. eapply own_ids_set; [done|done|]. by rewrite Hsid.
  - split; [by eapply free_wf|]. apply free_shape in E as [E|(i & new & E & Hn)].
    + intros j sj Hj. rewrite E in Hj. by apply Ho.
    + eapply own_ids_set; [done|done|]. by rewrite Hn.
  - split; [by eapply use_wf|]. eapply own_ids_set; [done|done|]. rewrite Hs. by apply Ho.
Qed.

(** With room in the table and below the limit nothing stops an assignment. *)
Lemma assign_runs ctx sid smv psk i : sid ≠ INVALID_SESSION_ID → session_caps_ok ctx →
  session_limit_reached ctx psk = false → find_slot sid (session_info ctx) 0 = None →
  find_slot INVALID_SESSION_ID (session_info ctx) 0 = Some i →
  ∃ ctx', libspdm_assign_session_id ctx sid smv psk = Ret (ctx', Some i).
Proof.
  intros Hs Hc Hq Hn Hi. unfold libspdm_assign_session_id. apply Z.eqb_neq in Hs.
  rewrite Hs, Hn, Hi. destruct (init_runs ctx sid smv psk Hc) as (c & si & ->); [|by eexists].
  intros _. unfold quota_ok, counter. unfold session_limit_reached in Hq. destruct psk; lia.
Qed.

End allocation.
End SessionIdFacts.

(** ** Progress *)
Module SessionIdProps.
Import SessionIdFacts.

Section props.
Context `{BuildConfig}.

(** C26: an endpoint can open a session whenever there is room for one.  In every
    table that it reaches by opening sessions with ids made of its own allocated
    half and whatever half the peer chose, by freeing them and by using them: its
    allocation fails exactly when the limit of the kind is reached or no slot is
    free; and with an allocated half, and capabilities that have a session type,
    the whole id is new for every half of the peer, and its assignment runs into
    no assertion and enters it in a slot where it is found. *)
Theorem session_id_progress (rq : bool) ctx (psk : bool) peer smv
    (Hn : Z.of_nat LIBSPDM_MAX_SESSION_COUNT < 2 ^ 16) (Hr : opened rq ctx) (Hp : is_u16 peer) :
  let own := allocated rq ctx psk in
  let sid := joined rq own peer in
  (own = 0 ↔ session_limit_reached ctx psk = true ∨
             Forall (λ si, session_id si ≠ INVALID_SESSION_ID) (session_info ctx)) ∧
  (own ≠ 0 → session_caps_ok ctx →
     libspdm_get_session_info_via_session_id ctx sid = None ∧
     ∃ ctx' i, libspdm_assign_session_id ctx sid smv psk = Ret (ctx', Some i) ∧ opened rq ctx' ∧
       libspdm_get_session_info_via_session_id ctx' sid = Some i).
Proof.
  destruct (opened_inv Hn rq ctx Hr) as [Hw Ho]. cbv zeta.
  pose proof (allocated_find Hn rq ctx psk Hw Ho) as Ea.
  destruct (find_slot INVALID_SESSION_ID (session_info ctx) 0) as [i|] eqn:Ei.
  2: { replace (if session_limit_reached ctx psk then 0 else 0) with 0 in Ea by (by case_if).
       split; [|by rewrite Ea]. split; [|done]. intros _. right. apply Forall_lookup. intros j sj Hj.
       by apply find_slot_None with (1 := Ei) (2 := Hj). }
  apply find_slot_Some in Ei as Ei'. destruct Ei' as (si & _ & Hi & Hs). rewrite Nat.sub_0_r in Hi.
  pose proof (lookup_lt_Some _ _ _ Hi) as Hl. rewrite (tw_length _ Hw) in Hl.
  destruct (session_limit_reached ctx psk) eqn:Hq.
  { split; [|by rewrite Ea]. split; [by left|done]. }
  split.
  { rewrite Ea. split; [lia|]. intros [|Hf]; [done|]. rewrite Forall_lookup in Hf.
    by destruct (Hf _ _ Hi). }
  intros Hown Hc.
  destruct (joined_fresh Hn rq ctx i si peer Hw Ho Hi Hs Hp) as (Hu & Hnz & _ & Hf).
  rewrite <- Ea in *. set (sid := joined rq _ peer) in *.
  destruct (assign_runs ctx sid smv psk i) as [ctx' E]; try done.
  unfold libspdm_get_session_info_via_session_id.
  apply Z.eqb_neq in Hnz as Hnz'. rewrite Hnz', Hf. split; [done|].
  exists ctx', i. split; [done|]. split; [by eapply opened_open|].
  apply assign_shape in E as E'; [|done]. pose proof (assign_wf _ _ _ _ _ _ Hw Hu E) as Hw'.
  destruct E' as [Es|(j & new & Hj & Es & Hid)].
  - exfalso. revert E. unfold libspdm_assign_session_id. rewrite Hnz', Hf, Ei. intros E. exec_inv E.
    destruct x as [c new]. cbn in E. injection E as <-. cbn in Es. apply init_shape in Hx.
    destruct (initialised_info _ _ _ _ _ Hx) as [Es' _]. rewrite Es' in Es.
    pose proof (list_lookup_insert_eq (session_info ctx) i new) as Hin. rewrite Es, Hi in Hin.
    rewrite <- (tw_length _ Hw) in Hl. injection (Hin Hl) as ->.
    pose proof (in_id _ _ _ _ _ Hx). congruence.
  - rewrite Ei in Hj. injection Hj as <-. apply find_slot_unique with new; [apply Hw'|done| |done].
    rewrite Es. apply list_lookup_insert_eq. by rewrite (tw_length _ Hw).
Qed.

End props.

Lemma session_id_progress_witness :
  allocated true toy_table true = 0xFFFF ∧
  ∃ ctx' i, @libspdm_assign_session_id default_build toy_table 0x5FFFF 0x1200 true = Ret (ctx', Some i) ∧
    libspdm_get_session_info_via_session_id ctx' 0x5FFFF = Some i.
Proof.
  split; [done|].
  destruct (@session_id_progress default_build true toy_table true 5 0x1200) as [_ Hok].
  { done. }
  { apply opened_init; try done; apply toy_free. }
  { by vm_compute. }
  destruct (Hok ltac:(by vm_compute) ltac:(by vm_compute)) as (_ & ctx' & i & E & _ & Hf).
  exists ctx', i. split; [exact E|exact Hf].
Defined.

End SessionIdProps.
